(* ===== verification/_CoqProject ===== *)
-Q . S2P
Prelude.v
Common.v
UnixTime.v
NetUtils.v
NetListeners.v
Modbus.v
ModbusTypes.v
Kernel.v
MessageQueue.v
EventFlag.v
Semaphore.v
Mutex.v
Timer.v
StreamBuf.v
Records.v
Memmgr.v
Thread.v
ThreadFlags.v
Mt25ql.v
FlashEx.v
Cortex.v
I2c.v
I2cV1.v
Eeprom.v
Log.v
Cli.v
Interrupt.v
Gpio.v
Can.v
CanOpen.v
Serial.v
Rtc.v
ThreadList.v
Net.v
Notification.v
UsbNet.v
Usb.v
UsbSerial.v
UsbDesc.v
Random.v
Crash.v
Commands.v
NetLife.v
CortexInit.v
CanOpenStart.v
ModbusStart.v
StartUp.v
OnTarget.v
PinMap.v
EthHal.v
BoardPins.v
