(* ===== verification/Prelude.v ===== *)
(** * RHS-BareMetalCore: a verification library

    RHS-BareMetalCore is the firmware base of a family of STM32 controllers: a thin C layer
    over FreeRTOS (src/core), hardware drivers (src/hal, src/drivers) and services on top
    (src/applications/services). This library models the parts of it that carry logic of
    their own, and proves what makes each of them correct.

    ** The program and its model

    The C code calls FreeRTOS, ST's HAL and LL drivers, the C library and mongoose. None of
    these is part of the repository: each is a type class of operations (a parameter), with
    a second class of laws that state what its documentation promises. Every such class has
    an instance at the end of its file, so that every theorem is applied to concrete input
    by its [_witness]. The C library functions the repository defines itself ([malloc],
    [free], [realloc], ...) are modelled.

    C integers are [Z] with the wrap-around written out ([u8], [u16], [u32], [u64]); arrays
    are lists and an access outside of one is [Fault]; [rhs_assert] and [rhs_crash] stop
    the system, [Crash]; a wait that never ends, or a loop that uses up the fuel of its
    model, is [Hang] ([outcome] below). Code with state is a function from the state, or in
    the monad [M]. What the theorems say about [Ret] therefore includes that the code does
    not crash, does not access memory it must not access, and comes back.

    ** Files

    - [Prelude] (this file): widths and their arithmetic ([word]), outcomes and the monad
      with its rules ([runs]), arrays, strings.
    - [Common] (core/common.h): [uint64_to_str].
    - [UnixTime] (hal/rhs_hal_rtc/unixtime): calendar conversions.
    - [NetUtils], [NetListeners] (services/net/net_utils, net_listeners): IPv4 strings; the
      list of listeners, as cells of an explicit heap.
    - [Modbus] (services/net/modbus_tcp): the protocol handler, its data areas and
      callbacks, and the framing of the TCP stream in mongoose's receive buffer.
      [ModbusTypes]: the types of its data over whole sessions of requests.
    - [Kernel] (core/kernel.c, critical.c, base.h): scheduler lock, delays, ticks, critical
      sections; the class [Scheduler] on which the next files build.
    - [MessageQueue], [EventFlag] (with api_lock.h), [Semaphore], [Mutex], [Timer],
      [StreamBuf] (the files of core of the same names): the wrappers of FreeRTOS objects.
    - [Records] (core/record.c): the registry of services, on [EventFlag] and [Mutex].
    - [Memmgr] (core/memmgr.c): the heap.
    - [Thread], [ThreadFlags] (core/thread.c): the life cycle of threads and the scrubber,
      on [MessageQueue]; flags of threads on task notifications.
    - [Log] (core/log.c): levels and excluded tags. [Cli] (services/cli/cli_app.c): line
      editing and dispatch, and the log command.
    - [Mt25ql] and [FlashEx] (hal/rhs_hal_flash_ex): the flash chip's driver, and reads,
      writes and erases of ranges on top of it, under a [Mutex].
    - [Cortex] (hal/rhs_hal_cortex): timers on the cycle counter. [I2c] (hal/rhs_hal_i2c):
      the master, with the interface [I2cMaster] that it gives to drivers of devices;
      [Eeprom] (drivers/eeprom) is such a driver, proved against the interface and
      instantiated with the real master.
    - [Interrupt] (hal/rhs_hal_interrupt): the table of handlers, per board, and the vectors.
      [Can] (hal/rhs_hal_can): the driver's life cycle, frames, error reports, on
      [Interrupt]. [CanOpen] (services/can_open): the service's thread and callbacks, SDO
      requests, nodes and object dictionary fields, against the interface [CanDriver] that
      [Can] implements.
    - [Rtc] (hal/rhs_hal_rtc): the clock, on [UnixTime] and [Kernel]. [ThreadList]
      (core/thread_list.c and the enumeration of core/thread.c): linked items in a heap.
    - [Net] (services/net/net.c, eth_net): the task that runs mongoose and the requests other
      tasks make of it, on [MessageQueue], [EventFlag], [NetListeners], [NetUtils], [Cli] and
      [Records]; what the Ethernet interface starts with.
    - [Notification] (hal/rhs_hal_speaker, services/notification): the speaker's timer and
      mutex, the notes and sequences, the service that plays them; floats as IEEE binary32.
    - [UsbNet] (hal/rhs_hal_usb/tud_net_dispatch, services/net/usb_eth_bridge, usb_cdc_net): the
      two back ends of TinyUSB's network interface and the table that routes its callbacks.
    - [Gpio] (hal/rhs_hal_gpio, hal/rhs_hal_io): pins as fields of registers, for every device
      ([RegisterLaws]); the inputs, outputs and keys of the PLCs.
    - [Serial] (hal/rhs_hal_serial): the RS232 and RS485 ports, on [Interrupt] and [Gpio]:
      opening, transmission, reception by byte and by DMA, the handlers.
    - [Usb] (hal/rhs_hal_usb): power and reset of the device on [Gpio], string descriptors, the
      switch of interfaces, the serial ports of the device and their callbacks.
    - [UsbSerial] (services/usb_serial_bridge): the two threads between [Serial] and [Usb], with
      [StreamBuf], [Semaphore], [Mutex], [ThreadFlags] and [EventFlag] between them.
    - [I2cV1] (hal/rhs_hal_i2c for the STM32F1 and F4): the older peripheral behind the same
      functions as [I2c]. [UsbDesc] (the constant descriptors of rhs_hal_usb_cdc.c,
      usb_cdc_net.c, usb_eth_bridge.c): bytes of devices, configurations and Microsoft's set.
    - [Random] (hal/rhs_hal_random): the hardware generator, the software one, filling buffers.
      [CortexInit] (hal/rhs_hal_cortex): the set-up of the counters, the timers of the
      STM32G0B1, how long waits take.
    - [PinMap] (the set-up callbacks of CAN, flash, speaker, I2C buses), [EthHal]
      (hal/rhs_hal_eth), [BoardPins] (every pin of a board, over the components that use
      them): clocks and pins, on [Gpio].
    - [Crash] (core/check.c, the fault handlers of [Interrupt]'s file, hal/rhs_hal_power): the
      handler of crashes, the stacked registers, the report, the reset, on [Log].
    - [Commands] (services/cli/cli_app.c): every command and the start of the service, on
      [Cli], [ThreadList], [Memmgr] and [Records].
    - [NetLife] (eth_net.c, usb_cdc_net.c): start and stop of the two network interfaces on a
      heap of blocks, on [Net] and [UsbNet]. [CanOpenStart] (can_open_srv.c): the start of the
      CANopen service, on [CanOpen] and [Records]. [ModbusStart] (modbus_tcp.c): the start on
      a port, as requests to [Net].
    - [StartUp] (rhs.c, rhs_hal.c, services/loader): the first state of [Records], [Thread] and
      [Log] together, the loader's hooks. [OnTarget] (applications/tests): the tests that run
      on the device, as programs over [FlashEx], [Memmgr] and [Records].

    Definitions have the names of the C functions, types and macros they model. A function
    that other tasks may interrupt at a wait is modelled in parts that are steps of their
    own: [rhs_record_open], [rhs_thread_body], [rhs_thread_scrub], [rhs_thread_join]. A
    function that waits inside other code takes what the others do meanwhile as an argument
    ([CanOpen.wait_any], [Net.api_lock_wait_unlock_and_free]); theorems about two sides put
    the other side's turns there ([net_request_served]).

    ** What is proved

    - Refinement: message queues and stream buffers are queues, semaphores are bounded
      counters and mutexes are locks, over every sequence of operations
      ([message_queue_fifo], [stream_buffer_fifo], [semaphore_refines_counter],
      [mutex_refines_lock]); a turn of the network service does what its specification says
      ([net_round_refines]).
    - Equivalence: the linked thread list and a list of addresses, over every sequence of
      operations ([thread_list_refines_list]); the filling of buffers and the stream of
      numbers ([random_fill_exact]); the loader and its tables ([loader_runs_all]); the
      table of notes and the equal-tempered scale ([notes_in_tune]).
    - Invariants, by induction over the steps of all tasks or over the calls: the record
      registry ([record_registry_safe]), the life cycle of threads ([thread_life_safe]), an
      interrupt enabled exactly when it has a handler ([interrupt_enabled_iff_registered]),
      the CAN driver's life cycle with its handlers ([can_driver_lifecycle]), the bytes on the
      way from a serial port to the host, over every interleaving of interrupts and threads
      ([bridge_rx_path]); the state the core starts in is one from which these hold
      ([rhs_init_ready]); the shared clock of the CAN ports ([can_clock_counted]).
    - Types: the Modbus server keeps the types of its data over every session
      ([modbus_session_typed]).
    - Liveness: a round of the CANopen service serves every queued message and PDO event
      ([can_open_service_round_correct]); a request to the network service comes back
      ([net_request_served]); a turn of the USB-Ethernet bridge forwards every frame that waits
      ([bridge_round_forwards]).
    - Functional behaviour on every branch: Modbus (every request gets exactly one reply
      and no reachable access is out of bounds under stated bounds; reads and writes do
      what the request says), calendar conversions (for all 32-bit times), IPv4 strings,
      the listener list, event flags, timers, the log and the command line, interrupt
      delivery, SDO requests, the enumeration of threads, CAN error reports, the
      commands of the command line ([cli_top_correct], [cli_service_start_correct],
      [cli_commands_table]), the report of a crash ([crash_reported]), the starts of CANopen and
      Modbus ([can_open_start_ready], [modbus_start_moves]), the set-up of the counters
      ([cortex_init_correct]), the player of notifications ([notification_round_plays]), the serial ports
      ([serial_tx_correct], [serial_byte_received], [serial_port_life]), pins and their
      registers ([gpio_init_exact], [gpio_write_exact], [io_init_correct]), the USB device's reset,
      strings and callbacks ([usb_reinit_pulse], [usb_string_correct], [cdc_callbacks_route]),
      the bridge's way from the host ([bridge_tx_turn]), the probe of an I2C device
      ([i2c_v1_probe_correct]), what USB requests get ([usb_strings_answered],
      [ms_os_20_served]), the generators of numbers ([lcg_period], [rng_read_correct]).
    - Safety: start and stop of the network interfaces leave no block behind and free none twice
      ([eth_net_life]); pins are set up for one use each ([board_pins_exact],
      [i2c_bus_pins], [flash_pins_correct]); the product numbers differ ([usb_pid_unique]).
    - Round trips: coils, calendar, IPv4 strings, flash, EEPROM, CAN frames, the clock, the
      network configuration.
    - Termination and time: waits on thread flags ([thread_flags_wait_timeout]), I2C
      transfers for any behaviour of the hardware ([i2c_transfer_correct],
      [i2c_v1_transfer_correct]), flash writes, the device's flash test ([flash_test_exact]), the
      start of Ethernet ([eth_init_correct]), busy waits to within two reads of the counter
      ([cortex_delay_exact]); a crash, also inside the handler of one ([crash_ends]).
    - Bounds and flaws: the theorems also prove where the code leaves its bounds or falls
      short of its intent: [modbus_read_bits_overflow], [cli_line_correct] (65th character),
      [log_tags_correct] (16-character tags), [convert_unix_time_2_date_late],
      [flash_block_erase_correct] (ranges that are not aligned), [realloc_correct],
      [calloc_correct], [stream_buffer_fifo] (size 65535), [kernel_lock_restore] (nested
      locks), [thread_flags_second_wait_misses], [can_open_stopped_interface_crashes],
      [net_cleanup_use_after_free], [net_start_http_deadlock], [usb_eth_bridge_life] (the stop
      reads freed memory), [bridge_stuck_without_host], [usb_tx_correct] (after the stop),
      [eth_net_init_tcpip_correct] (the hardware address), [sunday_writes_zero],
      [notes_in_tune] (flat notes), [serial_port_life] (RS485 of the PLC M), [io_init_correct]
      (pins on another port), [bridge_close_race] (the port closed under the transmit thread),
      [usb_cdc_net_life] (the stop reads freed memory), [memory_test_faults] (the device's own
      test of the heap); [usb_configurations_whole] and [usb_cdc_configuration_whole] (the
      length every configuration declares).

    ** Fuel and bounds

    Loops with a bound in the code recurse on it ([Z.to_nat] of a counter, a list). Loops
    that poll hardware or wait take fuel, and the theorems prove that they come back when
    the fuel is more than the time-out in the unit the wait is measured in: cycles
    ([good_ms], [Cortex.good_timeout]), polls of the flash status over 102 ticks (the fuel
    hypothesis of the sections of [FlashEx]), or notifications that arrive ([wait_loop_bounded]). [UnixTime]
    counts years, of which 32-bit times have 137.

    ** Not modelled

    Vendored and generated code and what the build writes (the tables of services, hooks and
    tests are arguments); the clock tree, which the project around the library sets; the
    serial port of hal_rs422.c, whose USART5 no supported part has; callbacks that only log; the
    address of the device's identifier (rhs_hal_version.c), whose bytes are an argument of
    what prints it. The life of a thread that a service starts and joins is a class of
    operations there (create, start, join, free), whose own model is [Thread]. *)

From stdpp Require Export base tactics numbers list gmap strings.
From Stdlib Require Export ZArith Lia.

#[export] Set Default Goal Selector "!".
#[global] Open Scope Z_scope.

(** ** Fixed-width unsigned integers

    A C unsigned integer of width [w] is a [Z] in [[0, 2^w)]; every operation of
    the source that can leave that range is followed by the matching wrap. *)

Definition u8 (z : Z) : Z := z mod 2 ^ 8.
Definition u16 (z : Z) : Z := z mod 2 ^ 16.
Definition u32 (z : Z) : Z := z mod 2 ^ 32.
Definition u64 (z : Z) : Z := z mod 2 ^ 64.

Definition in_u8 (z : Z) : Prop := 0 <= z < 2 ^ 8.
Definition in_u16 (z : Z) : Prop := 0 <= z < 2 ^ 16.
Definition in_u32 (z : Z) : Prop := 0 <= z < 2 ^ 32.

(** A list of bytes, decided by computation. *)
Definition bytesb (l : list Z) : bool := forallb (fun z => (0 <=? z) && (z <? 256)) l.
Lemma bytesb_ok l : bytesb l = true -> Forall in_u8 l.
Proof.
  unfold bytesb. rewrite forallb_forall, Forall_forall. intros H x Hx.
  apply list_elem_of_In in Hx. apply H in Hx.
  apply andb_true_iff in Hx as [H1%Z.leb_le H2%Z.ltb_lt]. by split.
Qed.

(** [word] turns every wrap and range of the goal and the context into linear
    facts about quotients and closes the goal with [lia]. *)
Ltac unfold_words :=
  unfold u8, u16, u32, u64, in_u8, in_u16, in_u32 in *;
  change (2 ^ 8) with 256 in *; change (2 ^ 16) with 65536 in *;
  change (2 ^ 32) with 4294967296 in *;
  change (2 ^ 64) with 18446744073709551616 in *.
Ltac word := unfold_words; Z.to_euclidean_division_equations; lia.

Lemma u8_range z : 0 <= u8 z < 256.
Proof. apply Z.mod_pos_bound. lia. Qed.
Lemma u16_range z : 0 <= u16 z < 65536.
Proof. apply Z.mod_pos_bound. lia. Qed.
Lemma u32_range z : 0 <= u32 z < 4294967296.
Proof. apply Z.mod_pos_bound. lia. Qed.
Lemma u8_small z : 0 <= z < 256 -> u8 z = z.
Proof. intros. by apply Z.mod_small. Qed.
Lemma u16_small z : 0 <= z < 65536 -> u16 z = z.
Proof. intros. by apply Z.mod_small. Qed.
Lemma u32_small z : 0 <= z < 4294967296 -> u32 z = z.
Proof. intros. by apply Z.mod_small. Qed.
Lemma u64_small z : 0 <= z < 18446744073709551616 -> u64 z = z.
Proof. intros. by apply Z.mod_small. Qed.

Create Rewrite HintDb word_db.
#[export] Hint Rewrite u8_small u16_small u32_small u64_small using lia : word_db.

Lemma u32_u32 z : u32 (u32 z) = u32 z.
Proof. apply Z.mod_mod. lia. Qed.
Lemma u16_u16 z : u16 (u16 z) = u16 z.
Proof. apply Z.mod_mod. lia. Qed.
Lemma u8_u8 z : u8 (u8 z) = u8 z.
Proof. apply Z.mod_mod. lia. Qed.

(** ** Outcomes

    What a C function can do: return, stop the system ([rhs_assert], [rhs_crash]:
    [__rhs_crash_implementation] does not return), access memory it must not
    access ([Fault], undefined behaviour), or not come back ([Hang]: a task blocked
    for ever, or a loop that did not finish within the fuel given to the model). *)

Inductive outcome (A : Type) : Type :=
  | Ret (a : A)
  | Crash (msg : string)
  | Fault
  | Hang.
Arguments Ret {A} a.
Arguments Crash {A} msg.
Arguments Fault {A}.
Arguments Hang {A}.

#[global] Instance outcome_ret : MRet outcome := @Ret.
#[global] Instance outcome_bind : MBind outcome := fun A B f m =>
  match m with
  | Ret a => f a
  | Crash s => Crash s
  | Fault => Fault
  | Hang => Hang
  end.

(** Code over a state [S]. *)
Definition M (S A : Type) : Type := S -> outcome (A * S).

#[global] Instance M_ret S : MRet (M S) := fun A a s => Ret (a, s).
#[global] Instance M_bind S : MBind (M S) := fun A B f m s =>
  match m s with
  | Ret (a, s') => f a s'
  | Crash e => Crash e
  | Fault => Fault
  | Hang => Hang
  end.

Definition get {S} : M S S := fun s => Ret (s, s).
Definition gets {S A} (f : S -> A) : M S A := fun s => Ret (f s, s).
Definition modify {S} (f : S -> S) : M S unit := fun s => Ret (tt, f s).
Definition crash {S A} (m : string) : M S A := fun _ => Crash m.
Definition fault {S A} : M S A := fun _ => Fault.
Definition hang {S A} : M S A := fun _ => Hang.
Definition lift {S A} (o : outcome A) : M S A := fun s =>
  match o with Ret a => Ret (a, s) | Crash e => Crash e | Fault => Fault | Hang => Hang end.

(** [rhs_assert(x)] (core/check.h). *)
Definition rhs_assert {S} (x : bool) : M S unit := if x then mret tt else crash "Assert".

(** An operation of a parameter: it never fails, it returns and changes the state. *)
Definition call {S A} (f : S -> A * S) : M S A := fun s => Ret (f s).
Definition call_ {S} (f : S -> S) : M S unit := modify f.

Lemma M_bind_ret {S A B} (a : A) (k : A -> M S B) s : (mret a ≫= k) s = k a s.
Proof. done. Qed.

(** [munfold] evaluates the monadic plumbing of the goal. *)
Ltac munfold :=
  cbv [mbind mret M_bind M_ret outcome_bind outcome_ret get gets modify crash fault hang
       lift rhs_assert call call_] in *; cbv beta iota in *.

(** [runs m s P]: from [s], [m] returns, and [P] holds of its result and the state then. *)
Definition runs {S A} (m : M S A) (s : S) (P : A -> S -> Prop) : Prop :=
  exists a s', m s = Ret (a, s') /\ P a s'.

Lemma runs_ret {S A} (a : A) (s : S) (P : A -> S -> Prop) : P a s -> runs (mret a) s P.
Proof. intros HP. by exists a, s. Qed.
Lemma runs_bind {S A B} (m : M S A) (k : A -> M S B) s (P : B -> S -> Prop) :
  runs m s (fun a s' => runs (k a) s' P) -> runs (m ≫= k) s P.
Proof. intros (a & s' & E & b & s2 & E2 & HP). exists b, s2. unfold mbind, M_bind. by rewrite E. Qed.
Lemma runs_mono {S A} (m : M S A) s (P P' : A -> S -> Prop) :
  runs m s P -> (forall a s', P a s' -> P' a s') -> runs m s P'.
Proof. intros (a & s' & E & HP) Himp. exists a, s'. by auto. Qed.
Lemma runs_call {S A} (f : S -> A * S) s (P : A -> S -> Prop) : (let '(a, s') := f s in P a s') -> runs (call f) s P.
Proof. unfold call, runs. destruct (f s) as [a s']. intros HP. by exists a, s'. Qed.

(** [preserves I m]: [m] keeps the invariant [I] whenever it returns. *)
Definition preserves {S A} (I : S -> Prop) (m : M S A) : Prop :=
  forall s a s', I s -> m s = Ret (a, s') -> I s'.

Lemma runs_modify {S} (f : S -> S) s (P : unit -> S -> Prop) : P tt (f s) -> runs (modify f) s P.
Proof. intros HP. by exists tt, (f s). Qed.
Lemma bind_eq {S A B} (m : M S A) (k : A -> M S B) s a s' : m s = Ret (a, s') -> (m ≫= k) s = k a s'.
Proof. intros E. cbv [mbind M_bind]. by rewrite E. Qed.
Lemma bind_assoc {S A B C} (m : M S A) (k : A -> M S B) (h : B -> M S C) s :
  ((m ≫= k) ≫= h) s = (m ≫= (fun a => k a ≫= h)) s.
Proof. cbv [mbind M_bind]. by destruct (m s) as [[]| | |]. Qed.
Lemma bind_returns {S A B} (m : M S A) (k : A -> M S B) s b s2 :
  (m ≫= k) s = Ret (b, s2) -> exists a s1, m s = Ret (a, s1) /\ k a s1 = Ret (b, s2).
Proof. unfold mbind, M_bind. destruct (m s) as [[a s1]|?| |] eqn:E; try done. by exists a, s1. Qed.

Lemma preserves_ret {S A} (I : S -> Prop) (a : A) : preserves I (mret a).
Proof. intros s x s' HI [= <- <-]. done. Qed.
Lemma preserves_bind {S A B} (I : S -> Prop) (m : M S A) (k : A -> M S B) :
  preserves I m -> (forall a, preserves I (k a)) -> preserves I (m ≫= k).
Proof. intros Hm Hk s b s2 HI (a & s1 & E1 & E2)%bind_returns. by eapply Hk, E2; eapply Hm. Qed.
Lemma preserves_if {S A} (I : S -> Prop) (c : bool) (m1 m2 : M S A) :
  preserves I m1 -> preserves I m2 -> preserves I (if c then m1 else m2).
Proof. by destruct c. Qed.
Lemma preserves_option {S A B} (I : S -> Prop) (o : option A) (f : A -> M S B) (m : M S B) :
  (forall a, preserves I (f a)) -> preserves I m -> preserves I (match o with Some a => f a | None => m end).
Proof. by destruct o. Qed.
Lemma preserves_get {S} (I : S -> Prop) : preserves I get.
Proof. by intros s x s' HI [= <- <-]. Qed.
Lemma preserves_gets {S A} (I : S -> Prop) (f : S -> A) : preserves I (gets f).
Proof. by intros s x s' HI [= <- <-]. Qed.
Lemma preserves_modify {S} (I : S -> Prop) (f : S -> S) : (forall s, I s -> I (f s)) -> preserves I (modify f).
Proof. intros Hf s x s' HI [= <- <-]. by apply Hf. Qed.
Lemma preserves_crash {S A} (I : S -> Prop) m : preserves I (crash m : M S A).
Proof. done. Qed.
Lemma preserves_fault {S A} (I : S -> Prop) : preserves I (fault : M S A).
Proof. done. Qed.
Lemma preserves_lift {S A} (I : S -> Prop) (o : outcome A) : preserves I (lift o).
Proof. intros s x s' HI. unfold lift. destruct o; try done. by intros [= <- <-]. Qed.
Lemma preserves_assert {S} (I : S -> Prop) (c : bool) : preserves I (rhs_assert c).
Proof. destruct c; [apply preserves_ret|apply preserves_crash]. Qed.

Create HintDb preserves.
#[export] Hint Resolve preserves_ret preserves_get preserves_gets preserves_crash preserves_fault
  preserves_lift preserves_assert : preserves.

(** [preserve] walks through the code of the goal and leaves what the hints do not know. *)
Ltac preserve_step :=
  first [ solve [eauto 2 with preserves]
        | apply preserves_bind; [|intros ?]
        | apply preserves_if
        | apply preserves_option; [intros ?|]
        | progress cbn beta iota zeta ].
Ltac preserve := repeat preserve_step.

(** ** C arrays: an access outside the array is a [Fault] *)

Definition aget {A} (l : list A) (i : Z) : outcome A :=
  if i <? 0 then Fault else match l !! Z.to_nat i with Some x => Ret x | None => Fault end.
Definition aset {A} (l : list A) (i : Z) (x : A) : outcome (list A) :=
  if (i <? 0) || (Z.of_nat (length l) <=? i) then Fault else Ret (<[Z.to_nat i := x]> l).

Lemma aget_lookup {A} (l : list A) i x : 0 <= i -> l !! Z.to_nat i = Some x -> aget l i = Ret x.
Proof. intros Hi Hx. unfold aget. destruct (Z.ltb_spec i 0); [lia|]. by rewrite Hx. Qed.

Lemma aget_in {A} (l : list A) i d :
  0 <= i < Z.of_nat (length l) -> aget l i = Ret (nth (Z.to_nat i) l d).
Proof.
  intros Hi. apply aget_lookup; [lia|].
  destruct (lookup_lt_is_Some_2 l (Z.to_nat i)) as [x Hx]; [lia|].
  rewrite Hx. f_equal. symmetry. by apply nth_lookup_Some.
Qed.

Lemma aset_in {A} (l : list A) i x :
  0 <= i < Z.of_nat (length l) -> aset l i x = Ret (<[Z.to_nat i := x]> l).
Proof.
  intros Hi. unfold aset. destruct (Z.ltb_spec i 0), (Z.leb_spec (Z.of_nat (length l)) i); lia || done.
Qed.

Lemma aset_out {A} (l : list A) i x :
  i < 0 \/ Z.of_nat (length l) <= i -> aset l i x = Fault.
Proof.
  intros Hi. unfold aset. destruct (Z.ltb_spec i 0), (Z.leb_spec (Z.of_nat (length l)) i); lia || done.
Qed.

Lemma aget_out {A} (l : list A) i :
  i < 0 \/ Z.of_nat (length l) <= i -> aget l i = Fault.
Proof.
  intros Hi. unfold aget. destruct (Z.ltb_spec i 0); [done|].
  rewrite lookup_ge_None_2 by lia. done.
Qed.

(** The bytes of a 32-bit value in memory. *)
Definition le32 (v : Z) : list Z := map (fun i => Z.shiftr v (8 * i) mod 256) [0; 1; 2; 3].

(** ** C strings: the bytes before the terminating NUL *)

Definition str (s : string) : list Z :=
  (fix go s := match s with
   | EmptyString => []
   | String c s' => Z.of_N (Ascii.N_of_ascii c) :: go s'
   end) s.
