(* ===== verification/Common.v ===== *)
(** * Decimal printing (core/common.h: [uint64_to_str]) and what the C library's
    [%u] conversion prints. *)

From S2P Require Import Prelude.

(** ** Reference: the decimal numeral of a number *)

Definition ascii_zero : Z := 48.
Definition is_digit (c : Z) : bool := (48 <=? c) && (c <=? 57).

(** The value of a string of digits. *)
Definition dec_value (ds : list Z) : Z := fold_left (fun v c => v * 10 + (c - 48)) ds 0.

(** Digits of [n > 0] in front of [acc], most significant first. *)
Fixpoint decimal_go (fuel : nat) (n : Z) (acc : list Z) : list Z :=
  match fuel with
  | O => acc
  | S f => if n <=? 0 then acc else decimal_go f (n / 10) (48 + n mod 10 :: acc)
  end.

(** What [printf("%u")] prints for an unsigned value. *)
Definition decimal (n : Z) : list Z := if n =? 0 then [48] else decimal_go 20 n [].

Lemma fold_dec_app ds v e :
  fold_left (fun v c => v * 10 + (c - 48)) (ds ++ e) v =
  fold_left (fun v c => v * 10 + (c - 48)) e (fold_left (fun v c => v * 10 + (c - 48)) ds v).
Proof. apply fold_left_app. Qed.

Lemma decimal_go_app f n acc : decimal_go f n acc = decimal_go f n [] ++ acc.
Proof.
  revert n acc. induction f as [|f IH]; intros n acc; simpl; [done|].
  destruct (n <=? 0); [done|]. rewrite IH, (IH _ [_]), <- app_assoc. done.
Qed.

Lemma decimal_go_spec f n :
  0 <= n < 10 ^ Z.of_nat f ->
  dec_value (decimal_go f n []) = n /\ Forall (fun c => is_digit c = true) (decimal_go f n []).
Proof.
  revert n. induction f as [|f IH]; intros n Hn; simpl.
  - change (10 ^ Z.of_nat 0) with 1 in Hn. split; [cbv; lia|constructor].
  - destruct (Z.leb_spec n 0); [split; [cbv [dec_value]; simpl; lia|constructor]|].
    replace (Z.of_nat (S f)) with (Z.of_nat f + 1) in Hn by lia.
    rewrite Z.pow_add_r in Hn by lia.
    destruct (IH (n / 10)) as [E F]; [Z.to_euclidean_division_equations; lia|].
    rewrite decimal_go_app. split.
    + unfold dec_value in *. rewrite fold_dec_app, E. simpl.
      Z.to_euclidean_division_equations; lia.
    + apply Forall_app; split; [done|]. constructor; [|constructor].
      unfold is_digit. rewrite andb_true_iff, !Z.leb_le.
      Z.to_euclidean_division_equations; lia.
Qed.

Lemma decimal_go_length f n : 0 <= n < 10 ^ Z.of_nat f -> (length (decimal_go f n []) <= f)%nat.
Proof.
  revert n. induction f as [|f IH]; intros n Hn; [simpl; lia|].
  cbn [decimal_go]. destruct (Z.leb_spec n 0); [simpl; lia|].
  rewrite decimal_go_app, length_app. cbn [length].
  replace (Z.of_nat (S f)) with (Z.of_nat f + 1) in Hn by lia.
  rewrite Z.pow_add_r in Hn by lia.
  specialize (IH (n / 10)). Z.to_euclidean_division_equations; lia.
Qed.

Lemma decimal_value n : 0 <= n < 2 ^ 64 -> dec_value (decimal n) = n.
Proof.
  intros. unfold decimal. destruct (Z.eqb_spec n 0) as [->|]; [done|].
  apply decimal_go_spec. change (10 ^ Z.of_nat 20) with 100000000000000000000. lia.
Qed.

Lemma decimal_digits n : 0 <= n < 2 ^ 64 -> Forall (fun c => is_digit c = true) (decimal n).
Proof.
  intros. unfold decimal. destruct (Z.eqb_spec n 0) as [->|]; [by repeat constructor|].
  apply decimal_go_spec. change (10 ^ Z.of_nat 20) with 100000000000000000000. lia.
Qed.

Lemma decimal_go_stable f g n acc :
  0 <= n < 10 ^ Z.of_nat f -> 0 <= n < 10 ^ Z.of_nat g -> decimal_go f n acc = decimal_go g n acc.
Proof.
  revert g n acc. induction f as [|f IH]; intros g n acc Hf Hg.
  - change (10 ^ Z.of_nat 0) with 1 in Hf. destruct g; [done|].
    cbn [decimal_go]. destruct (Z.leb_spec n 0); [done|lia].
  - destruct g as [|g].
    + change (10 ^ Z.of_nat 0) with 1 in Hg. cbn [decimal_go].
      destruct (Z.leb_spec n 0); [done|lia].
    + cbn [decimal_go]. destruct (Z.leb_spec n 0); [done|].
      rewrite Nat2Z.inj_succ, Z.pow_succ_r in Hf, Hg by lia.
      apply IH; Z.to_euclidean_division_equations; lia.
Qed.

Lemma decimal_go_nonempty f n : 0 < n -> decimal_go (S f) n [] <> [].
Proof.
  intros. cbn [decimal_go]. destruct (Z.leb_spec n 0); [lia|].
  rewrite decimal_go_app. by destruct (decimal_go f _ []).
Qed.

Lemma decimal_nonempty n : 0 <= n -> decimal n <> [].
Proof.
  intros. unfold decimal. destruct (Z.eqb_spec n 0); [done|].
  apply decimal_go_nonempty. lia.
Qed.

(** ** [uint64_to_str]

    [p] is an index into the caller's buffer; [*--p = c] decrements and stores. *)

Fixpoint digits_loop (fuel : nat) (num : Z) (buf : list Z) (p : Z) : outcome (list Z * Z) :=
  match fuel with
  | O => Hang
  | S f =>
      if 0 <? num then
        buf' ← aset buf (p - 1) (48 + num mod 10);
        digits_loop f (num / 10) buf' (p - 1)
      else Ret (buf, p)
  end.

(** [None] is the null pointer. [size] is the argument, which need not be the
    length of [buf]. *)
Definition uint64_to_str (num : Z) (buf : list Z) (size : Z) : outcome (option Z * list Z) :=
  if size <? 21 then Ret (None, buf) else
  let p := size - 1 in
  buf ← aset buf p 0;
  if num =? 0 then
    buf ← aset buf (p - 1) 48;
    Ret (Some (p - 1), buf)
  else
    '(buf, p) ← digits_loop 21 num buf p;
    Ret (Some p, buf).

(** The C string at index [p] of a buffer: the bytes up to the first NUL. *)
Fixpoint until_nul (l : list Z) : list Z :=
  match l with
  | [] => []
  | c :: l' => if c =? 0 then [] else c :: until_nul l'
  end.
Definition string_at (buf : list Z) (p : Z) : list Z := until_nul (drop (Z.to_nat p) buf).

Lemma until_nul_app ds l : Forall (fun c => c <> 0) ds -> until_nul (ds ++ 0 :: l) = ds.
Proof.
  induction 1 as [|c ds Hc _ IH]; simpl; [done|].
  destruct (Z.eqb_spec c 0) as [->|]; [done|]. by rewrite IH.
Qed.

Lemma digits_nonzero ds : Forall (fun c => is_digit c = true) ds -> Forall (fun c => c <> 0) ds.
Proof. intros H. eapply Forall_impl; [exact H|]. by intros ? Hd ->. Qed.

Lemma drop_insert_here {A} (l : list A) i x rest :
  (i < length l)%nat -> drop (S i) l = rest -> drop i (<[i := x]> l) = x :: rest.
Proof.
  intros Hi <-. rewrite (drop_S _ x).
  - f_equal. apply drop_insert_lt. lia.
  - by apply list_lookup_insert_eq.
Qed.

Lemma digits_loop_spec f num buf p rest :
  0 <= num < 10 ^ Z.of_nat f -> Z.of_nat f <= p <= Z.of_nat (length buf) ->
  drop (Z.to_nat p) buf = rest ->
  exists buf' p', digits_loop (S f) num buf p = Ret (buf', p') /\
    0 <= p' <= p /\ length buf' = length buf /\
    drop (Z.to_nat p') buf' = decimal_go f num [] ++ rest.
Proof.
  revert num buf p rest. induction f as [|f IH]; intros num buf p rest Hn Hp Hd.
  - change (10 ^ Z.of_nat 0) with 1 in Hn.
    exists buf, p. simpl. destruct (Z.ltb_spec 0 num); [lia|]. repeat split; try lia; done.
  - change (digits_loop (S (S f)) num buf p) with
      (if 0 <? num then
        buf' ← aset buf (p - 1) (48 + num mod 10); digits_loop (S f) (num / 10) buf' (p - 1)
       else Ret (buf, p)).
    cbn [decimal_go]. destruct (Z.ltb_spec 0 num); destruct (Z.leb_spec num 0); try lia.
    + rewrite aset_in by lia. cbn [mbind outcome_bind].
      replace (Z.of_nat (S f)) with (Z.of_nat f + 1) in * by lia.
      rewrite Z.pow_add_r in Hn by lia.
      destruct (IH (num / 10) (<[Z.to_nat (p - 1) := 48 + num mod 10]> buf) (p - 1)
                  (48 + num mod 10 :: rest)) as (buf' & p' & E & Hp' & Hl & Hd').
      * Z.to_euclidean_division_equations; lia.
      * rewrite length_insert. lia.
      * apply drop_insert_here; [lia|]. rewrite <- Hd. f_equal. lia.
      * exists buf', p'. rewrite length_insert in Hl. rewrite E. split; [done|].
        split; [lia|]. split; [done|]. rewrite Hd'.
        rewrite (decimal_go_app f _ [_]), <- app_assoc. done.
    + exists buf, p. repeat split; try lia; done.
Qed.

(** For every 64-bit number and every buffer of at least 21 bytes, of the length
    announced, [uint64_to_str] stays inside the buffer, terminates, and returns a
    pointer to the decimal numeral of the number. *)
Theorem uint64_to_str_correct num buf size :
  0 <= num < 2 ^ 64 -> 21 <= size -> Z.of_nat (length buf) = size ->
  exists p buf', uint64_to_str num buf size = Ret (Some p, buf') /\
    0 <= p < size /\ length buf' = length buf /\ string_at buf' p = decimal num.
Proof.
  intros Hn Hs Hl. unfold uint64_to_str, string_at, decimal.
  destruct (Z.ltb_spec size 21); [lia|]. rewrite aset_in by lia. cbn [mbind outcome_bind].
  set (buf0 := <[Z.to_nat (size - 1) := 0]> buf).
  assert (Hl0 : length buf0 = length buf) by apply length_insert.
  assert (Hd0 : drop (Z.to_nat (size - 1)) buf0 = [0]).
  { apply drop_insert_here; [lia|]. apply drop_ge. lia. }
  destruct (Z.eqb_spec num 0) as [->|Hnz].
  - rewrite aset_in by lia. eexists _, _. split; [done|]. rewrite length_insert.
    split; [lia|]. split; [done|].
    rewrite (drop_insert_here _ _ _ [0]); [done|lia|]. rewrite <- Hd0. f_equal. lia.
  - destruct (digits_loop_spec 20 num buf0 (size - 1) [0]) as (b & p & E & Hp & Hlb & Hd); try done.
    { change (10 ^ Z.of_nat 20) with 100000000000000000000. lia. }
    { lia. }
    rewrite E. exists p, b. split; [done|]. split; [lia|]. split; [congruence|].
    rewrite Hd. apply until_nul_app, digits_nonzero. apply decimal_go_spec.
    change (10 ^ Z.of_nat 20) with 100000000000000000000. lia.
Qed.

Theorem uint64_to_str_correct_witness :
  exists p buf', uint64_to_str 18446744073709551615 (replicate 21 7) 21 = Ret (Some p, buf') /\
    0 <= p < 21 /\ length buf' = 21%nat /\ string_at buf' p = str "18446744073709551615".
Proof.
  destruct (uint64_to_str_correct 18446744073709551615 (replicate 21 7) 21)
    as (p & b & E & Hp & Hl & Hs); [lia | lia | reflexivity |].
  exists p, b. split; [exact E|]. split; [exact Hp|]. split; [exact Hl|].
  rewrite Hs. vm_compute. reflexivity.
Defined.
