(* ===== verification/UnixTime.v ===== *)
(** * Calendar conversion (hal/rhs_hal_rtc/unixtime/unixtime.c)

    [convert_unix_time_2_date] and [convert_date_2_unix_time] are translated with
    the C types written out; [Calendar] is the proleptic Gregorian calendar as an
    independent specification (a date and its successor). *)

From S2P Require Import Prelude.

(** ** Specification: the Gregorian calendar as a successor function *)
Module Calendar.

Record date := Date { cy : Z; cm : Z; cd : Z }.

Definition is_leap (y : Z) : bool :=
  ((y mod 4 =? 0) && negb (y mod 100 =? 0)) || (y mod 400 =? 0).

Definition days_in_month (y m : Z) : Z :=
  if m =? 2 then (if is_leap y then 29 else 28)
  else if (m =? 4) || (m =? 6) || (m =? 9) || (m =? 11) then 30 else 31.

Definition next_day (c : date) : date :=
  if cd c <? days_in_month (cy c) (cm c) then Date (cy c) (cm c) (cd c + 1)
  else if cm c <? 12 then Date (cy c) (cm c + 1) 1
  else Date (cy c + 1) 1 1.

(** Day [n] counted from 1970-01-01. *)
Definition civil_of_day (n : Z) : date :=
  Nat.iter (Z.to_nat n) next_day (Date 1970 1 1).

Lemma civil_of_day_succ n : 0 <= n -> civil_of_day (n + 1) = next_day (civil_of_day n).
Proof.
  intros. unfold civil_of_day. replace (Z.to_nat (n + 1)) with (S (Z.to_nat n)) by lia. done.
Qed.

(** One pass over consecutive days: [sweep P k n c] tests [P] on the [k] days
    from day [n], whose date is [c]. *)
Fixpoint sweep (P : Z -> date -> bool) (k : nat) (n : Z) (c : date) : bool :=
  match k with
  | O => true
  | S k' => P n c && sweep P k' (n + 1) (next_day c)
  end.

Lemma sweep_sound P k n :
  0 <= n -> sweep P k n (civil_of_day n) = true ->
  forall i, n <= i < n + Z.of_nat k -> P i (civil_of_day i) = true.
Proof.
  revert n. induction k as [|k IH]; intros n Hn H i Hi; simpl in H.
  - lia.
  - apply andb_prop in H as [H1 H2]. rewrite <- civil_of_day_succ in H2 by done.
    destruct (decide (i = n)) as [->|]; [done|]. apply (IH (n + 1)); [lia|done|lia].
Qed.

(** *** Structure of the calendar: years *)

Definition year_length (y : Z) : Z := if is_leap y then 366 else 365.

(** Leap years in [[1970, y)] and the day number of January 1st. *)
Definition leaps_before (y : Z) : Z := (y - 1) / 4 - (y - 1) / 100 + (y - 1) / 400 - 477.
Definition jan1 (y : Z) : Z := 365 * (y - 1970) + leaps_before y.

Lemma is_leap_spec y :
  is_leap y = true <-> (y mod 4 = 0 /\ y mod 100 <> 0) \/ y mod 400 = 0.
Proof. unfold is_leap. rewrite orb_true_iff, andb_true_iff, negb_true_iff. lia. Qed.

Lemma leaps_before_succ y :
  leaps_before (y + 1) = leaps_before y + (if is_leap y then 1 else 0).
Proof.
  unfold leaps_before. replace (y + 1 - 1) with y by lia.
  destruct (is_leap y) eqn:E.
  - apply is_leap_spec in E. Z.to_euclidean_division_equations; lia.
  - apply not_true_iff_false in E. rewrite is_leap_spec in E.
    Z.to_euclidean_division_equations; lia.
Qed.

Lemma jan1_succ y : jan1 (y + 1) = jan1 y + year_length y.
Proof. unfold jan1, year_length. rewrite leaps_before_succ. destruct (is_leap y); lia. Qed.

(** The year a leapness is represented by when a whole year is swept. *)
Definition sample_year (leap : bool) : Z := if leap then 1972 else 1971.

Definition in_year (leap : bool) (k : nat) : date :=
  Nat.iter k next_day (Date (sample_year leap) 1 1).

Lemma sample_sweep (leap : bool) (P : Z -> date -> bool) :
  sweep P (Z.to_nat (year_length (sample_year leap)))
    (jan1 (sample_year leap)) (in_year leap 0) = true ->
  forall k, Z.of_nat k < year_length (sample_year leap) ->
  P (jan1 (sample_year leap) + Z.of_nat k) (in_year leap k) = true.
Proof.
  set (len := Z.to_nat _). set (j := jan1 _). intros H k Hk.
  assert (Hj : forall i, Nat.iter (Z.to_nat j + i) next_day (Date 1970 1 1) = in_year leap i).
  { intros i. induction i as [|i IH].
    - destruct leap; vm_compute; reflexivity.
    - rewrite Nat.add_succ_r. simpl. rewrite IH. done. }
  pose proof (sweep_sound P len j) as Hs.
  assert (Hj0 : 0 <= j) by (destruct leap; vm_compute; discriminate).
  assert (Hc : forall i, civil_of_day (j + Z.of_nat i) = in_year leap i).
  { intros i. unfold civil_of_day. rewrite <- Hj. f_equal. lia. }
  rewrite <- Hc. apply Hs; [done| |unfold len; lia].
  replace j with (j + Z.of_nat 0) at 2 by lia. rewrite Hc. done.
Qed.

Lemma sample_year_constant leap k :
  Z.of_nat k < year_length (sample_year leap) -> cy (in_year leap k) = sample_year leap.
Proof.
  intros Hk. apply Z.eqb_eq.
  apply (sample_sweep leap (fun _ c => cy c =? sample_year leap)); [|done].
  destruct leap; vm_compute; reflexivity.
Qed.

Lemma year_length_sample y : year_length (sample_year (is_leap y)) = year_length y.
Proof. unfold year_length, sample_year. by destruct (is_leap y). Qed.

Lemma is_leap_sample leap : is_leap (sample_year leap) = leap.
Proof. by destruct leap. Qed.

(** A year looks like its sample year. *)
Lemma iter_in_year y k :
  Z.of_nat k < year_length y ->
  Nat.iter k next_day (Date y 1 1)
  = Date y (cm (in_year (is_leap y) k)) (cd (in_year (is_leap y) k)).
Proof.
  set (l := is_leap y). induction k as [|k IH]; intros Hk; [by destruct l|].
  simpl. rewrite IH by lia.
  assert (E : cy (in_year l (S k)) = sample_year l).
  { apply sample_year_constant. unfold l. rewrite year_length_sample. lia. }
  assert (E' : cy (in_year l k) = sample_year l).
  { apply sample_year_constant. unfold l. rewrite year_length_sample. lia. }
  change (in_year l (S k)) with (next_day (in_year l k)) in *.
  destruct (in_year l k) as [y' m d]. simpl in *. subst y'.
  unfold next_day in *. simpl in *.
  assert (days_in_month (sample_year l) m = days_in_month y m) as <-.
  { unfold days_in_month. rewrite is_leap_sample. done. }
  repeat case_match; simpl in *; try done. lia.
Qed.

Lemma last_day_of_year y :
  next_day (Nat.iter (Z.to_nat (year_length y - 1)) next_day (Date y 1 1)) = Date (y + 1) 1 1.
Proof.
  rewrite iter_in_year by (unfold year_length; case_match; lia).
  unfold year_length. destruct (is_leap y) eqn:E.
  - change (in_year true (Z.to_nat (366 - 1))) with (Date 1972 12 31).
    reflexivity.
  - change (in_year false (Z.to_nat (365 - 1))) with (Date 1971 12 31).
    reflexivity.
Qed.

Lemma iter_add {A} (f : A -> A) (a b : nat) x : Nat.iter (a + b) f x = Nat.iter a f (Nat.iter b f x).
Proof. apply Nat.iter_add. Qed.

Lemma civil_of_jan1 (i : nat) : civil_of_day (jan1 (1970 + Z.of_nat i)) = Date (1970 + Z.of_nat i) 1 1.
Proof.
  induction i as [|i IH]; [reflexivity|].
  set (y := 1970 + Z.of_nat i) in *. replace (1970 + Z.of_nat (S i)) with (y + 1) by lia.
  rewrite jan1_succ. unfold civil_of_day in *.
  assert (0 <= jan1 y) by (unfold jan1, leaps_before; Z.to_euclidean_division_equations; lia).
  replace (Z.to_nat (jan1 y + year_length y))
    with (S (Z.to_nat (year_length y - 1) + Z.to_nat (jan1 y)))%nat
    by (unfold year_length; case_match; lia).
  rewrite Nat.iter_succ, iter_add, IH. apply last_day_of_year.
Qed.

(** The date of day [k] of year [y]. *)
Lemma civil_of_year_day y k :
  1970 <= y -> 0 <= k < year_length y ->
  civil_of_day (jan1 y + k)
  = Date y (cm (in_year (is_leap y) (Z.to_nat k))) (cd (in_year (is_leap y) (Z.to_nat k))).
Proof.
  intros Hy Hk. rewrite <- iter_in_year by lia.
  assert (0 <= jan1 y) by (unfold jan1, leaps_before; Z.to_euclidean_division_equations; lia).
  unfold civil_of_day. rewrite Z2Nat.inj_add, Nat.add_comm, iter_add by lia. f_equal.
  pose proof (civil_of_jan1 (Z.to_nat (y - 1970))) as H1. unfold civil_of_day in H1.
  replace (1970 + Z.of_nat (Z.to_nat (y - 1970))) with y in H1 by lia. done.
Qed.

(** Every day belongs to a year. *)
Lemma year_of_day n : 0 <= n -> exists y k, 1970 <= y /\ 0 <= k < year_length y /\ n = jan1 y + k.
Proof.
  intros Hn. rewrite <- (Z2Nat.id n) by done. generalize (Z.to_nat n). clear.
  induction n as [|n (y & k & Hy & Hk & E)].
  - exists 1970, 0. split; [lia|]. split; [vm_compute; split; congruence|reflexivity].
  - destruct (decide (k + 1 < year_length y)).
    + exists y, (k + 1). lia.
    + exists (y + 1), 0. rewrite jan1_succ. split; [lia|].
      split; [unfold year_length; case_match|]; lia.
Qed.

Lemma leaps_before_nonneg y : 1970 <= y -> 0 <= leaps_before y.
Proof. intros. unfold leaps_before. Z.to_euclidean_division_equations; lia. Qed.

End Calendar.
Import Calendar.

(** ** The code *)

Record datetime_t := {
  hours : Z; minutes : Z; seconds : Z; mseconds : Z;
  day : Z; month : Z; year : Z; weekday : Z }.

(** The static tables of [convert_unix_time_2_date]; [month_days[1]] is written
    by every call before it is read. *)
Definition month_days (february : Z) : list Z :=
  [31; february; 31; 30; 31; 30; 31; 31; 30; 31; 30; 31].
Definition week_days : list Z := [4; 5; 6; 0; 1; 2; 3].

Definition leap_test (i : Z) : bool :=
  ((i mod 4 =? 0) && negb (i mod 100 =? 0)) || (i mod 400 =? 0).

(** [for (int i = 1972; i < date_time.year; i += 4)], [leap_days] an unsigned char. *)
Fixpoint count_leap_days (fuel : nat) (i y leap_days : Z) : Z :=
  match fuel with
  | O => leap_days
  | S f =>
      if i <? y
      then count_leap_days f (i + 4) y (if leap_test i then u8 (leap_days + 1) else leap_days)
      else leap_days
  end.

(** [for (month = 0; month <= 11; month++)]: the month index and [temp_days]
    when the loop is left. *)
Fixpoint find_month (md : list Z) (day_of_year m temp_days : Z) : Z * Z :=
  match md with
  | [] => (m, temp_days)
  | d :: md' =>
      if day_of_year <=? temp_days then (m, temp_days)
      else find_month md' day_of_year (m + 1) (u16 (temp_days + d))
  end.

(** [mseconds0] is the indeterminate content of the field the code never sets. *)
Definition convert_unix_time_2_date (mseconds0 secs : Z) : datetime_t :=
  let epoch := secs in
  let sec := u32 (epoch mod 60) in
  let epoch := epoch / 60 in
  let min := u32 (epoch mod 60) in
  let epoch := epoch / 60 in
  let hr := u32 (epoch mod 24) in
  let epoch := epoch / 24 in
  let days_since_epoch := u32 epoch in
  let wd := nth (Z.to_nat (days_since_epoch mod 7)) week_days 0 in
  let y0 := u32 (1970 + days_since_epoch / 365) in
  let leap_days := count_leap_days (Z.to_nat (y0 / 4)) 1972 y0 0 in
  let y := u32 (1970 + u32 (days_since_epoch - leap_days) / 365) in
  let day_of_year := u32 (u32 (days_since_epoch - leap_days) mod 365 + 1) in
  let md := month_days (if leap_test y then 29 else 28) in
  let '(m, temp_days) := find_month md day_of_year 0 0 in
  let temp_days := u16 (temp_days - nth (Z.to_nat (m - 1)) md 0) in
  {| hours := hr; minutes := min; seconds := sec; mseconds := mseconds0;
     day := u32 (day_of_year - temp_days); month := m; year := y; weekday := wd |}.

Definition convert_date_2_unix_time (date : datetime_t) : Z :=
  let y := year date in
  let m := month date in
  let d := day date in
  let '(m, y) := if m <=? 2 then (u32 (m + 12), u32 (y - 1)) else (m, y) in
  let t := u32 (365 * y + y / 4 - y / 100 + y / 400) in
  let t := u32 (t + 30 * m + u32 (3 * (m + 1)) / 5 + d) in
  let t := u32 (t - 719561) in
  let t := u32 (t * 86400) in
  u32 (t + 3600 * hours date + 60 * minutes date + seconds date).

(** The ball-park year the code first computes. *)
Definition ball_park_year (n : Z) : Z := 1970 + n / 365.

(** Days on which the ball-park year has already left a leap year: the leap day
    of the current year is counted although it is part of the year. *)
Definition overshoot (n : Z) : bool :=
  let c := civil_of_day n in is_leap (cy c) && (cy c <? ball_park_year n).

(** The seconds an unsigned 32-bit time stamp can count. *)
Definition horizon : Z := 2 ^ 32.

(** ** Lemmas on the loops *)

(** A boolean predicate checked on an initial segment of [Z]. *)
Lemma forallb_upto (P : Z -> bool) (lo : Z) (k : nat) :
  forallb (fun i => P (lo + Z.of_nat i)) (List.seq 0 k) = true ->
  forall z, lo <= z < lo + Z.of_nat k -> P z = true.
Proof.
  rewrite forallb_forall. intros H z Hz.
  replace z with (lo + Z.of_nat (Z.to_nat (z - lo))) by lia.
  apply H, in_seq. lia.
Qed.

Lemma count_leap_days_spec y :
  1970 <= y < 2110 -> count_leap_days (Z.to_nat (y / 4)) 1972 y 0 = leaps_before y.
Proof.
  intros Hy. apply Z.eqb_eq.
  refine (forallb_upto (fun y => count_leap_days _ 1972 y 0 =? leaps_before y) 1970 140 _ y Hy).
  vm_compute. reflexivity.
Qed.

Lemma leap_test_is_leap y : leap_test y = is_leap y.
Proof. done. Qed.

(** The month loop, started on the day [k + 1] of a year, leaves the month and
    the days of the earlier months. *)
Definition month_loop_ok (leap : bool) (k : Z) (c : date) : bool :=
  let md := month_days (if leap then 29 else 28) in
  let '(m, temp_days) := find_month md (k + 1) 0 0 in
  (m =? cm c) && (u32 (k + 1 - u16 (temp_days - nth (Z.to_nat (m - 1)) md 0)) =? cd c).

Lemma find_month_spec leap k :
  0 <= k < year_length (sample_year leap) ->
  month_loop_ok leap k (in_year leap (Z.to_nat k)) = true.
Proof.
  intros Hk.
  pose proof (sample_sweep leap (fun n c => month_loop_ok leap (n - jan1 (sample_year leap)) c)) as H.
  cbv beta in H. specialize (H ltac:(destruct leap; vm_compute; reflexivity) (Z.to_nat k) ltac:(lia)).
  replace (jan1 (sample_year leap) + Z.of_nat (Z.to_nat k) - jan1 (sample_year leap))
    with k in H by lia. done.
Qed.

(** What the code computes from a number of days, once the number [leap_days] of
    leap days subtracted leaves day [k] of year [y]. *)
Lemma convert_days_from_year y k leap_days n :
  1970 <= y < 2110 -> 0 <= k < 365 + (if is_leap y then 1 else 0) -> k < 365 ->
  n - leap_days = 365 * (y - 1970) + k ->
  u32 (1970 + u32 (n - leap_days) / 365) = y /\
  u32 (u32 (n - leap_days) mod 365 + 1) = k + 1.
Proof. intros ? ? ? ->. word. Qed.

Lemma convert_fields (ms secs y k : Z) :
  0 <= secs < horizon -> 1970 <= y -> 0 <= k < year_length y -> k < 365 ->
  let n := secs / 86400 in
  n - leaps_before (ball_park_year n) = 365 * (y - 1970) + k ->
  convert_unix_time_2_date ms secs =
    {| hours := secs mod 86400 / 3600; minutes := secs mod 3600 / 60; seconds := secs mod 60;
       mseconds := ms;
       day := cd (in_year (is_leap y) (Z.to_nat k));
       month := cm (in_year (is_leap y) (Z.to_nat k)); year := y;
       weekday := (4 + n) mod 7 |}.
Proof.
  intros Hs Hy Hk Hk' n Hn. unfold horizon in Hs.
  assert (Hn0 : 0 <= n < 49711) by (unfold n; word).
  assert (Hb : 1970 <= ball_park_year n < 2110) by (unfold ball_park_year; word).
  unfold convert_unix_time_2_date.
  assert (u32 (secs / 60 / 60 / 24) = n) as ->.
  { rewrite !Z.div_div by lia. change (60 * (60 * 24)) with 86400.
    rewrite u32_small; [done|]. unfold n in Hn0. lia. }
  rewrite u32_small with (z := 1970 + n / 365) by (unfold ball_park_year in Hb; lia).
  fold (ball_park_year n). rewrite count_leap_days_spec by done.
  assert (Hy2 : y < 2110).
  { pose proof (leaps_before_nonneg (ball_park_year n)). lia. }
  destruct (convert_days_from_year y k (leaps_before (ball_park_year n)) n) as [-> ->]; try lia.
  { unfold year_length in Hk. case_match; lia. }
  rewrite leap_test_is_leap.
  pose proof (find_month_spec (is_leap y) k) as Hm. rewrite year_length_sample in Hm.
  specialize (Hm Hk). unfold month_loop_ok in Hm.
  destruct (find_month _ _ _ _) as [m td].
  apply andb_prop in Hm as [Hm Hd]. apply Z.eqb_eq in Hm, Hd. rewrite <- Hd, <- Hm.
  f_equal; try (word || done).
  assert (E : forallb (fun r => nth (Z.to_nat r) week_days 0 =? (4 + r) mod 7)
                [0; 1; 2; 3; 4; 5; 6] = true) by reflexivity.
  rewrite forallb_forall in E. specialize (E (n mod 7)). rewrite Z.eqb_eq in E.
  rewrite E; [word|]. simpl. Z.to_euclidean_division_equations; lia.
Qed.

Lemma ball_park_cases y k n :
  1970 <= y < 2110 -> 0 <= k < year_length y -> n = jan1 y + k ->
  ball_park_year n = y \/ ball_park_year n = y + 1.
Proof.
  intros Hy Hk ->. unfold ball_park_year, jan1, year_length in *.
  assert (0 <= leaps_before y < 60) by
    (unfold leaps_before; Z.to_euclidean_division_equations; lia).
  assert (k <= 365) by (case_match; lia).
  Z.to_euclidean_division_equations; lia.
Qed.

(** ** The conversions against the calendar *)

(** The broken-down time of [secs] when its day carries the date [c]. *)
Definition datetime_on (c : date) (ms secs : Z) : datetime_t :=
  {| hours := secs mod 86400 / 3600; minutes := secs mod 3600 / 60; seconds := secs mod 60;
     mseconds := ms; day := cd c; month := cm c; year := cy c;
     weekday := (4 + secs / 86400) mod 7 |}.

Lemma overshoot_year_day y k :
  1970 <= y -> 0 <= k < year_length y ->
  overshoot (jan1 y + k) = is_leap y && (y <? ball_park_year (jan1 y + k)).
Proof. intros. unfold overshoot. rewrite civil_of_year_day by done. done. Qed.

Lemma convert_eq ms secs :
  0 <= secs < horizon ->
  convert_unix_time_2_date ms secs =
  datetime_on (civil_of_day (if overshoot (secs / 86400) then secs / 86400 - 1 else secs / 86400))
    ms secs.
Proof.
  intros Hs. destruct (year_of_day (secs / 86400)) as (y & k & Hy & Hk & E);
    [unfold horizon in Hs; word|].
  assert (y < 2110).
  { pose proof (leaps_before_nonneg y Hy). unfold horizon, jan1, leaps_before in *. word. }
  pose proof (leaps_before_succ y) as Hl.
  pose proof (ball_park_cases y k (secs / 86400) ltac:(lia) Hk E) as Hb.
  assert (Hkl : year_length y = 365 + (if is_leap y then 1 else 0)) by
    (unfold year_length; case_match; lia).
  rewrite E at 1. rewrite overshoot_year_day by done. rewrite <- E.
  unfold datetime_on.
  destruct (is_leap y && (y <? ball_park_year (secs / 86400))) eqn:Eo.
  - (* the ball-park year is past a leap year *)
    apply andb_prop in Eo as [El Ho]. apply Z.ltb_lt in Ho. rewrite El in Hl, Hkl.
    destruct Hb as [Hb|Hb]; [lia|]. rewrite Hb in Ho. unfold ball_park_year in Hb.
    assert (365 <= k + leaps_before y < 425).
    { unfold jan1 in E. pose proof (leaps_before_nonneg y Hy).
      unfold leaps_before in *. Z.to_euclidean_division_equations; lia. }
    assert (1 <= k) by (unfold leaps_before in *; Z.to_euclidean_division_equations; lia).
    rewrite (convert_fields ms secs y (k - 1)); try lia;
      [|unfold ball_park_year; rewrite Hb, Hl; unfold jan1 in *; lia].
    replace (secs / 86400 - 1) with (jan1 y + (k - 1)) by lia.
    rewrite (civil_of_year_day y (k - 1)) by lia. done.
  - assert (leaps_before (ball_park_year (secs / 86400)) = leaps_before y /\ k < 365) as [El Hk'].
    { apply andb_false_iff in Eo as [Eo|Eo]; [rewrite Eo in Hl, Hkl|].
      - destruct Hb as [->| ->]; lia.
      - apply Z.ltb_ge in Eo. destruct Hb as [Hb|Hb]; [rewrite Hb; split; [done|]|lia].
        pose proof (leaps_before_nonneg y Hy). unfold ball_park_year, jan1 in *.
        Z.to_euclidean_division_equations; lia. }
    rewrite (convert_fields ms secs y k); try lia; [|rewrite El; unfold jan1 in *; lia].
    replace (civil_of_day (secs / 86400)) with (civil_of_day (jan1 y + k)) by (by rewrite E).
    rewrite civil_of_year_day by done. done.
Qed.

(** The month and day part of [convert_date_2_unix_time] on a sample year. *)
Definition month_part_ok (leap : bool) (k : Z) (c : date) : bool :=
  let m := if cm c <=? 2 then cm c + 12 else cm c in
  (1 <=? cm c) && (cm c <=? 12) && (1 <=? cd c) && (cd c <=? 31) &&
  (30 * m + 3 * (m + 1) / 5 + cd c
   =? k + (if cm c <=? 2 then 399 else if leap then 33 else 34)).

Lemma month_part leap k :
  0 <= k < year_length (sample_year leap) ->
  month_part_ok leap k (in_year leap (Z.to_nat k)) = true.
Proof.
  intros Hk.
  pose proof (sample_sweep leap (fun n c => month_part_ok leap (n - jan1 (sample_year leap)) c)) as H.
  cbv beta in H. specialize (H ltac:(destruct leap; vm_compute; reflexivity) (Z.to_nat k) ltac:(lia)).
  replace (jan1 (sample_year leap) + Z.of_nat (Z.to_nat k) - jan1 (sample_year leap))
    with k in H by lia. done.
Qed.

Definition in_day (h mi s : Z) : Prop := 0 <= h < 24 /\ 0 <= mi < 60 /\ 0 <= s < 60.

Lemma date_2_unix_eq n h mi s ms wd :
  0 <= n -> in_day h mi s -> n * 86400 + 3600 * h + 60 * mi + s < horizon ->
  convert_date_2_unix_time
    {| hours := h; minutes := mi; seconds := s; mseconds := ms;
       day := cd (civil_of_day n); month := cm (civil_of_day n); year := cy (civil_of_day n);
       weekday := wd |}
  = n * 86400 + 3600 * h + 60 * mi + s.
Proof.
  unfold horizon, in_day. intros Hn Hd Hr.
  destruct (year_of_day n) as (y & k & Hy & Hk & E); [done|].
  assert (y < 2110) by (pose proof (leaps_before_nonneg y Hy); unfold jan1 in *; lia).
  pose proof (month_part (is_leap y) k) as Hm. rewrite year_length_sample in Hm.
  specialize (Hm Hk). unfold month_part_ok in Hm.
  pose proof (leaps_before_succ y) as Hl. unfold leaps_before in Hl.
  unfold jan1, leaps_before in E.
  unfold convert_date_2_unix_time. simpl.
  replace (civil_of_day n) with (civil_of_day (jan1 y + k)) by (unfold jan1, leaps_before; by rewrite E).
  rewrite civil_of_year_day by done. simpl.
  destruct (in_year (is_leap y) (Z.to_nat k)) as [y' m d]. simpl in *.
  rewrite !andb_true_iff, !Z.leb_le, Z.eqb_eq in Hm.
  replace (y + 1 - 1) with y in Hl by lia.
  destruct (Z.leb_spec m 2).
  - rewrite (u32_small (m + 12)), (u32_small (y - 1)) by lia.
    rewrite (u32_small (3 * _)) by lia.
    rewrite (u32_small (365 * _ + _ - _ + _)) by (Z.to_euclidean_division_equations; lia).
    repeat (rewrite (u32_small (_ + _ + _ + d)) || rewrite (u32_small (_ - _))
            || rewrite (u32_small (_ * 86400)) || rewrite u32_small);
      Z.to_euclidean_division_equations; lia.
  - rewrite (u32_small (3 * _)) by lia.
    rewrite (u32_small (365 * _ + _ - _ + _)) by (Z.to_euclidean_division_equations; lia).
    destruct (is_leap y);
    repeat (rewrite (u32_small (_ + _ + _ + d)) || rewrite (u32_small (_ - _))
            || rewrite (u32_small (_ * 86400)) || rewrite u32_small);
      Z.to_euclidean_division_equations; lia.
Qed.

(** ** Properties *)

(** On every 32-bit time stamp whose day is not past the ball-park year of a
    leap year, [convert_unix_time_2_date] yields exactly the Gregorian date of the
    day, the time of day and the weekday counted from Sunday = 0. *)
Theorem convert_unix_time_2_date_correct ms secs :
  0 <= secs < horizon -> overshoot (secs / 86400) = false ->
  convert_unix_time_2_date ms secs = datetime_on (civil_of_day (secs / 86400)) ms secs.
Proof. intros Hs Ho. by rewrite convert_eq, Ho. Qed.

Theorem convert_unix_time_2_date_correct_witness :
  convert_unix_time_2_date 0 951827696 =
  {| hours := 12; minutes := 34; seconds := 56; mseconds := 0;
     day := 29; month := 2; year := 2000; weekday := 2 |}.
Proof.
  rewrite (convert_unix_time_2_date_correct 0 951827696);
    [vm_compute; reflexivity | split; vm_compute; congruence | vm_compute; reflexivity].
Defined.

(** On the last days of a leap year, where the ball-park year is already the
    next one, the leap day of the running year is counted too early: the time of
    day and the weekday are right and the date is the date of the day before. *)
Theorem convert_unix_time_2_date_late ms secs :
  0 <= secs < horizon -> overshoot (secs / 86400) = true ->
  convert_unix_time_2_date ms secs = datetime_on (civil_of_day (secs / 86400 - 1)) ms secs.
Proof. intros Hs Ho. by rewrite convert_eq, Ho. Qed.

(** 1972-12-31 is rendered as 1972-12-30. *)
Theorem convert_unix_time_2_date_late_witness :
  civil_of_day (94608000 / 86400) = Date 1972 12 31 /\
  convert_unix_time_2_date 0 94608000 =
  {| hours := 0; minutes := 0; seconds := 0; mseconds := 0;
     day := 30; month := 12; year := 1972; weekday := 0 |}.
Proof.
  split; [vm_compute; reflexivity|].
  rewrite (convert_unix_time_2_date_late 0 94608000);
    [vm_compute; reflexivity | split; vm_compute; congruence | vm_compute; reflexivity].
Defined.

(** [convert_date_2_unix_time] maps every calendar date from 1970 on and every
    time of day that a 32-bit counter can hold to its exact number of seconds: none
    of the 32-bit intermediate results is lost. *)
Theorem convert_date_2_unix_time_exact n h mi s ms wd :
  0 <= n -> in_day h mi s -> n * 86400 + 3600 * h + 60 * mi + s < horizon ->
  convert_date_2_unix_time
    {| hours := h; minutes := mi; seconds := s; mseconds := ms;
       day := cd (civil_of_day n); month := cm (civil_of_day n); year := cy (civil_of_day n);
       weekday := wd |}
  = n * 86400 + 3600 * h + 60 * mi + s.
Proof. apply date_2_unix_eq. Qed.

Theorem convert_date_2_unix_time_exact_witness :
  civil_of_day 11016 = Date 2000 2 29 /\
  convert_date_2_unix_time
    {| hours := 23; minutes := 59; seconds := 59; mseconds := 0;
       day := 29; month := 2; year := 2000; weekday := 2 |} = 951868799.
Proof.
  split; [vm_compute; reflexivity|].
  pose proof (convert_date_2_unix_time_exact 11016 23 59 59 0 2) as H.
  assert (civil_of_day 11016 = Date 2000 2 29) as E by (vm_compute; reflexivity).
  rewrite E in H. apply H; [lia | unfold in_day; lia | vm_compute; reflexivity].
Defined.

(** Converting a time stamp to a date and back is the identity, except on the
    days [convert_unix_time_2_date] renders late, where a whole day is lost. *)
Theorem unix_time_roundtrip ms secs :
  0 <= secs < horizon ->
  convert_date_2_unix_time (convert_unix_time_2_date ms secs) =
  if overshoot (secs / 86400) then secs - 86400 else secs.
Proof.
  intros Hs. rewrite convert_eq by done. unfold datetime_on.
  assert (in_day (secs mod 86400 / 3600) (secs mod 3600 / 60) (secs mod 60)) as Hd.
  { unfold in_day. Z.to_euclidean_division_equations; lia. }
  assert (secs / 86400 * 86400 + 3600 * (secs mod 86400 / 3600) + 60 * (secs mod 3600 / 60)
          + secs mod 60 = secs) as E by (Z.to_euclidean_division_equations; lia).
  destruct (overshoot (secs / 86400)) eqn:Eo; [|rewrite date_2_unix_eq; lia || done || (apply Z.div_pos; lia)].
  assert (secs / 86400 <> 0) by (intros H0; rewrite H0 in Eo; vm_compute in Eo; discriminate).
  assert (0 <= secs / 86400) by (apply Z.div_pos; lia).
  rewrite date_2_unix_eq; lia || done.
Qed.

Theorem unix_time_roundtrip_witness :
  convert_date_2_unix_time (convert_unix_time_2_date 0 951827696) = 951827696 /\
  convert_date_2_unix_time (convert_unix_time_2_date 0 94608000) = 94521600.
Proof.
  split.
  - rewrite (unix_time_roundtrip 0 951827696); [vm_compute; reflexivity | unfold horizon; lia].
  - rewrite (unix_time_roundtrip 0 94608000); [vm_compute; reflexivity | unfold horizon; lia].
Defined.
