(* ===== verification/NetUtils.v ===== *)
(** * IPv4 address strings (applications/services/net/net_utils/net_utils.c) *)

From S2P Require Import Prelude Common.

(** A [const char*] is the list of the bytes in front of it; [None] is [NULL]. *)
Definition deref (p : list Z) : Z := hd 0 p.

(** ** Operations *)

(** The loop of [parse_octet]: the value reached and, unless it exceeded 255, the
    number of digits and the pointer behind them. *)
Fixpoint octet_loop (p : list Z) (value digit_count : Z) : Z * option (Z * list Z) :=
  match p with
  | c :: p' =>
      if is_digit c then
        let value := u32 (value * 10 + (c - 48)) in
        if 255 <? value then (value, None) else octet_loop p' value (digit_count + 1)
      else (value, Some (digit_count, p))
  | [] => (value, Some (digit_count, []))
  end.

(** [(return code, *value, *str)]. *)
Definition parse_octet (s : list Z) : Z * Z * list Z :=
  match octet_loop s 0 0 with
  | (value, None) => (-1, value, s)
  | (value, Some (digit_count, p)) =>
      if digit_count =? 0 then (-1, value, s) else (0, value, p)
  end.

Fixpoint skip_blanks (p : list Z) : list Z :=
  match p with
  | c :: p' => if (c =? 32) || (c =? 9) then skip_blanks p' else p
  | [] => []
  end.

(** The character that may follow the address. *)
Definition ends_address (p : list Z) : bool :=
  (deref p =? 0) || (deref p =? 32) || (deref p =? 9) || (deref p =? 13) || (deref p =? 10).

(** The return code and what the four out parameters hold afterwards. *)
Definition ip_result : Type := Z * list (option Z).

(** One [parse_octet] into out parameter [i], then [k] on what follows. *)
Definition octet_into (i : nat) (p : list Z) (outs : list (option Z))
    (k : list Z -> list (option Z) -> ip_result) : ip_result :=
  let '(rc, value, p) := parse_octet p in
  let outs := <[i := Some value]> outs in
  if negb (rc =? 0) then (-1, outs) else k p outs.

Definition expect_dot (p : list Z) (outs : list (option Z)) (k : list Z -> ip_result) : ip_result :=
  if negb (deref p =? 46) then (-1, outs) else k (tl p).

Definition string_to_ip (ip_str : option (list Z)) (a b c d : option Z) : ip_result :=
  let outs := [a; b; c; d] in
  match ip_str, a, b, c, d with
  | Some p, Some _, Some _, Some _, Some _ =>
      let p := skip_blanks p in
      octet_into 0 p outs (fun p outs =>
      expect_dot p outs (fun p =>
      octet_into 1 p outs (fun p outs =>
      expect_dot p outs (fun p =>
      octet_into 2 p outs (fun p outs =>
      expect_dot p outs (fun p =>
      octet_into 3 p outs (fun p outs =>
      if negb (ends_address p) then (-1, outs) else (0, outs))))))))
  | _, _, _, _, _ => (-1, outs)
  end.

Definition ip_string_is_valid (ip_str : option (list Z)) : Z :=
  if fst (string_to_ip ip_str (Some 0) (Some 0) (Some 0) (Some 0)) =? 0 then 1 else 0.

(** [sprintf] of the bytes [s]: they and the NUL must fit. *)
Definition sprintf_into (buf s : list Z) : outcome (list Z) :=
  if (length buf <=? length s)%nat then Fault
  else Ret (s ++ 0 :: drop (S (length s)) buf).

Definition ip_to_string (a b c d : Z) (str_buf : option (list Z)) : outcome (Z * option (list Z)) :=
  match str_buf with
  | None => Ret (-1, None)
  | Some buf =>
      if (255 <? a) || (255 <? b) || (255 <? c) || (255 <? d) then Ret (-1, Some buf)
      else
        buf ← sprintf_into buf (decimal a ++ [46] ++ decimal b ++ [46] ++ decimal c ++ [46] ++ decimal d);
        Ret (0, Some buf)
  end.

(** ** The grammar of addresses *)

(** An octet is a non-empty string of digits, of any length, of value at most 255. *)
Definition octet (ds : list Z) (v : Z) : Prop :=
  ds <> [] /\ Forall (fun c => is_digit c = true) ds /\ dec_value ds = v /\ v <= 255.

Definition blank (c : Z) : Prop := c = 32 \/ c = 9.
#[global] Instance blank_dec c : Decision (blank c) := ltac:(unfold blank; solve_decision).

Definition ip_syntax (s : list Z) (a b c d : Z) : Prop :=
  exists ws da db dc dd rest,
    s = ws ++ da ++ 46 :: db ++ 46 :: dc ++ 46 :: dd ++ rest /\
    Forall blank ws /\ octet da a /\ octet db b /\ octet dc c /\ octet dd d /\
    ends_address rest = true.

(** ** Proofs *)

Lemma fold_dec_ge ds v :
  0 <= v -> Forall (fun c => is_digit c = true) ds ->
  v <= fold_left (fun v c => v * 10 + (c - 48)) ds v.
Proof.
  intros Hv Hd. revert v Hv. induction Hd as [|c ds Hc _ IH]; intros v Hv; simpl; [lia|].
  unfold is_digit in Hc. apply andb_true_iff in Hc as [H1%Z.leb_le H2%Z.leb_le].
  specialize (IH (v * 10 + (c - 48)) ltac:(lia)). lia.
Qed.

Lemma octet_loop_digits ds rest v n :
  0 <= v <= 255 -> Forall (fun c => is_digit c = true) ds -> is_digit (deref rest) = false ->
  fold_left (fun v c => v * 10 + (c - 48)) ds v <= 255 ->
  octet_loop (ds ++ rest) v n =
  (fold_left (fun v c => v * 10 + (c - 48)) ds v, Some (n + Z.of_nat (length ds), rest)).
Proof.
  intros Hv Hd Hr. revert v n Hv. induction Hd as [|c ds Hc Hds IH]; intros v n Hv Hle; simpl.
  - replace (n + Z.of_nat 0) with n by lia. destruct rest as [|c rest]; simpl in *; [done|]. by rewrite Hr.
  - rewrite Hc. simpl in Hle. unfold is_digit in Hc.
    apply andb_true_iff in Hc as [H1%Z.leb_le H2%Z.leb_le].
    pose proof (fold_dec_ge ds (v * 10 + (c - 48)) ltac:(lia) Hds).
    rewrite u32_small by lia. destruct (Z.ltb_spec 255 (v * 10 + (c - 48))); [lia|].
    rewrite IH by (done || lia). do 3 f_equal. lia.
Qed.

Lemma octet_loop_inv p v n v' n' rest :
  0 <= v <= 255 -> octet_loop p v n = (v', Some (n', rest)) ->
  exists ds, p = ds ++ rest /\ Forall (fun c => is_digit c = true) ds /\
    v' = fold_left (fun v c => v * 10 + (c - 48)) ds v /\ n' = n + Z.of_nat (length ds) /\
    v' <= 255 /\ is_digit (deref rest) = false.
Proof.
  revert v n. induction p as [|c p IH]; intros v n Hv; simpl.
  - intros [= <- <- <-]. exists []. simpl. repeat split; [constructor|lia|lia].
  - destruct (is_digit c) eqn:Hc.
    + pose proof Hc as Hc'. unfold is_digit in Hc'.
      apply andb_true_iff in Hc' as [H1%Z.leb_le H2%Z.leb_le].
      rewrite u32_small by lia. destruct (Z.ltb_spec 255 (v * 10 + (c - 48))); [done|].
      intros H'. apply IH in H' as (ds & -> & Hd & -> & -> & Hle & Hr); [|lia].
      exists (c :: ds). simpl. repeat split; try done; [by constructor|lia].
    + intros [= <- <- <-]. exists []. simpl. repeat split; [constructor|lia|lia|done].
Qed.

Lemma parse_octet_spec s v rest :
  parse_octet s = (0, v, rest) <->
  exists ds, s = ds ++ rest /\ octet ds v /\ is_digit (deref rest) = false.
Proof.
  unfold parse_octet, octet. split.
  - destruct (octet_loop s 0 0) as [w [[n p]|]] eqn:E; [|done].
    destruct (Z.eqb_spec n 0) as [|Hn]; [done|]. intros [= <- <-].
    apply octet_loop_inv in E as (ds & -> & Hd & -> & -> & Hle & Hr); [|lia].
    exists ds. repeat split; try done. by intros ->.
  - intros (ds & -> & (Hne & Hd & <- & Hle) & Hr).
    rewrite (octet_loop_digits ds rest 0 0) by (done || lia).
    destruct ds as [|c ds]; [done|]. simpl length.
    destruct (Z.eqb_spec (0 + Z.of_nat (S (length ds))) 0); [lia|done].
Qed.

Lemma parse_octet_rc s rc v rest : parse_octet s = (rc, v, rest) -> rc = 0 \/ rc = -1.
Proof.
  unfold parse_octet. destruct (octet_loop s 0 0) as [w [[n p]|]]; [destruct (n =? 0)|];
    intros [= <- <- <-]; auto.
Qed.

Lemma octet_head ds v rest : octet ds v -> is_digit (deref (ds ++ rest)) = true.
Proof. intros (Hne & Hd & _). destruct Hd; [done|]. done. Qed.

Lemma skip_blanks_split p : exists ws, p = ws ++ skip_blanks p /\ Forall blank ws.
Proof.
  induction p as [|c p (ws & E & Hw)]; simpl; [by exists []|].
  destruct (decide (blank c)) as [Hc|Hc].
  - assert ((c =? 32) || (c =? 9) = true) as -> by (destruct Hc as [->| ->]; done).
    exists (c :: ws). simpl. split; [by rewrite <- E|]. by constructor.
  - assert ((c =? 32) || (c =? 9) = false) as ->; [|by exists []].
    apply orb_false_iff. unfold blank in Hc. split; apply Z.eqb_neq; tauto.
Qed.

Lemma skip_blanks_digit ws p :
  Forall blank ws -> is_digit (deref p) = true -> skip_blanks (ws ++ p) = p.
Proof.
  intros Hw Hp. induction Hw as [|c ws Hc _ IH]; simpl.
  - destruct p as [|c p]; [done|]. simpl in Hp |- *.
    destruct (Z.eqb_spec c 32) as [->|]; [done|]. by destruct (Z.eqb_spec c 9) as [->|].
  - destruct Hc as [->| ->]; exact IH.
Qed.

Lemma octet_into_0 i p outs k outs' :
  octet_into i p outs k = (0, outs') <->
  exists ds v rest, p = ds ++ rest /\ octet ds v /\ is_digit (deref rest) = false /\
    k rest (<[i := Some v]> outs) = (0, outs').
Proof.
  unfold octet_into. destruct (parse_octet p) as [[rc v] rest] eqn:E. split.
  - intros H. destruct (Z.eqb_spec rc 0) as [->|]; [|done].
    apply parse_octet_spec in E as (ds & -> & Ho & Hr). by exists ds, v, rest.
  - intros (ds & w & r & Hp & Ho & Hr & Hk).
    assert (H : parse_octet p = (0, w, r)) by (apply parse_octet_spec; by exists ds).
    rewrite E in H. injection H as -> -> ->. done.
Qed.

Lemma expect_dot_0 p outs k outs' :
  expect_dot p outs k = (0, outs') <-> exists q, p = 46 :: q /\ k q = (0, outs').
Proof.
  unfold expect_dot. destruct p as [|c p]; simpl.
  - split; [done|]. by intros (q & ? & _).
  - destruct (Z.eqb_spec c 46) as [->|Hc]; simpl.
    + split; [by eauto|]. by intros (q & [= <-] & H).
    + split; [done|]. by intros (q & [= -> _] & _).
Qed.

Lemma ends_address_not_digit p : ends_address p = true -> is_digit (deref p) = false.
Proof.
  unfold ends_address. rewrite !orb_true_iff, !Z.eqb_eq. by intros [[[[->| ->]| ->]| ->]| ->].
Qed.

Lemma string_to_ip_grammar s a0 b0 c0 d0 a b c d :
  string_to_ip (Some s) (Some a0) (Some b0) (Some c0) (Some d0) = (0, [Some a; Some b; Some c; Some d])
  <-> ip_syntax s a b c d.
Proof.
  unfold string_to_ip, ip_syntax. split.
  - intros (da & va & r1 & E1 & H1 & Hr1 & H)%octet_into_0.
    apply expect_dot_0 in H as (q1 & -> & (db & vb & r2 & -> & H2 & Hr2 & H)%octet_into_0).
    apply expect_dot_0 in H as (q2 & -> & (dc & vc & r3 & -> & H3 & Hr3 & H)%octet_into_0).
    apply expect_dot_0 in H as (q3 & -> & (dd & vd & r4 & -> & H4 & Hr4 & H)%octet_into_0).
    destruct (ends_address r4) eqn:He; [|done]. simpl in H. injection H as -> -> -> ->.
    destruct (skip_blanks_split s) as (ws & E & Hw). rewrite E1 in E.
    by exists ws, da, db, dc, dd, r4.
  - intros (ws & da & db & dc & dd & rest & -> & Hw & H1 & H2 & H3 & H4 & He).
    rewrite skip_blanks_digit; [|done|by eapply octet_head].
    apply octet_into_0. eexists da, a, _. split; [done|]. split; [done|]. split; [done|].
    apply expect_dot_0. eexists. split; [done|].
    apply octet_into_0. eexists db, b, _. split; [done|]. split; [done|]. split; [done|].
    apply expect_dot_0. eexists. split; [done|].
    apply octet_into_0. eexists dc, c, _. split; [done|]. split; [done|]. split; [done|].
    apply expect_dot_0. eexists. split; [done|].
    apply octet_into_0. eexists dd, d, rest. split; [done|]. split; [done|].
    split; [by apply ends_address_not_digit|]. by rewrite He.
Qed.

Lemma octet_decimal n : 0 <= n <= 255 -> octet (decimal n) n.
Proof.
  intros. split; [apply decimal_nonempty; lia|]. split; [apply decimal_digits; lia|].
  split; [|lia]. apply decimal_value. lia.
Qed.

Lemma octet_decimal_length n : 0 <= n <= 255 -> (length (decimal n) <= 3)%nat.
Proof.
  intros. unfold decimal. destruct (Z.eqb_spec n 0); [simpl; lia|].
  rewrite (decimal_go_stable 20 3) by (simpl; lia). apply decimal_go_length. simpl. lia.
Qed.

Lemma string_to_ip_rc p a b c d :
  fst (string_to_ip p a b c d) = 0 \/ fst (string_to_ip p a b c d) = -1.
Proof.
  assert (Ho : forall i p outs k, (forall q o, fst (k q o) = 0 \/ fst (k q o) = -1) ->
    fst (octet_into i p outs k) = 0 \/ fst (octet_into i p outs k) = -1).
  { intros i q outs k Hk. unfold octet_into. destruct (parse_octet q) as [[rc v] r].
    destruct (negb (rc =? 0)); simpl; auto. }
  assert (Hd : forall p outs k, (forall q, fst (k q) = 0 \/ fst (k q) = -1) ->
    fst (expect_dot p outs k) = 0 \/ fst (expect_dot p outs k) = -1).
  { intros q outs k Hk. unfold expect_dot. destruct (negb _); simpl; auto. }
  unfold string_to_ip. destruct p, a, b, c, d; simpl fst; auto.
  repeat first [apply Ho; intros ? ? | apply Hd; intros ?].
  destruct (negb _); simpl; auto.
Qed.

Lemma string_to_ip_outs s a0 b0 c0 d0 outs :
  string_to_ip (Some s) (Some a0) (Some b0) (Some c0) (Some d0) = (0, outs) ->
  exists a b c d, outs = [Some a; Some b; Some c; Some d].
Proof.
  unfold string_to_ip.
  intros (da & va & r1 & E1 & H1 & Hr1 & H)%octet_into_0.
  apply expect_dot_0 in H as (q1 & -> & (db & vb & r2 & -> & H2 & Hr2 & H)%octet_into_0).
  apply expect_dot_0 in H as (q2 & -> & (dc & vc & r3 & -> & H3 & Hr3 & H)%octet_into_0).
  apply expect_dot_0 in H as (q3 & -> & (dd & vd & r4 & -> & H4 & Hr4 & H)%octet_into_0).
  destruct (ends_address r4) eqn:He; [|done]. injection H as <-. by exists va, vb, vc, vd.
Qed.

(** [string_to_ip] accepts exactly the dotted addresses of the grammar (blanks in
    front, four octets of at least one digit and value at most 255, then the end of the
    string or white space), stores their values, and returns -1 for every other string;
    [ip_string_is_valid] decides the grammar. *)
Theorem string_to_ip_correct s a0 b0 c0 d0 a b c d :
  (string_to_ip (Some s) (Some a0) (Some b0) (Some c0) (Some d0) =
     (0, [Some a; Some b; Some c; Some d]) <-> ip_syntax s a b c d) /\
  (fst (string_to_ip (Some s) (Some a0) (Some b0) (Some c0) (Some d0)) = -1 <->
     forall a b c d, ~ ip_syntax s a b c d) /\
  (ip_string_is_valid (Some s) = 1 <-> exists a b c d, ip_syntax s a b c d).
Proof.
  split; [apply string_to_ip_grammar|]. split.
  - split.
    + intros H a' b' c' d' G. apply (string_to_ip_grammar s a0 b0 c0 d0) in G.
      by rewrite G in H.
    + intros H. destruct (string_to_ip_rc (Some s) (Some a0) (Some b0) (Some c0) (Some d0))
        as [E|]; [|done].
      destruct (string_to_ip _ _ _ _ _) as [rc outs] eqn:E'. simpl in E. subst rc.
      destruct (string_to_ip_outs _ _ _ _ _ _ E') as (x & y & z & t & ->).
      by apply string_to_ip_grammar, H in E'.
  - unfold ip_string_is_valid. destruct (Z.eqb_spec (fst (string_to_ip (Some s) (Some 0) (Some 0) (Some 0) (Some 0))) 0) as [E|E].
    + split; [|done]. intros _.
      destruct (string_to_ip _ _ _ _ _) as [rc outs] eqn:E'. simpl in E. subst rc.
      destruct (string_to_ip_outs _ _ _ _ _ _ E') as (x & y & z & t & ->).
      exists x, y, z, t. by apply string_to_ip_grammar in E'.
    + split; [done|]. intros (x & y & z & t & G).
      apply (string_to_ip_grammar s 0 0 0 0) in G. by rewrite G in E.
Qed.

Lemma ip_string_spec a b c d buf :
  0 <= a <= 255 -> 0 <= b <= 255 -> 0 <= c <= 255 -> 0 <= d <= 255 ->
  (16 <= length buf)%nat ->
  exists buf', ip_to_string a b c d (Some buf) = Ret (0, Some buf') /\
    length buf' = length buf /\ existsb (Z.eqb 0) buf' = true /\
    string_to_ip (Some buf') (Some 0) (Some 0) (Some 0) (Some 0) = (0, [Some a; Some b; Some c; Some d]) /\
    string_to_ip (Some (string_at buf' 0)) (Some 0) (Some 0) (Some 0) (Some 0) =
      (0, [Some a; Some b; Some c; Some d]).
Proof.
  intros Ha Hb Hc Hd Hl. unfold ip_to_string.
  destruct (Z.ltb_spec 255 a), (Z.ltb_spec 255 b), (Z.ltb_spec 255 c), (Z.ltb_spec 255 d); try lia.
  cbn [orb].
  set (s := decimal a ++ [46] ++ decimal b ++ [46] ++ decimal c ++ [46] ++ decimal d).
  assert (Hs : (length s <= 15)%nat).
  { unfold s. rewrite !length_app. simpl length.
    pose proof (octet_decimal_length a Ha). pose proof (octet_decimal_length b Hb).
    pose proof (octet_decimal_length c Hc). pose proof (octet_decimal_length d Hd). lia. }
  unfold sprintf_into. destruct (Nat.leb_spec (length buf) (length s)); [lia|].
  assert (G : forall rest, ends_address rest = true ->
    string_to_ip (Some (s ++ rest)) (Some 0) (Some 0) (Some 0) (Some 0) = (0, [Some a; Some b; Some c; Some d])).
  { intros rest Hr. apply string_to_ip_grammar. exists [], (decimal a), (decimal b), (decimal c), (decimal d), rest.
    split; [unfold s; by rewrite <- !app_assoc|].
    split; [constructor|]. repeat split; try apply octet_decimal; done || lia. }
  eexists. split; [done|]. split.
  { rewrite length_app. simpl length. rewrite length_drop. lia. }
  split; [rewrite existsb_app; simpl; by rewrite orb_true_r|]. split; [by apply G|].
  unfold string_at. change (drop (Z.to_nat 0) ?l) with l. rewrite until_nul_app.
  2: { apply Forall_app. split; [apply digits_nonzero, decimal_digits; lia|].
       constructor; [done|]. apply Forall_app. split; [apply digits_nonzero, decimal_digits; lia|].
       constructor; [done|]. apply Forall_app. split; [apply digits_nonzero, decimal_digits; lia|].
       constructor; [done|]. apply digits_nonzero, decimal_digits; lia. }
  rewrite <- (app_nil_r s). by apply G.
Qed.

(** An address printed by [ip_to_string] into a buffer of at least 16 bytes stays
    inside the buffer, and [string_to_ip] reads the same four octets back from it. *)
Theorem ip_string_roundtrip a b c d buf :
  0 <= a <= 255 -> 0 <= b <= 255 -> 0 <= c <= 255 -> 0 <= d <= 255 ->
  (16 <= length buf)%nat ->
  exists buf', ip_to_string a b c d (Some buf) = Ret (0, Some buf') /\
    length buf' = length buf /\
    string_to_ip (Some (string_at buf' 0)) (Some 0) (Some 0) (Some 0) (Some 0) =
      (0, [Some a; Some b; Some c; Some d]).
Proof.
  intros Ha Hb Hc Hd Hl. destruct (ip_string_spec a b c d buf Ha Hb Hc Hd Hl) as (buf' & ? & ? & _ & _ & ?).
  by exists buf'.
Qed.

Theorem ip_string_roundtrip_witness :
  exists buf', ip_to_string 192 168 0 255 (Some (replicate 16 170)) = Ret (0, Some buf') /\
    length buf' = 16%nat /\
    string_to_ip (Some (string_at buf' 0)) (Some 0) (Some 0) (Some 0) (Some 0) =
      (0, [Some 192; Some 168; Some 0; Some 255]).
Proof.
  exact (ip_string_roundtrip 192 168 0 255 (replicate 16 170)
    ltac:(lia) ltac:(lia) ltac:(lia) ltac:(lia) ltac:(simpl; lia)).
Defined.
