(* ===== verification/NetListeners.v ===== *)
(** * The list of registered listeners (applications/services/net/net_listeners)

    The list is a chain of heap objects; [net_listeners_add] and
    [net_listeners_remove] are modelled on the heap they allocate in and free to, so
    that an access to a freed object is a [Fault]. *)

From S2P Require Import Prelude.

Inductive NetListenerType := NetListenerTypeHttp | NetListenerTypeTcp.
#[global] Instance NetListenerType_eq_dec : EqDecision NetListenerType.
Proof. solve_decision. Defined.

(** Pointers are numbers, [0] is [NULL]; [fn] is the address of the event handler. *)
Record NetListener := mkListener {
  l_type : NetListenerType;
  l_uri : Z;
  l_fn : Z;
  l_context : Z;
  l_next : Z
}.

(** An allocated object is a listener or a string. *)
Inductive object := OListener (l : NetListener) | OString (s : list Z).

Abbreviation heap := (gmap Z object).

(** What a caller registers. *)
Record registration := mkReg { r_type : NetListenerType; r_uri : list Z; r_fn : Z; r_context : Z }.

(** ** Operations *)

Section operations.
(** [malloc] (core/memmgr.c, pvPortMalloc): the address of a new object, never
    [NULL] (memmgr asserts). *)
Context (malloc : heap -> Z).

Definition read_listener (h : heap) (p : Z) : outcome NetListener :=
  match h !! p with Some (OListener l) => Ret l | _ => Fault end.
Definition read_string (h : heap) (p : Z) : outcome (list Z) :=
  match h !! p with Some (OString s) => Ret s | _ => Fault end.
Definition free (h : heap) (p : Z) : outcome heap :=
  match h !! p with Some _ => Ret (delete p h) | None => Fault end.

Definition set_next (l : NetListener) (n : Z) : NetListener :=
  mkListener (l_type l) (l_uri l) (l_fn l) (l_context l) n.

(** [while (current->next != NULL) current = current->next;] *)
Fixpoint last_listener (fuel : nat) (h : heap) (current : Z) : outcome Z :=
  match fuel with
  | O => Hang
  | S f =>
      l ← read_listener h current;
      if l_next l =? 0 then Ret current else last_listener f h (l_next l)
  end.

(** The heap and [*listeners] afterwards. The chain has at most as many cells as
    the heap, which is the fuel of its traversal. *)
Definition net_listeners_add (h : heap) (listeners : Z) (r : registration) : outcome (heap * Z) :=
  let listener := malloc h in
  if listener =? 0 then Crash "Assert" else
  let h := <[listener := OListener (mkListener (r_type r) 0 (r_fn r) (r_context r) 0)]> h in
  let uri := malloc h in
  if uri =? 0 then Crash "Assert" else
  let h := <[uri := OString (r_uri r)]> h in
  let h := <[listener := OListener (mkListener (r_type r) uri (r_fn r) (r_context r) 0)]> h in
  if listeners =? 0 then Ret (h, listener)
  else
    current ← last_listener (S (size h)) h listeners;
    l ← read_listener h current;
    Ret (<[current := OListener (set_next l listener)]> h, listeners).

Fixpoint remove_loop (fuel : nat) (h : heap) (listeners uri current previous : Z)
    : outcome (bool * heap * Z) :=
  match fuel with
  | O => Hang
  | S f =>
      if current =? 0 then Ret (false, h, listeners) else
      l ← read_listener h current;
      s ← read_string h (l_uri l);
      t ← read_string h uri;
      if decide (s = t) then
        '(h, listeners) ←
          (if previous =? 0 then Ret (h, l_next l)
           else
             p ← read_listener h previous;
             Ret (<[previous := OListener (set_next p (l_next l))]> h, listeners));
        h ← free h (l_uri l);
        h ← free h current;
        Ret (true, h, listeners)
      else remove_loop f h listeners uri (l_next l) current
  end.

(** [uri] is the address of the caller's string. *)
Definition net_listeners_remove (h : heap) (listeners uri : Z) : outcome (bool * heap * Z) :=
  if listeners =? 0 then Ret (false, h, listeners)
  else remove_loop (S (size h)) h listeners uri listeners 0.
End operations.

(** ** The list a heap holds

    [chain h p q ls]: from [p] the links run through the cells and strings of [ls] and
    end at [q]; an entry is the address of the cell, of its string, and what was
    registered. *)

Definition entry : Type := Z * Z * registration.

Fixpoint chain (h : heap) (p q : Z) (ls : list entry) : Prop :=
  match ls with
  | [] => p = q
  | (c, u, r) :: ls' =>
      p = c /\ c <> 0 /\ h !! u = Some (OString (r_uri r)) /\
      exists n, h !! c = Some (OListener (mkListener (r_type r) u (r_fn r) (r_context r) n)) /\
        chain h n q ls'
  end.

(** The addresses the list owns. *)
Definition owned (ls : list entry) : list Z := flat_map (fun '(c, u, _) => [c; u]) ls.

(** [listeners] points at the list [ls], each address of which belongs to one entry. *)
Definition holds (h : heap) (listeners : Z) (ls : list entry) : Prop :=
  chain h listeners 0 ls /\ NoDup (owned ls).

Definition registered (ls : list entry) : list registration := map snd ls.

(** Reference: the list without the first registration under a URI. *)
Fixpoint remove_first (uri : list Z) (rs : list registration) : list registration :=
  match rs with
  | [] => []
  | r :: rs' => if decide (r_uri r = uri) then rs' else r :: remove_first uri rs'
  end.

(** Two heaps agree outside the addresses [as_]. *)
Definition agree_but (as_ : list Z) (h h' : heap) : Prop :=
  forall a, a ∉ as_ -> h' !! a = h !! a.

(** ** Lemmas *)

Lemma read_listener_ret h p l : h !! p = Some (OListener l) -> read_listener h p = Ret l.
Proof. unfold read_listener. by intros ->. Qed.
Lemma read_string_ret h p s : h !! p = Some (OString s) -> read_string h p = Ret s.
Proof. unfold read_string. by intros ->. Qed.

Lemma owned_app ls ls' : owned (ls ++ ls') = owned ls ++ owned ls'.
Proof. apply flat_map_app. Qed.

Lemma owned_app_l ls ls' a : a ∈ owned ls -> a ∈ owned (ls ++ ls').
Proof. rewrite owned_app, elem_of_app. auto. Qed.
Lemma owned_app_r ls ls' a : a ∈ owned ls' -> a ∈ owned (ls ++ ls').
Proof. rewrite owned_app, elem_of_app. auto. Qed.

Lemma chain_ext h h' p q ls :
  (forall a, a ∈ owned ls -> h' !! a = h !! a) -> chain h p q ls -> chain h' p q ls.
Proof.
  revert p. induction ls as [|[[c u] r] ls IH]; intros p Hext; simpl; [done|].
  intros (-> & Hc & Hu & n & Hn & Hch). simpl in Hext.
  split; [done|]. split; [done|]. split; [rewrite Hext; [done|set_solver]|].
  exists n. split; [rewrite Hext; [done|set_solver]|]. apply IH; [|done]. set_solver.
Qed.

Lemma chain_insert h p q ls a o : a ∉ owned ls -> chain h p q ls -> chain (<[a := o]> h) p q ls.
Proof. intros Ha. apply chain_ext. intros b Hb. apply lookup_insert_ne. by intros ->. Qed.

Lemma chain_delete h p q ls a : a ∉ owned ls -> chain h p q ls -> chain (delete a h) p q ls.
Proof. intros Ha. apply chain_ext. intros b Hb. apply lookup_delete_ne. by intros ->. Qed.

Lemma chain_app h p q ls ls' :
  chain h p q (ls ++ ls') <-> exists m, chain h p m ls /\ chain h m q ls'.
Proof.
  revert p. induction ls as [|[[c u] r] ls IH]; intros p; simpl.
  - split; [by exists p|]. by intros (m & -> & ?).
  - split.
    + intros (-> & Hc & Hu & n & Hn & (m & H1 & H2)%IH). exists m. split; [|done]. eauto 10.
    + intros (m & (-> & Hc & Hu & n & Hn & H1) & H2). repeat split; try done.
      exists n. split; [done|]. apply IH. eauto.
Qed.

Lemma chain_lookup h p q ls a : chain h p q ls -> a ∈ owned ls -> is_Some (h !! a).
Proof.
  revert p. induction ls as [|[[c u] r] ls IH]; intros p; simpl; [set_solver|].
  intros (-> & Hc & Hu & n & Hn & Hch). rewrite !elem_of_cons. intros [->|[->|Ha]]; eauto.
Qed.

Lemma chain_length h p q ls : chain h p q ls -> NoDup (owned ls) -> (length ls <= size h)%nat.
Proof.
  intros Hch Hnd.
  assert (length (owned ls) <= size h)%nat.
  { rewrite <- (size_list_to_set (C := gset Z) (owned ls)) by done.
    rewrite <- (size_dom (D := gset Z) h). apply subseteq_size. intros a Ha. apply elem_of_list_to_set in Ha.
    apply elem_of_dom. by eapply chain_lookup. }
  assert (length (owned ls) = 2 * length ls)%nat as E; [|lia].
  clear. induction ls as [|[[c u] r] ls IH]; simpl in *; lia.
Qed.

(** Changing the link of the last cell of a chain. *)
Lemma chain_relink h p q ls c u r q' :
  chain h p q (ls ++ [(c, u, r)]) -> NoDup (owned (ls ++ [(c, u, r)])) ->
  exists l, h !! c = Some (OListener l) /\ l_next l = q /\
    chain (<[c := OListener (set_next l q')]> h) p q' (ls ++ [(c, u, r)]).
Proof.
  intros (m & H1 & (-> & Hc & Hu & n & Hn & <-))%chain_app Hnd.
  rewrite owned_app in Hnd. apply NoDup_app in Hnd as (_ & Hdis & Hnd). simpl in Hnd.
  apply NoDup_cons in Hnd as [Hcu _].
  eexists. split; [exact Hn|]. split; [done|]. apply chain_app. exists c.
  split; [apply chain_insert; [|done]; intros Hin; apply (Hdis c Hin); simpl; set_solver|].
  split; [done|]. split; [done|].
  split; [rewrite lookup_insert_ne; [done|set_solver]|].
  eexists. split; [by rewrite lookup_insert_eq|]. done.
Qed.

Lemma last_listener_spec h p ls c u r f :
  chain h p 0 (ls ++ [(c, u, r)]) -> (length ls < f)%nat -> last_listener f h p = Ret c.
Proof.
  revert p f. induction ls as [|[[c' u'] r'] ls IH]; intros p [|f] Hch Hf; simpl in Hf; try lia.
  - destruct Hch as (-> & Hc & Hu & n & Hn & ->). simpl. unfold read_listener. by rewrite Hn.
  - destruct Hch as (-> & Hc & Hu & n & Hn & Hch). simpl. unfold read_listener. rewrite Hn. simpl.
    destruct (Z.eqb_spec n 0) as [->|].
    + exfalso. apply chain_app in Hch as (m & H1 & H2).
      destruct ls as [|[[? ?] ?] ls]; simpl in *; [destruct H2|destruct H1]; naive_solver.
    + apply IH; [done|lia].
Qed.

(** ** Adding *)

Definition malloc_ok (malloc : heap -> Z) : Prop := forall h, malloc h <> 0 /\ h !! malloc h = None.

Lemma net_listeners_add_spec malloc h p ls r :
  malloc_ok malloc -> holds h p ls ->
  exists h' p' c u, net_listeners_add malloc h p r = Ret (h', p') /\
    holds h' p' (ls ++ [(c, u, r)]) /\ h !! c = None /\ h !! u = None /\
    agree_but (owned (ls ++ [(c, u, r)])) h h'.
Proof.
  intros Hm [Hch Hnd]. unfold net_listeners_add.
  destruct (Hm h) as [Hc0 Hcn]. set (c := malloc h) in *.
  destruct (Z.eqb_spec c 0); [done|].
  set (h1 := <[c := _]> h). destruct (Hm h1) as [Hu0 Hun]. set (u := malloc h1) in *.
  destruct (Z.eqb_spec u 0); [done|].
  assert (Hcu : c <> u) by (intros E; rewrite <- E in Hun; unfold h1 in Hun; by rewrite lookup_insert_eq in Hun).
  assert (Hun' : h !! u = None) by (unfold h1 in Hun; by rewrite lookup_insert_ne in Hun).
  set (h2 := <[c := _]> (<[u := _]> h1)).
  assert (Hnew : chain h2 c 0 [(c, u, r)]).
  { split; [done|]. split; [done|]. unfold h2.
    split; [by rewrite lookup_insert_ne, lookup_insert_eq by done|].
    eexists. split; [by rewrite lookup_insert_eq|]. done. }
  assert (Hfresh : forall a, a ∈ owned ls -> a <> c /\ a <> u).
  { intros a Ha. destruct (chain_lookup _ _ _ _ _ Hch Ha) as [o Ho]. split; intros ->; congruence. }
  assert (Hframe : agree_but [c; u] h h2).
  { intros a Ha. unfold h2, h1. rewrite !lookup_insert_ne; set_solver. }
  assert (Hch2 : chain h2 p 0 ls).
  { eapply chain_ext; [|exact Hch]. intros a Ha. destruct (Hfresh a Ha). apply Hframe. set_solver. }
  assert (Hnd2 : NoDup (owned (ls ++ [(c, u, r)]))).
  { rewrite owned_app. apply NoDup_app. split; [done|]. split.
    - intros a Ha. destruct (Hfresh a Ha). simpl. set_solver.
    - simpl. repeat constructor; set_solver. }
  destruct (Z.eqb_spec p 0) as [Hp|Hp].
  - assert (ls = []) as ->.
    { destruct ls as [|[[c1 u1] r1] ls]; [done|]. simpl in Hch. naive_solver. }
    exists h2, c, c, u. split; [done|]. split; [done|]. split; [done|]. split; [done|].
    intros a Ha. by apply Hframe.
  - destruct ls as [|e ls _] using rev_ind; [done|]. destruct e as [[c1 u1] r1].
    rewrite (last_listener_spec h2 p ls c1 u1 r1); [|done|].
    2: { pose proof (chain_length _ _ _ _ Hch2 Hnd) as Hlen. rewrite length_app in Hlen.
         apply Nat.lt_succ_r. etransitivity; [|exact Hlen]. apply Nat.le_add_r. }
    cbn [mbind outcome_bind].
    destruct (chain_relink _ _ _ _ _ _ _ c Hch2 Hnd) as (l & Hl & _ & Hrel).
    unfold read_listener at 1. rewrite Hl. cbn [mbind outcome_bind].
    eexists _, p, c, u. split; [done|]. split; [|split; [done|split; [done|]]].
    + split; [|done]. apply chain_app. exists c. split; [done|].
      apply chain_insert; [|done]. rewrite !owned_app in Hfresh. simpl in Hfresh.
      destruct (Hfresh c1); set_solver.
    + intros a. rewrite !owned_app. simpl. intros Ha.
      rewrite lookup_insert_ne by set_solver. apply Hframe. set_solver.
Qed.

(** [net_listeners_add] appends the registration at the end of the list, in two
    objects that were not allocated before, and changes nothing else. *)
Theorem net_listeners_add_correct malloc h p ls r :
  malloc_ok malloc -> holds h p ls ->
  exists h' p' c u, net_listeners_add malloc h p r = Ret (h', p') /\
    holds h' p' (ls ++ [(c, u, r)]) /\ h !! c = None /\ h !! u = None /\
    agree_but (owned (ls ++ [(c, u, r)])) h h'.
Proof. apply net_listeners_add_spec. Qed.

(** An allocator to instantiate the theorems with: the first address above all. *)
Definition next_address (h : heap) : Z := 1 + map_fold (fun a _ m => Z.max a m) 0 h.

Lemma next_address_ok : malloc_ok next_address.
Proof.
  intros h. unfold next_address.
  assert (H : 0 <= map_fold (fun a _ m => Z.max a m) 0 h /\
    forall a, is_Some (h !! a) -> a <= map_fold (fun a _ m => Z.max a m) 0 h).
  { apply (map_fold_weak_ind (fun m (h : heap) => 0 <= m /\ forall a, is_Some (h !! a) -> a <= m)).
    - split; [lia|]. intros a [o Ho]. by rewrite lookup_empty in Ho.
    - intros a o m r Hm [H0 H]. split; [lia|]. intros b.
      destruct (decide (a = b)) as [->|Hab]; [lia|].
      rewrite lookup_insert_ne by done. intros Hb. specialize (H b Hb). lia. }
  destruct H as [H0 H]. split; [lia|].
  destruct (h !! _) eqn:E; [|done]. assert (Hs : is_Some (h !! (1 + map_fold (fun a _ m => Z.max a m) 0 h))) by eauto.
  specialize (H _ Hs). lia.
Qed.

(** Two registrations in an empty heap. *)
Definition a_registration (port : Z) : registration :=
  mkReg NetListenerTypeTcp (str "tcp://0.0.0.0:" ++ [port]) 4096 7.

Theorem net_listeners_add_correct_witness :
  exists h' p' c u, net_listeners_add next_address ∅ 0 (a_registration 50) = Ret (h', p') /\
    holds h' p' ([] ++ [(c, u, a_registration 50)]) /\
    (∅ : heap) !! c = None /\ (∅ : heap) !! u = None /\
    agree_but (owned ([] ++ [(c, u, a_registration 50)])) ∅ h'.
Proof.
  apply (net_listeners_add_correct next_address ∅ 0 [] (a_registration 50)).
  - exact next_address_ok.
  - split; [reflexivity|constructor].
Defined.

(** ** Removing *)

(** The cell the loop calls [previous]. *)
Definition last_cell (ls : list entry) : Z :=
  match last ls with Some (c, _, _) => c | None => 0 end.

Lemma owned_NoDup_mid ls1 c u r ls2 :
  NoDup (owned (ls1 ++ (c, u, r) :: ls2)) ->
  c <> u /\ (c ∉ owned (ls1 ++ ls2)) /\ (u ∉ owned (ls1 ++ ls2)) /\ NoDup (owned (ls1 ++ ls2)).
Proof.
  rewrite !owned_app. simpl. intros Hnd.
  assert (Hp : owned ls1 ++ c :: u :: owned ls2 ≡ₚ c :: u :: owned ls1 ++ owned ls2)
    by (by rewrite Permutation_middle, Permutation_middle).
  rewrite Hp in Hnd. apply NoDup_cons in Hnd as [Hc Hnd]. apply NoDup_cons in Hnd as [Hu Hnd].
  set_solver.
Qed.

(** Unlinking the entry after [ls1]: what the loop does when the URI matches. *)
Lemma unlink_spec h p ls1 c u r ls2 :
  holds h p (ls1 ++ (c, u, r) :: ls2) ->
  exists n h1 p', h !! c = Some (OListener (mkListener (r_type r) u (r_fn r) (r_context r) n)) /\
    (if last_cell ls1 =? 0 then Ret (h, n) else
       l ← read_listener h (last_cell ls1);
       Ret (<[last_cell ls1 := OListener (set_next l n)]> h, p)) = Ret (h1, p') /\
    holds (delete c (delete u h1)) p' (ls1 ++ ls2) /\
    is_Some (h1 !! u) /\ is_Some (delete u h1 !! c) /\ agree_but (owned ls1) h h1.
Proof.
  intros [Hch Hnd]. destruct (owned_NoDup_mid _ _ _ _ _ Hnd) as (Hcu & Hc & Hu & Hnd').
  apply chain_app in Hch as (m & H1 & -> & Hc0 & Hus & n & Hn & H2).
  assert (Hdel : forall h1 q q' ls, chain h1 q q' ls -> (forall a, a ∈ owned ls -> a ∈ owned (ls1 ++ ls2)) ->
    chain (delete c (delete u h1)) q q' ls).
  { intros h1 q q' ls Hl Hsub. apply chain_delete; [intros ?; by apply Hc, Hsub|].
    apply chain_delete; [intros ?; by apply Hu, Hsub|]. done. }
  destruct ls1 as [|[[c1 u1] r1] ls1 _] using rev_ind.
  - simpl in H1. subst p. exists n, h, n. split; [done|]. split; [done|].
    split; [split; [by apply Hdel|done]|]. split; [by eauto|].
    split; [rewrite lookup_delete_ne by done; eauto|]. intros a _. done.
  - unfold last_cell. rewrite last_snoc.
    assert (Hc1 : c1 <> 0).
    { apply chain_app in H1 as (m & _ & -> & Hc1 & _). done. }
    destruct (Z.eqb_spec c1 0); [done|].
    assert (Hnd1 : NoDup (owned (ls1 ++ [(c1, u1, r1)]))).
    { rewrite owned_app in Hnd'. by apply NoDup_app in Hnd' as [? _]. }
    assert (Hin : c1 ∈ owned (ls1 ++ [(c1, u1, r1)])) by (rewrite owned_app; simpl; set_solver).
    rewrite owned_app, elem_of_app in Hc, Hu.
    destruct (chain_relink _ _ _ _ _ _ _ n H1 Hnd1) as (l & Hl & _ & Hrel).
    eexists n, _, p. split; [done|]. split; [unfold read_listener; by rewrite Hl|].
    split; [split; [|done]|].
    + apply chain_app. exists n.
      split; apply Hdel; [done|intros a; apply owned_app_l| |intros a; apply owned_app_r].
      apply chain_insert; [|done]. rewrite owned_app in Hnd'.
      apply NoDup_app in Hnd' as (_ & Hdis & _). by apply Hdis.
    + assert (c1 <> u /\ c1 <> c) as [? ?] by (split; intros ->; tauto).
      split; [rewrite lookup_insert_ne by done; eauto|].
      split; [rewrite lookup_delete_ne, lookup_insert_ne by done; eauto|].
      intros a Ha. apply lookup_insert_ne. by intros ->.
Qed.

Lemma remove_loop_spec f h p uri s ls1 ls2 :
  holds h p (ls1 ++ ls2) -> h !! uri = Some (OString s) ->
  (length ls2 < f)%nat -> Forall (fun e => r_uri (snd e) <> s) ls1 ->
  forall cur, chain h cur 0 ls2 ->
  (Forall (fun e => r_uri (snd e) <> s) ls2 /\
     remove_loop f h p uri cur (last_cell ls1) = Ret (false, h, p)) \/
  (exists ls1' c u r ls2' h' p', ls1 ++ ls2 = ls1' ++ (c, u, r) :: ls2' /\
     Forall (fun e => r_uri (snd e) <> s) ls1' /\ r_uri r = s /\
     remove_loop f h p uri cur (last_cell ls1) = Ret (true, h', p') /\
     holds h' p' (ls1' ++ ls2') /\ h' !! c = None /\ h' !! u = None /\
     agree_but (owned (ls1 ++ ls2)) h h').
Proof.
  revert f ls1. induction ls2 as [|[[c u] r] ls2 IH]; intros f ls1 Hh Huri Hf Hn1 cur Hcur;
    (destruct f as [|f]; [simpl in Hf; lia|]).
  - left. simpl in Hcur. subst cur. split; [constructor|]. done.
  - simpl in Hcur. destruct Hcur as (-> & Hc0 & Hu & n & Hc & Hrest). simpl in Hf.
    cbn [remove_loop]. destruct (Z.eqb_spec c 0); [done|].
    rewrite (read_listener_ret _ _ _ Hc). cbn [mbind outcome_bind l_uri].
    rewrite (read_string_ret _ _ _ Hu), (read_string_ret _ _ _ Huri).
    cbn [mbind outcome_bind l_next].
    destruct (decide (r_uri r = s)) as [Hs|Hs].
    + right. destruct (unlink_spec h p ls1 c u r ls2 Hh) as (n' & h1 & p' & Hc' & E & Hh' & Hu1 & Hc1 & Hag).
      rewrite Hc in Hc'. injection Hc' as <-. rewrite E. cbn [mbind outcome_bind].
      unfold free. destruct Hu1 as [o1 ->]. cbn [mbind outcome_bind].
      destruct Hc1 as [o2 ->]. cbn [mbind outcome_bind].
      exists ls1, c, u, r, ls2. eexists _, p'. split; [done|]. split; [done|]. split; [done|].
      split; [done|]. split; [done|]. split; [apply lookup_delete_eq|].
      split.
      { destruct Hh as [_ Hnd]. destruct (owned_NoDup_mid _ _ _ _ _ Hnd) as (Hcu & _).
        rewrite lookup_delete_ne by done. apply lookup_delete_eq. }
      intros a Ha. rewrite owned_app in Ha. simpl in Ha.
      rewrite !lookup_delete_ne by set_solver. apply Hag. set_solver.
    + destruct (IH f (ls1 ++ [(c, u, r)])) with (cur := n) as [[HF E]|H]; try done.
      * by rewrite <- app_assoc.
      * lia.
      * apply Forall_app. split; [done|]. by constructor.
      * left. split; [by constructor|]. unfold last_cell in E. by rewrite last_snoc in E.
      * right. rewrite <- app_assoc in H. unfold last_cell in H at 1. by rewrite last_snoc in H.
Qed.

Lemma remove_first_app s ls1 c u r ls2 :
  Forall (fun e : entry => r_uri (snd e) <> s) ls1 -> r_uri r = s ->
  remove_first s (registered (ls1 ++ (c, u, r) :: ls2)) = registered (ls1 ++ ls2).
Proof.
  unfold registered. intros HF Hr. induction HF as [|[[c1 u1] r1] ls1 H1 _ IH]; simpl in *.
  - by rewrite decide_True.
  - rewrite decide_False by done. by rewrite IH.
Qed.

Lemma remove_first_none s ls :
  Forall (fun e : entry => r_uri (snd e) <> s) ls -> remove_first s (registered ls) = registered ls.
Proof.
  unfold registered. induction 1 as [|[[c1 u1] r1] ls H1 _ IH]; simpl in *; [done|].
  rewrite decide_False by done. by rewrite IH.
Qed.

Lemma net_listeners_remove_spec h p uri s ls :
  holds h p ls -> h !! uri = Some (OString s) ->
  exists h' p' ls', net_listeners_remove h p uri =
      Ret (bool_decide (s ∈ map r_uri (registered ls)), h', p') /\
    holds h' p' ls' /\ registered ls' = remove_first s (registered ls) /\
    (forall a, a ∈ owned ls -> a ∉ owned ls' -> h' !! a = None) /\ agree_but (owned ls) h h' /\
    (forall a, a ∈ owned ls' -> a ∈ owned ls).
Proof.
  intros Hh Huri. destruct Hh as [Hch Hnd]. unfold net_listeners_remove.
  destruct (Z.eqb_spec p 0) as [->|Hp].
  - destruct ls as [|[[c u] r] ls]; [|simpl in Hch; naive_solver].
    exists h, 0, []. rewrite bool_decide_false by (simpl; set_solver).
    repeat split; try done; set_solver.
  - pose proof (chain_length _ _ _ _ Hch Hnd) as Hlen.
    destruct (remove_loop_spec (S (size h)) h p uri s [] ls (conj Hch Hnd) Huri) with (cur := p)
      as [[HF E]|(ls1 & c & u & r & ls2 & h' & p' & Hls & HF & Hr & E & Hh' & Hc & Hu & Hag)];
      try done.
    + by apply Nat.lt_succ_r.
    + exists h, p, ls. rewrite bool_decide_false.
      * split; [exact E|]. split; [done|]. split; [by rewrite remove_first_none|].
        split; [done|]. split; [intros a _; done|done].
      * unfold registered. rewrite list_elem_of_fmap. intros (r & Hr & (e & -> & He)%list_elem_of_fmap).
        rewrite Forall_forall in HF. by apply (HF e He).
    + simpl in Hls. subst ls. exists h', p', (ls1 ++ ls2). rewrite bool_decide_true.
      * split; [exact E|]. split; [done|]. split; [by rewrite remove_first_app|].
        split; [|split; [done|intros a; rewrite !owned_app; simpl; set_solver]]. intros a. rewrite !owned_app. simpl. rewrite !elem_of_app, !elem_of_cons.
        intros Ha Hna. destruct Ha as [Ha|[->|[->|Ha]]]; try done; tauto.
      * unfold registered. rewrite map_app, map_app. simpl. set_solver.
Qed.

(** [net_listeners_remove] removes the first registration under the URI, frees
    exactly its two objects, relinks the list around it and returns true; when there is
    none it returns false and changes nothing. *)
Theorem net_listeners_remove_correct h p uri s ls :
  holds h p ls -> h !! uri = Some (OString s) ->
  exists h' p' ls', net_listeners_remove h p uri =
      Ret (bool_decide (s ∈ map r_uri (registered ls)), h', p') /\
    holds h' p' ls' /\ registered ls' = remove_first s (registered ls) /\
    (forall a, a ∈ owned ls -> a ∉ owned ls' -> h' !! a = None) /\ agree_but (owned ls) h h'.
Proof.
  intros Hh Hu. destruct (net_listeners_remove_spec _ _ _ _ _ Hh Hu) as (h' & p' & ls' & H1 & H2 & H3 & H4 & H5 & _).
  by exists h', p', ls'.
Qed.

(** Two listeners, of which the second is removed. *)
Definition two_listeners : heap :=
  {[ 1 := OListener (mkListener NetListenerTypeTcp 2 4096 7 3);
     2 := OString (r_uri (a_registration 50));
     3 := OListener (mkListener NetListenerTypeTcp 4 4096 7 0);
     4 := OString (r_uri (a_registration 51));
     5 := OString (r_uri (a_registration 51)) ]}.
Definition two_entries : list entry := [(1, 2, a_registration 50); (3, 4, a_registration 51)].

Theorem net_listeners_remove_correct_witness :
  exists h' p' ls', net_listeners_remove two_listeners 1 5 = Ret (true, h', p') /\
    holds h' p' ls' /\ registered ls' = [a_registration 50] /\
    (forall a, a ∈ owned two_entries -> a ∉ owned ls' -> h' !! a = None) /\
    agree_but (owned two_entries) two_listeners h'.
Proof.
  refine (net_listeners_remove_correct two_listeners 1 5 (r_uri (a_registration 51)) two_entries _ _).
  - split; [|apply (bool_decide_unpack _); vm_compute; exact I].
    split; [reflexivity|]. split; [lia|]. split; [reflexivity|].
    exists 3. split; [reflexivity|]. split; [reflexivity|]. split; [lia|]. split; [reflexivity|].
    exists 0. split; reflexivity.
  - reflexivity.
Defined.
