(* ===== verification/Modbus.v ===== *)
(** * The Modbus TCP server (applications/services/net/modbus_tcp) *)

From S2P Require Import Prelude.

(** ** The data the application offers

    A data area is [NULL] or an array of bytes (coils, discrete inputs) or of 16-bit
    values (holding registers). A callback gets the first address, the pointer (the
    array and an offset into it) and the count, and may change the array. *)

Definition callback : Type := Z -> Z -> list Z -> Z -> list Z.

Record ModbusTcpApi := mkApi {
  coils_data : option (list Z);
  coils_size : Z;
  coils_read_cb : option callback;
  coils_write_cb : option callback;
  holdings_data : option (list Z);
  holdings_size : Z;
  holdings_cb : option callback;
  discrete_inputs_data : option (list Z);
  discrete_inputs_size : Z;
  discrete_inputs_cb : option callback
}.

Definition set_coils (d : list Z) (a : ModbusTcpApi) : ModbusTcpApi :=
  mkApi (Some d) (coils_size a) (coils_read_cb a) (coils_write_cb a)
    (holdings_data a) (holdings_size a) (holdings_cb a)
    (discrete_inputs_data a) (discrete_inputs_size a) (discrete_inputs_cb a).
Definition set_holdings (d : list Z) (a : ModbusTcpApi) : ModbusTcpApi :=
  mkApi (coils_data a) (coils_size a) (coils_read_cb a) (coils_write_cb a)
    (Some d) (holdings_size a) (holdings_cb a)
    (discrete_inputs_data a) (discrete_inputs_size a) (discrete_inputs_cb a).
Definition set_inputs (d : list Z) (a : ModbusTcpApi) : ModbusTcpApi :=
  mkApi (coils_data a) (coils_size a) (coils_read_cb a) (coils_write_cb a)
    (holdings_data a) (holdings_size a) (holdings_cb a)
    (Some d) (discrete_inputs_size a) (discrete_inputs_cb a).

Definition run_cb (cb : option callback) (start off : Z) (data : list Z) (num : Z) : list Z :=
  match cb with Some f => f start off data num | None => data end.

(** ** Bytes

    [mg_ntohs] of a 16-bit load and [mg_htons] before a 16-bit store are network byte
    order: the high byte first. *)

Definition load_be16 (buf : list Z) (i : Z) : outcome Z :=
  h ← aget buf i; l ← aget buf (i + 1); Ret (h * 256 + l).
Definition store_be16 (buf : list Z) (i v : Z) : outcome (list Z) :=
  buf ← aset buf i (v / 256 mod 256); aset buf (i + 1) (v mod 256).

(** [memcpy] of the first [n] bytes of [src] over those of [dst]. *)
Definition copy_head (n : Z) (dst src : list Z) : outcome (list Z) :=
  if (Z.of_nat (length dst) <? n) || (Z.of_nat (length src) <? n) then Fault
  else Ret (take (Z.to_nat n) src ++ drop (Z.to_nat n) dst).
(** [memset(&buf[off], 0, n)]. *)
Definition clear_bytes (buf : list Z) (off n : Z) : outcome (list Z) :=
  if (off <? 0) || (Z.of_nat (length buf) <? off + n) then Fault
  else Ret (take (Z.to_nat off) buf ++ replicate (Z.to_nat n) 0 ++ drop (Z.to_nat (off + n)) buf).

(** [sizeof(response)] *)
Definition response_size : Z := 260.

(** ** The loops *)

(** Packing [n] more bits from index [i] on, least significant bit first. *)
Fixpoint pack_loop (n : nat) (i start : Z) (data response : list Z) : outcome (list Z) :=
  match n with
  | O => Ret response
  | S n' =>
      let byte_index := u8 (i / 8) in
      let bit_index := u8 (i mod 8) in
      v ← aget data (u16 (start + i));
      let bit := if v =? 0 then 0 else 1 in
      b ← aget response (9 + byte_index);
      response ← aset response (9 + byte_index) (u8 (Z.lor b (Z.shiftl bit bit_index)));
      pack_loop n' (i + 1) start data response
  end.

(** Unpacking [n] more received bits into the coils. *)
Fixpoint unpack_loop (n : nat) (i start : Z) (buf coils : list Z) : outcome (list Z) :=
  match n with
  | O => Ret coils
  | S n' =>
      let byte_index := u8 (i / 8) in
      let bit_index := u8 (i mod 8) in
      v ← aget buf (13 + byte_index);
      let bit_value := Z.land (Z.shiftr v bit_index) 1 in
      coils ← aset coils (u16 (start + i)) bit_value;
      unpack_loop n' (i + 1) start buf coils
  end.

(** Copying [n] more holding registers. *)
Fixpoint registers_loop (n : nat) (i start : Z) (data response : list Z) : outcome (list Z) :=
  match n with
  | O => Ret response
  | S n' =>
      val ← aget data (u16 (start + i));
      response ← store_be16 response (9 + 2 * i) val;
      registers_loop n' (i + 1) start data response
  end.

(** ** The functions

    A function leaves the response, its length, whether it succeeded, and the
    application's data. *)

Definition branch : Type := outcome (list Z * Z * bool * ModbusTcpApi).
Definition failed (response : list Z) (api : ModbusTcpApi) : branch := Ret (response, 0, false, api).

(** The body shared by the two functions that read bits: [fill] is the callback. *)
Definition pack_response (data response : list Z) (start num bytes_count : Z) : outcome (list Z * Z) :=
  response ← clear_bytes response 9 bytes_count;
  response ← pack_loop (Z.to_nat num) 0 start data response;
  response ← aset response 8 bytes_count;
  Ret (response, 9 + bytes_count).

Definition read_discrete_inputs (api : ModbusTcpApi) (buf response : list Z) : branch :=
  start ← load_be16 buf 8;
  num ← load_be16 buf 10;
  match discrete_inputs_data api with
  | Some input_data =>
      if (start <? discrete_inputs_size api) && (start + num <=? discrete_inputs_size api) then
        let bytes_count := u8 ((num + 7) / 8) in
        if bytes_count + 9 <? response_size then
          let input_data := run_cb (discrete_inputs_cb api) start 0 input_data num in
          '(response, response_len) ← pack_response input_data response start num bytes_count;
          Ret (response, response_len, true, set_inputs input_data api)
        else failed response api
      else failed response api
  | None => failed response api
  end.

Definition read_coils (api : ModbusTcpApi) (buf response : list Z) : branch :=
  start ← load_be16 buf 8;
  num ← load_be16 buf 10;
  match coils_data api with
  | Some coils =>
      if (start <? coils_size api) && (start + num <=? coils_size api) then
        let bytes_count := u8 ((num + 7) / 8) in
        if bytes_count + 9 <? response_size then
          let coils := run_cb (coils_read_cb api) start start coils num in
          '(response, response_len) ← pack_response coils response start num bytes_count;
          Ret (response, response_len, true, set_coils coils api)
        else failed response api
      else failed response api
  | None => failed response api
  end.

(** The reply that echoes two words of the request. *)
Definition echo_words (response : list Z) (start value : Z) : outcome (list Z) :=
  response ← store_be16 response 8 start;
  store_be16 response 10 value.

Definition write_single_coil (api : ModbusTcpApi) (buf response : list Z) : branch :=
  start ← load_be16 buf 8;
  value ← load_be16 buf 10;
  match coils_data api with
  | Some coils =>
      if start <? coils_size api then
        if (value =? 0) || (value =? 65280) then
          coils ← aset coils start (if value =? 65280 then 1 else 0);
          let coils := run_cb (coils_write_cb api) start start coils 1 in
          response ← echo_words response start value;
          Ret (response, 12, true, set_coils coils api)
        else failed response api
      else failed response api
  | None => failed response api
  end.

(** Not implemented by the program: the reply is prepared, [success] stays false. *)
Definition write_single_register (api : ModbusTcpApi) (buf response : list Z) : branch :=
  start ← load_be16 buf 8;
  value ← load_be16 buf 10;
  response ← echo_words response start value;
  Ret (response, 12, false, api).

Definition write_multiple_coils (api : ModbusTcpApi) (buf : list Z) (len : Z) (response : list Z) : branch :=
  start ← load_be16 buf 8;
  num ← load_be16 buf 10;
  match coils_data api with
  | Some coils =>
      if (start <? coils_size api) && (start + num <=? coils_size api) then
        byte_count ← aget buf 12;
        let expected_bytes := u8 ((num + 7) / 8) in
        if (byte_count =? expected_bytes) && (byte_count + 13 <=? len) then
          coils ← unpack_loop (Z.to_nat num) 0 start buf coils;
          let coils := run_cb (coils_write_cb api) start start coils num in
          response ← echo_words response start num;
          Ret (response, 12, true, set_coils coils api)
        else failed response api
      else failed response api
  | None => failed response api
  end.

(** Not implemented by the program: the loop stops in its first round. *)
Definition write_multiple_registers (api : ModbusTcpApi) (buf response : list Z) : branch :=
  start ← load_be16 buf 8;
  num ← load_be16 buf 10;
  if num * 2 + 10 <? response_size then
    response ← echo_words response start num;
    Ret (response, 12, false, api)
  else failed response api.

Definition read_holding_registers (api : ModbusTcpApi) (buf response : list Z) : branch :=
  start ← load_be16 buf 8;
  num ← load_be16 buf 10;
  match holdings_data api with
  | Some data =>
      if (start <? holdings_size api) && (start + num <=? holdings_size api) then
        if num * 2 + 9 <? response_size then
          response ← registers_loop (Z.to_nat num) 0 start data response;
          let data := run_cb (holdings_cb api) start start data num in
          response ← aset response 8 (u8 (num * 2));
          Ret (response, 9 + u8 (num * 2), true, set_holdings data api)
        else failed response api
      else failed response api
  | None => failed response api
  end.

(** Not implemented by the program: the loop stops in its first round. *)
Definition read_input_registers (api : ModbusTcpApi) (buf response : list Z) : branch :=
  num ← load_be16 buf 10;
  if num * 2 + 9 <? response_size then
    response ← aset response 8 (u8 (num * 2));
    Ret (response, 9 + u8 (num * 2), false, api)
  else failed response api.

Definition dispatch (func : Z) (api : ModbusTcpApi) (buf : list Z) (len : Z) (response : list Z) : branch :=
  if func =? 2 then read_discrete_inputs api buf response
  else if func =? 1 then read_coils api buf response
  else if func =? 5 then write_single_coil api buf response
  else if func =? 6 then write_single_register api buf response
  else if func =? 15 then write_multiple_coils api buf len response
  else if func =? 16 then write_multiple_registers api buf response
  else if func =? 3 then read_holding_registers api buf response
  else if func =? 4 then read_input_registers api buf response
  else failed response api.

(** The generic exception and the length field; the frame that is sent. *)
Definition finish (response : list Z) (response_len : Z) (success : bool) : outcome (list Z) :=
  '(response, response_len) ←
    (if negb success && negb (response_len =? 9) then
       f ← aget response 7;
       response ← aset response 7 (Z.lor f 128);
       response ← aset response 8 4;
       Ret (response, 9)
     else Ret (response, response_len));
  response ← store_be16 response 4 (u16 (response_len - 6));
  if Z.of_nat (length response) <? response_len then Fault
  else Ret (take (Z.to_nat response_len) response).

(** [buf] is the receive buffer, of which the first [len] bytes are the frame, [stack]
    what the uninitialised [response] array holds. The frame sent, if any. *)
Definition handle_modbus_pdu (stack buf : list Z) (len : Z) (context : option ModbusTcpApi)
    : outcome (option (list Z) * option ModbusTcpApi) :=
  match context with
  | None => Ret (None, None)
  | Some api =>
      if len <? 12 then Ret (None, Some api)
      else
        func ← aget buf 7;
        response ← copy_head 8 stack buf;
        '(response, response_len, success, api) ← dispatch func api buf len response;
        frame ← finish response response_len success;
        Ret (Some frame, Some api)
  end.

(** ** Connection events

    The receive buffer of the connection: its bytes and how many of them are valid. *)

Record iobuf := mkIobuf { io_buf : list Z; io_len : Z }.

Section ev_handler.
(** [mg_iobuf_del] of mongoose. *)
Context (mg_iobuf_del : iobuf -> Z -> Z -> iobuf).

(** [MG_EV_READ]: the buffer, the application's data and the frame sent. *)
Definition modbus_ev_handler (stack : list Z) (recv : iobuf) (fn_data : option ModbusTcpApi)
    : outcome (iobuf * option ModbusTcpApi * option (list Z)) :=
  if io_len recv <? 7 then Ret (recv, fn_data, None)
  else
    len ← load_be16 (io_buf recv) 4;
    if io_len recv <? len + 6 then Ret (recv, fn_data, None)
    else
      '(sent, fn_data) ← handle_modbus_pdu stack (io_buf recv) (len + 6) fn_data;
      Ret (mg_iobuf_del recv 0 (len + 6), fn_data, sent).
End ev_handler.

(** ** Reference: frames *)

Definition byte_at (l : list Z) (i : Z) : Z := nth (Z.to_nat i) l 0.
Definition be16 (l : list Z) (i : Z) : Z := byte_at l i * 256 + byte_at l (i + 1).
Definition be16_bytes (v : Z) : list Z := [v / 256 mod 256; v mod 256].

(** The reply to request [req]: same transaction and protocol, the length of what
    follows the length field, same unit, function and payload. *)
Definition reply_frame (req : list Z) (func : Z) (payload : list Z) : list Z :=
  take 4 req ++ be16_bytes (2 + Z.of_nat (length payload)) ++ [byte_at req 6; func] ++ payload.

(** The exception reply, code 4 (server device failure). *)
Definition exception_frame (req : list Z) : list Z := reply_frame req (Z.lor (byte_at req 7) 128) [4].

(** Bit [k] of a string of packed bits. *)
Definition packed_bit (l : list Z) (k : Z) : bool := Z.testbit (byte_at l (k / 8)) (k mod 8).

(** [l] packs the [num] booleans [f 0, f 1, ...], the last byte filled up with zeros. *)
Definition packs (num : Z) (f : Z -> bool) (l : list Z) : Prop :=
  Z.of_nat (length l) = (num + 7) / 8 /\ Forall in_u8 l /\
  forall k, 0 <= k < 8 * ((num + 7) / 8) -> packed_bit l k = (k <? num) && f k.

(** Callbacks stay within the array. *)
Definition keeps_length (cb : option callback) : Prop :=
  forall start off data num, length (run_cb cb start off data num) = length data.

Record good_api (a : ModbusTcpApi) : Prop := {
  good_coils : forall d, coils_data a = Some d -> coils_size a <= Z.of_nat (length d);
  good_inputs : forall d, discrete_inputs_data a = Some d ->
    discrete_inputs_size a <= Z.of_nat (length d);
  good_holdings : forall d, holdings_data a = Some d -> holdings_size a <= Z.of_nat (length d);
  good_sizes : coils_size a < 65536 /\ discrete_inputs_size a < 65536 /\ holdings_size a < 65536;
  good_cbs : keeps_length (coils_read_cb a) /\ keeps_length (coils_write_cb a) /\
    keeps_length (discrete_inputs_cb a) /\ keeps_length (holdings_cb a)
}.

(** A frame of [len] bytes at the start of a buffer of bytes with some slack. *)
Record good_request (buf : list Z) (len : Z) : Prop := {
  req_bytes : Forall in_u8 buf;
  req_len : 12 <= len <= Z.of_nat (length buf);
  req_slack : 13 <= Z.of_nat (length buf)
}.

(** ** Lemmas on bytes *)

Lemma byte_at_range l i : Forall in_u8 l -> in_u8 (byte_at l i).
Proof.
  intros H. unfold byte_at. rewrite nth_lookup.
  destruct (l !! Z.to_nat i) eqn:E; simpl; [|split; lia]. by eapply Forall_lookup_1 in H.
Qed.

Lemma aget_byte_at l i : 0 <= i < Z.of_nat (length l) -> aget l i = Ret (byte_at l i).
Proof. apply aget_in. Qed.

Lemma load_be16_ok l i : 0 <= i < Z.of_nat (length l) - 1 -> load_be16 l i = Ret (be16 l i).
Proof.
  intros H. unfold load_be16, be16. rewrite !aget_byte_at by lia. done.
Qed.

Lemma be16_range l i : Forall in_u8 l -> 0 <= be16 l i < 65536.
Proof.
  intros H. unfold be16. pose proof (byte_at_range l i H). pose proof (byte_at_range l (i + 1) H).
  word.
Qed.

Lemma store_be16_ok l i v :
  0 <= i < Z.of_nat (length l) - 1 ->
  store_be16 l i v = Ret (<[Z.to_nat (i + 1) := v mod 256]> (<[Z.to_nat i := v / 256 mod 256]> l)).
Proof.
  intros H. unfold store_be16. rewrite aset_in by lia. cbn [mbind outcome_bind].
  rewrite aset_in; [done|]. rewrite length_insert. lia.
Qed.

Lemma take_insert_2 {A} (l : list A) n x : (n < length l)%nat ->
  take (S n) (<[n := x]> l) = take n l ++ [x].
Proof.
  intros H. rewrite (take_S_r _ _ x) by by apply list_lookup_insert_eq.
  by rewrite take_insert_ge by lia.
Qed.

Lemma take_drop_split {A} (l : list A) n m : take (n + m) l = take n l ++ take m (drop n l).
Proof. by rewrite take_take_drop. Qed.

Lemma byte_at_take l n i : 0 <= i < Z.of_nat n -> byte_at (take n l) i = byte_at l i.
Proof. intros. unfold byte_at. by rewrite !nth_lookup, lookup_take_lt by lia. Qed.

(** ** The end of the handler *)

Definition well_started (req r : list Z) : Prop :=
  length r = 260%nat /\ (8 <= length req)%nat /\ take 8 r = take 8 req.

Lemma destruct_8 {A} (l : list A) : (8 <= length l)%nat ->
  exists a b c d e f g h l', l = a :: b :: c :: d :: e :: f :: g :: h :: l'.
Proof.
  intros H. do 8 (destruct l as [|? l]; [simpl in H; lia|]). by repeat eexists.
Qed.

(** The length field is stored and the first [8 + p] bytes are sent. *)
Lemma send_ok req f r payload L :
  length r = 260%nat -> (8 <= length req)%nat -> take 7 r = take 7 req -> byte_at r 7 = f ->
  L = 8 + Z.of_nat (length payload) -> (length payload <= 252)%nat ->
  take (length payload) (drop 8 r) = payload ->
  (r' ← store_be16 r 4 (u16 (L - 6));
   if Z.of_nat (length r') <? L then Fault else Ret (take (Z.to_nat L) r')) =
  Ret (reply_frame req f payload).
Proof.
  intros Hr Hq Ht Hf -> Hp Hpl.
  destruct (destruct_8 r) as (a0 & a1 & a2 & a3 & a4 & a5 & a6 & a7 & r' & ->); [lia|].
  destruct (destruct_8 req) as (b0 & b1 & b2 & b3 & b4 & b5 & b6 & b7 & q' & ->); [lia|].
  simpl in Ht. injection Ht as <- <- <- <- <- <- <-.
  rewrite store_be16_ok by (rewrite Hr; lia). cbn [mbind outcome_bind].
  rewrite !length_insert, Hr. destruct (Z.ltb_spec (Z.of_nat 260) (8 + Z.of_nat (length payload))); [lia|].
  rewrite u16_small by lia.
  replace (Z.to_nat (8 + Z.of_nat (length payload))) with (8 + length payload)%nat by lia.
  change (Z.to_nat (4 + 1)) with 5%nat. change (Z.to_nat 4) with 4%nat.
  cbn [insert list_insert Nat.add take]. cbn [drop] in Hpl. rewrite ?drop_0 in Hpl. rewrite Hpl.
  unfold reply_frame, be16_bytes. unfold byte_at in *. simpl in Hf |- *. subst f.
  replace (8 + Z.of_nat (length payload) - 6) with (2 + Z.of_nat (length payload)) by lia. done.
Qed.

Lemma byte_at_7 req r : well_started req r -> byte_at r 7 = byte_at req 7 /\ take 7 r = take 7 req.
Proof.
  intros (_ & _ & H). split.
  - rewrite <- (byte_at_take r 8), <- (byte_at_take req 8), H by lia. done.
  - change 7%nat with (7 `min` 8)%nat. by rewrite <- !take_take, H.
Qed.

Lemma finish_ok req r payload L success :
  well_started req r -> L = 8 + Z.of_nat (length payload) -> (length payload <= 252)%nat ->
  take (length payload) (drop 8 r) = payload -> success = true \/ L = 9 ->
  finish r L success = Ret (reply_frame req (byte_at req 7) payload).
Proof.
  intros Hw HL Hp Hpl Hs. pose proof Hw as (Hr & Hq & _).
  destruct (byte_at_7 _ _ Hw) as [H7 Ht]. unfold finish.
  assert (negb success && negb (L =? 9) = false) as ->
    by (destruct Hs as [->| ->]; [done|]; by rewrite andb_false_r).
  cbn [mbind outcome_bind]. by apply send_ok.
Qed.

Lemma finish_failed req r L :
  well_started req r -> L <> 9 -> finish r L false = Ret (exception_frame req).
Proof.
  intros Hw HL. pose proof Hw as (Hr & Hq & _). destruct (byte_at_7 _ _ Hw) as [H7 Ht].
  unfold finish. destruct (Z.eqb_spec L 9); [done|]. cbn [negb andb].
  rewrite aget_byte_at by lia. cbn [mbind outcome_bind].
  rewrite aset_in by lia. cbn [mbind outcome_bind].
  rewrite aset_in by (rewrite length_insert; lia). cbn [mbind outcome_bind].
  unfold exception_frame. rewrite H7. apply send_ok; try done.
  - by rewrite !length_insert.
  - rewrite !take_insert_ge by lia. done.
  - unfold byte_at at 1. rewrite nth_lookup, list_lookup_insert_ne by lia.
    rewrite list_lookup_insert_eq by lia. done.
  - simpl length. lia.
  - destruct (destruct_8 r) as (a0 & a1 & a2 & a3 & a4 & a5 & a6 & a7 & r' & ->); [lia|].
    destruct r' as [|x r']; [simpl in Hr; lia|]. done.
Qed.

Lemma started stack buf len :
  length stack = 260%nat -> good_request buf len ->
  exists r, copy_head 8 stack buf = Ret r /\ well_started buf r.
Proof.
  intros Hs [Hb Hl Hk]. unfold copy_head.
  destruct (Z.ltb_spec (Z.of_nat (length stack)) 8), (Z.ltb_spec (Z.of_nat (length buf)) 8); try lia.
  eexists. split; [done|]. change (Z.to_nat 8) with 8%nat.
  split; [rewrite length_app, length_take, length_drop; lia|]. split; [lia|].
  rewrite take_app_le by (rewrite length_take; lia). by rewrite take_take.
Qed.

(** The handler once the branch is known. *)
Lemma handle_branch stack buf len api :
  length stack = 260%nat -> good_request buf len ->
  exists r, well_started buf r /\
    handle_modbus_pdu stack buf len (Some api) =
    ('(response, response_len, success, api) ← dispatch (byte_at buf 7) api buf len r;
     frame ← finish response response_len success;
     Ret (Some frame, Some api)).
Proof.
  intros Hs Hg. pose proof Hg as [Hb Hl Hk]. destruct (started stack buf len Hs Hg) as (r & E & Hw).
  exists r. split; [done|]. unfold handle_modbus_pdu. destruct (Z.ltb_spec len 12); [lia|].
  rewrite aget_byte_at by lia. cbn [mbind outcome_bind]. rewrite E. done.
Qed.

(** ** Packing *)

Definition nonzero (data : list Z) (i : Z) : bool := negb (byte_at data i =? 0).

Lemma byte_at_insert l i j x : 0 <= i < Z.of_nat (length l) -> 0 <= j ->
  byte_at (<[Z.to_nat i := x]> l) j = if j =? i then x else byte_at l j.
Proof.
  intros Hi Hj. unfold byte_at. rewrite !nth_lookup. destruct (Z.eqb_spec j i) as [->|].
  - by rewrite list_lookup_insert_eq by lia.
  - by rewrite list_lookup_insert_ne by lia.
Qed.

Lemma set_bit b t s (v : bool) : 0 <= t < 8 -> 0 <= s < 8 ->
  Z.testbit (u8 (Z.lor b (Z.shiftl (if v then 1 else 0) t))) s = Z.testbit b s || (v && (s =? t)).
Proof.
  intros Ht Hs. unfold u8. rewrite Z.mod_pow2_bits_low, Z.lor_spec by lia. f_equal.
  rewrite Z.shiftl_spec by lia. destruct v; [|by rewrite Z.bits_0].
  destruct (Z.eqb_spec s t) as [->|Hst]; [by rewrite Z.sub_diag|].
  rewrite <- (Z.pow_0_r 2). destruct (Z.neg_nonneg_cases (s - t)).
  - by rewrite Z.testbit_neg_r.
  - rewrite Z.pow2_bits_false by lia. done.
Qed.

(** The bytes of [r] from 9 on pack the first [i] bits of [f]. *)
Definition packed_until (i nb : Z) (f : Z -> bool) (r : list Z) : Prop :=
  (forall j, 0 <= j < nb -> in_u8 (byte_at r (9 + j))) /\
  forall k, 0 <= k < 8 * nb -> Z.testbit (byte_at r (9 + k / 8)) (k mod 8) = (k <? i) && f k.

Lemma pack_step i nb f r bit :
  0 <= i < 8 * nb -> 9 + nb <= Z.of_nat (length r) -> packed_until i nb f r -> f i = bit ->
  packed_until (i + 1) nb f
    (<[Z.to_nat (9 + i / 8) := u8 (Z.lor (byte_at r (9 + i / 8))
        (Z.shiftl (if bit then 1 else 0) (i mod 8)))]> r).
Proof.
  intros Hi Hr [Hb Hk] Hf. assert (Hj : 0 <= i / 8 < nb) by word. split.
  - intros j Hj'. rewrite byte_at_insert by lia.
    destruct (Z.eqb_spec (9 + j) (9 + i / 8)); [apply u8_range|by apply Hb].
  - intros k Hk'. assert (0 <= k / 8 < nb) by word. rewrite byte_at_insert by lia.
    pose proof (Z.mod_pos_bound i 8 ltac:(lia)). pose proof (Z.mod_pos_bound k 8 ltac:(lia)).
    destruct (Z.eqb_spec (9 + k / 8) (9 + i / 8)) as [E|E].
    + rewrite set_bit by lia. replace (9 + i / 8) with (9 + k / 8) by lia. rewrite Hk by lia.
      destruct (Z.eqb_spec (k mod 8) (i mod 8)) as [Em|Em].
      * assert (k = i) as -> by word. rewrite Hf.
        destruct (Z.ltb_spec i i), (Z.ltb_spec i (i + 1)); try lia. by rewrite andb_true_r.
      * assert (k <> i) by (by intros ->). rewrite andb_false_r, orb_false_r.
        destruct (Z.ltb_spec k i), (Z.ltb_spec k (i + 1)); done || lia.
    + rewrite Hk by lia. assert (k <> i) by (intros ->; lia).
      destruct (Z.ltb_spec k i), (Z.ltb_spec k (i + 1)); done || lia.
Qed.

Lemma pack_loop_ok n i nb start data r :
  0 <= i -> 0 <= start -> start + i + Z.of_nat n <= Z.of_nat (length data) -> start + i + Z.of_nat n < 65536 ->
  i + Z.of_nat n <= 8 * nb -> 9 + nb <= Z.of_nat (length r) -> nb <= 256 ->
  packed_until i nb (fun k => nonzero data (start + k)) r ->
  exists r', pack_loop n i start data r = Ret r' /\ length r' = length r /\
    packed_until (i + Z.of_nat n) nb (fun k => nonzero data (start + k)) r' /\
    take 9 r' = take 9 r.
Proof.
  revert i r. induction n as [|n IH]; intros i r Hi Hs Hd Hw Hn Hr Hnb Hp.
  - exists r. replace (i + Z.of_nat 0) with i by lia. done.
  - cbn [pack_loop]. assert (Hj : 0 <= i / 8 < nb) by word.
    rewrite (u16_small (start + i)) by lia. rewrite (aget_byte_at data) by lia. cbn [mbind outcome_bind].
    rewrite (u8_small (i / 8)) by lia. rewrite (u8_small (i mod 8)) by word.
    rewrite aget_byte_at by lia. cbn [mbind outcome_bind].
    rewrite aset_in by lia. cbn [mbind outcome_bind].
    replace (if byte_at data (start + i) =? 0 then 0 else 1) with
      (if nonzero data (start + i) then 1 else 0) by (unfold nonzero; by destruct (_ =? 0)).
    destruct (IH (i + 1) (<[Z.to_nat (9 + i / 8) := u8 (Z.lor (byte_at r (9 + i / 8))
        (Z.shiftl (if nonzero data (start + i) then 1 else 0) (i mod 8)))]> r))
      as (r' & E & Hl & Hp' & Ht); try lia.
    + rewrite length_insert. lia.
    + apply pack_step; done || lia.
    + exists r'. split; [exact E|]. rewrite length_insert in Hl. split; [done|].
      replace (i + Z.of_nat (S n)) with (i + 1 + Z.of_nat n) by lia. split; [done|].
      rewrite Ht. apply take_insert_ge. lia.
Qed.

(** Too many bits: the byte index leaves the response. *)
Lemma pack_loop_fault n i start data r :
  0 <= i <= 2008 -> 2008 < i + Z.of_nat n -> 0 <= start -> start + i + Z.of_nat n <= Z.of_nat (length data) ->
  start + i + Z.of_nat n < 65536 -> length r = 260%nat ->
  pack_loop n i start data r = Fault.
Proof.
  revert i r. induction n as [|n IH]; intros i r Hi Hn Hs Hd Hw Hr; [lia|].
  cbn [pack_loop]. rewrite (u16_small (start + i)) by lia. rewrite (aget_byte_at data) by lia.
  cbn [mbind outcome_bind]. rewrite (u8_small (i / 8)) by word.
  destruct (decide (i = 2008)) as [->|Hne].
  - rewrite aget_out; [done|]. right. rewrite Hr. word.
  - rewrite aget_byte_at by (rewrite Hr; word). cbn [mbind outcome_bind].
    rewrite aset_in by (rewrite Hr; word). cbn [mbind outcome_bind].
    apply IH; try lia. by rewrite length_insert.
Qed.

Lemma byte_at_slice l m n j : 0 <= j < Z.of_nat n -> byte_at (take n (drop m l)) j = byte_at l (Z.of_nat m + j).
Proof.
  intros Hj. rewrite byte_at_take by lia. unfold byte_at. rewrite !nth_lookup, lookup_drop.
  do 2 f_equal. lia.
Qed.

Lemma clear_bytes_ok r nb : 0 <= nb -> 9 + nb <= Z.of_nat (length r) ->
  exists r', clear_bytes r 9 nb = Ret r' /\ length r' = length r /\ take 9 r' = take 9 r /\
    forall f, packed_until 0 nb f r'.
Proof.
  intros Hn Hr. unfold clear_bytes. destruct (Z.ltb_spec 9 0), (Z.ltb_spec (Z.of_nat (length r)) (9 + nb)); try lia.
  cbn [orb]. eexists. split; [done|]. change (Z.to_nat 9) with 9%nat.
  split; [rewrite !length_app, length_take, length_replicate, length_drop; lia|].
  split; [rewrite take_app_le by (rewrite length_take; lia); by rewrite take_take|].
  assert (Hz : forall j, 0 <= j < nb ->
    byte_at (take 9 r ++ replicate (Z.to_nat nb) 0 ++ drop (Z.to_nat (9 + nb)) r) (9 + j) = 0).
  { intros j Hj. unfold byte_at. rewrite nth_lookup, lookup_app_r by (rewrite length_take; lia).
    rewrite lookup_app_l by (rewrite length_replicate, length_take; lia).
    rewrite length_take. by rewrite lookup_replicate_2 by lia. }
  intros f. split.
  - intros j Hj. rewrite Hz by lia. split; lia.
  - intros k Hk. rewrite Hz by word. rewrite Z.bits_0. destruct (Z.ltb_spec k 0); [lia|done].
Qed.

Lemma pack_response_ok req data r start num :
  well_started req r -> 0 <= start -> 0 <= num <= 2000 -> start + num <= Z.of_nat (length data) ->
  start + num < 65536 ->
  exists r' l, pack_response data r start num ((num + 7) / 8) = Ret (r', 9 + (num + 7) / 8) /\
    well_started req r' /\ packs num (fun k => nonzero data (start + k)) l /\
    take (S (length l)) (drop 8 r') = (num + 7) / 8 :: l.
Proof.
  intros (Hr & Hq & H8) Hs Hn Hd Hw. unfold pack_response. set (nb := (num + 7) / 8).
  assert (Hnb : 0 <= nb <= 250 /\ num <= 8 * nb) by (unfold nb; word).
  destruct (clear_bytes_ok r nb) as (r1 & -> & Hr1 & Ht1 & Hp1); [lia|lia|]. cbn [mbind outcome_bind].
  destruct (pack_loop_ok (Z.to_nat num) 0 nb start data r1) as (r2 & -> & Hr2 & [Hb Hk] & Ht2); try lia.
  { apply Hp1. }
  cbn [mbind outcome_bind]. rewrite aset_in by lia. cbn [mbind outcome_bind].
  rewrite Z2Nat.id, Z.add_0_l in Hk by lia.
  exists (<[Z.to_nat 8 := nb]> r2), (take (Z.to_nat nb) (drop 9 r2)).
  assert (Hll : length (take (Z.to_nat nb) (drop 9 r2)) = Z.to_nat nb)
    by (rewrite length_take, length_drop; lia).
  split; [done|]. split; [|split].
  - split; [rewrite length_insert; lia|]. split; [done|].
    rewrite take_insert_ge by lia. change 8%nat with (8 `min` 9)%nat.
    rewrite <- take_take, Ht2, Ht1, take_take. done.
  - split; [rewrite Hll; unfold nb; lia|]. split.
    + apply Forall_lookup. intros i x Hx.
      assert (Hi : (i < Z.to_nat nb)%nat) by (apply lookup_lt_Some in Hx; lia).
      specialize (Hb (Z.of_nat i) ltac:(lia)).
      rewrite lookup_take_lt, lookup_drop in Hx by lia.
      unfold byte_at in Hb. rewrite nth_lookup in Hb.
      replace (Z.to_nat (9 + Z.of_nat i)) with (9 + i)%nat in Hb by lia. by rewrite Hx in Hb.
    + intros k Hk'. fold nb in Hk'. unfold packed_bit. rewrite byte_at_slice by word.
      apply Hk. lia.
  - rewrite Hll. change (Z.to_nat 8) with 8%nat.
    rewrite drop_insert_ge by lia. rewrite Nat.sub_diag.
    destruct (drop 8 r2) as [|x l] eqn:E; [apply (f_equal length) in E; rewrite length_drop in E; simpl in E; lia|].
    cbn [insert list_insert take]. f_equal.
    change 9%nat with (8 + 1)%nat. by rewrite <- drop_drop, E.
Qed.

(** ** Reading bits *)

Lemma read_ok req data r start num size bytes_count :
  well_started req r -> 0 <= start -> 0 <= num <= 2000 -> start + num <= size ->
  size <= Z.of_nat (length data) -> size < 65536 -> bytes_count = u8 ((num + 7) / 8) ->
  exists l, packs num (fun k => nonzero data (start + k)) l /\
    (bytes_count + 9 <? response_size) = true /\
    forall A (x : A),
    ('(r, L) ← pack_response data r start num bytes_count;
     frame ← finish r L true; Ret (Some frame, x)) =
    Ret (Some (reply_frame req (byte_at req 7) (Z.of_nat (length l) :: l)), x).
Proof.
  intros Hw Hs Hn Hsz Hd Hw' ->.
  destruct (pack_response_ok req data r start num) as (r' & l & E & Hw2 & Hp & Ht); try lia; [done|].
  exists l. split; [done|]. pose proof Hp as (Hl & _ & _).
  rewrite u8_small by word. split; [apply Z.ltb_lt; unfold response_size; word|].
  intros A x. rewrite E. cbn [mbind outcome_bind].
  rewrite (finish_ok req r' (Z.of_nat (length l) :: l)); [done|done| | | |by left].
  - simpl length. lia.
  - simpl length. word.
  - simpl length. by rewrite Hl.
Qed.

(** The words of a request are read without a fault. *)
Lemma request_words buf len : good_request buf len ->
  load_be16 buf 8 = Ret (be16 buf 8) /\ load_be16 buf 10 = Ret (be16 buf 10) /\
  0 <= be16 buf 8 < 65536 /\ 0 <= be16 buf 10 < 65536.
Proof.
  intros [Hb Hl Hk]. rewrite !load_be16_ok by lia. repeat split; by apply be16_range.
Qed.

Lemma data_length (cb : option callback) d size start off num :
  keeps_length cb -> size <= Z.of_nat (length d) -> size <= Z.of_nat (length (run_cb cb start off d num)).
Proof. intros H. by rewrite (H start off d num). Qed.

Lemma read_coils_handled stack buf len api d :
  length stack = 260%nat -> good_request buf len -> good_api api -> be16 buf 10 <= 2000 ->
  byte_at buf 7 = 1 -> coils_data api = Some d ->
  be16 buf 8 < coils_size api -> be16 buf 8 + be16 buf 10 <= coils_size api ->
  let d' := run_cb (coils_read_cb api) (be16 buf 8) (be16 buf 8) d (be16 buf 10) in
  exists l, packs (be16 buf 10) (fun k => nonzero d' (be16 buf 8 + k)) l /\
    handle_modbus_pdu stack buf len (Some api) =
    Ret (Some (reply_frame buf 1 (Z.of_nat (length l) :: l)), Some (set_coils d' api)).
Proof.
  intros Hst Hg Ha Hn Hf Hd Hs1 Hs2 d'. destruct (request_words _ _ Hg) as (E8 & E10 & H8 & H10).
  destruct (good_cbs _ Ha) as (C1 & _ & _ & _). destruct (good_sizes _ Ha) as (S1 & _ & _).
  destruct (handle_branch stack buf len api Hst Hg) as (r & Hw & ->). rewrite Hf.
  unfold dispatch, read_coils. cbn [Z.eqb Pos.eqb]. rewrite E8, E10, Hd. cbn [mbind outcome_bind].
  destruct (Z.ltb_spec (be16 buf 8) (coils_size api)),
    (Z.leb_spec (be16 buf 8 + be16 buf 10) (coils_size api)); try lia. cbn [andb].
  destruct (read_ok buf d' r (be16 buf 8) (be16 buf 10) (coils_size api) _ Hw ltac:(lia) ltac:(lia) ltac:(lia)
    ltac:(apply data_length; [done|by apply good_coils]) ltac:(lia) eq_refl) as (l & Hp & -> & E).
  exists l. split; [done|]. fold d'. specialize (E _ (Some (set_coils d' api))).
  rewrite Hf in E. rewrite <- E. by destruct (pack_response _ _ _ _ _) as [[? ?]| | |].
Qed.

(** A valid request to read up to 2000 coils or discrete inputs is answered by one
    frame with the request's header, the byte count and the requested bits as the
    callback left them, packed least significant bit first, the rest of the last byte
    zero; the data afterwards is what the callback made of it. *)
Theorem modbus_read_bits_correct stack buf len api d :
  length stack = 260%nat -> good_request buf len -> good_api api -> be16 buf 10 <= 2000 ->
  (byte_at buf 7 = 1 -> coils_data api = Some d ->
     be16 buf 8 < coils_size api -> be16 buf 8 + be16 buf 10 <= coils_size api ->
     let d' := run_cb (coils_read_cb api) (be16 buf 8) (be16 buf 8) d (be16 buf 10) in
     exists l, packs (be16 buf 10) (fun k => nonzero d' (be16 buf 8 + k)) l /\
       handle_modbus_pdu stack buf len (Some api) =
       Ret (Some (reply_frame buf 1 (Z.of_nat (length l) :: l)), Some (set_coils d' api))) /\
  (byte_at buf 7 = 2 -> discrete_inputs_data api = Some d ->
     be16 buf 8 < discrete_inputs_size api -> be16 buf 8 + be16 buf 10 <= discrete_inputs_size api ->
     let d' := run_cb (discrete_inputs_cb api) (be16 buf 8) 0 d (be16 buf 10) in
     exists l, packs (be16 buf 10) (fun k => nonzero d' (be16 buf 8 + k)) l /\
       handle_modbus_pdu stack buf len (Some api) =
       Ret (Some (reply_frame buf 2 (Z.of_nat (length l) :: l)), Some (set_inputs d' api))).
Proof.
  intros Hst Hg Ha Hn. split; [by apply read_coils_handled|].
  destruct (request_words _ _ Hg) as (E8 & E10 & H8 & H10).
  destruct (good_cbs _ Ha) as (_ & _ & C2 & _). destruct (good_sizes _ Ha) as (_ & S2 & _).
  destruct (handle_branch stack buf len api Hst Hg) as (r & Hw & ->).
  intros Hf Hd Hs1 Hs2 d'. rewrite Hf.
  unfold dispatch, read_discrete_inputs. cbn [Z.eqb Pos.eqb]. rewrite E8, E10, Hd. cbn [mbind outcome_bind].
  destruct (Z.ltb_spec (be16 buf 8) (discrete_inputs_size api)),
    (Z.leb_spec (be16 buf 8 + be16 buf 10) (discrete_inputs_size api)); try lia. cbn [andb].
  destruct (read_ok buf d' r (be16 buf 8) (be16 buf 10) (discrete_inputs_size api) _ Hw ltac:(lia) ltac:(lia) ltac:(lia)
    ltac:(apply data_length; [done|by apply good_inputs]) ltac:(lia) eq_refl) as (l & Hp & -> & E).
  exists l. split; [done|]. fold d'. specialize (E _ (Some (set_inputs d' api))).
  rewrite Hf in E. rewrite <- E. by destruct (pack_response _ _ _ _ _) as [[? ?]| | |].
Qed.

(** A request: transaction 0x1234, protocol 0, unit 7. *)
Definition request (func start num : Z) (data : list Z) : list Z :=
  [18; 52; 0; 0; 0; 6 + Z.of_nat (length data); 7; func] ++
  be16_bytes start ++ be16_bytes num ++ data.
(** Two coils areas: 11 coils, with a read callback that clears the first of them. *)
Definition sample_api : ModbusTcpApi :=
  mkApi (Some [1; 0; 1; 1; 0; 0; 0; 1; 0; 2; 1]) 11 (Some (fun _ _ d _ => <[0%nat := 0]> d)) None
    (Some [258; 772; 4660]) 3 None (Some [0; 1; 0]) 3 None.

Lemma sample_api_good : good_api sample_api.
Proof.
  split; simpl; try (intros d [= <-]; simpl; lia); [lia|].
  repeat split; intros start off data num; simpl; try done. apply length_insert.
Qed.

Ltac solve_request :=
  split; [by apply bytesb_ok; vm_compute | vm_compute; split; discriminate | vm_compute; discriminate].

Theorem modbus_read_bits_correct_witness :
  exists l, packs 10 (fun k => nonzero [0; 0; 1; 1; 0; 0; 0; 1; 0; 2; 1] (1 + k)) l /\
    handle_modbus_pdu (replicate 260 85) (request 1 1 10 [0]) 12 (Some sample_api) =
    Ret (Some (reply_frame (request 1 1 10 [0]) 1 (Z.of_nat (length l) :: l)),
         Some (set_coils [0; 0; 1; 1; 0; 0; 0; 1; 0; 2; 1] sample_api)).
Proof.
  refine (proj1 (modbus_read_bits_correct (replicate 260 85) (request 1 1 10 [0]) 12 sample_api
    [1; 0; 1; 1; 0; 0; 0; 1; 0; 2; 1] _ _ _ _) _ _ _ _).
  - reflexivity.
  - solve_request.
  - exact sample_api_good.
  - vm_compute. discriminate.
  - reflexivity.
  - reflexivity.
  - reflexivity.
  - vm_compute. discriminate.
Defined.

(** ** Writing *)

Lemma testbit_land1 v t : 0 <= t -> Z.land (Z.shiftr v t) 1 = Z.b2z (Z.testbit v t).
Proof.
  intros Ht. rewrite Z.testbit_spec' by done. change 1 with (Z.ones 1) at 1.
  rewrite Z.land_ones by lia. by rewrite Z.shiftr_div_pow2.
Qed.

(** What request [buf] writes to the [k]-th coil of its range. *)
Definition request_bit (buf : list Z) (k : Z) : Z := Z.b2z (packed_bit (drop 13 buf) k).

Lemma request_bit_eq buf k : 0 <= k ->
  request_bit buf k = Z.b2z (Z.testbit (byte_at buf (13 + k / 8)) (k mod 8)).
Proof.
  intros Hk. unfold request_bit, packed_bit, byte_at. rewrite !nth_lookup, lookup_drop.
  assert (0 <= k / 8) by word. do 4 f_equal. lia.
Qed.

Lemma unpack_loop_ok n i start buf coils :
  0 <= i -> 0 <= start -> start + i + Z.of_nat n <= Z.of_nat (length coils) ->
  start + i + Z.of_nat n < 65536 -> i + Z.of_nat n <= 2040 ->
  13 + (i + Z.of_nat n + 7) / 8 <= Z.of_nat (length buf) ->
  exists coils', unpack_loop n i start buf coils = Ret coils' /\ length coils' = length coils /\
    forall k, 0 <= k -> byte_at coils' k =
      if (start + i <=? k) && (k <? start + i + Z.of_nat n) then request_bit buf (k - start)
      else byte_at coils k.
Proof.
  revert i coils. induction n as [|n IH]; intros i coils Hi Hs Hc Hw Hn Hb.
  - exists coils. split; [done|]. split; [done|]. intros k Hk.
    destruct (Z.leb_spec (start + i) k), (Z.ltb_spec k (start + i + Z.of_nat 0)); done || lia.
  - cbn [unpack_loop]. rewrite (u8_small (i / 8)), (u8_small (i mod 8)) by word.
    rewrite (aget_byte_at buf) by word. cbn [mbind outcome_bind].
    rewrite u16_small by lia. rewrite aset_in by lia. cbn [mbind outcome_bind].
    rewrite testbit_land1, <- request_bit_eq by word.
    destruct (IH (i + 1) (<[Z.to_nat (start + i) := request_bit buf i]> coils)) as (c' & E & Hl & Hk);
      try lia.
    { rewrite length_insert. lia. }
    { eapply Z.le_trans; [|exact Hb]. apply Z.add_le_mono_l, Z.div_le_mono; lia. }
    exists c'. split; [exact E|]. rewrite length_insert in Hl. split; [done|]. intros k Hk0.
    rewrite Hk by done. rewrite byte_at_insert by lia.
    destruct (Z.leb_spec (start + (i + 1)) k), (Z.ltb_spec k (start + (i + 1) + Z.of_nat n)),
      (Z.leb_spec (start + i) k), (Z.ltb_spec k (start + i + Z.of_nat (S n))),
      (Z.eqb_spec k (start + i)); try lia; try done.
    subst k. cbn [andb]. f_equal. lia.
Qed.

Lemma echo_ok req r a b : well_started req r ->
  exists r', echo_words r a b = Ret r' /\ well_started req r' /\
    take 4 (drop 8 r') = be16_bytes a ++ be16_bytes b.
Proof.
  intros (Hr & Hq & H8). unfold echo_words. rewrite store_be16_ok by lia. cbn [mbind outcome_bind].
  rewrite store_be16_ok by (rewrite !length_insert; lia). eexists. split; [done|].
  destruct (destruct_8 r) as (a0 & a1 & a2 & a3 & a4 & a5 & a6 & a7 & r' & ->); [lia|].
  simpl in Hr. destruct r' as [|c0 [|c1 [|c2 [|c3 r']]]]; simpl in Hr; try lia.
  unfold well_started. rewrite !length_insert. split; [|done]. split; [simpl; lia|]. split; [done|]. exact H8.
Qed.

Lemma echo_reply req r a b X (x : X) func : well_started req r -> byte_at req 7 = func ->
  (r ← echo_words r a b; frame ← finish r 12 true; Ret (Some frame, x)) =
  Ret (Some (reply_frame req func (be16_bytes a ++ be16_bytes b)), x).
Proof.
  intros Hw <-. destruct (echo_ok req r a b Hw) as (r' & -> & Hw' & Ht). cbn [mbind outcome_bind].
  rewrite (finish_ok req r' (be16_bytes a ++ be16_bytes b)); [done|done|done|simpl; lia|done|by left].
Qed.

Lemma write_coils_handled stack buf len api d :
  length stack = 260%nat -> good_request buf len -> good_api api -> coils_data api = Some d ->
  be16 buf 8 < coils_size api -> byte_at buf 7 = 15 -> be16 buf 10 <= 2040 ->
  be16 buf 8 + be16 buf 10 <= coils_size api ->
  byte_at buf 12 = (be16 buf 10 + 7) / 8 -> byte_at buf 12 + 13 <= len ->
  exists d', length d' = length d /\
    (forall k, 0 <= k -> byte_at d' k =
       if (be16 buf 8 <=? k) && (k <? be16 buf 8 + be16 buf 10)
       then request_bit buf (k - be16 buf 8) else byte_at d k) /\
    handle_modbus_pdu stack buf len (Some api) =
    Ret (Some (reply_frame buf 15 (be16_bytes (be16 buf 8) ++ be16_bytes (be16 buf 10))),
         Some (set_coils (run_cb (coils_write_cb api) (be16 buf 8) (be16 buf 8) d' (be16 buf 10)) api)).
Proof.
  intros Hst Hg Ha Hd Hs Hf Hn Hs2 Hbc Hlen. destruct (request_words _ _ Hg) as (E8 & E10 & H8 & H10).
  pose proof (good_coils _ Ha d Hd) as Hl. destruct (good_sizes _ Ha) as (S1 & _ & _).
  destruct (handle_branch stack buf len api Hst Hg) as (r & Hw & ->).
  rewrite Hf. unfold dispatch; cbn [Z.eqb Pos.eqb]. unfold write_multiple_coils.
  rewrite E8, E10, Hd. cbn [mbind outcome_bind].
  destruct (Z.ltb_spec (be16 buf 8) (coils_size api)),
  (Z.leb_spec (be16 buf 8 + be16 buf 10) (coils_size api)); try lia. cbn [andb].
  pose proof (req_len _ _ Hg). pose proof (req_slack _ _ Hg).
  rewrite aget_byte_at by lia. cbn [mbind outcome_bind].
  rewrite u8_small by word. rewrite <- Hbc, Z.eqb_refl. destruct (Z.leb_spec (byte_at buf 12 + 13) len); [|lia].
  cbn [andb].
  destruct (unpack_loop_ok (Z.to_nat (be16 buf 10)) 0 (be16 buf 8) buf d) as (d' & E & Hl' & Hk); try lia.
  { rewrite Z2Nat.id, Z.add_0_l by lia. lia. }
  exists d'. split; [done|]. split.
  { intros k Hk0. rewrite (Hk k Hk0). rewrite Z2Nat.id by lia. rewrite Z.add_0_r. done. }
  rewrite E. cbn [mbind outcome_bind].
  rewrite <- (echo_reply buf r _ _ _ _ 15 Hw Hf). by destruct (echo_words _ _ _).
Qed.

(** The two functions that write coils store exactly the requested values (a single
    coil 0xFF00 as 1 and 0 as 0; many coils from the packed bits of the request), leave
    every other coil alone, run the write callback once on the result, and echo the
    request. *)
Theorem modbus_write_coils_correct stack buf len api d :
  length stack = 260%nat -> good_request buf len -> good_api api -> coils_data api = Some d ->
  be16 buf 8 < coils_size api ->
  (byte_at buf 7 = 5 -> be16 buf 10 = 0 \/ be16 buf 10 = 65280 ->
     let d' := <[Z.to_nat (be16 buf 8) := be16 buf 10 / 65280]> d in
     handle_modbus_pdu stack buf len (Some api) =
     Ret (Some (reply_frame buf 5 (be16_bytes (be16 buf 8) ++ be16_bytes (be16 buf 10))),
          Some (set_coils (run_cb (coils_write_cb api) (be16 buf 8) (be16 buf 8) d' 1) api))) /\
  (byte_at buf 7 = 15 -> be16 buf 10 <= 2040 -> be16 buf 8 + be16 buf 10 <= coils_size api ->
     byte_at buf 12 = (be16 buf 10 + 7) / 8 -> byte_at buf 12 + 13 <= len ->
     exists d', length d' = length d /\
       (forall k, 0 <= k -> byte_at d' k =
          if (be16 buf 8 <=? k) && (k <? be16 buf 8 + be16 buf 10)
          then request_bit buf (k - be16 buf 8) else byte_at d k) /\
       handle_modbus_pdu stack buf len (Some api) =
       Ret (Some (reply_frame buf 15 (be16_bytes (be16 buf 8) ++ be16_bytes (be16 buf 10))),
            Some (set_coils (run_cb (coils_write_cb api) (be16 buf 8) (be16 buf 8) d' (be16 buf 10)) api))).
Proof.
  intros Hst Hg Ha Hd Hs. destruct (request_words _ _ Hg) as (E8 & E10 & H8 & H10).
  pose proof (good_coils _ Ha d Hd) as Hl. destruct (good_sizes _ Ha) as (S1 & _ & _).
  split; [|intros; by apply write_coils_handled].
  destruct (handle_branch stack buf len api Hst Hg) as (r & Hw & ->).
  intros Hf Hv d'. rewrite Hf. unfold dispatch; cbn [Z.eqb Pos.eqb]. unfold write_single_coil. rewrite E8, E10, Hd. cbn [mbind outcome_bind].
    destruct (Z.ltb_spec (be16 buf 8) (coils_size api)); [|lia].
    assert ((be16 buf 10 =? 0) || (be16 buf 10 =? 65280) = true) as -> by (destruct Hv as [-> | ->]; done).
    rewrite aset_in by lia. cbn [mbind outcome_bind].
    replace (if be16 buf 10 =? 65280 then 1 else 0) with (be16 buf 10 / 65280)
      by (destruct Hv as [-> | ->]; done).
    fold d'. rewrite <- (echo_reply buf r _ _ _ _ 5 Hw Hf). by destruct (echo_words _ _ _).
Qed.

Theorem modbus_write_coils_correct_witness :
  exists d', length d' = 11%nat /\
    (forall k, 0 <= k -> byte_at d' k =
       if (2 <=? k) && (k <? 2 + 9) then request_bit (request 15 2 9 [2; 165; 1]) (k - 2)
       else byte_at [1; 0; 1; 1; 0; 0; 0; 1; 0; 2; 1] k) /\
    handle_modbus_pdu (replicate 260 85) (request 15 2 9 [2; 165; 1]) 15 (Some sample_api) =
    Ret (Some (reply_frame (request 15 2 9 [2; 165; 1]) 15 (be16_bytes 2 ++ be16_bytes 9)),
         Some (set_coils d' sample_api)).
Proof.
  refine (proj2 (modbus_write_coils_correct (replicate 260 85) (request 15 2 9 [2; 165; 1]) 15 sample_api
    [1; 0; 1; 1; 0; 0; 0; 1; 0; 2; 1] _ _ _ _ _) _ _ _ _ _).
  - reflexivity.
  - solve_request.
  - exact sample_api_good.
  - reflexivity.
  - reflexivity.
  - reflexivity.
  - vm_compute. discriminate.
  - vm_compute. discriminate.
  - reflexivity.
  - vm_compute. discriminate.
Defined.

(** C33: coils written with function 15 are read back with function 1: the reply packs
    the same bits as the write request. *)
Theorem modbus_coils_roundtrip stack wbuf wlen rbuf rlen api d :
  length stack = 260%nat -> good_request wbuf wlen -> good_request rbuf rlen -> good_api api ->
  coils_data api = Some d -> coils_read_cb api = None -> coils_write_cb api = None ->
  byte_at wbuf 7 = 15 -> byte_at rbuf 7 = 1 ->
  be16 rbuf 8 = be16 wbuf 8 -> be16 rbuf 10 = be16 wbuf 10 ->
  be16 wbuf 10 <= 2000 -> be16 wbuf 8 < coils_size api ->
  be16 wbuf 8 + be16 wbuf 10 <= coils_size api ->
  byte_at wbuf 12 = (be16 wbuf 10 + 7) / 8 -> byte_at wbuf 12 + 13 <= wlen ->
  exists frame api' l, handle_modbus_pdu stack wbuf wlen (Some api) = Ret (Some frame, Some api') /\
    handle_modbus_pdu stack rbuf rlen (Some api') =
      Ret (Some (reply_frame rbuf 1 (Z.of_nat (length l) :: l)), Some api') /\
    packs (be16 wbuf 10) (packed_bit (drop 13 wbuf)) l.
Proof.
  intros Hst Hw Hr Ha Hd Hrc Hwc Hf15 Hf1 E8 E10 Hn Hs1 Hs2 Hbc Hlen.
  destruct (write_coils_handled stack wbuf wlen api d) as (d' & Hl & Hk & E); try done; [lia|].
  rewrite Hwc in E. cbn [run_cb] in E.
  assert (Ha' : good_api (set_coils d' api)).
  { destruct Ha as [G1 G2 G3 G4 G5]. split; simpl; try done.
    intros x [= <-]. rewrite Hl. by apply G1. }
  assert (H8 : 0 <= be16 wbuf 8) by (apply be16_range; by destruct Hw).
  destruct (read_coils_handled stack rbuf rlen (set_coils d' api) d') as (l & Hp & E'); try done.
  { by rewrite E10. } { rewrite E8. done. } { rewrite E8, E10. done. }
  cbn [coils_read_cb set_coils] in Hp, E'. rewrite Hrc in Hp, E'. cbn [run_cb] in Hp, E'.
  eexists _, (set_coils d' api), l. split; [exact E|]. split; [exact E'|].
  rewrite E8, E10 in Hp. destruct Hp as (P1 & P2 & P3). split; [done|]. split; [done|].
  intros k Hk'. rewrite P3 by done. destruct (Z.ltb_spec k (be16 wbuf 10)); [|done]. cbn [andb].
  unfold nonzero. rewrite Hk by lia.
  destruct (Z.leb_spec (be16 wbuf 8) (be16 wbuf 8 + k)),
    (Z.ltb_spec (be16 wbuf 8 + k) (be16 wbuf 8 + be16 wbuf 10)); try lia. cbn [andb].
  unfold request_bit. replace (be16 wbuf 8 + k - be16 wbuf 8) with k by lia.
  by destruct (packed_bit (drop 13 wbuf) k).
Qed.

(** The sample data without callbacks. *)
Definition plain_api : ModbusTcpApi :=
  mkApi (Some [1; 0; 1; 1; 0; 0; 0; 1; 0; 2; 1]) 11 None None (Some [258; 772; 4660]) 3 None None 0 None.

Lemma plain_api_good : good_api plain_api.
Proof.
  split; simpl; try (intros d [= <-]; simpl; lia); [lia|by repeat split].
Qed.

Theorem modbus_coils_roundtrip_witness :
  exists frame api' l,
    handle_modbus_pdu (replicate 260 85) (request 15 2 9 [2; 165; 1]) 15 (Some plain_api) =
      Ret (Some frame, Some api') /\
    handle_modbus_pdu (replicate 260 85) (request 1 2 9 [0]) 12 (Some api') =
      Ret (Some (reply_frame (request 1 2 9 [0]) 1 (Z.of_nat (length l) :: l)), Some api') /\
    packs 9 (packed_bit [165; 1]) l.
Proof.
  refine (modbus_coils_roundtrip (replicate 260 85) (request 15 2 9 [2; 165; 1]) 15
    (request 1 2 9 [0]) 12 plain_api [1; 0; 1; 1; 0; 0; 0; 1; 0; 2; 1] _ _ _ _ _ _ _ _ _ _ _ _ _ _ _ _).
  all: try reflexivity; try exact plain_api_good; try solve_request; vm_compute; discriminate.
Defined.

(** ** Holding registers *)

Lemma registers_loop_ok n i start data r :
  0 <= i -> 0 <= start -> start + i + Z.of_nat n <= Z.of_nat (length data) -> start + i + Z.of_nat n < 65536 ->
  9 + 2 * (i + Z.of_nat n) <= Z.of_nat (length r) ->
  exists r', registers_loop n i start data r = Ret r' /\ length r' = length r /\
    take (Z.to_nat (9 + 2 * i)) r' = take (Z.to_nat (9 + 2 * i)) r /\
    take (2 * n) (drop (Z.to_nat (9 + 2 * i)) r') =
      flat_map be16_bytes (take n (drop (Z.to_nat (start + i)) data)).
Proof.
  revert i r. induction n as [|n IH]; intros i r Hi Hs Hd Hw Hr.
  - exists r. rewrite take_0. repeat split.
  - cbn [registers_loop]. rewrite u16_small by lia.
    destruct (lookup_lt_is_Some_2 data (Z.to_nat (start + i))) as [v Hv]; [lia|].
    rewrite (aget_lookup _ _ v) by (done || lia). cbn [mbind outcome_bind].
    rewrite store_be16_ok by lia. cbn [mbind outcome_bind].
    replace (Z.to_nat (9 + 2 * i + 1)) with (S (Z.to_nat (9 + 2 * i))) by lia.
    assert (Ha : (S (S (Z.to_nat (9 + 2 * i))) <= length r)%nat) by lia.
    assert (Ea : Z.to_nat (9 + 2 * (i + 1)) = S (S (Z.to_nat (9 + 2 * i)))) by lia.
    set (a := Z.to_nat (9 + 2 * i)) in *.
    set (r1 := <[S a := v mod 256]> (<[a := v / 256 mod 256]> r)).
    assert (Hr1 : length r1 = length r) by (unfold r1; by rewrite !length_insert).
    destruct (IH (i + 1) r1) as (r' & E & Hl & Ht & Hp); try lia.
    rewrite Ea in Ht, Hp.
    replace (Z.to_nat (start + (i + 1))) with (S (Z.to_nat (start + i))) in * by lia.
    assert (Ht2 : take (S (S a)) r1 = take a r ++ be16_bytes v).
    { unfold r1. rewrite take_insert_2 by (rewrite length_insert; lia).
      rewrite take_insert_2 by lia. by rewrite <- app_assoc. }
    exists r'. split; [exact E|]. split; [congruence|]. split.
    + transitivity (take a (take (S (S a)) r')); [rewrite take_take; f_equal; lia|].
      rewrite Ht, Ht2, take_app_le by (rewrite length_take; lia). rewrite take_take. f_equal. lia.
    + rewrite (drop_S data v) by done. cbn [take flat_map].
      replace (2 * S n)%nat with (2 + 2 * n)%nat by lia.
      rewrite take_drop_split. rewrite drop_drop.
      replace (a + 2)%nat with (S (S a)) by lia. rewrite Hp. f_equal.
      assert (Hdr : drop a (take (S (S a)) r') = be16_bytes v).
      { rewrite Ht, Ht2, drop_app_ge by (rewrite length_take; lia).
        rewrite length_take. by replace (a - a `min` length r)%nat with 0%nat by lia. }
      rewrite <- Hdr, take_drop_commute. do 2 f_equal. lia.
Qed.

(** A valid request to read up to 125 holding registers is answered by the values of
    the registers before the callback runs, each as two bytes, high byte first. *)
Theorem modbus_read_registers_correct stack buf len api d :
  length stack = 260%nat -> good_request buf len -> good_api api -> byte_at buf 7 = 3 ->
  holdings_data api = Some d -> be16 buf 10 <= 125 ->
  be16 buf 8 < holdings_size api -> be16 buf 8 + be16 buf 10 <= holdings_size api ->
  handle_modbus_pdu stack buf len (Some api) =
  Ret (Some (reply_frame buf 3 (2 * be16 buf 10 ::
               flat_map be16_bytes (take (Z.to_nat (be16 buf 10)) (drop (Z.to_nat (be16 buf 8)) d)))),
       Some (set_holdings (run_cb (holdings_cb api) (be16 buf 8) (be16 buf 8) d (be16 buf 10)) api)).
Proof.
  intros Hst Hg Ha Hf Hd Hn Hs1 Hs2. destruct (request_words _ _ Hg) as (E8 & E10 & H8 & H10).
  pose proof (good_holdings _ Ha d Hd) as Hl. destruct (good_sizes _ Ha) as (_ & _ & S3).
  destruct (handle_branch stack buf len api Hst Hg) as (r & Hw & ->). pose proof Hw as (Hr & Hq & Ht8).
  rewrite Hf. unfold dispatch; cbn [Z.eqb Pos.eqb]. unfold read_holding_registers.
  rewrite E8, E10, Hd. cbn [mbind outcome_bind].
  destruct (Z.ltb_spec (be16 buf 8) (holdings_size api)),
    (Z.leb_spec (be16 buf 8 + be16 buf 10) (holdings_size api)); try lia. cbn [andb].
  destruct (Z.ltb_spec (be16 buf 10 * 2 + 9) response_size) as [|Hx]; [|unfold response_size in Hx; lia].
  destruct (registers_loop_ok (Z.to_nat (be16 buf 10)) 0 (be16 buf 8) d r)
    as (r1 & E & Hl1 & Ht & Hp); try lia.
  rewrite E. cbn [mbind outcome_bind]. rewrite aset_in by lia. cbn [mbind outcome_bind].
  rewrite u8_small by lia. replace (be16 buf 10 * 2) with (2 * be16 buf 10) by lia.
  set (n := Z.to_nat (be16 buf 10)) in *. rewrite (Z.add_0_r (be16 buf 8)) in Hp.
  set (l := flat_map be16_bytes _) in *.
  change (Z.to_nat (9 + 2 * 0)) with 9%nat in *. change (Z.to_nat 8) with 8%nat.
  assert (Hll : length l = (2 * n)%nat).
  { rewrite <- Hp, length_take, length_drop. lia. }
  rewrite (finish_ok buf _ (2 * be16 buf 10 :: l)); try by left.
  - by rewrite Hf.
  - split; [rewrite length_insert; lia|]. split; [done|]. rewrite take_insert_ge by lia.
    rewrite <- Ht8. change 8%nat with (8 `min` 9)%nat. by rewrite <- !take_take, Ht.
  - simpl length. lia.
  - simpl length. lia.
  - simpl length. rewrite drop_insert_ge, Nat.sub_diag by lia.
    destruct (drop 8 r1) as [|x t] eqn:Ex; [apply (f_equal length) in Ex; rewrite length_drop in Ex; simpl in Ex; lia|].
    cbn [insert list_insert take]. f_equal. rewrite Hll, <- Hp.
    change 9%nat with (8 + 1)%nat. by rewrite <- drop_drop, Ex.
Qed.

Theorem modbus_read_registers_correct_witness :
  handle_modbus_pdu (replicate 260 85) (request 3 1 2 [0]) 12 (Some sample_api) =
  Ret (Some (reply_frame (request 3 1 2 [0]) 3 [4; 3; 4; 18; 52]), Some sample_api).
Proof.
  refine (modbus_read_registers_correct (replicate 260 85) (request 3 1 2 [0]) 12 sample_api
    [258; 772; 4660] _ _ _ _ _ _ _ _).
  all: try reflexivity; try exact sample_api_good; try solve_request; vm_compute; discriminate.
Defined.

(** ** Which requests are served *)

Definition range_ok (data : option (list Z)) (size start num : Z) : bool :=
  match data with Some _ => (start <? size) && (start + num <=? size) | None => false end.

(** Reference: the requests the server serves; a request to read no input registers is
    answered although the function is not implemented. *)
Definition served (api : ModbusTcpApi) (buf : list Z) (len : Z) : bool :=
  let start := be16 buf 8 in
  let num := be16 buf 10 in
  match byte_at buf 7 with
  | 1 => range_ok (coils_data api) (coils_size api) start num && (num <=? 2000)
  | 2 => range_ok (discrete_inputs_data api) (discrete_inputs_size api) start num && (num <=? 2000)
  | 3 => range_ok (holdings_data api) (holdings_size api) start num && (num <=? 125)
  | 4 => num =? 0
  | 5 => range_ok (coils_data api) (coils_size api) start 0 && ((num =? 0) || (num =? 65280))
  | 15 => range_ok (coils_data api) (coils_size api) start num &&
      (byte_at buf 12 =? (num + 7) / 8) && (byte_at buf 12 + 13 <=? len)
  | _ => false
  end.

(** What a branch leaves when the request is served, and when it is not. *)
Definition branch_ok (req : list Z) (api : ModbusTcpApi) (ok : bool) (b : branch) : Prop :=
  exists r L s api', b = Ret (r, L, s, api') /\ good_api api' /\
    if ok then exists payload, (length payload <= 252)%nat /\
      finish r L s = Ret (reply_frame req (byte_at req 7) payload)
    else api' = api /\ finish r L s = Ret (exception_frame req).

Lemma failed_ok req api r : good_api api -> well_started req r -> branch_ok req api false (failed r api).
Proof.
  intros Ha Hw. exists r, 0, false, api. split; [done|]. split; [done|]. split; [done|].
  by apply finish_failed.
Qed.

Lemma good_set_coils api d d' : good_api api -> coils_data api = Some d -> length d' = length d ->
  good_api (set_coils d' api).
Proof.
  intros [G1 G2 G3 G4 G5] Hd Hl. split; simpl; try done. intros x [= <-]. rewrite Hl. by apply G1.
Qed.
Lemma good_set_inputs api d d' : good_api api -> discrete_inputs_data api = Some d -> length d' = length d ->
  good_api (set_inputs d' api).
Proof.
  intros [G1 G2 G3 G4 G5] Hd Hl. split; simpl; try done. intros x [= <-]. rewrite Hl. by apply G2.
Qed.
Lemma good_set_holdings api d d' : good_api api -> holdings_data api = Some d -> length d' = length d ->
  good_api (set_holdings d' api).
Proof.
  intros [G1 G2 G3 G4 G5] Hd Hl. split; simpl; try done. intros x [= <-]. rewrite Hl. by apply G3.
Qed.

Lemma pack_ok req d r start num size api api' :
  well_started req r -> 0 <= start -> 0 <= num <= 2040 -> size <= Z.of_nat (length d) -> size < 65536 ->
  start + num <= size -> good_api api -> good_api api' ->
  branch_ok req api (num <=? 2000)
    (if u8 ((num + 7) / 8) + 9 <? response_size then
       '(r, L) ← pack_response d r start num (u8 ((num + 7) / 8)); Ret (r, L, true, api')
     else failed r api).
Proof.
  intros Hw Hs Hn Hd Hsz Hr Ha Ha'. rewrite u8_small by word. unfold response_size.
  destruct (Z.leb_spec num 2000), (Z.ltb_spec ((num + 7) / 8 + 9) 260); try word; [|by apply failed_ok].
  destruct (pack_response_ok req d r start num) as (r' & l & -> & Hw' & Hp & Ht); try lia; [done|].
  cbn [mbind outcome_bind]. eexists _, _, true, api'. split; [done|]. split; [done|].
  pose proof Hp as (Hl & _ & _). exists ((num + 7) / 8 :: l). split; [simpl; word|].
  apply finish_ok; [done| | |done|by left].
  - simpl length. lia.
  - simpl length. word.
Qed.

Lemma echo_branch_ok req api api' r a b : well_started req r -> good_api api' ->
  branch_ok req api true (r ← echo_words r a b; Ret (r, 12, true, api')).
Proof.
  intros Hw Ha. destruct (echo_ok req r a b Hw) as (r' & -> & Hw' & Ht). cbn [mbind outcome_bind].
  eexists _, _, true, api'. split; [done|]. split; [done|].
  exists (be16_bytes a ++ be16_bytes b). split; [simpl; lia|].
  apply finish_ok; [done|done|simpl; lia|done|by left].
Qed.

Lemma echo_failed_ok req api r a b : well_started req r -> good_api api ->
  branch_ok req api false (r ← echo_words r a b; Ret (r, 12, false, api)).
Proof.
  intros Hw Ha. destruct (echo_ok req r a b Hw) as (r' & -> & Hw' & Ht). cbn [mbind outcome_bind].
  eexists _, _, false, api. split; [done|]. split; [done|]. split; [done|]. by apply finish_failed.
Qed.

Lemma read_coils_branch req api r start num :
  good_api api -> well_started req r -> load_be16 req 8 = Ret start -> load_be16 req 10 = Ret num ->
  0 <= start -> 0 <= num <= 2040 ->
  branch_ok req api (range_ok (coils_data api) (coils_size api) start num && (num <=? 2000))
    (read_coils api req r).
Proof.
  intros Ha Hw E8 E10 Hs Hn. unfold read_coils, range_ok. rewrite E8, E10. cbn [mbind outcome_bind].
  destruct (coils_data api) as [d|] eqn:Ed; [|by apply failed_ok].
  destruct (Z.ltb_spec start (coils_size api)), (Z.leb_spec (start + num) (coils_size api));
    try by apply failed_ok. cbn [andb].
  destruct (good_cbs _ Ha) as (C1 & _). pose proof (good_coils _ Ha d Ed). destruct (good_sizes _ Ha).
  apply pack_ok with (coils_size api); try done; [by apply data_length|].
  by apply good_set_coils with d.
Qed.

Lemma read_inputs_branch req api r start num :
  good_api api -> well_started req r -> load_be16 req 8 = Ret start -> load_be16 req 10 = Ret num ->
  0 <= start -> 0 <= num <= 2040 ->
  branch_ok req api (range_ok (discrete_inputs_data api) (discrete_inputs_size api) start num && (num <=? 2000))
    (read_discrete_inputs api req r).
Proof.
  intros Ha Hw E8 E10 Hs Hn. unfold read_discrete_inputs, range_ok. rewrite E8, E10. cbn [mbind outcome_bind].
  destruct (discrete_inputs_data api) as [d|] eqn:Ed; [|by apply failed_ok].
  destruct (Z.ltb_spec start (discrete_inputs_size api)), (Z.leb_spec (start + num) (discrete_inputs_size api));
    try by apply failed_ok. cbn [andb].
  destruct (good_cbs _ Ha) as (_ & _ & C & _). pose proof (good_inputs _ Ha d Ed).
  destruct (good_sizes _ Ha) as (_ & S2 & _).
  apply pack_ok with (discrete_inputs_size api); try done; [by apply data_length|].
  by apply good_set_inputs with d.
Qed.

Lemma write_single_branch req api r start num :
  good_api api -> well_started req r -> load_be16 req 8 = Ret start -> load_be16 req 10 = Ret num ->
  0 <= start -> branch_ok req api (range_ok (coils_data api) (coils_size api) start 0 && ((num =? 0) || (num =? 65280)))
    (write_single_coil api req r).
Proof.
  intros Ha Hw E8 E10 Hs. unfold write_single_coil, range_ok. rewrite E8, E10. cbn [mbind outcome_bind].
  destruct (coils_data api) as [d|] eqn:Ed; [|by apply failed_ok].
  destruct (Z.ltb_spec start (coils_size api)); [|by apply failed_ok].
  destruct (Z.leb_spec (start + 0) (coils_size api)); [|lia]. cbn [andb].
  destruct (_ || _); [|by apply failed_ok].
  pose proof (good_coils _ Ha d Ed). rewrite aset_in by lia. cbn [mbind outcome_bind].
  destruct (good_cbs _ Ha) as (_ & C & _).
  apply echo_branch_ok; [done|]. apply good_set_coils with d; [done|done|].
  by rewrite C, length_insert.
Qed.

Lemma write_coils_branch req len api r start num :
  good_api api -> well_started req r -> good_request req len ->
  load_be16 req 8 = Ret start -> load_be16 req 10 = Ret num ->
  0 <= start -> 0 <= num <= 2040 ->
  branch_ok req api (range_ok (coils_data api) (coils_size api) start num &&
      (byte_at req 12 =? (num + 7) / 8) && (byte_at req 12 + 13 <=? len))
    (write_multiple_coils api req len r).
Proof.
  intros Ha Hw [Hb Hl Hk] E8 E10 Hs Hn. unfold write_multiple_coils, range_ok. rewrite E8, E10.
  cbn [mbind outcome_bind].
  destruct (coils_data api) as [d|] eqn:Ed; [|by apply failed_ok].
  destruct (Z.ltb_spec start (coils_size api)), (Z.leb_spec (start + num) (coils_size api));
    try by apply failed_ok. cbn [andb].
  rewrite aget_byte_at by lia. cbn [mbind outcome_bind]. rewrite u8_small by word.
  destruct (Z.eqb_spec (byte_at req 12) ((num + 7) / 8)) as [Eb|], (Z.leb_spec (byte_at req 12 + 13) len);
    try by apply failed_ok. cbn [andb].
  pose proof (good_coils _ Ha d Ed). destruct (good_sizes _ Ha).
  destruct (unpack_loop_ok (Z.to_nat num) 0 start req d) as (d' & -> & Hl' & _); try lia.
  { rewrite Z2Nat.id, Z.add_0_l by lia. lia. }
  cbn [mbind outcome_bind]. destruct (good_cbs _ Ha) as (_ & C & _).
  apply echo_branch_ok; [done|]. apply good_set_coils with d; [done|done|]. by rewrite C.
Qed.

Lemma read_registers_branch req api r start num :
  good_api api -> well_started req r -> load_be16 req 8 = Ret start -> load_be16 req 10 = Ret num ->
  0 <= start -> 0 <= num ->
  branch_ok req api (range_ok (holdings_data api) (holdings_size api) start num && (num <=? 125))
    (read_holding_registers api req r).
Proof.
  intros Ha Hw E8 E10 Hs Hn. unfold read_holding_registers, range_ok. rewrite E8, E10.
  cbn [mbind outcome_bind].
  destruct (holdings_data api) as [d|] eqn:Ed; [|by apply failed_ok].
  destruct (Z.ltb_spec start (holdings_size api)), (Z.leb_spec (start + num) (holdings_size api));
    try by apply failed_ok. cbn [andb]. unfold response_size.
  destruct (Z.leb_spec num 125), (Z.ltb_spec (num * 2 + 9) 260); try lia; [|by apply failed_ok].
  pose proof (good_holdings _ Ha d Ed). destruct (good_sizes _ Ha) as (_ & _ & S3).
  pose proof Hw as (Hr & Hq & Ht8).
  destruct (registers_loop_ok (Z.to_nat num) 0 start d r) as (r1 & -> & Hl1 & Ht & _); try lia.
  cbn [mbind outcome_bind]. rewrite aset_in by lia. cbn [mbind outcome_bind]. rewrite u8_small by lia.
  destruct (good_cbs _ Ha) as (_ & _ & _ & C).
  eexists _, _, true, _. split; [done|]. split; [by apply good_set_holdings with d|].
  eexists (take (S (2 * Z.to_nat num)) (drop 8 (<[Z.to_nat 8 := num * 2]> r1))).
  assert (Hpl : length (take (S (2 * Z.to_nat num)) (drop 8 (<[Z.to_nat 8 := num * 2]> r1))) =
    S (2 * Z.to_nat num)) by (rewrite length_take, length_drop, length_insert; lia).
  split; [rewrite Hpl; lia|]. apply finish_ok; [|lia|lia|by rewrite Hpl|by left].
  split; [rewrite length_insert; lia|]. split; [done|]. rewrite take_insert_ge by lia.
  rewrite <- Ht8. change (Z.to_nat (9 + 2 * 0)) with 9%nat in Ht.
  change 8%nat with (8 `min` 9)%nat. by rewrite <- !take_take, Ht.
Qed.

Lemma read_input_registers_branch req api r num :
  good_api api -> well_started req r -> load_be16 req 10 = Ret num -> 0 <= num ->
  branch_ok req api (num =? 0) (read_input_registers api req r).
Proof.
  intros Ha Hw E10 Hn. unfold read_input_registers, response_size. rewrite E10. cbn [mbind outcome_bind].
  pose proof Hw as (Hr & Hq & Ht8).
  destruct (Z.ltb_spec (num * 2 + 9) 260).
  2: { destruct (Z.eqb_spec num 0); [lia|]. by apply failed_ok. }
  rewrite u8_small by lia. rewrite aset_in by lia. cbn [mbind outcome_bind].
  assert (Hw' : well_started req (<[Z.to_nat 8 := num * 2]> r)).
  { split; [rewrite length_insert; lia|]. split; [done|]. by rewrite take_insert_ge by lia. }
  exists (<[Z.to_nat 8 := num * 2]> r), (9 + num * 2), false, api. split; [done|]. split; [done|].
  destruct (Z.eqb_spec num 0) as [->|].
  - exists [0]. split; [simpl; lia|]. apply finish_ok; [done|done|simpl; lia| |by right].
    destruct (destruct_8 r) as (a0 & a1 & a2 & a3 & a4 & a5 & a6 & a7 & r' & ->); [lia|].
    destruct r'; [simpl in Hr; lia|]. done.
  - split; [done|]. apply finish_failed; [done|lia].
Qed.

Lemma dispatch_ok req len api r :
  good_api api -> well_started req r -> good_request req len ->
  (byte_at req 7 = 1 \/ byte_at req 7 = 2 \/ byte_at req 7 = 15 -> be16 req 10 <= 2040) ->
  branch_ok req api (served api req len) (dispatch (byte_at req 7) api req len r).
Proof.
  intros Ha Hw Hg Hn. destruct (request_words _ _ Hg) as (E8 & E10 & H8 & H10).
  unfold dispatch, served.
  destruct (Z.eqb_spec (byte_at req 7) 2) as [Ef|N2]; [rewrite Ef; apply read_inputs_branch; try done; specialize (Hn ltac:(auto)); lia|].
  destruct (Z.eqb_spec (byte_at req 7) 1) as [Ef|N1]; [rewrite Ef; apply read_coils_branch; try done; specialize (Hn ltac:(auto)); lia|].
  destruct (Z.eqb_spec (byte_at req 7) 5) as [->|N5]; [apply write_single_branch; done || lia|].
  destruct (Z.eqb_spec (byte_at req 7) 6) as [->|N6].
  { unfold write_single_register. rewrite E8, E10. cbn [mbind outcome_bind]. by apply echo_failed_ok. }
  destruct (Z.eqb_spec (byte_at req 7) 15) as [Ef|N15]; [rewrite Ef; apply write_coils_branch; try done; specialize (Hn ltac:(auto)); lia|].
  destruct (Z.eqb_spec (byte_at req 7) 16) as [->|N16].
  { unfold write_multiple_registers. rewrite E8, E10. cbn [mbind outcome_bind].
    destruct (_ <? _); [by apply echo_failed_ok|by apply failed_ok]. }
  destruct (Z.eqb_spec (byte_at req 7) 3) as [->|N3]; [apply read_registers_branch; done || lia|].
  destruct (Z.eqb_spec (byte_at req 7) 4) as [->|N4]; [apply read_input_registers_branch; done || lia|].
  assert (match byte_at req 7 with
   | 1 => range_ok (coils_data api) (coils_size api) (be16 req 8) (be16 req 10) && (be16 req 10 <=? 2000)
   | 2 => range_ok (discrete_inputs_data api) (discrete_inputs_size api) (be16 req 8) (be16 req 10) && (be16 req 10 <=? 2000)
   | 3 => range_ok (holdings_data api) (holdings_size api) (be16 req 8) (be16 req 10) && (be16 req 10 <=? 125)
   | 4 => be16 req 10 =? 0
   | 5 => range_ok (coils_data api) (coils_size api) (be16 req 8) 0 && ((be16 req 10 =? 0) || (be16 req 10 =? 65280))
   | 15 => range_ok (coils_data api) (coils_size api) (be16 req 8) (be16 req 10) &&
      (byte_at req 12 =? (be16 req 10 + 7) / 8) && (byte_at req 12 + 13 <=? len)
   | _ => false
   end = false) as -> by (repeat case_match; done).
  by apply failed_ok.
Qed.

(** C1: apart from the counts whose byte count does not fit 8 bits, every request of at
    least 12 bytes gets exactly one reply, never a fault: served requests get a frame of
    their own function of at most 260 bytes, all others the exception frame, with the
    application's data unchanged. *)
Theorem modbus_every_request_answered stack buf len api :
  length stack = 260%nat -> good_request buf len -> good_api api ->
  (byte_at buf 7 = 1 \/ byte_at buf 7 = 2 \/ byte_at buf 7 = 15 -> be16 buf 10 <= 2040) ->
  exists frame api', handle_modbus_pdu stack buf len (Some api) = Ret (Some frame, Some api') /\
    good_api api' /\
    if served api buf len
    then exists payload, (length payload <= 252)%nat /\ frame = reply_frame buf (byte_at buf 7) payload
    else frame = exception_frame buf /\ api' = api.
Proof.
  intros Hst Hg Ha Hn. destruct (handle_branch stack buf len api Hst Hg) as (r & Hw & ->).
  destruct (dispatch_ok buf len api r Ha Hw Hg Hn) as (r' & L & s & api' & -> & Ha' & H).
  cbn [mbind outcome_bind]. destruct (served api buf len).
  - destruct H as (payload & Hp & ->). eexists _, api'. split; [done|]. split; [done|]. eauto.
  - destruct H as (-> & ->). eexists _, api. by split.
Qed.

Theorem modbus_every_request_answered_witness :
  exists frame api', handle_modbus_pdu (replicate 260 85) (request 1 11 1 [0]) 12 (Some sample_api) =
      Ret (Some frame, Some api') /\
    good_api api' /\ frame = [18; 52; 0; 0; 0; 3; 7; 129; 4] /\ api' = sample_api.
Proof.
  exact (modbus_every_request_answered (replicate 260 85) (request 1 11 1 [0]) 12 sample_api
    eq_refl ltac:(solve_request) sample_api_good ltac:(intros _; vm_compute; discriminate)).
Defined.

(** The byte count of a request for 2041 to 4048 bits is truncated to 8 bits and
    passes the size check; the handler then packs beyond the end of the 260 bytes of the
    response. *)
Theorem modbus_read_bits_overflow stack buf len api d :
  length stack = 260%nat -> good_request buf len -> good_api api ->
  byte_at buf 7 = 1 -> coils_data api = Some d -> 2041 <= be16 buf 10 <= 4048 ->
  be16 buf 8 + be16 buf 10 <= coils_size api ->
  handle_modbus_pdu stack buf len (Some api) = Fault.
Proof.
  intros Hst Hg Ha Hf Hd Hn Hs. destruct (request_words _ _ Hg) as (E8 & E10 & H8 & H10).
  destruct (handle_branch stack buf len api Hst Hg) as (r & Hw & ->). pose proof Hw as (Hr & _ & _).
  rewrite Hf. unfold dispatch; cbn [Z.eqb Pos.eqb]. unfold read_coils. rewrite E8, E10, Hd.
  cbn [mbind outcome_bind].
  destruct (Z.ltb_spec (be16 buf 8) (coils_size api)),
    (Z.leb_spec (be16 buf 8 + be16 buf 10) (coils_size api)); try lia. cbn [andb].
  assert (Hnb : 0 <= u8 ((be16 buf 10 + 7) / 8) <= 250) by word.
  destruct (Z.ltb_spec (u8 ((be16 buf 10 + 7) / 8) + 9) response_size) as [|Hx]; [|unfold response_size in Hx; lia].
  unfold pack_response.
  destruct (clear_bytes_ok r (u8 ((be16 buf 10 + 7) / 8))) as (r1 & -> & Hr1 & _ & _); [lia|lia|].
  cbn [mbind outcome_bind]. rewrite pack_loop_fault; [done|lia|lia|lia| | |lia].
  - destruct (good_cbs _ Ha) as (C1 & _). rewrite C1. pose proof (good_coils _ Ha d Hd). lia.
  - destruct (good_sizes _ Ha). lia.
Qed.

(** 2048 coils, all of them requested. *)
Definition many_coils : ModbusTcpApi :=
  mkApi (Some (replicate 2048 1)) 2048 None None None 0 None None 0 None.

Theorem modbus_read_bits_overflow_witness :
  handle_modbus_pdu (replicate 260 85) (request 1 0 2048 [0]) 12 (Some many_coils) = Fault.
Proof.
  refine (modbus_read_bits_overflow (replicate 260 85) (request 1 0 2048 [0]) 12 many_coils
    (replicate 2048 1) _ _ _ _ _ _ _); try reflexivity.
  - solve_request.
  - split; simpl; try (intros d [= <-]); [vm_compute; discriminate|lia|by repeat split].
  - split; vm_compute; discriminate.
Defined.

(** ** The event handler *)

(** What mongoose documents of [mg_iobuf_del(io, 0, n)]: the first [n] valid bytes go,
    the others move to the front. *)
Definition iobuf_del_ok (del : iobuf -> Z -> Z -> iobuf) : Prop :=
  forall io n, 0 <= n <= io_len io -> io_len io <= Z.of_nat (length (io_buf io)) ->
    io_len (del io 0 n) = io_len io - n /\ length (io_buf (del io 0 n)) = length (io_buf io) /\
    take (Z.to_nat (io_len io - n)) (io_buf (del io 0 n)) =
      take (Z.to_nat (io_len io - n)) (drop (Z.to_nat n) (io_buf io)).

(** C34: a read event with less than a whole frame buffered changes nothing and sends
    nothing; with a whole frame it handles that frame and takes exactly its bytes out of
    the receive buffer, leaving those of the next frame. *)
Theorem modbus_ev_handler_framing del stack recv api :
  iobuf_del_ok del -> length stack = 260%nat -> Forall in_u8 (io_buf recv) ->
  io_len recv <= Z.of_nat (length (io_buf recv)) -> 13 <= Z.of_nat (length (io_buf recv)) ->
  let size := be16 (io_buf recv) 4 + 6 in
  (io_len recv < 7 \/ io_len recv < size ->
     modbus_ev_handler del stack recv (Some api) = Ret (recv, Some api, None)) /\
  (7 <= io_len recv -> size <= io_len recv ->
     forall sent api', handle_modbus_pdu stack (io_buf recv) size (Some api) = Ret (sent, api') ->
     exists recv', modbus_ev_handler del stack recv (Some api) = Ret (recv', api', sent) /\
       io_len recv' = io_len recv - size /\
       take (Z.to_nat (io_len recv')) (io_buf recv') =
         take (Z.to_nat (io_len recv')) (drop (Z.to_nat size) (io_buf recv))).
Proof.
  intros Hdel Hst Hb Hl Hk size. unfold modbus_ev_handler.
  rewrite load_be16_ok by lia. cbn [mbind outcome_bind]. fold size.
  assert (0 <= size) by (pose proof (be16_range (io_buf recv) 4 Hb); unfold size; lia). split.
  - intros H'. destruct (Z.ltb_spec (io_len recv) 7); [done|].
    destruct (Z.ltb_spec (io_len recv) size); [done|lia].
  - intros H7 Hsz sent api' E. destruct (Z.ltb_spec (io_len recv) 7); [lia|].
    destruct (Z.ltb_spec (io_len recv) size); [lia|]. rewrite E. cbn [mbind outcome_bind].
    eexists. split; [done|]. destruct (Hdel recv size) as (D1 & _ & D2); [lia|done|].
    rewrite D1. done.
Qed.

(** An implementation of [mg_iobuf_del]. *)
Definition shift_iobuf (io : iobuf) (_ n : Z) : iobuf :=
  mkIobuf (drop (Z.to_nat n) (io_buf io) ++ replicate (length (take (Z.to_nat n) (io_buf io))) 0) (io_len io - n).

Lemma shift_iobuf_ok : iobuf_del_ok shift_iobuf.
Proof.
  intros io n Hn Hl. unfold shift_iobuf. simpl. split; [done|].
  split; [rewrite length_app, length_drop, length_replicate, length_take; lia|].
  rewrite take_app_le; [done|]. rewrite length_drop. lia.
Qed.

(** Two frames buffered: the first is answered, the second stays. *)
Definition two_frames : iobuf :=
  mkIobuf (request 1 0 3 [] ++ request 3 0 1 [] ++ [9; 9]) 24.

Theorem modbus_ev_handler_framing_witness :
  exists recv', modbus_ev_handler shift_iobuf (replicate 260 85) two_frames (Some plain_api) =
      Ret (recv', Some plain_api, Some [18; 52; 0; 0; 0; 4; 7; 1; 1; 5]) /\
    io_len recv' = 12 /\ take 12 (io_buf recv') = request 3 0 1 [].
Proof.
  destruct (proj2 (modbus_ev_handler_framing shift_iobuf (replicate 260 85) two_frames plain_api
      shift_iobuf_ok eq_refl ltac:(by apply bytesb_ok; vm_compute) ltac:(vm_compute; discriminate)
      ltac:(vm_compute; discriminate)) ltac:(vm_compute; discriminate) ltac:(vm_compute; discriminate)
    (Some [18; 52; 0; 0; 0; 4; 7; 1; 1; 5]) (Some plain_api) ltac:(vm_compute; reflexivity))
    as (recv' & E & Hl & Ht).
  exists recv'. split; [exact E|]. assert (Hl' : io_len recv' = 12) by (rewrite Hl; reflexivity).
  split; [exact Hl'|]. rewrite Hl' in Ht. exact Ht.
Defined.
