(* ===== verification/ModbusTypes.v ===== *)
(** * Types of the Modbus data (applications/services/net/modbus_tcp)

    C gives every coil and register a type that the model's integers do not have: coils are
    0 or 1, discrete inputs bytes, registers 16-bit values, and a frame is bytes. This file
    proves that the handler of [Modbus] keeps them, request after request. *)

From S2P Require Import Prelude Modbus.

(** [ensures o P]: [P] holds of what [o] returns, if it returns. *)
Definition ensures {A} (o : outcome A) (P : A -> Prop) : Prop := match o with Ret a => P a | _ => True end.

Lemma ensures_ret {A} (a : A) (P : A -> Prop) : P a -> ensures (Ret a) P.
Proof. done. Qed.
Lemma ensures_bind {A B} (m : outcome A) (k : A -> outcome B) (Q : A -> Prop) (P : B -> Prop) :
  ensures m Q -> (forall a, Q a -> ensures (k a) P) -> ensures (m ≫= k) P.
Proof. destruct m; cbn; auto. Qed.
Lemma ensures_any {A} (m : outcome A) : ensures m (fun _ => True).
Proof. by destruct m. Qed.
Lemma ensures_if {A} (c : bool) (m1 m2 : outcome A) (P : A -> Prop) :
  ensures m1 P -> ensures m2 P -> ensures (if c then m1 else m2) P.
Proof. by destruct c. Qed.

(** ** The types *)

Definition is_bit (z : Z) : Prop := z = 0 \/ z = 1.
Definition cb_keeps (P : Z -> Prop) (cb : option callback) : Prop :=
  forall start off data num, Forall P data -> Forall P (run_cb cb start off data num).

Record typed_api (a : ModbusTcpApi) : Prop := {
  typed_coils : forall d, coils_data a = Some d -> Forall is_bit d;
  typed_inputs : forall d, discrete_inputs_data a = Some d -> Forall in_u8 d;
  typed_holdings : forall d, holdings_data a = Some d -> Forall in_u16 d;
  typed_cbs : cb_keeps is_bit (coils_read_cb a) /\ cb_keeps is_bit (coils_write_cb a) /\
    cb_keeps in_u8 (discrete_inputs_cb a) /\ cb_keeps in_u16 (holdings_cb a)
}.

(** What is fixed when the server starts. *)
Definition same_server (a a' : ModbusTcpApi) : Prop :=
  coils_size a' = coils_size a /\ holdings_size a' = holdings_size a /\
  discrete_inputs_size a' = discrete_inputs_size a /\
  coils_read_cb a' = coils_read_cb a /\ coils_write_cb a' = coils_write_cb a /\
  holdings_cb a' = holdings_cb a /\ discrete_inputs_cb a' = discrete_inputs_cb a /\
  (is_Some (coils_data a') <-> is_Some (coils_data a)) /\
  (is_Some (holdings_data a') <-> is_Some (holdings_data a)) /\
  (is_Some (discrete_inputs_data a') <-> is_Some (discrete_inputs_data a)).

Lemma same_server_refl a : same_server a a.
Proof. by repeat split. Qed.
Lemma same_server_trans a b c : same_server a b -> same_server b c -> same_server a c.
Proof. unfold same_server. intuition congruence. Qed.

Lemma typed_set_coils a d d' : typed_api a -> coils_data a = Some d -> Forall is_bit d' ->
  typed_api (set_coils d' a) /\ same_server a (set_coils d' a).
Proof.
  intros [T1 T2 T3 T4] Hd Hd'. split.
  - split; cbn; try done; by intros x [= <-].
  - repeat split; cbn; done.
Qed.
Lemma typed_set_inputs a d d' : typed_api a -> discrete_inputs_data a = Some d -> Forall in_u8 d' ->
  typed_api (set_inputs d' a) /\ same_server a (set_inputs d' a).
Proof.
  intros [T1 T2 T3 T4] Hd Hd'. split.
  - split; cbn; try done; by intros x [= <-].
  - repeat split; cbn; done.
Qed.
Lemma typed_set_holdings a d d' : typed_api a -> holdings_data a = Some d -> Forall in_u16 d' ->
  typed_api (set_holdings d' a) /\ same_server a (set_holdings d' a).
Proof.
  intros [T1 T2 T3 T4] Hd Hd'. split.
  - split; cbn; try done; by intros x [= <-].
  - repeat split; cbn; done.
Qed.

(** ** Bytes *)

Lemma u8_in z : in_u8 (u8 z).
Proof. apply u8_range. Qed.
Lemma mod_in_u8 z : in_u8 (z mod 256).
Proof. apply u8_range. Qed.
Lemma lor_in_u8 a b : in_u8 a -> in_u8 b -> in_u8 (Z.lor a b).
Proof.
  unfold in_u8. intros [A1 A2] [B1 B2]. assert (0 <= Z.lor a b) by by apply Z.lor_nonneg.
  split; [done|]. destruct (Z.eq_dec (Z.lor a b) 0) as [->|]; [lia|].
  apply Z.log2_lt_pow2; [lia|]. rewrite Z.log2_lor by done. apply Z.max_lub_lt.
  - destruct (Z.eq_dec a 0) as [->|]; [cbn; lia|apply Z.log2_lt_pow2; lia].
  - destruct (Z.eq_dec b 0) as [->|]; [cbn; lia|apply Z.log2_lt_pow2; lia].
Qed.
Lemma aset_forall {A} (P : A -> Prop) l i x : Forall P l -> P x -> ensures (aset l i x) (Forall P).
Proof. intros Hl Hx. unfold aset. destruct (_ || _); [done|]. by apply Forall_insert. Qed.
Lemma aget_forall {A} (P : A -> Prop) l i : Forall P l -> ensures (aget l i) P.
Proof.
  intros Hl. unfold aget. destruct (i <? 0); [done|]. destruct (l !! Z.to_nat i) as [z|] eqn:E; [|done]. cbn. by apply (Forall_lookup_1 P l (Z.to_nat i) z Hl).
Qed.
Lemma store_be16_bytes l i v : Forall in_u8 l -> ensures (store_be16 l i v) (Forall in_u8).
Proof.
  intros Hl. unfold store_be16. eapply ensures_bind; [apply aset_forall; [done|apply mod_in_u8]|].
  intros l' Hl'. apply aset_forall; [done|apply mod_in_u8].
Qed.
Lemma copy_head_bytes n l l' : Forall in_u8 l -> Forall in_u8 l' -> ensures (copy_head n l l') (Forall in_u8).
Proof. intros H1 H2. unfold copy_head. destruct (_ || _); [done|]. apply Forall_app. split; [by apply Forall_take|by apply Forall_drop]. Qed.
Lemma clear_bytes_bytes l i n : Forall in_u8 l -> ensures (clear_bytes l i n) (Forall in_u8).
Proof.
  intros Hl. unfold clear_bytes. destruct (_ || _); [done|]. apply Forall_app. split; [by apply Forall_take|].
  apply Forall_app. split; [apply Forall_replicate; split; lia|by apply Forall_drop].
Qed.

Lemma pack_loop_bytes n i start data r : Forall in_u8 r -> ensures (pack_loop n i start data r) (Forall in_u8).
Proof.
  revert i r. induction n as [|n IH]; intros i r Hr; [done|]. cbn [pack_loop].
  eapply ensures_bind; [apply ensures_any|]. intros v _. eapply ensures_bind; [apply ensures_any|]. intros b _.
  eapply ensures_bind; [apply aset_forall; [done|apply u8_in]|]. intros r' Hr'. by apply IH.
Qed.
Lemma registers_loop_bytes n i start data r : Forall in_u8 r -> ensures (registers_loop n i start data r) (Forall in_u8).
Proof.
  revert i r. induction n as [|n IH]; intros i r Hr; [done|]. cbn [registers_loop].
  eapply ensures_bind; [apply ensures_any|]. intros v _.
  eapply ensures_bind; [by apply store_be16_bytes|]. intros r' Hr'. by apply IH.
Qed.
Lemma unpack_loop_bits n i start buf coils : Forall is_bit coils -> ensures (unpack_loop n i start buf coils) (Forall is_bit).
Proof.
  revert i coils. induction n as [|n IH]; intros i coils Hc; [done|]. cbn [unpack_loop].
  eapply ensures_bind; [apply ensures_any|]. intros v _.
  eapply ensures_bind; [apply aset_forall; [done|]|intros c' Hc'; by apply IH].
  unfold is_bit. pose proof (Z.land_ones (Z.shiftr v (u8 (i mod 8))) 1 ltac:(lia)) as E. change (Z.ones 1) with 1 in E.
  rewrite E. change (2 ^ 1) with 2. pose proof (Z.mod_pos_bound (Z.shiftr v (u8 (i mod 8))) 2). lia.
Qed.

(** ** The functions *)

(** What a branch leaves has its types. *)
Definition branch_typed (api : ModbusTcpApi) (b : branch) : Prop :=
  ensures b (fun '(r, _, _, api') => Forall in_u8 r /\ typed_api api' /\ same_server api api').

Lemma failed_typed api r : Forall in_u8 r -> typed_api api -> branch_typed api (failed r api).
Proof. intros Hr Ha. split; [done|]. split; [done|apply same_server_refl]. Qed.

Lemma any_bind {A} api (m : outcome A) k : (forall a, branch_typed api (k a)) -> branch_typed api (m ≫= k).
Proof. intros Hk. eapply ensures_bind; [apply ensures_any|]. intros a _. apply Hk. Qed.
Lemma if_typed (c : bool) api b1 b2 : branch_typed api b1 -> branch_typed api b2 -> branch_typed api (if c then b1 else b2).
Proof. apply ensures_if. Qed.

Lemma echo_words_typed r a b : Forall in_u8 r -> ensures (echo_words r a b) (Forall in_u8).
Proof. intros Hr. eapply ensures_bind; [by apply store_be16_bytes|]. intros. by apply store_be16_bytes. Qed.

Lemma echo_typed r a b s api api' : Forall in_u8 r -> typed_api api' -> same_server api api' ->
  branch_typed api (r ← echo_words r a b; Ret (r, 12, s, api')).
Proof.
  intros Hr Ha Hs. eapply ensures_bind; [by apply echo_words_typed|]. intros r' Hr'. by split.
Qed.

Lemma pack_typed data r start num n api api' : Forall in_u8 r -> in_u8 n -> typed_api api' -> same_server api api' ->
  branch_typed api ('(r, L) ← pack_response data r start num n; Ret (r, L, true, api')).
Proof.
  intros Hr Hn Ha Hs. apply (ensures_bind _ _ (fun '(r', _) => Forall in_u8 r')).
  - eapply ensures_bind; [by apply clear_bytes_bytes|]. intros r1 H1.
    eapply ensures_bind; [by apply pack_loop_bytes|]. intros r2 H2.
    eapply ensures_bind; [by apply aset_forall|]. intros r3 H3. exact H3.
  - intros [r' L] Hr'. by split.
Qed.

Lemma dispatch_typed func api buf len r : typed_api api -> Forall in_u8 r -> branch_typed api (dispatch func api buf len r).
Proof.
  intros Ha Hr. pose proof Ha as [T1 T2 T3 (C1 & C2 & C3 & C4)]. pose proof (failed_typed api r Hr Ha) as Hf.
  unfold dispatch. repeat apply if_typed; try exact Hf.
  - unfold read_discrete_inputs. apply any_bind; intros start. apply any_bind; intros num.
    destruct (discrete_inputs_data api) as [d|] eqn:Ed; [|done]. repeat apply if_typed; try done.
    destruct (typed_set_inputs api d (run_cb (discrete_inputs_cb api) start 0 d num) Ha Ed) as [Ht Hs]; [apply C3, T2, eq_refl|].
    apply pack_typed; try done. apply u8_in.
  - unfold read_coils. apply any_bind; intros start. apply any_bind; intros num.
    destruct (coils_data api) as [d|] eqn:Ed; [|done]. repeat apply if_typed; try done.
    destruct (typed_set_coils api d (run_cb (coils_read_cb api) start start d num) Ha Ed) as [Ht Hs]; [apply C1, T1, eq_refl|].
    apply pack_typed; try done. apply u8_in.
  - unfold write_single_coil. apply any_bind; intros start. apply any_bind; intros value.
    destruct (coils_data api) as [d|] eqn:Ed; [|done]. repeat apply if_typed; try done.
    eapply ensures_bind; [apply (aset_forall is_bit); [apply T1, eq_refl|destruct (_ =? _); [by right|by left]]|].
    intros d' Hd'. destruct (typed_set_coils api d (run_cb (coils_write_cb api) start start d' 1) Ha Ed) as [Ht Hs]; [by apply C2|].
    by apply echo_typed.
  - unfold write_single_register. apply any_bind; intros start. apply any_bind; intros value.
    apply echo_typed; [done..|apply same_server_refl].
  - unfold write_multiple_coils. apply any_bind; intros start. apply any_bind; intros num.
    destruct (coils_data api) as [d|] eqn:Ed; [|done]. apply if_typed; [|done]. apply any_bind; intros bc. apply if_typed; [|done].
    eapply ensures_bind; [apply unpack_loop_bits, T1, eq_refl|].
    intros d' Hd'. destruct (typed_set_coils api d (run_cb (coils_write_cb api) start start d' num) Ha Ed) as [Ht Hs]; [by apply C2|].
    by apply echo_typed.
  - unfold write_multiple_registers. apply any_bind; intros start. apply any_bind; intros num. apply if_typed; [|done].
    apply echo_typed; [done..|apply same_server_refl].
  - unfold read_holding_registers. apply any_bind; intros start. apply any_bind; intros num.
    destruct (holdings_data api) as [d|] eqn:Ed; [|done]. repeat apply if_typed; try done.
    destruct (typed_set_holdings api d (run_cb (holdings_cb api) start start d num) Ha Ed) as [Ht Hs]; [apply C4, T3, eq_refl|].
    eapply ensures_bind; [by apply registers_loop_bytes|]. intros r1 H1.
    eapply ensures_bind; [apply aset_forall; [done|apply u8_in]|]. intros r2 H2. by split.
  - unfold read_input_registers. apply any_bind; intros num. apply if_typed; [|done].
    eapply ensures_bind; [apply aset_forall; [done|apply u8_in]|]. intros r2 H2. split; [done|]. split; [done|apply same_server_refl].
Qed.

Lemma finish_typed r L s : Forall in_u8 r -> ensures (finish r L s) (Forall in_u8).
Proof.
  intros Hr. unfold finish. apply (ensures_bind _ _ (fun '(r', _) => Forall in_u8 r')).
  - apply ensures_if; [|done]. eapply ensures_bind; [by apply aget_forall|]. intros f Hf.
    eapply ensures_bind; [apply aset_forall; [done|apply lor_in_u8; [done|by split]]|]. intros r1 H1.
    eapply ensures_bind; [apply aset_forall; [done|by split]|]. intros r2 H2. exact H2.
  - intros [r' L'] Hr'. eapply ensures_bind; [by apply store_be16_bytes|]. intros r2 H2.
    apply ensures_if; [done|]. by apply Forall_take.
Qed.

(** The handler keeps the types, whatever the request. *)
Lemma handle_typed stack buf len api : Forall in_u8 stack -> Forall in_u8 buf -> typed_api api ->
  ensures (handle_modbus_pdu stack buf len (Some api)) (fun '(frame, context) =>
    (if frame is Some f then Forall in_u8 f else True) /\
    exists api', context = Some api' /\ typed_api api' /\ same_server api api').
Proof.
  intros Hst Hb Ha. unfold handle_modbus_pdu. apply ensures_if.
  { split; [done|]. exists api. split; [done|]. split; [done|apply same_server_refl]. }
  eapply ensures_bind; [apply ensures_any|]. intros f _.
  eapply ensures_bind; [by apply copy_head_bytes|]. intros r Hr.
  eapply ensures_bind; [by apply dispatch_typed|]. intros [[[r' L] s] api'] (Hr' & Ha' & Hs).
  eapply ensures_bind; [by apply finish_typed|]. intros frame Hf. split; [done|]. by exists api'.
Qed.

(** ** Sessions *)

(** The requests of a connection one after the other; what the stack holds is each time
    what it happens to be. *)
Fixpoint modbus_session (requests : list (list Z * list Z)) (api : ModbusTcpApi) : outcome (list (list Z) * ModbusTcpApi) :=
  match requests with
  | [] => Ret ([], api)
  | (stack, req) :: requests =>
      '(frame, context) ← handle_modbus_pdu stack req (Z.of_nat (length req)) (Some api);
      match frame, context with
      | Some frame, Some api => '(frames, api) ← modbus_session requests api; Ret (frame :: frames, api)
      | _, _ => Crash "not reached"
      end
  end.

(** A request as a client may send it: at least 12 bytes, with the slack the handler needs, and
    a count of bits whose bytes can be counted in 8 bits. *)
Definition sound_request (stack req : list Z) : Prop :=
  length stack = 260%nat /\ Forall in_u8 stack /\ good_request req (Z.of_nat (length req)) /\
  (byte_at req 7 = 1 \/ byte_at req 7 = 2 \/ byte_at req 7 = 15 -> be16 req 10 <= 2040).


(** Three areas, with a callback that clears the first coil before the coils are read. *)
Definition typed_sample : ModbusTcpApi :=
  mkApi (Some [1; 0; 1; 1; 0; 0; 0; 1; 0; 0; 1]) 11 (Some (fun _ _ d _ => <[0%nat := 0]> d)) None
    (Some [258; 772; 4660]) 3 None (Some [0; 7; 255]) 3 None.

Lemma typed_sample_good : good_api typed_sample.
Proof.
  split; simpl; try (intros d [= <-]; simpl; lia); [lia|].
  repeat split; intros start off data num; simpl; try done. apply length_insert.
Qed.

Lemma typed_sample_typed : typed_api typed_sample.
Proof.
  split; cbn; try (intros d [= <-]; unfold is_bit, in_u8, in_u16; repeat (apply Forall_cons; split; [lia|]); apply Forall_nil; done).
  repeat split; intros start off data num; cbn; try done. intros Hd. apply Forall_insert; [done|by left].
Qed.

(** The coils are written and read, and a register beyond the last is asked for. *)
Definition sample_session : list (list Z * list Z) :=
  [(replicate 260 85, request 15 2 9 [2; 165; 1]); (replicate 260 0, request 1 0 11 [0]); (replicate 260 255, request 3 2 2 [0])].

