(* ===== verification/Kernel.v ===== *)
(** * The kernel layer (core/kernel.c, core/critical.c, core/base.h)

    FreeRTOS and the processor are parameters: the class [Scheduler] lists what the
    code calls, [SchedulerLaws] what FreeRTOS and CMSIS document of it. *)

From S2P Require Import Prelude.
From Stdlib Require Import SpecFloat.

(** ** Status and flag values (core/base.h) *)

Definition RHSWaitForever : Z := 4294967295.
Definition RHSFlagWaitAny : Z := 0.
Definition RHSFlagWaitAll : Z := 1.
Definition RHSFlagNoClear : Z := 2.
Definition RHSFlagError : Z := 2147483648.
Definition RHSFlagErrorUnknown : Z := 4294967295.
Definition RHSFlagErrorTimeout : Z := 4294967294.
Definition RHSFlagErrorResource : Z := 4294967293.
Definition RHSFlagErrorParameter : Z := 4294967292.
Definition RHSFlagErrorISR : Z := 4294967290.

Inductive RHSStatus :=
  | RHSStatusOk
  | RHSStatusError
  | RHSStatusErrorTimeout
  | RHSStatusErrorResource
  | RHSStatusErrorParameter
  | RHSStatusErrorNoMemory
  | RHSStatusErrorISR
  | RHSStatusReserved.

(** The 32-bit value of an enumerator. *)
Definition status_code (s : RHSStatus) : Z :=
  match s with
  | RHSStatusOk => 0
  | RHSStatusError => 4294967295
  | RHSStatusErrorTimeout => 4294967294
  | RHSStatusErrorResource => 4294967293
  | RHSStatusErrorParameter => 4294967292
  | RHSStatusErrorNoMemory => 4294967291
  | RHSStatusErrorISR => 4294967290
  | RHSStatusReserved => 2147483647
  end.

#[global] Instance RHSStatus_eq_dec : EqDecision RHSStatus.
Proof. solve_decision. Defined.

(** [(int32_t) RHSStatusError] *)
Definition lock_error : Z := -1.

(** FreeRTOS constants. *)
Definition taskSCHEDULER_SUSPENDED : Z := 0.
Definition taskSCHEDULER_NOT_STARTED : Z := 1.
Definition taskSCHEDULER_RUNNING : Z := 2.
Definition pdTRUE : Z := 1.
Definition pdFALSE : Z := 0.
Definition portMAX_DELAY : Z := 4294967295.

(** ** What the code calls of FreeRTOS and of the processor *)

Class Scheduler (S : Type) := {
  get_IPSR : S -> Z;
  get_PRIMASK : S -> Z;
  xTaskGetSchedulerState : S -> Z;
  vTaskSuspendAll : S -> S;
  xTaskResumeAll : S -> outcome (Z * S);
  xTaskGetTickCount : S -> Z;
  xTaskGetTickCountFromISR : S -> Z;
  taskYIELD : S -> S;
  vTaskDelay : Z -> S -> S;
  (** [vTaskDelayUntil(&prev, increment)], called with [prev] and [increment]. *)
  vTaskDelayUntil : Z -> Z -> S -> S;
  (** rhs_hal_cortex_delay_us (a busy wait on the cycle counter). *)
  rhs_hal_cortex_delay_us : Z -> S -> S;
  taskENTER_CRITICAL : S -> S;
  taskEXIT_CRITICAL : S -> S;
  taskENTER_CRITICAL_FROM_ISR : S -> Z * S;
  taskEXIT_CRITICAL_FROM_ISR : Z -> S -> S;
  disable_irq : S -> S;
  enable_irq : S -> S
}.

Section kernel.
Context {S : Type} `{Scheduler S}.

(** ** core/common.h *)

Definition RHS_IS_IRQ_MODE (s : S) : bool := negb (get_IPSR s =? 0).
Definition RHS_IS_IRQ_MASKED (s : S) : bool := negb (get_PRIMASK s =? 0).
Definition RHS_IS_ISR (s : S) : bool := RHS_IS_IRQ_MODE s || RHS_IS_IRQ_MASKED s.

(** ** core/kernel.c *)

Definition rhs_kernel_is_irq_or_masked (s : S) : bool :=
  if RHS_IS_IRQ_MODE s then true
  else if negb (xTaskGetSchedulerState s =? taskSCHEDULER_NOT_STARTED) then RHS_IS_IRQ_MASKED s
  else false.

Definition rhs_kernel_is_running (s : S) : bool := xTaskGetSchedulerState s =? taskSCHEDULER_RUNNING.

(** [configASSERT] of the application's FreeRTOSConfig.h stops the system. *)
Definition configASSERT (x : bool) : M S unit := if x then mret tt else crash "configASSERT".

Definition rhs_kernel_lock : M S Z :=
  s ← get;
  configASSERT (negb (rhs_kernel_is_irq_or_masked s));;
  let state := xTaskGetSchedulerState s in
  if state =? taskSCHEDULER_SUSPENDED then mret 1
  else if state =? taskSCHEDULER_RUNNING then call_ vTaskSuspendAll;; mret 0
  else mret lock_error.

(** [xTaskResumeAll() != pdTRUE] and the state then. *)
Definition resume_all : M S bool := fun s =>
  '(r, s) ← xTaskResumeAll s; Ret (negb (r =? pdTRUE), s).

Definition rhs_kernel_unlock : M S Z :=
  s ← get;
  configASSERT (negb (rhs_kernel_is_irq_or_masked s));;
  let state := xTaskGetSchedulerState s in
  if state =? taskSCHEDULER_SUSPENDED then
    not_switched ← resume_all;
    s ← get;
    mret (if not_switched && (xTaskGetSchedulerState s =? taskSCHEDULER_SUSPENDED) then lock_error else 1)
  else if state =? taskSCHEDULER_RUNNING then mret 0
  else mret lock_error.

Definition rhs_kernel_restore_lock (lock : Z) : M S Z :=
  s ← get;
  configASSERT (negb (rhs_kernel_is_irq_or_masked s));;
  let state := xTaskGetSchedulerState s in
  if (state =? taskSCHEDULER_SUSPENDED) || (state =? taskSCHEDULER_RUNNING) then
    if lock =? 1 then call_ vTaskSuspendAll;; mret lock
    else if negb (lock =? 0) then mret lock_error
    else
      not_switched ← resume_all;
      s ← get;
      mret (if not_switched && negb (xTaskGetSchedulerState s =? taskSCHEDULER_RUNNING)
            then lock_error else lock)
  else mret lock_error.

Definition rhs_delay_tick (ticks : Z) : M S unit :=
  s ← get;
  configASSERT (negb (rhs_kernel_is_irq_or_masked s));;
  if ticks =? 0 then call_ taskYIELD else call_ (vTaskDelay ticks).

Definition rhs_delay_until_tick (tick : Z) : M S RHSStatus :=
  s ← get;
  configASSERT (negb (rhs_kernel_is_irq_or_masked s));;
  let tcnt := xTaskGetTickCount s in
  let delay := u32 (tick - tcnt) in
  if negb (delay =? 0) && (Z.shiftr delay 31 =? 0) then
    call_ (vTaskDelayUntil tcnt delay);; mret RHSStatusOk
  else mret RHSStatusErrorParameter.

Definition rhs_get_tick (s : S) : Z :=
  if rhs_kernel_is_irq_or_masked s then xTaskGetTickCountFromISR s else xTaskGetTickCount s.

(** Single precision: [float] of an integer, and the conversion back, which truncates. *)
Definition float_of_Z (z : Z) : spec_float := binary_normalize 24 128 z 0 false.
Definition Z_of_float (f : spec_float) : Z :=
  match f with
  | S754_finite sg m e =>
      let v := if 0 <=? e then Z.pos m * 2 ^ e else Z.pos m / 2 ^ (- e) in
      if sg then - v else v
  | _ => 0
  end.

Section ticks.
(** [configTICK_RATE_HZ] *)
Context (tick_rate : Z).

Definition rhs_kernel_get_tick_frequency : Z := tick_rate.

Definition rhs_ms_to_ticks (milliseconds : Z) : Z :=
  if tick_rate =? 1000 then milliseconds
  else
    let rate := float_of_Z (u32 (Z_of_float (float_of_Z tick_rate))) in
    Z_of_float (SFmul 24 128 (SFdiv 24 128 rate (float_of_Z 1000)) (float_of_Z milliseconds)).

Definition rhs_delay_us (microseconds : Z) : M S unit := call_ (rhs_hal_cortex_delay_us microseconds).

Definition rhs_delay_ms (milliseconds : Z) : M S unit :=
  s ← get;
  if negb (RHS_IS_ISR s) && (xTaskGetSchedulerState s =? taskSCHEDULER_RUNNING) then
    let milliseconds :=
      if (0 <? milliseconds) && (milliseconds <? portMAX_DELAY - 1) then u32 (milliseconds + 1)
      else milliseconds in
    rhs_delay_tick (rhs_ms_to_ticks milliseconds)
  else if 0 <? milliseconds then rhs_delay_us (u32 (milliseconds * 1000))
  else mret tt.
End ticks.

(** ** core/critical.c *)

Record RHSCriticalInfo := mkInfo { isrm : Z; from_isr : bool; kernel_running : bool }.

Definition rhs_critical_enter : M S RHSCriticalInfo :=
  s ← get;
  let from_isr := RHS_IS_ISR s in
  let kernel_running := xTaskGetSchedulerState s =? taskSCHEDULER_RUNNING in
  if from_isr then
    isrm ← call taskENTER_CRITICAL_FROM_ISR;
    mret (mkInfo isrm from_isr kernel_running)
  else if kernel_running then
    call_ taskENTER_CRITICAL;; mret (mkInfo 0 from_isr kernel_running)
  else
    call_ disable_irq;; mret (mkInfo 0 from_isr kernel_running).

Definition rhs_critical_exit (info : RHSCriticalInfo) : M S unit :=
  if from_isr info then call_ (taskEXIT_CRITICAL_FROM_ISR (isrm info))
  else if kernel_running info then call_ taskEXIT_CRITICAL
  else call_ enable_irq.
End kernel.

(** ** What FreeRTOS and CMSIS document

    [suspended] is the depth of [vTaskSuspendAll] calls, [nesting] that of critical
    sections, [mask] the interrupt mask (0: none masked). *)

Class SchedulerLaws (S : Type) `{Scheduler S} := {
  started : S -> bool;
  suspended : S -> Z;
  nesting : S -> Z;
  mask : S -> Z;
  full_mask : Z;
  suspended_nonneg s : 0 <= suspended s;
  state_spec s : xTaskGetSchedulerState s =
    if started s then if suspended s =? 0 then taskSCHEDULER_RUNNING else taskSCHEDULER_SUSPENDED
    else taskSCHEDULER_NOT_STARTED;
  suspend_spec s : suspended (vTaskSuspendAll s) = suspended s + 1 /\
    started (vTaskSuspendAll s) = started s /\
    get_IPSR (vTaskSuspendAll s) = get_IPSR s /\ get_PRIMASK (vTaskSuspendAll s) = get_PRIMASK s;
  resume_spec s : 0 < suspended s -> exists r s', xTaskResumeAll s = Ret (r, s') /\
    suspended s' = suspended s - 1 /\ started s' = started s /\
    get_IPSR s' = get_IPSR s /\ get_PRIMASK s' = get_PRIMASK s /\ (r = pdTRUE -> suspended s' = 0);
  enter_spec s : let s' := taskENTER_CRITICAL s in
    nesting s' = nesting s + 1 /\ mask s' = full_mask /\ get_PRIMASK s' = get_PRIMASK s /\
    get_IPSR s' = get_IPSR s /\ started s' = started s /\ suspended s' = suspended s;
  exit_spec s : let s' := taskEXIT_CRITICAL s in
    nesting s' = nesting s - 1 /\ mask s' = (if nesting s - 1 =? 0 then 0 else mask s) /\
    get_PRIMASK s' = get_PRIMASK s /\
    get_IPSR s' = get_IPSR s /\ started s' = started s /\ suspended s' = suspended s;
  enter_isr_spec s : let '(m, s') := taskENTER_CRITICAL_FROM_ISR s in
    m = mask s /\ mask s' = full_mask /\ nesting s' = nesting s /\ get_PRIMASK s' = get_PRIMASK s /\
    get_IPSR s' = get_IPSR s /\ started s' = started s /\ suspended s' = suspended s;
  exit_isr_spec m s : let s' := taskEXIT_CRITICAL_FROM_ISR m s in
    mask s' = m /\ nesting s' = nesting s /\ get_PRIMASK s' = get_PRIMASK s /\
    get_IPSR s' = get_IPSR s /\ started s' = started s /\ suspended s' = suspended s;
  disable_spec s : let s' := disable_irq s in
    get_PRIMASK s' = 1 /\ mask s' = mask s /\ nesting s' = nesting s /\
    get_IPSR s' = get_IPSR s /\ started s' = started s /\ suspended s' = suspended s;
  enable_spec s : let s' := enable_irq s in
    get_PRIMASK s' = 0 /\ mask s' = mask s /\ nesting s' = nesting s /\
    get_IPSR s' = get_IPSR s /\ started s' = started s /\ suspended s' = suspended s
}.

Section properties.
Context {S : Type} `{SchedulerLaws S}.

(** A task that has not masked interrupts, with the scheduler started. *)
Definition task_context (s : S) : Prop := get_IPSR s = 0 /\ get_PRIMASK s = 0 /\ started s = true.

Lemma task_not_irq s : get_IPSR s = 0 -> get_PRIMASK s = 0 -> rhs_kernel_is_irq_or_masked s = false.
Proof.
  intros E1 E2. unfold rhs_kernel_is_irq_or_masked, RHS_IS_IRQ_MODE, RHS_IS_IRQ_MASKED.
  rewrite E1, E2. simpl. by destruct (negb _).
Qed.

(** A task with the scheduler running, and states of the kernel that differ in time only. *)
Definition task_runs (s : S) : Prop := task_context s /\ suspended s = 0.
Definition os_like (s s' : S) : Prop :=
  get_IPSR s' = get_IPSR s /\ get_PRIMASK s' = get_PRIMASK s /\ started s' = started s /\ suspended s' = suspended s.

Lemma task_runs_like s s' : os_like s s' -> task_runs s -> task_runs s'.
Proof. unfold os_like, task_runs, task_context. intuition congruence. Qed.

Lemma os_like_irq s s' : os_like s s' -> RHS_IS_IRQ_MODE s' = RHS_IS_IRQ_MODE s.
Proof. intros (E1 & _). unfold RHS_IS_IRQ_MODE. by rewrite E1. Qed.

Lemma task_not_isr s : task_context s -> RHS_IS_IRQ_MODE s = false /\ rhs_kernel_is_irq_or_masked s = false.
Proof.
  intros (E1 & E2 & _). split; [unfold RHS_IS_IRQ_MODE; by rewrite E1|]. by apply task_not_irq.
Qed.

Lemma os_like_trans s1 s2 s3 : os_like s1 s2 -> os_like s2 s3 -> os_like s1 s3.
Proof. unfold os_like. intuition congruence. Qed.

(** Interrupt context: the processor runs a handler, or the interrupts are masked with
    the scheduler started. *)
Lemma irq_or_masked_spec s :
  rhs_kernel_is_irq_or_masked s = true <->
  get_IPSR s <> 0 \/ (started s = true /\ get_PRIMASK s <> 0).
Proof.
  unfold rhs_kernel_is_irq_or_masked, RHS_IS_IRQ_MODE, RHS_IS_IRQ_MASKED. rewrite state_spec.
  destruct (Z.eqb_spec (get_IPSR s) 0), (Z.eqb_spec (get_PRIMASK s) 0), (started s),
    (suspended s =? 0); simpl; naive_solver.
Qed.

(** [rhs_kernel_lock] suspends the scheduler and [rhs_kernel_restore_lock] of its
    result undoes that for the outermost lock; for a nested lock it does not: the inner
    restore suspends once more, so that the depth ends one higher than it began. *)
Theorem kernel_lock_restore s : task_context s ->
  exists l s1 r s2, rhs_kernel_lock s = Ret (l, s1) /\ 0 < suspended s1 /\
    rhs_kernel_restore_lock l s1 = Ret (r, s2) /\ task_context s2 /\
    (suspended s = 0 -> l = 0 /\ r = 0 /\ suspended s2 = 0) /\
    (0 < suspended s -> l = 1 /\ r = 1 /\ suspended s1 = suspended s /\ suspended s2 = suspended s + 1).
Proof.
  intros (E1 & E2 & E3). unfold rhs_kernel_lock, rhs_kernel_restore_lock. munfold.
  rewrite task_not_irq by done. simpl. rewrite state_spec, E3.
  pose proof (suspended_nonneg s). destruct (Z.eqb_spec (suspended s) 0) as [E4|E4].
  - destruct (suspend_spec s) as (F1 & F2 & F3 & F4).
    eexists 0, (vTaskSuspendAll s), 0. simpl.
    destruct (resume_spec (vTaskSuspendAll s)) as (r & s2 & E & G1 & G2 & G3 & G4 & _); [lia|].
    exists s2. split; [done|]. split; [lia|]. unfold configASSERT.
    rewrite task_not_irq by congruence. simpl. rewrite state_spec, F2, E3, F1.
    destruct (Z.eqb_spec (suspended s + 1) 0); [lia|]. simpl. unfold resume_all. rewrite E. simpl.
    rewrite state_spec, G2, F2, E3, G1, F1. destruct (Z.eqb_spec (suspended s + 1 - 1) 0); [|lia].
    simpl. rewrite andb_false_r. split; [done|]. split; [repeat split; congruence|].
    split; [|lia]. intros _. repeat split. lia.
  - simpl. exists 1, s, 1, (vTaskSuspendAll s). destruct (suspend_spec s) as (F1 & F2 & F3 & F4).
    split; [done|]. split; [lia|]. unfold configASSERT. rewrite task_not_irq by done. simpl.
    rewrite state_spec, E3. destruct (Z.eqb_spec (suspended s) 0); [done|]. simpl.
    split; [done|]. split; [repeat split; congruence|]. split; [lia|]. intros _. repeat split. lia.
Qed.

(** [rhs_delay_until_tick] delays exactly when the target is less than half the tick
    range ahead, and then until the counter reads the target, wrap-around included. *)
Theorem delay_until_tick_correct s tick :
  get_IPSR s = 0 -> get_PRIMASK s = 0 -> in_u32 tick -> in_u32 (xTaskGetTickCount s) ->
  exists d, 0 <= d < 2 ^ 32 /\ u32 (xTaskGetTickCount s + d) = tick /\
    rhs_delay_until_tick tick s =
    if (0 <? d) && (d <? 2 ^ 31)
    then Ret (RHSStatusOk, vTaskDelayUntil (xTaskGetTickCount s) d s)
    else Ret (RHSStatusErrorParameter, s).
Proof.
  intros E1 E2 Ht Hc. exists (u32 (tick - xTaskGetTickCount s)).
  pose proof (u32_range (tick - xTaskGetTickCount s)) as Hr.
  split; [exact Hr|]. split; [word|]. unfold rhs_delay_until_tick. munfold. unfold configASSERT.
  rewrite task_not_irq by done. cbn [negb].
  set (d := u32 (tick - xTaskGetTickCount s)) in *. rewrite Z.shiftr_div_pow2 by lia.
  change (2 ^ 31) with 2147483648. clearbody d.
  destruct (Z.eqb_spec d 0), (Z.ltb_spec 0 d), (Z.ltb_spec d 2147483648),
    (Z.eqb_spec (d / 2147483648) 0); cbn [negb andb]; done || word.
Qed.

(** ** Critical sections *)

(** What a critical section may change of the interrupt state. *)
Definition interrupts (s : S) : Z * Z * Z := (get_PRIMASK s, mask s, nesting s).

(** Code made of critical sections in sequence and nested in each other. *)
Inductive block := Plain | Critical (body rest : block).

Fixpoint run_block (b : block) : M S unit :=
  match b with
  | Plain => mret tt
  | Critical body rest =>
      (info ← rhs_critical_enter; run_block body;; rhs_critical_exit info);; run_block rest
  end.

(** In a task, interrupts are masked by FreeRTOS exactly inside its critical sections. *)
Definition mask_ok (s : S) : Prop :=
  get_IPSR s = 0 -> get_PRIMASK s = 0 -> 0 <= nesting s /\ mask s = if nesting s =? 0 then 0 else full_mask.

(** The state a section leaves alone. *)
Definition same_mode (s s' : S) : Prop :=
  get_IPSR s' = get_IPSR s /\ started s' = started s /\ suspended s' = suspended s.

Lemma critical_section_ok (body : M S unit) s :
  mask_ok s ->
  (forall s, mask_ok s -> exists s', body s = Ret (tt, s') /\ interrupts s' = interrupts s /\ same_mode s s') ->
  exists s', (info ← rhs_critical_enter; body;; rhs_critical_exit info) s = Ret (tt, s') /\
    interrupts s' = interrupts s /\ same_mode s s'.
Proof.
  intros Hok Hbody. unfold rhs_critical_enter. munfold.
  assert (Hisr : RHS_IS_ISR s = false -> get_IPSR s = 0 /\ get_PRIMASK s = 0).
  { unfold RHS_IS_ISR, RHS_IS_IRQ_MODE, RHS_IS_IRQ_MASKED.
    destruct (Z.eqb_spec (get_IPSR s) 0), (Z.eqb_spec (get_PRIMASK s) 0); simpl; naive_solver. }
  assert (Hisr' : RHS_IS_ISR s = true -> get_IPSR s <> 0 \/ get_PRIMASK s <> 0).
  { unfold RHS_IS_ISR, RHS_IS_IRQ_MODE, RHS_IS_IRQ_MASKED.
    destruct (Z.eqb_spec (get_IPSR s) 0), (Z.eqb_spec (get_PRIMASK s) 0); simpl; naive_solver. }
  destruct (RHS_IS_ISR s) eqn:Ei.
  - pose proof (enter_isr_spec s) as E. destruct (taskENTER_CRITICAL_FROM_ISR s) as [m s1].
    destruct E as (-> & F2 & F3 & F4 & F5 & F6 & F7).
    destruct (Hbody s1) as (s2 & -> & G1 & G2 & G3 & G4).
    { intros A B. destruct (Hisr' eq_refl); congruence. }
    unfold rhs_critical_exit. simpl. eexists. split; [done|].
    pose proof (exit_isr_spec (mask s) s2) as (K1 & K2 & K3 & K4 & K5 & K6).
    unfold interrupts, same_mode in *. split; [|repeat split; congruence]. congruence.
  - destruct (Hisr eq_refl) as [I1 I2]. destruct (Hok I1 I2) as [Hn Hm].
    destruct (xTaskGetSchedulerState s =? taskSCHEDULER_RUNNING) eqn:Er.
    + pose proof (enter_spec s) as (F1 & F2 & F3 & F4 & F5 & F6).
      destruct (Hbody (taskENTER_CRITICAL s)) as (s2 & -> & G1 & G2 & G3 & G4).
      { intros _ _. rewrite F1, F2. split; [lia|]. by destruct (Z.eqb_spec (nesting s + 1) 0); [lia|]. }
      unfold rhs_critical_exit. simpl. eexists. split; [done|].
      pose proof (exit_spec s2) as (K1 & K2 & K3 & K4 & K5 & K6).
      unfold interrupts, same_mode in *. injection G1 as P1 P2 P3.
      split; [|repeat split; congruence].
      rewrite K1, K2, K3, P1, P2, P3, F1, F2, F3, Hm.
      by replace (nesting s + 1 - 1) with (nesting s) by lia.
    + pose proof (disable_spec s) as (F1 & F2 & F3 & F4 & F5 & F6).
      destruct (Hbody (disable_irq s)) as (s2 & -> & G1 & G2 & G3 & G4).
      { intros _ A. congruence. }
      unfold rhs_critical_exit. simpl. eexists. split; [done|].
      pose proof (enable_spec s2) as (K1 & K2 & K3 & K4 & K5 & K6).
      unfold interrupts, same_mode in *. injection G1 as P1 P2 P3.
      split; [|repeat split; congruence]. congruence.
Qed.

Lemma mask_ok_same s s' : interrupts s' = interrupts s -> same_mode s s' -> mask_ok s -> mask_ok s'.
Proof.
  unfold interrupts, same_mode, mask_ok. intros [= E1 E2 E3] (E4 & _ & _). by rewrite E1, E2, E3, E4.
Qed.

(** Whatever the nesting of critical sections, in tasks, in interrupt handlers and
    before the scheduler starts, the interrupt state is at the end what it was before. *)
Theorem critical_sections_balanced b s :
  mask_ok s -> exists s', run_block b s = Ret (tt, s') /\ interrupts s' = interrupts s /\ same_mode s s'.
Proof.
  revert s. induction b as [|body IHbody rest IHrest]; intros s Hok.
  - exists s. by repeat split.
  - destruct (critical_section_ok (run_block body) s Hok IHbody) as (s1 & E & I1 & M1).
    assert (Hok1 : mask_ok s1) by by eapply mask_ok_same.
    destruct (IHrest s1 Hok1) as (s2 & E2 & I2 & M2).
    exists s2. split; [|split; [congruence|]].
    + cbn [run_block]. munfold. rewrite E. exact E2.
    + unfold same_mode in *. destruct M1 as (? & ? & ?), M2 as (? & ? & ?). repeat split; congruence.
Qed.
(** A delay in milliseconds returns in every context. *)
Lemma delay_ms_returns tick_rate ms (s : S) : exists s', rhs_delay_ms tick_rate ms s = Ret (tt, s').
Proof.
  unfold rhs_delay_ms, rhs_delay_tick, rhs_delay_us. munfold.
  destruct (negb (RHS_IS_ISR s) && (xTaskGetSchedulerState s =? taskSCHEDULER_RUNNING)) eqn:E.
  - apply andb_true_iff in E as [E _]. unfold RHS_IS_ISR in E. apply negb_true_iff, orb_false_iff in E as [E1 E2].
    unfold rhs_kernel_is_irq_or_masked, configASSERT. rewrite E1, E2. munfold.
    destruct (negb (xTaskGetSchedulerState s =? taskSCHEDULER_NOT_STARTED)), (_ =? 0); by eexists.
  - destruct (0 <? ms); by eexists.
Qed.
End properties.

(** ** A FreeRTOS to instantiate the theorems with *)

Record os_state := mkOs {
  os_ipsr : Z; os_primask : Z; os_started : bool; os_suspended : nat; os_nesting : Z; os_mask : Z; os_tick : Z
}.

#[global] Instance simple_os : Scheduler os_state := {
  get_IPSR := os_ipsr;
  get_PRIMASK := os_primask;
  xTaskGetSchedulerState s :=
    if os_started s then match os_suspended s with O => 2 | _ => 0 end else 1;
  vTaskSuspendAll s := mkOs (os_ipsr s) (os_primask s) (os_started s) (S (os_suspended s)) (os_nesting s) (os_mask s) (os_tick s);
  xTaskResumeAll s :=
    match os_suspended s with
    | O => Crash "configASSERT"
    | S n => Ret (0, mkOs (os_ipsr s) (os_primask s) (os_started s) n (os_nesting s) (os_mask s) (os_tick s))
    end;
  xTaskGetTickCount := os_tick;
  xTaskGetTickCountFromISR := os_tick;
  taskYIELD s := s;
  vTaskDelay n s := mkOs (os_ipsr s) (os_primask s) (os_started s) (os_suspended s) (os_nesting s) (os_mask s) (u32 (os_tick s + n));
  vTaskDelayUntil prev n s := mkOs (os_ipsr s) (os_primask s) (os_started s) (os_suspended s) (os_nesting s) (os_mask s) (u32 (prev + n));
  rhs_hal_cortex_delay_us _ s := s;
  taskENTER_CRITICAL s := mkOs (os_ipsr s) (os_primask s) (os_started s) (os_suspended s) (os_nesting s + 1) 80 (os_tick s);
  taskEXIT_CRITICAL s := mkOs (os_ipsr s) (os_primask s) (os_started s) (os_suspended s) (os_nesting s - 1)
    (if os_nesting s - 1 =? 0 then 0 else os_mask s) (os_tick s);
  taskENTER_CRITICAL_FROM_ISR s := (os_mask s, mkOs (os_ipsr s) (os_primask s) (os_started s) (os_suspended s) (os_nesting s) 80 (os_tick s));
  taskEXIT_CRITICAL_FROM_ISR m s := mkOs (os_ipsr s) (os_primask s) (os_started s) (os_suspended s) (os_nesting s) m (os_tick s);
  disable_irq s := mkOs (os_ipsr s) 1 (os_started s) (os_suspended s) (os_nesting s) (os_mask s) (os_tick s);
  enable_irq s := mkOs (os_ipsr s) 0 (os_started s) (os_suspended s) (os_nesting s) (os_mask s) (os_tick s)
}.

#[local] Obligation Tactic := idtac.

#[global] Program Instance simple_os_laws : SchedulerLaws os_state := {
  started := os_started;
  suspended s := Z.of_nat (os_suspended s);
  nesting := os_nesting;
  mask := os_mask;
  full_mask := 80
}.
Next Obligation. intros s. simpl. lia. Qed.
Next Obligation. intros s. simpl. destruct (os_started s), (os_suspended s); done. Qed.
Next Obligation. intros s. simpl. split; [lia|done]. Qed.
Next Obligation.
  intros s Hs. simpl in *. destruct (os_suspended s) as [|n] eqn:E; [lia|].
  eexists _, _. split; [done|]. simpl. repeat split; try done; lia.
Qed.
Next Obligation. done. Qed.
Next Obligation. done. Qed.
Next Obligation. done. Qed.
Next Obligation. done. Qed.
Next Obligation. done. Qed.
Next Obligation. done. Qed.

(** A task, the scheduler running. *)
Definition a_task : os_state := mkOs 0 0 true 0 0 0 4294967290.

Theorem kernel_lock_restore_witness :
  exists l s1 r s2, rhs_kernel_lock a_task = Ret (l, s1) /\ 0 < suspended s1 /\
    rhs_kernel_restore_lock l s1 = Ret (r, s2) /\ task_context s2 /\
    (suspended a_task = 0 -> l = 0 /\ r = 0 /\ suspended s2 = 0) /\
    (0 < suspended a_task -> l = 1 /\ r = 1 /\ suspended s1 = suspended a_task /\
       suspended s2 = suspended a_task + 1).
Proof. apply (kernel_lock_restore a_task). repeat split. Defined.

Theorem delay_until_tick_correct_witness :
  exists d, 0 <= d < 2 ^ 32 /\ u32 (xTaskGetTickCount a_task + d) = 14 /\
    rhs_delay_until_tick 14 a_task =
    if (0 <? d) && (d <? 2 ^ 31)
    then Ret (RHSStatusOk, vTaskDelayUntil (xTaskGetTickCount a_task) d a_task)
    else Ret (RHSStatusErrorParameter, a_task).
Proof.
  apply (delay_until_tick_correct a_task 14); [reflexivity|reflexivity|split; lia|].
  split; vm_compute; [discriminate|reflexivity].
Defined.

(** The scheduler not started. *)
Definition before_start : os_state := mkOs 0 0 false 0 0 0 5.

Theorem critical_sections_balanced_witness :
  exists s', run_block (Critical (Critical Plain Plain) (Critical Plain Plain)) before_start = Ret (tt, s') /\
    interrupts s' = interrupts before_start /\ same_mode before_start s'.
Proof.
  apply (critical_sections_balanced (Critical (Critical Plain Plain) (Critical Plain Plain)) before_start).
  intros _ _. split; [vm_compute; discriminate|reflexivity].
Defined.
