(* ===== verification/MessageQueue.v ===== *)
(** * Message queues (core/message_queue.c)

    The FreeRTOS queue behind a message queue is a parameter: [FreeRTOSQueue] lists the
    calls, [FreeRTOSQueueLaws] what FreeRTOS documents of them. A blocking call that has
    to wait sees the queue change under it: [elapse q q1] says that other tasks turned
    [q] into [q1] meanwhile. [portYIELD_FROM_ISR] only asks for a context switch. *)

From S2P Require Import Prelude Kernel.

Definition message : Type := list Z.

Definition pdPASS : Z := 1.
Definition errQUEUE_FULL : Z := 0.

Class FreeRTOSQueue (Q : Type) := {
  (** [xQueueCreateStatic(length, item_size)] *)
  xQueueCreateStatic : Z -> Z -> Q;
  (** The members [uxMessagesWaiting], [uxLength] and [uxItemSize]. *)
  uxMessagesWaiting : Q -> Z;
  uxLength : Q -> Z;
  uxItemSize : Q -> Z;
  xQueueSendToBack : Q -> message -> Z -> Z * Q;
  xQueueSendToBackFromISR : Q -> message -> Z * Q;
  (** The message received, when the call passes. *)
  xQueueReceive : Q -> Z -> Z * message * Q;
  xQueueReceiveFromISR : Q -> Z * message * Q;
  uxQueueMessagesWaiting : Q -> Z;
  uxQueueMessagesWaitingFromISR : Q -> Z;
  uxQueueSpacesAvailable : Q -> Z;
  xQueueReset : Q -> Q
}.

Section message_queue.
Context {S : Type} `{Scheduler S} {Q : Type} `{FreeRTOSQueue Q}.

(** [rhs_assert] of a state that is not changed. *)
Definition assert_or_crash {A} (x : bool) (k : outcome A) : outcome A :=
  if x then k else Crash "Assert".

(** The bytes asked of [malloc] and the queue created in them; [header] is
    [sizeof(RHSMessageQueue)]. *)
Definition rhs_message_queue_alloc (s : S) (header msg_count msg_size : Z) : outcome (Z * Q) :=
  assert_or_crash (negb (rhs_kernel_is_irq_or_masked s) && (0 <? msg_count) && (0 <? msg_size))
    (Ret (u32 (header + u32 (msg_count * msg_size)), xQueueCreateStatic msg_count msg_size)).

(** The queue is deleted and its memory freed: nothing is left of it. *)
Definition rhs_message_queue_free (s : S) (instance : option Q) : outcome unit :=
  assert_or_crash (negb (rhs_kernel_is_irq_or_masked s))
    match instance with None => Crash "Assert" | Some _ => Ret tt end.

(** The status of a call that failed with [timeout]. *)
Definition failed_status (timeout : Z) : RHSStatus :=
  if negb (timeout =? 0) then RHSStatusErrorTimeout else RHSStatusErrorResource.

(** [instance] and [msg_ptr] are [None] when they are [NULL]. *)
Definition rhs_message_queue_put (s : S) (instance : option Q) (msg_ptr : option message) (timeout : Z)
    : outcome (RHSStatus * Q) :=
  match instance with
  | None => Crash "Assert"
  | Some q =>
      if rhs_kernel_is_irq_or_masked s then
        match msg_ptr with
        | None => Ret (RHSStatusErrorParameter, q)
        | Some msg =>
            if negb (timeout =? 0) then Ret (RHSStatusErrorParameter, q)
            else
              let '(r, q) := xQueueSendToBackFromISR q msg in
              if negb (r =? pdTRUE) then Ret (RHSStatusErrorResource, q) else Ret (RHSStatusOk, q)
        end
      else
        match msg_ptr with
        | None => Ret (RHSStatusErrorParameter, q)
        | Some msg =>
            let '(r, q) := xQueueSendToBack q msg timeout in
            if negb (r =? pdPASS) then Ret (failed_status timeout, q) else Ret (RHSStatusOk, q)
        end
  end.

(** [msg_ptr] is the buffer, and what it holds afterwards is returned. *)
Definition rhs_message_queue_get (s : S) (instance : option Q) (msg_ptr : option message) (timeout : Z)
    : outcome (RHSStatus * option message * Q) :=
  match instance with
  | None => Crash "Assert"
  | Some q =>
      if rhs_kernel_is_irq_or_masked s then
        match msg_ptr with
        | None => Ret (RHSStatusErrorParameter, None, q)
        | Some buf =>
            if negb (timeout =? 0) then Ret (RHSStatusErrorParameter, Some buf, q)
            else
              let '(r, m, q) := xQueueReceiveFromISR q in
              if negb (r =? pdPASS) then Ret (RHSStatusErrorResource, Some buf, q)
              else Ret (RHSStatusOk, Some m, q)
        end
      else
        match msg_ptr with
        | None => Ret (RHSStatusErrorParameter, None, q)
        | Some buf =>
            let '(r, m, q) := xQueueReceive q timeout in
            if negb (r =? pdPASS) then Ret (failed_status timeout, Some buf, q)
            else Ret (RHSStatusOk, Some m, q)
        end
  end.

Definition rhs_message_queue_get_capacity (instance : option Q) : outcome Z :=
  match instance with None => Crash "Assert" | Some q => Ret (uxLength q) end.
Definition rhs_message_queue_get_message_size (instance : option Q) : outcome Z :=
  match instance with None => Crash "Assert" | Some q => Ret (uxItemSize q) end.

Definition rhs_message_queue_get_count (s : S) (instance : option Q) : outcome Z :=
  match instance with
  | None => Crash "Assert"
  | Some q =>
      Ret (if rhs_kernel_is_irq_or_masked s then uxQueueMessagesWaitingFromISR q
           else uxQueueMessagesWaiting q)
  end.

Definition rhs_message_queue_get_space (s : S) (instance : option Q) : outcome Z :=
  match instance with
  | None => Crash "Assert"
  | Some q =>
      Ret (if rhs_kernel_is_irq_or_masked s then u32 (uxLength q - uxMessagesWaiting q)
           else uxQueueSpacesAvailable q)
  end.

Definition rhs_message_queue_reset (s : S) (instance : option Q) : outcome (RHSStatus * Q) :=
  match instance with
  | None => Crash "Assert"
  | Some q =>
      if rhs_kernel_is_irq_or_masked s then Ret (RHSStatusErrorISR, q)
      else Ret (RHSStatusOk, xQueueReset q)
  end.
End message_queue.

(** ** What FreeRTOS documents of its queues *)

Class FreeRTOSQueueLaws (Q : Type) `{FreeRTOSQueue Q} := {
  (** The messages, the oldest first. *)
  contents : Q -> list message;
  (** What other tasks can do while a call waits. *)
  elapse : Q -> Q -> Prop;
  create_spec n m : 0 < n < 2 ^ 32 -> contents (xQueueCreateStatic n m) = [] /\
    uxLength (xQueueCreateStatic n m) = n /\ uxItemSize (xQueueCreateStatic n m) = m;
  waiting_spec q : uxMessagesWaiting q = Z.of_nat (length (contents q)) /\
    uxQueueMessagesWaiting q = Z.of_nat (length (contents q)) /\
    uxQueueMessagesWaitingFromISR q = Z.of_nat (length (contents q)) /\
    uxQueueSpacesAvailable q = uxLength q - Z.of_nat (length (contents q));
  bounded q : Z.of_nat (length (contents q)) <= uxLength q < 2 ^ 32;
  elapse_same q q' : elapse q q' -> uxLength q' = uxLength q /\ uxItemSize q' = uxItemSize q;
  send_now q m t : Z.of_nat (length (contents q)) < uxLength q ->
    let '(r, q') := xQueueSendToBack q m t in
    r = pdPASS /\ contents q' = contents q ++ [m] /\ uxLength q' = uxLength q /\ uxItemSize q' = uxItemSize q;
  send_full q m t : Z.of_nat (length (contents q)) = uxLength q ->
    let '(r, q') := xQueueSendToBack q m t in
    (r = errQUEUE_FULL /\ (if t =? 0 then q' = q else elapse q q')) \/
    (r = pdPASS /\ t <> 0 /\ exists q1, elapse q q1 /\
       contents q' = contents q1 ++ [m] /\ uxLength q' = uxLength q /\ uxItemSize q' = uxItemSize q);
  send_isr q m : let '(r, q') := xQueueSendToBackFromISR q m in
    if Z.of_nat (length (contents q)) <? uxLength q
    then r = pdTRUE /\ contents q' = contents q ++ [m] /\ uxLength q' = uxLength q /\ uxItemSize q' = uxItemSize q
    else r = errQUEUE_FULL /\ q' = q;
  receive_now q t m l : contents q = m :: l ->
    let '(r, x, q') := xQueueReceive q t in
    r = pdPASS /\ x = m /\ contents q' = l /\ uxLength q' = uxLength q /\ uxItemSize q' = uxItemSize q;
  receive_empty q t : contents q = [] ->
    let '(r, x, q') := xQueueReceive q t in
    (r = errQUEUE_FULL /\ (if t =? 0 then q' = q else elapse q q')) \/
    (r = pdPASS /\ t <> 0 /\ exists q1, elapse q q1 /\
       contents q1 = x :: contents q' /\ uxLength q' = uxLength q /\ uxItemSize q' = uxItemSize q);
  receive_isr q : let '(r, x, q') := xQueueReceiveFromISR q in
    match contents q with
    | m :: l => r = pdPASS /\ x = m /\ contents q' = l /\ uxLength q' = uxLength q /\ uxItemSize q' = uxItemSize q
    | [] => r = errQUEUE_FULL /\ q' = q
    end;
  reset_spec q : contents (xQueueReset q) = [] /\ uxLength (xQueueReset q) = uxLength q /\
    uxItemSize (xQueueReset q) = uxItemSize q
}.

Section properties.
Context {S : Type} `{Scheduler S} {Q : Type} `{FreeRTOSQueueLaws Q}.

(** ** Abstract specification: a bounded first-in first-out queue *)

Definition same_shape (q q' : Q) : Prop := uxLength q' = uxLength q /\ uxItemSize q' = uxItemSize q.

Lemma put_spec s q m t :
  t = 0 \/ rhs_kernel_is_irq_or_masked s = false ->
  Z.of_nat (length (contents q)) < uxLength q ->
  exists q', rhs_message_queue_put s (Some q) (Some m) t = Ret (RHSStatusOk, q') /\
    contents q' = contents q ++ [m] /\ same_shape q q'.
Proof.
  intros Ht Hroom. unfold rhs_message_queue_put.
  destruct (rhs_kernel_is_irq_or_masked s).
  - destruct Ht as [->|]; [|done]. simpl. pose proof (send_isr q m) as E.
    destruct (xQueueSendToBackFromISR q m) as [r q'].
    destruct (Z.ltb_spec (Z.of_nat (length (contents q))) (uxLength q)); [|lia].
    destruct E as (-> & E1 & E2 & E3). simpl. exists q'. by repeat split.
  - pose proof (send_now q m t Hroom) as E. destruct (xQueueSendToBack q m t) as [r q'].
    destruct E as (-> & E1 & E2 & E3). simpl. exists q'. by repeat split.
Qed.

Lemma put_full_spec s q m :
  Z.of_nat (length (contents q)) = uxLength q ->
  rhs_message_queue_put s (Some q) (Some m) 0 = Ret (RHSStatusErrorResource, q).
Proof.
  intros Hfull. unfold rhs_message_queue_put, failed_status.
  destruct (rhs_kernel_is_irq_or_masked s); simpl.
  - pose proof (send_isr q m) as E. destruct (xQueueSendToBackFromISR q m) as [r q'].
    destruct (Z.ltb_spec (Z.of_nat (length (contents q))) (uxLength q)); [lia|].
    by destruct E as (-> & ->).
  - pose proof (send_full q m 0 Hfull) as E. destruct (xQueueSendToBack q m 0) as [r q'].
    by destruct E as [(-> & ->)|(_ & ? & _)].
Qed.

Lemma get_spec s q buf t m l :
  t = 0 \/ rhs_kernel_is_irq_or_masked s = false -> contents q = m :: l ->
  exists q', rhs_message_queue_get s (Some q) (Some buf) t = Ret (RHSStatusOk, Some m, q') /\
    contents q' = l /\ same_shape q q'.
Proof.
  intros Ht Hc. unfold rhs_message_queue_get.
  destruct (rhs_kernel_is_irq_or_masked s).
  - destruct Ht as [->|]; [|done]. simpl. pose proof (receive_isr q) as E. rewrite Hc in E.
    destruct (xQueueReceiveFromISR q) as [[r x] q'].
    destruct E as (-> & -> & E1 & E2 & E3). simpl. exists q'. by repeat split.
  - pose proof (receive_now q t m l Hc) as E. destruct (xQueueReceive q t) as [[r x] q'].
    destruct E as (-> & -> & E1 & E2 & E3). simpl. exists q'. by repeat split.
Qed.

Lemma get_empty_spec s q buf :
  contents q = [] ->
  rhs_message_queue_get s (Some q) (Some buf) 0 = Ret (RHSStatusErrorResource, Some buf, q).
Proof.
  intros Hc. unfold rhs_message_queue_get, failed_status.
  destruct (rhs_kernel_is_irq_or_masked s); simpl.
  - pose proof (receive_isr q) as E. rewrite Hc in E. destruct (xQueueReceiveFromISR q) as [[r x] q'].
    by destruct E as (-> & ->).
  - pose proof (receive_empty q 0 Hc) as E. destruct (xQueueReceive q 0) as [[r x] q'].
    by destruct E as [(-> & ->)|(_ & ? & _)].
Qed.

(** Operations that do not wait, each in the context it is called from. *)
Inductive operation := Put (ctx : S) (m : message) | Get (ctx : S).

(** What an operation did: stored a message, took one, or failed. *)
Inductive event := Stored (m : message) | Taken (m : message) | Refused.

Definition run_operation (op : operation) (q : Q) : outcome (event * Q) :=
  match op with
  | Put ctx m =>
      '(r, q) ← rhs_message_queue_put ctx (Some q) (Some m) 0;
      Ret (if decide (r = RHSStatusOk) then Stored m else Refused, q)
  | Get ctx =>
      '(r, x, q) ← rhs_message_queue_get ctx (Some q) (Some ([] : message)) 0;
      Ret (match x with Some m => if decide (r = RHSStatusOk) then Taken m else Refused | None => Refused end, q)
  end.

Fixpoint run_operations (ops : list operation) (q : Q) : outcome (list event * Q) :=
  match ops with
  | [] => Ret ([], q)
  | op :: ops => '(e, q) ← run_operation op q; '(es, q) ← run_operations ops q; Ret (e :: es, q)
  end.

Definition stored (es : list event) : list message :=
  omap (fun e => match e with Stored m => Some m | _ => None end) es.
Definition taken (es : list event) : list message :=
  omap (fun e => match e with Taken m => Some m | _ => None end) es.

(** C37: over every sequence of puts and gets that do not wait, from tasks and from
    interrupt handlers alike, the messages taken followed by those still queued are the
    messages queued at first followed by those stored: none is lost, repeated or
    overtaken; and count and space always add up to the capacity. *)
Theorem message_queue_fifo ops q :
  exists es q', run_operations ops q = Ret (es, q') /\
    taken es ++ contents q' = contents q ++ stored es /\ same_shape q q' /\
    (forall s, exists n m, rhs_message_queue_get_count s (Some q') = Ret n /\
       rhs_message_queue_get_space s (Some q') = Ret m /\
       0 <= n /\ 0 <= m /\ rhs_message_queue_get_capacity (Some q') = Ret (n + m)).
Proof.
  revert q. induction ops as [|op ops IH]; intros q.
  - exists [], q. split; [done|]. split; [simpl; by rewrite app_nil_r|]. split; [done|].
    intros s. exists (Z.of_nat (length (contents q))), (uxLength q - Z.of_nat (length (contents q))).
    destruct (waiting_spec q) as (W1 & W2 & W3 & W4). pose proof (bounded q).
    unfold rhs_message_queue_get_count, rhs_message_queue_get_space.
    rewrite W1, W2, W3, W4, u32_small by lia.
    split; [by destruct (rhs_kernel_is_irq_or_masked s)|].
    split; [by destruct (rhs_kernel_is_irq_or_masked s)|].
    split; [lia|]. split; [lia|]. unfold rhs_message_queue_get_capacity. f_equal. lia.
  - assert (Hstep : exists e q1, run_operation op q = Ret (e, q1) /\
      taken [e] ++ contents q1 = contents q ++ stored [e] /\ same_shape q q1).
    { pose proof (bounded q). destruct op as [s m|s]; unfold run_operation.
      - destruct (decide (Z.of_nat (length (contents q)) = uxLength q)).
        + rewrite put_full_spec by done. exists Refused, q. simpl. by rewrite app_nil_r.
        + destruct (put_spec s q m 0) as (q1 & -> & Hc & Hs); [by left|lia|].
          exists (Stored m), q1. simpl. done.
      - destruct (contents q) as [|m l] eqn:Hc.
        + rewrite get_empty_spec by done. exists Refused, q. simpl. by rewrite Hc.
        + destruct (get_spec s q [] 0 m l) as (q1 & -> & Hc1 & Hs); [by left|done|].
          exists (Taken m), q1. simpl. by rewrite Hc1, app_nil_r. }
    destruct Hstep as (e & q1 & E & Hc & Hs).
    destruct (IH q1) as (es & q' & E' & Hc' & Hs' & Hn). exists (e :: es), q'.
    cbn [run_operations]. rewrite E. cbn [mbind outcome_bind]. rewrite E'.
    split; [done|]. split; [|split; [|done]].
    + change (e :: es) with ([e] ++ es). unfold taken, stored in *.
      rewrite !omap_app, <- app_assoc, Hc', !app_assoc. f_equal. exact Hc.
    + unfold same_shape in *. destruct Hs as [? ?], Hs' as [? ?]. split; congruence.
Qed.

(** The status of [rhs_message_queue_put] on every branch: no message, or a timeout
    in interrupt context, is a parameter error; a full queue is a resource error without
    and a timeout with waiting, after other tasks had their turn; a NULL queue stops the
    system; and only with the status Ok has the message been stored. *)
Theorem message_queue_put_status s q msg t :
  rhs_message_queue_put s None msg t = Crash "Assert" /\
  (msg = None \/ (rhs_kernel_is_irq_or_masked s = true /\ t <> 0) ->
     rhs_message_queue_put s (Some q) msg t = Ret (RHSStatusErrorParameter, q)) /\
  (forall m, msg = Some m -> t = 0 \/ rhs_kernel_is_irq_or_masked s = false ->
     exists r q', rhs_message_queue_put s (Some q) msg t = Ret (r, q') /\ same_shape q q' /\
     if Z.of_nat (length (contents q)) <? uxLength q
     then r = RHSStatusOk /\ contents q' = contents q ++ [m]
     else if t =? 0 then r = RHSStatusErrorResource /\ q' = q
     else (r = RHSStatusErrorTimeout /\ elapse q q') \/
       (r = RHSStatusOk /\ exists q1, elapse q q1 /\ contents q' = contents q1 ++ [m])).
Proof.
  split; [done|]. split.
  - intros [->|[Hi Ht]]; unfold rhs_message_queue_put; [by destruct (rhs_kernel_is_irq_or_masked s)|].
    rewrite Hi. destruct msg; [|done]. by destruct (Z.eqb_spec t 0).
  - intros m -> Ht. pose proof (bounded q).
    destruct (Z.ltb_spec (Z.of_nat (length (contents q))) (uxLength q)) as [Hr|Hr].
    + destruct (put_spec s q m t Ht Hr) as (q' & E & Hc & Hs). by exists RHSStatusOk, q'.
    + destruct (Z.eqb_spec t 0) as [->|Ht0].
      { exists RHSStatusErrorResource, q. rewrite put_full_spec by lia. by repeat split. }
      destruct Ht as [|Hi]; [done|]. unfold rhs_message_queue_put, failed_status. rewrite Hi.
      assert (Hfull : Z.of_nat (length (contents q)) = uxLength q) by lia.
      pose proof (send_full q m t Hfull) as E. destruct (xQueueSendToBack q m t) as [r q'].
      destruct E as [(-> & E)|(-> & _ & q1 & E & Hc & E1 & E2)]; simpl;
        (destruct (Z.eqb_spec t 0); [done|]); simpl.
      * eexists _, q'. split; [done|]. split; [by apply elapse_same|]. by left.
      * eexists _, q'. split; [done|]. split; [by split|]. right. split; [done|]. by exists q1.
Qed.
End properties.

(** ** A FreeRTOS queue to instantiate the theorems with: nobody else uses it. *)

Record fifo := mkFifo { f_items : list message; f_length : Z; f_size : Z }.

Definition fifo_length (q : fifo) : Z := u32 (f_length q).
Definition fifo_contents (q : fifo) : list message := take (Z.to_nat (fifo_length q)) (f_items q).
Definition fifo_send (q : fifo) (m : message) : Z * fifo :=
  if Z.of_nat (length (fifo_contents q)) <? fifo_length q
  then (pdPASS, mkFifo (fifo_contents q ++ [m]) (f_length q) (f_size q)) else (errQUEUE_FULL, q).
Definition fifo_receive (q : fifo) : Z * message * fifo :=
  match fifo_contents q with
  | m :: l => (pdPASS, m, mkFifo l (f_length q) (f_size q))
  | [] => (errQUEUE_FULL, [], q)
  end.

#[global] Instance fifo_queue : FreeRTOSQueue fifo := {
  xQueueCreateStatic := mkFifo [];
  uxMessagesWaiting q := Z.of_nat (length (fifo_contents q));
  uxLength := fifo_length;
  uxItemSize := f_size;
  xQueueSendToBack q m _ := fifo_send q m;
  xQueueSendToBackFromISR q m := fifo_send q m;
  xQueueReceive q _ := fifo_receive q;
  xQueueReceiveFromISR q := fifo_receive q;
  uxQueueMessagesWaiting q := Z.of_nat (length (fifo_contents q));
  uxQueueMessagesWaitingFromISR q := Z.of_nat (length (fifo_contents q));
  uxQueueSpacesAvailable q := fifo_length q - Z.of_nat (length (fifo_contents q));
  xQueueReset q := mkFifo [] (f_length q) (f_size q)
}.

Lemma fifo_bounded q : Z.of_nat (length (fifo_contents q)) <= fifo_length q < 2 ^ 32.
Proof.
  pose proof (u32_range (f_length q)). unfold fifo_contents, fifo_length in *.
  rewrite length_take. lia.
Qed.

Lemma fifo_fits l n m : Z.of_nat (length l) <= u32 n -> fifo_contents (mkFifo l n m) = l.
Proof. intros Hl. unfold fifo_contents, fifo_length. simpl. apply take_ge. lia. Qed.

Lemma fifo_send_spec q m : let '(r, q') := fifo_send q m in
  if Z.of_nat (length (fifo_contents q)) <? fifo_length q
  then r = pdPASS /\ fifo_contents q' = fifo_contents q ++ [m] /\ fifo_length q' = fifo_length q /\ f_size q' = f_size q
  else r = errQUEUE_FULL /\ q' = q.
Proof.
  unfold fifo_send. destruct (Z.ltb_spec (Z.of_nat (length (fifo_contents q))) (fifo_length q)) as [Hl|Hl]; [|done].
  split; [done|]. split; [|done]. apply fifo_fits. rewrite length_app. unfold fifo_length in Hl. simpl. lia.
Qed.

Lemma fifo_receive_spec q : let '(r, x, q') := fifo_receive q in
  match fifo_contents q with
  | m :: l => r = pdPASS /\ x = m /\ fifo_contents q' = l /\ fifo_length q' = fifo_length q /\ f_size q' = f_size q
  | [] => r = errQUEUE_FULL /\ q' = q
  end.
Proof.
  unfold fifo_receive. pose proof (fifo_bounded q) as Hb.
  destruct (fifo_contents q) as [|m l] eqn:E; [done|]. split; [done|]. split; [done|]. split; [|done].
  apply fifo_fits. simpl in Hb. unfold fifo_length in Hb. lia.
Qed.

#[local] Obligation Tactic := idtac.

#[global] Program Instance fifo_laws : FreeRTOSQueueLaws fifo := {
  contents := fifo_contents;
  elapse q q' := q' = q
}.
Next Obligation.
  intros n m Hn. simpl. unfold fifo_contents, fifo_length. simpl.
  rewrite take_nil, u32_small by lia. done.
Qed.
Next Obligation. done. Qed.
Next Obligation. apply fifo_bounded. Qed.
Next Obligation. by intros q q' ->. Qed.
Next Obligation.
  intros q m t Hr. simpl in *. pose proof (fifo_send_spec q m) as E. destruct (fifo_send q m) as [r q'].
  destruct (Z.ltb_spec (Z.of_nat (length (fifo_contents q))) (fifo_length q)); [done|lia].
Qed.
Next Obligation.
  intros q m t Hr. simpl in *. pose proof (fifo_send_spec q m) as E. destruct (fifo_send q m) as [r q'].
  destruct (Z.ltb_spec (Z.of_nat (length (fifo_contents q))) (fifo_length q)); [lia|].
  left. destruct E as [-> ->]. by destruct (t =? 0).
Qed.
Next Obligation. intros q m. apply fifo_send_spec. Qed.
Next Obligation.
  intros q t m l Hc. simpl in *. pose proof (fifo_receive_spec q) as E.
  destruct (fifo_receive q) as [[r x] q']. by rewrite Hc in E.
Qed.
Next Obligation.
  intros q t Hc. simpl in *. pose proof (fifo_receive_spec q) as E.
  destruct (fifo_receive q) as [[r x] q']. rewrite Hc in E. left. destruct E as [-> ->]. by destruct (t =? 0).
Qed.
Next Obligation. intros q. apply fifo_receive_spec. Qed.
Next Obligation. intros q. simpl. unfold fifo_contents, fifo_length. simpl. by rewrite take_nil. Qed.

(** An interrupt handler. *)
Definition a_handler : os_state := mkOs 15 0 true 0 0 0 5.

Theorem message_queue_fifo_witness :
  exists es q', run_operations [Put a_task [1]; Put a_handler [2]; Put a_task [3]; Get a_handler; Get a_task; Get a_task]
      (xQueueCreateStatic 2 1 : fifo) = Ret (es, q') /\
    taken es ++ contents q' = contents (xQueueCreateStatic 2 1 : fifo) ++ stored es /\
    same_shape (xQueueCreateStatic 2 1 : fifo) q' /\
    (forall s : os_state, exists n m, rhs_message_queue_get_count s (Some q') = Ret n /\
       rhs_message_queue_get_space s (Some q') = Ret m /\
       0 <= n /\ 0 <= m /\ rhs_message_queue_get_capacity (Some q') = Ret (n + m)).
Proof. exact (message_queue_fifo _ _). Defined.

Theorem message_queue_put_status_witness :
  exists r q', rhs_message_queue_put a_task (Some (mkFifo [[1]; [2]] 2 1)) (Some [3]) 100 = Ret (r, q') /\
    same_shape (mkFifo [[1]; [2]] 2 1) q' /\
    ((r = RHSStatusErrorTimeout /\ q' = mkFifo [[1]; [2]] 2 1) \/
       (r = RHSStatusOk /\ exists q1, elapse (mkFifo [[1]; [2]] 2 1) q1 /\ contents q' = contents q1 ++ [[3]])).
Proof.
  exact (proj2 (proj2 (message_queue_put_status a_task (mkFifo [[1]; [2]] 2 1) (Some [3]) 100)) [3]
    eq_refl (or_intror eq_refl)).
Defined.
