(* ===== verification/EventFlag.v ===== *)
(** * Event flags (core/event_flag.c) and the API lock (core/api_lock.h)

    The FreeRTOS event group is a parameter. A call that has to wait sees the group
    change: [flags_elapse e e1] says that others turned [e] into [e1] meanwhile. *)

From S2P Require Import Prelude Kernel.

Definition RHS_EVENT_FLAG_MAX_BITS_EVENT_GROUPS : Z := 24.
(** [~((1UL << 24) - 1U)] in 32 bits. *)
Definition RHS_EVENT_FLAG_INVALID_BITS : Z :=
  Z.lxor (2 ^ 32 - 1) (Z.shiftl 1 RHS_EVENT_FLAG_MAX_BITS_EVENT_GROUPS - 1).

Class EventGroup (E : Type) := {
  xEventGroupCreateStatic : E;
  xEventGroupSetBits : E -> Z -> Z * E;
  xEventGroupSetBitsFromISR : E -> Z -> Z * E;
  xEventGroupClearBits : E -> Z -> Z * E;
  xEventGroupClearBitsFromISR : E -> Z -> Z * E;
  xEventGroupGetBits : E -> Z;
  xEventGroupGetBitsFromISR : E -> Z;
  (** The bits, clear on exit, wait for all, and the ticks to wait. *)
  xEventGroupWaitBits : E -> Z -> bool -> bool -> Z -> Z * E
}.

Section event_flag.
Context {S : Type} `{Scheduler S} {E : Type} `{EventGroup E}.

Definition rhs_event_flag_alloc (s : S) : outcome E :=
  if negb (RHS_IS_IRQ_MODE s) then Ret xEventGroupCreateStatic else Crash "Assert".

(** The group is deleted and its memory freed; a NULL instance is not checked. *)
Definition rhs_event_flag_free (s : S) (instance : option E) : outcome unit :=
  if RHS_IS_IRQ_MODE s then Crash "Assert"
  else match instance with None => Fault | Some _ => Ret tt end.

(** [rhs_assert(instance); rhs_assert((flags & RHS_EVENT_FLAG_INVALID_BITS) == 0U)] *)
Definition with_valid_flags {A} (instance : option E) (flags : Z) (k : E -> outcome A) : outcome A :=
  match instance with
  | None => Crash "Assert"
  | Some e => if Z.land flags RHS_EVENT_FLAG_INVALID_BITS =? 0 then k e else Crash "Assert"
  end.

Definition rhs_event_flag_set (s : S) (instance : option E) (flags : Z) : outcome (Z * E * S) :=
  with_valid_flags instance flags (fun e =>
    if RHS_IS_IRQ_MODE s then
      let '(r, e) := xEventGroupSetBitsFromISR e flags in
      if r =? 0 then Ret (RHSFlagErrorResource, e, s) else Ret (flags, e, s)
    else
      let s := vTaskSuspendAll s in
      let '(rflags, e) := xEventGroupSetBits e flags in
      '(_, s) ← resume_all s;
      Ret (rflags, e, s)).

Definition rhs_event_flag_clear (s : S) (instance : option E) (flags : Z) : outcome (Z * E) :=
  with_valid_flags instance flags (fun e =>
    if RHS_IS_IRQ_MODE s then
      let rflags := xEventGroupGetBitsFromISR e in
      let '(r, e) := xEventGroupClearBitsFromISR e flags in
      if r =? 0 then Ret (status_code RHSStatusErrorResource, e) else Ret (rflags, e)
    else Ret (xEventGroupClearBits e flags)).

Definition rhs_event_flag_get (s : S) (instance : option E) : outcome Z :=
  match instance with
  | None => Crash "Assert"
  | Some e => Ret (if RHS_IS_IRQ_MODE s then xEventGroupGetBitsFromISR e else xEventGroupGetBits e)
  end.

Definition rhs_event_flag_wait (s : S) (instance : option E) (flags options timeout : Z) : outcome (Z * E) :=
  if RHS_IS_IRQ_MODE s then Crash "Assert" else
  with_valid_flags instance flags (fun e =>
    let wait_all := negb (Z.land options RHSFlagWaitAll =? 0) in
    let exit_clr := Z.land options RHSFlagNoClear =? 0 in
    let '(rflags, e) := xEventGroupWaitBits e flags exit_clr wait_all timeout in
    let failed := status_code (if 0 <? timeout then RHSStatusErrorTimeout else RHSStatusErrorResource) in
    if negb (Z.land options RHSFlagWaitAll =? 0) then
      Ret (if negb (Z.land flags rflags =? flags) then failed else rflags, e)
    else
      Ret (if Z.land flags rflags =? 0 then failed else rflags, e)).

(** ** core/api_lock.h *)

Definition API_LOCK_EVENT : Z := Z.shiftl 1 0.

Definition api_lock_alloc_locked (s : S) : outcome E := rhs_event_flag_alloc s.
Definition api_lock_wait_unlock (s : S) (lock : option E) : outcome (Z * E) :=
  rhs_event_flag_wait s lock API_LOCK_EVENT RHSFlagWaitAny RHSWaitForever.
Definition api_lock_unlock (s : S) (lock : option E) : outcome (Z * E * S) :=
  rhs_event_flag_set s lock API_LOCK_EVENT.
Definition api_lock_is_locked (s : S) (lock : option E) : outcome bool :=
  flags ← rhs_event_flag_get s lock; Ret (Z.land flags API_LOCK_EVENT =? 0).
Definition api_lock_relock (s : S) (lock : option E) : outcome (Z * E) :=
  rhs_event_flag_clear s lock API_LOCK_EVENT.
End event_flag.

(** ** What FreeRTOS documents of event groups *)

(** The condition of a wait. *)
Definition satisfied (bits flags : Z) (all : bool) : bool :=
  if all then Z.land flags bits =? flags else negb (Z.land flags bits =? 0).

Class EventGroupLaws (E : Type) `{EventGroup E} := {
  bits : E -> Z;
  flags_elapse : E -> E -> Prop;
  (** The bits that the tasks a change wakes clear on exit. *)
  woken : E -> Z -> Z;
  bits_range e : 0 <= bits e < 2 ^ 24;
  created : bits xEventGroupCreateStatic = 0 /\ woken xEventGroupCreateStatic = fun _ => 0;
  set_spec e f : 0 <= f < 2 ^ 24 -> let '(r, e') := xEventGroupSetBits e f in
    bits e' = Z.ldiff (Z.lor (bits e) f) (woken e f) /\ r = bits e';
  clear_spec e f : let '(r, e') := xEventGroupClearBits e f in
    r = bits e /\ bits e' = Z.ldiff (bits e) f;
  get_spec e : xEventGroupGetBits e = bits e /\ xEventGroupGetBitsFromISR e = bits e;
  wait_spec e f clr all t : 0 < f < 2 ^ 24 -> let '(r, e') := xEventGroupWaitBits e f clr all t in
    exists e1, (if satisfied (bits e) f all || (t =? 0) then e1 = e else flags_elapse e e1) /\
      r = bits e1 /\
      bits e' = if satisfied (bits e1) f all && clr then Z.ldiff (bits e1) f else bits e1
}.

Section properties.
Context {S : Type} `{SchedulerLaws S} {E : Type} `{EventGroupLaws E}.

Lemma valid_flags f : 0 <= f < 2 ^ 24 -> (Z.land f RHS_EVENT_FLAG_INVALID_BITS =? 0) = true.
Proof.
  intros Hf. apply Z.eqb_eq, Z.bits_inj'. intros n Hn. rewrite Z.land_spec, Z.bits_0.
  change RHS_EVENT_FLAG_INVALID_BITS with (Z.shiftl 255 24). rewrite Z.shiftl_spec by lia.
  destruct (Z.lt_ge_cases n 24) as [Hl|Hl].
  - by rewrite (Z.testbit_neg_r 255), andb_false_r by lia.
  - rewrite (Z.bits_above_log2 f), andb_false_l; [done|lia|].
    destruct (decide (f = 0)) as [->|]; [simpl; lia|]. apply Z.log2_lt_pow2; [lia|].
    apply Z.lt_le_trans with (2 ^ 24); [lia|]. by apply Z.pow_le_mono_r.
Qed.

Lemma invalid_flags f : in_u32 f -> 2 ^ 24 <= f -> (Z.land f RHS_EVENT_FLAG_INVALID_BITS =? 0) = false.
Proof.
  intros Hu Hf. apply Z.eqb_neq. intros Hz.
  assert (Hd : Z.testbit f (Z.log2 f) = true) by (apply Z.bit_log2; lia).
  assert (24 <= Z.log2 f < 32) as Hlog.
  { split; [by apply Z.log2_le_pow2; lia|]. apply Z.log2_lt_pow2; destruct Hu; lia. }
  assert (Hb : Z.testbit (Z.land f RHS_EVENT_FLAG_INVALID_BITS) (Z.log2 f) = false) by by rewrite Hz, Z.bits_0.
  rewrite Z.land_spec, Hd in Hb.
  change RHS_EVENT_FLAG_INVALID_BITS with (Z.shiftl (Z.ones 8) 24) in Hb.
  rewrite Z.shiftl_spec, Z.ones_spec_low in Hb by lia. done.
Qed.

(** A wait for valid flags in a task returns the flags with bit 31 clear exactly when
    the condition (any, or with WaitAll all of the flags) was met, at once or after
    waiting, and then clears them unless NoClear; otherwise it returns the timeout error
    after waiting and the resource error without, and changes nothing. Flags beyond the
    24 bits of an event group stop the system. *)
Theorem event_flag_wait_correct s e f options t :
  RHS_IS_IRQ_MODE s = false -> 0 < f -> in_u32 f -> 0 <= t ->
  let all := negb (Z.land options RHSFlagWaitAll =? 0) in
  let keep := negb (Z.land options RHSFlagNoClear =? 0) in
  if 2 ^ 24 <=? f then rhs_event_flag_wait s (Some e) f options t = Crash "Assert" else
  exists r e' e1, rhs_event_flag_wait s (Some e) f options t = Ret (r, e') /\
    (if satisfied (bits e) f all || (t =? 0) then e1 = e else flags_elapse e e1) /\
    if satisfied (bits e1) f all
    then r = bits e1 /\ Z.land r RHSFlagError = 0 /\
      bits e' = if keep then bits e1 else Z.ldiff (bits e1) f
    else bits e' = bits e1 /\ Z.land r RHSFlagError <> 0 /\
      r = if t =? 0 then RHSFlagErrorResource else RHSFlagErrorTimeout.
Proof.
  intros Hi Hf Hu Ht all keep. unfold rhs_event_flag_wait, with_valid_flags. rewrite Hi.
  destruct (Z.leb_spec (2 ^ 24) f) as [Hbig|Hsmall]; [by rewrite invalid_flags|].
  rewrite valid_flags by lia.
  pose proof (wait_spec e f (Z.land options RHSFlagNoClear =? 0) all t ltac:(lia)) as W.
  fold all. destruct (xEventGroupWaitBits e f (Z.land options RHSFlagNoClear =? 0) all t) as [r e'].
  destruct W as (e1 & He1 & -> & Hb). pose proof (bits_range e1) as Hr.
  assert (Hok : Z.land (bits e1) RHSFlagError = 0).
  { apply Z.bits_inj'. intros n Hn. rewrite Z.land_spec, Z.bits_0.
    change RHSFlagError with (2 ^ 31). destruct (decide (n = 31)) as [->|].
    - rewrite Z.bits_above_log2; [done|lia|]. destruct (decide (bits e1 = 0)) as [->|]; [simpl; lia|].
      apply Z.log2_lt_pow2; lia.
    - by rewrite Z.pow2_bits_false, andb_false_r by lia. }
  assert (Hfail : status_code (if 0 <? t then RHSStatusErrorTimeout else RHSStatusErrorResource) =
    if t =? 0 then RHSFlagErrorResource else RHSFlagErrorTimeout).
  { destruct (Z.ltb_spec 0 t), (Z.eqb_spec t 0); done || lia. }
  assert (Hcase : (if all then Ret (if negb (Z.land f (bits e1) =? f) then
      status_code (if 0 <? t then RHSStatusErrorTimeout else RHSStatusErrorResource) else bits e1, e')
     else Ret (if Z.land f (bits e1) =? 0 then
      status_code (if 0 <? t then RHSStatusErrorTimeout else RHSStatusErrorResource) else bits e1, e')) =
    Ret (if satisfied (bits e1) f all then bits e1
         else if t =? 0 then RHSFlagErrorResource else RHSFlagErrorTimeout, e')).
  { rewrite Hfail. unfold satisfied. destruct all; [by destruct (Z.land f (bits e1) =? f)|].
    by destruct (Z.land f (bits e1) =? 0). }
  rewrite Hcase. eexists _, e', e1. split; [done|]. split; [done|].
  destruct (satisfied (bits e1) f all); cbn [andb] in Hb.
  - split; [done|]. split; [done|]. rewrite Hb. unfold keep. by destruct (Z.land options RHSFlagNoClear =? 0).
  - split; [done|]. split; [|done]. by destruct (t =? 0).
Qed.

(** A new API lock is locked; unlocking it lets a waiter through without waiting,
    which locks it again; relocking an unlocked one locks it as well. *)
Theorem api_lock_correct s :
  RHS_IS_IRQ_MODE s = false ->
  exists l l1 l2 l3 s1 r1 r3, api_lock_alloc_locked s = Ret l /\
    api_lock_is_locked s (Some l) = Ret true /\
    api_lock_unlock s (Some l) = Ret (r1, l1, s1) /\ api_lock_is_locked s (Some l1) = Ret false /\
    api_lock_wait_unlock s (Some l1) = Ret (1, l2) /\ api_lock_is_locked s (Some l2) = Ret true /\
    api_lock_relock s (Some l1) = Ret (r3, l3) /\ api_lock_is_locked s (Some l3) = Ret true /\
    suspended s1 = suspended s.
Proof.
  intros Hi. unfold api_lock_alloc_locked, rhs_event_flag_alloc. rewrite Hi. cbn [negb].
  destruct created as [C1 C2]. set (l := xEventGroupCreateStatic) in *.
  assert (Hlocked : forall x, api_lock_is_locked s (Some x) = Ret (Z.land (bits x) 1 =? 0)).
  { intros x. unfold api_lock_is_locked, rhs_event_flag_get. rewrite Hi. destruct (get_spec x) as [-> _]. done. }
  pose proof (set_spec l API_LOCK_EVENT ltac:(by vm_compute)) as St.
  destruct (xEventGroupSetBits l API_LOCK_EVENT) as [r1 l1] eqn:Es.
  destruct St as (S1 & S2). rewrite C1, C2 in S1. change (bits l1 = 1) in S1.
  destruct (suspend_spec s) as (U1 & _).
  destruct (resume_spec (vTaskSuspendAll s)) as (r & s1 & Er & R1 & _); [pose proof (suspended_nonneg s); lia|].
  pose proof (wait_spec l1 API_LOCK_EVENT true false RHSWaitForever ltac:(by vm_compute)) as W.
  destruct (xEventGroupWaitBits l1 API_LOCK_EVENT true false RHSWaitForever) as [r2 l2] eqn:Ew.
  rewrite S1 in W. destruct W as (e1 & -> & -> & W2). rewrite S1 in W2. change (bits l2 = 0) in W2.
  pose proof (clear_spec l1 API_LOCK_EVENT) as Cl.
  destruct (xEventGroupClearBits l1 API_LOCK_EVENT) as [r3 l3] eqn:Ec.
  destruct Cl as (K1 & K2). rewrite S1 in K2. change (bits l3 = 0) in K2.
  exists l, l1, l2, l3, s1, r1, r3. rewrite !Hlocked, C1, S1, W2, K2.
  split; [done|]. split; [done|]. split.
  { unfold api_lock_unlock, rhs_event_flag_set, with_valid_flags. rewrite Hi.
    change (Z.land API_LOCK_EVENT RHS_EVENT_FLAG_INVALID_BITS =? 0) with true. cbn zeta. rewrite Es.
    unfold resume_all. rewrite Er. done. }
  split; [done|]. split.
  { unfold api_lock_wait_unlock, rhs_event_flag_wait, with_valid_flags. rewrite Hi.
    change (Z.land API_LOCK_EVENT RHS_EVENT_FLAG_INVALID_BITS =? 0) with true. cbn zeta.
    change (negb (Z.land RHSFlagWaitAny RHSFlagWaitAll =? 0)) with false.
    change (Z.land RHSFlagWaitAny RHSFlagNoClear =? 0) with true. rewrite Ew, S1. done. }
  split; [done|]. split.
  { unfold api_lock_relock, rhs_event_flag_clear, with_valid_flags. rewrite Hi.
    change (Z.land API_LOCK_EVENT RHS_EVENT_FLAG_INVALID_BITS =? 0) with true. by rewrite Ec. }
  split; [done|]. lia.
Qed.
End properties.

(** ** An event group nobody else uses, to instantiate the theorems with *)

Record group := mkGroup { g_bits : Z }.
Definition group_bits (e : group) : Z := g_bits e mod 2 ^ 24.

#[global] Instance group_flags : EventGroup group := {
  xEventGroupCreateStatic := mkGroup 0;
  xEventGroupSetBits e f := (Z.lor (group_bits e) f mod 2 ^ 24, mkGroup (Z.lor (group_bits e) f));
  xEventGroupSetBitsFromISR e f := (0, e);
  xEventGroupClearBits e f := (group_bits e, mkGroup (Z.ldiff (group_bits e) f));
  xEventGroupClearBitsFromISR e f := (0, e);
  xEventGroupGetBits := group_bits;
  xEventGroupGetBitsFromISR := group_bits;
  xEventGroupWaitBits e f clr all t :=
    (group_bits e, mkGroup (if satisfied (group_bits e) f all && clr then Z.ldiff (group_bits e) f else group_bits e))
}.

Lemma bits_below b n : 0 <= b < 2 ^ 24 -> 24 <= n -> Z.testbit b n = false.
Proof.
  intros Hb Hn. rewrite <- (Z.mod_small b (2 ^ 24)) by done. by apply Z.mod_pow2_bits_high; lia.
Qed.

Lemma bits_small b : (forall n, 24 <= n -> Z.testbit b n = false) -> b mod 2 ^ 24 = b.
Proof.
  intros Hb. apply Z.bits_inj'. intros n Hn. destruct (Z.lt_ge_cases n 24).
  - by apply Z.mod_pow2_bits_low.
  - rewrite Z.mod_pow2_bits_high, Hb; done || lia.
Qed.

Lemma group_range e : 0 <= group_bits e < 2 ^ 24.
Proof. apply Z.mod_pos_bound. lia. Qed.

Lemma group_ldiff e f : Z.ldiff (group_bits e) f mod 2 ^ 24 = Z.ldiff (group_bits e) f.
Proof.
  apply bits_small. intros n Hn. rewrite Z.ldiff_spec, (bits_below (group_bits e) n); [done|apply group_range|done].
Qed.

#[local] Obligation Tactic := idtac.

#[global] Program Instance group_laws : EventGroupLaws group := {
  bits := group_bits;
  flags_elapse e e' := e' = e;
  woken _ _ := 0
}.
Next Obligation. apply group_range. Qed.
Next Obligation. done. Qed.
Next Obligation.
  intros e f Hf. simpl. unfold group_bits at 1 3. simpl. rewrite Z.ldiff_0_r. split; [|done].
  apply bits_small. intros n Hn. rewrite Z.lor_spec, !bits_below; done || apply group_range.
Qed.
Next Obligation. intros e f. simpl. split; [done|]. apply group_ldiff. Qed.
Next Obligation. done. Qed.
Next Obligation.
  intros e f clr all t Hf. simpl. exists e. split; [by destruct (_ || _)|]. split; [done|].
  unfold group_bits at 1. simpl. destruct (_ && _); [apply group_ldiff|].
  apply Z.mod_small, group_range.
Qed.

Theorem event_flag_wait_correct_witness :
  exists r e' e1, rhs_event_flag_wait a_task (Some (mkGroup 6)) 3 1 0 = Ret (r, e') /\ e1 = mkGroup 6 /\
    bits e' = bits e1 /\ Z.land r RHSFlagError <> 0 /\ r = RHSFlagErrorResource.
Proof.
  pose proof (event_flag_wait_correct a_task (mkGroup 6) 3 1 0 eq_refl ltac:(lia) ltac:(split; lia)
    ltac:(lia)) as (r & e' & e1 & E & -> & H).
  exists r, e', (mkGroup 6). split; [exact E|]. split; [reflexivity|]. exact H.
Defined.

Theorem api_lock_correct_witness :
  exists l l1 l2 l3 s1 r1 r3, api_lock_alloc_locked a_task = Ret (l : group) /\
    api_lock_is_locked a_task (Some l) = Ret true /\
    api_lock_unlock a_task (Some l) = Ret (r1, l1, s1) /\ api_lock_is_locked a_task (Some l1) = Ret false /\
    api_lock_wait_unlock a_task (Some l1) = Ret (1, l2) /\ api_lock_is_locked a_task (Some l2) = Ret true /\
    api_lock_relock a_task (Some l1) = Ret (r3, l3) /\ api_lock_is_locked a_task (Some l3) = Ret true /\
    suspended s1 = suspended a_task.
Proof. exact (api_lock_correct a_task eq_refl). Defined.
