(* ===== verification/Semaphore.v ===== *)
(** * Semaphores (core/semaphore.c), over FreeRTOS semaphores

    [sem_elapse q q1]: other tasks turned [q] into [q1] while a call waited. *)

From S2P Require Import Prelude Kernel.

Class FreeRTOSSemaphore (Q : Type) := {
  xSemaphoreCreateBinaryStatic : Q;
  (** [xSemaphoreCreateCountingStatic(max, initial)] *)
  xSemaphoreCreateCountingStatic : Z -> Z -> Q;
  xSemaphoreTake : Q -> Z -> Z * Q;
  xSemaphoreTakeFromISR : Q -> Z * Q;
  xSemaphoreGive : Q -> Z * Q;
  xSemaphoreGiveFromISR : Q -> Z * Q;
  uxSemaphoreGetCount : Q -> Z;
  uxSemaphoreGetCountFromISR : Q -> Z;
  sem_uxMessagesWaiting : Q -> Z;
  sem_uxLength : Q -> Z;
  sem_uxQueueSpacesAvailable : Q -> Z
}.

Section semaphore.
Context {S : Type} `{Scheduler S} {Q : Type} `{FreeRTOSSemaphore Q}.

Definition rhs_semaphore_alloc (s : S) (max_count initial_count : Z) : outcome Q :=
  if RHS_IS_IRQ_MODE s then Crash "Assert"
  else if negb ((0 <? max_count) && (initial_count <=? max_count)) then Crash "Assert"
  else
    let hSemaphore := if max_count =? 1 then xSemaphoreCreateBinaryStatic
                      else xSemaphoreCreateCountingStatic max_count initial_count in
    if (max_count =? 1) && negb (initial_count =? 0) then
      let '(r, hSemaphore) := xSemaphoreGive hSemaphore in
      if r =? pdTRUE then Ret hSemaphore else Crash "Assert"
    else Ret hSemaphore.

Definition rhs_semaphore_free (s : S) (instance : option Q) : outcome unit :=
  match instance with
  | None => Crash "Assert"
  | Some _ => if RHS_IS_IRQ_MODE s then Crash "Assert" else Ret tt
  end.

Definition rhs_semaphore_acquire (s : S) (instance : option Q) (timeout : Z) : outcome (RHSStatus * Q) :=
  match instance with
  | None => Crash "Assert"
  | Some q =>
      if RHS_IS_IRQ_MODE s then
        if negb (timeout =? 0) then Ret (RHSStatusErrorParameter, q)
        else
          let '(r, q) := xSemaphoreTakeFromISR q in
          if negb (r =? pdTRUE) then Ret (RHSStatusErrorResource, q) else Ret (RHSStatusOk, q)
      else
        let '(r, q) := xSemaphoreTake q timeout in
        if negb (r =? pdTRUE)
        then Ret (if negb (timeout =? 0) then RHSStatusErrorTimeout else RHSStatusErrorResource, q)
        else Ret (RHSStatusOk, q)
  end.

Definition rhs_semaphore_release (s : S) (instance : option Q) : outcome (RHSStatus * Q) :=
  match instance with
  | None => Crash "Assert"
  | Some q =>
      let '(r, q) := if RHS_IS_IRQ_MODE s then xSemaphoreGiveFromISR q else xSemaphoreGive q in
      if negb (r =? pdTRUE) then Ret (RHSStatusErrorResource, q) else Ret (RHSStatusOk, q)
  end.

Definition rhs_semaphore_get_count (s : S) (instance : option Q) : outcome Z :=
  match instance with
  | None => Crash "Assert"
  | Some q => Ret (if RHS_IS_IRQ_MODE s then uxSemaphoreGetCountFromISR q else uxSemaphoreGetCount q)
  end.

Definition rhs_semaphore_get_space (s : S) (instance : option Q) : outcome Z :=
  match instance with
  | None => Crash "Assert"
  | Some q =>
      Ret (if rhs_kernel_is_irq_or_masked s then u32 (sem_uxLength q - sem_uxMessagesWaiting q)
           else sem_uxQueueSpacesAvailable q)
  end.
End semaphore.

(** ** What FreeRTOS documents of its semaphores *)

Class FreeRTOSSemaphoreLaws (Q : Type) `{FreeRTOSSemaphore Q} := {
  count : Q -> Z;
  max : Q -> Z;
  sem_elapse : Q -> Q -> Prop;
  count_range q : 0 <= count q <= max q /\ max q < 2 ^ 32;
  create_binary : count xSemaphoreCreateBinaryStatic = 0 /\ max xSemaphoreCreateBinaryStatic = 1;
  create_counting n i : 0 < n < 2 ^ 32 -> 0 <= i <= n ->
    count (xSemaphoreCreateCountingStatic n i) = i /\ max (xSemaphoreCreateCountingStatic n i) = n;
  observers q : uxSemaphoreGetCount q = count q /\ uxSemaphoreGetCountFromISR q = count q /\
    sem_uxMessagesWaiting q = count q /\ sem_uxLength q = max q /\
    sem_uxQueueSpacesAvailable q = max q - count q;
  take_spec q t : let '(r, q') := xSemaphoreTake q t in
    if (0 <? count q) || (t =? 0) then
      if 0 <? count q then r = pdTRUE /\ count q' = count q - 1 /\ max q' = max q else r = pdFALSE /\ q' = q
    else exists q1, sem_elapse q q1 /\ max q' = max q /\
      ((r = pdFALSE /\ q' = q1) \/ (r = pdTRUE /\ count q' = count q1 - 1));
  take_isr_spec q : let '(r, q') := xSemaphoreTakeFromISR q in
    if 0 <? count q then r = pdTRUE /\ count q' = count q - 1 /\ max q' = max q else r = pdFALSE /\ q' = q;
  give_spec q : let '(r, q') := xSemaphoreGive q in
    if count q <? max q then r = pdTRUE /\ count q' = count q + 1 /\ max q' = max q else r = pdFALSE /\ q' = q;
  give_isr_spec q : let '(r, q') := xSemaphoreGiveFromISR q in
    if count q <? max q then r = pdTRUE /\ count q' = count q + 1 /\ max q' = max q else r = pdFALSE /\ q' = q
}.

Section properties.
Context {S : Type} `{Scheduler S} {Q : Type} `{FreeRTOSSemaphoreLaws Q}.

(** ** Specification: a counter between 0 and its maximum *)

Lemma alloc_spec s n i : RHS_IS_IRQ_MODE s = false -> 0 < n < 2 ^ 32 -> 0 <= i <= n ->
  exists q, rhs_semaphore_alloc s n i = Ret q /\ count q = i /\ max q = n.
Proof.
  intros Hi Hn Hc. unfold rhs_semaphore_alloc. rewrite Hi.
  destruct (Z.ltb_spec 0 n), (Z.leb_spec i n); try lia. cbn [andb negb].
  destruct (Z.eqb_spec n 1) as [->|Hn1]; cbn [andb].
  - destruct create_binary as [C1 C2]. destruct (Z.eqb_spec i 0) as [->|Hi0]; cbn [negb].
    + eexists. by repeat split.
    + pose proof (give_spec xSemaphoreCreateBinaryStatic) as G. rewrite C1, C2 in G.
      destruct (xSemaphoreGive xSemaphoreCreateBinaryStatic) as [r q]. simpl in G.
      destruct G as (-> & G1 & G2). simpl. exists q. repeat split; [lia|done].
  - destruct (create_counting n i) as [C1 C2]; [lia|lia|]. eexists. by repeat split.
Qed.

(** Taking a semaphore that is not empty, and waiting for one that is. *)
Lemma acquire_now s q t : RHS_IS_IRQ_MODE s = false -> 0 < count q -> exists q',
  rhs_semaphore_acquire s (Some q) t = Ret (RHSStatusOk, q') /\ count q' = count q - 1 /\ max q' = max q.
Proof.
  intros Hi Hc. unfold rhs_semaphore_acquire. rewrite Hi. pose proof (take_spec q t) as Ht.
  destruct (xSemaphoreTake q t) as [r q']. destruct (Z.ltb_spec 0 (count q)); [|lia]. cbn [orb] in Ht.
  destruct Ht as (-> & E & M). by exists q'.
Qed.
Lemma acquire_late s q t : RHS_IS_IRQ_MODE s = false -> count q = 0 -> t <> 0 -> exists r q',
  rhs_semaphore_acquire s (Some q) t = Ret (r, q') /\ max q' = max q /\ (r = RHSStatusOk \/ r = RHSStatusErrorTimeout).
Proof.
  intros Hi Hc Hz. unfold rhs_semaphore_acquire. rewrite Hi. pose proof (take_spec q t) as Ht.
  destruct (xSemaphoreTake q t) as [r q']. rewrite Hc in Ht. destruct (Z.eqb_spec t 0); [done|]. cbn in Ht.
  destruct Ht as (q1 & _ & M & [[-> _]|[-> _]]); cbn; eexists _, q'; (split; [done|]); auto.
Qed.
Lemma release_one s q : count q < max q -> exists q',
  rhs_semaphore_release s (Some q) = Ret (RHSStatusOk, q') /\ count q' = count q + 1 /\ max q' = max q.
Proof.
  intros Hc. unfold rhs_semaphore_release. pose proof (give_spec q) as Hg. pose proof (give_isr_spec q) as Hgi.
  destruct (RHS_IS_IRQ_MODE s).
  - destruct (xSemaphoreGiveFromISR q) as [r q']. destruct (Z.ltb_spec (count q) (max q)); [|lia].
    destruct Hgi as (-> & E & M). by exists q'.
  - destruct (xSemaphoreGive q) as [r q']. destruct (Z.ltb_spec (count q) (max q)); [|lia].
    destruct Hg as (-> & E & M). by exists q'.
Qed.

(** Acquiring and releasing without waiting, each in its context. *)
Inductive sem_op := Acquire (ctx : S) | Release (ctx : S).

Definition run_sem_op (op : sem_op) (q : Q) : outcome (RHSStatus * Q) :=
  match op with
  | Acquire ctx => rhs_semaphore_acquire ctx (Some q) 0
  | Release ctx => rhs_semaphore_release ctx (Some q)
  end.

(** Reference: the counter. *)
Definition counter_op (op : sem_op) (c m : Z) : RHSStatus * Z :=
  match op with
  | Acquire _ => if 0 <? c then (RHSStatusOk, c - 1) else (RHSStatusErrorResource, c)
  | Release _ => if c <? m then (RHSStatusOk, c + 1) else (RHSStatusErrorResource, c)
  end.

Fixpoint run_sem_ops (ops : list sem_op) (q : Q) : outcome (list RHSStatus * Q) :=
  match ops with
  | [] => Ret ([], q)
  | op :: ops => '(r, q) ← run_sem_op op q; '(rs, q) ← run_sem_ops ops q; Ret (r :: rs, q)
  end.
Fixpoint counter_ops (ops : list sem_op) (c m : Z) : list RHSStatus * Z :=
  match ops with
  | [] => ([], c)
  | op :: ops => let '(r, c) := counter_op op c m in let '(rs, c) := counter_ops ops c m in (r :: rs, c)
  end.

Lemma sem_op_refines op q : exists q',
  run_sem_op op q = Ret (fst (counter_op op (count q) (max q)), q') /\
  count q' = snd (counter_op op (count q) (max q)) /\ max q' = max q.
Proof.
  destruct op as [s|s]; unfold run_sem_op, rhs_semaphore_acquire, rhs_semaphore_release, counter_op.
  - destruct (RHS_IS_IRQ_MODE s); simpl.
    + pose proof (take_isr_spec q) as E. destruct (xSemaphoreTakeFromISR q) as [r q'].
      destruct (Z.ltb_spec 0 (count q)); [destruct E as (-> & E1 & E2)|destruct E as (-> & ->)];
        simpl; eexists; by repeat split.
    + pose proof (take_spec q 0) as E. destruct (xSemaphoreTake q 0) as [r q']. rewrite orb_true_r in E.
      destruct (Z.ltb_spec 0 (count q)); [destruct E as (-> & E1 & E2)|destruct E as (-> & ->)];
        simpl; eexists; by repeat split.
  - destruct (RHS_IS_IRQ_MODE s).
    + pose proof (give_isr_spec q) as E. destruct (xSemaphoreGiveFromISR q) as [r q'].
      destruct (Z.ltb_spec (count q) (max q)); [destruct E as (-> & E1 & E2)|destruct E as (-> & ->)];
        simpl; eexists; by repeat split.
    + pose proof (give_spec q) as E. destruct (xSemaphoreGive q) as [r q'].
      destruct (Z.ltb_spec (count q) (max q)); [destruct E as (-> & E1 & E2)|destruct E as (-> & ->)];
        simpl; eexists; by repeat split.
Qed.

(** C39: a semaphore, binary or counting, starts with its initial count and refines a
    counter between 0 and its maximum over every sequence of acquires and releases that
    do not wait, from tasks and interrupt handlers: same statuses, same count, and count
    and space always add up to the maximum. *)
Theorem semaphore_refines_counter s n i ops :
  RHS_IS_IRQ_MODE s = false -> 0 < n < 2 ^ 32 -> 0 <= i <= n ->
  exists q rs q', rhs_semaphore_alloc s n i = Ret q /\ run_sem_ops ops q = Ret (rs, q') /\
    rs = fst (counter_ops ops i n) /\
    forall s, exists c, rhs_semaphore_get_count s (Some q') = Ret c /\ c = snd (counter_ops ops i n) /\
      0 <= c <= n /\ rhs_semaphore_get_space s (Some q') = Ret (n - c).
Proof.
  intros Hi Hn Hc. destruct (alloc_spec s n i Hi Hn Hc) as (q & E & Hq & Hm). exists q.
  assert (Hrun : exists q', run_sem_ops ops q = Ret (fst (counter_ops ops i n), q') /\
    count q' = snd (counter_ops ops i n) /\ max q' = n).
  { clear E. revert q i Hc Hq Hm. induction ops as [|op ops IH]; intros q i Hc Hq Hm; [by exists q|].
    cbn [run_sem_ops counter_ops]. destruct (sem_op_refines op q) as (q1 & -> & E1 & E2).
    rewrite Hq, Hm in *. destruct (counter_op op i n) as [r c]. simpl in E1. cbn [mbind outcome_bind fst].
    destruct (IH q1 c) as (q' & -> & F1 & F2); [|done|done|].
    { pose proof (count_range q1). lia. }
    cbn [mbind outcome_bind]. exists q'. destruct (counter_ops ops c n). by repeat split. }
  destruct Hrun as (q' & Er & Ec & Em). exists (fst (counter_ops ops i n)), q'.
  split; [done|]. split; [done|]. split; [done|]. intros s'.
  destruct (observers q') as (O1 & O2 & O3 & O4 & O5). pose proof (count_range q') as Hr.
  exists (count q'). unfold rhs_semaphore_get_count, rhs_semaphore_get_space.
  rewrite O1, O2, O3, O4, O5, Em in *. rewrite u32_small by lia.
  split; [by destruct (RHS_IS_IRQ_MODE s')|]. split; [done|]. split; [lia|].
  by destruct (rhs_kernel_is_irq_or_masked s').
Qed.
End properties.

(** ** A semaphore nobody else uses, to instantiate the theorem with *)

Record plain_sem := mkSem { s_count : Z; s_max : Z }.
Definition sem_max (q : plain_sem) : Z := u32 (s_max q).
Definition sem_count (q : plain_sem) : Z := Z.max 0 (Z.min (s_count q) (sem_max q)).
Definition sem_take (q : plain_sem) : Z * plain_sem :=
  if 0 <? sem_count q then (pdTRUE, mkSem (sem_count q - 1) (s_max q)) else (pdFALSE, q).
Definition sem_give (q : plain_sem) : Z * plain_sem :=
  if sem_count q <? sem_max q then (pdTRUE, mkSem (sem_count q + 1) (s_max q)) else (pdFALSE, q).

#[global] Instance plain_semaphore : FreeRTOSSemaphore plain_sem := {
  xSemaphoreCreateBinaryStatic := mkSem 0 1;
  xSemaphoreCreateCountingStatic n i := mkSem i n;
  xSemaphoreTake q _ := sem_take q;
  xSemaphoreTakeFromISR := sem_take;
  xSemaphoreGive := sem_give;
  xSemaphoreGiveFromISR := sem_give;
  uxSemaphoreGetCount := sem_count;
  uxSemaphoreGetCountFromISR := sem_count;
  sem_uxMessagesWaiting := sem_count;
  sem_uxLength := sem_max;
  sem_uxQueueSpacesAvailable q := sem_max q - sem_count q
}.

Lemma plain_take_spec q : let '(r, q') := sem_take q in
  if 0 <? sem_count q then r = pdTRUE /\ sem_count q' = sem_count q - 1 /\ sem_max q' = sem_max q
  else r = pdFALSE /\ q' = q.
Proof.
  unfold sem_take. destruct (Z.ltb_spec 0 (sem_count q)); [|done]. split; [done|]. split; [|done].
  unfold sem_count, sem_max in *. simpl. lia.
Qed.
Lemma plain_give_spec q : let '(r, q') := sem_give q in
  if sem_count q <? sem_max q then r = pdTRUE /\ sem_count q' = sem_count q + 1 /\ sem_max q' = sem_max q
  else r = pdFALSE /\ q' = q.
Proof.
  unfold sem_give. destruct (Z.ltb_spec (sem_count q) (sem_max q)); [|done]. split; [done|]. split; [|done].
  unfold sem_count, sem_max in *. simpl. lia.
Qed.

#[local] Obligation Tactic := idtac.

#[global] Program Instance plain_sem_laws : FreeRTOSSemaphoreLaws plain_sem := {
  count := sem_count;
  max := sem_max;
  sem_elapse q q' := q' = q
}.
Next Obligation.
  intros q. pose proof (u32_range (s_max q)). simpl. unfold sem_count, sem_max. lia.
Qed.
Next Obligation. done. Qed.
Next Obligation.
  intros n i Hn Hi. simpl. unfold sem_count, sem_max. simpl. rewrite u32_small by lia. lia.
Qed.
Next Obligation. done. Qed.
Next Obligation.
  intros q t. simpl. pose proof (plain_take_spec q) as E. destruct (sem_take q) as [r q'].
  destruct (Z.ltb_spec 0 (sem_count q)); simpl; [done|]. destruct E as [-> ->].
  destruct (t =? 0); [done|]. exists q. split; [done|]. split; [done|]. by left.
Qed.
Next Obligation. apply plain_take_spec. Qed.
Next Obligation. apply plain_give_spec. Qed.
Next Obligation. apply plain_give_spec. Qed.

Theorem semaphore_refines_counter_witness :
  exists q rs q', rhs_semaphore_alloc a_task 2 1 = Ret (q : plain_sem) /\
    run_sem_ops [Release a_task; Release a_task; Acquire a_task; Acquire a_task; Acquire a_task] q = Ret (rs, q') /\
    rs = [RHSStatusOk; RHSStatusErrorResource; RHSStatusOk; RHSStatusOk; RHSStatusErrorResource] /\
    forall s : os_state, exists c, rhs_semaphore_get_count s (Some q') = Ret c /\ c = 0 /\
      0 <= c <= 2 /\ rhs_semaphore_get_space s (Some q') = Ret (2 - c).
Proof.
  exact (semaphore_refines_counter a_task 2 1
    [Release a_task; Release a_task; Acquire a_task; Acquire a_task; Acquire a_task]
    eq_refl ltac:(lia) ltac:(lia)).
Defined.
