(* ===== verification/Mutex.v ===== *)
(** * Mutexes (core/mutex.c), over FreeRTOS mutexes

    FreeRTOS reads the calling task from the scheduler; here it is an argument. Time
    spent waiting is [mutex_elapse], as for the other objects. *)

From S2P Require Import Prelude Kernel.

Inductive RHSMutexType := RHSMutexTypeNormal | RHSMutexTypeRecursive.

Definition queueQUEUE_TYPE_MUTEX : Z := 1.
Definition queueQUEUE_TYPE_RECURSIVE_MUTEX : Z := 4.

Class FreeRTOSMutex (Q : Type) := {
  xSemaphoreCreateMutexStatic : Q;
  xSemaphoreCreateRecursiveMutexStatic : Q;
  (** The member [ucQueueType]. *)
  ucQueueType : Q -> Z;
  (** The mutex, the calling task, the ticks to wait. *)
  mutex_xSemaphoreTake : Q -> Z -> Z -> Z * Q;
  xSemaphoreTakeRecursive : Q -> Z -> Z -> Z * Q;
  mutex_xSemaphoreGive : Q -> Z -> Z * Q;
  xSemaphoreGiveRecursive : Q -> Z -> Z * Q;
  (** The owner, [0] for none. *)
  xSemaphoreGetMutexHolder : Q -> Z;
  xSemaphoreGetMutexHolderFromISR : Q -> Z
}.

Section mutex.
Context {S : Type} `{Scheduler S} {Q : Type} `{FreeRTOSMutex Q}.

(** The type is checked against the two known ones. *)
Definition rhs_mutex_alloc (s : S) (type : Z) : outcome Q :=
  if RHS_IS_IRQ_MODE s then Crash "Assert"
  else if type =? 0 then Ret xSemaphoreCreateMutexStatic
  else if type =? 1 then Ret xSemaphoreCreateRecursiveMutexStatic
  else Crash "Assert".

Definition mutex_type_value (t : RHSMutexType) : Z :=
  match t with RHSMutexTypeNormal => 0 | RHSMutexTypeRecursive => 1 end.

Definition rhs_mutex_free (s : S) (instance : option Q) : outcome unit :=
  if RHS_IS_IRQ_MODE s then Crash "Assert"
  else match instance with None => Crash "Assert" | Some _ => Ret tt end.

Definition mutex_failed (timeout : Z) : RHSStatus :=
  if negb (timeout =? 0) then RHSStatusErrorTimeout else RHSStatusErrorResource.

Definition rhs_mutex_acquire (s : S) (me : Z) (instance : option Q) (timeout : Z) : outcome (RHSStatus * Q) :=
  match instance with
  | None => Crash "Assert"
  | Some q =>
      let mutex_type := ucQueueType q in
      if RHS_IS_IRQ_MODE s then Ret (RHSStatusErrorISR, q)
      else if mutex_type =? queueQUEUE_TYPE_RECURSIVE_MUTEX then
        let '(r, q) := xSemaphoreTakeRecursive q me timeout in
        Ret (if negb (r =? pdTRUE) then mutex_failed timeout else RHSStatusOk, q)
      else if mutex_type =? queueQUEUE_TYPE_MUTEX then
        let '(r, q) := mutex_xSemaphoreTake q me timeout in
        Ret (if negb (r =? pdTRUE) then mutex_failed timeout else RHSStatusOk, q)
      else Crash "Assert"
  end.

Definition rhs_mutex_release (s : S) (me : Z) (instance : option Q) : outcome (RHSStatus * Q) :=
  match instance with
  | None => Crash "Assert"
  | Some q =>
      let mutex_type := ucQueueType q in
      if RHS_IS_IRQ_MODE s then Ret (RHSStatusErrorISR, q)
      else if mutex_type =? queueQUEUE_TYPE_RECURSIVE_MUTEX then
        let '(r, q) := xSemaphoreGiveRecursive q me in
        Ret (if negb (r =? pdTRUE) then RHSStatusErrorResource else RHSStatusOk, q)
      else if mutex_type =? queueQUEUE_TYPE_MUTEX then
        let '(r, q) := mutex_xSemaphoreGive q me in
        Ret (if negb (r =? pdTRUE) then RHSStatusErrorResource else RHSStatusOk, q)
      else Crash "Assert"
  end.

Definition rhs_mutex_get_owner (s : S) (instance : option Q) : outcome Z :=
  match instance with
  | None => Crash "Assert"
  | Some q => Ret (if RHS_IS_IRQ_MODE s then xSemaphoreGetMutexHolderFromISR q else xSemaphoreGetMutexHolder q)
  end.
End mutex.

(** ** What FreeRTOS documents of its mutexes

    [owner] is 0 for a free mutex; [depth] counts the owner's recursive takes. A normal
    mutex that is free cannot be given, and one that is taken is given by its owner. *)

Class FreeRTOSMutexLaws (Q : Type) `{FreeRTOSMutex Q} := {
  owner : Q -> Z;
  depth : Q -> Z;
  mutex_elapse : Q -> Q -> Prop;
  created_normal : ucQueueType xSemaphoreCreateMutexStatic = queueQUEUE_TYPE_MUTEX /\
    owner xSemaphoreCreateMutexStatic = 0 /\ depth xSemaphoreCreateMutexStatic = 0;
  created_recursive : ucQueueType xSemaphoreCreateRecursiveMutexStatic = queueQUEUE_TYPE_RECURSIVE_MUTEX /\
    owner xSemaphoreCreateRecursiveMutexStatic = 0 /\ depth xSemaphoreCreateRecursiveMutexStatic = 0;
  holder_spec q : xSemaphoreGetMutexHolder q = owner q /\ xSemaphoreGetMutexHolderFromISR q = owner q;
  take_normal q me t : me <> 0 -> let '(r, q') := mutex_xSemaphoreTake q me t in ucQueueType q' = ucQueueType q /\
    if owner q =? 0 then r = pdTRUE /\ owner q' = me /\ depth q' = 1
    else if t =? 0 then r = pdFALSE /\ q' = q
    else exists q1, mutex_elapse q q1 /\
      ((r = pdFALSE /\ q' = q1) \/ (r = pdTRUE /\ owner q1 = 0 /\ owner q' = me /\ depth q' = 1));
  give_normal q me : owner q = 0 \/ owner q = me -> let '(r, q') := mutex_xSemaphoreGive q me in
    ucQueueType q' = ucQueueType q /\
    if owner q =? 0 then r = pdFALSE /\ q' = q else r = pdTRUE /\ owner q' = 0 /\ depth q' = 0;
  take_recursive q me t : me <> 0 -> let '(r, q') := xSemaphoreTakeRecursive q me t in ucQueueType q' = ucQueueType q /\
    if (owner q =? 0) || (owner q =? me) then r = pdTRUE /\ owner q' = me /\ depth q' = depth q + 1
    else if t =? 0 then r = pdFALSE /\ q' = q
    else exists q1, mutex_elapse q q1 /\
      ((r = pdFALSE /\ q' = q1) \/ (r = pdTRUE /\ owner q1 = 0 /\ owner q' = me /\ depth q' = 1));
  give_recursive q me : me <> 0 -> let '(r, q') := xSemaphoreGiveRecursive q me in ucQueueType q' = ucQueueType q /\
    if owner q =? me then r = pdTRUE /\ depth q' = depth q - 1 /\ owner q' = (if depth q =? 1 then 0 else me)
    else r = pdFALSE /\ q' = q
}.

(** ** Specification: a lock with an owner and a depth *)

Inductive lock_op := Lock (me : Z) | Unlock (me : Z).
Definition lock_task (op : lock_op) : Z := match op with Lock me => me | Unlock me => me end.

Definition lock_state : Type := Z * Z.

(** [recursive] locks count; a normal lock can be taken again by nobody. *)
Definition spec_step (recursive : bool) (op : lock_op) (l : lock_state) : RHSStatus * lock_state :=
  let '(o, d) := l in
  match op with
  | Lock me =>
      if (o =? 0) || (recursive && (o =? me)) then (RHSStatusOk, (me, d + 1))
      else (RHSStatusErrorResource, l)
  | Unlock me =>
      if negb (o =? 0) && (o =? me) then (RHSStatusOk, (if d =? 1 then 0 else me, d - 1))
      else (RHSStatusErrorResource, l)
  end.

Fixpoint spec_steps (recursive : bool) (ops : list lock_op) (l : lock_state) : list RHSStatus * lock_state :=
  match ops with
  | [] => ([], l)
  | op :: ops =>
      let '(r, l) := spec_step recursive op l in
      let '(rs, l) := spec_steps recursive ops l in (r :: rs, l)
  end.

(** A task does not give a normal mutex another task owns. *)
Fixpoint fair (recursive : bool) (ops : list lock_op) (l : lock_state) : Prop :=
  match ops with
  | [] => True
  | op :: ops =>
      lock_task op <> 0 /\
      match op with Unlock me => recursive = true \/ fst l = 0 \/ fst l = me | Lock _ => True end /\
      fair recursive ops (snd (spec_step recursive op l))
  end.

Section properties.
Context {S : Type} `{Scheduler S} {Q : Type} `{FreeRTOSMutexLaws Q}.

Definition run_lock_op (s : S) (op : lock_op) (q : Q) : outcome (RHSStatus * Q) :=
  match op with
  | Lock me => rhs_mutex_acquire s me (Some q) 0
  | Unlock me => rhs_mutex_release s me (Some q)
  end.
Fixpoint run_lock_ops (s : S) (ops : list lock_op) (q : Q) : outcome (list RHSStatus * Q) :=
  match ops with
  | [] => Ret ([], q)
  | op :: ops => '(r, q) ← run_lock_op s op q; '(rs, q) ← run_lock_ops s ops q; Ret (r :: rs, q)
  end.

Definition type_of (recursive : bool) : Z :=
  if recursive then queueQUEUE_TYPE_RECURSIVE_MUTEX else queueQUEUE_TYPE_MUTEX.

(** The mutex implements the lock state; a lock is owned when its depth is positive,
    a normal one at depth 1. *)
Definition implements (recursive : bool) (q : Q) (l : lock_state) : Prop :=
  ucQueueType q = type_of recursive /\ owner q = fst l /\ depth q = snd l /\
  (fst l = 0 -> snd l = 0) /\ (fst l <> 0 -> if recursive then 0 < snd l else snd l = 1).

Lemma lock_op_refines s recursive op q l :
  RHS_IS_IRQ_MODE s = false -> implements recursive q l -> fair recursive [op] l ->
  exists q', run_lock_op s op q = Ret (fst (spec_step recursive op l), q') /\
    implements recursive q' (snd (spec_step recursive op l)).
Proof.
  intros Hi (Ht & Ho & Hd & Hz & Hp) (Hme & Hfair & _). destruct l as [o d]. simpl in *.
  destruct op as [me|me]; unfold run_lock_op, rhs_mutex_acquire, rhs_mutex_release; rewrite Hi, Ht;
    destruct recursive; cbn [type_of Z.eqb Pos.eqb]; simpl in Hme.
  - pose proof (take_recursive q me 0 Hme) as E. destruct (xSemaphoreTakeRecursive q me 0) as [r q'].
    destruct E as (Et & E). rewrite Ho, Hd in E. simpl. destruct ((o =? 0) || (o =? me)) eqn:Eo.
    + destruct E as (-> & E1 & E2). exists q'. simpl. split; [done|].
      split; [congruence|]. split; [done|]. split; [done|]. split; [done|]. intros _. simpl.
      destruct (Z.eqb_spec o 0) as [->|N]; [rewrite Hz by done; lia|specialize (Hp N); lia].
    + destruct E as (-> & ->). exists q. simpl. split; [done|]. by repeat split.
  - pose proof (take_normal q me 0 Hme) as E. destruct (mutex_xSemaphoreTake q me 0) as [r q'].
    destruct E as (Et & E). rewrite Ho in E. simpl. rewrite orb_false_r.
    destruct (Z.eqb_spec o 0) as [->|No].
    + destruct E as (-> & E1 & E2). exists q'. simpl. split; [done|].
      rewrite (Hz eq_refl) in *. by repeat split; try congruence.
    + destruct E as (-> & ->). exists q. simpl. split; [done|]. by repeat split.
  - pose proof (give_recursive q me Hme) as E. destruct (xSemaphoreGiveRecursive q me) as [r q'].
    destruct E as (Et & E). rewrite Ho, Hd in E. simpl. destruct (Z.eqb_spec o me) as [->|No].
    + destruct (Z.eqb_spec me 0); [done|]. destruct E as (-> & E1 & E2). exists q'. simpl. split; [done|].
      split; [congruence|]. split; [done|]. split; [done|]. simpl.
      specialize (Hp ltac:(done)). destruct (Z.eqb_spec d 1); split; intros; simpl in *; lia.
    + rewrite andb_false_r. destruct E as (-> & ->). exists q. simpl. split; [done|]. by repeat split.
  - assert (Hg : owner q = 0 \/ owner q = me) by (rewrite Ho; naive_solver).
    pose proof (give_normal q me Hg) as E. destruct (mutex_xSemaphoreGive q me) as [r q'].
    destruct E as (Et & E). rewrite Ho in E. simpl. destruct (Z.eqb_spec o 0) as [->|No].
    + destruct E as (-> & ->). exists q. simpl. split; [done|]. by repeat split.
    + destruct (Z.eqb_spec o me) as [->|]; [|naive_solver]. destruct E as (-> & E1 & E2).
      rewrite (Hp No) in *. exists q'. simpl. split; [done|]. by repeat split; try congruence.
Qed.

Lemma lock_ops_refine s recursive ops q l :
  RHS_IS_IRQ_MODE s = false -> implements recursive q l -> fair recursive ops l ->
  exists q', run_lock_ops s ops q = Ret (fst (spec_steps recursive ops l), q') /\
    implements recursive q' (snd (spec_steps recursive ops l)).
Proof.
  intros Hi. revert q l. induction ops as [|op ops IH]; intros q l Hq Hf; [by exists q|].
  destruct Hf as (F1 & F2 & F3). cbn [run_lock_ops spec_steps].
  destruct (lock_op_refines s recursive op q l Hi Hq) as (q1 & -> & Hq1); [by repeat split|].
  destruct (spec_step recursive op l) as [r l1]. simpl in *.
  destruct (IH q1 l1 Hq1 F3) as (q' & -> & Hq'). exists q'. simpl.
  by destruct (spec_steps recursive ops l1).
Qed.

(** C38: over every sequence of acquires and releases that do not wait, by any tasks, a
    mutex behaves as a lock with an owner: it is acquired exactly when free or, if
    recursive, owned by the same task, released only by its owner, and becomes free when
    releases balance acquires; [rhs_mutex_get_owner] always names the owner; in an
    interrupt handler both operations are refused and change nothing. *)
Theorem mutex_refines_lock s type ops :
  let recursive := match type with RHSMutexTypeNormal => false | RHSMutexTypeRecursive => true end in
  RHS_IS_IRQ_MODE s = false -> fair recursive ops (0, 0) ->
  exists q rs q', rhs_mutex_alloc s (mutex_type_value type) = Ret q /\
    run_lock_ops s ops q = Ret (rs, q') /\ rs = fst (spec_steps recursive ops (0, 0)) /\
    (forall s', rhs_mutex_get_owner s' (Some q') = Ret (fst (snd (spec_steps recursive ops (0, 0))))) /\
    forall s' me t, RHS_IS_IRQ_MODE s' = true ->
      rhs_mutex_acquire s' me (Some q') t = Ret (RHSStatusErrorISR, q') /\
      rhs_mutex_release s' me (Some q') = Ret (RHSStatusErrorISR, q').
Proof.
  intros recursive Hi Hf.
  assert (Halloc : exists q, rhs_mutex_alloc s (mutex_type_value type) = Ret q /\ implements recursive q (0, 0)).
  { unfold rhs_mutex_alloc. rewrite Hi. destruct created_normal as (N1 & N2 & N3).
    destruct created_recursive as (R1 & R2 & R3). subst recursive.
    destruct type; eexists; (split; [done|]); by repeat split. }
  destruct Halloc as (q & E & Hq). destruct (lock_ops_refine s recursive ops q _ Hi Hq Hf) as (q' & Er & Hq').
  exists q. eexists _, q'. split; [done|]. split; [exact Er|]. split; [done|]. split.
  - intros s'. unfold rhs_mutex_get_owner. destruct (holder_spec q') as [-> ->].
    destruct Hq' as (_ & -> & _). by destruct (RHS_IS_IRQ_MODE s').
  - intros s' me t Hs'. unfold rhs_mutex_acquire, rhs_mutex_release. by rewrite Hs'.
Qed.
(** A normal mutex that nobody has, and one that the task [me] has. *)
Definition free_mutex (q : Q) : Prop := ucQueueType q = queueQUEUE_TYPE_MUTEX /\ owner q = 0.
Definition held_mutex (me : Z) (q : Q) : Prop := ucQueueType q = queueQUEUE_TYPE_MUTEX /\ owner q = me.

Lemma acquire_free s me q t :
  RHS_IS_IRQ_MODE s = false -> me <> 0 -> free_mutex q ->
  exists q', rhs_mutex_acquire s me (Some q) t = Ret (RHSStatusOk, q') /\ held_mutex me q'.
Proof.
  intros Hi Hme [Ht Ho]. unfold rhs_mutex_acquire. rewrite Hi, Ht.
  pose proof (take_normal q me t Hme) as T. rewrite Ho in T. cbn in T |- *.
  destruct (mutex_xSemaphoreTake q me t) as [r q']. destruct T as (T1 & -> & T2 & _).
  exists q'. split; [done|]. split; congruence.
Qed.

Lemma release_held s me q :
  RHS_IS_IRQ_MODE s = false -> me <> 0 -> held_mutex me q ->
  exists q', rhs_mutex_release s me (Some q) = Ret (RHSStatusOk, q') /\ free_mutex q'.
Proof.
  intros Hi Hme [Ht Ho]. unfold rhs_mutex_release. rewrite Hi, Ht.
  pose proof (give_normal q me ltac:(by right)) as G. rewrite Ho in G.
  destruct (mutex_xSemaphoreGive q me) as [r q']. destruct (Z.eqb_spec me 0); [done|].
  destruct G as (G1 & -> & G2 & _). exists q'. split; [done|]. split; congruence.
Qed.
End properties.

(** ** A mutex to instantiate the theorem with *)

Record plain_mutex := mkMutex { m_type : Z; m_owner : Z; m_depth : Z }.

Definition plain_take (q : plain_mutex) (me : Z) : Z * plain_mutex :=
  if m_owner q =? 0 then (pdTRUE, mkMutex (m_type q) me 1) else (pdFALSE, q).
Definition plain_give (q : plain_mutex) : Z * plain_mutex :=
  if m_owner q =? 0 then (pdFALSE, q) else (pdTRUE, mkMutex (m_type q) 0 0).
Definition plain_take_recursive (q : plain_mutex) (me : Z) : Z * plain_mutex :=
  if (m_owner q =? 0) || (m_owner q =? me) then (pdTRUE, mkMutex (m_type q) me (m_depth q + 1)) else (pdFALSE, q).
Definition plain_give_recursive (q : plain_mutex) (me : Z) : Z * plain_mutex :=
  if m_owner q =? me then (pdTRUE, mkMutex (m_type q) (if m_depth q =? 1 then 0 else me) (m_depth q - 1))
  else (pdFALSE, q).

#[global] Instance plain_mutex_ops : FreeRTOSMutex plain_mutex := {
  xSemaphoreCreateMutexStatic := mkMutex queueQUEUE_TYPE_MUTEX 0 0;
  xSemaphoreCreateRecursiveMutexStatic := mkMutex queueQUEUE_TYPE_RECURSIVE_MUTEX 0 0;
  ucQueueType := m_type;
  mutex_xSemaphoreTake q me _ := plain_take q me;
  xSemaphoreTakeRecursive q me _ := plain_take_recursive q me;
  mutex_xSemaphoreGive q _ := plain_give q;
  xSemaphoreGiveRecursive := plain_give_recursive;
  xSemaphoreGetMutexHolder := m_owner;
  xSemaphoreGetMutexHolderFromISR := m_owner
}.

#[local] Obligation Tactic := idtac.

#[global] Program Instance plain_mutex_laws : FreeRTOSMutexLaws plain_mutex := {
  owner := m_owner;
  depth := m_depth;
  mutex_elapse q q' := q' = q
}.
Next Obligation. done. Qed.
Next Obligation. done. Qed.
Next Obligation. done. Qed.
Next Obligation.
  intros q me t Hme. simpl. unfold plain_take. destruct (m_owner q =? 0); [done|].
  split; [done|]. destruct (t =? 0); [done|]. exists q. split; [done|]. by left.
Qed.
Next Obligation. intros q me Ho. simpl. unfold plain_give. by destruct (m_owner q =? 0). Qed.
Next Obligation.
  intros q me t Hme. simpl. unfold plain_take_recursive. destruct (_ || _); [done|].
  split; [done|]. destruct (t =? 0); [done|]. exists q. split; [done|]. by left.
Qed.
Next Obligation. intros q me Hme. simpl. unfold plain_give_recursive. by destruct (m_owner q =? me). Qed.

Theorem mutex_refines_lock_witness :
  exists q rs q', rhs_mutex_alloc a_task 1 = Ret (q : plain_mutex) /\
    run_lock_ops a_task [Lock 7; Lock 7; Lock 8; Unlock 8; Unlock 7; Unlock 7; Lock 8] q = Ret (rs, q') /\
    rs = [RHSStatusOk; RHSStatusOk; RHSStatusErrorResource; RHSStatusErrorResource; RHSStatusOk; RHSStatusOk; RHSStatusOk] /\
    (forall s' : os_state, rhs_mutex_get_owner s' (Some q') = Ret 8) /\
    forall (s' : os_state) me t, RHS_IS_IRQ_MODE s' = true ->
      rhs_mutex_acquire s' me (Some q') t = Ret (RHSStatusErrorISR, q') /\
      rhs_mutex_release s' me (Some q') = Ret (RHSStatusErrorISR, q').
Proof.
  refine (mutex_refines_lock a_task RHSMutexTypeRecursive
    [Lock 7; Lock 7; Lock 8; Unlock 8; Unlock 7; Unlock 7; Lock 8] eq_refl _).
  simpl. repeat split; try discriminate; try (by left).
Defined.
