(* ===== verification/Timer.v ===== *)
(** * Software timers (core/timer.c)

    FreeRTOS timers are commands to a daemon task that executes them in the order they
    were queued. The daemon's queue, the timers and the event group that
    [rhs_timer_free] keeps on its stack are parameters ([TimerService]). *)

From S2P Require Import Prelude Kernel.

Inductive RHSTimerType := RHSTimerTypeOnce | RHSTimerTypePeriodic.
Inductive RHSTimerThreadPriority := RHSTimerThreadPriorityNormal | RHSTimerThreadPriorityElevated.

(** What the timer calls: the function and its context. *)
Record RHSTimer := mkTimer { cb_func : Z; cb_context : Z }.

Definition TIMER_DELETED_EVENT : Z := Z.shiftl 1 0.

(** A function pended to the daemon: [rhs_timer_epilogue] or a user's. *)
Inductive pended := Epilogue | User (callback : Z).

Class TimerService (T : Type) := {
  (** [xTimerCreateStatic(NULL, period, reload, id, TimerCallback, container)]; the id and
      the handle are the address of the container. *)
  xTimerCreateStatic : T -> Z -> bool -> Z -> T;
  xTimerDelete : T -> Z -> Z -> Z * T;
  xTimerChangePeriod : T -> Z -> Z -> Z -> Z * T;
  xTimerReset : T -> Z -> Z -> Z * T;
  xTimerStop : T -> Z -> Z -> Z * T;
  xTimerIsTimerActive : T -> Z -> Z;
  xTimerGetExpiryTime : T -> Z -> Z;
  xTimerPendFunctionCall : T -> pended -> Z -> Z -> Z -> Z * T;
  xTimerPendFunctionCallFromISR : T -> pended -> Z -> Z -> Z * T;
  xTimerGetTimerDaemonTaskHandle : T -> Z;
  vTaskPrioritySet : T -> Z -> Z -> T;
  (** The event group of [rhs_timer_free]: created, waited on for its bit, deleted. *)
  stack_event_create : T -> Z * T;
  stack_event_wait : T -> Z -> Z -> Z -> Z * T;
  stack_event_delete : T -> Z -> T
}.

Section timer.
Context {S : Type} `{Scheduler S} {T : Type} `{TimerService T}.
(** [configTIMER_TASK_PRIORITY] and [configMAX_PRIORITIES]. *)
Context (timer_task_priority max_priorities : Z).

(** The memory of the timers: their structures by address. *)
Abbreviation timers := (gmap Z RHSTimer).

(** [rhs_assert] in front of a pure computation. *)
Definition require {A} (x : bool) (k : outcome A) : outcome A := if x then k else Crash "Assert".
Definition in_task (s : S) : bool := negb (rhs_kernel_is_irq_or_masked s).

(** [func] is NULL when it is 0; [instance] is the address [malloc] returned. *)
Definition rhs_timer_alloc (s : S) (t : T) (m : timers) (instance func : Z) (type : RHSTimerType) (context : Z)
    : outcome (Z * T * timers) :=
  require (in_task s && negb (func =? 0))
    (let reload := match type with RHSTimerTypeOnce => false | RHSTimerTypePeriodic => true end in
     Ret (instance, xTimerCreateStatic t portMAX_DELAY reload instance, <[instance := mkTimer func context]> m)).

(** [TimerCallback]: the function and the context it is called with. *)
Definition TimerCallback (m : timers) (id : Z) : outcome (Z * Z) :=
  if id =? 0 then Crash "Assert"
  else match m !! id with Some i => Ret (cb_func i, cb_context i) | None => Fault end.

Definition rhs_timer_free (s : S) (t : T) (m : timers) (instance : Z) : outcome (T * timers) :=
  require (in_task s && negb (instance =? 0))
    (let '(r, t) := xTimerDelete t instance portMAX_DELAY in
     require (r =? pdTRUE)
       (let '(hEvent, t) := stack_event_create t in
        let '(r, t) := xTimerPendFunctionCall t Epilogue hEvent 0 portMAX_DELAY in
        require (r =? pdTRUE)
          (let '(r, t) := stack_event_wait t hEvent TIMER_DELETED_EVENT portMAX_DELAY in
           require (r =? TIMER_DELETED_EVENT)
             (match m !! instance with
              | Some _ => Ret (stack_event_delete t hEvent, delete instance m)
              | None => Fault
              end)))).

Definition rhs_timer_start (s : S) (t : T) (instance ticks : Z) : outcome (RHSStatus * T) :=
  require (in_task s && negb (instance =? 0) && (ticks <? portMAX_DELAY))
    (let '(r, t) := xTimerChangePeriod t instance ticks portMAX_DELAY in
     Ret (if r =? pdTRUE then RHSStatusOk else RHSStatusErrorResource, t)).

Definition rhs_timer_restart (s : S) (t : T) (instance ticks : Z) : outcome (RHSStatus * T) :=
  require (in_task s && negb (instance =? 0) && (ticks <? portMAX_DELAY))
    (let '(r, t) := xTimerChangePeriod t instance ticks portMAX_DELAY in
     if r =? pdTRUE then
       let '(r, t) := xTimerReset t instance portMAX_DELAY in
       Ret (if r =? pdTRUE then RHSStatusOk else RHSStatusErrorResource, t)
     else Ret (RHSStatusErrorResource, t)).

Definition rhs_timer_stop (s : S) (t : T) (instance : Z) : outcome (RHSStatus * T) :=
  require (in_task s && negb (instance =? 0))
    (let '(r, t) := xTimerStop t instance portMAX_DELAY in
     require (r =? pdTRUE) (Ret (RHSStatusOk, t))).

Definition rhs_timer_is_running (s : S) (t : T) (instance : Z) : outcome Z :=
  require (in_task s && negb (instance =? 0)) (Ret (xTimerIsTimerActive t instance)).

Definition rhs_timer_get_expire_time (s : S) (t : T) (instance : Z) : outcome Z :=
  require (in_task s && negb (instance =? 0)) (Ret (xTimerGetExpiryTime t instance)).

Definition rhs_timer_pending_callback (s : S) (t : T) (callback context arg : Z) : outcome T :=
  require (negb (callback =? 0))
    (let '(r, t) :=
       if rhs_kernel_is_irq_or_masked s then xTimerPendFunctionCallFromISR t (User callback) context arg
       else xTimerPendFunctionCall t (User callback) context arg RHSWaitForever in
     require (r =? pdTRUE) (Ret t)).

Definition rhs_timer_set_thread_priority (s : S) (t : T) (priority : RHSTimerThreadPriority) : outcome T :=
  require (in_task s)
    (let task_handle := xTimerGetTimerDaemonTaskHandle t in
     require (negb (task_handle =? 0))
       (Ret (vTaskPrioritySet t task_handle
               match priority with
               | RHSTimerThreadPriorityNormal => timer_task_priority
               | RHSTimerThreadPriorityElevated => max_priorities - 1
               end))).
End timer.

(** ** What FreeRTOS documents of its timers

    [queue] is what the daemon has still to execute, oldest first. A timer's callback
    runs while the timer is [armed], by the daemon, between two commands. *)

Inductive command :=
  | CDelete (h : Z)
  | CChangePeriod (h ticks : Z)
  | CReset (h : Z)
  | CStop (h : Z)
  | CPend (f : pended) (arg1 arg2 : Z).

(** The timer a command is about. *)
Definition command_timer (c : command) : option Z :=
  match c with
  | CDelete h | CChangePeriod h _ | CReset h | CStop h => Some h
  | CPend _ _ _ => None
  end.

(** What executing a command makes of the set of armed timers. *)
Definition execute (c : command) (a : gset Z) : gset Z :=
  match c with
  | CDelete h | CStop h => a ∖ {[h]}
  | CChangePeriod h _ | CReset h => {[h]} ∪ a
  | CPend _ _ _ => a
  end.
Definition execute_all (cs : list command) (a : gset Z) : gset Z := fold_left (fun a c => execute c a) cs a.

Class TimerServiceLaws (T : Type) `{TimerService T} := {
  queue : T -> list command;
  armed : T -> gset Z;
  (** With [portMAX_DELAY] a command is always accepted, while the daemon goes on: it
      executes some commands and one-shot timers may expire. *)
  progress : T -> T -> Prop;
  progress_spec t t' : progress t t' <-> exists done, queue t = done ++ queue t' /\
    armed t' ⊆ execute_all done (armed t);
  delete_spec t h : let '(r, t') := xTimerDelete t h portMAX_DELAY in
    r = pdTRUE /\ exists t1, progress t t1 /\ queue t' = queue t1 ++ [CDelete h] /\ armed t' = armed t1;
  pend_spec t f a b : let '(r, t') := xTimerPendFunctionCall t f a b portMAX_DELAY in
    r = pdTRUE /\ exists t1, progress t t1 /\ queue t' = queue t1 ++ [CPend f a b] /\ armed t' = armed t1;
  (** The event is a new one: no command queued concerns it. *)
  event_spec t : let '(e, t') := stack_event_create t in
    queue t' = queue t /\ armed t' = armed t /\ forall b, CPend Epilogue e b ∉ queue t;
  (** Waiting for ever ends when the bit is set, which only [rhs_timer_epilogue] for this
      event does: the daemon has then executed that command. *)
  wait_event_spec t e : (exists b, CPend Epilogue e b ∈ queue t) ->
    let '(r, t') := stack_event_wait t e TIMER_DELETED_EVENT portMAX_DELAY in
    r = TIMER_DELETED_EVENT /\ progress t t' /\ forall done b, queue t = done ++ queue t' ->
      CPend Epilogue e b ∈ queue t -> CPend Epilogue e b ∈ done;
  event_delete_spec t e : queue (stack_event_delete t e) = queue t /\ armed (stack_event_delete t e) = armed t
}.

Section properties.
Context {S : Type} `{SchedulerLaws S} {T : Type} `{TimerServiceLaws T}.

Lemma execute_all_app cs cs' a : execute_all (cs ++ cs') a = execute_all cs' (execute_all cs a).
Proof. apply fold_left_app. Qed.

Lemma execute_mono c a a' : a ⊆ a' -> execute c a ⊆ execute c a'.
Proof. destruct c; simpl; set_solver. Qed.
Lemma execute_all_mono cs a a' : a ⊆ a' -> execute_all cs a ⊆ execute_all cs a'.
Proof.
  revert a a'. induction cs as [|c cs IH]; intros a a' Ha; [done|]. apply IH. by apply execute_mono.
Qed.

Lemma execute_all_fresh cs h a :
  Forall (fun c => command_timer c <> Some h) cs -> h ∉ a -> h ∉ execute_all cs a.
Proof.
  intros Hc. revert a. induction Hc as [|c cs Hc _ IH]; intros a Ha; [done|].
  apply IH. destruct c; simpl in *; set_solver.
Qed.

(** When [rhs_timer_free] returns, the daemon has executed the deletion and
    everything queued before it: no queued command refers to the timer, it is not armed,
    and its structure is freed, so that its callback cannot run on freed memory. *)
Theorem timer_free_is_final s t m h i :
  get_IPSR s = 0 -> get_PRIMASK s = 0 -> h <> 0 -> m !! h = Some i ->
  exists t', rhs_timer_free s t m h = Ret (t', delete h m) /\
    Forall (fun c => command_timer c <> Some h) (queue t') /\ h ∉ armed t'.
Proof.
  intros E1 E2 Hh Hm. unfold rhs_timer_free, in_task. rewrite task_not_irq by done.
  destruct (Z.eqb_spec h 0); [done|]. simpl.
  pose proof (delete_spec t h) as D. destruct (xTimerDelete t h portMAX_DELAY) as [r1 t1].
  destruct D as (-> & ta & Pa & Q1 & A1). simpl.
  pose proof (event_spec t1) as V. destruct (stack_event_create t1) as [e t2].
  destruct V as (Q2 & A2 & Hnew).
  pose proof (pend_spec t2 Epilogue e 0) as P. destruct (xTimerPendFunctionCall t2 Epilogue e 0 portMAX_DELAY) as [r3 t3].
  destruct P as (-> & tb & Pb & Q3 & A3). simpl.
  apply progress_spec in Pb as (db & Eb & Ab). rewrite Q2 in Eb.
  pose proof (wait_event_spec t3 e) as W. destruct (stack_event_wait t3 e TIMER_DELETED_EVENT portMAX_DELAY) as [r4 t4].
  destruct W as (-> & Pw & Hdone); [exists 0; rewrite Q3; set_solver|]. simpl. rewrite Hm.
  eexists. split; [done|]. destruct (event_delete_spec t4 e) as [-> ->].
  apply progress_spec in Pw as (dw & Ew & Aw). specialize (Hdone dw 0 Ew).
  rewrite Q3 in Ew, Hdone.
  assert (Hin : CPend Epilogue e 0 ∈ dw) by (apply Hdone; set_solver).
  assert (Hq4 : queue t4 = [] /\ dw = queue tb ++ [CPend Epilogue e 0]).
  { destruct (queue t4) as [|c q4 _] using rev_ind; [by rewrite app_nil_r in Ew|].
    exfalso. rewrite app_assoc in Ew. apply app_inj_tail in Ew as [Ew _].
    apply (Hnew 0). rewrite Eb, Ew. set_solver. }
  destruct Hq4 as [-> ->]. split; [constructor|].
  intros Hin'. apply Aw in Hin'. rewrite execute_all_app in Hin'. simpl in Hin'.
  rewrite A3 in Hin'. apply (execute_all_mono _ _ _ Ab) in Hin'.
  rewrite <- execute_all_app, <- Eb, Q1, execute_all_app in Hin'. simpl in Hin'. set_solver.
Qed.
End properties.

(** ** A timer service whose daemon runs when a call waits *)

Record daemon := mkDaemon { d_queue : list command; d_armed : gset Z; d_events : Z }.

Definition push (t : daemon) (c : command) : Z * daemon :=
  (pdTRUE, mkDaemon (d_queue t ++ [c]) (d_armed t) (d_events t)).
Definition drain (t : daemon) : daemon := mkDaemon [] (execute_all (d_queue t) (d_armed t)) (d_events t).

(** Above every event mentioned in the queue. *)
Definition fresh_event (t : daemon) : Z :=
  1 + fold_right (fun c m => match c with CPend _ a _ => Z.max a m | _ => m end) 0 (d_queue t).

#[global] Instance daemon_service : TimerService daemon := {
  xTimerCreateStatic t _ _ _ := t;
  xTimerDelete t h _ := push t (CDelete h);
  xTimerChangePeriod t h n _ := push t (CChangePeriod h n);
  xTimerReset t h _ := push t (CReset h);
  xTimerStop t h _ := push t (CStop h);
  xTimerIsTimerActive t h := if decide (h ∈ d_armed t) then 1 else 0;
  xTimerGetExpiryTime _ _ := 0;
  xTimerPendFunctionCall t f a b _ := push t (CPend f a b);
  xTimerPendFunctionCallFromISR t f a b := push t (CPend f a b);
  xTimerGetTimerDaemonTaskHandle _ := 1;
  vTaskPrioritySet t _ _ := t;
  stack_event_create t := (fresh_event t, t);
  stack_event_wait t _ _ _ := (TIMER_DELETED_EVENT, drain t);
  stack_event_delete t _ := t
}.

Lemma fresh_event_new t b : CPend Epilogue (fresh_event t) b ∉ d_queue t.
Proof.
  unfold fresh_event. intros Hin.
  assert (H : forall c, c ∈ d_queue t -> match c with CPend _ a _ =>
    a <= fold_right (fun c m => match c with CPend _ a _ => Z.max a m | _ => m end) 0 (d_queue t) | _ => True end).
  { clear Hin. induction (d_queue t) as [|c0 q IH]; intros c; [set_solver|].
    rewrite elem_of_cons. intros [->|Hc].
    - destruct c0; simpl; done || lia.
    - specialize (IH c Hc). destruct c, c0; simpl; done || lia. }
  specialize (H _ Hin). simpl in H. lia.
Qed.

#[local] Obligation Tactic := idtac.

#[global] Program Instance daemon_laws : TimerServiceLaws daemon := {
  queue := d_queue;
  armed := d_armed;
  progress t t' := exists done, d_queue t = done ++ d_queue t' /\ d_armed t' ⊆ execute_all done (d_armed t)
}.
Next Obligation. done. Qed.
Next Obligation. intros t h. simpl. split; [done|]. exists t. split; [by exists []|]. done. Qed.
Next Obligation. intros t f a b. simpl. split; [done|]. exists t. split; [by exists []|]. done. Qed.
Next Obligation. intros t. simpl. split; [done|]. split; [done|]. intros b. apply fresh_event_new. Qed.
Next Obligation.
  intros t e Hb. simpl. split; [done|]. split.
  - exists (d_queue t). simpl. by rewrite app_nil_r.
  - intros dn b. simpl. rewrite app_nil_r. by intros ->.
Qed.
Next Obligation. done. Qed.

(** A timer that is armed and has a command waiting. *)
Definition busy : daemon := mkDaemon [CChangePeriod 64 10] {[64]} 0.

Theorem timer_free_is_final_witness :
  exists t', rhs_timer_free a_task busy {[64 := mkTimer 8 9]} 64 = Ret (t', delete 64 {[64 := mkTimer 8 9]}) /\
    Forall (fun c => command_timer c <> Some 64) (queue t') /\ 64 ∉ armed t'.
Proof.
  apply (timer_free_is_final a_task busy {[64 := mkTimer 8 9]} 64 (mkTimer 8 9)); [reflexivity|reflexivity|lia|reflexivity].
Defined.
