(* ===== verification/StreamBuf.v ===== *)
(** * Stream buffers (core/stream_buf.c), over FreeRTOS stream buffers *)

From S2P Require Import Prelude Kernel.

Class FreeRTOSStream (B : Type) := {
  (** [xStreamBufferCreateStatic(size, trigger_level)]; FreeRTOS asserts that the size is
      not 0. *)
  xStreamBufferCreateStatic : Z -> Z -> outcome B;
  xStreamBufferSetTriggerLevel : B -> Z -> Z * B;
  xTriggerLevelBytes : B -> Z;
  (** The number of bytes sent. *)
  xStreamBufferSend : B -> list Z -> Z -> Z * B;
  xStreamBufferSendFromISR : B -> list Z -> Z * B;
  (** The bytes received, at most the length asked for. *)
  xStreamBufferReceive : B -> Z -> Z -> list Z * B;
  xStreamBufferReceiveFromISR : B -> Z -> list Z * B;
  xStreamBufferBytesAvailable : B -> Z;
  xStreamBufferSpacesAvailable : B -> Z;
  xStreamBufferIsFull : B -> Z;
  xStreamBufferIsEmpty : B -> Z;
  xStreamBufferReset : B -> Z * B
}.

Section stream_buffer.
Context {S : Type} `{Scheduler S} {B : Type} `{FreeRTOSStream B}.

(** [rhs_assert(stream_buffer)] *)
Definition with_stream {A} (stream_buffer : option B) (k : B -> outcome A) : outcome A :=
  match stream_buffer with None => Crash "Assert" | Some b => k b end.

Definition rhs_stream_buffer_alloc (size trigger_level : Z) : outcome B :=
  if size =? 0 then Crash "Assert"
  else xStreamBufferCreateStatic (u16 (size + 1)) trigger_level.

Definition rhs_stream_buffer_free (b : option B) : outcome unit := with_stream b (fun _ => Ret tt).

Definition rhs_stream_set_trigger_level (b : option B) (trigger_level : Z) : outcome (bool * B) :=
  with_stream b (fun b => let '(r, b) := xStreamBufferSetTriggerLevel b trigger_level in Ret (r =? pdTRUE, b)).

Definition rhs_stream_get_trigger_level (b : option B) : outcome Z :=
  with_stream b (fun b => Ret (u16 (xTriggerLevelBytes b))).

(** [data] holds [length] bytes; the result is the [uint16_t] returned. *)
Definition rhs_stream_buffer_send (s : S) (b : option B) (data : list Z) (timeout : Z) : outcome (Z * B) :=
  with_stream b (fun b =>
    let '(ret, b) := if RHS_IS_IRQ_MODE s then xStreamBufferSendFromISR b data else xStreamBufferSend b data timeout in
    Ret (u16 ret, b)).

(** The number returned and the bytes written to the caller's buffer. *)
Definition rhs_stream_buffer_receive (s : S) (b : option B) (length_ timeout : Z) : outcome (Z * list Z * B) :=
  with_stream b (fun b =>
    let '(data, b) := if RHS_IS_IRQ_MODE s then xStreamBufferReceiveFromISR b length_
                      else xStreamBufferReceive b length_ timeout in
    Ret (u16 (Z.of_nat (length data)), data, b)).

Definition rhs_stream_buffer_bytes_available (b : option B) : outcome Z :=
  with_stream b (fun b => Ret (u16 (xStreamBufferBytesAvailable b))).
Definition rhs_stream_buffer_spaces_available (b : option B) : outcome Z :=
  with_stream b (fun b => Ret (u16 (xStreamBufferSpacesAvailable b))).
Definition rhs_stream_buffer_is_full (b : option B) : outcome bool :=
  with_stream b (fun b => Ret (xStreamBufferIsFull b =? pdTRUE)).
Definition rhs_stream_buffer_is_empty (b : option B) : outcome bool :=
  with_stream b (fun b => Ret (xStreamBufferIsEmpty b =? pdTRUE)).
Definition rhs_stream_buffer_reset (b : option B) : outcome (RHSStatus * B) :=
  with_stream b (fun b =>
    let '(r, b) := xStreamBufferReset b in Ret (if r =? pdTRUE then RHSStatusOk else RHSStatusError, b)).
End stream_buffer.

(** ** What FreeRTOS documents of its stream buffers, for calls that do not wait *)

Class FreeRTOSStreamLaws (B : Type) `{FreeRTOSStream B} := {
  stream : B -> list Z;
  (** One byte of the memory given stays unused. *)
  stream_size : B -> Z;
  stream_bounded b : Z.of_nat (length (stream b)) <= stream_size b < 65536;
  stream_create n t : 1 < n < 65536 -> exists b, xStreamBufferCreateStatic n t = Ret b /\
    stream b = [] /\ stream_size b = n - 1;
  stream_create_0 t : xStreamBufferCreateStatic 0 t = Crash "configASSERT";
  stream_send b d : Z.of_nat (length d) < 65536 ->
    let n := Z.min (Z.of_nat (length d)) (stream_size b - Z.of_nat (length (stream b))) in
    let ok '(r, b') := r = n /\ stream b' = stream b ++ take (Z.to_nat n) d /\ stream_size b' = stream_size b in
    ok (xStreamBufferSend b d 0) /\ ok (xStreamBufferSendFromISR b d);
  stream_receive b n : 0 <= n < 65536 ->
    let ok '(d, b') := d = take (Z.to_nat n) (stream b) /\ stream b' = drop (Z.to_nat n) (stream b) /\
      stream_size b' = stream_size b in
    ok (xStreamBufferReceive b n 0) /\ ok (xStreamBufferReceiveFromISR b n);
  (** A reset succeeds when no task is blocked on the buffer. *)
  stream_reset b : let '(r, b') := xStreamBufferReset b in
    if r =? pdTRUE then stream b' = [] /\ stream_size b' = stream_size b else b' = b;
  stream_counts b : xStreamBufferBytesAvailable b = Z.of_nat (length (stream b)) /\
    xStreamBufferSpacesAvailable b = stream_size b - Z.of_nat (length (stream b))
}.

Section properties.
Context {S : Type} `{Scheduler S} {B : Type} `{FreeRTOSStreamLaws B}.

Inductive stream_op := Send (ctx : S) (d : list Z) | Receive (ctx : S) (n : Z).

Definition small_op (op : stream_op) : Prop :=
  match op with Send _ d => Z.of_nat (length d) < 65536 | Receive _ n => 0 <= n < 65536 end.

(** The bytes accepted and the bytes received by an operation that does not wait. *)
Definition run_stream_op (op : stream_op) (b : B) : outcome (list Z * list Z * B) :=
  match op with
  | Send ctx d => '(n, b) ← rhs_stream_buffer_send ctx (Some b) d 0; Ret (take (Z.to_nat n) d, [], b)
  | Receive ctx n => '(_, d, b) ← rhs_stream_buffer_receive ctx (Some b) n 0; Ret ([], d, b)
  end.
Fixpoint run_stream_ops (ops : list stream_op) (b : B) : outcome (list Z * list Z * B) :=
  match ops with
  | [] => Ret ([], [], b)
  | op :: ops =>
      '(i, o, b) ← run_stream_op op b; '(ins, outs, b) ← run_stream_ops ops b; Ret (i ++ ins, o ++ outs, b)
  end.

(** A stream buffer of size [n] below 65535 never holds more than [n] bytes, the bytes
    available and the space always add up to [n], and over every sequence of sends and
    receives that do not wait the bytes come out in the order they were accepted, none
    lost or repeated; size 65535 wraps to 0 and stops the system. *)
Theorem stream_buffer_fifo n t ops :
  0 < n <= 65535 -> Forall small_op ops ->
  if n =? 65535 then rhs_stream_buffer_alloc n t = Crash "configASSERT" else
  exists b b' sent received, rhs_stream_buffer_alloc n t = Ret b /\
    run_stream_ops ops b = Ret (sent, received, b') /\ received ++ stream b' = sent /\
    exists used free, rhs_stream_buffer_bytes_available (Some b') = Ret used /\
      rhs_stream_buffer_spaces_available (Some b') = Ret free /\
      used = Z.of_nat (length (stream b')) /\ used + free = n /\ 0 <= free.
Proof.
  intros Hn Hops. unfold rhs_stream_buffer_alloc. destruct (Z.eqb_spec n 65535) as [->|Hne].
  { apply stream_create_0. }
  destruct (Z.eqb_spec n 0); [lia|]. rewrite u16_small by lia.
  destruct (stream_create (n + 1) t) as (b & -> & Hb & Hs); [lia|].
  assert (Hrun : exists b' sent received, run_stream_ops ops b = Ret (sent, received, b') /\
    received ++ stream b' = stream b ++ sent /\ stream_size b' = n).
  { replace (n + 1 - 1) with n in Hs by lia. clear Hb. revert b Hs.
    induction Hops as [|op ops Hop _ IH]; intros b Hs.
    - exists b, [], []. simpl. by rewrite app_nil_r.
    - cbn [run_stream_ops].
      assert (Hstep : exists i o b1, run_stream_op op b = Ret (i, o, b1) /\
        o ++ stream b1 = stream b ++ i /\ stream_size b1 = n).
      { pose proof (stream_bounded b). destruct op as [s d|s k]; simpl in Hop; unfold run_stream_op.
        - pose proof (stream_send b d Hop) as [E1 E2].
          unfold rhs_stream_buffer_send, with_stream.
          destruct (RHS_IS_IRQ_MODE s);
            [destruct (xStreamBufferSendFromISR b d) as [r b1]; destruct E2 as (-> & F1 & F2)
            |destruct (xStreamBufferSend b d 0) as [r b1]; destruct E1 as (-> & F1 & F2)];
            cbn [mbind outcome_bind]; rewrite u16_small by lia; eexists _, _, b1;
            (split; [done|]); (split; [done|congruence]).
        - pose proof (stream_receive b k Hop) as [E1 E2].
          unfold rhs_stream_buffer_receive, with_stream.
          destruct (RHS_IS_IRQ_MODE s);
            [destruct (xStreamBufferReceiveFromISR b k) as [r b1]; destruct E2 as (-> & F1 & F2)
            |destruct (xStreamBufferReceive b k 0) as [r b1]; destruct E1 as (-> & F1 & F2)];
            cbn [mbind outcome_bind]; eexists _, _, b1; (split; [done|]);
            (split; [rewrite F1, take_drop, app_nil_r; done|congruence]). }
      destruct Hstep as (i & o & b1 & -> & Hc & Hs1). cbn [mbind outcome_bind].
      destruct (IH b1 Hs1) as (b' & ins & outs & -> & Hc' & Hs').
      exists b', (i ++ ins), (o ++ outs). split; [done|]. split; [|done].
      rewrite <- app_assoc, Hc', !app_assoc. by f_equal. }
  destruct Hrun as (b' & sent & received & E & Hc & Hsz). exists b, b', sent, received.
  split; [done|]. split; [done|]. split; [by rewrite Hc, Hb|].
  destruct (stream_counts b') as [C1 C2]. pose proof (stream_bounded b').
  unfold rhs_stream_buffer_bytes_available, rhs_stream_buffer_spaces_available, with_stream.
  rewrite C1, C2, Hsz in *. rewrite !u16_small by lia. eexists _, _. split; [done|]. split; [done|]. lia.
Qed.
End properties.

(** ** A stream buffer to instantiate the theorem with *)

Record bytes_buffer := mkBytes { bb_bytes : list Z; bb_size : Z }.
Definition bb_limit (b : bytes_buffer) : Z := bb_size b mod 65536.
Definition bb_stream (b : bytes_buffer) : list Z := take (Z.to_nat (bb_limit b)) (bb_bytes b).
Definition bb_send (b : bytes_buffer) (d : list Z) : Z * bytes_buffer :=
  let n := Z.min (Z.of_nat (length d)) (bb_limit b - Z.of_nat (length (bb_stream b))) in
  (n, mkBytes (bb_stream b ++ take (Z.to_nat n) d) (bb_size b)).
Definition bb_receive (b : bytes_buffer) (n : Z) : list Z * bytes_buffer :=
  (take (Z.to_nat n) (bb_stream b), mkBytes (drop (Z.to_nat n) (bb_stream b)) (bb_size b)).

#[global] Instance bytes_stream : FreeRTOSStream bytes_buffer := {
  xStreamBufferCreateStatic n _ := if n =? 0 then Crash "configASSERT" else Ret (mkBytes [] (n - 1));
  xStreamBufferSetTriggerLevel b _ := (1, b);
  xTriggerLevelBytes _ := 1;
  xStreamBufferSend b d _ := bb_send b d;
  xStreamBufferSendFromISR := bb_send;
  xStreamBufferReceive b n _ := bb_receive b n;
  xStreamBufferReceiveFromISR := bb_receive;
  xStreamBufferBytesAvailable b := Z.of_nat (length (bb_stream b));
  xStreamBufferSpacesAvailable b := bb_limit b - Z.of_nat (length (bb_stream b));
  xStreamBufferIsFull b := if Z.of_nat (length (bb_stream b)) =? bb_limit b then 1 else 0;
  xStreamBufferIsEmpty b := if (length (bb_stream b) =? 0)%nat then 1 else 0;
  xStreamBufferReset b := (1, mkBytes [] (bb_size b))
}.

Lemma bb_bounded b : Z.of_nat (length (bb_stream b)) <= bb_limit b < 65536.
Proof.
  unfold bb_stream, bb_limit. pose proof (Z.mod_pos_bound (bb_size b) 65536 ltac:(lia)).
  rewrite length_take. lia.
Qed.
Lemma bb_fits l n : Z.of_nat (length l) <= n mod 65536 -> bb_stream (mkBytes l n) = l.
Proof. intros Hl. unfold bb_stream, bb_limit. simpl. apply take_ge. lia. Qed.

#[local] Obligation Tactic := idtac.

#[global] Program Instance bytes_stream_laws : FreeRTOSStreamLaws bytes_buffer := {
  stream := bb_stream;
  stream_size := bb_limit
}.
Next Obligation. apply bb_bounded. Qed.
Next Obligation.
  intros n t Hn. simpl. destruct (Z.eqb_spec n 0); [lia|]. eexists. split; [done|].
  split; [by apply bb_fits, Z.mod_pos_bound|]. apply Z.mod_small. lia.
Qed.
Next Obligation. done. Qed.
Next Obligation.
  intros b d Hd. simpl. pose proof (bb_bounded b).
  split; (split; [done|]); (split; [|done]); apply bb_fits; fold (bb_limit b);
    rewrite length_app, length_take; lia.
Qed.
Next Obligation.
  intros b n Hn. simpl. pose proof (bb_bounded b).
  split; (split; [done|]); (split; [|done]); apply bb_fits; fold (bb_limit b);
    rewrite length_drop; lia.
Qed.
Next Obligation. intros b. simpl. split; [|done]. apply bb_fits. cbn. apply Z.mod_pos_bound. lia. Qed.
Next Obligation. done. Qed.

Theorem stream_buffer_fifo_witness :
  exists b b' sent received, rhs_stream_buffer_alloc 4 1 = Ret (b : bytes_buffer) /\
    run_stream_ops [Send a_task [1; 2; 3]; Receive a_task 2; Send a_task [4; 5; 6; 7]] b = Ret (sent, received, b') /\
    received ++ stream b' = sent /\
    exists used free, rhs_stream_buffer_bytes_available (Some b') = Ret used /\
      rhs_stream_buffer_spaces_available (Some b') = Ret free /\
      used = Z.of_nat (length (stream b')) /\ used + free = 4 /\ 0 <= free.
Proof.
  refine (stream_buffer_fifo 4 1 [Send a_task [1; 2; 3]; Receive a_task 2; Send a_task [4; 5; 6; 7]] _ _).
  - lia.
  - repeat constructor; simpl; lia.
Defined.
