(* ===== verification/Records.v ===== *)
(** * Records: the registry of services (core/record.c)

    The registry is a client of the mutex and of the event flags: its theorems use their
    FreeRTOS interfaces. Its own data are a dictionary by name (M*LIB's, here a finite
    map) of records, each with the flag that says it is ready. *)

From S2P Require Import Prelude Kernel EventFlag Mutex.

Definition RHS_RECORD_FLAG_READY : Z := 1.

Section record.
Context {S : Type} `{Scheduler S} {Q : Type} `{FreeRTOSMutex Q} {E : Type} `{EventGroup E}.

(** [data] is a pointer, 0 for NULL. *)
Record RHSRecordData := mkRecordData { flags : E; data : Z; holders_count : Z }.
Abbreviation dict := (gmap string RHSRecordData).
Record RHSRecord := mkRecord { mutex : Q; records : dict }.

Definition rhs_record_init (s : S) : outcome RHSRecord :=
  q ← rhs_mutex_alloc s (mutex_type_value RHSMutexTypeNormal); Ret (mkRecord q ∅).

Definition rhs_record_get (d : dict) (name : string) : option RHSRecordData := d !! name.
Definition rhs_record_put (d : dict) (name : string) (r : RHSRecordData) : dict := <[name := r]> d.
Definition rhs_record_erase (s : S) (d : dict) (name : string) (r : RHSRecordData) : outcome dict :=
  rhs_event_flag_free s (Some (flags r));; Ret (delete name d).

Definition rhs_record_data_get_or_create (s : S) (d : dict) (name : string) : outcome (RHSRecordData * dict) :=
  match rhs_record_get d name with
  | Some r => Ret (r, d)
  | None =>
      e ← rhs_event_flag_alloc s;
      let new_record := mkRecordData e 0 0 in
      Ret (new_record, rhs_record_put d name new_record)
  end.

(** [rhs_assert(rhs_mutex_acquire(...) == RHSStatusOk)] and the same for the release. *)
Definition rhs_record_lock (s : S) (me : Z) (q : Q) : outcome Q :=
  '(r, q) ← rhs_mutex_acquire s me (Some q) RHSWaitForever;
  if decide (r = RHSStatusOk) then Ret q else Crash "Assert".
Definition rhs_record_unlock (s : S) (me : Z) (q : Q) : outcome Q :=
  '(r, q) ← rhs_mutex_release s me (Some q);
  if decide (r = RHSStatusOk) then Ret q else Crash "Assert".

(** [rhs_assert(rhs_record)], then the body between lock and unlock. *)
Definition locked {A} (s : S) (me : Z) (st : option RHSRecord)
    (body : dict -> outcome (A * dict * S)) : outcome (A * RHSRecord) :=
  match st with
  | None => Crash "Assert"
  | Some st =>
      q ← rhs_record_lock s me (mutex st);
      '(a, d, s) ← body (records st);
      q ← rhs_record_unlock s me q;
      Ret (a, mkRecord q d)
  end.

Definition rhs_record_exists (s : S) (me : Z) (st : option RHSRecord) (name : string) : outcome (bool * RHSRecord) :=
  locked s me st (fun d =>
    Ret (match rhs_record_get d name with Some _ => true | None => false end, d, s)).

Definition rhs_record_create (s : S) (me : Z) (st : option RHSRecord) (name : string) (data_ : Z)
    : outcome (unit * RHSRecord) :=
  if data_ =? 0 then Crash "Assert" else
  locked s me st (fun d =>
    '(r, d) ← rhs_record_data_get_or_create s d name;
    if negb (data r =? 0) then Crash "Assert" else
    '(_, e, s) ← rhs_event_flag_set s (Some (flags r)) RHS_RECORD_FLAG_READY;
    Ret (tt, <[name := mkRecordData e data_ (holders_count r)]> d, s)).

Definition rhs_record_destroy (s : S) (me : Z) (st : option RHSRecord) (name : string)
    : outcome (bool * RHSRecord) :=
  locked s me st (fun d =>
    match rhs_record_get d name with
    | None => Crash "Assert"
    | Some r =>
        if holders_count r =? 0 then d ← rhs_record_erase s d name r; Ret (true, d, s)
        else Ret (false, d, s)
    end).

(** [rhs_record_open] up to its unlock; other tasks may run before it goes on. *)
Definition rhs_record_open_locked (s : S) (me : Z) (st : option RHSRecord) (name : string)
    : outcome (unit * RHSRecord) :=
  locked s me st (fun d =>
    '(r, d) ← rhs_record_data_get_or_create s d name;
    Ret (tt, <[name := mkRecordData (flags r) (data r) (u32 (holders_count r + 1))]> d, s)).

(** The rest: the wait on the record's flag, then its data. The record is accessed
    without the lock, through a pointer that is valid while the record exists. *)
Definition rhs_record_open_wait (s : S) (st : RHSRecord) (name : string) : outcome (Z * RHSRecord) :=
  match records st !! name with
  | None => Fault
  | Some r =>
      '(rflags, e) ← rhs_event_flag_wait s (Some (flags r)) RHS_RECORD_FLAG_READY
        (Z.lor RHSFlagWaitAny RHSFlagNoClear) RHSWaitForever;
      if rflags =? RHS_RECORD_FLAG_READY then
        Ret (data r, mkRecord (mutex st) (<[name := mkRecordData e (data r) (holders_count r)]> (records st)))
      else Crash "Assert"
  end.

Definition rhs_record_close (s : S) (me : Z) (st : option RHSRecord) (name : string)
    : outcome (unit * RHSRecord) :=
  locked s me st (fun d =>
    match rhs_record_get d name with
    | None => Crash "Assert"
    | Some r => Ret (tt, <[name := mkRecordData (flags r) (data r) (u32 (holders_count r - 1))]> d, s)
    end).
End record.

(** ** The registry in use

    Tasks call the operations in any order; [waiting] holds the opens that have left the
    lock and not returned, [held] what was opened and not closed, with the pointer
    returned. Only records opened are closed. An open returns when the flag is set. *)

Section system.
Context {S : Type} `{SchedulerLaws S} {Q : Type} `{FreeRTOSMutexLaws Q} {E : Type} `{EventGroupLaws E}.

Abbreviation registry := (@RHSRecord Q E).

Record config := mkConfig { store : registry; waiting : list string; held : list (string * Z) }.

Definition in_task_ctx (s : S) (me : Z) : Prop := get_IPSR s = 0 /\ me <> 0.

Inductive step : config -> config -> Prop :=
  | step_exists s me n b st st' w h :
      in_task_ctx s me -> rhs_record_exists s me (Some st) n = Ret (b, st') ->
      step (mkConfig st w h) (mkConfig st' w h)
  | step_create s me n d st st' w h :
      in_task_ctx s me -> rhs_record_create s me (Some st) n d = Ret (tt, st') ->
      step (mkConfig st w h) (mkConfig st' w h)
  | step_destroy s me n b st st' w h :
      in_task_ctx s me -> rhs_record_destroy s me (Some st) n = Ret (b, st') ->
      step (mkConfig st w h) (mkConfig st' w h)
  | step_open s me n st st' w h :
      in_task_ctx s me -> Z.of_nat (length w + length h) < 2 ^ 32 - 1 ->
      rhs_record_open_locked s me (Some st) n = Ret (tt, st') ->
      step (mkConfig st w h) (mkConfig st' (n :: w) h)
  | step_opened s me n d st st' w1 w2 h r :
      in_task_ctx s me -> records st !! n = Some r ->
      satisfied (bits (flags r)) RHS_RECORD_FLAG_READY false = true ->
      rhs_record_open_wait s st n = Ret (d, st') ->
      step (mkConfig st (w1 ++ n :: w2) h) (mkConfig st' (w1 ++ w2) ((n, d) :: h))
  | step_close s me n d st st' w h1 h2 :
      in_task_ctx s me -> rhs_record_close s me (Some st) n = Ret (tt, st') ->
      step (mkConfig st w (h1 ++ (n, d) :: h2)) (mkConfig st' w (h1 ++ h2)).

Inductive reachable : config -> Prop :=
  | reach_init s st : RHS_IS_IRQ_MODE s = false -> rhs_record_init s = Ret st -> reachable (mkConfig st [] [])
  | reach_step c c' : reachable c -> step c c' -> reachable c'.

(** ** The invariant *)

Definition count_name (n : string) (l : list string) : Z := Z.of_nat (length (filter (fun m => m = n) l)).

(** The number of users of a record. *)
Definition users (n : string) (w : list string) (h : list (string * Z)) : Z :=
  count_name n w + count_name n (map fst h).

Definition record_ok (n : string) (w : list string) (h : list (string * Z)) (r : @RHSRecordData E) : Prop :=
  holders_count r = users n w h /\
  ((data r = 0 /\ bits (flags r) = 0 /\ (forall d, (n, d) ∉ h)) \/
   (data r <> 0 /\ bits (flags r) = 1 /\ forall d, (n, d) ∈ h -> d = data r)).

Record good (c : config) : Prop := {
  good_mutex : ucQueueType (mutex (store c)) = queueQUEUE_TYPE_MUTEX /\ owner (mutex (store c)) = 0;
  good_records : forall n, match records (store c) !! n with
    | Some r => record_ok n (waiting c) (held c) r
    | None => users n (waiting c) (held c) = 0
    end;
  good_bound : Z.of_nat (length (waiting c) + length (held c)) < 2 ^ 32
}.

(** Waits on these flags do not clear them, so that setting them sets them. *)
Context (no_clearing_waiter : forall (e : E) f, woken e f = 0).

Lemma task_ctx_mode s me : in_task_ctx s me -> RHS_IS_IRQ_MODE s = false.
Proof. intros [Hi _]. unfold RHS_IS_IRQ_MODE. by rewrite Hi. Qed.

(** The bodies run under the lock, and leave the mutex free. *)
Lemma locked_inv {A} s me (st st' : registry) (a : A) body :
  in_task_ctx s me -> free_mutex (mutex st) ->
  (forall d a d' s', body d = Ret (a, d', s') -> get_IPSR s' = get_IPSR s) ->
  locked s me (Some st) body = Ret (a, st') ->
  exists s', body (records st) = Ret (a, records st', s') /\ free_mutex (mutex st').
Proof.
  intros Hc Hq Hbody. pose proof (task_ctx_mode _ _ Hc) as Hm. destruct Hc as [Hi Hme].
  unfold locked, rhs_record_lock, rhs_record_unlock.
  destruct (acquire_free s me (mutex st) RHSWaitForever Hm Hme Hq) as (q1 & -> & Hq1).
  cbn [mbind outcome_bind]. destruct (decide (RHSStatusOk = RHSStatusOk)) as [_|]; [|done]. cbn [mbind outcome_bind].
  destruct (body (records st)) as [[[b d] s']| | |] eqn:Eb; try done. cbn [mbind outcome_bind].
  assert (Hm' : RHS_IS_IRQ_MODE s' = false).
  { unfold RHS_IS_IRQ_MODE. by rewrite (Hbody _ _ _ _ Eb), Hi. }
  destruct (release_held s' me q1 Hm' Hme Hq1) as (q2 & -> & Hq2). simpl.
  intros [= -> <-]. by exists s'.
Qed.

Lemma get_or_create_inv s (d d' : gmap string (@RHSRecordData E)) n r w h :
  match d !! n with Some r => record_ok n w h r | None => users n w h = 0 end ->
  rhs_record_data_get_or_create s d n = Ret (r, d') ->
  record_ok n w h r /\ d' = <[n := r]> d.
Proof.
  unfold rhs_record_data_get_or_create, rhs_record_get. destruct (d !! n) as [r0|] eqn:En.
  - intros Hr [= <- <-]. split; [done|]. symmetry. by apply insert_id.
  - unfold rhs_event_flag_alloc. destruct (negb (RHS_IS_IRQ_MODE s)); [|done]. simpl.
    intros Hu [= <- <-]. split; [|done]. split; [done|]. left. split; [done|].
    simpl. destruct created as [-> _]. split; [done|]. intros x Hx.
    assert (n ∈ filter (fun m => m = n) (map fst h)) as Hin.
    { apply list_elem_of_filter. split; [done|]. apply list_elem_of_fmap. by exists (n, x). }
    unfold users, count_name in Hu. destruct (filter _ (map fst h)) eqn:Ef; [set_solver|].
    simpl in Hu. lia.
Qed.

(** Counting users when one of them comes, goes or changes its state. *)
Lemma count_cons n m l : count_name n (m :: l) = (if decide (m = n) then 1 else 0) + count_name n l.
Proof. unfold count_name. rewrite filter_cons. destruct (decide (m = n)); simpl; lia. Qed.
Lemma count_mid n m l1 l2 :
  count_name n (l1 ++ m :: l2) = (if decide (m = n) then 1 else 0) + count_name n (l1 ++ l2).
Proof.
  unfold count_name. rewrite !filter_app, filter_cons, !length_app.
  destruct (decide (m = n)); simpl; lia.
Qed.
Lemma count_bound n l : 0 <= count_name n l <= Z.of_nat (length l).
Proof. unfold count_name. pose proof (length_filter (fun m => m = n) l). lia. Qed.
Lemma users_bound n w h : 0 <= users n w h <= Z.of_nat (length w + length h).
Proof.
  unfold users. pose proof (count_bound n w). pose proof (count_bound n (map fst h)) as Hh.
  rewrite length_map in Hh. lia.
Qed.
Lemma users_held n d w h : (n, d) ∈ h -> 0 < users n w h.
Proof.
  intros Hin. unfold users. pose proof (count_bound n w).
  assert (Hf : n ∈ filter (fun m => m = n) (map fst h)).
  { apply list_elem_of_filter. split; [done|]. apply list_elem_of_fmap. by exists (n, d). }
  unfold count_name in *. destruct (filter _ (map fst h)); [set_solver|]. simpl. lia.
Qed.

(** A record changed at one name: the others keep theirs when nobody else's users change. *)
Lemma good_insert (st st' : registry) w h w' h' n r :
  good (mkConfig st w h) -> free_mutex (mutex st') ->
  records st' = <[n := r]> (records st) ->
  record_ok n w' h' r ->
  (forall m, m <> n -> users m w' h' = users m w h) ->
  (forall m d, m <> n -> (m, d) ∈ h' <-> (m, d) ∈ h) ->
  Z.of_nat (length w' + length h') < 2 ^ 32 ->
  good (mkConfig st' w' h').
Proof.
  intros [G1 G2 G3] Hm Hr Hok Hu Hh Hb. split; simpl; [done| |done].
  intros m. rewrite Hr. destruct (decide (m = n)) as [->|Hne]; [by rewrite lookup_insert_eq|].
  rewrite lookup_insert_ne by done. specialize (G2 m). simpl in G2.
  destruct (records st !! m) as [x|]; [|by rewrite Hu].
  destruct G2 as [C D]. split; [by rewrite C, Hu|].
  destruct D as [(D1 & D2 & D3)|(D1 & D2 & D3)]; [left|right]; (split; [done|]); (split; [done|]);
    intros d; specialize (D3 d); rewrite Hh by done; done.
Qed.

Lemma set_inv s e r e' s' :
  get_IPSR s = 0 -> rhs_event_flag_set s (Some e) RHS_RECORD_FLAG_READY = Ret (r, e', s') ->
  bits e' = Z.lor (bits e) 1 /\ get_IPSR s' = get_IPSR s.
Proof.
  intros Hi. unfold rhs_event_flag_set, with_valid_flags.
  change (Z.land RHS_RECORD_FLAG_READY RHS_EVENT_FLAG_INVALID_BITS =? 0) with true. cbn iota.
  unfold RHS_IS_IRQ_MODE. rewrite Hi. simpl.
  pose proof (set_spec e RHS_RECORD_FLAG_READY ltac:(by vm_compute)) as St.
  destruct (xEventGroupSetBits e RHS_RECORD_FLAG_READY) as [r1 e1]. destruct St as [E1 _].
  rewrite no_clearing_waiter, Z.ldiff_0_r in E1.
  destruct (suspend_spec s) as (U1 & _ & U3 & _). pose proof (suspended_nonneg s).
  destruct (resume_spec (vTaskSuspendAll s)) as (x & s1 & Er & _ & _ & R3 & _); [lia|].
  unfold resume_all. rewrite Er. simpl. intros [= <- <- <-]. split; [done|]. congruence.
Qed.

Lemma wait_inv s e r e' :
  get_IPSR s = 0 -> satisfied (bits e) RHS_RECORD_FLAG_READY false = true ->
  rhs_event_flag_wait s (Some e) RHS_RECORD_FLAG_READY (Z.lor RHSFlagWaitAny RHSFlagNoClear) RHSWaitForever =
    Ret (r, e') -> bits e' = bits e /\ r = bits e.
Proof.
  intros Hi Hs. unfold rhs_event_flag_wait, with_valid_flags, RHS_IS_IRQ_MODE. rewrite Hi.
  change (Z.land RHS_RECORD_FLAG_READY RHS_EVENT_FLAG_INVALID_BITS =? 0) with true.
  change (negb (Z.land (Z.lor RHSFlagWaitAny RHSFlagNoClear) RHSFlagWaitAll =? 0)) with false.
  change (Z.land (Z.lor RHSFlagWaitAny RHSFlagNoClear) RHSFlagNoClear =? 0) with false.
  cbn [negb Z.eqb].
  pose proof (wait_spec e RHS_RECORD_FLAG_READY false false RHSWaitForever ltac:(by vm_compute)) as W.
  destruct (xEventGroupWaitBits e RHS_RECORD_FLAG_READY false false RHSWaitForever) as [x e1].
  rewrite Hs in W. destruct W as (e2 & -> & -> & W). rewrite andb_false_r in W.
  intros [= <- <-]. split; [done|]. unfold satisfied in Hs.
  by destruct (Z.land RHS_RECORD_FLAG_READY (bits e) =? 0).
Qed.

Lemma create_good s me n d st st' w h :
  in_task_ctx s me -> rhs_record_create s me (Some st) n d = Ret (tt, st') ->
  good (mkConfig st w h) -> good (mkConfig st' w h).
Proof.
  intros Hc E1 G. unfold rhs_record_create in E1. destruct (Z.eqb_spec d 0) as [|Hd]; [done|].
  apply locked_inv in E1 as (s' & Eb & Hm); [|done|by apply G|].
  - destruct (rhs_record_data_get_or_create s (records st) n) as [[r dd]| | |] eqn:Eg; cbn [mbind outcome_bind] in Eb; try done.
    cbn [mbind outcome_bind] in Eb. destruct (Z.eqb_spec (data r) 0) as [Hz|]; [|done]. cbn [negb] in Eb.
    destruct (rhs_event_flag_set s (Some (flags r)) RHS_RECORD_FLAG_READY) as [[[x e] s1]| | |] eqn:Es; cbn [mbind outcome_bind] in Eb; try done.
    apply set_inv in Es as [Hb _]; [|by destruct Hc]. cbn [mbind outcome_bind] in Eb. injection Eb as Eb _.
    pose proof (good_records _ G n) as Gn. simpl in Gn.
    destruct (get_or_create_inv s _ _ _ _ w h Gn Eg) as [[Hh Hr] ->].
    rewrite insert_insert_eq in Eb. eapply good_insert; [done|done|by symmetry|..|by apply G]; try done.
    split; [done|]. right. simpl. destruct Hr as [(_ & R2 & R3)|(R1 & _)]; [|done].
    split; [done|]. split; [by rewrite Hb, R2|]. intros x' Hx. by apply R3 in Hx.
  - intros dd a d' s' Eb.
    destruct (rhs_record_data_get_or_create s dd n) as [[r d1]| | |]; cbn [mbind outcome_bind] in Eb; try done.
    destruct (negb _); [done|].
    destruct (rhs_event_flag_set s (Some (flags r)) RHS_RECORD_FLAG_READY) as [[[x e] s1]| | |] eqn:Es; cbn [mbind outcome_bind] in Eb; try done.
    apply set_inv in Es as [_ Hi]; [|by destruct Hc]. cbn [mbind outcome_bind] in Eb. by injection Eb as _ _ <-.
Qed.

Lemma destroy_good s me n b st st' w h :
  in_task_ctx s me -> rhs_record_destroy s me (Some st) n = Ret (b, st') ->
  good (mkConfig st w h) -> good (mkConfig st' w h).
Proof.
  intros Hc E1 G. apply locked_inv in E1 as (s' & Eb & Hm); [|done|by apply G|].
  - unfold rhs_record_get in Eb. destruct (records st !! n) as [r|] eqn:En; [|done].
    pose proof (good_records _ G n) as Gn. simpl in Gn. rewrite En in Gn. destruct Gn as [Hh _].
    destruct (Z.eqb_spec (holders_count r) 0) as [Hz|Hz].
    + unfold rhs_record_erase, rhs_event_flag_free in Eb. destruct (RHS_IS_IRQ_MODE s); [done|].
      cbn [mbind outcome_bind] in Eb. injection Eb as _ Eb _. split; simpl; [done| |by apply G].
      intros m. rewrite <- Eb. destruct (decide (m = n)) as [->|Hne].
      * rewrite lookup_delete_eq. lia.
      * rewrite lookup_delete_ne by done. apply (good_records _ G m).
    + injection Eb as _ Eb _. split; simpl; [done| |by apply G].
      intros m. rewrite <- Eb. apply (good_records _ G m).
  - intros d a d' s' Eb. unfold rhs_record_get in Eb. destruct (d !! n); [|done].
    destruct (_ =? 0); [|by injection Eb as _ _ <-].
    destruct (rhs_record_erase _ _ _ _); cbn [mbind outcome_bind] in Eb; try done. by injection Eb as _ _ <-.
Qed.

Lemma open_good s me n st st' w h :
  in_task_ctx s me -> Z.of_nat (length w + length h) < 2 ^ 32 - 1 ->
  rhs_record_open_locked s me (Some st) n = Ret (tt, st') ->
  good (mkConfig st w h) -> good (mkConfig st' (n :: w) h).
Proof.
  intros Hc Hb E1 G. apply locked_inv in E1 as (s' & Eb & Hm); [|done|by apply G|].
  - destruct (rhs_record_data_get_or_create s (records st) n) as [[r dd]| | |] eqn:Eg; cbn [mbind outcome_bind] in Eb; try done.
    cbn [mbind outcome_bind] in Eb. injection Eb as Eb _.
    pose proof (good_records _ G n) as Gn. simpl in Gn.
    destruct (get_or_create_inv s _ _ _ _ w h Gn Eg) as [[Hh Hr] ->].
    rewrite insert_insert_eq in Eb. eapply good_insert; [done|done|by symmetry|..]; try done.
    + split; simpl; [|done]. pose proof (users_bound n w h). rewrite Hh, u32_small by lia.
      unfold users. rewrite count_cons, decide_True by done. lia.
    + intros m Hne. unfold users. by rewrite count_cons, decide_False by done.
    + simpl. lia.
  - intros dd a d' s' Eb.
    destruct (rhs_record_data_get_or_create s dd n) as [[r d1]| | |]; cbn [mbind outcome_bind] in Eb; try done.
    by injection Eb as _ _ <-.
Qed.

Lemma opened_good s me n d st st' w1 w2 h r :
  in_task_ctx s me -> records st !! n = Some r ->
  satisfied (bits (flags r)) RHS_RECORD_FLAG_READY false = true ->
  rhs_record_open_wait s st n = Ret (d, st') ->
  good (mkConfig st (w1 ++ n :: w2) h) -> good (mkConfig st' (w1 ++ w2) ((n, d) :: h)).
Proof.
  intros [Hi Hme] En Hs E1 G. unfold rhs_record_open_wait in E1. rewrite En in E1.
  destruct (rhs_event_flag_wait _ _ _ _ _) as [[rf e]| | |] eqn:Ew; cbn [mbind outcome_bind] in E1; try done.
  apply wait_inv in Ew as [Hb ->]; [|done|done]. cbn [mbind outcome_bind] in E1.
  destruct (Z.eqb_spec (bits (flags r)) RHS_RECORD_FLAG_READY) as [Hone|]; [|done].
  injection E1 as <- <-.
  pose proof (good_records _ G n) as Gn. simpl in Gn. rewrite En in Gn. destruct Gn as [Hh Hr].
  destruct Hr as [(_ & R2 & _)|(R1 & R2 & R3)]; [by rewrite R2 in Hone|].
  eapply good_insert; [done|apply G|done|..].
  - split; simpl.
    + rewrite Hh. unfold users. simpl. rewrite count_mid, count_cons. lia.
    + right. split; [done|]. split; [congruence|]. intros x. rewrite elem_of_cons.
      intros [[= ->]|Hx]; [done|by apply R3].
  - intros m Hne. unfold users. simpl. rewrite count_mid, count_cons. rewrite !decide_False by done. lia.
  - intros m x Hne. rewrite elem_of_cons. naive_solver.
  - pose proof (good_bound _ G) as B. simpl in B |- *. rewrite length_app in *. simpl in B. lia.
Qed.

Lemma close_good s me n d st st' w h1 h2 :
  in_task_ctx s me -> rhs_record_close s me (Some st) n = Ret (tt, st') ->
  good (mkConfig st w (h1 ++ (n, d) :: h2)) -> good (mkConfig st' w (h1 ++ h2)).
Proof.
  intros Hc E1 G. apply locked_inv in E1 as (s' & Eb & Hm); [|done|by apply G|].
  - unfold rhs_record_get in Eb. destruct (records st !! n) as [r|] eqn:En; [|done].
    injection Eb as Eb _. pose proof (good_records _ G n) as Gn. simpl in Gn. rewrite En in Gn.
    destruct Gn as [Hh Hr].
    assert (Hsub : forall m x, (m, x) ∈ h1 ++ h2 -> (m, x) ∈ h1 ++ (n, d) :: h2) by set_solver.
    eapply good_insert; [done|done|by symmetry|..].
    + split; simpl.
      * pose proof (users_bound n w (h1 ++ (n, d) :: h2)). pose proof (good_bound _ G) as B. simpl in B.
        assert (Hu : users n w (h1 ++ (n, d) :: h2) = 1 + users n w (h1 ++ h2)).
        { unfold users. rewrite !map_app. simpl. rewrite count_mid, decide_True by done. lia. }
        pose proof (users_bound n w (h1 ++ h2)). rewrite Hh, Hu, u32_small by lia. lia.
      * destruct Hr as [(R1 & R2 & R3)|(R1 & R2 & R3)]; [left|right]; (split; [done|]); (split; [done|]).
        -- intros x Hx. by apply (R3 x), Hsub.
        -- intros x Hx. by apply R3, Hsub.
    + intros m Hne. unfold users. rewrite !map_app. simpl. rewrite count_mid, decide_False by done. lia.
    + intros m x Hne. rewrite !elem_of_app, elem_of_cons. naive_solver.
    + pose proof (good_bound _ G) as B. simpl in B |- *. rewrite length_app in *. simpl in B. lia.
  - intros dd a d' s' Eb. unfold rhs_record_get in Eb. destruct (dd !! n); [|done]. by injection Eb as _ _ <-.
Qed.

Lemma exists_good s me n b st st' w h :
  in_task_ctx s me -> rhs_record_exists s me (Some st) n = Ret (b, st') ->
  good (mkConfig st w h) -> good (mkConfig st' w h).
Proof.
  intros Hc E1 G. apply locked_inv in E1 as (s' & Eb & Hm); [|done|by apply G|].
  - injection Eb as _ Eb _. split; simpl; [done| |by apply G].
    intros m. rewrite <- Eb. apply (good_records _ G m).
  - intros d a d' s' Eb. by injection Eb as _ _ <-.
Qed.

Lemma reachable_good c : reachable c -> good c.
Proof.
  induction 1 as [s st Hi Ei|c c' _ IH Hstep].
  - unfold rhs_record_init, rhs_mutex_alloc in Ei. rewrite Hi in Ei. injection Ei as <-.
    destruct created_normal as (N1 & N2 & _). split; simpl; [done| |lia].
    intros n. by rewrite lookup_empty.
  - destruct Hstep; [by eapply exists_good|by eapply create_good|by eapply destroy_good
      |by eapply open_good|by eapply opened_good|by eapply close_good].
Qed.

(** C3: in every reachable state of the registry, whatever the order in which tasks
    create, destroy, open and close records: the holders count of a record is the number
    of its users; every holder got the pointer the record still has, which is not NULL;
    destroying a record that has a user (holder or waiting) is refused and changes
    nothing; and a waiting open of a record that has been created returns its pointer. *)
Theorem record_registry_safe c n :
  reachable c ->
  (forall d, (n, d) ∈ held c -> exists r, records (store c) !! n = Some r /\ data r = d /\ d <> 0) /\
  (forall r, records (store c) !! n = Some r -> holders_count r = users n (waiting c) (held c)) /\
  (0 < users n (waiting c) (held c) -> forall s me b st', in_task_ctx s me ->
     rhs_record_destroy s me (Some (store c)) n = Ret (b, st') ->
     b = false /\ records st' = records (store c)) /\
  (n ∈ waiting c -> exists r, records (store c) !! n = Some r /\
     (data r <> 0 -> forall s, get_IPSR s = 0 ->
        exists st', rhs_record_open_wait s (store c) n = Ret (data r, st'))).
Proof.
  intros G%reachable_good. pose proof (good_records _ G n) as Gn. split; [|split; [|split]].
  - intros d Hd. pose proof (users_held n d (waiting c) (held c) Hd).
    destruct (records (store c) !! n) as [r|]; [|lia]. destruct Gn as [_ [(_ & _ & R)|(R1 & _ & R)]].
    + by apply R in Hd.
    + exists r. apply R in Hd. by subst d.
  - intros r Hr. rewrite Hr in Gn. apply Gn.
  - intros Hu s me b st' Hc E1. apply locked_inv in E1 as (s' & Eb & _); [|done|by apply G|].
    + unfold rhs_record_get in Eb. destruct (records (store c) !! n) as [r|]; [|done].
      destruct Gn as [Hh _]. destruct (Z.eqb_spec (holders_count r) 0); [lia|]. by injection Eb as <- -> _.
    + intros d a d' s' Eb. unfold rhs_record_get in Eb. destruct (d !! n); [|done].
      destruct (_ =? 0); [|by injection Eb as _ _ <-].
      destruct (rhs_record_erase _ _ _ _); cbn [mbind outcome_bind] in Eb; try done. by injection Eb as _ _ <-.
  - intros Hw. assert (0 < users n (waiting c) (held c)).
    { unfold users. pose proof (count_bound n (map fst (held c))).
      assert (Hf : n ∈ filter (fun m => m = n) (waiting c)) by by apply list_elem_of_filter.
      pose proof (count_bound n (waiting c)).
      unfold count_name in *. destruct (filter _ (waiting c)); [set_solver|]. simpl. lia. }
    destruct (records (store c) !! n) as [r|] eqn:En; [|lia]. exists r. split; [done|]. intros Hd s Hi.
    destruct Gn as [_ [(R1 & _)|(_ & R2 & _)]]; [done|].
    unfold rhs_record_open_wait. rewrite En.
    destruct (rhs_event_flag_wait s (Some (flags r)) RHS_RECORD_FLAG_READY (Z.lor RHSFlagWaitAny RHSFlagNoClear) RHSWaitForever)
      as [[rf e]| | |] eqn:Ew.
    { apply wait_inv in Ew as [_ ->]; [|done|by rewrite R2]. rewrite R2. simpl. eauto. }
    all: exfalso; unfold rhs_event_flag_wait, with_valid_flags, RHS_IS_IRQ_MODE in Ew; rewrite Hi in Ew;
      change (Z.land RHS_RECORD_FLAG_READY RHS_EVENT_FLAG_INVALID_BITS =? 0) with true in Ew; cbn in Ew;
      by destruct (xEventGroupWaitBits _ _ _ _ _).
Qed.
End system.

(** ** A use of the registry: one service opened before it is created *)

Abbreviation a_registry := (@RHSRecord plain_mutex group).

Definition store_of {A} (o : outcome (A * a_registry)) : a_registry :=
  match o with Ret (_, st) => st | _ => mkRecord (mkMutex 0 0 0) ∅ end.

Definition registry_0 : a_registry := mkRecord xSemaphoreCreateMutexStatic ∅.
Definition registry_1 : a_registry := store_of (rhs_record_open_locked a_task 5 (Some registry_0) "cli").
Definition registry_2 : a_registry := store_of (rhs_record_create a_task 6 (Some registry_1) "cli" 77).
Definition registry_3 : a_registry := store_of (rhs_record_open_wait a_task registry_2 "cli").
Definition registry_4 : a_registry := store_of (rhs_record_open_locked a_task 7 (Some registry_3) "cli").

Lemma use_reachable : reachable (mkConfig registry_4 ["cli"%string] [("cli"%string, 77)]).
Proof.
  assert (Hc : forall me, me <> 0 -> in_task_ctx a_task me) by (intros me Hme; by split).
  apply reach_step with (mkConfig registry_3 [] [("cli"%string, 77)]).
  2: { apply (step_open a_task 7); [by apply Hc|simpl; lia|]. vm_compute. reflexivity. }
  apply reach_step with (mkConfig registry_2 ([] ++ "cli"%string :: []) []).
  2: { apply (step_opened a_task 5 "cli" 77 registry_2 registry_3 [] [] [] (mkRecordData (mkGroup 1) 77 1));
       [by apply Hc| | |]; vm_compute; reflexivity. }
  apply reach_step with (mkConfig registry_1 ["cli"%string] []).
  2: { apply (step_create a_task 6 "cli" 77); [by apply Hc|]. vm_compute. reflexivity. }
  apply reach_step with (mkConfig registry_0 [] []).
  2: { apply (step_open a_task 5); [by apply Hc|simpl; lia|]. vm_compute. reflexivity. }
  by apply (reach_init a_task).
Qed.

Theorem record_registry_safe_witness :
  exists r, records registry_4 !! "cli"%string = Some r /\ holders_count r = 2 /\
    exists st', rhs_record_open_wait a_task registry_4 "cli" = Ret (data r, st').
Proof.
  assert (Hn : forall (e : group) f, woken e f = 0) by reflexivity.
  destruct (record_registry_safe Hn (mkConfig registry_4 ["cli"%string] [("cli"%string, 77)])
    "cli" use_reachable) as (_ & Hh & _ & Hw).
  destruct Hw as (r & Er & Hw); [exact (list_elem_of_here _ _)|]. cbn [store] in Er, Hh, Hw.
  assert (Hd : data <$> records registry_4 !! "cli"%string = Some 77) by (vm_compute; reflexivity).
  exists r. split; [exact Er|]. split; [rewrite (Hh r Er); vm_compute; reflexivity|].
  apply Hw; [|reflexivity]. rewrite Er in Hd. cbn [fmap option_fmap option_map] in Hd.
  injection Hd as Hd. rewrite Hd. discriminate.
Defined.
