(* ===== verification/Memmgr.v ===== *)
(** * The heap (core/memmgr.c), over the FreeRTOS allocator

    The heap is the allocated blocks by address; a block is its bytes. An access outside
    a block is a [Fault]. [pvPortMalloc] is a parameter. *)

From S2P Require Import Prelude.

Abbreviation blocks := (gmap Z (list Z)).

Section memmgr.
(** The address (0 for NULL) and the heap afterwards. *)
Context (pvPortMalloc : blocks -> Z -> Z * blocks).
(** [xPortGetFreeHeapSize], [xPortGetMinimumEverFreeHeapSize], [configTOTAL_HEAP_SIZE]. *)
Context (xPortGetFreeHeapSize xPortGetMinimumEverFreeHeapSize : blocks -> Z) (configTOTAL_HEAP_SIZE : Z).

(** [vPortFree]: NULL is allowed. *)
Definition vPortFree (h : blocks) (p : Z) : outcome blocks :=
  if p =? 0 then Ret h else match h !! p with Some _ => Ret (delete p h) | None => Fault end.

Definition malloc (h : blocks) (size : Z) : Z * blocks := pvPortMalloc h size.
Definition free (h : blocks) (ptr : Z) : outcome blocks := vPortFree h ptr.

(** [memcpy(dst, src, n)] between blocks. *)
Definition memcpy (h : blocks) (dst src n : Z) : outcome blocks :=
  match h !! dst, h !! src with
  | Some d, Some s =>
      if (Z.of_nat (length d) <? n) || (Z.of_nat (length s) <? n) then Fault
      else Ret (<[dst := take (Z.to_nat n) s ++ drop (Z.to_nat n) d]> h)
  | _, _ => Fault
  end.

(** [memset(p, 0, n)]. *)
Definition memset0 (h : blocks) (p n : Z) : outcome blocks :=
  match h !! p with
  | Some d =>
      if Z.of_nat (length d) <? n then Fault
      else Ret (<[p := replicate (Z.to_nat n) 0 ++ drop (Z.to_nat n) d]> h)
  | None => Fault
  end.

Definition realloc (h : blocks) (ptr size : Z) : outcome (Z * blocks) :=
  if size =? 0 then h ← vPortFree h ptr; Ret (0, h)
  else
    let '(p, h) := pvPortMalloc h size in
    if negb (ptr =? 0) then
      h ← memcpy h p ptr size;
      h ← vPortFree h ptr;
      Ret (p, h)
    else Ret (p, h).

Definition calloc (h : blocks) (nmemb size : Z) : outcome (Z * blocks) :=
  let '(p, h) := pvPortMalloc h (u32 (nmemb * size)) in
  if negb (p =? 0) then h ← memset0 h p (u32 (nmemb * size)); Ret (p, h)
  else Ret (p, h).

(** [s] is a C string: the copy has its bytes and the NUL. *)
Definition strdup (h : blocks) (s : option (list Z)) : outcome (Z * blocks) :=
  match s with
  | None => Crash "Assert"
  | Some s =>
      let siz := Z.of_nat (length s) + 1 in
      '(y, h) ← calloc h 1 siz;
      if y =? 0 then Crash "Assert"
      else match h !! y with
           | Some d =>
               if Z.of_nat (length d) <? siz then Fault
               else Ret (y, <[y := (s ++ [0]) ++ drop (Z.to_nat siz) d]> h)
           | None => Fault
           end
  end.

Definition memmgr_get_free_heap (h : blocks) : Z := xPortGetFreeHeapSize h.
Definition memmgr_get_total_heap : Z := configTOTAL_HEAP_SIZE.
Definition memmgr_get_minimum_free_heap (h : blocks) : Z := xPortGetMinimumEverFreeHeapSize h.

(** What FreeRTOS documents of [pvPortMalloc]: a new block of the size, or NULL. *)
Definition allocates : Prop := forall h n, 0 <= n -> let '(p, h') := pvPortMalloc h n in
  (p = 0 /\ h' = h) \/
  (p <> 0 /\ h !! p = None /\ exists b, Z.of_nat (length b) = n /\ h' = <[p := b]> h).

Context (Halloc : allocates).

(** [realloc] to a size the old block has moves the first bytes to a new block of
    that size and frees the old one; to a larger size it copies from beyond the old block,
    and when the heap is exhausted it copies to NULL: both fault. *)
Theorem realloc_correct h ptr b size :
  h !! 0 = None -> h !! ptr = Some b -> 0 < size ->
  let '(p, h') := pvPortMalloc h size in
  if (p =? 0) || (Z.of_nat (length b) <? size) then realloc h ptr size = Fault
  else p <> ptr /\ realloc h ptr size = Ret (p, <[p := take (Z.to_nat size) b]> (delete ptr h)).
Proof.
  intros H0 Hb Hs. unfold realloc. destruct (Z.eqb_spec size 0); [lia|].
  pose proof (Halloc h size ltac:(lia)) as A. destruct (pvPortMalloc h size) as [p h'].
  assert (Hp : ptr <> 0) by (intros ->; by rewrite H0 in Hb).
  destruct (Z.eqb_spec ptr 0); [done|]. cbn [negb].
  destruct A as [(-> & ->)|(Hp0 & Hn & nb & Hl & ->)].
  - simpl. unfold memcpy. by rewrite H0.
  - destruct (Z.eqb_spec p 0); [done|]. simpl. unfold memcpy.
    assert (Hne : p <> ptr) by (intros ->; by rewrite Hn in Hb).
    rewrite lookup_insert_eq, lookup_insert_ne, Hb by done.
    destruct (Z.ltb_spec (Z.of_nat (length nb)) size); [lia|].
    destruct (Z.ltb_spec (Z.of_nat (length b)) size); [done|]. simpl. split; [done|].
    unfold vPortFree. destruct (Z.eqb_spec ptr 0); [done|].
    rewrite lookup_insert_ne, lookup_insert_ne, Hb by done. simpl.
    rewrite insert_insert_eq, delete_insert_ne by done. rewrite (drop_ge nb) by lia.
    by rewrite app_nil_r.
Qed.

(** [calloc] returns a zeroed block for the whole request when its size fits 32 bits;
    when the product wraps around, the block is smaller than the request. *)
Theorem calloc_correct h nmemb size :
  in_u32 nmemb -> in_u32 size ->
  exists p h', calloc h nmemb size = Ret (p, h') /\
    (p = 0 /\ h' = h \/
     exists b, h' = <[p := b]> h /\ h !! p = None /\ Forall (fun x => x = 0) b /\
       (nmemb * size < 2 ^ 32 -> Z.of_nat (length b) = nmemb * size) /\
       (2 ^ 32 <= nmemb * size -> Z.of_nat (length b) < nmemb * size)).
Proof.
  intros Hn Hs. unfold calloc. set (n := u32 (nmemb * size)).
  assert (Hr : 0 <= n < 4294967296) by apply u32_range.
  pose proof (Halloc h n ltac:(lia)) as A. destruct (pvPortMalloc h n) as [p h'].
  destruct A as [(-> & ->)|(Hp0 & Hf & nb & Hl & ->)].
  - exists 0, h. split; [done|]. by left.
  - destruct (Z.eqb_spec p 0); [done|]. cbn [negb]. unfold memset0. rewrite lookup_insert_eq.
    destruct (Z.ltb_spec (Z.of_nat (length nb)) n); [lia|]. cbn [mbind outcome_bind].
    eexists p, _. split; [done|]. right. rewrite insert_insert_eq, (drop_ge nb), app_nil_r by lia.
    eexists. split; [done|]. split; [done|]. rewrite length_replicate.
    split; [by apply Forall_replicate|]. split; intros Hlt.
    + rewrite Z2Nat.id by lia. unfold n. apply u32_small. destruct Hn, Hs. nia.
    + change (2 ^ 32) with 4294967296 in Hlt. lia.
Qed.
End memmgr.

(** ** An allocator to instantiate the theorems with *)

Definition highest (h : blocks) : Z := map_fold (fun a _ m => Z.max a m) 0 h.
Definition bump_malloc (h : blocks) (n : Z) : Z * blocks :=
  (1 + highest h, <[1 + highest h := replicate (Z.to_nat n) 165]> h).

Lemma bump_malloc_ok : allocates bump_malloc.
Proof.
  intros h n Hn. unfold bump_malloc. right.
  assert (Hh : 0 <= highest h /\ forall a, is_Some (h !! a) -> a <= highest h).
  { unfold highest. apply (map_fold_weak_ind (fun m (h : blocks) => 0 <= m /\ forall a, is_Some (h !! a) -> a <= m)).
    - split; [lia|]. intros a [o Ho]. by rewrite lookup_empty in Ho.
    - intros a o m r Hm [H0 H]. split; [lia|]. intros b.
      destruct (decide (a = b)) as [->|Hab]; [lia|].
      rewrite lookup_insert_ne by done. intros Hb. specialize (H b Hb). lia. }
  destruct Hh as [H0 H]. split; [lia|]. split.
  - destruct (h !! (1 + highest h)) eqn:E; [|done].
    assert (Hs : is_Some (h !! (1 + highest h))) by (rewrite E; eauto). specialize (H _ Hs). lia.
  - eexists. split; [|done]. rewrite length_replicate. lia.
Qed.

Definition one_block : blocks := {[ 8 := [1; 2; 3] ]}.

Theorem realloc_correct_witness :
  realloc bump_malloc one_block 8 4 = Fault /\
  9 <> 8 /\ realloc bump_malloc one_block 8 2 = Ret (9, <[9 := [1; 2]]> (delete 8 one_block)).
Proof.
  split; [exact (realloc_correct bump_malloc bump_malloc_ok one_block 8 [1; 2; 3] 4 eq_refl eq_refl eq_refl)|].
  exact (realloc_correct bump_malloc bump_malloc_ok one_block 8 [1; 2; 3] 2 eq_refl eq_refl eq_refl).
Defined.

Theorem calloc_correct_witness :
  exists p h', calloc bump_malloc one_block 2 3 = Ret (p, h') /\
    (p = 0 /\ h' = one_block \/
     exists b, h' = <[p := b]> one_block /\ one_block !! p = None /\ Forall (fun x => x = 0) b /\
       (2 * 3 < 2 ^ 32 -> Z.of_nat (length b) = 2 * 3) /\
       (2 ^ 32 <= 2 * 3 -> Z.of_nat (length b) < 2 * 3)).
Proof.
  exact (calloc_correct bump_malloc bump_malloc_ok one_block 2 3 ltac:(split; lia) ltac:(split; lia)).
Defined.
