(* ===== verification/Thread.v ===== *)
(** * Threads: their life and their flags (core/thread.c)

    A thread is a FreeRTOS task made in its own structure, so that the address of the
    structure is the task's handle. FreeRTOS tasks are a parameter ([Tasks]); the queue
    that hands finished threads to the scrubber is a message queue (MessageQueue.v). *)

From S2P Require Import Prelude Kernel MessageQueue.

Inductive RHSThreadState :=
  | RHSThreadStateStopped | RHSThreadStateStopping | RHSThreadStateStarting | RHSThreadStateRunning.
#[global] Instance RHSThreadState_eq_dec : EqDecision RHSThreadState.
Proof. solve_decision. Defined.

Definition RHSThreadPriorityNormal : Z := 16.

(** Pointers are numbers, 0 for NULL; [callback] is the address of the function. *)
Record RHSThread := mkThread {
  stack_buffer : Z;
  state : RHSThreadState;
  ret : Z;
  callback : Z;
  context : Z;
  name : option string;
  priority : Z;
  stack_size : Z;
  is_service : bool
}.

Definition set_state (st : RHSThreadState) (t : RHSThread) : RHSThread :=
  mkThread (stack_buffer t) st (ret t) (callback t) (context t) (name t) (priority t) (stack_size t) (is_service t).
Definition set_ret (r : Z) (t : RHSThread) : RHSThread :=
  mkThread (stack_buffer t) (state t) r (callback t) (context t) (name t) (priority t) (stack_size t) (is_service t).

(** What the code calls of FreeRTOS tasks; local storage is that of index 0. *)
Class Tasks (T : Type) := {
  xTaskCreateStatic : T -> Z -> Z -> T;
  vTaskDelete : T -> Z -> T;
  vTaskSuspend : T -> Z -> T;
  pvTaskGetThreadLocalStoragePointer : T -> Z -> Z;
  vTaskSetThreadLocalStoragePointer : T -> Z -> Z -> T
}.

Section lifecycle.
Context {S : Type} `{Scheduler S} {T : Type} `{Tasks T} {Q : Type} `{FreeRTOSQueue Q}.

(** The thread structures by address, the tasks, and [rhs_thread_scrub_message_queue]. *)
Record world := mkWorld { threads : gmap Z RHSThread; tasks : T; scrub_queue : option Q }.

Definition set_threads (th : gmap Z RHSThread) (w : world) : world := mkWorld th (tasks w) (scrub_queue w).
Definition set_tasks (t : T) (w : world) : world := mkWorld (threads w) t (scrub_queue w).
Definition set_queue (q : Q) (w : world) : world := mkWorld (threads w) (tasks w) (Some q).

(** [rhs_assert(thread)] and the access to its structure. *)
Definition with_thread {A} (w : world) (thread : Z) (k : RHSThread -> outcome A) : outcome A :=
  if thread =? 0 then Crash "Assert"
  else match threads w !! thread with Some t => k t | None => Fault end.

Definition assert_that {A} (x : bool) (k : outcome A) : outcome A := if x then k else Crash "Assert".

Definition rhs_thread_set_state (w : world) (thread : Z) (st : RHSThreadState) : outcome world :=
  with_thread w thread (fun t => Ret (set_threads (<[thread := set_state st t]> (threads w)) w)).

(** [word] is the size of a pointer. *)
Definition rhs_thread_init (s : S) (w : world) (header word : Z) : outcome world :=
  '(_, q) ← rhs_message_queue_alloc s header 8 word; Ret (set_queue q w).

Definition rhs_thread_set_name (w : world) (thread : Z) (n : option string) : outcome world :=
  with_thread w thread (fun t =>
    Ret (set_threads (<[thread := mkThread (stack_buffer t) (state t) (ret t) (callback t) (context t) n
      (priority t) (stack_size t) (is_service t)]> (threads w)) w)).

(** [thread] and [stack] are what [calloc] and [malloc] returned. *)
Definition rhs_thread_alloc (w : world) (thread stack : Z) (n : option string) (size callback_ context_ : Z)
    : outcome world :=
  assert_that (negb (thread =? 0))
    (let t := mkThread stack RHSThreadStateStopped 0 callback_ context_ None RHSThreadPriorityNormal size false in
     w ← rhs_thread_set_name (set_threads (<[thread := t]> (threads w)) w) thread n;
     assert_that (negb (stack =? 0)) (Ret w)).

Definition rhs_thread_alloc_ex (w : world) (thread stack : Z) (n : option string) (size priority_ callback_ context_ : Z)
    : outcome world :=
  w ← rhs_thread_alloc w thread stack n size callback_ context_;
  with_thread w thread (fun t =>
    Ret (set_threads (<[thread := mkThread (stack_buffer t) (state t) (ret t) (callback t) (context t) (name t)
      priority_ (stack_size t) (is_service t)]> (threads w)) w)).

Definition rhs_thread_alloc_service (w : world) (thread stack : Z) (n : option string) (size callback_ context_ : Z)
    : outcome world :=
  w ← rhs_thread_alloc w thread stack n size callback_ context_;
  with_thread w thread (fun t =>
    Ret (set_threads (<[thread := mkThread (stack_buffer t) (state t) (ret t) (callback t) (context t) (name t)
      (priority t) (stack_size t) true]> (threads w)) w)).

Definition rhs_thread_free (w : world) (thread : Z) : outcome world :=
  with_thread w thread (fun t =>
    assert_that (negb (is_service t))
      (w ← rhs_thread_set_name w thread None;
       Ret (set_threads (delete thread (threads w)) w))).

(** [sizeof(StackType_t)] is 4. *)
Definition rhs_thread_start (w : world) (thread : Z) : outcome world :=
  with_thread w thread (fun t =>
    assert_that (negb (callback t =? 0)) (
    assert_that (bool_decide (state t = RHSThreadStateStopped)) (
    assert_that (0 <? stack_size t) (
      w ← rhs_thread_set_state w thread RHSThreadStateStarting;
      Ret (set_tasks (xTaskCreateStatic (tasks w) thread (stack_size t / 4)) w))))).

(** [rhs_thread_body] before the callback, by task [me]. *)
Definition rhs_thread_body_enter (w : world) (me context_ : Z) : outcome world :=
  assert_that (negb (context_ =? 0)) (
  assert_that (pvTaskGetThreadLocalStoragePointer (tasks w) me =? 0) (
    let w := set_tasks (vTaskSetThreadLocalStoragePointer (tasks w) me context_) w in
    with_thread w context_ (fun t =>
      assert_that (bool_decide (state t = RHSThreadStateStarting))
        (rhs_thread_set_state w context_ RHSThreadStateRunning)))).

(** [rhs_thread_body] from the callback's return to the put, which may wait, ... *)
Definition rhs_thread_body_stop (w : world) (thread ret_ : Z) : outcome world :=
  with_thread w thread (fun t =>
    let w := set_threads (<[thread := set_ret ret_ t]> (threads w)) w in
    assert_that (negb (is_service t)) (
    assert_that (bool_decide (state t = RHSThreadStateRunning))
      (rhs_thread_set_state w thread RHSThreadStateStopping))).
(** ... the put, whose status is ignored, and the suspension of the task. *)
Definition rhs_thread_body_put (s : S) (w : world) (me thread : Z) : outcome world :=
  '(_, q) ← rhs_message_queue_put s (scrub_queue w) (Some ([thread] : message)) RHSWaitForever;
  let w := set_queue q w in
  Ret (set_tasks (vTaskSuspend (tasks w) me) w).

(** The test of the loop of [rhs_thread_join]: it goes on until this is true. *)
Definition rhs_thread_join_test (w : world) (me thread : Z) : outcome bool :=
  with_thread w thread (fun t =>
    assert_that (negb (is_service t)) (
    assert_that (negb (pvTaskGetThreadLocalStoragePointer (tasks w) me =? thread))
      (Ret (bool_decide (state t = RHSThreadStateStopped))))).

(** One round of [rhs_thread_scrub]. *)
Definition rhs_thread_scrub_round (s : S) (w : world) : outcome world :=
  '(r, m, q) ← rhs_message_queue_get s (scrub_queue w) (Some ([0] : message)) RHSWaitForever;
  let w := set_queue q w in
  assert_that (bool_decide (r = RHSStatusOk))
    (let task := match m with Some (t :: _) => t | _ => 0 end in
     let w := set_tasks (vTaskDelete (tasks w) task) w in
     assert_that (pvTaskGetThreadLocalStoragePointer (tasks w) task =? task)
       (let w := set_tasks (vTaskSetThreadLocalStoragePointer (tasks w) task 0) w in
        rhs_thread_set_state w task RHSThreadStateStopped)).
End lifecycle.

(** ** What FreeRTOS documents of tasks

    Deleting a task leaves its static memory, hence its local storage, as it is. *)

Class TasksLaws (T : Type) `{Tasks T} := {
  alive : T -> gset Z;
  create_task_spec t h d : h ∉ alive t -> let t' := xTaskCreateStatic t h d in
    alive t' = {[h]} ∪ alive t /\ forall k, pvTaskGetThreadLocalStoragePointer t' k =
      if decide (k = h) then 0 else pvTaskGetThreadLocalStoragePointer t k;
  delete_task_spec t h : alive (vTaskDelete t h) = alive t ∖ {[h]} /\
    forall k, pvTaskGetThreadLocalStoragePointer (vTaskDelete t h) k = pvTaskGetThreadLocalStoragePointer t k;
  suspend_task_spec t h : alive (vTaskSuspend t h) = alive t /\
    forall k, pvTaskGetThreadLocalStoragePointer (vTaskSuspend t h) k = pvTaskGetThreadLocalStoragePointer t k;
  storage_spec t h v : alive (vTaskSetThreadLocalStoragePointer t h v) = alive t /\
    forall k, pvTaskGetThreadLocalStoragePointer (vTaskSetThreadLocalStoragePointer t h v) k =
      if decide (k = h) then v else pvTaskGetThreadLocalStoragePointer t k
}.

(** ** Threads living together

    [leaving] are the threads whose callback has returned and that have not been put in
    the scrubber's queue yet; a put goes on when the queue has room. A thread structure
    is freed only after a join, that is in state Stopped. *)

Section system.
Context {S : Type} `{Scheduler S} {T : Type} `{TasksLaws T} {Q : Type} `{FreeRTOSQueueLaws Q}.

Abbreviation tworld := (@world T Q).
Abbreviation tls w p := (pvTaskGetThreadLocalStoragePointer (tasks w) p).

Definition has_state (w : tworld) (p : Z) (st : RHSThreadState) : Prop :=
  exists t, threads w !! p = Some t /\ state t = st.

Inductive tstep : tworld * gset Z -> tworld * gset Z -> Prop :=
  | t_alloc w u p stack n size cb ctx w' :
      p <> 0 -> threads w !! p = None -> rhs_thread_alloc w p stack n size cb ctx = Ret w' ->
      tstep (w, u) (w', u)
  | t_start w u p w' : rhs_thread_start w p = Ret w' -> tstep (w, u) (w', u)
  | t_enter w u p w' : p ∈ alive (tasks w) -> (tls w p) = 0 ->
      rhs_thread_body_enter w p p = Ret w' -> tstep (w, u) (w', u)
  | t_stop w u p r w' : has_state w p RHSThreadStateRunning ->
      rhs_thread_body_stop w p r = Ret w' -> tstep (w, u) (w', {[p]} ∪ u)
  | t_put s w u p q w' : rhs_kernel_is_irq_or_masked s = false -> p ∈ u ->
      scrub_queue w = Some q -> Z.of_nat (length (contents q)) < uxLength q ->
      rhs_thread_body_put s w p p = Ret w' -> tstep (w, u) (w', u ∖ {[p]})
  | t_scrub s w u q w' : rhs_kernel_is_irq_or_masked s = false ->
      scrub_queue w = Some q -> contents q <> [] ->
      rhs_thread_scrub_round s w = Ret w' -> tstep (w, u) (w', u)
  | t_free w u p w' : has_state w p RHSThreadStateStopped ->
      rhs_thread_free w p = Ret w' -> tstep (w, u) (w', u).

Inductive treachable : tworld * gset Z -> Prop :=
  | t_init s t q header word : alive t = ∅ -> 0 < header -> in_u32 word -> 0 < word ->
      rhs_thread_init s (mkWorld ∅ t None) header word = Ret (mkWorld ∅ t (Some q)) ->
      contents q = [] -> treachable (mkWorld ∅ t (Some q), ∅)
  | t_next c c' : treachable c -> tstep c c' -> treachable c'.

(** ** The invariant *)

Definition thread_ok (w : tworld) (l : list Z) (u : gset Z) (p : Z) (t : RHSThread) : Prop :=
  p <> 0 /\
  match state t with
  | RHSThreadStateStopped => (p ∉ alive (tasks w)) /\ (p ∉ l) /\ p ∉ u
  | RHSThreadStateStarting => p ∈ alive (tasks w) /\ (tls w p) = 0 /\ (p ∉ l) /\ p ∉ u
  | RHSThreadStateRunning => p ∈ alive (tasks w) /\ (tls w p) = p /\ (p ∉ l) /\ p ∉ u
  | RHSThreadStateStopping => p ∈ alive (tasks w) /\ (tls w p) = p /\
      ((p ∈ l /\ p ∉ u) \/ ((p ∉ l) /\ p ∈ u))
  end.

Record threads_good (w : tworld) (u : gset Z) (q : Q) (l : list Z) : Prop := {
  tg_queue : scrub_queue w = Some q;
  tg_contents : contents q = map (fun p => [p]) l;
  tg_nodup : NoDup l;
  tg_known : forall p, p ∈ l \/ p ∈ u \/ p ∈ alive (tasks w) -> is_Some (threads w !! p);
  tg_ok : forall p t, threads w !! p = Some t -> thread_ok w l u p t
}.

Definition tgood (c : tworld * gset Z) : Prop := exists q l, threads_good (fst c) (snd c) q l.

(** A change of one thread that leaves the others, their tasks and their places alone. *)
Lemma threads_good_update w u q l w' u' q' l' p t' :
  threads_good w u q l ->
  threads w' = <[p := t']> (threads w) ->
  scrub_queue w' = Some q' -> contents q' = map (fun p => [p]) l' -> NoDup l' ->
  (forall k, k <> p -> (k ∈ l' <-> k ∈ l) /\ (k ∈ u' <-> k ∈ u) /\
     (k ∈ alive (tasks w') <-> k ∈ alive (tasks w)) /\ (tls w' k) = (tls w k)) ->
  thread_ok w' l' u' p t' ->
  threads_good w' u' q' l'.
Proof.
  intros [G1 G2 G3 G4 G5] Ht Hq Hc Hn Hk Hok. split; try done.
  - intros k Hin. rewrite Ht. destruct (decide (k = p)) as [->|Hne]; [rewrite lookup_insert_eq; eauto|].
    rewrite lookup_insert_ne by done. destruct (Hk k Hne) as (K1 & K2 & K3 & _). apply G4. tauto.
  - intros k t. rewrite Ht. destruct (decide (k = p)) as [->|Hne].
    + rewrite lookup_insert_eq. by intros [= <-].
    + rewrite lookup_insert_ne by done. intros Hkt. destruct (Hk k Hne) as (K1 & K2 & K3 & K4).
      destruct (G5 k t Hkt) as [Hk0 Hs]. split; [done|]. destruct (state t); rewrite ?K4; tauto.
Qed.

Lemma start_good w u q l p w' :
  threads_good w u q l -> rhs_thread_start w p = Ret w' -> threads_good w' u q l.
Proof.
  intros G. unfold rhs_thread_start, with_thread. destruct (Z.eqb_spec p 0) as [|Hp]; [done|].
  destruct (threads w !! p) as [t|] eqn:Et; [|done]. unfold assert_that.
  destruct (negb (callback t =? 0)); [|done]. case_bool_decide as Hs; [|done].
  destruct (0 <? stack_size t); [|done]. unfold rhs_thread_set_state, with_thread.
  destruct (Z.eqb_spec p 0); [done|]. rewrite Et. cbn [mbind outcome_bind]. intros [= <-].
  destruct (tg_ok _ _ _ _ G p t Et) as [_ Hok]. rewrite Hs in Hok. destruct Hok as (Ha & Hl & Hu).
  destruct (create_task_spec (tasks w) p (stack_size t / 4) Ha) as [C1 C2].
  eapply threads_good_update; [exact G|done|apply G|apply G|apply G|..].
  - intros k Hne. simpl. rewrite C1, C2, decide_False by done. set_solver.
  - split; [done|]. simpl. rewrite C1, C2, decide_True by done. set_solver.
Qed.

Lemma enter_good w u q l p w' :
  threads_good w u q l -> p ∈ alive (tasks w) -> (tls w p) = 0 ->
  rhs_thread_body_enter w p p = Ret w' -> threads_good w' u q l.
Proof.
  intros G Ha Ht. unfold rhs_thread_body_enter, assert_that, with_thread.
  destruct (Z.eqb_spec p 0) as [|Hp]; [done|]. cbn [negb]. rewrite Ht. cbn [Z.eqb threads set_tasks].
  destruct (threads w !! p) as [t|] eqn:Et; [|done]. case_bool_decide as Hs; [|done].
  unfold rhs_thread_set_state, with_thread. destruct (Z.eqb_spec p 0); [done|].
  cbn [threads set_tasks]. rewrite Et. intros [= <-].
  destruct (tg_ok _ _ _ _ G p t Et) as [_ Hok]. rewrite Hs in Hok. destruct Hok as (_ & _ & Hl & Hu).
  destruct (storage_spec (tasks w) p p) as [C1 C2].
  eapply threads_good_update; [exact G|done|apply G|apply G|apply G|..].
  - intros k Hne. simpl. rewrite C1, C2, decide_False by done. done.
  - split; [done|]. simpl. rewrite C1, C2, decide_True by done. done.
Qed.

Lemma stop_good w u q l p r w' :
  threads_good w u q l -> has_state w p RHSThreadStateRunning ->
  rhs_thread_body_stop w p r = Ret w' -> threads_good w' ({[p]} ∪ u) q l.
Proof.
  intros G (t & Et & Hs). unfold rhs_thread_body_stop, with_thread, assert_that.
  destruct (Z.eqb_spec p 0) as [|Hp]; [done|]. rewrite Et.
  destruct (negb (is_service t)); [|done]. case_bool_decide; [|done].
  unfold rhs_thread_set_state, with_thread. destruct (Z.eqb_spec p 0); [done|].
  cbn [threads set_threads]. rewrite lookup_insert_eq. intros [= <-].
  destruct (tg_ok _ _ _ _ G p t Et) as [_ Hok]. rewrite Hs in Hok. destruct Hok as (Ha & Ht & Hl & Hu).
  eapply threads_good_update with (p := p); [exact G|simpl; by rewrite insert_insert_eq|apply G|apply G|apply G|..].
  - intros k Hne. simpl. set_solver.
  - split; [done|]. simpl. set_solver.
Qed.

Lemma put_good s w u q l p w' :
  threads_good w u q l -> rhs_kernel_is_irq_or_masked s = false -> p ∈ u ->
  Z.of_nat (length (contents q)) < uxLength q ->
  rhs_thread_body_put s w p p = Ret w' -> exists q', threads_good w' (u ∖ {[p]}) q' (l ++ [p]).
Proof.
  intros G Hi Hu Hroom. unfold rhs_thread_body_put. rewrite (tg_queue _ _ _ _ G).
  destruct (put_spec s q [p] RHSWaitForever ltac:(by right) Hroom) as (q' & -> & Hc & _).
  cbn [mbind outcome_bind]. intros [= <-]. exists q'.
  destruct (tg_known _ _ _ _ G p ltac:(auto)) as [t Et].
  destruct (tg_ok _ _ _ _ G p t Et) as [Hp Hok].
  assert (Hs : state t = RHSThreadStateStopping).
  { destruct (state t); [|done|..]; exfalso; tauto. }
  rewrite Hs in Hok. destruct Hok as (Ha & Ht & Hlu). destruct (suspend_task_spec (tasks w) p) as [C1 C2].
  assert (Hl : p ∉ l) by tauto.
  eapply threads_good_update with (p := p) (t' := t); [exact G|simpl; by rewrite insert_id|done|..].
  - rewrite Hc, (tg_contents _ _ _ _ G), map_app. done.
  - apply NoDup_app. split; [apply G|]. split; [set_solver|]. apply NoDup_singleton.
  - intros k Hne. simpl. rewrite C1, C2. set_solver.
  - split; [done|]. rewrite Hs. simpl. rewrite C1, C2. set_solver.
Qed.

Lemma scrub_spec s w u q p l :
  threads_good w u q (p :: l) -> rhs_kernel_is_irq_or_masked s = false ->
  exists w' q', rhs_thread_scrub_round s w = Ret w' /\ threads_good w' u q' l /\
    has_state w' p RHSThreadStateStopped /\ p ∉ alive (tasks w').
Proof.
  intros G Hi. unfold rhs_thread_scrub_round. rewrite (tg_queue _ _ _ _ G).
  destruct (get_spec s q [0] RHSWaitForever [p] (map (fun p => [p]) l)) as (q' & E & Hc & _);
    [by right|by rewrite (tg_contents _ _ _ _ G)|].
  rewrite E. cbn [mbind outcome_bind].
  unfold assert_that. rewrite bool_decide_true by done.
  destruct (tg_known _ _ _ _ G p ltac:(set_solver)) as [t Et].
  destruct (tg_ok _ _ _ _ G p t Et) as [Hp Hok].
  assert (Hs : state t = RHSThreadStateStopping).
  { destruct (state t); [|done|..]; exfalso; set_solver. }
  rewrite Hs in Hok. destruct Hok as (Ha & Ht & Hlu).
  destruct (delete_task_spec (tasks w) p) as [D1 D2].
  destruct (storage_spec (vTaskDelete (tasks w) p) p 0) as [C1 C2].
  cbn [tasks set_tasks set_queue]. rewrite D2, Ht, Z.eqb_refl.
  unfold rhs_thread_set_state, with_thread. destruct (Z.eqb_spec p 0); [done|].
  cbn [threads set_tasks set_queue]. rewrite Et. eexists _, q'. split; [done|].
  pose proof (tg_nodup _ _ _ _ G) as Hnd. apply NoDup_cons in Hnd as [Hpl Hnd]. split; [|split].
  - eapply threads_good_update with (p := p); [exact G|done|done|done|done|..].
    + intros k Hne. simpl. rewrite C1, C2, decide_False, D1, D2 by done. set_solver.
    + split; [done|]. simpl. rewrite C1, D1. set_solver.
  - exists (set_state RHSThreadStateStopped t). simpl. by rewrite lookup_insert_eq.
  - simpl. rewrite C1, D1. set_solver.
Qed.

Lemma free_good w u q l p w' :
  threads_good w u q l -> has_state w p RHSThreadStateStopped ->
  rhs_thread_free w p = Ret w' -> threads_good w' u q l.
Proof.
  intros G (t & Et & Hs). unfold rhs_thread_free, rhs_thread_set_name, with_thread, assert_that.
  destruct (Z.eqb_spec p 0) as [|Hp]; [done|]. rewrite Et. destruct (negb (is_service t)); [|done].
  cbn [mbind outcome_bind threads set_threads]. rewrite delete_insert_eq. intros [= <-].
  destruct (tg_ok _ _ _ _ G p t Et) as [_ Hok]. rewrite Hs in Hok. destruct Hok as (Ha & Hl & Hu).
  destruct G as [G1 G2 G3 G4 G5]. split; try done; simpl.
  - intros k Hk. destruct (decide (k = p)) as [->|Hne]; [tauto|]. rewrite lookup_delete_ne by done. by apply G4.
  - intros k t0 Hk. destruct (decide (k = p)) as [->|Hne]; [by rewrite lookup_delete_eq in Hk|].
    rewrite lookup_delete_ne in Hk by done. by apply G5.
Qed.

Lemma alloc_good w u q l p stack n size cb ctx w' :
  threads_good w u q l -> p <> 0 -> threads w !! p = None ->
  rhs_thread_alloc w p stack n size cb ctx = Ret w' -> threads_good w' u q l.
Proof.
  intros G Hp0 Hnew. unfold rhs_thread_alloc, rhs_thread_set_name, with_thread, assert_that.
  destruct (Z.eqb_spec p 0) as [|Hp]; [done|]. cbn [negb threads set_threads].
  rewrite lookup_insert_eq. cbn [mbind outcome_bind]. destruct (negb (stack =? 0)); [|done].
  rewrite insert_insert_eq. intros [= <-].
  assert (Hnot : (p ∉ l) /\ (p ∉ u) /\ p ∉ alive (tasks w)).
  { repeat split; intros Hin; destruct (tg_known _ _ _ _ G p ltac:(auto)) as [t Et]; congruence. }
  eapply threads_good_update with (p := p); [exact G|done|apply G|apply G|apply G|..].
  - intros k Hne. by simpl.
  - split; [done|]. simpl. tauto.
Qed.

Lemma treachable_good c : treachable c -> tgood c.
Proof.
  induction 1 as [s t q hd word Ht Hh Hw Hw0 E Hc|c c' _ IH Hstep].
  - exists q, []. split; simpl; try done; [constructor|set_solver].
  - destruct IH as (q & l & G).
    destruct Hstep as [w u p st n sz cb ctx w' Hp Hnew E|w u p w' E|w u p w' Ha Ht E|w u p r w' Hs E
      |s w u p q0 w' Hi Hu Hq Hroom E|s w u q0 w' Hi Hq Hne E|w u p w' Hs E]; simpl in G; unfold tgood; simpl.
    + exists q, l. by eapply alloc_good.
    + exists q, l. by eapply start_good.
    + exists q, l. by eapply enter_good.
    + exists q, l. by eapply stop_good.
    + rewrite (tg_queue _ _ _ _ G) in Hq. injection Hq as <-.
      destruct (put_good _ _ _ _ _ _ _ G Hi Hu Hroom E) as (q' & G'). by exists q', (l ++ [p]).
    + rewrite (tg_queue _ _ _ _ G) in Hq. injection Hq as <-.
      destruct l as [|p l]; [by rewrite (tg_contents _ _ _ _ G) in Hne|].
      destruct (scrub_spec s _ _ _ _ _ G Hi) as (w2 & q2 & E2 & G2 & _). rewrite E2 in E.
      injection E as <-. by exists q2, l.
    + exists q, l. by eapply free_good.
Qed.

(** C14: in every reachable state, whatever threads are made, started, finished, scrubbed
    and freed in whatever order: when [rhs_thread_join] sees a thread stopped, it has no
    task, it is not in the scrubber's queue nor on its way there, so that it may be freed
    or started again; the scrubber never fails on what it takes out of its queue: it
    deletes the task and leaves its thread stopped; and each thread is queued at most
    once. *)
Theorem thread_life_safe w u :
  treachable (w, u) ->
  (forall me p, rhs_thread_join_test w me p = Ret true ->
     (p ∉ alive (tasks w)) /\ (p ∉ u) /\ forall q, scrub_queue w = Some q -> [p] ∉ contents q) /\
  (forall q, scrub_queue w = Some q -> NoDup (contents q) /\
     forall s p l, rhs_kernel_is_irq_or_masked s = false -> contents q = [p] :: l ->
       exists w' t, rhs_thread_scrub_round s w = Ret w' /\ (p ∉ alive (tasks w')) /\
         threads w' !! p = Some t /\ state t = RHSThreadStateStopped).
Proof.
  intros (q & l & G)%treachable_good. simpl in G. split.
  - intros me p E. unfold rhs_thread_join_test, with_thread, assert_that in E.
    destruct (p =? 0); [done|]. destruct (threads w !! p) as [t|] eqn:Et; [|done].
    destruct (negb (is_service t)); [|done]. destruct (negb _); [|done].
    injection E as E. apply bool_decide_eq_true in E.
    destruct (tg_ok _ _ _ _ G p t Et) as [_ Hok]. rewrite E in Hok. destruct Hok as (Ha & Hl & Hu).
    split; [done|]. split; [done|]. intros q0. rewrite (tg_queue _ _ _ _ G). intros [= <-].
    rewrite (tg_contents _ _ _ _ G). rewrite list_elem_of_fmap. by intros (k & [= <-] & Hk).
  - intros q0. rewrite (tg_queue _ _ _ _ G). intros [= <-]. split.
    + rewrite (tg_contents _ _ _ _ G). apply NoDup_fmap_2; [by intros ? ? [= ->]|apply G].
    + intros s p l' Hi Hc. rewrite (tg_contents _ _ _ _ G) in Hc. destruct l as [|p0 l0]; [done|].
      injection Hc as -> _.
      destruct (scrub_spec s _ _ _ _ _ G Hi) as (w' & q' & E & _ & (t & Et & Hs) & Ha).
      by exists w', t.
Qed.
End system.

(** ** Tasks to instantiate the theorem with *)

Record task_set := mkTasks { ts_alive : gset Z; ts_storage : gmap Z Z }.
Definition ts_get (t : task_set) (k : Z) : Z := default 0 (ts_storage t !! k).

#[global] Instance task_set_ops : Tasks task_set := {
  xTaskCreateStatic t h _ := mkTasks ({[h]} ∪ ts_alive t) (<[h := 0]> (ts_storage t));
  vTaskDelete t h := mkTasks (ts_alive t ∖ {[h]}) (ts_storage t);
  vTaskSuspend t _ := t;
  pvTaskGetThreadLocalStoragePointer := ts_get;
  vTaskSetThreadLocalStoragePointer t h v := mkTasks (ts_alive t) (<[h := v]> (ts_storage t))
}.

Lemma ts_get_insert a m h v k : ts_get (mkTasks a (<[h := v]> m)) k = if decide (k = h) then v else ts_get (mkTasks a m) k.
Proof.
  unfold ts_get. simpl. destruct (decide (k = h)) as [->|Hne]; [by rewrite lookup_insert_eq|].
  by rewrite lookup_insert_ne.
Qed.

#[local] Obligation Tactic := idtac.

#[global] Program Instance task_set_laws : TasksLaws task_set := { alive := ts_alive }.
Next Obligation. intros t h d Hh. simpl. split; [done|]. intros k. apply ts_get_insert. Qed.
Next Obligation. done. Qed.
Next Obligation. done. Qed.
Next Obligation. intros t h v. simpl. split; [done|]. intros k. apply ts_get_insert. Qed.

Abbreviation a_world := (@world task_set fifo).
Definition world_of (o : outcome a_world) : a_world :=
  match o with Ret w => w | _ => mkWorld ∅ (mkTasks ∅ ∅) None end.

Definition world_0 : a_world := mkWorld ∅ (mkTasks ∅ ∅) (Some (mkFifo [] 8 4)).
Definition world_1 : a_world := world_of (rhs_thread_alloc world_0 64 128 (Some "app"%string) 1024 4096 0).
Definition world_2 : a_world := world_of (rhs_thread_start world_1 64).
Definition world_3 : a_world := world_of (rhs_thread_body_enter world_2 64 64).
Definition world_4 : a_world := world_of (rhs_thread_body_stop world_3 64 0).
Definition world_5 : a_world := world_of (rhs_thread_body_put a_task world_4 64 64).

Lemma world_5_reachable : treachable (world_5, ({[64]} ∪ ∅) ∖ {[64]}).
Proof.
  apply t_next with (world_4, {[64]} ∪ ∅).
  2: { apply (t_put a_task _ _ 64 (mkFifo [] 8 4)); try (vm_compute; reflexivity). }
  apply t_next with (world_3, ∅).
  2: { apply (t_stop _ _ 64 0); [|vm_compute; reflexivity].
       exists (mkThread 128 RHSThreadStateRunning 0 4096 0 (Some "app"%string) 16 1024 false).
       split; vm_compute; reflexivity. }
  apply t_next with (world_2, ∅).
  2: { apply (t_enter _ _ 64); [|vm_compute; reflexivity|vm_compute; reflexivity].
       apply (bool_decide_unpack _). vm_compute. exact I. }
  apply t_next with (world_1, ∅); [|apply (t_start _ _ 64); vm_compute; reflexivity].
  apply t_next with (world_0, ∅).
  2: { apply (t_alloc _ _ 64 128 (Some "app"%string) 1024 4096 0); [lia|reflexivity|vm_compute; reflexivity]. }
  apply (t_init a_task _ _ 80 4); [reflexivity|lia|split; lia|lia|reflexivity|reflexivity].
Qed.

Theorem thread_life_safe_witness :
  exists w' t, rhs_thread_scrub_round a_task world_5 = Ret w' /\ (64 ∉ alive (tasks w')) /\
    threads w' !! 64 = Some t /\ state t = RHSThreadStateStopped.
Proof.
  destruct (thread_life_safe world_5 _ world_5_reachable) as [_ Hq].
  destruct (Hq (mkFifo [[64]] 8 4) eq_refl) as [_ Hscrub].
  apply (Hscrub a_task 64 []); reflexivity.
Defined.
