(* ===== verification/ThreadFlags.v ===== *)
(** * Thread flags (core/thread.c: [rhs_thread_flags_set] to [rhs_thread_flags_wait])

    Thread flags are the FreeRTOS task notification of index 1: a 32-bit value and
    whether a notification is pending. FreeRTOS is the parameter [TaskNotify]. *)

From S2P Require Import Prelude Kernel.

Inductive notify_action := eNoAction | eSetBits | eSetValueWithOverwrite.

Class TaskNotify (N : Type) := {
  (** The task, the value and the action; [pdPASS] or not. *)
  xTaskNotifyIndexed : N -> Z -> Z -> notify_action -> Z * N;
  xTaskNotifyIndexedFromISR : N -> Z -> Z -> notify_action -> Z * N;
  (** The same, and the value before. *)
  xTaskNotifyAndQueryIndexed : N -> Z -> Z -> notify_action -> Z * Z * N;
  xTaskNotifyAndQueryIndexedFromISR : N -> Z -> Z -> notify_action -> Z * Z * N;
  (** By the task: the bits to clear on entry and on exit, and the ticks to wait. *)
  xTaskNotifyWaitIndexed : N -> Z -> Z -> Z -> Z -> outcome (Z * Z * N);
  notify_tick : N -> Z
}.

Definition MAX_BITS_TASK_NOTIFY : Z := 31.
Definition THREAD_FLAGS_INVALID_BITS : Z := Z.lxor (2 ^ 32 - 1) (Z.shiftl 1 MAX_BITS_TASK_NOTIFY - 1).

Section flags.
Context {S : Type} `{Scheduler S} {N : Type} `{TaskNotify N}.

(** [thread_id] is 0 for NULL. *)
Definition rhs_thread_flags_set (s : S) (n : N) (thread_id flags : Z) : Z * N :=
  if (thread_id =? 0) || negb (Z.land flags THREAD_FLAGS_INVALID_BITS =? 0) then
    (status_code RHSStatusErrorParameter, n)
  else if RHS_IS_IRQ_MODE s then
    let '(_, n) := xTaskNotifyIndexedFromISR n thread_id flags eSetBits in
    let '(_, rflags, n) := xTaskNotifyAndQueryIndexedFromISR n thread_id 0 eNoAction in
    (rflags, n)
  else
    let '(_, n) := xTaskNotifyIndexed n thread_id flags eSetBits in
    let '(_, rflags, n) := xTaskNotifyAndQueryIndexed n thread_id 0 eNoAction in
    (rflags, n).

(** [me] is the current task. *)
Definition rhs_thread_flags_clear (s : S) (n : N) (me flags : Z) : Z * N :=
  if RHS_IS_IRQ_MODE s then (status_code RHSStatusErrorISR, n)
  else if negb (Z.land flags THREAD_FLAGS_INVALID_BITS =? 0) then (status_code RHSStatusErrorParameter, n)
  else
    let '(r, cflags, n) := xTaskNotifyAndQueryIndexed n me 0 eNoAction in
    if r =? pdTRUE then
      let rflags := cflags in
      let cflags := Z.ldiff cflags flags in
      let '(r, n) := xTaskNotifyIndexed n me cflags eSetValueWithOverwrite in
      (if negb (r =? pdTRUE) then status_code RHSStatusError else rflags, n)
    else (status_code RHSStatusError, n).

Definition rhs_thread_flags_get (s : S) (n : N) (me : Z) : Z * N :=
  if RHS_IS_IRQ_MODE s then (status_code RHSStatusErrorISR, n)
  else
    let '(r, rflags, n) := xTaskNotifyAndQueryIndexed n me 0 eNoAction in
    (if negb (r =? pdTRUE) then status_code RHSStatusError else rflags, n).

(** Whether the flags collected end the wait. *)
Definition wait_condition (flags options rflags : Z) : bool :=
  if Z.land options RHSFlagWaitAll =? RHSFlagWaitAll then Z.land flags rflags =? flags
  else negb (Z.land flags rflags =? 0).

(** The loop; its rounds are counted by [fuel], each takes a notification. *)
Fixpoint wait_loop (fuel : nat) (n : N) (me flags options timeout clear t0 tout rflags : Z) : outcome (Z * N) :=
  match fuel with
  | O => Hang
  | Datatypes.S fuel =>
      '(rval, nval, n) ← xTaskNotifyWaitIndexed n me 0 clear tout;
      if rval =? pdTRUE then
        let rflags := Z.lor (Z.land rflags flags) nval in
        if wait_condition flags options rflags then Ret (rflags, n)
        else if timeout =? 0 then Ret (status_code RHSStatusErrorResource, n)
        else
          let td := u32 (notify_tick n - t0) in
          let tout := if tout <? td then 0 else tout - td in
          wait_loop fuel n me flags options timeout clear t0 tout rflags
      else
        Ret (status_code (if timeout =? 0 then RHSStatusErrorResource else RHSStatusErrorTimeout), n)
  end.

Definition rhs_thread_flags_wait (fuel : nat) (s : S) (n : N) (me flags options timeout : Z) : outcome (Z * N) :=
  if RHS_IS_IRQ_MODE s then Ret (status_code RHSStatusErrorISR, n)
  else if negb (Z.land flags THREAD_FLAGS_INVALID_BITS =? 0) then Ret (status_code RHSStatusErrorParameter, n)
  else
    let clear := if Z.land options RHSFlagNoClear =? RHSFlagNoClear then 0 else flags in
    wait_loop fuel n me flags options timeout clear (notify_tick n) timeout 0.
End flags.

(** ** What FreeRTOS documents of task notifications

    [now] is the time in ticks since the start, of which the tick counter keeps 32 bits.
    [upcoming n me] are the notifications that others will send the task while it waits,
    in order: each after how many ticks from the one before, and its bits. *)

Class TaskNotifyLaws (N : Type) `{TaskNotify N} := {
  value : N -> Z -> Z;
  pending : N -> Z -> bool;
  now : N -> Z;
  upcoming : N -> Z -> list (Z * Z);
  tick_spec n : notify_tick n = u32 (now n);
  notify_spec n t v a : let '(r, n') := xTaskNotifyIndexed n t v a in
    r = pdTRUE /\ pending n' t = true /\ now n' = now n /\ upcoming n' t = upcoming n t /\
    value n' t = match a with eNoAction => value n t | eSetBits => Z.lor (value n t) v | eSetValueWithOverwrite => v end;
  notify_isr_spec n t v a : let '(r, n') := xTaskNotifyIndexedFromISR n t v a in
    r = pdTRUE /\ pending n' t = true /\ now n' = now n /\ upcoming n' t = upcoming n t /\
    value n' t = match a with eNoAction => value n t | eSetBits => Z.lor (value n t) v | eSetValueWithOverwrite => v end;
  query_spec n t : let '(r, v, n') := xTaskNotifyAndQueryIndexed n t 0 eNoAction in
    r = pdTRUE /\ v = value n t /\ value n' t = value n t /\ pending n' t = true /\ now n' = now n /\
    upcoming n' t = upcoming n t;
  query_isr_spec n t : let '(r, v, n') := xTaskNotifyAndQueryIndexedFromISR n t 0 eNoAction in
    r = pdTRUE /\ v = value n t /\ value n' t = value n t /\ pending n' t = true /\ now n' = now n /\
    upcoming n' t = upcoming n t;
  upcoming_spec n t d b : (d, b) ∈ upcoming n t -> 0 <= d;
  wait_pending n t clr ticks : pending n t = true -> exists n',
    xTaskNotifyWaitIndexed n t 0 clr ticks = Ret (pdTRUE, value n t, n') /\
    value n' t = Z.ldiff (value n t) clr /\ pending n' t = false /\ now n' = now n /\
    upcoming n' t = upcoming n t;
  wait_arrival n t clr ticks d b rest :
    pending n t = false -> upcoming n t = (d, b) :: rest -> d <= ticks -> 0 < ticks ->
    exists n', xTaskNotifyWaitIndexed n t 0 clr ticks = Ret (pdTRUE, Z.lor (value n t) b, n') /\
    value n' t = Z.ldiff (Z.lor (value n t) b) clr /\ pending n' t = false /\ now n' = now n + d /\
    upcoming n' t = rest;
  wait_expires n t clr ticks : pending n t = false -> ticks <> portMAX_DELAY -> 0 <= ticks ->
    (forall d b, head (upcoming n t) = Some (d, b) -> ticks = 0 \/ ticks < d) ->
    exists n', xTaskNotifyWaitIndexed n t 0 clr ticks = Ret (pdFALSE, value n t, n') /\
    value n' t = value n t /\ pending n' t = false /\ now n' = now n + ticks
}.

Section properties.
Context {S : Type} `{Scheduler S} {N : Type} `{TaskNotifyLaws N}.

Lemma valid_thread_flags f : 0 <= f < 2 ^ 31 -> Z.land f THREAD_FLAGS_INVALID_BITS = 0.
Proof.
  intros Hf. change THREAD_FLAGS_INVALID_BITS with (Z.shiftl 1 31).
  apply Z.bits_inj'. intros k Hk. rewrite Z.land_spec, Z.bits_0. rewrite Z.shiftl_1_l.
  destruct (decide (k = 31)) as [->|].
  - rewrite Z.bits_above_log2; [done|lia|]. destruct (decide (f = 0)) as [->|]; [simpl; lia|].
    apply Z.log2_lt_pow2; lia.
  - by rewrite Z.pow2_bits_false, andb_false_r by lia.
Qed.

Lemma wait_starts fuel s n me flags options timeout :
  RHS_IS_IRQ_MODE s = false -> 0 <= flags < 2 ^ 31 ->
  rhs_thread_flags_wait fuel s n me flags options timeout =
  wait_loop fuel n me flags options timeout
    (if Z.land options RHSFlagNoClear =? RHSFlagNoClear then 0 else flags) (notify_tick n) timeout 0.
Proof. intros Hi Hf. unfold rhs_thread_flags_wait. by rewrite Hi, valid_thread_flags by done. Qed.

(** A pending notification that meets the condition ends the wait at once. *)
Lemma wait_now fuel n me flags options timeout clear t0 tout :
  pending n me = true -> wait_condition flags options (value n me) = true ->
  exists n', wait_loop (Datatypes.S fuel) n me flags options timeout clear t0 tout 0 = Ret (value n me, n') /\
    value n' me = Z.ldiff (value n me) clear /\ pending n' me = false /\ now n' = now n /\
    upcoming n' me = upcoming n me.
Proof.
  intros Hp Hc. destruct (wait_pending n me clear tout Hp) as (n' & E & V & P & T & A).
  exists n'. cbn [wait_loop]. rewrite E. cbn [mbind outcome_bind Z.eqb pdTRUE Pos.eqb].
  rewrite Z.land_0_l, Z.lor_0_l, Hc. done.
Qed.

(** Setting valid flags of a thread, from a task or an interrupt handler, returns its
    flags with the new ones; a wait that follows and asks for any or all of them returns
    them at once, and leaves the flags without the ones asked for or, with NoClear, as
    they are; waiting in an interrupt handler or for bit 31 is an error. *)
Theorem thread_flags_set_wait s s' n me set_ flags options timeout fuel :
  RHS_IS_IRQ_MODE s' = false -> me <> 0 -> 0 <= set_ < 2 ^ 31 -> 0 <= flags < 2 ^ 31 ->
  let v := Z.lor (value n me) set_ in
  wait_condition flags options v = true ->
  exists n1 n2, rhs_thread_flags_set s n me set_ = (v, n1) /\ value n1 me = v /\
    rhs_thread_flags_wait (Datatypes.S fuel) s' n1 me flags options timeout = Ret (v, n2) /\
    value n2 me = (if Z.land options RHSFlagNoClear =? RHSFlagNoClear then v else Z.ldiff v flags) /\
    now n2 = now n /\
    (RHS_IS_IRQ_MODE s = true ->
       rhs_thread_flags_wait fuel s n me flags options timeout = Ret (RHSFlagErrorISR, n)) /\
    rhs_thread_flags_wait fuel s' n me (2 ^ 31) options timeout = Ret (RHSFlagErrorParameter, n).
Proof.
  intros Hi Hme Hs Hf v Hc.
  assert (Hset : exists n1, rhs_thread_flags_set s n me set_ = (v, n1) /\ value n1 me = v /\
    pending n1 me = true /\ now n1 = now n).
  { unfold rhs_thread_flags_set. rewrite valid_thread_flags by done.
    destruct (Z.eqb_spec me 0); [done|]. cbn [orb negb Z.eqb]. destruct (RHS_IS_IRQ_MODE s).
    - pose proof (notify_isr_spec n me set_ eSetBits) as A.
      destruct (xTaskNotifyIndexedFromISR n me set_ eSetBits) as [r1 n1]. destruct A as (_ & _ & A3 & _ & A5).
      pose proof (query_isr_spec n1 me) as B.
      destruct (xTaskNotifyAndQueryIndexedFromISR n1 me 0 eNoAction) as [[r2 v2] n2].
      destruct B as (_ & -> & B3 & B4 & B5 & _). exists n2. rewrite A5. split; [done|]. split; [by rewrite B3, A5|]. split; [done|congruence].
    - pose proof (notify_spec n me set_ eSetBits) as A.
      destruct (xTaskNotifyIndexed n me set_ eSetBits) as [r1 n1]. destruct A as (_ & _ & A3 & _ & A5).
      pose proof (query_spec n1 me) as B.
      destruct (xTaskNotifyAndQueryIndexed n1 me 0 eNoAction) as [[r2 v2] n2].
      destruct B as (_ & -> & B3 & B4 & B5 & _). exists n2. rewrite A5. split; [done|]. split; [by rewrite B3, A5|]. split; [done|congruence]. }
  destruct Hset as (n1 & E1 & V1 & P1 & T1).
  destruct (wait_now fuel n1 me flags options timeout
    (if Z.land options RHSFlagNoClear =? RHSFlagNoClear then 0 else flags) (notify_tick n1) timeout P1)
    as (n2 & E2 & V2 & P2 & T2 & _); [by rewrite V1|].
  exists n1, n2. rewrite V1 in E2, V2. split; [done|]. split; [done|].
  split; [by rewrite wait_starts by done|]. split.
  { rewrite V2. destruct (Z.land options RHSFlagNoClear =? RHSFlagNoClear); [apply Z.ldiff_0_r|done]. }
  split; [congruence|]. split; unfold rhs_thread_flags_wait; [by intros ->|].
  rewrite Hi. done.
Qed.

(** Of two flags set together, a wait for the first takes the notification, and a
    wait for the second, which is still set, then reports it as missing. *)
Theorem thread_flags_second_wait_misses s n me a b fuel :
  RHS_IS_IRQ_MODE s = false -> pending n me = true ->
  0 < a < 2 ^ 31 -> 0 < b < 2 ^ 31 -> Z.land a b = 0 -> value n me = Z.lor a b ->
  exists n1 n2, rhs_thread_flags_wait (Datatypes.S fuel) s n me a RHSFlagWaitAny 0 = Ret (Z.lor a b, n1) /\
    value n1 me = b /\
    rhs_thread_flags_wait (Datatypes.S fuel) s n1 me b RHSFlagWaitAny 0 = Ret (RHSFlagErrorResource, n2) /\
    value n2 me = b.
Proof.
  intros Hi Hp Ha Hb Hab Hv. rewrite wait_starts by (done || lia).
  assert (Hac : Z.land a (Z.lor a b) = a).
  { apply Z.bits_inj'. intros k Hk. rewrite Z.land_spec, Z.lor_spec. by destruct (Z.testbit a k), (Z.testbit b k). }
  destruct (wait_now fuel n me a RHSFlagWaitAny 0 a (notify_tick n) 0 Hp) as (n1 & E1 & V1 & P1 & _ & _).
  { unfold wait_condition. cbn. rewrite Hv, Hac. destruct (Z.eqb_spec a 0); [lia|done]. }
  rewrite Hv in E1, V1. exists n1.
  assert (Hb1 : value n1 me = b).
  { rewrite V1. apply Z.bits_inj'. intros k Hk. rewrite Z.ldiff_spec, Z.lor_spec.
    assert (Hk' : Z.testbit (Z.land a b) k = false) by by rewrite Hab, Z.bits_0.
    rewrite Z.land_spec in Hk'. by destruct (Z.testbit a k), (Z.testbit b k). }
  destruct (wait_expires n1 me b 0 P1) as (n2 & E2 & V2 & _ & _); [done|done|by left|].
  exists n2. split; [exact E1|]. split; [done|]. rewrite wait_starts by (done || lia).
  split; [|congruence]. cbn [wait_loop]. change (Z.land RHSFlagWaitAny RHSFlagNoClear =? RHSFlagNoClear) with false.
  cbn iota. rewrite E2. done.
Qed.

(** The time a wait may still take, and the time it has taken. *)
Lemma wait_loop_bounded fuel n me flags options timeout clear start tout rflags :
  0 < timeout < portMAX_DELAY -> now n <= start + timeout -> start <= now n -> 0 <= tout ->
  now n + tout <= start + timeout -> (length (upcoming n me) + (if pending n me then 1 else 0) < fuel)%nat ->
  exists r n', wait_loop fuel n me flags options timeout clear (u32 start) tout rflags = Ret (r, n') /\
    now n <= now n' <= start + timeout /\
    (r = RHSFlagErrorTimeout \/ wait_condition flags options r = true).
Proof.
  intros Htm. revert n tout rflags. induction fuel as [|fuel IH]; intros n tout rflags Hn Hs Ht Hsum Hf; [lia|].
  cbn [wait_loop]. unfold portMAX_DELAY in *.
  assert (Htick : forall n', start <= now n' <= start + timeout -> u32 (notify_tick n' - u32 start) = now n' - start).
  { intros n' Hn'. rewrite tick_spec. word. }
  assert (Hgo : forall n' v, start <= now n' <= start + timeout -> now n <= now n' ->
    now n' + (if tout <? now n' - start then 0 else tout - (now n' - start)) <= start + timeout ->
    0 <= (if tout <? now n' - start then 0 else tout - (now n' - start)) ->
    (length (upcoming n' me) + (if pending n' me then 1 else 0) < fuel)%nat ->
    exists r n2, (let rflags := Z.lor (Z.land rflags flags) v in
      if wait_condition flags options rflags then Ret (rflags, n')
      else if timeout =? 0 then Ret (status_code RHSStatusErrorResource, n')
      else wait_loop fuel n' me flags options timeout clear (u32 start)
        (if tout <? u32 (notify_tick n' - u32 start) then 0 else tout - u32 (notify_tick n' - u32 start)) rflags)
      = Ret (r, n2) /\ now n <= now n2 <= start + timeout /\
      (r = RHSFlagErrorTimeout \/ wait_condition flags options r = true)).
  { intros n' v Q1 Q2 Q3 Q4 Q5. cbn zeta. rewrite Htick by done.
    destruct (wait_condition flags options (Z.lor (Z.land rflags flags) v)) eqn:Ec.
    - exists (Z.lor (Z.land rflags flags) v), n'. split; [done|]. split; [lia|]. by right.
    - destruct (Z.eqb_spec timeout 0); [lia|].
      destruct (IH n' (if tout <? now n' - start then 0 else tout - (now n' - start)) (Z.lor (Z.land rflags flags) v))
        as (r & n2 & E & Hb & Hr); [lia|lia|done|done|done|].
      exists r, n2. split; [done|]. split; [lia|done]. }
  destruct (pending n me) eqn:Ep.
  - destruct (wait_pending n me clear tout Ep) as (n' & E & _ & P & T & A). rewrite E.
    cbn [mbind outcome_bind Z.eqb pdTRUE Pos.eqb]. apply Hgo; rewrite ?T, ?P, ?A; try lia.
    + destruct (Z.ltb_spec tout (now n - start)); lia.
    + destruct (Z.ltb_spec tout (now n - start)); lia.
  - assert (Hexp : (forall d b, head (upcoming n me) = Some (d, b) -> tout = 0 \/ tout < d) ->
      exists r n', ('(rval, nval, n0) ← xTaskNotifyWaitIndexed n me 0 clear tout;
        if rval =? pdTRUE then
          let rflags0 := Z.lor (Z.land rflags flags) nval in
          if wait_condition flags options rflags0 then Ret (rflags0, n0)
          else if timeout =? 0 then Ret (status_code RHSStatusErrorResource, n0)
          else let td := u32 (notify_tick n0 - u32 start) in
            let tout0 := if tout <? td then 0 else tout - td in
            wait_loop fuel n0 me flags options timeout clear (u32 start) tout0 rflags0
        else Ret (status_code (if timeout =? 0 then RHSStatusErrorResource else RHSStatusErrorTimeout), n0))
        = Ret (r, n') /\ now n <= now n' <= start + timeout /\
        (r = RHSFlagErrorTimeout \/ wait_condition flags options r = true)).
    { intros Ha. destruct (wait_expires n me clear tout Ep) as (n' & E & _ & _ & T);
        [unfold portMAX_DELAY; lia|done|done|].
      rewrite E. cbn [mbind outcome_bind]. change (pdFALSE =? pdTRUE) with false. cbn iota.
      destruct (Z.eqb_spec timeout 0); [lia|]. exists RHSFlagErrorTimeout, n'. split; [done|]. split; [lia|]. by left. }
    pose proof (upcoming_spec n me) as Ha. destruct (upcoming n me) as [|[d b] rest] eqn:Ea; [by apply Hexp|].
    specialize (Ha d b ltac:(left)). cbn [length] in Hf.
    destruct (decide (d <= tout /\ 0 < tout)) as [[Hd Hpos]|Hno].
    + destruct (wait_arrival n me clear tout d b rest Ep Ea Hd Hpos) as (n' & E & _ & P & T & A). rewrite E.
      cbn [mbind outcome_bind Z.eqb pdTRUE Pos.eqb]. apply Hgo; rewrite ?T, ?P, ?A; try lia.
      * destruct (Z.ltb_spec tout (now n + d - start)); lia.
      * destruct (Z.ltb_spec tout (now n + d - start)); lia.
    + apply Hexp. intros d' b' [= <- <-]. lia.
Qed.

(** A wait with a finite timeout ends, whatever notifications arrive meanwhile, with
    the condition met or with the timeout error, and never after its timeout; but it may
    give up early: after two notifications of other flags, [d1] and then [d2] ticks
    apart, the wait ends [d1] ticks before its timeout, since the time already waited is
    subtracted from the remaining time over again. *)
Theorem thread_flags_wait_timeout s n me flags options timeout fuel :
  RHS_IS_IRQ_MODE s = false -> 0 < flags < 2 ^ 31 -> 0 < timeout < portMAX_DELAY -> 0 <= now n ->
  (length (upcoming n me) + (if pending n me then 1 else 0) < fuel)%nat ->
  (exists r n', rhs_thread_flags_wait fuel s n me flags options timeout = Ret (r, n') /\
     now n <= now n' <= now n + timeout /\
     (r = RHSFlagErrorTimeout \/ wait_condition flags options r = true)) /\
  (forall d1 d2 b1 b2, Z.land options RHSFlagWaitAll = 0 -> pending n me = false -> value n me = 0 ->
     upcoming n me = [(d1, b1); (d2, b2)] -> Z.land flags b1 = 0 -> Z.land flags b2 = 0 ->
     2 * d1 + d2 < timeout -> 0 < d1 -> 0 <= d2 ->
     exists n', rhs_thread_flags_wait fuel s n me flags options timeout = Ret (RHSFlagErrorTimeout, n') /\
       now n' = now n + timeout - d1).
Proof.
  intros Hi Hf Ht Hnow Hfuel. rewrite wait_starts by (done || lia). rewrite tick_spec. split.
  - destruct (wait_loop_bounded fuel n me flags options timeout
      (if Z.land options RHSFlagNoClear =? RHSFlagNoClear then 0 else flags) (now n) timeout 0)
      as (r & n' & E & Hb & Hr); try lia. exists r, n'. split; [exact E|]. split; [lia|exact Hr].
  - intros d1 d2 b1 b2 Hall Hp Hv Ha Hb1 Hb2 Hsum Hd1 Hd2.
    rewrite Ha in Hfuel. cbn [length] in Hfuel. unfold portMAX_DELAY in *.
    set (clear := if Z.land options RHSFlagNoClear =? RHSFlagNoClear then 0 else flags).
    assert (Hcond : forall x, Z.land flags x = 0 -> wait_condition flags options x = false).
    { intros x Hx. unfold wait_condition. rewrite Hall. simpl. by rewrite Hx. }
    destruct fuel as [|[|[|fuel]]]; try lia. cbn [wait_loop].
    destruct (wait_arrival n me clear timeout d1 b1 [(d2, b2)] Hp Ha) as (n1 & E1 & V1 & P1 & T1 & A1); [lia|lia|].
    rewrite E1. cbn [mbind outcome_bind Z.eqb pdTRUE Pos.eqb]. rewrite Hv, !Z.land_0_l, !Z.lor_0_l.
    rewrite Hcond by done. destruct (Z.eqb_spec timeout 0); [lia|].
    assert (Td1 : u32 (notify_tick n1 - u32 (now n)) = d1) by (rewrite tick_spec, T1; word).
    rewrite Td1. destruct (Z.ltb_spec timeout d1); [lia|].
    destruct (wait_arrival n1 me clear (timeout - d1) d2 b2 [] P1 A1) as (n2 & E2 & V2 & P2 & T2 & A2); [lia|lia|].
    rewrite E2. cbn [mbind outcome_bind Z.eqb pdTRUE Pos.eqb].
    assert (Hx : Z.land flags (Z.lor (Z.land b1 flags) (Z.lor (value n1 me) b2)) = 0).
    { rewrite (Z.land_comm b1), Hb1, Z.lor_0_l, V1, Hv, Z.lor_0_l, Z.land_lor_distr_r, Hb2, Z.lor_0_r.
      apply Z.bits_inj'. intros k Hk. rewrite Z.land_spec, Z.ldiff_spec, Z.bits_0.
      assert (Hk' : Z.testbit (Z.land flags b1) k = false) by by rewrite Hb1, Z.bits_0.
      rewrite Z.land_spec in Hk'. by destruct (Z.testbit flags k), (Z.testbit b1 k). }
    rewrite (Hcond _ Hx).
    assert (Td2 : u32 (notify_tick n2 - u32 (now n)) = d1 + d2) by (rewrite tick_spec, T2, T1; word).
    rewrite Td2. destruct (Z.ltb_spec (timeout - d1) (d1 + d2)); [lia|].
    destruct (wait_expires n2 me clear (timeout - d1 - (d1 + d2)) P2) as (n3 & E3 & _ & _ & T3);
      [unfold portMAX_DELAY; lia|lia| |].
    { intros d b Hd. by rewrite A2 in Hd. }
    rewrite E3. cbn [mbind outcome_bind]. change (pdFALSE =? pdTRUE) with false. cbn iota.
    exists n3. split; [done|]. lia.
Qed.
End properties.

(** ** A FreeRTOS to instantiate the theorems with *)

Record notify_state := mkNotify {
  nt_value : Z -> Z; nt_pending : Z -> bool; nt_now : N; nt_upcoming : Z -> list (N * Z)
}.

Definition upd {A} (f : Z -> A) (k : Z) (a : A) : Z -> A := fun x => if x =? k then a else f x.
Lemma upd_eq {A} (f : Z -> A) k a : upd f k a k = a.
Proof. unfold upd. by rewrite Z.eqb_refl. Qed.

Definition nt_act (n : notify_state) (t v : Z) (a : notify_action) : notify_state :=
  mkNotify
    (upd (nt_value n) t match a with
                        | eNoAction => nt_value n t
                        | eSetBits => Z.lor (nt_value n t) v
                        | eSetValueWithOverwrite => v
                        end)
    (upd (nt_pending n) t true) (nt_now n) (nt_upcoming n).

(** The task has taken a notification; [dt] ticks have passed. *)
Definition nt_taken (n : notify_state) (t v : Z) (dt : N) (rest : list (N * Z)) : notify_state :=
  mkNotify (upd (nt_value n) t v) (upd (nt_pending n) t false) (nt_now n + dt) (upd (nt_upcoming n) t rest).

Definition nt_wait (n : notify_state) (t clr_in clr ticks : Z) : outcome (Z * Z * notify_state) :=
  if nt_pending n t then
    Ret (pdTRUE, nt_value n t, nt_taken n t (Z.ldiff (nt_value n t) clr) 0 (nt_upcoming n t))
  else
    let v := Z.ldiff (nt_value n t) clr_in in
    let expired := Ret (pdFALSE, v, nt_taken n t v (Z.to_N ticks) (nt_upcoming n t)) in
    match nt_upcoming n t with
    | (d, b) :: rest =>
        if (0 <? ticks) && (Z.of_N d <=? ticks) then
          Ret (pdTRUE, Z.lor v b, nt_taken n t (Z.ldiff (Z.lor v b) clr) d rest)
        else expired
    | [] => if ticks =? portMAX_DELAY then Hang else expired
    end.

#[global] Instance simple_notify : TaskNotify notify_state := {
  xTaskNotifyIndexed n t v a := (pdTRUE, nt_act n t v a);
  xTaskNotifyIndexedFromISR n t v a := (pdTRUE, nt_act n t v a);
  xTaskNotifyAndQueryIndexed n t v a := (pdTRUE, nt_value n t, nt_act n t v a);
  xTaskNotifyAndQueryIndexedFromISR n t v a := (pdTRUE, nt_value n t, nt_act n t v a);
  xTaskNotifyWaitIndexed := nt_wait;
  notify_tick n := u32 (Z.of_N (nt_now n))
}.

Lemma nt_act_spec (n : notify_state) t v a :
  nt_pending (nt_act n t v a) t = true /\
  nt_value (nt_act n t v a) t =
    match a with eNoAction => nt_value n t | eSetBits => Z.lor (nt_value n t) v | eSetValueWithOverwrite => v end.
Proof. simpl. by rewrite !upd_eq. Qed.

#[local] Obligation Tactic := idtac.

#[global] Program Instance simple_notify_laws : TaskNotifyLaws notify_state := {
  value := nt_value;
  pending := nt_pending;
  now n := Z.of_N (nt_now n);
  upcoming n t := map (fun '(d, b) => (Z.of_N d, b)) (nt_upcoming n t)
}.
Next Obligation. done. Qed.
Next Obligation. intros n t v a. destruct (nt_act_spec n t v a). done. Qed.
Next Obligation. intros n t v a. destruct (nt_act_spec n t v a). done. Qed.
Next Obligation. intros n t. destruct (nt_act_spec n t 0 eNoAction). done. Qed.
Next Obligation. intros n t. destruct (nt_act_spec n t 0 eNoAction). done. Qed.
Next Obligation.
  intros n t d b ((d' & b') & [= -> ->] & _)%list_elem_of_fmap. lia.
Qed.
Next Obligation.
  intros n t clr ticks Hp. cbn in *. unfold nt_wait. rewrite Hp. eexists. split; [done|].
  cbn. rewrite !upd_eq. repeat split; [lia].
Qed.
Next Obligation.
  intros n t clr ticks d b rest Hp Hu Hd Ht. cbn in *. unfold nt_wait. rewrite Hp, Z.ldiff_0_r.
  destruct (nt_upcoming n t) as [|[d' b'] rest']; [done|]. injection Hu as <- <- <-.
  destruct (Z.ltb_spec 0 ticks), (Z.leb_spec (Z.of_N d') ticks); try lia. cbn.
  eexists. split; [done|]. cbn. rewrite !upd_eq. repeat split; lia.
Qed.
Next Obligation.
  intros n t clr ticks Hp Hm Ht Hu. cbn in *. unfold nt_wait. rewrite Hp, Z.ldiff_0_r.
  eexists (nt_taken n t (nt_value n t) (Z.to_N ticks) (nt_upcoming n t)).
  cbn. rewrite !upd_eq. split; [|repeat split; lia].
  destruct (nt_upcoming n t) as [|[d b] rest].
  - by destruct (Z.eqb_spec ticks portMAX_DELAY).
  - specialize (Hu _ _ eq_refl). destruct (Z.ltb_spec 0 ticks), (Z.leb_spec (Z.of_N d) ticks); cbn; lia || done.
Qed.

(** A task, 7, with flag 4 set and two more notifications on their way. *)
Definition quiet : notify_state :=
  mkNotify (fun _ => 4) (fun _ => false) 4294967290 (fun _ => []).
Definition busy : notify_state :=
  mkNotify (fun _ => 0) (fun _ => false) 4294967290 (fun _ => [(10%N, 2); (20%N, 4)]).
Definition notified : notify_state :=
  mkNotify (fun _ => 3) (fun _ => true) 0 (fun _ => []).

Theorem thread_flags_set_wait_witness :
  exists n1 n2, rhs_thread_flags_set a_task quiet 7 1 = (5, n1) /\ value n1 7 = 5 /\
    rhs_thread_flags_wait 1 a_task n1 7 5 RHSFlagWaitAll 100 = Ret (5, n2) /\
    value n2 7 = 0 /\
    now n2 = now quiet /\
    (RHS_IS_IRQ_MODE a_task = true ->
       rhs_thread_flags_wait 0 a_task quiet 7 5 RHSFlagWaitAll 100 = Ret (RHSFlagErrorISR, quiet)) /\
    rhs_thread_flags_wait 0 a_task quiet 7 (2 ^ 31) RHSFlagWaitAll 100 = Ret (RHSFlagErrorParameter, quiet).
Proof.
  refine (thread_flags_set_wait a_task a_task quiet 7 1 5 RHSFlagWaitAll 100 0 _ _ _ _ _);
    [reflexivity|discriminate|split; [discriminate|reflexivity]..|reflexivity].
Defined.

Theorem thread_flags_second_wait_misses_witness :
  exists n1 n2, rhs_thread_flags_wait 1 a_task notified 7 1 RHSFlagWaitAny 0 = Ret (3, n1) /\
    value n1 7 = 2 /\
    rhs_thread_flags_wait 1 a_task n1 7 2 RHSFlagWaitAny 0 = Ret (RHSFlagErrorResource, n2) /\
    value n2 7 = 2.
Proof.
  refine (thread_flags_second_wait_misses a_task notified 7 1 2 0 _ _ _ _ _ _);
    [reflexivity|reflexivity|split; reflexivity|split; reflexivity|reflexivity|reflexivity].
Defined.

Theorem thread_flags_wait_timeout_witness :
  (exists r n', rhs_thread_flags_wait 3 a_task busy 7 1 RHSFlagWaitAny 100 = Ret (r, n') /\
     now busy <= now n' <= now busy + 100 /\
     (r = RHSFlagErrorTimeout \/ wait_condition 1 RHSFlagWaitAny r = true)) /\
  exists n', rhs_thread_flags_wait 3 a_task busy 7 1 RHSFlagWaitAny 100 = Ret (RHSFlagErrorTimeout, n') /\
    now n' = now busy + 100 - 10.
Proof.
  destruct (thread_flags_wait_timeout a_task busy 7 1 RHSFlagWaitAny 100 3) as [A B];
    [reflexivity|split; reflexivity|split; reflexivity|discriminate|cbn; lia|].
  split; [exact A|].
  apply (B 10 20 2 4); (reflexivity || (cbn; lia)).
Defined.
