(* ===== verification/Mt25ql.v ===== *)
(** * The MT25QL128 flash driver (hal/rhs_hal_flash_ex/mt25ql128aba)

    The driver builds QSPI commands; the QUADSPI peripheral with the chip behind it is the
    parameter [Qspi]. A command's fields which the code leaves uninitialised, because its
    modes do not use them, are [None]; the fields that are the same in every command of
    the driver (alternate bytes, double data rate, SIOO) are left out. *)

From S2P Require Import Prelude.

Inductive HalStatus := HAL_OK | HAL_ERROR | HAL_BUSY | HAL_TIMEOUT.
Definition is_ok (r : HalStatus) : bool := match r with HAL_OK => true | _ => false end.

(** On how many lines a phase of a command goes; [NoLine] when it has no such phase. *)
Inductive lines := NoLine | OneLine | TwoLines | FourLines.

Record QSPI_CommandTypeDef := mkCmd {
  InstructionMode : lines; Instruction : Z;
  AddressMode : lines; AddressBits : option Z; Address : option Z;
  DataMode : lines; NbData : option Z; DummyCycles : Z
}.

Record QSPI_AutoPollingTypeDef := mkPoll { Match : Z; Mask : Z; StatusBytesSize : Z; Interval : Z }.

Class Qspi (H : Type) := {
  HAL_QSPI_Command : QSPI_CommandTypeDef -> Z -> H -> HalStatus * H;
  (** The data phase of the command before. *)
  HAL_QSPI_Transmit : list Z -> Z -> H -> HalStatus * H;
  HAL_QSPI_Receive : Z -> H -> HalStatus * list Z * H;
  (** [QSPI_MATCH_MODE_AND] with automatic stop, as in all the driver's polls. *)
  HAL_QSPI_AutoPolling : QSPI_CommandTypeDef -> QSPI_AutoPollingTypeDef -> Z -> H -> HalStatus * H;
  (** The registers that [flash_force_abort] uses, and [hqspi.Init.SampleShifting]. *)
  qspi_SR : H -> Z * H;
  qspi_set_abort : H -> H;
  qspi_clear_flags : H -> H;
  qspi_clear_fmode : H -> H;
  qspi_state_ready : H -> H;
  HAL_GetTick : H -> Z * H;
  qspi_sample_shifting : bool -> H -> H
}.

(** Of ST's QSPI driver, in milliseconds. *)
Definition HAL_QPSI_TIMEOUT_DEFAULT_VALUE : Z := 5000.
Definition MT25QL128ABA_FLASH_SIZE : Z := 128 * 1024 * 1024 / 8.
Definition MT25QL128ABA_PAGE_SIZE : Z := 256.
Definition MT25QL128ABA_SUBSECTOR_4K : Z := 4 * 1024.
Definition MT25QL128ABA_BULK_ERASE_MAX_TIME : Z := 460000.
Definition MT25QL128ABA_SUBSECTOR_4K_ERASE_MAX_TIME : Z := 400.
Definition MT25QL128ABA_RESET_MAX_TIME : Z := 1000.
Definition MT25QL128ABA_SR_WIP : Z := 1.
Definition MT25QL128ABA_SR_WREN : Z := 2.
Definition MT25QL128ABA_DUMMY_CYCLES_READ : Z := 8.
Definition MT25QL128ABA_DUMMY_CYCLES_READ_QUAD : Z := 8.

Inductive mt25ql128aba_interface_t :=
  | MT25QL128ABA_SPI_MODE | MT25QL128ABA_SPI_1I2O_MODE | MT25QL128ABA_SPI_2IO_MODE | MT25QL128ABA_SPI_1I4O_MODE
  | MT25QL128ABA_SPI_4IO_MODE | MT25QL128ABA_DPI_MODE | MT25QL128ABA_QPI_MODE.
Inductive mt25ql128aba_erase_t :=
  | MT25QL128ABA_ERASE_4K | MT25QL128ABA_ERASE_32K | MT25QL128ABA_ERASE_SECTOR | MT25QL128ABA_ERASE_BULK.

Section driver.
Context {H : Type} `{Qspi H}.

(** [step_ok_or e c k] is [if (c != HAL_OK) return e;] before the rest, [k], and
    [step_zero_or] the same for a function that returns 0 or an error. Most return -1. *)
Definition step_ok_or (e : Z) (c : H -> HalStatus * H) (k : M H Z) : M H Z :=
  r ← call c; if is_ok r then k else mret e.
Definition step_zero_or (e : Z) (c k : M H Z) : M H Z :=
  r ← c; if r =? 0 then k else mret e.
Definition step_ok := step_ok_or (-1).
Definition step_zero := step_zero_or (-1).

Definition command_only (lines_ : lines) (instruction : Z) : QSPI_CommandTypeDef :=
  mkCmd lines_ instruction NoLine None None NoLine None 0.

Definition instruction_lines (mode : mt25ql128aba_interface_t) : lines :=
  match mode with MT25QL128ABA_QPI_MODE => FourLines | _ => OneLine end.

Definition mt25ql128aba_ResetEnable (mode : mt25ql128aba_interface_t) : M H Z :=
  step_ok (HAL_QSPI_Command (command_only (instruction_lines mode) 0x66) HAL_QPSI_TIMEOUT_DEFAULT_VALUE) (mret 0).

Definition mt25ql128aba_ResetMemory (mode : mt25ql128aba_interface_t) : M H Z :=
  step_ok (HAL_QSPI_Command (command_only (instruction_lines mode) 0x99) HAL_QPSI_TIMEOUT_DEFAULT_VALUE) (mret 0).

(** Set the write enable latch, and poll the status register until it is set. *)
Definition mt25ql128aba_write_enable (mode : mt25ql128aba_interface_t) : M H Z :=
  step_ok (HAL_QSPI_Command (command_only OneLine 0x06) HAL_QPSI_TIMEOUT_DEFAULT_VALUE) (
  let m := Z.lor (Z.shiftl MT25QL128ABA_SR_WREN 8) MT25QL128ABA_SR_WREN in
  step_ok (HAL_QSPI_AutoPolling (mkCmd OneLine 0x05 NoLine None None OneLine None 0) (mkPoll m m 2 0x10)
    HAL_QPSI_TIMEOUT_DEFAULT_VALUE) (
  mret 0)).

Definition mt25ql128aba_write_disable (mode : mt25ql128aba_interface_t) : M H Z :=
  step_ok (HAL_QSPI_Command (command_only OneLine 0x04) HAL_QPSI_TIMEOUT_DEFAULT_VALUE) (mret 0).

(** Poll the status register until no write is in progress. *)
Definition mt25ql128aba_auto_polling_mem_ready (mode : mt25ql128aba_interface_t) (timeout : Z) : M H Z :=
  let m := Z.lor MT25QL128ABA_SR_WIP (Z.shiftl MT25QL128ABA_SR_WIP 8) in
  step_ok (HAL_QSPI_AutoPolling (mkCmd OneLine 0x05 NoLine None None OneLine None 0) (mkPoll 0 m 2 0x10) timeout) (
  mret 0).

Definition mt25ql128aba_Enter4BytesAddressMode (mode : mt25ql128aba_interface_t) : M H Z :=
  step_zero (mt25ql128aba_write_enable mode) (
  step_ok (HAL_QSPI_Command (command_only (instruction_lines mode) 0xB7) HAL_QPSI_TIMEOUT_DEFAULT_VALUE) (
  step_zero (mt25ql128aba_auto_polling_mem_ready mode HAL_QPSI_TIMEOUT_DEFAULT_VALUE) (
  mret 0))).

(** [MODIFY_REG] clears the bits of the mask and sets those of the value. *)
Definition MODIFY_REG (reg clear set_ : Z) : Z := Z.lor (Z.ldiff reg clear) set_.

Definition HAL_ERROR_value : Z := 1.

Definition QSPI_DummyCyclesCfg (mode : mt25ql128aba_interface_t) : M H Z :=
  let data_lines := instruction_lines mode in
  step_ok_or HAL_ERROR_value (HAL_QSPI_Command (mkCmd (instruction_lines mode) 0x85 NoLine None None data_lines (Some 2) 0)
    HAL_QPSI_TIMEOUT_DEFAULT_VALUE) (
  '(r, bytes) ← call (fun h => let '(r, b, h) := HAL_QSPI_Receive HAL_QPSI_TIMEOUT_DEFAULT_VALUE h in ((r, b), h));
  if is_ok r then
    let reg := nth 0 bytes 0 + 256 * nth 1 bytes 0 in
    step_zero_or HAL_ERROR_value (mt25ql128aba_write_enable mode) (
    let reg := MODIFY_REG reg 0xF0F0 (Z.lor (Z.shiftl MT25QL128ABA_DUMMY_CYCLES_READ_QUAD 4)
                                            (Z.shiftl MT25QL128ABA_DUMMY_CYCLES_READ_QUAD 12)) in
    step_ok_or HAL_ERROR_value (HAL_QSPI_Command (mkCmd (instruction_lines mode) 0x81 NoLine None None data_lines (Some 2) 0)
      HAL_QPSI_TIMEOUT_DEFAULT_VALUE) (
    step_ok_or HAL_ERROR_value (HAL_QSPI_Transmit [reg mod 256; reg / 256] HAL_QPSI_TIMEOUT_DEFAULT_VALUE) (
    mret 0)))
  else mret HAL_ERROR_value).

Definition MT25QL128ABA_EnterQPIMode : M H Z :=
  step_ok (HAL_QSPI_Command (command_only OneLine 0x35) HAL_QPSI_TIMEOUT_DEFAULT_VALUE) (mret 0).
Definition MT25QL128ABA_ExitQPIMode : M H Z :=
  step_ok (HAL_QSPI_Command (command_only OneLine 0xF5) HAL_QPSI_TIMEOUT_DEFAULT_VALUE) (mret 0).

(** [str_rate]: [MT25QL128ABA_STR_TRANSFER], sampling after half a cycle. *)
Definition QSPI_ConfigFlash (mode : mt25ql128aba_interface_t) (str_rate : bool) : M H Z :=
  _ ← call_ (qspi_sample_shifting str_rate);
  match mode with
  | MT25QL128ABA_QPI_MODE => mret 0
  | _ => step_zero MT25QL128ABA_ExitQPIMode (mret 0)
  end.

Definition mt25ql128aba_init : M H Z :=
  let mode := MT25QL128ABA_QPI_MODE in
  step_zero (mt25ql128aba_ResetEnable mode) (
  step_zero (mt25ql128aba_ResetMemory mode) (
  step_zero (mt25ql128aba_auto_polling_mem_ready mode MT25QL128ABA_RESET_MAX_TIME) (
  step_zero (mt25ql128aba_Enter4BytesAddressMode mode) (
  step_zero (mt25ql128aba_auto_polling_mem_ready mode HAL_QPSI_TIMEOUT_DEFAULT_VALUE) (
  step_zero (QSPI_DummyCyclesCfg mode) (
  step_zero (QSPI_ConfigFlash mode true) (
  mret 0))))))).

(** The instruction, and the lines of the address and the data; the other modes leave
    the command uninitialised. *)
Definition read_command (mode : mt25ql128aba_interface_t) : option (Z * lines * lines) :=
  match mode with
  | MT25QL128ABA_SPI_MODE => Some (0x0B, OneLine, OneLine)
  | MT25QL128ABA_SPI_2IO_MODE => Some (0xBB, TwoLines, TwoLines)
  | MT25QL128ABA_SPI_4IO_MODE => Some (0xEB, FourLines, FourLines)
  | MT25QL128ABA_QPI_MODE => Some (0x6B, OneLine, FourLines)
  | _ => None
  end.
Definition program_command (mode : mt25ql128aba_interface_t) : option (Z * lines * lines) :=
  match mode with
  | MT25QL128ABA_SPI_MODE => Some (0x02, OneLine, OneLine)
  | MT25QL128ABA_SPI_2IO_MODE => Some (0xD2, TwoLines, TwoLines)
  | MT25QL128ABA_SPI_4IO_MODE => Some (0x38, FourLines, FourLines)
  | MT25QL128ABA_QPI_MODE => Some (0x32, OneLine, FourLines)
  | _ => None
  end.

(** The result and what was stored at [pData]. *)
Definition mt25ql128aba_read (mode : mt25ql128aba_interface_t) (ReadAddr Size : Z) : M H (Z * list Z) :=
  match read_command mode with
  | None => fault
  | Some (i, a, d) =>
      r ← call (HAL_QSPI_Command (mkCmd OneLine i a (Some 24) (Some ReadAddr) d (Some Size) MT25QL128ABA_DUMMY_CYCLES_READ)
                 HAL_QPSI_TIMEOUT_DEFAULT_VALUE);
      if is_ok r then
        '(r, bytes) ← call (fun h => let '(r, b, h) := HAL_QSPI_Receive HAL_QPSI_TIMEOUT_DEFAULT_VALUE h in ((r, b), h));
        mret (if is_ok r then 0 else -1, bytes)
      else mret (-1, [])
  end.

Definition mt25ql128aba_page_program (mode : mt25ql128aba_interface_t) (pData : list Z) (WriteAddr Size : Z) : M H Z :=
  match program_command mode with
  | None => fault
  | Some (i, a, d) =>
      if Z.of_nat (length pData) <? Size then fault else
      step_ok (HAL_QSPI_Command (mkCmd OneLine i a (Some 24) (Some WriteAddr) d (Some Size) 0)
        HAL_QPSI_TIMEOUT_DEFAULT_VALUE) (
      step_ok (HAL_QSPI_Transmit (firstn (Z.to_nat Size) pData) HAL_QPSI_TIMEOUT_DEFAULT_VALUE) (
      mret 0))
  end.

Definition mt25ql128aba_chip_erase (mode : mt25ql128aba_interface_t) : M H Z :=
  step_ok (HAL_QSPI_Command (command_only OneLine 0xC7) HAL_QPSI_TIMEOUT_DEFAULT_VALUE) (mret 0).

Definition mt25ql128aba_block_erase (mode : mt25ql128aba_interface_t) (BlockAddress : Z)
    (BlockSize : mt25ql128aba_erase_t) : M H Z :=
  let erase instruction :=
    step_ok (HAL_QSPI_Command (mkCmd OneLine instruction OneLine (Some 24) (Some BlockAddress) NoLine None 0)
      HAL_QPSI_TIMEOUT_DEFAULT_VALUE) (mret 0) in
  match BlockSize with
  | MT25QL128ABA_ERASE_4K => erase 0x20
  | MT25QL128ABA_ERASE_32K => erase 0x52
  | MT25QL128ABA_ERASE_SECTOR => erase 0xD8
  | MT25QL128ABA_ERASE_BULK => mt25ql128aba_chip_erase mode
  end.
End driver.

(** ** What the data sheet and ST's driver document

    [array] is the memory of the chip, [status] its status register, [cycles] the time.
    Programming can only clear bits, wraps around in its page, and, like erasing, needs
    the write enable latch and no write in progress. Reading registers takes no more than
    a tick. A transmission that fails may have programmed some of its bytes. *)

Definition page_addr (addr i : Z) : Z := addr - addr mod 256 + (addr + i) mod 256.
Definition pollable (p : QSPI_AutoPollingTypeDef) : Prop := StatusBytesSize p = 2.

Class QspiLaws (H : Type) `{Qspi H} := {
  array : H -> Z -> Z;
  status : H -> Z;
  cycles : H -> Z;
  tick_cycles : Z;
  busy h := Z.testbit (status h) 0;
  enabled h := Z.testbit (status h) 1;
  poll_spec c p t h : Instruction c = 0x05 -> pollable p ->
    let '(r, h') := HAL_QSPI_AutoPolling c p t h in
    array h' = array h /\ (busy h = false -> busy h' = false) /\
    (is_ok r = true -> Z.land (Z.lor (status h') (Z.shiftl (status h') 8)) (Mask p) = Match p);
  enable_spec c t h : Instruction c = 0x06 ->
    let '(r, h') := HAL_QSPI_Command c t h in array h' = array h /\ (busy h = false -> busy h' = false);
  program_spec c addr n data t1 t2 h :
    Instruction c = 0x32 -> AddressMode c = OneLine -> AddressBits c = Some 24 -> Address c = Some addr ->
    DataMode c = FourLines -> NbData c = Some n -> 0 <= addr < 2 ^ 24 -> 0 < n <= 256 ->
    Z.of_nat (length data) = n -> busy h = false -> enabled h = true ->
    let '(r1, h1) := HAL_QSPI_Command c t1 h in
    array h1 = array h /\
    (is_ok r1 = true -> let '(r2, h2) := HAL_QSPI_Transmit data t2 h1 in
       (forall a, (forall i, 0 <= i < n -> a <> page_addr addr i) -> array h2 a = array h a) /\
       (is_ok r2 = true -> forall i, 0 <= i < n ->
          array h2 (page_addr addr i) = Z.land (array h (page_addr addr i)) (nth (Z.to_nat i) data 0)));
  erase_4k_spec c addr t h :
    Instruction c = 0x20 -> AddressMode c = OneLine -> AddressBits c = Some 24 -> Address c = Some addr ->
    0 <= addr < 2 ^ 24 -> busy h = false -> enabled h = true ->
    let '(r, h') := HAL_QSPI_Command c t h in
    forall a, array h' a = if is_ok r && (a / 4096 =? addr / 4096) then 255 else array h a;
  bulk_erase_spec c t h : Instruction c = 0xC7 -> busy h = false -> enabled h = true ->
    let '(r, h') := HAL_QSPI_Command c t h in
    forall a, 0 <= a < 2 ^ 24 -> array h' a = if is_ok r then 255 else array h a;
  read_spec c addr n t1 t2 h :
    Instruction c = 0x6B -> AddressMode c = OneLine -> AddressBits c = Some 24 -> Address c = Some addr ->
    DataMode c = FourLines -> NbData c = Some n -> DummyCycles c = 8 -> 0 <= addr -> 0 < n -> addr + n <= 2 ^ 24 ->
    busy h = false ->
    let '(r1, h1) := HAL_QSPI_Command c t1 h in
    array h1 = array h /\
    (is_ok r1 = true -> let '(r2, bytes, h2) := HAL_QSPI_Receive t2 h1 in
       array h2 = array h /\
       (is_ok r2 = true -> bytes = map (fun i => array h (addr + Z.of_nat i)) (seq 0 (Z.to_nat n))));
  tick_cycles_pos : 0 < tick_cycles;
  SR_spec h : let '(_, h') := qspi_SR h in
    array h' = array h /\ cycles h <= cycles h' <= cycles h + tick_cycles;
  GetTick_spec h : let '(t, h') := HAL_GetTick h in
    t = u32 (cycles h / tick_cycles) /\ array h' = array h /\ cycles h < cycles h' <= cycles h + tick_cycles;
  registers_spec h :
    array (qspi_set_abort h) = array h /\ array (qspi_clear_flags h) = array h /\
    array (qspi_clear_fmode h) = array h /\ array (qspi_state_ready h) = array h
}.

Section driver_specs.
Context {H : Type} `{QspiLaws H}.

Lemma runs_step_ok_or e c (k : M H Z) h P :
  (let '(r, h1) := c h in if is_ok r then runs k h1 P else P e h1) -> runs (step_ok_or e c k) h P.
Proof.
  intros HP. unfold step_ok_or. apply runs_bind, runs_call. destruct (c h) as [r h1].
  destruct (is_ok r); [done|by apply runs_ret].
Qed.

(** The doubled status register shows bit [k] of the register twice. *)
Lemma doubled_bit s k v : (k = 0 \/ k = 1) ->
  Z.land (Z.lor s (Z.shiftl s 8)) (Z.lor (Z.shiftl (2 ^ k) 8) (2 ^ k)) = v ->
  Z.testbit s k = Z.testbit v k.
Proof.
  intros Hk <-. rewrite Z.land_spec, !Z.lor_spec, !Z.shiftl_spec by lia.
  rewrite (Z.testbit_neg_r s (k - 8)), Z.pow2_bits_true by lia. by rewrite !orb_false_r, orb_true_r, andb_true_r.
Qed.

Lemma mem_ready_spec mode t h :
  runs (mt25ql128aba_auto_polling_mem_ready mode t) h
    (fun r h' => array h' = array h /\ (r = 0 -> busy h' = false)).
Proof.
  unfold mt25ql128aba_auto_polling_mem_ready, step_ok. apply runs_step_ok_or.
  pose proof (poll_spec (mkCmd OneLine 0x05 NoLine None None OneLine None 0) (mkPoll 0 257 2 0x10) t h eq_refl eq_refl) as Hp.
  change (Z.lor MT25QL128ABA_SR_WIP (Z.shiftl MT25QL128ABA_SR_WIP 8)) with 257.
  destruct (HAL_QSPI_AutoPolling _ _ t h) as [r h']. destruct Hp as (Ha & _ & Hm).
  destruct (is_ok r); [apply runs_ret|]; (split; [done|]); [|done].
  intros _. unfold busy. rewrite (doubled_bit (status h') 0 0); [done|by left|by apply Hm].
Qed.

Lemma write_enable_spec mode h : busy h = false ->
  runs (mt25ql128aba_write_enable mode) h
    (fun r h' => array h' = array h /\ busy h' = false /\ (r = 0 -> enabled h' = true)).
Proof.
  intros Hb. unfold mt25ql128aba_write_enable, step_ok. apply runs_step_ok_or.
  pose proof (enable_spec (command_only OneLine 0x06) HAL_QPSI_TIMEOUT_DEFAULT_VALUE h eq_refl) as He.
  destruct (HAL_QSPI_Command _ _ h) as [r1 h1]. destruct He as [Ha1 Hb1]. specialize (Hb1 Hb).
  destruct (is_ok r1); [|split; [done|]; by split]. apply runs_step_ok_or.
  change (Z.lor (Z.shiftl MT25QL128ABA_SR_WREN 8) MT25QL128ABA_SR_WREN) with 514.
  pose proof (poll_spec (mkCmd OneLine 0x05 NoLine None None OneLine None 0) (mkPoll 514 514 2 0x10)
    HAL_QPSI_TIMEOUT_DEFAULT_VALUE h1 eq_refl eq_refl) as Hp.
  destruct (HAL_QSPI_AutoPolling _ _ _ h1) as [r h']. destruct Hp as (Ha & Hb' & Hm).
  destruct (is_ok r); [apply runs_ret|]; (split; [congruence|]; split; [by apply Hb'|]); [|done].
  intros _. unfold enabled. rewrite (doubled_bit (status h') 1 514); [done|by right|by apply Hm].
Qed.

(** Programming a part of a page that does not cross its end. *)
Lemma page_program_spec data addr n h :
  0 <= addr -> addr + n <= 2 ^ 24 -> 0 < n <= 256 - addr mod 256 -> n <= Z.of_nat (length data) ->
  busy h = false -> enabled h = true ->
  runs (mt25ql128aba_page_program MT25QL128ABA_QPI_MODE data addr n) h (fun r h' =>
    (forall a, a < addr \/ addr + n <= a -> array h' a = array h a) /\
    (r = 0 -> forall i, 0 <= i < n -> array h' (addr + i) = Z.land (array h (addr + i)) (nth (Z.to_nat i) data 0))).
Proof.
  intros Ha Hend Hn Hlen Hb He. unfold mt25ql128aba_page_program. cbn [program_command].
  destruct (Z.ltb_spec (Z.of_nat (length data)) n); [lia|].
  pose proof (Z.mod_pos_bound addr 256 ltac:(lia)).
  assert (Hpage : forall i, 0 <= i < n -> page_addr addr i = addr + i).
  { intros i Hi. unfold page_addr.
    rewrite <- (Z.mod_unique (addr + i) 256 (addr / 256) (addr mod 256 + i)); [lia| |];
      pose proof (Z.div_mod addr 256); lia. }
  unfold step_ok. apply runs_step_ok_or.
  pose proof (program_spec (mkCmd OneLine 0x32 OneLine (Some 24) (Some addr) FourLines (Some n) 0) addr n
    (firstn (Z.to_nat n) data) HAL_QPSI_TIMEOUT_DEFAULT_VALUE HAL_QPSI_TIMEOUT_DEFAULT_VALUE h
    eq_refl eq_refl eq_refl eq_refl eq_refl eq_refl) as Hp.
  destruct (HAL_QSPI_Command _ _ h) as [r1 h1]. destruct Hp as [Hp1 Hp2]; [lia|lia|rewrite length_take; lia|done|done|].
  destruct (is_ok r1); [|split; [by intros; rewrite Hp1|done]]. specialize (Hp2 eq_refl). apply runs_step_ok_or.
  destruct (HAL_QSPI_Transmit _ _ h1) as [r2 h2]. destruct Hp2 as [Ho Hi].
  destruct (is_ok r2); [apply runs_ret|].
  - split.
    + intros a Hout. apply Ho. intros i Hin. rewrite Hpage by done. lia.
    + intros _ i Hin. rewrite <- (Hpage i) by done. rewrite (Hi eq_refl i Hin). f_equal.
      rewrite <- (take_drop (Z.to_nat n) data) at 2. rewrite app_nth1; [done|]. rewrite length_take. lia.
  - split; [|done]. intros a Hout. apply Ho. intros i Hin. rewrite Hpage by done. lia.
Qed.

Lemma block_erase_spec mode addr h : 0 <= addr < 2 ^ 24 -> busy h = false -> enabled h = true ->
  runs (mt25ql128aba_block_erase mode addr MT25QL128ABA_ERASE_4K) h (fun r h' =>
    forall a, array h' a = if (r =? 0) && (a / 4096 =? addr / 4096) then 255 else array h a).
Proof.
  intros Ha Hb He. unfold mt25ql128aba_block_erase, step_ok. apply runs_step_ok_or.
  pose proof (erase_4k_spec (mkCmd OneLine 0x20 OneLine (Some 24) (Some addr) NoLine None 0) addr
    HAL_QPSI_TIMEOUT_DEFAULT_VALUE h eq_refl eq_refl eq_refl eq_refl Ha Hb He) as Hp.
  destruct (HAL_QSPI_Command _ _ h) as [r h']. destruct (is_ok r); [by apply runs_ret|done].
Qed.

Lemma chip_erase_spec mode h : busy h = false -> enabled h = true ->
  runs (mt25ql128aba_chip_erase mode) h (fun r h' =>
    forall a, 0 <= a < 2 ^ 24 -> array h' a = if r =? 0 then 255 else array h a).
Proof.
  intros Hb He. unfold mt25ql128aba_chip_erase, step_ok. apply runs_step_ok_or.
  pose proof (bulk_erase_spec (command_only OneLine 0xC7) HAL_QPSI_TIMEOUT_DEFAULT_VALUE h eq_refl Hb He) as Hp.
  destruct (HAL_QSPI_Command _ _ h) as [r h']. destruct (is_ok r); [by apply runs_ret|done].
Qed.

Lemma read_flash_spec addr n h :
  0 <= addr -> 0 < n -> addr + n <= 2 ^ 24 -> busy h = false ->
  runs (mt25ql128aba_read MT25QL128ABA_QPI_MODE addr n) h (fun r h' => array h' = array h /\
    (fst r = 0 -> snd r = map (fun i => array h (addr + Z.of_nat i)) (seq 0 (Z.to_nat n)))).
Proof.
  intros Ha Hn Hend Hb. unfold mt25ql128aba_read. cbn [read_command]. apply runs_bind, runs_call.
  pose proof (read_spec (mkCmd OneLine 0x6B OneLine (Some 24) (Some addr) FourLines (Some n) 8) addr n
    HAL_QPSI_TIMEOUT_DEFAULT_VALUE HAL_QPSI_TIMEOUT_DEFAULT_VALUE h
    eq_refl eq_refl eq_refl eq_refl eq_refl eq_refl eq_refl Ha Hn Hend Hb) as Hp.
  change MT25QL128ABA_DUMMY_CYCLES_READ with 8.
  destruct (HAL_QSPI_Command _ _ h) as [r1 h1]. destruct Hp as [Hp1 Hp2].
  destruct (is_ok r1); [|by apply runs_ret]. specialize (Hp2 eq_refl). apply runs_bind, runs_call.
  destruct (HAL_QSPI_Receive _ h1) as [[r2 bytes] h2]. destruct Hp2 as [Hp2 Hp3]. apply runs_ret.
  split; [done|]. destruct (is_ok r2); cbn [fst snd]; [by auto|done].
Qed.
End driver_specs.
