(* ===== verification/FlashEx.v ===== *)
(** * External flash (hal/rhs_hal_flash_ex/rhs_hal_flash_ex.c)

    The operations that split a range into the pages and subsectors of the chip, under
    the mutex, on top of the chip driver [Mt25ql]. *)

From S2P Require Import Prelude Kernel Mutex Mt25ql.

Definition RHS_FLASH_EX_OK : Z := 0.
Definition RHS_FLASH_EX_ERROR : Z := -1.
Definition RHS_FLASH_EX_BUSY : Z := -2.

Definition QUADSPI_SR_TCF : Z := 1.
Definition QUADSPI_SR_BUSY : Z := 5.

Section operations.
Context {S : Type} `{Scheduler S} {Q : Type} `{FreeRTOSMutex Q} {W : Type} `{Qspi W}.

(** [while (!(SR satisfies cond)) if (HAL_GetTick() - tickstart > 100) break;]. *)
Fixpoint wait_register (fuel : nat) (cond : Z -> bool) (tickstart : Z) : M W unit :=
  match fuel with
  | O => hang
  | Datatypes.S fuel =>
      sr ← call qspi_SR;
      if cond sr then mret tt
      else
        t ← call HAL_GetTick;
        if 100 <? u32 (t - tickstart) then mret tt else wait_register fuel cond tickstart
  end.

Definition flash_force_abort (fuel : nat) : M W unit :=
  sr ← call qspi_SR;
  _ ← (if Z.testbit sr QUADSPI_SR_BUSY then
         _ ← call_ qspi_set_abort;
         tickstart ← call HAL_GetTick;
         _ ← wait_register fuel (fun sr => Z.testbit sr QUADSPI_SR_TCF) tickstart;
         tickstart ← call HAL_GetTick;
         _ ← wait_register fuel (fun sr => negb (Z.testbit sr QUADSPI_SR_BUSY)) tickstart;
         call_ qspi_clear_flags
       else mret tt);
  _ ← call_ qspi_clear_fmode;
  call_ qspi_state_ready.

Definition flash_wait_ready (fuel : nat) (timeout : Z) : M W Z :=
  r ← mt25ql128aba_auto_polling_mem_ready MT25QL128ABA_QPI_MODE timeout;
  if negb (r =? 0) then
    _ ← flash_force_abort fuel;
    mt25ql128aba_auto_polling_mem_ready MT25QL128ABA_QPI_MODE timeout
  else mret 0.

(** Abort and return an error. *)
Definition abort_with (fuel : nat) (error : Z) : M W Z :=
  _ ← flash_force_abort fuel; mret error.

(** The [hqspi] peripheral and [flash_mutex]. *)
Record flash := mkFlash { hw : W; flash_mutex : option Q }.

(** The body of an operation between acquiring and releasing the mutex; what these
    return is not looked at. *)
Definition under_mutex {A} (s : S) (me : Z) (body : M W A) : M flash A := fun st =>
  '(_, q) ← rhs_mutex_acquire s me (flash_mutex st) RHSWaitForever;
  '(a, h) ← body (hw st);
  '(_, q) ← rhs_mutex_release s me (Some q);
  Ret (a, mkFlash h (Some q)).

(** [quadspi_init] sets the peripheral up or crashes. *)
Definition rhs_hal_flash_ex_init (quadspi_init : M W unit) (s : S) (me : Z) (h : W) : outcome (Z * flash) :=
  q ← rhs_mutex_alloc s (mutex_type_value RHSMutexTypeNormal);
  under_mutex s me (_ ← quadspi_init; _ ← mt25ql128aba_init; mret 0) (mkFlash h (Some q)).

Definition read_body (fuel : nat) (addr size : Z) : M W (Z * list Z) :=
  r ← flash_wait_ready fuel 10;
  result ← (if negb (r =? 0) then mret (RHS_FLASH_EX_BUSY, [])
            else
              '(r, bytes) ← mt25ql128aba_read MT25QL128ABA_QPI_MODE addr size;
              mret (if negb (r =? 0) then RHS_FLASH_EX_ERROR else RHS_FLASH_EX_OK, bytes));
  _ ← flash_force_abort fuel;
  mret result.

(** The result and the bytes stored at [p_data]. *)
Definition rhs_hal_flash_ex_read (fuel : nat) (s : S) (me addr size : Z) : M flash (Z * list Z) :=
  _ ← rhs_assert (u32 (addr + size) <=? MT25QL128ABA_FLASH_SIZE);
  under_mutex s me (read_body fuel addr size).

Definition erase_chip_body (fuel : nat) : M W Z :=
  r ← flash_wait_ready fuel 10;
  error ← (if negb (r =? 0) then mret RHS_FLASH_EX_BUSY
           else
             r ← mt25ql128aba_write_enable MT25QL128ABA_QPI_MODE;
             if negb (r =? 0) then abort_with fuel RHS_FLASH_EX_ERROR
             else
               r ← mt25ql128aba_chip_erase MT25QL128ABA_QPI_MODE;
               if negb (r =? 0) then abort_with fuel RHS_FLASH_EX_ERROR else mret RHS_FLASH_EX_OK);
  r ← flash_wait_ready fuel MT25QL128ABA_BULK_ERASE_MAX_TIME;
  mret (if negb (r =? 0) then RHS_FLASH_EX_ERROR else error).

Definition rhs_hal_flash_ex_erase_chip (fuel : nat) (s : S) (me : Z) : M flash Z :=
  under_mutex s me (erase_chip_body fuel).

(** One round writes the rest of a page; [n] bounds the rounds. *)
Fixpoint write_loop (n fuel : nat) (write_data : list Z) (current_addr end_addr current_size : Z) : M W Z :=
  match n with
  | O => hang
  | Datatypes.S n =>
      r ← flash_wait_ready fuel 10;
      if negb (r =? 0) then mret RHS_FLASH_EX_BUSY else
      r ← mt25ql128aba_write_enable MT25QL128ABA_QPI_MODE;
      if negb (r =? 0) then abort_with fuel RHS_FLASH_EX_ERROR else
      r ← mt25ql128aba_page_program MT25QL128ABA_QPI_MODE write_data current_addr current_size;
      if negb (r =? 0) then abort_with fuel RHS_FLASH_EX_ERROR else
      r ← flash_wait_ready fuel 10;
      if negb (r =? 0) then mret RHS_FLASH_EX_ERROR else
      let current_addr := u32 (current_addr + current_size) in
      let write_data := drop (Z.to_nat current_size) write_data in
      let current_size :=
        if end_addr <? u32 (current_addr + MT25QL128ABA_PAGE_SIZE) then u32 (end_addr - current_addr)
        else MT25QL128ABA_PAGE_SIZE in
      if current_addr <? end_addr then write_loop n fuel write_data current_addr end_addr current_size
      else mret RHS_FLASH_EX_OK
  end.

Definition write_body (fuel : nat) (addr : Z) (p_data : list Z) (size : Z) : M W Z :=
  let current_size := MT25QL128ABA_PAGE_SIZE - addr mod MT25QL128ABA_PAGE_SIZE in
  let current_size := if size <? current_size then size else current_size in
  write_loop (Z.to_nat size + 1) fuel p_data addr (u32 (addr + size)) current_size.

Definition rhs_hal_flash_ex_write (fuel : nat) (s : S) (me addr : Z) (p_data : list Z) (size : Z) : M flash Z :=
  _ ← rhs_assert (u32 (addr + size) <=? MT25QL128ABA_FLASH_SIZE);
  under_mutex s me (write_body fuel addr p_data size).

(** One round erases a subsector. *)
Fixpoint erase_loop (n fuel : nat) (current_addr current_size : Z) : M W Z :=
  match n with
  | O => hang
  | Datatypes.S n =>
      r ← mt25ql128aba_write_enable MT25QL128ABA_QPI_MODE;
      if negb (r =? 0) then abort_with fuel RHS_FLASH_EX_ERROR else
      r ← mt25ql128aba_block_erase MT25QL128ABA_QPI_MODE current_addr MT25QL128ABA_ERASE_4K;
      if negb (r =? 0) then abort_with fuel RHS_FLASH_EX_ERROR else
      r ← flash_wait_ready fuel MT25QL128ABA_SUBSECTOR_4K_ERASE_MAX_TIME;
      if negb (r =? 0) then mret RHS_FLASH_EX_ERROR else
      let current_addr := u32 (current_addr + MT25QL128ABA_SUBSECTOR_4K) in
      let current_size :=
        if MT25QL128ABA_SUBSECTOR_4K <? current_size then current_size - MT25QL128ABA_SUBSECTOR_4K else 0 in
      if negb (current_size =? 0) then erase_loop n fuel current_addr current_size
      else mret RHS_FLASH_EX_OK
  end.

Definition block_erase_body (fuel : nat) (addr size : Z) : M W Z :=
  r ← flash_wait_ready fuel 10;
  if negb (r =? 0) then mret RHS_FLASH_EX_BUSY
  else erase_loop (Z.to_nat (size / MT25QL128ABA_SUBSECTOR_4K) + 1) fuel
         (addr - addr mod MT25QL128ABA_SUBSECTOR_4K) size.

Definition rhs_hal_flash_ex_block_erase (fuel : nat) (s : S) (me addr size : Z) : M flash Z :=
  _ ← rhs_assert (u32 (addr + size) <=? MT25QL128ABA_FLASH_SIZE);
  under_mutex s me (block_erase_body fuel addr size).
End operations.
Arguments flash _ _ : clear implicits.

Section properties.
Context {S : Type} `{Scheduler S} {Q : Type} `{FreeRTOSMutexLaws Q} {W : Type} `{QspiLaws W}.

(** Enough fuel to poll for 101 ticks. *)
Context (fuel : nat) (Hfuel : 102 * tick_cycles < Z.of_nat fuel).

(** A wait that has begun at [c0] ends within 102 ticks' worth of polls. *)
Lemma wait_register_spec f cond (c0 : Z) (h : W) :
  c0 <= cycles h <= c0 + 102 * tick_cycles -> c0 + 102 * tick_cycles < cycles h + Z.of_nat f ->
  runs (wait_register f cond (u32 (c0 / tick_cycles))) h (fun _ h' => array h' = array h).
Proof.
  revert h. induction f as [|f IH]; intros h Hc Hf; [lia|]. cbn [wait_register].
  apply runs_bind, runs_call. pose proof (SR_spec h) as Hs. destruct (qspi_SR h) as [sr h1].
  destruct Hs as (A1 & C1). destruct (cond sr); [by apply runs_ret|].
  apply runs_bind, runs_call. pose proof (GetTick_spec h1) as Ht. destruct (HAL_GetTick h1) as [t h2].
  destruct Ht as (-> & A2 & C2). pose proof tick_cycles_pos as Kpos. set (K := tick_cycles) in *.
  assert (Hdiff : u32 (u32 (cycles h1 / K) - u32 (c0 / K)) = cycles h1 / K - c0 / K).
  { assert (0 <= cycles h1 / K - c0 / K <= 1000) by (Z.to_euclidean_division_equations; nia).
    unfold u32 in *. rewrite <- Zminus_mod. by apply Z.mod_small; lia. }
  rewrite Hdiff. destruct (Z.ltb_spec 100 (cycles h1 / K - c0 / K)) as [|Hle].
  - apply runs_ret. congruence.
  - eapply runs_mono; [apply IH; Z.to_euclidean_division_equations; nia|].
    intros [] h' A. congruence.
Qed.

(** The tick counter is read, and the wait begins. *)
Lemma timed_wait cond {A} (k : M W A) (h : W) a0 P :
  array h = a0 -> (forall h', array h' = a0 -> runs k h' P) ->
  runs (t ← call HAL_GetTick; _ ← wait_register fuel cond t; k) h P.
Proof.
  intros Ha Hk. apply runs_bind, runs_call. pose proof (GetTick_spec h) as Ht. destruct (HAL_GetTick h) as [t h1].
  destruct Ht as (-> & A1 & C1). apply runs_bind. pose proof tick_cycles_pos.
  eapply runs_mono; [apply wait_register_spec; lia|]. intros [] h' A2. apply Hk. congruence.
Qed.

Lemma flash_force_abort_spec (h : W) : runs (flash_force_abort fuel) h (fun _ h' => array h' = array h).
Proof.
  unfold flash_force_abort. apply runs_bind, runs_call. pose proof (SR_spec h) as Hs. destruct (qspi_SR h) as [sr h1].
  destruct Hs as (A1 & _).
  assert (Hend : forall h2, array h2 = array h ->
    runs (_ ← call_ qspi_clear_fmode; call_ qspi_state_ready) h2 (fun _ h' => array h' = array h)).
  { intros h2 A2. destruct (registers_spec h2) as (_ & _ & R3 & _).
    destruct (registers_spec (qspi_clear_fmode h2)) as (_ & _ & _ & R4).
    exists tt, (qspi_state_ready (qspi_clear_fmode h2)). split; [done|congruence]. }
  apply runs_bind. destruct (Z.testbit sr QUADSPI_SR_BUSY); [|apply runs_ret, Hend; congruence].
  apply runs_bind. exists tt, (qspi_set_abort h1). split; [done|].
  destruct (registers_spec h1) as (R1 & _).
  eapply timed_wait; [rewrite R1; exact A1|]. intros h2 A2.
  eapply timed_wait; [exact A2|]. intros h3 A3.
  destruct (registers_spec h3) as (_ & R2 & _).
  exists tt, (qspi_clear_flags h3). split; [done|]. apply Hend. congruence.
Qed.

Lemma abort_with_spec e (h : W) (P : Z -> W -> Prop) :
  (forall h', array h' = array h -> P e h') -> runs (abort_with fuel e) h P.
Proof.
  intros HP. apply runs_bind. eapply runs_mono; [apply flash_force_abort_spec|].
  intros [] h' A. by apply runs_ret, HP.
Qed.

Lemma flash_wait_ready_spec t (h : W) :
  runs (flash_wait_ready fuel t) h (fun r h' => array h' = array h /\ (r = 0 -> busy h' = false)).
Proof.
  unfold flash_wait_ready. apply runs_bind. eapply runs_mono; [apply mem_ready_spec|].
  intros r h1 [A1 B1]. destruct (Z.eqb_spec r 0) as [->|]; [apply runs_ret; auto|].
  apply runs_bind. eapply runs_mono; [apply flash_force_abort_spec|]. intros [] h2 A2.
  eapply runs_mono; [apply mem_ready_spec|]. intros r' h3 [A3 B3]. split; [congruence|done].
Qed.
(** A driver call that fails is followed by an abort and an error. *)
Lemma else_error (e : Z) (m : M W Z) (k : M W Z) (h : W) (P P' : Z -> W -> Prop) :
  runs m h P -> (forall r h', P r h' -> if r =? 0 then runs k h' P' else runs (abort_with fuel e) h' P') ->
  runs (r ← m; if negb (r =? 0) then abort_with fuel e else k) h P'.
Proof.
  intros Hm Hk. apply runs_bind. eapply runs_mono; [exact Hm|]. intros r h' HP. specialize (Hk r h' HP).
  by destruct (r =? 0).
Qed.
Lemma else_return (e : Z) t (k : M W Z) (h : W) (P' : Z -> W -> Prop) :
  (forall h', array h' = array h -> P' e h') -> (forall h', array h' = array h -> busy h' = false -> runs k h' P') ->
  runs (r ← flash_wait_ready fuel t; if negb (r =? 0) then mret e else k) h P'.
Proof.
  intros He Hk. apply runs_bind. eapply runs_mono; [apply flash_wait_ready_spec|]. intros r h' [A B].
  destruct (Z.eqb_spec r 0); [by apply Hk; auto|by apply runs_ret, He].
Qed.

Definition flash_result (r : Z) : Prop := r = RHS_FLASH_EX_OK \/ r = RHS_FLASH_EX_BUSY \/ r = RHS_FLASH_EX_ERROR.

(** What a write of [data] at [addr] leaves: the rest of the memory, and when it succeeds
    the bytes programmed. *)
Definition written (addr : Z) (data : list Z) (h : W) (r : Z) (h' : W) : Prop :=
  flash_result r /\
  (forall a, a < addr \/ addr + Z.of_nat (length data) <= a -> array h' a = array h a) /\
  (r = RHS_FLASH_EX_OK -> forall i, 0 <= i < Z.of_nat (length data) ->
     array h' (addr + i) = Z.land (array h (addr + i)) (nth (Z.to_nat i) data 0)).

Lemma written_error addr data h r h' :
  r = RHS_FLASH_EX_BUSY \/ r = RHS_FLASH_EX_ERROR ->
  (forall a, a < addr \/ addr + Z.of_nat (length data) <= a -> array h' a = array h a) ->
  written addr data h r h'.
Proof. intros Hr Ha. split; [by right|]. split; [done|]. by destruct Hr as [-> | ->]. Qed.

Lemma write_loop_spec n data addr size (h : W) :
  0 <= addr -> 0 < Z.of_nat (length data) <= Z.of_nat n -> addr + Z.of_nat (length data) <= 2 ^ 24 ->
  size = Z.min (256 - addr mod 256) (Z.of_nat (length data)) ->
  runs (write_loop n fuel data addr (addr + Z.of_nat (length data)) size) h (written addr data h).
Proof.
  revert data addr size h. induction n as [|n IH]; intros data addr size h Ha Hn Hend ->; [lia|].
  pose proof (Z.mod_pos_bound addr 256 ltac:(lia)). cbn [write_loop].
  set (size := Z.min _ _). assert (Hsize : 0 < size <= 256 - addr mod 256 /\ size <= Z.of_nat (length data)) by lia.
  apply else_return; [intros h' A; apply written_error; [by left|by intros; rewrite A]|]. intros h1 A1 B1.
  eapply else_error; [apply write_enable_spec; exact B1|]. intros r2 h2 (A2 & B2 & E2).
  destruct (Z.eqb_spec r2 0) as [->|]; [|apply abort_with_spec; intros h' A; apply written_error; [by right|]; intros; congruence].
  eapply else_error; [apply (page_program_spec data addr size h2); (done || lia || auto)|]. intros r3 h3 [A3 D3].
  assert (A3' : forall a, a < addr \/ addr + size <= a -> array h3 a = array h a) by (intros; rewrite A3, A2, A1; done).
  assert (Aout : forall h', array h' = array h3 -> forall a, a < addr \/ addr + Z.of_nat (length data) <= a -> array h' a = array h a).
  { intros h' A a Hout. rewrite A. apply A3'. lia. }
  destruct (Z.eqb_spec r3 0) as [->|]; [|apply abort_with_spec; intros h' A; apply written_error; [by right|by apply Aout]].
  apply else_return; [intros h' A; apply written_error; [by right|by apply Aout]|]. intros h4 A4 B4.
  specialize (D3 eq_refl). cbv zeta. rewrite (u32_small (addr + size)) by lia.
  destruct (Z.ltb_spec (addr + size) (addr + Z.of_nat (length data))) as [Hmore|Hdone].
  - assert (Hal : (addr + size) mod 256 = 0).
    { assert (size = 256 - addr mod 256) by lia. apply Z.mod_divide; [lia|]. exists (addr / 256 + 1).
      pose proof (Z.div_mod addr 256). lia. }
    set (rest := drop (Z.to_nat size) data).
    assert (Hrest : Z.of_nat (length rest) = Z.of_nat (length data) - size) by (unfold rest; rewrite length_drop; lia).
    eapply runs_mono.
    { replace (addr + Z.of_nat (length data)) with ((addr + size) + Z.of_nat (length rest)) by lia.
      apply (IH rest (addr + size)); [lia|lia|lia|]. rewrite Hal. unfold MT25QL128ABA_PAGE_SIZE in *.
      rewrite !u32_small by lia. destruct (Z.ltb_spec (addr + size + Z.of_nat (length rest)) (addr + size + 256)); lia. }
    intros r h5 (R5 & O5 & D5). split; [done|]. split.
    + intros a Hout. rewrite O5 by lia. by apply Aout.
    + intros Hr i Hi. destruct (Z.lt_ge_cases i size) as [Hlt|Hge].
      * rewrite O5, A4, D3, A2, A1 by lia. done.
      * specialize (D5 Hr (i - size) ltac:(lia)). replace (addr + size + (i - size)) with (addr + i) in D5 by lia.
        rewrite D5, A4, A3' by lia. unfold rest. rewrite nth_skipn. do 2 f_equal. lia.
  - assert (size = Z.of_nat (length data)) by lia. apply runs_ret. split; [by left|]. split; [by apply Aout|].
    intros _ i Hi. rewrite A4, D3, A2, A1 by lia. done.
Qed.
(** How many subsectors an erase of [size] bytes erases: one at least. *)
Definition subsectors (size : Z) : Z := Z.max 1 ((size + 4095) / 4096).

(** What erasing [k] subsectors from [base] leaves. *)
Definition erased (base k : Z) (h : W) (r : Z) (h' : W) : Prop :=
  flash_result r /\
  (forall a, a < base \/ base + 4096 * k <= a -> array h' a = array h a) /\
  (forall a, array h' a = array h a \/ array h' a = 255) /\
  (r = RHS_FLASH_EX_OK -> forall a, base <= a < base + 4096 * k -> array h' a = 255).

Lemma erased_error base k h r h' :
  r = RHS_FLASH_EX_BUSY \/ r = RHS_FLASH_EX_ERROR -> array h' = array h -> erased base k h r h'.
Proof. intros Hr A. split; [by right|]. rewrite A. split; [done|]. split; [by left|]. by destruct Hr as [-> | ->]. Qed.

(** One subsector erased, whatever comes after it. *)
Lemma erased_first base h h1 r h' :
  base mod 4096 = 0 -> (forall a, array h1 a = if a / 4096 =? base / 4096 then 255 else array h a) ->
  array h' = array h1 -> flash_result r -> erased base 1 h r h'.
Proof.
  intros Hb H1' A Hr. split; [done|]. rewrite A.
  assert (Hin : forall a, (a / 4096 =? base / 4096) = true <-> base <= a < base + 4096 * 1).
  { intros a. rewrite Z.eqb_eq. Z.to_euclidean_division_equations. lia. }
  split; [|split]; [intros a Ha|intros a|intros _ a Ha]; rewrite H1'; specialize (Hin a);
    destruct (a / 4096 =? base / 4096); auto; destruct Hin; (lia || naive_solver).
Qed.

Lemma erased_more base k h h1 r h' :
  0 < k -> (forall r', flash_result r' -> erased base 1 h r' h1) -> erased (base + 4096) k h1 r h' ->
  erased base (k + 1) h r h'.
Proof.
  intros Hk H1' (R & O & U & E). destruct (H1' RHS_FLASH_EX_OK ltac:(by left)) as (_ & O1 & U1 & E1).
  split; [done|]. split; [intros a Ha; rewrite O, O1 by lia; done|]. split.
  - intros a. destruct (U a) as [-> | ->]; auto.
  - intros Hr a Ha. destruct (Z.lt_ge_cases a (base + 4096)); [|apply E; [done|lia]].
    rewrite O by lia. apply E1; [done|lia].
Qed.

Lemma erased_weaken base k h r h' :
  1 <= k -> r <> RHS_FLASH_EX_OK -> erased base 1 h r h' -> erased base k h r h'.
Proof. intros Hk Hr (R & O & U & E). repeat split; try done. intros a Ha. apply O. lia. Qed.

Lemma erase_loop_spec n base size (h : W) :
  0 <= base -> base mod 4096 = 0 -> 0 <= size -> subsectors size <= Z.of_nat n ->
  base + 4096 * subsectors size <= 2 ^ 24 -> busy h = false ->
  runs (erase_loop n fuel base size) h (erased base (subsectors size) h).
Proof.
  revert base size h. induction n as [|n IH]; intros base size h Ha Hal Hs Hn Hend B; [unfold subsectors in *; lia|].
  assert (Hk : 1 <= subsectors size) by (unfold subsectors; lia). cbn [erase_loop].
  eapply else_error; [apply write_enable_spec; exact B|]. intros r2 h2 (A2 & B2 & E2).
  destruct (Z.eqb_spec r2 0) as [->|]; [|apply abort_with_spec; intros h' A; apply erased_error; [by right|congruence]].
  eapply else_error; [apply (block_erase_spec _ base h2); (lia || done || auto)|]. intros r3 h3 A3.
  destruct (Z.eqb_spec r3 0) as [->|].
  2: { apply abort_with_spec. intros h' A. apply erased_weaken; [done|done|]. split; [by right; right|].
       assert (A' : forall a, array h' a = array h a) by (intros a; rewrite A, A3; destruct (Z.eqb_spec r3 0); [done|]; by rewrite A2).
       split; [by auto|]. split; [by auto|]. done. }
  assert (H3' : forall a, array h3 a = if a / 4096 =? base / 4096 then 255 else array h a) by (intros a; by rewrite A3, A2).
  apply else_return.
  { intros h' A. apply erased_weaken; [done|done|]. eapply erased_first; [done|exact H3'|done|by right; right]. }
  intros h4 A4 B4. cbv zeta. unfold MT25QL128ABA_SUBSECTOR_4K. change (4 * 1024) with 4096.
  destruct (Z.ltb_spec 4096 size) as [Hmore|Hlast].
  - destruct (Z.eqb_spec (size - 4096) 0); [lia|]. cbn [negb].
    assert (Hsub : subsectors size = subsectors (size - 4096) + 1) by (unfold subsectors; Z.to_euclidean_division_equations; lia).
    assert (Hk' : 1 <= subsectors (size - 4096)) by (unfold subsectors; lia).
    rewrite u32_small by lia. eapply runs_mono.
    { apply IH; [lia| |lia|lia|lia|done]. Z.to_euclidean_division_equations. lia. }
    intros r h5 E5. rewrite Hsub. eapply erased_more; [lia| |exact E5].
    intros r' Hr'. by eapply erased_first.
  - cbn [Z.eqb negb]. assert (subsectors size = 1) as -> by (unfold subsectors; Z.to_euclidean_division_equations; lia).
    apply runs_ret. eapply erased_first; [done|exact H3'|done|by left].
Qed.

(** The task has the mutex for the body, and leaves it free. *)
Definition mutex_free (st : flash Q W) : Prop := exists q, flash_mutex st = Some q /\ free_mutex q.

Lemma under_mutex_spec {A} s me (body : M W A) (st : flash Q W) P :
  RHS_IS_IRQ_MODE s = false -> me <> 0 -> mutex_free st -> runs body (hw st) P ->
  runs (under_mutex s me body) st (fun a st' => P a (hw st') /\ mutex_free st').
Proof.
  intros Hi Hme (q & Eq & Hq) (a & h & Eb & HP).
  destruct (acquire_free s me q RHSWaitForever Hi Hme Hq) as (q1 & E1 & Hq1).
  destruct (release_held s me q1 Hi Hme Hq1) as (q2 & E2 & Hq2).
  exists a, (mkFlash h (Some q2)). split; [|split; [done|]; by exists q2].
  unfold under_mutex. rewrite Eq, E1. cbn [mbind outcome_bind]. rewrite Eb. cbn [mbind outcome_bind]. by rewrite E2.
Qed.

(** The range check passes for ranges in the chip. *)
Lemma range_checked {A} addr size (k : M (flash Q W) A) st P :
  0 <= addr -> 0 <= size -> addr + size <= MT25QL128ABA_FLASH_SIZE ->
  runs k st P -> runs (_ ← rhs_assert (u32 (addr + size) <=? MT25QL128ABA_FLASH_SIZE); k) st P.
Proof.
  intros Ha Hs Hend Hk. change MT25QL128ABA_FLASH_SIZE with 16777216 in *. rewrite u32_small by lia.
  destruct (Z.leb_spec (addr + size) 16777216); [|lia]. by apply runs_bind, runs_ret.
Qed.
Lemma read_body_spec addr size (h : W) : 0 <= addr -> 0 < size -> addr + size <= 2 ^ 24 ->
  runs (read_body fuel addr size) h (fun r h' => array h' = array h /\
    (fst r = RHS_FLASH_EX_OK -> snd r = map (fun i => array h (addr + Z.of_nat i)) (seq 0 (Z.to_nat size)))).
Proof.
  intros Ha Hs Hend. apply runs_bind. eapply runs_mono; [apply flash_wait_ready_spec|]. intros r h1 [A1 B1].
  apply runs_bind. eapply runs_mono with (P := fun r h' => array h' = array h /\
    (fst r = RHS_FLASH_EX_OK -> snd r = map (fun i => array h (addr + Z.of_nat i)) (seq 0 (Z.to_nat size)))).
  - destruct (Z.eqb_spec r 0) as [->|]; [|by apply runs_ret]. apply runs_bind.
    eapply runs_mono; [apply read_flash_spec; auto|]. intros [r2 bytes] h2 [A2 D2]. apply runs_ret.
    split; [congruence|]. destruct (Z.eqb_spec r2 0) as [->|]; [|done]. intros _. cbn [fst snd] in *. by rewrite D2, A1.
  - intros r2 h2 [A2 D2]. apply runs_bind. eapply runs_mono; [apply flash_force_abort_spec|].
    intros [] h3 A3. apply runs_ret. split; [congruence|done].
Qed.

Lemma land_255 x : in_u8 x -> Z.land 255 x = x.
Proof. intros Hx. rewrite Z.land_comm. change 255 with (Z.ones 8). rewrite Z.land_ones by lia. by apply Z.mod_small. Qed.

Lemma flash_write_spec s me (st : flash Q W) addr data :
  RHS_IS_IRQ_MODE s = false -> me <> 0 -> mutex_free st -> 0 <= addr -> data <> [] -> addr + Z.of_nat (length data) <= 2 ^ 24 ->
  runs (rhs_hal_flash_ex_write fuel s me addr data (Z.of_nat (length data))) st
    (fun r st' => written addr data (hw st) r (hw st') /\ mutex_free st').
Proof.
  intros Hi Hme Hq Ha Hne Hend. assert (0 < Z.of_nat (length data)) by (destruct data; [done|simpl; lia]).
  apply range_checked; [lia|lia|done|]. apply under_mutex_spec; [done|done|done|]. unfold write_body.
  rewrite u32_small by lia. apply write_loop_spec; [lia|lia|lia|]. unfold MT25QL128ABA_PAGE_SIZE.
  destruct (Z.ltb_spec (Z.of_nat (length data)) (256 - addr mod 256)); lia.
Qed.
Lemma flash_read_spec s me (st : flash Q W) addr size :
  RHS_IS_IRQ_MODE s = false -> me <> 0 -> mutex_free st -> 0 <= addr -> 0 < size -> addr + size <= 2 ^ 24 ->
  runs (rhs_hal_flash_ex_read fuel s me addr size) st (fun r st2 =>
    (array (hw st2) = array (hw st) /\ (fst r = RHS_FLASH_EX_OK ->
       snd r = map (fun i => array (hw st) (addr + Z.of_nat i)) (seq 0 (Z.to_nat size)))) /\ mutex_free st2).
Proof.
  intros Hi Hme Hq Ha Hs Hend. apply range_checked; [lia|lia|done|].
  apply (under_mutex_spec s me (read_body fuel addr size) st (fun r h2 => array h2 = array (hw st) /\ _)); [done|done|done|].
  apply read_body_spec; lia.
Qed.
(** What was programmed on erased bytes and is read is the data. *)
Lemma read_back addr data (h h' : W) : Forall in_u8 data ->
  (forall i, 0 <= i < Z.of_nat (length data) -> array h' (addr + i) = Z.land (array h (addr + i)) (nth (Z.to_nat i) data 0)) ->
  (forall a, addr <= a < addr + Z.of_nat (length data) -> array h a = 255) ->
  map (fun i => array h' (addr + Z.of_nat i)) (seq 0 (length data)) = data.
Proof.
  intros Hd D Her. apply list_eq. intros i. rewrite list_lookup_fmap. destruct (decide (i < length data)%nat) as [Hlt|Hge].
  - rewrite lookup_seq_lt by lia. cbn [fmap option_fmap option_map]. rewrite D, Her by lia.
    destruct (lookup_lt_is_Some_2 data i Hlt) as [x Hx]. rewrite Hx. f_equal.
    apply nth_lookup_Some with (d := 0) in Hx as Hn. cbn. rewrite Nat2Z.id.
    rewrite Hn, land_255; [done|]. by eapply Forall_lookup_1.
  - rewrite !lookup_ge_None_2; [done|lia|rewrite length_seq; lia].
Qed.

(** C21: a write of some bytes to a range of the chip ends, with OK, BUSY or ERROR and the
    mutex free again; it never changes a byte outside the range; when it returns OK, each
    byte of the range has been programmed with its data (which can only clear bits). A
    read of the range afterwards changes nothing, and when both return OK and the range
    was erased before, it gives the data back. *)
Theorem flash_write_read_correct s me (st : flash Q W) addr data :
  RHS_IS_IRQ_MODE s = false -> me <> 0 -> mutex_free st -> Forall in_u8 data ->
  0 <= addr -> data <> [] -> addr + Z.of_nat (length data) <= MT25QL128ABA_FLASH_SIZE ->
  let size := Z.of_nat (length data) in
  exists r st' r2 bytes st2,
    rhs_hal_flash_ex_write fuel s me addr data size st = Ret (r, st') /\
    rhs_hal_flash_ex_read fuel s me addr size st' = Ret ((r2, bytes), st2) /\
    mutex_free st' /\ mutex_free st2 /\
    flash_result r /\
    (forall a, a < addr \/ addr + size <= a -> array (hw st') a = array (hw st) a) /\
    (r = RHS_FLASH_EX_OK -> forall i, 0 <= i < size ->
       array (hw st') (addr + i) = Z.land (array (hw st) (addr + i)) (nth (Z.to_nat i) data 0)) /\
    array (hw st2) = array (hw st') /\
    (r = RHS_FLASH_EX_OK -> r2 = RHS_FLASH_EX_OK ->
       (forall a, addr <= a < addr + size -> array (hw st) a = 255) -> bytes = data).
Proof.
  intros Hi Hme Hq Hd Ha Hne Hend size. change MT25QL128ABA_FLASH_SIZE with 16777216 in *.
  assert (0 < size) by (unfold size; destruct data; [done|simpl; lia]).
  destruct (flash_write_spec s me st addr data Hi Hme Hq Ha Hne Hend) as (r & st' & E & (R & O & D) & F).
  destruct (flash_read_spec s me st' addr size Hi Hme F Ha ltac:(lia) Hend) as ([r2 bytes] & st2 & E2 & [A2 D2] & F2).
  exists r, st', r2, bytes, st2. split; [exact E|]. split; [exact E2|]. repeat (split; [done|]).
  intros -> -> Her. cbn [fst snd] in D2. rewrite D2 by done. unfold size. rewrite Nat2Z.id.
  apply (read_back addr data (hw st)); [done|by apply D|done].
Qed.

(** An erase of [size > 0] bytes at [addr] ends, with OK, BUSY or ERROR and the mutex
    free again; it changes bytes only to 255 and only in the subsectors it means to erase,
    as many as [size] takes from the one of [addr]; when it returns OK, they are all 255.
    When [addr] is inside a subsector these may end before the range does, and then the
    last byte of the range is as before. Erasing the chip with OK leaves all of it 255. *)
Theorem flash_block_erase_correct s me (st : flash Q W) addr size :
  RHS_IS_IRQ_MODE s = false -> me <> 0 -> mutex_free st ->
  0 <= addr -> 0 < size -> addr + size <= MT25QL128ABA_FLASH_SIZE ->
  let base := addr - addr mod 4096 in
  let len := 4096 * ((size + 4095) / 4096) in
  exists r st', rhs_hal_flash_ex_block_erase fuel s me addr size st = Ret (r, st') /\ mutex_free st' /\
    flash_result r /\
    (forall a, array (hw st') a = array (hw st) a \/ (base <= a < base + len /\ array (hw st') a = 255)) /\
    (r = RHS_FLASH_EX_OK -> forall a, base <= a < base + len -> array (hw st') a = 255) /\
    (len < addr mod 4096 + size -> array (hw st') (addr + size - 1) = array (hw st) (addr + size - 1)) /\
    exists r2 st2, rhs_hal_flash_ex_erase_chip fuel s me st = Ret (r2, st2) /\ mutex_free st2 /\
      (r2 = RHS_FLASH_EX_OK -> forall a, 0 <= a < MT25QL128ABA_FLASH_SIZE -> array (hw st2) a = 255).
Proof.
  intros Hi Hme Hq Ha Hs Hend base len. change MT25QL128ABA_FLASH_SIZE with 16777216 in *.
  assert (Hsub : subsectors size = (size + 4095) / 4096) by (unfold subsectors; Z.to_euclidean_division_equations; lia).
  assert (Hmod : 0 <= addr mod 4096 < 4096) by (apply Z.mod_pos_bound; lia).
  assert (Hb0 : 0 <= base) by (unfold base; Z.to_euclidean_division_equations; lia).
  assert (Hb : base mod 4096 = 0) by (unfold base; Z.to_euclidean_division_equations; lia).
  assert (Hw : runs (rhs_hal_flash_ex_block_erase fuel s me addr size) st
    (fun r st' => erased base (subsectors size) (hw st) r (hw st') /\ mutex_free st')).
  { apply range_checked; [lia|lia|done|]. apply under_mutex_spec; [done|done|done|]. apply else_return.
    { intros h' A. apply erased_error; [by left|done]. }
    intros h1 A1 B1. eapply runs_mono.
    - apply (erase_loop_spec _ base); [lia|done|lia| | |done]; rewrite Hsub;
        unfold MT25QL128ABA_SUBSECTOR_4K, base in *; Z.to_euclidean_division_equations; lia.
    - intros r h' (R & O & U & D). rewrite A1 in O, U. by repeat split. }
  assert (Hc : runs (rhs_hal_flash_ex_erase_chip fuel s me) st (fun r st' =>
    (r = RHS_FLASH_EX_OK -> forall a, 0 <= a < 2 ^ 24 -> array (hw st') a = 255) /\ mutex_free st')).
  { apply (under_mutex_spec s me (erase_chip_body fuel) st
      (fun r h' => r = RHS_FLASH_EX_OK -> forall a, 0 <= a < 2 ^ 24 -> array h' a = 255)); [done|done|done|].
    apply runs_bind. eapply runs_mono; [apply flash_wait_ready_spec|]. intros r h1 [A1 B1].
    apply runs_bind. eapply runs_mono with (P := fun e h' => e = RHS_FLASH_EX_OK -> forall a, 0 <= a < 2 ^ 24 -> array h' a = 255).
    - destruct (Z.eqb_spec r 0) as [->|]; [|by apply runs_ret].
      eapply else_error; [apply write_enable_spec; auto|]. intros r2 h2 (A2 & B2 & E2).
      destruct (Z.eqb_spec r2 0) as [->|]; [|by apply abort_with_spec].
      eapply else_error; [apply chip_erase_spec; auto|]. intros r3 h3 A3.
      destruct (Z.eqb_spec r3 0) as [->|]; [by apply runs_ret|by apply abort_with_spec].
    - intros e h2 He. apply runs_bind. eapply runs_mono; [apply flash_wait_ready_spec|]. intros r4 h4 [A4 _].
      apply runs_ret. destruct (Z.eqb_spec r4 0); [|done]. by rewrite A4. }
  destruct Hw as (r & st' & E & (R & O & U & D) & F), Hc as (r2 & st2 & E2 & D2 & F2).
  rewrite Hsub in O, D. fold len in O, D.
  exists r, st'. split; [exact E|]. split; [done|]. split; [done|]. split; [|split; [exact D|split]].
  - intros a. destruct (decide (base <= a < base + len)); [destruct (U a); auto|]. left. apply O. lia.
  - intros Hshort. apply O. unfold base. lia.
  - exists r2, st2. split; [exact E2|]. split; [done|exact D2].
Qed.
End properties.

(** ** A chip to instantiate the theorems with *)

Record chip := mkChip { c_mem : Z -> Z; c_wip : bool; c_wel : bool; c_cycles : Z; c_pending : Z * Z }.

Definition chip_status (h : chip) : Z := (if c_wip h then 1 else 0) + (if c_wel h then 2 else 0).
Definition set_mem (m : Z -> Z) (h : chip) : chip := mkChip m (c_wip h) (c_wel h) (c_cycles h) (c_pending h).
Definition tick_on (h : chip) : chip := mkChip (c_mem h) (c_wip h) (c_wel h) (c_cycles h + 1) (c_pending h).

Definition chip_program (addr n : Z) (data : list Z) (m : Z -> Z) : Z -> Z := fun a =>
  let i := (a - addr) mod 256 in
  if (a / 256 =? addr / 256) && (i <? n) then Z.land (m a) (nth (Z.to_nat i) data 0) else m a.

Definition chip_command (c : QSPI_CommandTypeDef) (h : chip) : chip :=
  let addr := default 0 (Address c) in
  match Instruction c with
  | 0x06 => mkChip (c_mem h) (c_wip h) true (c_cycles h) (c_pending h)
  | 0x20 => set_mem (fun a => if a / 4096 =? addr / 4096 then 255 else c_mem h a) h
  | 0xC7 => set_mem (fun _ => 255) h
  | 0x32 | 0x6B => mkChip (c_mem h) (c_wip h) (c_wel h) (c_cycles h) (addr, default 0 (NbData c))
  | _ => h
  end.

#[global] Instance chip_qspi : Qspi chip := {
  HAL_QSPI_Command c _ h := (HAL_OK, chip_command c h);
  HAL_QSPI_Transmit data _ h :=
    (HAL_OK, mkChip (chip_program (fst (c_pending h)) (snd (c_pending h)) data (c_mem h)) true false (c_cycles h) (0, 0));
  HAL_QSPI_Receive _ h :=
    (HAL_OK, map (fun i => c_mem h (fst (c_pending h) + Z.of_nat i)) (seq 0 (Z.to_nat (snd (c_pending h)))), h);
  HAL_QSPI_AutoPolling c p _ h :=
    let h' := mkChip (c_mem h) false (c_wel h) (c_cycles h) (c_pending h) in
    (if Z.land (Z.lor (chip_status h') (Z.shiftl (chip_status h') 8)) (Mask p) =? Match p then HAL_OK else HAL_TIMEOUT, h');
  qspi_SR h := (if c_wip h then 32 else 0, h);
  qspi_set_abort h := h; qspi_clear_flags h := h; qspi_clear_fmode h := h; qspi_state_ready h := h;
  HAL_GetTick h := (u32 (c_cycles h), tick_on h);
  qspi_sample_shifting _ h := h
}.

Lemma chip_not_busy h : Z.odd (chip_status h) = c_wip h.
Proof. unfold chip_status. by destruct (c_wip h), (c_wel h). Qed.

Lemma chip_program_out addr n data m a :
  0 < n <= 256 -> (forall i, 0 <= i < n -> a <> page_addr addr i) -> chip_program addr n data m a = m a.
Proof.
  intros Hn Hout. unfold chip_program. destruct (Z.eqb_spec (a / 256) (addr / 256)) as [Hp|]; [|done].
  destruct (Z.ltb_spec ((a - addr) mod 256) n) as [Hi|]; [|done]. exfalso.
  apply (Hout ((a - addr) mod 256)); [Z.to_euclidean_division_equations; lia|].
  unfold page_addr. rewrite Zplus_mod_idemp_r. replace (addr + (a - addr)) with a by lia.
  pose proof (Z.div_mod a 256). pose proof (Z.div_mod addr 256). lia.
Qed.

Lemma chip_program_in addr n data m i :
  0 <= i < n -> n <= 256 ->
  chip_program addr n data m (page_addr addr i) = Z.land (m (page_addr addr i)) (nth (Z.to_nat i) data 0).
Proof.
  intros Hi Hn. unfold chip_program.
  assert (page_addr addr i / 256 = addr / 256) as ->.
  { unfold page_addr. symmetry. apply Z.div_unique with ((addr + i) mod 256);
      [left; apply Z.mod_pos_bound; lia|]. pose proof (Z.div_mod addr 256). lia. }
  assert ((page_addr addr i - addr) mod 256 = i) as ->.
  { unfold page_addr. pose proof (Z.div_mod (addr + i) 256 ltac:(lia)). pose proof (Z.div_mod addr 256 ltac:(lia)).
    symmetry. apply Z.mod_unique with (addr / 256 - (addr + i) / 256); lia. }
  rewrite Z.eqb_refl. destruct (Z.ltb_spec i n); [done|lia].
Qed.

#[local] Obligation Tactic := idtac.

#[global] Program Instance chip_laws : QspiLaws chip := {
  array := c_mem;
  status := chip_status;
  cycles := c_cycles;
  tick_cycles := 1
}.
Next Obligation.
  intros c p t h _ _. cbn. split; [done|]. split; [intros _; apply chip_not_busy|].
  destruct (Z.eqb_spec (Z.land (Z.lor (chip_status (mkChip (c_mem h) false (c_wel h) (c_cycles h) (c_pending h)))
    (Z.shiftl (chip_status (mkChip (c_mem h) false (c_wel h) (c_cycles h) (c_pending h))) 8)) (Mask p)) (Match p)); done.
Qed.
Next Obligation. intros c t h Hc. cbn. unfold chip_command. rewrite Hc. by rewrite !chip_not_busy. Qed.
Next Obligation.
  intros c addr n data t1 t2 h Hc _ _ Ha _ Hn Haddr Hn' Hlen _ _. cbn. unfold chip_command. rewrite Hc, Ha, Hn.
  split; [done|]. intros _. cbn. split; [intros a Hout; by apply chip_program_out|].
  intros _ i Hi. apply chip_program_in; lia.
Qed.
Next Obligation. intros c addr t h Hc _ _ Ha _ _ _. cbn. unfold chip_command. by rewrite Hc, Ha. Qed.
Next Obligation. intros c t h Hc _ _. cbn. unfold chip_command. by rewrite Hc. Qed.
Next Obligation.
  intros c addr n t1 t2 h Hc _ _ Ha _ Hn _ _ _ _ _. cbn. unfold chip_command. rewrite Hc, Ha, Hn. done.
Qed.
Next Obligation. done. Qed.
Next Obligation. intros h. cbn. split; [done|lia]. Qed.
Next Obligation. intros h. cbn. rewrite Z.div_1_r. split; [done|]. split; [done|]. lia. Qed.
Next Obligation. done. Qed.

(** An erased chip. *)
Definition a_flash : flash plain_mutex chip :=
  mkFlash (mkChip (fun _ => 255) false false 0 (0, 0)) (Some xSemaphoreCreateMutexStatic).

Theorem flash_write_read_correct_witness :
  exists r st' r2 bytes st2,
    rhs_hal_flash_ex_write 103 a_task 7 255 [17; 34; 51] 3 a_flash = Ret (r, st') /\
    rhs_hal_flash_ex_read 103 a_task 7 255 3 st' = Ret ((r2, bytes), st2) /\
    mutex_free st' /\ mutex_free st2 /\
    flash_result r /\
    (forall a, a < 255 \/ 255 + 3 <= a -> array (hw st') a = array (hw a_flash) a) /\
    (r = RHS_FLASH_EX_OK -> forall i, 0 <= i < 3 ->
       array (hw st') (255 + i) = Z.land (array (hw a_flash) (255 + i)) (nth (Z.to_nat i) [17; 34; 51] 0)) /\
    array (hw st2) = array (hw st') /\
    (r = RHS_FLASH_EX_OK -> r2 = RHS_FLASH_EX_OK ->
       (forall a, 255 <= a < 255 + 3 -> array (hw a_flash) a = 255) -> bytes = [17; 34; 51]).
Proof.
  refine (flash_write_read_correct 103 _ a_task 7 a_flash 255 [17; 34; 51] _ _ _ _ _ _ _);
    [reflexivity|reflexivity|discriminate|by eexists|by apply bytesb_ok|discriminate|discriminate|discriminate].
Defined.

Theorem flash_block_erase_correct_witness :
  exists r st', rhs_hal_flash_ex_block_erase 103 a_task 7 4000 200 a_flash = Ret (r, st') /\ mutex_free st' /\
    flash_result r /\
    (forall a, array (hw st') a = array (hw a_flash) a \/ (0 <= a < 4096 /\ array (hw st') a = 255)) /\
    (r = RHS_FLASH_EX_OK -> forall a, 0 <= a < 4096 -> array (hw st') a = 255) /\
    (4096 < 4000 + 200 -> array (hw st') 4199 = array (hw a_flash) 4199) /\
    exists r2 st2, rhs_hal_flash_ex_erase_chip 103 a_task 7 a_flash = Ret (r2, st2) /\ mutex_free st2 /\
      (r2 = RHS_FLASH_EX_OK -> forall a, 0 <= a < MT25QL128ABA_FLASH_SIZE -> array (hw st2) a = 255).
Proof.
  refine (flash_block_erase_correct 103 _ a_task 7 a_flash 4000 200 _ _ _ _ _ _);
    [reflexivity|reflexivity|discriminate|by eexists|discriminate|reflexivity|discriminate].
Defined.
