(* ===== verification/Cortex.v ===== *)
(** * Cycle timers (hal/rhs_hal_cortex/rhs_hal_cortex.c)

    Timers and busy waits on the free-running 32-bit cycle counter [DWT->CYCCNT], as on
    every part but the STM32G0B1 (see [CortexInit]). The counter and the clock rate are the parameter [Dwt]. *)

From S2P Require Import Prelude.

Class Dwt (D : Type) := {
  CYCCNT : D -> Z * D;
  (** The clock in Hz; a global that clock setup writes. *)
  SystemCoreClock : D -> Z
}.

Record RHSHalCortexTimer := mkTimer { timer_start : Z; timer_value : Z }.

Section operations.
Context {D : Type} `{Dwt D}.

Definition RHS_HAL_CORTEX_INSTRUCTIONS_PER_MICROSECOND (d : D) : Z := SystemCoreClock d / 1000000.

(** The division by a clock under 1 MHz is undefined. *)
Definition timeout_fits (timeout_us : Z) : M D unit :=
  per ← gets RHS_HAL_CORTEX_INSTRUCTIONS_PER_MICROSECOND;
  if per =? 0 then fault else rhs_assert (timeout_us <? (2 ^ 32 - 1) / per).

Definition rhs_hal_cortex_timer_get (timeout_us : Z) : M D RHSHalCortexTimer :=
  _ ← timeout_fits timeout_us;
  start ← call CYCCNT;
  per ← gets RHS_HAL_CORTEX_INSTRUCTIONS_PER_MICROSECOND;
  mret (mkTimer start (u32 (per * timeout_us))).

Definition rhs_hal_cortex_timer_is_expired (t : RHSHalCortexTimer) : M D bool :=
  c ← call CYCCNT;
  mret (negb (u32 (c - timer_start t) <? timer_value t)).

Fixpoint rhs_hal_cortex_timer_wait (fuel : nat) (t : RHSHalCortexTimer) : M D unit :=
  match fuel with
  | O => hang
  | S fuel => expired ← rhs_hal_cortex_timer_is_expired t; if expired : bool then mret tt else rhs_hal_cortex_timer_wait fuel t
  end.

Definition rhs_hal_cortex_delay_us (fuel : nat) (microseconds : Z) : M D unit :=
  _ ← timeout_fits microseconds;
  start ← call CYCCNT;
  per ← gets RHS_HAL_CORTEX_INSTRUCTIONS_PER_MICROSECOND;
  rhs_hal_cortex_timer_wait fuel (mkTimer start (u32 (per * microseconds))).
End operations.

(** ** The counter

    [time] counts cycles without wrapping. Reading the counter takes a cycle at least, and
    [gap], which bounds what may pass between two of the program's accesses, at most. *)

Class DwtLaws (D : Type) `{Dwt D} := {
  time : D -> Z;
  gap : Z;
  clock_hz : Z;
  gap_pos : 0 < gap;
  clock_spec d : SystemCoreClock d = clock_hz;
  cyccnt_spec d : let '(c, d') := CYCCNT d in c = u32 (time d) /\ time d < time d' <= time d + gap
}.

Section properties.
Context {D : Type} `{DwtLaws D}.

(** Cycles per microsecond, and the cycles of a timer of so many microseconds. *)
Definition per_us : Z := clock_hz / 1000000.
Definition timer_cycles (timeout_us : Z) : Z := per_us * timeout_us.

(** The timeouts the timers are made for: they pass the check, and a wait that notices
    [slack] later is still within the counter's range. *)
Definition good_timeout (timeout_us slack : Z) : Prop :=
  0 < per_us /\ 0 <= timeout_us < (2 ^ 32 - 1) / per_us /\ timer_cycles timeout_us + slack < 2 ^ 32.

(** [start] is when the timer was made. *)
Definition timer_at (start timeout_us : Z) : RHSHalCortexTimer := mkTimer (u32 start) (timer_cycles timeout_us).

Lemma timer_get_spec timeout_us slack (d : D) : good_timeout timeout_us slack -> 0 <= slack ->
  runs (rhs_hal_cortex_timer_get timeout_us) d (fun t d' =>
    d' = snd (CYCCNT d) /\ t = timer_at (time d) timeout_us).
Proof.
  intros (Hper & Hus & Hfit) Hs. unfold rhs_hal_cortex_timer_get, timeout_fits.
  apply runs_bind, runs_bind. eexists _, d. split; [done|].
  unfold RHS_HAL_CORTEX_INSTRUCTIONS_PER_MICROSECOND. rewrite clock_spec. fold per_us.
  destruct (Z.eqb_spec per_us 0); [lia|]. unfold rhs_assert.
  destruct (Z.ltb_spec timeout_us ((2 ^ 32 - 1) / per_us)); [|lia]. apply runs_ret.
  apply runs_bind, runs_call. pose proof (cyccnt_spec d) as Hc. destruct (CYCCNT d) as [c d'].
  destruct Hc as (-> & _). apply runs_bind. eexists _, d'. split; [done|]. apply runs_ret. split; [done|].
  rewrite clock_spec. fold per_us. fold (timer_cycles timeout_us). unfold timer_at.
  assert (0 <= timer_cycles timeout_us) by (apply Z.mul_nonneg_nonneg; lia). by rewrite (u32_small (timer_cycles timeout_us)) by lia.
Qed.

(** [within start us k d]: the time is between [start] and [k] gaps after the timer's end. *)
Definition within (start us k : Z) (d : D) : Prop := start <= time d <= start + timer_cycles us + k * gap.

Lemma within_weaken start us k k' d : within start us k d -> k <= k' -> within start us k' d.
Proof. unfold within. pose proof gap_pos. nia. Qed.

Lemma is_expired_spec start us slack k (d : D) :
  good_timeout us (slack * gap) -> 0 <= k < slack -> within start us k d ->
  runs (rhs_hal_cortex_timer_is_expired (timer_at start us)) d (fun expired d' =>
    d' = snd (CYCCNT d) /\ time d < time d' /\ within start us (k + 1) d' /\
    (expired = false -> within start us 1 d')).
Proof.
  intros (Hper & Hus & Hfit) Hk Hw. apply runs_bind, runs_call. pose proof (cyccnt_spec d) as Hc.
  destruct (CYCCNT d) as [c d']. destruct Hc as (-> & Ht). apply runs_ret. split; [done|]. split; [lia|].
  unfold within in *. pose proof gap_pos. split; [nia|]. cbn [timer_at timer_start timer_value].
  assert (u32 (u32 (time d) - u32 start) = time d - start) as ->.
  { unfold u32. rewrite <- Zminus_mod. apply Z.mod_small. unfold timer_cycles in *. nia. }
  destruct (Z.ltb_spec (time d - start) (timer_cycles us)); cbn [negb]; [|done]. intros _. lia.
Qed.
(** *** Loops under a timer

    [late] gaps are more than enough for a driver's code to notice that its timer has expired;
    [enough] is fuel for all the cycles until then. *)
Definition late : Z := 64.
Definition enough (start us : Z) (f : nat) (d : D) : Prop := start + timer_cycles us + late * gap < time d + Z.of_nat f.
(** Timeouts in milliseconds that the timer can measure, with fuel for all of their cycles. *)
Definition good_ms (fuel : nat) (timeout : Z) : Prop :=
  good_timeout (u32 (timeout * 1000)) (late * gap) /\
  timer_cycles (u32 (timeout * 1000)) + late * gap < Z.of_nat fuel.

Lemma timer_run {A} fuel timeout (m : RHSHalCortexTimer -> M D A) (P : A -> D -> Prop) d :
  good_ms fuel timeout ->
  (let start := time d in let us := u32 (timeout * 1000) in let i := snd (CYCCNT d) in
   good_timeout us (late * gap) -> within start us 1 i -> enough start us fuel i -> runs (m (timer_at start us)) i P) ->
  runs (timer ← rhs_hal_cortex_timer_get (u32 (timeout * 1000)); m timer) d P.
Proof.
  intros (Hgood & Hfuel) Hm. pose proof gap_pos as Hgap.
  apply runs_bind. eapply runs_mono; [apply (timer_get_spec _ _ _ Hgood); unfold late; lia|].
  intros t i (-> & ->). pose proof (cyccnt_spec d) as Hc. cbn zeta in Hm. destruct (CYCCNT d) as [c i]. destruct Hc as (_ & Ht). cbn [snd] in *.
  assert (0 <= timer_cycles (u32 (timeout * 1000))).
  { destruct Hgood as (? & ? & ?). apply Z.mul_nonneg_nonneg; lia. }
  apply Hm; [done|unfold within; lia|unfold enough; lia].
Qed.
End properties.
