(* ===== verification/I2c.v ===== *)
(** * I2C master (hal/rhs_hal_i2c/rhs_hal_i2c.c, the bus events of rhs_hal_i2c_config.c)

    The code for the I2C peripheral of the STM32F765 and STM32G0B1. The peripheral's
    registers, with ST's LL functions on them, are the parameter [I2cHw]; the other
    parts' peripheral is in [I2cV1], the pins and clocks are in [PinMap]. *)

From S2P Require Import Prelude Kernel Mutex Cortex.

Inductive RHSHalI2cBegin := RHSHalI2cBeginStart | RHSHalI2cBeginRestart | RHSHalI2cBeginResume.
Inductive RHSHalI2cEnd := RHSHalI2cEndStop | RHSHalI2cEndAwaitRestart | RHSHalI2cEndPause.
#[global] Instance RHSHalI2cBegin_eq_dec : EqDecision RHSHalI2cBegin.
Proof. solve_decision. Defined.
#[global] Instance RHSHalI2cEnd_eq_dec : EqDecision RHSHalI2cEnd.
Proof. solve_decision. Defined.

(** LL_I2C_GENERATE_* and LL_I2C_MODE_*. *)
Inductive start_signal := START_READ | START_WRITE | RESTART_7BIT_READ | RESTART_7BIT_WRITE
  | RESTART_10BIT_READ | RESTART_10BIT_WRITE | NOSTARTSTOP.
Inductive end_signal := SOFTEND | RELOAD | AUTOEND.

Class I2cHw (I : Type) := {
  i2c_dwt :: Dwt I;
  (** The interrupt and status register; reading it lets time pass. *)
  I2C_ISR : I -> Z * I;
  LL_I2C_TransmitData8 : Z -> I -> I;
  LL_I2C_ReceiveData8 : I -> Z * I;
  (** [LL_I2C_AcknowledgeNextData(i2c, LL_I2C_NACK)]. *)
  LL_I2C_nack_next : I -> I;
  LL_I2C_ClearFlag_NACK : I -> I;
  LL_I2C_ClearFlag_STOP : I -> I;
  (** The shifted address, the number of bytes, how it ends and how it starts. *)
  LL_I2C_HandleTransfer : Z -> Z -> end_signal -> start_signal -> I -> I;
  (** Clock and pins. *)
  i2c_bus_power : bool -> I -> I;
  i2c_pins : bool -> I -> I
}.

Section operations.
Context {S : Type} `{Scheduler S} {Q : Type} `{FreeRTOSMutex Q} {I : Type} `{I2cHw I}.

(** A flag of the status register, as the LL_I2C_IsActiveFlag functions read it. *)
Definition isr_flag (bit : Z) : M I bool := isr ← call I2C_ISR; mret (Z.testbit isr bit).
Definition flag_TXE : M I bool := isr_flag 0.
Definition flag_RXNE : M I bool := isr_flag 2.
Definition flag_NACK : M I bool := isr_flag 4.
Definition flag_STOP : M I bool := isr_flag 5.
Definition flag_TC : M I bool := isr_flag 6.
Definition flag_TCR : M I bool := isr_flag 7.
Definition flag_BUSY : M I bool := isr_flag 15.

(** [a || b] of C. *)
Definition or_else (a b : M I bool) : M I bool := x ← a; if x : bool then mret true else b.

(** [timer] expires the wait; the loops return whether they were not stopped by it. *)
Fixpoint rhs_hal_i2c_wait_for_idle (fuel : nat) (begin : RHSHalI2cBegin) (timer : RHSHalCortexTimer) : M I bool :=
  match fuel with
  | O => hang
  | Datatypes.S fuel =>
      expired ← rhs_hal_cortex_timer_is_expired timer;
      if expired : bool then mret false
      else if decide (begin = RHSHalI2cBeginStart) then
        busy ← flag_BUSY;
        if busy : bool then rhs_hal_i2c_wait_for_idle fuel begin timer else mret true
      else mret true
  end.

Definition end_mask (end_ : RHSHalI2cEnd) : Z :=
  if decide (end_ = RHSHalI2cEndStop) then 2 ^ 5 else Z.lor (2 ^ 6) (2 ^ 7).

Fixpoint rhs_hal_i2c_wait_for_end (fuel : nat) (end_ : RHSHalI2cEnd) (timer : RHSHalCortexTimer) : M I bool :=
  match fuel with
  | O => hang
  | Datatypes.S fuel =>
      isr ← call I2C_ISR;
      if Z.land isr (end_mask end_) =? 0 then
        expired ← rhs_hal_cortex_timer_is_expired timer;
        if expired : bool then mret false else rhs_hal_i2c_wait_for_end fuel end_ timer
      else mret true
  end.

Definition rhs_hal_i2c_get_start_signal (begin : RHSHalI2cBegin) (ten_bit_address read : bool) : start_signal :=
  match begin with
  | RHSHalI2cBeginRestart =>
      if read then if ten_bit_address then RESTART_10BIT_READ else RESTART_7BIT_READ
      else if ten_bit_address then RESTART_10BIT_WRITE else RESTART_7BIT_WRITE
  | RHSHalI2cBeginResume => NOSTARTSTOP
  | RHSHalI2cBeginStart => if read then START_READ else START_WRITE
  end.

Definition rhs_hal_i2c_get_end_signal (end_ : RHSHalI2cEnd) : end_signal :=
  match end_ with
  | RHSHalI2cEndAwaitRestart => SOFTEND
  | RHSHalI2cEndPause => RELOAD
  | RHSHalI2cEndStop => AUTOEND
  end.

Definition rhs_hal_i2c_transfer_is_aborted : M I bool := or_else flag_STOP flag_NACK.

Definition should_stop (timer : RHSHalCortexTimer) : M I bool :=
  or_else (rhs_hal_cortex_timer_is_expired timer) rhs_hal_i2c_transfer_is_aborted.

(** After the last byte: wait for the transfer to complete, or for a reason to stop. *)
Fixpoint wait_complete (fuel : nat) (timer : RHSHalCortexTimer) : M I unit :=
  match fuel with
  | O => hang
  | Datatypes.S fuel =>
      complete ← or_else flag_TC flag_TCR;
      if complete : bool then mret tt
      else
        stop ← should_stop timer;
        if stop : bool then mret tt else wait_complete fuel timer
  end.

(** The loop over the bytes to write; whether all were written. *)
Fixpoint write_bytes (fuel : nat) (data : list Z) (timer : RHSHalCortexTimer) : M I bool :=
  match fuel with
  | O => hang
  | Datatypes.S fuel =>
      match data with
      | [] => mret true
      | byte :: rest =>
          stop ← should_stop timer;
          txe ← flag_TXE;
          data ← (if txe : bool then _ ← call_ (LL_I2C_TransmitData8 byte); mret rest else mret data);
          _ ← (match data with [] => wait_complete fuel timer | _ => mret tt end);
          if stop : bool then mret (match data with [] => true | _ => false end)
          else write_bytes fuel data timer
      end
  end.

(** The loop over [size] bytes to read; whether all were read, and what was read, after
    the bytes [got]. *)
Fixpoint read_bytes (fuel : nat) (size : Z) (end_ : RHSHalI2cEnd) (timer : RHSHalCortexTimer) (got : list Z)
    : M I (bool * list Z) :=
  match fuel with
  | O => hang
  | Datatypes.S fuel =>
      if size <=? 0 then mret (true, got)
      else
        stop ← should_stop timer;
        _ ← (if (size =? 1) && bool_decide (end_ = RHSHalI2cEndStop) then call_ LL_I2C_nack_next else mret tt);
        rxne ← flag_RXNE;
        '(size, got) ← (if rxne : bool then byte ← call LL_I2C_ReceiveData8; mret (size - 1, got ++ [byte])
                        else mret (size, got));
        if stop : bool then mret (size =? 0, got) else read_bytes fuel size end_ timer got
  end.

(** The end of a transfer: wait for it and clear the flags. *)
Definition finish (fuel : nat) (ret : bool) (end_ : RHSHalI2cEnd) (timer : RHSHalCortexTimer) : M I bool :=
  ret ← (if ret then rhs_hal_i2c_wait_for_end fuel end_ timer else mret false);
  _ ← call_ LL_I2C_ClearFlag_NACK;
  _ ← (if decide (end_ = RHSHalI2cEndStop) then call_ LL_I2C_ClearFlag_STOP else mret tt);
  mret ret.

(** [rhs_hal_i2c_transaction] with [read] false and true; the latter also returns what it
    stored at [data]. *)
Definition write_transaction (fuel : nat) (address : Z) (ten_bit : bool) (data : list Z)
    (begin : RHSHalI2cBegin) (end_ : RHSHalI2cEnd) (timer : RHSHalCortexTimer) : M I bool :=
  idle ← rhs_hal_i2c_wait_for_idle fuel begin timer;
  if negb idle then mret false
  else
    _ ← call_ (LL_I2C_HandleTransfer (Z.shiftl address 1) (Z.of_nat (length data))
      (rhs_hal_i2c_get_end_signal end_) (rhs_hal_i2c_get_start_signal begin ten_bit false));
    ret ← write_bytes fuel data timer;
    finish fuel ret end_ timer.

Definition read_transaction (fuel : nat) (address : Z) (ten_bit : bool) (size : Z)
    (begin : RHSHalI2cBegin) (end_ : RHSHalI2cEnd) (timer : RHSHalCortexTimer) : M I (bool * list Z) :=
  idle ← rhs_hal_i2c_wait_for_idle fuel begin timer;
  if negb idle then mret (false, [])
  else
    _ ← call_ (LL_I2C_HandleTransfer (Z.shiftl address 1) size
      (rhs_hal_i2c_get_end_signal end_) (rhs_hal_i2c_get_start_signal begin ten_bit true));
    '(ret, got) ← read_bytes fuel size end_ timer [];
    ret ← finish fuel ret end_ timer;
    mret (ret, got).

(** A bus: the peripheral, the handle it is acquired for ([0] for none) and its mutex. *)
Record RHSHalI2cBus := mkBus { i2c : I; current_handle : Z; bus_mutex : option Q }.

Definition on_i2c {A} (m : M I A) : M RHSHalI2cBus A := fun b =>
  '(a, i) ← m (i2c b); Ret (a, mkBus i (current_handle b) (bus_mutex b)).

Definition rhs_hal_i2c_rx_ext (fuel : nat) (handle address : Z) (ten_bit : bool) (size : Z)
    (begin : RHSHalI2cBegin) (end_ : RHSHalI2cEnd) (timeout : Z) : M RHSHalI2cBus (bool * list Z) :=
  h ← gets current_handle;
  _ ← rhs_assert (h =? handle);
  on_i2c (timer ← rhs_hal_cortex_timer_get (u32 (timeout * 1000));
          read_transaction fuel address ten_bit size begin end_ timer).

Definition rhs_hal_i2c_tx_ext (fuel : nat) (handle address : Z) (ten_bit : bool) (data : list Z)
    (begin : RHSHalI2cBegin) (end_ : RHSHalI2cEnd) (timeout : Z) : M RHSHalI2cBus bool :=
  h ← gets current_handle;
  _ ← rhs_assert (h =? handle);
  on_i2c (timer ← rhs_hal_cortex_timer_get (u32 (timeout * 1000));
          write_transaction fuel address ten_bit data begin end_ timer).

Definition rhs_hal_i2c_tx (fuel : nat) (handle address : Z) (data : list Z) (timeout : Z) : M RHSHalI2cBus bool :=
  _ ← rhs_assert (0 <? timeout);
  rhs_hal_i2c_tx_ext fuel handle address false data RHSHalI2cBeginStart RHSHalI2cEndStop timeout.

Definition rhs_hal_i2c_rx (fuel : nat) (handle address size timeout : Z) : M RHSHalI2cBus (bool * list Z) :=
  _ ← rhs_assert (0 <? timeout);
  rhs_hal_i2c_rx_ext fuel handle address false size RHSHalI2cBeginStart RHSHalI2cEndStop timeout.

(** Both halves are run, whatever the first one returns. *)
Definition rhs_hal_i2c_trx (fuel : nat) (handle address : Z) (tx_data : list Z) (rx_size timeout : Z)
    : M RHSHalI2cBus (bool * list Z) :=
  tx ← rhs_hal_i2c_tx_ext fuel handle address false tx_data RHSHalI2cBeginStart RHSHalI2cEndStop timeout;
  '(rx, got) ← rhs_hal_i2c_rx_ext fuel handle address false rx_size RHSHalI2cBeginStart RHSHalI2cEndStop timeout;
  mret (tx && rx, got).

(** The callers that need an acquired bus check it twice. *)
Definition assert_acquired (handle timeout : Z) : M RHSHalI2cBus unit :=
  _ ← rhs_assert (negb (handle =? 0));
  h ← gets current_handle;
  _ ← rhs_assert (h =? handle);
  rhs_assert (0 <? timeout).

(** [while (flags clear) { if expired return false; }]: whether the flags came. *)
Fixpoint wait_flags (fuel : nat) (flags : M I bool) (timer : RHSHalCortexTimer) : M I bool :=
  match fuel with
  | O => hang
  | Datatypes.S fuel =>
      up ← flags;
      if up : bool then mret true
      else
        expired ← rhs_hal_cortex_timer_is_expired timer;
        if expired : bool then mret false else wait_flags fuel flags timer
  end.

(** The loop's first test reads both flags. *)
Definition stop_or_nack : M I bool := a ← flag_STOP; b ← flag_NACK; mret (a || b).

Definition rhs_hal_i2c_is_device_ready (fuel : nat) (handle i2c_addr timeout : Z) : M RHSHalI2cBus bool :=
  _ ← assert_acquired handle timeout;
  on_i2c (
    timer ← rhs_hal_cortex_timer_get (u32 (timeout * 1000));
    idle ← rhs_hal_i2c_wait_for_idle fuel RHSHalI2cBeginStart timer;
    if negb idle then mret false
    else
      _ ← call_ (LL_I2C_HandleTransfer (Z.shiftl i2c_addr 1) 0 AUTOEND START_WRITE);
      up ← wait_flags fuel stop_or_nack timer;
      if negb up then mret false
      else
        nack ← flag_NACK;
        stopped ← wait_flags fuel flag_STOP timer;
        if negb stopped then mret false
        else if negb nack then _ ← call_ LL_I2C_ClearFlag_STOP; mret true
        else _ ← call_ LL_I2C_ClearFlag_STOP; _ ← call_ LL_I2C_ClearFlag_NACK; mret false).

Definition rhs_hal_i2c_read_reg_8 (fuel : nat) (handle i2c_addr reg_addr timeout : Z) : M RHSHalI2cBus (bool * list Z) :=
  _ ← rhs_assert (negb (handle =? 0));
  rhs_hal_i2c_trx fuel handle i2c_addr [reg_addr] 1 timeout.

(** The register, high byte first; the bytes that did not come are indeterminate, here
    those of [junk]. *)
Definition rhs_hal_i2c_read_reg_16 (fuel : nat) (handle i2c_addr reg_addr timeout : Z) (junk : list Z)
    : M RHSHalI2cBus (bool * Z) :=
  _ ← rhs_assert (negb (handle =? 0));
  '(ret, got) ← rhs_hal_i2c_trx fuel handle i2c_addr [reg_addr] 2 timeout;
  let reg_data := got ++ drop (length got) junk in
  mret (ret, u16 (Z.lor (Z.shiftl (nth 0 reg_data 0) 8) (nth 1 reg_data 0))).

Definition rhs_hal_i2c_read_mem (fuel : nat) (handle i2c_addr mem_addr len timeout : Z) : M RHSHalI2cBus (bool * list Z) :=
  _ ← rhs_assert (negb (handle =? 0));
  rhs_hal_i2c_trx fuel handle i2c_addr [mem_addr] len timeout.

Definition rhs_hal_i2c_write_reg_8 (fuel : nat) (handle i2c_addr reg_addr data timeout : Z) : M RHSHalI2cBus bool :=
  _ ← rhs_assert (negb (handle =? 0));
  rhs_hal_i2c_tx fuel handle i2c_addr [reg_addr; data] timeout.

Definition rhs_hal_i2c_write_reg_16 (fuel : nat) (handle i2c_addr reg_addr data timeout : Z) : M RHSHalI2cBus bool :=
  _ ← rhs_assert (negb (handle =? 0));
  rhs_hal_i2c_tx fuel handle i2c_addr [reg_addr; Z.land (Z.shiftr data 8) 0xFF; Z.land data 0xFF] timeout.

Definition rhs_hal_i2c_write_mem (fuel : nat) (handle i2c_addr mem_addr : Z) (data : list Z) (timeout : Z)
    : M RHSHalI2cBus bool :=
  _ ← assert_acquired handle timeout;
  tx1 ← rhs_hal_i2c_tx_ext fuel handle i2c_addr false [mem_addr] RHSHalI2cBeginStart RHSHalI2cEndPause timeout;
  tx2 ← rhs_hal_i2c_tx_ext fuel handle i2c_addr false data RHSHalI2cBeginResume RHSHalI2cEndStop timeout;
  mret (tx1 && tx2).

(** The bus callback of rhs_hal_i2c_config.c; its critical section around the clock
    registers is not modelled. *)
Inductive RHSHalI2cBusEvent :=
  | RHSHalI2cBusEventInit | RHSHalI2cBusEventDeinit | RHSHalI2cBusEventLock | RHSHalI2cBusEventUnlock
  | RHSHalI2cBusEventActivate | RHSHalI2cBusEventDeactivate.

Definition set_mutex (q : Q) (b : RHSHalI2cBus) : RHSHalI2cBus := mkBus (i2c b) (current_handle b) (Some q).
Definition set_handle (h : Z) (b : RHSHalI2cBus) : RHSHalI2cBus := mkBus (i2c b) h (bus_mutex b).
Definition set_i2c (i : I) (b : RHSHalI2cBus) : RHSHalI2cBus := mkBus i (current_handle b) (bus_mutex b).

Definition rhs_hal_i2c_bus_external_event (s : S) (me : Z) (event : RHSHalI2cBusEvent) (b : RHSHalI2cBus)
    : outcome RHSHalI2cBus :=
  match event with
  | RHSHalI2cBusEventInit =>
      _ ← (match bus_mutex b with Some q => rhs_mutex_free s (Some q) | None => Ret tt end);
      q ← rhs_mutex_alloc s (mutex_type_value RHSMutexTypeNormal);
      Ret (mkBus (i2c b) 0 (Some q))
  | RHSHalI2cBusEventDeinit => _ ← rhs_mutex_free s (bus_mutex b); Ret b
  | RHSHalI2cBusEventLock =>
      '(r, q) ← rhs_mutex_acquire s me (bus_mutex b) RHSWaitForever;
      if decide (r = RHSStatusOk) then Ret (set_mutex q b) else Crash "Assert"
  | RHSHalI2cBusEventUnlock =>
      '(r, q) ← rhs_mutex_release s me (bus_mutex b);
      if decide (r = RHSStatusOk) then Ret (set_mutex q b) else Crash "Assert"
  | RHSHalI2cBusEventActivate => Ret (set_i2c (i2c_bus_power true (i2c b)) b)
  | RHSHalI2cBusEventDeactivate => Ret (set_i2c (i2c_bus_power false (i2c b)) b)
  end.

Definition rhs_hal_i2c_init (s : S) (me : Z) (b : RHSHalI2cBus) : outcome RHSHalI2cBus :=
  rhs_hal_i2c_bus_external_event s me RHSHalI2cBusEventInit b.
Definition rhs_hal_i2c_deinit (s : S) (me : Z) (b : RHSHalI2cBus) : outcome RHSHalI2cBus :=
  rhs_hal_i2c_bus_external_event s me RHSHalI2cBusEventDeinit b.

Definition rhs_hal_i2c_acquire (s : S) (me handle : Z) (b : RHSHalI2cBus) : outcome RHSHalI2cBus :=
  b ← rhs_hal_i2c_bus_external_event s me RHSHalI2cBusEventLock b;
  if current_handle b =? 0 then
    let b := set_handle handle b in
    b ← rhs_hal_i2c_bus_external_event s me RHSHalI2cBusEventActivate b;
    Ret (set_i2c (i2c_pins true (i2c b)) b)
  else Crash "Assert".

Definition rhs_hal_i2c_release (s : S) (me handle : Z) (b : RHSHalI2cBus) : outcome RHSHalI2cBus :=
  if current_handle b =? handle then
    let b := set_i2c (i2c_pins false (i2c b)) b in
    b ← rhs_hal_i2c_bus_external_event s me RHSHalI2cBusEventDeactivate b;
    let b := set_handle 0 b in
    rhs_hal_i2c_bus_external_event s me RHSHalI2cBusEventUnlock b
  else Crash "Assert".
End operations.
Arguments RHSHalI2cBus _ _ : clear implicits.

(** ** What the reference manual documents of the peripheral

    [wire] is what happened on the bus: the transfers that were begun, the bytes the
    program gave the peripheral to send and those it took from it. [slave] is the byte a
    slave sends after what it saw. The register for the number of bytes has 8 bits. *)

Inductive wire_event :=
  | EvBegin (address size : Z) (e : end_signal) (s : start_signal)
  | EvWrite (b : Z)
  | EvRead (b : Z).

Class I2cLaws (I : Type) `{I2cHw I} := {
  i2c_dwt_laws :: DwtLaws I;
  wire : I -> list wire_event;
  slave : list wire_event -> Z;
  tx_ready : I -> bool;
  rx_ready : I -> bool;
  cyccnt_wire i : wire (snd (CYCCNT i)) = wire i;
  isr_spec i : let '(isr, i') := I2C_ISR i in
    wire i' = wire i /\ time i <= time i' <= time i + gap /\
    (Z.testbit isr 0 = true -> tx_ready i' = true) /\ (Z.testbit isr 2 = true -> rx_ready i' = true);
  transmit_spec b i : time i <= time (LL_I2C_TransmitData8 b i) <= time i + gap /\
    (tx_ready i = true -> wire (LL_I2C_TransmitData8 b i) = wire i ++ [EvWrite b]);
  receive_spec i : let '(b, i') := LL_I2C_ReceiveData8 i in time i <= time i' <= time i + gap /\
    (rx_ready i = true -> b = slave (wire i) /\ wire i' = wire i ++ [EvRead b]);
  transfer_spec a n e s i : 0 < n <= 255 ->
    time i <= time (LL_I2C_HandleTransfer a n e s i) <= time i + gap /\
    wire (LL_I2C_HandleTransfer a n e s i) = wire i ++ [EvBegin a n e s];
  controls_spec i :
    (time i <= time (LL_I2C_nack_next i) <= time i + gap /\ wire (LL_I2C_nack_next i) = wire i) /\
    (time i <= time (LL_I2C_ClearFlag_NACK i) <= time i + gap /\ wire (LL_I2C_ClearFlag_NACK i) = wire i) /\
    (time i <= time (LL_I2C_ClearFlag_STOP i) <= time i + gap /\ wire (LL_I2C_ClearFlag_STOP i) = wire i)
}.

(** [n] bytes from the slave, after what it saw. *)
Fixpoint slave_bytes (next : list wire_event -> Z) (w : list wire_event) (n : nat) : list Z :=
  match n with
  | O => []
  | S n => let b := next w in b :: slave_bytes next (w ++ [EvRead b]) n
  end.

(** What a transaction does to the wire: nothing, when the bus is not free in time; or the
    beginning of a transfer and some of its bytes, all of them when it returns true. *)
Definition tx_outcome (w : list wire_event) (address : Z) (data : list Z) (begin : RHSHalI2cBegin) (e : RHSHalI2cEnd)
    (ok : bool) (w' : list wire_event) : Prop :=
  (ok = false /\ w' = w) \/
  exists j, w' = w ++ EvBegin (Z.shiftl address 1) (Z.of_nat (length data)) (rhs_hal_i2c_get_end_signal e)
                  (rhs_hal_i2c_get_start_signal begin false false) :: map EvWrite (take j data) /\
    (ok = true -> take j data = data).
Definition rx_outcome (next : list wire_event -> Z) (w : list wire_event) (address : Z) (size : nat)
    (begin : RHSHalI2cBegin) (e : RHSHalI2cEnd) (r : bool * list Z) (w' : list wire_event) : Prop :=
  (fst r = false /\ snd r = [] /\ w' = w) \/
  exists n, let w1 := w ++ [EvBegin (Z.shiftl address 1) (Z.of_nat size) (rhs_hal_i2c_get_end_signal e)
                 (rhs_hal_i2c_get_start_signal begin false true)] in
    (n <= size)%nat /\ w' = w1 ++ map EvRead (slave_bytes next w1 n) /\ snd r = slave_bytes next w1 n /\
    (fst r = true -> n = size).

Section transfers.
Context {I : Type} `{I2cLaws I}.

(** A timer of [us] microseconds made at [start]. *)
Context (start us : Z) (Hus : good_timeout us (late * gap)).
Abbreviation timer := (timer_at start us).
Abbreviation at_ := (within start us).
Abbreviation enough := (enough start us).

Lemma expired_spec k i : at_ k i -> 0 <= k <= 60 ->
  runs (rhs_hal_cortex_timer_is_expired timer) i (fun b i' =>
    wire i' = wire i /\ time i < time i' /\ at_ (k + 1) i' /\ (b = false -> at_ 1 i')).
Proof.
  intros Hw Hk. eapply runs_mono; [apply (is_expired_spec start us late k i Hus); [unfold late; lia|done]|].
  intros b i' (-> & Ht & Hw' & Hf). split; [apply cyccnt_wire|]. by split.
Qed.

Lemma isr_flag_spec bit k i : at_ k i ->
  runs (isr_flag bit) i (fun b i' => wire i' = wire i /\ time i <= time i' /\ at_ (k + 1) i' /\
    (bit = 0 -> b = true -> tx_ready i' = true) /\ (bit = 2 -> b = true -> rx_ready i' = true)).
Proof.
  intros Hw. apply runs_bind, runs_call. pose proof (isr_spec i) as Hs. destruct (I2C_ISR i) as [isr i'].
  destruct Hs as (W & T & Tx & Rx). apply runs_ret. split; [done|]. split; [lia|]. split; [unfold within in *; lia|].
  split; intros ->; auto.
Qed.

Lemma or_else_spec (a b : M I bool) i P :
  runs a i (fun x i' => if x : bool then P true i' else runs b i' P) -> runs (or_else a b) i P.
Proof.
  intros Ha. apply runs_bind. eapply runs_mono; [exact Ha|]. intros x i' HP.
  destruct x; [by apply runs_ret|done].
Qed.

(** Two flags read one after the other, the second only when the first is clear. *)
Lemma two_flags_spec b1 b2 k i : at_ k i ->
  runs (or_else (isr_flag b1) (isr_flag b2)) i (fun _ i' => wire i' = wire i /\ time i <= time i' /\ at_ (k + 2) i').
Proof.
  intros Hw. apply or_else_spec. eapply runs_mono; [by apply isr_flag_spec|]. intros x i1 (W1 & T1 & A1 & _).
  destruct x; [split; [done|]; split; [done|]; eapply within_weaken; [done|lia]|].
  eapply runs_mono; [by apply isr_flag_spec|]. intros x i2 (W2 & T2 & A2 & _).
  split; [congruence|]. split; [lia|]. eapply within_weaken; [done|lia].
Qed.

Lemma should_stop_spec k i : at_ k i -> 0 <= k <= 50 ->
  runs (should_stop timer) i (fun b i' => wire i' = wire i /\ time i < time i' /\ at_ (k + 3) i' /\
    (b = false -> at_ 3 i')).
Proof.
  intros Hw Hk. apply or_else_spec. eapply runs_mono; [apply expired_spec; [done|lia]|].
  intros x i1 (W1 & T1 & A1 & F1). destruct x.
  - split; [done|]. split; [done|]. split; [eapply within_weaken; [done|lia]|done].
  - specialize (F1 eq_refl). eapply runs_mono; [apply (two_flags_spec _ _ 1); exact F1|].
    intros b i2 (W2 & T2 & A2). split; [congruence|]. split; [lia|].
    split; [eapply within_weaken; [done|lia]|]. intros _. exact A2.
Qed.

Lemma wait_complete_spec f k i : at_ k i -> 3 <= k <= 30 -> enough f i ->
  runs (wait_complete f timer) i (fun _ i' => wire i' = wire i /\ time i <= time i' /\ at_ (k + 5) i').
Proof.
  revert k i. induction f as [|f IH]; intros k i Hw Hk Hf.
  { exfalso. unfold within, enough, late in *. pose proof gap_pos. nia. }
  apply runs_bind. eapply runs_mono; [by apply two_flags_spec|]. intros c i1 (W1 & T1 & A1). destruct c.
  - apply runs_ret. split; [done|]. split; [done|]. eapply within_weaken; [done|lia].
  - apply runs_bind. eapply runs_mono; [apply should_stop_spec; [done|lia]|]. intros b i2 (W2 & T2 & A2 & F2).
    destruct b.
    + apply runs_ret. split; [congruence|]. split; [lia|]. eapply within_weaken; [done|lia].
    + eapply runs_mono; [apply (IH 3); [auto|lia|unfold enough in *; lia]|]. intros [] i3 (W3 & T3 & A3).
      split; [congruence|]. split; [lia|]. eapply within_weaken; [done|lia].
Qed.

Lemma write_bytes_spec f data i : at_ 10 i -> enough f i ->
  runs (write_bytes f data timer) i (fun b i' => at_ 20 i' /\ time i <= time i' /\
    exists j, wire i' = wire i ++ map EvWrite (take j data) /\ (b = true -> take j data = data)).
Proof.
  revert data i. induction f as [|f IH]; intros data i Hw Hf.
  { exfalso. unfold within, enough, late in *. pose proof gap_pos. nia. }
  cbn [write_bytes]. destruct data as [|byte rest].
  { apply runs_ret. split; [eapply within_weaken; [done|lia]|]. split; [done|]. exists O. by rewrite app_nil_r. }
  apply runs_bind. eapply runs_mono; [apply should_stop_spec; [done|lia]|]. intros stop i1 (W1 & T1 & A1 & F1).
  set (k := if stop then 13 else 3). assert (Hk : 3 <= k <= 13) by (unfold k; destruct stop; lia).
  assert (A1' : at_ k i1) by (unfold k; destruct stop; auto).
  apply runs_bind. eapply runs_mono; [apply (isr_flag_spec 0); exact A1'|]. intros txe i2 (W2 & T2 & A2 & R2 & _).
  apply runs_bind. eapply runs_mono with (P := fun data' i' => time i2 <= time i' /\ at_ (k + 2) i' /\
    exists j, data' = drop j (byte :: rest) /\ wire i' = wire i ++ map EvWrite (take j (byte :: rest))).
  { destruct txe.
    - eexists rest, (LL_I2C_TransmitData8 byte i2). split; [done|]. destruct (transmit_spec byte i2) as [Tt Wt].
      split; [lia|]. split; [unfold within in *; lia|]. exists 1%nat. split; [done|]. rewrite Wt by auto. by rewrite W2, W1.
    - apply runs_ret. split; [done|]. split; [eapply within_weaken; [done|lia]|]. exists O.
      split; [done|]. rewrite app_nil_r. congruence. }
  intros data' i3 (T3 & A3 & j & -> & W3).
  apply runs_bind. eapply runs_mono with (P := fun _ i' => time i3 <= time i' /\ at_ (k + 7) i' /\ wire i' = wire i3).
  { destruct (drop j (byte :: rest)).
    - eapply runs_mono; [apply (wait_complete_spec f (k + 2)); [done|lia|unfold enough in *; lia]|].
      intros [] i4 (W4 & T4 & A4). split; [done|]. split; [eapply within_weaken; [done|lia]|done].
    - apply runs_ret. split; [done|]. split; [eapply within_weaken; [done|lia]|done]. }
  intros [] i4 (T4 & A4 & W4). rewrite W3 in W4. destruct stop; cbn in k.
  - apply runs_ret. split; [exact A4|]. split; [lia|]. exists j. split; [done|].
    intros Hd. destruct (drop j (byte :: rest)) eqn:Ed; [|done]. rewrite <- (take_drop j (byte :: rest)) at 2.
    by rewrite Ed, app_nil_r.
  - eapply runs_mono; [apply IH; [exact A4|unfold enough in *; lia]|]. intros b i5 (A5 & T5 & j' & W5 & D5).
    split; [done|]. split; [lia|]. exists (j + j')%nat. rewrite W5, W4, <- app_assoc, <- map_app.
    rewrite <- take_take_drop. split; [done|]. intros Hb. rewrite (D5 Hb). by rewrite take_drop.
Qed.
Lemma read_bytes_spec f size e got i : at_ 10 i -> enough f i ->
  runs (read_bytes f (Z.of_nat size) e timer got) i (fun r i' => at_ 20 i' /\ time i <= time i' /\
    exists n, (n <= size)%nat /\ (fst r = true -> n = size) /\ snd r = got ++ slave_bytes slave (wire i) n /\
      wire i' = wire i ++ map EvRead (slave_bytes slave (wire i) n)).
Proof.
  revert size got i. induction f as [|f IH]; intros size got i Hw Hf.
  { exfalso. unfold within, enough, late in *. pose proof gap_pos. nia. }
  cbn [read_bytes]. destruct (Z.leb_spec (Z.of_nat size) 0).
  { apply runs_ret. split; [eapply within_weaken; [done|lia]|]. split; [done|]. exists O.
    cbn. rewrite !app_nil_r. repeat split; lia. }
  apply runs_bind. eapply runs_mono; [apply should_stop_spec; [done|lia]|]. intros stop i1 (W1 & T1 & A1 & F1).
  set (k := if stop then 13 else 3). assert (A1' : at_ k i1) by (unfold k; destruct stop; auto).
  apply runs_bind. eapply runs_mono with (P := fun _ i' => time i1 <= time i' /\ at_ (k + 1) i' /\ wire i' = wire i1).
  { destruct (controls_spec i1) as ((Tn & Wn) & _). destruct (_ && _).
    - eexists _, (LL_I2C_nack_next i1). split; [done|]. split; [lia|]. split; [unfold within in *; lia|done].
    - apply runs_ret. split; [done|]. split; [eapply within_weaken; [done|lia]|done]. }
  intros [] i2 (T2 & A2 & W2).
  apply runs_bind. eapply runs_mono; [apply (isr_flag_spec 2); exact A2|]. intros rxne i3 (W3 & T3 & A3 & _ & R3).
  apply runs_bind. eapply runs_mono with (P := fun r i' => time i3 <= time i' /\ at_ (k + 3) i' /\
    exists n, (n <= size)%nat /\ fst r = Z.of_nat (size - n) /\ snd r = got ++ slave_bytes slave (wire i) n /\
      wire i' = wire i ++ map EvRead (slave_bytes slave (wire i) n) /\ n = (if rxne then 1 else 0)%nat).
  { destruct rxne.
    - apply runs_bind, runs_call. pose proof (receive_spec i3) as Hr. destruct (LL_I2C_ReceiveData8 i3) as [b i4].
      destruct Hr as (Tr & Hr). destruct Hr as [-> Wr]; [by auto|]. apply runs_ret. split; [lia|].
      split; [unfold within in *; lia|]. exists 1%nat. rewrite W3, W2, W1 in *. cbn.
      split; [lia|]. split; [lia|]. done.
    - apply runs_ret. split; [done|]. split; [eapply within_weaken; [done|lia]|]. exists O. cbn.
      rewrite !app_nil_r. repeat split; (lia || congruence). }
  intros [size' got'] i4 (T4 & A4 & n & Hn & Es & Eg & W4 & Hn1). cbn [fst snd] in Es, Eg. subst size' got'.
  destruct stop; cbn in k.
  - apply runs_ret. split; [eapply within_weaken; [done|lia]|]. split; [lia|]. exists n. cbn [fst snd].
    split; [done|]. split; [|done]. destruct (Z.eqb_spec (Z.of_nat (size - n)) 0); [lia|done].
  - eapply runs_mono; [apply IH; [eapply within_weaken; [exact A4|lia]|unfold enough in *; lia]|].
    intros r i5 (A5 & T5 & m & Hm & D5 & G5 & W5). split; [done|]. split; [lia|]. exists (n + m)%nat.
    split; [lia|]. split; [intros Hb; specialize (D5 Hb); lia|].
    assert (slave_bytes slave (wire i) (n + m) = slave_bytes slave (wire i) n ++ slave_bytes slave (wire i4) m) as ->.
    { rewrite W4. destruct rxne; subst n; cbn; [done|by rewrite app_nil_r]. }
    rewrite G5, W5, W4, map_app, !app_assoc. done.
Qed.

Lemma wait_for_end_spec f e k i : at_ k i -> 1 <= k <= 40 -> enough f i ->
  runs (rhs_hal_i2c_wait_for_end f e timer) i (fun _ i' => wire i' = wire i /\ time i <= time i' /\ at_ (k + 2) i').
Proof.
  revert k i. induction f as [|f IH]; intros k i Hw Hk Hf.
  { exfalso. unfold within, enough, late in *. pose proof gap_pos. nia. }
  apply runs_bind, runs_call. pose proof (isr_spec i) as Hs. destruct (I2C_ISR i) as [isr i1].
  destruct Hs as (W1 & T1 & _). assert (A1 : at_ (k + 1) i1) by (unfold within in *; lia).
  destruct (Z.land isr (end_mask e) =? 0).
  - apply runs_bind. eapply runs_mono; [apply expired_spec; [done|lia]|]. intros b i2 (W2 & T2 & A2 & F2). destruct b.
    + apply runs_ret. split; [congruence|]. split; [lia|]. eapply within_weaken; [done|lia].
    + eapply runs_mono; [apply (IH 1); [auto|lia|unfold enough in *; lia]|]. intros b i3 (W3 & T3 & A3).
      split; [congruence|]. split; [lia|]. eapply within_weaken; [done|lia].
  - apply runs_ret. split; [done|]. split; [lia|]. eapply within_weaken; [done|lia].
Qed.

Lemma wait_for_idle_spec f begin k i : at_ k i -> 1 <= k <= 40 -> enough f i ->
  runs (rhs_hal_i2c_wait_for_idle f begin timer) i (fun _ i' => wire i' = wire i /\ time i <= time i' /\ at_ (Z.max k 2 + 3) i').
Proof.
  revert k i. induction f as [|f IH]; intros k i Hw Hk Hf.
  { exfalso. unfold within, enough, late in *. pose proof gap_pos. nia. }
  apply runs_bind. eapply runs_mono; [apply expired_spec; [done|lia]|]. intros b i1 (W1 & T1 & A1 & F1).
  assert (A1' : at_ (Z.max k 2 + 3) i1) by (eapply within_weaken; [done|lia]).
  destruct b; [apply runs_ret; split; [done|]; split; [lia|done]|].
  destruct (decide (begin = RHSHalI2cBeginStart)); [|apply runs_ret; split; [done|]; split; [lia|done]].
  apply runs_bind. eapply runs_mono; [apply isr_flag_spec; exact (F1 eq_refl)|]. intros busy i2 (W2 & T2 & A2 & _).
  destruct busy.
  - eapply runs_mono; [apply (IH 2); [exact A2|lia|unfold enough in *; lia]|]. intros b i3 (W3 & T3 & A3).
    split; [congruence|]. split; [lia|]. eapply within_weaken; [done|lia].
  - apply runs_ret. split; [congruence|]. split; [lia|]. eapply within_weaken; [done|lia].
Qed.

Lemma finish_spec f ret e i : at_ 20 i -> enough f i ->
  runs (finish f ret e timer) i (fun b i' => wire i' = wire i /\ time i <= time i' /\ at_ 30 i' /\ (b = true -> ret = true)).
Proof.
  intros Hw Hf. apply runs_bind.
  eapply runs_mono with (P := fun b i' => wire i' = wire i /\ time i <= time i' /\ at_ 22 i' /\ (b = true -> ret = true)).
  { destruct ret.
    - eapply runs_mono; [apply (wait_for_end_spec f e 20); [done|lia|done]|]. intros b i' (W & T & A). done.
    - apply runs_ret. split; [done|]. split; [done|]. split; [eapply within_weaken; [done|lia]|done]. }
  intros b i1 (W1 & T1 & A1 & D1). pose proof (gap_pos (D := I)). destruct (controls_spec i1) as (_ & (Tn & Wn) & _).
  apply runs_bind. eexists tt, (LL_I2C_ClearFlag_NACK i1). split; [done|].
  destruct (controls_spec (LL_I2C_ClearFlag_NACK i1)) as (_ & _ & (Ts & Ws)). apply runs_bind.
  destruct (decide (e = RHSHalI2cEndStop)).
  - eexists tt, _. split; [done|]. apply runs_ret. split; [congruence|]. split; [lia|]. split; [unfold within in *; lia|done].
  - apply runs_ret, runs_ret. split; [congruence|]. split; [lia|]. split; [unfold within in *; lia|done].
Qed.

Lemma write_transaction_spec f address data begin e i :
  at_ 1 i -> enough f i -> 0 < Z.of_nat (length data) <= 255 ->
  runs (write_transaction f address false data begin e timer) i (fun b i' => at_ 30 i' /\ time i <= time i' /\
    tx_outcome (wire i) address data begin e b (wire i')).
Proof.
  intros Hw Hf Hn. apply runs_bind. eapply runs_mono; [apply (wait_for_idle_spec f begin 1); [done|lia|done]|].
  intros idle i1 (W1 & T1 & A1). destruct idle; cbn [negb].
  2: { apply runs_ret. split; [eapply within_weaken; [done|lia]|]. split; [done|]. by left. }
  set (es := rhs_hal_i2c_get_end_signal e). set (ss := rhs_hal_i2c_get_start_signal _ _ _).
  destruct (transfer_spec (Z.shiftl address 1) (Z.of_nat (length data)) es ss i1 Hn) as (T2 & W2).
  apply runs_bind. eexists tt, _. split; [done|].
  set (i2 := LL_I2C_HandleTransfer _ _ _ _ i1) in *.
  apply runs_bind. eapply runs_mono; [apply write_bytes_spec; [unfold within in *; lia|unfold enough in *; lia]|].
  intros ret i3 (A3 & T3 & j & W3 & D3). eapply runs_mono; [apply finish_spec; [exact A3|unfold enough in *; lia]|].
  intros b i4 (W4 & T4 & A4 & D4). split; [done|]. split; [lia|]. right. exists j.
  split; [|by auto]. rewrite W4, W3, W2, W1, <- app_assoc. done.
Qed.

Lemma read_transaction_spec f address size begin e i :
  at_ 1 i -> enough f i -> 0 < Z.of_nat size <= 255 ->
  runs (read_transaction f address false (Z.of_nat size) begin e timer) i (fun r i' => at_ 30 i' /\ time i <= time i' /\
    rx_outcome slave (wire i) address size begin e r (wire i')).
Proof.
  intros Hw Hf Hn. apply runs_bind. eapply runs_mono; [apply (wait_for_idle_spec f begin 1); [done|lia|done]|].
  intros idle i1 (W1 & T1 & A1). destruct idle; cbn [negb].
  2: { apply runs_ret. split; [eapply within_weaken; [done|lia]|]. split; [done|]. by left. }
  set (es := rhs_hal_i2c_get_end_signal e). set (ss := rhs_hal_i2c_get_start_signal _ _ _).
  destruct (transfer_spec (Z.shiftl address 1) (Z.of_nat size) es ss i1 Hn) as (T2 & W2).
  apply runs_bind. eexists tt, _. split; [done|].
  set (i2 := LL_I2C_HandleTransfer _ _ _ _ i1) in *.
  apply runs_bind. eapply runs_mono; [apply read_bytes_spec; [unfold within in *; lia|unfold enough in *; lia]|].
  intros [ret got] i3 (A3 & T3 & n & Hle & D3 & G3 & W3). cbn [fst snd] in D3, G3. apply runs_bind.
  eapply runs_mono; [apply finish_spec; [exact A3|unfold enough in *; lia]|].
  intros b i4 (W4 & T4 & A4 & D4). apply runs_ret. split; [done|]. split; [lia|]. right. exists n. cbn zeta.
  rewrite W2, W1 in W3, G3. split; [done|]. split; [rewrite W4; exact W3|]. split; [exact G3|]. cbn [fst]. auto.
Qed.
End transfers.

(** ** The interface for the drivers of I2C devices *)

Class I2cMaster (B : Type) := {
  (** [rhs_hal_i2c_tx_ext] with a 7-bit address, and [rhs_hal_i2c_trx]. *)
  master_tx_ext : Z -> Z -> list Z -> RHSHalI2cBegin -> RHSHalI2cEnd -> Z -> M B bool;
  master_trx : Z -> Z -> list Z -> Z -> Z -> M B (bool * list Z)
}.

Class I2cMasterLaws (B : Type) `{I2cMaster B} := {
  master_wire : B -> list wire_event;
  master_slave : list wire_event -> Z;
  (** The handle the bus is acquired for, and the timeouts in milliseconds it can keep. *)
  master_handle : B -> Z;
  master_timeout : Z -> Prop;
  master_tx_spec b handle address data begin e timeout :
    master_handle b = handle -> master_timeout timeout -> 0 < Z.of_nat (length data) <= 255 ->
    runs (master_tx_ext handle address data begin e timeout) b (fun ok b' => master_handle b' = handle /\
      tx_outcome (master_wire b) address data begin e ok (master_wire b'));
  master_trx_spec b handle address data size timeout :
    master_handle b = handle -> master_timeout timeout -> 0 < Z.of_nat (length data) <= 255 -> 0 < Z.of_nat size <= 255 ->
    runs (master_trx handle address data (Z.of_nat size) timeout) b (fun r b' => master_handle b' = handle /\
      exists tx w rx, tx_outcome (master_wire b) address data RHSHalI2cBeginStart RHSHalI2cEndStop tx w /\
        rx_outcome master_slave w address size RHSHalI2cBeginStart RHSHalI2cEndStop (rx, snd r) (master_wire b') /\
        fst r = tx && rx)
}.

Section timed.
Context {Q : Type} {I : Type} `{DwtLaws I} {E : Type} (wire : I -> list E)
  (cyccnt_wire : forall i, wire (snd (CYCCNT i)) = wire i) (fuel : nat).

(** When a call with that timeout has ended. *)
Definition deadline (b : RHSHalI2cBus Q I) (timeout : Z) : Z :=
  time (i2c b) + timer_cycles (u32 (timeout * 1000)) + late * gap.

Lemma with_timer {A} (b : RHSHalI2cBus Q I) handle timeout (m : RHSHalCortexTimer -> M I A)
    (R : list E -> A -> list E -> Prop) :
  current_handle b = handle -> good_ms fuel timeout ->
  (forall start i, good_timeout (u32 (timeout * 1000)) (late * gap) ->
     within start (u32 (timeout * 1000)) 1 i -> enough start (u32 (timeout * 1000)) fuel i ->
     runs (m (timer_at start (u32 (timeout * 1000)))) i (fun a i' =>
       within start (u32 (timeout * 1000)) 30 i' /\ time i <= time i' /\ R (wire i) a (wire i'))) ->
  runs (h ← gets current_handle; _ ← rhs_assert (h =? handle);
        on_i2c (timer ← rhs_hal_cortex_timer_get (u32 (timeout * 1000)); m timer)) b
    (fun a b' => current_handle b' = handle /\ bus_mutex b' = bus_mutex b /\ time (i2c b') <= deadline b timeout /\
       R (wire (i2c b)) a (wire (i2c b'))).
Proof.
  intros Hh Hgood Hm. apply runs_bind. eexists _, b. split; [done|].
  apply runs_bind. rewrite Hh, Z.eqb_refl. apply runs_ret.
  assert (Hrun : runs (timer ← rhs_hal_cortex_timer_get (u32 (timeout * 1000)); m timer) (i2c b)
    (fun a i' => time i' <= deadline b timeout /\ R (wire (i2c b)) a (wire i'))).
  { apply (timer_run fuel); [done|]. cbn zeta. intros Hg Hw Hf. eapply runs_mono; [by apply Hm|].
    intros a i' (Wi & T & HR). rewrite cyccnt_wire in HR. split; [|done].
    pose proof (gap_pos (D := I)). unfold within, deadline, late in *. lia. }
  destruct Hrun as (a & i' & E1 & HP & HR). exists a, (mkBus i' (current_handle b) (bus_mutex b)).
  split; [unfold on_i2c; by rewrite E1|]. by repeat split.
Qed.
End timed.

Section bus.
Context {Q : Type} {I : Type} `{I2cLaws I}.
Context (fuel : nat).

Abbreviation good_ms := (good_ms fuel).
Abbreviation with_timer := (with_timer wire cyccnt_wire fuel).

Lemma tx_ext_spec (b : RHSHalI2cBus Q I) handle address data begin e timeout :
  current_handle b = handle -> good_ms timeout -> 0 < Z.of_nat (length data) <= 255 ->
  runs (rhs_hal_i2c_tx_ext fuel handle address false data begin e timeout) b
    (fun ok b' => current_handle b' = handle /\ bus_mutex b' = bus_mutex b /\ time (i2c b') <= deadline b timeout /\
       tx_outcome (wire (i2c b)) address data begin e ok (wire (i2c b'))).
Proof.
  intros Hh Ht Hn. apply (with_timer b handle timeout _ (fun w ok w' => tx_outcome w address data begin e ok w')); [done..|].
  intros start i Hg Hw Hf. by apply write_transaction_spec.
Qed.

Lemma rx_ext_spec (b : RHSHalI2cBus Q I) handle address size begin e timeout :
  current_handle b = handle -> good_ms timeout -> 0 < Z.of_nat size <= 255 ->
  runs (rhs_hal_i2c_rx_ext fuel handle address false (Z.of_nat size) begin e timeout) b
    (fun r b' => current_handle b' = handle /\ bus_mutex b' = bus_mutex b /\ time (i2c b') <= deadline b timeout /\
       rx_outcome slave (wire (i2c b)) address size begin e r (wire (i2c b'))).
Proof.
  intros Hh Ht Hn. apply (with_timer b handle timeout _ (fun w r w' => rx_outcome slave w address size begin e r w')); [done..|].
  intros start i Hg Hw Hf. by apply read_transaction_spec.
Qed.

#[export] Instance bus_master : I2cMaster (RHSHalI2cBus Q I) := {
  master_tx_ext handle address data begin e timeout := rhs_hal_i2c_tx_ext fuel handle address false data begin e timeout;
  master_trx handle address data size timeout := rhs_hal_i2c_trx fuel handle address data size timeout
}.

#[local] Obligation Tactic := idtac.

(** The driver keeps the promises of the interface. *)
#[export] Program Instance bus_master_laws : I2cMasterLaws (RHSHalI2cBus Q I) := {
  master_wire b := wire (i2c b);
  master_slave := slave;
  master_handle := current_handle;
  master_timeout := good_ms
}.
Next Obligation.
  intros b handle address data begin e timeout Hh Ht Hn. eapply runs_mono; [by apply tx_ext_spec|].
  intros ok b' (A & _ & _ & B). done.
Qed.
Next Obligation.
  intros b handle address data size timeout Hh Ht Hn Hs. apply runs_bind.
  eapply runs_mono; [by apply tx_ext_spec|]. intros tx b1 (A1 & _ & _ & B1). apply runs_bind.
  eapply runs_mono; [by apply rx_ext_spec|]. intros [rx got] b2 (A2 & _ & _ & B2). apply runs_ret.
  split; [done|]. by exists tx, (wire (i2c b1)), rx.
Qed.

(** C30: on an acquired bus, a transmission and a reception of 1 to 255 bytes end in time,
    however the peripheral and the slave behave. The transmission has given the
    peripheral nothing (the bus was not free), or begun a transfer of exactly this
    address, length, start and end, and given it the bytes in order, as far as it came:
    all of them when it returns true. The reception returns the bytes the slave sent, in
    order, all of them when it returns true. *)
Theorem i2c_transfer_correct (b : RHSHalI2cBus Q I) handle address data size begin e timeout :
  current_handle b = handle -> good_ms timeout -> 0 < Z.of_nat (length data) <= 255 -> 0 < Z.of_nat size <= 255 ->
  (exists ok b', rhs_hal_i2c_tx_ext fuel handle address false data begin e timeout b = Ret (ok, b') /\
     current_handle b' = handle /\ time (i2c b') <= deadline b timeout /\
     ((ok = false /\ wire (i2c b') = wire (i2c b)) \/
      exists j, wire (i2c b') = wire (i2c b) ++
          EvBegin (Z.shiftl address 1) (Z.of_nat (length data)) (rhs_hal_i2c_get_end_signal e)
            (rhs_hal_i2c_get_start_signal begin false false) :: map EvWrite (take j data) /\
        (ok = true -> take j data = data))) /\
  (exists ok got b', rhs_hal_i2c_rx_ext fuel handle address false (Z.of_nat size) begin e timeout b = Ret ((ok, got), b') /\
     current_handle b' = handle /\ time (i2c b') <= deadline b timeout /\
     ((ok = false /\ got = [] /\ wire (i2c b') = wire (i2c b)) \/
      exists n, let w := wire (i2c b) ++ [EvBegin (Z.shiftl address 1) (Z.of_nat size) (rhs_hal_i2c_get_end_signal e)
            (rhs_hal_i2c_get_start_signal begin false true)] in
        wire (i2c b') = w ++ map EvRead (slave_bytes slave w n) /\ got = slave_bytes slave w n /\
        (n <= size)%nat /\ (ok = true -> n = size))).
Proof.
  intros Hh Ht Hn Hs. split.
  - destruct (tx_ext_spec b handle address data begin e timeout) as (ok & b' & E & A & _ & T & O); [done..|].
    exists ok, b'. split; [exact E|]. split; [done|]. split; [done|exact O].
  - destruct (rx_ext_spec b handle address size begin e timeout) as ([ok got] & b' & E & A & _ & T & O); [done..|].
    exists ok, got, b'. split; [exact E|]. split; [done|]. split; [done|].
    destruct O as [(? & ? & ?)|(n & Hle & W & G & D)]; [by left|]. right. exists n. by repeat split.
Qed.
End bus.

(** ** A peripheral to instantiate the theorems with

    With a slave that answers [next], always ready: a transfer has no more than its bytes
    left to do. *)

Record sim := mkSim { sim_wire : list wire_event; sim_left : Z; sim_time : Z }.

Section simulated.
Context (next : list wire_event -> Z).

Definition sim_isr (i : sim) : Z := if 0 <? sim_left i then 2 ^ 0 + 2 ^ 2 else 2 ^ 5 + 2 ^ 6 + 2 ^ 7.
Definition sim_log (e : wire_event) (i : sim) : sim := mkSim (sim_wire i ++ [e]) (sim_left i - 1) (sim_time i).

Definition sim_dwt : Dwt sim := {|
  CYCCNT i := (u32 (sim_time i), mkSim (sim_wire i) (sim_left i) (sim_time i + 1));
  SystemCoreClock _ := 1000000
|}.

Definition sim_hw : I2cHw sim := {|
  i2c_dwt := sim_dwt;
  I2C_ISR i := (sim_isr i, i);
  LL_I2C_TransmitData8 b i := sim_log (EvWrite b) i;
  LL_I2C_ReceiveData8 i := (next (sim_wire i), sim_log (EvRead (next (sim_wire i))) i);
  LL_I2C_nack_next i := i;
  LL_I2C_ClearFlag_NACK i := i;
  LL_I2C_ClearFlag_STOP i := i;
  LL_I2C_HandleTransfer a n e s i := mkSim (sim_wire i ++ [EvBegin a n e s]) n (sim_time i);
  i2c_bus_power _ i := i;
  i2c_pins _ i := i
|}.

#[local] Obligation Tactic := idtac.

#[local] Existing Instance sim_hw.

Program Definition sim_dwt_laws : DwtLaws sim := {| time := sim_time; gap := 1; clock_hz := 1000000 |}.
Next Obligation. done. Qed.
Next Obligation. done. Qed.
Next Obligation. intros i. cbn. split; [done|lia]. Qed.

Program Definition sim_laws : I2cLaws sim := {|
  i2c_dwt_laws := sim_dwt_laws;
  wire := sim_wire;
  slave := next;
  tx_ready i := 0 <? sim_left i;
  rx_ready i := 0 <? sim_left i
|}.
Next Obligation. done. Qed.
Next Obligation. intros i. cbn. unfold sim_isr. destruct (0 <? sim_left i); repeat split; (done || lia). Qed.
Next Obligation. intros b i. cbn. split; [lia|done]. Qed.
Next Obligation. intros i. cbn. split; [lia|done]. Qed.
Next Obligation. intros a n e s i _. cbn. split; [lia|done]. Qed.
Next Obligation. intros i. cbn. repeat split; lia. Qed.
End simulated.

(** A bus acquired for the handle 5; the slave sends 7 all the time. *)
Definition a_bus : RHSHalI2cBus plain_mutex sim := mkBus (mkSim [] 0 4294967000) 5 None.

Theorem i2c_transfer_correct_witness :
  let _ := sim_hw (fun _ => 7) in let _ := sim_laws (fun _ => 7) in
  (exists ok b', rhs_hal_i2c_tx_ext (Z.to_nat 1100) 5 80 false [1; 2] RHSHalI2cBeginStart RHSHalI2cEndPause 1 a_bus = Ret (ok, b') /\
     current_handle b' = 5 /\ time (i2c b') <= deadline a_bus 1 /\
     ((ok = false /\ wire (i2c b') = wire (i2c a_bus)) \/
      exists j, wire (i2c b') = wire (i2c a_bus) ++ EvBegin 160 2 RELOAD START_WRITE :: map EvWrite (take j [1; 2]) /\
        (ok = true -> take j [1; 2] = [1; 2]))) /\
  (exists ok got b', rhs_hal_i2c_rx_ext (Z.to_nat 1100) 5 80 false (Z.of_nat 3) RHSHalI2cBeginStart RHSHalI2cEndPause 1 a_bus = Ret ((ok, got), b') /\
     current_handle b' = 5 /\ time (i2c b') <= deadline a_bus 1 /\
     ((ok = false /\ got = [] /\ wire (i2c b') = wire (i2c a_bus)) \/
      exists n, let w := wire (i2c a_bus) ++ [EvBegin 160 (Z.of_nat 3) RELOAD START_READ] in
        wire (i2c b') = w ++ map EvRead (slave_bytes slave w n) /\ got = slave_bytes slave w n /\
        (n <= 3)%nat /\ (ok = true -> n = 3%nat))).
Proof.
  intros h l.
  refine (i2c_transfer_correct (Z.to_nat 1100) a_bus 5 80 [1; 2] 3 RHSHalI2cBeginStart RHSHalI2cEndPause 1 _ _ _ _).
  - reflexivity.
  - split; [split; [reflexivity|]; split; [split; [discriminate|reflexivity]|reflexivity]|].
    rewrite Z2Nat.id; [reflexivity|discriminate].
  - split; [reflexivity|discriminate].
  - split; [reflexivity|discriminate].
Defined.
