(* ===== verification/I2cV1.v ===== *)
(** * I2C master of the STM32F103xE and STM32F407xx (hal/rhs_hal_i2c/rhs_hal_i2c.c)

    The branches of the code for the older I2C peripheral, in which the program sends START, the
    address and STOP itself. The types, the bus and the other peripheral are in [I2c]; the
    functions that only combine transactions are the same for both. *)

From S2P Require Import Prelude Kernel Mutex Cortex I2c.

(** The peripheral; reading a status register lets time pass. *)
Class I2cV1Hw (I : Type) := {
  v1_dwt :: Dwt I;
  SR1 : I -> Z * I;
  SR2 : I -> Z * I;
  v1_GenerateStartCondition : I -> I;
  v1_GenerateStopCondition : I -> I;
  (** [LL_I2C_AcknowledgeNextData], true for LL_I2C_ACK. *)
  v1_AcknowledgeNextData : bool -> I -> I;
  v1_TransmitData8 : Z -> I -> I;
  v1_ReceiveData8 : I -> Z * I;
  v1_ClearFlag_ADDR : I -> I;
  v1_ClearFlag_AF : I -> I;
  v1_ClearFlag_STOP : I -> I
}.

Section operations.
Context {Q : Type} {I : Type} `{I2cV1Hw I}.

(** The flags of the status registers, as the LL_I2C_IsActiveFlag functions read them. *)
Definition sr1_flag (bit : Z) : M I bool := s ← call SR1; mret (Z.testbit s bit).
Definition flag_SB : M I bool := sr1_flag 0.
Definition flag_ADDR : M I bool := sr1_flag 1.
Definition flag_BTF : M I bool := sr1_flag 2.
Definition flag_STOP : M I bool := sr1_flag 4.
Definition flag_RXNE : M I bool := sr1_flag 6.
Definition flag_TXE : M I bool := sr1_flag 7.
Definition flag_AF : M I bool := sr1_flag 10.
Definition flag_BUSY : M I bool := s ← call SR2; mret (Z.testbit s 1).

(** [while (!ready) if (giving_up) ...]: whether [ready] came. *)
Fixpoint poll (fuel : nat) (ready giving_up : M I bool) : M I bool :=
  match fuel with
  | O => hang
  | Datatypes.S fuel =>
      up ← ready;
      if up : bool then mret true
      else stop ← giving_up; if stop : bool then mret false else poll fuel ready giving_up
  end.

Fixpoint rhs_hal_i2c_wait_for_idle (fuel : nat) (begin : RHSHalI2cBegin) (timer : RHSHalCortexTimer) : M I bool :=
  match fuel with
  | O => hang
  | Datatypes.S fuel =>
      expired ← rhs_hal_cortex_timer_is_expired timer;
      if expired : bool then mret false
      else if decide (begin = RHSHalI2cBeginStart) then
        busy ← flag_BUSY;
        if busy : bool then rhs_hal_i2c_wait_for_idle fuel begin timer else mret true
      else mret true
  end.

Definition rhs_hal_i2c_wait_for_end (fuel : nat) (end_ : RHSHalI2cEnd) (timer : RHSHalCortexTimer) : M I bool :=
  if decide (end_ = RHSHalI2cEndStop) then mret true
  else poll fuel flag_BTF (rhs_hal_cortex_timer_is_expired timer).

Definition rhs_hal_i2c_get_start_signal (begin : RHSHalI2cBegin) (ten_bit_address read : bool) : Z :=
  match begin with
  | RHSHalI2cBeginRestart => if read then 2 else 3
  | RHSHalI2cBeginResume => 4
  | RHSHalI2cBeginStart => if read then 0 else 1
  end.
(** Not used on these parts. *)
Definition rhs_hal_i2c_get_end_signal (end_ : RHSHalI2cEnd) : Z :=
  match end_ with RHSHalI2cEndAwaitRestart => 0 | RHSHalI2cEndPause => 1 | RHSHalI2cEndStop => 2 end.

Definition rhs_hal_i2c_transfer_is_aborted : M I bool :=
  stop ← flag_STOP;
  if stop : bool then btf ← flag_BTF; mret (negb btf) else mret false.

Definition should_stop (timer : RHSHalCortexTimer) : M I bool :=
  or_else (rhs_hal_cortex_timer_is_expired timer) rhs_hal_i2c_transfer_is_aborted.

(** The loop over the bytes to write; whether all were written. *)
Fixpoint write_bytes (fuel : nat) (data : list Z) (timer : RHSHalCortexTimer) : M I bool :=
  match fuel with
  | O => hang
  | Datatypes.S fuel =>
      match data with
      | [] => mret true
      | byte :: rest =>
          stop ← should_stop timer;
          txe ← flag_TXE;
          data ← (if txe : bool then _ ← call_ (v1_TransmitData8 byte); mret rest else mret data);
          _ ← (match data with [] => _ ← poll fuel flag_BTF (should_stop timer); mret tt | _ => mret tt end);
          if stop : bool then mret (match data with [] => true | _ => false end)
          else write_bytes fuel data timer
      end
  end.

(** The loop over [size] bytes to read; whether all were read, and what was read, after the
    bytes [got]. *)
Fixpoint read_bytes (fuel : nat) (size : Z) (end_ : RHSHalI2cEnd) (timer : RHSHalCortexTimer) (got : list Z)
    : M I (bool * list Z) :=
  match fuel with
  | O => hang
  | Datatypes.S fuel =>
      if size <=? 0 then mret (true, got)
      else
        stop ← should_stop timer;
        _ ← (if (size =? 1) && bool_decide (end_ = RHSHalI2cEndStop) then call_ (v1_AcknowledgeNextData false) else mret tt);
        rxne ← flag_RXNE;
        '(size, got) ← (if rxne : bool then byte ← call v1_ReceiveData8; mret (size - 1, got ++ [byte])
                        else mret (size, got));
        if stop : bool then mret (size =? 0, got) else read_bytes fuel size end_ timer got
  end.

(** What follows the bytes: STOP, whether they went or not. *)
Definition end_transfer (fuel : nat) (ret : bool) (end_ : RHSHalI2cEnd) (timer : RHSHalCortexTimer) : M I bool :=
  _ ← (if decide (end_ = RHSHalI2cEndStop) then call_ v1_GenerateStopCondition else mret tt);
  ret ← (if ret then rhs_hal_i2c_wait_for_end fuel end_ timer else mret false);
  _ ← call_ v1_ClearFlag_AF;
  _ ← (if decide (end_ = RHSHalI2cEndStop) then call_ v1_ClearFlag_STOP else mret tt);
  mret ret.

(** START and the address, until the slave acknowledges it; a failure sends no STOP. *)
Definition begin_transfer (fuel : nat) (address : Z) (ten_bit read : bool) (timer : RHSHalCortexTimer) : M I bool :=
  _ ← call_ v1_GenerateStartCondition;
  up ← poll fuel flag_SB (rhs_hal_cortex_timer_is_expired timer);
  if negb up then mret false
  else if ten_bit then mret false
  else
    _ ← call_ (v1_TransmitData8 (u8 (Z.lor (Z.shiftl address 1) (if read then 1 else 0))));
    acked ← poll fuel flag_ADDR (or_else flag_AF (rhs_hal_cortex_timer_is_expired timer));
    if negb acked then _ ← call_ v1_ClearFlag_AF; mret false
    else _ ← call_ v1_ClearFlag_ADDR; mret true.

(** [rhs_hal_i2c_transaction] up to the transfer. *)
Definition begin_transaction (fuel : nat) (address : Z) (ten_bit : bool) (begin : RHSHalI2cBegin) (read : bool)
    (timer : RHSHalCortexTimer) : M I bool :=
  let start_signal := rhs_hal_i2c_get_start_signal begin ten_bit read in
  idle ← rhs_hal_i2c_wait_for_idle fuel begin timer;
  if negb idle then mret false
  else
    _ ← call_ (v1_AcknowledgeNextData true);
    if (start_signal =? 0) || (start_signal =? 1) || (start_signal =? 2) || (start_signal =? 3)
    then begin_transfer fuel address ten_bit read timer else mret true.

(** [rhs_hal_i2c_transaction] with [read] false and true. *)
Definition write_transaction (fuel : nat) (address : Z) (ten_bit : bool) (data : list Z)
    (begin : RHSHalI2cBegin) (end_ : RHSHalI2cEnd) (timer : RHSHalCortexTimer) : M I bool :=
  begun ← begin_transaction fuel address ten_bit begin false timer;
  if negb begun then mret false
  else
    ret ← write_bytes fuel data timer;
    end_transfer fuel ret end_ timer.
Definition read_transaction (fuel : nat) (address : Z) (ten_bit : bool) (size : Z)
    (begin : RHSHalI2cBegin) (end_ : RHSHalI2cEnd) (timer : RHSHalCortexTimer) : M I (bool * list Z) :=
  begun ← begin_transaction fuel address ten_bit begin true timer;
  if negb begun then mret (false, [])
  else
    '(ret, got) ← read_bytes fuel size end_ timer [];
    ret ← end_transfer fuel ret end_ timer;
    mret (ret, got).

(** With a timer, on a bus that is acquired. *)
Definition timed {A} (handle timeout : Z) (m : RHSHalCortexTimer -> M I A) : M (RHSHalI2cBus Q I) A :=
  h ← gets current_handle;
  _ ← rhs_assert (h =? handle);
  on_i2c (timer ← rhs_hal_cortex_timer_get (u32 (timeout * 1000)); m timer).

Definition rhs_hal_i2c_rx_ext (fuel : nat) (handle address : Z) (ten_bit : bool) (size : Z)
    (begin : RHSHalI2cBegin) (end_ : RHSHalI2cEnd) (timeout : Z) : M (RHSHalI2cBus Q I) (bool * list Z) :=
  timed handle timeout (read_transaction fuel address ten_bit size begin end_).
Definition rhs_hal_i2c_tx_ext (fuel : nat) (handle address : Z) (ten_bit : bool) (data : list Z)
    (begin : RHSHalI2cBegin) (end_ : RHSHalI2cEnd) (timeout : Z) : M (RHSHalI2cBus Q I) bool :=
  timed handle timeout (write_transaction fuel address ten_bit data begin end_).

(** The probe of a device after the bus was found idle. *)
Definition probe (fuel : nat) (i2c_addr : Z) (timer : RHSHalCortexTimer) : M I bool :=
  _ ← call_ v1_GenerateStartCondition;
  up ← poll fuel flag_SB (rhs_hal_cortex_timer_is_expired timer);
  if negb up then mret false
  else
    _ ← call_ (v1_TransmitData8 (u8 (Z.lor (Z.shiftl i2c_addr 1) 0)));
    answered ← poll fuel (or_else flag_ADDR flag_AF) (rhs_hal_cortex_timer_is_expired timer);
    if negb answered then _ ← call_ v1_GenerateStopCondition; mret false
    else
      ret ← flag_ADDR;
      _ ← (if ret : bool then call_ v1_ClearFlag_ADDR else call_ v1_ClearFlag_AF);
      _ ← call_ v1_GenerateStopCondition;
      _ ← call_ v1_ClearFlag_STOP;
      mret ret.

Definition rhs_hal_i2c_is_device_ready (fuel : nat) (handle i2c_addr timeout : Z) : M (RHSHalI2cBus Q I) bool :=
  _ ← assert_acquired handle timeout;
  timed handle timeout (fun timer =>
    idle ← rhs_hal_i2c_wait_for_idle fuel RHSHalI2cBeginStart timer;
    if negb idle then mret false else probe fuel i2c_addr timer).
End operations.

(** ** What the reference manual documents of the peripheral

    [v1_wire] is what the program asked of the bus; a byte it writes is sent when the data
    register is free, after START or an empty register. [v1_slave] is the byte a slave sends
    after what it saw, [v1_acks] whether it has acknowledged the address: the flag ADDR says so. *)

Inductive v1_event := VStart | VByte (b : Z) | VRead (b : Z) | VStop.

Class I2cV1Laws (I : Type) `{I2cV1Hw I} := {
  v1_dwt_laws :: DwtLaws I;
  v1_wire : I -> list v1_event;
  v1_slave : list v1_event -> Z;
  v1_acks : list v1_event -> bool;
  dr_free : I -> bool;
  dr_full : I -> bool;
  v1_cyccnt_wire i : v1_wire (snd (CYCCNT i)) = v1_wire i;
  sr1_spec i : let '(s, i') := SR1 i in v1_wire i' = v1_wire i /\ time i <= time i' <= time i + gap /\
    (Z.testbit s 0 = true -> dr_free i' = true) /\ (Z.testbit s 1 = true -> v1_acks (v1_wire i) = true) /\
    (Z.testbit s 6 = true -> dr_full i' = true) /\ (Z.testbit s 7 = true -> dr_free i' = true);
  sr2_spec i : let '(s, i') := SR2 i in v1_wire i' = v1_wire i /\ time i <= time i' <= time i + gap;
  v1_transmit_spec b i : time i <= time (v1_TransmitData8 b i) <= time i + gap /\
    (dr_free i = true -> v1_wire (v1_TransmitData8 b i) = v1_wire i ++ [VByte b]);
  v1_receive_spec i : let '(b, i') := v1_ReceiveData8 i in time i <= time i' <= time i + gap /\
    (dr_full i = true -> b = v1_slave (v1_wire i) /\ v1_wire i' = v1_wire i ++ [VRead b]);
  v1_start_spec i : time i <= time (v1_GenerateStartCondition i) <= time i + gap /\
    v1_wire (v1_GenerateStartCondition i) = v1_wire i ++ [VStart];
  v1_stop_spec i : time i <= time (v1_GenerateStopCondition i) <= time i + gap /\
    v1_wire (v1_GenerateStopCondition i) = v1_wire i ++ [VStop];
  v1_ack_spec a i : time i <= time (v1_AcknowledgeNextData a i) <= time i + gap /\ v1_wire (v1_AcknowledgeNextData a i) = v1_wire i;
  v1_clear_ADDR_spec i : time i <= time (v1_ClearFlag_ADDR i) <= time i + gap /\ v1_wire (v1_ClearFlag_ADDR i) = v1_wire i;
  v1_clear_AF_spec i : time i <= time (v1_ClearFlag_AF i) <= time i + gap /\ v1_wire (v1_ClearFlag_AF i) = v1_wire i;
  v1_clear_STOP_spec i : time i <= time (v1_ClearFlag_STOP i) <= time i + gap /\ v1_wire (v1_ClearFlag_STOP i) = v1_wire i
}.

(** [n] bytes from the slave, after what it saw. *)
Fixpoint v1_bytes (next : list v1_event -> Z) (w : list v1_event) (n : nat) : list Z :=
  match n with
  | O => []
  | S n => let b := next w in b :: v1_bytes next (w ++ [VRead b]) n
  end.

(** How a transaction begins on the wire, and how it ends. *)
Definition v1_address (address : Z) (read : bool) : list v1_event :=
  [VStart; VByte (u8 (Z.lor (Z.shiftl address 1) (if read then 1 else 0)))].
Definition v1_begin (address : Z) (read : bool) (begin : RHSHalI2cBegin) : list v1_event :=
  if decide (begin = RHSHalI2cBeginResume) then [] else v1_address address read.
Definition v1_stop (e : RHSHalI2cEnd) : list v1_event := if decide (e = RHSHalI2cEndStop) then [VStop] else [].

(** A transaction that does not begin leaves a START, or a START and an address, without STOP. *)
Definition v1_not_begun (w : list v1_event) address read begin (w' : list v1_event) : Prop :=
  exists n, w' = w ++ take n (v1_begin address read begin).
(** A transaction that begins was acknowledged, in seven bits. *)
Definition v1_begun (acks : list v1_event -> bool) (w : list v1_event) address ten_bit read begin : Prop :=
  begin = RHSHalI2cBeginResume \/ ten_bit = false /\ acks (w ++ v1_address address read) = true.
Definition v1_tx_outcome acks (w : list v1_event) address ten_bit data begin e (ok : bool) (w' : list v1_event) : Prop :=
  (ok = false /\ v1_not_begun w address false begin w') \/
  v1_begun acks w address ten_bit false begin /\
  exists j, w' = w ++ v1_begin address false begin ++ map VByte (take j data) ++ v1_stop e /\ (ok = true -> take j data = data).
Definition v1_rx_outcome acks next (w : list v1_event) address ten_bit (size : nat) begin e (r : bool * list Z) (w' : list v1_event) : Prop :=
  (fst r = false /\ snd r = [] /\ v1_not_begun w address true begin w') \/
  v1_begun acks w address ten_bit true begin /\
  exists n, let w1 := w ++ v1_begin address true begin in
    (n <= size)%nat /\ w' = w1 ++ map VRead (v1_bytes next w1 n) ++ v1_stop e /\ snd r = v1_bytes next w1 n /\
    (fst r = true -> n = size).

Section transfers.
Context {I : Type} `{I2cV1Laws I}.
Context (start us : Z) (Hus : good_timeout us (late * gap)).
Abbreviation timer := (timer_at start us).
Abbreviation at_ := (within start us).
Abbreviation enough := (enough start us).
Abbreviation expired := (rhs_hal_cortex_timer_is_expired timer).

(** A step that shows nothing on the wire and takes at most [c] gaps. *)
Definition silent {A} (c : Z) (m : M I A) (P : A -> I -> I -> Prop) : Prop := forall k i, at_ k i -> 0 <= k -> k + c <= 60 ->
  runs m i (fun a i' => v1_wire i' = v1_wire i /\ time i <= time i' /\ at_ (k + c) i' /\ P a i i').

Lemma v1_expired_spec : silent 1 expired (fun b i i' => time i < time i' /\ (b = false -> at_ 1 i')).
Proof.
  intros k i Hw Hk Hc. eapply runs_mono; [apply (is_expired_spec start us late k i Hus); [unfold late; lia|done]|].
  intros b i' (-> & Ht & Hw' & Hf). split; [apply v1_cyccnt_wire|]. split; [lia|]. by split_and!.
Qed.
Lemma sr1_flag_spec bit : silent 1 (sr1_flag bit) (fun b i i' => b = true ->
  (bit = 0 \/ bit = 7 -> dr_free i' = true) /\ (bit = 1 -> v1_acks (v1_wire i) = true) /\ (bit = 6 -> dr_full i' = true)).
Proof.
  intros k i Hw _ _. apply runs_bind, runs_call. pose proof (sr1_spec i) as Hs. destruct (SR1 i) as [s i'].
  destruct Hs as (W & T & F0 & F1 & F6 & F7). apply runs_ret. split; [done|]. split; [lia|]. split; [unfold within in *; lia|].
  intros Hb. split_and!; [intros [-> | ->]|intros ->|intros ->]; auto.
Qed.
Lemma busy_spec : silent 1 flag_BUSY (fun _ _ _ => True).
Proof.
  intros k i Hw _ _. apply runs_bind, runs_call. pose proof (sr2_spec i) as Hs. destruct (SR2 i) as [s i'].
  destruct Hs as (W & T). apply runs_ret. split; [done|]. split; [lia|]. split; [unfold within in *; lia|done].
Qed.
Lemma control_spec (f : I -> I) : (forall i, time i <= time (f i) <= time i + gap /\ v1_wire (f i) = v1_wire i) ->
  silent 1 (call_ f) (fun _ _ _ => True).
Proof.
  intros Hf k i Hw _. eexists tt, (f i). split; [done|]. destruct (Hf i) as [T W]. split; [done|]. split; [lia|].
  split; [unfold within in *; lia|done].
Qed.

(** [silent_step H] runs the next step of the goal, which is [silent] by [H]. *)
Ltac silent_step H := apply runs_bind; eapply runs_mono; [apply H; [eassumption|lia|lia]|].
Ltac weaken := eapply within_weaken; [eassumption|lia].

Lemma v1_or_else_spec c c' (a b : M I bool) (P Q R : bool -> I -> I -> Prop) : silent c a P -> silent c' b Q -> 0 <= c -> 0 <= c' ->
  (forall i i', P true i i' -> R true i i') ->
  (forall i i1 i2 x, P false i i1 -> v1_wire i1 = v1_wire i -> time i <= time i1 -> time i1 <= time i2 -> Q x i1 i2 -> R x i i2) ->
  silent (c + c') (or_else a b) R.
Proof.
  intros Ha Hb Hc Hc' HT HF k i Hw Hk Hkc. silent_step Ha. intros x i1 (W1 & T1 & A1 & P1). destruct x.
  - apply runs_ret. split_and!; [done|done|weaken|auto].
  - eapply runs_mono; [apply Hb; [eassumption|lia|lia]|]. intros y i2 (W2 & T2 & A2 & Q2).
    split_and!; [congruence|lia|weaken|by eapply HF].
Qed.

Lemma aborted_spec : silent 2 rhs_hal_i2c_transfer_is_aborted (fun _ _ _ => True).
Proof.
  intros k i Hw Hk Hc. silent_step (sr1_flag_spec 4). intros stop i1 (W1 & T1 & A1 & _). destruct stop.
  - silent_step (sr1_flag_spec 2). intros btf i2 (W2 & T2 & A2 & _). apply runs_ret. split_and!; [congruence|lia|weaken|done].
  - apply runs_ret. split_and!; [done|done|weaken|done].
Qed.
Lemma aborted_early : forall k i, at_ k i -> 0 <= k -> k + 2 <= 60 ->
  runs rhs_hal_i2c_transfer_is_aborted i (fun _ i' => v1_wire i' = v1_wire i /\ time i <= time i' /\ at_ (k + 2) i').
Proof. intros k i Hw Hk Hc. eapply runs_mono; [by apply aborted_spec|]. naive_solver. Qed.

Lemma v1_should_stop_spec : silent 3 (should_stop timer) (fun b i i' => time i < time i' /\ (b = false -> at_ 3 i')).
Proof.
  intros k i Hw Hk Hc. silent_step v1_expired_spec. intros x i1 (W1 & T1 & A1 & L1 & F1). destruct x.
  - apply runs_ret. split_and!; [done|done|weaken|done|done].
  - eapply runs_mono; [apply (aborted_early 1); [by apply F1|lia|lia]|]. intros b i2 (W2 & T2 & A2).
    split_and!; [congruence|lia|weaken|lia|done].
Qed.
(** The wait for an acknowledge is given up on a negative one too. *)
Lemma giving_up_spec : silent 2 (or_else flag_AF expired) (fun b i i' => b = false -> time i < time i' /\ at_ 1 i').
Proof.
  change 2 with (1 + 1). eapply v1_or_else_spec; [apply sr1_flag_spec|apply v1_expired_spec|lia|lia|done|].
  cbn. intros i i1 i2 x _ _ T1 _ (L & F) ->. split; [lia|auto].
Qed.
Lemma expired_gives_up : silent 1 expired (fun b i i' => b = false -> time i < time i' /\ at_ 1 i').
Proof. intros k i Hw Hk Hc. eapply runs_mono; [by apply v1_expired_spec|]. naive_solver. Qed.
Lemma should_stop_gives_up : silent 3 (should_stop timer) (fun b i i' => b = false -> time i < time i' /\ at_ 3 i').
Proof. intros k i Hw Hk Hc. eapply runs_mono; [by apply v1_should_stop_spec|]. naive_solver. Qed.
Lemma flag_spec bit (Rd : I -> Prop) : (forall i i', v1_wire i' = v1_wire i -> (bit = 0 \/ bit = 7 -> dr_free i' = true) /\
    (bit = 1 -> v1_acks (v1_wire i) = true) /\ (bit = 6 -> dr_full i' = true) -> Rd i') ->
  silent 1 (sr1_flag bit) (fun b _ i' => b = true -> Rd i').
Proof.
  intros HR k i Hw Hk Hc. eapply runs_mono; [by apply sr1_flag_spec|]. intros b i' (W & T & A' & F).
  split_and!; [done|done|done|]. intros Hb. by eapply HR; [|apply F].
Qed.
Lemma btf_spec : silent 1 flag_BTF (fun b _ i' => b = true -> True).
Proof. by apply (flag_spec 2 (fun _ => True)). Qed.
Lemma txe_spec : silent 1 flag_TXE (fun b _ i' => b = true -> dr_free i' = true).
Proof. apply (flag_spec 7 (fun i => dr_free i = true)). naive_solver. Qed.
Lemma rxne_spec : silent 1 flag_RXNE (fun b _ i' => b = true -> dr_full i' = true).
Proof. apply (flag_spec 6 (fun i => dr_full i = true)). naive_solver. Qed.
Lemma sb_spec : silent 1 flag_SB (fun b _ i' => b = true -> dr_free i' = true).
Proof. apply (flag_spec 0 (fun i => dr_free i = true)). naive_solver. Qed.
Lemma addr_spec : silent 1 flag_ADDR (fun b _ i' => b = true -> v1_acks (v1_wire i') = true).
Proof. apply (flag_spec 1 (fun i => v1_acks (v1_wire i) = true)). intros i i' -> (_ & F & _). auto. Qed.

Lemma poll_spec f (ready giving_up : M I bool) a c g (Rd : I -> Prop) :
  silent a ready (fun b _ i' => b = true -> Rd i') ->
  silent c giving_up (fun b i i' => b = false -> time i < time i' /\ at_ g i') -> 0 <= a -> 0 <= c ->
  forall k i, at_ k i -> 0 <= g <= k -> k + a + c <= 60 -> enough f i ->
  runs (poll f ready giving_up) i (fun b i' => v1_wire i' = v1_wire i /\ time i <= time i' /\ at_ (k + a + c) i' /\ (b = true -> Rd i')).
Proof.
  intros Hr Hg Ha Hc. induction f as [|f IH]; intros k i Hw Hk Hkc Hf.
  { exfalso. unfold within, Cortex.enough, late in *. pose proof gap_pos. nia. }
  cbn [poll]. silent_step Hr. intros up i1 (W1 & T1 & A1 & R1). destruct up.
  - apply runs_ret. split_and!; [done|done|weaken|auto].
  - silent_step Hg. intros stop i2 (W2 & T2 & A2 & S2). destruct stop.
    + apply runs_ret. split_and!; [congruence|lia|done|done].
    + destruct (S2 eq_refl) as [L2 G2]. eapply runs_mono; [apply (IH k); [weaken|lia|lia|unfold Cortex.enough in *; lia]|].
      intros b i3 (W3 & T3 & A3 & R3). split_and!; [congruence|lia|done|done].
Qed.

Lemma v1_wait_for_idle_spec f begin k i : at_ k i -> 1 <= k <= 40 -> enough f i ->
  runs (rhs_hal_i2c_wait_for_idle f begin timer) i (fun _ i' => v1_wire i' = v1_wire i /\ time i <= time i' /\ at_ (Z.max k 2 + 2) i').
Proof.
  revert k i. induction f as [|f IH]; intros k i Hw Hk Hf.
  { exfalso. unfold within, Cortex.enough, late in *. pose proof gap_pos. nia. }
  cbn [rhs_hal_i2c_wait_for_idle]. silent_step v1_expired_spec. intros b i1 (W1 & T1 & A1 & L1 & F1).
  destruct b; [apply runs_ret; split_and!; [done|done|weaken]|].
  destruct (decide (begin = RHSHalI2cBeginStart)); [|apply runs_ret; split_and!; [done|done|weaken]].
  specialize (F1 eq_refl). silent_step busy_spec. intros busy i2 (W2 & T2 & A2 & _). destruct busy.
  - eapply runs_mono; [apply (IH 2); [weaken|lia|unfold Cortex.enough in *; lia]|]. intros b i3 (W3 & T3 & A3).
    split_and!; [congruence|lia|weaken].
  - apply runs_ret. split_and!; [congruence|lia|weaken].
Qed.

Lemma v1_write_bytes_spec f data i : at_ 15 i -> enough f i ->
  runs (write_bytes f data timer) i (fun b i' => at_ 25 i' /\ time i <= time i' /\
    exists j, v1_wire i' = v1_wire i ++ map VByte (take j data) /\ (b = true -> take j data = data)).
Proof.
  revert data i. induction f as [|f IH]; intros data i Hw Hf.
  { exfalso. unfold within, Cortex.enough, late in *. pose proof gap_pos. nia. }
  cbn [write_bytes]. destruct data as [|byte rest].
  { apply runs_ret. split_and!; [weaken|done|]. exists O. by rewrite app_nil_r. }
  silent_step v1_should_stop_spec. intros stop i1 (W1 & T1 & A1 & L1 & F1).
  set (k := if stop then 18 else 3). assert (Hk : 3 <= k <= 18) by (unfold k; destruct stop; lia).
  assert (A1' : at_ k i1) by (unfold k; destruct stop; auto).
  silent_step txe_spec. intros txe i2 (W2 & T2 & A2 & R2).
  apply runs_bind. eapply runs_mono with (P := fun data' i' => time i2 <= time i' /\ at_ (k + 2) i' /\
    exists j, data' = drop j (byte :: rest) /\ v1_wire i' = v1_wire i ++ map VByte (take j (byte :: rest))).
  { destruct txe.
    - eexists rest, (v1_TransmitData8 byte i2). split; [done|]. destruct (v1_transmit_spec byte i2) as [Tt Wt].
      split_and!; [lia|unfold within in *; lia|]. exists 1%nat. split; [done|]. rewrite Wt by auto. by rewrite W2, W1.
    - apply runs_ret. split_and!; [done|weaken|]. exists O. split; [done|]. rewrite app_nil_r. congruence. }
  intros data' i3 (T3 & A3 & j & -> & W3).
  apply runs_bind. eapply runs_mono with (P := fun _ i' => time i3 <= time i' /\ at_ (k + 7) i' /\ v1_wire i' = v1_wire i3).
  { destruct (drop j (byte :: rest)).
    - apply runs_bind. eapply runs_mono;
        [apply (poll_spec f _ _ 1 3 3 (fun _ => True) btf_spec should_stop_gives_up); [lia|lia|eassumption|lia|lia|unfold Cortex.enough in *; lia]|].
      intros ? i4 (W4 & T4 & A4 & _). apply runs_ret. split_and!; [done|weaken|done].
    - apply runs_ret. split_and!; [done|weaken|done]. }
  intros [] i4 (T4 & A4 & W4). rewrite W3 in W4. destruct stop; cbn in k.
  - apply runs_ret. split_and!; [exact A4|lia|]. exists j. split; [done|].
    intros Hd. destruct (drop j (byte :: rest)) eqn:Ed; [|done]. rewrite <- (take_drop j (byte :: rest)) at 2.
    by rewrite Ed, app_nil_r.
  - eapply runs_mono; [apply IH; [weaken|unfold Cortex.enough in *; lia]|]. intros b i5 (A5 & T5 & j' & W5 & D5).
    split_and!; [done|lia|]. exists (j + j')%nat. rewrite W5, W4, <- app_assoc, <- map_app.
    rewrite <- take_take_drop. split; [done|]. intros Hb. rewrite (D5 Hb). by rewrite take_drop.
Qed.

Lemma v1_read_bytes_spec f size e got i : at_ 15 i -> enough f i ->
  runs (read_bytes f (Z.of_nat size) e timer got) i (fun r i' => at_ 25 i' /\ time i <= time i' /\
    exists n, (n <= size)%nat /\ (fst r = true -> n = size) /\ snd r = got ++ v1_bytes v1_slave (v1_wire i) n /\
      v1_wire i' = v1_wire i ++ map VRead (v1_bytes v1_slave (v1_wire i) n)).
Proof.
  revert size got i. induction f as [|f IH]; intros size got i Hw Hf.
  { exfalso. unfold within, Cortex.enough, late in *. pose proof gap_pos. nia. }
  cbn [read_bytes]. destruct (Z.leb_spec (Z.of_nat size) 0).
  { apply runs_ret. split_and!; [weaken|done|]. exists O. cbn. rewrite !app_nil_r. repeat split; lia. }
  silent_step v1_should_stop_spec. intros stop i1 (W1 & T1 & A1 & L1 & F1).
  set (k := if stop then 18 else 3). assert (Hk : 3 <= k <= 18) by (unfold k; destruct stop; lia).
  assert (A1' : at_ k i1) by (unfold k; destruct stop; auto).
  apply runs_bind. eapply runs_mono with (P := fun _ i' => time i1 <= time i' /\ at_ (k + 1) i' /\ v1_wire i' = v1_wire i1).
  { destruct (v1_ack_spec false i1) as (Tn & Wn). destruct (_ && _).
    - eexists _, (v1_AcknowledgeNextData false i1). split; [done|]. split_and!; [lia|unfold within in *; lia|done].
    - apply runs_ret. split_and!; [done|weaken|done]. }
  intros [] i2 (T2 & A2 & W2). silent_step rxne_spec. intros rxne i3 (W3 & T3 & A3 & R3).
  apply runs_bind. eapply runs_mono with (P := fun r i' => time i3 <= time i' /\ at_ (k + 3) i' /\
    exists n, (n <= size)%nat /\ fst r = Z.of_nat (size - n) /\ snd r = got ++ v1_bytes v1_slave (v1_wire i) n /\
      v1_wire i' = v1_wire i ++ map VRead (v1_bytes v1_slave (v1_wire i) n) /\ n = (if rxne then 1 else 0)%nat).
  { destruct rxne.
    - apply runs_bind, runs_call. pose proof (v1_receive_spec i3) as Hr. destruct (v1_ReceiveData8 i3) as [b i4].
      destruct Hr as (Tr & Hr). destruct Hr as [-> Wr]; [by auto|]. apply runs_ret. split; [lia|].
      split; [unfold within in *; lia|]. exists 1%nat. rewrite W3, W2, W1 in *. cbn. split_and!; done || lia.
    - apply runs_ret. split_and!; [done|weaken|]. exists O. cbn. rewrite !app_nil_r. repeat split; (lia || congruence). }
  intros [size' got'] i4 (T4 & A4 & n & Hn & Es & Eg & W4 & Hn1). cbn [fst snd] in Es, Eg. subst size' got'.
  destruct stop; cbn in k.
  - apply runs_ret. split_and!; [weaken|lia|]. exists n. cbn [fst snd].
    split; [done|]. split; [|done]. destruct (Z.eqb_spec (Z.of_nat (size - n)) 0); [lia|done].
  - eapply runs_mono; [apply IH; [weaken|unfold Cortex.enough in *; lia]|].
    intros r i5 (A5 & T5 & m & Hm & D5 & G5 & W5). split_and!; [done|lia|]. exists (n + m)%nat.
    split; [lia|]. split; [intros Hb; specialize (D5 Hb); lia|].
    assert (v1_bytes v1_slave (v1_wire i) (n + m) = v1_bytes v1_slave (v1_wire i) n ++ v1_bytes v1_slave (v1_wire i4) m) as ->.
    { rewrite W4. destruct rxne; subst n; cbn; [done|by rewrite app_nil_r]. }
    rewrite G5, W5, W4, map_app, !app_assoc. done.
Qed.

Lemma v1_wait_for_end_spec f e k i : at_ k i -> 1 <= k <= 40 -> enough f i ->
  runs (rhs_hal_i2c_wait_for_end f e timer) i (fun _ i' => v1_wire i' = v1_wire i /\ time i <= time i' /\ at_ (k + 2) i').
Proof.
  intros Hw Hk Hf. unfold rhs_hal_i2c_wait_for_end. destruct (decide _).
  - apply runs_ret. split_and!; [done|done|weaken].
  - eapply runs_mono; [apply (poll_spec f _ _ 1 1 1 (fun _ => True) btf_spec expired_gives_up); [lia|lia|eassumption|lia|lia|done]|].
    intros ? i' (W & T & A' & _). split_and!; [done|done|weaken].
Qed.

Lemma end_transfer_spec f ret e i : at_ 25 i -> enough f i ->
  runs (end_transfer f ret e timer) i (fun b i' => v1_wire i' = v1_wire i ++ v1_stop e /\ time i <= time i' /\ at_ 30 i' /\ (b = true -> ret = true)).
Proof.
  intros Hw Hf. apply runs_bind.
  eapply runs_mono with (P := fun _ i' => v1_wire i' = v1_wire i ++ v1_stop e /\ time i <= time i' /\ at_ 26 i').
  { unfold v1_stop. destruct (v1_stop_spec i) as (Ts & Ws). destruct (decide _).
    - eexists tt, _. split; [done|]. split_and!; [done|lia|unfold within in *; lia].
    - apply runs_ret. rewrite app_nil_r. split_and!; [done|done|weaken]. }
  intros [] i0 (W0 & T0 & A0). apply runs_bind.
  eapply runs_mono with (P := fun b i' => v1_wire i' = v1_wire i0 /\ time i0 <= time i' /\ at_ 28 i' /\ (b = true -> ret = true)).
  { destruct ret.
    - eapply runs_mono; [apply (v1_wait_for_end_spec f e 26); [done|lia|unfold Cortex.enough in *; lia]|]. intros b i' (W & T & A'). done.
    - apply runs_ret. split_and!; [done|done|weaken|done]. }
  intros b i1 (W1 & T1 & A1 & D1). silent_step (control_spec _ v1_clear_AF_spec). intros [] i2 (W2 & T2 & A2 & _).
  destruct (decide (e = RHSHalI2cEndStop)).
  - silent_step (control_spec _ v1_clear_STOP_spec). intros [] i3 (W3 & T3 & A3 & _). apply runs_ret. split_and!; [congruence|lia|weaken|done].
  - apply runs_bind, runs_ret, runs_ret. split_and!; [congruence|lia|weaken|done].
Qed.

(** START and the address. *)
Lemma begin_transfer_spec f address ten_bit read k i : at_ k i -> 1 <= k <= 10 -> enough f i ->
  runs (begin_transfer f address ten_bit read timer) i (fun b i' => time i <= time i' /\ at_ (k + 9) i' /\
    if b : bool then ten_bit = false /\ v1_wire i' = v1_wire i ++ v1_address address read /\ v1_acks (v1_wire i') = true
    else exists n, v1_wire i' = v1_wire i ++ take n (v1_address address read)).
Proof.
  intros Hw Hk Hf. destruct (v1_start_spec i) as (Ts & Ws). apply runs_bind. eexists tt, _. split; [done|].
  set (i1 := v1_GenerateStartCondition i) in *. assert (A1 : at_ (k + 1) i1) by (unfold within in *; lia).
  apply runs_bind. eapply runs_mono; [apply (poll_spec f _ _ 1 1 1 _ sb_spec expired_gives_up); [lia|lia|eassumption|lia|lia|unfold Cortex.enough in *; lia]|].
  intros up i2 (W2 & T2 & A2 & R2). destruct up; cbn [negb].
  2: { apply runs_ret. split_and!; [lia|weaken|]. exists 1%nat. by rewrite W2, Ws. }
  destruct ten_bit. { apply runs_ret. split_and!; [lia|weaken|]. exists 1%nat. by rewrite W2, Ws. }
  destruct (v1_transmit_spec (u8 (Z.lor (Z.shiftl address 1) (if read then 1 else 0))) i2) as [Tt Wt]. specialize (Wt (R2 eq_refl)).
  apply runs_bind. eexists tt, _. split; [done|]. set (i3 := v1_TransmitData8 _ i2) in *.
  assert (W3 : v1_wire i3 = v1_wire i ++ v1_address address read) by (rewrite Wt, W2, Ws, <- app_assoc; done).
  assert (A3 : at_ (k + 4) i3) by (unfold within in *; lia).
  apply runs_bind. eapply runs_mono; [apply (poll_spec f _ _ 1 2 1 _ addr_spec giving_up_spec); [lia|lia|eassumption|lia|lia|unfold Cortex.enough in *; lia]|].
  intros acked i4 (W4 & T4 & A4 & R4). destruct acked; cbn [negb].
  - silent_step (control_spec _ v1_clear_ADDR_spec). intros [] i5 (W5 & T5 & A5 & _). apply runs_ret.
    split_and!; [lia|weaken|done|congruence|]. rewrite W5. auto.
  - silent_step (control_spec _ v1_clear_AF_spec). intros [] i5 (W5 & T5 & A5 & _). apply runs_ret.
    split_and!; [lia|weaken|]. exists 2%nat. rewrite W5, W4, W3. done.
Qed.

Lemma begin_transaction_spec f address ten_bit begin read i : at_ 1 i -> enough f i ->
  runs (begin_transaction f address ten_bit begin read timer) i (fun b i' => time i <= time i' /\ at_ 15 i' /\
    if b : bool then v1_begun v1_acks (v1_wire i) address ten_bit read begin /\ v1_wire i' = v1_wire i ++ v1_begin address read begin
    else v1_not_begun (v1_wire i) address read begin (v1_wire i')).
Proof.
  intros Hw Hf. apply runs_bind. eapply runs_mono; [apply (v1_wait_for_idle_spec f begin 1); [done|lia|done]|].
  intros idle i1 (W1 & T1 & A1). destruct idle; cbn [negb].
  2: { apply runs_ret. split_and!; [done|weaken|]. exists O. by rewrite app_nil_r. }
  silent_step (control_spec _ (v1_ack_spec true)). intros [] i2 (W2 & T2 & A2 & _).
  assert (Hs : (let s := rhs_hal_i2c_get_start_signal begin ten_bit read in (s =? 0) || (s =? 1) || (s =? 2) || (s =? 3)) =
    negb (bool_decide (begin = RHSHalI2cBeginResume))) by by destruct begin, read.
  cbn zeta in Hs. rewrite Hs. unfold v1_begin, v1_begun, v1_not_begun, v1_begin. case_bool_decide as Hb; cbn [negb].
  - apply runs_ret. split_and!; [lia|weaken|by left|]. rewrite decide_True, app_nil_r by done. congruence.
  - eapply runs_mono; [apply (begin_transfer_spec f address ten_bit read 5); [weaken|lia|unfold Cortex.enough in *; lia]|].
    intros b i3 (T3 & A3 & O3). rewrite decide_False by done. rewrite W2, W1 in O3. split_and!; [lia|weaken|].
    destruct b; [|done]. destruct O3 as (-> & W3 & K3). split; [right; split; [done|by rewrite <- W3]|done].
Qed.

Lemma v1_write_transaction_spec f address ten_bit data begin e i : at_ 1 i -> enough f i ->
  runs (write_transaction f address ten_bit data begin e timer) i (fun b i' => at_ 30 i' /\ time i <= time i' /\
    v1_tx_outcome v1_acks (v1_wire i) address ten_bit data begin e b (v1_wire i')).
Proof.
  intros Hw Hf. apply runs_bind. eapply runs_mono; [by apply begin_transaction_spec|].
  intros b i1 (T1 & A1 & O1). destruct b; cbn [negb].
  2: { apply runs_ret. split_and!; [weaken|done|by left]. }
  destruct O1 as [B1 W1]. apply runs_bind. eapply runs_mono; [apply v1_write_bytes_spec; [done|unfold Cortex.enough in *; lia]|].
  intros ret i2 (A2 & T2 & j & W2 & D2). eapply runs_mono; [apply end_transfer_spec; [done|unfold Cortex.enough in *; lia]|].
  intros b i3 (W3 & T3 & A3 & D3). split_and!; [done|lia|]. right. split; [done|]. exists j.
  split; [|by auto]. by rewrite W3, W2, W1, <- !app_assoc.
Qed.

Lemma v1_read_transaction_spec f address ten_bit size begin e i : at_ 1 i -> enough f i ->
  runs (read_transaction f address ten_bit (Z.of_nat size) begin e timer) i (fun r i' => at_ 30 i' /\ time i <= time i' /\
    v1_rx_outcome v1_acks v1_slave (v1_wire i) address ten_bit size begin e r (v1_wire i')).
Proof.
  intros Hw Hf. apply runs_bind. eapply runs_mono; [by apply begin_transaction_spec|].
  intros b i1 (T1 & A1 & O1). destruct b; cbn [negb].
  2: { apply runs_ret. split_and!; [weaken|done|by left]. }
  destruct O1 as [B1 W1]. apply runs_bind. eapply runs_mono; [apply v1_read_bytes_spec; [done|unfold Cortex.enough in *; lia]|].
  intros [ret got] i2 (A2 & T2 & n & Hn & D2 & G2 & W2). cbn [fst snd] in *. apply runs_bind.
  eapply runs_mono; [apply end_transfer_spec; [done|unfold Cortex.enough in *; lia]|].
  intros b i3 (W3 & T3 & A3 & D3). apply runs_ret. split_and!; [done|lia|]. right. split; [done|]. exists n. cbn zeta.
  rewrite W1 in G2, W2. split_and!; [done|by rewrite W3, W2, <- app_assoc|done|]. cbn [fst]. auto.
Qed.

(** What a probe leaves on the wire: nothing, a START, or the address with a STOP. *)
Definition probed (w : list v1_event) (i2c_addr : Z) (ready : bool) (w' : list v1_event) : Prop :=
  (ready = false /\ (w' = w \/ w' = w ++ [VStart])) \/
  w' = w ++ v1_address i2c_addr false ++ [VStop] /\ (ready = true -> v1_acks (w ++ v1_address i2c_addr false) = true).

Lemma probe_spec f i2c_addr i : at_ 5 i -> enough f i ->
  runs (probe f i2c_addr timer) i (fun b i' => at_ 30 i' /\ time i <= time i' /\ probed (v1_wire i) i2c_addr b (v1_wire i')).
Proof.
  intros Hw Hf. destruct (v1_start_spec i) as (Ts & Ws). apply runs_bind. eexists tt, _. split; [done|].
  set (i1 := v1_GenerateStartCondition i) in *. assert (A1 : at_ 6 i1) by (unfold within in *; lia).
  apply runs_bind. eapply runs_mono; [apply (poll_spec f _ _ 1 1 1 _ sb_spec expired_gives_up); [lia|lia|eassumption|lia|lia|unfold Cortex.enough in *; lia]|].
  intros up i2 (W2 & T2 & A2 & R2). destruct up; cbn [negb].
  2: { apply runs_ret. split_and!; [weaken|lia|]. left. split; [done|]. right. congruence. }
  destruct (v1_transmit_spec (u8 (Z.lor (Z.shiftl i2c_addr 1) 0)) i2) as [Tt Wt]. specialize (Wt (R2 eq_refl)).
  apply runs_bind. eexists tt, _. split; [done|]. set (i3 := v1_TransmitData8 _ i2) in *.
  assert (W3 : v1_wire i3 = v1_wire i ++ v1_address i2c_addr false) by (rewrite Wt, W2, Ws, <- app_assoc; done).
  assert (A3 : at_ 9 i3) by (unfold within in *; lia).
  assert (Hans : silent 2 (or_else flag_ADDR flag_AF) (fun b _ _ => b = true -> True)).
  { change 2 with (1 + 1). eapply v1_or_else_spec; [apply addr_spec|apply sr1_flag_spec|lia|lia|done|done]. }
  assert (Hstop : forall i', at_ 15 i' -> time i3 <= time i' ->
    at_ 16 (v1_GenerateStopCondition i') /\ time i <= time (v1_GenerateStopCondition i') /\ v1_wire (v1_GenerateStopCondition i') = v1_wire i' ++ [VStop]).
  { intros i' A' T'. destruct (v1_stop_spec i') as [Tp Wp]. split_and!; [unfold within in *; lia|lia|done]. }
  apply runs_bind. eapply runs_mono; [apply (poll_spec f _ _ 2 1 1 (fun _ => True) Hans expired_gives_up); [lia|lia|eassumption|lia|lia|unfold Cortex.enough in *; lia]|].
  intros answered i4 (W4 & T4 & A4 & _). destruct answered; cbn [negb].
  2: { apply runs_bind. eexists tt, _. split; [done|]. apply runs_ret.
       destruct (Hstop i4) as (A5 & T5 & W5); [weaken|lia|]. split_and!; [weaken|lia|]. right.
       split; [|done]. by rewrite W5, W4, W3, <- app_assoc. }
  silent_step addr_spec. intros ret i5 (W5 & T5 & A5 & K5). apply runs_bind.
  eapply runs_mono with (P := fun _ i' => v1_wire i' = v1_wire i5 /\ time i5 <= time i' /\ at_ 15 i').
  { destruct ret.
    - eapply runs_mono; [apply (control_spec _ v1_clear_ADDR_spec); [eassumption|lia|lia]|]. intros [] i' (W' & T' & A' & _). split_and!; [done|done|weaken].
    - eapply runs_mono; [apply (control_spec _ v1_clear_AF_spec); [eassumption|lia|lia]|]. intros [] i' (W' & T' & A' & _). split_and!; [done|done|weaken]. }
  intros [] i6 (W6 & T6 & A6). destruct (Hstop i6) as (A7 & T7 & W7); [done|lia|].
  apply runs_bind. eexists tt, _. split; [done|]. silent_step (control_spec _ v1_clear_STOP_spec). intros [] i8 (W8 & T8 & A8 & _).
  apply runs_ret. split_and!; [weaken|lia|]. right. assert (W56 : v1_wire i5 = v1_wire i ++ v1_address i2c_addr false) by congruence.
  split; [by rewrite W8, W7, W6, W56, <- app_assoc|]. intros Hr. rewrite <- W56. auto.
Qed.
End transfers.

Section bus.
Context {Q : Type} {I : Type} `{I2cV1Laws I} (fuel : nat).
Implicit Types b : RHSHalI2cBus Q I.

(** C31: On the STM32F1 and F4, with an acquired bus, a transmission and a reception of any length end
    in time, however the peripheral and the slave behave. Either the transaction does not begin -
    it returns false, and leaves nothing, a START, or a START and an address that nobody
    acknowledged, and no STOP - or a slave acknowledged the seven-bit address (or the transaction
    resumes another) and the bytes follow in order, all of them when it returns true, and then,
    whether it returns true or not, a STOP exactly when one was asked for. *)
Theorem i2c_v1_transfer_correct b handle address ten_bit data size begin e timeout :
  current_handle b = handle -> good_ms fuel timeout ->
  (exists ok b', rhs_hal_i2c_tx_ext fuel handle address ten_bit data begin e timeout b = Ret (ok, b') /\
     current_handle b' = handle /\ time (i2c b') <= deadline b timeout /\
     v1_tx_outcome v1_acks (v1_wire (i2c b)) address ten_bit data begin e ok (v1_wire (i2c b'))) /\
  (exists r b', rhs_hal_i2c_rx_ext fuel handle address ten_bit (Z.of_nat size) begin e timeout b = Ret (r, b') /\
     current_handle b' = handle /\ time (i2c b') <= deadline b timeout /\
     v1_rx_outcome v1_acks v1_slave (v1_wire (i2c b)) address ten_bit size begin e r (v1_wire (i2c b'))).
Proof.
  intros Hh Ht. split.
  - destruct (with_timer v1_wire v1_cyccnt_wire fuel b handle timeout (write_transaction fuel address ten_bit data begin e)
      (fun w ok w' => v1_tx_outcome v1_acks w address ten_bit data begin e ok w')) as (ok & b' & E & A & _ & T & O); [done..| |].
    { intros start i Hg Hw Hf. by apply v1_write_transaction_spec. }
    by exists ok, b'.
  - destruct (with_timer v1_wire v1_cyccnt_wire fuel b handle timeout (read_transaction fuel address ten_bit (Z.of_nat size) begin e)
      (fun w r w' => v1_rx_outcome v1_acks v1_slave w address ten_bit size begin e r w')) as (r & b' & E & A & _ & T & O); [done..| |].
    { intros start i Hg Hw Hf. by apply v1_read_transaction_spec. }
    by exists r, b'.
Qed.

(** On the STM32F1 and F4 a probe ends in time, and returns true only if the slave
    acknowledged its address. Once the address is out a STOP follows, whatever the answer. *)
Theorem i2c_v1_probe_correct b handle i2c_addr timeout :
  current_handle b = handle -> handle <> 0 -> 0 < timeout -> good_ms fuel timeout ->
  exists ready b', rhs_hal_i2c_is_device_ready fuel handle i2c_addr timeout b = Ret (ready, b') /\
    current_handle b' = handle /\ time (i2c b') <= deadline b timeout /\
    probed (v1_wire (i2c b)) i2c_addr ready (v1_wire (i2c b')).
Proof.
  intros Hh Hh0 Ht0 Ht. unfold rhs_hal_i2c_is_device_ready.
  assert (Ha : assert_acquired handle timeout b = Ret (tt, b)).
  { unfold assert_acquired. rewrite (proj2 (Z.eqb_neq handle 0) Hh0). munfold. cbn [negb]. rewrite Hh, Z.eqb_refl.
    by rewrite (proj2 (Z.ltb_lt 0 timeout) Ht0). }
  rewrite (bind_eq _ _ _ _ _ Ha).
  destruct (with_timer v1_wire v1_cyccnt_wire fuel b handle timeout (fun timer =>
      idle ← rhs_hal_i2c_wait_for_idle fuel RHSHalI2cBeginStart timer; if negb idle then mret false else probe fuel i2c_addr timer)
      (fun w ok w' => probed w i2c_addr ok w')) as (ok & b' & E & A & _ & T & O); [done..| |by exists ok, b'].
  intros start i Hg Hw Hf. apply runs_bind. eapply runs_mono; [by apply (v1_wait_for_idle_spec start _ Hg fuel RHSHalI2cBeginStart 1)|].
  intros idle i1 (W1 & T1 & A1). destruct idle; cbn [negb].
  - eapply runs_mono; [apply (probe_spec start _ Hg fuel); [eapply within_weaken; [done|lia]|unfold enough in *; lia]|].
    intros b1 i2 (A2 & T2 & O2). rewrite W1 in O2. split_and!; [done|lia|done].
  - apply runs_ret. split_and!; [eapply within_weaken; [done|lia]|done|]. left. split; [done|by left].
Qed.
End bus.

(** ** A peripheral to instantiate the theorems with

    The address 80 is answered, by a slave that sends 7 all the time; STOP frees the bus. *)

Record v1_sim := mkV1 { v1_events : list v1_event; v1_clock : Z }.
Definition v1_log (e : v1_event) (i : v1_sim) : v1_sim := mkV1 (v1_events i ++ [e]) (v1_clock i).
Definition v1_answers (w : list v1_event) : bool :=
  match last w with Some (VByte a) => Z.shiftr a 1 =? 80 | _ => false end.

#[global] Instance v1_sim_hw : I2cV1Hw v1_sim := {
  v1_dwt := {| CYCCNT i := (u32 (v1_clock i), mkV1 (v1_events i) (v1_clock i + 1)); SystemCoreClock _ := 1000000 |};
  SR1 i := (if v1_answers (v1_events i) then 2 ^ 0 + 2 ^ 1 + 2 ^ 2 + 2 ^ 6 + 2 ^ 7 else 2 ^ 0 + 2 ^ 2 + 2 ^ 6 + 2 ^ 7 + 2 ^ 10, i);
  SR2 i := (0, i);
  v1_GenerateStartCondition := v1_log VStart;
  v1_GenerateStopCondition := v1_log VStop;
  v1_AcknowledgeNextData _ i := i;
  v1_TransmitData8 b := v1_log (VByte b);
  v1_ReceiveData8 i := (7, v1_log (VRead 7) i);
  v1_ClearFlag_ADDR i := i;
  v1_ClearFlag_AF i := i;
  v1_ClearFlag_STOP i := i
}.
#[local] Obligation Tactic := idtac.
#[global] Program Instance v1_sim_dwt_laws : DwtLaws v1_sim := {| time := v1_clock; gap := 1; clock_hz := 1000000 |}.
Next Obligation. done. Qed.
Next Obligation. done. Qed.
Next Obligation. intros i. cbn. split; [done|lia]. Qed.
#[global] Instance v1_sim_laws : I2cV1Laws v1_sim.
Proof.
  refine {| v1_dwt_laws := v1_sim_dwt_laws; v1_wire := v1_events; v1_slave _ := 7; v1_acks := v1_answers;
    dr_free _ := true; dr_full _ := true |}; intros; cbn;
    first [by split_and!; (done || lia) | by destruct (v1_answers (v1_events i)); split_and!; (done || lia) | by repeat split; lia].
Defined.

(** A bus acquired for the handle 5. *)
Definition a_v1_bus : RHSHalI2cBus plain_mutex v1_sim := mkBus (mkV1 [] 4294967000) 5 None.
Lemma a_v1_bus_good : good_ms (D := v1_sim) (Z.to_nat 1100) 1.
Proof.
  split; [split; [reflexivity|]; split; [split; [discriminate|reflexivity]|reflexivity]|].
  rewrite Z2Nat.id; [reflexivity|discriminate].
Defined.

Theorem i2c_v1_transfer_correct_witness :
  (exists ok b', rhs_hal_i2c_tx_ext (Z.to_nat 1100) 5 80 false [1; 2] RHSHalI2cBeginStart RHSHalI2cEndStop 1 a_v1_bus = Ret (ok, b') /\
     v1_tx_outcome v1_answers [] 80 false [1; 2] RHSHalI2cBeginStart RHSHalI2cEndStop ok (v1_events (i2c b'))) /\
  (exists r b', rhs_hal_i2c_rx_ext (Z.to_nat 1100) 5 80 false (Z.of_nat 3) RHSHalI2cBeginStart RHSHalI2cEndStop 1 a_v1_bus = Ret (r, b') /\
     v1_rx_outcome v1_answers (fun _ => 7) [] 80 false 3 RHSHalI2cBeginStart RHSHalI2cEndStop r (v1_events (i2c b'))).
Proof.
  destruct (i2c_v1_transfer_correct (H0 := v1_sim_laws) (Z.to_nat 1100) a_v1_bus 5 80 false [1; 2] 3 RHSHalI2cBeginStart RHSHalI2cEndStop 1 eq_refl a_v1_bus_good)
    as ((ok & b1 & E1 & _ & _ & O1) & (r & b2 & E2 & _ & _ & O2)).
  split; [by exists ok, b1|by exists r, b2].
Defined.

Theorem i2c_v1_probe_correct_witness :
  exists ready b', rhs_hal_i2c_is_device_ready (Z.to_nat 1100) 5 81 1 a_v1_bus = Ret (ready, b') /\
    probed [] 81 ready (v1_events (i2c b')) /\ ready = false.
Proof.
  destruct (i2c_v1_probe_correct (H0 := v1_sim_laws) (Z.to_nat 1100) a_v1_bus 5 81 1 eq_refl ltac:(done) ltac:(lia) a_v1_bus_good) as (ready & b' & E & _ & _ & O).
  exists ready, b'. split; [exact E|]. split; [exact O|]. destruct ready; [|done]. exfalso.
  destruct O as [[? _]|[_ Hack]]; [done|]. specialize (Hack eq_refl). done.
Defined.
