(* ===== verification/Eeprom.v ===== *)
(** * I2C EEPROMs (drivers/eeprom/eeprom.c)

    The driver, on any I2C master that keeps the promises of [I2cMasterLaws], and an
    EEPROM that does what data sheets say. *)

From S2P Require Import Prelude Kernel Mutex Cortex I2c.

Inductive EepromStatus :=
  | EepromStatusOk | EepromStatusError | EepromStatusTimeout | EepromStatusInvalidParam | EepromStatusDeviceNotReady.
#[global] Instance EepromStatus_eq_dec : EqDecision EepromStatus.
Proof. solve_decision. Defined.

(** [i2c_handle] is 0 for NULL. *)
Record EepromType := mkEeprom {
  i2c_handle : Z; i2c_address : Z; eeprom_size : Z; page_size : Z; address_size : Z;
  write_delay_ms : Z; timeout_ms : Z
}.

Definition eeprom_init (eeprom : option EepromType) : EepromStatus :=
  match eeprom with
  | None => EepromStatusInvalidParam
  | Some e =>
      if (i2c_handle e =? 0) || (eeprom_size e =? 0) || (page_size e =? 0) || (timeout_ms e =? 0)
      then EepromStatusInvalidParam
      else if 0x7F <? i2c_address e then EepromStatusInvalidParam
      else if negb (address_size e =? 1) && negb (address_size e =? 2) then EepromStatusInvalidParam
      else EepromStatusOk
  end.

Section driver.
Context {B : Type} `{I2cMaster B} {S : Type} `{Scheduler S}.
(** [configTICK_RATE_HZ] *)
Context (tick_rate : Z).

Definition on_bus {A} (m : M B A) : M (B * S) A := fun st =>
  '(a, b) ← m (fst st); Ret (a, (b, snd st)).
Definition on_os {A} (m : M S A) : M (B * S) A := fun st =>
  '(a, s) ← m (snd st); Ret (a, (fst st, s)).

(** The address as it is sent, most significant byte first. *)
Definition addr_buf (e : EepromType) (address : Z) : list Z :=
  if address_size e =? 1 then [u8 (Z.land address 0xFF)]
  else [u8 (Z.land (Z.shiftr address 8) 0xFF); u8 (Z.land address 0xFF)].

(** [data] tells whether the pointer is not NULL; the bytes stored there are returned. *)
Definition eeprom_read (eeprom : option EepromType) (address : Z) (data : bool) (size : Z)
    : M (B * S) (EepromStatus * list Z) :=
  match eeprom with
  | None => mret (EepromStatusInvalidParam, [])
  | Some e =>
      if negb data || (size =? 0) then mret (EepromStatusInvalidParam, [])
      else if eeprom_size e <? u32 (address + size) then mret (EepromStatusInvalidParam, [])
      else
        '(success, bytes) ← on_bus (master_trx (i2c_handle e) (i2c_address e) (addr_buf e address) size (timeout_ms e));
        mret (if success : bool then EepromStatusOk else EepromStatusError, bytes)
  end.

(** One round writes what fits the current page; [n] bounds the rounds. A page size of 0
    divides by zero, and [current_data] must have the bytes. *)
Fixpoint eeprom_write_loop (n : nat) (e : EepromType) (remaining current_address : Z) (current_data : list Z)
    : M (B * S) EepromStatus :=
  if remaining =? 0 then mret EepromStatusOk
  else match n with
  | O => hang
  | Datatypes.S n =>
      if page_size e =? 0 then fault else
      let page_start := u16 (current_address / page_size e * page_size e) in
      let page_end := u16 (page_start + page_size e) in
      let bytes_to_page_end := u16 (page_end - current_address) in
      let bytes_to_write := if remaining <? bytes_to_page_end then remaining else bytes_to_page_end in
      success ← on_bus (master_tx_ext (i2c_handle e) (i2c_address e) (addr_buf e current_address)
        RHSHalI2cBeginStart RHSHalI2cEndPause (timeout_ms e));
      success ← (if success : bool then
                   if Z.of_nat (length current_data) <? bytes_to_write then fault
                   else on_bus (master_tx_ext (i2c_handle e) (i2c_address e)
                     (take (Z.to_nat bytes_to_write) current_data) RHSHalI2cBeginResume RHSHalI2cEndStop (timeout_ms e))
                 else mret false);
      if negb success then mret EepromStatusError
      else
        _ ← on_os (rhs_delay_ms tick_rate (write_delay_ms e));
        eeprom_write_loop n e (remaining - bytes_to_write) (u16 (current_address + bytes_to_write))
          (drop (Z.to_nat bytes_to_write) current_data)
  end.

Definition eeprom_write (eeprom : option EepromType) (address : Z) (data : option (list Z)) (size : Z)
    : M (B * S) EepromStatus :=
  match eeprom, data with
  | Some e, Some data =>
      if size =? 0 then mret EepromStatusInvalidParam
      else if eeprom_size e <? u32 (address + size) then mret EepromStatusInvalidParam
      else eeprom_write_loop (Z.to_nat size) e size address data
  | _, _ => mret EepromStatusInvalidParam
  end.
End driver.

(** ** The device

    An EEPROM listens after a start with its address; the first bytes written to it set
    its pointer, the next ones go to the page of the pointer, wrapping around at its end;
    it sends the byte at its pointer and moves on. *)

Record device := mkDevice { mem : Z -> Z; pointer : Z; selected : bool; address_left : nat; address_got : Z }.

Section the_device.
Context (e : EepromType).

Definition device_write (b : Z) (d : device) : device :=
  match address_left d with
  | Datatypes.S n =>
      let got := address_got d * 256 + b in
      mkDevice (mem d) (if (n =? 0)%nat then got else pointer d) (selected d) n got
  | O =>
      let p := pointer d in
      mkDevice (fun a => if a =? p then b else mem d a) (p - p mod page_size e + (p + 1) mod page_size e)
        (selected d) O (address_got d)
  end.

Definition device_step (d : device) (ev : wire_event) : device :=
  match ev with
  | EvBegin a _ _ NOSTARTSTOP => d
  | EvBegin a _ _ START_WRITE =>
      mkDevice (mem d) (pointer d) (a =? Z.shiftl (i2c_address e) 1) (Z.to_nat (address_size e)) 0
  | EvBegin a _ _ _ => mkDevice (mem d) (pointer d) (a =? Z.shiftl (i2c_address e) 1) O 0
  | EvWrite b => if selected d then device_write b d else d
  | EvRead _ =>
      if selected d then mkDevice (mem d) (pointer d + 1) (selected d) (address_left d) (address_got d) else d
  end.

Definition device_run (d : device) (w : list wire_event) : device := fold_left device_step w d.

Lemma device_run_app d w w' : device_run d (w ++ w') = device_run (device_run d w) w'.
Proof. apply fold_left_app. Qed.

Lemma device_run_cons d ev w : device_run d (ev :: w) = device_run (device_step d ev) w.
Proof. done. Qed.

(** Writes in a page, from the pointer. *)
Lemma device_writes d l :
  selected d = true -> address_left d = O -> 0 < page_size e ->
  pointer d mod page_size e + Z.of_nat (length l) <= page_size e ->
  forall a, mem (device_run d (map EvWrite l)) a =
    if (pointer d <=? a) && (a <? pointer d + Z.of_nat (length l)) then nth (Z.to_nat (a - pointer d)) l 0 else mem d a.
Proof.
  revert d. induction l as [|b l IH]; intros d Hs Hn Hp Hfit a.
  { cbn [map device_run fold_left length]. destruct (Z.leb_spec (pointer d) a), (Z.ltb_spec a (pointer d + Z.of_nat 0)); cbn [andb]; lia || done. }
  cbn [map device_run fold_left device_step]. rewrite Hs. fold (device_run (device_write b d) (map EvWrite l)).
  unfold device_write. rewrite Hn. set (p := pointer d) in *. cbn [length] in *.
  destruct l as [|b' l].
  { cbn [map device_run fold_left length mem]. change (Z.of_nat 1) with 1.
    destruct (Z.eqb_spec a p) as [->|].
    - rewrite Z.leb_refl, Z.sub_diag. by destruct (Z.ltb_spec p (p + 1)); [|lia].
    - destruct (Z.leb_spec p a), (Z.ltb_spec a (p + 1)); cbn [andb]; lia || done. }
  assert (Hmod : (p + 1) mod page_size e = p mod page_size e + 1).
  { symmetry. apply Z.mod_unique with (p / page_size e); pose proof (Z.div_mod p (page_size e) ltac:(lia));
      pose proof (Z.mod_pos_bound p (page_size e) ltac:(lia)); cbn [length] in Hfit; lia. }
  rewrite IH; cbn [selected address_left pointer mem]; rewrite ?Hmod; [|done|done|done|].
  - replace (p - p mod page_size e + (p mod page_size e + 1)) with (p + 1) by lia.
    destruct (Z.leb_spec (p + 1) a), (Z.leb_spec p a); try lia; cbn [andb].
    + replace (p + 1 + Z.of_nat (length (b' :: l))) with (p + Z.of_nat (Datatypes.S (length (b' :: l)))) by lia.
      destruct (Z.ltb_spec a (p + Z.of_nat (Datatypes.S (length (b' :: l))))).
      * replace (Z.to_nat (a - p)) with (Datatypes.S (Z.to_nat (a - (p + 1)))) by lia. done.
      * destruct (Z.eqb_spec a p); [lia|done].
    + assert (a = p) as -> by lia. rewrite Z.eqb_refl, Z.sub_diag. cbn [length].
      destruct (Z.ltb_spec p (p + Z.of_nat (Datatypes.S (Datatypes.S (length l))))); [done|lia].
    + destruct (Z.eqb_spec a p); [lia|done].
  - replace (p - p mod page_size e + (p mod page_size e + 1)) with (p + 1) by lia. rewrite Hmod. cbn [length] in *. lia.
Qed.
End the_device.

(** The parts the driver is right for: a page is transferred at once, and the address
    bytes reach all of the memory. *)
Record sound (e : EepromType) : Prop := {
  sound_page : 0 < page_size e <= 255;
  sound_size : (address_size e = 1 /\ 0 < eeprom_size e <= 256) \/ (address_size e = 2 /\ 0 < eeprom_size e <= 65536)
}.

Section address.
Context (e : EepromType) (Hsound : sound e).

Lemma addr_buf_length address : Z.of_nat (length (addr_buf e address)) = address_size e.
Proof. destruct (sound_size e Hsound) as [[Ha _]|[Ha _]]; unfold addr_buf; by rewrite Ha. Qed.

(** Bytes that are still of the address do not change the memory. *)
Lemma address_bytes_keep d l :
  selected d = false \/ (length l <= address_left d)%nat -> mem (device_run e d (map EvWrite l)) = mem d.
Proof.
  revert d. induction l as [|b l IH]; intros d Hd; [done|]. cbn [map device_run fold_left device_step].
  fold (device_run e (if selected d then device_write e b d else d) (map EvWrite l)).
  destruct (selected d) eqn:Es; [|by apply IH; left].
  destruct Hd as [?|Hd]; [done|]. unfold device_write. destruct (address_left d) as [|n] eqn:En; cbn [length] in Hd; [lia|].
  rewrite IH; [done|]. right. cbn. lia.
Qed.

(** A write transfer of the address: the pointer, when it is complete. *)
Lemma address_transfer d n es address j :
  0 <= address < eeprom_size e ->
  let d' := device_run e d (EvBegin (Z.shiftl (i2c_address e) 1) n es START_WRITE :: map EvWrite (take j (addr_buf e address))) in
  mem d' = mem d /\
  (take j (addr_buf e address) = addr_buf e address ->
     selected d' = true /\ address_left d' = O /\ pointer d' = address).
Proof.
  intros Ha d'. split.
  - unfold d'. rewrite device_run_cons. rewrite address_bytes_keep; [done|]. right. cbn [address_left device_step].
    pose proof (addr_buf_length address). rewrite length_take. lia.
  - intros E. unfold d'. rewrite E. destruct (sound_size e Hsound) as [[Hs Hz]|[Hs Hz]]; unfold addr_buf;
      rewrite Hs; cbn; rewrite Z.eqb_refl; rewrite Hs; unfold device_write;
      change (Z.to_nat 1) with 1%nat; change (Z.to_nat 2) with 2%nat; cbn; (split; [done|]); (split; [done|]).
    + change (Z.land address 255) with (Z.land address (Z.ones 8)). rewrite Z.land_ones by lia. word.
    + change 255 with (Z.ones 8). rewrite !Z.land_ones, Z.shiftr_div_pow2 by lia. word.
Qed.
End address.

Section properties.
Context {B : Type} `{I2cMasterLaws B} {S : Type} `{Scheduler S}.
Context (tick_rate : Z) (e : EepromType) (Hsound : sound e) (Htimeout : master_timeout (timeout_ms e)).
(** The device when the wire was empty. *)
Context (d0 : device).

Definition device_of (st : B * S) : device := device_run e d0 (master_wire (fst st)).
Definition memory (st : B * S) : Z -> Z := mem (device_of st).
Definition acquired (st : B * S) : Prop := master_handle (fst st) = i2c_handle e.

(** The address transfer of one page. *)
Lemma send_address (st : B * S) address : acquired st -> 0 <= address < eeprom_size e ->
  runs (on_bus (master_tx_ext (i2c_handle e) (i2c_address e) (addr_buf e address)
          RHSHalI2cBeginStart RHSHalI2cEndPause (timeout_ms e))) st
    (fun ok st' => acquired st' /\ memory st' = memory st /\
       (ok = true -> selected (device_of st') = true /\ address_left (device_of st') = O /\
                     pointer (device_of st') = address)).
Proof.
  intros Hb Ha. pose proof (addr_buf_length e Hsound address) as Hl.
  destruct (master_tx_spec (fst st) _ (i2c_address e) (addr_buf e address) RHSHalI2cBeginStart RHSHalI2cEndPause _ Hb Htimeout)
    as (ok & b' & E & Hh & O); [destruct (sound_size e Hsound); lia|].
  exists ok, (b', snd st). split; [unfold on_bus; by rewrite E|]. split; [done|].
  unfold memory, device_of. cbn [fst]. destruct O as [[-> ->]|(j & -> & Hok)]; [done|].
  rewrite device_run_app.
  destruct (address_transfer e Hsound (device_run e d0 (master_wire (fst st))) (Z.of_nat (length (addr_buf e address)))
    RELOAD address j Ha) as [Hm Hp].
  split; [exact Hm|]. intros Hk. apply Hp. auto.
Qed.

(** The data transfer of one page. *)
Lemma send_data (st : B * S) data :
  acquired st -> selected (device_of st) = true -> address_left (device_of st) = O ->
  0 < Z.of_nat (length data) -> pointer (device_of st) mod page_size e + Z.of_nat (length data) <= page_size e ->
  runs (on_bus (master_tx_ext (i2c_handle e) (i2c_address e) data RHSHalI2cBeginResume RHSHalI2cEndStop (timeout_ms e))) st
    (fun ok st' => acquired st' /\
       (forall a, a < pointer (device_of st) \/ pointer (device_of st) + Z.of_nat (length data) <= a ->
          memory st' a = memory st a) /\
       (ok = true -> forall i, 0 <= i < Z.of_nat (length data) ->
          memory st' (pointer (device_of st) + i) = nth (Z.to_nat i) data 0)).
Proof.
  intros Hb Hs Hl Hd Hfit. pose proof (sound_page e Hsound) as Hpage.
  pose proof (Z.mod_pos_bound (pointer (device_of st)) (page_size e) ltac:(lia)) as Hmod.
  destruct (master_tx_spec (fst st) _ (i2c_address e) data RHSHalI2cBeginResume RHSHalI2cEndStop _ Hb Htimeout)
    as (ok & b' & E & Hh & O); [lia|].
  exists ok, (b', snd st). split; [unfold on_bus; by rewrite E|]. split; [done|].
  unfold memory, device_of in *. cbn [fst]. set (d := device_run e d0 (master_wire (fst st))) in *.
  destruct O as [[-> ->]|(j & -> & Hok)]; [done|]. rewrite device_run_app. fold d.
  rewrite device_run_cons. cbn [device_step rhs_hal_i2c_get_start_signal].
  pose proof (length_take data j) as Hj.
  assert (Hw : forall a, mem (device_run e d (map EvWrite (take j data))) a =
    if (pointer d <=? a) && (a <? pointer d + Z.of_nat (length (take j data)))
    then nth (Z.to_nat (a - pointer d)) (take j data) 0 else mem d a).
  { apply device_writes; [done|done|lia|lia]. }
  split.
  - intros a Ha. rewrite Hw. destruct (Z.leb_spec (pointer d) a), (Z.ltb_spec a (pointer d + Z.of_nat (length (take j data)))); cbn [andb]; lia || done.
  - intros Hk i Hi. rewrite Hw, (Hok Hk).
    destruct (Z.leb_spec (pointer d) (pointer d + i)), (Z.ltb_spec (pointer d + i) (pointer d + Z.of_nat (length data))); try lia.
    cbn [andb]. do 2 f_equal. lia.
Qed.

(** What a write leaves: the rest of the memory, and the data when it succeeds. *)
Definition stored (address : Z) (data : list Z) (st : B * S) (r : EepromStatus) (st' : B * S) : Prop :=
  (r = EepromStatusOk \/ r = EepromStatusError) /\ acquired st' /\
  (forall a, a < address \/ address + Z.of_nat (length data) <= a -> memory st' a = memory st a) /\
  (r = EepromStatusOk -> forall i, 0 <= i < Z.of_nat (length data) -> memory st' (address + i) = nth (Z.to_nat i) data 0).

Lemma eeprom_write_loop_spec n address data (st : B * S) :
  acquired st -> 0 <= address -> address + Z.of_nat (length data) <= eeprom_size e -> (length data <= n)%nat ->
  runs (eeprom_write_loop tick_rate n e (Z.of_nat (length data)) (u16 address) data) st (stored address data st).
Proof.
  revert address data st. induction n as [|n IH]; intros address data st Hb Ha Hend Hn.
  { destruct data; [|cbn in Hn; lia]. cbn [eeprom_write_loop length]. apply runs_ret. split; [by left|].
    split; [done|]. split; [done|]. cbn. lia. }
  cbn [eeprom_write_loop]. destruct (Z.eqb_spec (Z.of_nat (length data)) 0) as [Hz|Hnz].
  { apply runs_ret. split; [by left|]. split; [done|]. split; [done|]. lia. }
  pose proof (sound_page e Hsound) as Hpage. destruct (Z.eqb_spec (page_size e) 0); [lia|].
  assert (Hsz : address < 65536) by (destruct (sound_size e Hsound); lia). rewrite (u16_small address) by lia.
  set (room := u16 (u16 (u16 (address / page_size e * page_size e) + page_size e) - address)).
  pose proof (Z.mod_pos_bound address (page_size e) ltac:(lia)) as Hmod.
  assert (Hroom : room = page_size e - address mod page_size e).
  { pose proof (Z.div_mod address (page_size e) ltac:(lia)) as Hdm.
    pose proof (Z.mod_le address (page_size e) Ha ltac:(lia)). unfold room.
    rewrite (Z.mul_comm (address / _)). set (start := page_size e * (address / page_size e)) in *.
    rewrite (u16_small start) by lia. unfold u16. rewrite Zminus_mod_idemp_l, Z.mod_small; lia. }
  set (chunk := if Z.of_nat (length data) <? room then Z.of_nat (length data) else room).
  assert (Hchunk : 0 < chunk <= Z.of_nat (length data) /\ address mod page_size e + chunk <= page_size e).
  { unfold chunk. destruct (Z.ltb_spec (Z.of_nat (length data)) room); lia. }
  apply runs_bind. eapply runs_mono; [apply send_address; [done|lia]|]. intros ok1 st1 (B1 & M1 & D1).
  assert (Hsome : Z.of_nat (length (take (Z.to_nat chunk) data)) = chunk) by (rewrite length_take; lia).
  apply runs_bind. eapply runs_mono with (P := fun ok st' => acquired st' /\
    (forall a, a < address \/ address + chunk <= a -> memory st' a = memory st a) /\
    (ok = true -> forall i, 0 <= i < chunk -> memory st' (address + i) = nth (Z.to_nat i) (take (Z.to_nat chunk) data) 0)).
  { destruct ok1; [|apply runs_ret; split; [done|]; split; [by intros; rewrite M1|done]].
    destruct D1 as (Ds & Dl & Dp); [done|]. destruct (Z.ltb_spec (Z.of_nat (length data)) chunk); [lia|].
    eapply runs_mono; [apply (send_data st1 (take (Z.to_nat chunk) data)); try done; rewrite ?Hsome, ?Dp; lia|].
    rewrite Hsome, Dp, M1. done. }
  intros ok2 st2 (B2 & O2 & D2). destruct ok2; cbn [negb].
  2: { apply runs_ret. split; [by right|]. split; [done|]. split; [intros a Hout; apply O2; lia|done]. }
  specialize (D2 eq_refl). destruct (delay_ms_returns tick_rate (write_delay_ms e) (snd st2)) as [s' Hdelay].
  apply runs_bind. exists tt, (fst st2, s'). split; [unfold on_os; by rewrite Hdelay|].
  set (rest := drop (Z.to_nat chunk) data).
  assert (Hrest : Z.of_nat (length rest) = Z.of_nat (length data) - chunk) by (unfold rest; rewrite length_drop; lia).
  rewrite <- Hrest. eapply runs_mono; [apply (IH (address + chunk) rest (fst st2, s')); [done|lia|lia|lia]|].
  intros r st3 (R3 & B3 & O3 & D3). split; [done|]. split; [done|].
  assert (Hsame : memory (fst st2, s') = memory st2) by done. rewrite Hsame in O3. split.
  - intros a Hout. rewrite O3 by lia. apply O2. lia.
  - intros Hr i Hi. destruct (Z.lt_ge_cases i chunk) as [Hlt|Hge].
    + rewrite O3, D2 by lia. rewrite <- (take_drop (Z.to_nat chunk) data) at 2. rewrite app_nth1; [done|lia].
    + specialize (D3 Hr (i - chunk) ltac:(lia)). replace (address + chunk + (i - chunk)) with (address + i) in D3 by lia.
      rewrite D3. unfold rest. rewrite nth_skipn. f_equal. lia.
Qed.
(** The device is the slave on the bus. *)
Context (Hslave : forall w, master_slave w = mem (device_run e d0 w) (pointer (device_run e d0 w))).

Lemma slave_bytes_read w n : selected (device_run e d0 w) = true ->
  let d := device_run e d0 w in
  slave_bytes master_slave w n = map (fun i => mem d (pointer d + Z.of_nat i)) (seq 0 n) /\
  mem (device_run e d (map EvRead (slave_bytes master_slave w n))) = mem d.
Proof.
  revert w. induction n as [|n IH]; intros w Hs d; [done|]. cbn [slave_bytes].
  destruct (IH (w ++ [EvRead (master_slave w)])) as [E1 E2];
    [rewrite device_run_app; fold d; rewrite device_run_cons; cbn [device_step]; fold d in Hs; by rewrite Hs|].
  rewrite device_run_app in E1, E2. fold d in E1, E2, Hs. rewrite !device_run_cons in E1, E2.
  cbn [device_step device_run fold_left] in E1, E2. rewrite Hs in E1, E2. cbn [mem pointer] in E1, E2. split.
  - rewrite E1, Hslave. fold d. cbn [seq map]. rewrite Z.add_0_r. f_equal. rewrite <- seq_shift, map_map.
    apply map_ext. intros i. f_equal. lia.
  - cbn [map]. rewrite device_run_cons. cbn [device_step]. rewrite Hs. exact E2.
Qed.

Lemma eeprom_read_spec (st : B * S) address size :
  acquired st -> 0 <= address -> 0 < Z.of_nat size <= 255 -> address + Z.of_nat size <= eeprom_size e ->
  runs (eeprom_read (Some e) address true (Z.of_nat size)) st (fun r st' =>
    (fst r = EepromStatusOk \/ fst r = EepromStatusError) /\ acquired st' /\ memory st' = memory st /\
    (fst r = EepromStatusOk -> snd r = map (fun i => memory st (address + Z.of_nat i)) (seq 0 size))).
Proof.
  intros Hb Ha Hn Hend. unfold eeprom_read. cbn [negb orb]. destruct (Z.eqb_spec (Z.of_nat size) 0); [lia|].
  assert (eeprom_size e <= 65536) by (destruct (sound_size e Hsound); lia).
  rewrite u32_small by lia. destruct (Z.ltb_spec (eeprom_size e) (address + Z.of_nat size)); [lia|].
  pose proof (addr_buf_length e Hsound address) as Hl.
  destruct (master_trx_spec (fst st) _ (i2c_address e) (addr_buf e address) size _ Hb Htimeout)
    as ([ok got] & b' & E & Hh & tx & w & rx & Otx & Orx & Eok); [destruct (sound_size e Hsound); lia|done|].
  apply runs_bind. exists (ok, got), (b', snd st). split; [unfold on_bus; by rewrite E|]. apply runs_ret.
  cbn [fst snd] in Eok, Orx |- *. subst ok. unfold acquired, memory, device_of. cbn [fst].
  set (d := device_run e d0 (master_wire (fst st))).
  split; [destruct (tx && rx); auto|]. split; [done|].
  assert (Hw : mem (device_run e d0 w) = mem d /\ (tx = true -> pointer (device_run e d0 w) = address)).
  { destruct Otx as [[-> ->]|(j & -> & Hok)]; [done|]. rewrite device_run_app. fold d.
    destruct (address_transfer e Hsound d (Z.of_nat (length (addr_buf e address))) AUTOEND address j) as [Hm Hp]; [lia|].
    split; [exact Hm|]. intros Htx. by apply Hp, Hok. }
  destruct Hw as [Hmw Hpw].
  destruct Orx as [(E1 & E2 & E3)|(k & Hle & W & G & D)].
  - cbn [fst] in E1. subst rx. rewrite andb_false_r, E3. by split.
  - cbn [fst snd] in D, G. rewrite W.
    destruct (slave_bytes_read (w ++ [EvBegin (Z.shiftl (i2c_address e) 1) (Z.of_nat size) AUTOEND START_READ]) k) as [E1 E2].
    { rewrite device_run_app, device_run_cons. cbn. by rewrite Z.eqb_refl. }
    rewrite device_run_app in E1, E2. cbn [device_run fold_left device_step mem pointer] in E1, E2.
    rewrite Hmw in E1, E2. split.
    + rewrite device_run_app, device_run_app, device_run_cons.
      cbn [device_step device_run fold_left rhs_hal_i2c_get_start_signal]. rewrite Hmw. exact E2.
    + intros Hok. destruct tx, rx; try done. rewrite (D eq_refl), (Hpw eq_refl) in *. rewrite G. exact E1.
Qed.

(** C29: a write in the memory ends, with OK or an error; it never changes a byte outside
    its range, whichever pages the range goes over; when it returns OK every byte of the
    range is the data. A read of up to 255 bytes anywhere changes nothing and, when it
    returns OK, gives the bytes of the memory. A write that would go beyond the memory is
    refused and does nothing. *)
Theorem eeprom_write_read_correct (st : B * S) address data raddr rsize :
  acquired st -> 0 <= address -> data <> [] -> address + Z.of_nat (length data) <= eeprom_size e ->
  0 <= raddr -> 0 < Z.of_nat rsize <= 255 -> raddr + Z.of_nat rsize <= eeprom_size e ->
  let size := Z.of_nat (length data) in
  exists r st1 r2 bytes st2,
    eeprom_write tick_rate (Some e) address (Some data) size st = Ret (r, st1) /\
    (r = EepromStatusOk \/ r = EepromStatusError) /\
    (forall a, a < address \/ address + size <= a -> memory st1 a = memory st a) /\
    (r = EepromStatusOk -> forall i, 0 <= i < size -> memory st1 (address + i) = nth (Z.to_nat i) data 0) /\
    eeprom_read (Some e) raddr true (Z.of_nat rsize) st1 = Ret ((r2, bytes), st2) /\
    (r2 = EepromStatusOk \/ r2 = EepromStatusError) /\ memory st2 = memory st1 /\
    (r2 = EepromStatusOk -> bytes = map (fun i => memory st1 (raddr + Z.of_nat i)) (seq 0 rsize)) /\
    forall size', eeprom_size e < address + size' < 2 ^ 32 ->
      eeprom_write tick_rate (Some e) address (Some data) size' st = Ret (EepromStatusInvalidParam, st).
Proof.
  intros Hb Ha Hne Hend Hra Hrs Hrend size. assert (0 < size) by (unfold size; destruct data; [done|cbn; lia]).
  assert (Hsz : eeprom_size e <= 65536) by (destruct (sound_size e Hsound); lia).
  assert (Hw : runs (eeprom_write tick_rate (Some e) address (Some data) size) st (stored address data st)).
  { unfold eeprom_write. destruct (Z.eqb_spec size 0); [lia|]. rewrite u32_small by lia.
    destruct (Z.ltb_spec (eeprom_size e) (address + size)); [lia|].
    rewrite <- (u16_small address) at 1 by lia. apply eeprom_write_loop_spec; (done || lia). }
  destruct Hw as (r & st1 & E & R & B1 & O & D).
  destruct (eeprom_read_spec st1 raddr rsize) as ([r2 bytes] & st2 & E2 & R2 & _ & M2 & D2); [done..|].
  exists r, st1, r2, bytes, st2. do 8 (split; [done|]). intros size' Hs'. unfold eeprom_write.
  destruct (Z.eqb_spec size' 0); [lia|]. rewrite u32_small by lia.
  by destruct (Z.ltb_spec (eeprom_size e) (address + size')); [|lia].
Qed.
End properties.

(** ** A part on a bus to instantiate the theorem with *)

(** 4096 bytes in pages of 32, at address 80. *)
Definition a_eeprom : EepromType := mkEeprom 5 80 4096 32 2 5 1.
Definition blank : device := mkDevice (fun _ => 255) 0 false 0 0.
Definition answer (w : list wire_event) : Z :=
  mem (device_run a_eeprom blank w) (pointer (device_run a_eeprom blank w)).

Theorem eeprom_write_read_correct_witness :
  let h := sim_hw answer in let l := sim_laws answer in
  let m := bus_master (Q := plain_mutex) (Z.to_nat 1100) in let ml := bus_master_laws (Q := plain_mutex) (Z.to_nat 1100) in
  exists r st1 r2 bytes st2,
    eeprom_write 1000 (Some a_eeprom) 30 (Some [1; 2; 3; 4]) 4 (a_bus, a_task) = Ret (r, st1) /\
    (r = EepromStatusOk \/ r = EepromStatusError) /\
    (forall a, a < 30 \/ 30 + 4 <= a -> memory a_eeprom blank st1 a = memory a_eeprom blank (a_bus, a_task) a) /\
    (r = EepromStatusOk -> forall i, 0 <= i < 4 -> memory a_eeprom blank st1 (30 + i) = nth (Z.to_nat i) [1; 2; 3; 4] 0) /\
    eeprom_read (Some a_eeprom) 28 true (Z.of_nat 8) st1 = Ret ((r2, bytes), st2) /\
    (r2 = EepromStatusOk \/ r2 = EepromStatusError) /\ memory a_eeprom blank st2 = memory a_eeprom blank st1 /\
    (r2 = EepromStatusOk -> bytes = map (fun i => memory a_eeprom blank st1 (28 + Z.of_nat i)) (seq 0 8)) /\
    forall size', 4096 < 30 + size' < 2 ^ 32 ->
      eeprom_write 1000 (Some a_eeprom) 30 (Some [1; 2; 3; 4]) size' (a_bus, a_task) = Ret (EepromStatusInvalidParam, (a_bus, a_task)).
Proof.
  intros h l m ml.
  refine (eeprom_write_read_correct 1000 a_eeprom _ _ blank _ (a_bus, a_task) 30 [1; 2; 3; 4] 28 8 _ _ _ _ _ _ _);
    [split; [split; [reflexivity|discriminate]|right; split; [reflexivity|split; [reflexivity|discriminate]]]
    | |intros w; reflexivity|reflexivity|discriminate|discriminate|discriminate|discriminate
    |split; [reflexivity|discriminate]|discriminate].
  split; [split; [reflexivity|]; split; [split; [discriminate|reflexivity]|reflexivity]|].
  rewrite Z2Nat.id; [reflexivity|discriminate].
Defined.
