(* ===== verification/Log.v ===== *)
(** * The log (core/log.c)

    Which messages are printed: by level, and by the table of excluded tags. Strings are
    the bytes of their array, terminator included where there is one. The text of a
    message is what [vprintf] makes of it, an argument here. *)

From S2P Require Import Prelude Kernel Mutex.

Definition MAX_TAG_COUNT : nat := 32.
Definition MAX_TAG_LENGTH : nat := 16.

Inductive RHSLogLevel :=
  | RHSLogLevelDefault | RHSLogLevelNone | RHSLogLevelError | RHSLogLevelWarn | RHSLogLevelInfo
  | RHSLogLevelDebug | RHSLogLevelTrace.
Definition level_code (l : RHSLogLevel) : Z :=
  match l with
  | RHSLogLevelDefault => 0 | RHSLogLevelNone => 1 | RHSLogLevelError => 2 | RHSLogLevelWarn => 3
  | RHSLogLevelInfo => 4 | RHSLogLevelDebug => 5 | RHSLogLevelTrace => 6
  end.
Definition RHS_LOG_LEVEL_DEFAULT : Z := level_code RHSLogLevelDebug.

(** [strcmp(a, b) == 0]; reading past the end of an array faults. *)
Fixpoint strcmp_eq (a b : list Z) : outcome bool :=
  match a, b with
  | x :: a, y :: b => if x =? y then if x =? 0 then Ret true else strcmp_eq a b else Ret false
  | _, _ => Fault
  end.

(** [strncpy(dst, src, n)]: the bytes of [dst]; [src] is read up to its terminator. *)
Fixpoint strncpy (n : nat) (src : list Z) : outcome (list Z) :=
  match n with
  | O => Ret []
  | S n =>
      match src with
      | [] => Fault
      | c :: src' => if c =? 0 then Ret (replicate (S n) 0) else l ← strncpy n src'; Ret (c :: l)
      end
  end.

(** What [SEGGER_RTT_PutChar] is given, in order. *)
Definition _write (ptr : list Z) : list Z * Z := (ptr, Z.of_nat (length ptr)).
(** [SEGGER_RTT_GetKey] gives -1 when there is no character. *)
Definition __wrap_getchar (key : Z) : Z := if key =? -1 then 0 else key.

(** A printed line. *)
Record line := mkLine { color : string; tick : Z; log_letter : string; line_tag : list Z; text : list Z }.

Definition level_style (level : Z) : string * string :=
  match level with
  | 2 => ("31", "E") | 3 => ("33", "W") | 4 => ("32", "I") | 5 => ("34", "D") | 6 => ("35", "T")
  | _ => ("", " ")
  end%string.

Section log.
Context {S : Type} `{Scheduler S} {Q : Type} `{FreeRTOSMutex Q}.

Record log := mkLog { log_level : Z; exclude_tag : list (option (list Z)); mutex : option Q }.

Definition initial_log : log := mkLog RHS_LOG_LEVEL_DEFAULT (replicate MAX_TAG_COUNT None) None.

Definition rhs_log_init (s : S) (st : log) : outcome log :=
  q ← rhs_mutex_alloc s (mutex_type_value RHSMutexTypeRecursive);
  Ret (mkLog (log_level st) (exclude_tag st) (Some q)).

(** Whether a slot of the table is this tag. *)
Fixpoint find_tag (table : list (option (list Z))) (tag : list Z) : outcome (option nat) :=
  match table with
  | [] => Ret None
  | slot :: table =>
      found ← (match slot with None => Ret false | Some t => strcmp_eq t tag end);
      if found : bool then Ret (Some O) else r ← find_tag table tag; Ret (option_map Datatypes.S r)
  end.

Definition rhs_log_print_format (s : S) (me : Z) (st : log) (level : Z) (tag msg : list Z) : outcome (option line * log) :=
  if log_level st <? level then Ret (None, st)
  else
    found ← find_tag (exclude_tag st) tag;
    match found with
    | Some _ => Ret (None, st)
    | None =>
        let '(color, letter) := level_style level in
        let out := mkLine color (rhs_get_tick s) letter tag msg in
        if negb (RHS_IS_ISR s) then
          '(r, q) ← rhs_mutex_acquire s me (mutex st) (if rhs_kernel_is_running s then RHSWaitForever else 0);
          let st := mkLog (log_level st) (exclude_tag st) (Some q) in
          if decide (r = RHSStatusOk) then
            '(_, q) ← rhs_mutex_release s me (Some q);
            Ret (Some out, mkLog (log_level st) (exclude_tag st) (Some q))
          else Ret (None, st)
        else
          owner ← rhs_mutex_get_owner s (mutex st);
          if negb (owner =? 0) then Ret (None, st) else Ret (Some out, st)
    end.

(** The first free slot. *)
Fixpoint free_slot (table : list (option (list Z))) : option nat :=
  match table with
  | [] => None
  | None :: _ => Some O
  | Some _ :: table => option_map Datatypes.S (free_slot table)
  end.

(** [tag] is NULL as [None]; [have_heap] tells whether [malloc] finds a block. *)
Definition rhs_log_exclude_tag (have_heap : bool) (st : log) (tag : option (list Z)) : outcome log :=
  match tag with
  | None => Crash "Assert"
  | Some tag =>
      match free_slot (exclude_tag st) with
      | None => Ret st
      | Some i =>
          if have_heap then
            block ← strncpy MAX_TAG_LENGTH tag;
            Ret (mkLog (log_level st) (<[i := Some block]> (exclude_tag st)) (mutex st))
          else Fault
      end
  end.

Definition rhs_log_unexclude_tag (st : log) (tag : option (list Z)) : outcome log :=
  match tag with
  | None => Crash "Assert"
  | Some tag =>
      found ← find_tag (exclude_tag st) tag;
      match found with
      | None => Ret st
      | Some i => Ret (mkLog (log_level st) (<[i := None]> (exclude_tag st)) (mutex st))
      end
  end.

Definition rhs_log_set_level (st : log) (level : Z) : outcome log :=
  if level <=? level_code RHSLogLevelTrace then
    let level := if level =? level_code RHSLogLevelDefault then RHS_LOG_LEVEL_DEFAULT else level in
    Ret (mkLog level (exclude_tag st) (mutex st))
  else Crash "Assert".

Definition rhs_log_get_level (st : log) : Z := log_level st.
End log.
Arguments log _ : clear implicits.

(** ** Specification: the excluded tags are a list of strings *)

(** A string in memory: its characters and the terminator. *)
Definition chars (t : list Z) : Prop := Forall (fun c => c <> 0) t.
Definition cstring (t : list Z) : list Z := t ++ [0].
Definition short (t : list Z) : Prop := chars t /\ (length t < MAX_TAG_LENGTH)%nat.

(** The block of a slot that holds the tag. *)
Definition tag_block (t : list Z) : list Z := t ++ replicate (MAX_TAG_LENGTH - length t) 0.

Lemma strncpy_spec n t : chars t -> (length t < n)%nat ->
  strncpy n (cstring t) = Ret (t ++ replicate (n - length t) 0).
Proof.
  revert n. induction t as [|c t IH]; intros n Ht Hn.
  - destruct n; [cbn in Hn; lia|]. done.
  - destruct n as [|n]; [cbn in Hn; lia|]. apply Forall_cons in Ht as [Hc Ht]. cbn.
    destruct (Z.eqb_spec c 0); [done|]. rewrite IH by (done || (cbn in Hn; lia)). done.
Qed.

Lemma strcmp_spec t u r : chars t -> chars u -> strcmp_eq (t ++ 0 :: r) (cstring u) = Ret (bool_decide (t = u)).
Proof.
  revert u. induction t as [|c t IH]; intros u Ht Hu.
  - destruct u as [|d u]; [done|]. apply Forall_cons in Hu as [Hd Hu]. by destruct d.
  - apply Forall_cons in Ht as [Hc Ht]. destruct u as [|d u].
    + cbn. destruct (Z.eqb_spec c 0); [done|]. done.
    + apply Forall_cons in Hu as [Hd Hu]. cbn. destruct (Z.eqb_spec c d) as [->|Hne].
      * destruct (Z.eqb_spec d 0); [done|]. unfold cstring in IH. rewrite IH by done. f_equal.
        apply bool_decide_ext. split; congruence.
      * f_equal. symmetry. apply bool_decide_eq_false. congruence.
Qed.

Lemma tag_block_strcmp t u : short t -> chars u -> strcmp_eq (tag_block t) (cstring u) = Ret (bool_decide (t = u)).
Proof.
  intros [Ht Hl] Hu. unfold tag_block. replace (MAX_TAG_LENGTH - length t)%nat with (Datatypes.S (MAX_TAG_LENGTH - length t - 1)) by lia.
  cbn [replicate]. by apply strcmp_spec.
Qed.

(** The table holds these tags. *)
Definition table_of (tags : list (option (list Z))) : list (option (list Z)) := map (option_map tag_block) tags.
Definition present (t : list Z) (tags : list (option (list Z))) : Prop := Some t ∈ tags.
Definition good_tags (tags : list (option (list Z))) : Prop := forall t, present t tags -> short t.

Lemma find_tag_spec tags u : good_tags tags -> chars u ->
  exists r, find_tag (table_of tags) (cstring u) = Ret r /\
    match r with Some i => tags !! i = Some (Some u) | None => ~ present u tags end.
Proof.
  intros Hg Hu. induction tags as [|[t|] tags IH]; cbn [table_of map find_tag option_map].
  - exists None. split; [done|]. unfold present. set_solver.
  - rewrite tag_block_strcmp by (done || apply Hg; left). cbn [mbind outcome_bind].
    case_bool_decide as E.
    + exists (Some O). subst. done.
    + destruct IH as (r & E' & Hr); [intros v Hv; apply Hg; by right|]. fold (table_of tags). rewrite E'.
      exists (option_map Datatypes.S r). split; [done|]. destruct r; cbn; [done|].
      unfold present in *. rewrite elem_of_cons. intros [[= ->]|]; done.
  - destruct IH as (r & E' & Hr); [intros v Hv; apply Hg; by right|]. fold (table_of tags). cbn [mbind outcome_bind].
    rewrite E'. exists (option_map Datatypes.S r). split; [done|]. destruct r; cbn; [done|].
    unfold present in *. rewrite elem_of_cons. intros [[=]|]; done.
Qed.

Lemma free_slot_spec tags : 
  match free_slot (table_of tags) with
  | Some i => tags !! i = Some None
  | None => Forall (fun t => t <> None) tags
  end.
Proof.
  induction tags as [|[t|] tags IH]; cbn [table_of map free_slot option_map]; [done| |done].
  fold (table_of tags). destruct (free_slot (table_of tags)); cbn; [done|]. by constructor.
Qed.

(** A tag of as many characters as a block has loses its terminator there. *)
Lemma strncpy_long n t r : chars t -> (n <= length t)%nat -> strncpy n (t ++ r) = Ret (take n t).
Proof.
  revert n. induction t as [|c t IH]; intros n Ht Hn; destruct n as [|n]; try done; [cbn in Hn; lia|].
  apply Forall_cons in Ht as [Hc Ht]. cbn. destruct (Z.eqb_spec c 0); [done|]. rewrite IH by (done || (cbn in Hn; lia)). done.
Qed.

Lemma strcmp_unterminated n t : chars t -> (n <= length t)%nat -> strcmp_eq (take n t) (cstring t) = Fault.
Proof.
  revert n. induction t as [|c t IH]; intros n Ht Hn; destruct n as [|n]; try done.
  apply Forall_cons in Ht as [Hc Ht]. cbn. rewrite Z.eqb_refl. destruct (Z.eqb_spec c 0); [done|].
  apply IH; [done|cbn in Hn; lia].
Qed.

Lemma find_tag_fault i table block u :
  table !! i = Some (Some block) -> strcmp_eq block u = Fault ->
  (forall j b, (j < i)%nat -> table !! j = Some (Some b) -> strcmp_eq b u = Ret false) ->
  find_tag table u = Fault.
Proof.
  revert i. induction table as [|slot table IH]; intros i Hi Hf Hbefore; [done|]. cbn [find_tag].
  destruct i as [|i]; cbn in Hi.
  - injection Hi as ->. by rewrite Hf.
  - assert (Hrest : find_tag table u = Fault).
    { apply (IH i); [done|done|]. intros j b Hj. apply (Hbefore (Datatypes.S j)). lia. }
    destruct slot as [b|]; cbn [mbind outcome_bind]; [|by rewrite Hrest].
    rewrite (Hbefore O b) by (done || lia). cbn [mbind outcome_bind]. by rewrite Hrest.
Qed.

Lemma free_slot_first tags i : free_slot (table_of tags) = Some i ->
  forall j, (j < i)%nat -> exists t, tags !! j = Some (Some t).
Proof.
  revert i. induction tags as [|[t|] tags IH]; intros i; cbn [table_of map free_slot option_map]; [done| |].
  - fold (table_of tags). destruct (free_slot (table_of tags)) as [k|] eqn:E; cbn; [|done]. intros [= <-] j Hj.
    destruct j as [|j]; [by exists t|]. apply (IH k); [done|lia].
  - intros [= <-] j Hj. lia.
Qed.

Lemma table_insert tags i t : table_of (<[i := t]> tags) = <[i := option_map tag_block t]> (table_of tags).
Proof. apply list_fmap_insert. Qed.

Section properties.
Context {S : Type} `{Scheduler S} {Q : Type} `{FreeRTOSMutexLaws Q}.

(** The log with these excluded tags, and its recursive mutex free. *)
Definition log_ok (st : log Q) (tags : list (option (list Z))) : Prop :=
  exclude_tag st = table_of tags /\ good_tags tags /\
  exists q, mutex st = Some q /\ ucQueueType q = queueQUEUE_TYPE_RECURSIVE_MUTEX /\ owner q = 0 /\ depth q = 0.

Lemma print_spec s me (st : log Q) tags level t msg :
  RHS_IS_ISR s = false -> me <> 0 -> log_ok st tags -> chars t ->
  exists o st', rhs_log_print_format s me st level (cstring t) msg = Ret (o, st') /\
    log_ok st' tags /\ log_level st' = log_level st /\
    match o with
    | None => log_level st < level \/ present t tags
    | Some l => level <= log_level st /\ ~ present t tags /\ text l = msg /\ line_tag l = cstring t
    end.
Proof.
  intros Hi Hme (Et & Hg & q & Eq & Hq & Ho & Hd) Ht. unfold rhs_log_print_format.
  assert (Hok : log_ok st tags) by (split; [done|]; split; [done|]; by exists q).
  destruct (Z.ltb_spec (log_level st) level).
  { exists None, st. split; [done|]. split; [done|]. split; [done|]. by left. }
  rewrite Et. destruct (find_tag_spec tags t Hg Ht) as (r & -> & Hr). cbn [mbind outcome_bind].
  destruct r as [i|].
  { exists None, st. split; [done|]. split; [done|]. split; [done|]. right. by eapply list_elem_of_lookup_2. }
  rewrite Hi, Eq. destruct (level_style level) as [color letter]. cbn [negb].
  unfold rhs_mutex_acquire, rhs_mutex_release. assert (RHS_IS_IRQ_MODE s = false) as ->.
  { unfold RHS_IS_ISR in Hi. by apply orb_false_iff in Hi as [-> _]. }
  rewrite Hq. cbn [Z.eqb Pos.eqb queueQUEUE_TYPE_RECURSIVE_MUTEX].
  set (t0 := if rhs_kernel_is_running s then _ else _).
  pose proof (take_recursive q me t0 Hme) as T. destruct (xSemaphoreTakeRecursive q me t0) as [r1 q1].
  rewrite Ho, Hd in T. cbn in T. destruct T as (T1 & -> & T2 & T3). cbn.
  rewrite T1, Hq. cbn [Z.eqb Pos.eqb queueQUEUE_TYPE_RECURSIVE_MUTEX].
  pose proof (give_recursive q1 me Hme) as G. destruct (xSemaphoreGiveRecursive q1 me) as [r2 q2].
  rewrite T2, T3, Z.eqb_refl in G. destruct G as (G1 & -> & G2 & G3). cbn.
  eexists _, _. split; [done|]. cbn. split; [|done]. split; [done|]. split; [done|].
  exists q2. split; [done|]. split; [congruence|]. split; [done|]. rewrite G2. done.
Qed.

(** With a table of short tags, a message is printed exactly when its level is
    enabled and its tag is not excluded. Excluding a short tag adds it when the table has
    room and changes nothing else; unexcluding a tag removes one entry of it. A tag of 16
    characters or more is stored without its terminator: the next enabled message with
    that tag makes [strcmp] read past the block. *)
Theorem log_tags_correct s me (st : log Q) tags t :
  RHS_IS_ISR s = false -> me <> 0 -> log_ok st tags -> chars t ->
  (forall level msg, exists o st', rhs_log_print_format s me st level (cstring t) msg = Ret (o, st') /\
     log_ok st' tags /\ log_level st' = log_level st /\
     match o with
     | None => log_level st < level \/ present t tags
     | Some l => level <= log_level st /\ ~ present t tags /\ text l = msg /\ line_tag l = cstring t
     end) /\
  (short t -> exists st' tags', rhs_log_exclude_tag true st (Some (cstring t)) = Ret st' /\ log_ok st' tags' /\
     log_level st' = log_level st /\
     forall u, present u tags' <-> present u tags \/ (u = t /\ None ∈ tags)) /\
  (exists st' tags', rhs_log_unexclude_tag st (Some (cstring t)) = Ret st' /\ log_ok st' tags' /\
     (tags' = tags /\ ~ present t tags \/
      exists i, tags !! i = Some (Some t) /\ tags' = <[i := None]> tags)) /\
  ((MAX_TAG_LENGTH <= length t)%nat -> None ∈ tags ->
     exists st', rhs_log_exclude_tag true st (Some (cstring t)) = Ret st' /\
       forall level msg, level <= log_level st -> rhs_log_print_format s me st' level (cstring t) msg = Fault).
Proof.
  intros Hi Hme Hok Ht. split; [intros; by apply print_spec|].
  pose proof Hok as (Et & Hg & q & Eq & Hq). unfold rhs_log_exclude_tag, rhs_log_unexclude_tag. rewrite Et.
  pose proof (free_slot_spec tags) as Hfree. split; [|split].
  - intros Hs. destruct (free_slot (table_of tags)) as [i|].
    + rewrite strncpy_spec by (done || apply Hs). cbn [mbind outcome_bind].
      exists (mkLog (log_level st) (<[i:=Some (tag_block t)]> (table_of tags)) (mutex st)), (<[i := Some t]> tags).
      assert (Hpres : forall u, present u (<[i:=Some t]> tags) <-> present u tags \/ (u = t /\ None ∈ tags)).
      { intros u. pose proof (lookup_lt_Some _ _ _ Hfree) as Hlt. unfold present. rewrite !list_elem_of_lookup. split.
        - intros [j Hj]. destruct (decide (i = j)) as [<-|Hne].
          + rewrite list_lookup_insert_eq in Hj by done. injection Hj as <-. right. split; [done|]. by exists i.
          + rewrite list_lookup_insert_ne in Hj by done. left. by exists j.
        - intros [[j Hj]|[-> _]]; [|exists i; by apply list_lookup_insert_eq].
          exists j. rewrite list_lookup_insert_ne; [done|]. intros ->. by rewrite Hfree in Hj. }
      split; [done|]. split; [|by split]. split; [by rewrite table_insert|]. split; [|by exists q].
      intros u [Hu|[-> _]]%Hpres; [by apply Hg|done].
    + exists st, tags. split; [done|]. split; [done|]. split; [done|]. intros u. split; [by left|].
      intros [?|[_ Hn]]; [done|]. rewrite Forall_forall in Hfree. by apply Hfree in Hn.
  - destruct (find_tag_spec tags t Hg Ht) as (r & -> & Hr). cbn [mbind outcome_bind]. destruct r as [i|].
    + exists (mkLog (log_level st) (<[i:=None]> (table_of tags)) (mutex st)), (<[i := None]> tags).
      split; [done|]. split; [|right; by exists i]. split; [by rewrite table_insert|]. split; [|by exists q].
      intros u Hu. apply Hg. unfold present in *. apply list_elem_of_lookup in Hu as [j Hj].
      apply list_elem_of_lookup. exists j. destruct (decide (i = j)) as [<-|Hne].
      * rewrite list_lookup_insert_eq in Hj by (by eapply lookup_lt_Some). done.
      * by rewrite list_lookup_insert_ne in Hj.
    + exists st, tags. split; [done|]. split; [done|]. by left.
  - intros Hlong Hroom. destruct (free_slot (table_of tags)) as [i|] eqn:Ef.
    2: { rewrite Forall_forall in Hfree. by apply Hfree in Hroom. }
    unfold cstring at 1. rewrite strncpy_long by done. cbn [mbind outcome_bind].
    eexists. split; [done|]. intros level msg Hlevel. unfold rhs_log_print_format. cbn [log_level exclude_tag].
    destruct (Z.ltb_spec (log_level st) level); [lia|].
    rewrite (find_tag_fault i _ (take MAX_TAG_LENGTH t)); [done| |by apply strcmp_unterminated|].
    + apply list_lookup_insert_eq. unfold table_of. rewrite length_map. by eapply lookup_lt_Some.
    + intros j b Hj Hb. rewrite list_lookup_insert_ne in Hb by lia.
      destruct (free_slot_first tags i Ef j Hj) as [u Hu].
      assert (Hb' : table_of tags !! j = Some (Some (tag_block u))).
      { unfold table_of. rewrite list_lookup_fmap, Hu. done. }
      rewrite Hb' in Hb. injection Hb as <-.
      assert (Hsu : short u) by (apply Hg; by eapply list_elem_of_lookup_2).
      rewrite tag_block_strcmp by done. f_equal. apply bool_decide_eq_false. intros ->. destruct Hsu. lia.
Qed.
End properties.

(** The log after [rhs_log_init], with "net" excluded in the first slot. *)
Definition net_tag : list Z := str "net".
Definition some_tags : list (option (list Z)) := Some net_tag :: replicate 31 None.
Definition a_log : log plain_mutex :=
  mkLog RHS_LOG_LEVEL_DEFAULT (table_of some_tags) (Some xSemaphoreCreateRecursiveMutexStatic).

(** [chars] of a concrete string. *)
Ltac concrete_chars := repeat (apply Forall_cons; split; [discriminate|]); apply Forall_nil; exact I.

Lemma net_tag_short : short net_tag.
Proof. split; [concrete_chars|unfold MAX_TAG_LENGTH; cbn; lia]. Qed.

Lemma a_log_ok : log_ok a_log some_tags.
Proof.
  split; [done|]. split.
  - intros t Ht. unfold present, some_tags in Ht. apply elem_of_cons in Ht as [[= ->]|Ht].
    + exact net_tag_short.
    + by apply elem_of_replicate in Ht as [? _].
  - by exists xSemaphoreCreateRecursiveMutexStatic.
Qed.

Theorem log_tags_correct_witness :
  (forall level msg, exists o st', rhs_log_print_format a_task 7 a_log level (cstring net_tag) msg = Ret (o, st') /\
     log_ok st' some_tags /\ log_level st' = log_level a_log /\
     match o with
     | None => log_level a_log < level \/ present net_tag some_tags
     | Some l => level <= log_level a_log /\ ~ present net_tag some_tags /\ text l = msg /\ line_tag l = cstring net_tag
     end) /\
  short net_tag /\
  (exists st', rhs_log_exclude_tag true a_log (Some (cstring (replicate 16 65))) = Ret st' /\
     forall level msg, level <= 5 -> rhs_log_print_format a_task 7 st' level (cstring (replicate 16 65)) msg = Fault).
Proof.
  pose proof (log_tags_correct a_task 7 a_log some_tags net_tag eq_refl ltac:(discriminate) a_log_ok
    (proj1 net_tag_short)) as [A _].
  pose proof (log_tags_correct a_task 7 a_log some_tags (replicate 16 65) eq_refl ltac:(discriminate) a_log_ok
    ltac:(concrete_chars)) as (_ & _ & _ & D).
  split; [exact A|]. split; [exact net_tag_short|].
  apply D; [done|]. unfold some_tags. right. left.
Defined.
