(* ===== verification/Cli.v ===== *)
(** * The command line (applications/services/cli/cli_app.c)

    A line is collected character by character in an array of 64 bytes; Enter looks up
    its first word and calls that command with the rest. What the commands do is the
    argument [callback] of the model; "log" is [cli_command_log], the others are in [Commands]. *)

From S2P Require Import Prelude Kernel Mutex Log.

Definition MAX_LINE_LENGTH : nat := 64.

Definition CliSymbolAsciiSOH : Z := 0x01.
Definition CliSymbolAsciiETX : Z := 0x03.
Definition CliSymbolAsciiEOT : Z := 0x04.
Definition CliSymbolAsciiBackspace : Z := 0x08.
Definition CliSymbolAsciiTab : Z := 0x09.
Definition CliSymbolAsciiCR : Z := 0x0D.
Definition CliSymbolAsciiEsc : Z := 0x1B.
Definition CliSymbolAsciiDel : Z := 0x7F.

(** [strchr(s, c)] for [c] other than NUL, and the characters of a string. *)
Fixpoint strchr (s : list Z) (c : Z) : outcome (option nat) :=
  match s with
  | [] => Fault
  | x :: s =>
      if x =? c then Ret (Some O) else if x =? 0 then Ret None
      else r ← strchr s c; Ret (option_map Datatypes.S r)
  end.
Fixpoint string_of (s : list Z) : outcome (list Z) :=
  match s with
  | [] => Fault
  | x :: s => if x =? 0 then Ret [] else l ← string_of s; Ret (x :: l)
  end.

(** A command: its callback and context. *)
Record CliCommand := mkCommand { cmd_callback : Z; cmd_context : Z }.

Section cli.
Context {S : Type} `{Scheduler S} {Q : Type} `{FreeRTOSMutex Q}.

Record Cli := mkCli {
  cli_mutex : Q; cursor_position : Z; line : list Z; commands : gmap (list Z) CliCommand
}.

Definition cli_alloc (s : S) : outcome Cli :=
  q ← rhs_mutex_alloc s (mutex_type_value RHSMutexTypeNormal);
  Ret (mkCli q 0 (replicate MAX_LINE_LENGTH 0) ∅).

Definition with_commands (s : S) (me : Z) (app : Cli) (f : gmap (list Z) CliCommand -> gmap (list Z) CliCommand) : outcome Cli :=
  '(r, q) ← rhs_mutex_acquire s me (Some (cli_mutex app)) RHSWaitForever;
  if decide (r = RHSStatusOk) then
    let d := f (commands app) in
    '(r, q) ← rhs_mutex_release s me (Some q);
    if decide (r = RHSStatusOk) then Ret (mkCli q (cursor_position app) (line app) d) else Crash "Assert"
  else Crash "Assert".

Definition cli_add_command (s : S) (me : Z) (app : Cli) (name : list Z) (callback context : Z) : outcome Cli :=
  if decide (name = str " ") then Crash "Assert"
  else with_commands s me app (insert name (mkCommand callback context)).

Definition cli_remove_command (s : S) (me : Z) (app : Cli) (name : list Z) : outcome Cli :=
  with_commands s me app (delete name).

(** [enter] is the static variable, [key] what [getchar] finds. *)
Definition cli_getc (enter : bool) (key : Z) : M S (Z * bool) :=
  let c := u8 (__wrap_getchar key) in
  let '(c, enter) :=
    if negb (c =? 0) then (c, true) else if enter then (CliSymbolAsciiCR, false) else (c, enter) in
  _ ← rhs_delay_tick 10;
  mret (c, enter).

Definition cli_reset (app : Cli) : Cli :=
  mkCli (cli_mutex app) 0 (replicate MAX_LINE_LENGTH 0) (commands app).

(** The callback, its context and its argument: NULL, or the bytes from after the space. *)
Context (callback : Z -> Z -> option (list Z) -> Cli -> outcome Cli).

Definition cli_handle_enter (app : Cli) : outcome Cli :=
  end_ ← strchr (line app) 32;
  let l := match end_ with Some k => <[k := 0]> (line app) | None => line app end in
  let app := mkCli (cli_mutex app) (cursor_position app) l (commands app) in
  name ← string_of l;
  app ← (match commands app !! name with
         | Some c =>
             callback (cmd_callback c) (cmd_context c)
               (match end_ with Some k => Some (drop (Datatypes.S k) l) | None => None end) app
         | None => Ret app
         end);
  Ret (cli_reset app).

(** The control characters only leave a trace in the log. *)
Definition ignored (c : Z) : bool :=
  (c =? CliSymbolAsciiTab) || (c =? CliSymbolAsciiSOH) || (c =? CliSymbolAsciiETX) || (c =? CliSymbolAsciiEOT)
  || (c =? CliSymbolAsciiEsc) || (c =? CliSymbolAsciiBackspace) || (c =? CliSymbolAsciiDel).

Definition process_char (app : Cli) (in_chr : Z) : outcome Cli :=
  if ignored in_chr then Ret app
  else if in_chr =? CliSymbolAsciiCR then cli_handle_enter app
  else if (0x20 <=? in_chr) && (in_chr <? 0x7F) then
    l ← aset (line app) (cursor_position app) in_chr;
    Ret (mkCli (cli_mutex app) (u8 (cursor_position app + 1)) l (commands app))
  else Ret app.

Record console := mkConsole { enter : bool; cli_app : Cli; os : S }.

Definition cli_process_input (key : Z) (c : console) : outcome console :=
  '(r, s) ← cli_getc (enter c) key (os c);
  let '(in_chr, e) := r in
  app ← process_char (cli_app c) in_chr;
  Ret (mkConsole e app s).

(** The service's loop on the keys of a session. *)
Fixpoint cli_session (keys : list Z) (c : console) : outcome console :=
  match keys with
  | [] => Ret c
  | key :: keys => c ← cli_process_input key c; cli_session keys c
  end.
End cli.
Arguments Cli _ : clear implicits.
Arguments console _ _ : clear implicits.

(** ** The "log" command *)

Inductive log_reply := LogLevel (level : Z) | Excluded (tag : list Z) | Unexcluded (tag : list Z) | InvalidArgument.

Section log_command.
Context {Q : Type}.

Definition starts_with (prefix s : list Z) : bool := bool_decide (take (length prefix) s = prefix).

(** [args] as an array, from the character after the command's space; [have_heap] as
    for [rhs_log_exclude_tag]. *)
Definition cli_command_log (have_heap : bool) (st : log Q) (args : option (list Z)) : outcome (log_reply * log Q) :=
  match args with
  | None => Ret (LogLevel (rhs_log_get_level st), st)
  | Some args =>
      s ← string_of args;
      let c := nth 0 s 0 in
      if (length s =? 1)%nat && (48 <=? c) && (c <=? 54) then
        st ← rhs_log_set_level st (c - 48);
        Ret (LogLevel (rhs_log_get_level st), st)
      else
        separator ← strchr args 32;
        match separator with
        | None => Ret (InvalidArgument, st)
        | Some k =>
            let rest := drop (Datatypes.S k) args in
            c ← aget args (Z.of_nat (Datatypes.S k));
            if c =? 0 then Ret (InvalidArgument, st)
            else if starts_with (str "-e") s then
              st ← rhs_log_exclude_tag have_heap st (Some rest); Ret (Excluded rest, st)
            else if starts_with (str "-ue") s then
              st ← rhs_log_unexclude_tag st (Some rest); Ret (Unexcluded rest, st)
            else Ret (InvalidArgument, st)
        end
  end.
End log_command.

(** ** What a session does *)

Definition printable (c : Z) : Prop := 0x20 <= c < 0x7F.

(** A line's first word, and what follows the space after it. *)
Fixpoint words (l : list Z) : list Z * option (list Z) :=
  match l with
  | [] => ([], None)
  | c :: l => if c =? 32 then ([], Some l) else let '(w, r) := words l in (c :: w, r)
  end.

Lemma words_none l w : words l = (w, None) -> w = l /\ Forall (fun c => c <> 32) l.
Proof.
  revert w. induction l as [|c l IH]; intros w; cbn; [by intros [= <-]|].
  destruct (Z.eqb_spec c 32); [done|]. destruct (words l) as [w' r]. intros [= <- ->].
  destruct (IH w' eq_refl) as [-> ?]. split; [done|]. by constructor.
Qed.
Lemma words_some l w r : words l = (w, Some r) -> l = w ++ 32 :: r /\ Forall (fun c => c <> 32) w.
Proof.
  revert w. induction l as [|c l IH]; intros w; cbn; [done|].
  destruct (Z.eqb_spec c 32) as [->|]; [by intros [= <- ->]|]. destruct (words l) as [w' r']. intros [= <- ->].
  destruct (IH w' eq_refl) as [-> ?]. split; [done|]. by constructor.
Qed.

Lemma strchr_found w r : Forall (fun c => c <> 0 /\ c <> 32) w -> strchr (w ++ 32 :: r) 32 = Ret (Some (length w)).
Proof.
  induction 1 as [|c w [Hc Hs] Hw IH]; [done|]. cbn. destruct (Z.eqb_spec c 32), (Z.eqb_spec c 0); try done. by rewrite IH.
Qed.
Lemma strchr_none w r : Forall (fun c => c <> 0 /\ c <> 32) w -> strchr (w ++ 0 :: r) 32 = Ret None.
Proof.
  induction 1 as [|c w [Hc Hs] Hw IH]; [done|]. cbn. destruct (Z.eqb_spec c 32), (Z.eqb_spec c 0); try done. by rewrite IH.
Qed.
Lemma strchr_fault w : Forall (fun c => c <> 0 /\ c <> 32) w -> strchr w 32 = Fault.
Proof.
  induction 1 as [|c w [Hc Hs] Hw IH]; [done|]. cbn. destruct (Z.eqb_spec c 32), (Z.eqb_spec c 0); try done. by rewrite IH.
Qed.
Lemma string_of_spec w r : Forall (fun c => c <> 0) w -> string_of (w ++ 0 :: r) = Ret w.
Proof.
  induction 1 as [|c w Hc Hw IH]; [done|]. cbn. destruct (Z.eqb_spec c 0); [done|]. by rewrite IH.
Qed.

Section properties.
Context {S : Type} `{Scheduler S} {Q : Type} `{FreeRTOSMutex Q}.
Context (callback : Z -> Z -> option (list Z) -> Cli Q -> outcome (Cli Q)).
(** The states of the scheduler in which the service may wait. *)
Context (awake : S -> Prop) (Hdelay : forall s, awake s -> exists s', rhs_delay_tick 10 s = Ret (tt, s') /\ awake s').

(** The console with [l] typed since the last Enter. *)
Definition typed (c : console S Q) (l : list Z) : Prop :=
  awake (os c) /\ (length l <= MAX_LINE_LENGTH)%nat /\
  cursor_position (cli_app c) = Z.of_nat (length l) /\
  line (cli_app c) = l ++ replicate (MAX_LINE_LENGTH - length l) 0 /\ (l <> [] -> enter c = true).

Lemma getc_spec (c : console S Q) key : awake (os c) -> exists s', awake s' /\
  cli_getc (enter c) key (os c) = Ret
    ((if negb (u8 (__wrap_getchar key) =? 0) then (u8 (__wrap_getchar key), true)
      else if enter c then (CliSymbolAsciiCR, false) else (u8 (__wrap_getchar key), enter c)), s').
Proof.
  intros Ha. destruct (Hdelay _ Ha) as (s' & E & Ha'). exists s'. split; [done|]. unfold cli_getc.
  destruct (negb (u8 (__wrap_getchar key) =? 0)); [|destruct (enter c)]; unfold mbind, M_bind; by rewrite E.
Qed.

Lemma type_char (c : console S Q) l ch : typed c l -> printable ch -> (length l < MAX_LINE_LENGTH)%nat ->
  exists c', cli_process_input callback ch c = Ret c' /\ typed c' (l ++ [ch]) /\
    commands (cli_app c') = commands (cli_app c) /\ cli_mutex (cli_app c') = cli_mutex (cli_app c).
Proof.
  intros (Ha & Hlen & Hcur & Hline & _) Hch Hlt. unfold printable, MAX_LINE_LENGTH in *.
  destruct (getc_spec c ch Ha) as (s' & Ha' & E). unfold cli_process_input. rewrite E.
  assert (__wrap_getchar ch = ch) as -> by (unfold __wrap_getchar; destruct (Z.eqb_spec ch (-1)); lia).
  rewrite u8_small by lia. destruct (Z.eqb_spec ch 0); [lia|]. cbn [negb mbind outcome_bind].
  unfold process_char, ignored, CliSymbolAsciiTab, CliSymbolAsciiSOH, CliSymbolAsciiETX, CliSymbolAsciiEOT,
    CliSymbolAsciiEsc, CliSymbolAsciiBackspace, CliSymbolAsciiDel, CliSymbolAsciiCR.
  repeat (match goal with |- context [ch =? ?n] => destruct (Z.eqb_spec ch n); [lia|] end). cbn [orb].
  destruct (Z.leb_spec 0x20 ch); [|lia]. destruct (Z.ltb_spec ch 0x7F); [|lia]. cbn [andb].
  rewrite Hcur, Hline, aset_in by (rewrite length_app, length_replicate; lia). cbn [mbind outcome_bind].
  eexists. split; [done|]. split; [|done]. split; [done|]. rewrite length_app. cbn [length cli_app cursor_position line enter].
  unfold MAX_LINE_LENGTH. split; [lia|]. split; [rewrite u8_small by lia; lia|]. split; [|done].
  rewrite Nat2Z.id, insert_app_r_alt, Nat.sub_diag by lia. rewrite <- app_assoc. f_equal.
  replace (64 - length l)%nat with (Datatypes.S (64 - (length l + 1))) by lia. done.
Qed.

Lemma type_chars (c : console S Q) l l' : typed c l -> Forall printable l' -> (length l + length l' <= MAX_LINE_LENGTH)%nat ->
  exists c', (forall keys, cli_session callback (l' ++ keys) c = cli_session callback keys c') /\ typed c' (l ++ l') /\
    commands (cli_app c') = commands (cli_app c) /\ cli_mutex (cli_app c') = cli_mutex (cli_app c).
Proof.
  intros Hc Hl'. revert c l Hc. induction Hl' as [|ch l' Hch Hl' IH]; intros c l Hc Hlen; cbn [length] in Hlen.
  - exists c. by rewrite app_nil_r.
  - destruct (type_char c l ch Hc Hch ltac:(lia)) as (c1 & E1 & H1' & D1 & M1).
    destruct (IH c1 (l ++ [ch]) H1') as (c2 & E2 & H2' & D2 & M2); [rewrite length_app; cbn; lia|].
    exists c2. split; [|split; [by rewrite <- app_assoc in H2'|split; congruence]].
    intros keys. cbn [app cli_session]. rewrite E1. cbn [mbind outcome_bind]. apply E2.
Qed.

(** What Enter does with a typed line. *)
Definition dispatch (app : Cli Q) (l : list Z) : outcome (Cli Q) :=
  let '(name, args) := words l in
  let pad := replicate (MAX_LINE_LENGTH - length l) 0 in
  let line' := match args with Some r => name ++ 0 :: r ++ pad | None => l ++ pad end in
  let app' := mkCli (cli_mutex app) (Z.of_nat (length l)) line' (commands app) in
  app ← (match commands app !! name with
         | Some c => callback (cmd_callback c) (cmd_context c) (option_map (fun r => r ++ pad) args) app'
         | None => Ret app'
         end);
  Ret (cli_reset app).

Lemma enter_line (c : console S Q) l : typed c l -> Forall printable l -> (length l < MAX_LINE_LENGTH)%nat ->
  cli_handle_enter callback (cli_app c) = dispatch (cli_app c) l.
Proof.
  intros (_ & _ & Hcur & Hline & _) Hl Hlt. unfold cli_handle_enter, dispatch. rewrite Hcur, Hline.
  assert (Hz : Forall (fun c => c <> 0) l) by (eapply Forall_impl; [exact Hl|unfold printable; cbn; lia]).
  set (pad := replicate (MAX_LINE_LENGTH - length l) 0).
  assert (Hpad : exists p, pad = 0 :: p).
  { unfold pad. replace (MAX_LINE_LENGTH - length l)%nat with (Datatypes.S (MAX_LINE_LENGTH - length l - 1)) by lia. by eexists. }
  destruct (words l) as [w [r|]] eqn:E.
  - apply words_some in E as [-> Hw]. rewrite <- app_assoc. cbn [app].
    apply Forall_app in Hz as [Hzw _]. rewrite strchr_found by (apply Forall_and; by split). cbn [mbind outcome_bind].
    rewrite insert_app_r_alt, Nat.sub_diag by lia. cbn [insert list_insert].
    rewrite string_of_spec by done. cbn [mbind outcome_bind commands option_map].
    rewrite drop_app_ge by lia.
    replace (Datatypes.S (length w) - length w)%nat with 1%nat by lia. done.
  - apply words_none in E as [-> Hs]. destruct Hpad as [p ->].
    rewrite strchr_none by (apply Forall_and; by split). cbn [mbind outcome_bind].
    rewrite string_of_spec by done. done.
Qed.
(** Enter, as a key or as the pause that follows a typed line. *)
Lemma enter_key (c : console S Q) l key : typed c l -> (key = 13 \/ (key = -1 /\ l <> [])) ->
  exists e s', awake s' /\ cli_process_input callback key c =
    (app ← cli_handle_enter callback (cli_app c); Ret (mkConsole e app s')).
Proof.
  intros (Ha & _ & _ & _ & He) Hkey. destruct (getc_spec c key Ha) as (s' & Ha' & E).
  unfold cli_process_input. rewrite E. destruct Hkey as [-> | [-> Hl]].
  - exists true, s'. split; [done|]. done.
  - exists false, s'. split; [done|]. rewrite (He Hl). done.
Qed.

(** C40: at a new line, typing up to 63 printable characters and then Enter (or a pause)
    does exactly what the line says: the command named by its first word is called with
    the rest after the space, or with NULL when there is no space; an unknown command
    does nothing; then the line is empty again. Nothing stops a longer line: after 64
    characters one more is stored beyond the array, and Enter after 64 characters without
    a space searches beyond it. *)
Theorem cli_line_correct (c : console S Q) l key :
  typed c [] -> Forall printable l -> (key = 13 \/ (key = -1 /\ l <> [])) ->
  ((length l < MAX_LINE_LENGTH)%nat ->
     exists e s', awake s' /\
       cli_session callback (l ++ [key]) c = (app ← dispatch (cli_app c) l; Ret (mkConsole e app s')) /\
       forall app, dispatch (cli_app c) l = Ret app -> typed (mkConsole e app s') []) /\
  (forall ch, length l = MAX_LINE_LENGTH -> printable ch -> cli_session callback (l ++ [ch]) c = Fault) /\
  (length l = MAX_LINE_LENGTH -> Forall (fun ch => ch <> 32) l -> cli_session callback (l ++ [key]) c = Fault).
Proof.
  intros Hc Hl Hkey. assert (Hz : Forall (fun ch => ch <> 0) l) by (eapply Forall_impl; [exact Hl|unfold printable; cbn; lia]).
  split; [|split].
  - intros Hlt. destruct (type_chars c [] l Hc Hl ltac:(cbn; lia)) as (c1 & E1 & H1' & D1 & M1). cbn [app] in H1'.
    destruct (enter_key c1 l key H1' Hkey) as (e & s' & Ha' & E2). exists e, s'. split; [done|]. split.
    + rewrite E1. cbn [cli_session]. rewrite E2, (enter_line c1 l H1' Hl Hlt).
      assert (dispatch (cli_app c1) l = dispatch (cli_app c) l) as -> by (unfold dispatch; by rewrite D1, M1).
      by destruct (dispatch (cli_app c) l).
    + intros app Ed. unfold dispatch in Ed. destruct (words l) as [name args].
      assert (exists app', app = cli_reset app') as [app' ->].
      { match type of Ed with (?o ≫= _) = _ => destruct o as [app'| | |]; try done end. exists app'. by injection Ed. }
      split; [done|]. split; [cbn; lia|]. done.
  - intros ch Hlen Hch. destruct (type_chars c [] l Hc Hl ltac:(cbn; lia)) as (c1 & E1 & (Ha & _ & Hcur & Hline & _) & _).
    rewrite E1. cbn [cli_session]. destruct (getc_spec c1 ch Ha) as (s' & Ha' & E). unfold cli_process_input. rewrite E.
    unfold printable in Hch. assert (__wrap_getchar ch = ch) as -> by (unfold __wrap_getchar; destruct (Z.eqb_spec ch (-1)); lia).
    rewrite u8_small by lia. destruct (Z.eqb_spec ch 0); [lia|]. cbn [negb mbind outcome_bind].
    unfold process_char, ignored, CliSymbolAsciiTab, CliSymbolAsciiSOH, CliSymbolAsciiETX, CliSymbolAsciiEOT,
      CliSymbolAsciiEsc, CliSymbolAsciiBackspace, CliSymbolAsciiDel, CliSymbolAsciiCR.
    repeat (match goal with |- context [ch =? ?n] => destruct (Z.eqb_spec ch n); [lia|] end). cbn [orb].
    destruct (Z.leb_spec 0x20 ch); [|lia]. destruct (Z.ltb_spec ch 0x7F); [|lia]. cbn [andb].
    cbn [app] in Hcur, Hline. rewrite Hcur, Hline, aset_out; [done|]. right.
    rewrite length_app, length_replicate. lia.
  - intros Hlen Hs. destruct (type_chars c [] l Hc Hl ltac:(cbn; lia)) as (c1 & E1 & H1' & _). cbn [app] in H1'.
    destruct (enter_key c1 l key H1' Hkey) as (e & s' & Ha' & E2). rewrite E1. cbn [cli_session]. rewrite E2.
    destruct H1' as (_ & _ & _ & Hline & _). unfold cli_handle_enter. rewrite Hline, Hlen, Nat.sub_diag, app_nil_r.
    by rewrite strchr_fault by (apply Forall_and; by split).
Qed.
End properties.

(** ** A console to instantiate the theorem with: its commands do nothing *)

Definition idle_callback (_ _ : Z) (_ : option (list Z)) (app : Cli plain_mutex) : outcome (Cli plain_mutex) := Ret app.
Definition a_console : console os_state plain_mutex :=
  mkConsole false (mkCli xSemaphoreCreateMutexStatic 0 (replicate MAX_LINE_LENGTH 0) {[ str "log" := mkCommand 1 0 ]}) a_task.
Definition task_awake (s : os_state) : Prop := os_ipsr s = 0 /\ os_primask s = 0.

Lemma task_awake_delay s : task_awake s -> exists s', rhs_delay_tick 10 s = Ret (tt, s') /\ task_awake s'.
Proof.
  destruct s as [ipsr primask begun susp nest msk t]. intros [Hi Hp]. cbn in Hi, Hp. subst.
  exists (vTaskDelay 10 (mkOs 0 0 begun susp nest msk t)). split; [|split; reflexivity]. by destruct begun, susp.
Qed.

Theorem cli_line_correct_witness :
  (exists e s', task_awake s' /\
     cli_session idle_callback (str "log 3" ++ [13]) a_console =
       (app ← dispatch idle_callback (cli_app a_console) (str "log 3"); Ret (mkConsole e app s')) /\
     forall app, dispatch idle_callback (cli_app a_console) (str "log 3") = Ret app -> typed task_awake (mkConsole e app s') []) /\
  cli_session idle_callback (replicate 64 65 ++ [65]) a_console = Fault /\
  cli_session idle_callback (replicate 64 65 ++ [-1]) a_console = Fault.
Proof.
  assert (Hc : typed task_awake a_console []) by (split; [by split|]; split; [cbn; lia|]; by split).
  assert (Hp : forall l, forallb (fun c => (0x20 <=? c) && (c <? 0x7F)) l = true -> Forall printable l).
  { intros l Hl. apply Forall_forall. intros x Hx. apply list_elem_of_In in Hx.
    rewrite forallb_forall in Hl. apply Hl, andb_true_iff in Hx as [H1%Z.leb_le H2%Z.ltb_lt]. by split. }
  destruct (cli_line_correct idle_callback task_awake task_awake_delay a_console (str "log 3") 13 Hc
    ltac:(by apply Hp) ltac:(by left)) as (A & _ & _).
  destruct (cli_line_correct idle_callback task_awake task_awake_delay a_console (replicate 64 65) (-1) Hc
    ltac:(by apply Hp) ltac:(by right)) as (_ & B & C).
  split; [apply A; apply Nat.ltb_lt; reflexivity|].
  assert (Hx : printable 65) by (split; [discriminate|reflexivity]).
  assert (Hs : Forall (fun ch => ch <> 32) (replicate 64 65)).
  { apply Forall_forall. intros x [-> _]%elem_of_replicate. discriminate. }
  specialize (B 65 eq_refl Hx). specialize (C eq_refl Hs). split; assumption.
Defined.
