(* ===== verification/Interrupt.v ===== *)
(** * The interrupt table (hal/rhs_hal_interrupt/rhs_hal_interrupt.c)

    One handler with its context per interrupt of the board, registered and cleared at
    run time, and the vectors that call it. CMSIS's functions on the NVIC are the
    parameter [Nvic]; the fault handlers are in [Crash]. *)

From S2P Require Import Prelude.

(** ** Interrupts and vectors of the boards *)

(** The configurations the file distinguishes: the PLCs (XL and L are an STM32F765, M an
    STM32F103xE) and the bare parts. *)
Inductive board := BMPLC_XL | BMPLC_L | BMPLC_M | STM32F765xx | STM32F407xx | STM32G0B1xx.

Inductive RHSHalInterruptId :=
  | RHSHalInterruptIdCAN1Rx0 | RHSHalInterruptIdCAN1SCE | RHSHalInterruptIdCAN1Tx
  | RHSHalInterruptIdCAN2Rx0 | RHSHalInterruptIdCAN2SCE | RHSHalInterruptIdCAN2Tx
  | RHSHalInterruptIdUsart3 | RHSHalInterruptIdUsart6 | RHSHalInterruptIdUart4 | RHSHalInterruptIdUart5
  | RHSHalInterruptIdDMA1Stream3 | RHSHalInterruptIdDMA2Stream1 | RHSHalInterruptIdDMA2Stream6
  | RHSHalInterruptIdDMA1Channel2 | RHSHalInterruptIdDMA1Channel3
  | RHSHalInterruptIdEXTI4_15 | RHSHalInterruptIdUSB_UCPD1_2.
#[global] Instance RHSHalInterruptId_eq_dec : EqDecision RHSHalInterruptId.
Proof. solve_decision. Defined.

(** The enumerators a board declares, in order: the value of one is its position. *)
Definition interrupt_ids (b : board) : list RHSHalInterruptId :=
  match b with
  | BMPLC_XL | BMPLC_L =>
      [RHSHalInterruptIdCAN1Rx0; RHSHalInterruptIdCAN1SCE; RHSHalInterruptIdCAN1Tx;
       RHSHalInterruptIdUsart3; RHSHalInterruptIdUsart6; RHSHalInterruptIdUart5;
       RHSHalInterruptIdDMA1Stream3; RHSHalInterruptIdDMA2Stream1; RHSHalInterruptIdDMA2Stream6]
  | BMPLC_M =>
      [RHSHalInterruptIdCAN1Rx0; RHSHalInterruptIdCAN1SCE; RHSHalInterruptIdCAN1Tx;
       RHSHalInterruptIdUsart3; RHSHalInterruptIdUart4; RHSHalInterruptIdUart5;
       RHSHalInterruptIdDMA1Channel2; RHSHalInterruptIdDMA1Channel3]
  | STM32F765xx =>
      [RHSHalInterruptIdCAN1Rx0; RHSHalInterruptIdCAN1SCE; RHSHalInterruptIdCAN1Tx;
       RHSHalInterruptIdCAN2Rx0; RHSHalInterruptIdCAN2SCE; RHSHalInterruptIdCAN2Tx;
       RHSHalInterruptIdUsart3; RHSHalInterruptIdUsart6; RHSHalInterruptIdUart5;
       RHSHalInterruptIdDMA1Stream3; RHSHalInterruptIdDMA2Stream1; RHSHalInterruptIdDMA2Stream6]
  | STM32F407xx =>
      [RHSHalInterruptIdCAN1Rx0; RHSHalInterruptIdCAN1SCE; RHSHalInterruptIdCAN1Tx;
       RHSHalInterruptIdCAN2Rx0; RHSHalInterruptIdCAN2SCE; RHSHalInterruptIdCAN2Tx]
  | STM32G0B1xx => [RHSHalInterruptIdEXTI4_15; RHSHalInterruptIdUSB_UCPD1_2]
  end.

Fixpoint position (id : RHSHalInterruptId) (l : list RHSHalInterruptId) : Z :=
  match l with [] => 0 | x :: l => if decide (x = id) then 0 else 1 + position id l end.
Definition id_value (b : board) (id : RHSHalInterruptId) : Z := position id (interrupt_ids b).

Definition RHSHalInterruptIdMax (b : board) : Z := Z.of_nat (length (interrupt_ids b)).

(** The interrupt numbers the file names. On the STM32F103xE CAN1's receive and transmit
    interrupts are those of the USB ([CAN1_RX0_IRQn] is [USB_LP_CAN1_RX0_IRQn]). *)
Inductive IRQn_Type :=
  | WWDG_IRQn (** interrupt number 0 on every part *)
  | CAN1_RX0_IRQn | CAN1_SCE_IRQn | CAN1_TX_IRQn | CAN2_RX0_IRQn | CAN2_SCE_IRQn | CAN2_TX_IRQn
  | USART3_IRQn | USART6_IRQn | UART4_IRQn | UART5_IRQn
  | DMA1_Stream3_IRQn | DMA2_Stream1_IRQn | DMA2_Stream6_IRQn
  | EXTI4_15_IRQn | USB_UCPD1_2_IRQn | OTG_FS_IRQn | USBWakeUp_IRQn | SVCall_IRQn | PendSV_IRQn.
#[global] Instance IRQn_Type_eq_dec : EqDecision IRQn_Type.
Proof. solve_decision. Defined.

(** The initialiser of [rhs_hal_interrupt_irqn]. *)
Definition irqn_initializer (b : board) : list (RHSHalInterruptId * IRQn_Type) :=
  let can1 := [(RHSHalInterruptIdCAN1Rx0, CAN1_RX0_IRQn); (RHSHalInterruptIdCAN1SCE, CAN1_SCE_IRQn);
               (RHSHalInterruptIdCAN1Tx, CAN1_TX_IRQn)] in
  let can2 := [(RHSHalInterruptIdCAN2Rx0, CAN2_RX0_IRQn); (RHSHalInterruptIdCAN2SCE, CAN2_SCE_IRQn);
               (RHSHalInterruptIdCAN2Tx, CAN2_TX_IRQn)] in
  let f7 := [(RHSHalInterruptIdUsart3, USART3_IRQn); (RHSHalInterruptIdUart5, UART5_IRQn);
             (RHSHalInterruptIdUsart6, USART6_IRQn); (RHSHalInterruptIdDMA1Stream3, DMA1_Stream3_IRQn);
             (RHSHalInterruptIdDMA2Stream1, DMA2_Stream1_IRQn); (RHSHalInterruptIdDMA2Stream6, DMA2_Stream6_IRQn)] in
  match b with
  | BMPLC_XL | BMPLC_L => can1 ++ f7
  | BMPLC_M => can1 ++ [(RHSHalInterruptIdUsart3, USART3_IRQn); (RHSHalInterruptIdUart4, UART4_IRQn);
                        (RHSHalInterruptIdUart5, UART5_IRQn)]
  | STM32F765xx => can1 ++ can2 ++ f7
  | STM32F407xx => can1 ++ can2
  | STM32G0B1xx => [(RHSHalInterruptIdEXTI4_15, EXTI4_15_IRQn); (RHSHalInterruptIdUSB_UCPD1_2, USB_UCPD1_2_IRQn)]
  end.

Fixpoint initialized (id : RHSHalInterruptId) (l : list (RHSHalInterruptId * IRQn_Type)) : IRQn_Type :=
  match l with
  | [] => WWDG_IRQn (** elements without a designator are 0 *)
  | (x, q) :: l => if decide (x = id) then q else initialized id l
  end.

Definition rhs_hal_interrupt_irqn (b : board) : list IRQn_Type :=
  map (fun id => initialized id (irqn_initializer b)) (interrupt_ids b).

(** What a vector of the file does; [tinyusb] is whether TINYUSB is defined. *)
Inductive vector_action := InterruptCall (id : RHSHalInterruptId) | tud_int_handler.

(** [None]: the file defines no handler, the startup code's default one is in place. *)
Definition vector (b : board) (tinyusb : bool) (q : IRQn_Type) : option (list vector_action) :=
  let call id := Some [InterruptCall id] in
  let usb := if tinyusb then [tud_int_handler] else [] in
  match b with
  | BMPLC_XL | BMPLC_L | STM32F765xx =>
      let can2 id := if b is STM32F765xx then call id else None in
      match q with
      | CAN1_RX0_IRQn => call RHSHalInterruptIdCAN1Rx0
      | CAN1_SCE_IRQn => call RHSHalInterruptIdCAN1SCE
      | CAN1_TX_IRQn => call RHSHalInterruptIdCAN1Tx
      | CAN2_RX0_IRQn => can2 RHSHalInterruptIdCAN2Rx0
      | CAN2_SCE_IRQn => can2 RHSHalInterruptIdCAN2SCE
      | CAN2_TX_IRQn => can2 RHSHalInterruptIdCAN2Tx
      | USART3_IRQn => call RHSHalInterruptIdUsart3
      | DMA1_Stream3_IRQn => call RHSHalInterruptIdDMA1Stream3
      | DMA2_Stream1_IRQn => call RHSHalInterruptIdDMA2Stream1
      | DMA2_Stream6_IRQn => call RHSHalInterruptIdDMA2Stream6
      | _ => None
      end
  | STM32F407xx =>
      match q with
      | OTG_FS_IRQn => Some usb
      | CAN1_RX0_IRQn => call RHSHalInterruptIdCAN1Rx0
      | CAN1_SCE_IRQn => call RHSHalInterruptIdCAN1SCE
      | CAN1_TX_IRQn => call RHSHalInterruptIdCAN1Tx
      | CAN2_RX0_IRQn => call RHSHalInterruptIdCAN2Rx0
      | CAN2_SCE_IRQn => call RHSHalInterruptIdCAN2SCE
      | CAN2_TX_IRQn => call RHSHalInterruptIdCAN2Tx
      | _ => None
      end
  | BMPLC_M =>
      match q with
      | CAN1_RX0_IRQn => Some (InterruptCall RHSHalInterruptIdCAN1Rx0 :: usb)
      | CAN1_TX_IRQn => Some (InterruptCall RHSHalInterruptIdCAN1Tx :: usb)
      | USBWakeUp_IRQn => Some usb
      | CAN1_SCE_IRQn => call RHSHalInterruptIdCAN1SCE
      | USART3_IRQn => call RHSHalInterruptIdUsart3
      | UART4_IRQn => call RHSHalInterruptIdUart4
      | UART5_IRQn => call RHSHalInterruptIdUart5
      | _ => None
      end
  | STM32G0B1xx =>
      match q with
      | EXTI4_15_IRQn => call RHSHalInterruptIdEXTI4_15
      | USB_UCPD1_2_IRQn => Some usb
      | _ => None
      end
  end.

(** ** Priorities *)

Definition RHSHalInterruptPriorityLowest : Z := -3.
Definition RHSHalInterruptPriorityLow : Z := -1.
Definition RHSHalInterruptPriorityNormal : Z := 0.
Definition RHSHalInterruptPriorityHighest : Z := 3.
Definition RHSHalInterruptPriorityKamiSama : Z := 6.

Definition valid_priority (p : Z) : bool :=
  ((RHSHalInterruptPriorityLowest <=? p) && (p <=? RHSHalInterruptPriorityHighest))
  || (p =? RHSHalInterruptPriorityKamiSama).

(** ** CMSIS's functions on the NVIC *)

Class Nvic (N : Type) := {
  NVIC_GetPriorityGrouping : N -> Z;
  NVIC_EncodePriority : Z -> Z -> Z -> Z;
  NVIC_SetPriority : IRQn_Type -> Z -> N -> N;
  NVIC_EnableIRQ : IRQn_Type -> N -> N;
  NVIC_DisableIRQ : IRQn_Type -> N -> N;
  NVIC_ClearPendingIRQ : IRQn_Type -> N -> N;
  NVIC_SetPendingIRQ : IRQn_Type -> N -> N;
  NVIC_GetPendingIRQ : IRQn_Type -> N -> bool
}.

(** ** State and operations

    [F] are the handlers, [C] the contexts they are registered with; a handler [None] is
    [NULL]. *)

Record RHSHalInterruptISRPair (F C : Type) := mkPair { isr : option F; context : C }.
Arguments mkPair {F C}.
Arguments isr {F C}.
Arguments context {F C}.

(** The static [rhs_hal_interrupt], and the NVIC beside it. *)
Record RHSHalInterrupt (F C N : Type) := mkInterrupt {
  isrs : list (RHSHalInterruptISRPair F C);
  counter_time_in_isr_total : Z;
  nvic : N
}.
Arguments mkInterrupt {F C N}.
Arguments isrs {F C N}.
Arguments counter_time_in_isr_total {F C N}.
Arguments nvic {F C N}.

Section operations.
Context {F C N : Type} `{Nvic N}.
Abbreviation state := (RHSHalInterrupt F C N).
(** configLIBRARY_MAX_SYSCALL_INTERRUPT_PRIORITY of the application. *)
Context (b : board) (max_syscall_priority : Z).

Definition with_nvic (f : N -> N) (s : state) : state :=
  mkInterrupt (isrs s) (counter_time_in_isr_total s) (f (nvic s)).

Definition RHS_HAL_INTERRUPT_DEFAULT_PRIORITY : Z := max_syscall_priority + 5.

(** [rhs_hal_interrupt_irqn[index]] *)
Definition irqn (index : Z) : M state IRQn_Type := lift (aget (rhs_hal_interrupt_irqn b) index).

Definition rhs_hal_interrupt_enable (index priority : Z) : M state unit :=
  q ← irqn index;
  modify (with_nvic (fun n =>
    NVIC_EnableIRQ q (NVIC_SetPriority q (NVIC_EncodePriority (NVIC_GetPriorityGrouping n) priority 0) n))).

Definition rhs_hal_interrupt_clear_pending (index : Z) : M state unit :=
  q ← irqn index; modify (with_nvic (NVIC_ClearPendingIRQ q)).

(** The pending bit is read and dropped: the function returns nothing. *)
Definition rhs_hal_interrupt_get_pending (index : Z) : M state unit :=
  q ← irqn index; s ← get; let _ := NVIC_GetPendingIRQ q (nvic s) in mret tt.

Definition rhs_hal_interrupt_set_pending (index : Z) : M state unit :=
  q ← irqn index; modify (with_nvic (NVIC_SetPendingIRQ q)).

Definition rhs_hal_interrupt_disable (index : Z) : M state unit :=
  q ← irqn index; modify (with_nvic (NVIC_DisableIRQ q)).

Definition rhs_hal_interrupt_init : M state unit :=
  modify (with_nvic (fun n =>
    NVIC_SetPriority SVCall_IRQn (NVIC_EncodePriority (NVIC_GetPriorityGrouping n) 0 0) n));;
  modify (with_nvic (fun n =>
    NVIC_SetPriority PendSV_IRQn (NVIC_EncodePriority (NVIC_GetPriorityGrouping n) 15 0) n)).

(** [isr_descr->isr = isr; isr_descr->context = context; __DMB();] *)
Definition set_pair (index : Z) (f : option F) (c : C) : M state unit :=
  s ← get;
  l ← lift (aset (isrs s) index (mkPair f c));
  modify (fun s => mkInterrupt l (counter_time_in_isr_total s) (nvic s)).

Definition is_null {A} (x : option A) : bool := if x is None then true else false.

Definition rhs_hal_interrupt_set_isr_ex (index priority : Z) (f : option F) (c : C) : M state unit :=
  rhs_assert ((0 <=? index) && (index <? RHSHalInterruptIdMax b));;
  rhs_assert (valid_priority priority);;
  let real_priority := u16 (RHS_HAL_INTERRUPT_DEFAULT_PRIORITY - priority) in
  s ← get;
  isr_descr ← lift (aget (isrs s) index);
  (if is_null f then
     rhs_hal_interrupt_disable index;; rhs_hal_interrupt_clear_pending index
   else rhs_assert (is_null (isr isr_descr)));;
  set_pair index f c;;
  if is_null f then mret tt
  else rhs_hal_interrupt_clear_pending index;; rhs_hal_interrupt_enable index real_priority.

Definition rhs_hal_interrupt_set_isr (index : Z) (f : option F) (c : C) : M state unit :=
  rhs_hal_interrupt_set_isr_ex index RHSHalInterruptPriorityNormal f c.

Definition rhs_hal_interrupt_get_name (exception_number : Z) : option string := None.

Definition rhs_hal_interrupt_get_time_in_isr_total : M state Z := gets counter_time_in_isr_total.
End operations.

(** ** Handling an interrupt

    [W] is the machine the handlers work on, which holds the interrupt table; [run f c]
    is what calling the handler [f] with the context [c] does. *)

Class HasInterrupts (F C N W : Type) := {
  interrupts : W -> RHSHalInterrupt F C N;
  set_interrupts : RHSHalInterrupt F C N -> W -> W
}.

(** Code on the table alone, in the machine. *)
Definition on_interrupts {F C N W A} `{HasInterrupts F C N W} (m : M (RHSHalInterrupt F C N) A) : M W A := fun w =>
  '(a, i) ← m (interrupts w); Ret (a, set_interrupts i w).

Section handling.
Context {F C N W : Type} `{HasInterrupts F C N W}.
Context (b : board) (tinyusb : bool) (run : F -> C -> M W unit).
(** The cycle counter (TIM2's counter on the STM32G0B1), TinyUSB's interrupt handler, and
    the startup code's handler of the vectors nobody defines. *)
Context (CYCCNT : W -> Z) (tud_int : M W unit) (Default_Handler : M W unit).

Definition account (cycles : Z) (s : RHSHalInterrupt F C N) : RHSHalInterrupt F C N :=
  mkInterrupt (isrs s) (u32 (counter_time_in_isr_total s + cycles)) (nvic s).

Definition rhs_hal_interrupt_call (index : Z) : M W unit :=
  isr_descr ← on_interrupts (s ← get; lift (aget (isrs s) index));
  isr_start ← gets CYCCNT;
  (match isr isr_descr with Some f => run f (context isr_descr) | None => mret tt end);;
  isr_end ← gets CYCCNT;
  let time_in_isr := u32 (isr_end - isr_start) in
  on_interrupts (modify (account time_in_isr)).

Fixpoint run_vector (actions : list vector_action) : M W unit :=
  match actions with
  | [] => mret tt
  | InterruptCall id :: l => rhs_hal_interrupt_call (id_value b id);; run_vector l
  | tud_int_handler :: l => tud_int;; run_vector l
  end.

(** The processor takes interrupt [q]. *)
Definition IRQHandler (q : IRQn_Type) : M W unit :=
  match vector b tinyusb q with Some l => run_vector l | None => Default_Handler end.
End handling.

(** ** What CMSIS documents of the NVIC *)

Class NvicLaws (N : Type) `{Nvic N} := {
  irq_enabled : N -> IRQn_Type -> bool;
  irq_pending : N -> IRQn_Type -> bool;
  irq_priority : N -> IRQn_Type -> Z;
  set_priority_spec q p n : (forall x, irq_enabled (NVIC_SetPriority q p n) x = irq_enabled n x) /\
    (forall x, irq_pending (NVIC_SetPriority q p n) x = irq_pending n x) /\
    (forall x, irq_priority (NVIC_SetPriority q p n) x = if decide (x = q) then p else irq_priority n x);
  enable_spec q n : (forall x, irq_enabled (NVIC_EnableIRQ q n) x = if decide (x = q) then true else irq_enabled n x) /\
    (forall x, irq_pending (NVIC_EnableIRQ q n) x = irq_pending n x) /\
    (forall x, irq_priority (NVIC_EnableIRQ q n) x = irq_priority n x);
  disable_spec q n : (forall x, irq_enabled (NVIC_DisableIRQ q n) x = if decide (x = q) then false else irq_enabled n x) /\
    (forall x, irq_pending (NVIC_DisableIRQ q n) x = irq_pending n x) /\
    (forall x, irq_priority (NVIC_DisableIRQ q n) x = irq_priority n x);
  clear_pending_spec q n : (forall x, irq_enabled (NVIC_ClearPendingIRQ q n) x = irq_enabled n x) /\
    (forall x, irq_pending (NVIC_ClearPendingIRQ q n) x = if decide (x = q) then false else irq_pending n x) /\
    (forall x, irq_priority (NVIC_ClearPendingIRQ q n) x = irq_priority n x)
}.

Class HasInterruptsLaws (F C N W : Type) `{HasInterrupts F C N W} := {
  interrupts_set i w : interrupts (set_interrupts i w) = i;
  set_interrupts_same w : set_interrupts (interrupts w) w = w
}.

(** ** The table *)

Section table.
Context {F C N : Type} `{NvicLaws N}.
Context (b : board) (max_syscall_priority : Z) (null : C).
Abbreviation state := (RHSHalInterrupt F C N).
Abbreviation set_isr_ex := (rhs_hal_interrupt_set_isr_ex (F := F) (C := C) (N := N) b max_syscall_priority).

Definition well_sized (s : state) : Prop := Z.of_nat (length (isrs s)) = RHSHalInterruptIdMax b.

Lemma irqn_in index (s : state) : 0 <= index < RHSHalInterruptIdMax b ->
  exists q, rhs_hal_interrupt_irqn b !! Z.to_nat index = Some q /\ irqn b index s = Ret (q, s).
Proof.
  intros Hi. destruct (lookup_lt_is_Some_2 (rhs_hal_interrupt_irqn b) (Z.to_nat index)) as [q Hq].
  { unfold rhs_hal_interrupt_irqn, RHSHalInterruptIdMax in *. rewrite length_map. lia. }
  exists q. split; [done|]. unfold irqn, lift. by rewrite (aget_lookup _ _ q) by (lia || done).
Qed.

(** The handler of an index, if any. *)
Definition handler (s : state) (index : Z) : option (RHSHalInterruptISRPair F C) := isrs s !! Z.to_nat index.
Definition registered (s : state) (index : Z) : Prop := exists f c, handler s index = Some (mkPair (Some f) c).

(** Registering and clearing, on every branch. *)
Lemma set_isr_ex_spec (s : state) index p f c :
  well_sized s ->
  if (0 <=? index) && (index <? RHSHalInterruptIdMax b) && valid_priority p then
    exists q d, rhs_hal_interrupt_irqn b !! Z.to_nat index = Some q /\ isrs s !! Z.to_nat index = Some d /\
    if is_null f || is_null (isr d) then
      let n := if is_null f then NVIC_ClearPendingIRQ q (NVIC_DisableIRQ q (nvic s)) else
        let n := NVIC_ClearPendingIRQ q (nvic s) in
        NVIC_EnableIRQ q (NVIC_SetPriority q
          (NVIC_EncodePriority (NVIC_GetPriorityGrouping n) (u16 (max_syscall_priority + 5 - p)) 0) n) in
      set_isr_ex index p f c s =
        Ret (tt, mkInterrupt (<[Z.to_nat index := mkPair f c]> (isrs s)) (counter_time_in_isr_total s) n)
    else set_isr_ex index p f c s = Crash "Assert"
  else set_isr_ex index p f c s = Crash "Assert".
Proof.
  intros Hw. unfold rhs_hal_interrupt_set_isr_ex.
  destruct ((0 <=? index) && (index <? RHSHalInterruptIdMax b)) eqn:Hi; [|done].
  destruct (valid_priority p); [|done]. cbn [andb].
  apply andb_true_iff in Hi as [Hi1%Z.leb_le Hi2%Z.ltb_lt].
  destruct (irqn_in index s ltac:(lia)) as (q & Hq & _).
  destruct (lookup_lt_is_Some_2 (isrs s) (Z.to_nat index)) as [d Hd]; [unfold well_sized in Hw; lia|].
  exists q, d. split; [done|]. split; [done|].
  assert (Eq : forall s : state, irqn b index s = Ret (q, s)).
  { intros s'. destruct (irqn_in index s' ltac:(lia)) as (q' & Hq' & E). congruence. }
  assert (Es : forall s' : state, isrs s' = isrs s -> set_pair index f c s' =
    Ret (tt, mkInterrupt (<[Z.to_nat index := mkPair f c]> (isrs s)) (counter_time_in_isr_total s') (nvic s'))).
  { intros s' E. unfold set_pair. munfold. rewrite E, aset_in; [done|unfold well_sized in Hw; lia]. }
  unfold rhs_hal_interrupt_disable, rhs_hal_interrupt_clear_pending, rhs_hal_interrupt_enable.
  cbv [mbind mret M_bind M_ret get lift modify rhs_assert].
  rewrite (aget_lookup _ _ d) by (lia || done).
  destruct f as [f|]; cbn [is_null orb].
  - destruct (isr d); cbn [is_null]; [done|]. rewrite Es by done. rewrite !Eq. done.
  - rewrite !Eq, Es by done. done.
Qed.

(** The states the file's functions can reach from the start of the system. *)
Inductive reachable : state -> Prop :=
  | reachable_start n : (forall q, irq_enabled n q = false) ->
      reachable (mkInterrupt (repeat (mkPair None null) (length (interrupt_ids b))) 0 n)
  | reachable_init s s' : reachable s -> rhs_hal_interrupt_init s = Ret (tt, s') -> reachable s'
  | reachable_set s s' index p f c : reachable s -> set_isr_ex index p f c s = Ret (tt, s') -> reachable s'
  | reachable_account s t : reachable s -> reachable (mkInterrupt (isrs s) t (nvic s)).

(** The interrupt numbers of the table differ; the exception is the PLC M, whose two DMA
    interrupts have no designator. *)
Definition distinct_irqn : bool := bool_decide (NoDup (rhs_hal_interrupt_irqn b)).

Definition occupied (s : state) (index : Z) : bool :=
  match handler s index with Some d => negb (is_null (isr d)) | None => false end.

(** An interrupt is enabled exactly while a handler is registered for it. *)
Definition enabled_iff_occupied (s : state) : Prop :=
  forall index q, 0 <= index < RHSHalInterruptIdMax b -> rhs_hal_interrupt_irqn b !! Z.to_nat index = Some q ->
    irq_enabled (nvic s) q = occupied s index.

Lemma occupied_insert (s : state) index index' d t n :
  well_sized s -> 0 <= index < RHSHalInterruptIdMax b -> 0 <= index' ->
  occupied (mkInterrupt (<[Z.to_nat index := d]> (isrs s)) t n) index' =
    if decide (index' = index) then negb (is_null (isr d)) else occupied s index'.
Proof.
  intros Hw Hi Hi'. unfold occupied, handler, well_sized in *. cbn [isrs].
  destruct (decide (index' = index)) as [->|Hne].
  - rewrite list_lookup_insert_eq by lia. done.
  - rewrite list_lookup_insert_ne by lia. done.
Qed.

Lemma set_isr_ex_keeps (s s' : state) index p f c :
  distinct_irqn = true -> well_sized s -> enabled_iff_occupied s ->
  set_isr_ex index p f c s = Ret (tt, s') -> well_sized s' /\ enabled_iff_occupied s'.
Proof.
  intros Hd%bool_decide_eq_true Hw He E. pose proof (set_isr_ex_spec s index p f c Hw) as Hs.
  destruct ((0 <=? index) && (index <? RHSHalInterruptIdMax b)) eqn:Hi; cbn [andb] in Hs; [|congruence].
  destruct (valid_priority p); [|congruence]. apply andb_true_iff in Hi as [Hi1%Z.leb_le Hi2%Z.ltb_lt].
  destruct Hs as (q & d & Hq & _ & Hs). destruct (is_null f || is_null (isr d)) eqn:Hf; [|congruence].
  cbn zeta in Hs. rewrite Hs in E. injection E as <-. split; [unfold well_sized in *; simpl; by rewrite length_insert|].
  intros index' q' Hi' Hq'. rewrite occupied_insert by (done || lia). cbn [nvic isr].
  assert (Hqq : q' = q <-> index' = index).
  { split; [intros ->|intros ->; congruence].
    pose proof (NoDup_lookup _ _ _ _ Hd Hq Hq'). lia. }
  destruct f as [f|]; cbn [is_null].
  - rewrite (proj1 (enable_spec _ _)), (proj1 (set_priority_spec _ _ _)), (proj1 (clear_pending_spec _ _)).
    destruct (decide (q' = q)), (decide (index' = index)); try done; try tauto. by apply He.
  - rewrite (proj1 (clear_pending_spec _ _)), (proj1 (disable_spec _ _)).
    destruct (decide (q' = q)), (decide (index' = index)); try done; try tauto. by apply He.
Qed.

Lemma reachable_invariant (s : state) :
  distinct_irqn = true -> reachable s -> well_sized s /\ enabled_iff_occupied s.
Proof.
  intros Hd Hr. induction Hr as [n Hn|s s' Hr [Hw He] E|s s' index p f c Hr [Hw He] E|s t Hr [Hw He]].
  - split; [unfold well_sized, RHSHalInterruptIdMax; simpl; by rewrite repeat_length|].
    intros index q Hi Hq. cbn [nvic]. rewrite Hn. unfold occupied, handler. cbn [isrs].
    destruct (repeat _ _ !! _) eqn:El; [|done].
    apply list_elem_of_lookup_2, list_elem_of_In, repeat_spec in El. by subst.
  - injection E as <-. split; [done|]. intros index q Hi Hq. cbn [nvic with_nvic].
    rewrite !(proj1 (set_priority_spec _ _ _)). by apply He.
  - by eapply set_isr_ex_keeps.
  - done.
Qed.
End table.

(** ** Properties *)

Section properties.
Context {F C N : Type} `{NvicLaws N}.
Context (max_syscall_priority : Z) (null : C).
Abbreviation state := (RHSHalInterrupt F C N).
Abbreviation set_isr_ex b := (rhs_hal_interrupt_set_isr_ex (F := F) (C := C) (N := N) b max_syscall_priority).
Abbreviation reachable b := (reachable (F := F) (C := C) (N := N) b max_syscall_priority null).

Lemma distinct_boards b : distinct_irqn b = match b with BMPLC_M => false | _ => true end.
Proof. destruct b; vm_compute; reflexivity. Qed.

Lemma start_well_sized b (n : N) :
  well_sized b (mkInterrupt (repeat (mkPair (None : option F) null) (length (interrupt_ids b))) 0 n).
Proof. unfold well_sized, RHSHalInterruptIdMax. simpl. by rewrite repeat_length. Qed.

(** Registering in a free slot. *)
Lemma register_free b (s : state) index f c :
  well_sized b s -> 0 <= index < RHSHalInterruptIdMax b -> occupied s index = false ->
  exists s', set_isr_ex b index RHSHalInterruptPriorityNormal (Some f) c s = Ret (tt, s') /\
    isrs s' = <[Z.to_nat index := mkPair (Some f) c]> (isrs s).
Proof.
  intros Hw Hi Ho. pose proof (set_isr_ex_spec b max_syscall_priority s index RHSHalInterruptPriorityNormal (Some f) c Hw) as Hs.
  destruct (Z.leb_spec 0 index), (Z.ltb_spec index (RHSHalInterruptIdMax b)); try lia.
  change (valid_priority RHSHalInterruptPriorityNormal) with true in Hs. cbn [andb] in Hs.
  destruct Hs as (q & d & _ & Hd & Hs). unfold occupied, handler in Ho. rewrite Hd in Ho.
  destruct (is_null (isr d)); [|done]. cbn [is_null orb] in Hs. eexists. split; [exact Hs|]. done.
Qed.

End properties.

Section delivery.
Context {F C N W : Type} `{NvicLaws N} `{HasInterruptsLaws F C N W}.
Context (run : F -> C -> M W unit) (CYCCNT : W -> Z) (tud_int Default_Handler : M W unit).

(** The interrupt of [id] reaches the table's entry for [id]. *)
Definition delivered (b : board) (tinyusb : bool) (id : RHSHalInterruptId) : bool :=
  match vector b tinyusb (initialized id (irqn_initializer b)) with
  | Some (InterruptCall x :: _) => bool_decide (x = id)
  | _ => false
  end.

(** TinyUSB's share of a vector. *)
Definition usb_share (b : board) (tinyusb : bool) (q : IRQn_Type) : M W unit :=
  match vector b tinyusb q with Some (_ :: l) => run_vector b run CYCCNT tud_int l | _ => mret tt end.

Lemma IRQHandler_delivered b tinyusb id w :
  delivered b tinyusb id = true ->
  IRQHandler b tinyusb run CYCCNT tud_int Default_Handler (initialized id (irqn_initializer b)) w =
    (rhs_hal_interrupt_call run CYCCNT (id_value b id);;
     usb_share b tinyusb (initialized id (irqn_initializer b))) w.
Proof.
  unfold delivered, IRQHandler, usb_share. destruct (vector b tinyusb _) as [[|[x|] l]|]; try done.
  intros ->%bool_decide_eq_true. done.
Qed.

Lemma call_registered w index d :
  handler (interrupts w) index = Some d -> 0 <= index ->
  rhs_hal_interrupt_call run CYCCNT index w =
    ((match isr d with Some f => run f (context d) | None => mret tt end);;
     end_ ← gets CYCCNT; on_interrupts (modify (account (u32 (end_ - CYCCNT w))))) w.
Proof.
  intros Hd Hi. unfold rhs_hal_interrupt_call, on_interrupts. munfold.
  rewrite (aget_lookup _ _ d) by done. rewrite set_interrupts_same. done.
Qed.

(** Once [rhs_hal_interrupt_set_isr_ex] has registered a handler for an interrupt,
    taking that interrupt runs exactly that handler with its context, adds the cycles it
    took to the total (modulo 2^32), then gives TinyUSB its share of a shared vector; the
    other entries keep their handlers. The interrupts this fails for are listed per board:
    those the file has no vector for, and the USB interrupt of the STM32G0B1. *)
Theorem interrupt_delivered b tinyusb id max p f c w i1 :
  well_sized b (interrupts w) -> id ∈ interrupt_ids b ->
  rhs_hal_interrupt_set_isr_ex b max (id_value b id) p (Some f) c (interrupts w) = Ret (tt, i1) ->
  let w1 := set_interrupts i1 w in
  let q := initialized id (irqn_initializer b) in
  handler i1 (id_value b id) = Some (mkPair (Some f) c) /\
  (forall index, 0 <= index -> index <> id_value b id -> handler i1 index = handler (interrupts w) index) /\
  filter (fun x => delivered b tinyusb x = false) (interrupt_ids b) =
    match b with
    | BMPLC_XL | BMPLC_L | STM32F765xx => [RHSHalInterruptIdUsart6; RHSHalInterruptIdUart5]
    | BMPLC_M => [RHSHalInterruptIdDMA1Channel2; RHSHalInterruptIdDMA1Channel3]
    | STM32F407xx => []
    | STM32G0B1xx => [RHSHalInterruptIdUSB_UCPD1_2]
    end /\
  if delivered b tinyusb id then
    IRQHandler b tinyusb run CYCCNT tud_int Default_Handler q w1 =
      (run f c;;
       end_ ← gets CYCCNT; on_interrupts (modify (account (u32 (end_ - CYCCNT w1))));;
       usb_share b tinyusb q) w1
  else vector b tinyusb q = None \/ vector b tinyusb q = Some (if tinyusb then [tud_int_handler] else []).
Proof.
  intros Hw Hid E w1 q.
  assert (Hi : 0 <= id_value b id).
  { clear. unfold id_value. induction (interrupt_ids b) as [|x l IH]; simpl; [lia|]. destruct (decide (x = id)); lia. }
  pose proof (set_isr_ex_spec b max (interrupts w) (id_value b id) p (Some f) c Hw) as Hs.
  destruct ((0 <=? id_value b id) && (id_value b id <? RHSHalInterruptIdMax b)) eqn:Hb; cbn [andb] in Hs; [|congruence].
  destruct (valid_priority p); [|congruence]. destruct Hs as (q' & d & _ & Hd & Hs).
  destruct (is_null (Some f) || is_null (isr d)); [|congruence]. cbn zeta in Hs. rewrite Hs in E. injection E as <-.
  assert (Hh : handler (interrupts w1) (id_value b id) = Some (mkPair (Some f) c)).
  { unfold w1. rewrite interrupts_set. unfold handler. cbn [isrs]. apply list_lookup_insert_eq. by eapply lookup_lt_Some. }
  split; [unfold w1 in Hh; by rewrite interrupts_set in Hh|].
  split.
  { intros index H0' Hne. unfold handler. cbn [isrs]. apply list_lookup_insert_ne. lia. }
  split; [destruct b, tinyusb; reflexivity|].
  destruct (delivered b tinyusb id) eqn:Hdel.
  - unfold q. rewrite IRQHandler_delivered by done. cbv [mbind M_bind].
    rewrite (call_registered w1 _ (mkPair (Some f) c)) by done. cbn [isr context]. cbv [mbind M_bind].
    destruct (run f c w1) as [[[] w2]|?| |]; [|done..]. by destruct (gets CYCCNT w2) as [[? w3]|?| |].
  - clear -Hdel Hid. unfold q, delivered in *.
    destruct b; cbn in Hid; rewrite ?elem_of_cons, ?elem_of_nil in Hid;
      repeat match goal with H : _ \/ _ |- _ => destruct H | H : False |- _ => destruct H end;
      subst id; destruct tinyusb; vm_compute in *; auto; discriminate.
Qed.
End delivery.

(** ** An NVIC and a machine to instantiate the theorems with *)

Record simple_nvic := mkNvic {
  sn_enabled : IRQn_Type -> bool; sn_pending : IRQn_Type -> bool; sn_priority : IRQn_Type -> Z }.

Definition update {A} (f : IRQn_Type -> A) (q : IRQn_Type) (a : A) : IRQn_Type -> A :=
  fun x => if decide (x = q) then a else f x.

#[global] Instance simple_nvic_ops : Nvic simple_nvic := {
  NVIC_GetPriorityGrouping _ := 3;
  NVIC_EncodePriority _ preempt _ := preempt;
  NVIC_SetPriority q p n := mkNvic (sn_enabled n) (sn_pending n) (update (sn_priority n) q p);
  NVIC_EnableIRQ q n := mkNvic (update (sn_enabled n) q true) (sn_pending n) (sn_priority n);
  NVIC_DisableIRQ q n := mkNvic (update (sn_enabled n) q false) (sn_pending n) (sn_priority n);
  NVIC_ClearPendingIRQ q n := mkNvic (sn_enabled n) (update (sn_pending n) q false) (sn_priority n);
  NVIC_SetPendingIRQ q n := mkNvic (sn_enabled n) (update (sn_pending n) q true) (sn_priority n);
  NVIC_GetPendingIRQ q n := sn_pending n q
}.

#[global] Instance simple_nvic_laws : NvicLaws simple_nvic.
Proof.
  refine {| irq_enabled := sn_enabled; irq_pending := sn_pending; irq_priority := sn_priority |};
    intros; repeat split; intros; reflexivity.
Defined.

(** Handlers are numbers, which the machine logs with the time; each takes 10 cycles. *)
Record logging_machine := mkMachine {
  lm_interrupts : RHSHalInterrupt Z Z simple_nvic; lm_cycles : Z; lm_log : list (Z * Z) }.

#[global] Instance logging_interrupts : HasInterrupts Z Z simple_nvic logging_machine := {
  interrupts := lm_interrupts;
  set_interrupts i w := mkMachine i (lm_cycles w) (lm_log w)
}.
#[global] Instance logging_laws : HasInterruptsLaws Z Z simple_nvic logging_machine.
Proof. split; [done|]. by intros []. Defined.

Definition log_run (f c : Z) : M logging_machine unit :=
  modify (fun w => mkMachine (lm_interrupts w) (lm_cycles w + 10) (lm_log w ++ [(f, c)])).

Definition nvic0 : simple_nvic := mkNvic (fun _ => false) (fun _ => false) (fun _ => 0).
Definition table0 (b : board) : RHSHalInterrupt Z Z simple_nvic :=
  mkInterrupt (repeat (mkPair None 0) (length (interrupt_ids b))) 0 nvic0.

(** A table with a handler for CAN1's errors. *)
Definition table1 : RHSHalInterrupt Z Z simple_nvic :=
  mkInterrupt (<[1%nat := mkPair (Some 99) 5]> (isrs (table0 BMPLC_L))) 0
    (NVIC_EnableIRQ CAN1_SCE_IRQn (NVIC_SetPriority CAN1_SCE_IRQn 11 (NVIC_ClearPendingIRQ CAN1_SCE_IRQn nvic0))).

Lemma table1_set :
  rhs_hal_interrupt_set_isr_ex BMPLC_L 5 1 (-1) (Some 99) 5 (table0 BMPLC_L) = Ret (tt, table1).
Proof. reflexivity. Qed.


Theorem interrupt_delivered_witness :
  IRQHandler BMPLC_L false log_run lm_cycles (mret tt) hang CAN1_SCE_IRQn (mkMachine table1 7 []) =
    Ret (tt, mkMachine (account 10 table1) 17 [(99, 5)]).
Proof.
  pose proof (interrupt_delivered log_run lm_cycles (mret tt) hang BMPLC_L false RHSHalInterruptIdCAN1SCE 5 (-1)
    99 5 (mkMachine (table0 BMPLC_L) 7 []) table1 eq_refl ltac:(set_solver) table1_set) as (_ & _ & _ & T).
  exact T.
Defined.
