(* ===== verification/Gpio.v ===== *)
(** * Pins (hal/rhs_hal_gpio/rhs_hal_gpio.h, hal/rhs_hal_io)

    The pin functions at the level of registers, for the four families of parts, and the table
    of inputs, outputs and keys of the PLC boards XL and L with its set-up. The registers, and
    ST's HAL in rhs_hal_io.c, are parameters; the bits of a register are computed as the code
    does. [GPIO_InitTypeDef] is also what the serial drivers set their pins up with. *)

From S2P Require Import Prelude Interrupt.

(** ** ST's view of a pin: the argument of HAL_GPIO_Init *)

Inductive gpio_port := GPIOA | GPIOB | GPIOC | GPIOD | GPIOE | GPIOF | GPIOG | GPIOH.
Inductive gpio_mode := GPIO_MODE_INPUT | GPIO_MODE_OUTPUT_PP | GPIO_MODE_AF_PP | GPIO_MODE_IT_RISING_FALLING.
Inductive gpio_pull := GPIO_NOPULL | GPIO_PULLDOWN.
Inductive gpio_speed := GPIO_SPEED_FREQ_LOW | GPIO_SPEED_FREQ_HIGH | GPIO_SPEED_FREQ_VERY_HIGH.
Inductive gpio_alternate := GPIO_AF7_USART3 | GPIO_AF8_USART6.
(** [Pin] is a mask; the STM32F103xE has no [Alternate]. *)
Record GPIO_InitTypeDef := mkGpioInit {
  Pin : Z; Mode : gpio_mode; Pull : gpio_pull; Speed : gpio_speed; Alternate : option gpio_alternate
}.
Definition GPIO_PIN (n : Z) : Z := Z.shiftl 1 n.
#[global] Instance gpio_port_eq_dec : EqDecision gpio_port.
Proof. solve_decision. Defined.

(** Case analysis on the comparisons of the goal. *)
Ltac compare_cases :=
  repeat match goal with
         | |- context [?a <? ?b] => destruct (Z.ltb_spec a b)
         | |- context [?a <=? ?b] => destruct (Z.leb_spec a b)
         | |- context [?a =? ?b] => destruct (Z.eqb_spec a b)
         end; try lia.

(** ** Bits of a register *)

(** [SETBITS(R, CLEARMASK, SETMASK)] *)
Definition SETBITS (r clearmask setmask : Z) : Z := Z.lor (Z.land r (u32 (Z.lnot clearmask))) setmask.

(** The [i]-th field of [w] bits of a register. *)
Definition field (w r i : Z) : Z := Z.land (Z.shiftr r (w * i)) (Z.ones w).

Section bits.
Implicit Types r v w i j n : Z.

Lemma field_testbit w r i j : 0 <= w -> 0 <= i -> 0 <= j ->
  Z.testbit (field w r i) j = (j <? w) && Z.testbit r (j + w * i).
Proof.
  intros Hw Hi Hj. unfold field. rewrite Z.land_spec, Z.shiftr_spec, Z.testbit_ones_nonneg by lia.
  by rewrite andb_comm.
Qed.

Lemma u32_lnot_testbit v j : 0 <= j -> Z.testbit (u32 (Z.lnot v)) j = (j <? 32) && negb (Z.testbit v j).
Proof.
  intros Hj. unfold u32. destruct (Z.ltb_spec j 32).
  - rewrite Z.mod_pow2_bits_low by lia. by rewrite Z.lnot_spec.
  - by rewrite Z.mod_pow2_bits_high by lia.
Qed.

Lemma mask_testbit w n j : 0 <= w -> 0 <= n -> 0 <= j ->
  Z.testbit (Z.shiftl (Z.ones w) (w * n)) j = (w * n <=? j) && (j <? w * n + w).
Proof.
  intros Hw Hn Hj. rewrite Z.shiftl_spec by done. destruct (Z.leb_spec (w * n) j).
  - rewrite Z.testbit_ones_nonneg by lia. cbn. destruct (Z.ltb_spec (j - w * n) w), (Z.ltb_spec j (w * n + w)); lia || done.
  - by rewrite Z.testbit_neg_r by lia.
Qed.

Lemma value_testbit w v j : 0 <= w -> 0 <= v < 2 ^ w -> w <= j -> Z.testbit v j = false.
Proof.
  intros Hw Hv Hj. destruct (decide (v = 0)) as [->|Hne]; [apply Z.bits_0|].
  apply Z.bits_above_log2; [lia|]. assert (Z.log2 v < w); [|lia]. apply Z.log2_lt_pow2; lia.
Qed.

Lemma SETBITS_testbit w r n v j : 0 <= w -> 0 <= n -> w * n + w <= 32 -> 0 <= v < 2 ^ w -> 0 <= j < 32 ->
  Z.testbit (SETBITS r (Z.shiftl (Z.ones w) (w * n)) (Z.shiftl v (w * n))) j =
  if (w * n <=? j) && (j <? w * n + w) then Z.testbit v (j - w * n) else Z.testbit r j.
Proof.
  intros Hw Hn Hfit Hv Hj. unfold SETBITS.
  rewrite Z.lor_spec, Z.land_spec, u32_lnot_testbit, mask_testbit, Z.shiftl_spec by lia.
  destruct (Z.ltb_spec j 32); [|lia].
  destruct (Z.leb_spec (w * n) j), (Z.ltb_spec j (w * n + w)); cbn [andb negb].
  - by rewrite andb_false_r.
  - rewrite andb_true_r, (value_testbit w v) by lia. by rewrite orb_false_r.
  - rewrite andb_true_r, (Z.testbit_neg_r v) by lia. by rewrite orb_false_r.
  - lia.
Qed.

(** Setting a field sets it and no other. *)
Lemma field_SETBITS w r n v i : 0 < w -> 0 <= n -> w * n + w <= 32 -> 0 <= i -> w * i + w <= 32 -> 0 <= v < 2 ^ w ->
  field w (SETBITS r (Z.shiftl (Z.ones w) (w * n)) (Z.shiftl v (w * n))) i = if i =? n then v else field w r i.
Proof.
  intros Hw Hn Hfn Hi Hfi Hv. apply Z.bits_inj'. intros j Hj. rewrite field_testbit by lia.
  destruct (Z.ltb_spec j w); cbn [andb].
  - rewrite SETBITS_testbit by lia. destruct (Z.eqb_spec i n) as [->|Hne].
    + destruct (Z.leb_spec (w * n) (j + w * n)), (Z.ltb_spec (j + w * n) (w * n + w)); try lia. cbn. f_equal. lia.
    + rewrite field_testbit by lia. destruct (Z.ltb_spec j w); [|lia]. cbn [andb].
      assert (w * i + w <= w * n \/ w * n + w <= w * i) as Hapart by nia.
      destruct (Z.leb_spec (w * n) (j + w * i)), (Z.ltb_spec (j + w * i) (w * n + w)); try lia; done.
  - destruct (Z.eqb_spec i n); [by rewrite (value_testbit w v) by lia|].
    rewrite field_testbit by lia. by destruct (Z.ltb_spec j w); [lia|].
Qed.

Lemma bits_range x k : 0 <= k -> 0 <= x -> (forall j, k <= j -> Z.testbit x j = false) -> x < 2 ^ k.
Proof.
  intros Hk Hx Hhigh. destruct (Z.ltb_spec x (2 ^ k)) as [|Hge]; [done|]. exfalso.
  assert (0 < 2 ^ k) by (apply Z.pow_pos_nonneg; lia).
  assert (k <= Z.log2 x) by (apply Z.log2_le_pow2; lia).
  assert (Z.testbit x (Z.log2 x) = true) by (apply Z.bit_log2; lia). rewrite Hhigh in * by lia. done.
Qed.
Lemma SETBITS_range r c v : 0 <= r -> in_u32 v -> in_u32 (SETBITS r c v).
Proof.
  intros Hr Hv. unfold in_u32 in *. pose proof (u32_range (Z.lnot c)) as Hm.
  assert (0 <= Z.land r (u32 (Z.lnot c))) by (apply Z.land_nonneg; lia).
  assert (0 <= SETBITS r c v) by (apply Z.lor_nonneg; lia). split; [done|].
  apply bits_range; [done|done|]. intros j Hj. unfold SETBITS.
  rewrite Z.lor_spec, Z.land_spec, (value_testbit 32 v) by lia. by rewrite (value_testbit 32 (u32 _)), andb_false_r by lia.
Qed.
Lemma u32_shiftl v n w : 0 <= n -> w * n + w <= 32 -> 0 <= w -> 0 <= v < 2 ^ w -> u32 (Z.shiftl v (w * n)) = Z.shiftl v (w * n).
Proof.
  intros Hn Hfit Hw Hv. unfold u32. apply Z.mod_small. rewrite Z.shiftl_mul_pow2 by nia.
  assert (2 ^ (w * n) * 2 ^ w <= 2 ^ 32).
  { rewrite <- Z.pow_add_r by nia. apply Z.pow_le_mono_r; lia. }
  assert (0 < 2 ^ (w * n)) by (apply Z.pow_pos_nonneg; nia). nia.
Qed.
End bits.

(** ** Registers *)

(** The registers of a bank, and those of the clock, interrupt and pin controllers the code
    touches. *)
Inductive gpio_reg := MODER | OTYPER | OSPEEDR | PUPDR | AFR (i : Z) | CRL | CRH | IDR | ODR | BSRR.
Inductive mcu_reg :=
  | gpio_at (bank : Z) (r : gpio_reg)
  | RCC_AHB1ENR | RCC_AHB2ENR | RCC_IOPENR | RCC_APB2ENR | RCC_APB1RSTR | RCC_APB1ENR | RCC_CR | RCC_CCIPR2
  | RCC_APBENR1 | RCC_APBENR2 | RCC_APBRSTR1 | PWR_CR2 | SYSCFG_CFGR1 | AFIO_EXTICR (i : Z) | EXTI_IMR | EXTI_RTSR
  | EXTI_FTSR | SYSCFG_PMC | RCC_AHB1RSTR | ETH_MACCR.
#[global] Instance gpio_reg_eq_dec : EqDecision gpio_reg.
Proof. solve_decision. Defined.
#[global] Instance mcu_reg_eq_dec : EqDecision mcu_reg.
Proof. solve_decision. Defined.

(** Interrupts that are enabled past the table of [Interrupt]. *)
Inductive raw_irq := irq_number (n : Z) | USB_LP_IRQn | USB_HP_IRQn | OTG_FS_WKUP_IRQn | OTG_FS_IRQn | USB_UCPD1_2_IRQn.

Class Registers (H : Type) := {
  raw_SetPriority : raw_irq -> Z -> H -> H;
  (** [NVIC_EncodePriority(NVIC_GetPriorityGrouping(), pre, sub)] *)
  raw_EncodePriority : Z -> Z -> H -> Z;
  raw_EnableIRQ : raw_irq -> H -> H;
  raw_DisableIRQ : raw_irq -> H -> H;
  read_reg : mcu_reg -> H -> Z;
  write_reg : mcu_reg -> Z -> H -> H;
  (** Banks the part has. *)
  banks : Z
}.

(** Bits that keep what is written to them; other bits are reserved or the hardware's own. *)
Definition RCC_USB_BIT (r : mcu_reg) : option Z :=
  match r with
  | RCC_APB1RSTR | RCC_APB1ENR => Some 23
  | RCC_APBRSTR1 | RCC_APBENR1 => Some 13
  | RCC_AHB2ENR => Some 7
  | _ => None
  end.
Definition kept (banks : Z) (r : mcu_reg) (j : Z) : bool :=
  match r with
  | gpio_at b (MODER | OSPEEDR | PUPDR | AFR 0 | AFR 1 | CRL | CRH) => (0 <=? b) && (b <? banks) && (0 <=? j) && (j <? 32)
  | gpio_at b OTYPER => (0 <=? b) && (b <? banks) && (0 <=? j) && (j <? 16)
  | RCC_AHB1ENR => (0 <=? j) && (j <? banks) || (25 <=? j) && (j <=? 27)
  | RCC_IOPENR => (0 <=? j) && (j <? banks)
  | SYSCFG_PMC => j =? 23
  | RCC_AHB1RSTR => j =? 25
  | RCC_APB2ENR => (2 <=? j) && (j <? banks + 2)
  | _ => bool_decide (RCC_USB_BIT r = Some j)
  end.
(** Registers that change only when they are written: not the inputs. *)
Definition quiet (r : mcu_reg) : bool := match r with gpio_at _ (IDR | ODR) | RCC_CR | ETH_MACCR => false | _ => true end.

(** What the reference manuals say. [BSRR] sets the outputs of its lower half and resets those
    of its upper half; setting wins. *)
Class RegisterLaws (H : Type) `{Registers H} := {
  banks_le : 0 <= banks <= 16;
  read_reg_range r h : in_u32 (read_reg r h);
  read_SetPriority r q p h : read_reg r (raw_SetPriority q p h) = read_reg r h;
  read_EnableIRQ r q h : read_reg r (raw_EnableIRQ q h) = read_reg r h;
  read_DisableIRQ r q h : read_reg r (raw_DisableIRQ q h) = read_reg r h;
  read_write_same r v h j : kept banks r j = true -> in_u32 v ->
    Z.testbit (read_reg r (write_reg r v h)) j = Z.testbit v j;
  read_write_other r r' v h : r <> r' -> quiet r' = true -> read_reg r' (write_reg r v h) = read_reg r' h;
  write_ODR_other r b v h : r <> gpio_at b ODR -> r <> gpio_at b BSRR ->
    read_reg (gpio_at b ODR) (write_reg r v h) = read_reg (gpio_at b ODR) h;
  write_BSRR_odr b v h j : 0 <= b < banks -> in_u32 v -> 0 <= j ->
    Z.testbit (read_reg (gpio_at b ODR) (write_reg (gpio_at b BSRR) v h)) j =
    (j <? 16) && (Z.testbit v j || Z.testbit (read_reg (gpio_at b ODR) h) j && negb (Z.testbit v (j + 16)))
}.

(** ** rhs_hal_gpio.h *)

(** [PIN], with ['A'] as bank 0; [PINNO], [PINBANK]. *)
Definition PIN (bank num : Z) : Z := Z.lor (Z.shiftl bank 8) num.
Definition PINNO (pin : Z) : Z := Z.land pin 255.
Definition PINBANK (pin : Z) : Z := Z.shiftr pin 8.

(** [v << n] and [BIT] on a 32-bit type: undefined for [n] of 32 and more. *)
Definition shl32 (v n : Z) : outcome Z := if (0 <=? n) && (n <? 32) then Ret (u32 (Z.shiftl v n)) else Fault.
Definition BIT (x : Z) : outcome Z := shl32 1 x.

(** [enum]s of the F4, F7 and G0. *)
Definition MG_GPIO_MODE_INPUT : Z := 0.
Definition MG_GPIO_MODE_OUTPUT : Z := 1.
Definition MG_GPIO_MODE_AF : Z := 2.
Definition MG_GPIO_MODE_ANALOG : Z := 3.
Definition MG_GPIO_OTYPE_PUSH_PULL : Z := 0.
Definition MG_GPIO_OTYPE_OPEN_DRAIN : Z := 1.
Definition MG_GPIO_SPEED_LOW : Z := 0.
Definition MG_GPIO_SPEED_MEDIUM : Z := 1.
Definition MG_GPIO_SPEED_HIGH : Z := 2.
Definition MG_GPIO_SPEED_INSANE : Z := 3.
Definition MG_GPIO_PULL_NONE : Z := 0.
Definition MG_GPIO_PULL_UP : Z := 1.
Definition MG_GPIO_PULL_DOWN : Z := 2.
(** [enum]s of the F1. *)
Definition GPIO_MODE_INPUT_FLOATING : Z := 0x4.
Definition GPIO_MODE_INPUT_PULLUP : Z := 0x8.
Definition GPIO_MODE_OUTPUT_PP_50MHZ : Z := 0x3.

Inductive device := F103 | F407 | F765 | G0B1.

Section gpio.
Context {H : Type} `{Registers H}.

Definition rd (r : mcu_reg) : M H Z := gets (read_reg r).
Definition wr (r : mcu_reg) (v : Z) : M H unit := modify (write_reg r v).
(** [R |= v], [R &= ~v] *)
Definition or_reg (r : mcu_reg) (v : Z) : M H unit := x ← rd r; wr r (Z.lor x v).
Definition clear_reg (r : mcu_reg) (v : Z) : M H unit := x ← rd r; wr r (Z.land x (u32 (Z.lnot v))).
(** [SETBITS(R, mask << n, v << n)] *)
Definition set_bits (r : mcu_reg) (mask v n : Z) : M H unit :=
  c ← lift (shl32 mask n); s ← lift (shl32 v n); x ← rd r; wr r (SETBITS x c s).

(** The bank's registers of a pin; [pin >> 8] may name a bank the part does not have. *)
Definition gpio_bank (pin : Z) (r : gpio_reg) : mcu_reg := gpio_at (PINBANK pin) r.

Definition gpio_toggle (pin : Z) : M H unit :=
  mask ← lift (BIT (PINNO pin));
  odr ← rd (gpio_bank pin ODR);
  v ← lift (shl32 mask (if Z.land odr mask =? 0 then 0 else 16));
  wr (gpio_bank pin BSRR) v.

Definition gpio_read (pin : Z) : M H Z :=
  idr ← rd (gpio_bank pin IDR);
  mask ← lift (BIT (PINNO pin));
  mret (if Z.land idr mask =? 0 then 0 else 1).

Definition gpio_write (pin : Z) (val : bool) : M H unit :=
  mask ← lift (BIT (PINNO pin));
  v ← lift (shl32 mask (if val then 0 else 16));
  wr (gpio_bank pin BSRR) v.

(** [gpio->AFR[i]]: two registers. *)
Definition set_afr (pin i v n : Z) : M H unit :=
  if (0 <=? i) && (i <? 2) then set_bits (gpio_bank pin (AFR i)) 15 v n else fault.

(** [gpio_init] of the F4, F7 and G0, which differ in the clock's register. *)
Definition gpio_init_ahb (clock : mcu_reg) (pin mode type speed pull af : Z) : M H unit :=
  let n := u8 (PINNO pin) in
  bit ← lift (BIT (PINBANK pin));
  or_reg clock bit;;
  set_bits (gpio_bank pin OTYPER) 1 type n;;
  set_bits (gpio_bank pin OSPEEDR) 3 speed (n * 2);;
  set_bits (gpio_bank pin PUPDR) 3 pull (n * 2);;
  set_afr pin (Z.shiftr n 3) af (Z.land n 7 * 4);;
  set_bits (gpio_bank pin MODER) 3 mode (n * 2).
Definition gpio_clock (d : device) : mcu_reg :=
  match d with F103 => RCC_APB2ENR | F407 | F765 => RCC_AHB1ENR | G0B1 => RCC_IOPENR end.
Definition gpio_init (d : device) : Z -> Z -> Z -> Z -> Z -> Z -> M H unit := gpio_init_ahb (gpio_clock d).

(** [gpio_init] of the F1. *)
Definition gpio_init_f1 (pin mode : Z) : M H unit :=
  let n := u8 (PINNO pin) in
  bit ← lift (BIT (PINBANK pin + 2));
  or_reg RCC_APB2ENR bit;;
  (if n <? 8 then set_bits (gpio_bank pin CRL) 15 mode (n * 4)
   else set_bits (gpio_bank pin CRH) 15 mode ((n - 8) * 4));;
  if mode =? GPIO_MODE_INPUT_PULLUP then bit ← lift (BIT n); wr (gpio_bank pin BSRR) bit else mret tt.

Definition gpio_input (d : device) (pin : Z) : M H unit :=
  match d with
  | F103 => gpio_init_f1 pin GPIO_MODE_INPUT_FLOATING
  | _ => gpio_init d pin MG_GPIO_MODE_INPUT MG_GPIO_OTYPE_PUSH_PULL MG_GPIO_SPEED_HIGH MG_GPIO_PULL_NONE 0
  end.
Definition gpio_output (d : device) (pin : Z) : M H unit :=
  match d with
  | F103 => gpio_init_f1 pin GPIO_MODE_OUTPUT_PP_50MHZ
  | _ => gpio_init d pin MG_GPIO_MODE_OUTPUT MG_GPIO_OTYPE_PUSH_PULL MG_GPIO_SPEED_HIGH MG_GPIO_PULL_NONE 0
  end.

Definition RCC_APB2ENR_AFIOEN : Z := 1.
Definition irq_exti_attach (pin : Z) : M H unit :=
  let bank := u8 (PINBANK pin) in
  let n := u8 (PINNO pin) in
  or_reg RCC_APB2ENR RCC_APB2ENR_AFIOEN;;
  (if n / 4 <? 4 then mret tt else fault);;
  c ← lift (shl32 15 (n mod 4 * 4));
  clear_reg (AFIO_EXTICR (n / 4)) c;;
  s ← lift (shl32 bank (n mod 4 * 4));
  or_reg (AFIO_EXTICR (n / 4)) s;;
  bit ← lift (BIT n);
  or_reg EXTI_IMR bit;; or_reg EXTI_RTSR bit;; or_reg EXTI_FTSR bit;;
  let irqvec := if n <? 5 then 6 + n else if n <? 10 then 23 else 40 in
  modify (raw_SetPriority (irq_number irqvec) 3);;
  modify (raw_EnableIRQ (irq_number irqvec)).
End gpio.

(** ** What the pin functions do *)

(** The settings of a pin, and where they are. *)
Inductive pin_field := F_MODE | F_TYPE | F_SPEED | F_PULL | F_AF | F_CNF.
#[global] Instance pin_field_eq_dec : EqDecision pin_field.
Proof. solve_decision. Defined.
Definition field_reg (f : pin_field) (i : Z) : gpio_reg :=
  match f with
  | F_MODE => MODER | F_TYPE => OTYPER | F_SPEED => OSPEEDR | F_PULL => PUPDR
  | F_AF => AFR (i / 8) | F_CNF => if i <? 8 then CRL else CRH
  end.
Definition field_width (f : pin_field) : Z := match f with F_TYPE => 1 | F_AF | F_CNF => 4 | _ => 2 end.
Definition field_pos (f : pin_field) (i : Z) : Z := match f with F_AF | F_CNF => i mod 8 | _ => i end.

Section theorems.
Context {H : Type} `{RegisterLaws H}.
Implicit Types h : H.

Definition pin_get (f : pin_field) (bank i : Z) h : Z :=
  field (field_width f) (read_reg (gpio_at bank (field_reg f i)) h) (field_pos f i).

Lemma shl32_eq v n : 0 <= n < 32 -> shl32 v n = Ret (u32 (Z.shiftl v n)).
Proof. intros Hn. unfold shl32. by destruct (Z.leb_spec 0 n), (Z.ltb_spec n 32); try lia. Qed.

Lemma set_bits_eq r w v n h : 0 < w -> 0 <= n -> w * n + w <= 32 -> 0 <= v < 2 ^ w ->
  set_bits r (Z.ones w) v (w * n) h =
  Ret (tt, write_reg r (SETBITS (read_reg r h) (Z.shiftl (Z.ones w) (w * n)) (Z.shiftl v (w * n))) h).
Proof.
  intros Hw Hn Hfit Hv. unfold set_bits. rewrite !shl32_eq, !u32_shiftl by (try rewrite Z.ones_equiv; lia). done.
Qed.

Lemma field_read_write r x h w i : 0 < w -> 0 <= i -> (forall j, 0 <= j < w * i + w -> kept banks r j = true) ->
  in_u32 x -> field w (read_reg r (write_reg r x h)) i = field w x i.
Proof.
  intros Hw Hi Hk Hx. apply Z.bits_inj'. intros j Hj. rewrite !field_testbit by lia.
  destruct (Z.ltb_spec j w); [|done]. cbn [andb]. apply read_write_same; [|done]. apply Hk. nia.
Qed.

Lemma field_fits f i : 0 <= i < 16 ->
  0 < field_width f /\ 0 <= field_pos f i /\ field_width f * field_pos f i + field_width f <= 32.
Proof. intros Hi. destruct f; cbn [field_width field_pos]; Z.to_euclidean_division_equations; lia. Qed.

Lemma field_kept f b i j : 0 <= b < banks -> 0 <= i < 16 -> 0 <= j < field_width f * field_pos f i + field_width f ->
  kept banks (gpio_at b (field_reg f i)) j = true.
Proof.
  intros Hb Hi Hj. pose proof (field_fits f i Hi) as (_ & _ & Hfit).
  assert (Haf : i / 8 = 0 \/ i / 8 = 1) by (Z.to_euclidean_division_equations; lia).
  destruct f; cbn [field_width field_pos field_reg kept] in *; try (destruct (i <? 8)); try (destruct Haf as [-> | ->]);
    rewrite !andb_true_iff, !Z.leb_le, !Z.ltb_lt; lia.
Qed.

Lemma field_same f f' i i' : 0 <= i < 16 -> 0 <= i' < 16 -> field_reg f i = field_reg f' i' ->
  f = f' /\ (field_pos f i = field_pos f' i' <-> i = i').
Proof.
  intros Hi Hi' E. split.
  - destruct f, f'; cbn in E; try done; repeat case_match; done.
  - assert (f = f') as <- by (destruct f, f'; cbn in E; try done; repeat case_match; done).
    split; [|by intros ->]. intros Ep.
    destruct f; cbn in *; try done.
    + injection E as E. Z.to_euclidean_division_equations; lia.
    + destruct (Z.ltb_spec i 8), (Z.ltb_spec i' 8); try done; Z.to_euclidean_division_equations; lia.
Qed.

Lemma field_quiet b f i : quiet (gpio_at b (field_reg f i)) = true.
Proof. destruct f; try done. cbn. by destruct (i <? 8). Qed.

(** Setting one setting of one pin changes nothing else. *)
Lemma pin_set f b n v h : 0 <= b < banks -> 0 <= n < 16 -> 0 <= v < 2 ^ field_width f ->
  exists h', set_bits (gpio_at b (field_reg f n)) (Z.ones (field_width f)) v (field_width f * field_pos f n) h = Ret (tt, h') /\
  (forall f' b' i, 0 <= b' < banks -> 0 <= i < 16 ->
     pin_get f' b' i h' = if decide (f' = f /\ b' = b /\ i = n) then v else pin_get f' b' i h) /\
  (forall r, quiet r = true -> r <> gpio_at b (field_reg f n) -> read_reg r h' = read_reg r h) /\
  (forall b', read_reg (gpio_at b' ODR) h' = read_reg (gpio_at b' ODR) h).
Proof.
  intros Hb Hn Hv. destruct (field_fits f n Hn) as (Hw & Hp & Hfit). rewrite set_bits_eq by done.
  set (x := SETBITS _ _ _).
  assert (Hx : in_u32 x).
  { apply SETBITS_range; [apply read_reg_range|]. rewrite <- (u32_shiftl v _ (field_width f)) by lia. apply u32_range. }
  eexists. split; [done|]. repeat split.
  - intros f' b' i Hb' Hi. unfold pin_get.
    destruct (decide (gpio_at b (field_reg f n) = gpio_at b' (field_reg f' i))) as [E|Ne].
    + injection E as <- E. destruct (field_same f f' n i Hn Hi E) as [<- Hpos]. rewrite <- E.
      destruct (field_fits f i Hi) as (_ & Hpi & Hfi).
      rewrite field_read_write by (try done; rewrite E; by intros; apply field_kept).
      unfold x. rewrite field_SETBITS by done.
      destruct (Z.eqb_spec (field_pos f i) (field_pos f n)) as [Ep|Np], (decide (f = f /\ b = b /\ i = n)) as [(_ & _ & Ei)|Nd]; try done.
      * exfalso. apply Nd. repeat split. symmetry. by apply Hpos.
      * exfalso. apply Np. by rewrite Ei.
    + destruct (decide _) as [(-> & -> & ->)|_]; [done|]. by rewrite read_write_other by (done || apply field_quiet).
  - intros r Hq Hne. by apply read_write_other.
  - intros b'. apply write_ODR_other; destruct f; try done; cbn; by destruct (n <? 8).
Qed.

Lemma PIN_parts bank num : 0 <= bank -> 0 <= num < 256 -> PINNO (PIN bank num) = num /\ PINBANK (PIN bank num) = bank.
Proof.
  intros Hb Hn. split; apply Z.bits_inj'; intros j Hj; unfold PINNO, PINBANK, PIN.
  - change 255 with (Z.ones 8). rewrite Z.land_spec, Z.lor_spec, Z.shiftl_spec, Z.testbit_ones_nonneg by lia.
    destruct (Z.ltb_spec j 8).
    + by rewrite Z.testbit_neg_r, andb_true_r by lia.
    + by rewrite (value_testbit 8 num j), andb_false_r by lia.
  - rewrite Z.shiftr_spec, Z.lor_spec, Z.shiftl_spec by lia. rewrite (value_testbit 8 num), orb_false_r by lia. f_equal. lia.
Qed.

Lemma or_reg_eq r v h : or_reg r v h = Ret (tt, write_reg r (Z.lor (read_reg r h) v) h).
Proof. done. Qed.
Lemma BIT_eq n : 0 <= n < 32 -> BIT n = Ret (2 ^ n).
Proof.
  intros Hn. unfold BIT. rewrite shl32_eq by done. rewrite Z.shiftl_mul_pow2, Z.mul_1_l by lia. f_equal.
  apply u32_small. change 4294967296 with (2 ^ 32). split; [lia|]. apply Z.pow_lt_mono_r; lia.
Qed.
Lemma lor_u32 a b : in_u32 a -> in_u32 b -> in_u32 (Z.lor a b).
Proof.
  intros Ha Hb. unfold in_u32 in *. assert (0 <= Z.lor a b) by (apply Z.lor_nonneg; lia). split; [done|].
  apply bits_range; [done|done|]. intros j Hj. by rewrite Z.lor_spec, !(value_testbit 32) by lia.
Qed.
Lemma pow2_u32 n : 0 <= n < 32 -> in_u32 (2 ^ n).
Proof. intros Hn. unfold in_u32. split; [lia|]. apply Z.pow_lt_mono_r; lia. Qed.

(** A step that touches no pin: the clock's register. *)
Lemma clock_changes r v h : quiet r = true -> (forall b' x, r <> gpio_at b' x) ->
  (forall f b' i, pin_get f b' i (write_reg r v h) = pin_get f b' i h) /\
  forall b', read_reg (gpio_at b' ODR) (write_reg r v h) = read_reg (gpio_at b' ODR) h.
Proof.
  intros Hq Hr. split.
  - intros f b' i. unfold pin_get. rewrite read_write_other; [done|done|apply field_quiet].
  - intros b'. by apply write_ODR_other.
Qed.

(** What [gpio_init] asks for. *)
Definition settings (mode type speed pull af : Z) (f : pin_field) (old : Z) : Z :=
  match f with F_MODE => mode | F_TYPE => type | F_SPEED => speed | F_PULL => pull | F_AF => af | F_CNF => old end.
(** The clock of a bank is on. *)
Definition clock_bit (d : device) (b : Z) : Z := match d with F103 => b + 2 | _ => b end.
Definition clocked (d : device) (b : Z) h : bool := Z.testbit (read_reg (gpio_clock d) h) (clock_bit d b).

Lemma clock_on d bank b h : 0 <= bank < banks -> 0 <= b < banks ->
  clocked d b (write_reg (gpio_clock d) (Z.lor (read_reg (gpio_clock d) h) (2 ^ clock_bit d bank)) h) =
  (b =? bank) || clocked d b h.
Proof.
  intros Hbank Hb. pose proof banks_le as Hle. unfold clocked.
  assert (Hc : 0 <= clock_bit d bank < 32) by (destruct d; cbn; lia).
  rewrite read_write_same; [|destruct d; cbn; rewrite ?orb_true_iff, ?andb_true_iff, ?Z.leb_le, Z.ltb_lt; lia
                            |apply lor_u32; [apply read_reg_range|by apply pow2_u32]].
  rewrite Z.lor_spec, Z.pow2_bits_eqb, orb_comm by lia. f_equal.
  destruct d; cbn; destruct (Z.eqb_spec b bank) as [->|Hne]; try apply Z.eqb_refl; apply Z.eqb_neq; lia.
Qed.

Lemma set_bits_out r mask v n h : 32 <= n -> set_bits r mask v n h = Fault.
Proof. intros Hn. unfold set_bits, shl32. by destruct (Z.leb_spec 0 n), (Z.ltb_spec n 32); try lia. Qed.

Lemma gpio_init_in d bank num mode type speed pull af h : 0 <= bank < banks -> 0 <= num < 16 -> d <> F103 ->
  0 <= mode < 4 -> 0 <= type < 2 -> 0 <= speed < 4 -> 0 <= pull < 4 -> 0 <= af < 16 ->
  exists h', gpio_init d (PIN bank num) mode type speed pull af h = Ret (tt, h') /\
  (forall f b i, 0 <= b < banks -> 0 <= i < 16 -> pin_get f b i h' =
     if decide (b = bank /\ i = num) then settings mode type speed pull af f (pin_get f b i h) else pin_get f b i h) /\
  (forall b, read_reg (gpio_at b ODR) h' = read_reg (gpio_at b ODR) h) /\
  (forall b, 0 <= b < banks -> clocked d b h' = (b =? bank) || clocked d b h).
Proof.
  intros Hb Hn Hd Hm Ht Hs Hp Ha. pose proof banks_le as Hle. unfold gpio_init, gpio_init_ahb.
  destruct (PIN_parts bank num) as [En Eb]; [lia|lia|]. unfold set_afr, gpio_bank. rewrite En, Eb, (u8_small num), BIT_eq by lia.
  rewrite (bind_eq _ _ h (2 ^ bank) h) by done. rewrite (bind_eq _ _ h tt _ (or_reg_eq _ _ h)). set (h0 := write_reg _ _ h).
  destruct (clock_changes (gpio_clock d) (Z.lor (read_reg (gpio_clock d) h) (2 ^ bank)) h) as [C0 O0]; [by destruct d|by destruct d|].
  destruct (pin_set F_TYPE bank num type h0 Hb Hn Ht) as (h1 & E1 & G1 & Q1 & O1).
  destruct (pin_set F_SPEED bank num speed h1 Hb Hn Hs) as (h2 & E2 & G2 & Q2 & O2).
  destruct (pin_set F_PULL bank num pull h2 Hb Hn Hp) as (h3 & E3 & G3 & Q3 & O3).
  destruct (pin_set F_AF bank num af h3 Hb Hn Ha) as (h4 & E4 & G4 & Q4 & O4).
  destruct (pin_set F_MODE bank num mode h4 Hb Hn Hm) as (h5 & E5 & G5 & Q5 & O5).
  exists h5. cbn [field_reg field_width field_pos] in *. rewrite Z.mul_1_l in E1.
  rewrite (bind_eq _ _ _ _ _ E1). rewrite !(Z.mul_comm num 2), (bind_eq _ _ _ _ _ E2), (bind_eq _ _ _ _ _ E3).
  rewrite Z.shiftr_div_pow2 by lia. change (2 ^ 3) with 8.
  assert ((0 <=? num / 8) && (num / 8 <? 2) = true) as ->.
  { rewrite andb_true_iff, Z.leb_le, Z.ltb_lt. Z.to_euclidean_division_equations; lia. }
  change (Z.land num 7) with (Z.land num (Z.ones 3)). rewrite Z.land_ones, (Z.mul_comm _ 4) by lia.
  change (2 ^ 3) with 8. rewrite (bind_eq _ _ _ _ _ E4). split; [exact E5|]. split_and!.
  - intros f b i Hb' Hi. rewrite G5, G4, G3, G2, G1 by done. unfold h0. rewrite C0.
    destruct (decide (b = bank /\ i = num)) as [[-> ->]|Nd]; [|by rewrite !decide_False by tauto].
    by destruct f; repeat case_decide; destruct_and?; simplify_eq; try tauto.
  - intros b. rewrite O5, O4, O3, O2, O1. apply O0.
  - intros b Hb'. pose proof (clock_on d bank b h Hb Hb') as Hc.
    assert (Hh0 : clocked d b h5 = clocked d b h0) by (unfold clocked; by rewrite Q5, Q4, Q3, Q2, Q1 by by destruct d).
    rewrite Hh0, <- Hc. by destruct d.
Qed.

(** [gpio_init] of the F4, F7 and G0 gives exactly the pin it is called for the mode, type,
    speed, pull and alternate function asked for, and turns its bank's clock on; no setting of
    any other pin, no output and no other bank's clock changes. A pin number of 16 or more is
    out of bounds: the registers' fields are shifted by 32 bits and more. *)
Theorem gpio_init_exact d bank num mode type speed pull af h : d <> F103 -> 0 <= bank < banks -> 0 <= num < 256 ->
  0 <= mode < 4 -> 0 <= type < 2 -> 0 <= speed < 4 -> 0 <= pull < 4 -> 0 <= af < 16 ->
  let m := gpio_init d (PIN bank num) mode type speed pull af h in
  if num <? 16 then exists h', m = Ret (tt, h') /\
    (forall f b i, 0 <= b < banks -> 0 <= i < 16 -> pin_get f b i h' =
       if decide (b = bank /\ i = num) then settings mode type speed pull af f (pin_get f b i h) else pin_get f b i h) /\
    (forall b, read_reg (gpio_at b ODR) h' = read_reg (gpio_at b ODR) h) /\
    (forall b, 0 <= b < banks -> clocked d b h' = (b =? bank) || clocked d b h)
  else m = Fault.
Proof.
  intros Hd Hb Hn Hm Ht Hs Hp Ha m. destruct (Z.ltb_spec num 16); [apply gpio_init_in; lia || done|].
  subst m. pose proof banks_le as Hle. unfold gpio_init, gpio_init_ahb.
  destruct (PIN_parts bank num) as [En Eb]; [lia|lia|]. rewrite En, Eb, (u8_small num), BIT_eq by lia.
  rewrite (bind_eq _ _ h (2 ^ bank) h) by done. rewrite (bind_eq _ _ h tt _ (or_reg_eq _ _ h)).
  cbv [mbind M_bind]. destruct (set_bits _ 1 type num _) as [[[] h']| | |] eqn:E.
  - by rewrite set_bits_out by lia.
  - exfalso. revert E. unfold set_bits, shl32. by destruct (_ && _).
  - done.
  - exfalso. revert E. unfold set_bits, shl32. by destruct (_ && _).
Qed.

(** *** Outputs *)

Definition output (b i : Z) h : bool := Z.testbit (read_reg (gpio_at b ODR) h) i.

(** A write to [BSRR] of one bit, or of none. *)
Lemma write_BSRR_pow2 bank k h b i : 0 <= bank < banks -> 0 <= k < 32 -> 0 <= i < 16 ->
  output b i (write_reg (gpio_at bank BSRR) (2 ^ k) h) =
  if decide (b = bank /\ i = k) then true else if decide (b = bank /\ i + 16 = k) then false else output b i h.
Proof.
  intros Hb Hk Hi. unfold output. destruct (decide (b = bank)) as [->|Hne].
  - rewrite write_BSRR_odr by (done || lia || by apply pow2_u32). rewrite !Z.pow2_bits_eqb by lia.
    destruct (Z.ltb_spec i 16); [|lia]. cbn [andb].
    destruct (Z.eqb_spec k i), (Z.eqb_spec k (i + 16)); repeat case_decide; destruct_and?; simplify_eq; try tauto; try lia; cbn;
      by rewrite ?orb_true_r, ?andb_false_r, ?andb_true_r.
  - rewrite write_ODR_other by congruence. by rewrite !decide_False by (by intros [? _]).
Qed.
Lemma write_BSRR_0 bank h b i : 0 <= bank < banks -> 0 <= i < 16 ->
  output b i (write_reg (gpio_at bank BSRR) 0 h) = output b i h.
Proof.
  intros Hb Hi. unfold output. destruct (decide (b = bank)) as [->|Hne].
  - rewrite write_BSRR_odr by (done || lia). rewrite !Z.bits_0. destruct (Z.ltb_spec i 16); [|lia]. cbn. apply andb_true_r.
  - by rewrite write_ODR_other by congruence.
Qed.
Lemma pin_get_BSRR f b i bank v h : pin_get f b i (write_reg (gpio_at bank BSRR) v h) = pin_get f b i h.
Proof.
  unfold pin_get. rewrite read_write_other; [done| |apply field_quiet]. destruct f; try done. cbn. by destruct (i <? 8).
Qed.

Lemma shl32_pow2 k n : 0 <= k -> 0 <= n < 32 -> shl32 (2 ^ k) n = Ret (if k + n <? 32 then 2 ^ (k + n) else 0).
Proof.
  intros Hk Hn. rewrite shl32_eq by done. f_equal. rewrite Z.shiftl_mul_pow2, <- Z.pow_add_r by lia.
  unfold u32. destruct (Z.ltb_spec (k + n) 32).
  - apply Z.mod_small. split; [lia|]. apply Z.pow_lt_mono_r; lia.
  - replace (k + n) with (k + n - 32 + 32) by lia. rewrite Z.pow_add_r by lia. apply Z.mod_mul. lia.
Qed.

(** [m] changes the outputs of a bank to [v] and nothing else. *)
Definition outputs_become (bank : Z) (v : Z -> bool) h (m : outcome (unit * H)) : Prop :=
  exists h', m = Ret (tt, h') /\ (forall f b i, pin_get f b i h' = pin_get f b i h) /\
  forall b i, 0 <= i < 16 -> output b i h' = if decide (b = bank) then v i else output b i h.

Lemma outputs_ext bank v v' h m : outputs_become bank v h m -> (forall i, 0 <= i < 16 -> v i = v' i) -> outputs_become bank v' h m.
Proof.
  intros (h' & E & Hg & Ho) Hv. exists h'. split; [done|]. split; [done|]. intros b i Hi. rewrite Ho by done.
  case_decide; [by apply Hv|done].
Qed.
Lemma outputs_pow2 bank k h : 0 <= bank < banks -> 0 <= k < 32 ->
  outputs_become bank (fun i => if i =? k then true else if i + 16 =? k then false else output bank i h) h
    (Ret (tt, write_reg (gpio_at bank BSRR) (2 ^ k) h)).
Proof.
  intros Hb Hk. eexists. split; [done|]. split; [intros; apply pin_get_BSRR|]. intros b i Hi.
  rewrite write_BSRR_pow2 by done. destruct (decide (b = bank)) as [->|]; [|by rewrite !decide_False by tauto].
  destruct (Z.eqb_spec i k), (Z.eqb_spec (i + 16) k); repeat case_decide; tauto.
Qed.
Lemma outputs_0 bank h : 0 <= bank < banks ->
  outputs_become bank (fun i => output bank i h) h (Ret (tt, write_reg (gpio_at bank BSRR) 0 h)).
Proof.
  intros Hb. eexists. split; [done|]. split; [intros; apply pin_get_BSRR|]. intros b i Hi. rewrite write_BSRR_0 by done.
  by case_decide; subst.
Qed.

Lemma gpio_write_eq bank num val h : 0 <= bank < banks -> 0 <= num < 32 ->
  gpio_write (PIN bank num) val h =
  Ret (tt, write_reg (gpio_at bank BSRR) (if val then 2 ^ num else if num <? 16 then 2 ^ (num + 16) else 0) h).
Proof.
  intros Hb Hn. destruct (PIN_parts bank num) as [En Eb]; [lia|lia|]. unfold gpio_write, gpio_bank.
  rewrite En, Eb, BIT_eq by lia. rewrite (bind_eq _ _ h (2 ^ num) h) by done.
  rewrite shl32_pow2 by (destruct val; lia). cbn [lift].
  destruct val; rewrite ?Z.add_0_r; compare_cases; done.
Qed.

Lemma land_pow2 x n : 0 <= n -> (Z.land x (2 ^ n) =? 0) = negb (Z.testbit x n).
Proof.
  intros Hn. destruct (Z.eqb_spec (Z.land x (2 ^ n)) 0) as [E|E].
  - apply (f_equal (fun z => Z.testbit z n)) in E. rewrite Z.land_spec, Z.pow2_bits_true, andb_true_r, Z.bits_0 in E by lia.
    by rewrite E.
  - destruct (Z.testbit x n) eqn:Eb; [done|]. exfalso. apply E. apply Z.bits_inj'. intros j Hj.
    rewrite Z.land_spec, Z.pow2_bits_eqb, Z.bits_0 by lia. destruct (Z.eqb_spec n j) as [<-|]; [by rewrite Eb|apply andb_false_r].
Qed.

Lemma gpio_toggle_eq bank num h : 0 <= bank < banks -> 0 <= num < 16 ->
  gpio_toggle (PIN bank num) h =
  Ret (tt, write_reg (gpio_at bank BSRR) (2 ^ (if output bank num h then num + 16 else num)) h).
Proof.
  intros Hb Hn. destruct (PIN_parts bank num) as [En Eb]; [lia|lia|]. unfold gpio_toggle, gpio_bank.
  rewrite En, Eb, BIT_eq by lia. rewrite (bind_eq _ _ h (2 ^ num) h) by done.
  unfold rd. rewrite (bind_eq _ _ h _ h eq_refl), land_pow2 by lia. fold (output bank num h).
  destruct (output bank num h); cbn [negb]; rewrite shl32_pow2, ?Z.add_0_r by lia;
    compare_cases; done.
Qed.

(** [gpio_write] sets or resets exactly the output of its pin and [gpio_toggle] inverts it;
    no other output and no setting changes. For numbers from 16 to 31, setting a pin resets
    the output 16 below and resetting it does nothing; numbers of 32 and more are undefined. *)
Theorem gpio_write_exact bank num val h : 0 <= bank < banks -> 0 <= num < 256 ->
  let w := gpio_write (PIN bank num) val h in
  let t := gpio_toggle (PIN bank num) h in
  let old i := output bank i h in
  if num <? 16 then outputs_become bank (fun i => if i =? num then val else old i) h w /\
                    outputs_become bank (fun i => if i =? num then negb (old i) else old i) h t
  else if num <? 32 then outputs_become bank (fun i => if val && (i =? num - 16) then false else old i) h w
  else w = Fault /\ t = Fault.
Proof.
  intros Hb Hn w t old. destruct (PIN_parts bank num) as [En Eb]; [lia|lia|].
  destruct (Z.ltb_spec num 16) as [H16|H16]; [split|destruct (Z.ltb_spec num 32)].
  - subst w. rewrite gpio_write_eq by lia. destruct (Z.ltb_spec num 16); [|lia].
    destruct val; eapply outputs_ext; try (apply outputs_pow2; lia); intros i Hi; cbn beta;
      compare_cases; done.
  - subst t. rewrite gpio_toggle_eq by lia. eapply outputs_ext; [apply outputs_pow2; destruct (output bank num h); lia|].
    intros i Hi. cbn beta. subst old. cbn beta.
    destruct (output bank num h) eqn:Eo, (Z.eqb_spec i num) as [->|]; rewrite ?Eo; compare_cases; done.
  - subst w. rewrite gpio_write_eq by lia. destruct (Z.ltb_spec num 16); [lia|]. destruct val; [|by apply outputs_0].
    eapply outputs_ext; [apply outputs_pow2; lia|]. intros i Hi. cbn [andb].
    compare_cases; done.
  - assert (Hbit : BIT num = Fault) by (unfold BIT, shl32; destruct (Z.leb_spec 0 num), (Z.ltb_spec num 32); lia || done).
    subst w t. unfold gpio_write, gpio_toggle. by rewrite En, Hbit.
Qed.

Lemma gpio_init_f1_in bank num mode h : 0 <= bank < banks -> 0 <= num < 16 -> 0 <= mode < 16 ->
  exists h', gpio_init_f1 (PIN bank num) mode h = Ret (tt, h') /\
    (forall f b i, 0 <= b < banks -> 0 <= i < 16 -> pin_get f b i h' =
       if decide (f = F_CNF /\ b = bank /\ i = num) then mode else pin_get f b i h) /\
    (forall b i, 0 <= i < 16 -> output b i h' =
       if decide (mode = GPIO_MODE_INPUT_PULLUP /\ b = bank /\ i = num) then true else output b i h) /\
    (forall b, 0 <= b < banks -> clocked F103 b h' = (b =? bank) || clocked F103 b h).
Proof.
  intros Hb Hn Hm. set (m := gpio_init_f1 _ _ _). pose proof banks_le as Hle. destruct (PIN_parts bank num) as [En Eb]; [lia|lia|].
  assert (Em : m = ((if num <? 8 then set_bits (gpio_at bank CRL) 15 mode (num * 4) else set_bits (gpio_at bank CRH) 15 mode ((num - 8) * 4));;
    if mode =? GPIO_MODE_INPUT_PULLUP then bit ← lift (BIT num); wr (gpio_at bank BSRR) bit else mret tt)
    (write_reg RCC_APB2ENR (Z.lor (read_reg RCC_APB2ENR h) (2 ^ (bank + 2))) h)).
  { subst m. unfold gpio_init_f1, gpio_bank. rewrite En, Eb, (u8_small num), (BIT_eq (bank + 2)) by lia. done. }
  rewrite Em. clear Em m. set (h0 := write_reg _ _ h).
  destruct (pin_set F_CNF bank num mode h0 Hb) as (h1 & E1 & G1 & Q1 & O1); [lia|exact Hm|].
  destruct (clock_changes RCC_APB2ENR (Z.lor (read_reg RCC_APB2ENR h) (2 ^ (bank + 2))) h) as [C0 O0]; [done|done|]. fold h0 in C0, O0.
  rewrite (bind_eq _ _ h0 tt h1).
  2:{ rewrite <- E1. cbn [field_reg field_width field_pos]. change (Z.ones 4) with 15. destruct (Z.ltb_spec num 8).
      - rewrite Z.mod_small by lia. by rewrite (Z.mul_comm num).
      - replace (num mod 8) with (num - 8) by (apply (Z.mod_unique num 8 1); lia). by rewrite (Z.mul_comm (num - 8)). }
  assert (Hc : forall b, 0 <= b < banks -> clocked F103 b h1 = (b =? bank) || clocked F103 b h).
  { intros b Hb'. rewrite <- (clock_on F103 bank b h Hb Hb'). unfold clocked. rewrite Q1; [done|done|]. by destruct (num <? 8). }
  assert (Hg : forall f b i, 0 <= b < banks -> 0 <= i < 16 ->
    pin_get f b i h1 = if decide (f = F_CNF /\ b = bank /\ i = num) then mode else pin_get f b i h)
    by (intros f b i ? ?; by rewrite G1, C0).
  assert (Ho : forall b i, output b i h1 = output b i h) by (intros b i; unfold output; by rewrite O1, O0).
  destruct (Z.eqb_spec mode GPIO_MODE_INPUT_PULLUP) as [Epu|Npu].
  - rewrite BIT_eq by lia. eexists. split; [done|]. split_and!.
    + intros f b i ? ?. by rewrite pin_get_BSRR, Hg.
    + intros b i Hi. rewrite write_BSRR_pow2, Ho by lia. repeat case_decide; destruct_and?; try tauto; lia.
    + intros b Hb'. rewrite <- Hc by done. unfold clocked. by rewrite read_write_other.
  - exists h1. split; [done|]. split_and!; [done| |done]. intros b i Hi. rewrite Ho. by rewrite decide_False by tauto.
Qed.

(** [gpio_init] of the F1 sets exactly its pin's mode and configuration and turns on its
    bank's clock; an input with pull-up gets its output set, which selects the pull-up. A pin
    number of 16 or more is out of bounds. *)
Theorem gpio_init_f1_exact bank num mode h : 0 <= bank < banks -> 0 <= num < 256 -> 0 <= mode < 16 ->
  let m := gpio_init_f1 (PIN bank num) mode h in
  if num <? 16 then exists h', m = Ret (tt, h') /\
    (forall f b i, 0 <= b < banks -> 0 <= i < 16 -> pin_get f b i h' =
       if decide (f = F_CNF /\ b = bank /\ i = num) then mode else pin_get f b i h) /\
    (forall b i, 0 <= i < 16 -> output b i h' =
       if decide (mode = GPIO_MODE_INPUT_PULLUP /\ b = bank /\ i = num) then true else output b i h) /\
    (forall b, 0 <= b < banks -> clocked F103 b h' = (b =? bank) || clocked F103 b h)
  else m = Fault.
Proof.
  intros Hb Hn Hm m. destruct (Z.ltb_spec num 16); [apply gpio_init_f1_in; lia|].
  subst m. pose proof banks_le as Hle. destruct (PIN_parts bank num) as [En Eb]; [lia|lia|].
  unfold gpio_init_f1. rewrite En, Eb, (u8_small num), (BIT_eq (bank + 2)) by lia. rewrite (bind_eq _ _ h (2 ^ (bank + 2)) h) by done.
  rewrite (bind_eq _ _ h tt _ (or_reg_eq _ _ h)). destruct (Z.ltb_spec num 8); [lia|]. cbv [mbind M_bind]. by rewrite set_bits_out by lia.
Qed.
End theorems.

(** ** The inputs, outputs and keys of the PLC XL and L (rhs_hal_io.c) *)

Inductive io := KEY0 | KEY1 | KEY2 | KEY3 | KEY4 | OUT0 | OUT1 | OUT2 | OUT3 | OUT4 | IN0 | IN1 | IN2 | IN3 | IN4.
#[global] Instance io_eq_dec : EqDecision io.
Proof. solve_decision. Defined.
Definition all_io : list io := [KEY0; KEY1; KEY2; KEY3; KEY4; OUT0; OUT1; OUT2; OUT3; OUT4; IN0; IN1; IN2; IN3; IN4].

(** [..._GPIO_Port] and the number of [..._Pin]; the board is the PLC XL or the L. *)
Definition io_XL (p : io) : gpio_port * Z :=
  match p with
  | KEY0 => (GPIOE, 4) | KEY4 => (GPIOF, 0) | KEY3 => (GPIOF, 1) | KEY2 => (GPIOF, 2) | KEY1 => (GPIOF, 3)
  | OUT4 => (GPIOF, 4) | IN0 => (GPIOF, 15) | IN1 => (GPIOB, 2) | IN2 => (GPIOB, 0) | IN3 => (GPIOB, 1)
  | OUT0 => (GPIOF, 14) | OUT1 => (GPIOF, 13) | OUT2 => (GPIOF, 12) | OUT3 => (GPIOF, 11) | IN4 => (GPIOG, 12)
  end.
Definition io_L (p : io) : gpio_port * Z :=
  match p with
  | KEY0 => (GPIOE, 4) | KEY4 => (GPIOF, 0) | KEY3 => (GPIOF, 1) | KEY2 => (GPIOF, 2) | KEY1 => (GPIOF, 3)
  | OUT4 => (GPIOF, 4) | IN0 => (GPIOC, 4) | IN1 => (GPIOC, 5) | IN2 => (GPIOB, 0) | IN3 => (GPIOB, 1)
  | OUT0 => (GPIOF, 12) | OUT1 => (GPIOF, 14) | OUT2 => (GPIOG, 0) | OUT3 => (GPIOE, 7) | IN4 => (GPIOG, 12)
  end.
Definition has_io (b : board) : bool := match b with BMPLC_XL | BMPLC_L => true | _ => false end.
Definition io_place (b : board) (p : io) : gpio_port * Z := match b with BMPLC_XL => io_XL p | _ => io_L p end.

(** ST's HAL and the ports' registers. *)
Class HalGpio (H : Type) := {
  HAL_RCC_CLK_ENABLE : gpio_port -> H -> H;
  HAL_GPIO_WritePin : gpio_port -> Z -> bool -> H -> H;
  HAL_GPIO_Init_port : gpio_port -> GPIO_InitTypeDef -> H -> H;
  port_IDR : gpio_port -> H -> Z;
  write_port_BSRR : gpio_port -> Z -> H -> H
}.

Section io_functions.
Context {H : Type} `{HalGpio H} (b : board).

Definition io_port (p : io) : gpio_port := (io_place b p).1.
Definition io_mask (p : io) : Z := GPIO_PIN (io_place b p).2.

Definition PIN_IS_HIGH (p : io) (h : H) : bool := negb (Z.land (port_IDR (io_port p) h) (io_mask p) =? 0).
Definition PIN_IS_LOW (p : io) (h : H) : bool := Z.land (port_IDR (io_port p) h) (io_mask p) =? 0.
Definition PIN_HI (p : io) : H -> H := write_port_BSRR (io_port p) (io_mask p).
Definition PIN_LOW (p : io) : H -> H := write_port_BSRR (io_port p) (u32 (Z.shiftl (io_mask p) 16)).

Definition IN0_IS_HIGH : H -> bool := PIN_IS_HIGH IN0.
Definition IN1_IS_HIGH : H -> bool := PIN_IS_HIGH IN1.
Definition IN2_IS_HIGH : H -> bool := PIN_IS_HIGH IN2.
Definition IN3_IS_HIGH : H -> bool := PIN_IS_HIGH IN3.
Definition IN4_IS_HIGH : H -> bool := PIN_IS_HIGH IN4.
Definition IN0_IS_LOW : H -> bool := PIN_IS_LOW IN0.
Definition IN1_IS_LOW : H -> bool := PIN_IS_LOW IN1.
Definition IN2_IS_LOW : H -> bool := PIN_IS_LOW IN2.
Definition IN3_IS_LOW : H -> bool := PIN_IS_LOW IN3.
Definition IN4_IS_LOW : H -> bool := PIN_IS_LOW IN4.
Definition OUT0_ON : H -> H := PIN_HI OUT0.
Definition OUT0_OFF : H -> H := PIN_LOW OUT0.
Definition OUT1_ON : H -> H := PIN_HI OUT1.
Definition OUT1_OFF : H -> H := PIN_LOW OUT1.
Definition OUT2_ON : H -> H := PIN_HI OUT2.
Definition OUT2_OFF : H -> H := PIN_LOW OUT2.
Definition OUT3_ON : H -> H := PIN_HI OUT3.
Definition OUT3_OFF : H -> H := PIN_LOW OUT3.
Definition OUT4_ON : H -> H := PIN_HI OUT4.
Definition OUT4_OFF : H -> H := PIN_LOW OUT4.
Definition KEY0_ON : H -> H := PIN_HI KEY0.
Definition KEY0_OFF : H -> H := PIN_LOW KEY0.
Definition KEY1_ON : H -> H := PIN_HI KEY1.
Definition KEY1_OFF : H -> H := PIN_LOW KEY1.
Definition KEY2_ON : H -> H := PIN_HI KEY2.
Definition KEY2_OFF : H -> H := PIN_LOW KEY2.
Definition KEY3_ON : H -> H := PIN_HI KEY3.
Definition KEY3_OFF : H -> H := PIN_LOW KEY3.
Definition KEY4_ON : H -> H := PIN_HI KEY4.
Definition KEY4_OFF : H -> H := PIN_LOW KEY4.

Definition io_masks (l : list io) : Z := foldr (fun p m => Z.lor (io_mask p) m) 0 l.
Definition io_outputs_F : list io := [KEY4; KEY3; KEY2; KEY1; OUT4; OUT0; OUT1].
(** [GPIO_InitStruct]: the speed of the inputs is what was set for the outputs before. *)
Definition output_init (mask : Z) : GPIO_InitTypeDef := mkGpioInit mask GPIO_MODE_OUTPUT_PP GPIO_NOPULL GPIO_SPEED_FREQ_LOW None.
Definition input_init (mask : Z) : GPIO_InitTypeDef :=
  mkGpioInit mask GPIO_MODE_IT_RISING_FALLING GPIO_NOPULL GPIO_SPEED_FREQ_LOW None.

Definition rhs_hal_io_init (h : H) : H :=
  let h := foldl (fun h p => HAL_RCC_CLK_ENABLE p h) h [GPIOE; GPIOC; GPIOF; GPIOH; GPIOA; GPIOB; GPIOG; GPIOD] in
  let h := HAL_GPIO_WritePin GPIOE (io_masks [KEY0; OUT3]) false h in
  let h := HAL_GPIO_WritePin GPIOF (io_masks io_outputs_F) false h in
  let h := HAL_GPIO_WritePin (io_port OUT2) (io_mask OUT2) false h in
  let h := HAL_GPIO_Init_port GPIOE (output_init (io_masks [KEY0; OUT3])) h in
  let h := HAL_GPIO_Init_port GPIOF (output_init (io_masks io_outputs_F)) h in
  let h := HAL_GPIO_Init_port GPIOC (input_init (io_masks [IN0; IN1])) h in
  let h := HAL_GPIO_Init_port GPIOB (input_init (io_masks [IN2; IN3])) h in
  let h := HAL_GPIO_Init_port (io_port OUT2) (output_init (io_mask OUT2)) h in
  HAL_GPIO_Init_port (io_port IN4) (input_init (io_mask IN4)) h.
End io_functions.

(** What ST's manuals say: a port without its clock ignores writes. *)
Class HalGpioLaws (H : Type) `{HalGpio H} := {
  port_clock : gpio_port -> H -> bool;
  port_mode : gpio_port -> Z -> H -> gpio_mode;
  port_out : gpio_port -> Z -> H -> bool;
  clk_enable_spec p h : (forall q, port_clock q (HAL_RCC_CLK_ENABLE p h) = bool_decide (q = p) || port_clock q h) /\
    (forall q i, port_mode q i (HAL_RCC_CLK_ENABLE p h) = port_mode q i h) /\
    (forall q i, port_out q i (HAL_RCC_CLK_ENABLE p h) = port_out q i h);
  WritePin_spec p m v h : port_clock p h = true ->
    (forall q, port_clock q (HAL_GPIO_WritePin p m v h) = port_clock q h) /\
    (forall q i, port_mode q i (HAL_GPIO_WritePin p m v h) = port_mode q i h) /\
    (forall q i, 0 <= i < 16 -> port_out q i (HAL_GPIO_WritePin p m v h) =
       if bool_decide (q = p) && Z.testbit m i then v else port_out q i h);
  Init_spec p g h : port_clock p h = true ->
    (forall q, port_clock q (HAL_GPIO_Init_port p g h) = port_clock q h) /\
    (forall q i, 0 <= i < 16 -> port_mode q i (HAL_GPIO_Init_port p g h) =
       if bool_decide (q = p) && Z.testbit (Pin g) i then Mode g else port_mode q i h) /\
    (forall q i, port_out q i (HAL_GPIO_Init_port p g h) = port_out q i h);
  BSRR_spec p v h : port_clock p h = true -> in_u32 v ->
    (forall q i, port_mode q i (write_port_BSRR p v h) = port_mode q i h) /\
    (forall q i, 0 <= i < 16 -> port_out q i (write_port_BSRR p v h) =
       if bool_decide (q = p) then Z.testbit v i || port_out q i h && negb (Z.testbit v (i + 16)) else port_out q i h)
}.

Section io_theorems.
Context {H : Type} `{HalGpioLaws H}.
Implicit Types h : H.

Definition all_clocked h : Prop := forall q, port_clock q h = true.
(** The ports as functions: mode and output of every pin. *)
Definition looks h (mode : gpio_port -> Z -> gpio_mode) (out : gpio_port -> Z -> bool) : Prop :=
  all_clocked h /\ (forall q i, 0 <= i < 16 -> port_mode q i h = mode q i) /\
  (forall q i, 0 <= i < 16 -> port_out q i h = out q i).

Lemma looks_write h mode out p m v : looks h mode out ->
  looks (HAL_GPIO_WritePin p m v h) mode (fun q i => if bool_decide (q = p) && Z.testbit m i then v else out q i).
Proof.
  intros (Hc & Hm & Ho). destruct (WritePin_spec p m v h (Hc p)) as (C & Mo & O). split_and!.
  - intros q. by rewrite C.
  - intros q i Hi. by rewrite Mo, Hm.
  - intros q i Hi. by rewrite O, Ho.
Qed.
Lemma looks_init h mode out p g : looks h mode out ->
  looks (HAL_GPIO_Init_port p g h) (fun q i => if bool_decide (q = p) && Z.testbit (Pin g) i then Mode g else mode q i) out.
Proof.
  intros (Hc & Hm & Ho). destruct (Init_spec p g h (Hc p)) as (C & Mo & O). split_and!.
  - intros q. by rewrite C.
  - intros q i Hi. by rewrite Mo, Hm.
  - intros q i Hi. by rewrite O, Ho.
Qed.
Lemma clocks_on h (l : list gpio_port) : let h' := foldl (fun h p => HAL_RCC_CLK_ENABLE p h) h l in
  (forall q, port_clock q h' = bool_decide (q ∈ l) || port_clock q h) /\
  (forall q i, port_mode q i h' = port_mode q i h) /\ (forall q i, port_out q i h' = port_out q i h).
Proof.
  revert h. induction l as [|p l IH]; intros h; cbn [foldl]; [done|].
  destruct (clk_enable_spec p h) as (C & Mo & O), (IH (HAL_RCC_CLK_ENABLE p h)) as (C' & Mo' & O').
  split_and!; intros q; [|intros i; by rewrite Mo'|intros i; by rewrite O'].
  rewrite C', C. destruct (decide (q = p)) as [->|Hne].
  - rewrite (bool_decide_eq_true_2 (p = p)), (bool_decide_eq_true_2 (p ∈ p :: l)) by (done || by left). cbn. apply orb_true_r.
  - rewrite (bool_decide_eq_false_2 (q = p)) by done. cbn [orb]. f_equal. apply bool_decide_ext. rewrite elem_of_cons. tauto.
Qed.

(** Inputs, and what the set-up of the PLC L does not reach on the XL. *)
Definition io_is_input (p : io) : bool := match p with IN0 | IN1 | IN2 | IN3 | IN4 => true | _ => false end.
Definition io_missed (b : board) (p : io) : bool :=
  match b, p with BMPLC_XL, (OUT3 | IN0 | IN1) => true | _, _ => false end.
Definition io_mode (b : board) (p : io) h : gpio_mode := port_mode (io_port b p) (io_place b p).2 h.
Definition io_level (b : board) (p : io) h : bool := port_out (io_port b p) (io_place b p).2 h.

Lemma io_pin_range b p : 0 <= (io_place b p).2 < 16.
Proof. by destruct b, p. Qed.
Lemma io_mask_testbit b p i : 0 <= i -> Z.testbit (io_mask b p) i = ((io_place b p).2 =? i).
Proof.
  intros Hi. pose proof (io_pin_range b p). unfold io_mask, GPIO_PIN. rewrite Z.shiftl_mul_pow2, Z.mul_1_l by lia.
  apply Z.pow2_bits_eqb. lia.
Qed.
Lemma io_distinct b p q : has_io b = true -> io_port b p = io_port b q -> (io_place b p).2 = (io_place b q).2 -> p = q.
Proof. by destruct b, p, q. Qed.

(** Driving one point drives no other. *)
Lemma io_switch b p q (on : bool) h : has_io b = true -> all_clocked h ->
  io_level b q ((if on then PIN_HI b p else PIN_LOW b p) h) = if decide (q = p) then on else io_level b q h.
Proof.
  intros Hio Hc. pose proof (io_pin_range b p) as Hp. pose proof (io_pin_range b q) as Hq.
  assert (Hmask : io_mask b p = 2 ^ (io_place b p).2) by (unfold io_mask, GPIO_PIN; by rewrite Z.shiftl_mul_pow2, Z.mul_1_l by lia).
  assert (Hoff : u32 (Z.shiftl (io_mask b p) 16) = 2 ^ ((io_place b p).2 + 16)).
  { rewrite Hmask, Z.shiftl_mul_pow2, <- Z.pow_add_r by lia. apply u32_small. change 4294967296 with (2 ^ 32).
    split; [lia|]. apply Z.pow_lt_mono_r; lia. }
  assert (Hspec : forall k, 0 <= k < 32 -> io_level b q (write_port_BSRR (io_port b p) (2 ^ k) h) =
    if bool_decide (io_port b q = io_port b p)
    then (k =? (io_place b q).2) || io_level b q h && negb (k =? (io_place b q).2 + 16) else io_level b q h).
  { intros k Hk. destruct (BSRR_spec (io_port b p) (2 ^ k) h (Hc _)) as [_ Hb].
    - unfold in_u32. split; [lia|]. apply Z.pow_lt_mono_r; lia.
    - unfold io_level. rewrite Hb by done. by rewrite !Z.pow2_bits_eqb by lia. }
  destruct (decide (q = p)) as [->|Hne].
  - destruct on; unfold PIN_HI, PIN_LOW; rewrite ?Hoff, ?Hmask, Hspec, bool_decide_eq_true_2 by (lia || done); compare_cases; try done.
  - assert (Hd : io_port b q = io_port b p -> (io_place b p).2 <> (io_place b q).2)
      by (intros E1 E2; apply Hne; symmetry; by apply (io_distinct b)).
    destruct on; unfold PIN_HI, PIN_LOW; rewrite ?Hoff, ?Hmask, Hspec by lia; case_bool_decide as E; try done;
      specialize (Hd E); compare_cases; cbn; apply andb_true_r.
Qed.

(** The set-up of the inputs and outputs makes every output and key of the PLC L a push-pull
    output at low level and every input an interrupt on both edges. On the PLC XL, whose
    output 3 and inputs 0 and 1 are on other ports than those it names, these three stay as
    they were. Afterwards each of the ON and OFF functions drives its own point and no other. *)
Theorem io_init_correct b h : has_io b = true ->
  let h' := rhs_hal_io_init b h in
  (forall p, io_mode b p h' = if io_missed b p then io_mode b p h
                            else if io_is_input p then GPIO_MODE_IT_RISING_FALLING else GPIO_MODE_OUTPUT_PP) /\
  (forall p, io_is_input p = false -> io_missed b p = false -> io_level b p h' = false) /\
  (forall p q, io_level b q (PIN_HI b p h') = if decide (q = p) then true else io_level b q h') /\
  (forall p q, io_level b q (PIN_LOW b p h') = if decide (q = p) then false else io_level b q h') /\
  (forall p, PIN_IS_HIGH b p h' = negb (PIN_IS_LOW b p h')).
Proof.
  intros Hio h'.
  assert (Hlooks : exists mode out, looks h' mode out /\
    (forall p, mode (io_port b p) (io_place b p).2 = if io_missed b p then io_mode b p h
       else if io_is_input p then GPIO_MODE_IT_RISING_FALLING else GPIO_MODE_OUTPUT_PP) /\
    (forall p, io_is_input p = false -> io_missed b p = false -> out (io_port b p) (io_place b p).2 = false)).
  { subst h'. unfold rhs_hal_io_init.
    destruct (clocks_on h [GPIOE; GPIOC; GPIOF; GPIOH; GPIOA; GPIOB; GPIOG; GPIOD]) as (C & Mo & O).
    set (h0 := foldl _ h _) in *. cbn zeta in *.
    assert (L0 : looks h0 (fun q i => port_mode q i h) (fun q i => port_out q i h)).
    { split_and!; intros q; [|intros i _; by rewrite Mo|intros i _; by rewrite O]. rewrite C. by destruct q. }
    eexists _, _. split.
    - apply looks_init, looks_init, looks_init, looks_init, looks_init, looks_init, looks_write, looks_write, looks_write, L0.
    - split; intros p; unfold io_mode; destruct b; try done; by destruct p. }
  destruct Hlooks as (mode & out & (Hc & Hm & Ho) & Hmode & Hout).
  split_and!.
  - intros p. unfold io_mode at 1. rewrite Hm by apply io_pin_range. apply Hmode.
  - intros p Hi Hmi. unfold io_level. rewrite Ho by apply io_pin_range. by apply Hout.
  - intros p q. by apply (io_switch b p q true).
  - intros p q. by apply (io_switch b p q false).
  - done.
Qed.
End io_theorems.

(** ** A part and a board to instantiate the theorems with *)

Definition plain_mcu : Type := mcu_reg -> Z.
#[global] Instance plain_registers : Registers plain_mcu := {
  raw_SetPriority _ _ h := h; raw_EncodePriority pre sub _ := 16 * pre + sub;
  raw_EnableIRQ _ h := h; raw_DisableIRQ _ h := h;
  read_reg r h := u32 (h r);
  write_reg r v h :=
    match r with
    | gpio_at b BSRR => fun r' =>
        if decide (r' = gpio_at b ODR) then Z.land (Z.lor v (Z.ldiff (u32 (h r')) (Z.shiftr v 16))) (Z.ones 16) else h r'
    | _ => fun r' => if decide (r' = r) then v else h r'
    end;
  banks := 9
}.
Lemma plain_write_other r r' v (h : plain_mcu) : r <> r' -> (forall b, r = gpio_at b BSRR -> r' <> gpio_at b ODR) ->
  read_reg r' (write_reg r v h) = read_reg r' h.
Proof.
  intros Hne Hodr. cbn. destruct r as [b []| | | | | | | | | | | | | | | | | | | |]; try (by rewrite decide_False by congruence).
  by rewrite decide_False by (by apply Hodr).
Qed.
#[global] Instance plain_register_laws : RegisterLaws plain_mcu.
Proof.
  split; try done.
  - intros r h. apply u32_range.
  - intros r v h j Hk Hv. assert (E : read_reg r (write_reg r v h) = v); [|by rewrite E].
    cbn. destruct r as [b []| | | | | | | | | | | | | | | | | | | |]; try discriminate Hk; rewrite decide_True by done; by apply u32_small.
  - intros r r' v h Hne Hq. apply plain_write_other; [done|]. by intros b -> ->.
  - intros r b v h Ho Hb. apply plain_write_other; [done|]. by intros b' -> [= ->].
  - intros b v h j Hb Hv Hj. cbn. rewrite decide_True by done. rewrite u32_small.
    + rewrite Z.land_spec, Z.lor_spec, Z.ldiff_spec, Z.shiftr_spec, Z.testbit_ones_nonneg by lia. apply andb_comm.
    + rewrite Z.land_ones by lia. change (2 ^ 16) with 65536. pose proof (Z.mod_pos_bound (Z.lor v (Z.ldiff (u32 (h (gpio_at b ODR))) (Z.shiftr v 16))) 65536).
      lia.
Qed.

Record plain_ports := mkPorts { p_clock : gpio_port -> bool; p_mode : gpio_port -> Z -> gpio_mode; p_out : gpio_port -> Z -> bool }.
#[global] Instance plain_hal_gpio : HalGpio plain_ports := {
  HAL_RCC_CLK_ENABLE p h := mkPorts (fun q => bool_decide (q = p) || p_clock h q) (p_mode h) (p_out h);
  HAL_GPIO_WritePin p m v h := mkPorts (p_clock h) (p_mode h)
    (fun q i => if bool_decide (q = p) && Z.testbit m i then v else p_out h q i);
  HAL_GPIO_Init_port p g h := mkPorts (p_clock h)
    (fun q i => if bool_decide (q = p) && Z.testbit (Pin g) i then Mode g else p_mode h q i) (p_out h);
  port_IDR p h := 0;
  write_port_BSRR p v h := mkPorts (p_clock h) (p_mode h)
    (fun q i => if bool_decide (q = p) then Z.testbit v i || p_out h q i && negb (Z.testbit v (i + 16)) else p_out h q i)
}.
#[global] Instance plain_hal_gpio_laws : HalGpioLaws plain_ports.
Proof. by refine (Build_HalGpioLaws _ _ (fun q h => p_clock h q) (fun q i h => p_mode h q i) (fun q i h => p_out h q i) _ _ _ _). Defined.

(** ** The theorems at work *)

Lemma gpio_init_exact_witness : exists h',
  gpio_init F765 (PIN 0 12) MG_GPIO_MODE_AF MG_GPIO_OTYPE_PUSH_PULL MG_GPIO_SPEED_INSANE MG_GPIO_PULL_UP 10 (fun _ => 0 : Z)
    = Ret (tt, h') /\
  pin_get F_AF 0 12 h' = 10 /\ pin_get F_MODE 0 12 h' = 2 /\ pin_get F_MODE 0 11 h' = 0 /\ clocked F765 0 h' = true.
Proof.
  destruct (gpio_init_exact F765 0 12 MG_GPIO_MODE_AF MG_GPIO_OTYPE_PUSH_PULL MG_GPIO_SPEED_INSANE MG_GPIO_PULL_UP 10
    (fun _ => 0 : Z)) as (h' & E & Hg & _ & Hc); try done.
  exists h'. split; [exact E|]. rewrite !Hg, Hc by done. done.
Defined.

Lemma gpio_write_exact_witness : exists h', gpio_write (PIN 1 17) true (fun _ => 7 : Z) = Ret (tt, h') /\
  output 1 1 h' = false /\ output 1 2 h' = true.
Proof.
  destruct (gpio_write_exact 1 17 true (fun _ => 7 : Z)) as (h' & E & _ & Ho); try done.
  exists h'. split; [exact E|]. by rewrite !Ho.
Defined.

Lemma gpio_init_f1_exact_witness : exists h', gpio_init_f1 (PIN 2 9) GPIO_MODE_INPUT_PULLUP (fun _ => 0 : Z) = Ret (tt, h') /\
  pin_get F_CNF 2 9 h' = 8 /\ pin_get F_CNF 2 10 h' = 0 /\ output 2 9 h' = true.
Proof.
  destruct (gpio_init_f1_exact 2 9 GPIO_MODE_INPUT_PULLUP (fun _ => 0 : Z)) as (h' & E & Hg & Ho & _); try done.
  exists h'. split; [exact E|]. rewrite !Hg, Ho by done. done.
Defined.

Lemma io_init_correct_witness :
  let reset := mkPorts (fun _ => false) (fun _ _ => GPIO_MODE_INPUT) (fun _ _ => false) in
  io_mode BMPLC_XL OUT3 (rhs_hal_io_init BMPLC_XL reset) = GPIO_MODE_INPUT /\
  io_mode BMPLC_L OUT3 (rhs_hal_io_init BMPLC_L reset) = GPIO_MODE_OUTPUT_PP /\
  io_level BMPLC_L OUT3 (OUT3_ON BMPLC_L (rhs_hal_io_init BMPLC_L reset)) = true.
Proof.
  intros reset. destruct (io_init_correct BMPLC_XL reset eq_refl) as (Hx & _).
  destruct (io_init_correct BMPLC_L reset eq_refl) as (Hl & _ & Hon & _). rewrite Hx, Hl. split_and!; [done|done|].
  unfold OUT3_ON. by rewrite Hon.
Defined.
