(* ===== verification/Can.v ===== *)
(** * The CAN driver (hal/rhs_hal_can/rhs_hal_can.c)

    The driver's state, its interrupt handlers and its functions, over the interrupt table
    of [Interrupt]. The bxCAN registers, ST's HAL and the rcan library are the parameter
    [CanHw]; the clock and pin set-up (HAL_CAN_MspInit, HAL_CAN_MspDeInit) is rcan's to
    call and not modelled. *)

From S2P Require Import Prelude Interrupt.

(** ** Frames and statistics (rhs_hal_can.h) *)

Inductive FrameType := FrameTypeNO | FrameTypeStdID | FrameTypeExtID.

(** [RHSHalCANFrameType]; [rcan_frame] has the same members. The payload has 8 bytes. *)
Record RHSHalCANFrameType := mkFrame {
  fr_id : Z; fr_len : Z; fr_type : FrameType; fr_rtr : bool; fr_payload : list Z }.

Definition rcan_frame_zero : RHSHalCANFrameType := mkFrame 0 0 FrameTypeNO false (repeat 0 8).

Record RHSHalCANStatistic := mkStatistic {
  tx_msgs : Z; tx_errs : Z; tx_ovfs : Z; rx_msgs : Z; rx_errs : Z; rx_ovfs : Z }.

Definition RHSHalCANSCEEventTXPassive : Z := Z.shiftl 1 0.
Definition RHSHalCANSCEEventRXPassive : Z := Z.shiftl 1 1.
Definition RHSHalCANSCEEventBusOff : Z := Z.shiftl 1 2.
Definition RHSHalCANSCEEventError : Z := Z.shiftl 1 3.

(** ** Registers *)

Inductive CAN_TypeDef := CAN1 | CAN2 | CAN_NULL.

Definition CAN_MSR_ERRI : Z := Z.shiftl 1 2.
Definition CAN_MSR_WKUI : Z := Z.shiftl 1 3.
Definition CAN_ESR_BOFF : Z := Z.shiftl 1 2.
Definition CAN_RF0R_FOVR0 : Z := Z.shiftl 1 4.
Definition CAN_TSR_RQCP0 : Z := Z.shiftl 1 0.
Definition CAN_TSR_ALST0 : Z := Z.shiftl 1 2.
Definition CAN_TSR_TERR0 : Z := Z.shiftl 1 3.
Definition CAN_TSR_RQCP1 : Z := Z.shiftl 1 8.
Definition CAN_TSR_ALST1 : Z := Z.shiftl 1 10.
Definition CAN_TSR_TERR1 : Z := Z.shiftl 1 11.
Definition CAN_TSR_RQCP2 : Z := Z.shiftl 1 16.
Definition CAN_TSR_ALST2 : Z := Z.shiftl 1 18.
Definition CAN_TSR_TERR2 : Z := Z.shiftl 1 19.

Inductive can_notification :=
  | CAN_IT_ERROR | CAN_IT_LAST_ERROR_CODE | CAN_IT_BUSOFF | CAN_IT_ERROR_PASSIVE | CAN_IT_ERROR_WARNING
  | CAN_IT_TX_MAILBOX_EMPTY | CAN_IT_RX_FIFO0_MSG_PENDING.

(** The peripherals, and rcan with its handles, one per entry of [rhs_hal_can]. *)
Class CanHw (H : Type) := {
  CAN_MSR : CAN_TypeDef -> H -> Z;
  CAN_ESR : CAN_TypeDef -> H -> Z;
  CAN_TSR : CAN_TypeDef -> H -> Z;
  CAN_RF0R : CAN_TypeDef -> H -> Z;
  write_MSR : CAN_TypeDef -> Z -> H -> H;
  write_TSR : CAN_TypeDef -> Z -> H -> H;
  (** [rcan.handle.Instance] *)
  rcan_Instance : Z -> H -> CAN_TypeDef;
  rcan_start : Z -> CAN_TypeDef -> Z -> H -> bool * H;
  rcan_stop : Z -> H -> H;
  rcan_send : Z -> RHSHalCANFrameType -> H -> bool * H;
  (** The frame received, if any. *)
  rcan_receive : Z -> H -> option RHSHalCANFrameType * H;
  HAL_CAN_ActivateNotification : Z -> can_notification -> H -> H;
  HAL_CAN_DeactivateNotification : Z -> can_notification -> H -> H
}.

(** ** State *)

(** The interfaces of a board; the value of an enumerator is its position. *)
Definition RHSHalCANId1 : Z := 0.
Definition RHSHalCANId2 : Z := 1.
Definition RHSHalCANIdMax (b : board) : Z :=
  match b with BMPLC_XL | BMPLC_L | BMPLC_M => 1 | _ => 2 end.

(** [CB] are the user's callbacks; contexts are pointers. *)
Record RHSHalCAN (CB : Type) := mkRHSHalCAN {
  enabled : bool;
  lec : Z; tec : Z; rec : Z;
  rx_callback : option CB; rx_context : Z;
  tx_callback : option CB; tx_context : Z;
  sce_callback : option CB; sce_context : Z;
  statistic : RHSHalCANStatistic
}.
Arguments mkRHSHalCAN {CB}.
Arguments enabled {CB}.
Arguments lec {CB}.
Arguments tec {CB}.
Arguments rec {CB}.
Arguments rx_callback {CB}.
Arguments rx_context {CB}.
Arguments tx_callback {CB}.
Arguments tx_context {CB}.
Arguments sce_callback {CB}.
Arguments sce_context {CB}.
Arguments statistic {CB}.

(** The handlers in the interrupt table: this driver's three, and other drivers'. *)
Inductive can_isr := can_sce_callback_isr | can_rx_callback_isr | can_tx_callback_isr | other_isr (p : Z).
(** [NULL], [&rhs_hal_can[id]], or another driver's. *)
Inductive can_context := null_context | can_of (id : Z) | other_context (p : Z).

(** The lines the driver logs. *)
Inductive can_line :=
  | StuffError | FormError | AcknowledgmentError | BitRecessiveError | BitDominantError | CrcError
  | SetBySoftware | Counters (rec tec : Z)
  | ERRI | WKUI | BOFF | ArbitrationLost | TransmissionError.

Record can_world (CB N H : Type) := mkCan {
  can_interrupts : RHSHalInterrupt can_isr can_context N;
  rhs_hal_can : list (RHSHalCAN CB);
  can_hw : H;
  can_log : list (Z * can_line)
}.
Arguments mkCan {CB N H}.
Arguments can_interrupts {CB N H}.
Arguments rhs_hal_can {CB N H}.
Arguments can_hw {CB N H}.
Arguments can_log {CB N H}.

#[global] Instance can_has_interrupts {CB N H} : HasInterrupts can_isr can_context N (can_world CB N H) := {
  interrupts := can_interrupts;
  set_interrupts i w := mkCan i (rhs_hal_can w) (can_hw w) (can_log w)
}.
#[global] Instance can_has_interrupts_laws {CB N H} :
  HasInterruptsLaws can_isr can_context N (can_world CB N H).
Proof. split; [done|]. by intros []. Qed.

Section driver.
Context {CB N H : Type} `{Nvic N} `{CanHw H}.
Context (b : board) (max_syscall_priority : Z).
(** What the user's callbacks do. *)
Abbreviation world := (can_world CB N H).
Context (run_rx : CB -> Z -> Z -> M world unit) (run_tx : CB -> Z -> M world unit)
        (run_sce : CB -> Z -> Z -> Z -> M world unit).

(** *** Access to the state *)

Definition can_at (id : Z) : M world (RHSHalCAN CB) := w ← get; lift (aget (rhs_hal_can w) id).
Definition update_can (id : Z) (f : RHSHalCAN CB -> RHSHalCAN CB) : M world unit :=
  c ← can_at id;
  w ← get;
  l ← lift (aset (rhs_hal_can w) id (f c));
  modify (fun w => mkCan (can_interrupts w) l (can_hw w) (can_log w)).
Definition hw {A} (f : H -> A * H) : M world A := fun w =>
  let '(a, h) := f (can_hw w) in Ret (a, mkCan (can_interrupts w) (rhs_hal_can w) h (can_log w)).
Definition hw_ (f : H -> H) : M world unit := hw (fun h => (tt, f h)).
Definition hw_read {A} (f : H -> A) : M world A := w ← get; mret (f (can_hw w)).
Definition log_line (num : Z) (l : can_line) : M world unit :=
  modify (fun w => mkCan (can_interrupts w) (rhs_hal_can w) (can_hw w) (can_log w ++ [(num, l)])).
Definition when (c : bool) (m : M world unit) : M world unit := if c then m else mret tt.
Definition bits_set (x mask : Z) : bool := negb (Z.land x mask =? 0).

Definition set_enabled (e : bool) (c : RHSHalCAN CB) : RHSHalCAN CB :=
  mkRHSHalCAN e (lec c) (tec c) (rec c) (rx_callback c) (rx_context c) (tx_callback c) (tx_context c)
    (sce_callback c) (sce_context c) (statistic c).
Definition set_lec (x : Z) (c : RHSHalCAN CB) : RHSHalCAN CB :=
  mkRHSHalCAN (enabled c) x (tec c) (rec c) (rx_callback c) (rx_context c) (tx_callback c) (tx_context c)
    (sce_callback c) (sce_context c) (statistic c).
Definition set_tec (x : Z) (c : RHSHalCAN CB) : RHSHalCAN CB :=
  mkRHSHalCAN (enabled c) (lec c) x (rec c) (rx_callback c) (rx_context c) (tx_callback c) (tx_context c)
    (sce_callback c) (sce_context c) (statistic c).
Definition set_rec (x : Z) (c : RHSHalCAN CB) : RHSHalCAN CB :=
  mkRHSHalCAN (enabled c) (lec c) (tec c) x (rx_callback c) (rx_context c) (tx_callback c) (tx_context c)
    (sce_callback c) (sce_context c) (statistic c).
Definition set_rx_callback (f : option CB) (x : Z) (c : RHSHalCAN CB) : RHSHalCAN CB :=
  mkRHSHalCAN (enabled c) (lec c) (tec c) (rec c) f x (tx_callback c) (tx_context c)
    (sce_callback c) (sce_context c) (statistic c).
Definition set_tx_callback (f : option CB) (x : Z) (c : RHSHalCAN CB) : RHSHalCAN CB :=
  mkRHSHalCAN (enabled c) (lec c) (tec c) (rec c) (rx_callback c) (rx_context c) f x
    (sce_callback c) (sce_context c) (statistic c).
Definition set_sce_callback (f : option CB) (x : Z) (c : RHSHalCAN CB) : RHSHalCAN CB :=
  mkRHSHalCAN (enabled c) (lec c) (tec c) (rec c) (rx_callback c) (rx_context c) (tx_callback c) (tx_context c)
    f x (statistic c).
Definition count (f : RHSHalCANStatistic -> RHSHalCANStatistic) (c : RHSHalCAN CB) : RHSHalCAN CB :=
  mkRHSHalCAN (enabled c) (lec c) (tec c) (rec c) (rx_callback c) (rx_context c) (tx_callback c) (tx_context c)
    (sce_callback c) (sce_context c) (f (statistic c)).

Definition inc_tx_msgs (s : RHSHalCANStatistic) : RHSHalCANStatistic :=
  mkStatistic (u32 (tx_msgs s + 1)) (tx_errs s) (tx_ovfs s) (rx_msgs s) (rx_errs s) (rx_ovfs s).
Definition inc_tx_errs (s : RHSHalCANStatistic) : RHSHalCANStatistic :=
  mkStatistic (tx_msgs s) (u32 (tx_errs s + 1)) (tx_ovfs s) (rx_msgs s) (rx_errs s) (rx_ovfs s).
Definition inc_tx_ovfs (s : RHSHalCANStatistic) : RHSHalCANStatistic :=
  mkStatistic (tx_msgs s) (tx_errs s) (u32 (tx_ovfs s + 1)) (rx_msgs s) (rx_errs s) (rx_ovfs s).
Definition inc_rx_msgs (s : RHSHalCANStatistic) : RHSHalCANStatistic :=
  mkStatistic (tx_msgs s) (tx_errs s) (tx_ovfs s) (u32 (rx_msgs s + 1)) (rx_errs s) (rx_ovfs s).
Definition inc_rx_errs (s : RHSHalCANStatistic) : RHSHalCANStatistic :=
  mkStatistic (tx_msgs s) (tx_errs s) (tx_ovfs s) (rx_msgs s) (u32 (rx_errs s + 1)) (rx_ovfs s).
Definition inc_rx_ovfs (s : RHSHalCANStatistic) : RHSHalCANStatistic :=
  mkStatistic (tx_msgs s) (tx_errs s) (tx_ovfs s) (rx_msgs s) (rx_errs s) (u32 (rx_ovfs s + 1)).

(** *** Error reports *)

Definition get_can_num_interface (can : CAN_TypeDef) : M world Z :=
  match can with
  | CAN1 => mret RHSHalCANId1
  | CAN2 => if RHSHalCANIdMax b =? 2 then mret RHSHalCANId2 else crash "No CAN interface"
  | CAN_NULL => crash "No CAN interface"
  end.

(** The lines of [print_ecr] for the value of the error status register. *)
Definition ecr_lines (ecr : Z) : list can_line :=
  let tec := Z.land (Z.shiftr ecr 16) 255 in
  let rec := Z.land (Z.shiftr ecr 24) 255 in
  let lec := Z.land (Z.shiftr ecr 4) 3 in
  if (lec =? 0) && (rec =? 0) && (tec =? 0) then []
  else
    (if lec =? 1 then [StuffError] else []) ++
    (if lec =? 2 then [FormError] else []) ++
    (if lec =? 3 then [AcknowledgmentError] else []) ++
    (if lec =? 4 then [BitRecessiveError] else []) ++
    (if lec =? 5 then [BitDominantError] else []) ++
    (if lec =? 6 then [CrcError] else []) ++
    (if lec =? 7 then [SetBySoftware] else []) ++
    [Counters rec tec].

Fixpoint log_lines (num : Z) (ls : list can_line) : M world unit :=
  match ls with [] => mret tt | l :: ls => log_line num l;; log_lines num ls end.

Definition print_ecr (can : CAN_TypeDef) : M world unit :=
  ecr ← hw_read (CAN_ESR can);
  can_num ← get_can_num_interface can;
  log_lines can_num (ecr_lines ecr).

(** *** Interrupt handlers *)

Definition can_context_id (c : can_context) : option Z := match c with can_of id => Some id | _ => None end.

(** [rhs_assert(context); can = (RHSHalCAN* ) context]; another driver's context is not a
    [RHSHalCAN]. *)
Definition can_of_context (c : can_context) : M world Z :=
  match c with null_context => crash "Assert" | can_of id => mret id | other_context _ => fault end.

Definition CAN_TSR_ALST : Z := Z.lor CAN_TSR_ALST0 (Z.lor CAN_TSR_ALST1 CAN_TSR_ALST2).
Definition CAN_TSR_TERR : Z := Z.lor CAN_TSR_TERR0 (Z.lor CAN_TSR_TERR1 CAN_TSR_TERR2).

Definition can_sce_callback (context : can_context) : M world unit :=
  id ← can_of_context context;
  can_handle ← hw_read (rcan_Instance id);
  can_num ← get_can_num_interface can_handle;
  let event := 0 in
  msr ← hw_read (CAN_MSR can_handle);
  event ← (if bits_set msr CAN_MSR_ERRI then
             log_line can_num ERRI;; hw_ (write_MSR can_handle CAN_MSR_ERRI);;
             mret (Z.lor event RHSHalCANSCEEventError)
           else mret event);
  msr ← hw_read (CAN_MSR can_handle);
  when (bits_set msr CAN_MSR_WKUI) (log_line can_num WKUI;; hw_ (write_MSR can_handle CAN_MSR_WKUI));;
  esr ← hw_read (CAN_ESR can_handle);
  event ← (if bits_set esr CAN_ESR_BOFF then
             log_line can_num BOFF;; mret (Z.lor event RHSHalCANSCEEventBusOff)
           else mret event);
  tsr ← hw_read (CAN_TSR can_handle);
  event ← (if bits_set tsr (Z.lor CAN_TSR_ALST CAN_TSR_TERR) then
             update_can id (count inc_tx_errs);;
             when (bits_set tsr CAN_TSR_ALST) (log_line can_num ArbitrationLost);;
             if bits_set tsr CAN_TSR_TERR then
               log_line can_num TransmissionError;;
               esr ← hw_read (CAN_ESR can_handle);
               mret (if 128 <=? Z.land (Z.shiftr esr 16) 255 then Z.lor event RHSHalCANSCEEventTXPassive else event)
             else mret event
           else update_can id (count inc_rx_errs);; mret event);
  esr ← hw_read (CAN_ESR can_handle);
  update_can id (set_lec (Z.land (Z.shiftr esr 4) 3));;
  print_ecr can_handle;;
  c ← can_at id;
  match sce_callback c with
  | Some f => run_sce f can_num event (sce_context c)
  | None => mret tt
  end.

Definition can_rx_callback (context : can_context) : M world unit :=
  id ← can_of_context context;
  can_handle ← hw_read (rcan_Instance id);
  can_num ← get_can_num_interface can_handle;
  rf0r ← hw_read (CAN_RF0R can_handle);
  when (bits_set rf0r CAN_RF0R_FOVR0) (update_can id (count inc_rx_ovfs));;
  c ← can_at id;
  match rx_callback c with
  | Some f => run_rx f can_num (rx_context c)
  | None => mret tt
  end.

(** One mailbox whose request is complete: its flag is written back to clear it. *)
Definition clear_request (can_handle : CAN_TypeDef) (rqcp : Z) : M world unit :=
  tsr ← hw_read (CAN_TSR can_handle);
  when (bits_set tsr rqcp) (hw_ (write_TSR can_handle rqcp)).

Definition can_tx_callback (context : can_context) : M world unit :=
  id ← can_of_context context;
  can_handle ← hw_read (rcan_Instance id);
  update_can id (count inc_tx_msgs);;
  tsr ← hw_read (CAN_TSR can_handle);
  if bits_set tsr (Z.lor CAN_TSR_RQCP0 (Z.lor CAN_TSR_RQCP1 CAN_TSR_RQCP2)) then
    clear_request can_handle CAN_TSR_RQCP0;;
    clear_request can_handle CAN_TSR_RQCP1;;
    clear_request can_handle CAN_TSR_RQCP2;;
    c ← can_at id;
    match tx_callback c with
    | Some f => run_tx f (tx_context c)
    | None => mret tt
    end
  else mret tt.

(** What the handlers in the interrupt table do. *)
Context (run_other : Z -> can_context -> M world unit).
Definition run_can_isr (f : can_isr) (c : can_context) : M world unit :=
  match f with
  | can_sce_callback_isr => can_sce_callback c
  | can_rx_callback_isr => can_rx_callback c
  | can_tx_callback_isr => can_tx_callback c
  | other_isr p => run_other p c
  end.
End driver.

(** *** Functions *)

Section functions.
Context {CB N H : Type} `{Nvic N} `{CanHw H}.
Context (b : board) (max_syscall_priority : Z).
Abbreviation world := (can_world CB N H).

(** [rhs_assert(rhs_hal_can[id].enabled == e)] *)
Definition assert_enabled (id : Z) (e : bool) : M world unit :=
  c ← can_at id; rhs_assert (bool_decide (enabled c = e)).

(** [switch (id)]: the interface's peripheral and interrupts, in this order: errors,
    transmission, reception. *)
Definition interface (id : Z) : option (CAN_TypeDef * RHSHalInterruptId * RHSHalInterruptId * RHSHalInterruptId) :=
  if id =? RHSHalCANId1 then
    Some (CAN1, RHSHalInterruptIdCAN1SCE, RHSHalInterruptIdCAN1Tx, RHSHalInterruptIdCAN1Rx0)
  else if (RHSHalCANIdMax b =? 2) && (id =? RHSHalCANId2) then
    Some (CAN2, RHSHalInterruptIdCAN2SCE, RHSHalInterruptIdCAN2Tx, RHSHalInterruptIdCAN2Rx0)
  else None.

Definition set_isr (i : RHSHalInterruptId) (f : option can_isr) (c : can_context) : M world unit :=
  on_interrupts (rhs_hal_interrupt_set_isr b max_syscall_priority (id_value b i) f c).
Definition set_isr_ex (i : RHSHalInterruptId) (p : Z) (f : option can_isr) (c : can_context) : M world unit :=
  on_interrupts (rhs_hal_interrupt_set_isr_ex b max_syscall_priority (id_value b i) p f c).

(** The address of [rhs_hal_can[id].rcan.handle], given that of the array and the size of
    its elements. *)
Definition rhs_hal_can_get_handle (base size offset id : Z) : Z := base + id * size + offset.

Definition rhs_hal_can_init (id baud : Z) : M world unit :=
  assert_enabled id false;;
  match interface id with
  | Some (can, _, _, _) =>
      started ← hw (rcan_start id can baud);
      rhs_assert started;;
      update_can id (set_enabled true)
  | None => crash "No CAN interface"
  end.

Fixpoint deactivate (id : Z) (ns : list can_notification) : M world unit :=
  match ns with [] => mret tt | n :: ns => hw_ (HAL_CAN_DeactivateNotification id n);; deactivate id ns end.
Fixpoint activate (id : Z) (ns : list can_notification) : M world unit :=
  match ns with [] => mret tt | n :: ns => hw_ (HAL_CAN_ActivateNotification id n);; activate id ns end.

Definition rhs_hal_can_deinit (id : Z) : M world unit :=
  assert_enabled id true;;
  match interface id with
  | Some (_, sce, tx, rx) =>
      set_isr sce None null_context;;
      set_isr tx None null_context;;
      set_isr rx None null_context;;
      hw_ (rcan_stop id);;
      deactivate id [CAN_IT_ERROR; CAN_IT_LAST_ERROR_CODE; CAN_IT_BUSOFF; CAN_IT_ERROR_PASSIVE;
        CAN_IT_ERROR_WARNING; CAN_IT_TX_MAILBOX_EMPTY; CAN_IT_RX_FIFO0_MSG_PENDING];;
      update_can id (set_enabled false)
  | None => crash "No CAN interface"
  end.

Definition rhs_hal_can_async_sce (id : Z) (callback : option CB) (context : Z) : M world unit :=
  assert_enabled id true;;
  update_can id (set_sce_callback callback context);;
  match interface id with
  | Some (_, sce, _, _) =>
      set_isr_ex sce RHSHalInterruptPriorityLow (Some can_sce_callback_isr) (can_of id);;
      activate id [CAN_IT_ERROR; CAN_IT_LAST_ERROR_CODE; CAN_IT_BUSOFF]
  | None => crash "No CAN interface"
  end.

(** [memcpy(dst, src, len)] between payloads of 8 bytes. *)
Definition copy_payload {W} (dst src : list Z) (len : Z) : M W (list Z) :=
  if (Z.of_nat (length src) <? len) || (Z.of_nat (length dst) <? len) then fault
  else mret (take (Z.to_nat len) src ++ drop (Z.to_nat len) dst).

Definition rhs_hal_can_tx (id : Z) (frame : RHSHalCANFrameType) : M world bool :=
  assert_enabled id true;;
  instance ← hw_read (rcan_Instance id);
  esr ← hw_read (CAN_ESR instance);
  let counter := Z.land (Z.shiftr esr 16) 255 in
  c ← can_at id;
  when (negb (tec c =? counter)) (print_ecr b instance;; update_can id (set_tec counter));;
  payload ← copy_payload (fr_payload rcan_frame_zero) (fr_payload frame) (fr_len frame);
  let rcan_frame := mkFrame (fr_id frame) (fr_len frame) (fr_type frame) (fr_rtr frame) payload in
  sent ← hw (rcan_send id rcan_frame);
  if sent : bool then mret true
  else update_can id (count inc_tx_ovfs);; mret false.

Definition rhs_hal_can_tx_cmplt_cb (id : Z) (callback : option CB) (context : Z) : M world unit :=
  assert_enabled id true;;
  rhs_assert (negb (is_null callback));;
  rhs_assert (negb (context =? 0));;
  update_can id (set_tx_callback callback context);;
  match interface id with
  | Some (_, _, tx, _) =>
      set_isr tx (Some can_tx_callback_isr) (can_of id);;
      activate id [CAN_IT_TX_MAILBOX_EMPTY]
  | None => crash "No CAN interface"
  end.

Definition rhs_hal_can_async_rx_start (id : Z) (callback : option CB) (context : Z) : M world unit :=
  assert_enabled id true;;
  rhs_assert (negb (is_null callback));;
  rhs_assert (negb (context =? 0));;
  update_can id (set_rx_callback callback context);;
  match interface id with
  | Some (_, _, _, rx) =>
      set_isr rx (Some can_rx_callback_isr) (can_of id);;
      activate id [CAN_IT_RX_FIFO0_MSG_PENDING]
  | None => crash "No CAN interface"
  end.

(** Whether a frame was received, and [*frame] afterwards. *)
Definition rhs_hal_can_rx (id : Z) (frame : RHSHalCANFrameType) : M world (bool * RHSHalCANFrameType) :=
  assert_enabled id true;;
  instance ← hw_read (rcan_Instance id);
  esr ← hw_read (CAN_ESR instance);
  let counter := Z.land (Z.shiftr esr 24) 255 in
  c ← can_at id;
  when (negb (rec c =? counter)) (print_ecr b instance;; update_can id (set_rec counter));;
  received ← hw (rcan_receive id);
  match received with
  | None => mret (false, frame)
  | Some r =>
      payload ← copy_payload (fr_payload frame) (fr_payload r) (fr_len r);
      update_can id (count inc_rx_msgs);;
      mret (true, mkFrame (fr_id r) (fr_len r) (fr_type r) (fr_rtr r) payload)
  end.

Definition rhs_hal_can_get_statistic (id : Z) : M world RHSHalCANStatistic :=
  rhs_assert (id <? RHSHalCANIdMax b);;
  c ← can_at id;
  mret (statistic c).
End functions.

(** ** The invariant of the driver *)

Inductive can_kind := Errors | Transmission | Reception.
#[global] Instance can_kind_eq_dec : EqDecision can_kind.
Proof. solve_decision. Defined.

Definition can_interrupt (id : Z) (k : can_kind) : RHSHalInterruptId :=
  match k with
  | Errors => if id =? 0 then RHSHalInterruptIdCAN1SCE else RHSHalInterruptIdCAN2SCE
  | Transmission => if id =? 0 then RHSHalInterruptIdCAN1Tx else RHSHalInterruptIdCAN2Tx
  | Reception => if id =? 0 then RHSHalInterruptIdCAN1Rx0 else RHSHalInterruptIdCAN2Rx0
  end.

Definition isr_of (k : can_kind) : can_isr :=
  match k with
  | Errors => can_sce_callback_isr
  | Transmission => can_tx_callback_isr
  | Reception => can_rx_callback_isr
  end.

(** The boards this driver compiles for. *)
Definition has_can (b : board) : bool := match b with STM32G0B1xx => false | _ => true end.
Definition can_valid (b : board) (id : Z) : Prop := 0 <= id < RHSHalCANIdMax b.

Lemma can_valid_cases b id : can_valid b id -> id = 0 \/ (id = 1 /\ RHSHalCANIdMax b = 2).
Proof. unfold can_valid. destruct b; simpl; lia. Qed.

Lemma interface_valid b id : can_valid b id ->
  interface b id = Some (if id =? 0 then CAN1 else CAN2, can_interrupt id Errors, can_interrupt id Transmission,
    can_interrupt id Reception).
Proof. intros [->|[-> E]]%can_valid_cases; [done|]. unfold interface. by rewrite E. Qed.

Lemma id_value_range b id k : has_can b = true -> can_valid b id ->
  0 <= id_value b (can_interrupt id k) < RHSHalInterruptIdMax b.
Proof.
  intros Hb [->|[-> E]]%can_valid_cases; destruct b; try done; destruct k; vm_compute; split; congruence.
Qed.

Lemma id_value_inj b id k id' k' : has_can b = true -> can_valid b id -> can_valid b id' ->
  id_value b (can_interrupt id k) = id_value b (can_interrupt id' k') -> id = id' /\ k = k'.
Proof.
  intros Hb [->|[-> E]]%can_valid_cases [->|[-> E']]%can_valid_cases;
    destruct b; try done; destruct k, k'; vm_compute; intros; done.
Qed.

Section invariant.
Context {CB N H : Type} `{Nvic N} `{CanHw H}.
Context (b : board) (max_syscall_priority : Z) (Hboard : has_can b = true).
Abbreviation world := (can_world CB N H).

Definition live (c : RHSHalCAN CB) (k : can_kind) : bool :=
  enabled c && match k with
    | Errors => true
    | Transmission => negb (is_null (tx_callback c))
    | Reception => negb (is_null (rx_callback c))
    end.

(** An interrupt of interface [id] has no handler, or the driver's own with the
    interface's context, and then the interface is enabled and the callback set. *)
Definition slot_fine (c : RHSHalCAN CB) (id : Z) (k : can_kind)
    (o : option (RHSHalInterruptISRPair can_isr can_context)) : Prop :=
  exists d, o = Some d /\ (isr d = None \/ (d = mkPair (Some (isr_of k)) (can_of id) /\ live c k = true)).

Definition slot (w : world) (id : Z) (k : can_kind) : option (RHSHalInterruptISRPair can_isr can_context) :=
  handler (can_interrupts w) (id_value b (can_interrupt id k)).

Record can_inv (w : world) : Prop := {
  inv_cans : Z.of_nat (length (rhs_hal_can w)) = RHSHalCANIdMax b;
  inv_sized : well_sized b (can_interrupts w);
  inv_slots id c k : can_valid b id -> rhs_hal_can w !! Z.to_nat id = Some c -> slot_fine c id k (slot w id k)
}.

Definition free_slots (w : world) (id : Z) : Prop :=
  forall k, exists d, slot w id k = Some d /\ isr d = None.

(** *** The primitive steps *)

Lemma can_at_eq (w : world) id c : 0 <= id -> rhs_hal_can w !! Z.to_nat id = Some c -> can_at id w = Ret (c, w).
Proof. intros Hi Hc. unfold can_at. munfold. by rewrite (aget_lookup _ _ c). Qed.

Lemma update_can_eq (w : world) id c f : 0 <= id -> rhs_hal_can w !! Z.to_nat id = Some c ->
  update_can id f w = Ret (tt, mkCan (can_interrupts w) (<[Z.to_nat id := f c]> (rhs_hal_can w)) (can_hw w) (can_log w)).
Proof.
  intros Hi Hc. unfold update_can. cbv [mbind M_bind]. rewrite (can_at_eq _ _ c) by done. munfold.
  rewrite aset_in; [done|]. apply lookup_lt_Some in Hc. lia.
Qed.

Lemma can_lookup (w : world) id : can_inv w -> can_valid b id -> exists c, rhs_hal_can w !! Z.to_nat id = Some c.
Proof.
  intros Hw [Hi Hm]. apply lookup_lt_is_Some_2. pose proof (inv_cans w Hw). lia.
Qed.

Lemma slot_lookup (w : world) id k : can_inv w -> can_valid b id -> is_Some (slot w id k).
Proof.
  intros Hw Hi. destruct (can_lookup w id Hw Hi) as [c Hc].
  destruct (inv_slots w Hw id c k Hi Hc) as (d & -> & _). eauto.
Qed.

(** What an interrupt table becomes. *)
Definition put_slot (w : world) (id : Z) (k : can_kind) (d : RHSHalInterruptISRPair can_isr can_context) (n : N) : world :=
  mkCan (mkInterrupt (<[Z.to_nat (id_value b (can_interrupt id k)) := d]> (isrs (can_interrupts w)))
          (counter_time_in_isr_total (can_interrupts w)) n) (rhs_hal_can w) (can_hw w) (can_log w).

Lemma slot_put_eq (w : world) id k d n : can_inv w -> can_valid b id -> slot (put_slot w id k d n) id k = Some d.
Proof.
  intros Hw Hi. unfold slot, handler, put_slot. cbn [can_interrupts isrs]. apply list_lookup_insert_eq.
  destruct (slot_lookup w id k Hw Hi) as [d' Hd]. by eapply lookup_lt_Some.
Qed.
Lemma slot_put_ne (w : world) id k d n id' k' : can_valid b id -> can_valid b id' -> (id, k) <> (id', k') ->
  slot (put_slot w id k d n) id' k' = slot w id' k'.
Proof.
  intros Hi Hi' Hne. unfold slot, handler, put_slot. cbn [can_interrupts isrs]. apply list_lookup_insert_ne.
  pose proof (id_value_range b id k Hboard Hi). pose proof (id_value_range b id' k' Hboard Hi').
  intros E. destruct (id_value_inj b id k id' k' Hboard Hi Hi') as [-> ->]; [lia|done].
Qed.

Lemma can_inv_put_slot (w : world) id k d n :
  can_inv w -> can_valid b id ->
  (forall c, rhs_hal_can w !! Z.to_nat id = Some c -> slot_fine c id k (Some d)) -> can_inv (put_slot w id k d n).
Proof.
  intros Hw Hi Hd. split; [apply Hw| |].
  - pose proof (inv_sized w Hw) as Hs. unfold well_sized, put_slot in *. simpl. by rewrite length_insert.
  - intros id' c' k' Hi' Hc'. cbn [rhs_hal_can put_slot] in Hc'.
    destruct (decide ((id, k) = (id', k'))) as [[= <- <-]|Hne].
    + rewrite slot_put_eq by done. by apply Hd.
    + rewrite slot_put_ne by done. by apply Hw.
Qed.

(** Registering and clearing a handler of an interface. *)
Lemma set_isr_ex_eq (w : world) id k p f c d :
  can_inv w -> can_valid b id -> slot w id k = Some d -> valid_priority p = true ->
  (if is_null f || is_null (isr d) then exists n,
     set_isr_ex b max_syscall_priority (can_interrupt id k) p f c w = Ret (tt, put_slot w id k (mkPair f c) n)
   else set_isr_ex b max_syscall_priority (can_interrupt id k) p f c w = Crash "Assert").
Proof.
  intros Hw Hi Hd Hp. unfold set_isr_ex, on_interrupts. cbn [interrupts can_has_interrupts].
  pose proof (id_value_range b id k Hboard Hi) as Hr.
  pose proof (set_isr_ex_spec b max_syscall_priority (can_interrupts w) (id_value b (can_interrupt id k)) p f c
    (inv_sized w Hw)) as Hs.
  destruct (Z.leb_spec 0 (id_value b (can_interrupt id k))); [|lia].
  destruct (Z.ltb_spec (id_value b (can_interrupt id k)) (RHSHalInterruptIdMax b)); [|lia].
  rewrite Hp in Hs. cbn [andb] in Hs. destruct Hs as (q & d' & _ & Hd' & Hs).
  unfold slot, handler in Hd. rewrite Hd in Hd'. injection Hd' as <-.
  destruct (is_null f || is_null (isr d)); cbn zeta in Hs; rewrite Hs; [|done]. eexists. done.
Qed.

(** Changing an entry so that what was live stays so. *)
Lemma can_inv_update (w : world) id (c c' : RHSHalCAN CB) h l :
  can_inv w -> can_valid b id -> rhs_hal_can w !! Z.to_nat id = Some c ->
  (forall k, live c k = true -> live c' k = true) \/ free_slots w id ->
  can_inv (mkCan (can_interrupts w) (<[Z.to_nat id := c']> (rhs_hal_can w)) h l).
Proof.
  intros Hw Hi Hc Hl. split; cbn [rhs_hal_can can_interrupts]; [rewrite length_insert; apply Hw|apply Hw|].
  intros id' c1 k Hi' Hc1. change (slot _ id' k) with (slot w id' k).
  destruct (decide (id' = id)) as [->|Hne].
  - rewrite list_lookup_insert_eq in Hc1 by (by eapply lookup_lt_Some). injection Hc1 as <-.
    destruct Hl as [Hl|Hf].
    + destruct (inv_slots w Hw id c k Hi Hc) as (d & Hd & Hs). exists d. split; [done|]. naive_solver.
    + destruct (Hf k) as (d & Hd & E). exists d. auto.
  - rewrite list_lookup_insert_ne in Hc1 by (unfold can_valid in *; lia). by apply (inv_slots w Hw).
Qed.

Lemma can_inv_hw (w : world) h l : can_inv w -> can_inv (mkCan (can_interrupts w) (rhs_hal_can w) h l).
Proof. intros Hw. split; apply Hw. Qed.

(** *** The functions *)

(** Clearing the three handlers, in turn. *)
Definition cleared (w : world) (id : Z) (n1 n2 n3 : N) : world :=
  let null := mkPair None null_context in
  put_slot (put_slot (put_slot w id Errors null n1) id Transmission null n2) id Reception null n3.

Lemma null_fine c id k : slot_fine c id k (Some (mkPair None null_context)).
Proof. eexists. split; [done|]. by left. Qed.

Lemma clear_eq (w : world) id k : can_inv w -> can_valid b id ->
  exists n, set_isr b max_syscall_priority (can_interrupt id k) None null_context w =
    Ret (tt, put_slot w id k (mkPair None null_context) n) /\
    can_inv (put_slot w id k (mkPair None null_context) n).
Proof.
  intros Hw Hi. destruct (slot_lookup w id k Hw Hi) as [d Hd].
  destruct (set_isr_ex_eq w id k RHSHalInterruptPriorityNormal None null_context d Hw Hi Hd eq_refl) as [n E].
  exists n. split; [exact E|]. apply can_inv_put_slot; [done..|]. intros c _. apply null_fine.
Qed.

Lemma deactivate_eq id ns (w : world) : exists h,
  deactivate id ns w = Ret (tt, mkCan (can_interrupts w) (rhs_hal_can w) h (can_log w)).
Proof.
  revert w. induction ns as [|x ns IH]; intros w; [exists (can_hw w); by destruct w|].
  cbn [deactivate]. unfold hw_, hw. cbv [mbind M_bind]. destruct (IH (mkCan (can_interrupts w) (rhs_hal_can w)
    (HAL_CAN_DeactivateNotification id x (can_hw w)) (can_log w))) as [h E]. exists h. exact E.
Qed.
Lemma activate_eq id ns (w : world) : exists h,
  activate id ns w = Ret (tt, mkCan (can_interrupts w) (rhs_hal_can w) h (can_log w)).
Proof.
  revert w. induction ns as [|x ns IH]; intros w; [exists (can_hw w); by destruct w|].
  cbn [activate]. unfold hw_, hw. cbv [mbind M_bind]. destruct (IH (mkCan (can_interrupts w) (rhs_hal_can w)
    (HAL_CAN_ActivateNotification id x (can_hw w)) (can_log w))) as [h E]. exists h. exact E.
Qed.

Lemma assert_enabled_eq (w : world) id c e : can_valid b id -> rhs_hal_can w !! Z.to_nat id = Some c ->
  assert_enabled id e w = if bool_decide (enabled c = e) then Ret (tt, w) else Crash "Assert".
Proof.
  intros [Hi _] Hc. unfold assert_enabled. cbv [mbind M_bind]. rewrite (can_at_eq _ _ c) by done.
  by destruct (bool_decide _).
Qed.

(** Replacing the entry of an interface. *)
Definition put_can (w : world) (id : Z) (c : RHSHalCAN CB) (h : H) : world :=
  mkCan (can_interrupts w) (<[Z.to_nat id := c]> (rhs_hal_can w)) h (can_log w).

Lemma deinit_spec (w : world) id c :
  can_inv w -> can_valid b id -> rhs_hal_can w !! Z.to_nat id = Some c -> enabled c = true ->
  exists n1 n2 n3 h, let w' := put_can (cleared w id n1 n2 n3) id (set_enabled false c) h in
    rhs_hal_can_deinit b max_syscall_priority id w = Ret (tt, w') /\ can_inv w' /\ free_slots w' id.
Proof.
  intros Hw Hi Hc He. pose proof (proj1 Hi) as Hi0. unfold rhs_hal_can_deinit. cbv [mbind M_bind].
  rewrite (assert_enabled_eq w id c), bool_decide_true by done. rewrite (interface_valid b id Hi).
  destruct (clear_eq w id Errors Hw Hi) as (n1 & -> & Hw1). set (w1 := put_slot w id Errors _ n1) in *.
  destruct (clear_eq w1 id Transmission Hw1 Hi) as (n2 & -> & Hw2). set (w2 := put_slot w1 id _ _ n2) in *.
  destruct (clear_eq w2 id Reception Hw2 Hi) as (n3 & -> & Hw3). set (w3 := put_slot w2 id _ _ n3) in *.
  unfold hw_ at 1, hw at 1. set (w4 := mkCan _ _ (rcan_stop id _) _).
  destruct (deactivate_eq id [CAN_IT_ERROR; CAN_IT_LAST_ERROR_CODE; CAN_IT_BUSOFF; CAN_IT_ERROR_PASSIVE;
        CAN_IT_ERROR_WARNING; CAN_IT_TX_MAILBOX_EMPTY; CAN_IT_RX_FIFO0_MSG_PENDING] w4) as [h ->].
  exists n1, n2, n3, h. cbn zeta.
  rewrite (update_can_eq _ id c) by done.
  assert (Hfree : free_slots w3 id).
  { intros k. exists (mkPair None null_context). split; [|done].
    destruct k; unfold w3, w2, w1; repeat first
      [rewrite slot_put_eq by done; done | rewrite slot_put_ne by (done || congruence)]. }
  split; [done|]. split; [|exact Hfree].
  exact (can_inv_update w3 id c (set_enabled false c) h (can_log w) Hw3 Hi Hc (or_intror Hfree)).
Qed.

Lemma init_spec (w : world) id baud c :
  can_inv w -> can_valid b id -> rhs_hal_can w !! Z.to_nat id = Some c ->
  let '(started, h) := rcan_start id (if id =? 0 then CAN1 else CAN2) baud (can_hw w) in
  if negb (enabled c) && started then
    rhs_hal_can_init b id baud w = Ret (tt, put_can w id (set_enabled true c) h) /\
    can_inv (put_can w id (set_enabled true c) h)
  else rhs_hal_can_init b id baud w = Crash "Assert".
Proof.
  intros Hw Hi Hc. pose proof (proj1 Hi) as Hi0. destruct (rcan_start _ _ _ _) as [started h] eqn:Es.
  unfold rhs_hal_can_init. cbv [mbind M_bind]. rewrite (assert_enabled_eq w id c) by done.
  destruct (enabled c) eqn:He; [by rewrite bool_decide_false|]. rewrite bool_decide_true by done. cbn [negb andb].
  rewrite (interface_valid b id Hi). cbn beta iota zeta. unfold hw at 1 2. rewrite Es. destruct started; [|done].
  cbv [rhs_assert mret M_ret]. rewrite (update_can_eq _ id c) by done.
  split; [done|]. apply can_inv_update with c; try done. left. intros k. unfold live. by rewrite He.
Qed.

(** Registering: the callback is stored, then the driver's handler. *)
Lemma register_spec (w : world) id k p c c' :
  can_inv w -> can_valid b id -> rhs_hal_can w !! Z.to_nat id = Some c -> valid_priority p = true ->
  (forall k, live c k = true -> live c' k = true) -> live c' k = true ->
  let w1 := put_can w id c' (can_hw w) in
  can_inv w1 /\
  match slot w id k with
  | Some d =>
      if is_null (isr d) then exists n, let w2 := put_slot w1 id k (mkPair (Some (isr_of k)) (can_of id)) n in
        set_isr_ex b max_syscall_priority (can_interrupt id k) p (Some (isr_of k)) (can_of id) w1 = Ret (tt, w2) /\
        can_inv w2
      else set_isr_ex b max_syscall_priority (can_interrupt id k) p (Some (isr_of k)) (can_of id) w1 = Crash "Assert"
  | None => False
  end.
Proof.
  intros Hw Hi Hc Hp Hmono Hl w1.
  assert (Hw1 : can_inv w1) by (apply can_inv_update with c; auto).
  split; [done|]. destruct (slot_lookup w id k Hw Hi) as [d Hd]. rewrite Hd.
  pose proof (set_isr_ex_eq w1 id k p (Some (isr_of k)) (can_of id) d Hw1 Hi Hd Hp) as E.
  cbn [is_null orb] in E. destruct (is_null (isr d)); [|done]. destruct E as [n E]. exists n. split; [done|].
  apply can_inv_put_slot; [done..|]. intros c1 Hc1. cbn [rhs_hal_can w1 put_can] in Hc1.
  rewrite list_lookup_insert_eq in Hc1 by (by eapply lookup_lt_Some). injection Hc1 as <-.
  eexists. split; [done|]. by right.
Qed.
End invariant.

(** ** Reachable states *)

Section reachable.
Context {CB N H : Type} `{Nvic N} `{CanHw H}.
Context (b : board) (max_syscall_priority : Z) (Hboard : has_can b = true).
Abbreviation world := (can_world CB N H).
Abbreviation can_inv := (can_inv (CB := CB) (N := N) (H := H) b).

(** What tasks and callbacks may do: the driver's functions, changes of the hardware, and
    other drivers' use of the interrupt table. *)
Inductive can_api : world -> world -> Prop :=
  | api_init id baud w w' : can_valid b id -> rhs_hal_can_init b id baud w = Ret (tt, w') -> can_api w w'
  | api_deinit id w w' : can_valid b id ->
      rhs_hal_can_deinit b max_syscall_priority id w = Ret (tt, w') -> can_api w w'
  | api_sce id cb x w w' : can_valid b id ->
      rhs_hal_can_async_sce b max_syscall_priority id cb x w = Ret (tt, w') -> can_api w w'
  | api_tx_cmplt id cb x w w' : can_valid b id ->
      rhs_hal_can_tx_cmplt_cb b max_syscall_priority id cb x w = Ret (tt, w') -> can_api w w'
  | api_rx_start id cb x w w' : can_valid b id ->
      rhs_hal_can_async_rx_start b max_syscall_priority id cb x w = Ret (tt, w') -> can_api w w'
  | api_tx id fr r w w' : can_valid b id -> rhs_hal_can_tx b id fr w = Ret (r, w') -> can_api w w'
  | api_rx id fr r w w' : can_valid b id -> rhs_hal_can_rx b id fr w = Ret (r, w') -> can_api w w'
  | api_hardware w h : can_api w (mkCan (can_interrupts w) (rhs_hal_can w) h (can_log w))
  | api_other index p f c w w' :
      (forall id k, can_valid b id -> index <> id_value b (can_interrupt id k)) ->
      on_interrupts (rhs_hal_interrupt_set_isr_ex b max_syscall_priority index p f c) w = Ret (tt, w') ->
      can_api w w'.

Lemma preserves_hw {A} (f : H -> A * H) : preserves can_inv (hw f : M world A).
Proof.
  intros w a w' Hw E. unfold hw in E. destruct (f (can_hw w)) as [x h]. injection E as <- <-. by apply can_inv_hw.
Qed.
Lemma preserves_hw_ (f : H -> H) : preserves can_inv (hw_ f : M world unit).
Proof. apply preserves_hw. Qed.
Lemma preserves_hw_read {A} (f : H -> A) : preserves can_inv (hw_read f : M world A).
Proof. unfold hw_read. preserve. Qed.
Lemma preserves_log n l : preserves can_inv (log_line n l : M world unit).
Proof. apply preserves_modify. intros w Hw. by apply can_inv_hw. Qed.
Lemma preserves_when (c : bool) (m : M world unit) : preserves can_inv m -> preserves can_inv (when c m).
Proof. intros Hm. unfold when. preserve. Qed.
Lemma preserves_can_at id : preserves can_inv (can_at id : M world _).
Proof. unfold can_at. preserve. Qed.
Lemma preserves_num can : preserves can_inv (get_can_num_interface b can : M world Z).
Proof. unfold get_can_num_interface. destruct can; preserve. Qed.
Lemma preserves_log_lines n ls : preserves can_inv (log_lines n ls : M world unit).
Proof. induction ls as [|l ls IH]; cbn [log_lines]; [preserve|]. apply preserves_bind; [apply preserves_log|done]. Qed.

#[local] Hint Resolve preserves_hw preserves_hw_ preserves_hw_read preserves_log preserves_when preserves_can_at
  preserves_num preserves_log_lines : preserves.

Lemma preserves_print_ecr can : preserves can_inv (print_ecr b can : M world unit).
Proof. unfold print_ecr. preserve. Qed.

(** Changes that keep what is enabled and which callbacks are set. *)
Lemma preserves_update id f : (forall (c : RHSHalCAN CB) k, live c k = true -> live (f c) k = true) ->
  preserves can_inv (update_can id f : M world unit).
Proof.
  intros Hf w a w' Hw E. destruct (decide (0 <= id < RHSHalCANIdMax b)) as [Hi|Hi].
  - destruct (can_lookup b w id Hw Hi) as [c Hc].
    rewrite (update_can_eq w id c) in E by (done || apply Hi). injection E as _ <-.
    apply can_inv_update with c; auto.
  - pose proof (inv_cans b w Hw). unfold update_can, can_at in E. munfold. rewrite aget_out in E by lia. done.
Qed.
Lemma preserves_count id f : preserves can_inv (update_can id (count f) : M world unit).
Proof. by apply preserves_update. Qed.
Lemma preserves_set_tec id x : preserves can_inv (update_can id (set_tec x) : M world unit).
Proof. by apply preserves_update. Qed.
Lemma preserves_set_rec id x : preserves can_inv (update_can id (set_rec x) : M world unit).
Proof. by apply preserves_update. Qed.
Lemma preserves_set_lec id x : preserves can_inv (update_can id (set_lec x) : M world unit).
Proof. by apply preserves_update. Qed.
Lemma preserves_copy d s n : preserves can_inv (copy_payload d s n : M world _).
Proof. unfold copy_payload. preserve. Qed.

#[local] Hint Resolve preserves_print_ecr preserves_count preserves_set_tec preserves_set_rec preserves_set_lec
  preserves_copy : preserves.

Lemma preserves_tx id fr : preserves can_inv (rhs_hal_can_tx b id fr : M world bool).
Proof. unfold rhs_hal_can_tx, assert_enabled, when. preserve. Qed.
Lemma preserves_rx id fr : preserves can_inv (rhs_hal_can_rx b id fr : M world _).
Proof. unfold rhs_hal_can_rx, assert_enabled, when. preserve. Qed.

(** The three functions that register a handler: how each returns. *)
Lemma registration_spec (w w' : world) id k p c c' ns :
  can_inv w -> can_valid b id -> rhs_hal_can w !! Z.to_nat id = Some c -> valid_priority p = true ->
  (forall k, live c k = true -> live c' k = true) -> live c' k = true ->
  (set_isr_ex b max_syscall_priority (can_interrupt id k) p (Some (isr_of k)) (can_of id);;
   activate id ns) (put_can w id c' (can_hw w)) = Ret (tt, w') -> can_inv w'.
Proof.
  intros Hw Hi Hc Hp Hm Hl (u & w1 & E1 & E2)%bind_returns.
  destruct (register_spec b max_syscall_priority Hboard w id k p c c' Hw Hi Hc Hp Hm Hl) as [_ Hr].
  destruct (slot b w id k) as [d|]; [|done]. destruct (is_null (isr d)); [|congruence].
  destruct Hr as (n & E & Hw2). cbn zeta in E. rewrite E in E1. injection E1 as <- <-.
  destruct (activate_eq id ns (put_slot b (put_can w id c' (can_hw w)) id k (mkPair (Some (isr_of k)) (can_of id)) n))
    as [h Eh].
  rewrite Eh in E2. injection E2 as <-. exact (can_inv_hw b _ h _ Hw2).
Qed.

Lemma preserves_sce id cb x : can_valid b id ->
  preserves can_inv (rhs_hal_can_async_sce b max_syscall_priority id cb x : M world unit).
Proof.
  intros Hi w [] w' Hw E. destruct (can_lookup b w id Hw Hi) as [c Hc].
  unfold rhs_hal_can_async_sce in E. cbv [mbind M_bind] in E. rewrite (assert_enabled_eq b w id c) in E by done.
  case_bool_decide as He; [|done].
  rewrite (update_can_eq w id c) in E by (done || apply Hi). rewrite (interface_valid b id Hi) in E.
  eapply (registration_spec w w' id Errors RHSHalInterruptPriorityLow c (set_sce_callback cb x c)); [done..| |exact E].
  unfold live. simpl. by rewrite He.
Qed.

Lemma preserves_tx_cmplt id cb x : can_valid b id ->
  preserves can_inv (rhs_hal_can_tx_cmplt_cb b max_syscall_priority id cb x : M world unit).
Proof.
  intros Hi w [] w' Hw E. destruct (can_lookup b w id Hw Hi) as [c Hc].
  unfold rhs_hal_can_tx_cmplt_cb in E. cbv [mbind M_bind] in E. rewrite (assert_enabled_eq b w id c) in E by done.
  case_bool_decide as He; [|done].
  destruct cb as [cb|]; [|done]. destruct (x =? 0); [done|]. cbn -[update_can interface] in E.
  rewrite (update_can_eq w id c) in E by (done || apply Hi). rewrite (interface_valid b id Hi) in E.
  eapply (registration_spec w w' id Transmission RHSHalInterruptPriorityNormal c (set_tx_callback (Some cb) x c)
    [CAN_IT_TX_MAILBOX_EMPTY]); [done..| | |exact E].
  - unfold live. simpl. intros [] Hl; rewrite He in *; done.
  - unfold live. simpl. by rewrite He.
Qed.

Lemma preserves_rx_start id cb x : can_valid b id ->
  preserves can_inv (rhs_hal_can_async_rx_start b max_syscall_priority id cb x : M world unit).
Proof.
  intros Hi w [] w' Hw E. destruct (can_lookup b w id Hw Hi) as [c Hc].
  unfold rhs_hal_can_async_rx_start in E. cbv [mbind M_bind] in E. rewrite (assert_enabled_eq b w id c) in E by done.
  case_bool_decide as He; [|done].
  destruct cb as [cb|]; [|done]. destruct (x =? 0); [done|]. cbn -[update_can interface] in E.
  rewrite (update_can_eq w id c) in E by (done || apply Hi). rewrite (interface_valid b id Hi) in E.
  eapply (registration_spec w w' id Reception RHSHalInterruptPriorityNormal c (set_rx_callback (Some cb) x c)
    [CAN_IT_RX_FIFO0_MSG_PENDING]); [done..| | |exact E].
  - unfold live. simpl. intros [] Hl; rewrite He in *; done.
  - unfold live. simpl. by rewrite He.
Qed.

Lemma can_api_inv w w' : can_api w w' -> can_inv w -> can_inv w'.
Proof.
  destruct 1 as [id baud w w' Hi E|id w w' Hi E|id cb x w w' Hi E|id cb x w w' Hi E|id cb x w w' Hi E
    |id fr r w w' Hi E|id fr r w w' Hi E|w h|index p f c w w' Hne E]; intros Hw.
  - destruct (can_lookup b w id Hw Hi) as [c Hc]. pose proof (init_spec b w id baud c Hw Hi Hc) as S.
    destruct (rcan_start _ _ _ _) as [st h]. destruct (_ && _); [|congruence].
    destruct S as [S1 S2]. rewrite S1 in E. by injection E as <-.
  - destruct (can_lookup b w id Hw Hi) as [c Hc]. destruct (enabled c) eqn:He.
    + destruct (deinit_spec b max_syscall_priority Hboard w id c Hw Hi Hc He) as (n1 & n2 & n3 & h & S1 & S2 & _).
      rewrite S1 in E. by injection E as <-.
    + unfold rhs_hal_can_deinit in E. cbv [mbind M_bind] in E. rewrite (assert_enabled_eq b w id c) in E by done.
      rewrite bool_decide_false in E by congruence. done.
  - by eapply preserves_sce.
  - by eapply preserves_tx_cmplt.
  - by eapply preserves_rx_start.
  - by eapply preserves_tx.
  - by eapply preserves_rx.
  - by apply can_inv_hw.
  - unfold on_interrupts in E. cbn [interrupts can_has_interrupts] in E.
    pose proof (set_isr_ex_spec b max_syscall_priority (can_interrupts w) index p f c (inv_sized b w Hw)) as S.
    destruct (rhs_hal_interrupt_set_isr_ex b max_syscall_priority index p f c (can_interrupts w))
      as [[[] i]|?| |] eqn:Ei; try done.
    injection E as <-. destruct ((0 <=? index) && (index <? RHSHalInterruptIdMax b)) eqn:Hr; cbn [andb] in S; [|done].
    apply andb_true_iff in Hr as [Hr%Z.leb_le _]. destruct (valid_priority p); [|done].
    destruct S as (q & d & _ & _ & S). destruct (is_null f || is_null (isr d)); [|done]. injection S as ->.
    split; cbn [rhs_hal_can can_interrupts set_interrupts can_has_interrupts]; [apply Hw| |].
    + pose proof (inv_sized b w Hw) as Hs. unfold well_sized in *. simpl. by rewrite length_insert.
    + intros id c' k Hi Hc'. pose proof (inv_slots b w Hw id c' k Hi Hc') as Hs.
      pose proof (id_value_range b id k Hboard Hi). unfold slot, handler in *. cbn [can_interrupts isrs].
      rewrite list_lookup_insert_ne; [done|]. specialize (Hne id k Hi). lia.
Qed.

Lemma can_apis_inv w w' : rtc can_api w w' -> can_inv w -> can_inv w'.
Proof. induction 1 as [|w w1 w' S _ IH]; [done|]. intros Hw. by apply IH, (can_api_inv w). Qed.

(** *** The interrupt handlers *)

Context (run_rx : CB -> Z -> Z -> M world unit) (run_tx : CB -> Z -> M world unit)
        (run_sce : CB -> Z -> Z -> Z -> M world unit) (run_other : Z -> can_context -> M world unit).
(** Callbacks and other drivers use the driver through its functions. *)
Context (rx_uses_api : forall f num x w w', run_rx f num x w = Ret (tt, w') -> rtc can_api w w')
        (tx_uses_api : forall f x w w', run_tx f x w = Ret (tt, w') -> rtc can_api w w')
        (sce_uses_api : forall f num e x w w', run_sce f num e x w = Ret (tt, w') -> rtc can_api w w')
        (other_uses_api : forall p c w w', run_other p c w = Ret (tt, w') -> rtc can_api w w').

Lemma preserves_api (m : M world unit) :
  (forall w w', m w = Ret (tt, w') -> rtc can_api w w') -> preserves can_inv m.
Proof. intros Hm w [] w' Hw E. by apply (can_apis_inv w), Hw; apply Hm. Qed.
Lemma preserves_context c : preserves can_inv (can_of_context c : M world Z).
Proof. destruct c; cbn [can_of_context]; preserve. Qed.
Lemma preserves_request can m : preserves can_inv (clear_request can m : M world unit).
Proof. unfold clear_request. preserve. Qed.

#[local] Hint Resolve preserves_context preserves_request : preserves.

Lemma preserves_isr f c : preserves can_inv (run_can_isr b run_rx run_tx run_sce run_other f c).
Proof.
  destruct f as [| | |p]; cbn [run_can_isr].
  - unfold can_sce_callback. preserve. by apply preserves_api, sce_uses_api.
  - unfold can_rx_callback. preserve. by apply preserves_api, rx_uses_api.
  - unfold can_tx_callback. preserve. by apply preserves_api, tx_uses_api.
  - by apply preserves_api, other_uses_api.
Qed.

Definition blank : RHSHalCAN CB :=
  mkRHSHalCAN false 0 0 0 None 0 None 0 None 0 (mkStatistic 0 0 0 0 0 0).

(** The system starts with every interface disabled and no handler registered; then tasks
    call the driver, interrupts are taken, and the hardware changes. *)
Inductive can_reachable : world -> Prop :=
  | can_start t n h l : can_reachable (mkCan
      (mkInterrupt (repeat (mkPair None null_context) (length (interrupt_ids b))) t n)
      (repeat blank (Z.to_nat (RHSHalCANIdMax b))) h l)
  | can_call w w' : can_reachable w -> can_api w w' -> can_reachable w'
  | can_interrupt_taken w w' index f c : can_reachable w ->
      handler (can_interrupts w) index = Some (mkPair (Some f) c) ->
      run_can_isr b run_rx run_tx run_sce run_other f c w = Ret (tt, w') -> can_reachable w'.

Lemma can_reachable_inv w : can_reachable w -> can_inv w.
Proof.
  induction 1 as [t n h l|w w' _ Hw S|w w' index f c _ Hw _ E].
  - split; cbn [rhs_hal_can can_interrupts].
    + rewrite repeat_length. destruct b; done.
    + unfold well_sized, RHSHalInterruptIdMax. simpl. by rewrite repeat_length.
    + intros id c k Hi Hc. pose proof (id_value_range b id k Hboard Hi). unfold slot, handler. cbn [can_interrupts isrs].
      destruct (lookup_lt_is_Some_2 (repeat (mkPair (None : option can_isr) null_context) (length (interrupt_ids b)))
        (Z.to_nat (id_value b (can_interrupt id k)))) as [d Hd].
      { rewrite repeat_length. unfold RHSHalInterruptIdMax in *. lia. }
      exists d. split; [done|]. left.
      apply list_elem_of_lookup_2, list_elem_of_In, repeat_spec in Hd. by subst.
  - by eapply can_api_inv.
  - by eapply preserves_isr.
Qed.

(** Registering in a free slot returns. *)
Lemma register_can_free (w : world) id k p c c' ns :
  can_inv w -> can_valid b id -> rhs_hal_can w !! Z.to_nat id = Some c -> valid_priority p = true ->
  (forall k, live c k = true -> live c' k = true) -> live c' k = true ->
  (exists d, slot b w id k = Some d /\ isr d = None) ->
  exists w', (set_isr_ex b max_syscall_priority (can_interrupt id k) p (Some (isr_of k)) (can_of id);;
     activate id ns) (put_can w id c' (can_hw w)) = Ret (tt, w') /\ can_inv w' /\
    rhs_hal_can w' !! Z.to_nat id = Some c' /\ slot b w' id k = Some (mkPair (Some (isr_of k)) (can_of id)) /\
    forall k', k' <> k -> slot b w' id k' = slot b w id k'.
Proof.
  intros Hw Hi Hc Hp Hm Hl (d & Hd & Hn).
  destruct (register_spec b max_syscall_priority Hboard w id k p c c' Hw Hi Hc Hp Hm Hl) as [Hw1 Hr].
  rewrite Hd, Hn in Hr. destruct Hr as (n & E & Hw2). cbn zeta in E. cbv [mbind M_bind]. rewrite E.
  destruct (activate_eq id ns (put_slot b (put_can w id c' (can_hw w)) id k (mkPair (Some (isr_of k)) (can_of id)) n))
    as [h Eh].
  eexists. split; [exact Eh|]. split; [exact (can_inv_hw b _ h _ Hw2)|].
  split; [apply list_lookup_insert_eq; by eapply lookup_lt_Some|].
  split; [exact (slot_put_eq b (put_can w id c' (can_hw w)) id k _ n Hw1 Hi)|].
  intros k' Hk. exact (slot_put_ne b Hboard (put_can w id c' (can_hw w)) id k _ n id k' Hi Hi ltac:(congruence)).
Qed.

(** A disabled interface's entry, started up as the CANopen service does. *)
Lemma start_up_runs (w : world) id baud c rx x sce y :
  can_inv w -> can_valid b id -> rhs_hal_can w !! Z.to_nat id = Some c -> enabled c = false ->
  fst (rcan_start id (if id =? 0 then CAN1 else CAN2) baud (can_hw w)) = true -> x <> 0 ->
  runs (rhs_hal_can_init b id baud;;
        rhs_hal_can_async_rx_start b max_syscall_priority id (Some rx) x;;
        rhs_hal_can_async_sce b max_syscall_priority id (Some sce) y) w
    (fun _ w' => can_inv w' /\ exists c', rhs_hal_can w' !! Z.to_nat id = Some c' /\ enabled c' = true /\
       rx_callback c' = Some rx /\ rx_context c' = x /\ sce_callback c' = Some sce /\ sce_context c' = y /\
       slot b w' id Reception = Some (mkPair (Some can_rx_callback_isr) (can_of id)) /\
       slot b w' id Errors = Some (mkPair (Some can_sce_callback_isr) (can_of id))).
Proof.
  intros Hw Hi Hc He Hst Hx. pose proof (proj1 Hi) as Hi0.
  assert (Hfree : forall k, exists d, slot b w id k = Some d /\ isr d = None).
  { intros k. destruct (inv_slots b w Hw id c k Hi Hc) as (d & Hd & [Hn|[_ Hl]]); [eauto|].
    unfold live in Hl. by rewrite He in Hl. }
  pose proof (init_spec b w id baud c Hw Hi Hc) as S1. destruct (rcan_start _ _ _ _) as [st h] eqn:Es.
  cbn [fst] in Hst. subst st. rewrite He in S1. cbn [negb andb] in S1. destruct S1 as [E1 Hw1].
  set (w1 := put_can w id (set_enabled true c) h) in *.
  assert (Hc1 : rhs_hal_can w1 !! Z.to_nat id = Some (set_enabled true c)).
  { apply list_lookup_insert_eq. by eapply lookup_lt_Some. }
  destruct (register_can_free w1 id Reception RHSHalInterruptPriorityNormal _ (set_rx_callback (Some rx) x (set_enabled true c))
    [CAN_IT_RX_FIFO0_MSG_PENDING] Hw1 Hi Hc1 eq_refl) as (w2 & E2 & Hw2 & Hc2 & Hs2 & Hf2).
  { unfold live. simpl. by intros []. }
  { done. }
  { apply Hfree. }
  destruct (register_can_free w2 id Errors RHSHalInterruptPriorityLow _
    (set_sce_callback (Some sce) y (set_rx_callback (Some rx) x (set_enabled true c)))
    [CAN_IT_ERROR; CAN_IT_LAST_ERROR_CODE; CAN_IT_BUSOFF] Hw2 Hi Hc2 eq_refl) as (w3 & E3 & Hw3 & Hc3 & Hs3 & Hf3).
  { done. }
  { done. }
  { rewrite Hf2 by done. apply Hfree. }
  exists tt, w3. split.
  - cbv [mbind M_bind]. rewrite E1. unfold rhs_hal_can_async_rx_start. cbv [mbind M_bind].
    rewrite (assert_enabled_eq b w1 id (set_enabled true c)), bool_decide_true by done.
    destruct (Z.eqb_spec x 0); [done|]. cbv [rhs_assert is_null negb mret M_ret].
    rewrite (update_can_eq w1 id (set_enabled true c)) by done. rewrite (interface_valid b id Hi).
    unfold set_isr. change (on_interrupts _) with (set_isr_ex (CB := CB) (H := H) b max_syscall_priority
      (can_interrupt id Reception) RHSHalInterruptPriorityNormal (Some can_rx_callback_isr) (can_of id)).
    match goal with |- match ?m with _ => _ end = _ =>
      replace m with (Ret (tt, w2) : outcome (unit * world)) by (symmetry; exact E2) end.
    unfold rhs_hal_can_async_sce. cbv [mbind M_bind].
    rewrite (assert_enabled_eq b w2 id (set_rx_callback (Some rx) x (set_enabled true c))), bool_decide_true by done.
    rewrite (update_can_eq w2 id (set_rx_callback (Some rx) x (set_enabled true c))) by done.
    rewrite (interface_valid b id Hi). exact E3.
  - split; [done|]. eexists. split; [exact Hc3|]. repeat split; try done. by rewrite Hf3.
Qed.

(** C22: in every state the driver reaches from the start of the system, whatever tasks,
    callbacks and interrupts do, each interrupt of an interface has no handler, or the
    driver's own for that interface, which is then enabled with the callback set. So an
    enabled interface can be stopped, which leaves it disabled with its three interrupts
    free and the others alone, and a disabled one can be started up again: no assertion
    of the interrupt table fails. *)
Theorem can_driver_lifecycle w id :
  can_reachable w -> can_valid b id ->
  exists c, rhs_hal_can w !! Z.to_nat id = Some c /\ (forall k, slot_fine c id k (slot b w id k)) /\
  if enabled c then
    runs (rhs_hal_can_deinit b max_syscall_priority id) w (fun _ w' =>
      (exists c', rhs_hal_can w' !! Z.to_nat id = Some c' /\ enabled c' = false) /\
      (forall k, exists d, slot b w' id k = Some d /\ isr d = None) /\
      forall id' k, can_valid b id' -> id' <> id -> slot b w' id' k = slot b w id' k)
  else forall baud rx x sce y,
    fst (rcan_start id (if id =? 0 then CAN1 else CAN2) baud (can_hw w)) = true -> x <> 0 ->
    runs (rhs_hal_can_init b id baud;;
          rhs_hal_can_async_rx_start b max_syscall_priority id (Some rx) x;;
          rhs_hal_can_async_sce b max_syscall_priority id (Some sce) y) w
      (fun _ w' => exists c', rhs_hal_can w' !! Z.to_nat id = Some c' /\ enabled c' = true /\
         rx_callback c' = Some rx /\ rx_context c' = x /\ sce_callback c' = Some sce /\ sce_context c' = y /\
         slot b w' id Reception = Some (mkPair (Some can_rx_callback_isr) (can_of id)) /\
         slot b w' id Errors = Some (mkPair (Some can_sce_callback_isr) (can_of id))).
Proof.
  intros Hw%can_reachable_inv Hi. destruct (can_lookup b w id Hw Hi) as [c Hc]. exists c.
  split; [done|]. split; [intros k; by apply (inv_slots b w Hw)|]. destruct (enabled c) eqn:He.
  - destruct (deinit_spec b max_syscall_priority Hboard w id c Hw Hi Hc He) as (n1 & n2 & n3 & h & E & _ & Hf).
    eexists tt, _. split; [exact E|]. split.
    { exists (set_enabled false c). split; [|done]. apply list_lookup_insert_eq. by eapply lookup_lt_Some. }
    split; [exact Hf|]. intros id' k Hi' Hne. unfold cleared, put_can, slot. cbn [can_interrupts].
    fold (slot b (put_slot b (put_slot b (put_slot b w id Errors (mkPair None null_context) n1) id Transmission
      (mkPair None null_context) n2) id Reception (mkPair None null_context) n3) id' k).
    by rewrite !slot_put_ne by (done || congruence).
  - intros baud rx x sce y Hst Hx. eapply runs_mono; [by eapply start_up_runs|]. naive_solver.
Qed.
End reachable.

(** ** Frames *)

Section frames.
Context {CB N H : Type} `{Nvic N} `{CanHw H}.
Context (b : board).
Abbreviation world := (can_world CB N H).

(** The interface is enabled, with the peripheral [rcan_start] gave it. *)
Definition running (w : world) (id : Z) (c : RHSHalCAN CB) : Prop :=
  can_valid b id /\ rhs_hal_can w !! Z.to_nat id = Some c /\ enabled c = true /\
  rcan_Instance id (can_hw w) = (if id =? 0 then CAN1 else CAN2).

Definition peripheral (id : Z) : CAN_TypeDef := if id =? 0 then CAN1 else CAN2.

Lemma num_interface_eq (w : world) id : can_valid b id -> get_can_num_interface b (peripheral id) w = Ret (id, w).
Proof. intros [->|[-> E]]%can_valid_cases; [done|]. unfold get_can_num_interface, peripheral. simpl. by rewrite E. Qed.

Lemma log_lines_eq n ls (w : world) :
  log_lines n ls w = Ret (tt, mkCan (can_interrupts w) (rhs_hal_can w) (can_hw w) (can_log w ++ map (pair n) ls)).
Proof.
  revert w. induction ls as [|l ls IH]; intros w; cbn [log_lines map]; [rewrite app_nil_r; by destruct w|].
  cbv [mbind M_bind log_line modify]. rewrite IH. cbn [can_interrupts rhs_hal_can can_hw can_log].
  by rewrite <- app_assoc.
Qed.

Lemma print_ecr_eq (w : world) id : can_valid b id ->
  print_ecr b (peripheral id) w = Ret (tt, mkCan (can_interrupts w) (rhs_hal_can w) (can_hw w)
    (can_log w ++ map (pair id) (ecr_lines (CAN_ESR (peripheral id) (can_hw w))))).
Proof.
  intros Hi. unfold print_ecr, hw_read. cbv [mbind M_bind get mret M_ret].
  by rewrite num_interface_eq, log_lines_eq.
Qed.

(** What the error counter [counter], last [old], makes of an entry and the log. *)
Definition track (old counter : Z) (set : Z -> RHSHalCAN CB -> RHSHalCAN CB) (c : RHSHalCAN CB) : RHSHalCAN CB :=
  if old =? counter then c else set counter c.
Definition tracked_log (w : world) (id old counter : Z) : list (Z * can_line) :=
  can_log w ++ if old =? counter then [] else map (pair id) (ecr_lines (CAN_ESR (peripheral id) (can_hw w))).

Lemma tracked_eq (w : world) id c old counter set :
  running w id c ->
  when (negb (old =? counter)) (print_ecr b (peripheral id);; update_can id (set counter)) w =
    Ret (tt, mkCan (can_interrupts w) (<[Z.to_nat id := track old counter set c]> (rhs_hal_can w)) (can_hw w)
      (tracked_log w id old counter)).
Proof.
  intros (Hi & Hc & _). unfold when, track, tracked_log. destruct (old =? counter); cbn [negb].
  - rewrite app_nil_r, list_insert_id by done. by destruct w.
  - cbv [mbind M_bind]. rewrite print_ecr_eq by done.
    by rewrite (update_can_eq _ id c) by (done || apply Hi).
Qed.

(** The frame with its payload cut to its length. *)
Definition wire_frame (fr : RHSHalCANFrameType) : RHSHalCANFrameType :=
  mkFrame (fr_id fr) (fr_len fr) (fr_type fr) (fr_rtr fr)
    (take (Z.to_nat (fr_len fr)) (fr_payload fr) ++ repeat 0 (8 - Z.to_nat (fr_len fr))).

Lemma copy_eq dst src len (w : world) : 0 <= len ->
  copy_payload dst src len w =
    if (Z.of_nat (length src) <? len) || (Z.of_nat (length dst) <? len) then Fault
    else Ret (take (Z.to_nat len) src ++ drop (Z.to_nat len) dst, w).
Proof. intros Hl. unfold copy_payload. by destruct (_ || _). Qed.

Lemma tx_spec (w : world) id c fr :
  running w id c -> length (fr_payload fr) = 8%nat -> 0 <= fr_len fr ->
  rhs_hal_can_tx b id fr w =
    if 8 <? fr_len fr then Fault
    else
      let counter := Z.land (Z.shiftr (CAN_ESR (peripheral id) (can_hw w)) 16) 255 in
      let c' := track (tec c) counter set_tec c in
      let '(sent, h) := rcan_send id (wire_frame fr) (can_hw w) in
      Ret (sent, mkCan (can_interrupts w) (<[Z.to_nat id := if sent then c' else count inc_tx_ovfs c']> (rhs_hal_can w)) h
        (tracked_log w id (tec c) counter)).
Proof.
  intros Hr Hl Hn. pose proof Hr as (Hi & Hc & He & Hin). unfold rhs_hal_can_tx.
  rewrite (bind_eq _ _ w tt w) by (by rewrite (assert_enabled_eq b w id c), bool_decide_true).
  rewrite (bind_eq _ _ w (peripheral id) w) by (unfold peripheral; by rewrite <- Hin).
  rewrite (bind_eq _ _ w (CAN_ESR (peripheral id) (can_hw w)) w) by done.
  rewrite (bind_eq _ _ w c w) by (apply can_at_eq; [apply Hi|done]).
  rewrite (bind_eq _ _ _ _ _ (tracked_eq w id c (tec c) _ set_tec Hr)). cbv [mbind M_bind]. rewrite copy_eq, Hl by done.
  change (Z.of_nat (length (fr_payload rcan_frame_zero))) with 8. change (Z.of_nat 8) with 8.
  rewrite orb_diag. destruct (Z.ltb_spec 8 (fr_len fr)); [done|].
  unfold hw. cbn [can_hw can_interrupts rhs_hal_can can_log].
  replace (mkFrame _ _ _ _ _) with (wire_frame fr).
  - destruct (rcan_send id (wire_frame fr) (can_hw w)) as [[] h]; [done|].
    erewrite (update_can_eq _ id (track (tec c) (Z.land (Z.shiftr (CAN_ESR (peripheral id) (can_hw w)) 16) 255) set_tec c)); [|apply Hi|
      cbn [rhs_hal_can]; apply list_lookup_insert_eq; by eapply lookup_lt_Some].
    cbn [rhs_hal_can can_interrupts can_hw can_log]. by rewrite list_insert_insert_eq.
  - unfold wire_frame. f_equal. f_equal. cbn [fr_payload rcan_frame_zero].
    assert (Z.to_nat (fr_len fr) <= 8)%nat by lia.
    generalize dependent (Z.to_nat (fr_len fr)). clear. intros n Hn. by do 9 (destruct n as [|n]; [done|]); lia.
Qed.

Lemma rx_spec (w : world) id c fr :
  running w id c -> length (fr_payload fr) = 8%nat ->
  let counter := Z.land (Z.shiftr (CAN_ESR (peripheral id) (can_hw w)) 24) 255 in
  let c' := track (rec c) counter set_rec c in
  let '(received, h) := rcan_receive id (can_hw w) in
  (forall r, received = Some r -> 0 <= fr_len r /\ length (fr_payload r) = 8%nat) ->
  rhs_hal_can_rx b id fr w =
    match received with
    | None => Ret ((false, fr), mkCan (can_interrupts w) (<[Z.to_nat id := c']> (rhs_hal_can w)) h
        (tracked_log w id (rec c) counter))
    | Some r =>
        if 8 <? fr_len r then Fault
        else Ret ((true, mkFrame (fr_id r) (fr_len r) (fr_type r) (fr_rtr r)
            (take (Z.to_nat (fr_len r)) (fr_payload r) ++ drop (Z.to_nat (fr_len r)) (fr_payload fr))),
          mkCan (can_interrupts w) (<[Z.to_nat id := count inc_rx_msgs c']> (rhs_hal_can w)) h
            (tracked_log w id (rec c) counter))
    end.
Proof.
  intros Hr Hl. cbn zeta. pose proof Hr as (Hi & Hc & He & Hin).
  destruct (rcan_receive id (can_hw w)) as [received h] eqn:Er. intros Hrec.
  unfold rhs_hal_can_rx.
  rewrite (bind_eq _ _ w tt w) by (by rewrite (assert_enabled_eq b w id c), bool_decide_true).
  rewrite (bind_eq _ _ w (peripheral id) w) by (unfold peripheral; by rewrite <- Hin).
  rewrite (bind_eq _ _ w (CAN_ESR (peripheral id) (can_hw w)) w) by done.
  rewrite (bind_eq _ _ w c w) by (apply can_at_eq; [apply Hi|done]).
  rewrite (bind_eq _ _ _ _ _ (tracked_eq w id c (rec c) _ set_rec Hr)). cbv [mbind M_bind]. unfold hw. cbn [can_hw]. rewrite Er.
  destruct received as [r|]; [|done]. destruct (Hrec r eq_refl) as [Hn Hp].
  rewrite copy_eq, Hl, Hp, orb_diag by done. change (Z.of_nat 8) with 8.
  destruct (8 <? fr_len r); [done|]. cbn [can_interrupts rhs_hal_can can_hw can_log].
  erewrite (update_can_eq _ id (track (rec c) (Z.land (Z.shiftr (CAN_ESR (peripheral id) (can_hw w)) 24) 255) set_rec c)); [|apply Hi|
      cbn [rhs_hal_can]; apply list_lookup_insert_eq; by eapply lookup_lt_Some].
  cbn [rhs_hal_can can_interrupts can_hw can_log]. by rewrite list_insert_insert_eq.
Qed.

(** A frame of at most 8 bytes sent on a running interface goes to rcan as it is, its
    payload cut to its length, and what rcan refuses is counted as an overflow; the interface, of this
    node or another, that rcan then delivers it to returns it, counts it, and leaves the
    bytes past its length as the caller had them. A frame that claims more than 8 bytes
    runs over the payload on either side. *)
Theorem can_frame_roundtrip w id c fr (w' : world) id' c' fr' :
  running w id c -> running w' id' c' ->
  length (fr_payload fr) = 8%nat -> length (fr_payload fr') = 8%nat -> 0 <= fr_len fr ->
  if 8 <? fr_len fr then
    rhs_hal_can_tx b id fr w = Fault /\
    (forall h, rcan_receive id' (can_hw w') = (Some fr, h) -> rhs_hal_can_rx b id' fr' w' = Fault)
  else
    runs (rhs_hal_can_tx b id fr) w (fun sent w1 =>
      (sent, can_hw w1) = rcan_send id (wire_frame fr) (can_hw w) /\
      exists c1, rhs_hal_can w1 !! Z.to_nat id = Some c1 /\
        statistic c1 = if sent then statistic c else inc_tx_ovfs (statistic c)) /\
    forall h, rcan_receive id' (can_hw w') = (Some (wire_frame fr), h) ->
      runs (rhs_hal_can_rx b id' fr') w' (fun r w2 =>
        r = (true, mkFrame (fr_id fr) (fr_len fr) (fr_type fr) (fr_rtr fr)
               (take (Z.to_nat (fr_len fr)) (fr_payload fr) ++ drop (Z.to_nat (fr_len fr)) (fr_payload fr'))) /\
        can_hw w2 = h /\
        exists c2, rhs_hal_can w2 !! Z.to_nat id' = Some c2 /\ statistic c2 = inc_rx_msgs (statistic c')).
Proof.
  intros Hr Hr' Hl Hl' Hn. pose proof (tx_spec w id c fr Hr Hl Hn) as Et. pose proof (rx_spec w' id' c' fr' Hr' Hl') as Er.
  cbn zeta in Et, Er. destruct (Z.ltb_spec 8 (fr_len fr)) as [Hlen|Hlen].
  { split; [done|]. intros h Eh. rewrite Eh in Er. rewrite Er by (intros ? [= <-]; done).
    by destruct (Z.ltb_spec 8 (fr_len fr)); [|lia]. }
  assert (Hwire : length (fr_payload (wire_frame fr)) = 8%nat).
  { unfold wire_frame. cbn [fr_payload]. rewrite length_app, length_take, repeat_length. lia. }
  split.
  - unfold runs. rewrite Et. destruct (rcan_send id (wire_frame fr) (can_hw w)) as [sent h].
    eexists _, _. split; [reflexivity|]. split; [done|]. eexists. split.
    { apply list_lookup_insert_eq. eapply lookup_lt_Some, Hr. }
    unfold track. by destruct sent, (tec c =? _).
  - intros h Eh. rewrite Eh in Er. unfold runs. rewrite Er by (by intros ? [= <-]).
    change (fr_len (wire_frame fr)) with (fr_len fr). destruct (Z.ltb_spec 8 (fr_len fr)); [lia|].
    eexists _, _. split; [reflexivity|]. split.
    + do 2 f_equal. unfold wire_frame. cbn [fr_payload fr_len]. f_equal.
      rewrite take_app_le by (rewrite length_take; lia). by rewrite take_take, Nat.min_id.
    + split; [done|]. eexists. split.
      { apply list_lookup_insert_eq. eapply lookup_lt_Some, Hr'. }
      unfold track. by destruct (rec c' =? _).
Qed.
End frames.

(** ** Error interrupts *)

(** What the reference manual says of the registers: MSR's flags are cleared by writing
    them, which changes no other register. *)
Class CanHwLaws (H : Type) `{CanHw H} := {
  write_MSR_ESR c v h : CAN_ESR c (write_MSR c v h) = CAN_ESR c h;
  write_MSR_TSR c v h : CAN_TSR c (write_MSR c v h) = CAN_TSR c h
}.

Section errors.
Context {CB N H : Type} `{Nvic N} `{CanHwLaws H}.
Context (b : board).
Abbreviation world := (can_world CB N H).
Context (run_sce : CB -> Z -> Z -> Z -> M world unit).

(** The event of an interrupt with these registers. *)
Definition sce_event (msr esr tsr : Z) : Z :=
  Z.lor (if bits_set msr CAN_MSR_ERRI then RHSHalCANSCEEventError else 0)
    (Z.lor (if bits_set esr CAN_ESR_BOFF then RHSHalCANSCEEventBusOff else 0)
      (if bits_set tsr CAN_TSR_TERR && (128 <=? Z.land (Z.shiftr esr 16) 255) then RHSHalCANSCEEventTXPassive else 0)).

Lemma bits_set_lor x m m' : bits_set x (Z.lor m m') = bits_set x m || bits_set x m'.
Proof.
  unfold bits_set. rewrite Z.land_lor_distr_r. rewrite <- negb_andb. f_equal.
  apply eq_true_iff_eq. by rewrite andb_true_iff, !Z.eqb_eq, Z.lor_eq_0_iff.
Qed.

(** The prefix of the handler that reads and clears MSR. *)
Lemma read_MSR_eq (w : world) id can : exists h l,
  CAN_ESR can h = CAN_ESR can (can_hw w) /\ CAN_TSR can h = CAN_TSR can (can_hw w) /\
  forall A (k : Z -> M world A),
  (msr ← hw_read (CAN_MSR can);
   event ← (if bits_set msr CAN_MSR_ERRI then
              log_line id ERRI;; hw_ (write_MSR can CAN_MSR_ERRI);; mret (Z.lor 0 RHSHalCANSCEEventError)
            else mret 0);
   msr ← hw_read (CAN_MSR can);
   when (bits_set msr CAN_MSR_WKUI) (log_line id WKUI;; hw_ (write_MSR can CAN_MSR_WKUI));;
   k event) w =
  k (if bits_set (CAN_MSR can (can_hw w)) CAN_MSR_ERRI then RHSHalCANSCEEventError else 0)
    (mkCan (can_interrupts w) (rhs_hal_can w) h l).
Proof.
  assert (exists h l, (if bits_set (CAN_MSR can (can_hw w)) CAN_MSR_ERRI then
      log_line id ERRI;; hw_ (write_MSR can CAN_MSR_ERRI);; mret (Z.lor 0 RHSHalCANSCEEventError)
    else mret 0) w =
    Ret (if bits_set (CAN_MSR can (can_hw w)) CAN_MSR_ERRI then RHSHalCANSCEEventError else 0,
      mkCan (can_interrupts w) (rhs_hal_can w) h l) /\
    CAN_ESR can h = CAN_ESR can (can_hw w) /\ CAN_TSR can h = CAN_TSR can (can_hw w)) as (h & l & E & He & Ht).
  { destruct (bits_set _ _); [|exists (can_hw w), (can_log w); by destruct w].
    eexists _, _. split; [reflexivity|]. cbn. by rewrite write_MSR_ESR, write_MSR_TSR. }
  exists (if bits_set (CAN_MSR can h) CAN_MSR_WKUI then write_MSR can CAN_MSR_WKUI h else h),
    (if bits_set (CAN_MSR can h) CAN_MSR_WKUI then l ++ [(id, WKUI)] else l).
  rewrite <- He, <- Ht. split; [destruct (bits_set (CAN_MSR can h) _); by rewrite ?write_MSR_ESR|].
  split; [destruct (bits_set (CAN_MSR can h) _); by rewrite ?write_MSR_TSR|]. intros A k.
  rewrite (bind_eq _ _ w (CAN_MSR can (can_hw w)) w) by done. rewrite (bind_eq _ _ _ _ _ E).
  rewrite (bind_eq _ _ _ (CAN_MSR can h) (mkCan (can_interrupts w) (rhs_hal_can w) h l)) by done.
  unfold when. by destruct (bits_set (CAN_MSR can h) CAN_MSR_WKUI).
Qed.

(** An error interrupt of a running interface reports to the user's callback exactly
    what the registers say: an error, bus-off, and, when a transmission failed, that the
    transmitter is passive (its counter has reached 128); never that the receiver is. It
    counts one error, of transmission if a mailbox lost arbitration or failed and of
    reception otherwise, and keeps the low two bits of the error code. *)
Theorem can_sce_callback_reports w id c :
  running b w id c ->
  let esr := CAN_ESR (peripheral id) (can_hw w) in
  let tsr := CAN_TSR (peripheral id) (can_hw w) in
  let event := sce_event (CAN_MSR (peripheral id) (can_hw w)) esr tsr in
  Z.testbit event 1 = false /\
  exists w', CAN_ESR (peripheral id) (can_hw w') = esr /\
    rhs_hal_can w' = <[Z.to_nat id := set_lec (Z.land (Z.shiftr esr 4) 3)
      (count (if bits_set tsr CAN_TSR_ALST || bits_set tsr CAN_TSR_TERR then inc_tx_errs else inc_rx_errs) c)]>
      (rhs_hal_can w) /\
    can_sce_callback b run_sce (can_of id) w =
      match sce_callback c with
      | Some f => run_sce f id event (sce_context c) w'
      | None => Ret (tt, w')
      end.
Proof.
  intros (Hi & Hc & He & Hin) esr tsr event. split.
  { unfold event, sce_event. by destruct (bits_set _ _), (bits_set _ _), (_ && _). }
  unfold can_sce_callback. rewrite (bind_eq _ _ w id w) by done.
  rewrite (bind_eq _ _ w (peripheral id) w) by (unfold peripheral; by rewrite <- Hin).
  rewrite (bind_eq _ _ w id w) by (by apply num_interface_eq). cbn zeta.
  destruct (read_MSR_eq w id (peripheral id)) as (h & l & Eesr & Etsr & E).
  rewrite E. clear E. fold esr in Eesr. fold tsr in Etsr. pose proof (proj1 Hi) as Hi0.
  set (e1 := if bits_set (CAN_MSR (peripheral id) (can_hw w)) CAN_MSR_ERRI then RHSHalCANSCEEventError else 0).
  set (st := fun cs l => mkCan (can_interrupts w) cs h l : world).
  fold (st (rhs_hal_can w) l). assert (Hesr : forall cs l, CAN_ESR (peripheral id) (can_hw (st cs l)) = esr) by done.
  rewrite (bind_eq _ _ (st _ l) esr (st (rhs_hal_can w) l)) by (by rewrite <- Eesr).
  set (e2 := if bits_set esr CAN_ESR_BOFF then Z.lor e1 RHSHalCANSCEEventBusOff else e1).
  assert (exists l2, (if bits_set esr CAN_ESR_BOFF then log_line id BOFF;; mret (Z.lor e1 RHSHalCANSCEEventBusOff)
    else mret e1) (st (rhs_hal_can w) l) = Ret (e2, st (rhs_hal_can w) l2)) as [l2 E2].
  { unfold e2. destruct (bits_set esr CAN_ESR_BOFF); by eexists. }
  rewrite (bind_eq _ _ _ _ _ E2). clear E2 l.
  rewrite (bind_eq _ _ (st _ l2) tsr (st (rhs_hal_can w) l2)) by (by rewrite <- Etsr).
  rewrite bits_set_lor.
  set (c1 := count (if bits_set tsr CAN_TSR_ALST || bits_set tsr CAN_TSR_TERR then inc_tx_errs else inc_rx_errs) c).
  set (cs := <[Z.to_nat id := c1]> (rhs_hal_can w)).
  set (passive := bits_set tsr CAN_TSR_TERR && (128 <=? Z.land (Z.shiftr esr 16) 255)).
  set (e3 := if passive then Z.lor e2 RHSHalCANSCEEventTXPassive else e2).
  match goal with |- context [(if _ || _ then ?x else ?y) ≫= _] => set (m1 := x); set (m2 := y) end.
  assert (exists l3, (if bits_set tsr CAN_TSR_ALST || bits_set tsr CAN_TSR_TERR then m1 else m2)
    (st (rhs_hal_can w) l2) = Ret (e3, st cs l3)) as [l3 E3].
  { unfold m1, m2, e3, passive, cs, c1, when. destruct (bits_set tsr CAN_TSR_ALST), (bits_set tsr CAN_TSR_TERR);
      cbn [orb andb]; rewrite (bind_eq _ _ _ _ _ (update_can_eq (st (rhs_hal_can w) l2) id c _ Hi0 Hc));
      eexists; [|reflexivity| |reflexivity];
      cbv [mbind M_bind log_line modify hw_read get mret M_ret]; cbn [can_hw can_interrupts rhs_hal_can can_log];
      change (CAN_ESR (peripheral id) h) with (CAN_ESR (peripheral id) (can_hw (st [] [])));
      rewrite Hesr; by destruct (128 <=? _). }
  rewrite (bind_eq _ _ _ _ _ E3). clear E3 m1 m2 l2.
  rewrite (bind_eq _ _ (st cs l3) esr (st cs l3)) by (by rewrite <- Eesr).
  assert (Hc1 : cs !! Z.to_nat id = Some c1) by (apply list_lookup_insert_eq; by eapply lookup_lt_Some).
  rewrite (bind_eq _ _ _ _ _ (update_can_eq (st cs l3) id c1 _ Hi0 Hc1)).
  set (c2 := set_lec (Z.land (Z.shiftr esr 4) 3) c1).
  assert (exists l4, print_ecr b (peripheral id) (st (<[Z.to_nat id := c2]> cs) l3) =
    Ret (tt, st (<[Z.to_nat id := c2]> cs) l4)) as [l4 E4] by (rewrite print_ecr_eq by done; by eexists).
  rewrite (bind_eq _ _ _ _ _ E4). clear E4. unfold cs. rewrite list_insert_insert_eq.
  exists (st (<[Z.to_nat id := c2]> (rhs_hal_can w)) l4). split; [done|]. split; [done|].
  rewrite (bind_eq _ _ _ c2 (st (<[Z.to_nat id := c2]> (rhs_hal_can w)) l4)).
  2: { apply can_at_eq; [done|]. apply list_lookup_insert_eq. by eapply lookup_lt_Some. }
  replace event with e3; [change (sce_callback c2) with (sce_callback c); by destruct (sce_callback c)|]. unfold e3, passive, e2, e1, event, sce_event.
  by destruct (bits_set (CAN_MSR _ _) _), (bits_set esr _), (_ && _).
Qed.
End errors.


(** ** What is lost of the error code

    The field of the last error code has three bits, of which the driver keeps two. *)

(** The report for a value of the register whose error code is kept whole. *)
Definition last_error (ecr : Z) : Z := Z.land (Z.shiftr ecr 4) 7.

(** An error code of 4 or more is reported as the code less 4, so the driver calls a CRC
    error a form error, and never logs the last four of its messages. *)
Lemma error_code_truncated ecr :
  Z.land (Z.shiftr ecr 4) 3 = last_error ecr mod 4 /\
  ~ (BitRecessiveError ∈ ecr_lines ecr \/ BitDominantError ∈ ecr_lines ecr \/
     CrcError ∈ ecr_lines ecr \/ SetBySoftware ∈ ecr_lines ecr).
Proof.
  assert (E : Z.land (Z.shiftr ecr 4) 3 = (Z.shiftr ecr 4) mod 4).
  { change 3 with (Z.ones 2). by rewrite Z.land_ones by lia. }
  split.
  - unfold last_error. change 7 with (Z.ones 3). rewrite E, Z.land_ones by lia. word.
  - unfold ecr_lines. rewrite E. assert (0 <= Z.shiftr ecr 4 mod 4 < 4) by (apply Z.mod_pos_bound; lia).
    generalize dependent (Z.shiftr ecr 4 mod 4). intros x _ Hx.
    destruct (_ && _); [set_solver|].
    destruct (Z.eqb_spec x 4), (Z.eqb_spec x 5), (Z.eqb_spec x 6), (Z.eqb_spec x 7); try lia.
    destruct (x =? 1), (x =? 2), (x =? 3); set_solver.
Qed.

Example crc_error_called_form_error : ecr_lines (Z.shiftl 6 4) = [FormError; Counters 0 0].
Proof. reflexivity. Qed.

(** ** A bus to instantiate the theorems with *)

(** One bus: interfaces by their peripherals, registers, and the frames on the wire. *)
Record loop_bus := mkBus {
  bus_instance : Z -> CAN_TypeDef; bus_msr : Z; bus_esr : Z; bus_tsr : Z; bus_wire : list RHSHalCANFrameType }.

#[global] Instance loop_bus_hw : CanHw loop_bus := {
  CAN_MSR _ := bus_msr;
  CAN_ESR _ := bus_esr;
  CAN_TSR _ := bus_tsr;
  CAN_RF0R _ _ := 0;
  write_MSR _ v h := mkBus (bus_instance h) (Z.ldiff (bus_msr h) v) (bus_esr h) (bus_tsr h) (bus_wire h);
  write_TSR _ v h := mkBus (bus_instance h) (bus_msr h) (bus_esr h) (Z.ldiff (bus_tsr h) v) (bus_wire h);
  rcan_Instance id h := bus_instance h id;
  rcan_start id can _ h :=
    (true, mkBus (fun i => if i =? id then can else bus_instance h i) (bus_msr h) (bus_esr h) (bus_tsr h) (bus_wire h));
  rcan_stop _ h := h;
  rcan_send _ fr h := (true, mkBus (bus_instance h) (bus_msr h) (bus_esr h) (bus_tsr h) (bus_wire h ++ [fr]));
  rcan_receive _ h := match bus_wire h with
    | [] => (None, h)
    | fr :: l => (Some fr, mkBus (bus_instance h) (bus_msr h) (bus_esr h) (bus_tsr h) l)
    end;
  HAL_CAN_ActivateNotification _ _ h := h;
  HAL_CAN_DeactivateNotification _ _ h := h
}.

#[global] Instance loop_bus_laws : CanHwLaws loop_bus.
Proof. by split. Defined.

Definition bus0 : loop_bus := mkBus (fun _ => CAN_NULL) CAN_MSR_ERRI (Z.lor CAN_ESR_BOFF (Z.shiftl 200 16)) CAN_TSR_TERR1 [].

(** The state at the start of the system; callbacks are numbers that do nothing but log. *)
Definition can_world0 : can_world Z simple_nvic loop_bus := mkCan
  (mkInterrupt (repeat (mkPair None null_context) (length (interrupt_ids BMPLC_XL))) 0 nvic0)
  (repeat blank 1) bus0 [].

Definition note_event (f num event x : Z) : M (can_world Z simple_nvic loop_bus) unit :=
  log_line num (Counters event x).

(** The interface of BMPLC_XL as [rhs_hal_can_init] leaves it, with a callback. *)
Definition can_entry1 : RHSHalCAN Z :=
  set_sce_callback (Some 7) 8 (set_enabled true blank).
Definition can_world1 : can_world Z simple_nvic loop_bus :=
  mkCan (can_interrupts can_world0) [can_entry1]
    (snd (rcan_start 0 CAN1 500000 bus0)) [].

Lemma can_world1_running : running BMPLC_XL can_world1 0 can_entry1.
Proof. unfold running, can_valid. simpl. repeat split; lia. Qed.

Lemma silent_steps {S} (R : S -> S -> Prop) w w' : (mret tt : M S unit) w = Ret (tt, w') -> rtc R w w'.
Proof. intros E. injection E as <-. reflexivity. Qed.

Theorem can_driver_lifecycle_witness :
  runs (rhs_hal_can_init BMPLC_XL 0 500000;;
        rhs_hal_can_async_rx_start BMPLC_XL 5 0 (Some 1) 2;; rhs_hal_can_async_sce BMPLC_XL 5 0 (Some 3) 4)
    can_world0 (fun _ w' => exists c', rhs_hal_can w' !! 0%nat = Some c' /\ enabled c' = true).
Proof.
  assert (Hr : can_reachable BMPLC_XL 5 (fun _ _ _ => mret tt) (fun _ _ => mret tt) (fun _ _ _ _ => mret tt)
    (fun _ _ => mret tt) can_world0) by exact (can_start _ _ _ _ _ _ 0 nvic0 bus0 []).
  destruct (can_driver_lifecycle BMPLC_XL 5 eq_refl (fun _ _ _ => mret tt) (fun _ _ => mret tt) (fun _ _ _ _ => mret tt)
    (fun _ _ => mret tt) (fun _ _ _ => silent_steps _) (fun _ _ => silent_steps _)
    (fun _ _ _ _ => silent_steps _) (fun _ _ => silent_steps _)
    can_world0 0 Hr ltac:(unfold can_valid; simpl; lia)) as (c & [= <-] & _ & T).
  destruct (T 500000 1 2 3 4 eq_refl ltac:(lia)) as ([] & w' & E & c' & Hc & He & _).
  exists tt, w'. split; [exact E|]. exists c'. split; [exact Hc|exact He].
Defined.

Theorem can_frame_roundtrip_witness :
  let fr := mkFrame 5 2 FrameTypeStdID false [1; 2; 3; 4; 5; 6; 7; 8] in
  let h := snd (rcan_send 0 (wire_frame fr) (can_hw can_world1)) in
  exists w1 w2, rhs_hal_can_tx BMPLC_XL 0 fr can_world1 = Ret (true, w1) /\ can_hw w1 = h /\
    rhs_hal_can_rx BMPLC_XL 0 rcan_frame_zero (mkCan (can_interrupts can_world1) [can_entry1] h []) =
      Ret ((true, mkFrame 5 2 FrameTypeStdID false [1; 2; 0; 0; 0; 0; 0; 0]), w2).
Proof.
  intros fr h. set (w' := mkCan (can_interrupts can_world1) [can_entry1] h [] : can_world Z simple_nvic loop_bus).
  assert (Hw' : running BMPLC_XL w' 0 can_entry1) by (unfold running, can_valid; simpl; repeat split; lia).
  destruct (can_frame_roundtrip BMPLC_XL can_world1 0 can_entry1 fr w' 0 can_entry1 rcan_frame_zero
    can_world1_running Hw' eq_refl eq_refl ltac:(simpl; lia)) as [(r & w1 & E1 & [= -> Eh] & _) T].
  destruct (T _ eq_refl) as (r2 & w2 & E2 & -> & _). exists w1, w2. split; [exact E1|]. split; [exact Eh|exact E2].
Defined.

Theorem can_sce_callback_reports_witness :
  exists w', can_sce_callback BMPLC_XL note_event (can_of 0) can_world1 = note_event 7 0 13 8 w' /\
    map statistic (rhs_hal_can w') = [mkStatistic 0 1 0 0 0 0].
Proof.
  destruct (can_sce_callback_reports BMPLC_XL note_event can_world1 0 can_entry1 can_world1_running)
    as (_ & w' & _ & Hs & E).
  exists w'. split; [exact E|]. rewrite Hs. reflexivity.
Defined.
