(* ===== verification/CanOpen.v ===== *)
(** * The CANopen service (services/can_open)

    The service's thread and interrupt callbacks, SDO requests, the object dictionary's
    field tables, and the filter list of its command. The CANopen stack is third-party code:
    its functions are parameters that act on the service's state, since they call back
    into [canSend] and [can_open_sdo_cb]. The CAN driver is the interface [CanDriver], which
    the real driver of [Can] implements. *)

From S2P Require Import Prelude Kernel EventFlag MessageQueue Mutex Interrupt Can.

(** ** Object dictionary fields (od_common_defs) *)

Record ODFieldType := mkField { field_index : Z; field_sub : Z; field_size : Z }.

Definition od_device_type : ODFieldType := mkField 0x1000 0 4.
Definition od_device_name : ODFieldType := mkField 0x1008 0 32.
Definition od_producer_hb : ODFieldType := mkField 0x1017 0 2.
Definition od_device_vendor : ODFieldType := mkField 0x1018 1 4.
Definition od_device_code : ODFieldType := mkField 0x1018 2 4.
Definition od_device_revision : ODFieldType := mkField 0x1018 3 4.
Definition od_device_serial : ODFieldType := mkField 0x1018 4 4.

Definition od_sdo_stx : ODFieldType := mkField 0x1280 1 4.
Definition od_sdo_srx : ODFieldType := mkField 0x1280 2 4.
Definition od_sdo_srv_id : ODFieldType := mkField 0x1280 3 4.

Definition od_rx_pdo_cfg : ODFieldType := mkField 0x1400 0 1.
Definition od_rx_pdo_id : ODFieldType := mkField 0x1400 1 4.
Definition od_rx_pdo_type : ODFieldType := mkField 0x1400 2 1.
Definition od_rx_pdo_inhubit : ODFieldType := mkField 0x1400 3 2.
Definition od_rx_pdo_res : ODFieldType := mkField 0x1400 4 1.
Definition od_rx_pdo_event_timer : ODFieldType := mkField 0x1400 5 2.
Definition od_rx_pdo_map : list ODFieldType :=
  [mkField 0x1600 0 1; mkField 0x1600 1 4; mkField 0x1600 2 4; mkField 0x1600 3 4; mkField 0x1600 4 4;
   mkField 0x1600 5 4; mkField 0x1600 6 4; mkField 0x1600 7 4; mkField 0x1600 8 4].

Definition od_tx_pdo_cfg : ODFieldType := mkField 0x1800 0 1.
Definition od_tx_pdo_id : ODFieldType := mkField 0x1800 1 4.
Definition od_tx_pdo_type : ODFieldType := mkField 0x1800 2 1.
Definition od_tx_pdo_inhubit : ODFieldType := mkField 0x1800 3 2.
Definition od_tx_pdo_res : ODFieldType := mkField 0x1800 4 1.
Definition od_tx_pdo_event_timer : ODFieldType := mkField 0x1800 5 2.
Definition od_tx_pdo_map : list ODFieldType :=
  [mkField 0x1A00 0 1; mkField 0x1A00 1 4; mkField 0x1A00 2 4; mkField 0x1A00 3 4; mkField 0x1A00 4 4;
   mkField 0x1A00 5 4; mkField 0x1A00 6 4; mkField 0x1A00 7 4; mkField 0x1A00 8 4].

Definition NumPDOMax : Z := 4.
Definition PDOMapNum : Z := 0.
Definition PDOMapMax : Z := 9.

Inductive PDOField := PDOFieldConfig | PDOFieldId | PDOFieldType | PDOFieldInhibit | PDOFieldRes | PDOFieldEventTime.

(** A value of the enumeration [PDOField]; other values stop the system as well. *)
Definition sdo_set_pdo (pdo_field : option PDOField) (npdo : Z) (is_tx : bool) : outcome ODFieldType :=
  if npdo <? NumPDOMax then
    let field base := Ret (mkField (u16 (field_index base + npdo)) (field_sub base) (field_size base)) in
    match pdo_field with
    | Some PDOFieldConfig => Crash "You cannot set group field in PDO"
    | Some PDOFieldId => field (if is_tx then od_tx_pdo_id else od_rx_pdo_id)
    | Some PDOFieldType => field (if is_tx then od_tx_pdo_type else od_rx_pdo_type)
    | Some PDOFieldInhibit => field (if is_tx then od_tx_pdo_inhubit else od_rx_pdo_inhubit)
    | Some PDOFieldRes => field (if is_tx then od_tx_pdo_res else od_rx_pdo_res)
    | Some PDOFieldEventTime => field (if is_tx then od_tx_pdo_event_timer else od_rx_pdo_event_timer)
    | None => Crash "You set an unknown field for PDO"
    end
  else Crash "Assert".

Definition PDO_TO_MAP (index subindex size : Z) : Z :=
  u32 (Z.lor (Z.lor (Z.shiftl index 16) (Z.shiftl subindex 8)) (Z.shiftl size 3)).

Definition sdo_set_pdo_map_generic (num_map : Z) (is_tx : bool) : outcome ODFieldType :=
  aget (if is_tx then od_tx_pdo_map else od_rx_pdo_map) num_map.

Definition sdo_set_pdo_map_group (npdo : Z) (is_tx : bool) : outcome ODFieldType :=
  f ← aget (if is_tx then od_tx_pdo_map else od_rx_pdo_map) PDOMapNum;
  Ret (mkField (u16 (field_index f + npdo)) (field_sub f) (field_size f)).

(** ** The CAN driver, as the service uses it

    [CB] are the callbacks it can be given. *)

Class CanDriver (D CB : Type) := {
  can_init : Z -> Z -> M D unit;
  can_deinit : Z -> M D unit;
  can_async_rx_start : Z -> CB -> Z -> M D unit;
  can_async_sce : Z -> CB -> Z -> M D unit;
  can_tx : Z -> RHSHalCANFrameType -> M D bool;
  can_rx : Z -> RHSHalCANFrameType -> M D (bool * RHSHalCANFrameType);
  can_get_handle : Z -> Z
}.

(** The stack's states the service asks for. *)
Inductive e_nodeState := Initialisation | Stopped.

Inductive can_open_callback := can_rx_irq_cb_ptr | can_sce_irq_cb_ptr.

(** ** State *)

(** The stack's [Message]; 8 data bytes. *)
Record Message := mkMessage { cob_id : Z; msg_rtr : Z; msg_len : Z; msg_data : list Z }.

(** Object dictionaries ([CO_Data*]) are pointers, numbers here. *)
Record CanOpenAppMessage := mkAppMessage { app_od : Z; app_can_id : Z; app_data : Message }.

Definition CanOpenAppEventTypeRX : Z := Z.shiftl 1 0.
Definition CanOpenAppEventTypeTX : Z := Z.shiftl 1 1.
Definition CanOpenAppEventTypePDO : Z := Z.shiftl 1 2.
Definition EVENT_FLAG_SDO : Z := Z.shiftl 1 0.
Definition MAX_OD : Z := 3.

(** An SDO transfer of the stack, as the callback reads it. *)
Inductive sdo_state := SDO_ABORTED_RCV | SDO_ABORTED_INTERNAL | SDO_other_state (n : Z).
Record s_transfer := mkTransfer {
  transfer_state : sdo_state; transfer_index : Z; transfer_subIndex : Z; transfer_count : Z; transfer_data : list Z }.

(** What the command prints. *)
Inductive co_line := AddedToView (id : Z) | MemoryAllocationFailed | RemovedFromView (id : Z) | NotFound (id : Z)
  | ClearedFilterList | CanIdList | ListedId (id : Z) | SentPackage (id : Z) | Usage | InvalidArgument
  | SdoError (result : Z) | CanStopped (id : Z) | RxFrame (fr : RHSHalCANFrameType).

(** The kernel [S], event groups [E], queues [Q], mutexes [X], the CAN driver [D], the
    stack [K] with its timer, and callbacks [CB] of SDO requests. *)
Record CanOpenApp (S E Q X D K CB : Type) := mkApp {
  co_os : S;
  srv_event : E;
  counter_od : Z;
  handler : list (Z * Z);
  rx_queue : Q;
  tx_queue : Q;
  sdo_mutex : X;
  sdo_event : E;
  sdo_callback : option CB;
  co_can : D;
  co_stack : K;
  (** [od->canHandle] of each dictionary *)
  canHandle : gmap Z Z;
  filter_list : list Z;
  co_log : list co_line
}.
Arguments mkApp {S E Q X D K CB}.
Arguments co_os {S E Q X D K CB}.
Arguments srv_event {S E Q X D K CB}.
Arguments counter_od {S E Q X D K CB}.
Arguments handler {S E Q X D K CB}.
Arguments rx_queue {S E Q X D K CB}.
Arguments tx_queue {S E Q X D K CB}.
Arguments sdo_mutex {S E Q X D K CB}.
Arguments sdo_event {S E Q X D K CB}.
Arguments sdo_callback {S E Q X D K CB}.
Arguments co_can {S E Q X D K CB}.
Arguments co_stack {S E Q X D K CB}.
Arguments canHandle {S E Q X D K CB}.
Arguments filter_list {S E Q X D K CB}.
Arguments co_log {S E Q X D K CB}.

Section service.
Context {S : Type} `{Scheduler S} {E : Type} `{EventGroup E} {Q : Type} `{FreeRTOSQueue Q} {X : Type} `{FreeRTOSMutex X}.
Context {D : Type} `{CanDriver D can_open_callback} {K CB : Type}.
Abbreviation world := (CanOpenApp S E Q X D K CB).

Definition with_co_os (x : S) (w : world) : world :=
  mkApp x (srv_event w) (counter_od w) (handler w) (rx_queue w) (tx_queue w) (sdo_mutex w)
    (sdo_event w) (sdo_callback w) (co_can w) (co_stack w) (canHandle w) (filter_list w) (co_log w).
Definition with_srv_event (x : E) (w : world) : world :=
  mkApp (co_os w) x (counter_od w) (handler w) (rx_queue w) (tx_queue w) (sdo_mutex w) (sdo_event w)
    (sdo_callback w) (co_can w) (co_stack w) (canHandle w) (filter_list w) (co_log w).
Definition with_counter_od (x : Z) (w : world) : world :=
  mkApp (co_os w) (srv_event w) x (handler w) (rx_queue w) (tx_queue w) (sdo_mutex w) (sdo_event w)
    (sdo_callback w) (co_can w) (co_stack w) (canHandle w) (filter_list w) (co_log w).
Definition with_handler (x : list (Z * Z)) (w : world) : world :=
  mkApp (co_os w) (srv_event w) (counter_od w) x (rx_queue w) (tx_queue w) (sdo_mutex w) (sdo_event
    w) (sdo_callback w) (co_can w) (co_stack w) (canHandle w) (filter_list w) (co_log w).
Definition with_rx_queue (x : Q) (w : world) : world :=
  mkApp (co_os w) (srv_event w) (counter_od w) (handler w) x (tx_queue w) (sdo_mutex w) (sdo_event
    w) (sdo_callback w) (co_can w) (co_stack w) (canHandle w) (filter_list w) (co_log w).
Definition with_tx_queue (x : Q) (w : world) : world :=
  mkApp (co_os w) (srv_event w) (counter_od w) (handler w) (rx_queue w) x (sdo_mutex w) (sdo_event
    w) (sdo_callback w) (co_can w) (co_stack w) (canHandle w) (filter_list w) (co_log w).
Definition with_sdo_mutex (x : X) (w : world) : world :=
  mkApp (co_os w) (srv_event w) (counter_od w) (handler w) (rx_queue w) (tx_queue w) x (sdo_event w)
    (sdo_callback w) (co_can w) (co_stack w) (canHandle w) (filter_list w) (co_log w).
Definition with_sdo_event (x : E) (w : world) : world :=
  mkApp (co_os w) (srv_event w) (counter_od w) (handler w) (rx_queue w) (tx_queue w) (sdo_mutex w) x
    (sdo_callback w) (co_can w) (co_stack w) (canHandle w) (filter_list w) (co_log w).
Definition with_sdo_callback (x : option CB) (w : world) : world :=
  mkApp (co_os w) (srv_event w) (counter_od w) (handler w) (rx_queue w) (tx_queue w) (sdo_mutex w)
    (sdo_event w) x (co_can w) (co_stack w) (canHandle w) (filter_list w) (co_log w).
Definition with_co_can (x : D) (w : world) : world :=
  mkApp (co_os w) (srv_event w) (counter_od w) (handler w) (rx_queue w) (tx_queue w) (sdo_mutex w)
    (sdo_event w) (sdo_callback w) x (co_stack w) (canHandle w) (filter_list w) (co_log w).
Definition with_co_stack (x : K) (w : world) : world :=
  mkApp (co_os w) (srv_event w) (counter_od w) (handler w) (rx_queue w) (tx_queue w) (sdo_mutex w)
    (sdo_event w) (sdo_callback w) (co_can w) x (canHandle w) (filter_list w) (co_log w).
Definition with_canHandle (x : gmap Z Z) (w : world) : world :=
  mkApp (co_os w) (srv_event w) (counter_od w) (handler w) (rx_queue w) (tx_queue w) (sdo_mutex w)
    (sdo_event w) (sdo_callback w) (co_can w) (co_stack w) x (filter_list w) (co_log w).
Definition with_filter_list (x : list Z) (w : world) : world :=
  mkApp (co_os w) (srv_event w) (counter_od w) (handler w) (rx_queue w) (tx_queue w) (sdo_mutex w)
    (sdo_event w) (sdo_callback w) (co_can w) (co_stack w) (canHandle w) x (co_log w).
Definition with_co_log (x : list co_line) (w : world) : world :=
  mkApp (co_os w) (srv_event w) (counter_od w) (handler w) (rx_queue w) (tx_queue w) (sdo_mutex w)
    (sdo_event w) (sdo_callback w) (co_can w) (co_stack w) (canHandle w) (filter_list w) x.

Definition on_os {A} (m : M S A) : M world A := fun w => '(a, s) ← m (co_os w); Ret (a, with_co_os s w).
Definition on_can {A} (m : M D A) : M world A := fun w => '(a, d) ← m (co_can w); Ret (a, with_co_can d w).
Definition on_stack {A} (f : K -> A * K) : M world A := fun w =>
  let '(a, k) := f (co_stack w) in Ret (a, with_co_stack k w).
Definition co_print (l : co_line) : M world unit := modify (fun w => with_co_log (co_log w ++ [l]) w).

Definition srv_event_set (flags : Z) : M world unit := fun w =>
  '(_, e, s) ← rhs_event_flag_set (co_os w) (Some (srv_event w)) flags;
  Ret (tt, with_srv_event e (with_co_os s w)).
Definition sdo_event_set (flags : Z) : M world unit := fun w =>
  '(_, e, s) ← rhs_event_flag_set (co_os w) (Some (sdo_event w)) flags;
  Ret (tt, with_sdo_event e (with_co_os s w)).

(** The bytes of a [CanOpenAppMessage] in a queue: how the compiler lays the structure out. *)
Context (to_bytes : CanOpenAppMessage -> message) (of_bytes : message -> CanOpenAppMessage).

Definition rx_queue_put (m : CanOpenAppMessage) : M world unit := fun w =>
  '(_, q) ← rhs_message_queue_put (co_os w) (Some (rx_queue w)) (Some (to_bytes m)) 0; Ret (tt, with_rx_queue q w).
Definition tx_queue_put (m : CanOpenAppMessage) : M world unit := fun w =>
  '(_, q) ← rhs_message_queue_put (co_os w) (Some (tx_queue w)) (Some (to_bytes m)) 0; Ret (tt, with_tx_queue q w).

(** A queue is read into [msg]; [None] when the status is not [RHSStatusOk]. *)
Definition received (r : RHSStatus) (m : option message) : option CanOpenAppMessage :=
  match r, m with RHSStatusOk, Some m => Some (of_bytes m) | _, _ => None end.
Definition rx_queue_get (msg : CanOpenAppMessage) : M world (option CanOpenAppMessage) := fun w =>
  '(r, m, q) ← rhs_message_queue_get (co_os w) (Some (rx_queue w)) (Some (to_bytes msg)) 0;
  Ret (received r m, with_rx_queue q w).
Definition tx_queue_get (msg : CanOpenAppMessage) : M world (option CanOpenAppMessage) := fun w =>
  '(r, m, q) ← rhs_message_queue_get (co_os w) (Some (tx_queue w)) (Some (to_bytes msg)) 0;
  Ret (received r m, with_tx_queue q w).

(** ** can_open_srv_i.c: callbacks of the driver and of the stack *)

Fixpoint find_handler (p : Z * Z -> bool) (l : list (Z * Z)) : option (Z * Z) :=
  match l with [] => None | h :: l => if p h then Some h else find_handler p l end.

(** [for (i = 0; i < app->counter_od; i++) if (p) ...; return] over the registered nodes. *)
Definition registered_handlers (w : world) : list (Z * Z) := take (Z.to_nat (counter_od w)) (handler w).

(** The context is [app]; [NULL] is checked for. *)
Definition can_rx_irq_cb (can_id : Z) (context : bool) : M world unit :=
  rhs_assert context;;
  '(ok, frame) ← on_can (can_rx can_id rcan_frame_zero);
  if negb ok then mret tt
  else
    w ← get;
    (if existsb (Z.eqb (fr_id frame)) (filter_list w) then co_print (RxFrame frame) else mret tt);;
    data ← copy_payload (repeat 0 8) (fr_payload frame) (fr_len frame);
    let rxm := mkMessage (u16 (fr_id frame)) (if fr_rtr frame then 1 else 0) (fr_len frame) data in
    match find_handler (fun h => can_id =? snd h) (registered_handlers w) with
    | Some (od, _) =>
        rx_queue_put (mkAppMessage od can_id rxm);;
        srv_event_set CanOpenAppEventTypeRX
    | None => mret tt
    end.

Context (setNodeId : Z -> Z -> M world unit) (setState : Z -> e_nodeState -> M world unit).

Definition InitNodes (d id : Z) : M world unit := setNodeId d id;; setState d Initialisation.

Definition can_sce_irq_cb (can_id event : Z) (context : bool) : M world unit :=
  rhs_assert context;;
  if bits_set event RHSHalCANSCEEventTXPassive then
    w ← get;
    match find_handler (fun h => can_id =? snd h) (registered_handlers w) with
    | Some (od, id) => setState od Stopped;; on_can (can_deinit id);; co_print (CanStopped id)
    | None => mret tt
    end
  else mret tt.

(** [getSDOlineToClose] and the line's transfer. *)
Context (sdo_line : Z -> Z -> K -> s_transfer) (closeSDOtransfer : Z -> Z -> M world unit).
(** What the user's callback of an SDO request does. *)
Context (run_sdo_callback : CB -> Z -> Z -> s_transfer -> M world unit).

Definition aborted (t : s_transfer) : bool :=
  match transfer_state t with SDO_other_state _ => false | _ => true end.

Definition can_open_sdo_cb (d nodeId : Z) : M world unit :=
  w ← get;
  let transfer := sdo_line d nodeId (co_stack w) in
  (if negb (aborted transfer) then
     match sdo_callback w with
     | Some f => run_sdo_callback f d nodeId transfer
     | None => mret tt
     end
   else closeSDOtransfer d nodeId);;
  sdo_event_set EVENT_FLAG_SDO.

(** ** SDO requests

    [me] is the calling task, [meanwhile] what other tasks and interrupts do while it
    waits. *)

Context (me : Z) (meanwhile : M world unit).

Definition sdo_mutex_acquire : M world RHSStatus := fun w =>
  '(r, q) ← rhs_mutex_acquire (co_os w) me (Some (sdo_mutex w)) RHSWaitForever; Ret (r, with_sdo_mutex q w).
Definition sdo_mutex_release : M world RHSStatus := fun w =>
  '(r, q) ← rhs_mutex_release (co_os w) me (Some (sdo_mutex w)); Ret (r, with_sdo_mutex q w).

(** [rhs_event_flag_wait] for any of [flags]; when none is set, others run first. *)
Definition read_flags (event : world -> E) (set_event : E -> world -> world) (flags timeout : Z) : M world Z := fun w =>
  '(r, e) ← rhs_event_flag_wait (co_os w) (Some (event w)) flags RHSFlagWaitAny timeout;
  Ret (r, set_event e w).
Definition wait_any (event : world -> E) (set_event : E -> world -> world) (flags timeout : Z) : M world Z :=
  w ← get;
  (if Z.land (xEventGroupGetBits (event w)) flags =? 0 then meanwhile else mret tt);;
  read_flags event set_event flags timeout.

(** Of the stack's configuration. The timeout is in ticks, as [rhs_event_flag_wait] takes it. *)
Context (CANOPEN_SDO_STATE_OK SDO_TIMEOUT_MS : Z).
Context (resetSDO : Z -> M world unit).

(** [co_get_sdo] and [co_set_sdo], which differ in the stack's function they call. *)
Definition sdo_request (request : M world Z) (d : Z) (cb : option CB) : M world Z :=
  r ← sdo_mutex_acquire;
  rhs_assert (bool_decide (r = RHSStatusOk));;
  modify (with_sdo_callback cb);;
  result ← request;
  ok ← (if result =? CANOPEN_SDO_STATE_OK then
          flags ← wait_any sdo_event with_sdo_event EVENT_FLAG_SDO SDO_TIMEOUT_MS;
          mret (flags =? EVENT_FLAG_SDO)
        else mret false);
  if ok : bool then
    _ ← sdo_mutex_release;
    mret result
  else
    resetSDO d;;
    modify (with_sdo_callback None);;
    co_print (SdoError result);;
    _ ← sdo_mutex_release;
    mret (if result =? 0 then -1 else result).

(** [readNetworkDictCallback] and [writeNetworkDictCallBack], given [can_open_sdo_cb]. *)
Context (readNetworkDictCallback : Z -> Z -> Z -> Z -> M world Z)
        (writeNetworkDictCallBack : Z -> Z -> Z -> Z -> Z -> list Z -> M world Z).

Definition co_get_sdo (d id ind sub : Z) (cb : option CB) : M world Z :=
  sdo_request (readNetworkDictCallback d id ind sub) d cb.
Definition co_set_sdo (d id ind sub sz : Z) (data : list Z) (cb : option CB) : M world Z :=
  sdo_request (writeNetworkDictCallBack d id ind sub sz data) d cb.

(** ** can_open_ctrl_dev.c *)

Definition co_rpdo_config (d id npdo : Z) (pdo_field : option PDOField) (data : list Z) : M world Z :=
  f ← lift (sdo_set_pdo pdo_field npdo false);
  co_set_sdo d id (field_index f) (field_sub f) (field_size f) data None.
Definition co_tpdo_config (d id npdo : Z) (pdo_field : option PDOField) (data : list Z) : M world Z :=
  f ← lift (sdo_set_pdo pdo_field npdo true);
  co_set_sdo d id (field_index f) (field_sub f) (field_size f) data None.

Definition co_rpdo_map (d id npdo nmap ind sub sz : Z) : M world Z :=
  rhs_assert ((PDOMapNum <? nmap) && (nmap <? PDOMapMax));;
  let map := PDO_TO_MAP ind sub sz in
  f ← lift (sdo_set_pdo_map_generic nmap false);
  co_set_sdo d id (u16 (field_index f + npdo)) (field_sub f) (field_size f) (le32 map) None.
Definition co_tpdo_map (d id npdo nmap ind sub sz : Z) : M world Z :=
  rhs_assert ((PDOMapNum <? nmap) && (nmap <? PDOMapMax));;
  let map := PDO_TO_MAP ind sub sz in
  f ← lift (sdo_set_pdo_map_generic nmap true);
  co_set_sdo d id (u16 (field_index f + npdo)) (field_sub f) (field_size f) (le32 map) None.

Definition co_rpdo_map_group (d node_id npdo nmap : Z) : M world Z :=
  rhs_assert (npdo <? NumPDOMax);;
  rhs_assert (nmap <? PDOMapMax);;
  f ← lift (sdo_set_pdo_map_group npdo false);
  co_set_sdo d node_id (field_index f) (field_sub f) (field_size f) (le32 nmap) None.
Definition co_tpdo_map_group (d node_id npdo nmap : Z) : M world Z :=
  rhs_assert (npdo <? NumPDOMax);;
  rhs_assert (nmap <? PDOMapMax);;
  f ← lift (sdo_set_pdo_map_group npdo true);
  co_set_sdo d node_id (field_index f) (field_sub f) (field_size f) (le32 nmap) None.

(** [setODentry], whose error code has 32 bits; 0 is [OD_SUCCESSFUL]. *)
Context (setODentry : Z -> Z -> Z -> list Z -> M world Z).

Definition co_set_field (d ind sub : Z) (data : list Z) : M world Z :=
  error_code ← setODentry d ind sub data;
  (if error_code =? 0 then srv_event_set CanOpenAppEventTypePDO else mret tt);;
  mret (u8 error_code).

(** [getODentry]: the bytes it stores, at most the number it is given; it may store none. *)
Context (getODentry : Z -> Z -> Z -> Z -> K -> option (list Z)).
Definition SDO_MAX_LENGTH_TRANSFER : Z := 8.

(** The functions [OD_GET_FIELD] defines, for a type of [size] bytes: the bytes of [data],
    which is not initialised ([stack_bytes]). *)
Definition od_get_field (size : nat) (stack_bytes : list Z) (index subIndex d : Z) : M world (list Z) :=
  w ← get;
  match getODentry d index subIndex SDO_MAX_LENGTH_TRANSFER (co_stack w) with
  | None => mret stack_bytes
  | Some bs => if (size <? length bs)%nat then fault else mret (bs ++ drop (length bs) stack_bytes)
  end.

Definition SET_SDO_COMMUNICATION (d id : Z) : M world unit :=
  _ ← co_set_field d (field_index od_sdo_stx) (field_sub od_sdo_stx) (le32 (u32 (0x600 + id)));
  _ ← co_set_field d (field_index od_sdo_srx) (field_sub od_sdo_srx) (le32 (u32 (0x580 + id)));
  _ ← co_set_field d (field_index od_sdo_srv_id) (field_sub od_sdo_srv_id) [u8 id];
  mret tt.
Definition RESET_SDO_COMMUNICATION (d : Z) : M world unit :=
  _ ← co_set_field d (field_index od_sdo_stx) (field_sub od_sdo_stx) (le32 0);
  _ ← co_set_field d (field_index od_sdo_srx) (field_sub od_sdo_srx) (le32 0);
  _ ← co_set_field d (field_index od_sdo_srv_id) (field_sub od_sdo_srv_id) [0];
  mret tt.

(** ** Sending, nodes *)

Definition port_of (w : world) (od : Z) : Z := default 0 (canHandle w !! od).

(** [port] is [NULL] when it is 0. *)
Definition canSend (port : Z) (m : Message) : M world Z :=
  rhs_assert (negb (port =? 0));;
  w ← get;
  match find_handler (fun h => port =? port_of w (fst h)) (registered_handlers w) with
  | Some (od, id) =>
      tx_queue_put (mkAppMessage od id m);;
      srv_event_set CanOpenAppEventTypeTX;;
      mret 0
  | None => crash "CAN_PORT doesn't reg for OD"
  end.

Definition co_start_node (app d node_id id baud : Z) : M world unit :=
  w ← get;
  rhs_assert (counter_od w <? MAX_OD);;
  on_can (can_init id baud);;
  on_can (can_async_rx_start id can_rx_irq_cb_ptr app);;
  on_can (can_async_sce id can_sce_irq_cb_ptr app);;
  w ← get;
  l ← lift (aset (handler w) (counter_od w) (d, id));
  modify (with_handler l);;
  modify (fun w => with_canHandle (<[d := can_get_handle id]> (canHandle w)) w);;
  modify (fun w => with_counter_od (u8 (counter_od w + 1)) w);;
  w ← get;
  '(od, _) ← lift (aget (handler w) (counter_od w - 1));
  InitNodes od node_id.

(** ** can_open_srv.c: the thread *)

Context (tick_rate : Z).
Context (canDispatch : Z -> Message -> M world unit) (sendPDOevent : Z -> M world unit).

(** [while (rhs_message_queue_get(app->rx_queue, &msg, 0) == RHSStatusOk)], with fuel. *)
Fixpoint dispatch_loop (fuel : nat) (msg : CanOpenAppMessage) : M world CanOpenAppMessage :=
  match fuel with
  | O => hang
  | Datatypes.S fuel =>
      r ← rx_queue_get msg;
      match r with
      | None => mret msg
      | Some msg =>
          _ ← on_os rhs_kernel_lock;
          rhs_assert (negb (app_od msg =? 0));;
          canDispatch (app_od msg) (app_data msg);;
          _ ← on_os rhs_kernel_unlock;
          dispatch_loop fuel msg
      end
  end.

(** [while (!rhs_hal_can_tx(msg.can_id, &frame) && try_tx) { rhs_delay_ms(1); try_tx--; }] *)
Fixpoint tx_tries (try_tx : nat) (id : Z) (frame : RHSHalCANFrameType) : M world unit :=
  sent ← on_can (can_tx id frame);
  match try_tx with
  | O => mret tt
  | Datatypes.S n => if sent : bool then mret tt else on_os (rhs_delay_ms tick_rate 1);; tx_tries n id frame
  end.

(** The frame made of a message; [payload] is what the previous one left in it. *)
Definition frame_of (msg : CanOpenAppMessage) (payload : list Z) : RHSHalCANFrameType :=
  mkFrame (cob_id (app_data msg)) (msg_len (app_data msg)) FrameTypeStdID (negb (msg_rtr (app_data msg) =? 0)) payload.

Fixpoint tx_loop (fuel : nat) (msg : CanOpenAppMessage) (frame : RHSHalCANFrameType)
    : M world (CanOpenAppMessage * RHSHalCANFrameType) :=
  match fuel with
  | O => hang
  | Datatypes.S fuel =>
      r ← tx_queue_get msg;
      match r with
      | None => mret (msg, frame)
      | Some msg =>
          payload ← copy_payload (fr_payload frame) (msg_data (app_data msg)) (msg_len (app_data msg));
          let frame := frame_of msg payload in
          tx_tries 3 (app_can_id msg) frame;;
          tx_loop fuel msg frame
      end
  end.

(** [for (i = 0; i < app->counter_od; i++) sendPDOevent(app->handler[i].od)] *)
Fixpoint pdo_loop (n : nat) (i : Z) : M world unit :=
  match n with
  | O => mret tt
  | Datatypes.S n =>
      w ← get;
      '(od, _) ← lift (aget (handler w) i);
      sendPDOevent od;;
      pdo_loop n (i + 1)
  end.

(** One round of the loop of [can_open_service], which keeps [msg] and [frame]. The case for
    PDO events has no [break]. *)
Definition can_open_service_round (fuel : nat) (locals : CanOpenAppMessage * RHSHalCANFrameType)
    : M world (CanOpenAppMessage * RHSHalCANFrameType) :=
  let '(msg, frame) := locals in
  flag ← wait_any srv_event with_srv_event
    (Z.lor CanOpenAppEventTypeRX (Z.lor CanOpenAppEventTypeTX CanOpenAppEventTypePDO)) RHSWaitForever;
  if flag =? 0 then mret locals
  else if flag =? CanOpenAppEventTypeRX then
    msg ← dispatch_loop fuel msg; mret (msg, frame)
  else if flag =? CanOpenAppEventTypePDO then
    w ← get;
    pdo_loop (Z.to_nat (counter_od w)) 0;;
    tx_loop fuel msg frame
  else if flag =? CanOpenAppEventTypeTX then tx_loop fuel msg frame
  else mret locals.
End service.

(** ** can_open_cli.c *)

(** *** What the command uses of the C library *)

Definition isspace (c : Z) : bool := (c =? 32) || ((9 <=? c) && (c <=? 13)).
Definition hex_digit (c : Z) : option Z :=
  if (48 <=? c) && (c <=? 57) then Some (c - 48)
  else if (97 <=? c) && (c <=? 102) then Some (c - 87)
  else if (65 <=? c) && (c <=? 70) then Some (c - 55)
  else None.
Fixpoint hex_digits (s : list Z) (acc : Z) : Z :=
  match s with
  | [] => acc
  | c :: s => match hex_digit c with Some d => hex_digits s (acc * 16 + d) | None => acc end
  end.
Definition strip_0x (s : list Z) : list Z :=
  match s with
  | 48 :: x :: c :: r => if ((x =? 120) || (x =? 88)) && bool_decide (is_Some (hex_digit c)) then c :: r else s
  | _ => s
  end.
(** [strtoul(s, NULL, 16)]: white space, a sign, 0x, digits; too large a number is
    [ULONG_MAX]. *)
Fixpoint skip_spaces (s : list Z) : list Z :=
  match s with c :: r => if isspace c then skip_spaces r else s | [] => [] end.
Definition strtoul16 (s : list Z) : Z :=
  let value s := Z.min (hex_digits (strip_0x s) 0) 4294967295 in
  match skip_spaces s with
  | 45 :: s => if 4294967295 <? hex_digits (strip_0x s) 0 then value s else u32 (- value s)
  | 43 :: s => value s
  | s => value s
  end.

(** The text after the first space ([strchr(s, ' ') + 1]). *)
Fixpoint after_space (s : list Z) : option (list Z) :=
  match s with [] => None | c :: s => if c =? 32 then Some s else after_space s end.
(** The tokens [strtok] finds, separated by spaces. *)
Fixpoint tokens (s word : list Z) : list (list Z) :=
  let finish := match word with [] => [] | _ => [word] end in
  match s with
  | [] => finish
  | c :: s => if c =? 32 then finish ++ tokens s [] else tokens s (word ++ [c])
  end.

Definition starts_with (p s : list Z) : bool := bool_decide (take (length p) s = p).

(** [strchr] found a space that does not end the string. *)
Definition argument (s : list Z) : option (list Z) :=
  match after_space s with Some (c :: r) => Some (c :: r) | _ => None end.

Section command.
Context {S : Type} `{Scheduler S} {E : Type} `{EventGroup E} {Q : Type} `{FreeRTOSQueue Q} {X : Type} `{FreeRTOSMutex X}.
Context {D K CB : Type}.
Abbreviation world := (CanOpenApp S E Q X D K CB).
Context (to_bytes : CanOpenAppMessage -> message).

(** [malloc_ok]: whether [malloc] finds memory. *)
Definition add_filter_id (malloc_ok : bool) (id : Z) : M world unit :=
  if malloc_ok then
    modify (fun w => with_filter_list (id :: filter_list w) w);;
    co_print (AddedToView id)
  else co_print MemoryAllocationFailed.

(** The list without the first node of the id, if there is one. *)
Fixpoint unlink (id : Z) (l : list Z) : option (list Z) :=
  match l with
  | [] => None
  | x :: l => if x =? id then Some l else (fun l => x :: l) <$> unlink id l
  end.
Definition remove_filter_id (id : Z) : M world unit :=
  w ← get;
  match unlink id (filter_list w) with
  | Some l => modify (with_filter_list l);; co_print (RemovedFromView id)
  | None => co_print (NotFound id)
  end.

Definition clear_filter_list : M world unit :=
  modify (with_filter_list []);; co_print ClearedFilterList.

Fixpoint list_ids (l : list Z) : M world unit :=
  match l with [] => mret tt | x :: l => co_print (ListedId x);; list_ids l end.
Definition list_filter_ids : M world unit :=
  co_print CanIdList;; w ← get; list_ids (filter_list w).

(** The data bytes of [-s], at most 8. *)
Definition command_data (args : list Z) : list Z :=
  match argument args with
  | Some rest =>
      match argument rest with
      | Some data => take 8 (map (fun t => u8 (strtoul16 t)) (tokens data []))
      | None => []
      end
  | None => []
  end.

Definition can_open_cli (malloc_ok : bool) (args : option (list Z)) : M world unit :=
  match args with
  | None => co_print InvalidArgument
  | Some args =>
      let value := match argument args with Some s => strtoul16 s | None => 0 end in
      if starts_with (str "-f") args then add_filter_id malloc_ok (u16 value)
      else if starts_with (str "-e") args then remove_filter_id (u16 value)
      else if starts_with (str "-c") args then clear_filter_list
      else if starts_with (str "-l") args then list_filter_ids
      else if starts_with (str "-s") args then
        let data := command_data args in
        let m := mkMessage (u16 value) 0 (Z.of_nat (length data)) (data ++ repeat 0 (8 - length data)) in
        w ← get;
        '(od, _) ← lift (aget (handler w) 0);
        (** [msg.od->canHandle] *)
        if od =? 0 then fault
        else
          _ ← canSend to_bytes (port_of w od) m;
          co_print (SentPackage (cob_id m))
      else if starts_with (str "-m") args then co_print Usage
      else co_print InvalidArgument
  end.
End command.

(** ** What the service relies on *)

(** A payload of 8 bytes of which the frame uses at most all. *)
Definition frame_fits (fr : RHSHalCANFrameType) : Prop := 0 <= fr_len fr <= 8 /\ length (fr_payload fr) = 8%nat.

(** The driver: [up] are the interfaces that are enabled, [transmit] what sending does. *)
Class CanDriverLaws (D CB : Type) `{CanDriver D CB} := {
  driver_ok : D -> Prop;
  interface_exists : Z -> Prop;
  up : D -> Z -> bool;
  transmit : D -> Z -> RHSHalCANFrameType -> bool * D;
  tx_up d id fr : driver_ok d -> interface_exists id -> up d id = true -> frame_fits fr ->
    can_tx id fr d = Ret (transmit d id fr);
  transmit_ok d id fr : driver_ok d -> interface_exists id -> up d id = true -> frame_fits fr ->
    driver_ok (snd (transmit d id fr)) /\ forall i, interface_exists i -> up (snd (transmit d id fr)) i = up d i;
  tx_down d id fr : driver_ok d -> interface_exists id -> up d id = false -> can_tx id fr d = Crash "Assert";
  deinit_up d id : driver_ok d -> interface_exists id -> up d id = true ->
    runs (can_deinit id) d (fun _ d' => driver_ok d' /\ up d' id = false /\
      forall i, interface_exists i -> i <> id -> up d' i = up d i)
}.

(** The attempts to send one frame, at most [n]. *)
Inductive attempts {D CB : Type} `{CanDriverLaws D CB} (id : Z) (fr : RHSHalCANFrameType) : nat -> D -> D -> Prop :=
  | accepted n d d' : transmit d id fr = (true, d') -> attempts id fr (S n) d d'
  | given_up d d' : transmit d id fr = (false, d') -> attempts id fr 1 d d'
  | retried n d d1 d' : transmit d id fr = (false, d1) -> attempts id fr (S n) d1 d' -> attempts id fr (S (S n)) d d'.

(** The frame that stands for a message. *)
Definition carries (msg : CanOpenAppMessage) (fr : RHSHalCANFrameType) : Prop :=
  let m := app_data msg in
  fr_id fr = cob_id m /\ fr_type fr = FrameTypeStdID /\ fr_len fr = msg_len m /\ fr_rtr fr = negb (msg_rtr m =? 0) /\
  take (Z.to_nat (msg_len m)) (fr_payload fr) = take (Z.to_nat (msg_len m)) (msg_data m) /\ frame_fits fr.

(** Messages in order, each in one to four attempts. *)
Inductive sends {D CB : Type} `{CanDriverLaws D CB} : list CanOpenAppMessage -> D -> D -> Prop :=
  | sends_nil d : sends [] d d
  | sends_cons msg fr l d d1 d' : carries msg fr -> attempts (app_can_id msg) fr 4 d d1 -> sends l d1 d' ->
      sends (msg :: l) d d'.

(** The calls of the stack that the theorems speak about. *)
Inductive stack_call := Dispatched (od : Z) (m : Message) | PdoEvent (od : Z).

Section correctness.
Context {S : Type} `{SchedulerLaws S} {E : Type} `{EventGroupLaws E} {Q : Type} `{FreeRTOSQueueLaws Q}.
Context {X : Type} `{FreeRTOSMutexLaws X}.
Context {D : Type} `{CanDriverLaws D can_open_callback} {K CB : Type}.
Abbreviation world := (CanOpenApp S E Q X D K CB).
Context (to_bytes : CanOpenAppMessage -> message) (of_bytes : message -> CanOpenAppMessage).

(** The scheduler is locked for the dispatch and released after it. *)
Lemma kernel_lock_eq s : task_runs s ->
  rhs_kernel_lock s = Ret (0, vTaskSuspendAll s) /\ suspended (vTaskSuspendAll s) = 1.
Proof.
  intros [Ht Hs]. destruct (task_not_isr s Ht) as [_ Hi]. unfold rhs_kernel_lock. munfold. rewrite Hi.
  rewrite state_spec. destruct Ht as (_ & _ & ->). rewrite Hs. split; [done|].
  destruct (suspend_spec s) as (-> & _). lia.
Qed.

Lemma kernel_unlock_runs s0 s : task_runs s0 -> os_like (vTaskSuspendAll s0) s ->
  runs rhs_kernel_unlock s (fun _ s' => os_like s0 s').
Proof.
  intros [Ht Hs] (L1 & L2 & L3 & L4). destruct (suspend_spec s0) as (P1 & P2 & P3 & P4).
  assert (Hc : task_context s) by (destruct Ht as (? & ? & ?); repeat split; congruence).
  destruct (task_not_isr s Hc) as [_ Hi]. unfold runs, rhs_kernel_unlock, resume_all. munfold. rewrite Hi.
  rewrite state_spec. destruct Hc as (_ & _ & ->). replace (suspended s) with 1 by lia. cbn.
  assert (Hpos : 0 < suspended s) by lia. destruct (resume_spec s Hpos) as (r & s' & E1 & R1 & R2 & R3 & R4 & _). rewrite E1.
  eexists _, s'. split; [done|]. repeat split; try congruence. lia.
Qed.

(** *** Flags and queues *)

Context (meanwhile : M world unit).

(** A wait for flags of which some are set comes back at once and clears them. *)
Lemma wait_any_now (event : world -> E) set_event flags t (w : world) :
  task_runs (co_os w) -> 0 < flags < 2 ^ 24 -> Z.land flags (bits (event w)) <> 0 ->
  exists e, wait_any meanwhile event set_event flags t w = Ret (bits (event w), set_event e w) /\
    bits e = Z.ldiff (bits (event w)) flags.
Proof.
  intros [Ht _] Hf Hset. destruct (task_not_isr _ Ht) as [Hi _]. unfold wait_any.
  rewrite (bind_eq _ _ w w w) by done. destruct (EventFlag.get_spec (event w)) as [-> _].
  rewrite Z.land_comm. destruct (Z.eqb_spec (Z.land flags (bits (event w))) 0) as [|_]; [done|].
  rewrite (bind_eq _ _ w tt w) by done.
  unfold read_flags, rhs_event_flag_wait, with_valid_flags. rewrite Hi, valid_flags by lia.
  change (negb (Z.land RHSFlagWaitAny RHSFlagWaitAll =? 0)) with false.
  change (Z.land RHSFlagWaitAny RHSFlagNoClear =? 0) with true.
  pose proof (wait_spec (event w) flags true false t Hf) as W.
  destruct (xEventGroupWaitBits (event w) flags true false t) as [r e].
  destruct W as (e1 & He1 & -> & Hb). unfold satisfied in *.
  destruct (Z.eqb_spec (Z.land flags (bits (event w))) 0) as [|_]; [done|]. cbn [negb orb] in He1. subst e1.
  destruct (Z.eqb_spec (Z.land flags (bits (event w))) 0) as [|_]; [done|]. cbn in Hb |- *. by exists e.
Qed.

Lemma rx_get_cons msg (w : world) m l :
  task_runs (co_os w) -> contents (rx_queue w) = m :: l ->
  exists q, rx_queue_get to_bytes of_bytes msg w = Ret (Some (of_bytes m), with_rx_queue q w) /\
    contents q = l /\ same_shape (rx_queue w) q.
Proof.
  intros [Ht _] Hc. destruct (task_not_isr _ Ht) as [_ Hi]. unfold rx_queue_get.
  destruct (get_spec (co_os w) (rx_queue w) (to_bytes msg) 0 m l ltac:(by left) Hc) as (q & -> & Hq). by exists q.
Qed.
Lemma rx_get_nil msg (w : world) : contents (rx_queue w) = [] ->
  rx_queue_get to_bytes of_bytes msg w = Ret (None, w).
Proof. intros Hc. unfold rx_queue_get. rewrite get_empty_spec by done. by destruct w. Qed.
Lemma tx_get_cons msg (w : world) m l :
  task_runs (co_os w) -> contents (tx_queue w) = m :: l ->
  exists q, tx_queue_get to_bytes of_bytes msg w = Ret (Some (of_bytes m), with_tx_queue q w) /\
    contents q = l /\ same_shape (tx_queue w) q.
Proof.
  intros [Ht _] Hc. destruct (task_not_isr _ Ht) as [_ Hi]. unfold tx_queue_get.
  destruct (get_spec (co_os w) (tx_queue w) (to_bytes msg) 0 m l ltac:(by left) Hc) as (q & -> & Hq). by exists q.
Qed.
Lemma tx_get_nil msg (w : world) : contents (tx_queue w) = [] ->
  tx_queue_get to_bytes of_bytes msg w = Ret (None, w).
Proof. intros Hc. unfold tx_queue_get. rewrite get_empty_spec by done. by destruct w. Qed.

(** *** Reception *)

(** A message of at most 8 bytes for an interface that is enabled. *)
Definition sendable (d : D) (msg : CanOpenAppMessage) : Prop :=
  interface_exists (app_can_id msg) /\ up d (app_can_id msg) = true /\
  0 <= msg_len (app_data msg) <= 8 /\ length (msg_data (app_data msg)) = 8%nat.

(** The stack, called from the service's thread: it returns, keeps to the scheduler's
    rules, may queue messages for transmission, and leaves the rest to the service. *)
Context (canDispatch : Z -> Message -> M world unit) (sendPDOevent : Z -> M world unit) (calls : K -> list stack_call).

Record stack_step (c : stack_call) (w w' : world) : Prop := {
  step_os : os_like (co_os w) (co_os w');
  step_calls : calls (co_stack w') = calls (co_stack w) ++ [c];
  step_rx : contents (rx_queue w') = contents (rx_queue w);
  step_tx : exists sent, contents (tx_queue w') = contents (tx_queue w) ++ sent /\
    Forall (fun m => sendable (co_can w) (of_bytes m)) sent;
  step_shape : same_shape (tx_queue w) (tx_queue w');
  step_can : co_can w' = co_can w;
  step_nodes : counter_od w' = counter_od w /\ handler w' = handler w
}.
Context (dispatch_returns : forall od m w, od <> 0 -> runs (canDispatch od m) w (fun _ => stack_step (Dispatched od m) w))
        (pdo_returns : forall od w, od <> 0 -> runs (sendPDOevent od) w (fun _ => stack_step (PdoEvent od) w)).

Definition dispatched (m : message) : stack_call := Dispatched (app_od (of_bytes m)) (app_data (of_bytes m)).

Lemma dispatch_loop_spec l : forall fuel msg (w : world),
  task_runs (co_os w) -> contents (rx_queue w) = l -> (length l < fuel)%nat ->
  Forall (fun m => app_od (of_bytes m) <> 0) l ->
  runs (dispatch_loop to_bytes of_bytes canDispatch fuel msg) w (fun _ w' =>
    task_runs (co_os w') /\ contents (rx_queue w') = [] /\ co_can w' = co_can w /\
    calls (co_stack w') = calls (co_stack w) ++ map dispatched l).
Proof.
  induction l as [|m l IH]; intros [|fuel] msg w Ht Hc Hf Hods; simpl in Hf; try lia; cbn [dispatch_loop].
  - unfold runs. rewrite (bind_eq _ _ _ _ _ (rx_get_nil msg w Hc)). eexists _, w. split; [done|].
    by rewrite app_nil_r.
  - apply Forall_cons in Hods as [Hod Hods].
    destruct (rx_get_cons msg w m l Ht Hc) as (q & Eq & Hq & _).
    set (w0 := with_rx_queue q w) in *. unfold runs. rewrite (bind_eq _ _ _ _ _ Eq).
    destruct (kernel_lock_eq (co_os w) Ht) as [El _].
    rewrite (bind_eq _ _ w0 0 (with_co_os (vTaskSuspendAll (co_os w)) w0)) by (unfold on_os; simpl; by rewrite El).
    destruct (Z.eqb_spec (app_od (of_bytes m)) 0) as [|_]; [done|]. cbn [negb rhs_assert].
    rewrite (bind_eq _ _ _ tt (with_co_os (vTaskSuspendAll (co_os w)) w0)) by done.
    destruct (dispatch_returns (app_od (of_bytes m)) (app_data (of_bytes m))
      (with_co_os (vTaskSuspendAll (co_os w)) w0) Hod) as ([] & w1 & E1 & [O1 C1 R1 _ _ N1 _]).
    rewrite (bind_eq _ _ _ _ _ E1).
    destruct (kernel_unlock_runs (co_os w) (co_os w1) Ht O1) as (r & s & Es & Os).
    rewrite (bind_eq _ _ w1 r (with_co_os s w1)) by (unfold on_os; by rewrite Es).
    destruct (IH fuel (of_bytes m) (with_co_os s w1)) as (a & w2 & E2 & T2 & Q2 & N2 & C2);
      [by eapply task_runs_like| simpl; by rewrite R1 |lia|done|].
    exists a, w2. split; [exact E2|]. split; [done|]. split; [done|]. split; [by rewrite N2|].
    rewrite C2. simpl. rewrite C1. simpl. by rewrite <- app_assoc.
Qed.

(** *** Transmission *)

Context (tick_rate : Z).
(** A task comes back from a delay as it went into it. *)
Context (delay_keeps : forall ms (s s' : S), rhs_delay_ms tick_rate ms s = Ret (tt, s') -> os_like s s').

(** What sending leaves as it was. *)
Definition only_sent (w w' : world) : Prop :=
  os_like (co_os w) (co_os w') /\ srv_event w' = srv_event w /\ rx_queue w' = rx_queue w /\ co_stack w' = co_stack w /\
  driver_ok (co_can w') /\ forall i, interface_exists i -> up (co_can w') i = up (co_can w) i.

Lemma only_sent_trans w1 w2 w3 : only_sent w1 w2 -> only_sent w2 w3 -> only_sent w1 w3.
Proof.
  intros (O1 & E1 & R1 & K1 & D1 & U1) (O2 & E2 & R2 & K2 & D2 & U2).
  split; [by eapply os_like_trans|]. do 3 (split; [congruence|]). split; [done|].
  intros i Hi. by rewrite U2, U1.
Qed.

Lemma tx_tries_spec n id fr : forall (w : world),
  driver_ok (co_can w) -> interface_exists id -> up (co_can w) id = true -> frame_fits fr ->
  runs (tx_tries tick_rate n id fr) w (fun _ w' => attempts id fr (Datatypes.S n) (co_can w) (co_can w') /\
    only_sent w w' /\ tx_queue w' = tx_queue w).
Proof.
  induction n as [|n IH]; intros w Hok Hid Hup Hfit; unfold runs; cbn [tx_tries];
    destruct (transmit (co_can w) id fr) as [sent d] eqn:Et;
    destruct (transmit_ok _ _ _ Hok Hid Hup Hfit) as [Hd Hu]; rewrite Et in Hd, Hu; simpl in Hd, Hu;
    rewrite (bind_eq _ _ w sent (with_co_can d w)) by (unfold on_can; by rewrite tx_up, Et).
  - eexists tt, _. split; [done|]. split; [|by split].
    destruct sent; [by apply accepted|by apply given_up].
  - destruct sent.
    + eexists tt, _. split; [done|]. split; [by apply accepted|by split].
    + destruct (delay_ms_returns tick_rate 1 (co_os w)) as [s Es].
      rewrite (bind_eq _ _ _ tt (with_co_os s (with_co_can d w))) by (unfold on_os; simpl; by rewrite Es).
      destruct (IH (with_co_os s (with_co_can d w)) Hd Hid) as ([] & w' & E' & A' & O' & Q');
        [simpl; by rewrite Hu|done|].
      exists tt, w'. split; [exact E'|]. split; [by eapply retried|]. split; [|done].
      eapply only_sent_trans; [|exact O']. split; [by apply (delay_keeps 1)|]. by split.
Qed.

Lemma copy_fits {W} dst src len (w : W) : 0 <= len <= 8 -> length dst = 8%nat -> length src = 8%nat ->
  copy_payload dst src len w = Ret (take (Z.to_nat len) src ++ drop (Z.to_nat len) dst, w).
Proof.
  intros Hl Hd Hs. unfold copy_payload. rewrite Hd, Hs, orb_diag. by destruct (Z.ltb_spec (Z.of_nat 8) len); [lia|].
Qed.

Lemma frame_of_carries msg payload :
  0 <= msg_len (app_data msg) <= 8 -> length (msg_data (app_data msg)) = 8%nat -> length payload = 8%nat ->
  carries msg (frame_of msg (take (Z.to_nat (msg_len (app_data msg))) (msg_data (app_data msg)) ++
    drop (Z.to_nat (msg_len (app_data msg))) payload)).
Proof.
  intros Hl Hd Hp. repeat split; try (simpl; lia).
  - cbn [frame_of fr_payload]. rewrite take_app_le by (rewrite length_take; lia). by rewrite take_take, Nat.min_id.
  - cbn [frame_of fr_payload]. rewrite length_app, length_take, length_drop. lia.
Qed.

Lemma sendable_up d d' msg : (forall i, interface_exists i -> up d' i = up d i) -> sendable d msg -> sendable d' msg.
Proof. intros Hu (Hi & Hup & Hl). split; [done|]. split; [by rewrite Hu|done]. Qed.

Lemma tx_loop_spec l : forall fuel msg frame (w : world),
  task_runs (co_os w) -> driver_ok (co_can w) -> contents (tx_queue w) = l -> (length l < fuel)%nat ->
  Forall (fun m => sendable (co_can w) (of_bytes m)) l -> length (fr_payload frame) = 8%nat ->
  runs (tx_loop to_bytes of_bytes tick_rate fuel msg frame) w (fun locals w' =>
    length (fr_payload (snd locals)) = 8%nat /\ only_sent w w' /\
    contents (tx_queue w') = [] /\ sends (map of_bytes l) (co_can w) (co_can w')).
Proof.
  induction l as [|m l IH]; intros [|fuel] msg frame w Ht Hok Hc Hf Hods Hp; simpl in Hf; try lia; cbn [tx_loop]; unfold runs.
  - rewrite (bind_eq _ _ _ _ _ (tx_get_nil msg w Hc)). eexists _, w. split; [done|]. repeat split; try done. constructor.
  - apply Forall_cons in Hods as [(Hid & Hup & Hl & Hd) Hods].
    destruct (tx_get_cons msg w m l Ht Hc) as (q & Eq & Hq & _).
    rewrite (bind_eq _ _ _ _ _ Eq). set (w0 := with_tx_queue q w).
    rewrite (bind_eq _ _ _ _ _ (copy_fits (fr_payload frame) (msg_data (app_data (of_bytes m))) _ w0 Hl Hp Hd)).
    pose proof (frame_of_carries (of_bytes m) (fr_payload frame) Hl Hd Hp) as Hcar.
    set (fr := frame_of (of_bytes m) _) in *. assert (Hfit : frame_fits fr) by apply Hcar.
    destruct (tx_tries_spec 3 (app_can_id (of_bytes m)) fr w0 Hok Hid Hup Hfit) as ([] & w1 & E1 & A1 & O1 & Q1).
    rewrite (bind_eq _ _ _ _ _ E1). pose proof O1 as (Os & _ & _ & _ & Ok1 & U1).
    destruct (IH fuel (of_bytes m) fr w1) as (r & w2 & E2 & P2 & O2 & C2 & S2).
    + by eapply task_runs_like.
    + done.
    + by rewrite Q1.
    + lia.
    + eapply Forall_impl; [exact Hods|]. intros x. by apply sendable_up.
    + apply Hfit.
    + exists r, w2. split; [exact E2|]. split; [done|]. split; [by eapply only_sent_trans; [exact O1|]|].
      split; [done|]. by eapply sends_cons.
Qed.

(** *** The service's round *)

Lemma pdo_loop_spec n : forall i (w : world),
  0 <= i -> (Z.to_nat i + n <= length (handler w))%nat ->
  Forall (fun h => fst h <> 0) (take n (drop (Z.to_nat i) (handler w))) ->
  runs (pdo_loop sendPDOevent n i) w (fun _ w' => os_like (co_os w) (co_os w') /\ co_can w' = co_can w /\
    calls (co_stack w') = calls (co_stack w) ++ map (fun h => PdoEvent (fst h)) (take n (drop (Z.to_nat i) (handler w))) /\
    same_shape (tx_queue w) (tx_queue w') /\ contents (rx_queue w') = contents (rx_queue w) /\
    exists sent, contents (tx_queue w') = contents (tx_queue w) ++ sent /\
      Forall (fun m => sendable (co_can w) (of_bytes m)) sent).
Proof.
  induction n as [|n IH]; intros i w Hi Hlen Hods; cbn [pdo_loop]; unfold runs.
  - eexists tt, w. split; [done|]. rewrite app_nil_r. repeat split; try done. exists []. by rewrite app_nil_r.
  - rewrite (bind_eq _ _ w w w) by done.
    destruct (lookup_lt_is_Some_2 (handler w) (Z.to_nat i)) as [[od id] Hh]; [lia|].
    rewrite (bind_eq _ _ w (od, id) w) by (unfold lift; by rewrite (aget_lookup _ _ (od, id))).
    rewrite (drop_S _ _ _ Hh) in Hods |- *. cbn [take map] in *. apply Forall_cons in Hods as [Hod Hods].
    destruct (pdo_returns od w Hod) as ([] & w1 & E1 & [O1 C1 R1 (sent1 & T1 & F1) Sh1 N1 [_ Hn]]).
    rewrite (bind_eq _ _ _ _ _ E1). replace (Datatypes.S (Z.to_nat i)) with (Z.to_nat (i + 1)) in * by lia.
    rewrite <- Hn in Hods |- *.
    destruct (IH (i + 1) w1) as ([] & w2 & E2 & O2 & N2 & C2 & Sh2 & R2 & sent2 & T2 & F2); [lia|rewrite Hn; lia|done|].
    exists tt, w2. split; [exact E2|]. split; [by eapply os_like_trans|]. split; [congruence|].
    split; [by rewrite C2, C1, <- app_assoc|]. split; [unfold same_shape in *; intuition congruence|].
    split; [congruence|]. exists (sent1 ++ sent2). split; [by rewrite T2, T1, app_assoc|].
    apply Forall_app. split; [done|]. by rewrite <- N1.
Qed.

(** The nodes are registered without gaps, in an array of [MAX_OD]. *)
Definition nodes_ok (w : world) : Prop :=
  length (handler w) = Z.to_nat MAX_OD /\ 0 <= counter_od w <= MAX_OD /\ Forall (fun h => fst h <> 0) (registered_handlers w).

End correctness.

(** ** A stopped interface *)

Section stopped.
Context {S : Type} `{SchedulerLaws S} {E : Type} `{EventGroupLaws E} {Q : Type} `{FreeRTOSQueueLaws Q}.
Context {X : Type} `{FreeRTOSMutexLaws X}.
Context {D : Type} `{CanDriverLaws D can_open_callback} {K CB : Type}.
Abbreviation world := (CanOpenApp S E Q X D K CB).
Context (to_bytes : CanOpenAppMessage -> message) (of_bytes : message -> CanOpenAppMessage).
Context (setState : Z -> e_nodeState -> M world unit).
(** The stack changes its state, and leaves the driver to the service. *)
Context (setState_returns : forall od st w, runs (setState od st) w (fun _ w' => co_can w' = co_can w)).

Lemma find_handler_spec p l h : find_handler p l = Some h -> p h = true.
Proof. induction l as [|x l IH]; cbn [find_handler]; [done|]. destruct (p x) eqn:E'; [by intros [= ->]|done]. Qed.

(** When the driver reports that transmission on an interface went passive, the
    service stops the node and disables the interface. From then on any message for it
    that the service finds in its queue, whether queued before or sent later, stops the
    system. *)
Theorem can_open_stopped_interface_crashes can_id event od (w : world) :
  driver_ok (co_can w) -> interface_exists can_id -> up (co_can w) can_id = true ->
  bits_set event RHSHalCANSCEEventTXPassive = true ->
  find_handler (fun h => can_id =? snd h) (registered_handlers w) = Some (od, can_id) ->
  runs (can_sce_irq_cb setState can_id event true) w (fun _ w1 =>
    up (co_can w1) can_id = false /\
    forall meanwhile tick_rate canDispatch sendPDOevent fuel locals (w2 : world) m l,
      co_can w2 = co_can w1 -> task_runs (co_os w2) -> bits (srv_event w2) = CanOpenAppEventTypeTX ->
      contents (tx_queue w2) = m :: l -> app_can_id (of_bytes m) = can_id ->
      0 <= msg_len (app_data (of_bytes m)) <= 8 -> length (msg_data (app_data (of_bytes m))) = 8%nat ->
      length (fr_payload (snd locals)) = 8%nat -> (0 < fuel)%nat ->
      can_open_service_round to_bytes of_bytes meanwhile tick_rate canDispatch sendPDOevent fuel locals w2 = Crash "Assert").
Proof.
  intros Hok Hid Hup Hev Hfind. unfold can_sce_irq_cb, runs. rewrite (bind_eq _ _ w tt w) by done. rewrite Hev.
  rewrite (bind_eq _ _ w w w) by done. rewrite Hfind.
  destruct (setState_returns od Stopped w) as ([] & w1 & E1 & N1). rewrite (bind_eq _ _ _ _ _ E1).
  rewrite <- N1 in Hok, Hup. destruct (deinit_up _ _ Hok Hid Hup) as ([] & d & E2 & Ok2 & Dn & _).
  rewrite (bind_eq _ _ w1 tt (with_co_can d w1)) by (unfold on_can; by rewrite E2).
  eexists tt, _. split; [reflexivity|]. split; [done|]. cbn [co_can with_co_can with_co_log].
  intros meanwhile tick_rate canDispatch sendPDOevent fuel [msg frame] w2 m l Hd Ht Hb Hc Hm Hl Hlen Hp Hf.
  cbn [snd] in Hp. unfold can_open_service_round.
  destruct (wait_any_now meanwhile srv_event with_srv_event (Z.lor CanOpenAppEventTypeRX
    (Z.lor CanOpenAppEventTypeTX CanOpenAppEventTypePDO)) RHSWaitForever w2 Ht) as (e & Ew & _);
    [split; reflexivity|by rewrite Hb|].
  rewrite (bind_eq _ _ _ _ _ Ew), Hb. cbn beta iota.
  change (CanOpenAppEventTypeTX =? 0) with false. change (CanOpenAppEventTypeTX =? CanOpenAppEventTypeRX) with false.
  change (CanOpenAppEventTypeTX =? CanOpenAppEventTypePDO) with false.
  change (CanOpenAppEventTypeTX =? CanOpenAppEventTypeTX) with true. cbv iota.
  destruct fuel as [|fuel]; [lia|]. cbn [tx_loop]. set (w3 := with_srv_event e w2).
  destruct (tx_get_cons to_bytes of_bytes msg w3 m l Ht Hc) as (q & Eq & _).
  rewrite (bind_eq _ _ _ _ _ Eq).
  rewrite (bind_eq _ _ _ _ _ (copy_fits (fr_payload frame) (msg_data (app_data (of_bytes m))) _ _ Hl Hp Hlen)).
  cbn [tx_tries]. cbv [mbind M_bind on_can]. cbn [co_can with_tx_queue with_srv_event w3].
  rewrite Hm, Hd. by rewrite tx_down.
Qed.
End stopped.

(** ** SDO requests *)

Section sdo.
Context {S : Type} `{SchedulerLaws S} {E : Type} `{EventGroupLaws E} {Q : Type} `{FreeRTOSQueueLaws Q}.
Context {X : Type} `{FreeRTOSMutexLaws X}.
Context {D : Type} `{CanDriverLaws D can_open_callback} {K CB : Type}.
Abbreviation world := (CanOpenApp S E Q X D K CB).
Context (me : Z) (Hme : me <> 0) (meanwhile : M world unit) (OK TIMEOUT : Z).
Context (resetSDO : Z -> M world unit).

(** What the stack and other tasks do while the mutex is taken: they return, in the
    caller's context, and nobody else releases the mutex. *)
Definition keeps_mutex {A} (m : M world A) : Prop := forall w,
  held_mutex me (sdo_mutex w) -> RHS_IS_IRQ_MODE (co_os w) = false ->
  runs m w (fun _ w' => held_mutex me (sdo_mutex w') /\ RHS_IS_IRQ_MODE (co_os w') = false).
Context (meanwhile_keeps : keeps_mutex meanwhile) (reset_keeps : forall d, keeps_mutex (resetSDO d)).

Lemma sdo_release_eq (w : world) : held_mutex me (sdo_mutex w) -> RHS_IS_IRQ_MODE (co_os w) = false ->
  exists q, sdo_mutex_release me w = Ret (RHSStatusOk, with_sdo_mutex q w) /\ free_mutex q.
Proof.
  intros Hh Hi. destruct (release_held (co_os w) me (sdo_mutex w) Hi Hme Hh) as (q & Eq & Hq).
  exists q. split; [|done]. unfold sdo_mutex_release. by rewrite Eq.
Qed.

(** The outcome of a wait for the answer: [e] are the flags when it was over. *)
Lemma read_sdo_flag (w : world) : RHS_IS_IRQ_MODE (co_os w) = false ->
  exists r e e', read_flags sdo_event with_sdo_event EVENT_FLAG_SDO TIMEOUT w = Ret (r, with_sdo_event e' w) /\
    (r =? EVENT_FLAG_SDO) = (bits e =? EVENT_FLAG_SDO) /\
    if Z.testbit (bits (sdo_event w)) 0 then e = sdo_event w /\ bits e' = Z.clearbit (bits e) 0
    else e = sdo_event w \/ flags_elapse (sdo_event w) e.
Proof.
  intros Hi. unfold read_flags, rhs_event_flag_wait, with_valid_flags. rewrite Hi, valid_flags by (split; [done|reflexivity]).
  change (negb (Z.land RHSFlagWaitAny RHSFlagWaitAll =? 0)) with false.
  change (Z.land RHSFlagWaitAny RHSFlagNoClear =? 0) with true.
  pose proof (wait_spec (sdo_event w) EVENT_FLAG_SDO true false TIMEOUT ltac:(split; reflexivity)) as W.
  destruct (xEventGroupWaitBits (sdo_event w) EVENT_FLAG_SDO true false TIMEOUT) as [r e'].
  destruct W as (e & He & -> & Hb).
  assert (Hsat : forall x, satisfied x EVENT_FLAG_SDO false = Z.testbit x 0).
  { intros x. unfold satisfied, EVENT_FLAG_SDO. change (Z.shiftl 1 0) with (Z.ones 1).
    rewrite Z.land_comm, Z.land_ones by lia. rewrite Z.bit0_odd, Zmod_odd. by destruct (Z.odd x). }
  rewrite Hsat in He, Hb. eexists _, e, e'. split; [reflexivity|]. split.
  - fold (EVENT_FLAG_SDO). destruct (Z.eqb_spec (Z.land EVENT_FLAG_SDO (bits e)) 0) as [Hz|Hz]; [|done].
    destruct (Z.eqb_spec (bits e) EVENT_FLAG_SDO) as [Hx|_]; [by rewrite Hx in Hz|]. by destruct (0 <? TIMEOUT).
  - destruct (Z.testbit (bits (sdo_event w)) 0) eqn:Hbit; cbn [orb] in He.
    + subst e. split; [done|]. rewrite Hbit in Hb. cbn in Hb. by rewrite Hb, Z.clearbit_spec'.
    + destruct (TIMEOUT =? 0); [by left|by right].
Qed.

(** The way out when there was no answer. *)
Lemma sdo_give_up d result (w3 : world) : held_mutex me (sdo_mutex w3) -> RHS_IS_IRQ_MODE (co_os w3) = false -> exists w',
  (resetSDO d;; modify (with_sdo_callback None);; co_print (SdoError result);; _ ← sdo_mutex_release me;
   mret (if result =? 0 then -1 else result)) w3 = Ret (if result =? 0 then -1 else result, w') /\
  free_mutex (sdo_mutex w') /\ sdo_callback w' = None.
Proof.
  intros Hh3 Hi3. destruct (reset_keeps d w3 Hh3 Hi3) as ([] & w4 & E4 & Hh4 & Hi4).
  rewrite (bind_eq _ _ _ _ _ E4). rewrite (bind_eq _ _ w4 tt (with_sdo_callback None w4)) by done.
  rewrite (bind_eq _ _ _ tt (with_co_log (co_log w4 ++ [SdoError result]) (with_sdo_callback None w4))) by done.
  destruct (sdo_release_eq (with_co_log (co_log w4 ++ [SdoError result]) (with_sdo_callback None w4)) Hh4 Hi4)
    as (q4 & Eq4 & Hq4).
  rewrite (bind_eq _ _ _ _ _ Eq4). eexists. split; [reflexivity|]. by split.
Qed.

(** The wait and what follows, from the state [w2] in which the flags are read. *)
Lemma sdo_answer d result (w2 : world) : held_mutex me (sdo_mutex w2) -> RHS_IS_IRQ_MODE (co_os w2) = false -> exists r e e' w',
  (flags ← read_flags sdo_event with_sdo_event EVENT_FLAG_SDO TIMEOUT;
   ok ← mret (flags =? EVENT_FLAG_SDO);
   if ok : bool then _ ← sdo_mutex_release me; mret result
   else resetSDO d;; modify (with_sdo_callback None);; co_print (SdoError result);; _ ← sdo_mutex_release me;
        mret (if result =? 0 then -1 else result)) w2 = Ret (r, w') /\ free_mutex (sdo_mutex w') /\
  (if Z.testbit (bits (sdo_event w2)) 0 then e = sdo_event w2 /\ bits e' = Z.clearbit (bits e) 0
   else e = sdo_event w2 \/ flags_elapse (sdo_event w2) e) /\
  if bits e =? EVENT_FLAG_SDO then r = result /\ exists q, w' = with_sdo_mutex q (with_sdo_event e' w2)
  else r = (if result =? 0 then -1 else result) /\ sdo_callback w' = None.
Proof.
  intros Hh2 Hi2. destruct (read_sdo_flag w2 Hi2) as (r & e & e' & Er & Hr & He).
  rewrite (bind_eq _ _ _ _ _ Er), (bind_eq _ _ _ (r =? EVENT_FLAG_SDO) (with_sdo_event e' w2)) by done. rewrite Hr.
  destruct (bits e =? EVENT_FLAG_SDO) eqn:Hbit.
  - destruct (sdo_release_eq (with_sdo_event e' w2) Hh2 Hi2) as (q2 & Eq2 & Hq2). rewrite (bind_eq _ _ _ _ _ Eq2).
    eexists _, e, e', _. split; [reflexivity|]. split; [done|]. split; [done|]. rewrite Hbit. split; [done|]. by exists q2.
  - destruct (sdo_give_up d result (with_sdo_event e' w2) Hh2 Hi2) as (w' & E' & Hf' & Hc'). rewrite E'.
    eexists _, e, e', w'. split; [reflexivity|]. split; [done|]. split; [done|]. by rewrite Hbit.
Qed.

(** C32: an SDO request comes back with the mutex released whatever happens. It returns
    the stack's result, [OK], exactly when the stack accepted the request and the flag of
    the answer was found set; otherwise the callback is forgotten and the result is not 0.
    A flag that is left set from before, as the answer to a request that timed out leaves
    it, is taken for the answer: the request returns [OK] without waiting. *)
Theorem sdo_request_correct request d cb (w : world) :
  RHS_IS_IRQ_MODE (co_os w) = false -> free_mutex (sdo_mutex w) -> keeps_mutex request ->
  runs (sdo_request me meanwhile OK TIMEOUT resetSDO request d cb) w (fun r w' =>
    free_mutex (sdo_mutex w') /\
    exists w0 result w1, sdo_callback w0 = cb /\ held_mutex me (sdo_mutex w0) /\ request w0 = Ret (result, w1) /\
      let failed := r = (if result =? 0 then -1 else result) /\ sdo_callback w' = None in
      if negb (result =? OK) then failed
      else if bits (sdo_event w1) =? EVENT_FLAG_SDO then
        r = OK /\ exists e q, bits e = 0 /\ w' = with_sdo_mutex q (with_sdo_event e w1)
      else exists w2 e, (meanwhile w1 = Ret (tt, w2) \/ w2 = w1) /\
        (e = sdo_event w2 \/ flags_elapse (sdo_event w2) e) /\
        if bits e =? EVENT_FLAG_SDO then r = OK /\ sdo_callback w' = sdo_callback w2 else failed).
Proof.
  intros Hi Hfree Hreq. unfold sdo_request.
  destruct (acquire_free (co_os w) me (sdo_mutex w) RHSWaitForever Hi Hme Hfree) as (q & Eq & Hq).
  unfold runs. rewrite (bind_eq _ _ w RHSStatusOk (with_sdo_mutex q w)) by (unfold sdo_mutex_acquire; by rewrite Eq).
  rewrite (bind_eq _ _ _ tt (with_sdo_mutex q w)) by done.
  set (w0 := with_sdo_callback cb (with_sdo_mutex q w)). rewrite (bind_eq _ _ _ tt w0) by done.
  destruct (Hreq w0 Hq Hi) as (result & w1 & E1 & Hh1 & Hi1). rewrite (bind_eq _ _ _ _ _ E1).
  pose proof (sdo_give_up d result) as Hfail.
  destruct (Z.eqb_spec result OK) as [Hres|Hres]; cbn [negb].
  2: { rewrite (bind_eq _ _ w1 false w1) by done. destruct (Hfail w1 Hh1 Hi1) as (w' & E' & Hf' & Hc').
    eexists _, w'. split; [exact E'|]. split; [done|]. exists w0, result, w1. repeat split; try done; try apply Hq.
    by destruct (Z.eqb_spec result OK). }
  pose proof (sdo_answer d result) as Hwait.
  unfold wait_any. rewrite !bind_assoc, (bind_eq _ _ w1 w1 w1) by done. rewrite bind_assoc.
  destruct (EventFlag.get_spec (sdo_event w1)) as [-> _].
  assert (Hland : Z.land (bits (sdo_event w1)) EVENT_FLAG_SDO = Z.b2z (Z.testbit (bits (sdo_event w1)) 0)).
  { change EVENT_FLAG_SDO with (Z.ones 1). by rewrite Z.land_ones, Z.bit0_mod by lia. }
  rewrite Hland. clear Hland. destruct (Z.testbit (bits (sdo_event w1)) 0) eqn:Hbit; cbn [Z.b2z Z.eqb].
  - rewrite (bind_eq _ _ w1 tt w1) by done.
    destruct (Hwait w1 Hh1 Hi1) as (r & e & e' & w' & Er & Hf' & He & Hr). rewrite Hbit in He. destruct He as [-> He].
    eexists r, w'. split; [exact Er|]. split; [done|]. exists w0, result, w1. split; [done|]. split; [done|].
    split; [done|]. rewrite (proj2 (Z.eqb_eq _ _) Hres). cbn [negb]. revert Hr.
    destruct (Z.eqb_spec (bits (sdo_event w1)) EVENT_FLAG_SDO) as [Hone|Hone]; intros Hr.
    + destruct Hr as (-> & q2 & ->). split; [done|]. exists e', q2. by rewrite He, Hone.
    + exists w1, (sdo_event w1). split; [by right|]. split; [by left|].
      destruct (Z.eqb_spec (bits (sdo_event w1)) EVENT_FLAG_SDO); [done|exact Hr].
  - destruct (meanwhile_keeps w1 Hh1 Hi1) as ([] & w2 & E2 & Hh2 & Hi2). rewrite (bind_eq _ _ _ _ _ E2).
    destruct (Hwait w2 Hh2 Hi2) as (r & e & e' & w' & Er & Hf' & He & Hr).
    eexists r, w'. split; [exact Er|]. split; [done|]. exists w0, result, w1. split; [done|]. split; [done|].
    split; [done|]. rewrite (proj2 (Z.eqb_eq _ _) Hres). cbn [negb].
    destruct (Z.eqb_spec (bits (sdo_event w1)) EVENT_FLAG_SDO) as [Hone|_]; [by rewrite Hone in Hbit|].
    exists w2, e. split; [by left|]. split; [destruct (Z.testbit (bits (sdo_event w2)) 0); [left; apply He|exact He]|].
    revert Hr. destruct (bits e =? EVENT_FLAG_SDO); intros Hr; [|exact Hr]. destruct Hr as (-> & q2 & ->). by split.
Qed.

(** The answer's flag says nothing of how the transfer ended: an aborted one sets it too,
    without a call of the user's callback. *)
Lemma aborted_transfer_sets_flag sdo_line closeSDOtransfer run_sdo_callback dict node (w w1 : world) :
  aborted (sdo_line dict node (co_stack w)) = true -> closeSDOtransfer dict node w = Ret (tt, w1) ->
  can_open_sdo_cb sdo_line closeSDOtransfer run_sdo_callback dict node w = sdo_event_set EVENT_FLAG_SDO w1.
Proof.
  intros Ha E1. unfold can_open_sdo_cb. rewrite (bind_eq _ _ w w w) by done. rewrite Ha. cbn [negb].
  by rewrite (bind_eq _ _ _ _ _ E1).
Qed.
End sdo.
(** [co_set_field] returns the low byte of the stack's error code: an object that does not
    exist, 0x06020000, is reported as success. *)
Lemma co_set_field_truncates {S : Type} `{Scheduler S} {E : Type} `{EventGroup E} {Q X D K CB : Type}
    (setODentry : Z -> Z -> Z -> list Z -> M (CanOpenApp S E Q X D K CB) Z) d ind sub data w w1 :
  setODentry d ind sub data w = Ret (0x06020000, w1) ->
  co_set_field setODentry d ind sub data w = Ret (0, w1).
Proof. intros E1. unfold co_set_field. by rewrite (bind_eq _ _ _ _ _ E1). Qed.

(** ** The real driver keeps the interface *)

Section real_driver.
Context {N H : Type} `{Nvic N} `{CanHw H}.
Context (b : board) (max_syscall_priority : Z).
Abbreviation can_state := (can_world can_open_callback N H).

#[local] Instance rhs_can_driver : CanDriver can_state can_open_callback := {
  can_init := rhs_hal_can_init b;
  can_deinit := rhs_hal_can_deinit b max_syscall_priority;
  can_async_rx_start id cb x := rhs_hal_can_async_rx_start b max_syscall_priority id (Some cb) x;
  can_async_sce id cb x := rhs_hal_can_async_sce b max_syscall_priority id (Some cb) x;
  can_tx := rhs_hal_can_tx b;
  can_rx := rhs_hal_can_rx b;
  can_get_handle id := rhs_hal_can_get_handle 1 1 0 id
}.

(** rcan assigns the peripheral of a handle when it starts it, and nowhere else. *)
Class RcanLaws := {
  send_instance id fr h i : rcan_Instance i (snd (rcan_send id fr h)) = rcan_Instance i h;
  stop_instance id h i : rcan_Instance i (rcan_stop id h) = rcan_Instance i h;
  deactivate_instance id n h i : rcan_Instance i (HAL_CAN_DeactivateNotification id n h) = rcan_Instance i h
}.
Context (Hboard : has_can b = true) {laws : RcanLaws}.

Definition instances_ok (w : can_state) : Prop := forall id c, can_valid b id ->
  rhs_hal_can w !! Z.to_nat id = Some c -> enabled c = true -> rcan_Instance id (can_hw w) = peripheral id.
Definition is_up (w : can_state) (id : Z) : bool :=
  match rhs_hal_can w !! Z.to_nat id with Some c => enabled c | None => false end.
Definition tx_result (w : can_state) (id : Z) (fr : RHSHalCANFrameType) : bool * can_state :=
  match rhs_hal_can_tx b id fr w with Ret r => r | _ => (false, w) end.

Lemma up_running w id : can_inv b w -> instances_ok w -> can_valid b id -> is_up w id = true ->
  exists c, running b w id c.
Proof.
  intros Hw Hin Hi Hup. destruct (can_lookup b w id Hw Hi) as [c Hc]. exists c. unfold is_up in Hup. rewrite Hc in Hup.
  repeat split; try done; try apply Hi. by rewrite (Hin id c).
Qed.

Lemma valid_other id i : can_valid b id -> can_valid b i -> i <> id -> Z.to_nat i <> Z.to_nat id.
Proof. intros [? _] [? _]. lia. Qed.

(** An entry that is replaced by one that is not enabled if it was not. *)
Lemma keeps_up (w t : can_state) id c c' :
  can_valid b id -> rhs_hal_can w !! Z.to_nat id = Some c -> rhs_hal_can t = <[Z.to_nat id := c']> (rhs_hal_can w) ->
  (forall j, rcan_Instance j (can_hw t) = rcan_Instance j (can_hw w)) -> (enabled c' = true -> enabled c = true) ->
  instances_ok w ->
  instances_ok t /\ forall i, can_valid b i -> is_up t i = if decide (i = id) then enabled c' else is_up w i.
Proof.
  intros Hi Hc Ht Hj He Hin. split.
  - intros j cj Hvj Hcj Hej. rewrite Hj. rewrite Ht in Hcj. destruct (decide (j = id)) as [->|Hne].
    + rewrite list_lookup_insert_eq in Hcj by (by eapply lookup_lt_Some). injection Hcj as <-. by apply (Hin id c); auto.
    + rewrite list_lookup_insert_ne in Hcj by (apply not_eq_sym; by apply valid_other). by apply (Hin j cj).
  - intros i Hvi. unfold is_up. rewrite Ht. destruct (decide (i = id)) as [->|Hne].
    + by rewrite list_lookup_insert_eq by (by eapply lookup_lt_Some).
    + by rewrite list_lookup_insert_ne by (apply not_eq_sym; by apply valid_other).
Qed.

Lemma real_tx (w : can_state) id fr : can_inv b w -> instances_ok w -> can_valid b id -> is_up w id = true -> frame_fits fr ->
  rhs_hal_can_tx b id fr w = Ret (tx_result w id fr) /\ can_inv b (snd (tx_result w id fr)) /\
  instances_ok (snd (tx_result w id fr)) /\
  forall i, can_valid b i -> is_up (snd (tx_result w id fr)) i = is_up w i.
Proof.
  intros Hw Hin Hi Hup [Hl Hp]. destruct (up_running w id Hw Hin Hi Hup) as [c Hr].
  pose proof (tx_spec b w id c fr Hr Hp ltac:(lia)) as Et. destruct (Z.ltb_spec 8 (fr_len fr)); [lia|].
  cbn zeta in Et. set (c' := track (tec c) _ set_tec c) in Et.
  pose proof (send_instance id (wire_frame fr) (can_hw w)) as Hs.
  destruct (rcan_send id (wire_frame fr) (can_hw w)) as [sent h]. cbn [snd] in Hs.
  unfold tx_result. rewrite Et. split; [done|]. cbn [snd].
  split; [by eapply (preserves_tx b id fr w sent)|].
  assert (He : enabled (if sent then c' else count inc_tx_ovfs c') = enabled c).
  { unfold c', track. by destruct sent, (tec c =? _). }
  destruct Hr as (_ & Hc & Hec & _). set (t := mkCan _ _ _ _).
  destruct (keeps_up w t id c _ Hi Hc eq_refl Hs ltac:(by rewrite He) Hin) as [H1' H2']. split; [exact H1'|].
  intros i Hvi. rewrite H2' by done. destruct (decide (i = id)) as [->|]; [|done]. unfold is_up. by rewrite Hc, He.
Qed.

Lemma real_tx_down (w : can_state) id fr : can_inv b w -> can_valid b id -> is_up w id = false ->
  rhs_hal_can_tx b id fr w = Crash "Assert".
Proof.
  intros Hw Hi Hup. destruct (can_lookup b w id Hw Hi) as [c Hc]. unfold is_up in Hup. rewrite Hc in Hup.
  unfold rhs_hal_can_tx. cbv [mbind M_bind]. rewrite (assert_enabled_eq b w id c) by done. by rewrite Hup.
Qed.

(** Stopping an interface leaves the peripherals of the others. *)
Lemma deinit_instances id (w w' : can_state) f : (forall i, rcan_Instance i (can_hw w) = f i) ->
  rhs_hal_can_deinit b max_syscall_priority id w = Ret (tt, w') -> forall i, rcan_Instance i (can_hw w') = f i.
Proof.
  set (I := fun w : can_state => forall i, rcan_Instance i (can_hw w) = f i). intros Hw E.
  enough (Hp : preserves I (rhs_hal_can_deinit b max_syscall_priority id)) by exact (Hp w tt w' Hw E). clear w w' Hw E.
  assert (Hset : forall j g x, preserves I (set_isr b max_syscall_priority j g x)).
  { intros j g x w a w' Hw E. unfold set_isr, on_interrupts in E.
    destruct (rhs_hal_interrupt_set_isr b max_syscall_priority (id_value b j) g x (interrupts w)) as [[? i]| | |]; try done.
    by injection E as <- <-. }
  assert (Hde : forall ns, preserves I (deactivate id ns)).
  { induction ns as [|n ns IH]; cbn [deactivate]; [apply preserves_ret|]. apply preserves_bind; [|done].
    intros w a w' Hw [= <- <-] i. cbn [can_hw]. by rewrite deactivate_instance. }
  assert (Hup : forall g, preserves I (update_can id g)).
  { intros g. unfold update_can, can_at. preserve. by apply preserves_modify. }
  unfold rhs_hal_can_deinit, assert_enabled, can_at. destruct (interface b id) as [[[[? sce] tx] rx]|]; preserve; auto.
  intros w u w' Hw [= <- <-] i. cbn [can_hw]. by rewrite stop_instance.
Qed.

Lemma real_deinit (w : can_state) id : can_inv b w -> instances_ok w -> can_valid b id -> is_up w id = true ->
  runs (rhs_hal_can_deinit b max_syscall_priority id) w (fun _ w' => (can_inv b w' /\ instances_ok w') /\
    is_up w' id = false /\ forall i, can_valid b i -> i <> id -> is_up w' i = is_up w i).
Proof.
  intros Hw Hin Hi Hup. destruct (up_running w id Hw Hin Hi Hup) as (c & _ & Hc & He & _).
  destruct (deinit_spec b max_syscall_priority Hboard w id c Hw Hi Hc He) as (n1 & n2 & n3 & h & E & Hw' & _).
  eexists tt, _. split; [exact E|].
  pose proof (deinit_instances id w _ _ (fun _ => eq_refl) E) as Hj.
  destruct (keeps_up w (put_can (cleared b w id n1 n2 n3) id (set_enabled false c) h) id c (set_enabled false c) Hi Hc eq_refl Hj ltac:(done) Hin) as [K1 K2].
  split; [by split|]. split; [|intros i Hvi Hne]; rewrite K2 by done; by destruct (decide _).
Qed.

#[local] Instance rhs_can_driver_laws : CanDriverLaws can_state can_open_callback.
Proof.
  refine {| driver_ok w := can_inv b w /\ instances_ok w; interface_exists := can_valid b; up := is_up;
    transmit w id fr := tx_result w id fr |}.
  - intros w id fr [Hw Hin] Hi Hup Hfit. by destruct (real_tx w id fr Hw Hin Hi Hup Hfit) as [E _].
  - intros w id fr [Hw Hin] Hi Hup Hfit. by destruct (real_tx w id fr Hw Hin Hi Hup Hfit) as (_ & ? & ? & ?).
  - intros w id fr [Hw _] Hi Hup. by apply real_tx_down.
  - intros w id [Hw Hin] Hi Hup. by apply real_deinit.
Defined.
End real_driver.

(** ** A service to instantiate the theorems with

    The real driver on the bus of [Can], queues and flags nobody else uses, and a stack
    that logs the calls it gets. *)

#[local] Instance loop_bus_rcan : RcanLaws (H := loop_bus).
Proof. by split. Defined.
#[local] Instance xl_driver : CanDriver (can_world can_open_callback simple_nvic loop_bus) can_open_callback :=
  rhs_can_driver BMPLC_XL 5.
#[local] Instance xl_driver_laws : CanDriverLaws (can_world can_open_callback simple_nvic loop_bus) can_open_callback :=
  rhs_can_driver_laws BMPLC_XL 5 eq_refl.

Definition xl_state : Type := CanOpenApp os_state group fifo plain_mutex
  (can_world can_open_callback simple_nvic loop_bus) (list stack_call) unit.

Definition plain_bytes (m : CanOpenAppMessage) : message :=
  [app_od m; app_can_id m; cob_id (app_data m); msg_rtr (app_data m); msg_len (app_data m)] ++ msg_data (app_data m).
Definition plain_message (l : message) : CanOpenAppMessage :=
  mkAppMessage (nth 0 l 0) (nth 1 l 0) (mkMessage (nth 2 l 0) (nth 3 l 0) (nth 4 l 0) (drop 5 l)).

Definition log_call (c : stack_call) : M xl_state unit := modify (fun w => with_co_stack (co_stack w ++ [c]) w).

Lemma log_call_steps c w : runs (log_call c) w (fun _ => stack_step plain_message (fun k => k) c w).
Proof.
  eexists tt, _. split; [reflexivity|]. split; try done. exists []. by rewrite app_nil_r.
Qed.

Definition a_message : CanOpenAppMessage := mkAppMessage 100 0 (mkMessage 0x181 0 2 [1; 2; 0; 0; 0; 0; 0; 0]).
Definition xl_can : can_world can_open_callback simple_nvic loop_bus := mkCan
  (mkInterrupt (repeat (mkPair None null_context) (length (interrupt_ids BMPLC_XL))) 0 nvic0)
  [set_enabled true blank] (snd (rcan_start 0 CAN1 500000 bus0)) [].
Definition xl_app (flags : Z) : xl_state :=
  mkApp a_task (mkGroup flags) 1 [(100, 0); (0, 0); (0, 0)] (mkFifo [] 32 20) (mkFifo [plain_bytes a_message] 32 20)
    (mkMutex queueQUEUE_TYPE_MUTEX 0 0) (mkGroup 0) None xl_can [] ∅ [] [].

Lemma xl_driver_ok : driver_ok xl_can.
Proof.
  assert (Hid : forall id, can_valid BMPLC_XL id -> id = 0) by (unfold can_valid; simpl; lia).
  split.
  - split; [reflexivity|reflexivity|]. intros id c k ->%Hid _. exists (mkPair None null_context). by destruct k; split; auto.
  - intros id c ->%Hid _ _. reflexivity.
Qed.

Lemma xl_task : task_runs a_task.
Proof. by repeat split. Qed.

Lemma xl_delay ms (s s' : os_state) : rhs_delay_ms 1000 ms s = Ret (tt, s') -> os_like s s'.
Proof.
  unfold rhs_delay_ms, rhs_delay_tick, rhs_delay_us, configASSERT. munfold. intros E.
  repeat match type of E with context [if ?x then _ else _] => destruct x; try discriminate end;
    by injection E as <-.
Qed.

Lemma xl_sendable flags : Forall (fun m => sendable xl_can (plain_message m)) (contents (tx_queue (xl_app flags))).
Proof.
  change (contents (tx_queue (xl_app flags))) with [plain_bytes a_message]. constructor; [|done].
  change (plain_message (plain_bytes a_message)) with a_message.
  repeat split; simpl; try lia.
Qed.


Theorem can_open_stopped_interface_crashes_witness :
  exists w1, can_sce_irq_cb (fun _ _ => mret tt) 0 RHSHalCANSCEEventTXPassive true (xl_app 0) = Ret (tt, w1) /\
    can_open_service_round plain_bytes plain_message (mret tt) 1000 (fun _ _ => mret tt) (fun _ => mret tt) 33
      (a_message, rcan_frame_zero) (with_co_can (co_can w1) (xl_app 2)) = Crash "Assert".
Proof.
  destruct (can_open_stopped_interface_crashes plain_bytes plain_message (fun _ _ => mret tt)
    (fun _ _ w => runs_ret tt w (fun _ w' => co_can w' = co_can w) eq_refl) 0 RHSHalCANSCEEventTXPassive 100 (xl_app 0)
    xl_driver_ok ltac:(unfold interface_exists; simpl; unfold can_valid; simpl; lia) eq_refl eq_refl eq_refl)
    as ([] & w1 & E & _ & T).
  exists w1. split; [exact E|].
  eapply (T (mret tt) 1000 (fun _ _ => mret tt) (fun _ => mret tt) 33%nat (a_message, rcan_frame_zero));
    [reflexivity|exact xl_task|reflexivity|reflexivity|reflexivity|simpl; lia|reflexivity|reflexivity|lia].
Defined.

Theorem sdo_request_correct_witness :
  runs (co_get_sdo 7 (mret tt) 0 100 (fun _ => mret tt) (fun _ _ _ _ => mret 5) 1 5 0x1000 0 (Some tt)) (xl_app 0)
    (fun r w' => free_mutex (sdo_mutex w') /\ r = 5 /\ sdo_callback w' = None).
Proof.
  assert (Hkeep : forall A (a : A), keeps_mutex (CB := unit) 7 (mret a : M xl_state A))
    by (intros A a w Hh Hi; exists a, w; auto).
  assert (Hme : 7 <> 0) by lia.
  destruct (sdo_request_correct 7 Hme (mret tt) 0 100 (fun _ => mret tt) (Hkeep _ _) (fun _ => Hkeep _ _)
    (mret 5) 1 (Some tt) (xl_app 0) eq_refl ltac:(done) (Hkeep _ _))
    as (r & w' & E & Hf & w0 & result & w1 & _ & _ & E0 & T).
  exists r, w'. split; [exact E|]. injection E as <- <-. split; [exact Hf|]. by split.
Defined.
