(* ===== verification/Serial.v ===== *)
(** * The serial ports (hal/rhs_hal_serial, internal/hal_rs232.c, internal/hal_rs485.c)

    The ports' state, functions and interrupt handlers over the interrupt table of
    [Interrupt], for the three PLC boards (XL and L are an STM32F765, M an STM32F103xE). The
    registers of the USARTs and of the DMA, ST's drivers and the rserial library are the
    parameter [SerialHw]. hal_rs422.c is not part of the build; log lines are left out. *)

From S2P Require Import Prelude Interrupt Gpio.

(** ** Boards *)

Definition has_serial (b : board) : bool := match b with BMPLC_XL | BMPLC_L | BMPLC_M => true | _ => false end.
(** The STM32F765: its USARTs clear flags by ICR, its DMA has streams. *)
Definition stm32f7 (b : board) : bool := match b with BMPLC_M => false | _ => true end.

Definition RHSHalSerialIdRS232 : Z := 0.
Definition RHSHalSerialIdRS485 : Z := 1.
Definition RHSHalSerialIdRS422 : Z := 2.
Definition RHSHalSerialIdMax (b : board) : Z := match b with BMPLC_XL => 2 | _ => 3 end.

Inductive usart := USART3 | USART6 | UART4 | UART5.
#[global] Instance usart_eq_dec : EqDecision usart.
Proof. solve_decision. Defined.
Inductive dma_stream := DMA1_Stream3 | DMA2_Stream1 | DMA2_Stream6 | DMA1_Channel1.

Definition RHS_INTERFACE_RS232 : usart := USART3.
Definition RHS_INTERRUPT_RS232 : RHSHalInterruptId := RHSHalInterruptIdUsart3.
Definition RHS_DMA_TX_RS232 (b : board) : RHSHalInterruptId :=
  if stm32f7 b then RHSHalInterruptIdDMA1Stream3 else RHSHalInterruptIdDMA1Channel2.
Definition RHS_INTERFACE_RS485 (b : board) : usart := if stm32f7 b then USART6 else UART5.
Definition RHS_INTERRUPT_RS485 (b : board) : RHSHalInterruptId :=
  if stm32f7 b then RHSHalInterruptIdUsart6 else RHSHalInterruptIdUart5.
Definition RHS_DMA_TX_RS485 (b : board) : RHSHalInterruptId :=
  if stm32f7 b then RHSHalInterruptIdDMA2Stream6 else RHSHalInterruptIdDMA1Channel2.
Definition RHS_DMA_RX_RS485 (b : board) : RHSHalInterruptId :=
  if stm32f7 b then RHSHalInterruptIdDMA2Stream1 else RHSHalInterruptIdDMA1Channel3.

(** [switch (id)] *)
Inductive serial_case := case_rs232 | case_rs485 | case_rs422 | case_default.
Definition serial_switch (b : board) (id : Z) : serial_case :=
  if id =? RHSHalSerialIdRS232 then case_rs232
  else if id =? RHSHalSerialIdRS485 then case_rs485
  else if (id =? RHSHalSerialIdRS422) && (RHSHalSerialIdMax b =? 3) then case_rs422
  else case_default.

(** ** Events and flags *)

Definition RHSHalSerialRxEventData : Z := Z.shiftl 1 0.
Definition RHSHalSerialRxEventIdle : Z := Z.shiftl 1 1.
Definition RHSHalSerialRxEventFrameError : Z := Z.shiftl 1 2.
Definition RHSHalSerialRxEventNoiseError : Z := Z.shiftl 1 3.
Definition RHSHalSerialRxEventOverrunError : Z := Z.shiftl 1 4.

(** The bits of ISR and ICR (of SR on the STM32F103xE). *)
Definition USART_ISR_PE : Z := Z.shiftl 1 0.
Definition USART_ISR_FE : Z := Z.shiftl 1 1.
Definition USART_ISR_NE : Z := Z.shiftl 1 2.
Definition USART_ISR_ORE : Z := Z.shiftl 1 3.
Definition USART_ISR_IDLE : Z := Z.shiftl 1 4.
Definition USART_ISR_RXNE : Z := Z.shiftl 1 5.
Definition USART_CR3_DMAR : Z := Z.shiftl 1 6.
Definition USART_CR3_DMAT : Z := Z.shiftl 1 7.

Definition RHS_HAL_SERIAL_DMA_BUFFER_SIZE : Z := 1024.

Inductive flow_ctrl := FLOW_CTRL_NONE | FLOW_CTRL_DE.

(** The calls that set a DMA stream up, with their values. *)
Inductive dma_setting :=
  | LL_DMA_SetChannelSelection (channel : Z)
  | LL_DMA_SetDataTransferDirection (to_periph : bool)
  | LL_DMA_SetPeriphAddress (u : usart) (transmit : bool)
  | LL_DMA_SetStreamPriorityLevel_LOW | LL_DMA_SetMode_NORMAL
  | LL_DMA_SetPeriphIncMode (inc : bool) | LL_DMA_SetMemoryIncMode (inc : bool)
  | LL_DMA_SetPeriphSize_BYTE | LL_DMA_SetMemorySize_BYTE | LL_DMA_DisableFifoMode.

(** A pin's set-up: the clocks it needs and HAL_GPIO_Init with its argument. *)
Inductive pin_step :=
  | HAL_RCC_USART_CLK_ENABLE (u : usart) | HAL_RCC_GPIO_CLK_ENABLE (p : gpio_port)
  | HAL_GPIO_Init (p : gpio_port) (init : GPIO_InitTypeDef).

(** The peripherals, and rserial with its handles, one per entry of [rhs_hal_serial]. *)
Class SerialHw (H : Type) := {
  get_IPSR : H -> Z;
  HAL_RCCEx_PeriphCLKConfig : usart -> H -> bool * H;
  serial_pin : pin_step -> H -> H;
  rserial_open : Z -> usart -> Z -> flow_ctrl -> H -> H;
  rserial_close : Z -> H -> H;
  (** [rserial.uart.Instance] *)
  rserial_Instance : Z -> H -> usart;
  USART_ISR : usart -> H -> Z;
  write_ICR : usart -> Z -> H -> H;
  set_CR3 : usart -> Z -> H -> H;
  LL_USART_IsEnabled : usart -> H -> bool;
  LL_USART_IsActiveFlag_TXE : usart -> H -> bool * H;
  LL_USART_TransmitData8 : usart -> Z -> H -> H;
  LL_USART_ReceiveData8 : usart -> H -> Z * H;
  LL_USART_EnableIT_RXNE : usart -> H -> H;
  (** HAL_GPIO_WritePin of GPIOA's pin 15, the driver enable of the PLC M. *)
  write_PA15 : bool -> H -> H;
  LL_AHB1_GRP1_EnableClock : dma_stream -> H -> H;
  clear_EN : dma_stream -> H -> H;
  read_EN : dma_stream -> H -> bool * H;
  LL_DMA_Set : dma_stream -> dma_setting -> H -> H;
  LL_DMA_SetMemoryAddress : dma_stream -> Z -> H -> H;
  LL_DMA_SetDataLength : dma_stream -> Z -> H -> H;
  LL_DMA_GetDataLength : dma_stream -> H -> Z;
  LL_DMA_EnableStream : dma_stream -> H -> H;
  LL_DMA_DisableStream : dma_stream -> H -> H;
  LL_DMA_EnableIT_TC : dma_stream -> H -> H;
  LL_DMA_DisableIT_TC : dma_stream -> H -> H;
  (** The flags of half transfer, transfer complete and transfer error. *)
  LL_DMA_IsActiveFlag_HT : dma_stream -> H -> bool;
  LL_DMA_IsActiveFlag_TC : dma_stream -> H -> bool;
  LL_DMA_IsActiveFlag_TE : dma_stream -> H -> bool;
  LL_DMA_ClearFlag_HT : dma_stream -> H -> H;
  LL_DMA_ClearFlag_TC : dma_stream -> H -> H;
  LL_DMA_ClearFlag_TE : dma_stream -> H -> H
}.

(** ** State *)

(** [CB] are the user's callbacks; contexts and buffers are pointers, 0 for NULL. *)
Record RHSHalSerial (CB : Type) := mkSerial {
  buffer_rx_ptr : Z; buffer_rx_index_write : Z; buffer_rx_index_read : Z;
  enabled : bool;
  rx_byte_callback : option CB; tx_byte_callback : option CB;
  rx_dma_callback : option CB; tx_dma_callback : option CB;
  rx_context : Z; tx_context : Z
}.
Arguments mkSerial {CB}.
Arguments buffer_rx_ptr {CB}.
Arguments buffer_rx_index_write {CB}.
Arguments buffer_rx_index_read {CB}.
Arguments enabled {CB}.
Arguments rx_byte_callback {CB}.
Arguments tx_byte_callback {CB}.
Arguments rx_dma_callback {CB}.
Arguments tx_dma_callback {CB}.
Arguments rx_context {CB}.
Arguments tx_context {CB}.

(** The handlers in the interrupt table: this driver's four, and other drivers'. *)
Inductive serial_isr :=
  | rhs_hal_rs232_irq_callback_isr | rhs_hal_rs232_tx_irq_callback_isr
  | rhs_hal_rs485_rx_irq_callback_isr | rhs_hal_rs485_tx_irq_callback_isr | other_isr (p : Z).
(** [NULL], [&rhs_hal_serial[id]], or another driver's. *)
Inductive serial_context := null_context | serial_of (id : Z) | other_context (p : Z).

Record serial_world (CB N H : Type) := mkSerialWorld {
  serial_interrupts : RHSHalInterrupt serial_isr serial_context N;
  rhs_hal_serial : list (RHSHalSerial CB);
  serial_hw : H
}.
Arguments mkSerialWorld {CB N H}.
Arguments serial_interrupts {CB N H}.
Arguments rhs_hal_serial {CB N H}.
Arguments serial_hw {CB N H}.

#[global] Instance serial_has_interrupts {CB N H} : HasInterrupts serial_isr serial_context N (serial_world CB N H) := {
  interrupts := serial_interrupts;
  set_interrupts i w := mkSerialWorld i (rhs_hal_serial w) (serial_hw w)
}.
#[global] Instance serial_has_interrupts_laws {CB N H} :
  HasInterruptsLaws serial_isr serial_context N (serial_world CB N H).
Proof. split; [done|]. by intros []. Qed.

Section driver.
Context {CB N H : Type} `{Nvic N} `{SerialHw H}.
Context (b : board) (max_syscall_priority : Z).
Abbreviation world := (serial_world CB N H).

Definition serial_at (id : Z) : M world (RHSHalSerial CB) := w ← get; lift (aget (rhs_hal_serial w) id).
Definition update_serial (id : Z) (f : RHSHalSerial CB -> RHSHalSerial CB) : M world unit :=
  s ← serial_at id;
  w ← get;
  l ← lift (aset (rhs_hal_serial w) id (f s));
  modify (fun w => mkSerialWorld (serial_interrupts w) l (serial_hw w)).
Definition hw {A} (f : H -> A * H) : M world A := fun w =>
  let '(a, h) := f (serial_hw w) in Ret (a, mkSerialWorld (serial_interrupts w) (rhs_hal_serial w) h).
Definition hw_ (f : H -> H) : M world unit := hw (fun h => (tt, f h)).
Definition hw_read {A} (f : H -> A) : M world A := gets (fun w => f (serial_hw w)).
Definition when (c : bool) (m : M world unit) : M world unit := if c then m else mret tt.
Definition bits_set (x mask : Z) : bool := negb (Z.land x mask =? 0).
Definition set_isr (i : RHSHalInterruptId) (f : option serial_isr) (c : serial_context) : M world unit :=
  on_interrupts (rhs_hal_interrupt_set_isr b max_syscall_priority (id_value b i) f c).
(** CMSIS's functions, called past the interrupt table. *)
Definition on_nvic (f : N -> N) : M world unit := on_interrupts (modify (with_nvic f)).

Definition set_enabled (e : bool) (s : RHSHalSerial CB) : RHSHalSerial CB :=
  mkSerial (buffer_rx_ptr s) (buffer_rx_index_write s) (buffer_rx_index_read s) e (rx_byte_callback s)
    (tx_byte_callback s) (rx_dma_callback s) (tx_dma_callback s) (rx_context s) (tx_context s).
Definition set_rx (byte dma : option CB) (context : Z) (s : RHSHalSerial CB) : RHSHalSerial CB :=
  mkSerial (buffer_rx_ptr s) (buffer_rx_index_write s) (buffer_rx_index_read s) (enabled s) byte
    (tx_byte_callback s) dma (tx_dma_callback s) context (tx_context s).
Definition set_tx_dma (dma : option CB) (context : Z) (s : RHSHalSerial CB) : RHSHalSerial CB :=
  mkSerial (buffer_rx_ptr s) (buffer_rx_index_write s) (buffer_rx_index_read s) (enabled s) (rx_byte_callback s)
    (tx_byte_callback s) (rx_dma_callback s) dma (rx_context s) context.
Definition set_tx_byte (byte : option CB) (s : RHSHalSerial CB) : RHSHalSerial CB :=
  mkSerial (buffer_rx_ptr s) (buffer_rx_index_write s) (buffer_rx_index_read s) (enabled s) (rx_byte_callback s)
    byte (rx_dma_callback s) (tx_dma_callback s) (rx_context s) (tx_context s).
Definition set_buffer (ptr write read : Z) (s : RHSHalSerial CB) : RHSHalSerial CB :=
  mkSerial ptr write read (enabled s) (rx_byte_callback s)
    (tx_byte_callback s) (rx_dma_callback s) (tx_dma_callback s) (rx_context s) (tx_context s).

(** ** internal/hal_rs232.c and internal/hal_rs485.c *)

Definition not_implemented {A} : M world A := crash "Not implemented".

(** [rhs_assert(context); serial = (RHSHalSerial* ) context]; another driver's context is no
    [RHSHalSerial]. *)
Definition serial_of_context (c : serial_context) : M world Z :=
  match c with null_context => crash "Assert" | serial_of id => mret id | other_context _ => fault end.

Definition rs232_pins : list pin_step :=
  if stm32f7 b then
    [HAL_RCC_USART_CLK_ENABLE USART3; HAL_RCC_GPIO_CLK_ENABLE GPIOD;
     HAL_GPIO_Init GPIOD (mkGpioInit (Z.lor (GPIO_PIN 8) (GPIO_PIN 9)) GPIO_MODE_AF_PP GPIO_NOPULL GPIO_SPEED_FREQ_VERY_HIGH
       (Some GPIO_AF7_USART3))]
  else
    [HAL_RCC_USART_CLK_ENABLE USART3; HAL_RCC_GPIO_CLK_ENABLE GPIOB;
     HAL_GPIO_Init GPIOB (mkGpioInit (GPIO_PIN 10) GPIO_MODE_AF_PP GPIO_NOPULL GPIO_SPEED_FREQ_HIGH None);
     HAL_GPIO_Init GPIOB (mkGpioInit (GPIO_PIN 11) GPIO_MODE_INPUT GPIO_NOPULL GPIO_SPEED_FREQ_HIGH None)].
Definition rs485_pins : list pin_step :=
  if stm32f7 b then
    [HAL_RCC_USART_CLK_ENABLE USART6; HAL_RCC_GPIO_CLK_ENABLE GPIOG; HAL_RCC_GPIO_CLK_ENABLE GPIOC;
     HAL_GPIO_Init GPIOG (mkGpioInit (GPIO_PIN 8) GPIO_MODE_AF_PP GPIO_NOPULL GPIO_SPEED_FREQ_VERY_HIGH (Some GPIO_AF8_USART6));
     HAL_GPIO_Init GPIOC (mkGpioInit (Z.lor (GPIO_PIN 6) (GPIO_PIN 7)) GPIO_MODE_AF_PP GPIO_NOPULL GPIO_SPEED_FREQ_VERY_HIGH
       (Some GPIO_AF8_USART6))]
  else
    [HAL_RCC_USART_CLK_ENABLE UART5; HAL_RCC_GPIO_CLK_ENABLE GPIOC; HAL_RCC_GPIO_CLK_ENABLE GPIOD;
     HAL_RCC_GPIO_CLK_ENABLE GPIOA;
     HAL_GPIO_Init GPIOC (mkGpioInit (GPIO_PIN 12) GPIO_MODE_AF_PP GPIO_NOPULL GPIO_SPEED_FREQ_HIGH None);
     HAL_GPIO_Init GPIOD (mkGpioInit (GPIO_PIN 2) GPIO_MODE_INPUT GPIO_NOPULL GPIO_SPEED_FREQ_HIGH None);
     HAL_GPIO_Init GPIOA (mkGpioInit (GPIO_PIN 15) GPIO_MODE_OUTPUT_PP GPIO_PULLDOWN GPIO_SPEED_FREQ_HIGH None)].

(** The clocks and pins of a port; the STM32F765 has a clock selection before. *)
Definition port_init (u : usart) (pins : list pin_step) : M world unit :=
  (if stm32f7 b then ok ← hw (HAL_RCCEx_PeriphCLKConfig u); rhs_assert ok else mret tt);;
  hw_ (fun h => foldl (fun h p => serial_pin p h) h pins).
Definition rhs_hal_rs232_init : M world unit := port_init USART3 rs232_pins.
Definition rhs_hal_rs485_init : M world unit := port_init (RHS_INTERFACE_RS485 b) rs485_pins.

(** [dma_bytes_available] of hal_rs232.c. *)
Definition dma_bytes_available (serial : Z) : M world Z :=
  dma_remain ← hw_read (LL_DMA_GetDataLength (if stm32f7 b then DMA1_Stream3 else DMA1_Channel1));
  let index_write := u32 (RHS_HAL_SERIAL_DMA_BUFFER_SIZE - dma_remain) in
  update_serial serial (fun s => set_buffer (buffer_rx_ptr s) index_write (buffer_rx_index_read s) s);;
  s ← serial_at serial;
  mret (if buffer_rx_index_read s <=? buffer_rx_index_write s
        then u32 (buffer_rx_index_write s - buffer_rx_index_read s)
        else u32 (RHS_HAL_SERIAL_DMA_BUFFER_SIZE - buffer_rx_index_read s + buffer_rx_index_write s)).

(** One flag of the status register; on the STM32F765 it is cleared by a bit of the same place. *)
Definition take_flag (u : usart) (flag bit event : Z) : M world Z :=
  isr ← hw_read (USART_ISR u);
  if bits_set isr flag then when (stm32f7 b) (hw_ (write_ICR u flag));; mret (Z.lor event bit)
  else mret event.

Definition rx_event (u : usart) : M world Z :=
  isr ← hw_read (USART_ISR u);
  let event := if bits_set isr USART_ISR_RXNE then RHSHalSerialRxEventData else 0 in
  event ← take_flag u USART_ISR_IDLE RHSHalSerialRxEventIdle event;
  event ← take_flag u USART_ISR_ORE RHSHalSerialRxEventOverrunError event;
  event ← take_flag u USART_ISR_NE RHSHalSerialRxEventNoiseError event;
  event ← take_flag u USART_ISR_FE RHSHalSerialRxEventFrameError event;
  take_flag u USART_ISR_PE RHSHalSerialRxEventFrameError event.

(** What the user's callbacks do: on a byte (serial, event, context), on a block (serial,
    event, length, context), on a transmission (serial, context). *)
Context (run_byte : CB -> Z -> Z -> Z -> M world unit) (run_block : CB -> Z -> Z -> Z -> Z -> M world unit)
  (run_tx : CB -> Z -> Z -> M world unit).

Definition byte_received (serial event : Z) : M world unit :=
  s ← serial_at serial;
  match rx_byte_callback s with Some f => run_byte f serial event (rx_context s) | None => mret tt end.

Definition rhs_hal_rs232_irq_callback (context : serial_context) : M world unit :=
  serial ← serial_of_context context;
  event ← rx_event USART3;
  s ← serial_at serial;
  if buffer_rx_ptr s =? 0 then byte_received serial event
  else match rx_dma_callback s with
       | Some f => len ← dma_bytes_available serial; run_block f serial event (u16 len) (rx_context s)
       | None => mret tt
       end.

(** A transmission by DMA has ended. *)
Definition tx_irq_callback (d : dma_stream) (context : serial_context) : M world unit :=
  serial ← serial_of_context context;
  s ← serial_at serial;
  match tx_byte_callback s with
  | Some f => run_tx f serial (tx_context s)
  | None =>
      tc ← hw_read (LL_DMA_IsActiveFlag_TC d);
      when tc (hw_ (LL_DMA_ClearFlag_TC d));;
      match tx_dma_callback s with Some f => run_tx f serial (tx_context s) | None => mret tt end
  end.
Definition rhs_hal_rs232_tx_irq_callback (context : serial_context) : M world unit :=
  if stm32f7 b then tx_irq_callback DMA1_Stream3 context else not_implemented.
Definition rhs_hal_rs485_tx_irq_callback (context : serial_context) : M world unit :=
  if stm32f7 b then tx_irq_callback DMA2_Stream6 context else not_implemented.

(** [dma_bytes_available] of the STM32F103xE's hal_rs485.c returns no value: its use is
    undefined. *)
Definition rhs_hal_rs485_rx_irq_callback (context : serial_context) : M world unit :=
  serial ← serial_of_context context;
  event ← rx_event (RHS_INTERFACE_RS485 b);
  s ← serial_at serial;
  if buffer_rx_ptr s =? 0 then byte_received serial event
  else if stm32f7 b then
    te ← hw_read (LL_DMA_IsActiveFlag_TE DMA2_Stream1);
    (if negb te then
       match rx_dma_callback s with
       | Some f =>
           len ← hw_read (LL_DMA_GetDataLength DMA2_Stream1);
           run_block f serial event (u16 len) (rx_context s)
       | None => mret tt
       end
     else hw_ (LL_DMA_ClearFlag_TE DMA2_Stream1));;
    tc ← hw_read (LL_DMA_IsActiveFlag_TC DMA2_Stream1);
    when tc (hw_ (LL_DMA_ClearFlag_TC DMA2_Stream1))
  else match rx_dma_callback s with Some _ => fault | None => mret tt end.

(** *** DMA *)

Definition dma_start (d : dma_stream) (buffer buffer_size : Z) : M world unit :=
  hw_ (LL_DMA_SetMemoryAddress d buffer);; hw_ (LL_DMA_SetDataLength d buffer_size);; hw_ (LL_DMA_EnableStream d).
Definition dma_stop (d : dma_stream) (q : IRQn_Type) : M world unit :=
  hw_ (LL_DMA_SetMemoryAddress d 0);; hw_ (LL_DMA_SetDataLength d 0);; hw_ (LL_DMA_DisableStream d);;
  hw_ (LL_DMA_DisableIT_TC d);; on_nvic (NVIC_DisableIRQ q).

(** [while (stream->CR & DMA_SxCR_EN);] *)
Fixpoint wait_disabled (fuel : nat) (d : dma_stream) : M world unit :=
  match fuel with
  | O => hang
  | S fuel => en ← hw (read_EN d); if en : bool then wait_disabled fuel d else mret tt
  end.
Fixpoint dma_set (d : dma_stream) (l : list dma_setting) : M world unit :=
  match l with [] => mret tt | x :: l => hw_ (LL_DMA_Set d x);; dma_set d l end.

Definition dma_settings (channel : Z) (u : usart) (transmit : bool) : list dma_setting :=
  [LL_DMA_SetChannelSelection channel; LL_DMA_SetDataTransferDirection transmit; LL_DMA_SetPeriphAddress u transmit;
   LL_DMA_SetStreamPriorityLevel_LOW; LL_DMA_SetMode_NORMAL; LL_DMA_SetPeriphIncMode false; LL_DMA_SetMemoryIncMode true;
   LL_DMA_SetPeriphSize_BYTE; LL_DMA_SetMemorySize_BYTE].

Definition enable_dma_irq (d : dma_stream) (q : IRQn_Type) : M world unit :=
  hw_ (LL_DMA_EnableIT_TC d);;
  on_nvic (fun n => NVIC_EnableIRQ q (NVIC_SetPriority q (NVIC_EncodePriority (NVIC_GetPriorityGrouping n) 10 0) n)).

Definition tx_dma_configure (fuel : nat) (u : usart) (channel : Z) (d : dma_stream) (q : IRQn_Type) : M world unit :=
  hw_ (set_CR3 u USART_CR3_DMAT);;
  hw_ (LL_AHB1_GRP1_EnableClock d);;
  hw_ (clear_EN d);;
  wait_disabled fuel d;;
  dma_set d (dma_settings channel u true ++ [LL_DMA_DisableFifoMode]);;
  enable_dma_irq d q.

Definition rhs_hal_rs232_async_tx_dma_configure (fuel : nat) : M world unit :=
  if stm32f7 b then tx_dma_configure fuel USART3 4 DMA1_Stream3 DMA1_Stream3_IRQn else not_implemented.
Definition rhs_hal_rs485_async_tx_dma_configure (fuel : nat) : M world unit :=
  if stm32f7 b then tx_dma_configure fuel USART6 5 DMA2_Stream6 DMA2_Stream6_IRQn else not_implemented.

Definition clear_if (flag : H -> bool) (clear : H -> H) : M world unit := c ← hw_read flag; when c (hw_ clear).

Definition rhs_hal_rs485_async_rx_dma_configure (fuel : nat) : M world unit :=
  if stm32f7 b then
    let d := DMA2_Stream1 in
    hw_ (set_CR3 USART6 USART_CR3_DMAR);;
    hw_ (LL_AHB1_GRP1_EnableClock d);;
    hw_ (clear_EN d);;
    wait_disabled fuel d;;
    dma_set d (dma_settings 5 USART6 false);;
    clear_if (LL_DMA_IsActiveFlag_HT d) (LL_DMA_ClearFlag_HT d);;
    clear_if (LL_DMA_IsActiveFlag_TC d) (LL_DMA_ClearFlag_TC d);;
    clear_if (LL_DMA_IsActiveFlag_TE d) (LL_DMA_ClearFlag_TE d);;
    enable_dma_irq d DMA2_Stream1_IRQn
  else not_implemented.

Definition rhs_hal_rs232_async_tx_dma_start (buffer buffer_size : Z) : M world unit :=
  if stm32f7 b then dma_start DMA1_Stream3 buffer buffer_size else not_implemented.
Definition rhs_hal_rs485_async_tx_dma_start (buffer buffer_size : Z) : M world unit :=
  if stm32f7 b then dma_start DMA2_Stream6 buffer buffer_size else not_implemented.
Definition rhs_hal_rs485_async_rx_dma_start (buffer buffer_size : Z) : M world unit :=
  if stm32f7 b then dma_start DMA2_Stream1 buffer buffer_size else not_implemented.
Definition rhs_hal_rs485_async_tx_dma_stop : M world unit :=
  if stm32f7 b then dma_stop DMA2_Stream6 DMA2_Stream6_IRQn else not_implemented.
Definition rhs_hal_rs485_async_rx_dma_stop : M world unit :=
  if stm32f7 b then dma_stop DMA2_Stream1 DMA2_Stream1_IRQn else not_implemented.

(** What the handlers in the interrupt table do. *)
Context (run_other : Z -> serial_context -> M world unit).
Definition run_serial_isr (f : serial_isr) (c : serial_context) : M world unit :=
  match f with
  | rhs_hal_rs232_irq_callback_isr => rhs_hal_rs232_irq_callback c
  | rhs_hal_rs232_tx_irq_callback_isr => rhs_hal_rs232_tx_irq_callback c
  | rhs_hal_rs485_rx_irq_callback_isr => rhs_hal_rs485_rx_irq_callback c
  | rhs_hal_rs485_tx_irq_callback_isr => rhs_hal_rs485_tx_irq_callback c
  | other_isr p => run_other p c
  end.

(** ** rhs_hal_serial.c

    A handle is the position of an entry of [rhs_hal_serial], [None] for NULL. *)

Definition no_rs422 {A} : M world A := crash "Not implemented RHSHalSerialIdRS422".
Definition no_serial_id {A} : M world A := crash "No serial id".

(** [serial->...] *)
Definition serial_deref (serial : option Z) : M world (RHSHalSerial CB) :=
  match serial with Some id => serial_at id | None => fault end.
Definition update_handle (serial : option Z) (f : RHSHalSerial CB -> RHSHalSerial CB) : M world unit :=
  match serial with Some id => update_serial id f | None => fault end.

Definition rhs_hal_serial_get_id (serial : option Z) : M world Z :=
  match serial with
  | None => crash "Assert"
  | Some id => if (0 <=? id) && (id <? RHSHalSerialIdMax b) then mret id else crash "No serial handle"
  end.

(** [(int) baud] *)
Definition int_of (baud : Z) : Z := if baud <? 2 ^ 31 then baud else baud - 2 ^ 32.

Definition rhs_hal_serial_init (id baud : Z) : M world (option Z) :=
  s ← serial_at id;
  rhs_assert (negb (enabled s));;
  (match serial_switch b id with
   | case_rs232 =>
       rhs_hal_rs232_init;;
       hw_ (rserial_open RHSHalSerialIdRS232 USART3 (int_of baud) FLOW_CTRL_NONE);;
       update_serial RHSHalSerialIdRS232 (set_enabled true)
   | case_rs485 =>
       rhs_hal_rs485_init;;
       hw_ (rserial_open RHSHalSerialIdRS485 (RHS_INTERFACE_RS485 b) (int_of baud) FLOW_CTRL_DE);;
       update_serial RHSHalSerialIdRS485 (set_enabled true)
   | case_rs422 => no_rs422
   | case_default => no_serial_id
   end);;
  mret (Some id).

Definition rhs_hal_serial_deinit (serial : option Z) : M world unit :=
  id ← rhs_hal_serial_get_id serial;
  s ← serial_at id;
  rhs_assert (enabled s);;
  (match serial_switch b id with
   | case_rs232 =>
       set_isr RHS_INTERRUPT_RS232 None null_context;;
       set_isr (RHS_DMA_TX_RS232 b) None null_context
   | case_rs485 =>
       rhs_hal_rs485_async_tx_dma_stop;;
       rhs_hal_rs485_async_rx_dma_stop;;
       set_isr (RHS_INTERRUPT_RS485 b) None null_context;;
       set_isr (RHS_DMA_RX_RS485 b) None null_context;;
       set_isr (RHS_DMA_TX_RS485 b) None null_context
   | case_rs422 => no_rs422
   | case_default => no_serial_id
   end);;
  hw_ (rserial_close id);;
  update_serial id (set_enabled false).

(** [while (!LL_USART_IsActiveFlag_TXE(...));] *)
Fixpoint wait_txe (fuel : nat) (u : usart) : M world unit :=
  match fuel with
  | O => hang
  | S fuel => txe ← hw (LL_USART_IsActiveFlag_TXE u); if txe : bool then mret tt else wait_txe fuel u
  end.
Fixpoint tx_loop (polls : nat) (u : usart) (buffer_size : nat) (buffer : list Z) : M world unit :=
  match buffer_size with
  | O => mret tt
  | S buffer_size =>
      wait_txe polls u;;
      byte ← lift (aget buffer 0);
      hw_ (LL_USART_TransmitData8 u byte);;
      tx_loop polls u buffer_size (drop 1 buffer)
  end.

Definition rhs_hal_serial_tx (polls : nat) (serial : option Z) (buffer : list Z) (buffer_size : Z) : M world unit :=
  s ← serial_deref serial;
  rhs_assert (enabled s);;
  u ← hw_read (rserial_Instance (default 0 serial));
  on ← hw_read (LL_USART_IsEnabled u);
  if negb on then mret tt
  else
    when (negb (stm32f7 b)) (hw_ (write_PA15 true));;
    tx_loop polls u (Z.to_nat buffer_size) buffer;;
    when (negb (stm32f7 b)) (hw_ (write_PA15 false)).

Definition rhs_hal_serial_async_tx_dma_configure (fuel : nat) (serial : option Z) (callback : option CB) (context : Z)
    : M world unit :=
  id ← rhs_hal_serial_get_id serial;
  update_handle serial (set_tx_dma callback context);;
  match serial_switch b id with
  | case_rs232 =>
      set_isr (RHS_DMA_TX_RS232 b) (Some rhs_hal_rs232_tx_irq_callback_isr) (serial_of id);;
      rhs_hal_rs232_async_tx_dma_configure fuel
  | case_rs485 =>
      set_isr (RHS_DMA_TX_RS485 b) (Some rhs_hal_rs485_tx_irq_callback_isr) (serial_of id);;
      rhs_hal_rs485_async_tx_dma_configure fuel
  | case_rs422 => no_rs422
  | case_default => no_serial_id
  end.

Definition rhs_hal_serial_async_tx_dma_start (serial : option Z) (buffer buffer_size : Z) : M world unit :=
  id ← rhs_hal_serial_get_id serial;
  update_handle serial (set_tx_byte None);;
  match serial_switch b id with
  | case_rs232 => rhs_hal_rs232_async_tx_dma_start buffer buffer_size
  | case_rs485 => rhs_hal_rs485_async_tx_dma_start buffer buffer_size
  | case_rs422 => no_rs422
  | case_default => no_serial_id
  end.

Definition rhs_hal_serial_async_rx_start (serial : option Z) (callback : option CB) (context : Z) : M world unit :=
  id ← rhs_hal_serial_get_id serial;
  s ← serial_deref serial;
  rhs_assert (enabled s);;
  rhs_assert (negb (is_null callback));;
  update_handle serial (set_rx callback None context);;
  match serial_switch b id with
  | case_rs232 =>
      hw_ (LL_USART_EnableIT_RXNE RHS_INTERFACE_RS232);;
      set_isr RHS_INTERRUPT_RS232 (Some rhs_hal_rs232_irq_callback_isr) (serial_of id)
  | case_rs485 =>
      hw_ (LL_USART_EnableIT_RXNE (RHS_INTERFACE_RS485 b));;
      set_isr (RHS_INTERRUPT_RS485 b) (Some rhs_hal_rs485_rx_irq_callback_isr) (serial_of id)
  | case_rs422 => no_rs422
  | case_default => no_serial_id
  end.

Definition rhs_hal_serial_async_rx (serial : option Z) : M world Z :=
  id ← rhs_hal_serial_get_id serial;
  s ← serial_deref serial;
  rhs_assert (enabled s);;
  ipsr ← hw_read get_IPSR;
  rhs_assert (negb (ipsr =? 0));;
  match serial_switch b id with
  | case_rs232 | case_rs485 =>
      u ← hw_read (rserial_Instance id);
      byte ← hw (LL_USART_ReceiveData8 u);
      mret byte
  | case_rs422 => no_rs422
  | case_default => no_serial_id
  end.

Definition rhs_hal_serial_async_rx_dma_configure (fuel : nat) (serial : option Z) (callback : option CB) (context : Z)
    : M world unit :=
  id ← rhs_hal_serial_get_id serial;
  s ← serial_deref serial;
  rhs_assert (enabled s);;
  rhs_assert (negb (is_null callback));;
  update_handle serial (fun s => set_rx None callback context (set_buffer 0 0 0 s));;
  match serial_switch b id with
  | case_rs232 => crash "Not implemented RHSHalSerialIdRS232"
  | case_rs485 =>
      set_isr (RHS_INTERRUPT_RS485 b) None null_context;;
      set_isr (RHS_DMA_RX_RS485 b) (Some rhs_hal_rs485_rx_irq_callback_isr) (serial_of id);;
      rhs_hal_rs485_async_rx_dma_configure fuel
  | case_rs422 => no_rs422
  | case_default => no_serial_id
  end.

Definition rhs_hal_serial_async_rx_dma_start (serial : option Z) (buffer buffer_size : Z) : M world unit :=
  id ← rhs_hal_serial_get_id serial;
  match serial_switch b id with
  | case_rs232 => crash "Not implemented RHSHalSerialIdRS232"
  | case_rs485 =>
      update_handle serial (fun s => set_buffer buffer (buffer_rx_index_write s) (buffer_rx_index_read s) s);;
      rhs_hal_rs485_async_rx_dma_start buffer buffer_size
  | case_rs422 => no_rs422
  | case_default => no_serial_id
  end.
End driver.

(** ** What the hardware's documentation promises *)

Class SerialLaws (H : Type) `{SerialHw H} := {
  (** The bytes handed to a transmitter, with the level of PA15 then. *)
  uart_out : usart -> H -> list (Z * bool);
  pa15 : H -> bool;
  (** Polls until the transmit register is empty. *)
  txe_wait : usart -> H -> nat;
  max_txe : nat;
  txe_wait_le u h : (txe_wait u h <= max_txe)%nat;
  txe_spec u h : let '(txe, h') := LL_USART_IsActiveFlag_TXE u h in
    (forall u', uart_out u' h' = uart_out u' h) /\ pa15 h' = pa15 h /\
    (txe = true \/ (txe_wait u h' < txe_wait u h)%nat);
  transmit_spec u c h : let h' := LL_USART_TransmitData8 u c h in
    (forall u', uart_out u' h' = if decide (u' = u) then uart_out u h ++ [(c, pa15 h)] else uart_out u' h) /\
    pa15 h' = pa15 h;
  write_PA15_spec v h : pa15 (write_PA15 v h) = v /\ forall u, uart_out u (write_PA15 v h) = uart_out u h;
  write_ICR_spec u c h : USART_ISR u (write_ICR u c h) = Z.ldiff (USART_ISR u h) c
}.

(** The event of a status register: a bit per flag, parity errors among the framing errors. *)
Definition event_of (isr : Z) : Z :=
  let bit flag value := if bits_set isr flag then value else 0 in
  Z.lor (Z.lor (Z.lor (Z.lor (Z.lor (bit USART_ISR_RXNE RHSHalSerialRxEventData) (bit USART_ISR_IDLE RHSHalSerialRxEventIdle))
    (bit USART_ISR_ORE RHSHalSerialRxEventOverrunError)) (bit USART_ISR_NE RHSHalSerialRxEventNoiseError))
    (bit USART_ISR_FE RHSHalSerialRxEventFrameError)) (bit USART_ISR_PE RHSHalSerialRxEventFrameError).
(** The flags the handler clears, on the STM32F765. *)
Definition cleared_flags : Z :=
  Z.lor (Z.lor (Z.lor (Z.lor USART_ISR_IDLE USART_ISR_ORE) USART_ISR_NE) USART_ISR_FE) USART_ISR_PE.

Section lemmas.
Context {CB N H : Type} `{NvicLaws N} `{SerialLaws H}.
Context (b : board) (max_syscall_priority : Z).
Abbreviation world := (serial_world CB N H).
Implicit Types w : world.

Definition with_hw w (h : H) : world := mkSerialWorld (serial_interrupts w) (rhs_hal_serial w) h.
Definition put_serial w (id : Z) (s : RHSHalSerial CB) : world :=
  mkSerialWorld (serial_interrupts w) (<[Z.to_nat id := s]> (rhs_hal_serial w)) (serial_hw w).

Lemma serial_at_eq w id s : 0 <= id -> rhs_hal_serial w !! Z.to_nat id = Some s -> serial_at id w = Ret (s, w).
Proof. intros Hi Hs. unfold serial_at. munfold. by rewrite (aget_lookup _ _ s). Qed.
Lemma update_serial_eq w id f s : 0 <= id -> rhs_hal_serial w !! Z.to_nat id = Some s ->
  update_serial id f w = Ret (tt, put_serial w id (f s)).
Proof.
  intros Hi Hs. unfold update_serial. rewrite (bind_eq _ _ _ _ _ (serial_at_eq w id s Hi Hs)). munfold.
  rewrite aset_in; [done|]. apply lookup_lt_Some in Hs. lia.
Qed.

(** *** Status flags *)

Lemma ldiff_unset isr flag : bits_set isr flag = false -> Z.ldiff isr flag = isr.
Proof.
  unfold bits_set. intros E%negb_false_iff%Z.eqb_eq. rewrite Z.ldiff_land. apply Z.bits_inj'. intros n Hn.
  rewrite Z.land_spec, Z.lnot_spec by done. apply (f_equal (fun z => Z.testbit z n)) in E.
  rewrite Z.land_spec, Z.bits_0 in E. by destruct (Z.testbit isr n), (Z.testbit flag n).
Qed.
Lemma bits_set_ldiff isr f f' : Z.ldiff f' f = f' -> bits_set (Z.ldiff isr f) f' = bits_set isr f'.
Proof.
  intros E. unfold bits_set. f_equal. f_equal. apply Z.bits_inj'. intros n Hn.
  rewrite !Z.land_spec, Z.ldiff_spec. apply (f_equal (fun z => Z.testbit z n)) in E. rewrite Z.ldiff_spec in E.
  by destruct (Z.testbit isr n), (Z.testbit f n), (Z.testbit f' n).
Qed.
Lemma ldiff_lor isr f g : Z.ldiff (Z.ldiff isr f) g = Z.ldiff isr (Z.lor f g).
Proof. apply Z.bits_inj'. intros n Hn. rewrite !Z.ldiff_spec, Z.lor_spec. by destruct (Z.testbit isr n), (Z.testbit f n), (Z.testbit g n). Qed.

Lemma take_flag_eq u flag bit event w : exists h,
  take_flag b u flag bit event w = Ret (Z.lor event (if bits_set (USART_ISR u (serial_hw w)) flag then bit else 0), with_hw w h) /\
  USART_ISR u h = if stm32f7 b then Z.ldiff (USART_ISR u (serial_hw w)) flag else USART_ISR u (serial_hw w).
Proof.
  unfold take_flag, hw_read. rewrite (bind_eq _ _ _ _ _ eq_refl).
  destruct (bits_set _ flag) eqn:E.
  - destruct (stm32f7 b) eqn:E7.
    + exists (write_ICR u flag (serial_hw w)). split; [done|apply write_ICR_spec].
    + exists (serial_hw w). split; [by destruct w|done].
  - exists (serial_hw w). rewrite Z.lor_0_r, ldiff_unset by done. split; [by destruct w|by destruct (stm32f7 b)].
Qed.

Lemma rx_event_eq u w : exists h,
  rx_event b u w = Ret (event_of (USART_ISR u (serial_hw w)), with_hw w h) /\
  USART_ISR u h = if stm32f7 b then Z.ldiff (USART_ISR u (serial_hw w)) cleared_flags else USART_ISR u (serial_hw w).
Proof.
  unfold rx_event, hw_read. rewrite (bind_eq _ _ _ _ _ eq_refl). set (isr := USART_ISR u (serial_hw w)).
  destruct (take_flag_eq u USART_ISR_IDLE RHSHalSerialRxEventIdle
    (if bits_set isr USART_ISR_RXNE then RHSHalSerialRxEventData else 0) w) as (h1 & E1 & I1). rewrite (bind_eq _ _ _ _ _ E1). fold isr in I1 |- *.
  edestruct (take_flag_eq u USART_ISR_ORE RHSHalSerialRxEventOverrunError) as (h2 & E2 & I2). rewrite (bind_eq _ _ _ _ _ E2).
  edestruct (take_flag_eq u USART_ISR_NE RHSHalSerialRxEventNoiseError) as (h3 & E3 & I3). rewrite (bind_eq _ _ _ _ _ E3).
  edestruct (take_flag_eq u USART_ISR_FE RHSHalSerialRxEventFrameError) as (h4 & E4 & I4). rewrite (bind_eq _ _ _ _ _ E4).
  edestruct (take_flag_eq u USART_ISR_PE RHSHalSerialRxEventFrameError) as (h5 & E5 & I5). rewrite E5.
  cbn [with_hw serial_hw] in *. exists h5. rewrite I5, I4, I3, I2, I1. unfold event_of.
  destruct (stm32f7 b); [|done]. rewrite !ldiff_lor. split; [|done].
  repeat (rewrite (bits_set_ldiff isr) by reflexivity). done.
Qed.

(** *** The interrupt table *)

Lemma position_in i l : i ∈ l -> 0 <= position i l < Z.of_nat (length l).
Proof.
  induction 1 as [|x l Hi IH]; cbn [position length]; [rewrite decide_True by done; lia|]. destruct (decide _); lia.
Qed.
Lemma id_value_in i : i ∈ interrupt_ids b -> 0 <= id_value b i < RHSHalInterruptIdMax b.
Proof. apply position_in. Qed.

Definition put_isr w (i : RHSHalInterruptId) (d : RHSHalInterruptISRPair serial_isr serial_context) (n : N) : world :=
  mkSerialWorld (mkInterrupt (<[Z.to_nat (id_value b i) := d]> (isrs (serial_interrupts w)))
    (counter_time_in_isr_total (serial_interrupts w)) n) (rhs_hal_serial w) (serial_hw w).
Definition table_entry w (i : RHSHalInterruptId) : option (RHSHalInterruptISRPair serial_isr serial_context) :=
  handler (serial_interrupts w) (id_value b i).

Lemma set_isr_eq w i f c : well_sized b (serial_interrupts w) -> i ∈ interrupt_ids b ->
  exists d, table_entry w i = Some d /\
    if is_null f || is_null (isr d) then
      exists n, set_isr b max_syscall_priority i f c w = Ret (tt, put_isr w i (mkPair f c) n)
    else set_isr b max_syscall_priority i f c w = Crash "Assert".
Proof.
  intros Hw Hi. pose proof (id_value_in i Hi) as Hr.
  pose proof (set_isr_ex_spec b max_syscall_priority (serial_interrupts w) (id_value b i) RHSHalInterruptPriorityNormal f c Hw) as Hs.
  destruct (Z.leb_spec 0 (id_value b i)), (Z.ltb_spec (id_value b i) (RHSHalInterruptIdMax b)); try lia.
  change (valid_priority RHSHalInterruptPriorityNormal) with true in Hs. cbn [andb] in Hs.
  destruct Hs as (q & d & _ & Hd & Hs). exists d. split; [done|].
  unfold set_isr, on_interrupts, rhs_hal_interrupt_set_isr. cbn [interrupts serial_has_interrupts].
  destruct (is_null f || is_null (isr d)); rewrite Hs; [|done]. by eexists.
Qed.

Lemma well_sized_put w i d n : well_sized b (serial_interrupts w) -> well_sized b (serial_interrupts (put_isr w i d n)).
Proof. unfold well_sized, put_isr. cbn. by rewrite length_insert. Qed.

Lemma table_entry_put w i d n : well_sized b (serial_interrupts w) -> i ∈ interrupt_ids b ->
  table_entry (put_isr w i d n) i = Some d.
Proof.
  intros Hw Hi. pose proof (id_value_in i Hi). unfold table_entry, handler, put_isr. cbn.
  apply list_lookup_insert_eq. unfold well_sized in Hw. lia.
Qed.
Lemma table_entry_put_same w i j d n :
  well_sized b (serial_interrupts w) -> i ∈ interrupt_ids b -> table_entry w j = Some d ->
  table_entry (put_isr w i d n) j = Some d.
Proof.
  intros Hw Hi Hj. destruct (decide (Z.to_nat (id_value b i) = Z.to_nat (id_value b j))) as [E|E].
  - pose proof (table_entry_put w i d n Hw Hi) as E2. unfold table_entry, handler in *. by rewrite <- E.
  - unfold table_entry, handler, put_isr in *. cbn. by rewrite list_lookup_insert_ne.
Qed.

Lemma clear_isr_eq w i : well_sized b (serial_interrupts w) -> i ∈ interrupt_ids b ->
  exists n, set_isr b max_syscall_priority i None null_context w = Ret (tt, put_isr w i (mkPair None null_context) n).
Proof. intros Hw Hi. by destruct (set_isr_eq w i None null_context Hw Hi) as (d & _ & E). Qed.

(** The ports' interrupts are in the table. *)
Lemma serial_ids : has_serial b = true ->
  RHS_INTERRUPT_RS232 ∈ interrupt_ids b /\ RHS_DMA_TX_RS232 b ∈ interrupt_ids b /\
  RHS_INTERRUPT_RS485 b ∈ interrupt_ids b /\ RHS_DMA_TX_RS485 b ∈ interrupt_ids b /\ RHS_DMA_RX_RS485 b ∈ interrupt_ids b.
Proof. by destruct b; intros; try done; cbn; set_solver. Qed.
End lemmas.

(** ** Properties *)

Section properties.
Context {CB N H : Type} `{NvicLaws N} `{SerialLaws H}.
Context (b : board) (max_syscall_priority : Z) (Hboard : has_serial b = true).
Abbreviation world := (serial_world CB N H).
Implicit Types w : world.

(** *** Transmission *)

Lemma wait_txe_eq fuel u w : (txe_wait u (serial_hw w) < fuel)%nat -> exists h,
  wait_txe fuel u w = Ret (tt, with_hw w h) /\ (forall u', uart_out u' h = uart_out u' (serial_hw w)) /\
  pa15 h = pa15 (serial_hw w).
Proof.
  revert w. induction fuel as [|fuel IH]; intros w Hf; [lia|]. cbn [wait_txe].
  pose proof (txe_spec u (serial_hw w)) as Ht. destruct (LL_USART_IsActiveFlag_TXE u (serial_hw w)) as [txe h1] eqn:E1.
  destruct Ht as (Ho & Hp & Ht).
  assert (E : hw (LL_USART_IsActiveFlag_TXE u) w = Ret (txe, with_hw w h1)) by (unfold hw; by rewrite E1).
  rewrite (bind_eq _ _ _ _ _ E). destruct txe; [by exists h1|].
  destruct Ht as [|Ht]; [done|]. destruct (IH (with_hw w h1)) as (h & E2 & Ho2 & Hp2); [cbn; lia|].
  exists h. rewrite E2. split; [done|]. cbn [with_hw serial_hw] in *. split; [|congruence]. intros u'. by rewrite Ho2.
Qed.

Lemma tx_loop_eq polls u n buffer w : (max_txe < polls)%nat ->
  if (n <=? length buffer)%nat then exists h,
    tx_loop polls u n buffer w = Ret (tt, with_hw w h) /\ pa15 h = pa15 (serial_hw w) /\
    forall u', uart_out u' h = if decide (u' = u)
      then uart_out u (serial_hw w) ++ map (fun c => (c, pa15 (serial_hw w))) (take n buffer) else uart_out u' (serial_hw w)
  else tx_loop polls u n buffer w = Fault.
Proof.
  intros Hp. revert buffer w. induction n as [|n IH]; intros buffer w.
  { exists (serial_hw w). cbn. destruct w. split; [done|]. split; [done|]. intros u'. destruct (decide _) as [->|]; [|done]. by rewrite app_nil_r. }
  cbn [tx_loop]. destruct (wait_txe_eq polls u w) as (h1 & E1 & Ho1 & Hp1).
  { pose proof (txe_wait_le u (serial_hw w)). lia. }
  rewrite (bind_eq _ _ _ _ _ E1). destruct buffer as [|c buffer]; [done|]. cbn [length drop].
  rewrite (bind_eq _ _ (with_hw w h1) c (with_hw w h1)) by done.
  set (h2 := LL_USART_TransmitData8 u c h1). destruct (transmit_spec u c h1) as [Ho2 Hp2]. fold h2 in Ho2, Hp2.
  rewrite (bind_eq _ _ _ tt (with_hw w h2)) by done. specialize (IH buffer (with_hw w h2)).
  change (S n <=? S (length buffer))%nat with (n <=? length buffer)%nat. destruct (n <=? length buffer)%nat; [|exact IH].
  destruct IH as (h & E & Hp3 & Ho3). exists h. cbn [with_hw serial_hw] in *. split; [exact E|]. split; [congruence|].
  intros u'. rewrite Ho3, Hp2, Hp1. destruct (decide (u' = u)) as [->|Hne].
  - rewrite Ho2, Ho1, Hp1, decide_True by done. cbn [take map]. by rewrite <- app_assoc.
  - rewrite Ho2, decide_False by done. apply Ho1.
Qed.

(** What [rhs_hal_serial_tx] does up to the loop, on a port whose USART is on. *)
Lemma serial_tx_enabled polls id s buffer buffer_size w : 0 <= id -> rhs_hal_serial w !! Z.to_nat id = Some s ->
  enabled s = true -> LL_USART_IsEnabled (rserial_Instance id (serial_hw w)) (serial_hw w) = true -> (max_txe < polls)%nat ->
  let u := rserial_Instance id (serial_hw w) in
  let de := if stm32f7 b then pa15 (serial_hw w) else true in
  if (Z.to_nat buffer_size <=? length buffer)%nat then exists h,
    rhs_hal_serial_tx b polls (Some id) buffer buffer_size w = Ret (tt, with_hw w h) /\
    (forall u', uart_out u' h = uart_out u' (serial_hw w) ++
      if decide (u' = u) then map (fun c => (c, de)) (take (Z.to_nat buffer_size) buffer) else []) /\
    pa15 h = if stm32f7 b then pa15 (serial_hw w) else false
  else rhs_hal_serial_tx b polls (Some id) buffer buffer_size w = Fault.
Proof.
  intros Hi Hs He Hon Hp u de. unfold rhs_hal_serial_tx, serial_deref. rewrite (bind_eq _ _ _ _ _ (serial_at_eq w id s Hi Hs)), He.
  cbn [rhs_assert]. rewrite M_bind_ret. change (default 0 (Some id)) with id. unfold hw_read.
  rewrite !(bind_eq _ _ _ _ _ eq_refl), Hon. fold u. cbn [negb].
  set (h1 := if stm32f7 b then serial_hw w else write_PA15 true (serial_hw w)).
  assert (E1 : when (negb (stm32f7 b)) (hw_ (write_PA15 true)) w = Ret (tt, with_hw w h1)).
  { subst h1. destruct (stm32f7 b); [by destruct w|done]. }
  rewrite (bind_eq _ _ _ _ _ E1). pose proof (write_PA15_spec true (serial_hw w)) as [P1 O1].
  assert (Hh1 : pa15 h1 = de /\ forall u', uart_out u' h1 = uart_out u' (serial_hw w)) by (subst h1 de; by destruct (stm32f7 b)).
  destruct Hh1 as [Hde Ho]. pose proof (tx_loop_eq polls u (Z.to_nat buffer_size) buffer (with_hw w h1) Hp) as Ht.
  destruct (Nat.leb_spec (Z.to_nat buffer_size) (length buffer)) as [Hl|Hl]; [|cbv [mbind M_bind]; by rewrite Ht].
  destruct Ht as (h2 & E2 & P2 & O2). cbn [with_hw serial_hw] in *.
  rewrite (bind_eq _ _ _ _ _ E2). exists (if stm32f7 b then h2 else write_PA15 false h2).
  pose proof (write_PA15_spec false h2) as [P3 O3].
  split; [by destruct (stm32f7 b)|]. rewrite Hde in *. split.
  - intros u'. transitivity (uart_out u' h2); [by destruct (stm32f7 b)|]. rewrite O2, !Ho.
    destruct (decide (u' = u)) as [->|]; [done|by rewrite app_nil_r].
  - subst de. destruct (stm32f7 b); congruence.
Qed.

(** A transmission hands the transmitter exactly the bytes asked for, in order, and nothing
    to the others; on the PLC M the RS485 driver is enabled while they are handed over and
    disabled when the last one is. It comes back however slow the transmitter is; it does
    nothing when the USART is off, stops the system on a port that is not open, and reads
    beyond a buffer that is shorter than it says. *)
Theorem serial_tx_correct polls id s buffer buffer_size w :
  0 <= id -> rhs_hal_serial w !! Z.to_nat id = Some s -> (max_txe < polls)%nat -> 0 <= buffer_size ->
  let u := rserial_Instance id (serial_hw w) in
  let de := if stm32f7 b then pa15 (serial_hw w) else true in
  if negb (enabled s) then rhs_hal_serial_tx b polls (Some id) buffer buffer_size w = Crash "Assert"
  else if negb (LL_USART_IsEnabled u (serial_hw w)) then rhs_hal_serial_tx b polls (Some id) buffer buffer_size w = Ret (tt, w)
  else if Z.of_nat (length buffer) <? buffer_size then rhs_hal_serial_tx b polls (Some id) buffer buffer_size w = Fault
  else exists h,
    rhs_hal_serial_tx b polls (Some id) buffer buffer_size w = Ret (tt, with_hw w h) /\
    (forall u', uart_out u' h = uart_out u' (serial_hw w) ++
      if decide (u' = u) then map (fun c => (c, de)) (take (Z.to_nat buffer_size) buffer) else []) /\
    pa15 h = if stm32f7 b then pa15 (serial_hw w) else false.
Proof.
  intros Hi Hs Hp Hn u de. pose proof (serial_tx_enabled polls id s buffer buffer_size w Hi Hs) as Ht.
  destruct (enabled s) eqn:He, (LL_USART_IsEnabled u (serial_hw w)) eqn:Hon; cbn [negb];
    try (unfold rhs_hal_serial_tx, serial_deref; rewrite (bind_eq _ _ _ _ _ (serial_at_eq w id s Hi Hs)), He; munfold;
         change (default 0 (Some id)) with id; unfold hw_read, gets; fold u; rewrite ?Hon; done).
  specialize (Ht eq_refl Hon Hp). cbn zeta in Ht. fold u de in Ht.
  destruct (Nat.leb_spec (Z.to_nat buffer_size) (length buffer)), (Z.ltb_spec (Z.of_nat (length buffer)) buffer_size); lia || done.
Qed.

(** *** Reception byte by byte *)

Context (run_byte : CB -> Z -> Z -> Z -> M world unit) (run_block : CB -> Z -> Z -> Z -> Z -> M world unit)
  (run_tx : CB -> Z -> Z -> M world unit) (run_other : Z -> serial_context -> M world unit)
  (CYCCNT : world -> Z) (tud_int Default_Handler : M world unit).
Abbreviation run_isr := (run_serial_isr b run_byte run_block run_tx run_other).

Definition rx_interrupt (id : Z) : RHSHalInterruptId := if id =? 0 then RHS_INTERRUPT_RS232 else RHS_INTERRUPT_RS485 b.
Definition rx_usart (id : Z) : usart := if id =? 0 then USART3 else RHS_INTERFACE_RS485 b.
Definition rx_handler (id : Z) : serial_isr :=
  if id =? 0 then rhs_hal_rs232_irq_callback_isr else rhs_hal_rs485_rx_irq_callback_isr.

(** The receive handler of a port in byte mode. *)
Lemma rx_handler_eq id s f w : id = 0 \/ id = 1 -> rhs_hal_serial w !! Z.to_nat id = Some s ->
  rx_byte_callback s = Some f -> rx_dma_callback s = None -> buffer_rx_ptr s = 0 \/ stm32f7 b = false \/ id = 0 ->
  exists h, (USART_ISR (rx_usart id) h =
      if stm32f7 b then Z.ldiff (USART_ISR (rx_usart id) (serial_hw w)) cleared_flags else USART_ISR (rx_usart id) (serial_hw w)) /\
    run_isr (rx_handler id) (serial_of id) w =
      (if buffer_rx_ptr s =? 0 then run_byte f id (event_of (USART_ISR (rx_usart id) (serial_hw w))) (rx_context s) else mret tt)
      (with_hw w h).
Proof.
  intros Hid Hs Hf Hd Hp. destruct (rx_event_eq b (rx_usart id) w) as (h & E & Hh). exists h. split; [exact Hh|].
  assert (Ea : serial_at id (with_hw w h) = Ret (s, with_hw w h)) by (apply serial_at_eq; [lia|done]).
  destruct Hid as [->| ->]; cbn [rx_handler rx_usart Z.eqb] in *; unfold run_serial_isr.
  - unfold rhs_hal_rs232_irq_callback. rewrite (bind_eq _ _ w 0 w eq_refl).
    rewrite (bind_eq _ _ _ _ _ E), (bind_eq _ _ _ _ _ Ea).
    destruct (buffer_rx_ptr s =? 0); [unfold byte_received; rewrite (bind_eq _ _ _ _ _ Ea), Hf; done|by rewrite Hd].
  - unfold rhs_hal_rs485_rx_irq_callback. rewrite (bind_eq _ _ w 1 w eq_refl).
    rewrite (bind_eq _ _ _ _ _ E), (bind_eq _ _ _ _ _ Ea).
    destruct (Z.eqb_spec (buffer_rx_ptr s) 0); [unfold byte_received; rewrite (bind_eq _ _ _ _ _ Ea), Hf; done|].
    destruct Hp as [|[->|]]; [done| |done]. by rewrite Hd.
Qed.

(** What [rhs_hal_serial_async_rx_start] leaves when it returns. *)
Lemma rx_start_inv id cb x w w1 :
  well_sized b (serial_interrupts w) ->
  rhs_hal_serial_async_rx_start b max_syscall_priority (Some id) (Some cb) x w = Ret (tt, w1) ->
  (id = 0 \/ id = 1) /\ exists s, rhs_hal_serial w !! Z.to_nat id = Some s /\ enabled s = true /\
    rhs_hal_serial w1 = <[Z.to_nat id := set_rx (Some cb) None x s]> (rhs_hal_serial w) /\
    table_entry b w1 (rx_interrupt id) = Some (mkPair (Some (rx_handler id)) (serial_of id)).
Proof.
  intros Hw E. unfold rhs_hal_serial_async_rx_start, rhs_hal_serial_get_id in E.
  destruct ((0 <=? id) && (id <? RHSHalSerialIdMax b)) eqn:Hr; [|done]. rewrite M_bind_ret in E.
  apply andb_true_iff in Hr as [Hi%Z.leb_le _]. cbn [serial_deref] in E.
  destruct (rhs_hal_serial w !! Z.to_nat id) as [s|] eqn:Hs.
  2: { unfold serial_at in E. munfold. unfold aget in E. destruct (id <? 0); [done|]. by rewrite Hs in E. }
  rewrite (bind_eq _ _ _ _ _ (serial_at_eq w id s Hi Hs)) in E. destruct (enabled s) eqn:He; [|done].
  cbn [rhs_assert is_null negb] in E. rewrite !M_bind_ret in E. cbn [update_handle] in E.
  rewrite (bind_eq _ _ _ _ _ (update_serial_eq w id _ s Hi Hs)) in E. set (w2 := put_serial w id _) in *.
  destruct (serial_ids b Hboard) as (I1 & _ & I2 & _).
  assert (Hcase : forall u i f, i ∈ interrupt_ids b ->
    (hw_ (LL_USART_EnableIT_RXNE u);; set_isr b max_syscall_priority i (Some f) (serial_of id)) w2 = Ret (tt, w1) ->
    rhs_hal_serial w1 = rhs_hal_serial w2 /\ table_entry b w1 i = Some (mkPair (Some f) (serial_of id))).
  { intros u i f Hin E2. set (w3 := with_hw w2 (LL_USART_EnableIT_RXNE u (serial_hw w2))).
    rewrite (bind_eq _ _ _ tt w3) in E2 by done.
    destruct (set_isr_eq b max_syscall_priority w3 i (Some f) (serial_of id) Hw Hin) as (d & _ & Hset).
    destruct (is_null (Some f) || is_null (isr d)); [|congruence]. destruct Hset as [n Hset]. rewrite Hset in E2.
    injection E2 as <-. split; [done|]. by apply table_entry_put. }
  unfold serial_switch, RHSHalSerialIdRS232, RHSHalSerialIdRS485 in E.
  destruct (Z.eqb_spec id 0) as [->|]; [|destruct (Z.eqb_spec id 1) as [->|]; [|by destruct (_ && _)]].
  - split; [by left|]. exists s. split; [done|]. split; [done|]. exact (Hcase _ _ _ I1 E).
  - split; [by right|]. exists s. split; [done|]. split; [done|]. exact (Hcase _ _ _ I2 E).
Qed.

(** Once reception byte by byte has started on a port, every interrupt of its USART calls
    the user's callback once, with the port, the event that the status flags say and the
    user's context, after clearing the flags that are not cleared by reading; if the port still
    has the buffer of an earlier reception by DMA, nobody is called and what was received is
    lost. On the STM32F765 boards the interrupt of the RS485 port does not get there: it ends in
    the startup code's handler. *)
Theorem serial_byte_received tinyusb id cb x w w1 :
  well_sized b (serial_interrupts w) ->
  rhs_hal_serial_async_rx_start b max_syscall_priority (Some id) (Some cb) x w = Ret (tt, w1) ->
  exists s, rhs_hal_serial w !! Z.to_nat id = Some s /\ enabled s = true /\ forall h,
  let w2 := with_hw w1 h in
  let taken := IRQHandler b tinyusb run_isr CYCCNT tud_int Default_Handler
    (initialized (rx_interrupt id) (irqn_initializer b)) w2 in
  if stm32f7 b && (id =? 1) then taken = Default_Handler w2
  else exists h', USART_ISR (rx_usart id) h' =
      (if stm32f7 b then Z.ldiff (USART_ISR (rx_usart id) h) cleared_flags else USART_ISR (rx_usart id) h) /\
    taken = ((if buffer_rx_ptr s =? 0 then run_byte cb id (event_of (USART_ISR (rx_usart id) h)) x else mret tt);;
             end_ ← gets CYCCNT; on_interrupts (modify (account (u32 (end_ - CYCCNT w2))))) (with_hw w1 h').
Proof.
  intros Hw E. destruct (rx_start_inv id cb x w w1 Hw E) as (Hid & s & Hs & He & Hs1 & Ht). exists s.
  split; [done|]. split; [done|]. intros h w2 taken.
  destruct (stm32f7 b && (id =? 1)) eqn:Hdead.
  { apply andb_true_iff in Hdead as [H7 ->%Z.eqb_eq]. unfold taken, rx_interrupt. by destruct b. }
  assert (Hlive : stm32f7 b = false \/ id = 0).
  { destruct (stm32f7 b); [|by left]. destruct Hid as [->| ->]; [by right|done]. }
  assert (Hs2 : rhs_hal_serial w2 !! Z.to_nat id = Some (set_rx (Some cb) None x s)).
  { cbn [w2 with_hw rhs_hal_serial]. rewrite Hs1. apply list_lookup_insert_eq. by eapply lookup_lt_Some. }
  destruct (rx_handler_eq id _ cb w2 Hid Hs2 eq_refl eq_refl (or_intror Hlive)) as (h' & Hh & Er).
  exists h'. split; [exact Hh|]. cbn [set_rx buffer_rx_ptr rx_context] in Er.
  assert (Hin : rx_interrupt id ∈ interrupt_ids b).
  { destruct (serial_ids b Hboard) as (I1 & _ & I2 & _). unfold rx_interrupt. by destruct (id =? 0). }
  assert (Hcall : rhs_hal_interrupt_call run_isr CYCCNT (id_value b (rx_interrupt id)) w2 =
    ((if buffer_rx_ptr s =? 0 then run_byte cb id (event_of (USART_ISR (rx_usart id) h)) x else mret tt);;
     end_ ← gets CYCCNT; on_interrupts (modify (account (u32 (end_ - CYCCNT w2))))) (with_hw w1 h')).
  { rewrite (call_registered run_isr CYCCNT w2 _ (mkPair (Some (rx_handler id)) (serial_of id))).
    - cbn [isr context]. unfold mbind at 1 3, M_bind at 1 3. by rewrite Er.
    - exact Ht.
    - by apply id_value_in. }
  rewrite <- Hcall. subst taken. unfold IRQHandler.
  assert (Hv : vector b tinyusb (initialized (rx_interrupt id) (irqn_initializer b)) = Some [InterruptCall (rx_interrupt id)]).
  { unfold rx_interrupt. destruct Hid as [->| ->]; cbn [Z.eqb]; [by destruct b|]. destruct Hlive; [by destruct b|done]. }
  rewrite Hv. cbn [run_vector]. cbv [mbind M_bind mret M_ret].
  by destruct (rhs_hal_interrupt_call _ _ _ _) as [[[] ?]|?| |].
Qed.

(** *** Opening and closing *)

Definition free_entry w (i : RHSHalInterruptId) : Prop := exists c, table_entry b w i = Some (mkPair None c).
(** The interrupts of a port. *)
Definition port_interrupts (id : Z) : list RHSHalInterruptId :=
  if id =? 0 then [RHS_INTERRUPT_RS232; RHS_DMA_TX_RS232 b]
  else [RHS_INTERRUPT_RS485 b; RHS_DMA_RX_RS485 b; RHS_DMA_TX_RS485 b].

Lemma switch_0 : serial_switch b 0 = case_rs232.
Proof. done. Qed.
Lemma switch_1 : serial_switch b 1 = case_rs485.
Proof. done. Qed.

Lemma port_init_eq u l w : (stm32f7 b = true -> fst (HAL_RCCEx_PeriphCLKConfig u (serial_hw w)) = true) ->
  exists h, port_init b u l w = Ret (tt, with_hw w h).
Proof.
  intros Hok. unfold port_init. destruct (stm32f7 b); [|by eexists]. specialize (Hok eq_refl).
  unfold hw at 1. rewrite bind_assoc. destruct (HAL_RCCEx_PeriphCLKConfig u (serial_hw w)) as [ok h] eqn:E. cbn in Hok. subst ok.
  rewrite (bind_eq _ _ w true (with_hw w h)); [by eexists|]. by rewrite E.
Qed.

Lemma serial_init_eq id baud s w : id = 0 \/ id = 1 -> rhs_hal_serial w !! Z.to_nat id = Some s -> enabled s = false ->
  (stm32f7 b = true -> fst (HAL_RCCEx_PeriphCLKConfig (rx_usart id) (serial_hw w)) = true) ->
  exists h, rhs_hal_serial_init b id baud w = Ret (Some id, put_serial (with_hw w h) id (set_enabled true s)).
Proof.
  intros Hid Hs He Hok. unfold rhs_hal_serial_init. assert (Hi : 0 <= id) by lia.
  rewrite (bind_eq _ _ _ _ _ (serial_at_eq w id s Hi Hs)), He. cbn [negb rhs_assert]. rewrite M_bind_ret.
  destruct (port_init_eq (rx_usart id) (if id =? 0 then rs232_pins b else rs485_pins b) w Hok) as [h1 E1].
  assert (Hup : forall id' h, id' = id -> update_serial id' (set_enabled true) (with_hw w h) =
    Ret (tt, put_serial (with_hw w h) id (set_enabled true s))) by (intros id' h ->; by apply update_serial_eq).
  destruct Hid as [->| ->]; cbn [rx_usart Z.eqb] in E1; unfold rhs_hal_rs232_init, rhs_hal_rs485_init; rewrite ?switch_0, ?switch_1.
  - rewrite bind_assoc, (bind_eq _ _ _ _ _ E1), bind_assoc.
    rewrite (bind_eq _ _ (with_hw w h1) tt (with_hw w (rserial_open 0 USART3 (int_of baud) FLOW_CTRL_NONE h1))) by done.
    rewrite (bind_eq _ _ _ _ _ (Hup 0 _ eq_refl)). by eexists.
  - rewrite bind_assoc, (bind_eq _ _ _ _ _ E1), bind_assoc.
    rewrite (bind_eq _ _ (with_hw w h1) tt (with_hw w (rserial_open 1 (RHS_INTERFACE_RS485 b) (int_of baud) FLOW_CTRL_DE h1))) by done.
    rewrite (bind_eq _ _ _ _ _ (Hup 1 _ eq_refl)). by eexists.
Qed.

Lemma rx_start_eq id s cb x w : well_sized b (serial_interrupts w) -> id = 0 \/ id = 1 ->
  rhs_hal_serial w !! Z.to_nat id = Some s -> enabled s = true ->
  exists d, table_entry b w (rx_interrupt id) = Some d /\
  if is_null (isr d) then exists w1,
    rhs_hal_serial_async_rx_start b max_syscall_priority (Some id) (Some cb) x w = Ret (tt, w1) /\
    well_sized b (serial_interrupts w1)
  else rhs_hal_serial_async_rx_start b max_syscall_priority (Some id) (Some cb) x w = Crash "Assert".
Proof.
  intros Hw Hid Hs He. assert (Hi : 0 <= id) by lia. unfold rhs_hal_serial_async_rx_start, rhs_hal_serial_get_id.
  assert ((0 <=? id) && (id <? RHSHalSerialIdMax b) = true) as -> by (destruct Hid as [->| ->]; by destruct b).
  rewrite M_bind_ret. cbn [serial_deref update_handle]. rewrite (bind_eq _ _ _ _ _ (serial_at_eq w id s Hi Hs)), He.
  cbn [rhs_assert is_null negb]. rewrite !M_bind_ret, (bind_eq _ _ _ _ _ (update_serial_eq w id _ s Hi Hs)).
  set (w2 := put_serial w id _). destruct (serial_ids b Hboard) as (I1 & _ & I2 & _).
  assert (Hcase : forall u i f, i ∈ interrupt_ids b -> exists d, table_entry b w i = Some d /\
    let m := (hw_ (LL_USART_EnableIT_RXNE u);; set_isr b max_syscall_priority i (Some f) (serial_of id)) w2 in
    if is_null (isr d) then exists w1, m = Ret (tt, w1) /\ well_sized b (serial_interrupts w1) else m = Crash "Assert").
  { intros u i f Hin. set (w3 := with_hw w2 (LL_USART_EnableIT_RXNE u (serial_hw w2))).
    destruct (set_isr_eq b max_syscall_priority w3 i (Some f) (serial_of id) Hw Hin) as (d & Hd & Hset). exists d.
    split; [exact Hd|]. cbn zeta. rewrite (bind_eq _ _ w2 tt w3) by done. cbn [is_null orb] in Hset.
    destruct (is_null (isr d)); [|done]. destruct Hset as [n Hset]. rewrite Hset. eexists. split; [done|].
    by apply well_sized_put. }
  destruct Hid as [->| ->]; apply Hcase; [exact I1|exact I2].
Qed.

(** Another state of the peripherals and the NVIC. *)
Definition same_table w w' : Prop :=
  rhs_hal_serial w' = rhs_hal_serial w /\ isrs (serial_interrupts w') = isrs (serial_interrupts w).

Lemma dma_stop_eq d q w : exists w', dma_stop d q w = Ret (tt, w') /\ same_table w w'.
Proof. unfold dma_stop. by eexists. Qed.

Lemma clear_entry w i : well_sized b (serial_interrupts w) -> i ∈ interrupt_ids b ->
  exists w', set_isr b max_syscall_priority i None null_context w = Ret (tt, w') /\
    well_sized b (serial_interrupts w') /\ rhs_hal_serial w' = rhs_hal_serial w /\ free_entry w' i /\
    forall j, free_entry w j -> free_entry w' j.
Proof.
  intros Hw Hi. destruct (clear_isr_eq b max_syscall_priority w i Hw Hi) as [n E]. eexists. split; [exact E|].
  split; [by apply well_sized_put|]. split; [done|].
  assert (Hf : free_entry (put_isr b w i (mkPair None null_context) n) i) by (eexists; by apply table_entry_put).
  split; [done|]. intros j [c Hj].
  destruct (decide (Z.to_nat (id_value b i) = Z.to_nat (id_value b j))) as [Eq|Ne].
  - destruct Hf as [c' Hf]. exists c'. unfold table_entry, handler in *. by rewrite <- Eq.
  - exists c. unfold table_entry, handler, put_isr in *. cbn. by rewrite list_lookup_insert_ne.
Qed.

Fixpoint clear_entries (l : list RHSHalInterruptId) : M world unit :=
  match l with [] => mret tt | i :: l => set_isr b max_syscall_priority i None null_context;; clear_entries l end.
Lemma clear_entries_eq l w : well_sized b (serial_interrupts w) -> Forall (fun i => i ∈ interrupt_ids b) l ->
  exists w', clear_entries l w = Ret (tt, w') /\ rhs_hal_serial w' = rhs_hal_serial w /\
    well_sized b (serial_interrupts w') /\ (forall j, j ∈ l \/ free_entry w j -> free_entry w' j).
Proof.
  intros Hw Hl. revert w Hw. induction Hl as [|i l Hi Hl IH]; intros w Hw.
  { exists w. repeat split; try done. intros j [Hj|]; [by apply elem_of_nil in Hj|done]. }
  cbn [clear_entries]. destruct (clear_entry w i Hw Hi) as (w1 & E1 & Hw1 & Hs1 & Hf1 & Hk1). rewrite (bind_eq _ _ _ _ _ E1).
  destruct (IH w1 Hw1) as (w2 & E2 & Hs2 & Hw2 & Hk2). exists w2. split; [done|]. split; [congruence|]. split; [done|].
  intros j [[->|Hj]%elem_of_cons|Hj]; apply Hk2; auto.
Qed.

(** The code clears the entries one after the other. *)
Lemma clear_two i j (k : M world unit) w :
  ((set_isr b max_syscall_priority i None null_context;; set_isr b max_syscall_priority j None null_context);; k) w =
  (clear_entries [i; j];; k) w.
Proof.
  cbn [clear_entries]. cbv [mbind M_bind mret M_ret]. destruct (set_isr _ _ i _ _ w) as [[[] w1]| | |]; [|done..].
  by destruct (set_isr _ _ j _ _ w1) as [[[] ?]| | |].
Qed.
Lemma clear_three i j l (k : M world unit) w :
  ((set_isr b max_syscall_priority i None null_context;; set_isr b max_syscall_priority j None null_context;;
    set_isr b max_syscall_priority l None null_context);; k) w = (clear_entries [i; j; l];; k) w.
Proof.
  cbn [clear_entries]. cbv [mbind M_bind mret M_ret]. destruct (set_isr _ _ i _ _ w) as [[[] w1]| | |]; [|done..].
  destruct (set_isr _ _ j _ _ w1) as [[[] w2]| | |]; [|done..]. by destruct (set_isr _ _ l _ _ w2) as [[[] ?]| | |].
Qed.

Lemma port_interrupts_in id : Forall (fun i => i ∈ interrupt_ids b) (port_interrupts id).
Proof.
  destruct (serial_ids b Hboard) as (I1 & I2 & I3 & I4 & I5). unfold port_interrupts.
  destruct (id =? 0); repeat (apply Forall_cons; split; [done|]); by apply Forall_nil.
Qed.

Lemma serial_deinit_eq id s w : well_sized b (serial_interrupts w) -> id = 0 \/ id = 1 ->
  rhs_hal_serial w !! Z.to_nat id = Some s -> enabled s = true ->
  if negb (stm32f7 b) && (id =? 1) then
    rhs_hal_serial_deinit b max_syscall_priority (Some id) w = Crash "Not implemented"
  else exists w', rhs_hal_serial_deinit b max_syscall_priority (Some id) w = Ret (tt, w') /\
    rhs_hal_serial w' = <[Z.to_nat id := set_enabled false s]> (rhs_hal_serial w) /\
    forall i, i ∈ port_interrupts id -> free_entry w' i.
Proof.
  intros Hw Hid Hs He. assert (Hi : 0 <= id) by lia. unfold rhs_hal_serial_deinit, rhs_hal_serial_get_id.
  assert ((0 <=? id) && (id <? RHSHalSerialIdMax b) = true) as -> by (destruct Hid as [->| ->]; by destruct b).
  rewrite M_bind_ret, (bind_eq _ _ _ _ _ (serial_at_eq w id s Hi Hs)), He. cbn [rhs_assert]. rewrite M_bind_ret.
  assert (Hfin : forall w0, well_sized b (serial_interrupts w0) -> rhs_hal_serial w0 = rhs_hal_serial w ->
    exists w', (clear_entries (port_interrupts id);; hw_ (rserial_close id);; update_serial id (set_enabled false)) w0 = Ret (tt, w') /\
      rhs_hal_serial w' = <[Z.to_nat id := set_enabled false s]> (rhs_hal_serial w) /\
      forall i, i ∈ port_interrupts id -> free_entry w' i).
  { intros w0 Hw0 Hs0. destruct (clear_entries_eq (port_interrupts id) w0 Hw0 (port_interrupts_in id)) as (w1 & E1 & Hs1 & Hw1 & Hf1).
    rewrite (bind_eq _ _ _ _ _ E1), (bind_eq _ _ w1 tt (with_hw w1 (rserial_close id (serial_hw w1)))) by done.
    rewrite (update_serial_eq _ id _ s) by (first [lia|cbn [with_hw rhs_hal_serial]; by rewrite Hs1, Hs0]).
    eexists. split; [done|]. cbn [put_serial rhs_hal_serial with_hw]. rewrite Hs1, Hs0. split; [done|].
    intros i Hin. apply (Hf1 i). by left. }
  destruct Hid as [->| ->]; rewrite ?switch_0, ?switch_1.
  - rewrite andb_false_r. destruct (Hfin w Hw eq_refl) as (w' & E & HH). exists w'. split; [|exact HH].
    rewrite <- E. apply clear_two.
  - rewrite andb_true_r. destruct (stm32f7 b) eqn:E7; cbn [negb].
    2: { cbv [mbind M_bind]. unfold rhs_hal_rs485_async_tx_dma_stop. by rewrite E7. }
    destruct (dma_stop_eq DMA2_Stream6 DMA2_Stream6_IRQn w) as (w1 & E1 & S1 & T1).
    destruct (dma_stop_eq DMA2_Stream1 DMA2_Stream1_IRQn w1) as (w2 & E2 & S2 & T2).
    assert (F1 : rhs_hal_rs485_async_tx_dma_stop b w = Ret (tt, w1)) by (unfold rhs_hal_rs485_async_tx_dma_stop; by rewrite E7).
    assert (F2 : rhs_hal_rs485_async_rx_dma_stop b w1 = Ret (tt, w2)) by (unfold rhs_hal_rs485_async_rx_dma_stop; by rewrite E7).
    destruct (Hfin w2) as (w' & E & HH); [unfold well_sized; by rewrite T2, T1|congruence|]. exists w'. split; [|exact HH].
    rewrite <- E. rewrite bind_assoc, (bind_eq _ _ _ _ _ F1), bind_assoc, (bind_eq _ _ _ _ _ F2). apply clear_three.
Qed.

End properties.

(** ** Ports to instantiate the theorems with *)

(** One status register; the transmitter needs two polls per byte. *)
Record uart_hw := mkUart { u_isr : Z; u_out : usart -> list (Z * bool); u_pa15 : bool; u_busy : nat }.

Definition u_polls (h : uart_hw) : nat := Nat.min 2 (u_busy h).

#[global] Instance plain_uart : SerialHw uart_hw := {
  get_IPSR _ := 55;
  HAL_RCCEx_PeriphCLKConfig _ h := (true, h);
  serial_pin _ h := h;
  rserial_open _ _ _ _ h := h;
  rserial_close _ h := h;
  rserial_Instance id _ := if id =? 0 then USART3 else UART5;
  USART_ISR _ := u_isr;
  write_ICR _ c h := mkUart (Z.ldiff (u_isr h) c) (u_out h) (u_pa15 h) (u_busy h);
  set_CR3 _ _ h := h;
  LL_USART_IsEnabled _ _ := true;
  LL_USART_IsActiveFlag_TXE _ h := (Nat.eqb (u_polls h) 0, mkUart (u_isr h) (u_out h) (u_pa15 h) (Nat.pred (u_polls h)));
  LL_USART_TransmitData8 u c h := mkUart (u_isr h)
    (fun x => if decide (x = u) then u_out h u ++ [(c, u_pa15 h)] else u_out h x) (u_pa15 h) 2;
  LL_USART_ReceiveData8 _ h := (65, h);
  LL_USART_EnableIT_RXNE _ h := h;
  write_PA15 v h := mkUart (u_isr h) (u_out h) v (u_busy h);
  LL_AHB1_GRP1_EnableClock _ h := h;
  clear_EN _ h := h;
  read_EN _ h := (false, h);
  LL_DMA_Set _ _ h := h;
  LL_DMA_SetMemoryAddress _ _ h := h;
  LL_DMA_SetDataLength _ _ h := h;
  LL_DMA_GetDataLength _ _ := 0;
  LL_DMA_EnableStream _ h := h;
  LL_DMA_DisableStream _ h := h;
  LL_DMA_EnableIT_TC _ h := h;
  LL_DMA_DisableIT_TC _ h := h;
  LL_DMA_IsActiveFlag_HT _ _ := false;
  LL_DMA_IsActiveFlag_TC _ _ := false;
  LL_DMA_IsActiveFlag_TE _ _ := false;
  LL_DMA_ClearFlag_HT _ h := h;
  LL_DMA_ClearFlag_TC _ h := h;
  LL_DMA_ClearFlag_TE _ h := h
}.

#[global] Instance plain_uart_laws : SerialLaws uart_hw.
Proof.
  refine {| uart_out u h := u_out h u; pa15 := u_pa15; txe_wait _ := u_polls; max_txe := 2 |}.
  - intros _ h. apply Nat.le_min_l.
  - intros u h. split; [done|]. split; [done|]. unfold u_polls. cbn [u_busy].
    destruct (Nat.min 2 (u_busy h)) eqn:E; [by left|]. right. pose proof (Nat.le_min_l 2 (u_busy h)). unfold u_polls. cbn [u_busy]. lia.
  - intros u c h. split; [done|done].
  - done.
  - done.
Defined.

Abbreviation plain_serial := (serial_world Z simple_nvic uart_hw).

(** A closed port, one that receives, and the PLC M with both closed. *)
Definition closed_port : RHSHalSerial Z := mkSerial 0 0 0 false None None None None 0 0.
Definition open_port : RHSHalSerial Z := set_enabled true closed_port.
Definition serial_state (b : board) (l : list (RHSHalSerial Z)) (isr : Z) : plain_serial :=
  mkSerialWorld (mkInterrupt (repeat (mkPair None null_context) (length (interrupt_ids b))) 0 nvic0) l
    (mkUart isr (fun _ => []) false 1).

Theorem serial_tx_correct_witness :
  exists h, rhs_hal_serial_tx BMPLC_M 3 (Some 1) [7; 8; 9] 2 (serial_state BMPLC_M [closed_port; open_port; closed_port] 0) =
      Ret (tt, with_hw (serial_state BMPLC_M [closed_port; open_port; closed_port] 0) h) /\
    (forall u', uart_out u' h = [] ++ if decide (u' = UART5) then [(7, true); (8, true)] else []) /\ pa15 h = false.
Proof.
  assert (Hpolls : (max_txe < 3)%nat) by (vm_compute; lia).
  exact (serial_tx_correct BMPLC_M 3 1 open_port [7; 8; 9] 2 (serial_state BMPLC_M [closed_port; open_port; closed_port] 0)
    ltac:(lia) eq_refl Hpolls ltac:(lia)).
Defined.

(** Callbacks that do nothing. *)
Definition no_byte (_ _ _ _ : Z) : M plain_serial unit := mret tt.
Definition no_block (_ _ _ _ _ : Z) : M plain_serial unit := mret tt.
Definition no_tx (_ _ _ : Z) : M plain_serial unit := mret tt.
Definition no_other (_ : Z) (_ : serial_context) : M plain_serial unit := mret tt.
(** A callback that leaves the event where the status register was. *)
Definition note_event (_ _ event _ : Z) : M plain_serial unit :=
  modify (fun w => with_hw w (mkUart (1000 + event) (u_out (serial_hw w)) (u_pa15 (serial_hw w)) (u_busy (serial_hw w)))).

Lemma started_rs485 : exists w1,
  rhs_hal_serial_async_rx_start BMPLC_M 5 (Some 1) (Some 3) 9 (serial_state BMPLC_M [closed_port; open_port; closed_port] 40) = Ret (tt, w1).
Proof. by eexists. Defined.

Theorem serial_byte_received_witness :
  exists w1 w2, rhs_hal_serial_async_rx_start BMPLC_M 5 (Some 1) (Some 3) 9 (serial_state BMPLC_M [closed_port; open_port; closed_port] 40) =
    Ret (tt, w1) /\
  IRQHandler BMPLC_M false (run_serial_isr BMPLC_M note_event no_block no_tx no_other) (fun _ => 0) (mret tt) hang UART5_IRQn w1 =
    Ret (tt, w2) /\ u_isr (serial_hw w2) = 1017.
Proof.
  destruct started_rs485 as [w1 E]. exists w1.
  destruct (serial_byte_received BMPLC_M 5 eq_refl note_event no_block no_tx no_other (fun _ => 0) (mret tt) hang false 1 3 9
    (serial_state BMPLC_M [closed_port; open_port; closed_port] 40) w1 eq_refl E) as (s & Hs & _ & Hr). injection Hs as <-. destruct (Hr (serial_hw w1)) as (h' & Hh & Ht).
  assert (Eh : serial_hw w1 = mkUart 40 (fun _ => []) false 1) by (injection E as <-; reflexivity).
  assert (Ew : with_hw w1 (serial_hw w1) = w1) by (by destruct w1). rewrite Ew, Eh in Ht. eexists. split; [exact E|].
  split; [exact Ht|reflexivity].
Defined.

