(* ===== verification/Rtc.v ===== *)
(** * The real-time clock (hal/rhs_hal_rtc/rhs_hal_rtc.c)

    The clock's registers behind ST's HAL are the parameter [RtcHw]; [RtcLaws] says what the
    reference manual promises of the calendar. The conversions are those of [UnixTime], the
    critical sections those of [Kernel]. *)

From S2P Require Import Prelude Kernel UnixTime.
Import UnixTime.Calendar.

Inductive rtc_format := RTC_FORMAT_BIN | RTC_FORMAT_BCD.

Record RTC_TimeTypeDef := mkTime { Hours : Z; Minutes : Z; Seconds : Z; SubSeconds : Z; SecondFraction : Z }.
Record RTC_DateTypeDef := mkDate { WeekDay : Z; Month : Z; Date_ : Z; Year : Z }.

Definition RTC_WEEKDAY_MONDAY : Z := 1.
Definition RTC_MONTH_JANUARY : Z := 1.

(** The status of a HAL call is whether it is [HAL_OK]. *)
Class RtcHw (R : Type) := {
  HAL_RTC_Init : R -> bool * R;
  LL_RTC_IsActiveFlag_INITS : R -> bool;
  HAL_RTC_SetTime : rtc_format -> RTC_TimeTypeDef -> R -> bool * R;
  HAL_RTC_SetDate : rtc_format -> RTC_DateTypeDef -> R -> bool * R;
  HAL_RTC_GetTime : R -> bool * RTC_TimeTypeDef * R;
  HAL_RTC_GetDate : R -> bool * RTC_DateTypeDef * R;
  LL_RTC_BAK_GetRegister : Z -> R -> Z;
  LL_RTC_BAK_SetRegister : Z -> Z -> R -> R
}.

Record rtc_world (S R : Type) := mkRtc { rtc_os : S; rtc_hw : R }.
Arguments mkRtc {S R}.
Arguments rtc_os {S R}.
Arguments rtc_hw {S R}.

Definition RHSHalRtcRegisterSystem : Z := 0.

(** The bit field [year2000] of [SystemReg], after the four bits of [log_level]. *)
Definition year2000 (reg : Z) : bool := Z.testbit reg 4.
Definition set_year2000 (v : bool) (reg : Z) : Z := if v then Z.setbit reg 4 else Z.clearbit reg 4.

Section rtc.
Context {S R : Type} `{Scheduler S} `{RtcHw R}.
Abbreviation world := (rtc_world S R).

Definition on_kernel {A} (m : M S A) : M world A := fun w => '(a, s) ← m (rtc_os w); Ret (a, mkRtc s (rtc_hw w)).
Definition on_rtc {A} (f : R -> A * R) : M world A := fun w =>
  let '(a, r) := f (rtc_hw w) in Ret (a, mkRtc (rtc_os w) r).

Definition rhs_hal_rtc_get_register (reg : Z) : M world Z := gets (fun w => LL_RTC_BAK_GetRegister reg (rtc_hw w)).
Definition rhs_hal_rtc_set_register (reg value : Z) : M world unit :=
  on_rtc (fun r => (tt, LL_RTC_BAK_SetRegister reg value r)).

(** [if (call != HAL_OK) rhs_crash("RTC init failed")] *)
Definition hal_ok (ok : bool) : M world unit := if ok then mret tt else crash "RTC init failed".

Definition rtc_init : M world unit :=
  ok ← on_rtc HAL_RTC_Init;
  hal_ok ok;;
  w ← get;
  if LL_RTC_IsActiveFlag_INITS (rtc_hw w) then mret tt
  else
    ok ← on_rtc (HAL_RTC_SetTime RTC_FORMAT_BCD (mkTime 0x12 0 0 0 0));
    hal_ok ok;;
    ok ← on_rtc (HAL_RTC_SetDate RTC_FORMAT_BCD (mkDate RTC_WEEKDAY_MONDAY RTC_MONTH_JANUARY 0x1 0x24));
    hal_ok ok.

Definition rhs_hal_rtc_init : M world unit := rtc_init.

(** [subseconds] is what the members of [sTime] that are not assigned hold. *)
Definition rhs_hal_rtc_set_datetime (subseconds : Z * Z) (datetime : datetime_t) : M world unit :=
  reg ← rhs_hal_rtc_get_register RHSHalRtcRegisterSystem;
  rhs_hal_rtc_set_register RHSHalRtcRegisterSystem (set_year2000 (2000 <=? year datetime) reg);;
  let sDate := mkDate (u8 (weekday datetime)) (u8 (month datetime)) (u8 (day datetime)) (u8 (year datetime mod 100)) in
  let sTime := mkTime (u8 (hours datetime)) (u8 (minutes datetime)) (u8 (seconds datetime)) (fst subseconds) (snd subseconds) in
  info ← on_kernel rhs_critical_enter;
  ok ← on_rtc (HAL_RTC_SetDate RTC_FORMAT_BIN sDate);
  hal_ok ok;;
  ok ← on_rtc (HAL_RTC_SetTime RTC_FORMAT_BIN sTime);
  hal_ok ok;;
  on_kernel (rhs_critical_exit info).

Definition rhs_hal_rtc_get_datetime : M world datetime_t :=
  reg ← rhs_hal_rtc_get_register RHSHalRtcRegisterSystem;
  info ← on_kernel rhs_critical_enter;
  '(ok, sTime) ← on_rtc HAL_RTC_GetTime;
  hal_ok ok;;
  '(ok, sDate) ← on_rtc HAL_RTC_GetDate;
  hal_ok ok;;
  on_kernel (rhs_critical_exit info);;
  mret {| year := (if year2000 reg then 2000 else 1900) + Year sDate; month := Month sDate; day := Date_ sDate;
          weekday := WeekDay sDate; hours := Hours sTime; minutes := Minutes sTime; seconds := Seconds sTime;
          mseconds := u32 (u64 (u32 (SecondFraction sTime - SubSeconds sTime) * 1000) / u32 (SecondFraction sTime + 1)) |}.

Definition with_mseconds (ms : Z) (d : datetime_t) : datetime_t :=
  {| hours := hours d; minutes := minutes d; seconds := seconds d; mseconds := ms;
     day := day d; month := month d; year := year d; weekday := weekday d |}.

(** [mseconds0] is what the conversion leaves in [mseconds]. *)
Definition rhs_hal_rtc_set_timestamp (subseconds : Z * Z) (mseconds0 secs ms : Z) : M world unit :=
  rhs_hal_rtc_set_datetime subseconds (with_mseconds ms (convert_unix_time_2_date mseconds0 secs)).

Definition rhs_hal_rtc_get_timestamp : M world (Z * Z) :=
  datetime ← rhs_hal_rtc_get_datetime;
  mret (convert_date_2_unix_time datetime, mseconds datetime).
End rtc.

(** ** What the reference manual promises

    The clock shows a date with a two-digit year, which runs from 00 to 99 with a leap day
    in every fourth year, and a time of day. A week day has to be 1 to 7. *)

Definition valid_date (d : RTC_DateTypeDef) : Prop :=
  1 <= WeekDay d <= 7 /\ 1 <= Month d <= 12 /\ 1 <= Date_ d <= 31 /\ 0 <= Year d <= 99.
Definition valid_time (t : RTC_TimeTypeDef) : Prop := in_day (Hours t) (Minutes t) (Seconds t).

Class RtcLaws (R : Type) `{RtcHw R} := {
  shown_date : R -> Z * Z * Z;
  shown_time : R -> Z * Z * Z;
  (** [rtc_elapse n r r']: the clock [n] seconds later. *)
  rtc_elapse : Z -> R -> R -> Prop;
  set_date_spec d r : valid_date d -> let '(ok, r') := HAL_RTC_SetDate RTC_FORMAT_BIN d r in
    ok = true /\ shown_date r' = (Year d, Month d, Date_ d) /\
    forall g, LL_RTC_BAK_GetRegister g r' = LL_RTC_BAK_GetRegister g r;
  set_time_spec t r : valid_time t -> let '(ok, r') := HAL_RTC_SetTime RTC_FORMAT_BIN t r in
    ok = true /\ shown_time r' = (Hours t, Minutes t, Seconds t) /\ shown_date r' = shown_date r /\
    forall g, LL_RTC_BAK_GetRegister g r' = LL_RTC_BAK_GetRegister g r;
  get_time_spec r : let '(ok, t, r') := HAL_RTC_GetTime r in
    ok = true /\ shown_time r = (Hours t, Minutes t, Seconds t) /\ shown_date r' = shown_date r /\
    0 <= SubSeconds t <= SecondFraction t /\ SecondFraction t < 2 ^ 15;
  get_date_spec r : let '(ok, d, r') := HAL_RTC_GetDate r in
    ok = true /\ shown_date r = (Year d, Month d, Date_ d);
  backup_spec g v r : LL_RTC_BAK_GetRegister g (LL_RTC_BAK_SetRegister g v r) = v;
  elapse_backup n r r' g : rtc_elapse n r r' -> LL_RTC_BAK_GetRegister g r' = LL_RTC_BAK_GetRegister g r;
  elapse_shows base T n r r' : base = 1900 \/ base = 2000 -> 0 <= T -> 0 <= n -> rtc_elapse n r r' ->
    let shows r T := shown_date r = (cy (civil_of_day (T / 86400)) - base, cm (civil_of_day (T / 86400)),
                                      cd (civil_of_day (T / 86400))) /\
                     shown_time r = (T mod 86400 / 3600, T mod 3600 / 60, T mod 60) in
    (forall t, T <= t <= T + n -> base <= cy (civil_of_day (t / 86400)) < base + 100) ->
    shows r T -> shows r' (T + n)
}.

(** ** Dates of days *)

Lemma civil_bounds n : 0 <= n -> 1 <= cm (civil_of_day n) <= 12 /\ 1 <= cd (civil_of_day n) <= 31.
Proof.
  intros Hn. destruct (year_of_day n Hn) as (y & k & Hy & Hk & ->). rewrite civil_of_year_day by done. cbn [cm cd].
  pose proof (month_part (is_leap y) k) as Hm. rewrite year_length_sample in Hm. specialize (Hm Hk).
  unfold month_part_ok in Hm. rewrite !andb_true_iff, !Z.leb_le in Hm. lia.
Qed.

(** The years of a century, by the number of the day; 10957 is 2000-01-01 and 47482 is
    2100-01-01. *)
Lemma civil_year n : 0 <= n -> 1970 <= cy (civil_of_day n) /\
  (cy (civil_of_day n) < 2000 <-> n < 10957) /\ (cy (civil_of_day n) < 2100 <-> n < 47482).
Proof.
  intros Hn. destruct (year_of_day n Hn) as (y & k & Hy & Hk & ->). rewrite civil_of_year_day by done. cbn [cy].
  pose proof (jan1_succ y) as Hs. unfold year_length in *.
  assert (Hmono : forall Y, y < Y -> jan1 (y + 1) <= jan1 Y /\ (Y <= y -> jan1 Y <= jan1 y)).
  { intros Y HY. unfold jan1, leaps_before. Z.to_euclidean_division_equations; lia. }
  assert (Hmono' : forall Y, Y <= y -> jan1 Y <= jan1 y).
  { intros Y HY. unfold jan1, leaps_before. Z.to_euclidean_division_equations; lia. }
  assert (J1 : jan1 2000 = 10957) by reflexivity. assert (J2 : jan1 2100 = 47482) by reflexivity.
  split; [done|]. split; split; intros Hc.
  - destruct (Hmono 2000 Hc). lia.
  - destruct (Z.lt_ge_cases y 2000) as [|Hge]; [done|]. specialize (Hmono' 2000 Hge). lia.
  - destruct (Hmono 2100 Hc). lia.
  - destruct (Z.lt_ge_cases y 2100) as [|Hge]; [done|]. specialize (Hmono' 2100 Hge). lia.
Qed.

Section correctness.
Context {S R : Type} `{SchedulerLaws S} `{RtcLaws R}.
Abbreviation world := (rtc_world S R).

Lemma critical_pair (s : S) : mask_ok s -> exists info s1 s2,
  rhs_critical_enter s = Ret (info, s1) /\ rhs_critical_exit info s1 = Ret (tt, s2) /\ interrupts s2 = interrupts s.
Proof.
  intros Hok. destruct (critical_section_ok (mret tt) s Hok) as (s2 & E & I2 & _); [intros s0 _; by exists s0|].
  apply bind_returns in E as (info & s1 & E1 & E2). exists info, s1, s2. split; [done|]. by split.
Qed.

(** The clock shows the date and time of [T] seconds since 1970, in the century [base]. *)
Definition shows (r : R) (base T : Z) : Prop :=
  shown_date r = (cy (civil_of_day (T / 86400)) - base, cm (civil_of_day (T / 86400)), cd (civil_of_day (T / 86400))) /\
  shown_time r = (T mod 86400 / 3600, T mod 3600 / 60, T mod 60).

Definition base_of (T : Z) : Z := if T <? 946684800 then 1900 else 2000.

Lemma set_year2000_spec v reg : year2000 (set_year2000 v reg) = v.
Proof.
  unfold year2000, set_year2000. destruct v; [by rewrite Z.setbit_eq|by rewrite Z.clearbit_eq].
Qed.

Lemma set_datetime_spec sub (d : datetime_t) (w : world) :
  mask_ok (rtc_os w) -> 1 <= weekday d <= 7 -> 1 <= month d <= 12 -> 1 <= day d <= 31 -> 0 <= year d ->
  in_day (hours d) (minutes d) (seconds d) ->
  runs (rhs_hal_rtc_set_datetime sub d) w (fun _ w' =>
    shown_date (rtc_hw w') = (year d mod 100, month d, day d) /\
    shown_time (rtc_hw w') = (hours d, minutes d, seconds d) /\
    year2000 (LL_RTC_BAK_GetRegister RHSHalRtcRegisterSystem (rtc_hw w')) = (2000 <=? year d) /\
    interrupts (rtc_os w') = interrupts (rtc_os w)).
Proof.
  intros Hok Hwd Hm Hd Hy Hin. unfold rhs_hal_rtc_set_datetime, runs. unfold in_day in Hin.
  rewrite !u8_small by (pose proof (Z.mod_pos_bound (year d) 100); lia).
  rewrite (bind_eq _ _ w (LL_RTC_BAK_GetRegister RHSHalRtcRegisterSystem (rtc_hw w)) w) by done.
  set (reg := set_year2000 _ _).
  set (r1 := LL_RTC_BAK_SetRegister RHSHalRtcRegisterSystem reg (rtc_hw w)).
  rewrite (bind_eq _ _ w tt (mkRtc (rtc_os w) r1)) by done. cbn zeta.
  destruct (critical_pair (rtc_os w) Hok) as (info & s1 & s2 & E1 & E2 & I2).
  rewrite (bind_eq _ _ _ info (mkRtc s1 r1)) by (unfold on_kernel; simpl; by rewrite E1).
  set (sDate := mkDate _ _ _ _). set (sTime := mkTime _ _ _ _ _).
  assert (Hvd : valid_date sDate).
  { unfold valid_date, sDate. simpl. pose proof (Z.mod_pos_bound (year d) 100). lia. }
  pose proof (set_date_spec sDate r1 Hvd) as D. destruct (HAL_RTC_SetDate RTC_FORMAT_BIN sDate r1) as [ok r2] eqn:Ed.
  destruct D as (-> & D1 & D2).
  rewrite (bind_eq _ _ _ true (mkRtc s1 r2)) by (unfold on_rtc; simpl; by rewrite Ed).
  rewrite (bind_eq _ _ _ tt (mkRtc s1 r2)) by done.
  pose proof (set_time_spec sTime r2 Hin) as T. destruct (HAL_RTC_SetTime RTC_FORMAT_BIN sTime r2) as [ok r3] eqn:Et.
  destruct T as (-> & T1 & T2 & T3).
  rewrite (bind_eq _ _ _ true (mkRtc s1 r3)) by (unfold on_rtc; simpl; by rewrite Et).
  rewrite (bind_eq _ _ _ tt (mkRtc s1 r3)) by done. unfold on_kernel at 1. cbn [rtc_os rtc_hw]. rewrite E2.
  eexists tt, _. split; [reflexivity|]. cbn [rtc_os rtc_hw]. split; [by rewrite T2, D1|]. split; [exact T1|].
  split; [|done]. rewrite T3, D2. unfold r1. rewrite backup_spec. unfold reg. by rewrite set_year2000_spec.
Qed.

Lemma get_timestamp_spec base T (w : world) :
  mask_ok (rtc_os w) -> 0 <= T < horizon -> shows (rtc_hw w) base T ->
  (if year2000 (LL_RTC_BAK_GetRegister RHSHalRtcRegisterSystem (rtc_hw w)) then 2000 else 1900) = base ->
  runs rhs_hal_rtc_get_timestamp w (fun r _ => fst r = T /\ 0 <= snd r < 1000).
Proof.
  intros Hok HT [Hd Ht] Hb. unfold rhs_hal_rtc_get_timestamp, rhs_hal_rtc_get_datetime, runs. rewrite bind_assoc.
  rewrite (bind_eq _ _ w (LL_RTC_BAK_GetRegister RHSHalRtcRegisterSystem (rtc_hw w)) w) by done. rewrite bind_assoc.
  destruct (critical_pair (rtc_os w) Hok) as (info & s1 & s2 & E1 & E2 & _).
  rewrite (bind_eq _ _ _ info (mkRtc s1 (rtc_hw w))) by (unfold on_kernel; by rewrite E1). rewrite bind_assoc.
  pose proof (get_time_spec (rtc_hw w)) as G. destruct (HAL_RTC_GetTime (rtc_hw w)) as [[ok t] r1] eqn:Et.
  destruct G as (-> & G1 & G2 & G3 & G4). rewrite Ht in G1. injection G1 as Gh Gm Gs.
  rewrite (bind_eq _ _ _ (true, t) (mkRtc s1 r1)) by (unfold on_rtc; simpl; by rewrite Et). rewrite bind_assoc.
  rewrite (bind_eq _ _ _ tt (mkRtc s1 r1)) by done. rewrite bind_assoc.
  pose proof (get_date_spec r1) as G5. destruct (HAL_RTC_GetDate r1) as [[ok d] r2] eqn:Ed.
  destruct G5 as (-> & G5). rewrite G2, Hd in G5. injection G5 as Gy Gmo Gd.
  rewrite (bind_eq _ _ _ (true, d) (mkRtc s1 r2)) by (unfold on_rtc; simpl; by rewrite Ed). rewrite bind_assoc.
  rewrite (bind_eq _ _ _ tt (mkRtc s1 r2)) by done. rewrite bind_assoc.
  rewrite (bind_eq _ _ _ tt (mkRtc s2 r2)) by (unfold on_kernel; simpl; by rewrite E2).
  eexists _, _. split; [reflexivity|]. cbn [fst snd mseconds]. split.
  - rewrite Hb. replace (base + Year d) with (cy (civil_of_day (T / 86400))) by lia. rewrite <- Gmo, <- Gd, <- Gh, <- Gm, <- Gs.
    unfold horizon in HT.
    rewrite (date_2_unix_eq (T / 86400) _ _ _ _ (WeekDay d)); [| |unfold in_day|unfold horizon];
      Z.to_euclidean_division_equations; lia.
  - rewrite (u32_small (SecondFraction t - _)), (u32_small (SecondFraction t + 1)) by lia.
    assert (0 <= (SecondFraction t - SubSeconds t) * 1000 / (SecondFraction t + 1) < 1000).
    { split; [apply Z.div_pos; lia|]. apply Z.div_lt_upper_bound; lia. }
    rewrite u64_small by nia. by rewrite u32_small by lia.
Qed.

(** The instant the clock is set to: on the days [convert_unix_time_2_date] renders late, a
    day before. *)
Definition set_instant (secs : Z) : Z := if overshoot (secs / 86400) then secs - 86400 else secs.

Lemma set_instant_nonneg secs : 0 <= secs -> 0 <= set_instant secs <= secs.
Proof.
  intros Hs. unfold set_instant. destruct (overshoot (secs / 86400)) eqn:Eo; [|lia].
  assert (secs / 86400 <> 0) by (intros H0'; rewrite H0' in Eo; vm_compute in Eo; discriminate).
  assert (0 <= secs / 86400) by (apply Z.div_pos; lia). Z.to_euclidean_division_equations; lia.
Qed.

(** C36: setting the clock to a time stamp up to the end of 2099, on any day but a Sunday,
    and reading it some seconds later gives the time stamp those seconds later, as long as
    the year has not turned from 1999 to 2000 or from 2099 meanwhile; and milliseconds below
    1000. What the conversion renders a day late is set a day late. *)
Theorem rtc_timestamp_roundtrip sub ms0 secs ms (w : world) :
  mask_ok (rtc_os w) -> 0 <= secs < 4102444800 -> (4 + secs / 86400) mod 7 <> 0 ->
  runs (rhs_hal_rtc_set_timestamp sub ms0 secs ms) w (fun _ w1 =>
    forall n w2, 0 <= n -> rtc_elapse n (rtc_hw w1) (rtc_hw w2) -> mask_ok (rtc_os w2) ->
      set_instant secs + n < (if set_instant secs <? 946684800 then 946684800 else 4102444800) ->
      runs rhs_hal_rtc_get_timestamp w2 (fun r _ => fst r = set_instant secs + n /\ 0 <= snd r < 1000)).
Proof.
  intros Hok Hs Hsun. pose proof (set_instant_nonneg secs ltac:(lia)) as HT.
  set (T := set_instant secs) in *. assert (HT0 : 0 <= T / 86400) by (apply Z.div_pos; lia).
  destruct (civil_bounds (T / 86400) HT0) as [Hcm Hcd]. destruct (civil_year (T / 86400) HT0) as (Hcy & Hc1 & Hc2).
  unfold rhs_hal_rtc_set_timestamp. rewrite convert_eq by (unfold horizon; lia).
  assert (ED : (if overshoot (secs / 86400) then secs / 86400 - 1 else secs / 86400) = T / 86400).
  { unfold T, set_instant. destruct (overshoot _); [Z.to_euclidean_division_equations; lia|done]. }
  assert (Etod : secs mod 86400 = T mod 86400 /\ secs mod 3600 = T mod 3600 /\ secs mod 60 = T mod 60).
  { unfold T, set_instant. destruct (overshoot _); [|done]. Z.to_euclidean_division_equations; lia. }
  destruct Etod as (Et1 & Et2 & Et3). rewrite ED. unfold datetime_on. rewrite Et1, Et2, Et3.
  set (d := with_mseconds ms _).
  destruct (set_datetime_spec sub d w Hok) as ([] & w1 & E1 & Sd & St & Sy & _).
  { unfold d. cbn [with_mseconds weekday]. pose proof (Z.mod_pos_bound (4 + secs / 86400) 7). lia. }
  { exact Hcm. }
  { exact Hcd. }
  { unfold d. cbn [with_mseconds year]. lia. }
  { unfold d, in_day. cbn [with_mseconds hours minutes seconds]. Z.to_euclidean_division_equations; lia. }
  exists tt, w1. split; [exact E1|]. intros n w2 Hn Hel Hok2 Hcent.
  unfold d in Sd, St, Sy. cbn [with_mseconds year month day hours minutes seconds] in Sd, St, Sy.
  assert (Hdiv : forall t, 0 <= t -> 0 <= t / 86400 /\ (t < 946684800 <-> t / 86400 < 10957) /\
    (t < 4102444800 <-> t / 86400 < 47482)) by (intros t Ht; Z.to_euclidean_division_equations; lia).
  assert (Hbase : forall t, T <= t <= T + n -> base_of T <= cy (civil_of_day (t / 86400)) < base_of T + 100).
  { intros t Ht. destruct (Hdiv t ltac:(lia)) as (D1 & D2 & D3).
    destruct (civil_year (t / 86400) D1) as (Y1 & Y2 & Y3). unfold base_of.
    destruct (Z.ltb_spec T 946684800); lia. }
  assert (Hmod : cy (civil_of_day (T / 86400)) mod 100 = cy (civil_of_day (T / 86400)) - base_of T).
  { specialize (Hbase T ltac:(lia)). unfold base_of in *. destruct (T <? 946684800); Z.to_euclidean_division_equations; lia. }
  assert (Hyear : (2000 <=? cy (civil_of_day (T / 86400))) = negb (T <? 946684800)).
  { specialize (Hbase T ltac:(lia)). unfold base_of in *. destruct (T <? 946684800);
      [apply Z.leb_gt|apply Z.leb_le]; lia. }
  rewrite Hmod in Sd. rewrite Hyear in Sy.
  eapply (get_timestamp_spec (base_of T)); [done| | |].
  - unfold horizon. destruct (T <? 946684800); lia.
  - assert (HTn : 0 <= T) by lia. assert (Hb : base_of T = 1900 \/ base_of T = 2000).
    { unfold base_of. destruct (T <? 946684800); [by left|by right]. }
    apply (elapse_shows (base_of T) T n (rtc_hw w1) (rtc_hw w2) Hb HTn Hn Hel Hbase). by split.
  - rewrite (elapse_backup _ _ _ _ Hel), Sy. unfold base_of. by destruct (T <? 946684800).
Qed.

(** On a Sunday the clock is given the week day 0, which the manual forbids. *)
Lemma sunday_writes_zero ms0 secs ms : 0 <= secs < horizon -> (4 + secs / 86400) mod 7 = 0 ->
  weekday (with_mseconds ms (convert_unix_time_2_date ms0 secs)) = 0.
Proof. intros Hs Hw. by rewrite convert_eq. Qed.
End correctness.

(** ** A clock to instantiate the theorem with *)

(** It counts seconds, and turns the date at midnight. *)
Record simple_clock := mkClock { ck_date : Z * Z * Z; ck_time : Z * Z * Z; ck_backup : Z -> Z }.

Definition clock_day (d : Z * Z * Z) : Z * Z * Z :=
  let '(yy, m, d) := d in
  let last := if m =? 2 then (if yy mod 4 =? 0 then 29 else 28)
              else if (m =? 4) || (m =? 6) || (m =? 9) || (m =? 11) then 30 else 31 in
  if d <? last then (yy, m, d + 1)
  else if m <? 12 then (yy, m + 1, 1)
  else ((yy + 1) mod 100, 1, 1).

Definition clock_tick (r : simple_clock) : simple_clock :=
  let '(h, m, s) := ck_time r in
  if s <? 59 then mkClock (ck_date r) (h, m, s + 1) (ck_backup r)
  else if m <? 59 then mkClock (ck_date r) (h, m + 1, 0) (ck_backup r)
  else if h <? 23 then mkClock (ck_date r) (h + 1, 0, 0) (ck_backup r)
  else mkClock (clock_day (ck_date r)) (0, 0, 0) (ck_backup r).

#[global] Instance simple_clock_hw : RtcHw simple_clock := {
  HAL_RTC_Init r := (true, r);
  LL_RTC_IsActiveFlag_INITS r := true;
  HAL_RTC_SetTime _ t r := (true, mkClock (ck_date r) (Hours t, Minutes t, Seconds t) (ck_backup r));
  HAL_RTC_SetDate _ d r := (true, mkClock (Year d, Month d, Date_ d) (ck_time r) (ck_backup r));
  HAL_RTC_GetTime r := (true, let '(h, m, s) := ck_time r in mkTime h m s 255 255, r);
  HAL_RTC_GetDate r := (true, let '(y, m, d) := ck_date r in mkDate 1 m d y, r);
  LL_RTC_BAK_GetRegister g r := ck_backup r g;
  LL_RTC_BAK_SetRegister g v r := mkClock (ck_date r) (ck_time r) (fun x => if x =? g then v else ck_backup r x)
}.

Lemma clock_day_next base n : base = 1900 \/ base = 2000 -> 0 <= n ->
  base <= cy (civil_of_day n) < base + 100 -> base <= cy (civil_of_day (n + 1)) < base + 100 ->
  clock_day (cy (civil_of_day n) - base, cm (civil_of_day n), cd (civil_of_day n)) =
    (cy (civil_of_day (n + 1)) - base, cm (civil_of_day (n + 1)), cd (civil_of_day (n + 1))).
Proof.
  intros Hb Hn H1' H2'. destruct (civil_bounds n Hn) as [Hm Hd]. destruct (civil_year n Hn) as (Hy & _).
  rewrite civil_of_day_succ in * by done. destruct (civil_of_day n) as [y m d]. cbn [cy cm cd] in *.
  assert (Hleap : is_leap y = ((y - base) mod 4 =? 0)).
  { unfold is_leap. destruct Hb as [-> | ->].
    - destruct (Z.eqb_spec (y mod 4) 0), (Z.eqb_spec (y mod 100) 0), (Z.eqb_spec (y mod 400) 0),
        (Z.eqb_spec ((y - 1900) mod 4) 0); try done; Z.to_euclidean_division_equations; lia.
    - destruct (Z.eqb_spec (y mod 4) 0), (Z.eqb_spec (y mod 100) 0), (Z.eqb_spec (y mod 400) 0),
        (Z.eqb_spec ((y - 2000) mod 4) 0); try done; Z.to_euclidean_division_equations; lia. }
  unfold clock_day, next_day, days_in_month in *. cbn [cy cm cd] in *. rewrite Hleap in *.
  set (last := if m =? 2 then _ else _) in *. destruct (d <? last); [done|].
  destruct (m <? 12); cbn [cy cm cd] in *; [done|]. rewrite Z.mod_small by lia. do 3 f_equal. lia.
Qed.

Lemma tick_backup r : ck_backup (clock_tick r) = ck_backup r.
Proof. unfold clock_tick. destruct (ck_time r) as [[h m] s]. by destruct (s <? 59), (m <? 59), (h <? 23). Qed.

Lemma clock_tick_shows base T r : base = 1900 \/ base = 2000 -> 0 <= T ->
  base <= cy (civil_of_day (T / 86400)) < base + 100 -> base <= cy (civil_of_day ((T + 1) / 86400)) < base + 100 ->
  ck_date r = (cy (civil_of_day (T / 86400)) - base, cm (civil_of_day (T / 86400)), cd (civil_of_day (T / 86400))) ->
  ck_time r = (T mod 86400 / 3600, T mod 3600 / 60, T mod 60) ->
  ck_date (clock_tick r) = (cy (civil_of_day ((T + 1) / 86400)) - base, cm (civil_of_day ((T + 1) / 86400)),
    cd (civil_of_day ((T + 1) / 86400))) /\
  ck_time (clock_tick r) = ((T + 1) mod 86400 / 3600, (T + 1) mod 3600 / 60, (T + 1) mod 60).
Proof.
  intros Hb HT H1' H2' Hd Ht. unfold clock_tick. rewrite Ht.
  assert (Hsame : (T + 1) / 86400 = T / 86400 \/ (T mod 86400 = 86399 /\ (T + 1) / 86400 = T / 86400 + 1))
    by (Z.to_euclidean_division_equations; lia).
  assert (Hq : forall a b c a' b' c' : Z, a = a' -> b = b' -> c = c' -> (a, b, c) = (a', b', c')) by congruence.
  assert (Hday : T mod 86400 <> 86399 -> (T + 1) / 86400 = T / 86400) by lia.
  destruct (Z.ltb_spec (T mod 60) 59); [|destruct (Z.ltb_spec (T mod 3600 / 60) 59);
    [|destruct (Z.ltb_spec (T mod 86400 / 3600) 23)]]; cbn [ck_date ck_time].
  1-3: rewrite Hday by (Z.to_euclidean_division_equations; lia); split; [done|];
    apply Hq; Z.to_euclidean_division_equations; lia.
  assert (Hlast : T mod 86400 = 86399) by (Z.to_euclidean_division_equations; lia).
  assert (Hnext : (T + 1) / 86400 = T / 86400 + 1) by (Z.to_euclidean_division_equations; lia).
  rewrite Hnext in *. split; [|apply Hq; Z.to_euclidean_division_equations; lia].
  rewrite Hd. apply clock_day_next; [done|apply Z.div_pos; lia|done|done].
Qed.

#[local] Obligation Tactic := idtac.

#[global] Program Instance simple_clock_laws : RtcLaws simple_clock := {
  shown_date := ck_date;
  shown_time := ck_time;
  rtc_elapse n r r' := r' = Nat.iter (Z.to_nat n) clock_tick r
}.
Next Obligation. done. Qed.
Next Obligation. done. Qed.
Next Obligation. intros r. simpl. destruct (ck_time r) as [[h m] s]. cbn. repeat split; lia. Qed.
Next Obligation. intros r. simpl. by destruct (ck_date r) as [[y m] d]. Qed.
Next Obligation. intros g v r. simpl. by rewrite Z.eqb_refl. Qed.
Next Obligation.
  intros n r r' g ->. simpl. induction (Z.to_nat n) as [|k IH]; [done|]. rewrite Nat.iter_succ, <- IH.
  by rewrite (tick_backup (Nat.iter k clock_tick r)).
Qed.
Next Obligation.
  intros base T n r r' Hb HT Hn -> shows Hc [Hd Ht]. unfold shows. clear shows.
  rewrite <- (Z2Nat.id n) in Hc |- * by done. revert Hc.
  rewrite Nat2Z.id. induction (Z.to_nat n) as [|k IH]; intros Hc; [by rewrite Z.add_0_r|].
  rewrite Nat.iter_succ. destruct IH as [Id It]; [intros t Ht'; apply Hc; lia|].
  replace (T + Z.of_nat (Datatypes.S k)) with (T + Z.of_nat k + 1) by lia.
  apply clock_tick_shows; try done; [lia|apply Hc; lia|apply Hc; lia].
Qed.

Definition rtc_world0 : rtc_world os_state simple_clock :=
  mkRtc a_task (mkClock (0, 1, 1) (0, 0, 0) (fun _ => 0)).

Theorem rtc_timestamp_roundtrip_witness :
  runs (rhs_hal_rtc_set_timestamp (0, 0) 0 951827696 0) rtc_world0 (fun _ w1 =>
    runs rhs_hal_rtc_get_timestamp (mkRtc a_task (clock_tick (clock_tick (rtc_hw w1)))) (fun r _ => fst r = 951827698)).
Proof.
  assert (Hok : mask_ok a_task) by (split; [vm_compute; congruence|reflexivity]).
  assert (Hs : 0 <= 951827696 < 4102444800) by lia.
  destruct (rtc_timestamp_roundtrip (0, 0) 0 951827696 0 rtc_world0 Hok Hs ltac:(vm_compute; congruence))
    as ([] & w1 & E & T).
  exists tt, w1. split; [exact E|].
  destruct (T 2 (mkRtc a_task (clock_tick (clock_tick (rtc_hw w1)))) ltac:(lia) eq_refl Hok ltac:(vm_compute; reflexivity))
    as (r & w3 & E3 & Hr & _).
  exists r, w3. split; [exact E3|]. rewrite Hr. vm_compute. reflexivity.
Defined.
