(* ===== verification/ThreadList.v ===== *)
(** * The list of threads (core/thread_list.c) and its contents (rhs_thread_enumerate)

    The items are heap objects linked by pointers. [malloc] is a parameter: the address it
    returns, 0 for [NULL], and what the memory holds. FreeRTOS's view of its tasks is a
    parameter of the enumeration. *)

From S2P Require Import Prelude Kernel.
From Stdlib Require Import SpecFloat.

Record RHSThreadListItem := mkItem {
  thread : Z; name : Z; priority : Z; stack_address : Z; stack_size : Z; stack_min_free : Z; state : string;
  counter_previous : Z; counter_current : Z; cpu : Z; tick : Z; next : Z }.

Record RHSThreadList := mkList {
  item : Z; runtime_previous : Z; runtime_current : Z; isr_previous : Z; isr_current : Z }.

Abbreviation items := (gmap Z RHSThreadListItem).

Definition set_item (p : Z) (l : RHSThreadList) : RHSThreadList :=
  mkList p (runtime_previous l) (runtime_current l) (isr_previous l) (isr_current l).
Definition set_next (p : Z) (i : RHSThreadListItem) : RHSThreadListItem :=
  mkItem (thread i) (name i) (priority i) (stack_address i) (stack_size i) (stack_min_free i) (state i)
    (counter_previous i) (counter_current i) (cpu i) (tick i) p.
Definition set_cpu (c : Z) (i : RHSThreadListItem) : RHSThreadListItem :=
  mkItem (thread i) (name i) (priority i) (stack_address i) (stack_size i) (stack_min_free i) (state i)
    (counter_previous i) (counter_current i) c (tick i) (next i).

Definition read_item (h : items) (p : Z) : outcome RHSThreadListItem :=
  match h !! p with Some i => Ret i | None => Fault end.
Definition free_item (h : items) (p : Z) : outcome items :=
  match h !! p with Some _ => Ret (delete p h) | None => Fault end.

Section operations.
(** The address, or 0, and what the memory at it holds. *)
Context (malloc : items -> Z * RHSThreadListItem).

(** [NULL] is checked by [rhs_assert(list)]. *)
Definition with_list {A} (list : option RHSThreadList) (k : RHSThreadList -> outcome A) : outcome A :=
  match list with Some l => k l | None => Crash "Assert" end.

(** [malloc_ok]: whether there is memory for the list itself. *)
Definition rhs_thread_list_create (malloc_ok : bool) : option RHSThreadList :=
  if malloc_ok then Some (mkList 0 0 0 0 0) else None.

(** Traversals have at most as many rounds as there are items in the heap, and one. *)
Fixpoint erase_loop (fuel : nat) (h : items) (item : Z) : outcome items :=
  match fuel with
  | O => Hang
  | S f =>
      if item =? 0 then Ret h
      else
        i ← read_item h item;
        let nxt := next i in
        h ← free_item h item;
        erase_loop f h nxt
  end.
Definition rhs_thread_list_erase (h : items) (list : option RHSThreadList) : outcome (items * RHSThreadList) :=
  with_list list (fun l => h ← erase_loop (S (size h)) h (item l); Ret (h, set_item 0 l)).

(** The list's own memory is freed as well. *)
Definition rhs_thread_list_destroy (h : items) (list : option RHSThreadList) : outcome items :=
  with_list list (fun _ => '(h, _) ← rhs_thread_list_erase h list; Ret h).

Fixpoint find_loop (fuel : nat) (h : items) (current item : Z) : outcome Z :=
  match fuel with
  | O => Hang
  | S f =>
      if current =? 0 then Ret 0
      else if current =? item then Ret current
      else i ← read_item h current; find_loop f h (next i) item
  end.
Definition rhs_thread_list_find (h : items) (list : option RHSThreadList) (item_ : Z) : outcome Z :=
  with_list list (fun l =>
    if item_ =? 0 then Crash "Assert" else find_loop (S (size h)) h (item l) item_).

Definition rhs_thread_list_add (h : items) (list : option RHSThreadList) : outcome (Z * items * RHSThreadList) :=
  with_list list (fun l =>
    let '(p, garbage) := malloc h in
    if p =? 0 then Ret (p, h, l)
    else Ret (p, <[p := set_next (item l) garbage]> h, set_item p l)).

Fixpoint remove_loop (fuel : nat) (h : items) (l : RHSThreadList) (current prev item_ : Z)
    : outcome (Z * items * RHSThreadList) :=
  match fuel with
  | O => Hang
  | S f =>
      if current =? 0 then Ret (0, h, l)
      else
        c ← read_item h current;
        if current =? item_ then
          '(h, l) ←
            (if prev =? 0 then Ret (h, set_item (next c) l)
             else p ← read_item h prev; Ret (<[prev := set_next (next c) p]> h, l));
          h ← free_item h current;
          Ret (1, h, l)
        else remove_loop f h l (next c) current item_
  end.
Definition rhs_thread_list_remove (h : items) (list : option RHSThreadList) (item_ : Z)
    : outcome (Z * items * RHSThreadList) :=
  with_list list (fun l =>
    if item_ =? 0 then Crash "Assert" else remove_loop (S (size h)) h l (item l) 0 item_).

(** The counter [i] has 16 bits. *)
Fixpoint at_loop (fuel : nat) (h : items) (current i index : Z) : outcome Z :=
  match fuel with
  | O => Hang
  | S f =>
      if current =? 0 then Ret 0
      else if i =? index then Ret current
      else c ← read_item h current; at_loop f h (next c) (u16 (i + 1)) index
  end.
Definition rhs_thread_list_at (h : items) (list : option RHSThreadList) (index : Z) : outcome Z :=
  with_list list (fun l => at_loop (S (size h)) h (item l) 0 index).

Fixpoint size_loop (fuel : nat) (h : items) (current count : Z) : outcome Z :=
  match fuel with
  | O => Hang
  | S f =>
      if current =? 0 then Ret count
      else c ← read_item h current; size_loop f h (next c) (u16 (count + 1))
  end.
Definition rhs_thread_list_size (h : items) (list : option RHSThreadList) : outcome Z :=
  with_list list (fun l => size_loop (S (size h)) h (item l) 0).

(** *** The share of the processor, in single precision *)

Definition cpu_of (item_counter counter_previous counter_current runtime_counter : Z) : Z :=
  if negb (item_counter =? 0) && negb (counter_previous =? 0) && negb (counter_current =? 0) then
    let c := SFmul 24 128 (SFdiv 24 128 (float_of_Z item_counter) (float_of_Z runtime_counter)) (float_of_Z 100) in
    if SFltb (float_of_Z 200) c then 0 else Z_of_float c
  else 0.

(** [for (i = 0; i < count; i++)], [n] rounds from [i] on. *)
Fixpoint process_loop (n : nat) (h : items) (l : RHSThreadList) (i runtime_counter : Z) : outcome items :=
  match n with
  | O => Ret h
  | S n =>
      p ← rhs_thread_list_at h (Some l) (u16 i);
      (** [item] is not checked. *)
      it ← read_item h p;
      let item_counter := u32 (counter_current it - counter_previous it) in
      let c := cpu_of item_counter (counter_previous it) (counter_current it) runtime_counter in
      process_loop n (<[p := set_cpu c it]> h) l (i + 1) runtime_counter
  end.

Definition rhs_thread_list_process (h : items) (instance : option RHSThreadList) (runtime : Z)
    : outcome (items * RHSThreadList) :=
  with_list instance (fun l =>
    let l := mkList (item l) (runtime_current l) runtime (isr_previous l) (isr_current l) in
    let runtime_counter := u32 (runtime_current l - runtime_previous l) in
    count ← rhs_thread_list_size h (Some l);
    h ← process_loop (Z.to_nat count) h l 0 runtime_counter;
    Ret (h, l)).
End operations.

(** ** rhs_thread_enumerate (core/thread.c) *)

Inductive eTaskState := eRunning | eReady | eBlocked | eSuspended | eDeleted | eInvalid.

(** [None] is any other value. *)
Definition rhs_thread_state_name (st : option eTaskState) : string :=
  match st with
  | Some eRunning => "Running"
  | Some eReady => "Ready"
  | Some eBlocked => "Blocked"
  | Some eSuspended => "Suspended"
  | Some eDeleted => "Deleted"
  | Some eInvalid => "Invalid"
  | None => "?"
  end.

(** A task as [uxTaskGetSystemState] reports it. *)
Record TaskStatus_t := mkTask {
  pcTaskName : Z; uxCurrentPriority : Z; pxStackBase : Z; pxEndOfStack : Z; eCurrentState : option eTaskState;
  ulRunTimeCounter : Z; xHandle : Z }.

Section enumerate.
Context {S : Type} `{Scheduler S}.
Context (malloc : items -> Z * RHSThreadListItem).
(** Whether [pvPortMalloc] finds memory for the tasks' states, the tasks, the total of the
    run-time counters, and the least free stack of a task. *)
Context (memory : bool) (uxTaskGetSystemState : S -> list TaskStatus_t * Z) (uxTaskGetStackHighWaterMark : S -> Z -> Z).

(** A stack grows in words of 4 bytes. *)
Definition item_of (s : S) (tick : Z) (garbage : RHSThreadListItem) (t : TaskStatus_t) : RHSThreadListItem :=
  mkItem (thread garbage) (pcTaskName t) (uxCurrentPriority t) (u32 (pxStackBase t))
    (u32 ((pxEndOfStack t - pxStackBase t) / 4 + 2)) (u32 (uxTaskGetStackHighWaterMark s (xHandle t)))
    (rhs_thread_state_name (eCurrentState t)) (counter_current garbage) (ulRunTimeCounter t) (cpu garbage) tick
    (next garbage).

Fixpoint enumerate_loop (s : S) (tick : Z) (ts : list TaskStatus_t) (h : items) (l : RHSThreadList)
    : outcome (items * RHSThreadList) :=
  match ts with
  | [] => Ret (h, l)
  | t :: ts =>
      '(p, h, l) ← rhs_thread_list_add malloc h (Some l);
      i ← read_item h p;
      enumerate_loop s tick ts (<[p := item_of s tick i t]> h) l
  end.

Definition rhs_thread_enumerate (s : S) (h : items) (list : option RHSThreadList)
    : outcome (items * option RHSThreadList * S) :=
  if RHS_IS_IRQ_MODE s then Crash "Assert"
  else
    let s := vTaskSuspendAll s in
    let tick := rhs_get_tick s in
    '(h, list) ←
      (if memory then
         let '(tasks, total_run_time) := uxTaskGetSystemState s in
         '(h, l) ← rhs_thread_list_erase h list;
         '(h, l) ← enumerate_loop s tick tasks h l;
         '(h, l) ← rhs_thread_list_process h (Some l) total_run_time;
         Ret (h, Some l)
       else Ret (h, list));
    '(_, s) ← resume_all s;
    Ret (h, list, s).
End enumerate.

(** ** The list a heap holds *)

Fixpoint chain (h : items) (p q : Z) (l : list Z) : Prop :=
  match l with
  | [] => p = q
  | a :: l => p = a /\ a <> 0 /\ exists i, h !! a = Some i /\ chain h (next i) q l
  end.

Definition holds (h : items) (tl : RHSThreadList) (l : list Z) : Prop := chain h (item tl) 0 l /\ NoDup l.

Lemma items_ext h h' p q l :
  (forall a i, a ∈ l -> h !! a = Some i -> exists i', h' !! a = Some i' /\ next i' = next i) -> chain h p q l -> chain h' p q l.
Proof.
  revert p. induction l as [|a l IH]; intros p Hext; simpl; [done|]. intros (-> & Ha & i & Hi & Hch).
  split; [done|]. split; [done|]. destruct (Hext a i ltac:(set_solver) Hi) as (i' & Hi' & E). exists i'. split; [done|].
  rewrite E. apply IH; [|done]. intros b j Hb. apply Hext. set_solver.
Qed.

Lemma chain_frame h h' p q l : (forall a, a ∈ l -> h' !! a = h !! a) -> chain h p q l -> chain h' p q l.
Proof. intros Hext. apply items_ext. intros a i Ha Hi. exists i. by rewrite Hext. Qed.

Lemma items_lookup h p q l a : chain h p q l -> a ∈ l -> a <> 0 /\ is_Some (h !! a).
Proof.
  revert p. induction l as [|b l IH]; intros p; simpl; [set_solver|].
  intros (-> & Hb & i & Hi & Hch). rewrite elem_of_cons. intros [->|Ha]; eauto.
Qed.

Lemma items_app h p q l l' : chain h p q (l ++ l') <-> exists m, chain h p m l /\ chain h m q l'.
Proof.
  revert p. induction l as [|a l IH]; intros p; simpl.
  - split; [by exists p|]. by intros (m & -> & ?).
  - split.
    + intros (-> & Ha & i & Hi & (m & H1 & H2)%IH). exists m. eauto 10.
    + intros (m & (-> & Ha & i & Hi & H1) & H2). repeat split; try done. exists i. split; [done|]. apply IH. eauto.
Qed.

Lemma items_length h p q l : chain h p q l -> NoDup l -> (length l <= size h)%nat.
Proof.
  intros Hch Hnd. rewrite <- (size_list_to_set (C := gset Z) l) by done.
  rewrite <- (size_dom (D := gset Z) h). apply subseteq_size. intros a Ha%elem_of_list_to_set.
  apply elem_of_dom. by destruct (items_lookup _ _ _ _ _ Hch Ha).
Qed.

Lemma chain_end h p q l : chain h p q l -> l = [] \/ p <> 0.
Proof. destruct l as [|a l]; [by left|]. intros (-> & Ha & _). by right. Qed.

Lemma read_item_eq h p i : h !! p = Some i -> read_item h p = Ret i.
Proof. unfold read_item. by intros ->. Qed.

(** *** Each loop on the list *)

Lemma items_erase_spec l : forall f h p, chain h p 0 l -> NoDup l -> (length l < f)%nat ->
  exists h', erase_loop f h p = Ret h' /\ forall a, h' !! a = if decide (a ∈ l) then None else h !! a.
Proof.
  induction l as [|a l IH]; intros [|f] h p Hch Hnd Hf; simpl in Hf; try lia; cbn [erase_loop].
  - simpl in Hch. subst p. exists h. split; [done|]. intros a. by destruct (decide (a ∈ [])); [set_solver|].
  - destruct Hch as (-> & Ha & i & Hi & Hch). apply NoDup_cons in Hnd as [Hal Hnd].
    destruct (Z.eqb_spec a 0) as [|_]; [done|]. rewrite (read_item_eq _ _ _ Hi). cbn [mbind outcome_bind].
    unfold free_item. rewrite Hi. cbn [mbind outcome_bind].
    destruct (IH f (delete a h) (next i)) as (h' & E & Hh').
    { eapply chain_frame; [|exact Hch]. intros b Hb. apply lookup_delete_ne. by intros ->. }
    { done. }
    { lia. }
    exists h'. split; [exact E|]. intros b. rewrite Hh'.
    destruct (decide (b ∈ a :: l)) as [Hb|Hb].
    + apply elem_of_cons in Hb as [->|Hb]; [by rewrite decide_False, lookup_delete_eq|by rewrite decide_True].
    + apply not_elem_of_cons in Hb as [Hb1 Hb2]. by rewrite decide_False, lookup_delete_ne.
Qed.

Lemma find_loop_spec l x : forall f h p, chain h p 0 l -> (length l < f)%nat -> x <> 0 ->
  find_loop f h p x = Ret (if decide (x ∈ l) then x else 0).
Proof.
  induction l as [|a l IH]; intros [|f] h p Hch Hf Hx; simpl in Hf; try lia; cbn [find_loop].
  - simpl in Hch. subst p. by destruct (decide (x ∈ [])); [set_solver|].
  - destruct Hch as (-> & Ha & i & Hi & Hch). destruct (Z.eqb_spec a 0) as [|_]; [done|].
    destruct (Z.eqb_spec a x) as [->|Hne]; [by rewrite decide_True by set_solver|].
    rewrite (read_item_eq _ _ _ Hi). cbn [mbind outcome_bind]. rewrite (IH f h (next i) Hch) by (done || lia).
    destruct (decide (x ∈ a :: l)) as [Hb|Hb].
    + apply elem_of_cons in Hb as [->|Hb]; [done|]. by rewrite decide_True.
    + apply not_elem_of_cons in Hb as [_ Hb]. by rewrite decide_False.
Qed.

Lemma at_loop_spec l : forall f h p i index, chain h p 0 l -> (length l < f)%nat ->
  0 <= i -> i + Z.of_nat (length l) < 65536 -> i <= index ->
  at_loop f h p i index = Ret (default 0 (l !! Z.to_nat (index - i))).
Proof.
  induction l as [|a l IH]; intros [|f] h p i index Hch Hf Hi0 Hi1 Hx; simpl in Hf, Hi1; try lia; cbn [at_loop].
  - simpl in Hch. by subst p.
  - destruct Hch as (-> & Ha & it & Hi & Hch). destruct (Z.eqb_spec a 0) as [|_]; [done|].
    destruct (Z.eqb_spec i index) as [->|Hne]; [by rewrite Z.sub_diag|].
    rewrite (read_item_eq _ _ _ Hi). cbn [mbind outcome_bind]. rewrite u16_small by lia.
    rewrite (IH f h (next it) (i + 1) index Hch) by lia. replace (Z.to_nat (index - i)) with (S (Z.to_nat (index - (i + 1)))) by lia. done.
Qed.

Lemma size_loop_spec l : forall f h p n, chain h p 0 l -> (length l < f)%nat -> 0 <= n < 65536 ->
  size_loop f h p n = Ret (u16 (n + Z.of_nat (length l))).
Proof.
  induction l as [|a l IH]; intros [|f] h p n Hch Hf Hn; simpl in Hf; try lia; cbn [size_loop].
  - simpl in Hch. subst p. simpl. by rewrite Z.add_0_r, u16_small by lia.
  - destruct Hch as (-> & Ha & it & Hi & Hch). destruct (Z.eqb_spec a 0) as [|_]; [done|].
    rewrite (read_item_eq _ _ _ Hi). cbn [mbind outcome_bind].
    rewrite (IH f h (next it) _ Hch) by (lia || apply u16_range). f_equal. simpl. word.
Qed.

(** Unlinking [x] after [l1], of which [prev] is the last item. *)
Lemma unlink_item h l l1 x l2 : holds h l (l1 ++ x :: l2) ->
  exists i h1 l', h !! x = Some i /\
    (if default 0 (last l1) =? 0 then Ret (h, set_item (next i) l)
     else p ← read_item h (default 0 (last l1)); Ret (<[default 0 (last l1) := set_next (next i) p]> h, l)) = Ret (h1, l') /\
    h1 !! x = Some i /\ holds (delete x h1) l' (l1 ++ l2).
Proof.
  intros [Hch Hnd]. apply NoDup_app in Hnd as Hnd'. destruct Hnd' as (Hnd1 & Hdis & Hnd2).
  apply NoDup_cons in Hnd2 as [Hx2 Hnd2]. assert (Hx1 : x ∉ l1) by (intros Hx; apply (Hdis x Hx); set_solver).
  assert (Hnd' : NoDup (l1 ++ l2)).
  { apply NoDup_app. split; [done|]. split; [|done]. intros a Ha1 Ha2. apply (Hdis a Ha1). set_solver. }
  apply items_app in Hch as (m & Hch1 & (-> & Hx0 & i & Hi & Hch2)). exists i.
  destruct l1 as [|b l1 _] using rev_ind.
  - change (default 0 (last [])) with 0. eexists h, _. split; [done|]. split; [reflexivity|]. split; [done|]. split; [|done].
    simpl. eapply chain_frame; [|exact Hch2]. intros a Ha. apply lookup_delete_ne. by intros ->.
  - rewrite last_snoc. change (default 0 (Some b)) with b. apply items_app in Hch1 as (m & Hch1 & (-> & Hb & j & Hj & Hjx)). simpl in Hjx.
    destruct (Z.eqb_spec b 0) as [|_]; [done|]. rewrite (read_item_eq _ _ _ Hj).
    assert (Hbx : b <> x) by set_solver.
    eexists _, l. split; [done|]. split; [reflexivity|]. split; [by rewrite lookup_insert_ne|]. split; [|done].
    rewrite <- app_assoc. apply items_app. exists b.
    assert (Hb1 : b ∉ l1) by (apply NoDup_app in Hnd1 as (_ & Hd & _); intros Hin; apply (Hd b Hin); set_solver).
    split.
    + eapply chain_frame; [|exact Hch1]. intros a Ha. rewrite lookup_delete_ne by set_solver.
      rewrite lookup_insert_ne; [done|]. by intros ->.
    + split; [done|]. split; [done|]. exists (set_next (next i) j).
      split; [by rewrite lookup_delete_ne, lookup_insert_eq|]. simpl.
      eapply chain_frame; [|exact Hch2]. intros a Ha.
      rewrite lookup_delete_ne by (by intros ->). rewrite lookup_insert_ne; [done|].
      intros <-. apply (Hdis b); set_solver.
Qed.

Lemma items_remove_spec l2 x : forall f h l l1 p, holds h l (l1 ++ l2) -> chain h p 0 l2 -> x ∉ l1 ->
  (length l2 < f)%nat -> x <> 0 ->
  if decide (x ∈ l2) then exists h' l', remove_loop f h l p (default 0 (last l1)) x = Ret (1, h', l') /\
    holds h' l' (l1 ++ filter (fun a => a <> x) l2)
  else remove_loop f h l p (default 0 (last l1)) x = Ret (0, h, l).
Proof.
  induction l2 as [|a l2 IH]; intros [|f] h l l1 p Hh Hch Hx1 Hf Hx; simpl in Hf; try lia; cbn [remove_loop].
  - simpl in Hch. subst p. by destruct (decide (x ∈ [])); [set_solver|].
  - destruct Hch as (-> & Ha & i & Hi & Hch). destruct (Z.eqb_spec a 0) as [|_]; [done|].
    rewrite (read_item_eq _ _ _ Hi). cbn [mbind outcome_bind]. destruct (Z.eqb_spec a x) as [->|Hne].
    + rewrite decide_True by set_solver. destruct (unlink_item h l l1 x l2 Hh) as (i' & h1 & l' & Hi' & E & Hh1 & Hh').
      rewrite Hi in Hi'. injection Hi' as <-. rewrite E. cbn [mbind outcome_bind]. unfold free_item. rewrite Hh1.
      cbn [mbind outcome_bind]. exists (delete x h1), l'. split; [done|].
      assert (Hx2 : x ∉ l2) by (destruct Hh as [_ Hnd]; apply NoDup_app in Hnd as (_ & _ & Hnd); by apply NoDup_cons in Hnd as [? _]).
      rewrite filter_cons_False by naive_solver.
      replace (filter (fun a => a <> x) l2) with l2; [done|].
      clear -Hx2. induction l2 as [|b l2 IH]; [done|]. rewrite filter_cons_True by set_solver. f_equal. apply IH. set_solver.
    + specialize (IH f h l (l1 ++ [a]) (next i)). rewrite last_snoc, <- app_assoc in IH. change (default 0 (Some a)) with a in IH. cbn [app] in IH.
      specialize (IH Hh Hch ltac:(set_solver) ltac:(lia) Hx).
      destruct (decide (x ∈ l2)) as [Hin|Hin].
      * rewrite decide_True by set_solver. destruct IH as (h' & l' & E & Hh'). exists h', l'. split; [exact E|].
        rewrite filter_cons_True by done. by rewrite <- app_assoc in Hh'.
      * rewrite decide_False by set_solver. exact IH.
Qed.

(** ** The operations are those of a list of addresses *)

Section correctness.
Context (malloc : items -> Z * RHSThreadListItem).
(** [malloc] returns memory that is not in use, or [NULL]. *)
Context (malloc_fresh : forall h, fst (malloc h) = 0 \/ (fst (malloc h) <> 0 /\ h !! fst (malloc h) = None)).

Lemma add_spec h tl l : holds h tl l ->
  let '(p, g) := malloc h in
  rhs_thread_list_add malloc h (Some tl) = Ret (p, if p =? 0 then h else <[p := set_next (item tl) g]> h,
    if p =? 0 then tl else set_item p tl) /\
  (p <> 0 -> (p ∉ l) /\ h !! p = None /\ holds (<[p := set_next (item tl) g]> h) (set_item p tl) (p :: l)).
Proof.
  intros [Hch Hnd]. unfold rhs_thread_list_add, with_list. pose proof (malloc_fresh h) as Hm.
  destruct (malloc h) as [p g]. cbn [fst] in Hm. destruct (Z.eqb_spec p 0) as [->|Hp]; [by split|]. split; [done|].
  intros _. destruct Hm as [|[_ Hp']]; [done|].
  assert (Hpl : p ∉ l) by (intros Hin; destruct (items_lookup _ _ _ _ _ Hch Hin) as [_ [? Hx]]; congruence).
  split; [done|]. split; [done|]. split; [|by apply NoDup_cons]. split; [done|]. split; [done|].
  eexists. split; [by rewrite lookup_insert_eq|]. simpl. eapply chain_frame; [|exact Hch].
  intros a Ha. apply lookup_insert_ne. by intros ->.
Qed.

Inductive list_op := Add | Remove (x : Z) | Find (x : Z) | At (index : Z) | Size | Erase.

Definition run_op (op : list_op) (h : items) (tl : RHSThreadList) : outcome (Z * items * RHSThreadList) :=
  match op with
  | Add => rhs_thread_list_add malloc h (Some tl)
  | Remove x => rhs_thread_list_remove h (Some tl) x
  | Find x => r ← rhs_thread_list_find h (Some tl) x; Ret (r, h, tl)
  | At index => r ← rhs_thread_list_at h (Some tl) index; Ret (r, h, tl)
  | Size => r ← rhs_thread_list_size h (Some tl); Ret (r, h, tl)
  | Erase => '(h, tl) ← rhs_thread_list_erase h (Some tl); Ret (0, h, tl)
  end.
Fixpoint run_ops (ops : list list_op) (h : items) (tl : RHSThreadList) : outcome (list Z * items * RHSThreadList) :=
  match ops with
  | [] => Ret ([], h, tl)
  | op :: ops => '(r, h, tl) ← run_op op h tl; '(rs, h, tl) ← run_ops ops h tl; Ret (r :: rs, h, tl)
  end.

(** The reference: an operation, the list, the result, and the list after it. *)
Inductive spec : list_op -> list Z -> Z -> list Z -> Prop :=
  | spec_add l p : p <> 0 -> (p ∉ l) -> spec Add l p (p :: l)
  | spec_add_null l : spec Add l 0 l
  | spec_remove l x : spec (Remove x) l (if decide (x ∈ l) then 1 else 0) (filter (fun a => a <> x) l)
  | spec_find l x : spec (Find x) l (if decide (x ∈ l) then x else 0) l
  | spec_at l i : spec (At i) l (default 0 (l !! Z.to_nat i)) l
  | spec_size l : spec Size l (Z.of_nat (length l)) l
  | spec_erase l : spec Erase l 0 [].
Inductive spec_run : list list_op -> list Z -> list Z -> list Z -> Prop :=
  | spec_run_nil l : spec_run [] l [] l
  | spec_run_cons op ops l r l1 rs l2 : spec op l r l1 -> spec_run ops l1 rs l2 -> spec_run (op :: ops) l (r :: rs) l2.

(** Items are pointers to items, and positions have 16 bits. *)
Definition valid_op (op : list_op) : Prop :=
  match op with Remove x | Find x => x <> 0 | At i => in_u16 i | _ => True end.

Lemma run_op_spec op h tl l : holds h tl l -> valid_op op -> Z.of_nat (length l) < 65535 ->
  exists r h' tl' l', run_op op h tl = Ret (r, h', tl') /\ holds h' tl' l' /\ spec op l r l' /\
    (length l' <= S (length l))%nat.
Proof.
  intros Hh Hv Hlen. pose proof Hh as [Hch Hnd]. pose proof (items_length _ _ _ _ Hch Hnd) as Hsz.
  destruct op as [|x|x|i| |]; cbn [run_op valid_op] in *.
  - pose proof (add_spec h tl l Hh) as A. destruct (malloc h) as [p g]. destruct A as [-> A].
    destruct (Z.eqb_spec p 0) as [->|Hp].
    + exists 0, h, tl, l. repeat split; try done; [constructor|lia].
    + destruct (A Hp) as (A1 & _ & A2). eexists _, _, _, (p :: l). split; [done|]. split; [done|].
      split; [by constructor|simpl; lia].
  - unfold rhs_thread_list_remove, with_list. destruct (Z.eqb_spec x 0) as [|_]; [done|].
    pose proof (items_remove_spec l x (S (size h)) h tl [] (item tl) Hh Hch ltac:(set_solver) ltac:(lia) Hv) as Rm.
    change (default 0 (last [])) with 0 in Rm. pose proof (spec_remove l x) as Hs.
    destruct (decide (x ∈ l)) as [Hin|Hin].
    + destruct Rm as (h' & l' & E & Hh'). eexists _, h', l', _. split; [exact E|]. split; [exact Hh'|].
      split; [exact Hs|]. simpl. pose proof (length_filter (fun a => a <> x) l). lia.
    + eexists _, h, tl, _. split; [exact Rm|]. split; [|split; [exact Hs|]].
      * replace (filter (fun a => a <> x) l) with l; [done|]. clear -Hin.
        induction l as [|b l IH]; [done|]. apply not_elem_of_cons in Hin as [? ?].
        rewrite filter_cons_True by done. f_equal. by apply IH.
      * pose proof (length_filter (fun a => a <> x) l). lia.
  - unfold rhs_thread_list_find, with_list. destruct (Z.eqb_spec x 0) as [|_]; [done|].
    rewrite (find_loop_spec l x) by (done || lia). eexists _, h, tl, l. split; [done|]. split; [done|].
    split; [constructor|lia].
  - unfold rhs_thread_list_at, with_list. unfold in_u16 in Hv.
    rewrite (at_loop_spec l (S (size h)) h (item tl) 0 i Hch) by lia. rewrite Z.sub_0_r.
    eexists _, h, tl, l. split; [done|]. split; [done|]. split; [constructor|lia].
  - unfold rhs_thread_list_size, with_list. rewrite (size_loop_spec l _ h _ 0 Hch) by lia. rewrite Z.add_0_l, u16_small by lia.
    eexists _, h, tl, l. split; [done|]. split; [done|]. split; [constructor|lia].
  - unfold rhs_thread_list_erase, with_list.
    destruct (items_erase_spec l (S (size h)) h (item tl) Hch Hnd ltac:(lia)) as (h' & -> & _).
    eexists 0, h', _, []. split; [done|]. split; [by split; [|constructor]|]. split; [constructor|simpl; lia].
Qed.

(** C20: over any sequence of operations, of fewer than 65536 items in all, the chain of
    heap objects behaves as a list of addresses: adding puts a new one in front, removing
    takes one out, finding, indexing and counting answer for the list, and erasing empties
    it; no operation touches memory that is not an item. *)
Theorem thread_list_refines_list ops h tl l :
  holds h tl l -> Forall valid_op ops -> Z.of_nat (length l + length ops) < 65536 ->
  exists rs h' tl' l', run_ops ops h tl = Ret (rs, h', tl') /\ holds h' tl' l' /\ spec_run ops l rs l'.
Proof.
  revert h tl l. induction ops as [|op ops IH]; intros h tl l Hh Hv Hlen; cbn [run_ops].
  - exists [], h, tl, l. repeat split; try done; [apply Hh..|constructor].
  - apply Forall_cons in Hv as [Hv Hvs]. simpl in Hlen.
    destruct (run_op_spec op h tl l Hh Hv ltac:(lia)) as (r & h1 & tl1 & l1 & -> & Hh1 & S1 & L1).
    cbn [mbind outcome_bind]. destruct (IH h1 tl1 l1 Hh1 Hvs ltac:(lia)) as (rs & h2 & tl2 & l2 & -> & Hh2 & S2).
    eexists _, h2, tl2, l2. split; [reflexivity|]. split; [done|]. by econstructor.
Qed.
End correctness.

(** ** The enumeration *)

Section enumeration.
Context {S : Type} `{SchedulerLaws S}.
Context (malloc : items -> Z * RHSThreadListItem).
Context (malloc_fresh : forall h, fst (malloc h) = 0 \/ (fst (malloc h) <> 0 /\ h !! fst (malloc h) = None)).
Context (memory : bool) (uxTaskGetSystemState : S -> list TaskStatus_t * Z) (uxTaskGetStackHighWaterMark : S -> Z -> Z).

(** An item that describes a task; [g] is what its memory held before. *)
Definition describes (s : S) (runtime : Z) (i : RHSThreadListItem) (t : TaskStatus_t) : Prop :=
  exists g, name i = pcTaskName t /\ priority i = uxCurrentPriority t /\ stack_address i = u32 (pxStackBase t) /\
    stack_min_free i = u32 (uxTaskGetStackHighWaterMark s (xHandle t)) /\
    state i = rhs_thread_state_name (eCurrentState t) /\ tick i = rhs_get_tick s /\
    counter_current i = ulRunTimeCounter t /\ thread i = thread g /\ counter_previous i = counter_current g /\
    cpu i = cpu_of (u32 (ulRunTimeCounter t - counter_current g)) (counter_current g) (ulRunTimeCounter t) runtime.

Lemma enumerate_loop_spec s tk ts : forall h tl l,
  holds h tl l -> (forall h, fst (malloc h) <> 0) ->
  exists h' tl' new, enumerate_loop malloc uxTaskGetStackHighWaterMark s tk ts h tl = Ret (h', tl') /\
    holds h' tl' (reverse new ++ l) /\ runtime_current tl' = runtime_current tl /\
    (forall a, (a ∉ new) -> h' !! a = h !! a) /\ (forall a, a ∈ new -> h !! a = None) /\
    Forall2 (fun a t => exists g nxt, h' !! a = Some (set_next nxt (item_of uxTaskGetStackHighWaterMark s tk g t))) new ts.
Proof.
  induction ts as [|t ts IH]; intros h tl l Hh Hnn; cbn [enumerate_loop].
  - exists h, tl, []. repeat split; [apply Hh|apply Hh|set_solver|done].
  - pose proof (add_spec malloc malloc_fresh h tl l Hh) as A. specialize (Hnn h) as Hp. destruct (malloc h) as [p g].
    cbn [fst] in Hp. destruct A as [-> A]. destruct (Z.eqb_spec p 0) as [|_]; [done|]. cbn [mbind outcome_bind].
    destruct (A Hp) as (Hpl & Hpn & Hh1). rewrite (read_item_eq _ _ (set_next (item tl) g)) by apply lookup_insert_eq.
    cbn [mbind outcome_bind]. rewrite insert_insert_eq.
    set (h1 := <[p := item_of _ s tk (set_next (item tl) g) t]> h).
    assert (Hh2 : holds h1 (set_item p tl) (p :: l)).
    { destruct Hh1 as [Hch Hnd]. split; [|done]. eapply items_ext; [|exact Hch]. intros a i Ha Hi. unfold h1.
      destruct (decide (a = p)) as [->|Hne].
      - rewrite lookup_insert_eq in Hi |- *. injection Hi as <-. by eexists.
      - rewrite lookup_insert_ne in Hi |- * by done. by exists i. }
    destruct (IH h1 (set_item p tl) (p :: l) Hh2 Hnn) as (h' & tl' & new & E & Hh' & R' & F' & N' & D').
    exists h', tl', (p :: new). split; [exact E|]. split; [by rewrite reverse_cons, <- app_assoc|]. split; [done|].
    split; [intros a [Ha Ha']%not_elem_of_cons; rewrite F' by done; unfold h1; by rewrite lookup_insert_ne|].
    split; [intros a [->|Ha]%elem_of_cons; [done|]; specialize (N' a Ha); unfold h1 in N'; destruct (decide (a = p)) as [->|];
      [by rewrite lookup_insert_eq in N'|by rewrite lookup_insert_ne in N']|].
    constructor; [|exact D']. exists g, (item tl). rewrite F'; [unfold h1; by rewrite lookup_insert_eq|].
    destruct Hh' as [_ Hnd]. apply NoDup_app in Hnd as (_ & Hd & _). intros Hin.
    apply (Hd p); [by apply elem_of_reverse|by left].
Qed.

Lemma process_loop_spec rt n : forall h tl l i,
  holds h tl l -> 0 <= i -> i + Z.of_nat n = Z.of_nat (length l) -> Z.of_nat (length l) < 65536 ->
  exists h', process_loop n h tl i rt = Ret h' /\ holds h' tl l /\
    (forall a it, h !! a = Some it -> h' !! a = Some (if decide (a ∈ drop (Z.to_nat i) l)
      then set_cpu (cpu_of (u32 (counter_current it - counter_previous it)) (counter_previous it) (counter_current it) rt) it
      else it)) /\ (forall a, h !! a = None -> h' !! a = None).
Proof.
  induction n as [|n IH]; intros h tl l i Hh Hi0 Hi1 Hlen; cbn [process_loop].
  - exists h. split; [done|]. split; [done|]. split; [|done]. intros a it Ha.
    rewrite decide_False; [done|]. rewrite drop_ge by lia. set_solver.
  - pose proof Hh as [Hch Hnd]. pose proof (items_length _ _ _ _ Hch Hnd) as Hsz. rewrite u16_small by lia.
    unfold rhs_thread_list_at at 1, with_list. rewrite (at_loop_spec l _ h _ 0 i Hch) by lia. rewrite Z.sub_0_r.
    destruct (lookup_lt_is_Some_2 l (Z.to_nat i)) as [a Ha]; [lia|]. rewrite Ha. cbn [mbind outcome_bind].
    change (default 0 (Some a)) with a.
    destruct (items_lookup _ _ _ _ a Hch ltac:(by eapply list_elem_of_lookup_2)) as [Ha0 [it Hit]].
    rewrite (read_item_eq _ _ _ Hit). cbn [mbind outcome_bind].
    set (c := cpu_of _ _ _ _). set (h1 := <[a := set_cpu c it]> h).
    assert (Hh1 : holds h1 tl l).
    { split; [|done]. eapply items_ext; [|exact Hch]. intros b j Hb Hj. unfold h1. destruct (decide (b = a)) as [->|Hne].
      - rewrite lookup_insert_eq. eexists. split; [done|]. rewrite Hit in Hj. by injection Hj as <-.
      - rewrite lookup_insert_ne by done. by exists j. }
    destruct (IH h1 tl l (i + 1) Hh1) as (h' & E & Hh' & F' & N'); [lia..|].
    exists h'. split; [exact E|]. split; [done|].
    assert (Hdrop : drop (Z.to_nat i) l = a :: drop (Z.to_nat (i + 1)) l).
    { rewrite (drop_S _ _ _ Ha). do 2 f_equal. lia. }
    assert (Hnot : a ∉ drop (Z.to_nat (i + 1)) l).
    { rewrite <- (take_drop (Z.to_nat i) l), Hdrop in Hnd. apply NoDup_app in Hnd as (_ & _ & Hd).
      by apply NoDup_cons in Hd as [? _]. }
    rewrite Hdrop. split.
    + intros b j Hb. destruct (decide (b = a)) as [->|Hne].
      * rewrite Hit in Hb. injection Hb as <-. rewrite (F' a (set_cpu c it)) by (unfold h1; apply lookup_insert_eq).
        rewrite decide_False by done. by rewrite decide_True by (by left).
      * rewrite (F' b j) by (unfold h1; by rewrite lookup_insert_ne).
        destruct (decide (b ∈ drop (Z.to_nat (i + 1)) l)) as [Hin|Hin].
        -- by rewrite decide_True by (by right).
        -- rewrite decide_False; [done|]. intros [->|Hin']%elem_of_cons; done.
    + intros b Hb. apply N'. unfold h1. rewrite lookup_insert_ne; [done|]. intros ->. congruence.
Qed.

(** Outside of interrupts and with memory for them, the enumeration frees the items
    the list had and gives it one new item per task, in the reverse of FreeRTOS's order,
    that shows the task's name, priority, stack, state and run time, with the scheduler
    suspended meanwhile and resumed after. The share of the processor is computed from
    what the memory of the new item happened to hold. Without memory the list stays. *)
Theorem thread_enumerate_correct (s : S) h tl l :
  RHS_IS_IRQ_MODE s = false -> holds h tl l -> (forall h, fst (malloc h) <> 0) ->
  Z.of_nat (length (fst (uxTaskGetSystemState (vTaskSuspendAll s)))) < 65536 ->
  exists h' tl' s', rhs_thread_enumerate malloc memory uxTaskGetSystemState uxTaskGetStackHighWaterMark s h (Some tl) =
    Ret (h', Some tl', s') /\ suspended s' = suspended s /\
  if memory then
    let '(tasks, runtime) := uxTaskGetSystemState (vTaskSuspendAll s) in
    exists new, holds h' tl' (reverse new) /\
      (forall a, a ∈ l -> a ∉ new -> h' !! a = None) /\ (forall a, a ∈ new -> h !! a = None \/ a ∈ l) /\
      (forall a, (a ∉ l) -> (a ∉ new) -> h' !! a = h !! a) /\
      Forall2 (fun a t => exists i, h' !! a = Some i /\
        describes (vTaskSuspendAll s) (u32 (runtime - runtime_current tl)) i t) new tasks
  else h' = h /\ tl' = tl.
Proof.
  intros Hi Hh Hnn Htasks. unfold rhs_thread_enumerate. rewrite Hi. destruct (suspend_spec s) as (P1 & _).
  set (s1 := vTaskSuspendAll s) in *. pose proof (suspended_nonneg s) as Hs0.
  assert (Hpos : 0 < suspended s1) by lia. destruct (resume_spec s1 Hpos) as (r & s2 & Er & Rs & _).
  assert (Hs2 : suspended s2 = suspended s) by lia.
  destruct memory.
  2: { cbn [mbind outcome_bind]. unfold resume_all. rewrite Er. cbn [mbind outcome_bind].
       eexists _, tl, s2. by split. }
  destruct (uxTaskGetSystemState s1) as [tasks runtime]. cbn [fst] in Htasks.
  pose proof Hh as [Hch Hnd]. pose proof (items_length _ _ _ _ Hch Hnd) as Hsz.
  unfold rhs_thread_list_erase at 1, with_list.
  destruct (items_erase_spec l (Datatypes.S (size h)) h (item tl) Hch Hnd ltac:(lia)) as (h1 & -> & Hh1).
  cbn [mbind outcome_bind].
  destruct (enumerate_loop_spec s1 (rhs_get_tick s1) tasks h1 (set_item 0 tl) []) as (h2 & tl2 & new & E2 & Hh2 & R2 & F2 & N2 & D2);
    [by split; [|constructor]|done|].
  rewrite E2. cbn [mbind outcome_bind]. rewrite app_nil_r in Hh2. pose proof Hh2 as [Hch2 Hnd2].
  pose proof (items_length _ _ _ _ Hch2 Hnd2) as Hsz2. pose proof (Forall2_length _ _ _ D2) as Hlen.
  unfold rhs_thread_list_process, with_list. set (tl3 := mkList _ _ _ _ _).
  unfold rhs_thread_list_size, with_list. change (item tl3) with (item tl2).
  rewrite (size_loop_spec (reverse new) _ h2 _ 0 Hch2) by lia. cbn [mbind outcome_bind].
  rewrite Z.add_0_l, u16_small by (rewrite length_reverse; lia). rewrite Nat2Z.id.
  destruct (process_loop_spec (u32 (runtime_current tl3 - runtime_previous tl3)) (length (reverse new)) h2 tl3 (reverse new) 0)
    as (h3 & -> & Hh3 & F3 & N3); [exact Hh2|lia|lia|rewrite length_reverse; lia|].
  cbn [mbind outcome_bind]. unfold resume_all. rewrite Er. cbn [mbind outcome_bind].
  exists h3, tl3, s2. split; [done|]. split; [done|]. exists new. split; [done|]. split.
  - intros a Hal Hnew. apply N3. rewrite F2, Hh1 by done. by rewrite decide_True.
  - split.
    { intros a Ha. specialize (N2 a Ha). rewrite Hh1 in N2. destruct (decide (a ∈ l)); [by right|by left]. }
    split.
    { intros a Hal Hnew. assert (Ea : h2 !! a = h !! a) by (rewrite F2, Hh1 by done; by rewrite decide_False).
      destruct (h2 !! a) as [i|] eqn:E; rewrite <- Ea; [|by apply N3]. rewrite (F3 a i E), decide_False; [done|].
      change (drop (Z.to_nat 0) (reverse new)) with (reverse new). by rewrite elem_of_reverse. }
    clear N2.
    apply Forall2_same_length_lookup in D2 as [_ D2]. apply Forall2_same_length_lookup. split; [done|].
    intros k a t Hk Ht. destruct (D2 k a t Hk Ht) as (g & nxt & Ha). eexists. split; [exact (F3 a _ Ha)|].
    rewrite decide_True.
    2: { change (drop (Z.to_nat 0) (reverse new)) with (reverse new). apply elem_of_reverse.
         by eapply list_elem_of_lookup_2. }
    change (runtime_previous tl3) with (runtime_current tl2). rewrite R2. by exists g.
Qed.
End enumeration.

(** ** An allocator to instantiate the theorems with: the first address above all *)

Definition blank_item : RHSThreadListItem := mkItem 0 0 0 0 0 0 EmptyString 0 0 0 0 0.
Definition next_item (h : items) : Z * RHSThreadListItem := (1 + map_fold (fun a _ m => Z.max a m) 0 h, blank_item).

Lemma next_item_fresh h : fst (next_item h) <> 0 /\ h !! fst (next_item h) = None.
Proof.
  unfold next_item. cbn [fst].
  assert (Hm : 0 <= map_fold (fun a _ m => Z.max a m) 0 h /\
    forall a, is_Some (h !! a) -> a <= map_fold (fun a _ m => Z.max a m) 0 h).
  { apply (map_fold_weak_ind (fun m (h : items) => 0 <= m /\ forall a, is_Some (h !! a) -> a <= m)).
    - split; [lia|]. intros a [o Ho]. by rewrite lookup_empty in Ho.
    - intros a o m r Hm [H0 H]. split; [lia|]. intros b.
      destruct (decide (a = b)) as [->|Hab]; [lia|].
      rewrite lookup_insert_ne by done. intros Hb. specialize (H b Hb). lia. }
  destruct Hm as [H0 H]. split; [lia|].
  destruct (h !! _) eqn:E; [|done]. assert (Hs : is_Some (h !! (1 + map_fold (fun a _ m => Z.max a m) 0 h))) by eauto.
  specialize (H _ Hs). lia.
Qed.

Definition empty_list : RHSThreadList := mkList 0 0 0 0 0.
Lemma empty_holds : holds ∅ empty_list [].
Proof. split; [done|constructor]. Qed.

Theorem thread_list_refines_list_witness :
  exists rs h' tl' l', run_ops next_item [Add; Add; Remove 1; Find 2; At 0; Size] ∅ empty_list = Ret (rs, h', tl') /\
    holds h' tl' l' /\ spec_run [Add; Add; Remove 1; Find 2; At 0; Size] [] rs l'.
Proof.
  apply (thread_list_refines_list next_item (fun h => or_intror (next_item_fresh h)) [Add; Add; Remove 1; Find 2; At 0; Size]
    ∅ empty_list [] empty_holds).
  - repeat constructor; simpl; unfold in_u16; lia.
  - simpl. lia.
Defined.

Definition a_task_status : TaskStatus_t := mkTask 4096 16 0x20000000 0x20000400 (Some eRunning) 500 77.

Theorem thread_enumerate_correct_witness :
  exists h' tl' s' new, rhs_thread_enumerate next_item true (fun _ => ([a_task_status], 1000)) (fun _ _ => 100) a_task ∅
      (Some empty_list) = Ret (h', Some tl', s') /\
    suspended s' = suspended a_task /\ holds h' tl' (reverse new) /\ length new = 1%nat.
Proof.
  assert (Hi : RHS_IS_IRQ_MODE a_task = false) by reflexivity.
  destruct (thread_enumerate_correct next_item (fun h => or_intror (next_item_fresh h)) true
    (fun _ => ([a_task_status], 1000)) (fun _ _ => 100) a_task ∅ empty_list [] Hi empty_holds
    (fun h => proj1 (next_item_fresh h)) ltac:(simpl; lia)) as (h' & tl' & s' & E & Es & new & Hh & _ & _ & _ & F).
  exists h', tl', s', new. split; [exact E|]. split; [exact Es|]. split; [exact Hh|].
  exact (Forall2_length _ _ _ F).
Defined.
