(* ===== verification/Net.v ===== *)
(** * The network service (services/net/net.c, eth_net/eth_net.c)

    One task runs mongoose and serves requests that other tasks put in its queue; a request
    carries an API lock, which the service opens when it is done. Mongoose is third-party
    code: its functions are parameters that act on the service's state, since they call the
    application's event handlers. The list of listeners is that of [NetListeners], on the
    heap it allocates in. *)

From S2P Require Import Prelude Common Kernel EventFlag MessageQueue Mutex Records Log Cli NetUtils NetListeners.

(** ** Mongoose's structures, as far as the service reads and writes them *)

(** [conn_data] is the user's area of a connection. *)
Record mg_connection := mkConn {
  is_listening : bool; loc_port : Z; is_closing : bool; conn_data : list Z }.
Record mg_tcpip_if := mkIf { if_up : bool; if_ip : Z; if_mask : Z; if_gw : Z; if_mac : list Z }.
Record mg_mgr (K : Type) := mkMgr { conns : list mg_connection; ifp : mg_tcpip_if; mgr_rest : K }.
Arguments mkMgr {K}.
Arguments conns {K}.
Arguments ifp {K}.
Arguments mgr_rest {K}.

(** Functions of their arguments alone. [mg_aton_host] is
    [mg_aton(mg_url_host(url), &addr)]. *)
Class MongooseUrl := {
  mg_url_port : list Z -> Z;
  mg_aton_host : list Z -> bool;
  mg_htons : Z -> Z;
  MG_IPV4 : Z -> Z -> Z -> Z -> Z
}.

(** ** Configuration and messages *)

(** [char ip[16], mask[16], gateway[16]; uint8_t mac[6]]. *)
Record NetConfig := mkNetConfig { cfg_ip : list Z; cfg_mask : list Z; cfg_gateway : list Z; cfg_mac : list Z }.

(** [NetApiEventType] with the member of the union [NetApiEventData] that goes with it. The
    URI is the address of a string. *)
Inductive NetApiEvent :=
  | NetApiEventTypeSetHttp (uri fn context : Z)
  | NetApiEventTypeSetTcp (uri fn context : Z)
  | NetApiEventTypeRstTcp (uri : Z)
  | NetApiEventTypeRestart (config : NetConfig)
  | NetApiEventTypeStop.
(** [lock] is 0 for NULL. *)
Record NetApiEventMessage := mkNetMessage { msg_lock : Z; msg_event : NetApiEvent }.

(** What the service and its command print. *)
Inductive net_line :=
  | HttpStarted (uri : list Z) | TcpStarted (uri : list Z) | ListenerClosed (port : Z)
  | ListenerNotFound (uri : list Z) | InvalidUrl (uri : list Z) | Restoring
  | RestoredHttp (uri : list Z) | RestoredTcp (uri : list Z) | Stopping | MdnsStarted | MdnsFailed
  | StatusOf (i : mg_tcpip_if) | IpWillChange (a b c d : Z) | InvalidIpFormat | InvalidNetArgument.

(** ** State

    The kernel [S], event groups [E], queues [Q], mutexes [X], the rest [K] of mongoose.
    [net_locks] are the API locks that are allocated, by address; [net_thread] is the handle
    of the service's task. *)
Record Net (S E Q X K : Type) := mkNet {
  net_os : S;
  net_queue : Q;
  net_locks : gmap Z E;
  net_heap : heap;
  listeners : Z;
  net_config : NetConfig;
  net_mgr : mg_mgr K;
  net_thread : Z;
  net_records : @RHSRecord X E;
  net_cli : Cli X;
  net_log : list net_line
}.
Arguments mkNet {S E Q X K}.
Arguments net_os {S E Q X K}.
Arguments net_queue {S E Q X K}.
Arguments net_locks {S E Q X K}.
Arguments net_heap {S E Q X K}.
Arguments listeners {S E Q X K}.
Arguments net_config {S E Q X K}.
Arguments net_mgr {S E Q X K}.
Arguments net_thread {S E Q X K}.
Arguments net_records {S E Q X K}.
Arguments net_cli {S E Q X K}.
Arguments net_log {S E Q X K}.

Section net.
Context {S : Type} `{Scheduler S} {E : Type} `{EventGroup E} {Q : Type} `{FreeRTOSQueue Q} {X : Type} `{FreeRTOSMutex X}.
Context {K : Type} `{MongooseUrl}.
Abbreviation world := (Net S E Q X K).

Definition with_net_os (x : S) (w : world) : world :=
  mkNet x (net_queue w) (net_locks w) (net_heap w) (listeners w) (net_config w) (net_mgr w) (net_thread w)
    (net_records w) (net_cli w) (net_log w).
Definition with_net_queue (x : Q) (w : world) : world :=
  mkNet (net_os w) x (net_locks w) (net_heap w) (listeners w) (net_config w) (net_mgr w) (net_thread w)
    (net_records w) (net_cli w) (net_log w).
Definition with_net_locks (x : gmap Z E) (w : world) : world :=
  mkNet (net_os w) (net_queue w) x (net_heap w) (listeners w) (net_config w) (net_mgr w) (net_thread w)
    (net_records w) (net_cli w) (net_log w).
Definition with_listeners (h : heap) (l : Z) (w : world) : world :=
  mkNet (net_os w) (net_queue w) (net_locks w) h l (net_config w) (net_mgr w) (net_thread w)
    (net_records w) (net_cli w) (net_log w).
Definition with_net_config (x : NetConfig) (w : world) : world :=
  mkNet (net_os w) (net_queue w) (net_locks w) (net_heap w) (listeners w) x (net_mgr w) (net_thread w)
    (net_records w) (net_cli w) (net_log w).
Definition with_net_mgr (x : mg_mgr K) (w : world) : world :=
  mkNet (net_os w) (net_queue w) (net_locks w) (net_heap w) (listeners w) (net_config w) x (net_thread w)
    (net_records w) (net_cli w) (net_log w).
Definition with_net_records (x : @RHSRecord X E) (w : world) : world :=
  mkNet (net_os w) (net_queue w) (net_locks w) (net_heap w) (listeners w) (net_config w) (net_mgr w) (net_thread w)
    x (net_cli w) (net_log w).
Definition with_net_cli (x : Cli X) (w : world) : world :=
  mkNet (net_os w) (net_queue w) (net_locks w) (net_heap w) (listeners w) (net_config w) (net_mgr w) (net_thread w)
    (net_records w) x (net_log w).
Definition net_print (l : net_line) : M world unit := modify (fun w =>
  mkNet (net_os w) (net_queue w) (net_locks w) (net_heap w) (listeners w) (net_config w) (net_mgr w) (net_thread w)
    (net_records w) (net_cli w) (net_log w ++ [l])).

Definition with_conns (f : list mg_connection -> list mg_connection) (w : world) : world :=
  let m := net_mgr w in with_net_mgr (mkMgr (f (conns m)) (ifp m) (mgr_rest m)) w.
Definition with_ifp (f : mg_tcpip_if -> mg_tcpip_if) (w : world) : world :=
  let m := net_mgr w in with_net_mgr (mkMgr (conns m) (f (ifp m)) (mgr_rest m)) w.

(** The bytes of a message in the queue: how the compiler lays the structure out. *)
Context (to_bytes : NetApiEventMessage -> message) (of_bytes : message -> NetApiEventMessage).
(** [malloc] for the list, and for a new lock; what other tasks do while a call waits. *)
Context (malloc : heap -> Z) (lock_address : gmap Z E -> Z) (meanwhile : M world unit).

(** ** API locks *)

Definition lock_at (lock : Z) (w : world) : outcome E :=
  match net_locks w !! lock with Some e => Ret e | None => Fault end.

Definition new_lock : M world Z := fun w =>
  e ← api_lock_alloc_locked (net_os w);
  let lock := lock_address (net_locks w) in
  Ret (lock, with_net_locks (<[lock := e]> (net_locks w)) w).

Definition open_lock (lock : Z) : M world unit := fun w =>
  e ← lock_at lock w;
  '(_, e, s) ← api_lock_unlock (net_os w) (Some e);
  Ret (tt, with_net_locks (<[lock := e]> (net_locks w)) (with_net_os s w)).

Definition lock_is_locked (lock : Z) : M world bool := fun w =>
  e ← lock_at lock w; b ← api_lock_is_locked (net_os w) (Some e); Ret (b, w).

(** The wait has no time-out: it ends when somebody opened the lock. *)
Definition api_lock_wait_unlock_and_free (lock : Z) : M world unit :=
  b ← lock_is_locked lock;
  (if b : bool then meanwhile else mret tt);;
  b ← lock_is_locked lock;
  if b : bool then hang else
  fun w =>
    e ← lock_at lock w;
    '(_, e) ← api_lock_wait_unlock (net_os w) (Some e);
    rhs_event_flag_free (net_os w) (Some e);;
    Ret (tt, with_net_locks (delete lock (net_locks w)) w).

(** ** Requests; [me] is the calling task *)

(** [rhs_message_queue_put(net->queue, &msg, RHSWaitForever)]: it waits for room. *)
Definition queue_full (w : world) : bool := uxQueueSpacesAvailable (net_queue w) =? 0.
Definition put_message (msg : NetApiEventMessage) : M world unit :=
  w ← get;
  (if queue_full w then meanwhile else mret tt);;
  w ← get;
  if queue_full w then hang else
  fun w =>
    '(_, q) ← rhs_message_queue_put (net_os w) (Some (net_queue w)) (Some (to_bytes msg)) RHSWaitForever;
    Ret (tt, with_net_queue q w).

(** What the functions but [net_start_http] share: no lock in the service's own task. *)
Definition request (me : Z) (ev : NetApiEvent) : M world unit :=
  w ← get;
  let thread := net_thread w in
  lock ← (if negb (me =? thread) then new_lock else mret 0);
  put_message (mkNetMessage lock ev);;
  if negb (me =? thread) then api_lock_wait_unlock_and_free lock else mret tt.

Definition net_start_http (uri fn context : Z) : M world unit :=
  lock ← new_lock;
  put_message (mkNetMessage lock (NetApiEventTypeSetHttp uri fn context));;
  api_lock_wait_unlock_and_free lock.

Definition net_start_listener (me uri fn context : Z) : M world unit :=
  request me (NetApiEventTypeSetTcp uri fn context).
Definition net_stop_listener (me uri : Z) : M world unit := request me (NetApiEventTypeRstTcp uri).
Definition net_set_config (me : Z) (config : NetConfig) : M world unit := request me (NetApiEventTypeRestart config).
Definition net_stop : M world unit := put_message (mkNetMessage 0 NetApiEventTypeStop).

(** [ip_to_string(b[0], b[1], b[2], b[3], field)] on the bytes [b] of an address. *)
Definition print_address (v : Z) (field : list Z) : outcome (list Z) :=
  let b := le32 v in
  '(_, r) ← ip_to_string (nth 0 b 0) (nth 1 b 0) (nth 2 b 0) (nth 3 b 0) (Some field);
  Ret (default field r).

Definition net_get_config (config : option NetConfig) : M world NetConfig :=
  match config with
  | None => crash "Assert"
  | Some c =>
      w ← get;
      let i := ifp (net_mgr w) in
      ip ← lift (print_address (if_ip i) (cfg_ip c));
      mask ← lift (print_address (if_mask i) (cfg_mask c));
      gateway ← lift (print_address (if_gw i) (cfg_gateway c));
      mret (mkNetConfig ip mask gateway (cfg_mac c))
  end.

(** ** The service's task

    Mongoose: they may call event handlers, which act on the service as the application
    wrote them. [mg_mdns_listen] is [None] when it fails, or the index of the connection. *)
Context (mg_mgr_poll : M world unit) (mg_listen mg_http_listen : list Z -> Z -> Z -> M world unit)
        (mg_mdns_listen : list Z -> M world (option nat)).

(** A string the service reads. *)
Definition uri_at (uri : Z) : M world (list Z) := fun w => s ← read_string (net_heap w) uri; Ret (s, w).

Definition add_listener (r : registration) : M world unit := fun w =>
  '(h, l) ← net_listeners_add malloc (net_heap w) (listeners w) r; Ret (tt, with_listeners h l w).
Definition remove_listener (uri : Z) : M world bool := fun w =>
  '(b, h, l) ← net_listeners_remove (net_heap w) (listeners w) uri; Ret (b, with_listeners h l w).

Definition set_http (uri fn context : Z) : M world unit :=
  s ← uri_at uri;
  mg_http_listen s fn context;;
  s ← uri_at uri;
  net_print (HttpStarted s);;
  add_listener (mkReg NetListenerTypeHttp s fn context).

Definition set_tcp (uri fn context : Z) : M world unit :=
  s ← uri_at uri;
  mg_listen s fn context;;
  s ← uri_at uri;
  net_print (TcpStarted s);;
  add_listener (mkReg NetListenerTypeTcp s fn context).

Definition close (c : mg_connection) : mg_connection := mkConn (is_listening c) (loc_port c) true (conn_data c).

(** [c->is_listening && c->loc.port == mg_htons(port)] *)
Definition listens_on (port : Z) (c : mg_connection) : bool := is_listening c && (loc_port c =? mg_htons port).

(** The loop over [net->mgr->conns]. *)
Fixpoint close_listening (port : Z) (l : list mg_connection) : list mg_connection * list net_line :=
  match l with
  | [] => ([], [])
  | c :: l =>
      let '(l, out) := close_listening port l in
      if listens_on port c then (close c :: l, ListenerClosed (mg_htons (loc_port c)) :: out) else (c :: l, out)
  end.

Fixpoint print_lines (l : list net_line) : M world unit :=
  match l with [] => mret tt | x :: l => net_print x;; print_lines l end.

Definition rst_tcp (uri : Z) : M world unit :=
  s ← uri_at uri;
  let port := u16 (mg_url_port s) in
  if mg_aton_host s then
    w ← get;
    let '(l, out) := close_listening port (conns (net_mgr w)) in
    modify (with_conns (fun _ => l));;
    print_lines out;;
    mg_mgr_poll;;
    b ← remove_listener uri;
    if b : bool then mret tt else s ← uri_at uri; net_print (ListenerNotFound s)
  else net_print (InvalidUrl s).

(** A field of the configuration as a string: it has a NUL. *)
Definition field_string (f : list Z) : outcome (list Z) := if existsb (Z.eqb 0) f then Ret f else Fault.

(** [string_to_ip(field, &a, &b, &c, &d) == 0] and [MG_IPV4(a, b, c, d)]. *)
Definition parse_address (f : list Z) : outcome (option Z) :=
  s ← field_string f;
  Ret (match string_to_ip (Some s) (Some 0) (Some 0) (Some 0) (Some 0) with
       | (0, [Some a; Some b; Some c; Some d]) => Some (MG_IPV4 a b c d)
       | _ => None
       end).

Definition set_if_ip (v : Z) (i : mg_tcpip_if) : mg_tcpip_if := mkIf (if_up i) v (if_mask i) (if_gw i) (if_mac i).
Definition set_if_mask (v : Z) (i : mg_tcpip_if) : mg_tcpip_if := mkIf (if_up i) (if_ip i) v (if_gw i) (if_mac i).
Definition set_if_gw (v : Z) (i : mg_tcpip_if) : mg_tcpip_if := mkIf (if_up i) (if_ip i) (if_mask i) v (if_mac i).

(** [if (string_to_ip(field, ...) == 0) *member = MG_IPV4(...);] *)
Definition update_address (set : Z -> mg_tcpip_if -> mg_tcpip_if) (field : list Z) : M world unit :=
  a ← lift (parse_address field);
  match a with Some v => modify (with_ifp (set v)) | None => mret tt end.

(** The loop over [net->listeners] that opens them again. Fuel bounds the number of cells. *)
Fixpoint restore_loop (fuel : nat) (listener : Z) : M world unit :=
  match fuel with
  | O => hang
  | Datatypes.S fuel =>
      if listener =? 0 then mret tt else
      w ← get;
      l ← lift (read_listener (net_heap w) listener);
      s ← uri_at (l_uri l);
      match l_type l with
      | NetListenerTypeHttp => mg_http_listen s (l_fn l) (l_context l);; net_print (RestoredHttp s)
      | NetListenerTypeTcp => mg_listen s (l_fn l) (l_context l);; net_print (RestoredTcp s)
      end;;
      w ← get;
      l ← lift (read_listener (net_heap w) listener);
      restore_loop fuel (l_next l)
  end.

Definition restart (c : NetConfig) : M world unit :=
  update_address set_if_ip (cfg_ip c);;
  update_address set_if_mask (cfg_mask c);;
  update_address set_if_gw (cfg_gateway c);;
  modify (with_conns (map close));;
  mg_mgr_poll;;
  net_print Restoring;;
  w ← get;
  restore_loop (Datatypes.S (size (net_heap w))) (listeners w).

(** What a request other than [NetApiEventTypeStop] asks for. *)
Definition serve (ev : NetApiEvent) : M world unit :=
  match ev with
  | NetApiEventTypeSetHttp uri fn context => set_http uri fn context
  | NetApiEventTypeSetTcp uri fn context => set_tcp uri fn context
  | NetApiEventTypeRstTcp uri => rst_tcp uri
  | NetApiEventTypeRestart c => restart c
  | NetApiEventTypeStop => mret tt
  end.

(** [rhs_message_queue_get(net->queue, &msg, 0)] into [msg]; [None] when the status is not
    [RHSStatusOk]. *)
Definition next_message (msg : NetApiEventMessage) : M world (option NetApiEventMessage) := fun w =>
  '(r, m, q) ← rhs_message_queue_get (net_os w) (Some (net_queue w)) (Some (to_bytes msg)) 0;
  Ret (match r, m with RHSStatusOk, Some m => Some (of_bytes m) | _, _ => None end, with_net_queue q w).

(** One turn of the event loop: whether it goes on, and [msg] then. *)
Definition net_round (msg : NetApiEventMessage) : M world (bool * NetApiEventMessage) :=
  mg_mgr_poll;;
  r ← next_message msg;
  match r with
  | None => mret (true, msg)
  | Some msg =>
      match msg_event msg with
      | NetApiEventTypeStop => net_print Stopping;; mret (false, msg)
      | ev =>
          serve ev;;
          (if negb (msg_lock msg =? 0) then open_lock (msg_lock msg) else mret tt);;
          mret (true, msg)
      end
  end.

(** [for (;;)]; the loop is left by a stop request only. *)
Fixpoint net_loop (fuel : nat) (msg : NetApiEventMessage) : M world unit :=
  match fuel with
  | O => hang
  | Datatypes.S fuel =>
      '(go, msg) ← net_round msg;
      if go : bool then net_loop fuel msg else mret tt
  end.

(** [for (listener = net->listeners; listener != NULL; listener = listener->next)
       net_listeners_remove(&net->listeners, listener->uri);] *)
Fixpoint cleanup_loop (fuel : nat) (listener : Z) : M world unit :=
  match fuel with
  | O => hang
  | Datatypes.S fuel =>
      if listener =? 0 then mret tt else
      w ← get;
      l ← lift (read_listener (net_heap w) listener);
      _ ← remove_listener (l_uri l);
      w ← get;
      l ← lift (read_listener (net_heap w) listener);
      cleanup_loop fuel (l_next l)
  end.

(** [name] is the name of the service's thread, [net] the address of the service. *)
Context (name : list Z) (net net_cli_command_ptr : Z).
Definition RECORD_CLI : string := "cli".

Definition on_cli (f : Cli X -> outcome (Cli X)) : M world unit := fun w => c ← f (net_cli w); Ret (tt, with_net_cli c w).

(** The connection's data get the address of the interface in front. *)
Definition set_conn_data (i : nat) (bytes : list Z) (l : list mg_connection) : list mg_connection :=
  alter (fun c => mkConn (is_listening c) (loc_port c) (is_closing c) (bytes ++ drop (length bytes) (conn_data c))) i l.

Definition net_mdns_start (me : Z) : M world unit :=
  w ← get;
  on_cli (fun c => cli_add_command (net_os w) me c name net_cli_command_ptr net);;
  c ← mg_mdns_listen name;
  match c with
  | Some i =>
      w ← get;
      modify (with_conns (set_conn_data i (le32 (if_ip (ifp (net_mgr w))))));;
      net_print MdnsStarted
  | None => net_print MdnsFailed
  end.

Definition net_mdns_stop (me : Z) : M world unit :=
  w ← get;
  on_cli (fun c => cli_remove_command (net_os w) me c name).

Definition on_records {A} (f : S -> @RHSRecord X E -> outcome (A * @RHSRecord X E)) : M world A := fun w =>
  '(a, r) ← f (net_os w) (net_records w); Ret (a, with_net_records r w).

(** The thread, up to the end of its function, which has no [return]. *)
Definition net_worker (fuel : nat) (locals : NetApiEventMessage) : M world unit :=
  w ← get;
  let me := net_thread w in
  _ ← on_records (fun s r => rhs_record_open_locked s me (Some r) RECORD_CLI);
  meanwhile;;
  _ ← on_records (fun s r => rhs_record_open_wait s r RECORD_CLI);
  net_mdns_start me;;
  net_loop fuel locals;;
  w ← get;
  cleanup_loop (Datatypes.S (size (net_heap w))) (listeners w);;
  net_mdns_stop me;;
  _ ← on_records (fun s r => rhs_record_close s me (Some r) RECORD_CLI);
  mret tt.

(** ** The command; [args] are the bytes of its argument, with their NUL *)

Definition restart_with_config (me : Z) : M world unit := w ← get; net_set_config me (net_config w).

Definition net_cli_command (me : Z) (args : option (list Z)) : M world unit :=
  match args with
  | None => w ← get; net_print (StatusOf (ifp (net_mgr w)))
  | Some args =>
      s ← lift (string_of args);
      separator ← lift (strchr args 32);
      let rest := match separator with
        | None => None
        | Some k => let rest := drop (Datatypes.S k) args in if hd 0 rest =? 0 then None else Some rest
        end in
      match rest with
      | None =>
          if starts_with (str "--restart") s then restart_with_config me else net_print InvalidNetArgument
      | Some ip_str =>
          if starts_with (str "--ip") s then
            match string_to_ip (Some ip_str) (Some 0) (Some 0) (Some 0) (Some 0) with
            | (0, [Some a; Some b; Some c; Some d]) =>
                w ← get;
                '(_, f) ← lift (ip_to_string a b c d (Some (cfg_ip (net_config w))));
                let f := default (cfg_ip (net_config w)) f in
                modify (with_net_config
                  (mkNetConfig f (cfg_mask (net_config w)) (cfg_gateway (net_config w)) (cfg_mac (net_config w))));;
                net_print (IpWillChange a b c d);;
                restart_with_config me
            | _ => net_print InvalidIpFormat
            end
          else net_print InvalidNetArgument
      end
  end.

(** ** eth_net.c: the configuration the Ethernet interface starts with

    The default strings come from the build, [uid] are the 12 bytes of the chip's
    identifier. *)
Context (ETH_NET_IP_STRING ETH_NET_MASK_STRING ETH_NET_GW_STRING uid : list Z) (MG_DRIVER_MDC_CR MG_TCPIP_PHY_ADDR : Z).

Record EthPhyConfig := mkPhy { phy_addr : Z; mdc_cr : Z }.

Definition GENERATE_LOCALLY_ADMINISTERED_MAC (UUID : list Z) : list Z :=
  let b i := nth i UUID 0 in
  [2; Z.lxor (b 0%nat) (b 1%nat); Z.lxor (b 2%nat) (b 3%nat); Z.lxor (b 4%nat) (b 5%nat);
   Z.lxor (Z.lxor (b 6%nat) (b 7%nat)) (b 8%nat); Z.lxor (Z.lxor (b 9%nat) (b 10%nat)) (b 11%nat)].

(** [strcpy], and [if (field[0] == '\0') strcpy(field, s);] *)
Definition strcpy (field s : list Z) : outcome (list Z) := sprintf_into field s.
Definition default_field (field s : list Z) : outcome (list Z) :=
  if hd 0 field =? 0 then strcpy field s else Ret field.

Definition asserted_address (field : list Z) : outcome Z :=
  a ← parse_address field;
  match a with Some v => Ret v | None => Crash "Assert" end.

(** [memcpy(ifp->mac, mac, sizeof(mac))], where [mac] is a pointer: 4 bytes. *)
Definition sizeof_pointer : nat := 4.

(** The configuration, the interface and its driver afterwards. *)
Definition eth_net_init_tcpip (c : NetConfig) (phy_config : option EthPhyConfig)
    : outcome (NetConfig * mg_tcpip_if * EthPhyConfig) :=
  let driver := match phy_config with Some p => p | None => mkPhy MG_TCPIP_PHY_ADDR MG_DRIVER_MDC_CR end in
  ip ← default_field (cfg_ip c) ETH_NET_IP_STRING;
  mask ← default_field (cfg_mask c) ETH_NET_MASK_STRING;
  gateway ← default_field (cfg_gateway c) ETH_NET_GW_STRING;
  let mac := if forallb (Z.eqb 0) (cfg_mac c) then GENERATE_LOCALLY_ADMINISTERED_MAC uid else cfg_mac c in
  vip ← asserted_address ip;
  vmask ← asserted_address mask;
  vgw ← asserted_address gateway;
  Ret (mkNetConfig ip mask gateway mac,
       mkIf false vip vmask vgw (take sizeof_pointer mac ++ repeat 0 (6 - sizeof_pointer)), driver).

(** [config] is [None] for NULL; [fresh] is what [malloc] returned. *)
Definition eth_net_alloc_config (config : option NetConfig) (fresh : NetConfig) : outcome NetConfig :=
  match config with
  | Some c => Ret c
  | None =>
      ip ← strcpy (cfg_ip fresh) ETH_NET_IP_STRING;
      mask ← strcpy (cfg_mask fresh) ETH_NET_MASK_STRING;
      gateway ← strcpy (cfg_gateway fresh) ETH_NET_GW_STRING;
      Ret (mkNetConfig ip mask gateway (GENERATE_LOCALLY_ADMINISTERED_MAC uid))
  end.
Definition eth_net_alloc (config : option NetConfig) (phy_config : option EthPhyConfig) (fresh : NetConfig)
    : outcome (NetConfig * mg_tcpip_if * EthPhyConfig) :=
  c ← eth_net_alloc_config config fresh;
  eth_net_init_tcpip c phy_config.
End net.

(** ** What mongoose's functions promise the service

    They return, keep to the scheduler's rules and leave the service's data to it; event
    handlers may put requests in the queue. [opened] are the URIs opened so far. *)

Inductive opened_uri := OpenedHttp (uri : list Z) (fn context : Z) | OpenedTcp (uri : list Z) (fn context : Z).

Class MongooseUrlLaws `{MongooseUrl} := {
  MG_IPV4_bytes a b c d : 0 <= a < 256 -> 0 <= b < 256 -> 0 <= c < 256 -> 0 <= d < 256 ->
    le32 (MG_IPV4 a b c d) = [a; b; c; d]
}.

Definition opened_of (r : registration) : opened_uri :=
  match r_type r with
  | NetListenerTypeHttp => OpenedHttp (r_uri r) (r_fn r) (r_context r)
  | NetListenerTypeTcp => OpenedTcp (r_uri r) (r_fn r) (r_context r)
  end.

Section correctness.
Context {S : Type} `{SchedulerLaws S} {E : Type} `{EventGroupLaws E} {Q : Type} `{FreeRTOSQueueLaws Q} {X : Type} `{FreeRTOSMutex X}.
Context {K : Type} `{MongooseUrlLaws}.
Abbreviation world := (Net S E Q X K).
Context (opened : K -> list opened_uri).

Definition addresses (i : mg_tcpip_if) : Z * Z * Z := (if_ip i, if_mask i, if_gw i).

(** What every part of a turn keeps: the kernel's state but for the time, the locks, and
    the requests in the queue, after which new ones may stand. *)
Record keeps (w w' : world) : Prop := {
  k_os : os_like (net_os w) (net_os w');
  k_queue : exists sent, contents (net_queue w') = contents (net_queue w) ++ sent;
  k_locks : net_locks w' = net_locks w;
  k_thread : net_thread w' = net_thread w
}.

Record mg_step (calls : list opened_uri) (w w' : world) : Prop := {
  mg_keeps : keeps w w';
  mg_heap : net_heap w' = net_heap w /\ listeners w' = listeners w;
  mg_addresses : addresses (ifp (net_mgr w')) = addresses (ifp (net_mgr w));
  mg_opened : opened (mgr_rest (net_mgr w')) = opened (mgr_rest (net_mgr w)) ++ calls
}.

Lemma os_like_refl (s : S) : os_like s s.
Proof. by repeat split. Qed.

Lemma keeps_refl w : keeps w w.
Proof. split; try done. exists []. by rewrite app_nil_r. Qed.

Lemma keeps_trans w1 w2 w3 : keeps w1 w2 -> keeps w2 w3 -> keeps w1 w3.
Proof.
  intros [A1 [s1 B1] C1 D1] [A2 [s2 B2] C2 D2]. split; [by eapply os_like_trans| |congruence|congruence].
  exists (s1 ++ s2). by rewrite B2, B1, app_assoc.
Qed.

Lemma keeps_task w w' : keeps w w' -> task_runs (net_os w) -> task_runs (net_os w').
Proof. intros [A _ _ _]. by apply task_runs_like. Qed.

Lemma mg_step_refl w : mg_step [] w w.
Proof. split; try done; [apply keeps_refl|]. by rewrite app_nil_r. Qed.

Lemma mg_step_trans c1 c2 w1 w2 w3 : mg_step c1 w1 w2 -> mg_step c2 w2 w3 -> mg_step (c1 ++ c2) w1 w3.
Proof.
  intros [A1 [B1 B1'] C1 D1] [A2 [B2 B2'] C2 D2]. split; [by eapply keeps_trans| |congruence|].
  - split; congruence.
  - by rewrite D2, D1, app_assoc.
Qed.

(** Output and marks on connections. *)
Definition print_world (l : net_line) (w : world) : world :=
  mkNet (net_os w) (net_queue w) (net_locks w) (net_heap w) (listeners w) (net_config w) (net_mgr w) (net_thread w)
    (net_records w) (net_cli w) (net_log w ++ [l]).
Lemma print_step l w : mg_step [] w (print_world l w).
Proof. split; [split|..]; simpl; try done; [exists []|]; by rewrite app_nil_r. Qed.
Lemma conns_step f w : mg_step [] w (with_conns f w).
Proof. split; [split|..]; simpl; try done; [exists []|]; by rewrite app_nil_r. Qed.
Lemma print_lines_step l : forall w, runs (print_lines l) w (fun _ => mg_step [] w).
Proof.
  induction l as [|x l IH]; intros w; [apply runs_ret, mg_step_refl|].
  destruct (IH (print_world x w)) as (a & w' & Ea & Hs). exists a, w'. split; [exact Ea|].
  change [] with ([] ++ [] : list opened_uri). eapply mg_step_trans; [apply print_step|done].
Qed.

(** The sequence of two parts of a turn of which the first opens nothing. *)
Lemma mg_step_then w1 w2 w3 c : mg_step [] w1 w2 -> mg_step c w2 w3 -> mg_step c w1 w3.
Proof. apply (mg_step_trans [] c). Qed.

Context (mg_mgr_poll : M world unit) (mg_listen mg_http_listen : list Z -> Z -> Z -> M world unit).
Context (poll_returns : forall w, task_runs (net_os w) -> runs mg_mgr_poll w (fun _ => mg_step [] w)).
Context (listen_opens : forall s fn ctx w, task_runs (net_os w) ->
  runs (mg_listen s fn ctx) w (fun _ => mg_step [OpenedTcp s fn ctx] w)).
Context (http_listen_opens : forall s fn ctx w, task_runs (net_os w) ->
  runs (mg_http_listen s fn ctx) w (fun _ => mg_step [OpenedHttp s fn ctx] w)).
Context (malloc : heap -> Z) (Hmalloc : malloc_ok malloc).
Context (to_bytes : NetApiEventMessage -> message) (of_bytes : message -> NetApiEventMessage).

(** ** Abstract specification: what the service is in charge of *)

Record net_view := mkView {
  v_registered : list registration; v_addresses : Z * Z * Z; v_opened : list opened_uri }.

Definition string_in (h : heap) (uri : Z) : list Z := match h !! uri with Some (OString s) => s | _ => [] end.

(** A field that is no address leaves the interface's as it is. *)
Definition new_address (field : list Z) (old : Z) : Z :=
  match parse_address field with Ret (Some v) => v | _ => old end.

Definition served (h : heap) (ev : NetApiEvent) (v : net_view) : net_view :=
  match ev with
  | NetApiEventTypeSetHttp uri fn context =>
      mkView (v_registered v ++ [mkReg NetListenerTypeHttp (string_in h uri) fn context]) (v_addresses v)
        (v_opened v ++ [OpenedHttp (string_in h uri) fn context])
  | NetApiEventTypeSetTcp uri fn context =>
      mkView (v_registered v ++ [mkReg NetListenerTypeTcp (string_in h uri) fn context]) (v_addresses v)
        (v_opened v ++ [OpenedTcp (string_in h uri) fn context])
  | NetApiEventTypeRstTcp uri =>
      mkView (if mg_aton_host (string_in h uri) then remove_first (string_in h uri) (v_registered v)
              else v_registered v) (v_addresses v) (v_opened v)
  | NetApiEventTypeRestart c =>
      let '(ip, mask, gw) := v_addresses v in
      mkView (v_registered v)
        (new_address (cfg_ip c) ip, new_address (cfg_mask c) mask, new_address (cfg_gateway c) gw)
        (v_opened v ++ map opened_of (v_registered v))
  | NetApiEventTypeStop => v
  end.

(** The service's state [w], with the cells [ls] of its list, stands for [v]. *)
Record represents (w : world) (ls : list entry) (v : net_view) : Prop := {
  r_task : task_runs (net_os w);
  r_holds : holds (net_heap w) (listeners w) ls;
  r_registered : registered ls = v_registered v;
  r_addresses : addresses (ifp (net_mgr w)) = v_addresses v;
  r_opened : opened (mgr_rest (net_mgr w)) = v_opened v
}.

Definition terminated (f : list Z) : Prop := existsb (Z.eqb 0) f = true.

(** A request the service can serve: its string is there and is not the list's own. *)
Definition string_ready (h : heap) (ls : list entry) (uri : Z) : Prop :=
  (exists s, h !! uri = Some (OString s)) /\ (uri ∉ owned ls).
Definition valid_event (h : heap) (ls : list entry) (ev : NetApiEvent) : Prop :=
  match ev with
  | NetApiEventTypeSetHttp uri _ _ | NetApiEventTypeSetTcp uri _ _ | NetApiEventTypeRstTcp uri => string_ready h ls uri
  | NetApiEventTypeRestart c => terminated (cfg_ip c) /\ terminated (cfg_mask c) /\ terminated (cfg_gateway c)
  | NetApiEventTypeStop => False
  end.

(** What others have in the heap stays as it is, and theirs. *)
Definition others_kept (h h' : heap) (ls ls' : list entry) : Prop :=
  forall a, is_Some (h !! a) -> a ∉ owned ls -> h' !! a = h !! a /\ a ∉ owned ls'.

Lemma others_refl h ls : others_kept h h ls ls.
Proof. by intros a _ Ha. Qed.
Lemma others_trans h1 h2 h3 l1 l2 l3 : others_kept h1 h2 l1 l2 -> others_kept h2 h3 l2 l3 -> others_kept h1 h3 l1 l3.
Proof.
  intros Ho1 Ho2 a Hs Ha. destruct (Ho1 a Hs Ha) as [E1 N1]. destruct (Ho2 a) as [E2 N2]; [by rewrite E1|done|].
  by rewrite E2, E1.
Qed.

Lemma others_string h h' ls ls' uri : others_kept h h' ls ls' -> string_ready h ls uri ->
  string_ready h' ls' uri /\ string_in h' uri = string_in h uri.
Proof.
  intros Ho [[s Hs] Hn]. destruct (Ho uri) as [E1 N1]; [by eauto|done|]. split; [split; [exists s; congruence|done]|].
  unfold string_in. by rewrite E1.
Qed.

(** [w'] stands for [v'] after [w] stood for [v]. *)
Definition becomes (w : world) (ls : list entry) (v' : net_view) (w' : world) : Prop :=
  exists ls', represents w' ls' v' /\ keeps w w' /\ others_kept (net_heap w) (net_heap w') ls ls'.

Lemma represents_step w ls v c w' : represents w ls v -> mg_step c w w' ->
  represents w' ls (mkView (v_registered v) (v_addresses v) (v_opened v ++ c)).
Proof.
  intros [T Ho R A O] [Hk [E1 E2] C1 D1]. split; simpl; [by eapply keeps_task|by rewrite E1, E2|done|congruence|].
  by rewrite D1, O.
Qed.

Lemma uri_at_ret (w : world) uri s : net_heap w !! uri = Some (OString s) -> uri_at uri w = Ret (s, w).
Proof. intros Hs. unfold uri_at. by rewrite (read_string_ret _ _ _ Hs). Qed.

(** *** Each request *)

Lemma add_listener_becomes (w : world) ls v r : represents w ls v ->
  runs (add_listener malloc r) w (fun _ =>
    becomes w ls (mkView (v_registered v ++ [r]) (v_addresses v) (v_opened v))).
Proof.
  intros [T Ho R A O]. unfold runs, add_listener.
  destruct (net_listeners_add_spec malloc _ _ _ r Hmalloc Ho) as (h & p & c & u & -> & Ho' & Hc & Hu & Hag).
  eexists tt, _. split; [done|]. exists (ls ++ [(c, u, r)]). split; [|split].
  - split; simpl; try done. rewrite <- R. apply map_app.
  - split; try done. exists []. by rewrite app_nil_r.
  - intros a [o Ha] Hn. simpl.
    assert (Hn' : a ∉ owned (ls ++ [(c, u, r)])).
    { rewrite owned_app, elem_of_app. simpl. rewrite !elem_of_cons.
      intros [?|[->|[->|Hin]]]; [done|congruence|congruence|set_solver]. }
    by rewrite Hag.
Qed.

Lemma becomes_step w ls v c w1 v2 w2 :
  represents w ls v -> mg_step c w w1 -> becomes w1 ls v2 w2 -> becomes w ls v2 w2.
Proof.
  intros Hr Hs (ls2 & R2 & K2 & O2). exists ls2. split; [done|].
  split; [eapply keeps_trans; [apply Hs|done]|]. destruct Hs as [_ [Eh _] _ _]. by rewrite <- Eh.
Qed.

(** [set_http] and [set_tcp]: the string is read before and after mongoose opens it. *)
Lemma set_becomes (listen : list Z -> M world unit) kind line call (w : world) ls v uri fn ctx :
  (forall s w, task_runs (net_os w) -> runs (listen s) w (fun _ => mg_step [call s] w)) ->
  represents w ls v -> string_ready (net_heap w) ls uri ->
  let s := string_in (net_heap w) uri in
  runs (s ← (uri_at uri : M world (list Z)); listen s;; s ← uri_at uri; net_print (line s);; add_listener malloc (mkReg kind s fn ctx)) w
    (fun _ => becomes w ls (mkView (v_registered v ++ [mkReg kind s fn ctx]) (v_addresses v) (v_opened v ++ [call s]))).
Proof.
  intros Hl Hr [[s Hs] Hn]. unfold string_in. rewrite Hs. unfold runs.
  rewrite (bind_eq _ _ _ _ _ (uri_at_ret w uri s Hs)).
  destruct (Hl s w (r_task _ _ _ Hr)) as ([] & w1 & E1 & M1). rewrite (bind_eq _ _ _ _ _ E1).
  destruct (mg_heap _ _ _ M1) as [Eh _].
  assert (Hs1 : net_heap w1 !! uri = Some (OString s)) by by rewrite Eh.
  rewrite (bind_eq _ _ _ _ _ (uri_at_ret w1 uri s Hs1)).
  assert (Hp : mg_step [call s] w (print_world (line s) w1)).
  { change [call s] with ([call s] ++ []). eapply mg_step_trans; [exact M1|apply print_step]. }
  rewrite (bind_eq _ _ w1 tt (print_world (line s) w1)) by done.
  destruct (add_listener_becomes _ _ _ (mkReg kind s fn ctx) (represents_step _ _ _ _ _ Hr Hp)) as ([] & w2 & E2 & B2).
  exists tt, w2. split; [exact E2|]. by eapply becomes_step.
Qed.

Lemma step_becomes w ls v c w' : represents w ls v -> mg_step c w w' ->
  becomes w ls (mkView (v_registered v) (v_addresses v) (v_opened v ++ c)) w'.
Proof.
  intros Hr Hs. exists ls. split; [by eapply represents_step|]. split; [apply Hs|].
  destruct Hs as [_ [-> _] _ _]. apply others_refl.
Qed.

Lemma view_nil v : mkView (v_registered v) (v_addresses v) (v_opened v ++ []) = v.
Proof. destruct v. simpl. by rewrite app_nil_r. Qed.

Lemma remove_becomes (w : world) ls v uri : represents w ls v -> string_ready (net_heap w) ls uri ->
  let s := string_in (net_heap w) uri in
  runs (remove_listener uri) w (fun b =>
    becomes w ls (mkView (remove_first s (v_registered v)) (v_addresses v) (v_opened v))).
Proof.
  intros [T Ho R A O] [[s Hs] Hn]. unfold string_in. rewrite Hs. unfold runs, remove_listener.
  destruct (net_listeners_remove_spec _ _ _ _ _ Ho Hs) as (h & p & ls' & -> & Ho' & R' & _ & Hag & Hsub).
  eexists _, _. split; [done|]. exists ls'. split; [|split].
  - split; simpl; try done. by rewrite R', R.
  - split; try done. exists []. by rewrite app_nil_r.
  - intros a _ Ha. split; [by apply Hag|]. intros Hin. by apply Ha, Hsub.
Qed.

Lemma rst_becomes (w : world) ls v uri : represents w ls v -> string_ready (net_heap w) ls uri ->
  runs (rst_tcp mg_mgr_poll uri) w (fun _ => becomes w ls (served (net_heap w) (NetApiEventTypeRstTcp uri) v)).
Proof.
  intros Hr Hu. destruct Hu as [[s Hs] Hn]. simpl. unfold runs, rst_tcp.
  rewrite (bind_eq _ _ _ _ _ (uri_at_ret w uri s Hs)).
  replace (string_in (net_heap w) uri) with s by (unfold string_in; by rewrite Hs). destruct (mg_aton_host s).
  - rewrite (bind_eq _ _ w w w) by done.
    destruct (close_listening (u16 (mg_url_port s)) (conns (net_mgr w))) as [l out].
    set (w1 := with_conns (fun _ => l) w). rewrite (bind_eq _ _ w tt w1) by done.
    destruct (print_lines_step out w1) as ([] & w2 & E2 & M2). rewrite (bind_eq _ _ _ _ _ E2).
    assert (M02 : mg_step [] w w2) by (eapply mg_step_then; [apply conns_step|exact M2]).
    pose proof (represents_step _ _ _ _ _ Hr M02) as R2.
    destruct (poll_returns w2 (r_task _ _ _ R2)) as ([] & w3 & E3 & M3). rewrite (bind_eq _ _ _ _ _ E3).
    assert (M03 : mg_step [] w w3) by (by eapply mg_step_then).
    pose proof (represents_step _ _ _ _ _ Hr M03) as R3. rewrite view_nil in R3.
    destruct (mg_heap _ _ _ M03) as [Eh _].
    assert (Hu3 : string_ready (net_heap w3) ls uri) by (rewrite Eh; split; [by exists s|done]).
    destruct (remove_becomes _ _ _ _ R3 Hu3) as (b & w4 & E4 & B4). rewrite (bind_eq _ _ _ _ _ E4).
    assert (Hs3 : string_in (net_heap w3) uri = s) by (unfold string_in; by rewrite Eh, Hs).
    rewrite Hs3 in B4. pose proof (becomes_step _ _ _ _ _ _ _ Hr M03 B4) as B.
    destruct b; [by exists tt, w4|]. destruct B as (ls4 & R4 & K4 & O4).
    destruct (O4 uri) as [Es _]; [by eauto|done|]. rewrite Hs in Es.
    rewrite (bind_eq _ _ _ _ _ (uri_at_ret w4 uri s Es)).
    eexists tt, _. split; [done|]. exists ls4.
    pose proof (represents_step _ _ _ _ _ R4 (print_step (ListenerNotFound s) w4)) as R5. rewrite view_nil in R5.
    split; [exact R5|]. split; [eapply keeps_trans; [exact K4|apply print_step]|done].
  - eexists tt, _. split; [done|].
    pose proof (step_becomes _ _ _ _ _ Hr (print_step (InvalidUrl s) w)) as B. rewrite view_nil in B. by destruct v.
Qed.

Lemma update_becomes set f (g : Z -> Z * Z * Z -> Z * Z * Z) (w : world) ls v :
  (forall x i, addresses (set x i) = g x (addresses i)) -> terminated f -> represents w ls v ->
  runs (update_address set f) w (fun _ w' => keeps w w' /\ net_heap w' = net_heap w /\
    represents w' ls (mkView (v_registered v)
      match parse_address f with Ret (Some x) => g x (v_addresses v) | _ => v_addresses v end (v_opened v))).
Proof.
  intros Hg Hf [T Ho R A O]. unfold runs, update_address.
  assert (Hp : exists o, parse_address f = Ret o) by (unfold parse_address, field_string; rewrite Hf; by eexists).
  destruct Hp as [o Hp]. rewrite (bind_eq _ _ w o w) by (unfold lift; by rewrite Hp). rewrite Hp.
  destruct o as [x|]; eexists tt, _; (split; [done|]); (split; [|split; [done|]]).
  - split; try done. exists []. by rewrite app_nil_r.
  - split; simpl; try done. by rewrite Hg, A.
  - apply keeps_refl.
  - by split.
Qed.

Lemma restore_spec ls2 : forall fuel p (w : world),
  chain (net_heap w) p 0 ls2 -> (length ls2 < fuel)%nat -> task_runs (net_os w) ->
  runs (restore_loop mg_listen mg_http_listen fuel p) w (fun _ => mg_step (map opened_of (registered ls2)) w).
Proof.
  induction ls2 as [|[[c u] r] ls2 IH]; intros [|fuel] p w Hch Hf Ht; simpl in Hf; try lia; cbn [restore_loop].
  - simpl in Hch. subst p. apply runs_ret, mg_step_refl.
  - destruct Hch as (-> & Hc & Hu & n & Hn & Hch). destruct (Z.eqb_spec c 0); [done|].
    set (l := mkListener (r_type r) u (r_fn r) (r_context r) n) in *. unfold runs.
    rewrite (bind_eq _ _ w w w) by done.
    rewrite (bind_eq _ _ w l w) by (unfold lift; by rewrite (read_listener_ret _ _ _ Hn)).
    rewrite (bind_eq _ _ _ _ _ (uri_at_ret w u (r_uri r) Hu)).
    assert (Hopen : runs (match l_type l with
        | NetListenerTypeHttp => mg_http_listen (r_uri r) (l_fn l) (l_context l);; net_print (RestoredHttp (r_uri r))
        | NetListenerTypeTcp => mg_listen (r_uri r) (l_fn l) (l_context l);; net_print (RestoredTcp (r_uri r))
        end) w (fun _ => mg_step [opened_of r] w)).
    { unfold opened_of. simpl.
      destruct (r_type r).
      - destruct (http_listen_opens (r_uri r) (r_fn r) (r_context r) w Ht) as ([] & w1 & E1 & M1).
        unfold runs. rewrite (bind_eq _ _ _ _ _ E1). eexists tt, _. split; [done|].
        apply (mg_step_trans _ [] _ _ _ M1), print_step.
      - destruct (listen_opens (r_uri r) (r_fn r) (r_context r) w Ht) as ([] & w1 & E1 & M1).
        unfold runs. rewrite (bind_eq _ _ _ _ _ E1). eexists tt, _. split; [done|].
        apply (mg_step_trans _ [] _ _ _ M1), print_step. }
    destruct Hopen as ([] & w1 & E1 & M1). rewrite (bind_eq _ _ _ _ _ E1).
    destruct (mg_heap _ _ _ M1) as [Eh _]. rewrite (bind_eq _ _ w1 w1 w1) by done.
    rewrite (bind_eq _ _ w1 l w1) by (unfold lift; by rewrite (read_listener_ret (net_heap w1) c l) by (by rewrite Eh)).
    destruct (IH fuel n w1) as (a & w2 & E2 & M2); [by rewrite Eh|lia|by eapply keeps_task; [apply M1|]|].
    exists a, w2. split; [exact E2|]. simpl.
    change (opened_of r :: map opened_of (registered ls2)) with ([opened_of r] ++ map opened_of (registered ls2)).
    by eapply mg_step_trans.
Qed.

Lemma restart_becomes c (w : world) ls v : represents w ls v -> valid_event (net_heap w) ls (NetApiEventTypeRestart c) ->
  runs (restart mg_mgr_poll mg_listen mg_http_listen c) w (fun _ =>
    becomes w ls (served (net_heap w) (NetApiEventTypeRestart c) v)).
Proof.
  intros Hr (Fi & Fm & Fg). unfold runs, restart.
  destruct (update_becomes set_if_ip (cfg_ip c) (fun x '(_, m, g) => (x, m, g)) w ls v) as ([] & w1 & E1 & K1 & Eh1 & R1);
    [done|done|done|]. rewrite (bind_eq _ _ _ _ _ E1).
  edestruct (update_becomes set_if_mask (cfg_mask c) (fun x '(i, _, g) => (i, x, g)) w1 ls) as ([] & w2 & E2 & K2 & Eh2 & R2);
    [done|done|exact R1|]. rewrite (bind_eq _ _ _ _ _ E2).
  edestruct (update_becomes set_if_gw (cfg_gateway c) (fun x '(i, m, _) => (i, m, x)) w2 ls) as ([] & w3 & E3 & K3 & Eh3 & R3);
    [done|done|exact R2|]. rewrite (bind_eq _ _ _ _ _ E3). simpl in R3.
  rewrite (bind_eq _ _ w3 tt (with_conns (map close) w3)) by done.
  destruct (poll_returns (with_conns (map close) w3)) as ([] & w4 & E4 & M4); [apply R3|]. rewrite (bind_eq _ _ _ _ _ E4).
  rewrite (bind_eq _ _ w4 tt (print_world Restoring w4)) by done. set (w5 := print_world Restoring w4).
  assert (M35 : mg_step [] w3 w5).
  { eapply mg_step_then; [apply conns_step|]. eapply mg_step_then; [exact M4|apply print_step]. }
  pose proof (represents_step _ _ _ _ _ R3 M35) as R5. rewrite (bind_eq _ _ w5 w5 w5) by done.
  destruct (r_holds _ _ _ R5) as [Hch Hnd].
  destruct (restore_spec ls (Datatypes.S (size (net_heap w5))) (listeners w5) w5) as ([] & w6 & E6 & M6);
    [done|pose proof (chain_length _ _ _ _ Hch Hnd); by apply Nat.lt_succ_r|apply R5|].
  exists tt, w6. split; [exact E6|].
  assert (M36 : mg_step (map opened_of (registered ls)) w3 w6) by (by eapply mg_step_then).
  exists ls. split; [|split].
  - destruct (represents_step _ _ _ _ _ R3 M36) as [T Ho Rg A O]. simpl in *. rewrite (r_registered _ _ _ Hr) in O.
    destruct (v_addresses v) as [[i m] g]. split; simpl; try done. rewrite A. unfold new_address.
    by destruct (parse_address (cfg_ip c)) as [[]| | |], (parse_address (cfg_mask c)) as [[]| | |],
      (parse_address (cfg_gateway c)) as [[]| | |].
  - eapply keeps_trans; [exact K1|]. eapply keeps_trans; [exact K2|]. eapply keeps_trans; [exact K3|apply M36].
  - destruct (mg_heap _ _ _ M36) as [-> _]. rewrite Eh3, Eh2, Eh1. apply others_refl.
Qed.

Lemma serve_becomes ev (w : world) ls v : represents w ls v -> valid_event (net_heap w) ls ev ->
  runs (serve malloc mg_mgr_poll mg_listen mg_http_listen ev) w (fun _ => becomes w ls (served (net_heap w) ev v)).
Proof.
  intros Hr Hv. destruct ev as [uri fn ctx|uri fn ctx|uri|c|]; cbn [serve served]; [| | | |done].
  - apply (set_becomes (fun s => mg_http_listen s fn ctx) NetListenerTypeHttp HttpStarted (fun s => OpenedHttp s fn ctx));
      auto.
  - apply (set_becomes (fun s => mg_listen s fn ctx) NetListenerTypeTcp TcpStarted (fun s => OpenedTcp s fn ctx)); auto.
  - by apply rst_becomes.
  - by apply restart_becomes.
Qed.

(** *** Locks *)

Lemma api_lock_unlock_spec s e : task_runs s ->
  exists r e' s', api_lock_unlock s (Some e) = Ret (r, e', s') /\ os_like s s' /\
    bits e' = Z.ldiff (Z.lor (bits e) API_LOCK_EVENT) (woken e API_LOCK_EVENT).
Proof.
  intros [Ht Hs]. destruct (task_not_isr _ Ht) as [Hi _].
  unfold api_lock_unlock, rhs_event_flag_set, with_valid_flags. rewrite Hi.
  change (Z.land API_LOCK_EVENT RHS_EVENT_FLAG_INVALID_BITS =? 0) with true. cbn zeta.
  pose proof (set_spec e API_LOCK_EVENT ltac:(by vm_compute)) as St.
  destruct (xEventGroupSetBits e API_LOCK_EVENT) as [r e']. destruct St as [S1 _].
  destruct (suspend_spec s) as (U1 & U2 & U3 & U4).
  destruct (resume_spec (vTaskSuspendAll s)) as (r' & s' & Er & R1 & R2 & R3 & R4 & _); [lia|].
  unfold resume_all. rewrite Er. exists r, e', s'. split; [done|]. split; [|done].
  repeat split; try congruence. lia.
Qed.

Lemma lock_state s e : RHS_IS_IRQ_MODE s = false ->
  api_lock_is_locked s (Some e) = Ret (Z.land (bits e) API_LOCK_EVENT =? 0).
Proof.
  intros Hi. unfold api_lock_is_locked, rhs_event_flag_get. rewrite Hi.
  by destruct (EventFlag.get_spec e) as [-> _].
Qed.

Lemma api_lock_wait_returns s e : RHS_IS_IRQ_MODE s = false ->
  exists r e', api_lock_wait_unlock s (Some e) = Ret (r, e').
Proof.
  intros Hi. unfold api_lock_wait_unlock, rhs_event_flag_wait, with_valid_flags. rewrite Hi.
  change (Z.land API_LOCK_EVENT RHS_EVENT_FLAG_INVALID_BITS =? 0) with true. cbn zeta.
  destruct (xEventGroupWaitBits _ _ _ _ _) as [r e']. by eexists _, e'.
Qed.

Lemma open_lock_spec k e (w : world) : task_runs (net_os w) -> net_locks w !! k = Some e ->
  exists e' s', open_lock k w = Ret (tt, with_net_locks (<[k := e']> (net_locks w)) (with_net_os s' w)) /\
    os_like (net_os w) s' /\ bits e' = Z.ldiff (Z.lor (bits e) API_LOCK_EVENT) (woken e API_LOCK_EVENT).
Proof.
  intros Ht Hk. destruct (api_lock_unlock_spec (net_os w) e Ht) as (r & e' & s' & E1 & O1 & B1).
  exists e', s'. split; [|done]. unfold open_lock, lock_at. rewrite Hk. cbn [mbind outcome_bind]. by rewrite E1.
Qed.

(** *** One turn of the loop *)

Definition lock_ready (w : world) (k : Z) : Prop := k <> 0 -> is_Some (net_locks w !! k).

(** The locks after the lock [k] was opened, when it is one. *)
Definition lock_opened (w : world) (k : Z) (w' : world) : Prop :=
  (forall j, j <> k \/ k = 0 -> net_locks w' !! j = net_locks w !! j) /\
  (k <> 0 -> forall e, net_locks w !! k = Some e -> exists e', net_locks w' !! k = Some e' /\
     bits e' = Z.ldiff (Z.lor (bits e) API_LOCK_EVENT) (woken e API_LOCK_EVENT)).

Abbreviation turn := (net_round to_bytes of_bytes malloc mg_mgr_poll mg_listen mg_http_listen).

Lemma next_message_cons msg (w : world) m l : contents (net_queue w) = m :: l ->
  exists q, next_message to_bytes of_bytes msg w = Ret (Some (of_bytes m), with_net_queue q w) /\ contents q = l.
Proof.
  intros Hc. unfold next_message.
  destruct (MessageQueue.get_spec (net_os w) (net_queue w) (to_bytes msg) 0 m l ltac:(by left) Hc) as (q & -> & Hq & _).
  by exists q.
Qed.
Lemma next_message_nil msg (w : world) : contents (net_queue w) = [] ->
  next_message to_bytes of_bytes msg w = Ret (None, w).
Proof. intros Hc. unfold next_message. rewrite get_empty_spec by done. by destruct w. Qed.

Lemma queue_represents (w : world) ls v q : represents w ls v -> represents (with_net_queue q w) ls v.
Proof. by intros []. Qed.

(** A request that is first in the queue when mongoose was polled. *)
Lemma turn_serves msg (w w1 : world) ls v m l : represents w ls v -> mg_step [] w w1 -> mg_mgr_poll w = Ret (tt, w1) ->
  contents (net_queue w1) = m :: l ->
  let req := of_bytes m in
  valid_event (net_heap w) ls (msg_event req) -> lock_ready w (msg_lock req) ->
  runs (turn msg) w (fun r w' => r = (true, req) /\
    exists ls' sent, represents w' ls' (served (net_heap w) (msg_event req) v) /\
      others_kept (net_heap w) (net_heap w') ls ls' /\ contents (net_queue w') = l ++ sent /\
      lock_opened w (msg_lock req) w' /\ net_thread w' = net_thread w).
Proof.
  intros Hr M1 E1 Hc req Hv Hl. unfold runs, net_round. rewrite (bind_eq _ _ _ _ _ E1).
  destruct (next_message_cons msg w1 m l Hc) as (q & Eq & Hq). rewrite (bind_eq _ _ _ _ _ Eq). fold req.
  pose proof (represents_step _ _ _ _ _ Hr M1) as R1. rewrite view_nil in R1. apply (queue_represents _ _ _ q) in R1.
  destruct M1 as [[Ko Kq Kl Kt] [Eh _] _ _].
  set (w2 := with_net_queue q w1) in *. assert (Eh2 : net_heap w2 = net_heap w) by exact Eh.
  rewrite <- Eh2 in Hv |- *.
  destruct (serve_becomes (msg_event req) w2 ls v R1 Hv) as ([] & w3 & E3 & ls' & R3 & [Ko3 [sent Kq3] Kl3 Kt3] & O3).
  assert (Es : forall k : M world (bool * NetApiEventMessage),
    match msg_event req with
    | NetApiEventTypeStop => net_print Stopping;; mret (false, req)
    | ev => serve malloc mg_mgr_poll mg_listen mg_http_listen ev;; k
    end w2 = k w3).
  { intros k. destruct (msg_event req); try (by rewrite (bind_eq _ _ _ _ _ E3)). by destruct Hv. }
  rewrite Es. clear Es. assert (Hlk : net_locks w3 = net_locks w) by by rewrite Kl3.
  destruct (Z.eqb_spec (msg_lock req) 0) as [El|El]; cbn [negb].
  - rewrite (bind_eq _ _ w3 tt w3) by done. eexists _, w3. split; [done|]. split; [done|].
    exists ls', sent. split; [done|]. split; [done|]. split; [by rewrite Kq3; simpl; rewrite Hq|].
    split; [|by rewrite Kt3]. split; [by intros; rewrite Hlk|done].
  - destruct (Hl El) as [e He]. rewrite <- Hlk in He.
    destruct (open_lock_spec _ _ _ (r_task _ _ _ R3) He) as (e' & s' & E4 & O4 & B4). rewrite (bind_eq _ _ _ _ _ E4).
    eexists _, _. split; [done|]. split; [done|]. exists ls', sent. split; [|split; [done|]].
    + destruct R3 as [T Ho Rg A O]. split; simpl; try done. by eapply task_runs_like.
    + split; [by simpl; rewrite Kq3; simpl; rewrite Hq|]. split; [|by simpl; rewrite Kt3]. split.
      * intros j [Hj|]; [|done]. simpl. by rewrite lookup_insert_ne, Hlk.
      * intros _ e0 He0. exists e'. simpl. split; [by rewrite lookup_insert_eq|].
        rewrite Hlk, He0 in He. by injection He as <-.
Qed.

(** C11: one turn of the service's loop does what the first request in the queue asks for, and
    nothing else: the list of listeners in the heap, the addresses of the interface and what
    mongoose was told to open change as the specification [served] says, the requests behind
    it stay in the queue, what others have in the heap is untouched, and the request's lock,
    when it has one, is opened. With an empty queue only mongoose runs; a stop request ends the
    loop without serving anything. *)
Theorem net_round_refines msg (w w1 : world) ls v : represents w ls v -> mg_mgr_poll w = Ret (tt, w1) ->
  match contents (net_queue w1) with
  | [] => turn msg w = Ret ((true, msg), w1) /\ represents w1 ls v
  | m :: l =>
      let req := of_bytes m in
      match msg_event req with
      | NetApiEventTypeStop =>
          runs (turn msg) w (fun r w' => r = (false, req) /\ represents w' ls v /\ contents (net_queue w') = l /\
            net_locks w' = net_locks w)
      | ev =>
          valid_event (net_heap w) ls ev -> lock_ready w (msg_lock req) ->
          runs (turn msg) w (fun r w' => r = (true, req) /\
            exists ls' sent, represents w' ls' (served (net_heap w) ev v) /\
              others_kept (net_heap w) (net_heap w') ls ls' /\ contents (net_queue w') = l ++ sent /\
              lock_opened w (msg_lock req) w' /\ net_thread w' = net_thread w)
      end
  end.
Proof.
  intros Hr E1. destruct (poll_returns w (r_task _ _ _ Hr)) as ([] & w1' & E1' & M1).
  rewrite E1 in E1'. injection E1' as <-.
  pose proof (represents_step _ _ _ _ _ Hr M1) as R1. rewrite view_nil in R1.
  destruct (contents (net_queue w1)) as [|m l] eqn:Hc.
  - split; [|done]. unfold net_round. rewrite (bind_eq _ _ _ _ _ E1), (bind_eq _ _ _ _ _ (next_message_nil msg w1 Hc)). done.
  - intros req. pose proof (turn_serves msg w w1 ls v m l Hr M1 E1 Hc) as T. fold req in T. cbv zeta in T.
    destruct (msg_event req) eqn:Ev; try exact T.
    destruct (next_message_cons msg w1 m l Hc) as (q & Eq & Hq). unfold runs, net_round.
    rewrite (bind_eq _ _ _ _ _ E1), (bind_eq _ _ _ _ _ Eq). fold req. rewrite Ev.
    eexists _, _. split; [done|]. split; [done|]. split; [|split; [done|apply M1]].
    pose proof (represents_step _ _ _ _ _ (queue_represents _ _ _ q R1) (print_step Stopping _)) as R2.
    by rewrite view_nil in R2.
Qed.

(** *** Requests from other tasks *)

(** Turns of the loop, while it goes on. *)
Fixpoint turns (n : nat) (msg : NetApiEventMessage) : M world (bool * NetApiEventMessage) :=
  match n with
  | O => mret (true, msg)
  | Datatypes.S n => '(go, msg) ← turn msg; if go : bool then turns n msg else mret (go, msg)
  end.

Lemma turns_snoc n : forall msg (w : world) msg' w', turns n msg w = Ret ((true, msg'), w') ->
  turns (Datatypes.S n) msg w = turns 1 msg' w'.
Proof.
  induction n as [|n IH]; intros msg w msg' w' E1; [by injection E1 as -> ->|].
  cbn [turns] in E1. apply bind_returns in E1 as ([go m1] & w1 & E1 & E2).
  change (turns (Datatypes.S (Datatypes.S n)) msg w) with
    (('(go, msg) ← turn msg; if go : bool then turns (Datatypes.S n) msg else mret (go, msg)) w).
  rewrite (bind_eq _ _ _ _ _ E1). destruct go; [|discriminate]. by apply IH.
Qed.

(** What the requests [l] make of the view. *)
Definition served_all (h : heap) (l : list message) (v : net_view) : net_view :=
  fold_left (fun v m => served h (msg_event (of_bytes m)) v) l v.

Definition ready (w : world) (ls : list entry) (m : message) : Prop :=
  valid_event (net_heap w) ls (msg_event (of_bytes m)) /\ lock_ready w (msg_lock (of_bytes m)).

Lemma event_kept h h' ls ls' ev v : others_kept h h' ls ls' -> valid_event h ls ev ->
  valid_event h' ls' ev /\ served h' ev v = served h ev v.
Proof.
  intros Ho Hv. destruct ev; simpl in *; try (split; [done|by destruct (v_addresses v) as [[]]]);
    destruct (others_string _ _ _ _ _ Ho Hv) as [? ->]; done.
Qed.

Lemma lock_opened_some w k w' j : lock_opened w k w' -> lock_ready w k ->
  is_Some (net_locks w' !! j) <-> is_Some (net_locks w !! j).
Proof.
  intros [Ho Hk] Hrd. destruct (decide (j <> k \/ k = 0)) as [Hj|Hj]; [by rewrite Ho|].
  assert (Hk0 : k <> 0) by tauto. assert (j = k) as -> by (destruct (decide (j = k)); tauto).
  destruct (Hrd Hk0) as [e He]. destruct (Hk Hk0 e He) as (e' & -> & _). rewrite He. by split; eexists.
Qed.

Lemma turn_first msg (w : world) ls v m l : represents w ls v -> contents (net_queue w) = m :: l -> ready w ls m ->
  runs (turn msg) w (fun r w' => r = (true, of_bytes m) /\
    exists ls' sent, represents w' ls' (served (net_heap w) (msg_event (of_bytes m)) v) /\
      others_kept (net_heap w) (net_heap w') ls ls' /\ contents (net_queue w') = l ++ sent /\
      lock_opened w (msg_lock (of_bytes m)) w' /\ net_thread w' = net_thread w).
Proof.
  intros Hr Hc [Hv Hl]. destruct (poll_returns w (r_task _ _ _ Hr)) as ([] & w1 & E1 & M1).
  destruct (mg_keeps _ _ _ M1) as [_ [sent Hq] _ _]. rewrite Hc in Hq.
  destruct (turn_serves msg w w1 ls v m (l ++ sent) Hr M1 E1 Hq Hv Hl)
    as (r & w2 & E2 & -> & ls' & sent' & R2 & O2 & Q2 & L2 & T2).
  exists (true, of_bytes m), w2. split; [exact E2|]. split; [done|]. exists ls', (sent ++ sent').
  by rewrite app_assoc.
Qed.

Lemma turns_serve l : forall msg rest (w : world) ls v, represents w ls v -> contents (net_queue w) = l ++ rest ->
  Forall (ready w ls) l ->
  runs (turns (length l) msg) w (fun r w' => fst r = true /\
    exists ls' sent, represents w' ls' (served_all (net_heap w) l v) /\
      others_kept (net_heap w) (net_heap w') ls ls' /\ contents (net_queue w') = rest ++ sent /\
      (forall k, k ∉ map (fun m => msg_lock (of_bytes m)) l -> net_locks w' !! k = net_locks w !! k) /\
      (forall k, is_Some (net_locks w' !! k) <-> is_Some (net_locks w !! k)) /\ net_thread w' = net_thread w).
Proof.
  induction l as [|m l IH]; intros msg rest w ls v Hr Hc Hf.
  - apply runs_ret. split; [done|]. exists ls, []. rewrite app_nil_r. split; [done|]. by split; [apply others_refl|].
  - apply Forall_cons in Hf as [Hm Hf]. cbn [length turns]. unfold runs.
    destruct (turn_first msg w ls v m (l ++ rest) Hr Hc Hm) as (r & w1 & E1 & -> & ls1 & sent & R1 & O1 & Q1 & L1 & T1).
    rewrite (bind_eq _ _ _ _ _ E1). rewrite <- app_assoc in Q1.
    assert (Hf1 : Forall (ready w1 ls1) l).
    { eapply Forall_impl; [exact Hf|]. intros m' [Hv Hk]. split; [by apply (event_kept _ _ _ _ _ v O1)|].
      intros Hk0. apply (lock_opened_some _ _ _ _ L1 (proj2 Hm)), Hk, Hk0. }
    destruct (IH (of_bytes m) (rest ++ sent) w1 ls1 _ R1 Q1 Hf1) as (r & w2 & E2 & Hgo & ls2 & sent2 & R2 & O2 & Q2 & L2 & S2 & T2).
    exists r, w2. split; [exact E2|]. split; [done|]. exists ls2, (sent ++ sent2). split; [|split; [by eapply others_trans|]].
    + replace (served_all (net_heap w) (m :: l) v) with
        (served_all (net_heap w1) l (served (net_heap w) (msg_event (of_bytes m)) v)); [done|].
      unfold served_all. cbn [fold_left]. generalize (served (net_heap w) (msg_event (of_bytes m)) v).
      clear - Hf O1. induction Hf as [|m' l [Hv _] _ IHl]; intros v'; [done|]. cbn [fold_left].
      destruct (event_kept _ _ _ _ _ v' O1 Hv) as [_ ->]. apply IHl.
    + split; [by rewrite Q2, app_assoc|]. split; [|split; [|congruence]].
      * intros k Hk. simpl in Hk. apply not_elem_of_cons in Hk as [Hk1 Hk2]. rewrite L2 by done. apply L1. by left.
      * intros k. rewrite S2. apply (lock_opened_some _ _ _ _ L1 (proj2 Hm)).
Qed.

Context (lock_address : gmap Z E -> Z) (Haddress : forall l, lock_address l <> 0 /\ l !! lock_address l = None).
Context (Hcodec : forall m, of_bytes (to_bytes m) = m).

(** The functions of net.c by which other tasks make requests. *)
Definition api_call (meanwhile : M world unit) (me : Z) (ev : NetApiEvent) : M world unit :=
  match ev with
  | NetApiEventTypeSetHttp uri fn context => net_start_http to_bytes lock_address meanwhile uri fn context
  | NetApiEventTypeSetTcp uri fn context => net_start_listener to_bytes lock_address meanwhile me uri fn context
  | NetApiEventTypeRstTcp uri => net_stop_listener to_bytes lock_address meanwhile me uri
  | NetApiEventTypeRestart c => net_set_config to_bytes lock_address meanwhile me c
  | NetApiEventTypeStop => net_stop to_bytes meanwhile
  end.

(** From another task, each but [net_stop] waits on a lock of its own. *)
Lemma api_call_waits meanwhile me ev (w : world) : me <> net_thread w -> ev <> NetApiEventTypeStop ->
  api_call meanwhile me ev w =
  (lock ← new_lock lock_address;
   put_message to_bytes meanwhile (mkNetMessage lock ev);;
   api_lock_wait_unlock_and_free meanwhile lock) w.
Proof.
  intros Hme Hev. assert (Hr : forall ev, request to_bytes lock_address meanwhile me ev w =
    (lock ← new_lock lock_address;
     put_message to_bytes meanwhile (mkNetMessage lock ev);; api_lock_wait_unlock_and_free meanwhile lock) w).
  { intros e. unfold request. rewrite (bind_eq _ _ w w w) by done.
    destruct (Z.eqb_spec me (net_thread w)); [done|]. cbn [negb]. done. }
  destruct ev; try apply Hr; done.
Qed.

Lemma new_lock_spec (w : world) : task_runs (net_os w) ->
  new_lock lock_address w = Ret (lock_address (net_locks w),
    with_net_locks (<[lock_address (net_locks w) := xEventGroupCreateStatic]> (net_locks w)) w).
Proof.
  intros [Ht _]. destruct (task_not_isr _ Ht) as [Hi _].
  unfold new_lock, api_lock_alloc_locked, rhs_event_flag_alloc. by rewrite Hi.
Qed.

Lemma put_message_room meanwhile msg (w : world) : task_runs (net_os w) ->
  Z.of_nat (length (contents (net_queue w))) < uxLength (net_queue w) ->
  exists q, put_message to_bytes meanwhile msg w = Ret (tt, with_net_queue q w) /\
    contents q = contents (net_queue w) ++ [to_bytes msg] /\ uxLength q = uxLength (net_queue w).
Proof.
  intros [Ht _] Hroom. destruct (task_not_isr _ Ht) as [_ Hi].
  destruct (waiting_spec (net_queue w)) as (_ & _ & _ & Hsp).
  assert (Hf : queue_full w = false) by (unfold queue_full; apply Z.eqb_neq; lia).
  destruct (put_spec (net_os w) (net_queue w) (to_bytes msg) RHSWaitForever) as (q & E1 & Hq & Hs & _); [by right|done|].
  exists q. split; [|done]. unfold put_message. rewrite (bind_eq _ _ w w w) by done. rewrite Hf.
  rewrite (bind_eq _ _ w tt w), (bind_eq _ _ w w w) by done. rewrite Hf. by rewrite E1.
Qed.

(** A wait for a lock that others open meanwhile. *)
Lemma lock_wait_opened meanwhile k e (w w1 : world) e1 : task_runs (net_os w) -> task_runs (net_os w1) ->
  net_locks w !! k = Some e -> bits e = 0 -> meanwhile w = Ret (tt, w1) ->
  net_locks w1 !! k = Some e1 -> Z.land (bits e1) API_LOCK_EVENT <> 0 ->
  api_lock_wait_unlock_and_free meanwhile k w = Ret (tt, with_net_locks (delete k (net_locks w1)) w1).
Proof.
  intros [Ht _] [Ht1 _] He Hb Hm He1 Hb1.
  destruct (task_not_isr _ Ht) as [Hi _]. destruct (task_not_isr _ Ht1) as [Hi1 _].
  assert (Hl : forall (x : world) e, RHS_IS_IRQ_MODE (net_os x) = false -> net_locks x !! k = Some e ->
    lock_is_locked k x = Ret (Z.land (bits e) API_LOCK_EVENT =? 0, x)).
  { intros x e' Hx Hxe. unfold lock_is_locked, lock_at. rewrite Hxe. cbn [mbind outcome_bind]. by rewrite lock_state. }
  unfold api_lock_wait_unlock_and_free.
  rewrite (bind_eq _ _ _ _ _ (Hl w e Hi He)), Hb. change (Z.land 0 API_LOCK_EVENT =? 0) with true.
  rewrite (bind_eq _ _ _ _ _ Hm), (bind_eq _ _ _ _ _ (Hl w1 e1 Hi1 He1)).
  destruct (Z.eqb_spec (Z.land (bits e1) API_LOCK_EVENT) 0); [done|].
  unfold lock_at. rewrite He1. cbn [mbind outcome_bind].
  destruct (api_lock_wait_returns (net_os w1) e1 Hi1) as (r & e' & ->). cbn [mbind outcome_bind].
  unfold rhs_event_flag_free. by rewrite Hi1.
Qed.

Lemma request_served me ev locals (w : world) ls v :
  represents w ls v -> me <> net_thread w ->
  Z.of_nat (length (contents (net_queue w))) < uxLength (net_queue w) ->
  Forall (ready w ls) (contents (net_queue w)) -> valid_event (net_heap w) ls ev ->
  let l := contents (net_queue w) in
  runs (api_call (_ ← turns (length l + 1) locals; mret tt) me ev) w (fun _ w' =>
    exists ls', represents w' ls' (served (net_heap w) ev (served_all (net_heap w) l v)) /\
      others_kept (net_heap w) (net_heap w') ls ls' /\ net_thread w' = net_thread w /\
      forall k, is_Some (net_locks w' !! k) <-> is_Some (net_locks w !! k)).
Proof.
  intros Hr Hme Hroom Hl Hv l. set (k := lock_address (net_locks w)).
  destruct (Haddress (net_locks w)) as [Hk0 Hkn]. fold k in Hk0, Hkn.
  assert (Hev : ev <> NetApiEventTypeStop) by (by intros ->).
  unfold runs. rewrite api_call_waits by done.
  rewrite (bind_eq _ _ _ _ _ (new_lock_spec w (r_task _ _ _ Hr))). fold k.
  set (e0 := xEventGroupCreateStatic). set (w1 := with_net_locks (<[k := e0]> (net_locks w)) w).
  destruct (put_message_room (_ ← turns (length l + 1) locals; mret tt) (mkNetMessage k ev) w1 (r_task _ _ _ Hr) Hroom)
    as (q & Ep & Hq & _). rewrite (bind_eq _ _ _ _ _ Ep). set (w2 := with_net_queue q w1).
  assert (R2 : represents w2 ls v) by (apply queue_represents; by destruct Hr).
  assert (Hl2 : Forall (ready w2 ls) l).
  { eapply Forall_impl; [exact Hl|]. intros m [Hm Hlk]. split; [done|]. intros Hz. destruct (Hlk Hz) as [e He]. simpl.
    destruct (decide (msg_lock (of_bytes m) = k)) as [->|]; [rewrite lookup_insert_eq|rewrite lookup_insert_ne]; eauto. }
  destruct (turns_serve l locals [to_bytes (mkNetMessage k ev)] w2 ls v R2 Hq Hl2)
    as ([go m3] & w3 & E3 & Hgo & ls3 & sent3 & R3 & O3 & Q3 & L3 & S3 & T3). simpl in Hgo. subst go.
  assert (Hk3 : net_locks w3 !! k = Some e0).
  { rewrite L3; [simpl; by rewrite lookup_insert_eq|]. intros (m & Em & Hin)%list_elem_of_fmap.
    rewrite Forall_forall in Hl. destruct (Hl m Hin) as [_ Hlk]. rewrite <- Em in Hlk. destruct (Hlk Hk0). congruence. }
  assert (Hrdy : ready w3 ls3 (to_bytes (mkNetMessage k ev))).
  { unfold ready. rewrite Hcodec. simpl. split; [by apply (event_kept _ _ _ _ _ v O3)|]. intros _. by eexists. }
  destruct (turn_first m3 w3 ls3 _ _ _ R3 Q3 Hrdy) as (r4 & w4 & E4 & -> & ls4 & sent4 & R4 & O4 & _ & L4 & T4).
  rewrite Hcodec in R4, L4. simpl in R4, L4.
  assert (Em : (_ ← turns (length l + 1) locals; mret tt) w2 = Ret (tt, w4)).
  { assert (Et : turns (length l + 1) locals w2 = Ret ((true, of_bytes (to_bytes (mkNetMessage k ev))), w4)).
    { rewrite Nat.add_1_r. rewrite (turns_snoc _ _ _ _ _ E3). cbn [turns]. by rewrite (bind_eq _ _ _ _ _ E4). }
    by rewrite (bind_eq _ _ _ _ _ Et). }
  destruct L4 as [L4 L4k]. destruct (L4k Hk0 e0 Hk3) as (e4 & He4 & Hb4). destruct created as [C1 C2]. fold e0 in C1, C2.
  rewrite C1, C2 in Hb4. change (bits e4 = 1) in Hb4.
  assert (Hk2 : net_locks w2 !! k = Some e0) by (simpl; by rewrite lookup_insert_eq).
  rewrite (lock_wait_opened _ k e0 w2 w4 e4 (r_task _ _ _ R2) (r_task _ _ _ R4) Hk2 C1 Em He4) by (by rewrite Hb4).
  eexists tt, _. split; [done|]. exists ls4. split; [|split; [|split]].
  - destruct (event_kept _ _ _ _ _ (served_all (net_heap w2) l v) O3 Hv) as [_ Es]. simpl in Es, R4. rewrite Es in R4.
    by destruct R4.
  - simpl. exact (others_trans _ _ _ _ _ _ O3 O4).
  - simpl. by rewrite T4, T3.
  - intros j. simpl. destruct (decide (j = k)) as [->|Hj]; [by rewrite lookup_delete_eq, Hkn|].
    rewrite lookup_delete_ne, L4, S3 by auto. simpl. by rewrite lookup_insert_ne.
Qed.



(** A task that runs the service must not call [net_start_http]: it would wait for itself.
    Called by the service's own task (an event handler of mongoose) it never returns, when
    nobody else opens the lock, while [net_start_listener] queues the request without a lock
    and returns at once. *)
Theorem net_start_http_deadlock meanwhile (w : world) uri fn ctx :
  task_runs (net_os w) -> Z.of_nat (length (contents (net_queue w))) < uxLength (net_queue w) ->
  (forall w1 : world, task_runs (net_os w1) -> runs meanwhile w1 (fun _ w2 => task_runs (net_os w2) /\
     net_locks w2 !! lock_address (net_locks w) = net_locks w1 !! lock_address (net_locks w))) ->
  net_start_http to_bytes lock_address meanwhile uri fn ctx w = Hang /\
  exists q, net_start_listener to_bytes lock_address meanwhile (net_thread w) uri fn ctx w = Ret (tt, with_net_queue q w) /\
    contents q = contents (net_queue w) ++ [to_bytes (mkNetMessage 0 (NetApiEventTypeSetTcp uri fn ctx))].
Proof.
  intros Ht Hroom Hm. split.
  - unfold net_start_http. rewrite (bind_eq _ _ _ _ _ (new_lock_spec w Ht)).
    set (k := lock_address (net_locks w)) in *. set (w1 := with_net_locks _ w).
    destruct (put_message_room meanwhile (mkNetMessage k (NetApiEventTypeSetHttp uri fn ctx)) w1 Ht Hroom) as (q & Ep & _).
    rewrite (bind_eq _ _ _ _ _ Ep). set (w2 := with_net_queue q w1).
    assert (Hl : forall x : world, task_runs (net_os x) -> net_locks x !! k = Some xEventGroupCreateStatic ->
      lock_is_locked k x = Ret (true, x)).
    { intros x [Hx _] Hxe. destruct (task_not_isr _ Hx) as [Hi _]. unfold lock_is_locked, lock_at. rewrite Hxe.
      cbn [mbind outcome_bind]. rewrite lock_state by done. by destruct created as [-> _]. }
    assert (Hk2 : net_locks w2 !! k = Some xEventGroupCreateStatic) by (simpl; by rewrite lookup_insert_eq).
    destruct (Hm w2 Ht) as ([] & w3 & E3 & T3 & L3). unfold api_lock_wait_unlock_and_free.
    rewrite (bind_eq _ _ _ _ _ (Hl w2 Ht Hk2)), (bind_eq _ _ _ _ _ E3).
    rewrite (bind_eq _ _ w3 true w3) by (apply Hl; [done|congruence]). done.
  - destruct (put_message_room meanwhile (mkNetMessage 0 (NetApiEventTypeSetTcp uri fn ctx)) w Ht Hroom) as (q & Ep & Hq & _).
    exists q. split; [|done]. unfold net_start_listener, request. rewrite (bind_eq _ _ w w w) by done.
    rewrite Z.eqb_refl. cbn [negb]. rewrite (bind_eq _ _ w 0 w) by done. by rewrite (bind_eq _ _ _ _ _ Ep).
Qed.

(** The loop that frees the list when the service stops reads the link of the listener it
    has just freed: with a listener registered it accesses freed memory, with none it does
    nothing. *)
Theorem net_cleanup_use_after_free (w : world) ls :
  holds (net_heap w) (listeners w) ls ->
  cleanup_loop (Datatypes.S (size (net_heap w))) (listeners w) w = if decide (ls = []) then Ret (tt, w) else Fault.
Proof.
  intros [Hch Hnd]. cbn [cleanup_loop]. destruct ls as [|[[c u] r] ls].
  - simpl in Hch. rewrite Hch. by rewrite decide_True.
  - rewrite decide_False by done. pose proof Hch as (Hp & Hc & Hu & n & Hn & _). rewrite Hp in *.
    destruct (Z.eqb_spec c 0); [done|]. rewrite (bind_eq _ _ w w w) by done.
    set (l := mkListener _ _ _ _ _) in Hn.
    rewrite (bind_eq _ _ w l w) by (unfold lift; by rewrite (read_listener_ret _ _ _ Hn)).
    destruct (remove_loop_spec (Datatypes.S (size (net_heap w))) (net_heap w) c u (r_uri r) [] ((c, u, r) :: ls)
      (conj Hch Hnd) Hu) with (cur := c)
      as [[HF _]|(ls1 & c' & u' & r' & ls2 & h' & p' & Hls & HF & _ & Er & _ & Hc' & _ & _)].
    + pose proof (chain_length _ _ _ _ Hch Hnd) as Hlen. by apply Nat.lt_succ_r.
    + constructor.
    + exact Hch.
    + apply Forall_cons in HF as [HF _]. by destruct HF.
    + destruct ls1 as [|e ls1].
      2: { injection Hls as <- _. apply Forall_cons in HF as [HF _]. by destruct HF. }
      injection Hls as <- _ _ _. change (last_cell []) with 0 in Er.
      assert (Erm : remove_listener (l_uri l) w = Ret (true, with_listeners h' p' w)).
      { unfold remove_listener, net_listeners_remove. rewrite Hp. destruct (Z.eqb_spec c 0); [done|].
        cbn [l l_uri]. by rewrite Er. }
      rewrite (bind_eq _ _ _ _ _ Erm), (bind_eq _ _ (with_listeners h' p' w) (with_listeners h' p' w) (with_listeners h' p' w)) by done.
      unfold lift, read_listener, mbind, M_bind. simpl. by rewrite Hc'.
Qed.

(** *** Configuration *)

(** The field [f] starts with the address [a.b.c.d]. *)
Definition reads_as (f : list Z) (o : Z * Z * Z * Z) : Prop :=
  let '(a, b, c, d) := o in
  string_to_ip (Some f) (Some 0) (Some 0) (Some 0) (Some 0) = (0, [Some a; Some b; Some c; Some d]).

Lemma octet_range ds v : octet ds v -> 0 <= v <= 255.
Proof. intros (_ & Hd & <- & Hv). split; [|done]. unfold dec_value. by apply fold_dec_ge. Qed.

Lemma reads_as_range f a b c d : reads_as f (a, b, c, d) -> 0 <= a <= 255 /\ 0 <= b <= 255 /\ 0 <= c <= 255 /\ 0 <= d <= 255.
Proof.
  intros (ws & da & db & dc & dd & rest & _ & _ & Ga & Gb & Gc & Gd & _)%string_to_ip_grammar.
  by split; [eapply octet_range|split; [eapply octet_range|split; eapply octet_range]].
Qed.

Lemma new_address_spec f a b c d old : terminated f -> reads_as f (a, b, c, d) -> new_address f old = MG_IPV4 a b c d.
Proof. intros Hf Ho. unfold new_address, parse_address, field_string. rewrite Hf. cbn [mbind outcome_bind]. by rewrite Ho. Qed.

Lemma print_address_spec a b c d field : 0 <= a <= 255 -> 0 <= b <= 255 -> 0 <= c <= 255 -> 0 <= d <= 255 ->
  (16 <= length field)%nat ->
  exists f, print_address (MG_IPV4 a b c d) field = Ret f /\ reads_as f (a, b, c, d) /\ terminated f /\ length f = length field.
Proof.
  intros Ha Hb Hc Hd Hl. unfold print_address. rewrite MG_IPV4_bytes by lia.
  destruct (ip_string_spec a b c d field Ha Hb Hc Hd Hl) as (f & Ef & Hlen & Ht & Hr & _).
  cbn [nth]. rewrite Ef. by exists f.
Qed.

(** C35: a configuration that the service is restarted with is what [net_get_config] gives
    back: the addresses that [string_to_ip] reads in its three fields are those it reads in
    the fields written into the caller's structure, each of which holds a terminated string. *)
Theorem net_config_roundtrip c out oi om og (w : world) ls v :
  represents w ls v -> terminated (cfg_ip c) -> terminated (cfg_mask c) -> terminated (cfg_gateway c) ->
  reads_as (cfg_ip c) oi -> reads_as (cfg_mask c) om -> reads_as (cfg_gateway c) og ->
  (16 <= length (cfg_ip out))%nat -> (16 <= length (cfg_mask out))%nat -> (16 <= length (cfg_gateway out))%nat ->
  runs (restart mg_mgr_poll mg_listen mg_http_listen c;; net_get_config (Some out)) w (fun c' _ =>
    reads_as (cfg_ip c') oi /\ reads_as (cfg_mask c') om /\ reads_as (cfg_gateway c') og /\
    terminated (cfg_ip c') /\ terminated (cfg_mask c') /\ terminated (cfg_gateway c') /\ cfg_mac c' = cfg_mac out).
Proof.
  intros Hr Ti Tm Tg Ri Rm Rg Li Lm Lg. unfold runs.
  destruct (restart_becomes c w ls v Hr (conj Ti (conj Tm Tg))) as ([] & w1 & E1 & ls1 & R1 & _).
  rewrite (bind_eq _ _ _ _ _ E1). pose proof (r_addresses _ _ _ R1) as A. simpl in A.
  destruct (v_addresses v) as [[i0 m0] g0].
  destruct oi as [[[ia ib] ic] id], om as [[[ma mb] mc] md], og as [[[ga gb] gc] gd].
  rewrite (new_address_spec _ ia ib ic id), (new_address_spec _ ma mb mc md), (new_address_spec _ ga gb gc gd) in A by done.
  injection A as Ai Am Ag.
  apply reads_as_range in Ri as (?&?&?&?). apply reads_as_range in Rm as (?&?&?&?). apply reads_as_range in Rg as (?&?&?&?).
  unfold net_get_config. rewrite (bind_eq _ _ w1 w1 w1) by done.
  destruct (print_address_spec ia ib ic id (cfg_ip out)) as (fi & Ei & Hi & Ti' & _); try done.
  destruct (print_address_spec ma mb mc md (cfg_mask out)) as (fm & Em & Hm & Tm' & _); try done.
  destruct (print_address_spec ga gb gc gd (cfg_gateway out)) as (fg & Eg & Hg & Tg' & _); try done.
  rewrite (bind_eq _ _ w1 fi w1) by (unfold lift; simpl in Ai; by rewrite Ai, Ei).
  rewrite (bind_eq _ _ w1 fm w1) by (unfold lift; simpl in Am; by rewrite Am, Em).
  rewrite (bind_eq _ _ w1 fg w1) by (unfold lift; simpl in Ag; by rewrite Ag, Eg).
  eexists _, w1. split; [done|]. by repeat split.
Qed.

(** *** The Ethernet interface's start *)

Context (ETH_NET_IP_STRING ETH_NET_MASK_STRING ETH_NET_GW_STRING uid : list Z) (MG_DRIVER_MDC_CR MG_TCPIP_PHY_ADDR : Z).

Abbreviation init_tcpip := (eth_net_init_tcpip ETH_NET_IP_STRING ETH_NET_MASK_STRING ETH_NET_GW_STRING uid
  MG_DRIVER_MDC_CR MG_TCPIP_PHY_ADDR).

(** The field, or the default when it is empty. *)
Definition effective (field s : list Z) : list Z :=
  if hd 0 field =? 0 then s ++ 0 :: drop (Datatypes.S (length s)) field else field.

Lemma default_field_spec field s : (length s < length field)%nat ->
  default_field field s = Ret (effective field s).
Proof.
  intros Hl. unfold default_field, effective, strcpy, sprintf_into. destruct (hd 0 field =? 0); [|done].
  by destruct (Nat.leb_spec (length field) (length s)); [lia|].
Qed.

Lemma asserted_address_spec f : terminated f ->
  (exists a b c d, reads_as f (a, b, c, d) /\ asserted_address f = Ret (MG_IPV4 a b c d)) \/
  ((forall o, ~ reads_as f o) /\ asserted_address f = Crash "Assert").
Proof.
  intros Hf. unfold asserted_address, parse_address, field_string. rewrite Hf. cbn [mbind outcome_bind].
  destruct (string_to_ip (Some f) (Some 0) (Some 0) (Some 0) (Some 0)) as [rc outs] eqn:Es.
  destruct (string_to_ip_rc (Some f) (Some 0) (Some 0) (Some 0) (Some 0)) as [Hrc|Hrc]; rewrite Es in Hrc; simpl in Hrc; subst rc.
  - destruct (string_to_ip_outs _ _ _ _ _ _ Es) as (a & b & c & d & ->). left. by exists a, b, c, d.
  - right. split; [|done]. intros [[[a b] c] d]. unfold reads_as. by rewrite Es.
Qed.

(** The Ethernet interface starts with the addresses of the configuration, an empty field
    standing for its default, or stops the system when one of them is no address; the
    hardware address it gets is the first four bytes of the configured one (of the chip's
    identifier, when that is zero) followed by two zero bytes, not all six. *)
Theorem eth_net_init_tcpip_correct c phy :
  (length ETH_NET_IP_STRING < length (cfg_ip c))%nat -> (length ETH_NET_MASK_STRING < length (cfg_mask c))%nat ->
  (length ETH_NET_GW_STRING < length (cfg_gateway c))%nat -> length (cfg_mac c) = 6%nat ->
  let ip := effective (cfg_ip c) ETH_NET_IP_STRING in
  let mask := effective (cfg_mask c) ETH_NET_MASK_STRING in
  let gateway := effective (cfg_gateway c) ETH_NET_GW_STRING in
  terminated ip -> terminated mask -> terminated gateway ->
  ((forall o, ~ reads_as ip o) \/ (forall o, ~ reads_as mask o) \/ (forall o, ~ reads_as gateway o) ->
     init_tcpip c phy = Crash "Assert") /\
  forall oi om og, reads_as ip oi -> reads_as mask om -> reads_as gateway og ->
    exists i driver mac, init_tcpip c phy = Ret (mkNetConfig ip mask gateway mac, i, driver) /\
      (let '(a, b, c, d) := oi in if_ip i = MG_IPV4 a b c d) /\ (let '(a, b, c, d) := om in if_mask i = MG_IPV4 a b c d) /\
      (let '(a, b, c, d) := og in if_gw i = MG_IPV4 a b c d) /\
      (cfg_mac c <> repeat 0 6 -> mac = cfg_mac c) /\ (cfg_mac c = repeat 0 6 -> mac = GENERATE_LOCALLY_ADMINISTERED_MAC uid) /\
      if_mac i = take 4 mac ++ [0; 0].
Proof.
  intros Li Lm Lg Lmac ip mask gateway Ti Tm Tg. unfold eth_net_init_tcpip.
  rewrite !default_field_spec by done. cbn [mbind outcome_bind]. fold ip mask gateway.
  assert (Hfun : forall f o o', reads_as f o -> reads_as f o' -> o = o').
  { intros f [[[a b] c'] d] [[[a' b'] c''] d']. unfold reads_as. intros ->. by intros [= -> -> -> ->]. }
  split.
  - destruct (asserted_address_spec ip Ti) as [(ia&ib&ic&id&Hi&->)|[Hi ->]]; cbn [mbind outcome_bind]; [|done].
    destruct (asserted_address_spec mask Tm) as [(ma&mb&mc&md&Hm&->)|[Hm ->]]; cbn [mbind outcome_bind]; [|done].
    destruct (asserted_address_spec gateway Tg) as [(ga&gb&gc&gd&Hg&->)|[Hg ->]]; cbn [mbind outcome_bind]; [|done].
    intros [Hn|[Hn|Hn]]; by edestruct Hn.
  - intros oi om og Hi Hm Hg.
    destruct (asserted_address_spec ip Ti) as [(ia&ib&ic&id&Hi'&->)|[Hi' _]]; [|by edestruct Hi'].
    destruct (asserted_address_spec mask Tm) as [(ma&mb&mc&md&Hm'&->)|[Hm' _]]; [|by edestruct Hm'].
    destruct (asserted_address_spec gateway Tg) as [(ga&gb&gc&gd&Hg'&->)|[Hg' _]]; [|by edestruct Hg'].
    rewrite (Hfun _ _ _ Hi Hi'), (Hfun _ _ _ Hm Hm'), (Hfun _ _ _ Hg Hg'). cbn [mbind outcome_bind].
    eexists _, _, _. split; [reflexivity|]. repeat (split; [reflexivity|]).
    assert (Hz : forallb (Z.eqb 0) (cfg_mac c) = true <-> cfg_mac c = repeat 0 6).
    { destruct (cfg_mac c) as [|m1 [|m2 [|m3 [|m4 [|m5 [|m6 [|]]]]]]]; try discriminate Lmac.
      rewrite forallb_forall. split.
      - intros Hall. assert (Hin : forall x, In x [m1; m2; m3; m4; m5; m6] -> x = 0) by (intros x Hx; apply Hall in Hx; lia).
        simpl in Hin |- *. rewrite (Hin m1), (Hin m2), (Hin m3), (Hin m4), (Hin m5), (Hin m6) by tauto. done.
      - intros [= -> -> -> -> -> ->] x Hx. simpl in Hx. by destruct Hx as [<-|[<-|[<-|[<-|[<-|[<-|[]]]]]]]. }
    destruct (forallb (Z.eqb 0) (cfg_mac c)).
    + split; [intros Hne; by destruct Hne; apply Hz|]. by split.
    + split; [done|]. split; [|done]. intros E0. by apply Hz in E0.
Qed.
End correctness.

(** ** A mongoose that opens what it is told to, to instantiate the theorems with *)

#[global] Instance plain_url : MongooseUrl := {
  mg_url_port _ := 502;
  mg_aton_host s := negb (bool_decide (s = []));
  mg_htons p := u16 (Z.lor (Z.shiftl p 8) (Z.shiftr p 8));
  MG_IPV4 a b c d := a + 256 * (b + 256 * (c + 256 * d))
}.
#[global] Instance plain_url_laws : MongooseUrlLaws.
Proof.
  split. intros a b c d Ha Hb Hc Hd. unfold le32. cbn [map Z.mul MG_IPV4 plain_url].
  rewrite !Z.shiftr_div_pow2 by lia.
  change (2 ^ (8 * 0)) with 1. change (2 ^ (8 * 1)) with 256. change (2 ^ (8 * 2)) with 65536.
  change (2 ^ (8 * 3)) with 16777216.
  f_equal; [|f_equal; [|f_equal; [|f_equal]]]; Z.to_euclidean_division_equations; lia.
Qed.

Abbreviation plain_net := (Net os_state group fifo plain_mutex (list opened_uri)).

Definition plain_poll : M plain_net unit := mret tt.
Definition open_uri (o : opened_uri) : M plain_net unit := modify (fun w =>
  let m := net_mgr w in with_net_mgr (mkMgr (conns m) (ifp m) (mgr_rest m ++ [o])) w).
Definition plain_listen (s : list Z) (fn ctx : Z) : M plain_net unit := open_uri (OpenedTcp s fn ctx).
Definition plain_http_listen (s : list Z) (fn ctx : Z) : M plain_net unit := open_uri (OpenedHttp s fn ctx).
Definition all_opened (k : list opened_uri) : list opened_uri := k.

Lemma plain_poll_returns (w : plain_net) : task_runs (net_os w) -> runs plain_poll w (fun _ => mg_step all_opened [] w).
Proof. intros _. apply runs_ret, mg_step_refl. Qed.
Lemma open_uri_step o (w : plain_net) : runs (open_uri o) w (fun _ => mg_step all_opened [o] w).
Proof.
  eexists tt, _. split; [reflexivity|]. split; [split|..]; try done. exists []. by rewrite app_nil_r.
Qed.

(** Messages as numbers, lists behind their length. *)
Definition pack (l : list Z) : list Z := Z.of_nat (length l) :: l.
Definition unpack (l : list Z) : list Z * list Z := (take (Z.to_nat (hd 0 l)) (tl l), drop (Z.to_nat (hd 0 l)) (tl l)).
Definition net_bytes (m : NetApiEventMessage) : message :=
  msg_lock m :: match msg_event m with
  | NetApiEventTypeSetHttp u f c => [0; u; f; c]
  | NetApiEventTypeSetTcp u f c => [1; u; f; c]
  | NetApiEventTypeRstTcp u => [2; u]
  | NetApiEventTypeRestart c => 7 :: pack (cfg_ip c) ++ pack (cfg_mask c) ++ pack (cfg_gateway c) ++ pack (cfg_mac c)
  | NetApiEventTypeStop => [8]
  end.
Definition net_unbytes (l : message) : NetApiEventMessage :=
  mkNetMessage (hd 0 l) match tl l with
  | 0 :: u :: f :: c :: _ => NetApiEventTypeSetHttp u f c
  | 1 :: u :: f :: c :: _ => NetApiEventTypeSetTcp u f c
  | 2 :: u :: _ => NetApiEventTypeRstTcp u
  | 7 :: l =>
      let '(ip, l) := unpack l in let '(mask, l) := unpack l in let '(gw, l) := unpack l in
      NetApiEventTypeRestart (mkNetConfig ip mask gw (fst (unpack l)))
  | _ => NetApiEventTypeStop
  end.

Lemma unpack_pack l rest : unpack (pack l ++ rest) = (l, rest).
Proof. unfold unpack, pack. simpl. by rewrite Nat2Z.id, take_app_length, drop_app_length. Qed.
Lemma net_unbytes_bytes m : net_unbytes (net_bytes m) = m.
Proof.
  destruct m as [k [u f c|u f c|u|c|]]; try done. unfold net_unbytes, net_bytes. cbn [msg_lock msg_event hd tl].
  rewrite !unpack_pack. rewrite <- (app_nil_r (pack (cfg_mac c))), unpack_pack. by destruct c.
Qed.

(** A lock's address, the first above those in use. *)
Definition next_lock (l : gmap Z group) : Z := next_address (fmap (fun _ => OString []) l).
Lemma next_lock_ok l : next_lock l <> 0 /\ l !! next_lock l = None.
Proof.
  destruct (next_address_ok (fmap (fun _ => OString []) l)) as [H0 H1]. split; [done|].
  rewrite lookup_fmap in H1. unfold next_lock. by destruct (l !! _).
Qed.

(** The service with one listener; a task has put a request for another in the queue. *)
Definition a_uri (port : Z) : list Z := r_uri (a_registration port).
Definition net_heap_0 : heap :=
  {[ 1 := OListener (mkListener NetListenerTypeTcp 2 4096 7 0); 2 := OString (a_uri 50); 9 := OString (a_uri 51) ]}.
Definition net_list_0 : list entry := [(1, 2, a_registration 50)].
Definition zero_config : NetConfig := mkNetConfig (repeat 0 16) (repeat 0 16) (repeat 0 16) (repeat 0 6).
Definition a_request : NetApiEvent := NetApiEventTypeSetTcp 9 4096 7.
Definition net_state (queue : list message) (locks : gmap Z group) : plain_net :=
  mkNet a_task (mkFifo queue 3 80) locks net_heap_0 1 zero_config
    (mkMgr [] (mkIf true 1 2 3 [0; 0; 0; 0; 0; 0]) []) 77 (mkRecord (mkMutex queueQUEUE_TYPE_MUTEX 0 0) ∅)
    (mkCli (mkMutex queueQUEUE_TYPE_MUTEX 0 0) 0 [] ∅) [].
Definition net_view_0 : net_view := mkView [a_registration 50] (1, 2, 3) [].

Lemma net_state_represents q l : represents all_opened (net_state q l) net_list_0 net_view_0.
Proof.
  split; try done.
  - split; [|apply (bool_decide_unpack _); vm_compute; exact I].
    split; [reflexivity|]. split; [lia|]. split; [reflexivity|]. exists 0. by split.
Qed.

Lemma uri_9_ready : string_ready net_heap_0 net_list_0 9.
Proof. split; [by eexists|]. apply (bool_decide_unpack _). by vm_compute. Qed.

Theorem net_round_refines_witness :
  let req := mkNetMessage 5 a_request in
  let w := net_state [net_bytes req] {[ 5 := mkGroup 0 ]} in
  runs (net_round net_bytes net_unbytes next_address plain_poll plain_listen plain_http_listen req) w (fun r w' =>
    r = (true, req) /\ exists e, net_locks w' !! 5 = Some e /\ bits e = 1).
Proof.
  intros req w.
  pose proof (net_round_refines all_opened plain_poll plain_listen plain_http_listen plain_poll_returns
    (fun s f c w _ => open_uri_step _ w) (fun s f c w _ => open_uri_step _ w) next_address next_address_ok
    net_bytes net_unbytes req w w net_list_0 net_view_0 (net_state_represents _ _) eq_refl) as T.
  change (contents (net_queue w)) with [net_bytes req] in T. cbv beta iota zeta in T.
  rewrite net_unbytes_bytes in T. cbn [req msg_event msg_lock a_request] in T.
  destruct (T uri_9_ready ltac:(by eexists)) as (r & w' & E1 & Hr & ls' & sent & _ & _ & _ & [_ L] & _).
  exists r, w'. split; [exact E1|]. split; [exact Hr|].
  destruct (L ltac:(lia) (mkGroup 0) eq_refl) as (e & He & Hb). by exists e.
Defined.


Theorem net_start_http_deadlock_witness :
  net_start_http net_bytes next_lock (mret tt) 9 4096 7 (net_state [] ∅) = Hang /\
  exists q, net_start_listener net_bytes next_lock (mret tt) 77 9 4096 7 (net_state [] ∅) =
      Ret (tt, with_net_queue q (net_state [] ∅)) /\
    contents q = [net_bytes (mkNetMessage 0 a_request)].
Proof.
  refine (net_start_http_deadlock net_bytes next_lock (mret tt) (net_state [] ∅) 9 4096 7 _ _ _).
  - by repeat split.
  - by compute.
  - intros w1 T1. by apply runs_ret.
Defined.

Theorem net_cleanup_use_after_free_witness :
  cleanup_loop (Datatypes.S (size net_heap_0)) 1 (net_state [] ∅) = Fault.
Proof.
  refine (net_cleanup_use_after_free (net_state [] ∅) net_list_0 _). apply (net_state_represents [] ∅).
Defined.

Definition address_field (s : string) : list Z := str s ++ repeat 0 (16 - length (str s)).
Definition a_config : NetConfig := mkNetConfig (address_field "10.0.0.7") (address_field "255.0.0.0")
  (address_field "10.0.0.1") [2; 3; 4; 5; 6; 7].

Theorem net_config_roundtrip_witness :
  runs (restart plain_poll plain_listen plain_http_listen a_config;; net_get_config (Some zero_config)) (net_state [] ∅)
    (fun c' _ => reads_as (cfg_ip c') (10, 0, 0, 7) /\ reads_as (cfg_mask c') (255, 0, 0, 0) /\
      reads_as (cfg_gateway c') (10, 0, 0, 1) /\ terminated (cfg_ip c') /\ terminated (cfg_mask c') /\
      terminated (cfg_gateway c') /\ cfg_mac c' = cfg_mac zero_config).
Proof.
  refine (net_config_roundtrip all_opened plain_poll plain_listen plain_http_listen plain_poll_returns
    (fun s f c w _ => open_uri_step _ w) (fun s f c w _ => open_uri_step _ w)
    a_config zero_config _ _ _ (net_state [] ∅) net_list_0 net_view_0 (net_state_represents _ _) _ _ _ _ _ _ _ _ _);
    first [reflexivity|by apply Nat.leb_le].
Defined.

Theorem eth_net_init_tcpip_correct_witness :
  exists i driver mac, eth_net_init_tcpip (str "192.168.0.100") (str "255.255.255.0") (str "192.168.0.1") (repeat 7 12) 4 1
      a_config None = Ret (mkNetConfig (cfg_ip a_config) (cfg_mask a_config) (cfg_gateway a_config) mac, i, driver) /\
    if_ip i = MG_IPV4 10 0 0 7 /\ if_mac i = [2; 3; 4; 5; 0; 0].
Proof.
  destruct (eth_net_init_tcpip_correct (str "192.168.0.100") (str "255.255.255.0") (str "192.168.0.1") (repeat 7 12) 4 1
    a_config None ltac:(simpl; lia) ltac:(simpl; lia) ltac:(simpl; lia) eq_refl eq_refl eq_refl eq_refl) as [_ T].
  destruct (T (10, 0, 0, 7) (255, 0, 0, 0) (10, 0, 0, 1) eq_refl eq_refl eq_refl) as (i & d & mac & E1 & Hi & _ & _ & Hm & _ & Hmac).
  exists i, d, mac. split; [exact E1|]. split; [exact Hi|]. rewrite Hmac, Hm by discriminate. reflexivity.
Defined.
