(* ===== verification/Notification.v ===== *)
(** * The speaker and the notification service (hal/rhs_hal_speaker, services/notification)

    The speaker is a timer's PWM output guarded by a mutex; the notification service plays
    sequences of sounds and delays that other tasks queue. Frequencies and volumes are C
    floats: IEEE binary32, computed as [SpecFloat] defines it. *)

From Stdlib Require Import SpecFloat.
From S2P Require Import Prelude Kernel EventFlag MessageQueue Mutex Records.

(** ** C's float *)

Abbreviation float := spec_float.
Definition f32_of_Z (z : Z) : float := binary_normalize 24 128 z 0 false.
Definition f32_div (x y : float) : float := SFdiv 24 128 x y.
Definition f32_mul (x y : float) : float := SFmul 24 128 x y.
Definition f32_sub (x y : float) : float := SFsub 24 128 x y.
(** The literal [c / 100]: [c] and 100 are exact, and the division rounds correctly. *)
Definition f32_lit (c : Z) : float := f32_div (f32_of_Z c) (f32_of_Z 100).

(** The conversion to [uint32_t]: towards zero; out of range it is undefined. *)
Definition f32_to_u32 (f : float) : outcome Z :=
  match f with
  | S754_zero _ => Ret 0
  | S754_finite s m e =>
      let v := if 0 <=? e then Z.pos m * 2 ^ e else Z.pos m / 2 ^ (- e) in
      if s then (if v =? 0 then Ret 0 else Fault) else if v <? 2 ^ 32 then Ret v else Fault
  | _ => Fault
  end.

(** ** The speaker *)

(** The processors the driver knows, with the timer's prescaler register and channel. *)
Inductive speaker_cpu := STM32F765xx | STM32F103xx | STM32G0B1xx_.
Definition Prescaler (c : speaker_cpu) : Z :=
  match c with STM32F765xx => 215 | STM32F103xx => 71 | STM32G0B1xx_ => 63 end.
Definition TIM_CHANNEL (c : speaker_cpu) : Z := match c with STM32F765xx => 1 | _ => 2 end.

Inductive TIM_Init_step := Base_Init | ConfigClockSource | PWM_Init | MasterConfigSynchronization | PWM_ConfigChannel.

(** The timer: [HAL_TIM_Init_step] are the calls of [tim_init], which report success;
    [HAL_TIM_MspPostInit] sets up the pin. *)
Class TimHw (T : Type) := {
  HAL_TIM_Init_step : TIM_Init_step -> T -> bool * T;
  HAL_TIM_MspPostInit : T -> T;
  TIM_ARR : T -> Z;
  set_ARR : Z -> T -> T;
  set_CCR : Z -> Z -> T -> T;
  HAL_TIM_PWM_Start : Z -> T -> T;
  HAL_TIM_PWM_Stop : Z -> T -> T
}.

(** [htim_Period] is [htim.Init.Period]. *)
Record speaker (S X T : Type) := mkSpeaker { sp_os : S; rhs_hal_speaker_mutex : option X; htim_Period : Z; sp_tim : T }.
Arguments mkSpeaker {S X T}.
Arguments sp_os {S X T}.
Arguments rhs_hal_speaker_mutex {S X T}.
Arguments htim_Period {S X T}.
Arguments sp_tim {S X T}.

Section speaker.
Context {S : Type} `{Scheduler S} {X : Type} `{FreeRTOSMutex X} {T : Type} `{TimHw T}.
Context (cpu : speaker_cpu) (SystemCoreClock : Z).
(** The calling task. *)
Context (me : Z).
Abbreviation world := (speaker S X T).

Definition on_speaker_mutex {A} (f : S -> option X -> outcome (A * X)) : M world A := fun w =>
  '(a, q) ← f (sp_os w) (rhs_hal_speaker_mutex w); Ret (a, mkSpeaker (sp_os w) (Some q) (htim_Period w) (sp_tim w)).
Definition on_tim (f : T -> T) : M world unit := modify (fun w =>
  mkSpeaker (sp_os w) (rhs_hal_speaker_mutex w) (htim_Period w) (f (sp_tim w))).
Definition on_speaker_os {A} (m : M S A) : M world A := fun w =>
  '(a, s) ← m (sp_os w); Ret (a, mkSpeaker s (rhs_hal_speaker_mutex w) (htim_Period w) (sp_tim w)).

(** What a failed call does: on the STM32F1 nothing. *)
Definition init_failed : M world unit :=
  match cpu with
  | STM32F765xx => crash "Speaker init failed"
  | STM32F103xx => mret tt
  | STM32G0B1xx_ => crash "Assert"
  end.
Definition tim_step (x : TIM_Init_step) : M world unit := fun w =>
  let '(ok, t) := HAL_TIM_Init_step x (sp_tim w) in
  (if ok : bool then mret tt else init_failed)
    (mkSpeaker (sp_os w) (rhs_hal_speaker_mutex w) (htim_Period w) t).

Definition set_period : M world unit := modify (fun w => mkSpeaker (sp_os w) (rhs_hal_speaker_mutex w) 376 (sp_tim w)).
Definition tim9_init : M world unit :=
  set_period;;
  tim_step Base_Init;;
  tim_step ConfigClockSource;;
  tim_step PWM_Init;;
  tim_step PWM_ConfigChannel;;
  on_tim HAL_TIM_MspPostInit.
Definition tim3_init : M world unit :=
  set_period;;
  tim_step Base_Init;;
  tim_step ConfigClockSource;;
  tim_step PWM_Init;;
  tim_step MasterConfigSynchronization;;
  tim_step PWM_ConfigChannel;;
  on_tim HAL_TIM_MspPostInit.
Definition tim15_init : M world unit :=
  set_period;;
  tim_step Base_Init;;
  tim_step ConfigClockSource;;
  tim_step PWM_Init;;
  tim_step MasterConfigSynchronization;;
  tim_step PWM_ConfigChannel;;
  on_tim HAL_TIM_MspPostInit.
Definition tim_init : M world unit :=
  match cpu with STM32F765xx => tim9_init | STM32F103xx => tim3_init | STM32G0B1xx_ => tim15_init end.

Definition rhs_hal_speaker_init : M world unit :=
  w ← get;
  rhs_assert (bool_decide (rhs_hal_speaker_mutex w = None));;
  tim_init;;
  w ← get;
  q ← lift (rhs_mutex_alloc (sp_os w) (mutex_type_value RHSMutexTypeNormal));
  modify (fun w => mkSpeaker (sp_os w) (Some q) (htim_Period w) (sp_tim w)).

Definition rhs_hal_speaker_deinit : M world unit :=
  w ← get;
  rhs_assert (negb (bool_decide (rhs_hal_speaker_mutex w = None)));;
  lift (rhs_mutex_free (sp_os w) (rhs_hal_speaker_mutex w));;
  modify (fun w => mkSpeaker (sp_os w) None (htim_Period w) (sp_tim w)).

(** [(SystemCoreClock / htim.Init.Prescaler / frequency) - 1], limited to 2 to 65535. *)
Definition rhs_hal_speaker_calculate_autoreload (frequency : float) : outcome Z :=
  autoreload ← f32_to_u32
    (f32_sub (f32_div (f32_of_Z (SystemCoreClock / Prescaler cpu)) frequency) (f32_of_Z 1));
  Ret (if autoreload <? 2 then 2 else if 65535 <? autoreload then 65535 else autoreload).

Definition rhs_hal_speaker_calculate_compare (ARR : Z) (volume : float) : outcome Z :=
  let volume := if SFltb volume (f32_of_Z 0) then f32_of_Z 0 else volume in
  let volume := if SFltb (f32_of_Z 1) volume then f32_of_Z 1 else volume in
  let volume := f32_mul (f32_mul volume volume) volume in
  compare_value ← f32_to_u32 (f32_div (f32_mul volume (f32_of_Z ARR)) (f32_of_Z 2));
  Ret (if compare_value =? 0 then 1 else compare_value).

Definition rhs_hal_speaker_is_mine : M world bool := fun w =>
  if RHS_IS_IRQ_MODE (sp_os w) then Ret (true, w)
  else o ← rhs_mutex_get_owner (sp_os w) (rhs_hal_speaker_mutex w); Ret (o =? me, w).

Definition rhs_hal_speaker_acquire (timeout : Z) : M world bool :=
  w ← get;
  rhs_assert (negb (RHS_IS_IRQ_MODE (sp_os w)));;
  r ← on_speaker_mutex (fun s q => rhs_mutex_acquire s me q timeout);
  mret (bool_decide (r = RHSStatusOk)).

Definition rhs_hal_speaker_start (frequency volume : float) : M world unit :=
  period ← lift (rhs_hal_speaker_calculate_autoreload frequency);
  modify (fun w => mkSpeaker (sp_os w) (rhs_hal_speaker_mutex w) period (sp_tim w));;
  on_tim (set_ARR period);;
  w ← get;
  ccr ← lift (rhs_hal_speaker_calculate_compare (TIM_ARR (sp_tim w)) volume);
  on_tim (set_CCR (TIM_CHANNEL cpu) ccr);;
  on_tim (HAL_TIM_PWM_Start (TIM_CHANNEL cpu)).

Definition rhs_hal_speaker_stop : M world unit := on_tim (HAL_TIM_PWM_Stop (TIM_CHANNEL cpu)).

Definition rhs_hal_speaker_release : M world unit :=
  w ← get;
  rhs_assert (negb (RHS_IS_IRQ_MODE (sp_os w)));;
  b ← rhs_hal_speaker_is_mine;
  rhs_assert b;;
  rhs_hal_speaker_stop;;
  r ← on_speaker_mutex (fun s q => rhs_mutex_release s me q);
  rhs_assert (bool_decide (r = RHSStatusOk)).
End speaker.

(** ** Notifications *)

Inductive NotificationMessage :=
  | NotificationMessageTypeSoundOn (frequency volume : float)
  | NotificationMessageTypeSoundOff
  | NotificationMessageTypeDelay (length : Z)
  | NotificationMessageTypeDoNotReset.

(** *** notification_messages_notes.c

    The notes c, cs, d, ds, e, f, fs, g, gs, a, as, b of the octaves 0 to 8, in hundredths of
    a hertz, at full volume. *)

Definition note (centihertz : Z) : NotificationMessage := NotificationMessageTypeSoundOn (f32_lit centihertz) (f32_of_Z 1).

Definition message_click : NotificationMessage := note 100.
Definition notes_0 : list Z := [1635; 1732; 1835; 1945; 2060; 2183; 2312; 2450; 2596; 2750; 2914; 3087].
Definition notes_1 : list Z := [3270; 3465; 3671; 3889; 4120; 4365; 4625; 4900; 5191; 5500; 5827; 6174].
Definition notes_2 : list Z := [6541; 6930; 7342; 7778; 8241; 8731; 9250; 9800; 10383; 11000; 11654; 12347].
Definition notes_3 : list Z := [13081; 13859; 14683; 15556; 16481; 17461; 18500; 19600; 20765; 22000; 23308; 24694].
Definition notes_4 : list Z := [26163; 27718; 29366; 31113; 32963; 34923; 36999; 39200; 41530; 44000; 46616; 49388].
Definition notes_5 : list Z := [52325; 55437; 58733; 62225; 65926; 69846; 73999; 78399; 83061; 88000; 93233; 98777].
Definition notes_6 : list Z := [104650; 110873; 117466; 124451; 131851; 139691; 147998; 156798; 166122; 176000; 186466; 197553].
Definition notes_7 : list Z := [209300; 221746; 234932; 248902; 263702; 279383; 295996; 313596; 332244; 352000; 372931; 395107].
Definition notes_8 : list Z := [418601; 443492; 469864; 497803; 527404; 558765; 591991; 627193; 664488; 704000; 745862; 790213].
Definition all_notes : list Z :=
  notes_0 ++ notes_1 ++ notes_2 ++ notes_3 ++ notes_4 ++ notes_5 ++ notes_6 ++ notes_7 ++ notes_8.

Definition message_note (octave : list Z) (i : nat) : NotificationMessage := note (nth i octave 0).

(** *** notification_messages.c *)

Definition message_do_not_reset : NotificationMessage := NotificationMessageTypeDoNotReset.
Definition message_delay (ms : Z) : NotificationMessage := NotificationMessageTypeDelay ms.
Definition message_sound_off : NotificationMessage := NotificationMessageTypeSoundOff.

(** A sequence is an array of pointers, the last of them NULL. *)
Abbreviation NotificationSequence := (list (option NotificationMessage)).
Definition sequence (l : list NotificationMessage) : NotificationSequence := map Some l ++ [None].

Definition sequence_reset_sound : NotificationSequence := sequence [message_sound_off].

Definition sequence_success : NotificationSequence := sequence
  [message_note notes_5 0; message_delay 50; message_note notes_5 4; message_delay 50;
   message_note notes_5 7; message_delay 50; message_note notes_6 0; message_delay 50; message_sound_off].

Definition sequence_error : NotificationSequence := sequence
  [message_note notes_5 0; message_delay 100; message_sound_off; message_delay 100;
   message_note notes_5 0; message_delay 100; message_sound_off].

Definition sequence_imperial_march : NotificationSequence := sequence (
  let g4 := message_note notes_4 7 in let ds4 := message_note notes_4 3 in let as4 := message_note notes_4 10 in
  let d5 := message_note notes_5 2 in let ds5 := message_note notes_5 3 in let fs4 := message_note notes_4 6 in
  [g4; message_delay 500; message_sound_off; message_delay 50;
   g4; message_delay 500; message_sound_off; message_delay 50;
   g4; message_delay 500; ds4; message_delay 350; as4; message_delay 150;
   g4; message_delay 500; ds4; message_delay 350; as4; message_delay 150;
   g4; message_delay 1000;
   d5; message_delay 500; message_sound_off; message_delay 50;
   d5; message_delay 500; message_sound_off; message_delay 50;
   d5; message_delay 500; ds5; message_delay 350; as4; message_delay 150;
   fs4; message_delay 500; ds4; message_delay 350; as4; message_delay 150;
   g4; message_delay 1000;
   message_sound_off]).

(** *** notification_app.c *)

Definition RECORD_NOTIFY : string := "notify".
Definition NotificationLayerMessage : Z := 0.
(** [app_sequence] is the address of the array. *)
Record NotificationAppMessage := mkNotifyMessage { app_sequence : Z; app_type : Z }.

(** The service: its kernel state is the speaker's. *)
Record NotificationApp (S X T E Q : Type) := mkNotify {
  no_speaker : speaker S X T; no_queue : Q; no_records : @RHSRecord X E }.
Arguments mkNotify {S X T E Q}.
Arguments no_speaker {S X T E Q}.
Arguments no_queue {S X T E Q}.
Arguments no_records {S X T E Q}.

Section notification.
Context {S : Type} `{Scheduler S} {X : Type} `{FreeRTOSMutex X} {T : Type} `{TimHw T}.
Context {E : Type} `{EventGroup E} {Q : Type} `{FreeRTOSQueue Q}.
Context (cpu : speaker_cpu) (SystemCoreClock tick_rate me : Z).
Abbreviation world := (NotificationApp S X T E Q).

(** The memory at the address of a sequence. *)
Context (sequence_at : Z -> NotificationSequence).

Definition notification_sound_on (freq volume : float) : M (speaker S X T) unit :=
  b ← rhs_hal_speaker_is_mine me;
  b ← (if b : bool then mret true else rhs_hal_speaker_acquire me 30);
  if b : bool then rhs_hal_speaker_start cpu SystemCoreClock freq volume else mret tt.

Definition notification_sound_off : M (speaker S X T) unit :=
  b ← rhs_hal_speaker_is_mine me;
  if b : bool then rhs_hal_speaker_release cpu me else mret tt.

Definition notification_play (m : NotificationMessage) : M (speaker S X T) unit :=
  match m with
  | NotificationMessageTypeSoundOn frequency volume => notification_sound_on frequency volume
  | NotificationMessageTypeSoundOff => notification_sound_off
  | NotificationMessageTypeDelay length => on_speaker_os (rhs_delay_ms tick_rate length)
  | NotificationMessageTypeDoNotReset => mret tt
  end.

(** The messages up to NULL; an array without one is read past its end. *)
Fixpoint notification_process_notification_message (seq : NotificationSequence) : M (speaker S X T) unit :=
  match seq with
  | [] => fault
  | None :: _ => mret tt
  | Some m :: seq => notification_play m;; notification_process_notification_message seq
  end.

(** The bytes of a message in the queue, and what other tasks do while a call waits. *)
Context (to_bytes : NotificationAppMessage -> message) (of_bytes : message -> NotificationAppMessage).
Context (meanwhile : M world unit).

Definition on_speaker {A} (m : M (speaker S X T) A) : M world A := fun w =>
  '(a, s) ← m (no_speaker w); Ret (a, mkNotify s (no_queue w) (no_records w)).
Definition no_os (w : world) : S := sp_os (no_speaker w).

(** [rhs_assert(rhs_message_queue_put(app->queue, &m, RHSWaitForever) == RHSStatusOk)]; 0 is
    the NULL sequence. *)
Definition notification_message (seq : Z) : M world unit :=
  rhs_assert (negb (seq =? 0));;
  w ← get;
  (if uxQueueSpacesAvailable (no_queue w) =? 0 then meanwhile else mret tt);;
  w ← get;
  if uxQueueSpacesAvailable (no_queue w) =? 0 then hang else
  '(r, q) ← lift (rhs_message_queue_put (no_os w) (Some (no_queue w))
                    (Some (to_bytes (mkNotifyMessage seq NotificationLayerMessage))) RHSWaitForever);
  modify (fun w => mkNotify (no_speaker w) q (no_records w));;
  rhs_assert (bool_decide (r = RHSStatusOk)).

(** One round of the loop of [notification_srv]; [message] is its variable. *)
Definition notification_round (message : NotificationAppMessage) : M world NotificationAppMessage :=
  w ← get;
  (if uxQueueMessagesWaiting (no_queue w) =? 0 then meanwhile else mret tt);;
  w ← get;
  if uxQueueMessagesWaiting (no_queue w) =? 0 then hang else
  '(r, m, q) ← lift (rhs_message_queue_get (no_os w) (Some (no_queue w)) (Some (to_bytes message)) RHSWaitForever);
  modify (fun w => mkNotify (no_speaker w) q (no_records w));;
  rhs_assert (bool_decide (r = RHSStatusOk));;
  let message := match m with Some m => of_bytes m | None => message end in
  (if app_type message =? NotificationLayerMessage then
     on_speaker (notification_process_notification_message (sequence_at (app_sequence message)))
   else mret tt);;
  mret message.

(** The rounds never end; [fuel] of them. *)
Fixpoint notification_loop (fuel : nat) (message : NotificationAppMessage) : M world NotificationAppMessage :=
  match fuel with
  | O => mret message
  | Datatypes.S fuel => message ← notification_round message; notification_loop fuel message
  end.

(** Up to the loop; [app] and [sequence_success_ptr] are addresses, [header] is
    [sizeof(RHSMessageQueue)] and [size] the size of a message. *)
Definition notification_srv_start (app sequence_success_ptr header size : Z) : M world unit :=
  w ← get;
  '(_, q) ← lift (rhs_message_queue_alloc (no_os w) header 8 size);
  modify (fun w => mkNotify (no_speaker w) q (no_records w));;
  notification_message sequence_success_ptr;;
  on_speaker notification_sound_off;;
  w ← get;
  '(_, r) ← lift (rhs_record_create (no_os w) me (Some (no_records w)) RECORD_NOTIFY app);
  modify (fun w => mkNotify (no_speaker w) (no_queue w) r).
End notification.

(** ** The notes *)

(** Reference: the equal-tempered scale from C0 = 16.3515979 Hz, in which twelve steps make an
    octave: [c] hundredths of a hertz are the frequency of step [i] rounded to the nearest
    hundredth. Both sides are raised to the twelfth power, in units of 1/200000 of a hundredth. *)
Definition tempered (i : Z) (c : Z) : Prop :=
  (200000 * c - 100000) ^ 12 <= (327031958) ^ 12 * 2 ^ i <= (200000 * c + 100000) ^ 12.
#[global] Instance tempered_dec i c : Decision (tempered i c) := ltac:(unfold tempered; apply _).

Lemma all_notes_tempered :
  forallb (fun i => bool_decide (tempered (Z.of_nat i) (nth i all_notes 0))) (seq 0 108) = true.
Proof. vm_compute. reflexivity. Qed.

(** The frequency the timer makes from [arr], in units of 1/100 Hz, against [c]: the timer
    runs at 1 MHz, the core clock over [Prescaler + 1]. *)
Definition sounds_within (low high c arr : Z) : Prop :=
  low * c * (arr + 1) <= 1000 * 100000000 <= high * c * (arr + 1).
#[global] Instance sounds_within_dec l h c a : Decision (sounds_within l h c a) := ltac:(unfold sounds_within; apply _).

(** Per mille of the note's frequency. *)
Definition lowest (cpu : speaker_cpu) : Z :=
  match cpu with STM32F765xx => 995 | STM32F103xx => 986 | STM32G0B1xx_ => 984 end.
Definition highest (cpu : speaker_cpu) : Z :=
  match cpu with STM32F765xx => 1001 | STM32F103xx => 994 | STM32G0B1xx_ => 991 end.

Definition note_check (cpu : speaker_cpu) (c : Z) : bool :=
  match rhs_hal_speaker_calculate_autoreload cpu ((Prescaler cpu + 1) * 1000000) (f32_lit c) with
  | Ret arr => (2 <? arr) && (arr <? 65535) && bool_decide (sounds_within (lowest cpu) (highest cpu) c arr)
  | _ => false
  end.

Lemma all_notes_checked cpu : forallb (note_check cpu) all_notes = true.
Proof. destruct cpu; vm_compute; reflexivity. Qed.

(** The notes are the equal-tempered scale, each rounded to a hundredth of a hertz, and
    the speaker plays each of them within a quarter of a semitone, without reaching the limits
    of the timer: with the core clock at [Prescaler + 1] MHz, between 99.5 and 100.1 per cent of
    the frequency on the STM32F7, 98.6 and 99.4 on the STM32F1, 98.4 and 99.1 on the STM32G0:
    there, where the divisor of the clock is one more than the value the code divides by, every
    note is flat. *)
Theorem notes_in_tune cpu i :
  (i < 108)%nat ->
  let c := nth i all_notes 0 in
  tempered (Z.of_nat i) c /\
  exists arr, rhs_hal_speaker_calculate_autoreload cpu ((Prescaler cpu + 1) * 1000000) (f32_lit c) = Ret arr /\
    2 < arr < 65535 /\ sounds_within (lowest cpu) (highest cpu) c arr.
Proof.
  intros Hi c. split.
  - pose proof all_notes_tempered as Hall. rewrite forallb_forall in Hall.
    specialize (Hall i). rewrite bool_decide_eq_true in Hall. apply Hall, in_seq. lia.
  - pose proof (all_notes_checked cpu) as Hall. rewrite forallb_forall in Hall.
    assert (Hc : In c all_notes) by (apply nth_In; exact Hi). specialize (Hall c Hc). unfold note_check in Hall.
    destruct (rhs_hal_speaker_calculate_autoreload _ _ _) as [arr| | |]; try done. exists arr.
    apply andb_true_iff in Hall as [[H1%Z.ltb_lt H2%Z.ltb_lt]%andb_true_iff H3%bool_decide_eq_true]. done.
Qed.

(** ** What the timer does *)

(** [tone] is what the output plays: the period and the compare value, or nothing. *)
Class TimLaws (T : Type) `{TimHw T} := {
  tone : T -> option (Z * Z);
  arr_spec a t : 0 <= a < 65536 -> TIM_ARR (set_ARR a t) = a;
  start_spec ch a c t : 0 <= a < 65536 -> tone (HAL_TIM_PWM_Start ch (set_CCR ch c (set_ARR a t))) = Some (a, c);
  stop_spec ch t : tone (HAL_TIM_PWM_Stop ch t) = None
}.

Section correctness.
Context {S : Type} `{SchedulerLaws S} {X : Type} `{FreeRTOSMutexLaws X} {T : Type} `{TimLaws T}.
Context {E : Type} `{EventGroup E} {Q : Type} `{FreeRTOSQueueLaws Q}.
Context (cpu : speaker_cpu) (SystemCoreClock tick_rate me : Z) (Hme : me <> 0).
Context (delay_keeps : forall ms (s s' : S), rhs_delay_ms tick_rate ms s = Ret (tt, s') -> os_like s s').

(** The period and the compare value of a sound. *)
Definition sound_of (frequency volume : float) : outcome (Z * Z) :=
  arr ← rhs_hal_speaker_calculate_autoreload cpu SystemCoreClock frequency;
  ccr ← rhs_hal_speaker_calculate_compare arr volume;
  Ret (arr, ccr).

Definition playable (m : NotificationMessage) : Prop :=
  match m with NotificationMessageTypeSoundOn f v => exists t, sound_of f v = Ret t | _ => True end.

(** Specification: what is heard after a message, when [st] was heard before. *)
Definition heard (st : option (Z * Z)) (m : NotificationMessage) : option (Z * Z) :=
  match m with
  | NotificationMessageTypeSoundOn f v => match sound_of f v with Ret t => Some t | _ => None end
  | NotificationMessageTypeSoundOff => None
  | _ => st
  end.

(** The speaker belongs to the task while it plays, and to nobody when it is silent. *)
Record sounding (w : speaker S X T) (st : option (Z * Z)) : Prop := {
  so_task : RHS_IS_IRQ_MODE (sp_os w) = false;
  so_tone : tone (sp_tim w) = st;
  so_mutex : exists q, rhs_hal_speaker_mutex w = Some q /\ match st with Some _ => held_mutex me q | None => free_mutex q end
}.

Lemma is_mine_eq (w : speaker S X T) q : RHS_IS_IRQ_MODE (sp_os w) = false -> rhs_hal_speaker_mutex w = Some q ->
  rhs_hal_speaker_is_mine me w = Ret (owner q =? me, w).
Proof.
  intros Hi Hq. unfold rhs_hal_speaker_is_mine. rewrite Hi, Hq. unfold rhs_mutex_get_owner. rewrite Hi.
  by destruct (holder_spec q) as [-> _].
Qed.

Lemma autoreload_range f a : rhs_hal_speaker_calculate_autoreload cpu SystemCoreClock f = Ret a -> 2 <= a < 65536.
Proof.
  unfold rhs_hal_speaker_calculate_autoreload. destruct (f32_to_u32 _) as [v| | |]; try done. cbn [mbind outcome_bind].
  intros [= <-]. destruct (Z.ltb_spec v 2); [lia|]. destruct (Z.ltb_spec 65535 v); lia.
Qed.

(** Starting the timer with a sound the arithmetic is defined for. *)
Lemma start_eq f v t (w : speaker S X T) : sound_of f v = Ret t ->
  exists w', rhs_hal_speaker_start cpu SystemCoreClock f v w = Ret (tt, w') /\ tone (sp_tim w') = Some t /\
    sp_os w' = sp_os w /\ rhs_hal_speaker_mutex w' = rhs_hal_speaker_mutex w.
Proof.
  unfold sound_of. destruct (rhs_hal_speaker_calculate_autoreload cpu SystemCoreClock f) as [a| | |] eqn:Ea; try done.
  cbn [mbind outcome_bind]. destruct (rhs_hal_speaker_calculate_compare a v) as [c| | |] eqn:Ec; try done.
  intros [= <-]. pose proof (autoreload_range f a Ea) as Ha. unfold rhs_hal_speaker_start.
  rewrite (bind_eq _ _ w a w) by (unfold lift; by rewrite Ea).
  set (w1 := mkSpeaker (sp_os w) (rhs_hal_speaker_mutex w) a (set_ARR a (sp_tim w))).
  rewrite (bind_eq _ _ w tt (mkSpeaker (sp_os w) (rhs_hal_speaker_mutex w) a (sp_tim w))) by done.
  rewrite (bind_eq _ _ _ tt w1), (bind_eq _ _ w1 w1 w1) by done.
  rewrite (bind_eq _ _ w1 c w1) by (unfold lift, w1; simpl; rewrite arr_spec by lia; by rewrite Ec).
  rewrite (bind_eq _ _ w1 tt (mkSpeaker (sp_os w) (rhs_hal_speaker_mutex w) a (set_CCR (TIM_CHANNEL cpu) c (sp_tim w1)))) by done.
  eexists. split; [reflexivity|]. simpl. by rewrite start_spec by lia.
Qed.

Lemma sound_on_heard f v st (w : speaker S X T) : sounding w st -> playable (NotificationMessageTypeSoundOn f v) ->
  runs (notification_sound_on cpu SystemCoreClock me f v) w (fun _ w' =>
    sounding w' (heard st (NotificationMessageTypeSoundOn f v))).
Proof.
  intros [Hi Ht (q & Hq & Hm)] [t Es]. simpl. rewrite Es. unfold runs, notification_sound_on.
  rewrite (bind_eq _ _ _ _ _ (is_mine_eq w q Hi Hq)).
  assert (Hget : exists w1 q1, (if owner q =? me then mret true else rhs_hal_speaker_acquire me 30) w = Ret (true, w1) /\
    sp_os w1 = sp_os w /\ rhs_hal_speaker_mutex w1 = Some q1 /\ held_mutex me q1).
  { destruct st as [t0|].
    - destruct Hm as [Hty Ho]. rewrite Ho, Z.eqb_refl. by exists w, q.
    - destruct Hm as [Hty Ho]. rewrite Ho. destruct (Z.eqb_spec 0 me) as [|_]; [congruence|].
      destruct (acquire_free (sp_os w) me q 30 Hi Hme (conj Hty Ho)) as (q1 & Eq & Hq1).
      exists (mkSpeaker (sp_os w) (Some q1) (htim_Period w) (sp_tim w)), q1. split; [|done].
      unfold rhs_hal_speaker_acquire. rewrite (bind_eq _ _ w w w) by done. rewrite Hi. cbn [negb rhs_assert].
      rewrite (bind_eq _ _ w tt w) by done.
      rewrite (bind_eq _ _ w RHSStatusOk (mkSpeaker (sp_os w) (Some q1) (htim_Period w) (sp_tim w))); [done|].
      unfold on_speaker_mutex. rewrite Hq. by rewrite Eq. }
  destruct Hget as (w1 & q1 & E1 & Hos & Hq1 & Hh). rewrite (bind_eq _ _ _ _ _ E1).
  destruct (start_eq f v t w1 Es) as (w2 & E2 & Ht2 & Ho2 & Hm2). exists tt, w2. split; [exact E2|].
  split; [by rewrite Ho2, Hos|done|]. exists q1. by rewrite Hm2.
Qed.

Lemma sound_off_heard st (w : speaker S X T) : sounding w st ->
  runs (notification_sound_off cpu me) w (fun _ w' => sounding w' None).
Proof.
  intros [Hi Ht (q & Hq & Hm)]. unfold runs, notification_sound_off.
  rewrite (bind_eq _ _ _ _ _ (is_mine_eq w q Hi Hq)). destruct st as [t0|].
  - pose proof Hm as [Hty Ho]. rewrite Ho, Z.eqb_refl. unfold rhs_hal_speaker_release.
    rewrite (bind_eq _ _ w w w) by done. rewrite Hi. cbn [negb rhs_assert]. rewrite (bind_eq _ _ w tt w) by done.
    rewrite (bind_eq _ _ _ _ _ (is_mine_eq w q Hi Hq)), Ho, Z.eqb_refl. cbn [rhs_assert].
    rewrite (bind_eq _ _ w tt w) by done.
    set (w1 := mkSpeaker (sp_os w) (rhs_hal_speaker_mutex w) (htim_Period w) (HAL_TIM_PWM_Stop (TIM_CHANNEL cpu) (sp_tim w))).
    rewrite (bind_eq _ _ w tt w1) by done.
    destruct (release_held (sp_os w) me q Hi Hme Hm) as (q1 & Eq & Hq1).
    rewrite (bind_eq _ _ w1 RHSStatusOk (mkSpeaker (sp_os w) (Some q1) (htim_Period w) (sp_tim w1))).
    2: { unfold on_speaker_mutex, w1. cbn [sp_os rhs_hal_speaker_mutex]. rewrite Hq. by rewrite Eq. }
    eexists tt, _. split; [reflexivity|]. split; [done|apply stop_spec|]. by exists q1.
  - destruct Hm as [Hty Ho]. rewrite Ho. destruct (Z.eqb_spec 0 me) as [|_]; [congruence|].
    exists tt, w. split; [done|]. split; [done|done|]. by exists q.
Qed.

Abbreviation process := (notification_process_notification_message cpu SystemCoreClock tick_rate me).

Lemma play_heard m st (w : speaker S X T) : sounding w st -> playable m ->
  runs (notification_play cpu SystemCoreClock tick_rate me m) w (fun _ w' => sounding w' (heard st m)).
Proof.
  intros Hs Hp. destruct m as [f v| |ms|].
  - by apply sound_on_heard.
  - by eapply sound_off_heard.
  - destruct (delay_ms_returns tick_rate ms (sp_os w)) as [s' Es]. pose proof (delay_keeps _ _ _ Es) as Hk.
    unfold runs, notification_play, on_speaker_os. rewrite Es. eexists tt, _. split; [done|].
    destruct Hs as [Hi Ht Hm]. split; [by rewrite <- Hi; apply os_like_irq|done|done].
  - by apply runs_ret.
Qed.

Lemma process_heard l : forall st (w : speaker S X T), sounding w st -> Forall playable l ->
  runs (process (sequence l)) w (fun _ w' => sounding w' (fold_left heard l st)).
Proof.
  induction l as [|m l IH]; intros st w Hs Hp; [by apply runs_ret|].
  apply Forall_cons in Hp as [Hm Hp]. apply runs_bind.
  eapply runs_mono; [by apply play_heard|]. intros [] w1 Hs1. by apply IH.
Qed.

(** A sequence that ends with the sound off leaves the speaker silent and to others. *)
Lemma heard_released l st : last l = Some message_sound_off -> fold_left heard l st = None.
Proof. intros (l' & ->)%last_Some. by rewrite fold_left_app. Qed.

(** While another task keeps the speaker, no sound of a sequence reaches it. *)
Lemma process_busy o l : forall (w : speaker S X T) q, o <> 0 -> o <> me ->
  (forall q q', mutex_elapse q q' -> owner q' = owner q /\ ucQueueType q' = ucQueueType q) ->
  RHS_IS_IRQ_MODE (sp_os w) = false -> rhs_hal_speaker_mutex w = Some q ->
  ucQueueType q = queueQUEUE_TYPE_MUTEX -> owner q = o ->
  runs (process (sequence l)) w (fun _ w' => sp_tim w' = sp_tim w).
Proof.
  induction l as [|m l IH]; intros w q Ho0 Hom Hel Hi Hq Hty Ho; [by apply runs_ret|].
  apply runs_bind.
  assert (Hstep : runs (notification_play cpu SystemCoreClock tick_rate me m) w (fun _ w' =>
    sp_tim w' = sp_tim w /\ RHS_IS_IRQ_MODE (sp_os w') = false /\
    exists q', rhs_hal_speaker_mutex w' = Some q' /\ ucQueueType q' = queueQUEUE_TYPE_MUTEX /\ owner q' = o)).
  { destruct m as [f v| |ms|]; cbn [notification_play].
    - unfold runs, notification_sound_on. rewrite (bind_eq _ _ _ _ _ (is_mine_eq w q Hi Hq)), Ho.
      destruct (Z.eqb_spec o me) as [|_]; [done|]. unfold rhs_hal_speaker_acquire. rewrite bind_assoc.
      rewrite (bind_eq _ _ w w w) by done. rewrite Hi. cbn [negb rhs_assert]. rewrite bind_assoc, (bind_eq _ _ w tt w) by done.
      rewrite bind_assoc. pose proof (take_normal q me 30 Hme) as Tk. destruct (mutex_xSemaphoreTake q me 30) as [r q'] eqn:Et.
      destruct Tk as [Ty Tk]. rewrite Ho in Tk. destruct (Z.eqb_spec o 0) as [|_]; [done|]. cbn [Z.eqb] in Tk.
      destruct Tk as (q1 & Hq1 & [[-> ->]|(_ & Hfree & _)]); destruct (Hel _ _ Hq1) as [Eo Ety]; [|congruence].
      set (w1 := mkSpeaker (sp_os w) (Some q1) (htim_Period w) (sp_tim w)).
      rewrite (bind_eq _ _ w RHSStatusErrorTimeout w1).
      2: { unfold on_speaker_mutex, rhs_mutex_acquire. rewrite Hq, Hi, Hty. simpl. by rewrite Et. }
      eexists tt, w1. split; [done|]. split; [done|]. split; [done|]. exists q1. split; [done|]. split; congruence.
    - unfold runs, notification_sound_off. rewrite (bind_eq _ _ _ _ _ (is_mine_eq w q Hi Hq)), Ho.
      destruct (Z.eqb_spec o me) as [|_]; [done|]. exists tt, w. split; [done|]. by split; [|split; [|exists q]].
    - destruct (delay_ms_returns tick_rate ms (sp_os w)) as [s' Es]. pose proof (delay_keeps _ _ _ Es) as Hk.
      unfold runs, on_speaker_os. rewrite Es. eexists tt, _. split; [done|]. split; [done|].
      split; [by rewrite <- Hi; apply os_like_irq|]. by exists q.
    - apply runs_ret. by split; [|split; [|exists q]]. }
  eapply runs_mono; [exact Hstep|]. intros [] w1 (Et & Hi1 & q1 & Hq1 & Hty1 & Ho1).
  eapply runs_mono; [by eapply IH|]. intros [] w2 ->. done.
Qed.

Context (sequence_at : Z -> NotificationSequence) (to_bytes : NotificationAppMessage -> message)
        (of_bytes : message -> NotificationAppMessage) (meanwhile : M (NotificationApp S X T E Q) unit).

(** The service plays the oldest queued sequence to its end: what is heard then is what the
    last sound message of the sequence asks for, the speaker's mutex is held exactly while
    something is heard, and the sequences behind stay in the queue. After a sequence that ends
    with the sound off the speaker is silent and free. *)
Theorem notification_round_plays locals (w : NotificationApp S X T E Q) st m l address msgs :
  contents (no_queue w) = m :: l -> rhs_kernel_is_irq_or_masked (no_os w) = false ->
  of_bytes m = mkNotifyMessage address NotificationLayerMessage -> sequence_at address = sequence msgs ->
  Forall playable msgs -> sounding (no_speaker w) st ->
  runs (notification_round cpu SystemCoreClock tick_rate me sequence_at to_bytes of_bytes meanwhile locals) w (fun m' w' =>
    m' = of_bytes m /\ contents (no_queue w') = l /\ sounding (no_speaker w') (fold_left heard msgs st) /\
    (last msgs = Some message_sound_off -> tone (sp_tim (no_speaker w')) = None /\
       exists q, rhs_hal_speaker_mutex (no_speaker w') = Some q /\ free_mutex q)).
Proof.
  intros Hc Hi Hm Hs Hp Hst. destruct (waiting_spec (no_queue w)) as (_ & Hw & _ & _). rewrite Hc in Hw. simpl length in Hw.
  assert (Hwait : (uxQueueMessagesWaiting (no_queue w) =? 0) = false) by (apply Z.eqb_neq; lia).
  unfold runs, notification_round. rewrite (bind_eq _ _ w w w) by done. rewrite Hwait.
  rewrite (bind_eq _ _ w tt w), (bind_eq _ _ w w w) by done. rewrite Hwait.
  destruct (MessageQueue.get_spec (no_os w) (no_queue w) (to_bytes locals) RHSWaitForever m l ltac:(by right) Hc)
    as (q & Eq & Hq & _).
  rewrite (bind_eq _ _ w (RHSStatusOk, Some m, q) w) by (unfold lift; by rewrite Eq).
  set (w1 := mkNotify (no_speaker w) q (no_records w)). rewrite (bind_eq _ _ w tt w1), (bind_eq _ _ w1 tt w1) by done.
  rewrite Hm. cbn [app_type app_sequence]. rewrite Z.eqb_refl, Hs.
  destruct (process_heard msgs st (no_speaker w) Hst Hp) as ([] & s' & Ep & Hs').
  rewrite (bind_eq _ _ w1 tt (mkNotify s' q (no_records w))) by (unfold on_speaker, w1; cbn [no_speaker]; by rewrite Ep).
  eexists _, _. split; [reflexivity|]. split; [done|]. split; [done|]. split; [exact Hs'|]. intros Hl.
  destruct Hs' as [_ Ht Hmx]. rewrite (heard_released msgs st Hl) in Ht, Hmx. split; [exact Ht|exact Hmx].
Qed.
End correctness.

(** ** A timer to instantiate the theorems with *)

Record simple_timer := mkTimer { tm_arr : Z; tm_ccr : Z; tm_on : bool }.
#[global] Instance simple_tim : TimHw simple_timer := {
  HAL_TIM_Init_step _ t := (true, t);
  HAL_TIM_MspPostInit t := t;
  TIM_ARR := tm_arr;
  set_ARR a t := mkTimer a (tm_ccr t) (tm_on t);
  set_CCR _ c t := mkTimer (tm_arr t) c (tm_on t);
  HAL_TIM_PWM_Start _ t := mkTimer (tm_arr t) (tm_ccr t) true;
  HAL_TIM_PWM_Stop _ t := mkTimer (tm_arr t) (tm_ccr t) false
}.
#[global] Program Instance simple_tim_laws : TimLaws simple_timer := {
  tone t := if tm_on t then Some (tm_arr t, tm_ccr t) else None
}.
Next Obligation. done. Qed.
Next Obligation. done. Qed.
Next Obligation. done. Qed.

Theorem notes_in_tune_witness :
  tempered 57 44000 /\ exists arr,
    rhs_hal_speaker_calculate_autoreload STM32F103xx 72000000 (f32_lit 44000) = Ret arr /\
    2 < arr < 65535 /\ sounds_within 986 994 44000 arr.
Proof. apply (notes_in_tune STM32F103xx 57). apply Nat.ltb_lt. reflexivity. Defined.

Definition notify_bytes (m : NotificationAppMessage) : message := [app_sequence m; app_type m].
Definition notify_message (l : message) : NotificationAppMessage := mkNotifyMessage (hd 0 l) (nth 1 l 0).
Definition flash_sequences (a : Z) : NotificationSequence := if a =? 8 then sequence_success else sequence_reset_sound.
Definition success_messages : list NotificationMessage :=
  [message_note notes_5 0; message_delay 50; message_note notes_5 4; message_delay 50;
   message_note notes_5 7; message_delay 50; message_note notes_6 0; message_delay 50; message_sound_off].
Definition notify_state : NotificationApp os_state plain_mutex simple_timer group fifo :=
  mkNotify (mkSpeaker a_task (Some (mkMutex queueQUEUE_TYPE_MUTEX 0 0)) 376 (mkTimer 376 0 false))
    (mkFifo [[8; 0]; [9; 0]] 8 8) (mkRecord (mkMutex queueQUEUE_TYPE_MUTEX 0 0) ∅).

Lemma simple_delay ms (s s' : os_state) : rhs_delay_ms 1000 ms s = Ret (tt, s') -> os_like s s'.
Proof.
  unfold rhs_delay_ms, rhs_delay_tick, rhs_delay_us, configASSERT. munfold. intros E.
  repeat match type of E with context [if ?x then _ else _] => destruct x; try discriminate end;
    by injection E as <-.
Qed.

Theorem notification_round_plays_witness :
  runs (notification_round STM32G0B1xx_ 64000000 1000 7 flash_sequences notify_bytes notify_message (mret tt)
      (mkNotifyMessage 0 0)) notify_state (fun m' w' =>
    m' = mkNotifyMessage 8 0 /\ contents (no_queue w') = [[9; 0]] /\ tone (sp_tim (no_speaker w')) = None).
Proof.
  assert (Hc0 : contents (no_queue notify_state) = [[8; 0]; [9; 0]]) by reflexivity.
  destruct (notification_round_plays STM32G0B1xx_ 64000000 1000 7 ltac:(lia) simple_delay flash_sequences notify_bytes
    notify_message (mret tt) (mkNotifyMessage 0 0) notify_state None [8; 0] [[9; 0]] 8 success_messages
    Hc0 eq_refl eq_refl eq_refl) as (m' & w' & E1 & Hm & Hc & _ & Hl).
  - repeat (constructor; [simpl; try exact I; eexists; vm_compute; reflexivity|]). constructor.
  - split; [reflexivity|reflexivity|]. by eexists.
  - exists m', w'. split; [exact E1|]. split; [exact Hm|]. split; [exact Hc|]. by apply Hl.
Defined.
