(* ===== verification/UsbNet.v ===== *)
(** * USB network back ends (hal/rhs_hal_usb/tud_net_dispatch, net/usb_eth_bridge, net/usb_cdc_net)

    TinyUSB calls three functions of the application for its network interface; the dispatch
    table routes them to the bridge, which forwards Ethernet frames between the USB host and
    the physical Ethernet, or to the network interface of mongoose. TinyUSB, mongoose and its
    Ethernet driver are parameters; [tud_task] acts on the whole state, since it calls back. *)

From S2P Require Import Prelude Kernel NetUtils Net.

(** Functions a table can hold. *)
Inductive tud_recv_fn := bridge_recv | cdc_net_recv.
Inductive tud_init_fn := bridge_init | cdc_net_init.
Inductive tud_xmit_fn := bridge_xmit | cdc_net_xmit.

(** [None] is a NULL function; [ops_context] is 0 for NULL. *)
Record TudNetOps := mkOps {
  ops_recv : option tud_recv_fn; ops_init : option tud_init_fn; ops_xmit : option tud_xmit_fn; ops_context : Z }.

(** The bridge: [eth_up] is [eth_ifp.state >= MG_TCPIP_STATE_UP]; [drv_mdc_cr] and [drv_phy_addr]
    are the fields of [eth_drv_data]. *)
Record UsbEthBridge := mkBridge {
  drv_mdc_cr : Z; drv_phy_addr : Z; prev_usb_intf : Z; finish : bool; eth_up : bool }.

Record UsbEthBridgePhyConfig := mkBridgePhy { bridge_phy_addr : Z; bridge_mdc_cr : Z }.

(** TinyUSB, the Ethernet driver with its receive queue, and the receive queue of the USB
    interface of mongoose. Frames are lists of bytes. *)
Class UsbNetHw (U : Type) := {
  tud_ready : U -> bool;
  tud_inited : U -> bool;
  tud_connected : U -> bool;
  tud_network_can_xmit : Z -> U -> bool;
  (** What TinyUSB does with the bytes [tud_network_xmit_cb] gave it. *)
  tud_send : list Z -> U -> U;
  tud_network_recv_renew : U -> U;
  driver_tx : list Z -> U -> U;
  driver_poll : bool -> U -> bool * U;
  mg_millis : U -> Z;
  (** The oldest frame of the driver's receive queue, and its removal. *)
  mg_queue_next : U -> option (list Z);
  mg_queue_del : U -> U;
  (** [mg_tcpip_qwrite] on the USB interface. *)
  mg_tcpip_qwrite : list Z -> U -> U
}.

(** [un_bridges] are the bridges that are allocated, by address. *)
Record usb_net (S U : Type) := mkUsbNet {
  un_os : S; un_hw : U; s_ops : option TudNetOps; tud_network_mac_address : list Z; un_bridges : gmap Z UsbEthBridge }.
Arguments mkUsbNet {S U}.
Arguments un_os {S U}.
Arguments un_hw {S U}.
Arguments s_ops {S U}.
Arguments tud_network_mac_address {S U}.
Arguments un_bridges {S U}.

Section usb_net.
Context {S : Type} `{Scheduler S} {U : Type} `{UsbNetHw U}.
Abbreviation world := (usb_net S U).

Definition on_hw {A} (f : U -> A * U) : M world A := fun w =>
  let '(a, h) := f (un_hw w) in Ret (a, mkUsbNet (un_os w) h (s_ops w) (tud_network_mac_address w) (un_bridges w)).
Definition on_hw_ (f : U -> U) : M world unit := on_hw (fun h => (tt, f h)).
Definition hw_gets {A} (f : U -> A) : M world A := gets (fun w => f (un_hw w)).
Definition set_ops (o : option TudNetOps) : M world unit := modify (fun w =>
  mkUsbNet (un_os w) (un_hw w) o (tud_network_mac_address w) (un_bridges w)).
Definition set_bridges (l : gmap Z UsbEthBridge) : M world unit := modify (fun w =>
  mkUsbNet (un_os w) (un_hw w) (s_ops w) (tud_network_mac_address w) l).
Definition bridge_at (b : Z) : M world UsbEthBridge := fun w =>
  match un_bridges w !! b with Some x => Ret (x, w) | None => Fault end.
Definition update_bridge (b : Z) (f : UsbEthBridge -> UsbEthBridge) : M world unit :=
  x ← bridge_at b; w ← get; set_bridges (<[b := f x]> (un_bridges w)).

(** ** tud_net_dispatch.c *)

Definition is_null {A} (x : option A) : bool := if x is None then true else false.

Definition tud_net_dispatch_set (ops : option TudNetOps) : M world unit :=
  w ← get;
  rhs_assert (is_null (s_ops w));;
  rhs_assert (match ops with
    | None => true
    | Some o => negb (is_null (ops_recv o)) && negb (is_null (ops_init o)) && negb (is_null (ops_xmit o))
    end);;
  set_ops ops.

Definition tud_net_dispatch_clear : M world unit := set_ops None.

(** ** Callbacks of the bridge and of the network interface *)

Definition bridge_recv_cb (buf : list Z) (context : Z) : M world bool :=
  up ← (if context =? 0 then mret false else b ← bridge_at context; mret (eth_up b));
  (if up : bool then on_hw_ (driver_tx buf) else mret tt);;
  on_hw_ tud_network_recv_renew;;
  mret true.

Definition cdc_net_recv_cb (buf : list Z) (context : Z) : M world bool :=
  rhs_assert (negb (context =? 0));;
  on_hw_ (mg_tcpip_qwrite buf);;
  on_hw_ tud_network_recv_renew;;
  mret true.

(** The bytes copied to TinyUSB: [arg] of [ref]. *)
Definition xmit_copy (ref : list Z) (arg : Z) : M world (list Z) :=
  if Z.of_nat (length ref) <? arg then fault else mret (take (Z.to_nat arg) ref).

Definition run_recv (f : tud_recv_fn) (buf : list Z) (context : Z) : M world bool :=
  match f with bridge_recv => bridge_recv_cb buf context | cdc_net_recv => cdc_net_recv_cb buf context end.
Definition run_xmit (f : tud_xmit_fn) (ref : list Z) (arg context : Z) : M world (list Z) :=
  match f with bridge_xmit => xmit_copy ref arg | cdc_net_xmit => xmit_copy ref arg end.

Definition tud_network_recv_cb (buf : list Z) : M world bool :=
  w ← get;
  match s_ops w with
  | Some o => match ops_recv o with Some f => run_recv f buf (ops_context o) | None => mret false end
  | None => mret false
  end.
(** Both functions for [init] do nothing. *)
Definition run_init (f : tud_init_fn) (context : Z) : M world unit := mret tt.
Definition tud_network_init_cb : M world unit :=
  w ← get;
  match s_ops w with
  | Some o => match ops_init o with Some f => run_init f (ops_context o) | None => mret tt end
  | None => mret tt
  end.
Definition tud_network_xmit_cb (ref : list Z) (arg : Z) : M world (list Z) :=
  w ← get;
  match s_ops w with
  | Some o => match ops_xmit o with Some f => run_xmit f ref arg (ops_context o) | None => mret [] end
  | None => mret []
  end.

(** TinyUSB asks for the bytes of a packet when it is queued. *)
Definition tud_network_xmit (ref : list Z) (arg : Z) : M world unit :=
  bytes ← tud_network_xmit_cb ref arg; on_hw_ (tud_send bytes).

(** ** The bridge's thread *)

Context (tud_task : M world unit).

(** [while (!tud_network_can_xmit(len)) tud_task();] *)
Fixpoint wait_can_xmit (fuel : nat) (len : Z) : M world unit :=
  match fuel with
  | O => hang
  | Datatypes.S fuel =>
      b ← hw_gets (tud_network_can_xmit len);
      if b : bool then mret tt else tud_task;; wait_can_xmit fuel len
  end.

(** [while ((len = mg_queue_next(&b->eth_ifp.recv_queue, &frame)) > 0)] *)
Fixpoint drain_loop (fuel : nat) (spins : nat) : M world unit :=
  match fuel with
  | O => hang
  | Datatypes.S fuel =>
      frame ← hw_gets mg_queue_next;
      match frame with
      | None => mret tt
      | Some frame =>
          let len := u16 (Z.of_nat (length frame)) in
          wait_can_xmit spins len;;
          tud_network_xmit frame len;;
          on_hw_ mg_queue_del;;
          drain_loop fuel spins
      end
  end.

Definition set_eth_up (up : bool) (b : UsbEthBridge) : UsbEthBridge :=
  mkBridge (drv_mdc_cr b) (drv_phy_addr b) (prev_usb_intf b) (finish b) up.

(** [rhs_delay_tick(0)] *)
Definition bridge_yield : M world unit := fun w =>
  '(_, s) ← rhs_delay_tick 0 (un_os w);
  Ret (tt, mkUsbNet s (un_hw w) (s_ops w) (tud_network_mac_address w) (un_bridges w)).

(** One turn of the loop of [bridge_worker]: whether it goes on, and [last_1s]. *)
Definition bridge_round (fuel spins : nat) (b last_1s : Z) : M world (bool * Z) :=
  now ← hw_gets mg_millis;
  let tick_1s := 1000 <=? u64 (now - last_1s) in
  let last_1s := if tick_1s then now else last_1s in
  _ ← (bridge_at b : M world UsbEthBridge);
  up ← on_hw (driver_poll tick_1s);
  (if tick_1s then update_bridge b (set_eth_up up) else mret tt);;
  drain_loop fuel spins;;
  tud_task;;
  x ← bridge_at b;
  if finish x then mret (false, last_1s) else bridge_yield;; mret (true, last_1s).

(** ** Start and stop *)

Definition bridge_ops (b : Z) : TudNetOps := mkOps (Some bridge_recv) (Some bridge_init) (Some bridge_xmit) b.
Definition cdc_net_ops (net : Z) : TudNetOps := mkOps (Some cdc_net_recv) (Some cdc_net_init) (Some cdc_net_xmit) net.

(** [tud_network_mac_address[5] = 0;], in both back ends. *)
Definition clear_last_mac_byte : M world unit := fun w =>
  l ← aset (tud_network_mac_address w) 5 0;
  Ret (tt, mkUsbNet (un_os w) (un_hw w) (s_ops w) l (un_bridges w)).

(** The calls of the start and the stop: [malloc] is the address of the next object, [mg_init] are
    [mg_mgr_init], [mg_tcpip_init] and the filter of the MAC, [start_thread] allocates and starts
    the thread, [join] waits for it, [free_parts] frees it and what mongoose has. *)
Section life.
Context (malloc : world -> Z) (rhs_hal_eth_init mg_init rhs_hal_usb_reinit tusb_init start_thread : M world unit)
  (get_interface : U -> Z) (set_interface : Z -> M world unit) (bridge_usb_desc MG_DRIVER_MDC_CR MG_TCPIP_PHY_ADDR : Z)
  (join free_parts tusb_deinit rhs_hal_eth_deinit : M world unit).

Definition usb_eth_bridge_start (phy_config : option UsbEthBridgePhyConfig) : M world Z :=
  b ← gets malloc;
  rhs_assert (negb (b =? 0));;
  w ← get; set_bridges (<[b := mkBridge 0 0 0 false false]> (un_bridges w));;
  rhs_hal_eth_init;;
  let mdc := if phy_config is Some c then bridge_mdc_cr c else MG_DRIVER_MDC_CR in
  let phy := if phy_config is Some c then bridge_phy_addr c else MG_TCPIP_PHY_ADDR in
  update_bridge b (fun x => mkBridge mdc phy (prev_usb_intf x) (finish x) (eth_up x));;
  mg_init;;
  clear_last_mac_byte;;
  prev ← hw_gets get_interface;
  update_bridge b (fun x => mkBridge (drv_mdc_cr x) (drv_phy_addr x) prev (finish x) (eth_up x));;
  set_interface bridge_usb_desc;;
  rhs_hal_usb_reinit;;
  tusb_init;;
  tud_net_dispatch_set (Some (bridge_ops b));;
  start_thread;;
  mret b.

Definition usb_eth_bridge_free (bridge : Z) : M world unit :=
  free_parts;; _ ← (bridge_at bridge : M world UsbEthBridge);
  w ← get; set_bridges (delete bridge (un_bridges w)).

Definition usb_eth_bridge_stop (bridge : Z) : M world unit :=
  rhs_assert (negb (bridge =? 0));;
  tud_net_dispatch_clear;;
  update_bridge bridge (fun x => mkBridge (drv_mdc_cr x) (drv_phy_addr x) (prev_usb_intf x) true (eth_up x));;
  join;;
  usb_eth_bridge_free bridge;;
  tusb_deinit;;
  x ← bridge_at bridge;
  set_interface (prev_usb_intf x);;
  rhs_hal_eth_deinit.
End life.

(** ** The network interface over USB *)

Definition usb_tx (spins : nat) (buf : list Z) : M world Z :=
  ready ← hw_gets tud_ready;
  if negb ready then mret 0
  else
    let len := Z.of_nat (length buf) in
    wait_can_xmit spins (u16 len);;
    tud_network_xmit buf (u16 len);;
    mret len.

Definition usb_poll (s1 : bool) : M world bool :=
  tud_task;;
  if s1 then hw_gets (fun h => tud_inited h && tud_ready h && tud_connected h) else mret false.
End usb_net.

(** [cdc_net_init_tcpip] sets the interface up from the configuration. [enable_dhcp_server] and
    [recv_queue_size] are fields of the interface that only this back end sets. *)
Record CdcIf := mkCdcIf { enable_dhcp_server : bool; recv_queue_size : Z }.

Section cdc.
Context `{MongooseUrl} (CDC_NET_IP_STRING CDC_NET_MASK_STRING CDC_NET_GW_STRING uid : list Z).

Definition cdc_net_init_tcpip (c : NetConfig) : outcome (NetConfig * mg_tcpip_if * CdcIf) :=
  ip ← default_field (cfg_ip c) CDC_NET_IP_STRING;
  mask ← default_field (cfg_mask c) CDC_NET_MASK_STRING;
  gateway ← default_field (cfg_gateway c) CDC_NET_GW_STRING;
  let mac := if forallb (Z.eqb 0) (cfg_mac c) then GENERATE_LOCALLY_ADMINISTERED_MAC uid else cfg_mac c in
  vip ← asserted_address ip;
  vmask ← asserted_address mask;
  vgw ← asserted_address gateway;
  Ret (mkNetConfig ip mask gateway mac,
       mkIf false vip vmask vgw (take sizeof_pointer mac ++ repeat 0 (6 - sizeof_pointer)), mkCdcIf true 4096).

(** The configuration of [usb_cdc_net_alloc]: [None] for NULL, [fresh] from [malloc]. *)
Definition usb_cdc_net_config (config : option NetConfig) (fresh : NetConfig) : outcome NetConfig :=
  match config with
  | Some c => Ret c
  | None =>
      ip ← strcpy (cfg_ip fresh) CDC_NET_IP_STRING;
      mask ← strcpy (cfg_mask fresh) CDC_NET_MASK_STRING;
      gateway ← strcpy (cfg_gateway fresh) CDC_NET_GW_STRING;
      Ret (mkNetConfig ip mask gateway (GENERATE_LOCALLY_ADMINISTERED_MAC uid))
  end.
Definition usb_cdc_net_setup (config : option NetConfig) (fresh : NetConfig)
    : outcome (NetConfig * mg_tcpip_if * CdcIf) :=
  c ← usb_cdc_net_config config fresh; cdc_net_init_tcpip c.
End cdc.

(** ** What the back ends rely on

    [lan] are the frames of the receive queue, oldest first; [received] every frame the driver
    put there; [sent] the frames handed to TinyUSB; [backlog] counts the packets TinyUSB has
    to get rid of before it takes another; [coming] bounds the frames still to arrive. *)
Class UsbNetView (U : Type) := {
  lan : U -> list (list Z);
  received : U -> list (list Z);
  sent : U -> list (list Z);
  backlog : U -> nat;
  coming : U -> nat
}.

(** The frames an Ethernet driver queues. *)
Definition frame_ok (f : list Z) : Prop := 0 < Z.of_nat (length f) < 65536.

(** Frames arrive: the receive interrupt of the driver queues them. *)
Definition arrives `{UsbNetView U} (u u' : U) : Prop :=
  exists more, lan u' = lan u ++ more /\ received u' = received u ++ more /\ Forall frame_ok more /\
    (length more + coming u' <= coming u)%nat /\ sent u' = sent u.

(** Of the Ethernet driver and of TinyUSB. *)
Class UsbNetLaws (U : Type) `{UsbNetHw U} `{UsbNetView U} := {
  mg_queue_next_spec u : mg_queue_next u = head (lan u);
  mg_queue_del_spec u : lan (mg_queue_del u) = tail (lan u) /\ received (mg_queue_del u) = received u /\
    sent (mg_queue_del u) = sent u /\ coming (mg_queue_del u) = coming u;
  tud_send_spec f u : sent (tud_send f u) = sent u ++ [f] /\ lan (tud_send f u) = lan u /\
    received (tud_send f u) = received u /\ coming (tud_send f u) = coming u;
  driver_poll_spec s1 u : arrives u (snd (driver_poll s1 u));
  can_xmit_spec len u : backlog u = O -> tud_network_can_xmit len u = true;
  max_backlog : nat;
  backlog_spec u : (backlog u <= max_backlog)%nat
}.

Section correctness.
Context {S : Type} `{Scheduler S} {U : Type} `{UsbNetLaws U}.
Abbreviation world := (usb_net S U).
Implicit Types w : world.

(** The states of the scheduler in which the thread runs. *)
Context (awake : S -> Prop) (Hyield : forall s, awake s -> exists s', rhs_delay_tick 0 s = Ret (tt, s') /\ awake s').
(** [tud_task] sends what is queued, calls the callbacks, and leaves the rest alone. *)
Context (tud_task : M world unit).
Definition same_back_end w w' : Prop :=
  s_ops w' = s_ops w /\ un_bridges w' = un_bridges w /\ tud_network_mac_address w' = tud_network_mac_address w.
(** The callback for a frame of the host can run: what the table points to exists. *)
Definition usable w : Prop :=
  match s_ops w with
  | Some o =>
      match ops_recv o with
      | Some bridge_recv => is_Some (un_bridges w !! ops_context o)
      | Some cdc_net_recv => ops_context o <> 0
      | None => True
      end
  | None => True
  end.
Context (Htask : forall w, awake (un_os w) -> usable w -> exists w', tud_task w = Ret (tt, w') /\ awake (un_os w') /\
  same_back_end w w' /\ arrives (un_hw w) (un_hw w') /\
  (backlog (un_hw w') <= Nat.pred (backlog (un_hw w)))%nat).

(** Bridge [b] is the back end, in state [x]. *)
Definition serving (b : Z) (x : UsbEthBridge) w : Prop :=
  awake (un_os w) /\ s_ops w = Some (bridge_ops b) /\ un_bridges w !! b = Some x.

Lemma usable_same w w' : same_back_end w w' -> usable w -> usable w'.
Proof. unfold usable. intros (-> & -> & _). done. Qed.
Lemma serving_usable b x w : serving b x w -> usable w.
Proof. intros (_ & Ho & Hb). unfold usable. rewrite Ho. cbn. by eexists. Qed.

Lemma arrives_refl (u : U) : arrives u u.
Proof. exists []. rewrite !app_nil_r. repeat split; [constructor|cbn; lia]. Qed.
Lemma arrives_trans (u1 u2 u3 : U) : arrives u1 u2 -> arrives u2 u3 -> arrives u1 u3.
Proof.
  intros (m1 & L1 & R1 & F1 & C1 & S1) (m2 & L2 & R2 & F2 & C2 & S2). exists (m1 ++ m2).
  rewrite !app_assoc, length_app. repeat split; try congruence; [by apply Forall_app|lia].
Qed.

Lemma serving_same b x w w' : awake (un_os w') -> same_back_end w w' -> serving b x w -> serving b x w'.
Proof. intros Ha (E1 & E2 & _) (_ & E3 & E4). split; [done|]. by rewrite E1, E2. Qed.

Lemma same_back_end_trans w1 w2 w3 : same_back_end w1 w2 -> same_back_end w2 w3 -> same_back_end w1 w3.
Proof. unfold same_back_end. intuition congruence. Qed.

Lemma wait_can_xmit_returns fuel len w : awake (un_os w) -> usable w -> (backlog (un_hw w) < fuel)%nat ->
  exists w', wait_can_xmit tud_task fuel len w = Ret (tt, w') /\ awake (un_os w') /\ same_back_end w w' /\
    arrives (un_hw w) (un_hw w').
Proof.
  revert w. induction fuel as [|fuel IH]; intros w Ha Hu Hf; [lia|]. cbn [wait_can_xmit].
  unfold hw_gets. rewrite (bind_eq _ _ _ _ _ eq_refl).
  destruct (tud_network_can_xmit len (un_hw w)) eqn:E.
  - exists w. split; [done|]. split; [done|]. split; [done|]. apply arrives_refl.
  - destruct (Htask w Ha Hu) as (w1 & E1 & Ha1 & Hsame & Harr & Hb).
    rewrite (bind_eq _ _ _ _ _ E1).
    assert (backlog (un_hw w) <> O) by (intros E0; by rewrite (can_xmit_spec len _ E0) in E).
    destruct (IH w1 Ha1) as (w2 & E2 & Ha2 & Hsame2 & Harr2); [by eapply usable_same|lia|].
    exists w2. split; [done|]. split; [done|]. split; [by eapply same_back_end_trans|by eapply arrives_trans].
Qed.

(** TinyUSB gets the frame, byte for byte, when a back end is set. *)
Lemma tud_network_xmit_spec frame o f w : frame_ok frame -> s_ops w = Some o -> ops_xmit o = Some f ->
  tud_network_xmit frame (u16 (Z.of_nat (length frame))) w =
  Ret (tt, mkUsbNet (un_os w) (tud_send frame (un_hw w)) (s_ops w) (tud_network_mac_address w) (un_bridges w)).
Proof.
  intros Hf Ho Hx. unfold frame_ok in Hf. unfold tud_network_xmit, tud_network_xmit_cb. munfold. rewrite Ho, Hx.
  assert (Hcopy : run_xmit f frame (u16 (Z.of_nat (length frame))) (ops_context o) w = Ret (frame, w)).
  { destruct f; cbn [run_xmit]; unfold xmit_copy; rewrite u16_small, Z.ltb_irrefl, Nat2Z.id by lia;
      by rewrite take_ge by lia. }
  rewrite Hcopy. unfold on_hw_, on_hw. by rewrite Ho.
Qed.

Lemma drain_loop_correct fuel spins b x w :
  serving b x w -> Forall frame_ok (lan (un_hw w)) ->
  (length (lan (un_hw w)) + coming (un_hw w) < fuel)%nat -> (max_backlog < spins)%nat ->
  exists more w', drain_loop tud_task fuel spins w = Ret (tt, w') /\ serving b x w' /\ lan (un_hw w') = [] /\
    received (un_hw w') = received (un_hw w) ++ more /\
    sent (un_hw w') = sent (un_hw w) ++ lan (un_hw w) ++ more.
Proof.
  revert w. induction fuel as [|fuel IH]; intros w Hw Hok Hf Hs; [lia|]. cbn [drain_loop].
  unfold hw_gets. rewrite (bind_eq _ _ _ _ _ eq_refl), mg_queue_next_spec.
  destruct (lan (un_hw w)) as [|f l] eqn:El; cbn [head].
  - exists [], w. rewrite !app_nil_r. split; [done|]. by rewrite El.
  - apply Forall_cons in Hok as [Hfok Hlok].
    destruct (wait_can_xmit_returns spins (u16 (Z.of_nat (length f))) w) as
      (w1 & E1 & Ha1 & Hsame1 & more1 & L1 & R1 & F1 & C1 & S1); [apply Hw|by eapply serving_usable|..].
    { pose proof (backlog_spec (un_hw w)). lia. }
    rewrite (bind_eq _ _ _ _ _ E1).
    pose proof (serving_same _ _ _ _ Ha1 Hsame1 Hw) as (_ & Hops1 & Hb1).
    rewrite (bind_eq _ _ _ _ _ (tud_network_xmit_spec f _ bridge_xmit w1 Hfok Hops1 eq_refl)).
    set (w2 := mkUsbNet _ _ _ _ _).
    destruct (mg_queue_del_spec (un_hw w2)) as (L3 & R3 & S3 & C3).
    destruct (tud_send_spec f (un_hw w1)) as (S2 & L2 & R2 & C2).
    set (w3 := mkUsbNet (un_os w2) (mg_queue_del (un_hw w2)) (s_ops w2) (tud_network_mac_address w2) (un_bridges w2)).
    assert (E3 : on_hw_ mg_queue_del w2 = Ret (tt, w3)) by done.
    rewrite (bind_eq _ _ _ _ _ E3). cbn [un_hw w2] in L3, R3, S3, C3.
    rewrite L2, L1, El in L3. cbn [app tail] in L3.
    destruct (IH w3) as (more & w' & E' & Hw' & L' & R' & S'); [done|..|done|].
    { cbn [un_hw w3 w2]. rewrite L3. by apply Forall_app. }
    { cbn [un_hw w3 w2]. rewrite L3, C3, C2, length_app. cbn [length] in Hf. lia. }
    exists (more1 ++ more), w'. split; [exact E'|]. split; [done|]. split; [done|].
    cbn [un_hw w3 w2] in R', S'. rewrite R', S', R3, S3, R2, S2, R1, S1, L3. by rewrite <- !app_assoc.
Qed.

Lemma update_link b x up (tick : bool) w : un_bridges w !! b = Some x ->
  exists w', (if tick then update_bridge b (set_eth_up up) else mret tt : M world unit) w = Ret (tt, w') /\
    un_hw w' = un_hw w /\ un_os w' = un_os w /\ s_ops w' = s_ops w /\
    un_bridges w' !! b = Some (if tick then set_eth_up up x else x).
Proof.
  intros Hb. destruct tick; [|by exists w]. unfold update_bridge, bridge_at. munfold. rewrite Hb.
  eexists. split; [reflexivity|]. do 3 (split; [done|]). cbn. by rewrite lookup_insert_eq.
Qed.


(** mongoose's frame is handed to TinyUSB once and byte for byte when USB is ready, however
    long TinyUSB has no room, and the driver says how many bytes it sent; when USB is not ready
    it sends nothing and says so. Once the back end is cleared, an empty frame is sent instead,
    and the driver still says that it sent all of it. *)
Theorem usb_tx_correct spins buf w : awake (un_os w) -> usable w -> frame_ok buf -> (max_backlog < spins)%nat ->
  (tud_ready (un_hw w) = false -> usb_tx tud_task spins buf w = Ret (0, w)) /\
  (tud_ready (un_hw w) = true -> (forall o, s_ops w = Some o -> ops_xmit o <> None) ->
   exists w', usb_tx tud_task spins buf w = Ret (Z.of_nat (length buf), w') /\ same_back_end w w' /\
     sent (un_hw w') = sent (un_hw w) ++ [if s_ops w is Some _ then buf else []] /\
     exists more, lan (un_hw w') = lan (un_hw w) ++ more /\ received (un_hw w') = received (un_hw w) ++ more).
Proof.
  intros Ha Hu Hok Hs. unfold usb_tx, hw_gets, gets. rewrite (bind_eq _ _ _ _ _ eq_refl).
  split; intros ->; [done|]. intros Hx. cbn [negb].
  destruct (wait_can_xmit_returns spins (u16 (Z.of_nat (length buf))) w Ha Hu) as
    (w1 & E1 & Ha1 & Hsame1 & more & L1 & R1 & F1 & C1 & S1).
  { pose proof (backlog_spec (un_hw w)). lia. }
  rewrite (bind_eq _ _ _ _ _ E1). destruct Hsame1 as (Ho1 & Hb1 & Hm1).
  set (bytes := if s_ops w is Some _ then buf else []).
  assert (E2 : tud_network_xmit buf (u16 (Z.of_nat (length buf))) w1 =
    Ret (tt, mkUsbNet (un_os w1) (tud_send bytes (un_hw w1)) (s_ops w1) (tud_network_mac_address w1) (un_bridges w1))).
  { subst bytes. destruct (s_ops w) as [o|] eqn:Eo.
    - destruct (ops_xmit o) as [f|] eqn:Ef; [|by destruct (Hx o)]. by eapply tud_network_xmit_spec.
    - unfold tud_network_xmit, tud_network_xmit_cb. munfold. by destruct w1; cbn in Ho1 |- *; rewrite Ho1. }
  rewrite (bind_eq _ _ _ _ _ E2). destruct (tud_send_spec bytes (un_hw w1)) as (S2 & L2 & R2 & _).
  eexists. split; [reflexivity|]. cbn [un_hw]. split; [done|]. rewrite S2, S1, L2, R2. split; [done|]. by exists more.
Qed.
End correctness.

(** ** The other behaviours of the back ends *)



Section back_ends.
Context {S : Type} `{Scheduler S} {U : Type} `{UsbNetLaws U}.
Abbreviation world := (usb_net S U).
Implicit Types w : world.

Definition with_hw (f : U -> U) w : world :=
  mkUsbNet (un_os w) (f (un_hw w)) (s_ops w) (tud_network_mac_address w) (un_bridges w).

(** The back end that [tud_net_dispatch_set] registers, and no other, gets the frames of the
    host, until it is cleared: the bridge passes them on to the Ethernet when that is up and
    drops them when it is not, the network interface queues them for mongoose; TinyUSB may
    receive the next frame then. Without a back end a frame is refused. A second back end, no
    back end while there is one, and an incomplete table stop the system. *)
Theorem net_dispatch_routes w o : s_ops w = None ->
  tud_net_dispatch_set (Some o) w =
    (if is_null (ops_recv o) || is_null (ops_init o) || is_null (ops_xmit o) then Crash "Assert"
     else Ret (tt, mkUsbNet (un_os w) (un_hw w) (Some o) (tud_network_mac_address w) (un_bridges w))) /\
  (forall buf, tud_network_recv_cb buf w = Ret (false, w)) /\
  forall w1, s_ops w1 = Some o ->
    (forall o2, tud_net_dispatch_set o2 w1 = Crash "Assert") /\
    (exists w2, tud_net_dispatch_clear w1 = Ret (tt, w2) /\ s_ops w2 = None /\ un_hw w2 = un_hw w1) /\
    (forall buf b x, o = bridge_ops b -> b <> 0 -> un_bridges w1 !! b = Some x ->
       tud_network_recv_cb buf w1 =
       Ret (true, with_hw (fun h => tud_network_recv_renew (if eth_up x then driver_tx buf h else h)) w1)) /\
    (forall buf net, o = cdc_net_ops net ->
       tud_network_recv_cb buf w1 =
       if net =? 0 then Crash "Assert"
       else Ret (true, with_hw (fun h => tud_network_recv_renew (mg_tcpip_qwrite buf h)) w1)).
Proof.
  intros Hn. split; [|split].
  - unfold tud_net_dispatch_set. munfold. rewrite Hn.
    by destruct o as [[|] [|] [|] ?].
  - intros buf. unfold tud_network_recv_cb. munfold. by rewrite Hn.
  - intros w1 Ho. split; [|split; [|split]].
    + intros o2. unfold tud_net_dispatch_set. munfold. by rewrite Ho.
    + by eexists.
    + intros buf b x -> Hb Hx. unfold tud_network_recv_cb. munfold. rewrite Ho.
      cbn [ops_recv bridge_ops run_recv ops_context]. unfold bridge_recv_cb, bridge_at. munfold.
      destruct (Z.eqb_spec b 0); [done|]. rewrite Hx. unfold with_hw. rewrite Ho. destruct (eth_up x); unfold on_hw_, on_hw; by rewrite ?Ho.
    + intros buf net ->. unfold tud_network_recv_cb. munfold. rewrite Ho.
      cbn [ops_recv cdc_net_ops run_recv ops_context]. unfold cdc_net_recv_cb. munfold.
      destruct (net =? 0); [done|]. destruct w1. cbn in Ho. by subst.
Qed.

(** A host that takes no more packets. *)
Section unplugged.
Context (unplugged : U -> Prop) (Hfull : forall u len, unplugged u -> tud_network_can_xmit len u = false)
  (Hpoll : forall u s1, unplugged u -> unplugged (snd (driver_poll s1 u))).
Context (tud_task : M world unit)
  (Htask : forall w, unplugged (un_hw w) -> exists w', tud_task w = Ret (tt, w') /\ unplugged (un_hw w')).

Lemma wait_can_xmit_hangs fuel len w : unplugged (un_hw w) -> wait_can_xmit tud_task fuel len w = Hang.
Proof.
  revert w. induction fuel as [|fuel IH]; intros w Hw; [done|]. cbn [wait_can_xmit].
  unfold hw_gets, gets. rewrite (bind_eq _ _ _ _ _ eq_refl), Hfull by done.
  destruct (Htask w Hw) as (w1 & E1 & Hw1). rewrite (bind_eq _ _ _ _ _ E1). by apply IH.
Qed.

Lemma drain_loop_hangs fuel spins w : unplugged (un_hw w) -> lan (un_hw w) <> [] -> drain_loop tud_task fuel spins w = Hang.
Proof.
  intros Hu Hl. destruct fuel as [|fuel]; [done|]. cbn [drain_loop].
  unfold hw_gets, gets. rewrite (bind_eq _ _ _ _ _ eq_refl), mg_queue_next_spec.
  destruct (lan (un_hw w)) as [|f l]; [done|]. cbn [head]. cbv [mbind M_bind]. by rewrite wait_can_xmit_hangs.
Qed.

(** When the host takes no more packets, for example unplugged, and a frame of the LAN waits,
    the bridge's thread does not come back from its turn, whether it is to finish or not:
    [usb_eth_bridge_stop] then waits for it for ever. *)
Theorem bridge_stuck_without_host fuel spins b x last_1s w :
  unplugged (un_hw w) -> lan (un_hw w) <> [] -> un_bridges w !! b = Some x ->
  bridge_round tud_task fuel spins b last_1s w = Hang.
Proof.
  intros Hu Hl Hb. unfold bridge_round, hw_gets, gets. rewrite (bind_eq _ _ _ _ _ eq_refl).
  set (tick := 1000 <=? _).
  assert (bridge_at b w = Ret (x, w)) as Eb by (unfold bridge_at; by rewrite Hb).
  rewrite (bind_eq _ _ _ _ _ Eb).
  destruct (driver_poll_spec tick (un_hw w)) as (m1 & L1 & _). specialize (Hpoll _ tick Hu).
  destruct (driver_poll tick (un_hw w)) as [up h1] eqn:Ep. cbn [fst snd] in *.
  set (w1 := mkUsbNet (un_os w) h1 (s_ops w) (tud_network_mac_address w) (un_bridges w)).
  assert (E1 : on_hw (driver_poll tick) w = Ret (up, w1)) by (unfold on_hw; by rewrite Ep).
  rewrite (bind_eq _ _ _ _ _ E1).
  destruct (update_link b x up tick w1 Hb) as (w2 & E2 & Eh2 & _). rewrite (bind_eq _ _ _ _ _ E2).
  cbn [un_hw w1] in Eh2. cbv [mbind M_bind]. rewrite drain_loop_hangs; [done|by rewrite Eh2|].
  rewrite Eh2, L1. by destruct (lan (un_hw w)).
Qed.
End unplugged.

(** Start and stop of the bridge: [malloc] gives a fresh address, the other calls return. *)
Section life.
Context (malloc : world -> Z) (Hmalloc : forall w, malloc w <> 0 /\ un_bridges w !! malloc w = None).
Definition keeps_back_ends (m : M world unit) : Prop := forall w, exists w', m w = Ret (tt, w') /\ same_back_end w w'.
Context (rhs_hal_eth_init mg_init rhs_hal_usb_reinit tusb_init start_thread : M world unit) (get_interface : U -> Z)
  (set_interface : Z -> M world unit) (bridge_usb_desc MG_DRIVER_MDC_CR MG_TCPIP_PHY_ADDR : Z).
Context (Heth : keeps_back_ends rhs_hal_eth_init) (Hmg : keeps_back_ends mg_init) (Husb : keeps_back_ends rhs_hal_usb_reinit)
  (Htusb : keeps_back_ends tusb_init) (Hthread : keeps_back_ends start_thread)
  (Hset : forall i, keeps_back_ends (set_interface i)).
Context (Heth_intf : forall w w', rhs_hal_eth_init w = Ret (tt, w') -> get_interface (un_hw w') = get_interface (un_hw w))
  (Hmg_intf : forall w w', mg_init w = Ret (tt, w') -> get_interface (un_hw w') = get_interface (un_hw w)).
Context (join free_parts tusb_deinit rhs_hal_eth_deinit : M world unit) (Hfree : keeps_back_ends free_parts)
  (Hdeinit : keeps_back_ends tusb_deinit)
  (Hjoin : forall w, exists w', join w = Ret (tt, w') /\ dom (un_bridges w') = dom (un_bridges w)).

Abbreviation start := (usb_eth_bridge_start malloc rhs_hal_eth_init mg_init rhs_hal_usb_reinit tusb_init start_thread
  get_interface set_interface bridge_usb_desc MG_DRIVER_MDC_CR MG_TCPIP_PHY_ADDR).
Abbreviation stop := (usb_eth_bridge_stop set_interface join free_parts tusb_deinit rhs_hal_eth_deinit).

Lemma update_bridge_spec b f x w : un_bridges w !! b = Some x ->
  update_bridge b f w = Ret (tt, mkUsbNet (un_os w) (un_hw w) (s_ops w) (tud_network_mac_address w) (<[b := f x]> (un_bridges w))).
Proof. intros Hb. unfold update_bridge, bridge_at. munfold. by rewrite Hb. Qed.

(** What the start has done when it comes to register the back end. *)
Lemma start_prepares phy w : length (tud_network_mac_address w) = 6%nat ->
  let b := malloc w in
  exists w', s_ops w' = s_ops w /\
    un_bridges w' = <[b := mkBridge (if phy is Some c then bridge_mdc_cr c else MG_DRIVER_MDC_CR)
      (if phy is Some c then bridge_phy_addr c else MG_TCPIP_PHY_ADDR) (get_interface (un_hw w)) false false]> (un_bridges w) /\
    tud_network_mac_address w' = <[5%nat := 0]> (tud_network_mac_address w) /\
    start phy w = (tud_net_dispatch_set (Some (bridge_ops b));; start_thread;; mret b) w'.
Proof.
  intros Hmac b. destruct (Hmalloc w) as [Hb0 Hb]. fold b in Hb0, Hb. unfold usb_eth_bridge_start.
  rewrite (bind_eq _ _ _ _ _ eq_refl). fold b. destruct (Z.eqb_spec b 0); [done|]. cbn [negb rhs_assert].
  rewrite M_bind_ret, (bind_eq _ _ _ _ _ eq_refl), (bind_eq _ _ _ _ _ eq_refl). set (w1 := mkUsbNet _ _ _ _ _).
  destruct (Heth w1) as (w2 & E2 & O2 & B2 & M2). rewrite (bind_eq _ _ _ _ _ E2).
  apply Heth_intf in E2. cbn [w1 un_bridges un_hw s_ops tud_network_mac_address] in B2, E2, O2, M2. clearbody w1.
  erewrite (bind_eq _ _ w2) by (apply update_bridge_spec; by rewrite B2, lookup_insert_eq). set (w3 := mkUsbNet _ _ _ _ _).
  destruct (Hmg w3) as (w4 & E4 & O4 & B4 & M4). rewrite (bind_eq _ _ _ _ _ E4). apply Hmg_intf in E4.
  cbn [w3 un_bridges un_hw s_ops tud_network_mac_address] in B4, E4, O4, M4. clearbody w3.
  rewrite B2, insert_insert_eq in B4. rewrite M2 in M4. rewrite O2 in O4. rewrite E2 in E4.
  set (w5 := mkUsbNet (un_os w4) (un_hw w4) (s_ops w4) (<[5%nat := 0]> (tud_network_mac_address w4)) (un_bridges w4)).
  assert (E5 : clear_last_mac_byte w4 = Ret (tt, w5)).
  { unfold clear_last_mac_byte. rewrite aset_in by (rewrite M4, Hmac; lia). done. }
  rewrite (bind_eq _ _ _ _ _ E5), (bind_eq _ _ w5 _ _ eq_refl).
  erewrite (bind_eq _ _ w5) by (apply update_bridge_spec; cbn [w5 un_bridges]; by rewrite B4, lookup_insert_eq).
  cbn [w5 un_bridges un_os un_hw s_ops tud_network_mac_address]. set (w6 := mkUsbNet _ _ _ _ _).
  destruct (Hset bridge_usb_desc w6) as (w7 & E7 & S7). rewrite (bind_eq _ _ _ _ _ E7).
  destruct (Husb w7) as (w8 & E8 & S8). rewrite (bind_eq _ _ _ _ _ E8).
  destruct (Htusb w8) as (w9 & E9 & S9). rewrite (bind_eq _ _ _ _ _ E9).
  exists w9. pose proof (same_back_end_trans _ _ _ (same_back_end_trans _ _ _ S7 S8) S9) as (O9 & B9 & M9).
  rewrite O9, B9, M9. cbn [w6 un_bridges s_ops tud_network_mac_address]. rewrite O4, B4, M4, E4, insert_insert_eq. done.
Qed.

(** The life of the bridge. Its start registers it as the back end, with the interface that
    USB had before to go back to and the PHY of the configuration or its default; with another
    back end running it stops the system, after it has set everything up. Its stop never
    succeeds: it reads the interface to go back to from the bridge it has freed. *)
Theorem usb_eth_bridge_life phy w : length (tud_network_mac_address w) = 6%nat ->
  let b := malloc w in
  (s_ops w = None -> exists w', start phy w = Ret (b, w') /\ s_ops w' = Some (bridge_ops b) /\
     un_bridges w' = <[b := mkBridge (if phy is Some c then bridge_mdc_cr c else MG_DRIVER_MDC_CR)
       (if phy is Some c then bridge_phy_addr c else MG_TCPIP_PHY_ADDR) (get_interface (un_hw w)) false false]> (un_bridges w) /\
     tud_network_mac_address w' = <[5%nat := 0]> (tud_network_mac_address w)) /\
  (s_ops w <> None -> start phy w = Crash "Assert") /\
  (forall c x, c <> 0 -> un_bridges w !! c = Some x -> stop c w = Fault) /\ stop 0 w = Crash "Assert".
Proof.
  intros Hmac b. destruct (start_prepares phy w Hmac) as (w1 & O1 & B1 & M1 & E1). fold b in B1, E1.
  split; [|split; [|split; [|done]]].
  - intros Hn. rewrite E1. clear E1. unfold tud_net_dispatch_set at 1. rewrite bind_assoc, (bind_eq _ _ _ _ _ eq_refl).
    rewrite O1, Hn. cbn [is_null bridge_ops ops_recv ops_init ops_xmit negb andb rhs_assert]. munfold.
    unfold set_ops, modify. cbv beta iota. edestruct Hthread as (w2 & -> & O2 & B2 & M2). exists w2. rewrite O2, B2, M2. by cbn [s_ops un_bridges tud_network_mac_address].
  - intros Hn. rewrite E1. unfold tud_net_dispatch_set. munfold. rewrite O1. by destruct (s_ops w).
  - intros c x Hc Hx. unfold usb_eth_bridge_stop. destruct (Z.eqb_spec c 0); [done|]. cbn [negb rhs_assert].
    rewrite M_bind_ret, (bind_eq _ _ _ _ _ eq_refl). erewrite bind_eq by by apply update_bridge_spec.
    set (w2 := mkUsbNet _ _ _ _ _). destruct (Hjoin w2) as (w3 & E3 & D3). rewrite (bind_eq _ _ _ _ _ E3).
    destruct (Hfree w3) as (w4 & E4 & _ & B4 & _).
    assert (is_Some (un_bridges w4 !! c)) as [y Hy].
    { apply elem_of_dom. rewrite B4, D3. cbn [w2 un_bridges]. rewrite dom_insert. set_solver. }
    unfold usb_eth_bridge_free. rewrite bind_assoc, (bind_eq _ _ _ _ _ E4), bind_assoc.
    assert (bridge_at c w4 = Ret (y, w4)) as E5 by (unfold bridge_at; by rewrite Hy).
    rewrite (bind_eq _ _ _ _ _ E5), bind_assoc, !(bind_eq _ _ _ _ _ eq_refl). set (w5 := mkUsbNet _ _ _ _ _).
    destruct (Hdeinit w5) as (w6 & E6 & _ & B6 & _). rewrite (bind_eq _ _ _ _ _ E6).
    unfold bridge_at. cbv [mbind M_bind]. rewrite B6. cbn [w5 un_bridges]. by rewrite lookup_delete_eq.
Qed.
End life.
End back_ends.

(** The network interface over USB starts with the addresses and the hardware address that the
    Ethernet interface would take from the same configuration and build strings, the truncated
    hardware address included; it differs by its DHCP server and its receive queue. *)
Theorem usb_cdc_net_setup_like_eth `{MongooseUrl} ip mask gw uid mdc phy phy_config config fresh :
  usb_cdc_net_setup ip mask gw uid config fresh =
  ('(c, i, _) ← eth_net_alloc ip mask gw uid mdc phy config phy_config fresh; Ret (c, i, mkCdcIf true 4096)).
Proof.
  assert (E : forall c, cdc_net_init_tcpip ip mask gw uid c =
    ('(c, i, _) ← eth_net_init_tcpip ip mask gw uid mdc phy c phy_config; Ret (c, i, mkCdcIf true 4096))).
  { intros c. unfold cdc_net_init_tcpip, eth_net_init_tcpip.
    cbv [mbind outcome_bind]. by repeat case_match. }
  unfold usb_cdc_net_setup, usb_cdc_net_config, eth_net_alloc, eth_net_alloc_config.
  destruct config as [c|]; [apply E|].
  unfold strcpy. destruct (sprintf_into (cfg_ip fresh) ip); [|done..].
  destruct (sprintf_into (cfg_mask fresh) mask); [|done..]. destruct (sprintf_into (cfg_gateway fresh) gw); [|done..]. apply E.
Qed.

(** ** Hardware to instantiate the theorems with *)

(** The link takes one frame of [h_coming] at a poll or a [tud_task]; the host sends [h_host]
    and, when it is [plugged], takes a packet at a [tud_task]. *)
Record usb_hw := mkUsbHw {
  h_lan : list (list Z); h_received : list (list Z); h_sent : list (list Z); h_to_lan : list (list Z);
  h_backlog : nat; h_coming : list (list Z); h_host : list (list Z); h_ready : bool }.

Definition h_busy (u : usb_hw) : nat := Nat.min 2 (h_backlog u).
Definition h_arrive (u : usb_hw) : usb_hw :=
  match h_coming u with
  | [] => u
  | f :: l =>
      let ok := (0 <? Z.of_nat (length f)) && (Z.of_nat (length f) <? 65536) in
      mkUsbHw (if ok then h_lan u ++ [f] else h_lan u) (if ok then h_received u ++ [f] else h_received u)
        (h_sent u) (h_to_lan u) (h_backlog u) l (h_host u) (h_ready u)
  end.
Definition h_step (plugged : bool) (u : usb_hw) : usb_hw :=
  let u := h_arrive u in
  mkUsbHw (h_lan u) (h_received u) (h_sent u) (h_to_lan u)
    (if plugged then Nat.pred (h_busy u) else h_backlog u) (h_coming u) (tail (h_host u)) (h_ready u).

#[global] Instance plain_usb : UsbNetHw usb_hw := {
  tud_ready := h_ready;
  tud_inited _ := true;
  tud_connected := h_ready;
  tud_network_can_xmit _ u := Nat.eqb (h_busy u) 0;
  tud_send f u := mkUsbHw (h_lan u) (h_received u) (h_sent u ++ [f]) (h_to_lan u) 2 (h_coming u) (h_host u) (h_ready u);
  tud_network_recv_renew u := u;
  driver_tx f u := mkUsbHw (h_lan u) (h_received u) (h_sent u) (h_to_lan u ++ [f]) (h_backlog u) (h_coming u) (h_host u) (h_ready u);
  driver_poll _ u := (true, h_arrive u);
  mg_millis _ := 1500;
  mg_queue_next u := head (h_lan u);
  mg_queue_del u := mkUsbHw (tail (h_lan u)) (h_received u) (h_sent u) (h_to_lan u) (h_backlog u) (h_coming u) (h_host u) (h_ready u);
  mg_tcpip_qwrite f u := mkUsbHw (h_lan u) (h_received u) (h_sent u) (h_to_lan u) (h_backlog u) (h_coming u) (h_host u) (h_ready u)
}.
#[global] Instance plain_usb_view : UsbNetView usb_hw := {
  lan := h_lan; received := h_received; sent := h_sent; backlog := h_busy; coming u := length (h_coming u) }.

Lemma h_arrive_arrives u : arrives u (h_arrive u).
Proof.
  unfold h_arrive. destruct (h_coming u) as [|f l] eqn:E; [apply arrives_refl|].
  set (ok := (0 <? _) && _). assert (Hf : ok = true -> frame_ok f) by (intros [H1%Z.ltb_lt H2%Z.ltb_lt]%andb_true_iff; by split).
  exists (if ok then [f] else []). unfold lan, received, sent, coming. cbn. rewrite E. clearbody ok.
  destruct ok; rewrite ?app_nil_r; do 2 (split; [done|]); (split; [auto|]); split; cbn; [lia|done|lia|done].
Qed.

#[global] Program Instance plain_usb_laws : UsbNetLaws usb_hw := { max_backlog := 2 }.
Next Obligation. done. Qed.
Next Obligation. done. Qed.
Next Obligation. done. Qed.
Next Obligation. intros s1 u. apply h_arrive_arrives. Qed.
Next Obligation. intros len u E. cbn in *. by rewrite E. Qed.
Next Obligation. intros u. apply Nat.le_min_l. Qed.

Abbreviation plain_world := (usb_net os_state usb_hw).

(** A packet goes to the host, and one comes. *)
Definition plain_tud_task (plugged : bool) : M plain_world unit :=
  host ← hw_gets h_host;
  on_hw_ (h_step plugged);;
  match host with [] => mret tt | f :: _ => _ ← tud_network_recv_cb f; mret tt end.

Lemma yield_keeps_task s : task_runs s -> exists s', rhs_delay_tick 0 s = Ret (tt, s') /\ task_runs s'.
Proof.
  intros Hs. exists s. split; [|done]. unfold rhs_delay_tick, configASSERT. munfold.
  by destruct (task_not_isr s (proj1 Hs)) as [_ ->].
Qed.

Lemma recv_cb_returns f (w : plain_world) : usable w -> exists r g, tud_network_recv_cb f w = Ret (r, with_hw g w) /\
  h_lan (g (un_hw w)) = h_lan (un_hw w) /\ h_received (g (un_hw w)) = h_received (un_hw w) /\
  h_sent (g (un_hw w)) = h_sent (un_hw w) /\ h_backlog (g (un_hw w)) = h_backlog (un_hw w) /\
  h_coming (g (un_hw w)) = h_coming (un_hw w) /\ h_ready (g (un_hw w)) = h_ready (un_hw w).
Proof.
  destruct w as [os hw o mac l]. unfold usable, tud_network_recv_cb, get. cbn [s_ops un_bridges un_hw].
  destruct o as [o|]; [|intros _; exists false, id; by repeat split].
  destruct (ops_recv o) as [[|]|] eqn:Er; [intros [x Hx]|intros Hc|intros _; exists false, id; unfold tud_network_recv_cb].
  - rewrite (bind_eq _ _ _ _ _ eq_refl). cbn [s_ops]. rewrite Er. cbn [run_recv]. unfold bridge_recv_cb, bridge_at. munfold.
    destruct (ops_context o =? 0); [|cbn [un_bridges]; rewrite Hx; destruct (eth_up x)].
    + exists true, id. by repeat split.
    + exists true, (driver_tx f). by repeat split.
    + exists true, id. by repeat split.
  - exists true, (mg_tcpip_qwrite f). rewrite (bind_eq _ _ _ _ _ eq_refl). cbn [s_ops]. rewrite Er.
    cbn [run_recv]. unfold cdc_net_recv_cb. munfold. destruct (Z.eqb_spec (ops_context o) 0); by repeat split.
  - rewrite (bind_eq _ _ _ _ _ eq_refl). cbn [s_ops]. rewrite Er. by repeat split.
Qed.

Lemma plain_tud_task_returns plugged (w : plain_world) : task_runs (un_os w) -> usable w ->
  exists w', plain_tud_task plugged w = Ret (tt, w') /\ task_runs (un_os w') /\ same_back_end w w' /\
    arrives (un_hw w) (un_hw w') /\
    if plugged then (backlog (un_hw w') <= Nat.pred (backlog (un_hw w)))%nat
    else h_backlog (un_hw w') = h_backlog (un_hw w).
Proof.
  intros Hos Hu. unfold plain_tud_task, hw_gets, gets. rewrite (bind_eq _ _ _ _ _ eq_refl).
  set (w1 := with_hw (h_step plugged) w). assert (E1 : on_hw_ (h_step plugged) w = Ret (tt, w1)) by done.
  rewrite (bind_eq _ _ _ _ _ E1). pose proof (h_arrive_arrives (un_hw w)) as Harr.
  assert (Hb : h_backlog (h_arrive (un_hw w)) = h_backlog (un_hw w)) by (unfold h_arrive; by destruct (h_coming _)).
  assert (Hb1 : if plugged then (h_busy (un_hw w1) <= Nat.pred (h_busy (un_hw w)))%nat
                else h_backlog (un_hw w1) = h_backlog (un_hw w)).
  { subst w1. cbn [with_hw un_hw]. unfold h_step. destruct plugged; [|done]. unfold h_busy at 1. cbn [h_backlog].
    unfold h_busy. rewrite Hb. lia. }
  destruct (h_host (un_hw w)) as [|f l]; [by exists w1|].
  destruct (recv_cb_returns f w1) as (r & g & E2 & L & R & Se & B & C & P); [done|].
  rewrite (bind_eq _ _ _ _ _ E2). eexists. split; [reflexivity|]. split; [done|]. split; [done|].
  assert (Ha1 : arrives (un_hw w) (un_hw w1)) by exact Harr.
  destruct Ha1 as (more & L1 & R1 & F1 & C1 & S1). cbn [with_hw un_hw]. split.
  { exists more. cbn [lan received sent coming plain_usb_view] in *. rewrite L, R, Se, C. done. }
  cbn [backlog plain_usb_view]. unfold h_busy at 1. rewrite B. done.
Qed.

(** Bridge 64 with the frame [f] of the LAN waiting, [g] to come, and a frame from the host. *)
Definition a_bridge : UsbEthBridge := mkBridge 4 1 11 false true.
Definition bridge_world (o : option TudNetOps) : plain_world :=
  mkUsbNet a_task (mkUsbHw [[1; 2; 3]] [[1; 2; 3]] [] [] 2 [[9; 9]] [[7]] true) o [2; 2; 132; 106; 150; 0] {[ 64 := a_bridge ]}.


Theorem net_dispatch_routes_witness :
  let w := bridge_world None in let o := bridge_ops 64 in
  tud_net_dispatch_set (Some o) w = Ret (tt, bridge_world (Some o)) /\
  tud_net_dispatch_set (Some (cdc_net_ops 9)) (bridge_world (Some o)) = Crash "Assert" /\
  tud_network_recv_cb [5] (bridge_world (Some o)) =
    Ret (true, with_hw (fun h => tud_network_recv_renew (driver_tx [5] h)) (bridge_world (Some o))).
Proof.
  intros w o. destruct (net_dispatch_routes w o eq_refl) as (E1 & _ & E2).
  split; [exact E1|]. destruct (E2 (bridge_world (Some o)) eq_refl) as (E3 & _ & E4 & _).
  split; [apply E3|]. apply (E4 [5] 64 a_bridge); [reflexivity|discriminate|reflexivity].
Defined.

Theorem bridge_stuck_without_host_witness : forall fuel spins,
  bridge_round (on_hw_ (h_step false)) fuel spins 64 0 (bridge_world None) = Hang.
Proof.
  intros fuel spins.
  apply (bridge_stuck_without_host (fun u => h_backlog u = 2%nat)) with (x := a_bridge).
  - intros u len E. cbn. unfold h_busy. by rewrite E.
  - intros u s1 E. cbn. unfold h_arrive. by destruct (h_coming u).
  - intros w E. eexists. split; [reflexivity|]. cbn. rewrite <- E. unfold h_arrive. by destruct (h_coming _).
  - reflexivity.
  - discriminate.
  - reflexivity.
Defined.

Theorem usb_tx_correct_witness :
  exists w', usb_tx (plain_tud_task true) 3 [4; 5] (bridge_world (Some (cdc_net_ops 9))) = Ret (2, w') /\
    sent (un_hw w') = [[4; 5]].
Proof.
  destruct (usb_tx_correct task_runs (plain_tud_task true) (plain_tud_task_returns true) 3 [4; 5]
              (bridge_world (Some (cdc_net_ops 9)))) as [_ E].
  - repeat split.
  - discriminate.
  - split; reflexivity.
  - vm_compute. lia.
  - destruct E as (w' & E1 & _ & E2 & _); [reflexivity|by intros o [= <-]|]. exists w'. by split.
Defined.

(** Bridges are allocated at 64 and, when that is taken, after the last. *)
Definition next_bridge (w : plain_world) : Z := fresh ({[0]} ∪ dom (un_bridges w) : gset Z).
Lemma next_bridge_ok w : next_bridge w <> 0 /\ un_bridges w !! next_bridge w = None.
Proof.
  pose proof (is_fresh ({[0]} ∪ dom (un_bridges w) : gset Z)) as Hf. fold (next_bridge w) in Hf. split; [set_solver|].
  apply not_elem_of_dom. set_solver.
Qed.
Lemma ret_keeps : keeps_back_ends (mret tt : M plain_world unit).
Proof. intros w. by exists w. Qed.

Theorem usb_eth_bridge_life_witness :
  usb_eth_bridge_start next_bridge (mret tt) (mret tt) (mret tt) (mret tt) (mret tt) (fun _ => 11) (fun _ => mret tt) 77 4 1 None
    (bridge_world (Some (cdc_net_ops 9))) = Crash "Assert" /\
  usb_eth_bridge_stop (fun _ => mret tt) (mret tt) (mret tt) (mret tt) (mret tt) 64 (bridge_world (Some (bridge_ops 64))) = Fault.
Proof.
  assert (Hlife : forall w : plain_world, length (tud_network_mac_address w) = 6%nat -> _) by
    exact (usb_eth_bridge_life next_bridge next_bridge_ok (mret tt) (mret tt) (mret tt) (mret tt) (mret tt) (fun _ => 11)
      (fun _ => mret tt) 77 4 1 ret_keeps ret_keeps ret_keeps ret_keeps ret_keeps (fun _ => ret_keeps)
      ltac:(by intros w w' [= ->]) ltac:(by intros w w' [= ->]) (mret tt) (mret tt) (mret tt) (mret tt)
      ret_keeps ret_keeps ltac:(intros w; by exists w) None).
  split.
  - apply (Hlife (bridge_world (Some (cdc_net_ops 9))) eq_refl). discriminate.
  - apply (Hlife (bridge_world (Some (bridge_ops 64))) eq_refl) with (x := a_bridge); [discriminate|reflexivity].
Defined.
