(* ===== verification/Usb.v ===== *)
(** * USB (hal/rhs_hal_usb: rhs_hal_usb.c, usb_descriptors.c, rhs_hal_usb_cdc.c)

    The reset of the peripheral at the level of registers, the descriptors given to the host,
    the switch between interfaces, and the serial ports of the composite device. TinyUSB and
    its configuration are parameters. *)

From S2P Require Import Prelude Kernel Gpio.

(** ** rhs_hal_usb.c: the peripheral *)

Definition pin_dm : Z := PIN 0 11.
Definition pin_dp : Z := PIN 0 12.

Definition RCC_APB1RSTR_USBRST : Z := 2 ^ 23.
Definition RCC_APB1ENR_USBEN : Z := 2 ^ 23.
Definition RCC_AHB2ENR_OTGFSEN : Z := 2 ^ 7.
Definition RCC_APBRSTR1_USBRST : Z := 2 ^ 13.
Definition RCC_APBENR1_USBEN : Z := 2 ^ 13.
Definition RCC_CR_HSI48ON : Z := 2 ^ 22.
Definition RCC_CR_HSI48RDY : Z := 2 ^ 23.
Definition RCC_CCIPR2_USBSEL : Z := Z.shiftl 3 12.
Definition RCC_APBENR1_PWREN : Z := 2 ^ 28.
Definition PWR_CR2_USV : Z := 2 ^ 10.
Definition RCC_APBENR2_SYSCFGEN : Z := 2 ^ 0.
Definition SYSCFG_CFGR1_UCPD1_STROBE : Z := 2 ^ 9.

Section phy.
Context {S R : Type} `{Scheduler S} `{Registers R}.
Context (tick_rate : Z).
Abbreviation world := (S * R)%type.

Definition on_regs {A} (m : M R A) : M world A := fun w =>
  match m w.2 with Ret (a, r) => Ret (a, (w.1, r)) | Crash e => Crash e | Fault => Fault | Hang => Hang end.
Definition delay_ms (ms : Z) : M world unit := fun w =>
  match rhs_delay_ms tick_rate ms w.1 with Ret (_, s) => Ret (tt, (s, w.2)) | Crash e => Crash e | Fault => Fault | Hang => Hang end.

Definition set_priority (q : raw_irq) (pre : Z) : M R unit :=
  p ← gets (raw_EncodePriority pre 0); modify (raw_SetPriority q p).

(** D- and D+ as outputs at low level. *)
Definition pins_low (as_output : Z -> M R unit) : M R unit :=
  as_output pin_dm;; as_output pin_dp;; gpio_write pin_dm false;; gpio_write pin_dp false.
Definition output_f1 (pin : Z) : M R unit := gpio_init_f1 pin GPIO_MODE_OUTPUT_PP_50MHZ.
Definition floating_f1 (pin : Z) : M R unit := gpio_init_f1 pin GPIO_MODE_INPUT_FLOATING.
Definition alternate_f4 (pin : Z) : M R unit :=
  gpio_init F407 pin MG_GPIO_MODE_AF MG_GPIO_OTYPE_PUSH_PULL MG_GPIO_SPEED_INSANE MG_GPIO_PULL_NONE 10.
Definition output_f4 (pin : Z) : M R unit :=
  gpio_init F407 pin MG_GPIO_MODE_OUTPUT MG_GPIO_OTYPE_PUSH_PULL MG_GPIO_SPEED_INSANE MG_GPIO_PULL_NONE 0.
Definition output_g0 (pin : Z) : M R unit :=
  gpio_init G0B1 pin MG_GPIO_MODE_OUTPUT MG_GPIO_OTYPE_PUSH_PULL MG_GPIO_SPEED_HIGH MG_GPIO_PULL_NONE 0.
Definition floating_g0 (pin : Z) : M R unit := gpio_init G0B1 pin MG_GPIO_MODE_INPUT 0 0 MG_GPIO_PULL_NONE 0.

(** USB off, its pins low: what makes the host see the device go. *)
Definition detach_f1 : M R unit :=
  or_reg RCC_APB1RSTR RCC_APB1RSTR_USBRST;; clear_reg RCC_APB1ENR RCC_APB1ENR_USBEN;; pins_low output_f1.
Definition attach_f1 : M R unit :=
  or_reg RCC_APB1ENR RCC_APB1ENR_USBEN;; clear_reg RCC_APB1RSTR RCC_APB1RSTR_USBRST;;
  floating_f1 pin_dm;; floating_f1 pin_dp.
Definition detach_g0 : M R unit :=
  or_reg RCC_APBRSTR1 RCC_APBRSTR1_USBRST;; clear_reg RCC_APBENR1 RCC_APBENR1_USBEN;; pins_low output_g0.
Definition attach_g0 : M R unit :=
  or_reg RCC_APBENR1 RCC_APBENR1_USBEN;; clear_reg RCC_APBRSTR1 RCC_APBRSTR1_USBRST;;
  floating_g0 pin_dm;; floating_g0 pin_dp;;
  set_priority USB_UCPD1_2_IRQn 15;; modify (raw_EnableIRQ USB_UCPD1_2_IRQn).
Definition attach_f4 : M R unit :=
  or_reg RCC_AHB2ENR RCC_AHB2ENR_OTGFSEN;; alternate_f4 pin_dm;; alternate_f4 pin_dp;;
  set_priority OTG_FS_IRQn 15;; modify (raw_EnableIRQ OTG_FS_IRQn).

(** [while (!(RCC->CR & RCC_CR_HSI48RDY));]: what the clock does meanwhile is the hardware's. *)
Context (hsi48_step : R -> R).
Fixpoint wait_hsi48 (fuel : nat) : M R unit :=
  match fuel with
  | O => hang
  | Datatypes.S fuel => cr ← rd RCC_CR; if Z.land cr RCC_CR_HSI48RDY =? 0 then modify hsi48_step;; wait_hsi48 fuel else mret tt
  end.
(** The power and clock of the peripheral, on the G0. *)
Definition usb_power_g0 (fuel : nat) : M R unit :=
  or_reg RCC_CR RCC_CR_HSI48ON;;
  wait_hsi48 fuel;;
  clear_reg RCC_CCIPR2 RCC_CCIPR2_USBSEL;;
  or_reg RCC_APBENR1 RCC_APBENR1_PWREN;;
  or_reg PWR_CR2 PWR_CR2_USV;;
  or_reg RCC_APBENR2 RCC_APBENR2_SYSCFGEN;;
  or_reg SYSCFG_CFGR1 SYSCFG_CFGR1_UCPD1_STROBE.

(** No USB on the F765: a compile-time error. *)
Definition has_usb (d : device) : bool := match d with F765 => false | _ => true end.

Definition rhs_hal_usb_init (d : device) (fuel : nat) : M world unit :=
  match d with
  | F103 =>
      on_regs detach_f1;; delay_ms 40;; on_regs attach_f1;;
      on_regs (set_priority USB_LP_IRQn 5;; set_priority USB_HP_IRQn 15;; set_priority OTG_FS_WKUP_IRQn 15)
  | F407 => on_regs attach_f4
  | G0B1 => on_regs (usb_power_g0 fuel);; on_regs detach_g0;; delay_ms 40;; on_regs attach_g0
  | F765 => mret tt
  end.
Definition rhs_hal_usb_reinit (d : device) : M world unit :=
  match d with
  | F103 => on_regs detach_f1;; delay_ms 40;; on_regs attach_f1
  | F407 => on_regs attach_f4
  | G0B1 => on_regs detach_g0;; delay_ms 40;; on_regs attach_g0
  | F765 => mret tt
  end.
Definition rhs_hal_usb_disable (d : device) : M world unit :=
  match d with
  | F103 => on_regs detach_f1
  | F407 =>
      on_regs (clear_reg RCC_AHB2ENR RCC_AHB2ENR_OTGFSEN;; pins_low output_f4;; modify (raw_DisableIRQ OTG_FS_IRQn))
  | G0B1 => on_regs detach_g0;; on_regs (modify (raw_DisableIRQ USB_UCPD1_2_IRQn))
  | F765 => mret tt
  end.
End phy.

(** ** usb_descriptors.c *)

(** The string indices of TinyUSB's configuration, and its support of network interfaces. *)
Class UsbConfig := {
  STRID_LANGID : Z; STRID_SERIAL : Z; STRID_MAC : Z; CFG_TUD_NET : bool
}.
Definition TUSB_DESC_STRING : Z := 3.
Definition UID_BYTES : Z := 12.

(** Arrays are given by pointers, [None] for NULL; strings are the bytes before the NUL, and
    the language string has no NUL at all. *)
Record descriptors := mkDescriptors {
  bNumConfigurations : Z;
  config : option (list (list Z));
  string_desc_arr : option (list (option (list Z)));
  string_desc_arr_count : Z;
  desc_str : list Z
}.

Section descriptors.
Context `{UsbConfig}.

Definition descriptor_switch_mode (new_desc : option Z) (new_config : option (list (list Z)))
    (new_strings : option (list (option (list Z)))) (new_count : Z) (x : descriptors) : descriptors :=
  mkDescriptors (default (bNumConfigurations x) new_desc) new_config new_strings new_count (desc_str x).

Definition tud_descriptor_configuration_cb (index : Z) (x : descriptors) : outcome (option (list Z)) :=
  if bNumConfigurations x <=? index then Ret None
  else match config x with None => Fault | Some l => c ← aget l index; Ret (Some c) end.

(** ['0'..'9', 'A'..'F'] *)
Definition hex_digit (v : Z) : Z := if v <? 10 then 48 + v else 55 + v.
Fixpoint hex_of (bytes : list Z) : list Z :=
  match bytes with
  | [] => []
  | x :: l => hex_digit (Z.land (Z.shiftr x 4) 0xF) :: hex_digit (Z.land x 0xF) :: hex_of l
  end.

(** [_desc_str[1 + i++] = ...] *)
Fixpoint put_chars (buf : list Z) (i : Z) (chars : list Z) : outcome (list Z) :=
  match chars with
  | [] => Ret buf
  | c :: chars => buf ← aset buf (1 + i) c; put_chars buf (i + 1) chars
  end.

(** The loop over the UID, which stops when the buffer is full. *)
Fixpoint put_uid (buf : list Z) (out : Z) (uid : list Z) : outcome (list Z * Z) :=
  match uid with
  | [] => Ret (buf, out)
  | x :: uid =>
      if out + 1 <? 31 then
        buf ← aset buf (1 + out) (hex_digit (Z.land (Z.shiftr x 4) 0xF));
        buf ← aset buf (1 + out + 1) (hex_digit (Z.land x 0xF));
        put_uid buf (out + 2) uid
      else Ret (buf, out)
  end.

Definition string_at (x : descriptors) (index : Z) : outcome (list Z) :=
  match string_desc_arr x with
  | None => Fault
  | Some l => s ← aget l index; match s with Some s => Ret s | None => Fault end
  end.

(** The pointer returned is to [_desc_str]. *)
Definition tud_descriptor_string_cb (uid mac : list Z) (index : Z) (x : descriptors) : outcome (bool * descriptors) :=
  let finish (buf : list Z) (chr_count : Z) :=
    buf ← aset buf 0 (u16 (Z.lor (Z.shiftl TUSB_DESC_STRING 8) (u32 (2 * chr_count + 2))));
    Ret (true, mkDescriptors (bNumConfigurations x) (config x) (string_desc_arr x) (string_desc_arr_count x) buf) in
  if index =? STRID_LANGID then
    s ← string_at x 0;
    lo ← aget s 0; hi ← aget s 1;
    buf ← aset (desc_str x) 1 (lo + 256 * hi);
    finish buf 1
  else if index =? STRID_SERIAL then
    '(buf, out) ← put_uid (desc_str x) 0 (take (Z.to_nat UID_BYTES) uid); finish buf out
  else if (index =? STRID_MAC) && CFG_TUD_NET then
    buf ← put_chars (desc_str x) 0 (hex_of mac); finish buf (2 * Z.of_nat (length mac))
  else if string_desc_arr_count x <=? index then Ret (false, x)
  else
    s ← string_at x index;
    let max_count := 31 in
    let chr_count := if max_count <? u32 (Z.of_nat (length s)) then max_count else u32 (Z.of_nat (length s)) in
    buf ← put_chars (desc_str x) 0 (take (Z.to_nat chr_count) s);
    finish buf chr_count.
End descriptors.

(** ** Interfaces (rhs_hal_usb.c) and the serial ports (rhs_hal_usb_cdc.c) *)

(** The functions of TinyUSB the serial ports call. *)
Class TudCdc (U : Type) := {
  tud_cdc_n_write_char : Z -> Z -> U -> Z * U;
  tud_cdc_n_write_flush : Z -> U -> Z * U;
  tud_cdc_n_available : Z -> U -> Z;
  (** The bytes read, at most as many as asked for. *)
  tud_cdc_n_read : Z -> Z -> U -> list Z * U;
  tusb_init : U -> U;
  tusb_deinit : U -> U
}.

(** [F] are the names of the functions registered; interfaces are pointers to constants. *)
Record CdcCallbacks (F : Type) := mkCdcCallbacks {
  tx_callback : option F; rx_callback : option F; state_callback : option F; ctrl_line_callback : option F }.
Arguments mkCdcCallbacks {F}.
Arguments tx_callback {F}.
Arguments rx_callback {F}.
Arguments state_callback {F}.
Arguments ctrl_line_callback {F}.
Record RHSHalUsbInterface (F : Type) := mkInterface {
  init : option F; deinit : option F;
  device_desc : option Z; configuration_arr : option (list (list Z));
  iface_strings : option (list (option (list Z))); iface_string_count : Z }.
Arguments mkInterface {F}.
Arguments init {F}.
Arguments deinit {F}.
Arguments device_desc {F}.
Arguments configuration_arr {F}.
Arguments iface_strings {F}.
Arguments iface_string_count {F}.

Definition IF_NUM_MAX : nat := 2.
Record usb_state (U F : Type) := mkUsb {
  tinyusb : U;
  descs : descriptors;
  s_usb_desc : option Z;
  connected : bool;
  callbacks : list (option (CdcCallbacks F));
  cb_ctx : list Z;
  cdc_ctrl_line_state : list Z;
  cdc_finish : bool
}.
Arguments mkUsb {U F}.
Arguments tinyusb {U F}.
Arguments descs {U F}.
Arguments s_usb_desc {U F}.
Arguments connected {U F}.
Arguments callbacks {U F}.
Arguments cb_ctx {U F}.
Arguments cdc_ctrl_line_state {U F}.
Arguments cdc_finish {U F}.

(** A system with this state in it. *)
Class HasUsb (U F W : Type) := { usb : W -> usb_state U F; set_usb : usb_state U F -> W -> W }.
Class HasUsbLaws (U F W : Type) `{HasUsb U F W} := {
  usb_set u w : usb (set_usb u w) = u;
  set_usb_same w : set_usb (usb w) w = w;
  set_usb_twice u u' w : set_usb u (set_usb u' w) = set_usb u w
}.

Section usb.
Context {U F W : Type} `{TudCdc U} `{HasUsb U F W}.
(** The functions by name: those of the serial ports take a context, and some an argument. *)
Context (run_cb : F -> Z -> M W unit) (run_cb_arg : F -> Z -> Z -> M W unit) (run_iface : F -> M W unit)
  (interfaces : Z -> RHSHalUsbInterface F).

Definition on_tinyusb {A} (f : U -> A * U) : M W A := fun w =>
  let u := usb w in
  let '(a, t) := f (tinyusb u) in
  Ret (a, set_usb (mkUsb t (descs u) (s_usb_desc u) (connected u) (callbacks u) (cb_ctx u) (cdc_ctrl_line_state u) (cdc_finish u)) w).
Definition with_descs (f : descriptors -> descriptors) : M W unit := modify (fun w =>
  let u := usb w in
  set_usb (mkUsb (tinyusb u) (f (descs u)) (s_usb_desc u) (connected u) (callbacks u) (cb_ctx u) (cdc_ctrl_line_state u) (cdc_finish u)) w).
Definition set_interface_pointer (i : option Z) : M W unit := modify (fun w =>
  let u := usb w in
  set_usb (mkUsb (tinyusb u) (descs u) i (connected u) (callbacks u) (cb_ctx u) (cdc_ctrl_line_state u) (cdc_finish u)) w).
Definition set_finish (f : bool) : M W unit := modify (fun w =>
  let u := usb w in
  set_usb (mkUsb (tinyusb u) (descs u) (s_usb_desc u) (connected u) (callbacks u) (cb_ctx u) (cdc_ctrl_line_state u) f) w).
Definition set_cb (l : list (option (CdcCallbacks F))) (c : list Z) : M W unit := modify (fun w =>
  let u := usb w in
  set_usb (mkUsb (tinyusb u) (descs u) (s_usb_desc u) (connected u) l c (cdc_ctrl_line_state u) (cdc_finish u)) w).

(** [if (f) f(...)] *)
Definition call_if (f : option F) (run : F -> M W unit) : M W unit := match f with Some f => run f | None => mret tt end.

Definition rhs_hal_usb_get_interface : M W (option Z) := gets (fun w => s_usb_desc (usb w)).

Definition rhs_hal_usb_set_interface (iface : option Z) : M W unit :=
  current ← rhs_hal_usb_get_interface;
  if bool_decide (iface = current) then mret tt
  else
    (match current with Some i => call_if (deinit (interfaces i)) run_iface | None => mret tt end);;
    (match iface with
     | Some i =>
         let x := interfaces i in
         with_descs (descriptor_switch_mode (device_desc x) (configuration_arr x) (iface_strings x) (iface_string_count x));;
         call_if (init x) run_iface
     | None => mret tt
     end);;
    set_interface_pointer iface.

(** [callbacks[itf]] and [cb_ctx[itf]] *)
Definition callbacks_at (itf : Z) : M W (option (CdcCallbacks F)) := w ← get; lift (aget (callbacks (usb w)) itf).
Definition context_at (itf : Z) : M W Z := w ← get; lift (aget (cb_ctx (usb w)) itf).

Definition tud_cdc_rx_cb (itf : Z) : M W unit :=
  cb ← callbacks_at itf;
  match cb with
  | Some cb => call_if (rx_callback cb) (fun f => c ← context_at itf; run_cb f c)
  | None => mret tt
  end.
Definition tud_cdc_tx_complete_cb (itf : Z) : M W unit :=
  cb ← callbacks_at itf;
  match cb with
  | Some cb => call_if (tx_callback cb) (fun f => c ← context_at itf; run_cb f c)
  | None => mret tt
  end.

(** Tells the callbacks of a port the state of the connection, when it is up. *)
Definition report_state (cb : option (CdcCallbacks F)) (if_num state : Z) : M W unit :=
  match cb with
  | Some cb =>
      call_if (state_callback cb) (fun f =>
        up ← gets (fun w => connected (usb w));
        if up : bool then c ← context_at if_num; run_cb_arg f c state else mret tt)
  | None => mret tt
  end.

Definition rhs_hal_cdc_set_callbacks (if_num : Z) (cb : option (CdcCallbacks F)) (context : Z) : M W unit :=
  rhs_assert (if_num <? Z.of_nat IF_NUM_MAX);;
  old ← callbacks_at if_num;
  report_state old if_num 0;;
  w ← get;
  l ← lift (aset (callbacks (usb w)) if_num cb);
  c ← lift (aset (cb_ctx (usb w)) if_num context);
  set_cb l c;;
  new ← callbacks_at if_num;
  report_state new if_num 1;;
  match new with
  | Some cb =>
      call_if (ctrl_line_callback cb) (fun f =>
        c ← context_at if_num; w ← get; s ← lift (aget (cdc_ctrl_line_state (usb w)) if_num); run_cb_arg f c s)
  | None => mret tt
  end.

(** The results of the writes are not looked at. *)
Fixpoint write_chars (if_num : Z) (buf : list Z) : M W unit :=
  match buf with [] => mret tt | c :: buf => _ ← on_tinyusb (tud_cdc_n_write_char if_num c); write_chars if_num buf end.
(** [len] bytes of [buf]. *)
Definition rhs_hal_cdc_send (if_num : Z) (buf : list Z) (len : Z) : M W unit :=
  (if Z.of_nat (length buf) <? len then fault else mret tt);;
  write_chars if_num (take (Z.to_nat len) buf);;
  _ ← on_tinyusb (tud_cdc_n_write_flush if_num);
  mret tt.
Definition rhs_hal_cdc_receive (if_num max_len : Z) : M W (list Z) :=
  n ← gets (fun w => tud_cdc_n_available if_num (tinyusb (usb w)));
  if n =? 0 then mret [] else on_tinyusb (tud_cdc_n_read if_num max_len).

(** The thread that runs TinyUSB: the start of the thread, the wait for its end and the two
    functions above on the registers are parameters, and so is a turn of TinyUSB, which calls
    back. *)
Context (start_cdc_thread join_cdc_thread reinit disable tud_task : M W unit).
Definition cdc_init : M W unit := set_finish false;; start_cdc_thread.
Definition cdc_deinit : M W unit := set_finish true;; disable;; join_cdc_thread.
Fixpoint cdc_loop (fuel : nat) : M W unit :=
  match fuel with
  | O => hang
  | Datatypes.S fuel => f ← gets (fun w => cdc_finish (usb w)); if f : bool then mret tt else tud_task;; cdc_loop fuel
  end.
(** The thread, up to the end of its function, which has no [return]. *)
Definition usb_dual_cdc (fuel : nat) : M W unit :=
  reinit;; on_tinyusb (fun t => (tt, tusb_init t));; cdc_loop fuel;; on_tinyusb (fun t => (tt, tusb_deinit t)).
End usb.

(** *** What the host is given *)

Section descriptor_theorems.
Context `{UsbConfig}.

Lemma put_chars_eq buf i chars : 0 <= i -> 1 + i + Z.of_nat (length chars) <= Z.of_nat (length buf) ->
  put_chars buf i chars = Ret (take (Z.to_nat (1 + i)) buf ++ chars ++ drop (Z.to_nat (1 + i) + length chars) buf).
Proof.
  revert buf i. induction chars as [|c chars IH]; intros buf i Hi Hfit; cbn [put_chars length] in *.
  - by rewrite Nat.add_0_r, app_nil_l, take_drop.
  - rewrite aset_in by lia. cbn [mbind outcome_bind]. rewrite IH by (rewrite ?length_insert; lia). f_equal.
    replace (Z.to_nat (1 + (i + 1))) with (Datatypes.S (Z.to_nat (1 + i))) by lia.
    rewrite (take_S_r _ _ c) by (rewrite list_lookup_insert_eq; [done|lia]). rewrite take_insert_ge by lia.
    rewrite drop_insert_lt by lia. rewrite <- app_assoc. cbn [app]. do 4 f_equal. lia.
Qed.

Lemma put_chars_one buf c : put_chars buf 0 [c] = aset buf 1 c.
Proof. cbn [put_chars]. change (1 + 0) with 1. by destruct (aset buf 1 c). Qed.

Lemma length_hex_of l : length (hex_of l) = (2 * length l)%nat.
Proof. induction l as [|x l IH]; cbn; lia. Qed.

Lemma put_uid_eq buf out uid : out + 2 * Z.of_nat (length uid) <= 31 ->
  put_uid buf out uid = (b ← put_chars buf out (hex_of uid); Ret (b, out + 2 * Z.of_nat (length uid))).
Proof.
  revert buf out. induction uid as [|x uid IH]; intros buf out Hfit; cbn [put_uid hex_of put_chars length] in *.
  - cbn. by rewrite Z.add_0_r.
  - destruct (Z.ltb_spec (out + 1) 31); [|lia]. replace (1 + out + 1) with (1 + (out + 1)) by lia.
    destruct (aset buf (1 + out) _) as [b1| | |]; cbn [mbind outcome_bind]; try done.
    destruct (aset b1 (1 + (out + 1)) _) as [b2| | |]; cbn [mbind outcome_bind]; try done.
    rewrite IH by lia. replace (out + 1 + 1) with (out + 2) by lia.
    by replace (out + 2 + 2 * Z.of_nat (length uid)) with (out + 2 * Z.of_nat (Datatypes.S (length uid))) by lia.
Qed.

(** The characters a string descriptor has; [None] where there is none, and where NULL would be
    read. *)
Definition string_of_index (uid mac : list Z) (index : Z) (x : descriptors) : outcome (option (list Z)) :=
  if index =? STRID_LANGID then
    match string_at x 0 with Ret (lo :: hi :: _) => Ret (Some [lo + 256 * hi]) | _ => Fault end
  else if index =? STRID_SERIAL then Ret (Some (hex_of uid))
  else if (index =? STRID_MAC) && CFG_TUD_NET then Ret (Some (hex_of mac))
  else if string_desc_arr_count x <=? index then Ret None
  else s ← string_at x index; Ret (Some (take 31 s)).

Definition string_header (n : nat) : Z := 0x300 + 2 * Z.of_nat n + 2.

Lemma header_eq n : 0 <= n <= 31 -> u16 (Z.lor (Z.shiftl TUSB_DESC_STRING 8) (u32 (2 * n + 2))) = 0x300 + 2 * n + 2.
Proof.
  intros Hn. rewrite u32_small by lia. rewrite <- Z.lxor_lor.
  - rewrite <- Z.add_nocarry_lxor.
    + unfold TUSB_DESC_STRING. change (Z.shiftl 3 8) with 0x300. word.
    + apply (Z.bits_inj'). intros j Hj. rewrite Z.land_spec, Z.shiftl_spec, Z.bits_0 by done.
      destruct (Z.ltb_spec j 8).
      * by rewrite Z.testbit_neg_r by lia.
      * rewrite (value_testbit 8 (2 * n + 2)) by lia. apply andb_false_r.
  - apply (Z.bits_inj'). intros j Hj. rewrite Z.land_spec, Z.shiftl_spec, Z.bits_0 by done.
    destruct (Z.ltb_spec j 8).
    + by rewrite Z.testbit_neg_r by lia.
    + rewrite (value_testbit 8 (2 * n + 2)) by lia. apply andb_false_r.
Qed.

Lemma string_cb_eq uid mac index x : length (desc_str x) = 32%nat -> length uid = 12%nat ->
  (length mac <= 15)%nat -> 0 <= index ->
  (forall l, string_desc_arr x = Some l -> string_desc_arr_count x = Z.of_nat (length l) /\
     Forall (fun s => forall t, s = Some t -> Z.of_nat (length t) < 2 ^ 32) l) ->
  tud_descriptor_string_cb uid mac index x =
  match string_of_index uid mac index x with
  | Ret None => Ret (false, x)
  | Ret (Some chars) => Ret (true, mkDescriptors (bNumConfigurations x) (config x) (string_desc_arr x) (string_desc_arr_count x)
      (string_header (length chars) :: chars ++ drop (1 + length chars) (desc_str x)))
  | Crash m => Crash m
  | Fault => Fault
  | Hang => Hang
  end.
Proof.
  intros Hbuf Huid Hmac Hindex Htable. unfold tud_descriptor_string_cb, string_of_index.
  assert (Hfin : forall chars n buf, put_chars (desc_str x) 0 chars = Ret buf -> (length chars <= 31)%nat -> n = Z.of_nat (length chars) ->
    aset buf 0 (u16 (Z.lor (Z.shiftl TUSB_DESC_STRING 8) (u32 (2 * n + 2)))) =
    Ret (string_header (length chars) :: chars ++ drop (1 + length chars) (desc_str x))).
  { intros chars n buf Hb Hlen ->. rewrite put_chars_eq in Hb by lia. injection Hb as <-.
    rewrite aset_in by (rewrite !length_app, length_take, length_drop; lia). rewrite header_eq by lia.
    destruct (desc_str x) as [|c l]; [done|]. done. }
  assert (Hput : forall chars, (length chars <= 31)%nat -> exists buf, put_chars (desc_str x) 0 chars = Ret buf)
    by (intros chars Hlen; eexists; apply put_chars_eq; lia).
  destruct (index =? STRID_LANGID).
  { unfold string_at. destruct (string_desc_arr x) as [l|]; [|done].
    destruct l as [|[s|] l]; [done| |done]. change (aget (Some s :: l) 0) with (Ret (Some s)).
    destruct s as [|lo [|hi s]]; [done|done|]. cbn [aget mbind outcome_bind]. change (aget (lo :: hi :: s) 0) with (Ret lo).
    change (aget (lo :: hi :: s) 1) with (Ret hi). cbn [mbind outcome_bind].
    destruct (Hput [lo + 256 * hi]) as [buf Hb]; [cbn; lia|]. rewrite put_chars_one in Hb.
    rewrite Hb. cbn [mbind outcome_bind]. rewrite <- put_chars_one in Hb. by rewrite (Hfin [lo + 256 * hi] 1 buf Hb) by (cbn; lia). }
  destruct (index =? STRID_SERIAL).
  { rewrite firstn_all2 by (unfold UID_BYTES; lia). rewrite put_uid_eq by lia.
    destruct (Hput (hex_of uid)) as [buf Hb]; [rewrite length_hex_of; lia|]. rewrite Hb. cbn [mbind outcome_bind].
    by rewrite (Hfin (hex_of uid) _ buf Hb) by (rewrite length_hex_of; lia). }
  destruct ((index =? STRID_MAC) && CFG_TUD_NET).
  { destruct (Hput (hex_of mac)) as [buf Hb]; [rewrite length_hex_of; lia|]. rewrite Hb. cbn [mbind outcome_bind].
    by rewrite (Hfin (hex_of mac) _ buf Hb) by (rewrite length_hex_of; lia). }
  destruct (string_desc_arr_count x <=? index); [done|]. unfold string_at.
  destruct (string_desc_arr x) as [l|]; [|done]. destruct (Htable l eq_refl) as [_ Hl].
  unfold aget. destruct (Z.ltb_spec index 0); [lia|]. destruct (l !! Z.to_nat index) as [[s|]|] eqn:E; cbn [mbind outcome_bind]; try done.
  rewrite Forall_lookup in Hl. specialize (Hl _ _ E s eq_refl). change (2 ^ 32) with 4294967296 in Hl. rewrite (u32_small (Z.of_nat (length s))) by lia.
  assert (Htake : take (Z.to_nat (if 31 <? Z.of_nat (length s) then 31 else Z.of_nat (length s))) s = take 31 s).
  { destruct (Z.ltb_spec 31 (Z.of_nat (length s))); [done|]. rewrite Nat2Z.id, firstn_all. symmetry. apply firstn_all2. lia. }
  rewrite Htake. destruct (Hput (take 31 s)) as [buf Hb]; [rewrite length_take; lia|]. rewrite Hb. cbn [mbind outcome_bind].
  rewrite (Hfin (take 31 s) _ buf Hb); [done|rewrite length_take; lia|].
  rewrite length_take. destruct (Z.ltb_spec 31 (Z.of_nat (length s))); lia.
Qed.

(** A string descriptor is a header with its length, followed by the characters asked for:
    the language, the UID and the hardware address as hexadecimal digits, or the first 31
    characters of the interface's string; an index beyond the table has none. No access leaves
    the static buffer or the table, whatever the strings are; only an entry that is NULL is
    read. *)
Theorem usb_string_correct uid mac index x : length (desc_str x) = 32%nat -> length uid = 12%nat ->
  (length mac <= 15)%nat -> 0 <= index ->
  (forall l, string_desc_arr x = Some l -> string_desc_arr_count x = Z.of_nat (length l) /\
     Forall (fun s => forall t, s = Some t -> Z.of_nat (length t) < 2 ^ 32) l) ->
  tud_descriptor_string_cb uid mac index x =
  match string_of_index uid mac index x with
  | Ret None => Ret (false, x)
  | Ret (Some chars) => Ret (true, mkDescriptors (bNumConfigurations x) (config x) (string_desc_arr x) (string_desc_arr_count x)
      (string_header (length chars) :: chars ++ drop (1 + length chars) (desc_str x)))
  | Crash m => Crash m
  | Fault => Fault
  | Hang => Hang
  end.
Proof. apply string_cb_eq. Qed.
End descriptor_theorems.

(** *** The reset pulse *)

Section phy_theorems.
Context {S R : Type} `{SchedulerLaws S} `{RegisterLaws R}.
Context (tick_rate : Z) (Hbank : 0 < banks).
Implicit Types r : R.

(** The two parts whose reset pulls the pins low, with the registers and values they use. *)
Inductive pulsed := P_F103 | P_G0B1.
Definition device_of (d : pulsed) : device := match d with P_F103 => F103 | P_G0B1 => G0B1 end.
Definition reset_reg (d : pulsed) : mcu_reg := match d with P_F103 => RCC_APB1RSTR | P_G0B1 => RCC_APBRSTR1 end.
Definition enable_reg (d : pulsed) : mcu_reg := match d with P_F103 => RCC_APB1ENR | P_G0B1 => RCC_APBENR1 end.
Definition usb_bit (d : pulsed) : Z := match d with P_F103 => 23 | P_G0B1 => 13 end.
Definition mode_field (d : pulsed) : pin_field := match d with P_F103 => F_CNF | P_G0B1 => F_MODE end.
Definition as_output (d : pulsed) : Z -> M R unit := match d with P_F103 => output_f1 | P_G0B1 => output_g0 end.
Definition as_input (d : pulsed) : Z -> M R unit := match d with P_F103 => floating_f1 | P_G0B1 => floating_g0 end.
Definition output_mode (d : pulsed) : Z := match d with P_F103 => GPIO_MODE_OUTPUT_PP_50MHZ | P_G0B1 => MG_GPIO_MODE_OUTPUT end.
Definition input_mode (d : pulsed) : Z := match d with P_F103 => GPIO_MODE_INPUT_FLOATING | P_G0B1 => MG_GPIO_MODE_INPUT end.
Definition detach (d : pulsed) : M R unit := match d with P_F103 => detach_f1 | P_G0B1 => detach_g0 end.
Definition attach (d : pulsed) : M R unit := match d with P_F103 => attach_f1 | P_G0B1 => attach_g0 end.

Definition reset_held (d : pulsed) r : bool := Z.testbit (read_reg (reset_reg d) r) (usb_bit d).
Definition clock_running (d : pulsed) r : bool := Z.testbit (read_reg (enable_reg d) r) (usb_bit d).
Definition pin_mode (d : pulsed) (num : Z) r : Z := pin_get (mode_field d) 0 num r.

(** What a step says of the registers above. *)
Definition usb_view (d : pulsed) r : bool * bool * Z * Z * bool * bool :=
  (reset_held d r, clock_running d r, pin_mode d 11 r, pin_mode d 12 r, output 0 11 r, output 0 12 r).

Abbreviation view := (bool * bool * Z * Z * bool * bool)%type.
Definition view_bit (d : pulsed) (set : bool) (q : mcu_reg) (v : view) : view :=
  let '(a, b, m1, m2, o1, o2) := v in
  (if decide (q = reset_reg d) then set else a, if decide (q = enable_reg d) then set else b, m1, m2, o1, o2).
Definition view_mode (num mode : Z) (v : view) : view :=
  let '(a, b, m1, m2, o1, o2) := v in
  (a, b, if num =? 11 then mode else m1, if num =? 12 then mode else m2, o1, o2).
Definition view_low (num : Z) (v : view) : view :=
  let '(a, b, m1, m2, o1, o2) := v in
  (a, b, m1, m2, if num =? 11 then false else o1, if num =? 12 then false else o2).

Lemma set_usb_bit (set : bool) d q r : q = reset_reg d \/ q = enable_reg d ->
  exists r', (if set then or_reg q (2 ^ usb_bit d) else clear_reg q (2 ^ usb_bit d)) r = Ret (tt, r') /\
  usb_view d r' = view_bit d set q (usb_view d r).
Proof.
  intros Hq. set (v := if set then Z.lor (read_reg q r) (2 ^ usb_bit d) else Z.land (read_reg q r) (u32 (Z.lnot (2 ^ usb_bit d)))).
  exists (write_reg q v r). split; [by destruct set|].
  assert (Hbit : 0 <= usb_bit d < 32) by by destruct d.
  pose proof (read_reg_range q r) as Hrange.
  assert (Hv : in_u32 v).
  { unfold v. destruct set; [apply lor_u32; [done|by apply pow2_u32]|].
    rewrite <- (Z.lor_0_r (Z.land _ _)). apply (SETBITS_range _ (2 ^ usb_bit d) 0); [apply Hrange|done]. }
  assert (Htest : Z.testbit (read_reg q (write_reg q v r)) (usb_bit d) = set).
  { rewrite read_write_same; [|by destruct Hq as [-> | ->], d|done]. unfold v. destruct set.
    - rewrite Z.lor_spec, Z.pow2_bits_true, orb_true_r by lia. done.
    - rewrite Z.land_spec, u32_lnot_testbit, Z.pow2_bits_true by lia. cbn. by rewrite andb_false_r, andb_false_r. }
  assert (Hne : forall b x, q <> gpio_at b x) by (by destruct Hq as [-> | ->], d).
  destruct (clock_changes q v r) as [Hg Ho]; [by destruct Hq as [-> | ->], d|done|].
  unfold usb_view, view_bit, reset_held, clock_running, pin_mode, output. rewrite !Hg, !Ho. do 4 f_equal. f_equal.
  - destruct (decide (q = reset_reg d)) as [<-|Hn]; [done|]. by rewrite read_write_other by (done || by destruct d).
  - destruct (decide (q = enable_reg d)) as [<-|Hn]; [done|]. by rewrite read_write_other by (done || by destruct d).
Qed.

(** The pin functions leave the clock and reset registers of USB alone. *)
Definition usb_reg (q : mcu_reg) : Prop := is_Some (RCC_USB_BIT q).
Lemma preserves_wr q q' v : usb_reg q -> RCC_USB_BIT q' = None ->
  forall x, preserves (fun r => read_reg q r = x) (wr q' v).
Proof.
  intros [k Hq] Hq' x. apply preserves_modify. intros r <-. apply read_write_other; [congruence|]. by destruct q.
Qed.
Lemma preserves_set_bits q b f mask v n : usb_reg q ->
  forall x, preserves (fun r => read_reg q r = x) (set_bits (gpio_at b f) mask v n).
Proof.
  intros Hq x. unfold set_bits, rd. preserve. by apply preserves_wr.
Qed.
Hint Resolve preserves_wr preserves_set_bits : preserves.
Lemma init_keeps d pin mode type speed pull af q : usb_reg q -> d <> F407 ->
  forall x, preserves (fun r => read_reg q r = x) (gpio_init d pin mode type speed pull af).
Proof.
  intros Hq Hd x. unfold gpio_init, gpio_init_ahb, or_reg, gpio_bank, set_afr, rd. preserve. apply preserves_wr; by destruct d.
Qed.
Lemma init_f1_keeps pin mode q : usb_reg q -> forall x, preserves (fun r => read_reg q r = x) (gpio_init_f1 pin mode).
Proof.
  intros Hq x. unfold gpio_init_f1, or_reg, gpio_bank, rd. preserve.
Qed.
Lemma write_keeps pin v q : usb_reg q -> forall x, preserves (fun r => read_reg q r = x) (gpio_write pin v).
Proof. intros Hq x. unfold gpio_write, gpio_bank. preserve. Qed.

Lemma usb_regs d : usb_reg (reset_reg d) /\ usb_reg (enable_reg d).
Proof. by split; destruct d; eexists. Qed.

(** Setting pin 11 or 12 up. *)
Lemma pin_step d (out : bool) num r : num = 11 \/ num = 12 ->
  let mode := if out then output_mode d else input_mode d in
  exists r', (if out then as_output d else as_input d) (PIN 0 num) r = Ret (tt, r') /\
  usb_view d r' = view_mode num mode (usb_view d r).
Proof.
  intros Hnum mode. pose proof banks_le as Hle.
  assert (Hcase : exists r', (if out then as_output d else as_input d) (PIN 0 num) r = Ret (tt, r') /\
    (forall i, 0 <= i < 16 -> pin_mode d i r' = if decide (i = num) then mode else pin_mode d i r) /\
    (forall i, 0 <= i < 16 -> output 0 i r' = output 0 i r)).
  { destruct d.
    - assert (E : (if out then as_output P_F103 else as_input P_F103) = fun p => gpio_init_f1 p mode) by by destruct out.
      rewrite E. destruct (gpio_init_f1_in 0 num mode r) as (r' & E' & Hg & Ho & _); [lia|lia|unfold mode; by destruct out|].
      exists r'. split; [exact E'|]. split; intros i Hi.
      + unfold pin_mode. rewrite Hg by lia. repeat case_decide; naive_solver.
      + rewrite Ho by done. rewrite decide_False; [done|]. intros [Hm _]. by destruct out.
    - assert (Hex : exists r', (if out then as_output P_G0B1 else as_input P_G0B1) (PIN 0 num) r = Ret (tt, r') /\
        (forall f b i, 0 <= b < banks -> 0 <= i < 16 -> pin_get f b i r' =
           if decide (b = 0 /\ i = num) then settings mode 0 (if out then 2 else 0) 0 0 f (pin_get f b i r) else pin_get f b i r) /\
        (forall b, read_reg (gpio_at b ODR) r' = read_reg (gpio_at b ODR) r)).
      { destruct out; cbn -[gpio_init]; unfold output_g0, floating_g0.
        - destruct (gpio_init_in G0B1 0 num MG_GPIO_MODE_OUTPUT 0 2 0 0 r) as (r' & E & Hg & Ho & _); (done || lia || by exists r').
        - destruct (gpio_init_in G0B1 0 num MG_GPIO_MODE_INPUT 0 0 0 0 r) as (r' & E & Hg & Ho & _); (done || lia || by exists r'). }
      destruct Hex as (r' & E & Hg & Ho). exists r'. split; [exact E|]. split; intros i Hi.
      + unfold pin_mode. rewrite Hg by lia. cbn. repeat case_decide; naive_solver.
      + unfold output. by rewrite Ho. }
  destruct Hcase as (r' & E & Hm & Ho). exists r'. split; [exact E|].
  assert (Hk : forall q, usb_reg q -> read_reg q r' = read_reg q r).
  { intros q Hq. revert E. assert (Hp : preserves (fun r1 => read_reg q r1 = read_reg q r) ((if out then as_output d else as_input d) (PIN 0 num))).
    { destruct out, d; cbn [as_output as_input]; unfold output_f1, output_g0, floating_f1, floating_g0;
        apply init_keeps || apply init_f1_keeps; done. }
    intros E. by apply (Hp r tt r'). }
  destruct (usb_regs d) as [Hr He]. unfold usb_view, reset_held, clock_running. rewrite !Hk, !Hm, !Ho by (done || lia).
  destruct Hnum as [-> | ->]; done.
Qed.

(** Driving pin 11 or 12 low. *)
Lemma low_step d num r : num = 11 \/ num = 12 -> exists r', gpio_write (PIN 0 num) false r = Ret (tt, r') /\
  usb_view d r' = view_low num (usb_view d r).
Proof.
  intros Hnum. pose proof banks_le as Hle. pose proof (gpio_write_eq 0 num false r) as E.
  rewrite E by lia. eexists. split; [done|]. destruct (usb_regs d) as [[kr Hr] [ke He]].
  assert (Hk : forall q v, usb_reg q -> read_reg q (write_reg (gpio_at 0 BSRR) v r) = read_reg q r).
  { intros q v [k Hq]. apply read_write_other; [by destruct q|by destruct q]. }
  destruct (Z.ltb_spec num 16); [|lia].
  unfold usb_view, reset_held, clock_running, pin_mode. rewrite !Hk, !pin_get_BSRR, !write_BSRR_pow2 by (done || lia || by eexists).
  destruct Hnum as [-> | ->]; repeat case_decide; destruct_and?; lia || done.
Qed.

Lemma detach_eq d r : exists r', detach d r = Ret (tt, r') /\
  usb_view d r' = (true, false, output_mode d, output_mode d, false, false).
Proof.
  assert (E : detach d r = (or_reg (reset_reg d) (2 ^ usb_bit d);; clear_reg (enable_reg d) (2 ^ usb_bit d);;
    pins_low (as_output d)) r) by by destruct d.
  rewrite E. unfold pins_low.
  destruct (set_usb_bit true d (reset_reg d) r) as (r1 & E1 & V1); [by left|]. rewrite (bind_eq _ _ _ _ _ E1).
  destruct (set_usb_bit false d (enable_reg d) r1) as (r2 & E2 & V2); [by right|]. rewrite (bind_eq _ _ _ _ _ E2).
  destruct (pin_step d true 11 r2) as (r3 & E3 & V3); [by left|]. rewrite (bind_eq _ _ _ _ _ E3).
  destruct (pin_step d true 12 r3) as (r4 & E4 & V4); [by right|]. rewrite (bind_eq _ _ _ _ _ E4).
  destruct (low_step d 11 r4) as (r5 & E5 & V5); [by left|]. rewrite (bind_eq _ _ _ _ _ E5).
  destruct (low_step d 12 r5) as (r6 & E6 & V6); [by right|]. exists r6. split; [exact E6|].
  rewrite V6, V5, V4, V3, V2, V1. destruct (usb_view d r) as [[[[[] ?] ?] ?] ?]. by destruct d.
Qed.

Lemma attach_eq d r : exists r', attach d r = Ret (tt, r') /\
  exists o1 o2, usb_view d r' = (false, true, input_mode d, input_mode d, o1, o2).
Proof.
  set (m := or_reg (enable_reg d) (2 ^ usb_bit d);; clear_reg (reset_reg d) (2 ^ usb_bit d);;
    as_input d pin_dm;; as_input d pin_dp).
  assert (Hm : exists r', m r = Ret (tt, r') /\ exists o1 o2, usb_view d r' = (false, true, input_mode d, input_mode d, o1, o2)).
  { unfold m.
    destruct (set_usb_bit true d (enable_reg d) r) as (r1 & E1 & V1); [by right|]. rewrite (bind_eq _ _ _ _ _ E1).
    destruct (set_usb_bit false d (reset_reg d) r1) as (r2 & E2 & V2); [by left|]. rewrite (bind_eq _ _ _ _ _ E2).
    destruct (pin_step d false 11 r2) as (r3 & E3 & V3); [by left|]. rewrite (bind_eq _ _ _ _ _ E3).
    destruct (pin_step d false 12 r3) as (r4 & E4 & V4); [by right|]. exists r4. split; [exact E4|].
    rewrite V4, V3, V2, V1. destruct (usb_view d r) as [[[[[] ?] ?] ?] ?]. destruct d; by do 2 eexists. }
  destruct Hm as (r' & E & o1 & o2 & V). destruct d.
  - exists r'. split; [exact E|]. by exists o1, o2.
  - exists (raw_EnableIRQ USB_UCPD1_2_IRQn (raw_SetPriority USB_UCPD1_2_IRQn (raw_EncodePriority 15 0 r') r')). split.
    + unfold attach, attach_g0. unfold m in E. revert E. cbv [mbind M_bind]. cbn [as_input enable_reg reset_reg usb_bit].
      change RCC_APBENR1_USBEN with (2 ^ 13). change RCC_APBRSTR1_USBRST with (2 ^ 13).
      destruct (or_reg _ _ r) as [[[] r1]| | |]; try done. destruct (clear_reg _ _ r1) as [[[] r2]| | |]; try done.
      destruct (floating_g0 pin_dm r2) as [[[] r3]| | |]; try done. intros E. by rewrite E.
    + exists o1, o2. rewrite <- V. unfold usb_view, reset_held, clock_running, pin_mode, pin_get, output.
      by rewrite !read_EnableIRQ, !read_SetPriority.
Qed.

(** Resetting USB on the F1 and G0 holds the peripheral in reset without its clock and both
    lines as outputs at low level while the delay of 40 ms runs, and leaves it out of reset with
    its clock on and both lines floating; disabling it leaves it detached. The functions return
    in every state of the registers and the scheduler. *)
Theorem usb_reinit_pulse d (s : S) r :
  exists r1 s2 r2,
    detach d r = Ret (tt, r1) /\
    usb_view d r1 = (true, false, output_mode d, output_mode d, false, false) /\
    rhs_delay_ms tick_rate 40 s = Ret (tt, s2) /\
    rhs_hal_usb_reinit tick_rate (device_of d) (s, r) = Ret (tt, (s2, r2)) /\
    (exists o1 o2, usb_view d r2 = (false, true, input_mode d, input_mode d, o1, o2)) /\
    exists r3, rhs_hal_usb_disable (device_of d) (s, r) = Ret (tt, (s, r3)) /\ usb_view d r3 = usb_view d r1.
Proof.
  destruct (detach_eq d r) as (r1 & E1 & V1). destruct (delay_ms_returns tick_rate 40 s) as [s2 E2].
  destruct (attach_eq d r1) as (r2 & E3 & V2). exists r1, s2, r2. split_and!; [done|done|done| |done|].
  - assert (E : rhs_hal_usb_reinit tick_rate (device_of d) = (on_regs (detach d);; delay_ms tick_rate 40;; on_regs (attach d)))
      by by destruct d.
    rewrite E. unfold on_regs, delay_ms. cbv [mbind M_bind]. cbn [fst snd]. rewrite E1. cbn [fst snd]. rewrite E2. cbn [fst snd].
    by rewrite E3.
  - destruct d.
    + exists r1. unfold rhs_hal_usb_disable, on_regs. cbn [device_of snd fst detach] in *. by rewrite E1.
    + eexists. unfold rhs_hal_usb_disable, on_regs. cbv [mbind M_bind]. cbn [device_of snd fst detach] in *. rewrite E1. cbn. split; [done|].
      unfold usb_view, reset_held, clock_running, pin_mode, pin_get, output. by rewrite !read_DisableIRQ.
Qed.
End phy_theorems.

(** *** The serial ports *)

(** What TinyUSB documents of its serial ports: a character is taken when the transmit buffer
    has room, and reading takes from the receive buffer. *)
Class TudCdcLaws (U : Type) `{TudCdc U} := {
  (** All characters taken so far, and the room of the transmit buffer. *)
  cdc_taken : Z -> U -> list Z;
  cdc_room : Z -> U -> nat;
  cdc_waiting : Z -> U -> list Z;
  write_char_spec i c u : let '(_, u') := tud_cdc_n_write_char i c u in
    (forall j, cdc_taken j u' = cdc_taken j u ++ if bool_decide (j = i) && (0 <? Z.of_nat (cdc_room i u)) then [c] else []) /\
    cdc_room i u' = Nat.pred (cdc_room i u) /\ (forall j, cdc_waiting j u' = cdc_waiting j u);
  write_flush_spec i u : let '(_, u') := tud_cdc_n_write_flush i u in
    (forall j, cdc_taken j u' = cdc_taken j u) /\ (forall j, cdc_waiting j u' = cdc_waiting j u);
  available_spec i u : 0 <= tud_cdc_n_available i u /\ (tud_cdc_n_available i u = 0 <-> cdc_waiting i u = []);
  read_spec i n u : 0 <= n -> let '(l, u') := tud_cdc_n_read i n u in
    l = take (Z.to_nat n) (cdc_waiting i u) /\ cdc_waiting i u' = drop (Z.to_nat n) (cdc_waiting i u) /\
    (forall j, cdc_taken j u' = cdc_taken j u)
}.

Section cdc_theorems.
Context {U F W : Type} `{TudCdcLaws U} `{HasUsbLaws U F W}.
Implicit Types w : W.

Definition with_tinyusb w (t : U) : W :=
  set_usb (mkUsb t (descs (usb w)) (s_usb_desc (usb w)) (connected (usb w)) (callbacks (usb w)) (cb_ctx (usb w))
    (cdc_ctrl_line_state (usb w)) (cdc_finish (usb w))) w.
Lemma tinyusb_with w t : tinyusb (usb (with_tinyusb w t)) = t.
Proof. unfold with_tinyusb. by rewrite usb_set. Qed.
Lemma with_tinyusb_twice w t t' : with_tinyusb (with_tinyusb w t) t' = with_tinyusb w t'.
Proof. unfold with_tinyusb. rewrite !usb_set, set_usb_twice. done. Qed.
Lemma with_tinyusb_same w : with_tinyusb w (tinyusb (usb w)) = w.
Proof. unfold with_tinyusb. destruct (usb w) eqn:E. cbn. by rewrite <- E, set_usb_same. Qed.

Lemma write_chars_eq i buf w : exists t, write_chars i buf w = Ret (tt, with_tinyusb w t) /\
  (forall j, cdc_taken j t = cdc_taken j (tinyusb (usb w)) ++
     if bool_decide (j = i) then take (cdc_room i (tinyusb (usb w))) buf else []) /\
  forall j, cdc_waiting j t = cdc_waiting j (tinyusb (usb w)).
Proof.
  revert w. induction buf as [|c buf IH]; intros w; cbn [write_chars].
  - exists (tinyusb (usb w)). rewrite with_tinyusb_same. split; [done|]. split; [|done].
    intros j. rewrite take_nil. destruct (bool_decide _); by rewrite app_nil_r.
  - pose proof (write_char_spec i c (tinyusb (usb w))) as Hspec.
    destruct (tud_cdc_n_write_char i c (tinyusb (usb w))) as [z u'] eqn:E. destruct Hspec as (Ht & Hr & Hwt).
    rewrite (bind_eq _ _ w z (with_tinyusb w u')) by (unfold on_tinyusb; by rewrite E).
    destruct (IH (with_tinyusb w u')) as (t & Et & Htt & Hwt2). rewrite tinyusb_with, with_tinyusb_twice in *.
    exists t. split; [exact Et|]. split; [|intros j; by rewrite Hwt2].
    intros j. rewrite Htt, Ht, Hr. destruct (bool_decide (j = i)); cbn [andb]; [|by rewrite !app_nil_r].
    destruct (cdc_room i (tinyusb (usb w))) as [|n]; [by rewrite !app_nil_r|]. cbn. by rewrite <- app_assoc.
Qed.

Lemma cdc_send_eq i buf len w : 0 <= len <= Z.of_nat (length buf) -> exists t,
  rhs_hal_cdc_send i buf len w = Ret (tt, with_tinyusb w t) /\
  (forall j, cdc_taken j t = cdc_taken j (tinyusb (usb w)) ++
     if bool_decide (j = i) then take (cdc_room i (tinyusb (usb w))) (take (Z.to_nat len) buf) else []) /\
  forall j, cdc_waiting j t = cdc_waiting j (tinyusb (usb w)).
Proof.
  intros Hlen. unfold rhs_hal_cdc_send. destruct (Z.ltb_spec (Z.of_nat (length buf)) len); [lia|]. rewrite M_bind_ret.
  destruct (write_chars_eq i (take (Z.to_nat len) buf) w) as (t & E & Ht & Hw). rewrite (bind_eq _ _ _ _ _ E).
  pose proof (write_flush_spec i t) as Hf. destruct (tud_cdc_n_write_flush i t) as [z t'] eqn:Ef. destruct Hf as [Hf1 Hf2].
  exists t'. split.
  - cbv [mbind M_bind]. unfold on_tinyusb. rewrite tinyusb_with, Ef. fold (with_tinyusb (with_tinyusb w t) t').
    by rewrite with_tinyusb_twice.
  - split; intros j; by rewrite ?Hf1, ?Hf2.
Qed.

Lemma cdc_receive_eq i n w : 0 < n -> exists t,
  rhs_hal_cdc_receive i n w = Ret (take (Z.to_nat n) (cdc_waiting i (tinyusb (usb w))), with_tinyusb w t) /\
  cdc_waiting i t = drop (Z.to_nat n) (cdc_waiting i (tinyusb (usb w))) /\
  forall j, cdc_taken j t = cdc_taken j (tinyusb (usb w)).
Proof.
  intros Hn. unfold rhs_hal_cdc_receive. rewrite (bind_eq _ _ _ _ _ eq_refl). destruct (available_spec i (tinyusb (usb w))) as [_ Ha].
  destruct (Z.eqb_spec (tud_cdc_n_available i (tinyusb (usb w))) 0) as [E|E].
  - apply Ha in E. rewrite E, take_nil, drop_nil. exists (tinyusb (usb w)). by rewrite with_tinyusb_same.
  - pose proof (read_spec i n (tinyusb (usb w))) as Hr. destruct (tud_cdc_n_read i n (tinyusb (usb w))) as [l t] eqn:Et.
    destruct Hr as (-> & Hw & Htk); [lia|]. exists t. split; [|done]. unfold on_tinyusb. by rewrite Et.
Qed.

Context (run_cb : F -> Z -> M W unit) (run_cb_arg : F -> Z -> Z -> M W unit).

Definition cb_of (i : Z) w : option (CdcCallbacks F) := default None (callbacks (usb w) !! Z.to_nat i).
(** What TinyUSB's call for a port does. *)
Definition called (f : option F) (context : Z) w : outcome (unit * W) :=
  match f with Some f => run_cb f context w | None => Ret (tt, w) end.

Lemma lookup_two {A} (l : list A) i : length l = IF_NUM_MAX -> 0 <= i < 2 -> exists x, aget l i = Ret x /\ l !! Z.to_nat i = Some x.
Proof.
  intros Hl Hi. destruct (lookup_lt_is_Some_2 l (Z.to_nat i)) as [x Hx]; [unfold IF_NUM_MAX in Hl; lia|].
  exists x. split; [apply aget_lookup; [lia|done]|done].
Qed.

(** The calls of TinyUSB for a port: its callbacks, with its context. *)
Lemma tud_cdc_cbs_eq i w c : length (callbacks (usb w)) = IF_NUM_MAX -> 0 <= i < 2 -> cb_ctx (usb w) !! Z.to_nat i = Some c ->
  tud_cdc_rx_cb run_cb i w = called (cb_of i w ≫= rx_callback) c w /\
  tud_cdc_tx_complete_cb run_cb i w = called (cb_of i w ≫= tx_callback) c w.
Proof.
  intros Hl Hi Hc. destruct (lookup_two _ i Hl Hi) as (cb & E & El).
  unfold tud_cdc_rx_cb, tud_cdc_tx_complete_cb, callbacks_at, context_at, cb_of. munfold. rewrite E, El. cbn.
  destruct cb as [cb|]; cbn; [|done].
  destruct (rx_callback cb), (tx_callback cb); cbn; rewrite ?(aget_lookup _ _ c) by (lia || done); done.
Qed.

Definition with_cb w l c : W :=
  set_usb (mkUsb (tinyusb (usb w)) (descs (usb w)) (s_usb_desc (usb w)) (connected (usb w)) l c
    (cdc_ctrl_line_state (usb w)) (cdc_finish (usb w))) w.

Lemma report_nothing cb i st w : connected (usb w) = false -> report_state run_cb_arg cb i st w = Ret (tt, w).
Proof. intros Hc. unfold report_state, call_if. destruct cb as [cb|]; [|done]. destruct (state_callback cb); [|done]. munfold. by rewrite Hc. Qed.

(** Registering callbacks for a serial port of the USB device, or none, stores them for this
    port and tells the new ones the state of the control lines; from then on TinyUSB's events of
    the port call exactly its callbacks with its context, and those of the other port what
    they called before. A port that does not exist stops the system. *)
Theorem cdc_callbacks_route i cb context w :
  length (callbacks (usb w)) = IF_NUM_MAX -> length (cb_ctx (usb w)) = IF_NUM_MAX ->
  length (cdc_ctrl_line_state (usb w)) = IF_NUM_MAX -> connected (usb w) = false -> 0 <= i ->
  if i <? 2 then exists w1 lines, cdc_ctrl_line_state (usb w) !! Z.to_nat i = Some lines /\
    rhs_hal_cdc_set_callbacks run_cb_arg i cb context w =
      match cb ≫= ctrl_line_callback with Some f => run_cb_arg f context lines w1 | None => Ret (tt, w1) end /\
    tud_cdc_rx_cb run_cb i w1 = called (cb ≫= rx_callback) context w1 /\
    tud_cdc_tx_complete_cb run_cb i w1 = called (cb ≫= tx_callback) context w1 /\
    forall j, 0 <= j < 2 -> j <> i -> exists c, cb_ctx (usb w) !! Z.to_nat j = Some c /\
      tud_cdc_rx_cb run_cb j w1 = called (cb_of j w ≫= rx_callback) c w1 /\
      tud_cdc_tx_complete_cb run_cb j w1 = called (cb_of j w ≫= tx_callback) c w1
  else rhs_hal_cdc_set_callbacks run_cb_arg i cb context w = Crash "Assert".
Proof.
  intros Hl Hc Hs Hup Hi. unfold rhs_hal_cdc_set_callbacks. change (Z.of_nat IF_NUM_MAX) with 2.
  destruct (Z.ltb_spec i 2); [|done]. cbn [rhs_assert]. rewrite M_bind_ret.
  destruct (lookup_two _ i Hl) as (old & E & El); [lia|]. destruct (lookup_two _ i Hs) as (lines & Es & Els); [lia|].
  rewrite (bind_eq _ _ w old w) by (unfold callbacks_at; munfold; by rewrite E).
  rewrite (bind_eq _ _ w tt w) by by apply report_nothing. rewrite (bind_eq _ _ _ _ _ eq_refl).
  unfold IF_NUM_MAX in *. rewrite !aset_in by lia. cbn [lift]. set (l := <[Z.to_nat i := cb]> _). set (c := <[Z.to_nat i := context]> _).
  rewrite (bind_eq _ _ w l w eq_refl), (bind_eq _ _ w c w eq_refl), (bind_eq _ _ w tt (with_cb w l c) eq_refl).
  set (w1 := with_cb w l c). exists w1, lines.
  assert (U1 : usb w1 = mkUsb (tinyusb (usb w)) (descs (usb w)) (s_usb_desc (usb w)) (connected (usb w)) l c
    (cdc_ctrl_line_state (usb w)) (cdc_finish (usb w))) by (unfold w1, with_cb; by rewrite usb_set).
  assert (L1 : l !! Z.to_nat i = Some cb) by (apply list_lookup_insert_eq; lia).
  assert (C1 : c !! Z.to_nat i = Some context) by (apply list_lookup_insert_eq; lia).
  assert (Hlen : length (callbacks (usb w1)) = IF_NUM_MAX) by (rewrite U1; cbn; unfold l; by rewrite length_insert).
  rewrite (bind_eq _ _ w1 cb w1) by (unfold callbacks_at; munfold; rewrite U1; cbn; by rewrite (aget_lookup _ _ cb) by (lia || done)).
  rewrite (bind_eq _ _ w1 tt w1) by (apply report_nothing; by rewrite U1).
  assert (Hcall : forall j cj, 0 <= j < 2 -> cb_ctx (usb w1) !! Z.to_nat j = Some cj ->
    tud_cdc_rx_cb run_cb j w1 = called (cb_of j w1 ≫= rx_callback) cj w1 /\
    tud_cdc_tx_complete_cb run_cb j w1 = called (cb_of j w1 ≫= tx_callback) cj w1) by (intros; by apply tud_cdc_cbs_eq).
  split; [done|]. split; [|destruct (Hcall i context) as [-> ->]; [lia|by rewrite U1|]; split_and!].
  - destruct cb as [cb|]; [|done]. cbn. destruct (ctrl_line_callback cb); [|done]. cbn. unfold context_at. munfold.
    rewrite U1. cbn. rewrite (aget_lookup _ _ context) by (lia || done). cbn. rewrite ?U1. cbn. by rewrite Es.
  - unfold cb_of. rewrite U1. cbn. by rewrite L1.
  - unfold cb_of. rewrite U1. cbn. by rewrite L1.
  - intros j Hj Hne. destruct (lookup_two _ j Hc Hj) as (cj & _ & Ecj). exists cj. split; [done|].
    destruct (Hcall j cj) as [-> ->]; [done|rewrite U1; cbn; unfold c; by rewrite list_lookup_insert_ne by lia|].
    unfold cb_of. rewrite U1. cbn. unfold l. by rewrite list_lookup_insert_ne by lia.
Qed.
End cdc_theorems.

(** ** A device to instantiate the theorems with *)

#[global] Instance plain_usb_config : UsbConfig := {
  STRID_LANGID := 0; STRID_SERIAL := 3; STRID_MAC := 5; CFG_TUD_NET := true }.

Record plain_cdc := mkCdc { c_taken : Z -> list Z; c_room : nat; c_waiting : Z -> list Z }.
#[global] Instance plain_tud_cdc : TudCdc plain_cdc := {
  tud_cdc_n_write_char i c u :=
    (0, mkCdc (fun j => c_taken u j ++ if bool_decide (j = i) && (0 <? Z.of_nat (c_room u)) then [c] else [])
          (Nat.pred (c_room u)) (c_waiting u));
  tud_cdc_n_write_flush i u := (0, mkCdc (c_taken u) 64 (c_waiting u));
  tud_cdc_n_available i u := Z.of_nat (length (c_waiting u i));
  tud_cdc_n_read i n u := (take (Z.to_nat n) (c_waiting u i), mkCdc (c_taken u) (c_room u)
    (fun j => if bool_decide (j = i) then drop (Z.to_nat n) (c_waiting u j) else c_waiting u j));
  tusb_init u := u;
  tusb_deinit u := u
}.
#[global] Instance plain_tud_cdc_laws : TudCdcLaws plain_cdc.
Proof.
  refine (Build_TudCdcLaws _ _ (fun i u => c_taken u i) (fun i u => c_room u) (fun i u => c_waiting u i) _ _ _ _).
  - intros i c u. cbn. done.
  - intros i u. cbn. done.
  - intros i u. cbn. split; [lia|]. destruct (c_waiting u i); cbn; split; (lia || done).
  - intros i n u Hn. cbn. by rewrite bool_decide_eq_true_2.
Defined.
#[global] Instance usb_alone {U F} : HasUsb U F (usb_state U F) := { usb w := w; set_usb u _ := u }.
#[global] Instance usb_alone_laws {U F} : HasUsbLaws U F (usb_state U F).
Proof. done. Defined.

Definition cdc_strings : list (option (list Z)) :=
  [Some [0x09; 0x04]; Some (str "TinyUSB"); Some (str "TinyUSB Device"); Some (str "123456"); Some (str "TinyUSB CDC Interface")].
Definition cdc_descriptors : descriptors := mkDescriptors 1 (Some []) (Some cdc_strings) 5 (replicate 32 0).

(** ** The theorems at work *)

Lemma usb_string_correct_witness :
  tud_descriptor_string_cb [1; 2; 3; 4; 5; 6; 7; 8; 9; 10; 11; 0xAF] [2; 3; 4; 5; 6; 7] 1 cdc_descriptors =
    Ret (true, mkDescriptors 1 (Some []) (Some cdc_strings) 5
      (0x310 :: str "TinyUSB" ++ drop 8 (replicate 32 0))).
Proof.
  rewrite (usb_string_correct [1; 2; 3; 4; 5; 6; 7; 8; 9; 10; 11; 0xAF] [2; 3; 4; 5; 6; 7] 1 cdc_descriptors); try done.
  - cbn. lia.
  - intros l [= <-]. split; [done|]. repeat (apply Forall_cons; split; [by intros ? [= <-]|]). apply Forall_nil_2.
Defined.

Lemma usb_reinit_pulse_witness : exists s2 r2,
  rhs_hal_usb_reinit 1000 G0B1 (a_task, (fun _ => 0) : plain_mcu) = Ret (tt, (s2, r2)) /\
  clock_running P_G0B1 r2 = true /\ reset_held P_G0B1 r2 = false.
Proof.
  assert (Hb : 0 < @banks plain_mcu _) by done.
  destruct (usb_reinit_pulse (R := plain_mcu) 1000 Hb P_G0B1 a_task (fun _ => 0))
    as (r1 & s2 & r2 & _ & _ & _ & E & (o1 & o2 & V) & _).
  exists s2, r2. split; [exact E|].
  split; [exact (f_equal (fun v => v.1.1.1.1.2) V)|exact (f_equal (fun v => v.1.1.1.1.1) V)].
Defined.

Definition count_calls (f context : Z) : M (usb_state plain_cdc Z) unit :=
  on_tinyusb (fun u => (tt, mkCdc (c_taken u) (c_room u) (fun j => if j =? 9 then [f; context] else c_waiting u j))).
Lemma cdc_callbacks_route_witness :
  let w : usb_state plain_cdc Z := mkUsb (mkCdc (fun _ => []) 64 (fun _ => [])) cdc_descriptors None false [None; None] [0; 0] [0; 0] false in
  exists w1, rhs_hal_cdc_set_callbacks (fun _ _ _ => mret tt) 1 (Some (mkCdcCallbacks (Some 10) (Some 20) None None)) 77 w = Ret (tt, w1) /\
    tud_cdc_rx_cb count_calls 1 w1 = count_calls 20 77 w1 /\ tud_cdc_rx_cb count_calls 0 w1 = Ret (tt, w1).
Proof.
  intros w. destruct (cdc_callbacks_route count_calls (fun _ _ _ => mret tt) 1
    (Some (mkCdcCallbacks (Some 10) (Some 20) None None)) 77 w) as (w1 & lines & _ & E & Hrx & _ & Hother); try done.
  exists w1. split; [exact E|]. split; [exact Hrx|]. destruct (Hother 0) as (c & _ & H0 & _); [lia|done|exact H0].
Defined.
