(* ===== verification/UsbSerial.v ===== *)
(** * The USB serial bridge (services/usb_serial_bridge/usb_serial_bridge.c)

    Two threads and the callbacks between them: the worker forwards what a serial port receives
    to a serial port of the USB device, the transmit thread the other way. Over [Serial], [Usb],
    [ThreadFlags], [StreamBuf], [Semaphore], [Mutex] and [EventFlag]; the life of the threads
    and the switch of the USB interface's threads are parameters. *)

From S2P Require Import Prelude Kernel Interrupt Mutex Semaphore StreamBuf EventFlag ThreadFlags Gpio Serial Usb.

(** ** Flags, configuration, state *)

Definition WorkerEvtStop : Z := Z.shiftl 1 0.
Definition WorkerEvtRxDone : Z := Z.shiftl 1 1.
Definition WorkerEvtTxStop : Z := Z.shiftl 1 2.
Definition WorkerEvtCdcRx : Z := Z.shiftl 1 3.
Definition WorkerEvtCdcTxComplete : Z := Z.shiftl 1 4.
Definition WorkerEvtCfgChange : Z := Z.shiftl 1 5.
Definition WorkerEvtLineCfgSet : Z := Z.shiftl 1 6.
Definition WorkerEvtCtrlLineSet : Z := Z.shiftl 1 7.
Definition WORKER_ALL_RX_EVENTS : Z :=
  Z.lor (Z.lor (Z.lor (Z.lor (Z.lor WorkerEvtStop WorkerEvtRxDone) WorkerEvtCfgChange) WorkerEvtLineCfgSet) WorkerEvtCtrlLineSet)
    WorkerEvtCdcTxComplete.
Definition WORKER_ALL_TX_EVENTS : Z := Z.lor WorkerEvtTxStop WorkerEvtCdcRx.

Record UsbSerialConfig := mkUsbSerialConfig {
  vcp_ch : Z; serial_ch : Z; flow_pins : Z; baudrate_mode : Z; baudrate : Z; software_de_re : Z }.
Record UsbSerialState := mkUsbSerialState { rx_cnt : Z; tx_cnt : Z; baudrate_cur : Z }.

(** Threads are handles, 0 for NULL; [B], [QM], [QS] and [E] are FreeRTOS's objects. *)
Record UsbSerialBridge (B QM QS E : Type) := mkUsbSerialBridge {
  cfg : UsbSerialConfig; cfg_new : UsbSerialConfig;
  thread : Z; tx_thread : Z;
  rx_stream : option B; serial_handle : option Z; usb_mutex : option QM; tx_sem : option QS;
  st : UsbSerialState; cfg_lock : option E; rx_buf : list Z
}.
Arguments mkUsbSerialBridge {B QM QS E}.
Arguments cfg {B QM QS E}.
Arguments cfg_new {B QM QS E}.
Arguments thread {B QM QS E}.
Arguments tx_thread {B QM QS E}.
Arguments rx_stream {B QM QS E}.
Arguments serial_handle {B QM QS E}.
Arguments usb_mutex {B QM QS E}.
Arguments tx_sem {B QM QS E}.
Arguments st {B QM QS E}.
Arguments cfg_lock {B QM QS E}.
Arguments rx_buf {B QM QS E}.

(** The functions registered with the serial driver and with the USB device: the bridge's, and
    those of others. *)
Inductive serial_cb := serial_rx_cb_fn | other_serial_cb (p : Z).
Inductive cdc_fn :=
  | vcp_on_cdc_tx_complete_fn | vcp_on_cdc_rx_fn | vcp_state_callback_fn | vcp_on_cdc_control_line_fn | other_cdc_fn (p : Z).
Definition cdc_cb : CdcCallbacks cdc_fn :=
  mkCdcCallbacks (Some vcp_on_cdc_tx_complete_fn) (Some vcp_on_cdc_rx_fn) (Some vcp_state_callback_fn)
    (Some vcp_on_cdc_control_line_fn).

(** [bridges] are those allocated, by address; the last two are the command's statics. *)
Record bridge_world (S NT N H U B QM QS E : Type) := mkBridgeWorld {
  b_os : S; b_notify : NT;
  b_serial : serial_world serial_cb N H;
  b_usb : usb_state U cdc_fn;
  bridges : gmap Z (UsbSerialBridge B QM QS E);
  usb_rs232 : Z; usb_rs485 : Z
}.
Arguments mkBridgeWorld {S NT N H U B QM QS E}.
Arguments b_os {S NT N H U B QM QS E}.
Arguments b_notify {S NT N H U B QM QS E}.
Arguments b_serial {S NT N H U B QM QS E}.
Arguments b_usb {S NT N H U B QM QS E}.
Arguments bridges {S NT N H U B QM QS E}.
Arguments usb_rs232 {S NT N H U B QM QS E}.
Arguments usb_rs485 {S NT N H U B QM QS E}.

#[global] Instance bridge_has_usb {S NT N H U B QM QS E} : HasUsb U cdc_fn (bridge_world S NT N H U B QM QS E) := {
  usb := b_usb;
  set_usb u w := mkBridgeWorld (b_os w) (b_notify w) (b_serial w) u (bridges w) (usb_rs232 w) (usb_rs485 w)
}.
#[global] Instance bridge_has_usb_laws {S NT N H U B QM QS E} : HasUsbLaws U cdc_fn (bridge_world S NT N H U B QM QS E).
Proof. split; [done| |done]. by intros []. Qed.

Section usb_serial_bridge.
Context {S NT N H U B QM QS E : Type} `{Scheduler S} `{TaskNotify NT} `{Nvic N} `{SerialHw H} `{TudCdc U}
  `{FreeRTOSStream B} `{FreeRTOSMutex QM} `{FreeRTOSSemaphore QS} `{EventGroup E}.
Context (b : board) (max_syscall_priority : Z) (USB_CDC_PKT_LEN : Z) (polls : nat).
Abbreviation world := (bridge_world S NT N H U B QM QS E).
Abbreviation bridge := (UsbSerialBridge B QM QS E).

Definition USB_UART_RX_BUF_SIZE : Z := USB_CDC_PKT_LEN * 5.

Definition with_bridges (l : gmap Z bridge) (w : world) : world :=
  mkBridgeWorld (b_os w) (b_notify w) (b_serial w) (b_usb w) l (usb_rs232 w) (usb_rs485 w).
(** [usb_serial->...] *)
Definition bridge_at (p : Z) : M world bridge := fun w =>
  match bridges w !! p with Some x => Ret (x, w) | None => Fault end.
Definition update_bridge (p : Z) (f : bridge -> bridge) : M world unit :=
  x ← bridge_at p; modify (fun w => with_bridges (<[p := f x]> (bridges w)) w).

Definition on_serial {A} (m : M (serial_world serial_cb N H) A) : M world A := fun w =>
  match m (b_serial w) with
  | Ret (a, s) => Ret (a, mkBridgeWorld (b_os w) (b_notify w) s (b_usb w) (bridges w) (usb_rs232 w) (usb_rs485 w))
  | Crash e => Crash e | Fault => Fault | Hang => Hang
  end.
(** The flags of a thread; the handle must not be NULL, the result is not looked at. *)
Definition set_flags (thread_ flags : Z) : M world unit :=
  rhs_assert (negb (thread_ =? 0));;
  modify (fun w => mkBridgeWorld (b_os w) (snd (rhs_thread_flags_set (b_os w) (b_notify w) thread_ flags)) (b_serial w) (b_usb w)
    (bridges w) (usb_rs232 w) (usb_rs485 w)).
Definition wait_flags (fuel : nat) (me flags : Z) : M world Z := fun w =>
  match rhs_thread_flags_wait fuel (b_os w) (b_notify w) me flags RHSFlagWaitAny RHSWaitForever with
  | Ret (r, n) => Ret (r, mkBridgeWorld (b_os w) n (b_serial w) (b_usb w) (bridges w) (usb_rs232 w) (usb_rs485 w))
  | Crash e => Crash e | Fault => Fault | Hang => Hang
  end.
Definition os : M world S := gets b_os.

Definition with_cfg (c : UsbSerialConfig) (x : bridge) : bridge :=
  mkUsbSerialBridge c (cfg_new x) (thread x) (tx_thread x) (rx_stream x) (serial_handle x) (usb_mutex x) (tx_sem x) (st x) (cfg_lock x) (rx_buf x).
Definition with_thread (t : Z) (x : bridge) : bridge :=
  mkUsbSerialBridge (cfg x) (cfg_new x) t (tx_thread x) (rx_stream x) (serial_handle x) (usb_mutex x) (tx_sem x) (st x) (cfg_lock x) (rx_buf x).
Definition with_tx_thread (t : Z) (x : bridge) : bridge :=
  mkUsbSerialBridge (cfg x) (cfg_new x) (thread x) t (rx_stream x) (serial_handle x) (usb_mutex x) (tx_sem x) (st x) (cfg_lock x) (rx_buf x).
Definition with_stream_ (s : B) (x : bridge) : bridge :=
  mkUsbSerialBridge (cfg x) (cfg_new x) (thread x) (tx_thread x) (Some s) (serial_handle x) (usb_mutex x) (tx_sem x) (st x) (cfg_lock x) (rx_buf x).
Definition with_handle (h : option Z) (x : bridge) : bridge :=
  mkUsbSerialBridge (cfg x) (cfg_new x) (thread x) (tx_thread x) (rx_stream x) h (usb_mutex x) (tx_sem x) (st x) (cfg_lock x) (rx_buf x).
Definition with_mutex (q : QM) (x : bridge) : bridge :=
  mkUsbSerialBridge (cfg x) (cfg_new x) (thread x) (tx_thread x) (rx_stream x) (serial_handle x) (Some q) (tx_sem x) (st x) (cfg_lock x) (rx_buf x).
Definition with_sem (q : QS) (x : bridge) : bridge :=
  mkUsbSerialBridge (cfg x) (cfg_new x) (thread x) (tx_thread x) (rx_stream x) (serial_handle x) (usb_mutex x) (Some q) (st x) (cfg_lock x) (rx_buf x).
Definition with_st (s : UsbSerialState) (x : bridge) : bridge :=
  mkUsbSerialBridge (cfg x) (cfg_new x) (thread x) (tx_thread x) (rx_stream x) (serial_handle x) (usb_mutex x) (tx_sem x) s (cfg_lock x) (rx_buf x).
Definition with_cfg_lock (e : E) (x : bridge) : bridge :=
  mkUsbSerialBridge (cfg x) (cfg_new x) (thread x) (tx_thread x) (rx_stream x) (serial_handle x) (usb_mutex x) (tx_sem x) (st x) (Some e) (rx_buf x).
Definition with_rx_buf (l : list Z) (x : bridge) : bridge :=
  mkUsbSerialBridge (cfg x) (cfg_new x) (thread x) (tx_thread x) (rx_stream x) (serial_handle x) (usb_mutex x) (tx_sem x) (st x) (cfg_lock x) l.

Definition flag (events f : Z) : bool := negb (Z.land events f =? 0).

(** ** Callbacks *)

(** On a byte received, in the interrupt: the data register is read twice. *)
Definition serial_rx_cb (handle event context : Z) : M world unit :=
  _ ← on_serial (rhs_hal_serial_async_rx b (Some handle));
  if flag event RHSHalSerialRxEventData then
    data ← on_serial (rhs_hal_serial_async_rx b (Some handle));
    x ← bridge_at context;
    s ← os;
    r ← lift (rhs_stream_buffer_send s (rx_stream x) [data] 0);
    update_bridge context (with_stream_ r.2);;
    x ← bridge_at context;
    set_flags (thread x) WorkerEvtRxDone
  else mret tt.

Definition vcp_on_cdc_tx_complete (context : Z) : M world unit :=
  x ← bridge_at context;
  s ← os;
  r ← lift (rhs_semaphore_release s (tx_sem x));
  update_bridge context (with_sem r.2);;
  set_flags (thread x) WorkerEvtCdcTxComplete.
Definition vcp_on_cdc_rx (context : Z) : M world unit := x ← bridge_at context; set_flags (tx_thread x) WorkerEvtCdcRx.
Definition vcp_state_callback (context state : Z) : M world unit := mret tt.
Definition vcp_on_cdc_control_line (context state : Z) : M world unit :=
  x ← bridge_at context; set_flags (thread x) WorkerEvtCtrlLineSet.
(** Not registered. *)
Definition vcp_on_line_config (context : Z) : M world unit := x ← bridge_at context; set_flags (thread x) WorkerEvtLineCfgSet.

(** What others do: their callbacks, the start and the stop of the USB interfaces. *)
Context (run_other : Z -> Z -> M world unit) (run_other_arg : Z -> Z -> Z -> M world unit)
  (run_iface : cdc_fn -> M world unit) (interfaces : Z -> RHSHalUsbInterface cdc_fn) (usb_cdc_desc : Z).
Definition run_cb (f : cdc_fn) (context : Z) : M world unit :=
  match f with
  | vcp_on_cdc_tx_complete_fn => vcp_on_cdc_tx_complete context
  | vcp_on_cdc_rx_fn => vcp_on_cdc_rx context
  | other_cdc_fn p => run_other p context
  | _ => fault
  end.
Definition run_cb_arg (f : cdc_fn) (context arg : Z) : M world unit :=
  match f with
  | vcp_state_callback_fn => vcp_state_callback context arg
  | vcp_on_cdc_control_line_fn => vcp_on_cdc_control_line context arg
  | other_cdc_fn p => run_other_arg p context arg
  | _ => fault
  end.

Definition usb_serial_vcp_init (usb_serial ch : Z) : M world unit :=
  rhs_hal_usb_set_interface run_iface interfaces (Some usb_cdc_desc);;
  rhs_hal_cdc_set_callbacks run_cb_arg ch (Some cdc_cb) usb_serial.
Definition usb_serial_vcp_deinit (ch : Z) : M world unit := rhs_hal_cdc_set_callbacks run_cb_arg ch None 0.

(** [rhs_hal_serial_init] and [rhs_hal_serial_async_rx_start] with the bridge's callback. *)
Definition open_serial (usb_serial ch baud : Z) : M world unit :=
  h ← on_serial (rhs_hal_serial_init b ch baud);
  update_bridge usb_serial (with_handle h);;
  on_serial (rhs_hal_serial_async_rx_start b max_syscall_priority h (Some serial_rx_cb_fn) usb_serial).
Definition usb_uart_serial_init (usb_uart ch : Z) : M world unit := open_serial usb_uart ch 115200.
Definition usb_uart_serial_deinit (usb_uart : Z) : M world unit :=
  x ← bridge_at usb_uart;
  on_serial (rhs_hal_serial_deinit b max_syscall_priority (serial_handle x));;
  update_bridge usb_uart (with_handle None).

(** ** The transmit thread *)

Definition acquire_usb (me usb_serial : Z) : M world unit :=
  x ← bridge_at usb_serial; s ← os;
  r ← lift (rhs_mutex_acquire s me (usb_mutex x) RHSWaitForever);
  update_bridge usb_serial (with_mutex r.2);;
  rhs_assert (bool_decide (r.1 = RHSStatusOk)).
Definition release_usb (me usb_serial : Z) : M world unit :=
  x ← bridge_at usb_serial; s ← os;
  r ← lift (rhs_mutex_release s me (usb_mutex x));
  update_bridge usb_serial (with_mutex r.2);;
  rhs_assert (bool_decide (r.1 = RHSStatusOk)).

(** At most one packet from the host. *)
Definition receive_host (usb_serial : Z) : M world (list Z) :=
  x ← bridge_at usb_serial;
  let me := tx_thread x in
  acquire_usb me usb_serial;;
  x ← bridge_at usb_serial;
  data ← rhs_hal_cdc_receive (vcp_ch (cfg x)) USB_CDC_PKT_LEN;
  release_usb me usb_serial;;
  mret data.

(** A turn, after the wait: whether the thread goes on. *)
Definition usb_serial_tx_turn (usb_serial events : Z) : M world bool :=
  rhs_assert (negb (flag events RHSFlagError));;
  if flag events WorkerEvtTxStop then mret false
  else
    (if flag events WorkerEvtCdcRx then
       data ← receive_host usb_serial;
       let len := Z.of_nat (length data) in
       if 0 <? len then
         update_bridge usb_serial (fun x =>
           with_st (mkUsbSerialState (rx_cnt (st x)) (u32 (tx_cnt (st x) + len)) (baudrate_cur (st x))) x);;
         x ← bridge_at usb_serial;
         on_serial (rhs_hal_serial_tx b polls (serial_handle x) data (u16 len))
       else mret tt
     else mret tt);;
    mret true.

(** ** The worker *)

(** The threads: allocation of the transmit thread of a bridge and of its worker, start, wait
    for the end, and free; and what interrupts and other threads do while the worker waits for
    the semaphore. *)
Context (alloc_tx_thread alloc_worker : Z -> M world Z) (rhs_thread_start rhs_thread_join rhs_thread_free : Z -> M world unit)
  (meanwhile : M world unit).

(** What the worker does before its loop. *)
Definition usb_serial_worker_start (usb_serial : Z) : M world unit :=
  update_bridge usb_serial (fun x => with_cfg (cfg_new x) x);;
  stream ← lift (rhs_stream_buffer_alloc USB_UART_RX_BUF_SIZE 1);
  update_bridge usb_serial (with_stream_ stream);;
  s ← os;
  sem ← lift (rhs_semaphore_alloc s 1 1);
  update_bridge usb_serial (with_sem sem);;
  mutex ← lift (rhs_mutex_alloc s (mutex_type_value RHSMutexTypeNormal));
  update_bridge usb_serial (with_mutex mutex);;
  t ← alloc_tx_thread usb_serial;
  update_bridge usb_serial (with_tx_thread t);;
  x ← bridge_at usb_serial;
  usb_serial_vcp_init usb_serial (vcp_ch (cfg x));;
  x ← bridge_at usb_serial;
  open_serial usb_serial (serial_ch (cfg x)) (baudrate (cfg x));;
  x ← bridge_at usb_serial;
  set_flags (tx_thread x) WorkerEvtCdcRx;;
  rhs_thread_start (tx_thread x).

(** Sending what is in [rx_buf]. *)
Definition send_rx (usb_serial len : Z) : M world unit :=
  update_bridge usb_serial (fun x =>
    with_st (mkUsbSerialState (u32 (rx_cnt (st x) + len)) (tx_cnt (st x)) (baudrate_cur (st x))) x);;
  x ← bridge_at usb_serial;
  let me := thread x in
  acquire_usb me usb_serial;;
  x ← bridge_at usb_serial;
  rhs_hal_cdc_send (vcp_ch (cfg x)) (rx_buf x) len;;
  release_usb me usb_serial.

(** The wait for the end of the transfer before, and what follows. *)
Definition send_or_drop (usb_serial len : Z) : M world unit :=
  x ← bridge_at usb_serial; s ← os;
  r ← lift (rhs_semaphore_acquire s (tx_sem x) 100);
  update_bridge usb_serial (with_sem r.2);;
  if bool_decide (r.1 = RHSStatusOk) then send_rx usb_serial len
  else
    x ← bridge_at usb_serial;
    r ← lift (rhs_stream_buffer_reset (rx_stream x));
    update_bridge usb_serial (with_stream_ r.2).

(** At most one packet from the stream into [rx_buf]: its length. *)
Definition receive_rx (usb_serial : Z) : M world Z :=
  x ← bridge_at usb_serial; s ← os;
  r ← lift (rhs_stream_buffer_receive s (rx_stream x) USB_CDC_PKT_LEN 0);
  let '(n, data, stream) := r in
  update_bridge usb_serial (fun x => with_rx_buf (data ++ drop (length data) (rx_buf x)) (with_stream_ stream x));;
  mret (u16 n).

(** Received bytes, or the end of a transfer to the host. *)
Definition forward_rx (usb_serial : Z) : M world unit :=
  len ← receive_rx usb_serial;
  if 0 <? len then
    meanwhile;; send_or_drop usb_serial len
  else mret tt.

Definition stop_tx_thread (usb_serial : Z) : M world unit :=
  x ← bridge_at usb_serial;
  set_flags (tx_thread x) WorkerEvtTxStop;;
  rhs_thread_join (tx_thread x).

(** A change of the configuration; the events it adds change nothing. *)
Definition change_cfg (usb_serial : Z) : M world unit :=
  x ← bridge_at usb_serial;
  (if negb (vcp_ch (cfg x) =? vcp_ch (cfg_new x)) then
     stop_tx_thread usb_serial;;
     x ← bridge_at usb_serial;
     usb_serial_vcp_deinit (vcp_ch (cfg x));;
     x ← bridge_at usb_serial;
     usb_serial_vcp_init usb_serial (vcp_ch (cfg_new x));;
     update_bridge usb_serial (fun x => let c := cfg x in
       with_cfg (mkUsbSerialConfig (vcp_ch (cfg_new x)) (serial_ch c) (flow_pins c) (baudrate_mode c) (baudrate c) (software_de_re c)) x);;
     x ← bridge_at usb_serial;
     rhs_thread_start (tx_thread x)
   else mret tt);;
  x ← bridge_at usb_serial;
  (if negb (serial_ch (cfg x) =? serial_ch (cfg_new x)) then
     stop_tx_thread usb_serial;;
     usb_uart_serial_deinit usb_serial;;
     x ← bridge_at usb_serial;
     usb_uart_serial_init usb_serial (serial_ch (cfg_new x));;
     update_bridge usb_serial (fun x => let c := cfg x in
       with_cfg (mkUsbSerialConfig (vcp_ch c) (serial_ch (cfg_new x)) (flow_pins c) (baudrate_mode c) (baudrate c) (software_de_re c)) x);;
     x ← bridge_at usb_serial;
     rhs_thread_start (tx_thread x)
   else mret tt);;
  x ← bridge_at usb_serial;
  (if negb (baudrate (cfg x) =? baudrate (cfg_new x)) then crash "Baudrate change not implemented" else mret tt);;
  (if negb (flow_pins (cfg x) =? flow_pins (cfg_new x)) then crash "Flow pins change not implemented" else mret tt);;
  (if negb (software_de_re (cfg x) =? software_de_re (cfg_new x)) then crash "Software de-re change not implemented" else mret tt);;
  x ← bridge_at usb_serial; s ← os;
  r ← lift (api_lock_unlock s (cfg_lock x));
  update_bridge usb_serial (with_cfg_lock r.1.2);;
  modify (fun w => mkBridgeWorld r.2 (b_notify w) (b_serial w) (b_usb w) (bridges w) (usb_rs232 w) (usb_rs485 w)).

(** A turn of the worker's loop, after the wait: whether it goes on. *)
Definition usb_serial_worker_turn (usb_serial events : Z) : M world bool :=
  rhs_assert (negb (flag events RHSFlagError));;
  if flag events WorkerEvtStop then mret false
  else
    (if flag events (Z.lor WorkerEvtRxDone WorkerEvtCdcTxComplete) then forward_rx usb_serial else mret tt);;
    (if flag events WorkerEvtCfgChange then change_cfg usb_serial else mret tt);;
    mret true.

(** After the loop: the ports are closed first, then the transmit thread is stopped. *)
Definition usb_serial_worker_close (usb_serial : Z) : M world unit :=
  x ← bridge_at usb_serial;
  usb_serial_vcp_deinit (vcp_ch (cfg x));;
  usb_uart_serial_deinit usb_serial.
Definition usb_serial_worker_end (usb_serial : Z) : M world unit :=
  stop_tx_thread usb_serial;;
  x ← bridge_at usb_serial;
  rhs_thread_free (tx_thread x);;
  x ← bridge_at usb_serial; s ← os;
  lift (rhs_stream_buffer_free (rx_stream x));;
  lift (rhs_mutex_free s (usb_mutex x));;
  lift (rhs_semaphore_free s (tx_sem x)).

Fixpoint usb_serial_worker_loop (fuel : nat) (usb_serial : Z) : M world unit :=
  match fuel with
  | O => hang
  | Datatypes.S fuel =>
      x ← bridge_at usb_serial;
      events ← wait_flags fuel (thread x) WORKER_ALL_RX_EVENTS;
      go_on ← usb_serial_worker_turn usb_serial events;
      if go_on : bool then usb_serial_worker_loop fuel usb_serial else mret tt
  end.
Definition usb_serial_worker (fuel : nat) (usb_serial : Z) : M world Z :=
  usb_serial_worker_start usb_serial;;
  usb_serial_worker_loop fuel usb_serial;;
  usb_serial_worker_close usb_serial;;
  usb_serial_worker_end usb_serial;;
  mret 0.
Fixpoint usb_serial_tx_thread (fuel : nat) (usb_serial : Z) : M world Z :=
  match fuel with
  | O => hang
  | Datatypes.S fuel =>
      x ← bridge_at usb_serial;
      events ← wait_flags fuel (tx_thread x) WORKER_ALL_TX_EVENTS;
      go_on ← usb_serial_tx_turn usb_serial events;
      if go_on : bool then usb_serial_tx_thread fuel usb_serial else mret 0
  end.

(** ** Start, stop, command *)

(** [calloc] is the address of the next object, 0 when there is no memory. *)
Context (calloc : world -> Z).
Definition usb_serial_enable (c : UsbSerialConfig) : M world Z :=
  p ← gets calloc;
  (if p =? 0 then fault else mret tt);;
  let zero := mkUsbSerialConfig 0 0 0 0 0 0 in
  modify (fun w => with_bridges (<[p := mkUsbSerialBridge zero c 0 0 None None None None (mkUsbSerialState 0 0 0) None
    (replicate (Z.to_nat USB_CDC_PKT_LEN) 0)]> (bridges w)) w);;
  t ← alloc_worker p;
  update_bridge p (with_thread t);;
  x ← bridge_at p;
  rhs_thread_start (thread x);;
  mret p.
Definition usb_serial_disable (usb_serial : Z) : M world unit :=
  rhs_assert (negb (usb_serial =? 0));;
  x ← bridge_at usb_serial;
  set_flags (thread x) WorkerEvtStop;;
  rhs_thread_join (thread x);;
  x ← bridge_at usb_serial;
  rhs_thread_free (thread x);;
  _ ← bridge_at usb_serial;
  modify (fun w => with_bridges (delete usb_serial (bridges w)) w).

(** [strstr(args, option) == args] *)
Definition starts_with (args option_ : list Z) : bool := bool_decide (take (length option_) args = option_).
Definition set_rs232 (p : Z) : M world unit := modify (fun w =>
  mkBridgeWorld (b_os w) (b_notify w) (b_serial w) (b_usb w) (bridges w) p (usb_rs485 w)).
Definition set_rs485 (p : Z) : M world unit := modify (fun w =>
  mkBridgeWorld (b_os w) (b_notify w) (b_serial w) (b_usb w) (bridges w) (usb_rs232 w) p).
(** The command: it enables the bridge of a port, or disables it. *)
Definition toggle (p : Z) (set : Z -> M world unit) (c : UsbSerialConfig) : M world unit :=
  if p =? 0 then q ← usb_serial_enable c; set q else usb_serial_disable p;; set 0.
Definition usb_bridge_cb (args : option (list Z)) : M world unit :=
  match args with
  | None => mret tt
  | Some args =>
      w ← get;
      if starts_with args (str "-rs232") then
        toggle (usb_rs232 w) set_rs232 (mkUsbSerialConfig 0 RHSHalSerialIdRS232 0 0 115200 0)
      else if starts_with args (str "-rs485") then
        toggle (usb_rs485 w) set_rs485 (mkUsbSerialConfig 1 RHSHalSerialIdRS485 0 0 115200 0)
      else mret tt
  end.
End usb_serial_bridge.

(** ** What the bridge does *)

Section theorems.
Context {S NT N H U B QM QS E : Type} `{SchedulerLaws S} `{TaskNotify NT} `{NvicLaws N} `{SerialLaws H} `{TudCdcLaws U}
  `{FreeRTOSStreamLaws B} `{FreeRTOSMutexLaws QM} `{FreeRTOSSemaphoreLaws QS} `{EventGroup E}.
Context (b : board) (max_syscall_priority : Z) (USB_CDC_PKT_LEN : Z) (polls : nat) (Hpkt : 0 < USB_CDC_PKT_LEN < 65536).
Abbreviation world := (bridge_world S NT N H U B QM QS E).
Abbreviation bridge := (UsbSerialBridge B QM QS E).
Abbreviation PKT := (Z.to_nat USB_CDC_PKT_LEN).
Implicit Types (w : world) (x : bridge) (p : Z).

Definition put w p x : world := with_bridges (<[p := x]> (bridges w)) w.

Lemma bridge_at_eq w p x : bridges w !! p = Some x -> bridge_at p w = Ret (x, w).
Proof. intros E1. unfold bridge_at. by rewrite E1. Qed.
Lemma bridge_at_put w p x : bridge_at p (put w p x) = Ret (x, put w p x).
Proof. apply bridge_at_eq. apply lookup_insert_eq. Qed.
Lemma update_bridge_eq w p x f : bridges w !! p = Some x -> update_bridge p f w = Ret (tt, put w p (f x)).
Proof. intros E1. unfold update_bridge. by rewrite (bind_eq _ _ _ _ _ (bridge_at_eq w p x E1)). Qed.
Lemma put_put w p x y : put (put w p x) p y = put w p y.
Proof. unfold put, with_bridges. cbn. by rewrite insert_insert_eq. Qed.
Lemma update_put w p x f : update_bridge p f (put w p x) = Ret (tt, put w p (f x)).
Proof. rewrite (update_bridge_eq _ _ x) by apply lookup_insert_eq. by rewrite put_put. Qed.
Lemma put_same w p x : bridges w !! p = Some x -> put w p x = w.
Proof. intros E1. unfold put, with_bridges. rewrite insert_id by done. by destruct w. Qed.

(** The flags set for a thread. *)
Definition flagged w (t f : Z) : world :=
  mkBridgeWorld (b_os w) (snd (rhs_thread_flags_set (b_os w) (b_notify w) t f)) (b_serial w) (b_usb w) (bridges w)
    (usb_rs232 w) (usb_rs485 w).
Lemma set_flags_eq w t f : t <> 0 -> set_flags t f w = Ret (tt, flagged w t f).
Proof. intros Ht. unfold set_flags. destruct (Z.eqb_spec t 0); [done|]. done. Qed.

(** The objects of a bridge that runs: the mutex of the USB device is free. *)
Record running w p x (sb : B) (q : QS) : Prop := {
  r_bridge : bridges w !! p = Some x;
  r_task : RHS_IS_IRQ_MODE (b_os w) = false;
  r_stream : rx_stream x = Some sb;
  r_sem : tx_sem x = Some q;
  r_max : max q = 1;
  r_mutex : exists m, usb_mutex x = Some m /\ free_mutex m;
  r_threads : thread x <> 0 /\ tx_thread x <> 0;
  r_buf : length (rx_buf x) = PKT
}.

(** Code that holds the USB device: it takes the mutex, runs and gives it back. *)
Lemma acquire_eq w p x m me : bridges w !! p = Some x -> RHS_IS_IRQ_MODE (b_os w) = false -> me <> 0 ->
  usb_mutex x = Some m -> free_mutex m -> exists m', acquire_usb me p w = Ret (tt, put w p (with_mutex m' x)) /\ held_mutex me m'.
Proof.
  intros Hb Hi Hme Hm Hf. destruct (acquire_free (b_os w) me m RHSWaitForever Hi Hme Hf) as (m' & E1 & Hh).
  exists m'. split; [|done]. unfold acquire_usb. rewrite (bind_eq _ _ _ _ _ (bridge_at_eq w p x Hb)).
  rewrite (bind_eq _ _ w (b_os w) w eq_refl), Hm, E1. rewrite (bind_eq _ _ w (RHSStatusOk, m') w eq_refl).
  rewrite (bind_eq _ _ _ _ _ (update_bridge_eq w p x _ Hb)). done.
Qed.
Lemma release_eq w p x m me : bridges w !! p = Some x -> RHS_IS_IRQ_MODE (b_os w) = false -> me <> 0 ->
  usb_mutex x = Some m -> held_mutex me m -> exists m', release_usb me p w = Ret (tt, put w p (with_mutex m' x)) /\ free_mutex m'.
Proof.
  intros Hb Hi Hme Hm Hf. destruct (release_held (b_os w) me m Hi Hme Hf) as (m' & E1 & Hh).
  exists m'. split; [|done]. unfold release_usb. rewrite (bind_eq _ _ _ _ _ (bridge_at_eq w p x Hb)).
  rewrite (bind_eq _ _ w (b_os w) w eq_refl), Hm, E1. rewrite (bind_eq _ _ w (RHSStatusOk, m') w eq_refl).
  rewrite (bind_eq _ _ _ _ _ (update_bridge_eq w p x _ Hb)). done.
Qed.

(** *** From the serial port to the host *)

Definition taken w (ch : Z) : list Z := cdc_taken ch (tinyusb (b_usb w)).
Definition room w (ch : Z) : nat := cdc_room ch (tinyusb (b_usb w)).

Lemma send_rx_eq w p x sb q len : running w p x sb q -> 0 <= len <= USB_CDC_PKT_LEN -> exists w' x',
  send_rx p len w = Ret (tt, w') /\ running w' p x' sb q /\ cfg x' = cfg x /\
  b_serial w' = b_serial w /\ b_notify w' = b_notify w /\ b_os w' = b_os w /\
  rx_cnt (st x') = u32 (rx_cnt (st x) + len) /\
  (forall j, taken w' j = taken w j ++
     if bool_decide (j = vcp_ch (cfg x)) then take (room w j) (take (Z.to_nat len) (rx_buf x)) else []).
Proof.
  intros [Hb Hi Hs Hq Hmax (m & Hm & Hf) Ht Hbuf] Hlen. unfold send_rx.
  rewrite (bind_eq _ _ _ _ _ (update_bridge_eq w p x _ Hb)). set (x1 := with_st _ x). rewrite (bind_eq _ _ _ _ _ (bridge_at_put w p x1)).
  destruct (acquire_eq (put w p x1) p x1 m (thread x1)) as (m1 & E1 & Hh); [by apply lookup_insert_eq|done|apply Ht|done|done|].
  rewrite (bind_eq _ _ _ _ _ E1), put_put. set (x2 := with_mutex m1 x1). rewrite (bind_eq _ _ _ _ _ (bridge_at_put w p x2)).
  destruct (cdc_send_eq (vcp_ch (cfg x)) (rx_buf x) len (put w p x2)) as (t & E2 & Htk & _); [lia|].
  rewrite (bind_eq _ _ _ _ _ E2). set (w3 := with_tinyusb (put w p x2) t).
  destruct (release_eq w3 p x2 m1 (thread x1)) as (m2 & E3 & Hf2); [by apply lookup_insert_eq|done|apply Ht|done|done|].
  exists (put w3 p (with_mutex m2 x2)), (with_mutex m2 x2). split; [exact E3|]. split.
  - split; try done; [by apply lookup_insert_eq|by exists m2].
  - split_and!; try done. intros j. unfold taken, room. cbn. rewrite Htk. by case_bool_decide; subst.
Qed.

Lemma receive_eq w p x sb q : running w p x sb q -> exists sb',
  rhs_stream_buffer_receive (b_os w) (rx_stream x) USB_CDC_PKT_LEN 0 =
    Ret (Z.of_nat (length (take PKT (stream sb))), take PKT (stream sb), sb') /\
  stream sb' = drop PKT (stream sb) /\ stream_size sb' = stream_size sb.
Proof.
  intros [Hb Hi Hs _ _ _ _ _]. unfold rhs_stream_buffer_receive, with_stream. rewrite Hs, Hi.
  destruct (stream_receive sb USB_CDC_PKT_LEN) as [Hr _]; [lia|].
  destruct (xStreamBufferReceive sb USB_CDC_PKT_LEN 0) as [d sb']. destruct Hr as (-> & Hd & Hz). exists sb'.
  split; [|done]. rewrite u16_small; [done|]. rewrite length_take. lia.
Qed.

(** The received bytes in [rx_buf]. *)
Definition taken_out p w x (sb : B) (sb' : B) : bridge :=
  let data := take PKT (stream sb) in with_rx_buf (data ++ drop (length data) (rx_buf x)) (with_stream_ sb' x).
Lemma running_taken_out w p x sb q sb' : running w p x sb q -> running (put w p (taken_out p w x sb sb')) p (taken_out p w x sb sb') sb' q.
Proof.
  intros [Hb Hi Hs Hq Hm Hmu Ht Hbuf]. split; try done; [by apply lookup_insert_eq|].
  cbn. rewrite length_app, length_drop, length_take. lia.
Qed.

Lemma send_or_drop_eq w p x sb q len : running w p x sb q -> 0 <= len <= USB_CDC_PKT_LEN ->
  exists w' x' sb' q', send_or_drop p len w = Ret (tt, w') /\ running w' p x' sb' q' /\ cfg x' = cfg x /\
  let sent := stream sb' = stream sb /\ rx_cnt (st x') = u32 (rx_cnt (st x) + len) /\
    (forall j, taken w' j = taken w j ++
       if bool_decide (j = vcp_ch (cfg x)) then take (room w j) (take (Z.to_nat len) (rx_buf x)) else []) in
  let dropped := (stream sb' = [] \/ sb' = sb) /\ (forall j, taken w' j = taken w j) in
  if 0 <? count q then sent else sent \/ dropped.
Proof.
  intros Hr Hlen. pose proof Hr as [Hb Hi Hs Hq Hmax _ _ _]. unfold send_or_drop.
  rewrite (bind_eq _ _ _ _ _ (bridge_at_eq w p x Hb)), (bind_eq _ _ w (b_os w) w eq_refl), Hq.
  assert (Hsem : forall q', max q' = 1 -> running (put w p (with_sem q' x)) p (with_sem q' x) sb q')
    by (intros q' Hq'; destruct Hr; split; try done; by apply lookup_insert_eq).
  assert (Hsent : forall q', max q' = 1 -> exists w' x', send_rx p len (put w p (with_sem q' x)) = Ret (tt, w') /\
    running w' p x' sb q' /\ cfg x' = cfg x /\ rx_cnt (st x') = u32 (rx_cnt (st x) + len) /\
    (forall j, taken w' j = taken w j ++
       if bool_decide (j = vcp_ch (cfg x)) then take (room w j) (take (Z.to_nat len) (rx_buf x)) else [])).
  { intros q' Hq'. destruct (send_rx_eq _ p _ sb q' len (Hsem q' Hq') Hlen) as (w' & x' & E1 & ? & ? & _ & _ & _ & ? & ?).
    by exists w', x'. }
  destruct (Z.ltb_spec 0 (count q)) as [Hc|Hc].
  - destruct (acquire_now (b_os w) q 100 Hi Hc) as (q' & E1 & _ & M1). rewrite E1.
    rewrite (bind_eq _ _ w (RHSStatusOk, q') w eq_refl), (bind_eq _ _ _ _ _ (update_bridge_eq w p x _ Hb)).
    destruct (Hsent q') as (w' & x' & E2 & ? & ? & ? & ?); [congruence|]. by exists w', x', sb, q'.
  - destruct (acquire_late (b_os w) q 100 Hi) as (r & q' & E1 & M1 & Hcase); [pose proof (count_range q); lia|done|].
    rewrite E1, (bind_eq _ _ w (r, q') w eq_refl), (bind_eq _ _ _ _ _ (update_bridge_eq w p x _ Hb)).
    assert (Hq' : max q' = 1) by congruence. destruct Hcase as [-> | ->].
    + destruct (Hsent q' Hq') as (w' & x' & E2 & ? & ? & ? & ?). exists w', x', sb, q'. split_and!; try done. by left.
    + set (x1 := with_sem q' x). cbn [fst]. rewrite bool_decide_eq_false_2 by done.
      rewrite (bind_eq _ _ _ _ _ (bridge_at_put w p x1)). change (rx_stream x1) with (rx_stream x). rewrite Hs.
      unfold rhs_stream_buffer_reset, with_stream. pose proof (stream_reset sb) as Hres.
      destruct (xStreamBufferReset sb) as [r2 sb2].
      rewrite (bind_eq _ _ (put w p x1) (if r2 =? pdTRUE then RHSStatusOk else RHSStatusError, sb2) (put w p x1) eq_refl), update_put.
      exists (put w p (with_stream_ sb2 x1)), (with_stream_ sb2 x1), sb2, q'. split; [done|].
      split; [destruct Hr; split; try done; by apply lookup_insert_eq|]. split; [done|]. right.
      split; [|done]. destruct (r2 =? pdTRUE); [left; apply Hres|by right].
Qed.

Lemma receive_rx_eq w p x sb q : running w p x sb q -> exists x' sb', let packet := take PKT (stream sb) in
  receive_rx USB_CDC_PKT_LEN p w = Ret (Z.of_nat (length packet), put w p x') /\ running (put w p x') p x' sb' q /\
  cfg x' = cfg x /\ stream sb' = drop PKT (stream sb) /\ take (length packet) (rx_buf x') = packet.
Proof.
  intros Hr. pose proof Hr as [Hb Hi Hs Hq Hmax _ _ Hbuf].
  destruct (receive_eq w p x sb q Hr) as (sb1 & E1 & S1 & Z1). exists (taken_out p w x sb sb1), sb1. intros packet.
  unfold receive_rx. rewrite (bind_eq _ _ _ _ _ (bridge_at_eq w p x Hb)), (bind_eq _ _ w (b_os w) w eq_refl), E1.
  rewrite (bind_eq _ _ w (Z.of_nat (length packet), packet, sb1) w eq_refl), (bind_eq _ _ _ _ _ (update_bridge_eq w p x _ Hb)).
  rewrite u16_small by (unfold packet; rewrite length_take; lia).
  split_and!; try done; [by apply running_taken_out|apply take_app_length].
Qed.

(** *** A byte, and the end of a transfer *)

Definition with_os (s : S) w : world :=
  mkBridgeWorld s (b_notify w) (b_serial w) (b_usb w) (bridges w) (usb_rs232 w) (usb_rs485 w).
Definition with_serial (v : serial_world serial_cb N H) w : world :=
  mkBridgeWorld (b_os w) (b_notify w) v (b_usb w) (bridges w) (usb_rs232 w) (usb_rs485 w).

Lemma on_serial_inv {A} (m : M (serial_world serial_cb N H) A) w a w' : on_serial m w = Ret (a, w') ->
  exists v, m (b_serial w) = Ret (a, v) /\ w' = with_serial v w.
Proof. unfold on_serial. destruct (m (b_serial w)) as [[a' v]| | |]; try done. intros [= -> <-]. by exists v. Qed.

(** Whether the stream has room for a byte. *)
Definition stream_room (sb : B) : bool := Z.of_nat (length (stream sb)) <? stream_size sb.

(** The interrupt of a byte: what the second read of the data register gives goes to the end of
    the stream, unless the stream is full. *)
Lemma serial_rx_cb_eq w p x sb q s id event v1 v2 c1 c : running w p x sb q ->
  RHS_IS_IRQ_MODE s = true -> flag event RHSHalSerialRxEventData = true ->
  rhs_hal_serial_async_rx b (Some id) (b_serial w) = Ret (c1, v1) -> rhs_hal_serial_async_rx b (Some id) v1 = Ret (c, v2) ->
  exists w' sb', serial_rx_cb b id event p (with_os s w) = Ret (tt, w') /\
    running (with_os (b_os w) w') p (with_stream_ sb' x) sb' q /\ stream_size sb' = stream_size sb /\
    stream sb' = stream sb ++ (if stream_room sb then [c] else []) /\
    b_usb w' = b_usb w /\ b_serial w' = v2.
Proof.
  intros Hr Hs Hev R1 R2. destruct Hr as [Hb Hi Hst Hq Hm Hmu Ht Hbuf]. unfold serial_rx_cb. rewrite Hev.
  set (w3 := with_serial v2 (with_os s w)).
  assert (O1 : on_serial (rhs_hal_serial_async_rx b (Some id)) (with_os s w) = Ret (c1, with_serial v1 (with_os s w)))
    by (unfold on_serial; change (b_serial (with_os s w)) with (b_serial w); by rewrite R1).
  assert (O2 : on_serial (rhs_hal_serial_async_rx b (Some id)) (with_serial v1 (with_os s w)) = Ret (c, w3))
    by (unfold on_serial; change (b_serial (with_serial v1 (with_os s w))) with v1; by rewrite R2).
  rewrite (bind_eq _ _ _ _ _ O1), (bind_eq _ _ _ _ _ O2).
  assert (Hb3 : bridges w3 !! p = Some x) by exact Hb.
  rewrite (bind_eq _ _ _ _ _ (bridge_at_eq w3 p x Hb3)), (bind_eq _ _ w3 s w3 eq_refl).
  unfold rhs_stream_buffer_send, with_stream. rewrite Hst, Hs.
  destruct (stream_send sb [c]) as [_ Hsend]; [done|].
  destruct (xStreamBufferSendFromISR sb [c]) as [n sb'] eqn:Es. destruct Hsend as (Hn & Hsb & Hz).
  rewrite (bind_eq _ _ w3 (u16 n, sb') w3 eq_refl).
  rewrite (bind_eq _ _ _ _ _ (update_bridge_eq w3 p x _ Hb3)), (bind_eq _ _ _ _ _ (bridge_at_put w3 p _)).
  change (thread (with_stream_ (u16 n, sb').2 x)) with (thread x).
  rewrite set_flags_eq by apply Ht. eexists _, sb'. split_and!; try done.
  - split; try done. by apply lookup_insert_eq.
  - rewrite Hsb. f_equal. unfold stream_room. pose proof (stream_bounded sb). cbn [length] in *.
    destruct (Z.ltb_spec (Z.of_nat (length (stream sb))) (stream_size sb)).
    + by rewrite Z.min_l by lia.
    + rewrite Z.min_r by lia. by replace (stream_size sb - Z.of_nat (length (stream sb))) with 0 by lia.
Qed.

(** The end of a transfer, for which USB changed its state before: the semaphore is released. *)
Lemma tx_complete_eq w p x sb q u : running w p x sb q -> exists w' q',
  vcp_on_cdc_tx_complete p (set_usb u w) = Ret (tt, w') /\ running w' p (with_sem q' x) sb q' /\ count q' = 1 /\ b_usb w' = u.
Proof.
  intros [Hb Hi Hst Hq Hm Hmu Ht Hbuf]. set (w1 := set_usb u w). unfold vcp_on_cdc_tx_complete.
  assert (Hb1 : bridges w1 !! p = Some x) by exact Hb.
  rewrite (bind_eq _ _ _ _ _ (bridge_at_eq w1 p x Hb1)), (bind_eq _ _ w1 (b_os w) w1 eq_refl), Hq.
  assert (Hrel : exists r q', rhs_semaphore_release (b_os w) (Some q) = Ret (r, q') /\ count q' = 1 /\ max q' = 1).
  { pose proof (count_range q) as [Hc _]. destruct (decide (count q < max q)) as [Hlt|Hge].
    - destruct (release_one (b_os w) q Hlt) as (q' & E1 & C1 & M1). exists RHSStatusOk, q'. split; [done|]. lia.
    - unfold rhs_semaphore_release. rewrite Hi. pose proof (give_spec q) as Hg. destruct (xSemaphoreGive q) as [r q'].
      destruct (Z.ltb_spec (count q) (max q)); [lia|]. destruct Hg as [-> ->]. eexists _, q. split; [done|]. lia. }
  destruct Hrel as (r & q' & E1 & C1 & M1). rewrite E1. rewrite (bind_eq _ _ w1 (r, q') w1 eq_refl).
  rewrite (bind_eq _ _ _ _ _ (update_bridge_eq w1 p x _ Hb1)), set_flags_eq by apply Ht.
  eexists _, q'. split; [done|]. split_and!; try done. split; try done. by apply lookup_insert_eq.
Qed.

(** *** From the host to the serial port *)

Lemma receive_host_eq w p x sb q : running w p x sb q ->
  let host := cdc_waiting (vcp_ch (cfg x)) (tinyusb (b_usb w)) in
  exists x' t, let w' := put (with_tinyusb w t) p x' in receive_host USB_CDC_PKT_LEN p w = Ret (take PKT host, w') /\
  running w' p x' sb q /\ cfg x' = cfg x /\ rx_buf x' = rx_buf x /\ st x' = st x /\ serial_handle x' = serial_handle x /\
  (forall j, taken w' j = taken w j) /\ cdc_waiting (vcp_ch (cfg x)) t = drop PKT host.
Proof.
  intros [Hb Hi Hs Hq Hmax (m & Hm & Hf) Ht Hbuf] host.
  destruct (acquire_eq w p x m (tx_thread x)) as (m1 & E1 & Hh); [done..|apply Ht|done|done|].
  set (x1 := with_mutex m1 x) in *. set (w1 := put w p x1) in *.
  destruct (cdc_receive_eq (vcp_ch (cfg x1)) USB_CDC_PKT_LEN w1) as (t & E2 & Hw & Htk); [lia|].
  destruct (release_eq (with_tinyusb w1 t) p x1 m1 (tx_thread x)) as (m2 & E3 & Hf2); [by apply lookup_insert_eq|done|apply Ht|done|done|].
  exists (with_mutex m2 x1), t. intros w'. split.
  - unfold receive_host. rewrite (bind_eq _ _ _ _ _ (bridge_at_eq w p x Hb)), (bind_eq _ _ _ _ _ E1).
    rewrite (bind_eq _ _ _ _ _ (bridge_at_put w p x1)), (bind_eq _ _ _ _ _ E2), (bind_eq _ _ _ _ _ E3).
    unfold w', w1. change (with_tinyusb (put w p x1) t) with (put (with_tinyusb w t) p x1). by rewrite put_put.
  - split_and!; try done. split; try done; [by apply lookup_insert_eq|by exists m2].
Qed.

(** What a turn with data waiting does after the packet is there. *)
Definition send_host (p : Z) (data : list Z) : M world unit :=
  let len := Z.of_nat (length data) in
  if 0 <? len then
    update_bridge p (fun x => with_st (mkUsbSerialState (rx_cnt (st x)) (u32 (tx_cnt (st x) + len)) (baudrate_cur (st x))) x);;
    x ← bridge_at p; on_serial (rhs_hal_serial_tx b polls (serial_handle x) data (u16 len))
  else mret tt.
Lemma tx_turn_eq w p events data w1 : flag events RHSFlagError = false -> flag events WorkerEvtTxStop = false ->
  flag events WorkerEvtCdcRx = true -> receive_host USB_CDC_PKT_LEN p w = Ret (data, w1) ->
  usb_serial_tx_turn b USB_CDC_PKT_LEN polls p events w = (send_host p data;; mret true) w1.
Proof.
  intros He Hs Hr E1. unfold usb_serial_tx_turn. rewrite He, Hs, Hr. cbn [negb rhs_assert]. rewrite M_bind_ret, bind_assoc.
  by rewrite (bind_eq _ _ _ _ _ E1).
Qed.

(** Whatever a turn of the transmit thread does, it leaves the way to the host as it is. *)
Lemma tx_turn_rx w p x sb q events go w' : running w p x sb q ->
  usb_serial_tx_turn b USB_CDC_PKT_LEN polls p events w = Ret (go, w') ->
  exists x', running w' p x' sb q /\ cfg x' = cfg x /\ rx_buf x' = rx_buf x /\ (forall j, taken w' j = taken w j).
Proof.
  intros Hr E1. destruct (flag events RHSFlagError) eqn:He; [unfold usb_serial_tx_turn in E1; by rewrite He in E1|].
  destruct (flag events WorkerEvtTxStop) eqn:Hs;
    [unfold usb_serial_tx_turn in E1; rewrite He, Hs in E1; injection E1 as <- <-; by exists x|].
  destruct (flag events WorkerEvtCdcRx) eqn:Hc;
    [|unfold usb_serial_tx_turn in E1; rewrite He, Hs, Hc in E1; injection E1 as <- <-; by exists x].
  destruct (receive_host_eq w p x sb q Hr) as (x1 & t & E2 & Hr1 & C1 & B1 & _ & _ & T1 & _).
  rewrite (tx_turn_eq w p events _ _ He Hs Hc E2) in E1. set (w1 := put _ p x1) in *.
  apply bind_returns in E1 as (? & w2 & E1 & [= <- ->]). unfold send_host in E1.
  destruct (0 <? _); [|injection E1 as <- <-; by exists x1].
  rewrite (bind_eq _ _ _ _ _ (update_bridge_eq w1 p x1 _ (r_bridge _ _ _ _ _ Hr1))), (bind_eq _ _ _ _ _ (bridge_at_put w1 p _)) in E1.
  apply on_serial_inv in E1 as (v & _ & ->). eexists (with_st _ x1). split; [|done].
  destruct Hr1. split; try done. by apply lookup_insert_eq.
Qed.

(** What a turn of the transmit thread does with what the host sent, on an open port whose USART
    is on: one packet, in order, and as many bytes counted. *)
Definition port_open w (h : Z) (c : RHSHalSerial serial_cb) : Prop :=
  0 <= h /\ rhs_hal_serial (b_serial w) !! Z.to_nat h = Some c /\ enabled c = true /\
  LL_USART_IsEnabled (rserial_Instance h (serial_hw (b_serial w))) (serial_hw (b_serial w)) = true.

(** A turn of the transmit thread of a running bridge whose serial port is open takes at most
    a packet of what the host sent and is waiting, sends exactly these bytes, in order, on the
    port's USART and nothing on another, counts them, modulo 2^32, leaves the rest waiting, and
    leaves what the device sends to the host and the received bytes alone. *)
Theorem bridge_tx_turn w p x sb q h c events : running w p x sb q -> serial_handle x = Some h -> port_open w h c ->
  (max_txe < polls)%nat ->
  flag events RHSFlagError = false -> flag events WorkerEvtTxStop = false -> flag events WorkerEvtCdcRx = true ->
  let ch := vcp_ch (cfg x) in let host := cdc_waiting ch (tinyusb (b_usb w)) in
  let port := rserial_Instance h (serial_hw (b_serial w)) in
  exists w' x', usb_serial_tx_turn b USB_CDC_PKT_LEN polls p events w = Ret (true, w') /\ running w' p x' sb q /\
  cdc_waiting ch (tinyusb (b_usb w')) = drop PKT host /\
  (if decide (host = []) then tx_cnt (st x') = tx_cnt (st x)
   else tx_cnt (st x') = (tx_cnt (st x) + Z.min USB_CDC_PKT_LEN (Z.of_nat (length host))) mod 2 ^ 32) /\
  (forall u, map fst (uart_out u (serial_hw (b_serial w'))) =
     map fst (uart_out u (serial_hw (b_serial w))) ++ if decide (u = port) then take PKT host else []) /\
  (forall j, taken w' j = taken w j).
Proof.
  intros Hr Hh (Hh0 & Hc & He & Hon) Hp F1 F2 F3 ch host port.
  destruct (receive_host_eq w p x sb q Hr) as (x1 & t & E2 & Hr1 & C1 & B1 & S1 & H1' & T1 & W1). fold ch host in E2, W1.
  rewrite (tx_turn_eq w p events _ _ F1 F2 F3 E2). set (w1 := put _ p x1) in *. unfold send_host.
  rewrite length_take. destruct (decide (host = [])) as [->|Hne].
  - exists w1, x1. cbn [length]. rewrite Nat.min_0_r. split_and!; try done; [by rewrite S1|]. intros u. rewrite take_nil. destruct (decide _); by rewrite app_nil_r.
  - destruct (Z.ltb_spec 0 (Z.of_nat (PKT `min` length host))) as [Hl|Hl]; [|destruct host; [done|cbn in Hl; lia]].
    set (x2 := with_st (mkUsbSerialState (rx_cnt (st x1)) (u32 (tx_cnt (st x1) + Z.of_nat (PKT `min` length host)))
      (baudrate_cur (st x1))) x1).
    set (n := (PKT `min` length host)%nat) in *. assert (Hn : u16 (Z.of_nat n) = Z.of_nat n) by (apply u16_small; lia).
    pose proof (serial_tx_enabled b polls h c (take PKT host) (Z.of_nat n) (b_serial w) Hh0 Hc He Hon Hp) as E3.
    cbn zeta in E3. rewrite Nat2Z.id, (proj2 (Nat.leb_le _ _)) in E3 by (rewrite length_take; lia).
    destruct E3 as (h1 & E3 & O3 & _).
    exists (with_serial (with_hw (b_serial w) h1) (put w1 p x2)), x2. split.
    + rewrite bind_assoc, (bind_eq _ _ _ _ _ (update_bridge_eq w1 p x1 _ (r_bridge _ _ _ _ _ Hr1))). fold x2.
      rewrite bind_assoc, (bind_eq _ _ _ _ _ (bridge_at_put w1 p x2)), Hn. change (serial_handle x2) with (serial_handle x1). rewrite H1', Hh.
      unfold on_serial. cbv [mbind M_bind]. change (b_serial (put w1 p x2)) with (b_serial w). by rewrite E3.
    + split_and!; try done.
      * destruct Hr1. split; try done. by apply lookup_insert_eq.
      * cbn. rewrite S1. unfold u32. do 2 f_equal. lia.
      * intros u. cbn [b_serial with_serial serial_hw with_hw]. rewrite O3, map_app. f_equal. fold port.
        destruct (decide (u = port)); [|done]. rewrite map_map, map_id, take_ge by (rewrite length_take; lia). done.
Qed.

(** *** The way to the host, whatever the order *)

(** Between the wait for the end of the transfer before and its hand-over to USB, a packet is in
    the worker's hands. *)
Inductive worker_phase := Idle | Sending (len : Z).
Definition in_flight (ph : worker_phase) x : list Z :=
  match ph with Idle => [] | Sending len => take (Z.to_nat len) (rx_buf x) end.

(** The steps of the bridge, in any order: the interrupt of a byte, what happens to USB outside of
    it, the end of a transfer, a turn of the transmit thread, and the two halves of the worker's
    turn. A step has the bytes that arrived with it, and whether nothing was lost: there was room
    for the byte, the transfer before had ended, and USB had room for the packet. *)
Inductive bridge_step (p : Z) : world -> worker_phase -> list Z -> bool -> world -> worker_phase -> Prop :=
  | step_byte w ph id event s v1 v2 c1 c w' x sb : bridges w !! p = Some x -> rx_stream x = Some sb ->
      RHS_IS_IRQ_MODE s = true -> flag event RHSHalSerialRxEventData = true ->
      rhs_hal_serial_async_rx b (Some id) (b_serial w) = Ret (c1, v1) -> rhs_hal_serial_async_rx b (Some id) v1 = Ret (c, v2) ->
      serial_rx_cb b id event p (with_os s w) = Ret (tt, w') ->
      bridge_step p w ph [c] (stream_room sb) (with_os (b_os w) w') ph
  | step_hardware w ph v : bridge_step p w ph [] true (with_serial v w) ph
  | step_usb w ph u : (forall j, cdc_taken j (tinyusb u) = taken w j) -> bridge_step p w ph [] true (set_usb u w) ph
  | step_complete w ph w' : vcp_on_cdc_tx_complete p w = Ret (tt, w') -> bridge_step p w ph [] true w' ph
  | step_tx w ph events go w' : usb_serial_tx_turn b USB_CDC_PKT_LEN polls p events w = Ret (go, w') ->
      bridge_step p w ph [] true w' ph
  | step_receive w len w' : receive_rx USB_CDC_PKT_LEN p w = Ret (len, w') ->
      bridge_step p w Idle [] true w' (if 0 <? len then Sending len else Idle)
  | step_send w len w' x q : bridges w !! p = Some x -> tx_sem x = Some q ->
      send_or_drop p len w = Ret (tt, w') ->
      bridge_step p w (Sending len) [] ((0 <? count q) && (len <=? Z.of_nat (room w (vcp_ch (cfg x))))) w' Idle.
Inductive bridge_steps (p : Z) : world -> worker_phase -> list Z -> bool -> world -> worker_phase -> Prop :=
  | bridge_start w ph : bridge_steps p w ph [] true w ph
  | bridge_more w ph l ok w1 ph1 l' ok' w2 ph2 : bridge_steps p w ph l ok w1 ph1 -> bridge_step p w1 ph1 l' ok' w2 ph2 ->
      bridge_steps p w ph (l ++ l') (ok && ok') w2 ph2.

(** What is on the way to the host. *)
Definition on_the_way w (ch : Z) ph x (sb : B) : list Z := taken w ch ++ in_flight ph x ++ stream sb.
Definition phase_ok (ph : worker_phase) : Prop := match ph with Idle => True | Sending len => 0 <= len <= USB_CDC_PKT_LEN end.

Lemma bridge_step_inv p w ph l ok w' ph' x sb q : bridge_step p w ph l ok w' ph' -> running w p x sb q -> phase_ok ph ->
  exists x' sb' q', running w' p x' sb' q' /\ phase_ok ph' /\ cfg x' = cfg x /\
  let ch := vcp_ch (cfg x) in
  (forall j, j <> ch -> taken w' j = taken w j) /\
  sublist (on_the_way w' ch ph' x' sb') (on_the_way w ch ph x sb ++ l) /\
  (ok = true -> on_the_way w' ch ph' x' sb' = on_the_way w ch ph x sb ++ l).
Proof.
  intros Hst Hr Hph. assert (Hkeep : forall w' ph' x' sb' q', running w' p x' sb' q' -> phase_ok ph' -> cfg x' = cfg x ->
    (forall j, taken w' j = taken w j) -> in_flight ph' x' ++ stream sb' = in_flight ph x ++ stream sb ->
    exists x' sb' q', running w' p x' sb' q' /\ phase_ok ph' /\ cfg x' = cfg x /\
    let ch := vcp_ch (cfg x) in
    (forall j, j <> ch -> taken w' j = taken w j) /\
    sublist (on_the_way w' ch ph' x' sb') (on_the_way w ch ph x sb ++ []) /\
    (true = true -> on_the_way w' ch ph' x' sb' = on_the_way w ch ph x sb ++ [])).
  { intros w2 ph2 x2 sb2 q2 Hr2 Hp2 C2 T2 F2. exists x2, sb2, q2. split_and!; try done.
    unfold on_the_way. rewrite T2, F2, app_nil_r. by split_and!. }
  destruct Hst as [w ph id event s v1 v2 c1 c w' x0 sb0 Hx0 Hs0 Hs Hev R1 R2 E1|w ph v|w ph u Hu|w ph w' E1|w ph events go w' E1
    |w len w' E1|w len w' x0 q0 Hx0 Hq0 E1].
  - destruct (serial_rx_cb_eq w p x sb q s id event v1 v2 c1 c Hr Hs Hev R1 R2) as (w2 & sb2 & E2 & Hr2 & Hz & S2 & U2 & _).
    assert (w2 = w') as -> by congruence. assert (sb0 = sb) as -> by (destruct Hr; congruence).
    exists (with_stream_ sb2 x), sb2, q. split_and!; try done. cbn zeta.
    assert (HT : forall j, taken (with_os (b_os w) w') j = taken w j) by (intros j; unfold taken; cbn; by rewrite U2).
    split; [by intros j _|].
    assert (HF : in_flight ph (with_stream_ sb2 x) = in_flight ph x) by by destruct ph.
    unfold on_the_way. rewrite HT, HF, S2, <- !app_assoc. destruct (stream_room sb); [done|].
    split; [|done]. repeat apply sublist_app; try done. apply sublist_nil_l.
  - apply (Hkeep _ _ x sb q); try done. by destruct Hr.
  - apply (Hkeep _ _ x sb q); try done. by destruct Hr.
  - destruct (tx_complete_eq w p x sb q (b_usb w) Hr) as (w2 & q2 & E2 & Hr2 & _ & U2).
    assert (w2 = w') as ->.
    { unfold set_usb, bridge_has_usb in E2. cbn [b_usb] in E2. replace (mkBridgeWorld _ _ _ _ _ _ _) with w in E2 by by destruct w. congruence. }
    apply (Hkeep _ _ (with_sem q2 x) sb q2); try done. intros j. unfold taken. by rewrite U2.
  - destruct (tx_turn_rx w p x sb q events go w' Hr E1) as (x' & Hr' & ? & B' & ?). apply (Hkeep _ _ x' sb q); try done.
    destruct ph; [done|]. cbn. by rewrite B'.
  - destruct (receive_rx_eq w p x sb q Hr) as (x1 & sb1 & E2 & Hr1 & C1 & S1 & P1). rewrite E2 in E1. injection E1 as <- <-.
    assert (Hlen : 0 <= Z.of_nat (length (take PKT (stream sb))) <= USB_CDC_PKT_LEN) by (rewrite length_take; lia).
    apply (Hkeep _ _ x1 sb1 q); try done; [by destruct (0 <? _)|]. cbn [in_flight app]. rewrite S1.
    transitivity (take PKT (stream sb) ++ drop PKT (stream sb)); [f_equal|apply take_drop].
    destruct (Z.ltb_spec 0 (Z.of_nat (length (take PKT (stream sb))))) as [?|Hz]; cbn [in_flight]; [by rewrite Nat2Z.id|].
    destruct (take PKT (stream sb)); [done|]. cbn in Hz. lia.
  - destruct (send_or_drop_eq w p x sb q len Hr Hph) as (w2 & x2 & sb2 & q2 & E2 & Hr2 & C2 & Hout).
    assert (w2 = w') as -> by congruence. assert (x0 = x) as -> by (destruct Hr; congruence).
    assert (q0 = q) as -> by (destruct Hr; congruence). exists x2, sb2, q2. split_and!; try done. cbn zeta in *.
    unfold on_the_way. cbn [in_flight app]. rewrite app_nil_r. set (ch := vcp_ch (cfg x)) in *.
    set (packet := take (Z.to_nat len) (rx_buf x)) in *.
    assert (Hpk : (length packet <= Z.to_nat len)%nat) by (unfold packet; rewrite length_take; lia).
    assert (Hout' : (stream sb2 = stream sb /\ forall j, taken w' j = taken w j ++ if bool_decide (j = ch) then take (room w ch) packet else [])
      \/ ((0 <? count q) = false /\ (stream sb2 = [] \/ sb2 = sb) /\ forall j, taken w' j = taken w j)).
    { assert (Hs : forall P : Prop, (stream sb2 = stream sb /\ P /\ forall j, taken w' j = taken w j ++
          if bool_decide (j = ch) then take (room w j) packet else []) ->
        stream sb2 = stream sb /\ forall j, taken w' j = taken w j ++ if bool_decide (j = ch) then take (room w ch) packet else []).
      { intros P (? & _ & HT). split; [done|]. intros j. rewrite HT. by case_bool_decide; subst. }
      destruct (0 <? count q); [left; by eapply Hs|]. destruct Hout as [Hout|Hout]; [left; by eapply Hs|right; tauto]. }
    clear Hout. destruct Hout' as [[HS HT]|(-> & HS & HT)].
    + split; [intros j Hj; by rewrite HT, bool_decide_eq_false_2, app_nil_r by done|].
      rewrite HT, HS, bool_decide_eq_true_2, <- app_assoc by done. split.
      * repeat apply sublist_app; try done. apply sublist_take.
      * intros (_ & Hl%Z.leb_le)%andb_prop. do 2 f_equal. apply take_ge. lia.
    + split; [by intros j _|]. rewrite HT. split; [|done]. apply sublist_app; [done|].
      destruct HS as [-> | ->]; [apply sublist_nil_l|]. by apply sublist_inserts_l.
Qed.

(** C24: However the steps of a running bridge interleave - interrupts of the serial port, USB's own
    steps and callbacks, turns of the transmit thread, the worker's halves of a turn - what the
    device has sent to the host, followed by what is on the way, is a subsequence of what had been
    sent and was waiting followed by the bytes that arrived, in their order: no byte is sent
    twice, invented, or overtakes another. If every byte found room in the stream, every transfer
    ended before the next and USB had room for each packet, it is exactly that: nothing is lost.
    Nothing is sent on another serial port of the device, and the bridge goes on running. *)
Theorem bridge_rx_path w p x sb q l ok w' ph : running w p x sb q -> bridge_steps p w Idle l ok w' ph ->
  exists x' sb' q', running w' p x' sb' q' /\
  let ch := vcp_ch (cfg x) in
  (forall j, j <> ch -> taken w' j = taken w j) /\
  sublist (taken w' ch ++ in_flight ph x' ++ stream sb') (taken w ch ++ stream sb ++ l) /\
  (ok = true -> taken w' ch ++ in_flight ph x' ++ stream sb' = taken w ch ++ stream sb ++ l).
Proof.
  intros Hr Hs. enough (phase_ok ph /\ exists x' sb' q', running w' p x' sb' q' /\ cfg x' = cfg x /\
    let ch := vcp_ch (cfg x) in (forall j, j <> ch -> taken w' j = taken w j) /\
    sublist (on_the_way w' ch ph x' sb') (on_the_way w ch Idle x sb ++ l) /\
    (ok = true -> on_the_way w' ch ph x' sb' = on_the_way w ch Idle x sb ++ l)) as (_ & x' & sb' & q' & ? & _ & HT & HS & HE).
  { exists x', sb', q'. unfold on_the_way in *. cbn [in_flight app] in *. by rewrite <- app_assoc in HS, HE. }
  remember Idle as ph0 eqn:Eph in Hs. induction Hs as [w ph0|w ph0 l ok w1 ph1 l' ok' w2 ph2 Hs IH Hstep]; subst ph0.
  - split; [done|]. exists x, sb, q. cbn zeta. rewrite app_nil_r. done.
  - destruct (IH Hr eq_refl) as (Hp1 & x1 & sb1 & q1 & Hr1 & C1 & HT1 & HS1 & HE1).
    destruct (bridge_step_inv p w1 ph1 l' ok' w2 ph2 x1 sb1 q1 Hstep Hr1 Hp1) as (x2 & sb2 & q2 & Hr2 & Hp2 & C2 & HT2 & HS2 & HE2).
    cbn zeta in *. rewrite C1 in HT2, HS2, HE2.
    split; [done|]. exists x2, sb2, q2. split_and!; try done; [by rewrite C2|..].
    + intros j Hj. by rewrite HT2, HT1.
    + etransitivity; [exact HS2|]. rewrite (app_assoc _ l l'). by apply sublist_app.
    + intros (-> & ->)%andb_prop. rewrite HE2, HE1 by done. by rewrite app_assoc.
Qed.

(** *** The end of the bridge *)

Context (run_other_arg : Z -> Z -> Z -> M world unit).
Abbreviation worker_close := (usb_serial_worker_close b max_syscall_priority run_other_arg).

(** C28: The worker closes its serial port before it stops the transmit thread: until it does, a turn of
    that thread for which the host's data are waiting dereferences the NULL handle; and without data
    the turn does nothing. *)
Theorem bridge_close_race w p w1 x sb q events : worker_close p w = Ret (tt, w1) -> running w1 p x sb q ->
  flag events RHSFlagError = false -> flag events WorkerEvtTxStop = false -> flag events WorkerEvtCdcRx = true ->
  serial_handle x = None /\
  if decide (cdc_waiting (vcp_ch (cfg x)) (tinyusb (b_usb w1)) = []) then
    exists w2, usb_serial_tx_turn b USB_CDC_PKT_LEN polls p events w1 = Ret (true, w2) /\ b_serial w2 = b_serial w1
  else usb_serial_tx_turn b USB_CDC_PKT_LEN polls p events w1 = Fault.
Proof.
  intros Hclose Hr F1 F2 F3.
  assert (Hnone : serial_handle x = None).
  { unfold usb_serial_worker_close, usb_uart_serial_deinit in Hclose.
    apply bind_returns in Hclose as (? & ? & _ & Hclose). apply bind_returns in Hclose as (? & ? & _ & Hclose).
    apply bind_returns in Hclose as (? & ? & _ & Hclose). apply bind_returns in Hclose as (? & w3 & _ & Hclose).
    unfold update_bridge in Hclose. apply bind_returns in Hclose as (y & w4 & Hy & [= <-]).
    destruct Hr as [Hb _ _ _ _ _ _ _]. cbn in Hb. rewrite lookup_insert_eq in Hb. by injection Hb as <-. }
  split; [done|]. destruct (receive_host_eq w1 p x sb q Hr) as (x1 & t & E2 & Hr1 & C1 & B1 & S1 & H1' & T1 & W1).
  rewrite (tx_turn_eq w1 p events _ _ F1 F2 F3 E2). set (w2 := put _ p x1) in *. unfold send_host. rewrite length_take.
  destruct (decide _) as [->|Hne].
  - cbn [length]. rewrite Nat.min_0_r. by exists w2.
  - set (host := cdc_waiting _ _) in *.
    destruct (Z.ltb_spec 0 (Z.of_nat (PKT `min` length host))) as [Hl|Hl]; [|destruct host; [done|cbn in Hl; lia]].
    rewrite bind_assoc, (bind_eq _ _ _ _ _ (update_bridge_eq w2 p x1 _ (r_bridge _ _ _ _ _ Hr1))).
    rewrite bind_assoc, (bind_eq _ _ _ _ _ (bridge_at_put w2 p _)).
    change (serial_handle (with_st _ x1)) with (serial_handle x1). rewrite H1', Hnone. done.
Qed.
End theorems.

(** ** A bridge to instantiate the theorems with *)

Abbreviation plain_bridge := (UsbSerialBridge bytes_buffer plain_mutex plain_sem group).
Abbreviation plain_world :=
  (bridge_world os_state notify_state simple_nvic uart_hw plain_cdc bytes_buffer plain_mutex plain_sem group).

Definition a_config : UsbSerialConfig := mkUsbSerialConfig 1 RHSHalSerialIdRS485 0 0 115200 0.
(** A running bridge with the RS485 port open: [l] is in its stream. *)
Definition a_bridge (l : list Z) : plain_bridge :=
  mkUsbSerialBridge a_config a_config 7 8 (Some (mkBytes l 320)) (Some 1) (Some (mkMutex queueQUEUE_TYPE_MUTEX 0 0))
    (Some (mkSem 1 1)) (mkUsbSerialState 0 0 115200) None (replicate 64 0).
Definition rs485_port (on : bool) : RHSHalSerial serial_cb := mkSerial 0 0 0 on None None None None 0 0.
Definition a_world (l host : list Z) : plain_world :=
  mkBridgeWorld a_task (mkNotify (fun _ => 0) (fun _ => false) 0 (fun _ => []))
    (mkSerialWorld (mkInterrupt (repeat (mkPair None null_context) (length (interrupt_ids BMPLC_L))) 0 nvic0)
      [rs485_port false; rs485_port true; rs485_port false] (mkUart 0 (fun _ => []) false 1))
    (mkUsb (mkCdc (fun _ => []) 64 (fun j => if j =? 1 then host else [])) cdc_descriptors None false [None; Some cdc_cb] [0; 16] [0; 0] false)
    {[ 16 := a_bridge l ]} 0 16.
Lemma a_world_running l host : Z.of_nat (length l) <= 320 -> running 64 (a_world l host) 16 (a_bridge l) (mkBytes l 320) (mkSem 1 1).
Proof. intros Hl. split; try done. by exists (mkMutex queueQUEUE_TYPE_MUTEX 0 0). Defined.

Lemma bridge_tx_turn_witness : exists w' (x' : plain_bridge),
  usb_serial_tx_turn BMPLC_L 64 3 16 WorkerEvtCdcRx (a_world [] [1; 2; 3]) = Ret (true, w') /\
  tx_cnt (st x') = 3 /\ map fst (uart_out UART5 (serial_hw (b_serial w'))) = [1; 2; 3].
Proof.
  destruct (bridge_tx_turn BMPLC_L 64 3 ltac:(lia) (a_world [] [1; 2; 3]) 16 (a_bridge []) (mkBytes [] 320) (mkSem 1 1) 1
    (rs485_port true) WorkerEvtCdcRx (a_world_running [] [1; 2; 3] ltac:(cbn; lia)) eq_refl)
    as (w' & x' & E1 & _ & _ & Htx & Hout & _); [done|by vm_compute; lia|done..|].
  exists w', x'. split; [exact E1|]. split; [exact Htx|]. exact (Hout UART5).
Defined.

Definition irq_task : os_state := mkOs 55 0 true 0 0 0 0.
Definition after {W A} (m : M W A) (w : W) : W := match m w with Ret (_, w') => w' | _ => w end.
(** A byte arrives while another waits, the worker takes both and sends them. *)
Definition rx_world1 : plain_world :=
  with_os a_task (after (serial_rx_cb BMPLC_L 1 RHSHalSerialRxEventData 16) (with_os irq_task (a_world [64] []))).
Definition rx_world2 : plain_world := after (receive_rx 64 16) rx_world1.
Lemma rx_witness_step1 : bridge_step BMPLC_L 64 3 16 (a_world [64] []) Idle [65] (stream_room (mkBytes [64] 320)) rx_world1 Idle.
Proof.
  eapply (step_byte BMPLC_L 64 3 16 (a_world [64] []) Idle 1 RHSHalSerialRxEventData irq_task _ _ _ _
    (after (serial_rx_cb BMPLC_L 1 RHSHalSerialRxEventData 16) (with_os irq_task (a_world [64] []))) (a_bridge [64])); reflexivity.
Defined.
Lemma rx_witness_step2 : bridge_step BMPLC_L 64 3 16 rx_world1 Idle [] true rx_world2 (if 0 <? 2 then Sending 2 else Idle).
Proof. apply step_receive. reflexivity. Defined.
Lemma rx_witness_running : exists x, running 64 rx_world2 16 x (mkBytes [] 320) (mkSem 1 1) /\ vcp_ch (cfg x) = 1.
Proof. eexists. split; [split; try reflexivity; try done; by exists (mkMutex queueQUEUE_TYPE_MUTEX 0 0)|reflexivity]. Defined.
Lemma rx_witness_step3 : exists w3 x' sb', bridge_step BMPLC_L 64 3 16 rx_world2 (Sending 2) [] true w3 Idle /\
  bridges w3 !! 16 = Some x' /\ rx_stream x' = Some sb' /\ bb_stream sb' = [].
Proof.
  destruct rx_witness_running as (x & Hr & Hc).
  destruct (send_or_drop_eq 64 ltac:(lia) rx_world2 16 x _ _ 2 Hr ltac:(lia)) as (w3 & x' & sb' & q' & E1 & [Hb _ Hs _ _ _ _ _] & _ & Hsb & _).
  exists w3, x', sb'. split_and!; try done.
  assert (Hok : (0 <? count (mkSem 1 1)) && (2 <=? Z.of_nat (room rx_world2 (vcp_ch (cfg x)))) = true) by by rewrite Hc.
  rewrite <- Hok. destruct Hr. by eapply step_send.
Defined.

Lemma bridge_rx_path_witness : exists w3,
  bridge_steps BMPLC_L 64 3 16 (a_world [64] []) Idle [65] true w3 Idle /\ cdc_taken 1 (tinyusb (b_usb w3)) = [64; 65].
Proof.
  destruct rx_witness_step3 as (w3 & y & sy & H3 & Hy & Sy & Ey). exists w3.
  assert (Hs : bridge_steps BMPLC_L 64 3 16 (a_world [64] []) Idle ((([] ++ [65]) ++ []) ++ []) (((true && true) && true) && true) w3 Idle).
  { exact (bridge_more _ _ _ _ _ _ _ _ _ _ _ _ _ _ (bridge_more _ _ _ _ _ _ _ _ _ _ _ _ _ _
      (bridge_more _ _ _ _ _ _ _ _ _ _ _ _ _ _ (bridge_start _ _ _ _ _ _) rx_witness_step1) rx_witness_step2) H3). }
  cbn [app andb] in Hs. split; [exact Hs|].
  destruct (bridge_rx_path BMPLC_L 64 3 ltac:(lia) (a_world [64] []) 16 (a_bridge [64]) (mkBytes [64] 320) (mkSem 1 1) [65] true w3 Idle
    (a_world_running [64] [] ltac:(cbn; lia)) Hs) as (x' & sb' & q' & Hr & _ & _ & HE).
  specialize (HE eq_refl). destruct Hr as [Hb _ Hst _ _ _ _ _].
  rewrite Hy in Hb. injection Hb as <-. rewrite Sy in Hst. injection Hst as <-.
  change (stream sy) with (bb_stream sy) in HE. rewrite Ey in HE. cbn [in_flight app] in HE. by rewrite app_nil_r in HE.
Defined.

Lemma close_witness_vcp : exists w1, usb_serial_vcp_deinit (fun _ _ _ => mret tt) 1 (a_world [] [1; 2; 3]) = Ret (tt, w1) /\
  bridges w1 = {[ 16 := a_bridge [] ]} /\ b_serial w1 = b_serial (a_world [] []) /\ b_os w1 = a_task /\
  c_waiting (tinyusb (b_usb w1)) 1 = [1; 2; 3].
Proof. eexists. split; [lazy; reflexivity|]. split_and!; reflexivity. Defined.

Lemma bridge_close_race_witness : exists w1,
  usb_serial_worker_close BMPLC_L 5 (fun _ _ _ => mret tt) 16 (a_world [] [1; 2; 3]) = Ret (tt, w1) /\
  usb_serial_tx_turn BMPLC_L 64 3 16 WorkerEvtCdcRx w1 = Fault.
Proof.
  destruct close_witness_vcp as (w1 & E1 & B1 & V1 & O1 & C1).
  assert (Hb : bridges w1 !! 16 = Some (a_bridge [])) by (rewrite B1; apply lookup_singleton_eq).
  destruct (serial_deinit_eq BMPLC_L 5 eq_refl 1 (rs485_port true) (b_serial w1)) as (v & E2 & _ & _);
    [by rewrite V1|by right|by rewrite V1|done|].
  set (w2 := put (with_serial v w1) 16 (with_handle None (a_bridge []))).
  assert (Hr : running 64 w2 16 (with_handle None (a_bridge [])) (mkBytes [] 320) (mkSem 1 1)).
  { clear E1 E2. split; [apply lookup_insert_eq|change (b_os w2) with (b_os w1); by rewrite O1|reflexivity..| |done|reflexivity].
    by exists (mkMutex queueQUEUE_TYPE_MUTEX 0 0). }
  assert (E3 : usb_serial_worker_close BMPLC_L 5 (fun _ _ _ => mret tt) 16 (a_world [] [1; 2; 3]) = Ret (tt, w2)).
  { unfold usb_serial_worker_close, usb_uart_serial_deinit.
    rewrite (bind_eq _ _ _ _ _ (bridge_at_eq (a_world [] [1; 2; 3]) 16 (a_bridge []) eq_refl)).
    change (vcp_ch (cfg (a_bridge []))) with 1. rewrite (bind_eq _ _ _ _ _ E1), (bind_eq _ _ _ _ _ (bridge_at_eq w1 16 _ Hb)).
    assert (E4 : on_serial (rhs_hal_serial_deinit BMPLC_L 5 (Some 1)) w1 = Ret (tt, with_serial v w1)) by (unfold on_serial; by rewrite E2).
    change (serial_handle (a_bridge [])) with (Some 1). rewrite (bind_eq _ _ _ _ _ E4). by apply update_bridge_eq. }
  exists w2. split; [exact E3|].
  destruct (bridge_close_race BMPLC_L 5 64 3 ltac:(lia) (fun _ _ _ => mret tt) (a_world [] [1; 2; 3]) 16 w2
    (with_handle None (a_bridge [])) (mkBytes [] 320) (mkSem 1 1) WorkerEvtCdcRx E3 Hr eq_refl eq_refl eq_refl) as [_ Hrace].
  change (cdc_waiting _ _) with (c_waiting (tinyusb (b_usb w1)) 1) in Hrace. rewrite C1 in Hrace. exact Hrace.
Defined.
