(* ===== verification/UsbDesc.v ===== *)
(** * USB descriptors (net/usb_cdc_net, net/usb_eth_bridge, rhs_hal_usb_cdc.c)

    The constants that the three interfaces of the USB device describe themselves with, the
    callbacks that serve them, and the strings of each interface under the callback of [Usb].
    TinyUSB's macros and constants are the class [TudMacros]. *)

From S2P Require Import Prelude Usb.

(** The descriptor macros, as the bytes they expand to; [CFG_TUD_*] is the configuration. *)
Class TudMacros := {
  CFG_TUD_CDC : Z; CFG_TUD_MSC : Z; CFG_TUD_HID : Z; CFG_TUD_MIDI : Z; CFG_TUD_VENDOR : Z;
  CFG_TUD_ECM_RNDIS : bool; CFG_TUD_NCM : bool;
  CFG_TUD_ENDPOINT0_SIZE : Z; CFG_TUD_CDC_EP_BUFSIZE : Z; CFG_TUD_NET_MTU : Z;
  STRID_MANUFACTURER : Z; STRID_PRODUCT : Z; STRID_INTERFACE : Z;
  sizeof_tusb_desc_device_t : Z; sizeof_tusb_desc_device_qualifier_t : Z; TUSB_DESC_DEVICE : Z; TUSB_DESC_DEVICE_QUALIFIER : Z; TUSB_CLASS_MISC : Z; MISC_SUBCLASS_COMMON : Z; MISC_PROTOCOL_IAD : Z;
  TUSB_DESC_OTHER_SPEED_CONFIG : Z; CONTROL_STAGE_SETUP : Z; TUSB_REQ_TYPE_VENDOR : Z;
  (** Configuration number, interfaces, string, total length, attributes, power. *)
  TUD_CONFIG_DESCRIPTOR : Z -> Z -> Z -> Z -> Z -> Z -> list Z;
  TUD_CONFIG_DESC_LEN : nat;
  (** Interface, string, notification endpoint and its size, data endpoints out and in, their size. *)
  TUD_CDC_DESCRIPTOR : Z -> Z -> Z -> Z -> Z -> Z -> Z -> list Z;
  TUD_CDC_DESC_LEN : nat;
  TUD_RNDIS_DESCRIPTOR : Z -> Z -> Z -> Z -> Z -> Z -> Z -> list Z;
  TUD_RNDIS_DESC_LEN : nat;
  (** With the string of the MAC address after the first, and the segment size. *)
  TUD_CDC_ECM_DESCRIPTOR : Z -> Z -> Z -> Z -> Z -> Z -> Z -> Z -> Z -> list Z;
  TUD_CDC_ECM_DESC_LEN : nat;
  TUD_CDC_NCM_DESCRIPTOR : Z -> Z -> Z -> Z -> Z -> Z -> Z -> Z -> Z -> Z -> Z -> list Z;
  TUD_CDC_NCM_DESC_LEN : nat;
  NCM_NETWORK_CAPS_ETH_FILTER : Z; NCM_NETWORK_CAPS_NTB_INPUT_SIZE : Z;
  (** Little-endian bytes of a number. *)
  U16_TO_U8S_LE : Z -> list Z;
  U32_TO_U8S_LE : Z -> list Z;
  (** Total length, capabilities; and the set's length, vendor code. *)
  TUD_BOS_DESCRIPTOR : Z -> Z -> list Z;
  TUD_BOS_DESC_LEN : nat;
  TUD_BOS_MS_OS_20_DESCRIPTOR : Z -> Z -> list Z;
  TUD_BOS_MICROSOFT_OS_DESC_LEN : nat;
  MS_OS_20_SET_HEADER_DESCRIPTOR : Z; MS_OS_20_SUBSET_HEADER_CONFIGURATION : Z; MS_OS_20_SUBSET_HEADER_FUNCTION : Z;
  MS_OS_20_FEATURE_COMPATBLE_ID : Z; MS_OS_20_FEATURE_REG_PROPERTY : Z
}.

Section descriptors.
Context `{UsbConfig} `{tm : TudMacros}.

(** ** Device descriptors *)

Record tusb_desc_device_t := mkDevice {
  bLength : Z; bDescriptorType : Z; bcdUSB : Z; bDeviceClass : Z; bDeviceSubClass : Z; bDeviceProtocol : Z;
  bMaxPacketSize0 : Z; idVendor : Z; idProduct : Z; bcdDevice : Z; iManufacturer : Z; iProduct : Z; iSerialNumber : Z;
  device_configurations : Z }.

Definition PID_MAP (cfg n : Z) : Z := Z.shiftl cfg n.
Definition USB_PID : Z :=
  Z.lor (Z.lor (Z.lor (Z.lor (Z.lor (Z.lor (Z.lor 0x4000 (PID_MAP CFG_TUD_CDC 0)) (PID_MAP CFG_TUD_MSC 1)) (PID_MAP CFG_TUD_HID 2))
    (PID_MAP CFG_TUD_MIDI 3)) (PID_MAP CFG_TUD_VENDOR 4)) (PID_MAP (Z.b2z CFG_TUD_ECM_RNDIS) 5)) (PID_MAP (Z.b2z CFG_TUD_NCM) 5).
Definition USB_BCD : Z := if CFG_TUD_NCM then 0x0201 else 0x0200.

Definition ITF_NUM_CDC : Z := 0.
Definition ITF_NUM_TOTAL : Z := 2.
Definition CONFIG_ID_ECM : Z := 0.
Definition CONFIG_ID_RNDIS : Z := 1.
Definition CONFIG_ID_NCM : Z := 0.
Definition CONFIG_ID_COUNT : Z := if CFG_TUD_ECM_RNDIS then 2 else 1.

Definition misc_device (bcd vendor product configurations : Z) : tusb_desc_device_t :=
  mkDevice sizeof_tusb_desc_device_t TUSB_DESC_DEVICE bcd TUSB_CLASS_MISC MISC_SUBCLASS_COMMON MISC_PROTOCOL_IAD
    CFG_TUD_ENDPOINT0_SIZE vendor product 0x0101 STRID_MANUFACTURER STRID_PRODUCT STRID_SERIAL configurations.
Definition desc_cdc_net : tusb_desc_device_t := misc_device USB_BCD 0xCafe USB_PID CONFIG_ID_COUNT.
Definition desc_bridge : tusb_desc_device_t := misc_device USB_BCD 0xCafe USB_PID CONFIG_ID_COUNT.
Definition desc_device_cdc : tusb_desc_device_t := misc_device 0x0200 0x0483 0x5740 1.

Record tusb_desc_device_qualifier_t := mkQualifier {
  q_bLength : Z; q_bDescriptorType : Z; q_bcdUSB : Z; q_bDeviceClass : Z; q_bDeviceSubClass : Z; q_bDeviceProtocol : Z;
  q_bMaxPacketSize0 : Z; q_bNumConfigurations : Z; q_bReserved : Z }.
Definition desc_device_qualifier : tusb_desc_device_qualifier_t :=
  mkQualifier sizeof_tusb_desc_device_qualifier_t TUSB_DESC_DEVICE_QUALIFIER USB_BCD TUSB_CLASS_MISC MISC_SUBCLASS_COMMON
    MISC_PROTOCOL_IAD CFG_TUD_ENDPOINT0_SIZE CONFIG_ID_COUNT 0x00.
Definition tud_descriptor_device_qualifier_cb : tusb_desc_device_qualifier_t := desc_device_qualifier.

(** ** Configurations *)

Definition EPNUM_NET_NOTIF : Z := 0x81.
Definition EPNUM_NET_OUT : Z := 0x02.
Definition EPNUM_NET_IN : Z := 0x82.
Definition MAIN_CONFIG_TOTAL_LEN : nat := TUD_CONFIG_DESC_LEN + TUD_RNDIS_DESC_LEN.
Definition ALT_CONFIG_TOTAL_LEN : nat := TUD_CONFIG_DESC_LEN + TUD_CDC_ECM_DESC_LEN.
Definition NCM_CONFIG_TOTAL_LEN : nat := TUD_CONFIG_DESC_LEN + TUD_CDC_NCM_DESC_LEN.

(** The endpoints' size is 64 at full speed and 512 at high speed. *)
Definition rndis_configuration (size : Z) : list Z :=
  TUD_CONFIG_DESCRIPTOR (CONFIG_ID_RNDIS + 1) ITF_NUM_TOTAL 0 (Z.of_nat MAIN_CONFIG_TOTAL_LEN) 0 100 ++
  TUD_RNDIS_DESCRIPTOR ITF_NUM_CDC STRID_INTERFACE EPNUM_NET_NOTIF 8 EPNUM_NET_OUT EPNUM_NET_IN size.
Definition ecm_configuration (size : Z) : list Z :=
  TUD_CONFIG_DESCRIPTOR (CONFIG_ID_ECM + 1) ITF_NUM_TOTAL 0 (Z.of_nat ALT_CONFIG_TOTAL_LEN) 0 100 ++
  TUD_CDC_ECM_DESCRIPTOR ITF_NUM_CDC STRID_INTERFACE STRID_MAC EPNUM_NET_NOTIF 64 EPNUM_NET_OUT EPNUM_NET_IN size CFG_TUD_NET_MTU.
Definition ncm_configuration (size interval : Z) : list Z :=
  TUD_CONFIG_DESCRIPTOR (CONFIG_ID_NCM + 1) ITF_NUM_TOTAL 0 (Z.of_nat NCM_CONFIG_TOTAL_LEN) 0 100 ++
  TUD_CDC_NCM_DESCRIPTOR ITF_NUM_CDC STRID_INTERFACE STRID_MAC EPNUM_NET_NOTIF 64 EPNUM_NET_OUT EPNUM_NET_IN size CFG_TUD_NET_MTU
    interval (u8 (Z.lor (u8 NCM_NETWORK_CAPS_ETH_FILTER) (u8 NCM_NETWORK_CAPS_NTB_INPUT_SIZE))).

Definition rndis_fs_configuration : list Z := rndis_configuration 64.
Definition ecm_fs_configuration : list Z := ecm_configuration 64.
Definition ncm_fs_configuration : list Z := ncm_configuration 64 50.
Definition rndis_hs_configuration : list Z := rndis_configuration 512.
Definition ecm_hs_configuration : list Z := ecm_configuration 512.
Definition ncm_hs_configuration : list Z := ncm_configuration 512 9.
Definition configuration_fs_arr : list (list Z) :=
  if CFG_TUD_ECM_RNDIS then [ecm_fs_configuration; rndis_fs_configuration] else [ncm_fs_configuration].
Definition configuration_hs_arr : list (list Z) :=
  if CFG_TUD_ECM_RNDIS then [ecm_hs_configuration; rndis_hs_configuration] else [ncm_hs_configuration].
Definition configuration_sz_arr : list nat :=
  if CFG_TUD_ECM_RNDIS then [ALT_CONFIG_TOTAL_LEN; MAIN_CONFIG_TOTAL_LEN] else [NCM_CONFIG_TOTAL_LEN].
Definition MAX_CONFIG_TOTAL_LEN : nat :=
  if CFG_TUD_ECM_RNDIS then Nat.max MAIN_CONFIG_TOTAL_LEN ALT_CONFIG_TOTAL_LEN else NCM_CONFIG_TOTAL_LEN.
(** usb_eth_bridge.c has its own. *)
Definition rndis_fs_cfg : list Z := rndis_configuration 64.
Definition ecm_fs_cfg : list Z := ecm_configuration 64.
Definition ncm_fs_cfg : list Z := ncm_configuration 64 50.
Definition bridge_cfg_arr : list (list Z) := if CFG_TUD_ECM_RNDIS then [ecm_fs_cfg; rndis_fs_cfg] else [ncm_fs_cfg].

Definition ITF_NUM_TOTAL_DUAL_CDC : Z := 4.
Definition DUAL_CDC_CONFIG_TOTAL_LEN : Z := Z.of_nat TUD_CONFIG_DESC_LEN + CFG_TUD_CDC * Z.of_nat TUD_CDC_DESC_LEN.
Definition dual_cdc_configuration : list Z :=
  TUD_CONFIG_DESCRIPTOR 1 ITF_NUM_TOTAL_DUAL_CDC 0 DUAL_CDC_CONFIG_TOTAL_LEN 0 100 ++
  TUD_CDC_DESCRIPTOR 0 4 0x81 16 0x02 0x82 CFG_TUD_CDC_EP_BUFSIZE ++
  TUD_CDC_DESCRIPTOR 2 4 0x83 16 0x04 0x84 CFG_TUD_CDC_EP_BUFSIZE.

(** [memcpy(dst, src, n)], and the write after it. *)
Definition copy_config (dst src : list Z) (n : nat) : outcome (list Z) :=
  if (n <=? length src)%nat && (n <=? length dst)%nat then aset (take n src ++ drop n dst) 1 TUSB_DESC_OTHER_SPEED_CONFIG else Fault.
Definition tud_descriptor_other_speed_configuration_cb (high_speed : bool) (desc_other_speed_config : list Z) (index : Z)
    : outcome (option (list Z)) :=
  if CONFIG_ID_COUNT <=? index then Ret None
  else
    arr ← aget (if high_speed then configuration_fs_arr else configuration_hs_arr) index;
    sz ← aget configuration_sz_arr index;
    buf ← copy_config desc_other_speed_config arr sz; Ret (Some buf).

(** ** Microsoft's descriptors (CFG_TUD_NCM) *)

Definition BOS_TOTAL_LEN : nat := TUD_BOS_DESC_LEN + TUD_BOS_MICROSOFT_OS_DESC_LEN.
Definition MS_OS_20_DESC_LEN : Z := 0xB2.
Definition desc_bos : list Z :=
  TUD_BOS_DESCRIPTOR (Z.of_nat BOS_TOTAL_LEN) 1 ++ TUD_BOS_MS_OS_20_DESCRIPTOR MS_OS_20_DESC_LEN 1.
Definition tud_descriptor_bos_cb : list Z := desc_bos.

(** ['D', 0x00, 'e', 0x00, ...] *)
Definition wide (s : string) : list Z := str s ≫= fun c => [c; 0x00].
Definition desc_ms_os_20 : list Z :=
  U16_TO_U8S_LE 0x000A ++ U16_TO_U8S_LE MS_OS_20_SET_HEADER_DESCRIPTOR ++ U32_TO_U8S_LE 0x06030000 ++
  U16_TO_U8S_LE MS_OS_20_DESC_LEN ++
  U16_TO_U8S_LE 0x0008 ++ U16_TO_U8S_LE MS_OS_20_SUBSET_HEADER_CONFIGURATION ++ [0; 0] ++
  U16_TO_U8S_LE (MS_OS_20_DESC_LEN - 0x0A) ++
  U16_TO_U8S_LE 0x0008 ++ U16_TO_U8S_LE MS_OS_20_SUBSET_HEADER_FUNCTION ++ [ITF_NUM_CDC; 0] ++
  U16_TO_U8S_LE (MS_OS_20_DESC_LEN - 0x0A - 0x08) ++
  U16_TO_U8S_LE 0x0014 ++ U16_TO_U8S_LE MS_OS_20_FEATURE_COMPATBLE_ID ++ str "WINNCM" ++ [0; 0] ++ replicate 8 0 ++
  U16_TO_U8S_LE (MS_OS_20_DESC_LEN - 0x0A - 0x08 - 0x08 - 0x14) ++ U16_TO_U8S_LE MS_OS_20_FEATURE_REG_PROPERTY ++
  U16_TO_U8S_LE 0x0007 ++ U16_TO_U8S_LE 0x002A ++
  wide "DeviceInterfaceGUIDs" ++ [0; 0] ++
  U16_TO_U8S_LE 0x0050 ++
  wide "{12345678-0D08-43FD-8B3E-127CA8AFFF9D}" ++ [0; 0; 0; 0].

Record tusb_control_request_t := mkRequest {
  rt_recipient : Z; rt_type : Z; rt_direction : Z; bRequest : Z; wValue : Z; wIndex : Z; wLength : Z }.

(** [tud_control_xfer rhport request buffer len], whose result is TinyUSB's. *)
Definition tud_vendor_control_xfer_cb {T} (tud_control_xfer : Z -> tusb_control_request_t -> list Z -> Z -> M T bool)
    (rhport stage : Z) (request : tusb_control_request_t) : M T bool :=
  if negb (stage =? CONTROL_STAGE_SETUP) then mret true
  else if rt_type request =? TUSB_REQ_TYPE_VENDOR then
    if bRequest request =? 1 then
      if wIndex request =? 7 then
        lo ← lift (aget desc_ms_os_20 8); hi ← lift (aget desc_ms_os_20 9);
        tud_control_xfer rhport request desc_ms_os_20 (lo + 256 * hi)
      else mret false
    else mret false
  else mret false.
(** usb_eth_bridge.c has its own copy. *)
Definition bridge_vendor_control_xfer_cb {T} (tud_control_xfer : Z -> tusb_control_request_t -> list Z -> Z -> M T bool)
    (rhport stage : Z) (request : tusb_control_request_t) : M T bool :=
  if negb (stage =? CONTROL_STAGE_SETUP) then mret true
  else if rt_type request =? TUSB_REQ_TYPE_VENDOR then
    if (bRequest request =? 1) && (wIndex request =? 7) then
      lo ← lift (aget desc_ms_os_20 8); hi ← lift (aget desc_ms_os_20 9);
      tud_control_xfer rhport request desc_ms_os_20 (lo + 256 * hi)
    else mret false
  else mret false.

(** ** Strings *)

(** An array with designated initialisers: the last for an index counts, those left out are
    NULL, and the highest index gives the size. *)
Definition designated {A} (entries : list (Z * option A)) : list (option A) :=
  fold_left (fun l '(i, s) =>
    let l := l ++ replicate (S (Z.to_nat i) - length l) None in <[Z.to_nat i := s]> l) entries [].

Definition string_desc_cdc_net_arr : list (option (list Z)) := designated
  [(STRID_LANGID, Some [0x09; 0x04]); (STRID_MANUFACTURER, Some (str "TinyUSB")); (STRID_PRODUCT, Some (str "TinyUSB Device"));
   (STRID_SERIAL, None); (STRID_INTERFACE, Some (str "TinyUSB Network Interface")); (STRID_MAC, None)].
Definition bridge_string_arr : list (option (list Z)) := designated
  [(STRID_LANGID, Some [0x09; 0x04]); (STRID_MANUFACTURER, Some (str "TinyUSB")); (STRID_PRODUCT, Some (str "USB-ETH Bridge"));
   (STRID_SERIAL, None); (STRID_INTERFACE, Some (str "USB-ETH Bridge Network Interface")); (STRID_MAC, None)].
Definition string_desc_dual_cdc_arr : list (option (list Z)) := designated
  [(STRID_LANGID, Some [0x09; 0x04]); (STRID_MANUFACTURER, Some (str "TinyUSB")); (STRID_PRODUCT, Some (str "TinyUSB Device"));
   (STRID_SERIAL, Some (str "123456")); (STRID_INTERFACE, Some (str "TinyUSB CDC Interface"))].

(** The interfaces; of the device descriptor [Usb] keeps the number of configurations. *)
Definition usb_cdc_net_desc {F} : RHSHalUsbInterface F :=
  mkInterface None None (Some (device_configurations desc_cdc_net)) (Some configuration_fs_arr)
    (Some string_desc_cdc_net_arr) (Z.of_nat (length string_desc_cdc_net_arr)).
Definition bridge_usb_desc {F} : RHSHalUsbInterface F :=
  mkInterface None None (Some (device_configurations desc_bridge)) (Some bridge_cfg_arr)
    (Some bridge_string_arr) (Z.of_nat (length bridge_string_arr)).
Definition usb_cdc_desc {F} (cdc_init cdc_deinit : F) : RHSHalUsbInterface F :=
  mkInterface (Some cdc_init) (Some cdc_deinit) (Some (device_configurations desc_device_cdc)) (Some [dual_cdc_configuration])
    (Some string_desc_dual_cdc_arr) (Z.of_nat (length string_desc_dual_cdc_arr)).
End descriptors.

(** ** What the macros expand to

    The layouts of USB 2.0 (9.6.3) and of Microsoft's descriptor set, as TinyUSB documents its
    macros; of the functions' descriptors only their lengths matter here. *)
Class TudMacrosLaws `{TudMacros} := {
  u16_le_spec x : 0 <= x < 2 ^ 16 -> U16_TO_U8S_LE x = [x mod 256; x / 256];
  u32_le_spec x : 0 <= x < 2 ^ 32 -> U32_TO_U8S_LE x = le32 x;
  config_descriptor_spec n itfs s len attr ma :
    TUD_CONFIG_DESCRIPTOR n itfs s len attr ma = [9; 2] ++ U16_TO_U8S_LE len ++ [itfs; n; s; Z.lor 0x80 attr; ma / 2];
  config_len_spec : TUD_CONFIG_DESC_LEN = 9%nat;
  cdc_len_spec a b c d e f g : length (TUD_CDC_DESCRIPTOR a b c d e f g) = TUD_CDC_DESC_LEN;
  rndis_len_spec a b c d e f g : length (TUD_RNDIS_DESCRIPTOR a b c d e f g) = TUD_RNDIS_DESC_LEN;
  ecm_len_spec a b c d e f g h i : length (TUD_CDC_ECM_DESCRIPTOR a b c d e f g h i) = TUD_CDC_ECM_DESC_LEN;
  ncm_len_spec a b c d e f g h i j k : length (TUD_CDC_NCM_DESCRIPTOR a b c d e f g h i j k) = TUD_CDC_NCM_DESC_LEN;
  lens_small : (0 < TUD_CDC_DESC_LEN <= 256 /\ TUD_RNDIS_DESC_LEN <= 256 /\ TUD_CDC_ECM_DESC_LEN <= 256 /\ TUD_CDC_NCM_DESC_LEN <= 256)%nat;
  ms_os_20_types : MS_OS_20_SET_HEADER_DESCRIPTOR = 0 /\ MS_OS_20_SUBSET_HEADER_CONFIGURATION = 1 /\
    MS_OS_20_SUBSET_HEADER_FUNCTION = 2 /\ MS_OS_20_FEATURE_COMPATBLE_ID = 3 /\ MS_OS_20_FEATURE_REG_PROPERTY = 4
}.

(** The 16-bit number at an offset. *)
Definition word_at (l : list Z) (i : nat) : option Z := lo ← l !! i; hi ← l !! S i; Some (lo + 256 * hi).
Lemma word_le x : 0 <= x -> x mod 256 + 256 * (x / 256) = x.
Proof. intros. pose proof (Z.div_mod x 256). lia. Qed.

(** The descriptors once [rhs_hal_usb_set_interface] has switched to an interface. *)
Definition use_interface {F} (i : RHSHalUsbInterface F) : descriptors -> descriptors :=
  descriptor_switch_mode (device_desc i) (configuration_arr i) (iface_strings i) (iface_string_count i).

(** *** Configurations *)

(** A configuration as the host reads it: the total length it declares is its own, and its
    number is the one the host selects it by. *)
Definition whole_configuration (number : Z) (c : list Z) : Prop :=
  word_at c 2 = Some (Z.of_nat (length c)) /\ c !! 5%nat = Some number /\ Z.of_nat (length c) < 2 ^ 16.

Section configurations.
Context `{UsbConfig} `{tm : TudMacros} `{!TudMacrosLaws}.

Lemma configuration_whole n itfs s total attr ma fs : (total = TUD_CONFIG_DESC_LEN + length fs)%nat -> (length fs <= 512)%nat ->
  let c := TUD_CONFIG_DESCRIPTOR n itfs s (Z.of_nat total) attr ma ++ fs in
  whole_configuration n c /\ length c = total.
Proof.
  intros Htotal Hfs c. rewrite config_len_spec in Htotal. assert (Hlen : length c = total).
  { unfold c. rewrite config_descriptor_spec, u16_le_spec by lia. rewrite length_app. cbn. lia. }
  split; [|done]. unfold whole_configuration. rewrite Hlen. unfold c. rewrite config_descriptor_spec, u16_le_spec by lia.
  split_and!; [|done|lia]. cbn. by rewrite word_le by lia.
Qed.

Lemma rndis_whole size : whole_configuration 2 (rndis_configuration size) /\ length (rndis_configuration size) = MAIN_CONFIG_TOTAL_LEN.
Proof. pose proof lens_small. apply configuration_whole; rewrite rndis_len_spec; [done|lia]. Qed.
Lemma ecm_whole size : whole_configuration 1 (ecm_configuration size) /\ length (ecm_configuration size) = ALT_CONFIG_TOTAL_LEN.
Proof. pose proof lens_small. apply configuration_whole; rewrite ecm_len_spec; [done|lia]. Qed.
Lemma ncm_whole size interval : whole_configuration 1 (ncm_configuration size interval) /\
  length (ncm_configuration size interval) = NCM_CONFIG_TOTAL_LEN.
Proof. pose proof lens_small. apply configuration_whole; rewrite ncm_len_spec; [done|lia]. Qed.

(** The table the callback reads for the other speed. *)
Definition other_speed_arr (high_speed : bool) : list (list Z) := if high_speed then configuration_fs_arr else configuration_hs_arr.
Lemma configuration_tables high_speed index : 0 <= index < CONFIG_ID_COUNT -> exists c,
  aget (other_speed_arr high_speed) index = Ret c /\ aget configuration_sz_arr index = Ret (length c) /\
  (length c <= MAX_CONFIG_TOTAL_LEN)%nat /\ whole_configuration (index + 1) c.
Proof.
  unfold CONFIG_ID_COUNT, other_speed_arr, configuration_fs_arr, configuration_hs_arr, configuration_sz_arr, MAX_CONFIG_TOTAL_LEN,
    ecm_fs_configuration, ecm_hs_configuration, rndis_fs_configuration, rndis_hs_configuration, ncm_fs_configuration, ncm_hs_configuration.
  destruct CFG_TUD_ECM_RNDIS; intros Hi.
  - assert (index = 0 \/ index = 1) as [-> | ->] by lia; cbn;
      [destruct (ecm_whole 64) as [W64 L64], (ecm_whole 512) as [W512 L512]
      |destruct (rndis_whole 64) as [W64 L64], (rndis_whole 512) as [W512 L512]];
      destruct high_speed; eexists; (split; [done|]); rewrite ?L64, ?L512; (split_and!; [done|lia|done]).
  - assert (index = 0) as -> by lia; cbn. destruct (ncm_whole 64 50) as [W64 L64], (ncm_whole 512 9) as [W512 L512].
    destruct high_speed; eexists; (split; [done|]); rewrite ?L64, ?L512; (split_and!; [done|lia|done]).
Qed.
Lemma length_configurations high_speed : Z.of_nat (length (other_speed_arr high_speed)) = CONFIG_ID_COUNT.
Proof. unfold CONFIG_ID_COUNT, other_speed_arr, configuration_fs_arr, configuration_hs_arr. destruct high_speed, CFG_TUD_ECM_RNDIS; done. Qed.

(** With the type of the other speed in place of its own. *)
Definition as_other_speed (c : list Z) : list Z := <[1%nat := TUSB_DESC_OTHER_SPEED_CONFIG]> c.
Lemma copy_config_eq buf c : (2 <= length c <= length buf)%nat ->
  copy_config buf c (length c) = Ret (as_other_speed c ++ drop (length c) buf).
Proof.
  intros Hlen. unfold copy_config, as_other_speed. rewrite (proj2 (Nat.leb_le _ _)) by lia. rewrite (proj2 (Nat.leb_le _ _)) by lia.
  cbn [andb]. rewrite firstn_all. rewrite aset_in by (rewrite length_app, length_drop; lia). rewrite insert_app_l by (change (Z.to_nat 1) with 1%nat; lia). done.
Qed.
Lemma whole_length number c : whole_configuration number c -> (6 <= length c)%nat.
Proof. intros (_ & Hl & _). apply lookup_lt_Some in Hl. lia. Qed.

(** C27: the configurations of the USB network interface are served within bounds. For an index
    the device has, the host is given a configuration whose declared total length is its length
    and whose number is the index plus one; for the other speed it is copied whole into the
    scratch buffer, with nothing but its type changed. Any other index is refused. *)
Theorem usb_configurations_whole high_speed buf index (x : descriptors) : length buf = MAX_CONFIG_TOTAL_LEN -> 0 <= index ->
  if index <? CONFIG_ID_COUNT then
    (exists c, tud_descriptor_configuration_cb index (use_interface (F := unit) usb_cdc_net_desc x) = Ret (Some c) /\ whole_configuration (index + 1) c) /\
    exists c, aget (other_speed_arr high_speed) index = Ret c /\ whole_configuration (index + 1) c /\
      tud_descriptor_other_speed_configuration_cb high_speed buf index = Ret (Some (as_other_speed c ++ drop (length c) buf))
  else tud_descriptor_configuration_cb index (use_interface (F := unit) usb_cdc_net_desc x) = Ret None /\
    tud_descriptor_other_speed_configuration_cb high_speed buf index = Ret None.
Proof.
  intros Hbuf Hi. unfold tud_descriptor_configuration_cb, tud_descriptor_other_speed_configuration_cb.
  cbn [usb_cdc_net_desc use_interface device_desc configuration_arr descriptor_switch_mode bNumConfigurations config desc_cdc_net misc_device device_configurations default id].
  fold (other_speed_arr high_speed). destruct (Z.ltb_spec index CONFIG_ID_COUNT), (Z.leb_spec CONFIG_ID_COUNT index); try lia; [|done].
  split.
  - destruct (configuration_tables true index) as (c & E & _ & _ & Hw); [lia|]. exists c. cbn [other_speed_arr] in E. by rewrite E.
  - destruct (configuration_tables high_speed index) as (c & E & Es & Hm & Hw); [lia|]. exists c. split_and!; [done..|].
    pose proof (whole_length _ _ Hw). rewrite E, Es. cbn. by rewrite copy_config_eq by lia.
Qed.

(** The configuration of the two serial ports declares its own length when TinyUSB is set
    up with two serial ports, and a wrong one with any other number. *)
Theorem usb_cdc_configuration_whole (x : descriptors) : 0 <= CFG_TUD_CDC <= 100 -> exists c,
  tud_descriptor_configuration_cb 0 (use_interface (usb_cdc_desc tt tt) x) = Ret (Some c) /\ (whole_configuration 1 c <-> CFG_TUD_CDC = 2).
Proof.
  intros Hcdc. pose proof lens_small. exists dual_cdc_configuration. split; [done|].
  assert (Hlen : Z.of_nat (length dual_cdc_configuration) = 9 + 2 * Z.of_nat TUD_CDC_DESC_LEN /\
    word_at dual_cdc_configuration 2 = Some (9 + CFG_TUD_CDC * Z.of_nat TUD_CDC_DESC_LEN) /\ dual_cdc_configuration !! 5%nat = Some 1).
  { unfold dual_cdc_configuration, DUAL_CDC_CONFIG_TOTAL_LEN. rewrite config_descriptor_spec, config_len_spec, u16_le_spec by nia.
    rewrite !length_app, !cdc_len_spec. split_and!; [cbn; lia| |done]. cbn. by rewrite word_le by nia. }
  destruct Hlen as (Hl & Hw & Hn). unfold whole_configuration. rewrite Hl, Hw, Hn. split.
  - intros ([= E] & _). nia.
  - intros ->. split_and!; [f_equal; lia|done|lia].
Qed.
End configurations.

(** *** Microsoft's descriptor set *)

(** The set as Windows reads it: a header with the set's length, then subsets of configurations
    made of subsets of functions made of features, each with its own length inside the one
    around it. *)
Inductive ms_feature :=
  | CompatibleId (id sub : list Z)
  | RegistryProperty (type : Z) (name data : list Z).
Record ms_subset (A : Type) := mkSubset { subset_number : Z; subset_parts : list A }.
Arguments mkSubset {A}.
Record ms_set := mkSet { ms_version : list Z; ms_configurations : list (ms_subset (ms_subset ms_feature)) }.

Definition read_feature (type : Z) (body : list Z) : option ms_feature :=
  if type =? 3 then
    if (length body =? 20)%nat then Some (CompatibleId (take 8 (drop 4 body)) (drop 12 body)) else None
  else if type =? 4 then
    data_type ← word_at body 4; name_len ← word_at body 6; let n := Z.to_nat name_len in
    data_len ← word_at body (8 + n);
    if Z.of_nat (length body) =? 10 + name_len + data_len
    then Some (RegistryProperty data_type (take n (drop 8 body)) (drop (10 + n) body)) else None
  else None.

Section parser.
Context {A : Type} (read : Z -> list Z -> option A).
(** Parts laid out one after another, each with its length and its type first. *)
Fixpoint read_parts (length_at : nat) (fuel : nat) (l : list Z) : option (list A) :=
  match l, fuel with
  | [], _ => Some []
  | _, O => None
  | _, S fuel =>
      len ← word_at l length_at; type ← word_at l 2; let n := Z.to_nat len in
      if (4 <=? n)%nat && (n <=? length l)%nat then
        x ← read type (take n l); rest ← read_parts length_at fuel (drop n l); Some (x :: rest)
      else None
  end.
End parser.

Definition read_subset {A} (kind : Z) (read : Z -> list Z -> option A) (length_at : nat) (type : Z) (body : list Z) : option (ms_subset A) :=
  header ← word_at body 0; number ← body !! 4%nat;
  if (type =? kind) && (header =? 8) then
    parts ← read_parts read length_at (length body) (drop 8 body); Some (mkSubset number parts)
  else None.
Definition read_set (l : list Z) : option ms_set :=
  header ← word_at l 0; type ← word_at l 2; total ← word_at l 8;
  if (header =? 10) && (type =? 0) && (total =? Z.of_nat (length l)) then
    configurations ← read_parts (read_subset 1 (read_subset 2 read_feature 0) 6) 6 (length l) (drop 10 l);
    Some (mkSet (take 4 (drop 4 l)) configurations)
  else None.

Section ms_os_20.
Context `{UsbConfig} `{tm : TudMacros} `{!TudMacrosLaws}.

(** Windows 8.1, and the driver bound to the first interface with its registry value, a
    [REG_MULTI_SZ]. *)
Definition winncm_set : ms_set := mkSet [0; 0; 3; 6] [mkSubset 0 [mkSubset ITF_NUM_CDC
  [CompatibleId (str "WINNCM" ++ [0; 0]) (replicate 8 0);
   RegistryProperty 7 (wide "DeviceInterfaceGUIDs" ++ [0; 0]) (wide "{12345678-0D08-43FD-8B3E-127CA8AFFF9D}" ++ [0; 0] ++ [0; 0])]]].

Lemma desc_ms_os_20_bytes : desc_ms_os_20 =
  [10; 0; 0; 0; 0; 0; 3; 6; 178; 0; 8; 0; 1; 0; 0; 0; 168; 0; 8; 0; 2; 0; 0; 0; 160; 0; 20; 0; 3; 0] ++
  str "WINNCM" ++ replicate 10 0 ++ [132; 0; 4; 0; 7; 0; 42; 0] ++ wide "DeviceInterfaceGUIDs" ++ [0; 0; 80; 0] ++
  wide "{12345678-0D08-43FD-8B3E-127CA8AFFF9D}" ++ [0; 0; 0; 0].
Proof.
  unfold desc_ms_os_20. destruct ms_os_20_types as (-> & -> & -> & -> & ->). unfold MS_OS_20_DESC_LEN.
  rewrite !u16_le_spec, u32_le_spec by lia. reflexivity.
Qed.

Lemma desc_ms_os_20_parsed : read_set desc_ms_os_20 = Some winncm_set /\ Z.of_nat (length desc_ms_os_20) = MS_OS_20_DESC_LEN.
Proof. rewrite desc_ms_os_20_bytes. split; reflexivity. Qed.

(** Microsoft's descriptor set is well formed: every length in it is that of what it counts,
    the whole set's the one the BOS descriptor announces, and it binds the first interface to
    WINNCM with its GUID in a registry value. The request the BOS descriptor announces is
    answered with the whole set, in the setup stage; any other request is stalled, and later
    stages are accepted. Both copies of the callback do the same. *)
Theorem ms_os_20_served {T} (tud_control_xfer : Z -> tusb_control_request_t -> list Z -> Z -> M T bool) rhport stage request :
  read_set desc_ms_os_20 = Some winncm_set /\
  exists code, tud_descriptor_bos_cb =
    TUD_BOS_DESCRIPTOR (Z.of_nat BOS_TOTAL_LEN) 1 ++ TUD_BOS_MS_OS_20_DESCRIPTOR (Z.of_nat (length desc_ms_os_20)) code /\
  (forall t, tud_vendor_control_xfer_cb tud_control_xfer rhport stage request t =
    if bool_decide (stage <> CONTROL_STAGE_SETUP) then Ret (true, t)
    else if bool_decide (rt_type request = TUSB_REQ_TYPE_VENDOR /\ bRequest request = code /\ wIndex request = 7)
    then tud_control_xfer rhport request desc_ms_os_20 (Z.of_nat (length desc_ms_os_20)) t
    else Ret (false, t)) /\
  forall t, bridge_vendor_control_xfer_cb tud_control_xfer rhport stage request t =
    tud_vendor_control_xfer_cb tud_control_xfer rhport stage request t.
Proof.
  destruct desc_ms_os_20_parsed as [Hp Hl]. split; [done|]. exists 1. rewrite Hl. split; [done|].
  assert (Hlo : aget desc_ms_os_20 8 = Ret 178 /\ aget desc_ms_os_20 9 = Ret 0) by (rewrite desc_ms_os_20_bytes; done).
  destruct Hlo as [Hlo Hhi]. split.
  - intros t. unfold tud_vendor_control_xfer_cb. rewrite Hlo, Hhi. repeat case_bool_decide; repeat case_match; try done; lia.
  - intros t. unfold bridge_vendor_control_xfer_cb, tud_vendor_control_xfer_cb.
    destruct (stage =? CONTROL_STAGE_SETUP), (rt_type request =? TUSB_REQ_TYPE_VENDOR), (bRequest request =? 1), (wIndex request =? 7); done.
Qed.
End ms_os_20.

(** *** Strings *)

Section strings.
Context `{UsbConfig} `{tm : TudMacros}.

(** The numbers of tusb_config.h.example. *)
Class ExampleStrids := {
  example_strids : STRID_LANGID = 0 /\ STRID_MANUFACTURER = 1 /\ STRID_PRODUCT = 2 /\ STRID_SERIAL = 3 /\ STRID_INTERFACE = 4 /\ STRID_MAC = 5;
  example_net : CFG_TUD_NET = true
}.
Context `{ExampleStrids}.

(** The three interfaces, with the product and the interface they name. *)
Inductive usb_interface := CdcNetInterface | BridgeInterface | SerialInterface.
Definition select (i : usb_interface) : descriptors -> descriptors := use_interface
  match i with CdcNetInterface => usb_cdc_net_desc | BridgeInterface => bridge_usb_desc | SerialInterface => usb_cdc_desc tt tt end.
Definition product (i : usb_interface) : string :=
  match i with BridgeInterface => "USB-ETH Bridge" | _ => "TinyUSB Device" end.
Definition interface_name (i : usb_interface) : string :=
  match i with
  | CdcNetInterface => "TinyUSB Network Interface"
  | BridgeInterface => "USB-ETH Bridge Network Interfac"
  | SerialInterface => "TinyUSB CDC Interface"
  end.
Definition host_string (uid mac : list Z) (i : usb_interface) (index : Z) : option (list Z) :=
  [[0x0409]; str "TinyUSB"; str (product i); hex_of uid; str (interface_name i); hex_of mac] !! Z.to_nat index.

Lemma interface_tables i :
  (match i with CdcNetInterface => string_desc_cdc_net_arr | BridgeInterface => bridge_string_arr | SerialInterface => string_desc_dual_cdc_arr end) =
  [Some [0x09; 0x04]; Some (str "TinyUSB"); Some (str (product i));
   match i with SerialInterface => Some (str "123456") | _ => None end;
   Some (match i with BridgeInterface => str "USB-ETH Bridge Network Interface" | _ => str (interface_name i) end)] ++
  match i with SerialInterface => [] | _ => [None] end.
Proof.
  unfold string_desc_cdc_net_arr, bridge_string_arr, string_desc_dual_cdc_arr. destruct example_strids as (-> & -> & -> & -> & -> & ->).
  destruct i; reflexivity.
Qed.

Lemma host_string_of_index uid mac i index x : 0 <= index ->
  string_of_index uid mac index (select i x) = Ret (host_string uid mac i index).
Proof.
  intros Hi. unfold string_of_index, host_string. rewrite example_net. pose proof (interface_tables i) as Ht.
  destruct example_strids as (-> & _ & _ & -> & _ & ->).
  destruct (decide (index < 6)) as [Hlt|Hge].
  - assert (index = 0 \/ index = 1 \/ index = 2 \/ index = 3 \/ index = 4 \/ index = 5) as Hc by lia.
    destruct i; unfold string_at, select, usb_cdc_net_desc, bridge_usb_desc, usb_cdc_desc, use_interface, descriptor_switch_mode;
      cbn [string_desc_arr string_desc_arr_count iface_strings iface_string_count]; rewrite Ht; destruct Hc as [->|[->|[->|[->|[->| ->]]]]]; reflexivity.
  - destruct (Z.eqb_spec index 0), (Z.eqb_spec index 3), (Z.eqb_spec index 5); try lia. cbn [andb].
    rewrite (lookup_ge_None_2 _ (Z.to_nat index)) by (cbn; lia).
    assert (Hc : string_desc_arr_count (select i x) <= 6).
    { destruct i; unfold select, usb_cdc_net_desc, bridge_usb_desc, usb_cdc_desc, use_interface, descriptor_switch_mode;
        cbn [string_desc_arr_count iface_string_count]; rewrite Ht; cbn; lia. }
    destruct (Z.leb_spec (string_desc_arr_count (select i x)) index); [done|lia].
Qed.

(** Whichever interface is selected, every request of the host for a string is answered, none
    reading the entries of the tables left NULL: the language, the manufacturer, the product, the
    serial number from the UID, the interface and the hardware address; the bridge's name loses
    its last character, and there is no other string. *)
Theorem usb_strings_answered uid mac i index (x : descriptors) : length (desc_str x) = 32%nat -> length uid = 12%nat ->
  (length mac <= 15)%nat -> 0 <= index ->
  tud_descriptor_string_cb uid mac index (select i x) =
  let y := select i x in
  match host_string uid mac i index with
  | Some chars => Ret (true, mkDescriptors (bNumConfigurations y) (config y) (string_desc_arr y) (string_desc_arr_count y)
      (string_header (length chars) :: chars ++ drop (1 + length chars) (desc_str x)))
  | None => Ret (false, y)
  end.
Proof.
  intros Hbuf Huid Hmac Hi. assert (Hstr : desc_str (select i x) = desc_str x) by by destruct i.
  rewrite string_cb_eq; rewrite ?Hstr; try done.
  - rewrite host_string_of_index by done. by destruct (host_string uid mac i index).
  - intros l Hl. pose proof (interface_tables i) as Ht. destruct i; injection Hl as <-; (split; [done|]);
      rewrite Ht; repeat (apply Forall_cons; split; [by intros ? [= <-]|]); apply Forall_nil_2.
Qed.
End strings.

(** *** Product numbers *)

(** A configuration in which each class is used once or not at all, as the bitmap assumes. *)
Definition one_each (M : TudMacros) : Prop :=
  Forall (fun n => n = 0 \/ n = 1) [@CFG_TUD_CDC M; @CFG_TUD_MSC M; @CFG_TUD_HID M; @CFG_TUD_MIDI M; @CFG_TUD_VENDOR M].
Lemma usb_pid_digits (M : TudMacros) : one_each M ->
  @USB_PID M = 0x4000 + @CFG_TUD_CDC M + 2 * @CFG_TUD_MSC M + 4 * @CFG_TUD_HID M + 8 * @CFG_TUD_MIDI M + 16 * @CFG_TUD_VENDOR M +
    32 * Z.b2z (@CFG_TUD_ECM_RNDIS M || @CFG_TUD_NCM M).
Proof.
  unfold one_each. rewrite !Forall_cons. intros (Hc & Hm & Hh & Hi & Hv & _). unfold USB_PID, PID_MAP.
  destruct Hc as [-> | ->], Hm as [-> | ->], Hh as [-> | ->], Hi as [-> | ->], Hv as [-> | ->],
    (@CFG_TUD_ECM_RNDIS M), (@CFG_TUD_NCM M); reflexivity.
Qed.

(** Two programs with the same product number use the same classes and both have a network
    or none, when each class is used once or not at all, so that a host never applies to one the
    driver it keeps for the other. *)
Theorem usb_pid_unique (M N : TudMacros) : one_each M -> one_each N -> @USB_PID M = @USB_PID N ->
  @CFG_TUD_CDC M = @CFG_TUD_CDC N /\ @CFG_TUD_MSC M = @CFG_TUD_MSC N /\ @CFG_TUD_HID M = @CFG_TUD_HID N /\
  @CFG_TUD_MIDI M = @CFG_TUD_MIDI N /\ @CFG_TUD_VENDOR M = @CFG_TUD_VENDOR N /\
  (@CFG_TUD_ECM_RNDIS M || @CFG_TUD_NCM M) = (@CFG_TUD_ECM_RNDIS N || @CFG_TUD_NCM N).
Proof.
  intros HM HN. rewrite !usb_pid_digits by done. unfold one_each in *. rewrite !Forall_cons in *.
  destruct HM as (? & ? & ? & ? & ? & _), HN as (? & ? & ? & ? & ? & _).
  destruct (_ || _), (_ || _); cbn [Z.b2z]; intros; split_and!; try done; lia.
Qed.

(** With the two serial ports of the example configuration the port count is the bit of the
    mass storage. *)
Lemma usb_pid_two_ports (M N : TudMacros) : @CFG_TUD_CDC M = 2 -> @CFG_TUD_CDC N = 2 -> @CFG_TUD_MSC M = 0 -> @CFG_TUD_MSC N = 1 ->
  @CFG_TUD_HID M = @CFG_TUD_HID N -> @CFG_TUD_MIDI M = @CFG_TUD_MIDI N -> @CFG_TUD_VENDOR M = @CFG_TUD_VENDOR N ->
  @CFG_TUD_ECM_RNDIS M = @CFG_TUD_ECM_RNDIS N -> @CFG_TUD_NCM M = @CFG_TUD_NCM N -> @USB_PID M = @USB_PID N.
Proof. unfold USB_PID. intros -> -> -> -> -> -> -> -> ->. reflexivity. Qed.

(** ** A configuration to instantiate the theorems with *)

Definition example_macros (cdc msc : Z) (ecm_rndis : bool) : TudMacros := {|
  CFG_TUD_CDC := cdc; CFG_TUD_MSC := msc; CFG_TUD_HID := 0; CFG_TUD_MIDI := 0; CFG_TUD_VENDOR := 0;
  CFG_TUD_ECM_RNDIS := ecm_rndis; CFG_TUD_NCM := negb ecm_rndis;
  CFG_TUD_ENDPOINT0_SIZE := 64; CFG_TUD_CDC_EP_BUFSIZE := 64; CFG_TUD_NET_MTU := 1514;
  STRID_MANUFACTURER := 1; STRID_PRODUCT := 2; STRID_INTERFACE := 4;
  sizeof_tusb_desc_device_t := 18; sizeof_tusb_desc_device_qualifier_t := 10; TUSB_DESC_DEVICE := 1; TUSB_DESC_DEVICE_QUALIFIER := 6;
  TUSB_CLASS_MISC := 0xEF; MISC_SUBCLASS_COMMON := 2; MISC_PROTOCOL_IAD := 1;
  TUSB_DESC_OTHER_SPEED_CONFIG := 7; CONTROL_STAGE_SETUP := 1; TUSB_REQ_TYPE_VENDOR := 2;
  TUD_CONFIG_DESCRIPTOR n itfs s len attr ma := [9; 2; len mod 256; len / 256; itfs; n; s; Z.lor 0x80 attr; ma / 2];
  TUD_CONFIG_DESC_LEN := 9;
  TUD_CDC_DESCRIPTOR _ _ _ _ _ _ _ := replicate 66 0; TUD_CDC_DESC_LEN := 66;
  TUD_RNDIS_DESCRIPTOR _ _ _ _ _ _ _ := replicate 66 0; TUD_RNDIS_DESC_LEN := 66;
  TUD_CDC_ECM_DESCRIPTOR _ _ _ _ _ _ _ _ _ := replicate 71 0; TUD_CDC_ECM_DESC_LEN := 71;
  TUD_CDC_NCM_DESCRIPTOR _ _ _ _ _ _ _ _ _ _ _ := replicate 77 0; TUD_CDC_NCM_DESC_LEN := 77;
  NCM_NETWORK_CAPS_ETH_FILTER := 1; NCM_NETWORK_CAPS_NTB_INPUT_SIZE := 0x20;
  U16_TO_U8S_LE x := [x mod 256; x / 256]; U32_TO_U8S_LE := le32;
  TUD_BOS_DESCRIPTOR total caps := [5; 0x0F; total mod 256; total / 256; caps]; TUD_BOS_DESC_LEN := 5;
  TUD_BOS_MS_OS_20_DESCRIPTOR len code := replicate 26 0 ++ [len; code]; TUD_BOS_MICROSOFT_OS_DESC_LEN := 28;
  MS_OS_20_SET_HEADER_DESCRIPTOR := 0; MS_OS_20_SUBSET_HEADER_CONFIGURATION := 1; MS_OS_20_SUBSET_HEADER_FUNCTION := 2;
  MS_OS_20_FEATURE_COMPATBLE_ID := 3; MS_OS_20_FEATURE_REG_PROPERTY := 4 |}.
#[global] Instance example_macros_laws cdc msc ecm_rndis : @TudMacrosLaws (example_macros cdc msc ecm_rndis).
Proof. split; cbn; intros; rewrite ?length_replicate; try done; lia. Defined.
#[global] Instance example_strids_ok cdc msc ecm_rndis : @ExampleStrids plain_usb_config (example_macros cdc msc ecm_rndis).
Proof. done. Defined.

(** ** The theorems at work *)

Lemma usb_configurations_whole_witness : let M := example_macros 2 0 true in exists c,
  tud_descriptor_other_speed_configuration_cb (tm := M) true (replicate 80 0) 0 =
    Ret (Some (as_other_speed (tm := M) c ++ drop (length c) (replicate 80 0))) /\ whole_configuration 1 c.
Proof.
  intros M. destruct (usb_configurations_whole (tm := M) true (replicate 80 0) 0 cdc_descriptors) as (_ & c & _ & Hw & E); [done|lia|].
  by exists c.
Defined.

Lemma usb_cdc_configuration_whole_witness : let M := example_macros 1 0 false in exists c,
  tud_descriptor_configuration_cb 0 (use_interface (usb_cdc_desc (tm := M) tt tt) cdc_descriptors) = Ret (Some c) /\ ~ whole_configuration 1 c.
Proof.
  intros M. destruct (usb_cdc_configuration_whole (tm := M) cdc_descriptors) as (c & E & Hw); [done|].
  exists c. split; [exact E|]. intros Hc. by apply Hw in Hc.
Defined.

Lemma usb_strings_answered_witness : let M := example_macros 2 0 false in
  exists y, tud_descriptor_string_cb [1; 2; 3; 4; 5; 6; 7; 8; 9; 10; 11; 12] [2; 3; 4; 5; 6; 7] 3 (use_interface (F := unit) (usb_cdc_net_desc (tm := M)) cdc_descriptors) =
    Ret (true, y) /\ take 5 (desc_str y) = 0x332 :: str "0102".
Proof.
  intros M. eexists. split.
  - apply (usb_strings_answered (tm := M) [1; 2; 3; 4; 5; 6; 7; 8; 9; 10; 11; 12] [2; 3; 4; 5; 6; 7] CdcNetInterface 3 cdc_descriptors); try done.
    cbn. lia.
  - reflexivity.
Defined.

Lemma usb_pid_unique_witness : let M := example_macros 1 0 true in let N := example_macros 1 0 false in
  one_each M /\ one_each N /\ @USB_PID M = @USB_PID N /\ @CFG_TUD_CDC M = @CFG_TUD_CDC N.
Proof.
  intros M N. assert (HM : one_each M) by (unfold one_each; rewrite !Forall_cons; cbn; auto 10).
  assert (HN : one_each N) by (unfold one_each; rewrite !Forall_cons; cbn; auto 10).
  split; [exact HM|]. split; [exact HN|]. split; [reflexivity|].
  exact (proj1 (usb_pid_unique M N HM HN eq_refl)).
Defined.
