(* ===== verification/Random.v ===== *)
(** * Random numbers (hal/rhs_hal_random)

    The hardware generator of the STM32F4 and F7, read with its error flags, the linear
    congruential generator of the F1 and G0, and what is built on either: the filling of a
    buffer and the library's [rand]. *)

From S2P Require Import Prelude.

(** The functions of the vendor's library for the generator; a flag read again may differ. *)
Class Rng (R : Type) := {
  LL_RNG_IsActiveFlag_CECS : R -> bool * R;
  LL_RNG_IsActiveFlag_SECS : R -> bool * R;
  LL_RNG_IsActiveFlag_DRDY : R -> bool * R;
  LL_RNG_ClearFlag_CEIS : R -> R;
  LL_RNG_ClearFlag_SEIS : R -> R;
  LL_RNG_ReadRandData32 : R -> Z * R;
  LL_RNG_Enable : R -> R;
  LL_RNG_Disable : R -> R
}.

(** ** What both generators share *)

Section buffer.
Context {R : Type} (rhs_hal_random_read_rng : M R Z).

(** [memcpy(&buf[i], &random_val, len_cur)] *)
Definition copy_to (buf : list Z) (i : Z) (bytes : list Z) : outcome (list Z) :=
  if (0 <=? i) && (i + Z.of_nat (length bytes) <=? Z.of_nat (length buf))
  then Ret (take (Z.to_nat i) buf ++ bytes ++ drop (Z.to_nat i + length bytes) buf) else Fault.

Fixpoint fill_loop (fuel : nat) (i len : Z) (buf : list Z) : M R (list Z) :=
  match fuel with
  | O => hang
  | S fuel =>
      if i <? len then
        random_val ← rhs_hal_random_read_rng;
        let len_cur := if u32 (i + 4) <? len then 4 else u8 (u32 (len - i)) in
        buf ← lift (copy_to buf i (take (Z.to_nat len_cur) (le32 random_val)));
        fill_loop fuel (u32 (i + 4)) len buf
      else mret buf
  end.
End buffer.

(** ** The hardware generator (STM32F765, STM32F407) *)

Section rng.
Context {R : Type} `{Rng R}.

Fixpoint discard (n : nat) : M R unit :=
  match n with O => mret tt | S n => _ ← call LL_RNG_ReadRandData32; discard n end.

Definition rng_not_ready : M R bool :=
  cecs ← call LL_RNG_IsActiveFlag_CECS;
  if cecs : bool then mret true
  else
    secs ← call LL_RNG_IsActiveFlag_SECS;
    if secs : bool then mret true
    else drdy ← call LL_RNG_IsActiveFlag_DRDY; mret (negb drdy).

(** The body of the loop: clock errors are cleared, and seed errors with twelve numbers
    thrown away. *)
Definition rng_recover : M R unit :=
  cecs ← call LL_RNG_IsActiveFlag_CECS;
  _ ← (if cecs : bool then call_ LL_RNG_ClearFlag_CEIS else mret tt);
  secs ← call LL_RNG_IsActiveFlag_SECS;
  if secs : bool then _ ← call_ LL_RNG_ClearFlag_SEIS; discard 12 else mret tt.

Fixpoint rhs_hal_random_read_rng (fuel : nat) : M R Z :=
  match fuel with
  | O => hang
  | S fuel =>
      bad ← rng_not_ready;
      if bad : bool then _ ← rng_recover; rhs_hal_random_read_rng fuel
      else call LL_RNG_ReadRandData32
  end.

Definition rhs_hal_random_get (fuel : nat) : M R Z :=
  _ ← call_ LL_RNG_Enable;
  random_val ← rhs_hal_random_read_rng fuel;
  _ ← call_ LL_RNG_Disable;
  mret random_val.

Definition rhs_hal_random_fill_buf (fuel : nat) (buf : list Z) (len : Z) : M R (list Z) :=
  _ ← rhs_assert (negb (len =? 0));
  _ ← call_ LL_RNG_Enable;
  buf ← fill_loop (rhs_hal_random_read_rng fuel) fuel 0 len buf;
  _ ← call_ LL_RNG_Disable;
  mret buf.
End rng.

(** ** The software generator (STM32F103, STM32G0B1) *)

Definition lcg_next (rng_state : Z) : Z := u32 (u32 (rng_state * 1103515245) + 12345).
Definition lcg_read_rng : M Z Z := modify lcg_next;; get.
(** The seed is the SysTick counter. *)
Definition lcg_init (systick_val : Z) : M Z unit := modify (fun _ => systick_val).
Definition lcg_get : M Z Z := lcg_read_rng.
Definition lcg_fill_buf (fuel : nat) (buf : list Z) (len : Z) : M Z (list Z) :=
  _ ← rhs_assert (negb (len =? 0));
  fill_loop lcg_read_rng fuel 0 len buf.

(** [rand] of the C library, on either generator; [RAND_MAX] is the library's. *)
Definition wrap_rand {R} (RAND_MAX : Z) (random_get : M R Z) : M R Z :=
  v ← random_get; mret (Z.land v RAND_MAX).

(** ** The software generator has a full period *)

Lemma odd_divide k x y : Z.odd x = true -> 0 <= k -> (2 ^ k | x * y) <-> (2 ^ k | y).
Proof.
  intros Hx Hk. split; [|apply Z.divide_mul_r].
  intros Hd. apply (Z.gauss _ x _ Hd). rewrite Z.gcd_comm. apply Z.coprime_pow_r; [done|].
  apply Z.coprime_Bezout. apply Z.odd_spec in Hx as [q ->]. exists 1, (- q). lia.
Qed.

Lemma even_divide k y : 0 < k -> (2 ^ k | 2 * y) <-> (2 ^ (k - 1) | y).
Proof.
  intros Hk. replace (2 ^ k) with (2 * 2 ^ (k - 1)) by (rewrite <- Z.pow_succ_r by lia; f_equal; lia).
  split; [apply Z.mul_divide_cancel_l; lia|apply Z.mul_divide_mono_l].
Qed.
Lemma odd_not_divided k y : Z.odd y = true -> 0 <= k -> (2 ^ k | y) <-> k = 0.
Proof.
  intros Hy Hk. split; [|intros ->; exists y; lia]. intros [q Hq]. destruct (Z.eq_dec k 0); [done|].
  rewrite Hq, Z.odd_mul in Hy. apply andb_prop in Hy as [_ Hy].
  replace k with (Z.succ (k - 1)) in Hy by lia. rewrite Z.pow_succ_r, Z.odd_mul in Hy by lia. done.
Qed.

Definition lcg_a : Z := 1103515245.
Definition lcg_c : Z := 12345.
(** [n] steps are [x |-> lcg_pow n * x + lcg_sum n]. *)
Definition lcg_pow (n : nat) : Z := lcg_a ^ Z.of_nat n.
Fixpoint lcg_sum (n : nat) : Z := match n with O => 0 | S n => lcg_a * lcg_sum n + lcg_c end.

Lemma lcg_pow_S n : lcg_pow (S n) = lcg_a * lcg_pow n.
Proof. unfold lcg_pow. rewrite Nat2Z.inj_succ, Z.pow_succ_r by lia. done. Qed.
Lemma lcg_pow_add n m : lcg_pow (n + m) = lcg_pow n * lcg_pow m.
Proof. unfold lcg_pow. by rewrite Nat2Z.inj_add, Z.pow_add_r by lia. Qed.
Lemma lcg_sum_add n m : lcg_sum (n + m) = lcg_pow n * lcg_sum m + lcg_sum n.
Proof.
  induction n as [|n IH]; [unfold lcg_pow; cbn; lia|]. cbn [Nat.add lcg_sum]. rewrite IH, lcg_pow_S. lia.
Qed.
Lemma lcg_pow_mod4 n : lcg_pow n mod 4 = 1.
Proof.
  induction n as [|n IH]; [done|]. rewrite lcg_pow_S, <- Z.mul_mod_idemp_r, IH by lia. done.
Qed.
Lemma lcg_sum_pow n : lcg_c * (lcg_pow n - 1) = (lcg_a - 1) * lcg_sum n.
Proof. induction n as [|n IH]; [done|]. cbn [lcg_sum]. rewrite lcg_pow_S. unfold lcg_a, lcg_c in *. lia. Qed.

Lemma iter_lcg n s : in_u32 s -> Nat.iter n lcg_next s = u32 (lcg_pow n * s + lcg_sum n).
Proof.
  intros Hs. induction n as [|n IH].
  - cbn [Nat.iter nat_rect lcg_sum]. unfold lcg_pow. cbn. rewrite u32_small by (unfold in_u32 in Hs; lia). lia.
  - cbn [Nat.iter nat_rect] in *. fold (Nat.iter n lcg_next s). rewrite IH, lcg_pow_S. cbn [lcg_sum].
    unfold lcg_next, lcg_a, lcg_c. unfold u32. rewrite Z.add_mod_idemp_l, <- Z.add_mod_idemp_l, Z.mul_mod_idemp_l, Z.add_mod_idemp_l by lia.
    f_equal. lia.
Qed.

Lemma lcg_pow_succ n : exists h, lcg_pow n + 1 = 2 * h /\ Z.odd h = true.
Proof.
  exists (2 * (lcg_pow n / 4) + 1). split; [|apply Z.odd_spec; by eexists].
  pose proof (lcg_pow_mod4 n). Z.to_euclidean_division_equations. lia.
Qed.

(** The powers of two that divide the constant of [n] steps are those that divide [n]. *)
Lemma lcg_sum_double m : lcg_sum (m + m) = (lcg_pow m + 1) * lcg_sum m.
Proof. rewrite lcg_sum_add. lia. Qed.
Lemma lcg_sum_divided n k : 0 <= k -> (2 ^ k | lcg_sum n) <-> (2 ^ k | Z.of_nat n).
Proof.
  revert k. induction n as [n IH] using lt_wf_ind. intros k Hk.
  destruct (Nat.Even_or_Odd n) as [[m ->]|[m ->]]; destruct (lcg_pow_succ m) as (h & Hh & Hodd).
  - destruct (decide (m = 0%nat)) as [-> |Hm]; [done|].
    destruct (Z.eq_dec k 0) as [-> |]; [split; intros _; apply Z.divide_1_l|].
    replace (2 * m)%nat with (m + m)%nat by lia. rewrite lcg_sum_double, Hh, <- Z.mul_assoc.
    replace (Z.of_nat (m + m)) with (2 * Z.of_nat m) by lia.
    rewrite !even_divide, odd_divide by (lia || done). apply IH; lia.
  - rewrite !odd_not_divided; try done.
    + apply Z.odd_spec. exists (Z.of_nat m). lia.
    + replace (2 * m + 1)%nat with (S (m + m)) by lia. cbn [lcg_sum].
      by rewrite lcg_sum_double, Hh, Z.odd_add, !Z.odd_mul, andb_false_r.
Qed.

Lemma mod_eq_divide m a b : 0 < m -> a mod m = b mod m <-> (m | a - b).
Proof.
  intros Hm. split.
  - intros E. exists (a / m - b / m). pose proof (Z.div_mod a m). pose proof (Z.div_mod b m). lia.
  - intros [q Hq]. replace a with (b + q * m) by lia. apply Z.mod_add. lia.
Qed.

Lemma lcg_next_range s : in_u32 (lcg_next s).
Proof. apply u32_range. Qed.
Lemma iter_lcg_range n s : in_u32 s -> in_u32 (Nat.iter n lcg_next s).
Proof. destruct n; [done|]. intros _. apply lcg_next_range. Qed.

Lemma lcg_low_bits n k s : in_u32 s -> 0 <= k <= 32 ->
  Nat.iter n lcg_next s mod 2 ^ k = s mod 2 ^ k <-> (2 ^ k | Z.of_nat n).
Proof.
  intros Hs Hk. rewrite iter_lcg by done. unfold u32.
  rewrite Z.mod_mod_divide by (exists (2 ^ (32 - k)); rewrite <- Z.pow_add_r by lia; f_equal; lia).
  rewrite mod_eq_divide, <- (odd_divide k lcg_c), <- lcg_sum_divided by (done || lia || (apply Z.pow_pos_nonneg; lia)).
  replace (lcg_c * (lcg_pow n * s + lcg_sum n - s)) with (lcg_c * (lcg_pow n - 1) * s + lcg_c * lcg_sum n) by ring.
  rewrite lcg_sum_pow. replace ((lcg_a - 1) * lcg_sum n * s + lcg_c * lcg_sum n) with (((lcg_a - 1) * s + lcg_c) * lcg_sum n) by ring.
  apply odd_divide; [|lia]. by rewrite Z.odd_add, Z.odd_mul.
Qed.

(** [n] numbers one after another. *)
Fixpoint read_many {R} (read : M R Z) (n : nat) : M R (list Z) :=
  match n with O => mret [] | S n => v ← read; vs ← read_many read n; mret (v :: vs) end.

Lemma lcg_read_many n s : read_many lcg_get n s =
  Ret (map (fun i => Nat.iter (S i) lcg_next s) (seq 0 n), Nat.iter n lcg_next s).
Proof.
  revert s. induction n as [|n IH]; intros s; [done|]. cbn [read_many].
  rewrite (bind_eq _ _ s (lcg_next s) (lcg_next s)) by done. rewrite (bind_eq _ _ _ _ _ (IH (lcg_next s))).
  unfold mret, M_ret. rewrite <- Nat.iter_succ_r. f_equal. f_equal. cbn [seq map]. f_equal. rewrite <- seq_shift, map_map.
  apply map_ext. intros i. by rewrite <- Nat.iter_succ_r.
Qed.

(** On the STM32F1 and G0 the numbers [rhs_hal_random_get] gives from any seed run through all
    2^32 values before one comes again; but their lowest [k] bits repeat every [2^k] numbers,
    and the lowest is 0 and 1 in turn. *)
Theorem lcg_period s n i j k : in_u32 s -> (i < n)%nat -> (j < n)%nat -> 0 <= k <= 32 -> exists vs s' x y,
  read_many lcg_get n s = Ret (vs, s') /\ vs !! i = Some x /\ vs !! j = Some y /\ in_u32 x /\ in_u32 y /\
  (x mod 2 ^ k = y mod 2 ^ k <-> (2 ^ k | Z.of_nat i - Z.of_nat j)).
Proof.
  intros Hs Hi Hj Hk. rewrite lcg_read_many. eexists _, _, (Nat.iter (S i) lcg_next s), (Nat.iter (S j) lcg_next s).
  assert (Hat : forall m, (m < n)%nat -> map (fun i => Nat.iter (S i) lcg_next s) (seq 0 n) !! m = Some (Nat.iter (S m) lcg_next s))
    by (intros m Hm; by rewrite list_lookup_fmap, lookup_seq_lt).
  split; [done|]. split; [by apply Hat|]. split; [by apply Hat|]. split; [apply lcg_next_range|]. split; [apply lcg_next_range|].
  assert (Hle : forall a b, (a <= b)%nat -> Nat.iter (S a) lcg_next s mod 2 ^ k = Nat.iter (S b) lcg_next s mod 2 ^ k <->
    (2 ^ k | Z.of_nat b - Z.of_nat a)).
  { intros a b Hab. rewrite <- Nat2Z.inj_sub, <- (lcg_low_bits _ _ (Nat.iter (S a) lcg_next s)) by (done || apply lcg_next_range).
    rewrite <- Nat.iter_add. replace (b - a + S a)%nat with (S b) by lia. done. }
  destruct (Nat.le_gt_cases i j).
  - rewrite Hle by lia. rewrite <- Z.divide_opp_r. f_equiv. lia.
  - rewrite <- Hle by lia. done.
Qed.

(** ** Filling a buffer *)

(** The numbers it takes to fill [len] bytes. *)
Definition words (len : Z) : nat := Z.to_nat ((len + 3) / 4).
Definition filled (buf : list Z) (i len : Z) (vs : list Z) : list Z :=
  take (Z.to_nat (Z.min i len)) buf ++ take (Z.to_nat (len - i)) (vs ≫= le32) ++ drop (Z.to_nat len) buf.

Lemma words_step len : 0 < len -> words len = S (words (len - 4)).
Proof. unfold words. intros. Z.to_euclidean_division_equations. lia. Qed.
Lemma length_le32 v : length (le32 v) = 4%nat.
Proof. done. Qed.

Lemma filled_done buf i len : 0 <= len <= i -> len <= Z.of_nat (length buf) -> filled buf i len [] = buf.
Proof.
  intros Hi Hl. unfold filled. rewrite Z.min_r by lia. cbn. rewrite take_nil. apply take_drop.
Qed.

(** One word copied, and the rest of the loop. *)
Lemma filled_step buf i len v vs : 0 <= i < len -> len <= Z.of_nat (length buf) ->
  let bytes := take (Z.to_nat (Z.min 4 (len - i))) (le32 v) in
  filled (take (Z.to_nat i) buf ++ bytes ++ drop (Z.to_nat i + length bytes) buf) (i + 4) len vs = filled buf i len (v :: vs).
Proof.
  intros Hi Hl bytes. assert (Hb : length bytes = Z.to_nat (Z.min 4 (len - i))).
  { unfold bytes. rewrite length_take, length_le32. lia. }
  assert (Hti : length (take (Z.to_nat i) buf) = Z.to_nat i) by (rewrite length_take; lia).
  unfold filled. cbn [mbind list_bind]. rewrite (Z.min_l i) by lia. rewrite (app_assoc (take (Z.to_nat i) buf) bytes).
  rewrite (take_app_le (take (Z.to_nat i) buf ++ bytes)), (drop_app (take (Z.to_nat i) buf ++ bytes)) by (rewrite length_app; lia).
  rewrite !length_app, Hti, Hb, drop_drop.
  rewrite (take_ge (take (Z.to_nat i) buf ++ bytes)) by (rewrite length_app; lia).
  rewrite (drop_ge (take (Z.to_nat i) buf ++ bytes)) by (rewrite length_app; lia).
  rewrite take_app, length_le32. rewrite <- !app_assoc. cbn [app]. f_equal. f_equal; [|f_equal; [f_equal; lia|f_equal; lia]].
  unfold bytes. destruct (Z.le_gt_cases 4 (len - i)); [by rewrite !take_ge by (rewrite length_le32; lia)|].
  rewrite Z.min_r by lia. done.
Qed.

Section fill_theorems.
Context {R : Type} (read : M R Z).

Lemma copy_word buf i len v : 0 <= i < len -> len + 3 < 2 ^ 32 -> len <= Z.of_nat (length buf) ->
  let len_cur := if u32 (i + 4) <? len then 4 else u8 (u32 (len - i)) in
  let bytes := take (Z.to_nat (Z.min 4 (len - i))) (le32 v) in
  copy_to buf i (take (Z.to_nat len_cur) (le32 v)) = Ret (take (Z.to_nat i) buf ++ bytes ++ drop (Z.to_nat i + length bytes) buf).
Proof.
  intros Hi Hlen Hbuf len_cur bytes. assert (Hcur : len_cur = Z.min 4 (len - i)).
  { unfold len_cur. rewrite u32_small by lia. destruct (Z.ltb_spec (i + 4) len); [lia|].
    rewrite u32_small, u8_small by lia. lia. }
  rewrite Hcur. fold bytes. unfold copy_to.
  assert (length bytes = Z.to_nat (Z.min 4 (len - i))) by (unfold bytes; rewrite length_take, length_le32; lia).
  destruct (Z.leb_spec 0 i), (Z.leb_spec (i + Z.of_nat (length bytes)) (Z.of_nat (length buf))); try lia. done.
Qed.

Lemma fill_loop_eq fuel i len buf r : 0 <= i -> i < len + 4 -> 0 < len -> len + 3 < 2 ^ 32 -> len <= Z.of_nat (length buf) ->
  (words (len - i) < fuel)%nat ->
  fill_loop read fuel i len buf r = (vs ← read_many read (words (len - i)); mret (filled buf i len vs)) r.
Proof.
  revert i buf r. induction fuel as [|fuel IH]; intros i buf r Hi Hi4 Hpos Hlen Hbuf Hfuel; [lia|]. cbn [fill_loop].
  destruct (Z.ltb_spec i len).
  - rewrite words_step in * by lia. cbn [read_many]. cbv [mbind M_bind]. destruct (read r) as [[v r1]| | |]; try done.
    rewrite copy_word by lia. cbn [lift]. rewrite u32_small by lia.
    rewrite IH; try lia.
    + replace (len - (i + 4)) with (len - i - 4) by lia. cbv [mbind M_bind mret M_ret].
      destruct (read_many read (words (len - i - 4)) r1) as [[vs r2]| | |]; try done. by rewrite filled_step by lia.
    + rewrite !length_app, length_drop, !length_take, length_le32. lia.
    + replace (len - (i + 4)) with (len - i - 4) by lia. lia.
  - assert (words (len - i) = 0%nat) as -> by (unfold words; Z.to_euclidean_division_equations; lia).
    cbn [read_many]. rewrite M_bind_ret. by rewrite filled_done by lia.
Qed.
End fill_theorems.

(** [rhs_hal_random_fill_buf] puts exactly the bytes of successive numbers, lowest first, into
    the [len] bytes asked for and changes nothing behind them, for every length but the last three
    below 2^32, and stops the system for none; on either generator. *)
Theorem random_fill_exact {R} `{Rng R} fuel buf len (r : R) (s : Z) :
  0 <= len -> len + 3 < 2 ^ 32 -> len <= Z.of_nat (length buf) -> (words len < fuel)%nat ->
  lcg_fill_buf fuel buf len s =
    (if len =? 0 then Crash "Assert"
     else Ret (take (Z.to_nat len) (map (fun i => Nat.iter (S i) lcg_next s) (seq 0 (words len)) ≫= le32) ++ drop (Z.to_nat len) buf,
               Nat.iter (words len) lcg_next s)) /\
  rhs_hal_random_fill_buf fuel buf len r =
    (if len =? 0 then Crash "Assert"
     else match read_many (rhs_hal_random_read_rng fuel) (words len) (LL_RNG_Enable r) with
          | Ret (vs, r') => Ret (take (Z.to_nat len) (vs ≫= le32) ++ drop (Z.to_nat len) buf, LL_RNG_Disable r')
          | Crash m => Crash m
          | Fault => Fault
          | Hang => Hang
          end).
Proof.
  intros Hlen Hwrap Hbuf Hfuel. assert (Hfilled : forall vs, filled buf 0 len vs = take (Z.to_nat len) (vs ≫= le32) ++ drop (Z.to_nat len) buf).
  { intros vs. unfold filled. rewrite Z.min_l, Z.sub_0_r by lia. done. }
  unfold lcg_fill_buf, rhs_hal_random_fill_buf. destruct (Z.eqb_spec len 0); [done|]. cbn [negb rhs_assert].
  rewrite !M_bind_ret. cbv [mbind M_bind call_ modify]. rewrite !fill_loop_eq; rewrite ?Z.sub_0_r; try lia. split.
  - cbv [mbind M_bind]. change lcg_read_rng with lcg_get. rewrite lcg_read_many. unfold mret, M_ret. by rewrite Hfilled.
  - cbv [mbind M_bind]. destruct (read_many _ _ _) as [[vs r']| | |]; try done. cbv [mret M_ret]. by rewrite Hfilled.
Qed.

(** ** Waiting for the hardware generator *)

(** Whatever a device does, what one run of the program reads from it is a sequence of flags and
    numbers in time; each access takes one step of it. *)
Definition traced (cecs secs drdy : nat -> bool) (data : nat -> Z) : Rng nat := {|
  LL_RNG_IsActiveFlag_CECS t := (cecs t, S t);
  LL_RNG_IsActiveFlag_SECS t := (secs t, S t);
  LL_RNG_IsActiveFlag_DRDY t := (drdy t, S t);
  LL_RNG_ClearFlag_CEIS t := S t;
  LL_RNG_ClearFlag_SEIS t := S t;
  LL_RNG_ReadRandData32 t := (data t, S t);
  LL_RNG_Enable t := S t;
  LL_RNG_Disable t := S t |}.

Section waiting.
Context (cecs secs drdy : nat -> bool) (data : nat -> Z).
#[local] Instance the_trace : Rng nat := traced cecs secs drdy data.

(** A moment at which the three flags, read one after the other, show a number. *)
Definition number_ready (t : nat) : Prop := cecs t = false /\ secs (S t) = false /\ drdy (S (S t)) = true.

Lemma rng_not_ready_eq t : exists t', (t < t' <= t + 3)%nat /\
  ((rng_not_ready t = Ret (true, t') /\ ~ number_ready t) \/
   (rng_not_ready t = Ret (false, t') /\ number_ready t /\ t' = (t + 3)%nat)).
Proof.
  unfold rng_not_ready, number_ready. cbn. cbv [mbind M_bind]. cbn.
  destruct (cecs t) eqn:Ec; cbn; [exists (S t); split; [lia|left; split; [done|intros (? & _); done]]|].
  destruct (secs (S t)) eqn:Es; cbn; [exists (S (S t)); split; [lia|left; split; [done|intros (_ & ? & _); done]]|].
  exists (S (S (S t))). split; [lia|]. destruct (drdy (S (S t))) eqn:Ed; cbn.
  - right. split; [done|]. split; [done|lia].
  - left. split; [done|]. intros (_ & _ & ?). done.
Qed.

Lemma discard_eq n t : discard n t = Ret (tt, (n + t)%nat).
Proof.
  revert t. induction n as [|n IH]; intros t; [done|]. cbn [discard].
  rewrite (bind_eq _ _ t (data t) (S t)) by done. rewrite IH. f_equal. f_equal. lia.
Qed.

Lemma rng_recover_eq t : exists t', rng_recover t = Ret (tt, t') /\ (t < t')%nat.
Proof.
  unfold rng_recover. rewrite (bind_eq _ _ t (cecs t) (S t)) by done.
  rewrite (bind_eq _ _ (S t) tt (if cecs t then S (S t) else S t)) by by destruct (cecs t).
  set (u := if cecs t then S (S t) else S t). rewrite (bind_eq _ _ u (secs u) (S u)) by done.
  assert (t < u)%nat by (unfold u; destruct (cecs t); lia). destruct (secs u).
  - rewrite (bind_eq _ _ (S u) tt (S (S u))) by done. rewrite discard_eq. eexists. split; [done|lia].
  - eexists. split; [done|lia].
Qed.

(** Reading the hardware generator returns only a number that is ready while neither the clock
    nor the seed is in error; it returns as soon as the device stays that way, whatever it did
    before, and never when no number gets ready. *)
Theorem rng_read_correct t :
  (forall fuel v t', rhs_hal_random_read_rng fuel t = Ret (v, t') -> exists u, (t <= u)%nat /\ number_ready u /\ v = data (u + 3)) /\
  (forall T fuel, (forall u, (T <= u)%nat -> number_ready u) -> (T - t < fuel)%nat ->
    exists v t', rhs_hal_random_read_rng fuel t = Ret (v, t')) /\
  ((forall u, drdy u = false) -> forall fuel, rhs_hal_random_read_rng fuel t = Hang).
Proof.
  split; [|split].
  - intros fuel. revert t. induction fuel as [|fuel IH]; intros t v t'; [done|]. cbn [rhs_hal_random_read_rng].
    destruct (rng_not_ready_eq t) as (t1 & Ht1 & [[E _]|(E & Hr & ->)]); rewrite (bind_eq _ _ _ _ _ E).
    + destruct (rng_recover_eq t1) as (t2 & E2 & Ht2). rewrite (bind_eq _ _ _ _ _ E2).
      intros (u & Hu & ?)%IH. exists u. split; [lia|done].
    + intros [= <- _]. exists t. split; [lia|]. split; [done|]. done.
  - intros T fuel Hgood. revert t. induction fuel as [|fuel IH]; intros t Hfuel; [lia|]. cbn [rhs_hal_random_read_rng].
    destruct (rng_not_ready_eq t) as (t1 & Ht1 & [[E Hr]|(E & _)]); rewrite (bind_eq _ _ _ _ _ E).
    + destruct (rng_recover_eq t1) as (t2 & E2 & Ht2). rewrite (bind_eq _ _ _ _ _ E2). apply IH.
      destruct (Nat.le_gt_cases T t) as [HT|HT]; [by destruct Hr; apply Hgood|lia].
    + by eexists _, _.
  - intros Hnever fuel. revert t. induction fuel as [|fuel IH]; intros t; [done|]. cbn [rhs_hal_random_read_rng].
    destruct (rng_not_ready_eq t) as (t1 & Ht1 & [[E _]|(_ & (_ & _ & Hd) & _)]); [|by rewrite Hnever in Hd].
    rewrite (bind_eq _ _ _ _ _ E). destruct (rng_recover_eq t1) as (t2 & E2 & _). by rewrite (bind_eq _ _ _ _ _ E2).
Qed.
End waiting.

(** ** The theorems at work *)

Lemma lcg_period_witness : exists vs s' x y, read_many lcg_get 3 1 = Ret (vs, s') /\ vs !! 0%nat = Some x /\ vs !! 2%nat = Some y /\
  x mod 2 ^ 1 = y mod 2 ^ 1.
Proof.
  destruct (lcg_period 1 3 0 2 1) as (vs & s' & x & y & E & Hx & Hy & _ & _ & Hiff); try (lia || (unfold in_u32; lia)).
  exists vs, s', x, y. split; [exact E|]. split; [exact Hx|]. split; [exact Hy|]. apply Hiff. exists (-1). reflexivity.
Defined.

Lemma random_fill_exact_witness :
  let H := traced (fun _ => false) (fun _ => false) (fun _ => true) (fun t => Z.of_nat t) in
  lcg_fill_buf 3 [0; 0; 0; 0; 0; 0; 7] 6 1 = Ret ([166; 126; 198; 65; 231; 176; 7], Nat.iter 2 lcg_next 1) /\
  rhs_hal_random_fill_buf 3 [0; 0; 0; 0; 0; 0; 7] 6 0%nat = Ret ([4; 0; 0; 0; 8; 0; 7], 10%nat).
Proof.
  intros H. destruct (random_fill_exact 3 [0; 0; 0; 0; 0; 0; 7] 6 0%nat 1) as [E1 E2]; [lia|lia|cbn; lia|change (words 6) with 2%nat; lia|].
  split; [etransitivity; [exact E1|reflexivity]|etransitivity; [exact E2|reflexivity]].
Defined.

Lemma rng_read_correct_witness : exists v t',
  rhs_hal_random_read_rng (H := traced (fun _ => false) (fun t => (t <? 5)%nat) (fun t => (8 <=? t)%nat) (fun t => Z.of_nat t)) 9 0%nat = Ret (v, t').
Proof.
  destruct (rng_read_correct (fun _ => false) (fun t => (t <? 5)%nat) (fun t => (8 <=? t)%nat) (fun t => Z.of_nat t) 0%nat) as (_ & Hlive & _).
  apply (Hlive 8%nat 9%nat); [|lia]. intros u Hu. split; [reflexivity|]. split; [apply Nat.ltb_ge; lia|apply Nat.leb_le; lia].
Defined.
