(* ===== verification/Crash.v ===== *)
(** * Crashes (core/check.c, the fault handlers of hal/rhs_hal_interrupt, hal/rhs_hal_power)

    What [rhs_assert] and [rhs_crash] do, and the faults of the processor that end in them: the
    application's action, the record of the crash with the time and the stacked registers, the
    message on the console, and the reset. The handler runs the log ([Log]) and the clock
    ([Rtc]) of the system that crashed; if one of them crashes, or the application's own code,
    the handler is entered again. *)

From S2P Require Import Prelude Interrupt Kernel UnixTime Mutex Log Rtc.

(** ** The registers the processor stacks *)

Record stack_ptr_t := mkFrame { r0 : Z; r1 : Z; r2 : Z; r3 : Z; r12 : Z; lr : Z; pc : Z; psr : Z }.

(** The word at an address, where there is memory. *)
Definition read_frame (mem : Z -> option Z) (frame : Z) : outcome stack_ptr_t :=
  let word i := match mem (u32 (frame + 4 * i)) with Some v => Ret v | None => Fault end in
  r0 ← word 0; r1 ← word 1; r2 ← word 2; r3 ← word 3;
  r12 ← word 4; lr ← word 5; pc ← word 6; psr ← word 7;
  Ret (mkFrame r0 r1 r2 r3 r12 lr pc psr).

(** ** What a crash leaves behind *)

Inductive stamp :=
  | AtTick (tick : Z)
  | AtDate (year month day hours minutes seconds : Z).

(** The calls of [rhs_log_save], with what their format is given. *)
Inductive saved :=
  | SavedCrash (at_ : stamp) (m file : list Z) (line : Z)
  | SavedFrame (f : stack_ptr_t).

Inductive event :=
  | CrashAction
  | Saved (x : saved)
  | PrintedFrame (f : stack_ptr_t)
  | Console (l : Log.line)
  | Breakpoint
  | CleanInvalidateDCache
  | ClearFlag_HSECSS
  | SystemReset.

(** How the handler ends: it never returns. *)
Inductive ending := WasReset | LoopsForever | Faulted | Waits.

Record crash_world (S Q R A : Type) := mkCrash {
  cr_os : S;
  cr_log : log Q;
  cr_rtc : R;
  cr_app : A;
  in_crash : bool;
  rhs_fault_frame : option Z;
  cr_out : list event
}.
Arguments mkCrash {S Q R A}.
Arguments cr_os {S Q R A}.
Arguments cr_log {S Q R A}.
Arguments cr_rtc {S Q R A}.
Arguments cr_app {S Q R A}.
Arguments in_crash {S Q R A}.
Arguments rhs_fault_frame {S Q R A}.
Arguments cr_out {S Q R A}.

(** [last_separator]: the characters after the last '/'. *)
Fixpoint strrchr (s : list Z) (c : Z) : option nat :=
  match s with
  | [] => None
  | x :: s => match strrchr s c with Some i => Some (S i) | None => if x =? c then Some O else None end
  end.
Definition separator : Z := 47.
Definition base_name (file : list Z) : list Z :=
  match strrchr file separator with Some i => drop (S i) file | None => file end.

Section crash.
Context {S : Type} `{Scheduler S} {Q : Type} `{FreeRTOSMutex Q} {R : Type} `{RtcHw R} {A : Type}.
Abbreviation world := (crash_world S Q R A).

(** The board, TIMESTAMPER_RTC, whether a debugger is attached (the register DHCSR), the memory,
    and [printf]'s "%d". *)
Context (b : board) (timestamper_rtc debug : bool) (mem : Z -> option Z) (printf_d : Z -> list Z).

(** The functions an application may define ([__attribute__((weak))]): [None] if it does not. *)
Context (rhs_crash_action : option (A -> outcome A)) (rhs_log_save : option (saved -> A -> outcome A)).

(** Code of the handler: it goes on, or the system has ended. *)
Definition C (X : Type) : Type := world -> (X * world) + (ending * world).
#[global] Instance C_ret : MRet C := fun X x w => inl (x, w).
#[global] Instance C_bind : MBind C := fun X Y k m w => match m w with inl (x, w) => k x w | inr e => inr e end.

Definition with_os (s : S) (w : world) : world :=
  mkCrash s (cr_log w) (cr_rtc w) (cr_app w) (in_crash w) (rhs_fault_frame w) (cr_out w).
Definition with_log (l : log Q) (w : world) : world :=
  mkCrash (cr_os w) l (cr_rtc w) (cr_app w) (in_crash w) (rhs_fault_frame w) (cr_out w).
Definition with_clock (s : S) (r : R) (w : world) : world :=
  mkCrash s (cr_log w) r (cr_app w) (in_crash w) (rhs_fault_frame w) (cr_out w).
Definition with_app (a : A) (w : world) : world :=
  mkCrash (cr_os w) (cr_log w) (cr_rtc w) a (in_crash w) (rhs_fault_frame w) (cr_out w).
Definition with_in_crash (x : bool) (w : world) : world :=
  mkCrash (cr_os w) (cr_log w) (cr_rtc w) (cr_app w) x (rhs_fault_frame w) (cr_out w).
Definition with_fault_frame (f : option Z) (w : world) : world :=
  mkCrash (cr_os w) (cr_log w) (cr_rtc w) (cr_app w) (in_crash w) f (cr_out w).
Definition with_out (l : list event) (w : world) : world :=
  mkCrash (cr_os w) (cr_log w) (cr_rtc w) (cr_app w) (in_crash w) (rhs_fault_frame w) (cr_out w ++ l).

Definition step (f : world -> world) : C unit := fun w => inl (tt, f w).
Definition reads {X} (f : world -> X) : C X := fun w => inl (f w, w).
Definition emit (x : event) : C unit := step (with_out [x]).
Definition ends {X} (e : ending) : C X := fun w => inr (e, w).

(** ** hal/rhs_hal_power *)

Definition is_f765 : bool := match b with BMPLC_XL | BMPLC_L | STM32F765xx => true | _ => false end.

Definition rhs_hal_power_reset {X} : C X :=
  (if is_f765 then emit CleanInvalidateDCache else mret tt);;
  emit SystemReset;;
  ends WasReset.

(** ** core/check.c *)

Definition rhs_set_fault_frame (frame : Z) : C unit := step (with_fault_frame (Some frame)).

(** A call of code that may itself crash: then [again] is entered, with its effects undone,
    which nothing looks at any more. *)
Definition protect {X} (again : forall Y, string -> C Y) (f : world -> outcome (X * world)) : C X := fun w =>
  match f w with
  | Ret (x, w) => inl (x, w)
  | Crash m => again X m w
  | Fault => inr (Faulted, w)
  | Hang => inr (Waits, w)
  end.

Section handler.
Context (again : forall Y, string -> C Y).

(** [if (f) f(...)] of a weak function. *)
Definition weak (f : option (A -> outcome A)) (x : event) : C unit :=
  match f with
  | None => mret tt
  | Some f => emit x;; protect again (fun w => a ← f (cr_app w); Ret (tt, with_app a w))
  end.
Definition save (x : saved) : C unit := weak (option_map (fun f => f x) rhs_log_save) (Saved x).

Definition rhs_save_stack_info : C unit :=
  frame ← reads rhs_fault_frame;
  match frame with
  | None => mret tt
  | Some frame =>
      f ← protect again (fun w => f ← read_frame mem frame; Ret (f, w));
      emit (PrintedFrame f);;
      save (SavedFrame f)
  end.

Definition get_datetime : C datetime_t :=
  protect again (fun w =>
    '(d, c) ← rhs_hal_rtc_get_datetime (mkRtc (cr_os w) (cr_rtc w)); Ret (d, with_clock (rtc_os c) (rtc_hw c) w)).

Definition crash_time : C stamp :=
  if timestamper_rtc then
    d ← get_datetime;
    mret (AtDate (u32 (year d)) (u32 (month d)) (u32 (day d)) (u32 (hours d)) (u32 (minutes d)) (u32 (seconds d)))
  else reads (fun w => AtTick (rhs_get_tick (cr_os w))).

(** "Message: %s. Called from file: %s, line: %d\n" *)
Definition crash_text (m file : list Z) (line : Z) : list Z :=
  str "Message: " ++ m ++ str ". Called from file: " ++ file ++ str ", line: " ++ printf_d line ++ [10].

Definition assert_tag : list Z := cstring (str "Assert").
Definition log_message (m file : list Z) (line : Z) : C unit :=
  l ← protect again (fun w =>
    '(l, st) ← rhs_log_print_format (cr_os w) 0 (cr_log w) (level_code RHSLogLevelDebug) assert_tag (crash_text m file line);
    Ret (l, with_log st w));
  match l with Some l => emit (Console l) | None => mret tt end.

(** The end: a breakpoint for an attached debugger and the reset, or on the Cortex-M0 a loop. *)
Definition crash_end {X} : C X :=
  match b with
  | STM32G0B1xx => ends LoopsForever
  | _ => (if debug then emit Breakpoint else mret tt);; rhs_hal_power_reset
  end.
End handler.

(** [depth] bounds how often the handler is entered; [nested] is the place of a crash inside it. *)
Context (nested : list Z * Z).
Fixpoint __rhs_crash_implementation (depth : nat) (X : Type) (file : list Z) (line : Z) (m : list Z) : C X :=
  match depth with
  | O => ends Waits
  | Datatypes.S depth =>
      let again Y e := __rhs_crash_implementation depth Y (fst nested) (snd nested) (str e) in
      step (fun w => with_os (disable_irq (cr_os w)) w);;
      already ← reads in_crash;
      if already : bool then rhs_hal_power_reset
      else
        step (with_in_crash true);;
        weak again rhs_crash_action CrashAction;;
        let file := base_name file in
        (match timestamper_rtc, rhs_log_save with
         | false, None => mret tt
         | _, _ => t ← crash_time again; save again (SavedCrash t m file line)
         end);;
        rhs_save_stack_info again;;
        log_message again m file line;;
        crash_end
  end.

(** ** The fault handlers

    [file] and [line] are the place of the [rhs_crash] in each. *)

Inductive fault_exception := HardFault | BusFault | UsageFault | MemManage.
Definition fault_name (x : fault_exception) : list Z :=
  match x with
  | HardFault => str "HardFault" | BusFault => str "BusFault" | UsageFault => str "UsageFault" | MemManage => str "MemManage"
  end.

Definition fault_handler_c (x : fault_exception) (depth : nat) (X : Type) (file : list Z) (line : Z) (frame : Z) : C X :=
  rhs_set_fault_frame frame;;
  __rhs_crash_implementation depth X file line (fault_name x).

(** The naked entry: bit 2 of EXC_RETURN tells the stack in use. *)
Definition exception_frame (exc_return msp psp : Z) : Z := if Z.testbit exc_return 2 then psp else msp.
(** [None]: the Cortex-M0 has only the HardFault. *)
Definition fault_handler (x : fault_exception) (depth : nat) (X : Type) (file : list Z) (line exc_return msp psp : Z) : option (C X) :=
  match b, x with
  | STM32G0B1xx, HardFault => Some (fault_handler_c x depth X file line (exception_frame exc_return msp psp))
  | STM32G0B1xx, _ => None
  | _, _ => Some (fault_handler_c x depth X file line (exception_frame exc_return msp psp))
  end.

(** The failure of the external clock. *)
Definition NMI_Handler (hsecss : bool) : C unit :=
  if hsecss then (emit ClearFlag_HSECSS;; (emit SystemReset;; ends WasReset)) else mret tt.
End crash.

(** ** The base name *)

Lemma strrchr_spec s c :
  match strrchr s c with
  | Some i => exists dir, s = dir ++ c :: drop (S i) s /\ c ∉ drop (S i) s
  | None => c ∉ s
  end.
Proof.
  induction s as [|x s IH]; cbn [strrchr]; [apply not_elem_of_nil|]. destruct (strrchr s c) as [i|].
  - destruct IH as (dir & E & Hn). exists (x :: dir). cbn. split; [by f_equal|done].
  - destruct (Z.eqb_spec x c) as [->|Hne]; [by exists []|]. by apply not_elem_of_cons.
Qed.

Lemma base_name_spec file : (separator ∉ base_name file) /\
  (base_name file = file \/ exists dir, file = dir ++ separator :: base_name file).
Proof.
  unfold base_name. pose proof (strrchr_spec file separator) as Hs.
  destruct (strrchr file separator) as [i|]; [|by split; [|left]].
  destruct Hs as (dir & E & Hn). split; [done|]. right. by exists dir.
Qed.

(** ** The handler *)

Section theorems.
Context {S : Type} `{SchedulerLaws S} {Q : Type} `{FreeRTOSMutexLaws Q} {R : Type} `{RtcLaws R} {A : Type}.
Abbreviation world := (crash_world S Q R A).
Context (b : board) (timestamper_rtc debug : bool) (mem : Z -> option Z) (printf_d : Z -> list Z).
Context (rhs_crash_action : option (A -> outcome A)) (rhs_log_save : option (saved -> A -> outcome A)) (nested : list Z * Z).
Implicit Types w : world.

Abbreviation CM := (C (S := S) (Q := Q) (R := R) (A := A)).
Abbreviation implementation := (__rhs_crash_implementation (S := S) (Q := Q) (R := R) (A := A)
  b timestamper_rtc debug mem printf_d rhs_crash_action rhs_log_save nested).

(** [goes m w K E]: [m] goes on as [K] says, or ends the system as [E] says. *)
Definition goes {X} (m : CM X) (w : world) (K : X -> world -> Prop) (E : ending -> world -> Prop) : Prop :=
  match m w with inl (x, w') => K x w' | inr (e, w') => E e w' end.

Lemma goes_bind {X Y} (m : CM X) (k : X -> CM Y) w K E :
  goes m w (fun x w' => goes (k x) w' K E) E -> goes (m ≫= k) w K E.
Proof. unfold goes, mbind, C_bind. by destruct (m w) as [[x w']|[e w']]. Qed.
Lemma goes_mono {X} (m : CM X) w (K K' : X -> world -> Prop) (E E' : ending -> world -> Prop) :
  goes m w K E -> (forall x w', K x w' -> K' x w') -> (forall e w', E e w' -> E' e w') -> goes m w K' E'.
Proof. unfold goes. destruct (m w) as [[x w']|[e w']]; auto. Qed.

(** The excluded tags are strings that end. *)
Definition log_sound (st : log Q) : Prop := exists tags, exclude_tag st = table_of tags /\ good_tags tags.
(** Inside the handler: interrupts masked. *)
Definition readable (frame : option Z) : Prop := match frame with None => True | Some a => exists f, read_frame mem a = Ret f end.
Definition crashing w : Prop :=
  get_PRIMASK (cr_os w) <> 0 /\ in_crash w = true /\ log_sound (cr_log w) /\ readable (rhs_fault_frame w).

Lemma crashing_isr w : crashing w -> RHS_IS_ISR (cr_os w) = true.
Proof.
  intros [Hp _]. unfold RHS_IS_ISR, RHS_IS_IRQ_MASKED. apply Z.eqb_neq in Hp. rewrite Hp. apply orb_true_r.
Qed.

(** The clock is read; critical sections of the handler leave the mask as it is. *)
Lemma datetime_in_crash w : crashing w -> exists d c,
  rhs_hal_rtc_get_datetime (mkRtc (cr_os w) (cr_rtc w)) = Ret (d, c) /\ get_PRIMASK (rtc_os c) = get_PRIMASK (cr_os w) /\
  shown_time (cr_rtc w) = (hours d, minutes d, seconds d) /\
  shown_date (cr_rtc w) = ((year d - if year2000 (LL_RTC_BAK_GetRegister RHSHalRtcRegisterSystem (cr_rtc w)) then 2000 else 1900), month d, day d).
Proof.
  intros Hw. pose proof (crashing_isr w Hw) as Hisr. unfold rhs_hal_rtc_get_datetime, rhs_hal_rtc_get_register, on_kernel, on_rtc, rhs_critical_enter, rhs_critical_exit.
  munfold. cbn [rtc_os rtc_hw]. rewrite Hisr. pose proof (enter_isr_spec (cr_os w)) as He.
  destruct (taskENTER_CRITICAL_FROM_ISR (cr_os w)) as [m s1]. destruct He as (_ & _ & _ & Hp1 & _). cbn [rtc_os rtc_hw from_isr isrm].
  pose proof (get_time_spec (cr_rtc w)) as Ht. destruct (HAL_RTC_GetTime (cr_rtc w)) as [[ok t] r1].
  destruct Ht as (-> & Ht & Hd1 & _). cbn [hal_ok rtc_os rtc_hw]. unfold hal_ok. cbn.
  pose proof (get_date_spec r1) as Hd. destruct (HAL_RTC_GetDate r1) as [[ok d] r2]. destruct Hd as (-> & Hd). cbn.
  pose proof (exit_isr_spec m s1) as Hx. destruct Hx as (_ & _ & Hp2 & _).
  eexists _, _. split; [reflexivity|]. cbn. split; [congruence|]. split; [done|].
  rewrite <- Hd1, Hd. match goal with |- context [if ?c then 2000 else 1900] => destruct c end; f_equal; f_equal; lia.
Qed.

(** The message on the console: the log is asked as from an interrupt, and prints unless its
    mutex is taken. *)
Definition assert_enabled (st : log Q) : Prop := level_code RHSLogLevelDebug <= log_level st /\
  exists tags, exclude_tag st = table_of tags /\ good_tags tags /\ ~ present (str "Assert") tags.
Lemma assert_chars : chars (str "Assert").
Proof. unfold chars. cbn. repeat constructor; discriminate. Qed.
Lemma log_in_crash w text : crashing w ->
  rhs_log_print_format (cr_os w) 0 (cr_log w) (level_code RHSLogLevelDebug) assert_tag text = Ret (None, cr_log w) \/
  assert_enabled (cr_log w) /\
  rhs_log_print_format (cr_os w) 0 (cr_log w) (level_code RHSLogLevelDebug) assert_tag text =
    match mutex (cr_log w) with
    | None => Crash "Assert"
    | Some q => Ret (if owner q =? 0 then Some (mkLine "34" (rhs_get_tick (cr_os w)) "D" assert_tag text) else None, cr_log w)
    end.
Proof.
  intros Hw. pose proof (crashing_isr w Hw) as Hisr. destruct Hw as (_ & _ & (tags & Et & Hg) & _).
  unfold rhs_log_print_format, assert_tag. destruct (Z.ltb_spec (log_level (cr_log w)) (level_code RHSLogLevelDebug)) as [Hl|Hl]; [by left|].
  rewrite Et. destruct (find_tag_spec tags (str "Assert") Hg assert_chars) as (r & -> & Hr). cbn [mbind outcome_bind].
  destruct r as [i|]; [by left|]. right. split; [split; [done|]; by exists tags|]. rewrite Hisr. cbn [negb level_style level_code].
  unfold rhs_mutex_get_owner. destruct (mutex (cr_log w)) as [q|]; [|done]. cbn [mbind outcome_bind].
  destruct (holder_spec q) as [-> ->]. destruct (RHS_IS_IRQ_MODE (cr_os w)), (owner q =? 0); done.
Qed.

Lemma assert_not_printed w text q : crashing w -> mutex (cr_log w) = Some q -> owner q = 0 -> assert_enabled (cr_log w) ->
  rhs_log_print_format (cr_os w) 0 (cr_log w) (level_code RHSLogLevelDebug) assert_tag text <> Ret (None, cr_log w).
Proof.
  intros Hw Hq Ho (Hl & tags & Et & Hg & Hn). unfold rhs_log_print_format, assert_tag. rewrite (proj2 (Z.ltb_ge _ _) Hl), Et.
  destruct (find_tag_spec tags (str "Assert") Hg assert_chars) as (r & -> & Hr). cbn [mbind outcome_bind].
  destruct r as [i|]; [by apply list_elem_of_lookup_2 in Hr|]. rewrite (crashing_isr w Hw). cbn [negb level_style level_code].
  unfold rhs_mutex_get_owner. rewrite Hq. cbn [mbind outcome_bind]. destruct (holder_spec q) as [-> ->]. rewrite Ho.
  by destruct (RHS_IS_IRQ_MODE (cr_os w)).
Qed.

(** *** Every crash ends *)

Definition answers {X} (o : outcome X) : Prop := match o with Ret _ | Crash _ => True | Fault | Hang => False end.
Definition ended (e : ending) w : Prop := e = WasReset /\ get_PRIMASK (cr_os w) <> 0 /\ last (cr_out w) = Some SystemReset.
Definition reenters (again : forall Y, string -> CM Y) : Prop :=
  forall Y m w K, crashing w -> goes (again Y m) w K ended.

Lemma reset_ends {X} w (K : X -> world -> Prop) : get_PRIMASK (cr_os w) <> 0 -> goes (rhs_hal_power_reset b) w K ended.
Proof.
  intros Hw. unfold rhs_hal_power_reset, goes, mbind, C_bind, emit, step, ends, mret, C_ret.
  destruct (is_f765 b); cbn; (split; [done|]); (split; [done|]); apply last_snoc.
Qed.
Lemma implementation_reenters d file line m X w K : crashing w -> goes (implementation (Datatypes.S d) X file line m) w K ended.
Proof.
  intros (Hp & Hc & _). cbn [__rhs_crash_implementation]. apply goes_bind. unfold step at 1. cbn. apply goes_bind. cbn. rewrite Hc.
  apply reset_ends. cbn. destruct (disable_spec (cr_os w)) as [Hd _]. cbn in Hd. by rewrite Hd.
Qed.

Section pieces.
Context (again : forall Y, string -> CM Y) (Hagain : reenters again).
Context (Haction : forall f a, rhs_crash_action = Some f -> answers (f a)).
Context (Hsave : forall f x a, rhs_log_save = Some f -> answers (f x a)).

Lemma weak_goes f x w : (forall g a, f = Some g -> answers (g a)) -> crashing w ->
  goes (weak again f x) w (fun _ w' => crashing w') ended.
Proof.
  intros Hf Hw. unfold weak. destruct f as [f|]; [|done]. apply goes_bind. cbn. unfold goes, protect. cbn.
  pose proof (Hf f (cr_app w) eq_refl) as Ha. destruct (f (cr_app w)) as [a|m| |]; try done. by apply Hagain.
Qed.
Lemma save_goes x w : crashing w -> goes (save rhs_log_save again x) w (fun _ w' => crashing w') ended.
Proof.
  apply weak_goes. intros g a Hg. destruct rhs_log_save as [f|] eqn:E; [|done]. injection Hg as <-. by apply Hsave.
Qed.
Lemma emit_goes x w : crashing w -> goes (emit x) w (fun _ w' => crashing w') ended.
Proof. done. Qed.
Lemma stack_info_goes w : crashing w -> goes (rhs_save_stack_info mem rhs_log_save again) w (fun _ w' => crashing w') ended.
Proof.
  intros Hw. unfold rhs_save_stack_info. apply goes_bind. cbn -[read_frame]. destruct Hw as (Hp & Hc & Hl & Hr).
  destruct (rhs_fault_frame w) as [a|] eqn:Ea; [|by split_and!; rewrite ?Ea].
  destruct Hr as [f Ef]. apply goes_bind. unfold goes at 1, protect. cbn [mbind outcome_bind]. rewrite Ef. cbn [mbind outcome_bind].
  apply goes_bind. cbn -[read_frame]. apply save_goes. split_and!; [done..|]. cbn. rewrite Ea. by exists f.
Qed.
Lemma datetime_goes w : crashing w -> goes (get_datetime again) w (fun _ w' => crashing w') ended.
Proof.
  intros Hw. unfold get_datetime, goes, protect. cbv beta. destruct (datetime_in_crash w Hw) as (d & c & E & Hp & _).
  cbn [mbind outcome_bind]. rewrite E. cbn. destruct Hw as (Hp' & Hw). split; [|done]. cbn. by rewrite Hp.
Qed.
Lemma time_goes w : crashing w -> goes (crash_time timestamper_rtc again) w (fun _ w' => crashing w') ended.
Proof.
  intros Hw. unfold crash_time. destruct timestamper_rtc; [|done]. apply goes_bind. eapply goes_mono; [by apply datetime_goes| |done].
  by intros d w' Hw'.
Qed.
Lemma message_goes m file line w : crashing w -> goes (log_message printf_d again m file line) w (fun _ w' => crashing w') ended.
Proof.
  intros Hw. unfold log_message. apply goes_bind. unfold goes at 1, protect. cbv beta. cbn [mbind outcome_bind].
  destruct (log_in_crash w (crash_text printf_d m file line) Hw) as [-> |[_ ->]]; [done|].
  destruct (mutex (cr_log w)) as [q|]; [|by apply Hagain]. cbn [mbind outcome_bind]. by destruct (owner q =? 0).
Qed.
End pieces.

(** What is left of the world when the handler is entered for the first time. *)
Definition entered w : world := with_in_crash true (with_os (disable_irq (cr_os w)) w).
Lemma entered_crashing w : log_sound (cr_log w) -> readable (rhs_fault_frame w) -> crashing (entered w).
Proof. intros Hl Hf. split_and!; [|done..]. cbn. destruct (disable_spec (cr_os w)) as [Hd _]. cbn in Hd. by rewrite Hd. Qed.

Lemma match_cases {X B} (c : bool) (o : option B) (x y : X) :
  (match c, o with false, None => x | _, _ => y end) = x /\ c = false /\ o = None \/
  (match c, o with false, None => x | _, _ => y end) = y /\ (c = true \/ is_Some o).
Proof. destruct c, o; naive_solver. Qed.

(** The handler, entered for the first time. *)
Definition body (again : forall Y, string -> CM Y) {X} (m file : list Z) (line : Z) : CM X :=
  weak again rhs_crash_action CrashAction;;
  (match timestamper_rtc, rhs_log_save with
   | false, None => mret tt
   | _, _ => t ← crash_time timestamper_rtc again; save rhs_log_save again (SavedCrash t m (base_name file) line)
   end);;
  rhs_save_stack_info mem rhs_log_save again;;
  log_message printf_d again m (base_name file) line;;
  crash_end b debug.
Lemma implementation_first d X file line m w : in_crash w = false ->
  implementation (Datatypes.S d) X file line m w =
  body (fun Y e => implementation d Y (fst nested) (snd nested) (str e)) m file line (entered w).
Proof. intros Hc. cbn [__rhs_crash_implementation]. unfold mbind at 1 2 3 4, C_bind, step, reads. cbn. by rewrite Hc. Qed.

Definition ends_well (e : ending) w : Prop :=
  ended e w \/ e = LoopsForever /\ b = STM32G0B1xx /\ get_PRIMASK (cr_os w) <> 0.
Lemma crash_end_goes {X} w (K : X -> world -> Prop) : crashing w -> goes (crash_end b debug) w K ends_well.
Proof.
  intros Hw. assert (Hreset : forall w' : world, crashing w' -> goes (rhs_hal_power_reset (A := A) b) w' K ends_well).
  { intros w' (Hp & _). eapply goes_mono; [by apply (reset_ends w' K)|done|]. by left. }
  unfold crash_end. destruct b eqn:Eb; try (apply goes_bind; by destruct debug; apply Hreset).
  change (ends_well LoopsForever w). right. destruct Hw as [Hp _]. by split_and!.
Qed.

Definition end_events : list event :=
  match b with
  | STM32G0B1xx => []
  | _ => (if debug then [Breakpoint] else []) ++ (if is_f765 b then [CleanInvalidateDCache] else []) ++ [SystemReset]
  end.

Definition last_state : ending := match b with STM32G0B1xx => LoopsForever | _ => WasReset end.
Lemma crash_end_exact {X} w (K : X -> world -> Prop) (E : ending -> world -> Prop) : crashing w ->
  (forall e w', cr_out w' = cr_out w ++ end_events -> get_PRIMASK (cr_os w') <> 0 ->
    e = last_state -> E e w') ->
  goes (crash_end b debug) w K E.
Proof.
  intros [Hp _] HE. unfold crash_end, end_events, last_state in *. unfold goes, rhs_hal_power_reset, mbind, C_bind, emit, step, ends, mret, C_ret.
  destruct b eqn:Eb, debug; cbn; apply HE; try done; cbn; by rewrite <- ?app_assoc, ?app_nil_r.
Qed.

(** C5: every crash comes to an end. Whatever the application's functions, the log and the clock
    do, even if they crash themselves, two entries of the handler are enough: the interrupts are
    masked, and the board is reset, as the last thing it does, or, on the Cortex-M0 and only if
    nothing crashed again, halts in a loop with the interrupts masked. A crash inside the handler
    leaves no trace of its own but the reset. *)
Theorem crash_ends d X file line m w :
  log_sound (cr_log w) -> readable (rhs_fault_frame w) ->
  (forall f a, rhs_crash_action = Some f -> answers (f a)) -> (forall f x a, rhs_log_save = Some f -> answers (f x a)) ->
  exists e w', implementation (2 + d) X file line m w = inr (e, w') /\ ends_well e w' /\
    (in_crash w = true -> cr_out w' = cr_out w ++ (if is_f765 b then [CleanInvalidateDCache] else []) ++ [SystemReset]).
Proof.
  intros Hl Hf Haction Hsave. destruct (in_crash w) eqn:Hc.
  - cbn [Nat.add __rhs_crash_implementation]. unfold mbind at 1 2, C_bind, step, reads. cbn. rewrite Hc.
    unfold rhs_hal_power_reset, mbind, C_bind, emit, step, ends, mret, C_ret. destruct (disable_spec (cr_os w)) as [Hd _]. cbn in Hd.
    destruct (is_f765 b); cbn; (eexists _, _; split; [reflexivity|]; split; [|intros _; cbn; by rewrite <- ?app_assoc]);
      (left; split_and!; [done|by cbn; rewrite Hd|apply last_snoc]).
  - rewrite Nat.add_succ_l, implementation_first by done. set (again := fun Y e => _).
    assert (Hagain : reenters again) by (intros Y e w' K Hw'; by apply implementation_reenters).
    assert (Hgoes : goes (body again (X := X) m file line) (entered w) (fun _ _ => False) ends_well).
    { pose proof (entered_crashing w Hl Hf) as Hw. assert (Hend : forall e w', ended e w' -> ends_well e w') by by left.
      apply goes_bind. eapply goes_mono; [apply (weak_goes again Hagain)| |exact Hend]; [by eauto|done|]. intros [] w1 Hw1.
      apply goes_bind. eapply goes_mono with (K := fun _ w' => crashing w'); [| |exact Hend].
      { destruct (match_cases timestamper_rtc rhs_log_save (mret tt : CM unit) (t ← crash_time timestamper_rtc again; save rhs_log_save again (SavedCrash t m (base_name file) line)))
          as [[-> _]|[-> _]]; [done|]. apply goes_bind. eapply goes_mono; [by apply time_goes| |done]. intros t w2 Hw2. by apply save_goes. }
      intros [] w2 Hw2. apply goes_bind. eapply goes_mono; [by apply (stack_info_goes again Hagain)| |exact Hend]. intros [] w3 Hw3.
      apply goes_bind. eapply goes_mono; [by apply (message_goes again Hagain)| |exact Hend]. intros [] w4 Hw4. by apply crash_end_goes. }
    unfold goes in Hgoes. destruct (body again m file line (entered w)) as [[x w']|[e w']]; [done|]. by exists e, w'.
Qed.

(** *** What a crash leaves behind *)

Definition returns {X} (o : outcome X) : Prop := exists x, o = Ret x.
Definition no_end (e : ending) w : Prop := False.
Definition later (l : list event) w w' : Prop :=
  crashing w' /\ cr_out w' = cr_out w ++ l /\ cr_log w' = cr_log w /\ rhs_fault_frame w' = rhs_fault_frame w.
Lemma later_trans l l' w w1 w2 : later l w w1 -> later l' w1 w2 -> later (l ++ l') w w2.
Proof. intros (_ & E1 & L1 & F1) (Hw & E2 & L2 & F2). split_and!; [done|by rewrite E2, E1, app_assoc|congruence..]. Qed.
Lemma later_none w : crashing w -> later [] w w.
Proof. intros Hw. split_and!; [done|by rewrite app_nil_r|done..]. Qed.

Definition action_events : list event := if rhs_crash_action is Some _ then [CrashAction] else [].
Definition saved_events (x : saved) : list event := if rhs_log_save is Some _ then [Saved x] else [].
Definition frame_events (f : option stack_ptr_t) : list event :=
  match f with Some f => PrintedFrame f :: saved_events (SavedFrame f) | None => [] end.
Section exact_pieces.
Context (again : forall Y, string -> CM Y).
Context (Haction : forall f a, rhs_crash_action = Some f -> returns (f a)).
Context (Hsave : forall f x a, rhs_log_save = Some f -> returns (f x a)).

Lemma weak_runs f x w : (forall g a, f = Some g -> returns (g a)) -> crashing w ->
  goes (weak again f x) w (fun _ w' => later (if f is Some _ then [x] else []) w w' /\ cr_os w' = cr_os w /\ cr_rtc w' = cr_rtc w) no_end.
Proof.
  intros Hf Hw. unfold weak. destruct f as [f|]; [|by split; [apply later_none|]]. apply goes_bind. cbn. unfold goes, protect. cbn.
  destruct (Hf f (cr_app w) eq_refl) as [a ->]. done.
Qed.
Lemma save_runs x w : crashing w -> goes (save rhs_log_save again x) w (fun _ w' => later (saved_events x) w w') no_end.
Proof.
  intros Hw. eapply goes_mono; [apply weak_runs; [|done]| |done].
  - intros g a Hg. destruct rhs_log_save as [f|] eqn:E; [|done]. injection Hg as <-. by apply Hsave.
  - intros [] w' [Hl _]. unfold saved_events. by destruct rhs_log_save.
Qed.

(** The registers stacked at an address. *)
Definition frame_words (f : stack_ptr_t) : list Z := [r0 f; r1 f; r2 f; r3 f; r12 f; lr f; pc f; psr f].
Definition stacked (a : option Z) (f : option stack_ptr_t) : Prop :=
  match a, f with
  | None, None => True
  | Some a, Some f => forall i v, frame_words f !! Z.to_nat i = Some v -> 0 <= i -> mem (u32 (a + 4 * i)) = Some v
  | _, _ => False
  end.
Lemma read_stacked a f : stacked (Some a) (Some f) -> read_frame mem a = Ret f.
Proof.
  intros Hs. cbn in Hs. unfold read_frame. rewrite (Hs 0 (r0 f)), (Hs 1 (r1 f)), (Hs 2 (r2 f)), (Hs 3 (r3 f)), (Hs 4 (r12 f)),
    (Hs 5 (lr f)), (Hs 6 (pc f)), (Hs 7 (psr f)) by (done || lia). by destruct f.
Qed.
Lemma stack_info_runs f w : crashing w -> stacked (rhs_fault_frame w) f ->
  goes (rhs_save_stack_info mem rhs_log_save again) w (fun _ w' => later (frame_events f) w w') no_end.
Proof.
  intros Hw Hs. unfold rhs_save_stack_info. apply goes_bind. cbn -[read_frame].
  destruct (rhs_fault_frame w) as [a|] eqn:Ea, f as [f|]; try done; [|by apply later_none].
  pose proof (read_stacked a f Hs) as Ef. apply goes_bind. unfold goes at 1, protect. cbn [mbind outcome_bind]. rewrite Ef.
  cbn [mbind outcome_bind]. apply goes_bind. cbn -[read_frame]. eapply goes_mono; [apply save_runs; done| |done].
  intros [] w' Hl. eapply (later_trans [_]); [|exact Hl]. done.
Qed.

(** The time is that of the moment: the tick count, or the clock's date. *)
Definition right_time w (t : stamp) : Prop :=
  if timestamper_rtc then
    exists d : datetime_t, t = AtDate (u32 (year d)) (u32 (month d)) (u32 (day d)) (u32 (hours d)) (u32 (minutes d)) (u32 (seconds d)) /\
      shown_time (cr_rtc w) = (hours d, minutes d, seconds d) /\
      shown_date (cr_rtc w) = ((year d - if year2000 (LL_RTC_BAK_GetRegister RHSHalRtcRegisterSystem (cr_rtc w)) then 2000 else 1900), month d, day d)
  else t = AtTick (rhs_get_tick (cr_os w)).
Lemma time_runs w : crashing w ->
  goes (crash_time timestamper_rtc again) w (fun t w' => right_time w t /\ later [] w w') no_end.
Proof.
  intros Hw. unfold crash_time, right_time. destruct timestamper_rtc; [|by split; [|apply later_none]]. apply goes_bind.
  unfold get_datetime, goes at 1, protect. cbv beta. destruct (datetime_in_crash w Hw) as (d & c & E & Hp & Ht & Hd).
  cbn [mbind outcome_bind]. rewrite E. cbn. split; [by exists d|]. destruct Hw as (Hp' & Hw).
  split_and!; [split; [cbn; by rewrite Hp|done]|cbn; by rewrite app_nil_r|done..].
Qed.

Lemma with_log_same w : with_log (cr_log w) w = w.
Proof. by destruct w. Qed.

(** A message is printed when debug messages of its tag are, unless somebody has the log. *)
Definition on_console (st : log Q) (text : list Z) (l : list event) : Prop :=
  exists q, mutex st = Some q /\
  ((owner q <> 0 \/ ~ assert_enabled st) /\ l = [] \/
   owner q = 0 /\ assert_enabled st /\ exists t, l = [Console (mkLine "34" t "D" assert_tag text)]).
Lemma message_runs q m file line w : crashing w -> mutex (cr_log w) = Some q ->
  goes (log_message printf_d again m file line) w (fun _ w' => exists l, on_console (cr_log w) (crash_text printf_d m file line) l /\ later l w w') no_end.
Proof.
  intros Hw Hq. unfold log_message. apply goes_bind. unfold goes at 1, protect. cbv beta. cbn [mbind outcome_bind].
  destruct (log_in_crash w (crash_text printf_d m file line) Hw) as [E|[He E]]; rewrite E; cbn [mbind outcome_bind].
  - rewrite with_log_same. exists []. split; [|by apply later_none]. exists q. split; [done|]. left. split; [|done].
    destruct (Z.eq_dec (owner q) 0) as [Ho|Ho]; [right|by left]. intros He. exact (assert_not_printed w _ q Hw Hq Ho He E).
  - rewrite Hq. cbn [mbind outcome_bind]. rewrite with_log_same. destruct (Z.eqb_spec (owner q) 0) as [Ho|Ho].
    + exists [Console (mkLine "34" (rhs_get_tick (cr_os w)) "D" assert_tag (crash_text printf_d m file line))].
      split; [|by split_and!]. exists q. split; [done|]. right. split_and!; [done..|]. by eexists.
    + exists []. split; [|by apply later_none]. exists q. split; [done|]. left. by split; [left|].
Qed.
End exact_pieces.

(** *** Crashes of the software and faults of the processor *)

Inductive cause :=
  | Software (file : list Z) (line : Z) (m : list Z)
  | Exception (x : fault_exception) (file : list Z) (line exc_return msp psp : Z).
Definition cause_run (c : cause) (d : nat) (X : Type) : option (CM X) :=
  match c with
  | Software file line m => Some (implementation d X file line m)
  | Exception x file line exc_return msp psp =>
      fault_handler b timestamper_rtc debug mem printf_d rhs_crash_action rhs_log_save nested x d X file line exc_return msp psp
  end.
Definition cause_file (c : cause) : list Z := match c with Software file _ _ => file | Exception _ file _ _ _ _ => file end.
Definition cause_line (c : cause) : Z := match c with Software _ line _ => line | Exception _ _ line _ _ _ => line end.
Definition cause_message (c : cause) : list Z := match c with Software _ _ m => m | Exception x _ _ _ _ _ => fault_name x end.
(** Where the processor stacked its registers: on the stack of the task, or on the main one. *)
Definition cause_frame (c : cause) w : option Z :=
  match c with
  | Software _ _ _ => rhs_fault_frame w
  | Exception _ _ _ exc_return msp psp => Some (if Z.testbit exc_return 2 then psp else msp)
  end.

Lemma body_runs again q f m file line X w :
  (forall f a, rhs_crash_action = Some f -> returns (f a)) -> (forall f x a, rhs_log_save = Some f -> returns (f x a)) ->
  crashing w -> stacked (rhs_fault_frame w) f -> mutex (cr_log w) = Some q ->
  exists e w' t console, body again (X := X) m file line w = inr (e, w') /\
    cr_out w' = cr_out w ++ action_events ++ saved_events (SavedCrash t m (base_name file) line) ++ frame_events f ++ console ++ end_events /\
    right_time w t /\ on_console (cr_log w) (crash_text printf_d m (base_name file) line) console /\
    e = last_state /\ get_PRIMASK (cr_os w') <> 0.
Proof.
  intros Haction Hsave Hw Hf Hq.
  assert (Hgoes : goes (body again (X := X) m file line) w (fun _ _ => False) (fun e w' => exists t console,
    cr_out w' = cr_out w ++ action_events ++ saved_events (SavedCrash t m (base_name file) line) ++ frame_events f ++ console ++ end_events /\
    right_time w t /\ on_console (cr_log w) (crash_text printf_d m (base_name file) line) console /\
    e = last_state /\ get_PRIMASK (cr_os w') <> 0)).
  2: { unfold goes in Hgoes. destruct (body again m file line w) as [[x w']|[e w']]; [done|].
       destruct Hgoes as (t & console & Hall). by exists e, w', t, console. }
  apply goes_bind. eapply goes_mono; [apply (weak_runs again rhs_crash_action); eauto| |done].
  intros [] w1 (L1 & Eos & Ertc). apply goes_bind.
  eapply goes_mono with (E := no_end) (K := fun _ w' => exists t, right_time w t /\ later (saved_events (SavedCrash t m (base_name file) line)) w1 w'); [| |done].
  { assert (Htime : forall t, right_time w1 t <-> right_time w t) by (intros t; unfold right_time; by rewrite Eos, Ertc).
    destruct (match_cases timestamper_rtc rhs_log_save (mret tt : CM unit) (t ← crash_time timestamper_rtc again; save rhs_log_save again (SavedCrash t m (base_name file) line)))
      as [(-> & Hno & Hn)|[-> _]].
    - exists (AtTick (rhs_get_tick (cr_os w))). unfold right_time, saved_events. rewrite Hno, Hn. split; [done|]. apply later_none, L1.
    - apply goes_bind. eapply goes_mono; [apply time_runs, L1| |done]. intros t w2 (Ht & L2).
      eapply goes_mono; [apply (save_runs again); [done|apply L2]| |done]. intros [] w3 L3. exists t. split; [by apply Htime|].
      exact (later_trans _ _ _ _ _ L2 L3). }
  intros [] w2 (t & Ht & L2). pose proof (later_trans _ _ _ _ _ L1 L2) as L12.
  apply goes_bind. eapply goes_mono; [apply (stack_info_runs again) with (f := f); [done|apply L12|]| |done].
  { destruct L12 as (_ & _ & _ & ->). done. }
  intros [] w3 L3. pose proof (later_trans _ _ _ _ _ L12 L3) as L13. clear L1 L2 L3 L12.
  apply goes_bind. eapply goes_mono; [apply (message_runs again q)| |done]; [apply L13|by destruct L13 as (_ & _ & -> & _)|].
  intros [] w4 (console & Hc & L4). destruct L13 as (H13 & O13 & Elog & _). rewrite Elog in Hc. destruct L4 as (H4' & O4 & _).
  eapply crash_end_exact; [exact H4'|]. intros e w' Ho Hp He. exists t, console. split_and!; try done.
  rewrite Ho, O4, O13. by rewrite <- !app_assoc.
Qed.

(** C6: what a crash leaves behind when the handler itself does not crash. With the interrupts
    masked the application's action is run; then the record with the time, the message, and the
    file's name without its directories and the line; then, if the processor faulted, the eight
    registers it stacked, read from the stack that was in use, on the console and as a second
    record; then the message on the console, unless debug messages of the tag are switched off or
    somebody has the log; then the board is reset, or on the Cortex-M0 left in a loop. *)
Theorem crash_reported c d X f q run w : cause_run c (1 + d) X = Some run ->
  in_crash w = false -> log_sound (cr_log w) -> mutex (cr_log w) = Some q -> stacked (cause_frame c w) f ->
  (forall f a, rhs_crash_action = Some f -> returns (f a)) -> (forall f x a, rhs_log_save = Some f -> returns (f x a)) ->
  exists e w' t console, run w = inr (e, w') /\
    cr_out w' = cr_out w ++ action_events ++ saved_events (SavedCrash t (cause_message c) (base_name (cause_file c)) (cause_line c)) ++
                frame_events f ++ console ++ end_events /\
    right_time (entered w) t /\ on_console (cr_log w) (crash_text printf_d (cause_message c) (base_name (cause_file c)) (cause_line c)) console /\
    (separator ∉ base_name (cause_file c)) /\
    e = last_state /\ get_PRIMASK (cr_os w') <> 0.
Proof.
  intros Hrun Hc Hl Hq Hf Haction Hsave. pose proof (proj1 (base_name_spec (cause_file c))) as Hbase.
  destruct c as [file line m|x file line exc_return msp psp].
  - assert (Hr : run = implementation (Datatypes.S d) X file line m) by (unfold cause_run in Hrun; cbn [Nat.add] in Hrun; congruence).
    rewrite Hr, implementation_first by done. assert (Hw : crashing (entered w)).
    { apply entered_crashing; [done|]. destruct (rhs_fault_frame w) as [a|] eqn:Ea, f as [f|]; cbn in Hf; rewrite ?Ea in Hf; try done. exists f. by apply read_stacked. }
    destruct (body_runs (fun Y e => implementation d Y (fst nested) (snd nested) (str e)) q f m file line X (entered w)) as (e & w' & t & console & Hall); [done..|].
    exists e, w', t, console. destruct Hall as (E & Ho & Ht & Hcon & He & Hp). by split_and!.
  - set (w1 := with_fault_frame (Some (exception_frame exc_return msp psp)) w).
    assert (Hr : run w = implementation (Datatypes.S d) X file line (fault_name x) w1).
    { unfold cause_run, fault_handler in Hrun. by destruct b, x; try discriminate; injection Hrun as <-. }
    rewrite Hr, implementation_first by done. cbn in Hf. destruct f as [f|]; [|done].
    assert (Hw : crashing (entered w1)) by (apply entered_crashing; [done|]; exists f; by apply read_stacked).
    destruct (body_runs (fun Y e => implementation d Y (fst nested) (snd nested) (str e)) q (Some f) (fault_name x) file line X (entered w1)) as (e & w' & t & console & Hall); [done..|].
    exists e, w', t, console. destruct Hall as (E & Ho & Ht & Hcon & He & Hp). by split_and!.
Qed.
End theorems.

(** ** The theorems at work *)

Definition crash_log (q : option plain_mutex) : log plain_mutex := mkLog RHS_LOG_LEVEL_DEFAULT (table_of (replicate MAX_TAG_COUNT None)) q.
Lemma crash_log_sound q : log_sound (crash_log q).
Proof.
  exists (replicate MAX_TAG_COUNT None). split; [done|]. intros t Ht. unfold present in Ht.
  apply elem_of_replicate in Ht as [[=] _].
Qed.
Definition crash_start (q : option plain_mutex) : crash_world os_state plain_mutex simple_clock unit :=
  mkCrash a_task (crash_log q) (mkClock (24, 2, 29) (12, 30, 45) (fun _ => 16)) tt false None [].
(** A stack with the numbers of its words. *)
Definition a_stack (a : Z) : option Z := if (0x20001000 <=? a) && (a <? 0x20001020) then Some ((a - 0x20001000) / 4) else None.
Definition app_returns : unit -> outcome unit := fun _ => Ret tt.
Definition save_crashes : saved -> unit -> outcome unit := fun _ _ => Crash "Assert".
Definition decimal (_ : Z) : list Z := str "42".

(** A bus fault of a task on the STM32F765, with the clock. *)
Lemma crash_reported_witness : exists run e w' t console,
  cause_run BMPLC_L true false a_stack decimal (Some app_returns) (Some (fun _ => app_returns)) ([], 0)
    (Exception BusFault (str "src/hal/x.c") 42 0xFFFFFFFD 0x20000000 0x20001000) 1 unit = Some run /\
  run (crash_start (Some xSemaphoreCreateRecursiveMutexStatic)) = inr (e, w') /\ e = WasReset /\
  cr_out w' = [CrashAction; Saved (SavedCrash t (str "BusFault") (str "x.c") 42); PrintedFrame (mkFrame 0 1 2 3 4 5 6 7);
               Saved (SavedFrame (mkFrame 0 1 2 3 4 5 6 7))] ++ console ++ [CleanInvalidateDCache; SystemReset].
Proof.
  eexists. destruct (crash_reported BMPLC_L true false a_stack decimal (Some app_returns) (Some (fun _ => app_returns)) ([], 0)
    (Exception BusFault (str "src/hal/x.c") 42 0xFFFFFFFD 0x20000000 0x20001000) 0 unit (Some (mkFrame 0 1 2 3 4 5 6 7))
    xSemaphoreCreateRecursiveMutexStatic _ (crash_start (Some xSemaphoreCreateRecursiveMutexStatic)) eq_refl eq_refl
    (crash_log_sound _) eq_refl) as (e & w' & t & console & E & Ho & _ & _ & _ & He & _).
  - intros i v Hv Hi. assert (Hlt : (Z.to_nat i < 8)%nat) by (apply lookup_lt_Some in Hv; exact Hv).
    assert (i = 0 \/ i = 1 \/ i = 2 \/ i = 3 \/ i = 4 \/ i = 5 \/ i = 6 \/ i = 7) as Hc by lia.
    repeat (destruct Hc as [-> |Hc]; [rewrite <- Hv; reflexivity|]). subst i. rewrite <- Hv. reflexivity.
  - intros f a [= <-]. by exists tt.
  - intros f x a [= <-]. by exists tt.
  - exists e, w', t, console. split; [reflexivity|]. split; [exact E|]. split; [exact He|]. exact Ho.
Defined.

(** A crash on the Cortex-M0 before [rhs_log_init], with a record that crashes too: it is reset
    after all. *)
Lemma crash_ends_witness : exists e w',
  __rhs_crash_implementation (Q := plain_mutex) (A := unit) STM32G0B1xx false false a_stack decimal None (Some save_crashes) ([], 0)
    2 unit (str "main.c") 1 (str "Assert") (crash_start None) = inr (e, w') /\ e = WasReset.
Proof.
  destruct (crash_ends STM32G0B1xx false false a_stack decimal None (Some save_crashes) ([], 0) 0 unit (str "main.c") 1 (str "Assert")
    (crash_start None) (crash_log_sound _) I) as (e & w' & E & _ & _); [intros f a [=]|intros f x a [= <-]; exact I|].
  exists e, w'. split; [exact E|]. revert E. cbn. intros E. by injection E as <- <-.
Defined.
