(* ===== verification/Commands.v ===== *)
(** * The commands of the command line (services/cli/cli_app.c)

    The service's start with its ten commands, and what each command prints, frees or ends. Text
    is the bytes [printf] writes; the formats the file uses are modelled here. The log command is
    in [Cli], the "crash" command ends in [Crash]. *)

From S2P Require Import Prelude Kernel EventFlag Mutex Memmgr Records ThreadList Log Cli.

(** ** The formats of printf the file uses *)

(** The digits of a number in a base up to 16, the most significant first. *)
Definition digit (d : Z) : Z := if d <? 10 then 48 + d else 55 + d.
Fixpoint digits (fuel : nat) (base n : Z) : list Z :=
  match fuel with
  | O => []
  | S fuel => (if n <? base then [] else digits fuel base (n / base)) ++ [digit (n mod base)]
  end.
(** "%u" and "%lu" of a 32-bit number, "%d" and "%ld". *)
Definition printf_u (n : Z) : list Z := digits 10 10 n.
Definition printf_d (n : Z) : list Z := if n <? 0 then 45 :: digits 10 10 (- n) else digits 10 10 n.
(** An unsigned number where the format says a signed one. *)
Definition s32 (n : Z) : Z := if n <? 2 ^ 31 then n else n - 2 ^ 32.
(** "%02X" of a byte. *)
Definition printf_02X (n : Z) : list Z := [digit (n / 16); digit (n mod 16)].
(** "%-<width>s" and the like. *)
Definition left (width : nat) (s : list Z) : list Z := s ++ replicate (width - length s) 32.
Definition crlf : list Z := [13; 10].

Section commands.
Context {S : Type} `{Scheduler S} {Q : Type} `{FreeRTOSMutex Q} {E : Type} `{EventGroup E}.

(** What the commands use: the scheduler, the heap of thread list items, the log, the service's
    own object, what was printed, and the registry of records. *)
Record shell := mkShell {
  sh_os : S; sh_items : items; sh_log : log Q; sh_cli : Cli Q; sh_out : list Z; sh_records : @RHSRecord Q E }.
Definition print (text : list Z) : M shell unit := modify (fun w =>
  mkShell (sh_os w) (sh_items w) (sh_log w) (sh_cli w) (sh_out w ++ text) (sh_records w)).
Definition with_items (h : items) (w : shell) : shell :=
  mkShell (sh_os w) h (sh_log w) (sh_cli w) (sh_out w) (sh_records w).
Definition with_sh_os (s : S) (w : shell) : shell :=
  mkShell s (sh_items w) (sh_log w) (sh_cli w) (sh_out w) (sh_records w).
Definition with_cli (c : Cli Q) (w : shell) : shell :=
  mkShell (sh_os w) (sh_items w) (sh_log w) c (sh_out w) (sh_records w).
Definition with_sh_log (l : log Q) (w : shell) : shell :=
  mkShell (sh_os w) (sh_items w) l (sh_cli w) (sh_out w) (sh_records w).

(** A command comes back, or resets the board. *)
Inductive command_end := Returned | WasReset.

(** *** uptime, free, uid *)

Context (configTICK_RATE_HZ : Z).
Definition cli_command_uptime : M shell unit :=
  w ← get;
  let uptime := rhs_get_tick (sh_os w) / rhs_kernel_get_tick_frequency configTICK_RATE_HZ in
  print (str "Uptime: " ++ printf_u (uptime / 60 / 60) ++ str "h" ++ printf_u (uptime / 60 mod 60) ++ str "m" ++
         printf_u (uptime mod 60) ++ str "s" ++ crlf).

(** The heap of [Memmgr] and the time [rhs_hal_interrupt_get_time_in_isr_total] returns. *)
Context (xPortGetFreeHeapSize xPortGetMinimumEverFreeHeapSize : blocks -> Z) (configTOTAL_HEAP_SIZE : Z).
Context (heap : blocks) (time_in_isr : Z).
Definition cli_command_free : M shell unit :=
  print (str "total_heap: " ++ printf_d (s32 (memmgr_get_total_heap configTOTAL_HEAP_SIZE)) ++ crlf);;
  print (str "minimum_free_heap: " ++ printf_d (s32 (memmgr_get_minimum_free_heap xPortGetMinimumEverFreeHeapSize heap)) ++ crlf);;
  print (str "free_heap: " ++ printf_d (s32 (memmgr_get_free_heap xPortGetFreeHeapSize heap)) ++ crlf);;
  print (str "isr_ticks: " ++ printf_d (s32 time_in_isr) ++ crlf).

(** The twelve bytes of the identifier; one that is missing is read past its end. *)
Definition cli_command_uid (uid : list Z) : M shell unit :=
  match uid with
  | u0 :: u1 :: u2 :: u3 :: u4 :: u5 :: u6 :: u7 :: u8 :: u9 :: u10 :: u11 :: _ =>
      print (str "UID " ++ printf_02X u0 ++ printf_02X u1 ++ str "-" ++ printf_02X u2 ++ printf_02X u3 ++ str "-" ++
             printf_02X u4 ++ printf_02X u5 ++ printf_02X u6 ++ printf_02X u7 ++ str "-" ++
             printf_02X u8 ++ printf_02X u9 ++ printf_02X u10 ++ printf_02X u11 ++ [10])
  | _ => fault
  end.

(** *** ? *)

Definition columns : Z := 3.
(** The loop over the dictionary: [names] are the keys that are left, in the order of M*LIB. *)
Fixpoint commands_loop (names : list (list Z)) (i : Z) : M shell unit :=
  match names with
  | [] => mret tt
  | key :: names =>
      print (left 30 key);;
      (if i mod columns =? columns - 1 then print crlf else mret tt);;
      commands_loop names (i + 1)
  end.
(** [order]: the order in which M*LIB's iterator gives the keys of a dictionary. *)
Context (order : gmap (list Z) CliCommand -> list (list Z)).
Definition cli_commands : M shell unit :=
  w ← get;
  print (str "Available commands:" ++ crlf);;
  let commands_count := Z.of_nat (size (commands (sh_cli w))) in
  commands_loop (order (commands (sh_cli w))) 0;;
  (if negb (commands_count mod columns =? 0) then print crlf else mret tt).

(** *** log, reset, crash, hardfault, info *)

Definition print_log_reply (r : log_reply) : M shell unit :=
  match r with
  | LogLevel level => print (str "log level is " ++ printf_d level ++ crlf)
  | Excluded tag => print (tag ++ str " was excluded" ++ crlf)
  | Unexcluded tag => print (tag ++ str " was unexcluded" ++ crlf)
  | InvalidArgument => print (str "Invalid argument" ++ crlf)
  end.
Definition log_command (have_heap : bool) (args : option (list Z)) : M shell unit :=
  w ← get;
  '(r, l) ← lift (cli_command_log have_heap (sh_log w) args);
  modify (with_sh_log l);;
  print_log_reply r.

Definition cli_command_reset : M shell command_end := mret WasReset.
Definition cli_command_crash : M shell unit := crash "Remote Crash".
(** A call of the address 0. *)
Definition cli_command_hardfault : M shell unit := fault.
(** [PRINT_ALL_VERSIONS()] is generated when the firmware is built. *)
Definition cli_info (versions : list Z) : M shell unit := print versions.

(** *** top *)

Context (malloc_item : items -> Z * RHSThreadListItem) (memory : bool)
  (uxTaskGetSystemState : S -> list TaskStatus_t * Z) (uxTaskGetStackHighWaterMark : S -> Z -> Z).
(** The characters at the address of a name; and what is read of the local [buffer] after the
    end of its block (where it says [buffer] it is already out of scope). *)
Context (name_at : Z -> list Z) (dead : list Z -> list Z).

(** [itoa(item->cpu, buffer, 10); strcat(buffer, "%")] in 12 bytes. *)
Definition cpu_text (cpu : Z) : list Z := if cpu <? 1 then str "<1%" else dead (printf_u cpu ++ str "%").
Definition top_line (i : RHSThreadListItem) : list Z :=
  left 32 (name_at (name i)) ++ str " " ++ left 10 (str (state i)) ++ str " " ++ left 3 (printf_d (s32 (priority i))) ++ str " " ++
  left 4 (cpu_text (cpu i)) ++ str " " ++ left 5 (printf_d (s32 (stack_min_free i))) ++ crlf.
Fixpoint top_loop (n : nat) (i : Z) (l : RHSThreadList) : M shell unit :=
  match n with
  | O => mret tt
  | Datatypes.S n =>
      w ← get;
      p ← lift (rhs_thread_list_at (sh_items w) (Some l) (u16 i));
      it ← lift (read_item (sh_items w) p);
      print (top_line it);;
      top_loop n (i + 1) l
  end.
Definition cli_command_top (malloc_ok : bool) : M shell unit :=
  let thread_list := rhs_thread_list_create malloc_ok in
  w ← get;
  '(h, l, s) ← lift (rhs_thread_enumerate malloc_item memory uxTaskGetSystemState uxTaskGetStackHighWaterMark
                     (sh_os w) (sh_items w) thread_list);
  modify (fun w => with_items h (with_sh_os s w));;
  count ← lift (rhs_thread_list_size h l);
  print (str "Total run count: " ++ printf_u count ++ crlf);;
  print (left 32 (str "Task Name") ++ str " " ++ left 10 (str "State") ++ str " " ++ left 5 (str "Prio") ++ str " " ++
         left 6 (str "RunTime") ++ str " " ++ left 10 (str "StackMinFree") ++ crlf);;
  (match l with Some l => top_loop (Z.to_nat count) 0 l | None => mret tt end);;
  h ← lift (rhs_thread_list_destroy h l);
  modify (with_items h).

(** *** The service *)

Inductive command :=
  | CmdUptime | CmdFree | CmdCommands | CmdLog | CmdReset | CmdUid | CmdTop | CmdCrash | CmdHardfault | CmdInfo.
Definition all_commands : list (string * command) :=
  [("uptime", CmdUptime); ("free", CmdFree); ("?", CmdCommands); ("log", CmdLog); ("reset", CmdReset); ("uid", CmdUid);
   ("top", CmdTop); ("crash", CmdCrash); ("hardfault", CmdHardfault); ("info", CmdInfo)]%string.
(** The address of a command's function. *)
Definition address (c : command) : Z :=
  match c with
  | CmdUptime => 1 | CmdFree => 2 | CmdCommands => 3 | CmdLog => 4 | CmdReset => 5 | CmdUid => 6 | CmdTop => 7
  | CmdCrash => 8 | CmdHardfault => 9 | CmdInfo => 10
  end.
Definition run_command (c : command) (have_heap malloc_ok : bool) (uid versions : list Z) (args : option (list Z)) : M shell command_end :=
  let returns m := m;; mret Returned in
  match c with
  | CmdUptime => returns cli_command_uptime
  | CmdFree => returns cli_command_free
  | CmdCommands => returns cli_commands
  | CmdLog => returns (log_command have_heap args)
  | CmdReset => cli_command_reset
  | CmdUid => returns (cli_command_uid uid)
  | CmdTop => returns (cli_command_top malloc_ok)
  | CmdCrash => returns cli_command_crash
  | CmdHardfault => returns cli_command_hardfault
  | CmdInfo => returns (cli_info versions)
  end.

Definition add_command (me : Z) (name : string) (c : command) (context : Z) : M shell unit :=
  w ← get;
  c ← lift (cli_add_command (sh_os w) me (sh_cli w) (str name) (address c) context);
  modify (with_cli c).
Definition with_registry (c : Cli Q) (r : @RHSRecord Q E) (w : shell) : shell :=
  mkShell (sh_os w) (sh_items w) (sh_log w) c (sh_out w) r.
(** What [cli_service] does before its loop; [app] is the address of its object. *)
Definition cli_service_start (me app : Z) : M shell unit :=
  w ← get;
  c ← lift (cli_alloc (sh_os w));
  '(_, r) ← lift (rhs_record_create (sh_os w) me (Some (sh_records w)) "cli" app);
  modify (with_registry c r);;
  add_command me "uptime" CmdUptime 0;;
  add_command me "free" CmdFree 0;;
  add_command me "?" CmdCommands app;;
  add_command me "log" CmdLog 0;;
  add_command me "reset" CmdReset 0;;
  add_command me "uid" CmdUid 0;;
  add_command me "top" CmdTop 0;;
  add_command me "crash" CmdCrash 0;;
  add_command me "hardfault" CmdHardfault 0;;
  add_command me "info" CmdInfo 0.
End commands.

(** ** What they do *)

Lemma print_eq {S Q E} text (w : shell (S := S) (Q := Q) (E := E)) :
  print text w = Ret (tt, mkShell (sh_os w) (sh_items w) (sh_log w) (sh_cli w) (sh_out w ++ text) (sh_records w)).
Proof. done. Qed.

Section theorems.
Context {S : Type} `{SchedulerLaws S} {Q : Type} `{FreeRTOSMutexLaws Q} {E : Type} `{EventGroup E}.
Abbreviation shell := (shell (S := S) (Q := Q) (E := E)).
Implicit Types w : shell.

(** Three names to a line of 30 characters each. *)
Fixpoint rows (names : list (list Z)) : list Z :=
  match names with
  | [] => []
  | a :: b :: c :: names => left 30 a ++ left 30 b ++ left 30 c ++ crlf ++ rows names
  | names => concat (map (left 30) names) ++ crlf
  end.
Definition printed (text : list Z) w : shell :=
  mkShell (sh_os w) (sh_items w) (sh_log w) (sh_cli w) (sh_out w ++ text) (sh_records w).

Lemma commands_loop_rows n : forall names i w, (length names <= n)%nat -> 0 <= i -> i mod 3 = 0 ->
  exists text, commands_loop names i w = Ret (tt, printed text w) /\
    text ++ (if negb (Z.of_nat (length names) mod 3 =? 0) then crlf else []) = rows names.
Proof.
  induction n as [|n IH]; intros names i w Hn Hi Hmod.
  { destruct names; [|cbn in Hn; lia]. exists []. split; [|done]. cbn. unfold printed. rewrite app_nil_r. by destruct w. }
  assert (H1' : (i mod columns =? columns - 1) = false) by (apply Z.eqb_neq; unfold columns; lia).
  assert (H2' : ((i + 1) mod columns =? columns - 1) = false).
  { apply Z.eqb_neq. unfold columns. Z.to_euclidean_division_equations; lia. }
  assert (H3' : ((i + 1 + 1) mod columns =? columns - 1) = true).
  { apply Z.eqb_eq. unfold columns. Z.to_euclidean_division_equations; lia. }
  destruct names as [|a [|b [|c names]]].
  - exists []. split; [|done]. cbn. unfold printed. rewrite app_nil_r. by destruct w.
  - exists (left 30 a). split; [|cbn; by rewrite app_nil_r]. cbn [commands_loop]. rewrite H1'. done.
  - exists (left 30 a ++ left 30 b). split; [|cbn; by rewrite app_nil_r, <- !app_assoc]. cbn [commands_loop]. rewrite H1', H2'.
    unfold printed. by rewrite app_assoc.
  - destruct (IH names (i + 1 + 1 + 1) (printed (left 30 a ++ left 30 b ++ left 30 c ++ crlf) w)) as (text & Et & Hrows);
      [cbn in Hn; lia|lia|Z.to_euclidean_division_equations; lia|].
    exists (left 30 a ++ left 30 b ++ left 30 c ++ crlf ++ text). split.
    + cbn [commands_loop]. rewrite H1', H2', H3'. unfold printed in *. cbn [sh_os sh_items sh_log sh_cli sh_out sh_records] in Et.
      rewrite <- ?app_assoc in Et.
      cbv [mbind M_bind mret M_ret print modify]. cbn [sh_os sh_items sh_log sh_cli sh_out sh_records]. rewrite <- ?app_assoc. exact Et.
    + cbn [rows]. rewrite <- Hrows, <- !app_assoc. do 5 f_equal. cbn [length].
      replace (Z.of_nat (Datatypes.S (Datatypes.S (Datatypes.S (length names)))) mod 3) with (Z.of_nat (length names) mod 3); [done|].
      Z.to_euclidean_division_equations; lia.
Qed.

(** "?" prints every command of the dictionary once, in the order of its iterator, three to a
    line and 30 characters each, every line ended, with nothing else after the title. *)
Theorem cli_commands_table (order : gmap (list Z) CliCommand -> list (list Z)) w :
  order (commands (sh_cli w)) ≡ₚ (map_to_list (commands (sh_cli w))).*1 ->
  cli_commands order w = Ret (tt, printed (str "Available commands:" ++ crlf ++ rows (order (commands (sh_cli w)))) w).
Proof.
  intros Ho. pose proof (Permutation_length Ho) as Hlen. rewrite length_fmap, length_map_to_list in Hlen.
  unfold cli_commands. set (names := order (commands (sh_cli w))) in *.
  destruct (commands_loop_rows (length names) names 0 (printed (str "Available commands:" ++ crlf) w)) as (text & Et & Hrows); [done|done|done|].
  rewrite (bind_eq _ _ w w w), (bind_eq _ _ _ _ _ (print_eq _ w)) by done. fold (printed (str "Available commands:" ++ crlf) w).
  fold names. rewrite (bind_eq _ _ _ _ _ Et), <- Hlen. unfold columns.
  rewrite <- Hrows. unfold printed. cbn [sh_os sh_items sh_log sh_cli sh_out sh_records].
  destruct (negb (Z.of_nat (length names) mod 3 =? 0)); [rewrite print_eq|unfold mret, M_ret];
    cbn [sh_os sh_items sh_log sh_cli sh_out sh_records]; by rewrite ?app_nil_r, <- ?app_assoc.
Qed.

(** *** The start of the service *)

Lemma add_command_eq me name c context w :
  RHS_IS_IRQ_MODE (sh_os w) = false -> me <> 0 -> free_mutex (cli_mutex (sh_cli w)) -> str name <> str " " ->
  exists app, add_command me name c context w = Ret (tt, with_cli app w) /\ free_mutex (cli_mutex app) /\
    commands app = <[str name := mkCommand (address c) context]> (commands (sh_cli w)).
Proof.
  intros Hi Hme Hq Hname. unfold add_command, cli_add_command, with_commands. rewrite (bind_eq _ _ w w w) by done.
  rewrite decide_False by done. destruct (acquire_free (sh_os w) me (cli_mutex (sh_cli w)) RHSWaitForever Hi Hme Hq) as (q1 & E1 & Hq1).
  destruct (release_held (sh_os w) me q1 Hi Hme Hq1) as (q2 & E2 & Hq2).
  unfold lift. cbv [mbind M_bind outcome_bind]. rewrite E1. rewrite decide_True by done. rewrite E2. rewrite decide_True by done.
  eexists. split; [reflexivity|]. by split.
Qed.

Fixpoint add_commands (me app : Z) (l : list (string * command)) : M shell unit :=
  match l with
  | [] => mret tt
  | (name, c) :: l => add_command me name c (match c with CmdCommands => app | _ => 0 end);; add_commands me app l
  end.
Lemma add_commands_eq me app l : forall w,
  RHS_IS_IRQ_MODE (sh_os w) = false -> me <> 0 -> free_mutex (cli_mutex (sh_cli w)) -> Forall (fun p => str p.1 <> str " ") l ->
  exists c, add_commands me app l w = Ret (tt, with_cli c w) /\ free_mutex (cli_mutex c) /\
    commands c = foldl (fun d '(name, x) => <[str name := mkCommand (address x) (match x with CmdCommands => app | _ => 0 end)]> d) (commands (sh_cli w)) l.
Proof.
  induction l as [|[name x] l IH]; intros w Hi Hme Hq Hl; [exists (sh_cli w); by destruct w|].
  apply Forall_cons in Hl as [Hname Hl]. cbn [fst] in Hname.
  destruct (add_command_eq me name x (match x with CmdCommands => app | _ => 0 end) w Hi Hme Hq Hname) as (c1 & E1 & Hq1 & D1).
  destruct (IH (with_cli c1 w) Hi Hme Hq1 Hl) as (c2 & E2 & Hq2 & D2). exists c2. cbn [add_commands].
  rewrite (bind_eq _ _ _ _ _ E1). split; [exact E2|]. split; [done|]. cbn [foldl]. rewrite D2. cbn. by rewrite D1.
Qed.

(** After its start the command line knows its ten commands and no others, each name with its
    own function, "?" with the service's object; the record "cli" is created with the object; its
    mutex is free. *)
Theorem cli_service_start_correct me app w r : RHS_IS_IRQ_MODE (sh_os w) = false -> me <> 0 ->
  rhs_record_create (sh_os w) me (Some (sh_records w)) "cli" app = Ret (tt, r) ->
  exists c, cli_service_start me app w = Ret (tt, with_registry c r w) /\ free_mutex (cli_mutex c) /\
    (forall name x, (name, x) ∈ all_commands ->
       commands c !! str name = Some (mkCommand (address x) (match x with CmdCommands => app | _ => 0 end))) /\
    forall s, is_Some (commands c !! s) -> exists name x, s = str name /\ (name, x) ∈ all_commands.
Proof.
  intros Hi Hme Hr. destruct created_normal as (N1 & N2 & _).
  set (c0 := mkCli (xSemaphoreCreateMutexStatic : Q) 0 (replicate MAX_LINE_LENGTH 0) ∅).
  assert (Ealloc : cli_alloc (sh_os w) = Ret c0) by (unfold cli_alloc, rhs_mutex_alloc; by rewrite Hi).
  destruct (add_commands_eq me app all_commands (with_registry c0 r w)) as (c & Ec & Hq & Hd); [done|done|by split| |].
  { unfold all_commands. repeat (apply Forall_cons; split; [discriminate|]). by apply Forall_nil. }
  exists c. split; [|split; [done|]].
  - unfold cli_service_start. rewrite (bind_eq _ _ w w w) by done. unfold lift at 1. rewrite (bind_eq _ _ w c0 w) by by rewrite Ealloc.
    rewrite (bind_eq _ _ w (tt, r) w) by (unfold lift; by rewrite Hr). rewrite (bind_eq _ _ w tt (with_registry c0 r w)) by done.
    cbn [add_commands all_commands] in Ec. unfold all_commands in Ec. cbn [add_commands] in Ec.
    assert (Hunit : forall (m : M shell unit) w, (m;; mret tt) w = m w).
    { intros m w'. cbv [mbind M_bind mret M_ret]. by destruct (m w') as [[[] w2]| | |]. }
    refine (eq_trans _ Ec). clear Ec. cbv [mbind M_bind].
    repeat (match goal with |- match ?m with _ => _ end = match ?m with _ => _ end => destruct m as [[[] ?]| | |]; [|done..] end).
    by destruct (add_command me "info" _ _ _) as [[[] ?]| | |].
  - rewrite Hd. unfold c0. cbn [commands sh_cli with_registry]. clear. split.
    + intros name x Hin. unfold all_commands in Hin. repeat (apply elem_of_cons in Hin as [[= -> ->]|Hin]; [reflexivity|]). by apply elem_of_nil in Hin.
    + intros s Hs. unfold all_commands in *. cbn [foldl] in Hs.
      repeat (apply lookup_insert_is_Some in Hs as [<-|[_ Hs]]; [eexists _, _; split; [reflexivity|]; apply list_elem_of_In; simpl; tauto|]).
      rewrite lookup_empty in Hs. by destruct Hs.
Qed.

(** *** top *)

Lemma empty_holds_any h : holds h (mkList 0 0 0 0 0) [].
Proof. by split; [|constructor]. Qed.

Section top.
Context (malloc_item : items -> Z * RHSThreadListItem)
  (malloc_fresh : forall h, fst (malloc_item h) = 0 \/ (fst (malloc_item h) <> 0 /\ h !! fst (malloc_item h) = None))
  (malloc_ok : forall h, fst (malloc_item h) <> 0).
Context (memory : bool) (uxTaskGetSystemState : S -> list TaskStatus_t * Z) (uxTaskGetStackHighWaterMark : S -> Z -> Z).
Context (name_at : Z -> list Z) (dead : list Z -> list Z).

Definition top_title (count : Z) : list Z :=
  (str "Total run count: " ++ printf_u count ++ crlf) ++
  left 32 (str "Task Name") ++ str " " ++ left 10 (str "State") ++ str " " ++ left 5 (str "Prio") ++ str " " ++
  left 6 (str "RunTime") ++ str " " ++ left 10 (str "StackMinFree") ++ crlf.

Lemma top_loop_eq h tl l its : holds h tl l -> Z.of_nat (length l) < 65536 ->
  Forall2 (fun a it => h !! a = Some it) l its ->
  forall n i w, sh_items w = h -> (Z.to_nat i + n = length l)%nat -> 0 <= i ->
  top_loop name_at dead n i tl w = Ret (tt, printed (concat (map (top_line name_at dead) (drop (Z.to_nat i) its))) w).
Proof.
  intros [Hch Hnd] Hlen Hits n. pose proof (items_length _ _ _ _ Hch Hnd) as Hsz. pose proof (Forall2_length _ _ _ Hits) as Hl.
  induction n as [|n IH]; intros i w Hw Hn Hi.
  - rewrite drop_ge by lia. cbn. unfold printed. rewrite app_nil_r. by destruct w.
  - cbn [top_loop]. rewrite (bind_eq _ _ w w w) by done. rewrite u16_small by lia.
    destruct (lookup_lt_is_Some_2 l (Z.to_nat i)) as [a Ha]; [lia|].
    destruct (Forall2_lookup_l _ _ _ _ _ Hits Ha) as (it & Hit & Hai).
    rewrite (bind_eq _ _ w a w).
    2: { unfold lift, rhs_thread_list_at, with_list. rewrite Hw, (at_loop_spec l _ h _ 0 i Hch) by lia.
         by rewrite Z.sub_0_r, Ha. }
    rewrite (bind_eq _ _ w it w) by (unfold lift, read_item; by rewrite Hw, Hai).
    rewrite (bind_eq _ _ _ _ _ (print_eq _ w)). fold (printed (top_line name_at dead it) w).
    rewrite IH by (done || lia). replace (Z.to_nat (i + 1)) with (Datatypes.S (Z.to_nat i)) by lia.
    rewrite (drop_S its it (Z.to_nat i) Hit). unfold printed. cbn [sh_os sh_items sh_log sh_cli sh_out sh_records map concat].
    by rewrite <- app_assoc.
Qed.

End top.
End theorems.

(** ** The theorems at work *)

Definition a_shell : shell (S := os_state) (Q := plain_mutex) (E := group) :=
  mkShell a_task ∅ (mkLog RHS_LOG_LEVEL_DEFAULT [] None)
    (mkCli xSemaphoreCreateMutexStatic 0 (replicate MAX_LINE_LENGTH 0) {[str "free" := mkCommand 2 0]}) []
    (mkRecord xSemaphoreCreateMutexStatic ∅).
Definition map_order (d : gmap (list Z) CliCommand) : list (list Z) := (map_to_list d).*1.

Lemma cli_commands_table_witness : exists w', cli_commands map_order a_shell = Ret (tt, w') /\
  sh_out w' = str "Available commands:" ++ crlf ++ str "free                          " ++ crlf.
Proof.
  eexists. split; [exact (cli_commands_table map_order a_shell (Permutation_refl _))|reflexivity].
Defined.

Lemma cli_service_start_correct_witness : exists r c,
  cli_service_start 7 64 a_shell = Ret (tt, with_registry c r a_shell) /\
  commands c !! str "?" = Some (mkCommand 3 64).
Proof.
  destruct (rhs_record_create (sh_os a_shell) 7 (Some (sh_records a_shell)) "cli" 64) as [[[] r]| | |] eqn:Er;
    [|discriminate Er..].
  assert (Hi : RHS_IS_IRQ_MODE (sh_os a_shell) = false) by reflexivity.
  destruct (cli_service_start_correct 7 64 a_shell r Hi ltac:(discriminate) Er) as (c & E & _ & Hall & _).
  exists r, c. split; [exact E|]. apply (Hall "?"%string CmdCommands). apply list_elem_of_In. simpl. tauto.
Defined.

