(* ===== verification/NetLife.v ===== *)
(** * The life of the network interfaces (net/eth_net/eth_net.c, net/usb_cdc_net/usb_cdc_net.c)

    Start and stop of the Ethernet interface and of the network interface over USB, on a heap of
    the blocks they allocate. The configuration they start with is that of [Net] and [UsbNet]. *)

From S2P Require Import Commands Prelude Kernel NetUtils Net UsbNet.

(** ** The blocks *)

(** [Net]'s pointers; [prev_intf] is that of [CdcNet], NULL in [EthNet]. The list of listeners
    and the command line belong to the worker ([Net]). *)
Record net_object := mkNetObject { o_mgr : Z; o_config : Z; o_thread : Z; o_queue : Z; prev_intf : Z }.

(** What was allocated, by its type: the manager has the address of its interface, the interface
    that of its driver (or of the driver's data) and the fields of USB, the thread that of the
    interface it works for and whether it was started. *)
Inductive block :=
  | BNet (n : net_object)
  | BMgr (ifp : Z)
  | BConfig (c : NetConfig)
  | BIf (i : mg_tcpip_if) (driver : Z) (usb : option CdcIf)
  | BPhy (d : EthPhyConfig)
  | BDriver
  | BQueue
  | BThread (net : Z) (started : bool).

(** The heap and the rest of the system. *)
Record net_life (R : Type) := mkLife { lf_heap : gmap Z block; lf_rest : R }.
Arguments mkLife {R}.
Arguments lf_heap {R}.
Arguments lf_rest {R}.

(** Mongoose's manager, and the queue, the thread and the stop request as [MessageQueue],
    [Thread] and [Net] have them. *)
Class NetObjects (R : Type) := {
  mg_mgr_init : Z -> M (net_life R) unit;
  mg_tcpip_init : Z -> Z -> M (net_life R) unit;
  mg_mgr_free : Z -> M (net_life R) unit;
  queue_alloc : M (net_life R) Z;
  queue_free : Z -> M (net_life R) unit;
  worker_alloc : list Z -> Z -> M (net_life R) Z;
  worker_start : Z -> M (net_life R) unit;
  worker_join : Z -> M (net_life R) unit;
  worker_free : Z -> M (net_life R) unit;
  request_stop : Z -> M (net_life R) unit
}.

Section net_life.
Context {R : Type} `{NetObjects R} (malloc : gmap Z block -> Z).
Abbreviation world := (net_life R).

Definition on_rest {A} (m : M R A) : M world A := fun w => '(a, r) ← m (lf_rest w); Ret (a, mkLife (lf_heap w) r).
Definition set_heap (h : gmap Z block) : M world unit := modify (fun w => mkLife h (lf_rest w)).
(** A block of what [malloc] gives, with whatever it holds at first; 0 for NULL. *)
Definition alloc (b : block) : M world Z :=
  w ← get;
  let p := malloc (lf_heap w) in
  (if p =? 0 then mret tt else set_heap (<[p := b]> (lf_heap w)));;
  mret p.
Definition block_at (p : Z) : M world block := fun w => match lf_heap w !! p with Some b => Ret (b, w) | None => Fault end.
Definition free (p : Z) : M world unit :=
  if p =? 0 then mret tt else (_ ← block_at p; w ← get; set_heap (delete p (lf_heap w))).
Definition write (p : Z) (b : block) : M world unit := _ ← block_at p; w ← get; set_heap (<[p := b]> (lf_heap w)).
Definition net_at (p : Z) : M world net_object := b ← block_at p; match b with BNet n => mret n | _ => fault end.
Definition ifp_of (mgr : Z) : M world Z := b ← block_at mgr; match b with BMgr ifp => mret ifp | _ => fault end.
Definition driver_of (ifp : Z) : M world Z := b ← block_at ifp; match b with BIf _ d _ => mret d | _ => fault end.
Definition config_at (p : Z) : M world NetConfig := b ← block_at p; match b with BConfig c => mret c | _ => fault end.
Definition update_net (p : Z) (f : net_object -> net_object) : M world unit := n ← net_at p; write p (BNet (f n)).

Definition set_queue (q : Z) (n : net_object) : net_object := mkNetObject (o_mgr n) (o_config n) (o_thread n) q (prev_intf n).
Definition set_mgr (m : Z) (n : net_object) : net_object := mkNetObject m (o_config n) (o_thread n) (o_queue n) (prev_intf n).
Definition set_config (c : Z) (n : net_object) : net_object := mkNetObject (o_mgr n) c (o_thread n) (o_queue n) (prev_intf n).
Definition set_thread (t : Z) (n : net_object) : net_object := mkNetObject (o_mgr n) (o_config n) t (o_queue n) (prev_intf n).
Definition set_prev (i : Z) (n : net_object) : net_object := mkNetObject (o_mgr n) (o_config n) (o_thread n) (o_queue n) i.

(** What fresh memory holds. *)
Context (junk_config : NetConfig) (junk_if : mg_tcpip_if) (junk_phy : EthPhyConfig) (junk : Z).

(** The beginning of both [alloc] functions: the object with its queue, manager and configuration. *)
Definition alloc_net (config : outcome NetConfig) : M world Z :=
  app ← alloc (BNet (mkNetObject 0 0 0 0 0));
  rhs_assert (negb (app =? 0));;
  q ← queue_alloc;
  update_net app (set_queue q);;
  m ← alloc (BMgr junk);
  update_net app (set_mgr m);;
  c ← alloc (BConfig junk_config);
  update_net app (set_config c);;
  n ← net_at app;
  rhs_assert (negb (o_mgr n =? 0) && negb (o_config n =? 0));;
  c ← lift config;
  write (o_config n) (BConfig c);;
  mret app.

(** ** eth_net.c *)

Section eth.
Context `{MongooseUrl} (ETH_NET_IP_STRING ETH_NET_MASK_STRING ETH_NET_GW_STRING uid : list Z) (MG_DRIVER_MDC_CR MG_TCPIP_PHY_ADDR : Z).
Context (rhs_hal_eth_init rhs_hal_eth_deinit : M R unit).

Definition eth_net_init_interface (net : Z) (phy_config : option EthPhyConfig) : M world unit :=
  ifp ← alloc (BIf junk_if 0 None);
  driver ← alloc (BPhy junk_phy);
  rhs_assert (negb (net =? 0) && negb (ifp =? 0) && negb (driver =? 0));;
  n ← net_at net;
  c ← config_at (o_config n);
  '(c, i, d) ← lift (eth_net_init_tcpip ETH_NET_IP_STRING ETH_NET_MASK_STRING ETH_NET_GW_STRING uid MG_DRIVER_MDC_CR MG_TCPIP_PHY_ADDR c phy_config);
  write driver (BPhy d);;
  write (o_config n) (BConfig c);;
  write ifp (BIf i driver None);;
  mg_tcpip_init (o_mgr n) ifp.

Definition eth_net_alloc_app (config : option NetConfig) (phy_config : option EthPhyConfig) : M world Z :=
  app ← alloc_net (eth_net_alloc_config ETH_NET_IP_STRING ETH_NET_MASK_STRING ETH_NET_GW_STRING uid config junk_config);
  on_rest rhs_hal_eth_init;;
  n ← net_at app;
  mg_mgr_init (o_mgr n);;
  eth_net_init_interface app phy_config;;
  mret app.

Definition eth_net_free (app : Z) : M world unit :=
  n ← net_at app;
  worker_free (o_thread n);;
  queue_free (o_queue n);;
  mg_mgr_free (o_mgr n);;
  ifp ← ifp_of (o_mgr n); driver ← driver_of ifp; free driver;;
  ifp ← ifp_of (o_mgr n); free ifp;;
  free (o_config n);;
  free (o_mgr n);;
  free app.

(** [snprintf(t_name, 16, "eth_net_%d", phy_addr)]. *)
Definition eth_thread_name (phy : Z) : list Z := take 15 (str "eth_net_" ++ printf_d phy).
Definition eth_net_start (config : option NetConfig) (phy_config : option EthPhyConfig) : M world Z :=
  app ← eth_net_alloc_app config phy_config;
  n ← net_at app;
  ifp ← ifp_of (o_mgr n); driver ← driver_of ifp;
  d ← block_at driver;
  match d with
  | BPhy d =>
      t ← worker_alloc (eth_thread_name (phy_addr d)) app;
      update_net app (set_thread t);;
      worker_start t;;
      mret app
  | _ => fault
  end.

Definition eth_net_stop (net : Z) : M world unit :=
  rhs_assert (negb (net =? 0));;
  request_stop net;;
  n ← net_at net;
  worker_join (o_thread n);;
  eth_net_free net;;
  on_rest rhs_hal_eth_deinit.
End eth.
End net_life.

(** ** usb_cdc_net.c *)

Section cdc.
Context {S : Type} `{Scheduler S} {U : Type} `{UsbNetHw U} `{MongooseUrl} `{NetObjects (usb_net S U)} (malloc : gmap Z block -> Z).
Context (junk_config : NetConfig) (junk_if : mg_tcpip_if) (junk : Z).
Context (CDC_NET_IP_STRING CDC_NET_MASK_STRING CDC_NET_GW_STRING uid : list Z).
Abbreviation world := (net_life (usb_net S U)).
(** The interface of the USB device, TinyUSB and the device's reset ([Usb]). *)
Context (get_interface : U -> Z) (set_interface : Z -> M (usb_net S U) unit) (rhs_hal_usb_reinit tusb_init tusb_deinit : M (usb_net S U) unit)
  (usb_cdc_net_desc : Z).

Definition cdc_net_init_interface (net : Z) : M world unit :=
  ifp ← alloc malloc (BIf junk_if 0 None);
  driver ← alloc malloc BDriver;
  rhs_assert (negb (net =? 0) && negb (ifp =? 0) && negb (driver =? 0));;
  n ← net_at net;
  c ← config_at (o_config n);
  '(c, i, x) ← lift (cdc_net_init_tcpip CDC_NET_IP_STRING CDC_NET_MASK_STRING CDC_NET_GW_STRING uid c);
  write (o_config n) (BConfig c);;
  write ifp (BIf i driver (Some x));;
  mg_tcpip_init (o_mgr n) ifp.

Definition usb_cdc_net_alloc (config : option NetConfig) : M world Z :=
  app ← alloc_net malloc junk_config junk (usb_cdc_net_config CDC_NET_IP_STRING CDC_NET_MASK_STRING CDC_NET_GW_STRING uid config junk_config);
  n ← net_at app;
  mg_mgr_init (o_mgr n);;
  on_rest clear_last_mac_byte;;
  prev ← on_rest (hw_gets get_interface);
  update_net app (set_prev prev);;
  on_rest (set_interface usb_cdc_net_desc);;
  cdc_net_init_interface app;;
  on_rest rhs_hal_usb_reinit;;
  on_rest tusb_init;;
  on_rest (tud_net_dispatch_set (Some (cdc_net_ops app)));;
  mret app.

Definition usb_cdc_net_start (config : option NetConfig) : M world Z :=
  app ← usb_cdc_net_alloc config;
  t ← worker_alloc (str "cdc_net") app;
  update_net app (set_thread t);;
  worker_start t;;
  mret app.

Definition usb_cdc_net_free (app : Z) : M world unit :=
  n ← net_at app;
  worker_free (o_thread n);;
  queue_free (o_queue n);;
  mg_mgr_free (o_mgr n);;
  ifp ← ifp_of (o_mgr n); driver ← driver_of ifp; free driver;;
  ifp ← ifp_of (o_mgr n); free ifp;;
  free (o_config n);;
  free (o_mgr n);;
  free app.

Definition usb_cdc_net_stop (net : Z) : M world unit :=
  rhs_assert (negb (net =? 0));;
  on_rest tud_net_dispatch_clear;;
  request_stop net;;
  n ← net_at net;
  worker_join (o_thread n);;
  usb_cdc_net_free net;;
  on_rest tusb_deinit;;
  n ← net_at net;
  on_rest (set_interface (prev_intf n)).
End cdc.

(** ** What the interfaces rely on *)

(** [m] goes on as [P] says; it may crash if [c]; it never faults or hangs. *)
Definition runs_or {S A} (c : Prop) (m : M S A) (s : S) (P : A -> S -> Prop) : Prop :=
  match m s with Ret (a, s') => P a s' | Crash _ => c | Fault | Hang => False end.
Lemma runs_or_bind {S A B} c (m : M S A) (k : A -> M S B) s P :
  runs_or c m s (fun a s' => runs_or c (k a) s' P) -> runs_or c (m ≫= k) s P.
Proof. unfold runs_or, mbind, M_bind. by destruct (m s) as [[a s']| | |]. Qed.
Lemma runs_or_mono {S A} c (m : M S A) s (P P' : A -> S -> Prop) :
  runs_or c m s P -> (forall a s', P a s' -> P' a s') -> runs_or c m s P'.
Proof. unfold runs_or. destruct (m s) as [[a s']| | |]; auto. Qed.
Lemma runs_or_ret {S A} c (a : A) (s : S) (P : A -> S -> Prop) : P a s -> runs_or c (mret a) s P.
Proof. done. Qed.
Lemma runs_or_eq {S A} c (m : M S A) s a s' (P : A -> S -> Prop) : m s = Ret (a, s') -> P a s' -> runs_or c m s P.
Proof. unfold runs_or. by intros ->. Qed.

(** The blocks of an interface that works: every pointer leads to its block. *)
Record working (h : gmap Z block) (net : Z) (n : net_object) (c : NetConfig) (ifp : Z) (i : mg_tcpip_if) (driver : Z) (x : option CdcIf) : Prop := {
  at_net : h !! net = Some (BNet n);
  at_mgr : h !! o_mgr n = Some (BMgr ifp);
  at_config : h !! o_config n = Some (BConfig c);
  at_if : h !! ifp = Some (BIf i driver x);
  at_queue : h !! o_queue n = Some BQueue;
  at_thread : h !! o_thread n = Some (BThread net true);
  at_driver : match x with None => exists d, h !! driver = Some (BPhy d) | Some _ => h !! driver = Some BDriver end;
  no_null : h !! 0 = None
}.

(** A heap with a block more, at an address that was free. *)
Definition gains (h : gmap Z block) (p : Z) (b : block) (h' : gmap Z block) : Prop := p <> 0 /\ h !! p = None /\ h' = <[p := b]> h.

(** [kept]: what the calls leave as it is in the rest of the system; [asked]: the worker of an
    interface has been asked to stop. While it works it may change the configuration and the
    addresses of its interface; it ends once asked, if its blocks are still there. *)
Class NetObjectsLaws (R : Type) `{NetObjects R} (kept : R -> R -> Prop) (asked : Z -> R -> Prop) (no_memory : Prop) := {
  kept_order :: PreOrder kept;
  mg_mgr_init_law mgr w x : lf_heap w !! mgr = Some (BMgr x) ->
    exists r, mg_mgr_init mgr w = Ret (tt, mkLife (<[mgr := BMgr 0]> (lf_heap w)) r) /\ kept (lf_rest w) r;
  mg_tcpip_init_law mgr ifp w x i d u : lf_heap w !! mgr = Some (BMgr x) -> lf_heap w !! ifp = Some (BIf i d u) ->
    exists r, mg_tcpip_init mgr ifp w = Ret (tt, mkLife (<[mgr := BMgr ifp]> (lf_heap w)) r) /\ kept (lf_rest w) r;
  mg_mgr_free_law mgr ifp w i d u : lf_heap w !! mgr = Some (BMgr ifp) -> lf_heap w !! ifp = Some (BIf i d u) ->
    exists r, mg_mgr_free mgr w = Ret (tt, mkLife (lf_heap w) r) /\ kept (lf_rest w) r;
  queue_alloc_law w : runs_or no_memory queue_alloc w (fun q w' => gains (lf_heap w) q BQueue (lf_heap w') /\ kept (lf_rest w) (lf_rest w'));
  queue_free_law q w : lf_heap w !! q = Some BQueue ->
    exists r, queue_free q w = Ret (tt, mkLife (delete q (lf_heap w)) r) /\ kept (lf_rest w) r;
  worker_alloc_law name net w : runs_or no_memory (worker_alloc name net) w (fun t w' =>
    gains (lf_heap w) t (BThread net false) (lf_heap w') /\ kept (lf_rest w) (lf_rest w'));
  worker_start_law t net w : lf_heap w !! t = Some (BThread net false) ->
    exists r, worker_start t w = Ret (tt, mkLife (<[t := BThread net true]> (lf_heap w)) r) /\ kept (lf_rest w) r;
  request_stop_law net n w : lf_heap w !! net = Some (BNet n) -> lf_heap w !! o_queue n = Some BQueue ->
    exists r, request_stop net w = Ret (tt, mkLife (lf_heap w) r) /\ asked net r;
  worker_join_law net n c ifp i d u w : working (lf_heap w) net n c ifp i d u -> asked net (lf_rest w) ->
    exists r c' i', worker_join (o_thread n) w = Ret (tt, mkLife (<[o_config n := BConfig c']> (<[ifp := BIf i' d u]> (lf_heap w))) r);
  worker_free_law t net w : lf_heap w !! t = Some (BThread net true) ->
    exists r, worker_free t w = Ret (tt, mkLife (delete t (lf_heap w)) r) /\ kept (lf_rest w) r
}.

(** Addresses of different blocks differ. *)
Ltac look := repeat first [rewrite lookup_insert_eq | rewrite lookup_delete_eq | rewrite lookup_insert_ne by congruence | rewrite lookup_delete_ne by congruence].

Section theorems.
Context {R : Type} {kept : R -> R -> Prop} {asked : Z -> R -> Prop} {no_memory : Prop} `{NetObjectsLaws R kept asked no_memory}.
Context (malloc : gmap Z block -> Z) (Hmalloc : forall h, malloc h = 0 /\ no_memory \/ malloc h <> 0 /\ h !! malloc h = None).
Context (junk_config : NetConfig) (junk_if : mg_tcpip_if) (junk_phy : EthPhyConfig) (junk : Z).
Abbreviation world := (net_life R).
Implicit Types w : world.

Lemma alloc_runs b w : runs_or no_memory (alloc malloc b) w (fun p w' =>
  (p = 0 /\ no_memory /\ w' = w) \/ (gains (lf_heap w) p b (lf_heap w') /\ lf_rest w' = lf_rest w)).
Proof.
  unfold alloc, runs_or. munfold. destruct (Hmalloc (lf_heap w)) as [[-> Hn]|[Hp Hf]]; [by left|].
  destruct (Z.eqb_spec (malloc (lf_heap w)) 0); [done|]. right. by split_and!.
Qed.
Lemma write_runs c p b b' w (P : unit -> world -> Prop) : lf_heap w !! p = Some b ->
  P tt (mkLife (<[p := b']> (lf_heap w)) (lf_rest w)) -> runs_or c (write p b') w P.
Proof. unfold write, block_at, set_heap, runs_or. munfold. by intros ->. Qed.
Lemma at_runs {A} c p b (k : block -> M world A) w (P : A -> world -> Prop) : lf_heap w !! p = Some b ->
  runs_or c (k b) w P -> runs_or c (b ← block_at p; k b) w P.
Proof. unfold block_at, runs_or. munfold. by intros ->. Qed.
Lemma net_at_runs c p n w (P : net_object -> world -> Prop) : lf_heap w !! p = Some (BNet n) -> P n w -> runs_or c (net_at p) w P.
Proof. intros Hp HP. by eapply at_runs. Qed.
Lemma update_net_runs c p f n w (P : unit -> world -> Prop) : lf_heap w !! p = Some (BNet n) ->
  P tt (mkLife (<[p := BNet (f n)]> (lf_heap w)) (lf_rest w)) -> runs_or c (update_net p f) w P.
Proof. intros Hp HP. apply runs_or_bind. eapply net_at_runs; [done|]. by eapply write_runs. Qed.
Lemma assert_runs {S} (c : Prop) (x : bool) (s : S) (P : unit -> S -> Prop) : (x = true -> P tt s) -> (x = false -> c) -> runs_or c (rhs_assert x) s P.
Proof. unfold runs_or. destruct x; cbn; auto. Qed.
Lemma free_runs c p b w (P : unit -> world -> Prop) : p <> 0 -> lf_heap w !! p = Some b ->
  P tt (mkLife (delete p (lf_heap w)) (lf_rest w)) -> runs_or c (free p) w P.
Proof. intros Hp Hb. unfold free, block_at, set_heap, runs_or. destruct (Z.eqb_spec p 0); [done|]. munfold. by rewrite Hb. Qed.

(** The heap of an interface being built: only blocks that were not there before have changed. *)
Definition grown (h h' : gmap Z block) (l : list Z) : Prop := forall a, a ∉ l -> h' !! a = h !! a.

(** The object with its queue, manager and configuration. *)
Record begun (h : gmap Z block) (net : Z) (n : net_object) (x : Z) (c : NetConfig) : Prop := {
  b_net : h !! net = Some (BNet n);
  b_mgr : h !! o_mgr n = Some (BMgr x);
  b_config : h !! o_config n = Some (BConfig c);
  b_queue : h !! o_queue n = Some BQueue;
  b_null : h !! 0 = None
}.
Lemma alloc_net_runs config c w : config = Ret c -> lf_heap w !! 0 = None ->
  runs_or no_memory (alloc_net malloc junk_config junk config) w (fun net w' => exists n,
    begun (lf_heap w') net n junk c /\ prev_intf n = 0 /\ kept (lf_rest w) (lf_rest w') /\
    grown (lf_heap w) (lf_heap w') [net; o_mgr n; o_config n; o_queue n] /\
    Forall (fun a => lf_heap w !! a = None) [net; o_mgr n; o_config n; o_queue n]).
Proof.
  intros Hc Hnull. unfold alloc_net. apply runs_or_bind. eapply runs_or_mono; [apply alloc_runs|].
  intros net w1 [(-> & Hn & ->)|[(Hnet & Fnet & E1) R1]]; [by apply runs_or_bind, assert_runs|].
  apply runs_or_bind, assert_runs; [intros _|intros Hz; destruct (Z.eqb_spec net 0); [done|discriminate]].
  apply runs_or_bind. eapply runs_or_mono; [apply queue_alloc_law|]. intros q w2 [(Hq & Fq & E2) R2].
  rewrite E1 in Fq, E2. apply lookup_insert_None in Fq as [Fq Nq].
  apply runs_or_bind. eapply update_net_runs; [rewrite E2; by simplify_map_eq|].
  apply runs_or_bind. eapply runs_or_mono; [apply alloc_runs|]. cbn [lf_heap lf_rest].
  intros m w3 Hm. apply runs_or_bind. eapply update_net_runs.
  { destruct Hm as [(_ & _ & ->)|[(Hm & Fm & ->) _]]; cbn [lf_heap]; [by simplify_map_eq|].
    apply lookup_insert_None in Fm as [_ Fm]. by simplify_map_eq. }
  apply runs_or_bind. eapply runs_or_mono; [apply alloc_runs|]. cbn [lf_heap lf_rest].
  intros cf w4 Hcf. apply runs_or_bind. eapply update_net_runs.
  { destruct Hcf as [(_ & _ & ->)|[(Hcf & Fcf & ->) _]]; cbn [lf_heap]; [by simplify_map_eq|].
    apply lookup_insert_None in Fcf as [_ Fcf]. by simplify_map_eq. }
  apply runs_or_bind. eapply net_at_runs; [cbn; by simplify_map_eq|].
  apply runs_or_bind. cbn [o_mgr o_config set_config set_mgr set_queue o_thread o_queue prev_intf].
  destruct Hm as [(-> & Hn & ->)|[(Hm & Fm & E3) R3]]; [by apply assert_runs|].
  destruct Hcf as [(-> & Hn & ->)|[(Hcf & Fcf & E4) R4]]; [apply assert_runs; [by rewrite andb_false_r|done]|].
  apply assert_runs; [intros _|intros Hz; destruct (Z.eqb_spec m 0), (Z.eqb_spec cf 0); done].
  apply runs_or_bind. apply (runs_or_eq _ _ _ c (mkLife (<[net := BNet (mkNetObject m cf 0 q 0)]> (lf_heap w4)) (lf_rest w4))).
  { unfold lift. by rewrite Hc. }
  rewrite E2 in Fm, E3. rewrite E3 in Fcf, E4. apply lookup_insert_None in Fm as [Fm N1]. apply lookup_insert_None in Fm as [Fm N2].
  apply lookup_insert_None in Fm as [Fm N3]. rewrite !lookup_insert_None in Fcf. destruct Fcf as [[[[[Fcf N4] N5] N6] N7] N8].
  apply runs_or_bind. eapply write_runs; [cbn [lf_heap]; rewrite E4; by simplify_map_eq|].
  apply runs_or_ret. exists (mkNetObject m cf 0 q 0). cbn [lf_heap lf_rest o_mgr o_config o_queue prev_intf o_thread].
  split_and!; [|done|rewrite R4, R3, <- R1; done| |repeat constructor; done].
  - rewrite E4. split; cbn [o_mgr o_config o_queue]; by simplify_map_eq.
  - intros a Ha. rewrite !not_elem_of_cons in Ha. destruct Ha as (A1 & A2 & A3 & A4 & _). rewrite E4. by simplify_map_eq.
Qed.

(** The interface and its driver, allocated and not yet set up. *)
Lemma alloc_pair_runs net n x c b1 b2 w : begun (lf_heap w) net n x c -> net <> 0 ->
  runs_or no_memory (ifp ← alloc malloc b1; driver ← alloc malloc b2; rhs_assert (negb (net =? 0) && negb (ifp =? 0) && negb (driver =? 0));; mret (ifp, driver)) w
    (fun p w' => let '(ifp, driver) := p in lf_heap w' = <[driver := b2]> (<[ifp := b1]> (lf_heap w)) /\ lf_rest w' = lf_rest w /\
      ifp <> driver /\ Forall (fun a => lf_heap w !! a = None /\ a <> 0) [ifp; driver]).
Proof.
  intros Hb Hnet. apply runs_or_bind. eapply runs_or_mono; [apply alloc_runs|]. intros ifp w1 Hi.
  apply runs_or_bind. eapply runs_or_mono; [apply alloc_runs|]. intros driver w2 Hd.
  apply runs_or_bind, assert_runs.
  - rewrite !andb_true_iff, !negb_true_iff, !Z.eqb_neq. intros [[_ Ni] Nd]. apply runs_or_ret.
    destruct Hi as [(? & _)|[(_ & Fi & E1) R1]]; [done|]. destruct Hd as [(? & _)|[(_ & Fd & E2) R2]]; [done|].
    rewrite E1 in Fd, E2. apply lookup_insert_None in Fd as [Fd N]. split_and!; [done|congruence|done|by repeat constructor].
  - intros Hz. destruct Hi as [(_ & ? & _)|[(Hi & _) _]]; [done|]. destruct Hd as [(_ & ? & _)|[(Hd & _) _]]; [done|].
    destruct (Z.eqb_spec net 0), (Z.eqb_spec ifp 0), (Z.eqb_spec driver 0); done.
Qed.
Lemma bind_pair {A} (a b : M world Z) (k : Z -> Z -> M world A) net w :
  (ifp ← a; driver ← b; rhs_assert (negb (net =? 0) && negb (ifp =? 0) && negb (driver =? 0));; k ifp driver) w =
  ('(ifp, driver) ← (ifp ← a; driver ← b; rhs_assert (negb (net =? 0) && negb (ifp =? 0) && negb (driver =? 0));; mret (ifp, driver)); k ifp driver) w.
Proof.
  cbv [mbind M_bind]. destruct (a w) as [[ifp w1]| | |]; try done. destruct (b w1) as [[d w2]| | |]; try done.
  unfold rhs_assert. by destruct (negb (net =? 0) && negb (ifp =? 0) && negb (d =? 0)).
Qed.
Lemma runs_or_rewrite {A} c (m m' : M world A) w P : m w = m' w -> runs_or c m' w P -> runs_or c m w P.
Proof. unfold runs_or. by intros ->. Qed.

(** The addresses of an interface's blocks. *)
Definition addresses_of (net : Z) (n : net_object) (ifp driver : Z) : list Z :=
  [net; o_mgr n; o_config n; o_thread n; o_queue n; ifp; driver].

(** An interface whose thread is not there yet. *)
Record attached (h : gmap Z block) (net : Z) (n : net_object) (c : NetConfig) (ifp : Z) (i : mg_tcpip_if) (driver : Z) (u : option CdcIf) : Prop := {
  a_begun : begun h net n ifp c;
  a_if : h !! ifp = Some (BIf i driver u);
  a_driver : match u with None => exists d, h !! driver = Some (BPhy d) | Some _ => h !! driver = Some BDriver end
}.

(** The end of both starts: the thread is made, put in the object and started. *)
Lemma start_thread_runs name net n c ifp i driver u w : attached (lf_heap w) net n c ifp i driver u ->
  runs_or no_memory (t ← worker_alloc name net; update_net net (set_thread t);; worker_start t;; mret net) w (fun net' w' => net' = net /\
    exists t, lf_heap w !! t = None /\ working (lf_heap w') net (set_thread t n) c ifp i driver u /\ kept (lf_rest w) (lf_rest w') /\
    grown (lf_heap w) (lf_heap w') [net; t]).
Proof.
  intros [[Hn Hm Hc Hq H0'] Hi Hd]. apply runs_or_bind. eapply runs_or_mono; [apply worker_alloc_law|].
  intros t w1 [(Nt & Ft & E1) K1]. apply runs_or_bind. eapply update_net_runs; [rewrite E1; by simplify_map_eq|].
  set (w2 := mkLife _ _). apply runs_or_bind.
  destruct (worker_start_law t net w2) as (r & E2 & K2); [subst w2; cbn; rewrite E1; by simplify_map_eq|].
  eapply runs_or_eq; [exact E2|]. apply runs_or_ret. split; [done|]. exists t. subst w2. cbn [lf_heap lf_rest] in *. rewrite E1.
  split_and!; [done| |by transitivity (lf_rest w1)|].
  - destruct u; [|destruct Hd as [d Hd]]; split; cbn [set_thread o_mgr o_config o_queue o_thread]; try (look; done).
    exists d. by look.
  - intros a Ha. rewrite !not_elem_of_cons in Ha. destruct Ha as (A1 & A2 & _). by simplify_map_eq.
Qed.

Lemma at_bind {A} p b (k : block -> M world A) w : lf_heap w !! p = Some b -> (b ← block_at p; k b) w = k b w.
Proof. unfold block_at. munfold. by intros ->. Qed.
Lemma free_eq p b w : p <> 0 -> lf_heap w !! p = Some b -> free p w = Ret (tt, mkLife (delete p (lf_heap w)) (lf_rest w)).
Proof. intros Hp Hb. unfold free, block_at, set_heap. destruct (Z.eqb_spec p 0); [done|]. munfold. by rewrite Hb. Qed.
Lemma ifp_of_eq p ifp w : lf_heap w !! p = Some (BMgr ifp) -> ifp_of p w = Ret (ifp, w).
Proof. intros Hp. unfold ifp_of. by rewrite (at_bind _ _ _ _ Hp). Qed.
Lemma driver_of_eq p i d u w : lf_heap w !! p = Some (BIf i d u) -> driver_of p w = Ret (d, w).
Proof. intros Hp. unfold driver_of. by rewrite (at_bind _ _ _ _ Hp). Qed.
Lemma net_at_eq p n w : lf_heap w !! p = Some (BNet n) -> net_at p w = Ret (n, w).
Proof. intros Hp. unfold net_at. by rewrite (at_bind _ _ _ _ Hp). Qed.

(** Freeing an interface whose worker has ended frees each of its seven blocks once, with every
    pointer read before the block that holds it is freed. *)
Lemma net_free_eq net n c ifp i driver u w : working (lf_heap w) net n c ifp i driver u ->
  exists w', eth_net_free net w = Ret (tt, w') /\
    forall a, lf_heap w' !! a = if bool_decide (a ∈ addresses_of net n ifp driver) then None else lf_heap w !! a.
Proof.
  intros [Hn Hm Hc Hi Hq Ht Hd H0']. assert (Hb : exists b, lf_heap w !! driver = Some b /\ (b = BDriver \/ exists d, b = BPhy d)).
  { destruct u; [exists BDriver; auto|]. destruct Hd as [d Hd]. exists (BPhy d). eauto. }
  clear Hd. destruct Hb as (b & Hd & Hb).
  assert (Hnodup : NoDup (addresses_of net n ifp driver)).
  { unfold addresses_of. rewrite !NoDup_cons, !not_elem_of_cons. split_and!; try apply not_elem_of_nil; try apply NoDup_nil_2;
      intros E; destruct Hb as [->|[d ->]]; congruence. }
  assert (Hnull : 0 ∉ addresses_of net n ifp driver).
  { unfold addresses_of. rewrite !not_elem_of_cons. split_and!; try apply not_elem_of_nil; congruence. }
  unfold addresses_of in *. rewrite !NoDup_cons, !not_elem_of_cons in Hnodup. rewrite !not_elem_of_cons in Hnull. destruct_and!.
  unfold eth_net_free. erewrite bind_eq by by apply net_at_eq.
  destruct (worker_free_law (o_thread n) net w Ht) as (r1 & E1 & _). rewrite (bind_eq _ _ _ _ _ E1).
  destruct (queue_free_law (o_queue n) (mkLife (delete (o_thread n) (lf_heap w)) r1)) as (r2 & E2 & _);
    [cbn; by simplify_map_eq|]. rewrite (bind_eq _ _ _ _ _ E2). cbn [lf_heap].
  set (h2 := delete (o_queue n) (delete (o_thread n) (lf_heap w))).
  destruct (mg_mgr_free_law (o_mgr n) ifp (mkLife h2 r2) i driver u) as (r3 & E3 & _); [subst h2; cbn; by simplify_map_eq..|].
  rewrite (bind_eq _ _ _ _ _ E3). cbn [lf_heap].
  rewrite (bind_eq _ _ _ ifp (mkLife h2 r3)) by (apply ifp_of_eq; subst h2; cbn; by simplify_map_eq).
  rewrite (bind_eq _ _ _ driver (mkLife h2 r3)) by (eapply driver_of_eq; subst h2; cbn; by simplify_map_eq).
  erewrite (bind_eq _ _ _ tt) by (eapply free_eq; [done|subst h2; cbn; by simplify_map_eq]). cbn [lf_heap lf_rest].
  erewrite (bind_eq _ _ _ ifp) by (apply ifp_of_eq; subst h2; cbn; by simplify_map_eq).
  erewrite (bind_eq _ _ _ tt) by (eapply free_eq; [done|subst h2; cbn; by simplify_map_eq]). cbn [lf_heap lf_rest].
  erewrite (bind_eq _ _ _ tt) by (eapply free_eq; [done|subst h2; cbn; by simplify_map_eq]). cbn [lf_heap lf_rest].
  erewrite (bind_eq _ _ _ tt) by (eapply free_eq; [done|subst h2; cbn; by simplify_map_eq]). cbn [lf_heap lf_rest].
  eexists. split; [eapply free_eq; [done|subst h2; cbn; by simplify_map_eq]|]. intros a. cbn [lf_heap]. subst h2.
  destruct (decide (a ∈ [net; o_mgr n; o_config n; o_thread n; o_queue n; ifp; driver])) as [Hin|Hin];
    [rewrite bool_decide_true by done|rewrite bool_decide_false by done].
  - repeat (apply elem_of_cons in Hin as [->|Hin]; [by simplify_map_eq|]). by apply elem_of_nil in Hin.
  - rewrite !not_elem_of_cons in Hin. destruct_and!. by simplify_map_eq.
Qed.

Lemma on_rest_eq {A} (m : M R A) w a r : m (lf_rest w) = Ret (a, r) -> on_rest m w = Ret (a, mkLife (lf_heap w) r).
Proof. intros E. unfold on_rest. cbn [mbind outcome_bind]. by rewrite E. Qed.

(** The stop up to the freeing: the worker is asked, and ends with its blocks still there. *)
Lemma stop_runs {A} net n c ifp i driver u (k : unit -> M world A) w : working (lf_heap w) net n c ifp i driver u ->
  exists w', (request_stop net;; n ← net_at net; worker_join (o_thread n);; eth_net_free net ≫= k) w = k tt w' /\
    forall a, lf_heap w' !! a = if bool_decide (a ∈ addresses_of net n ifp driver) then None else lf_heap w !! a.
Proof.
  intros Hw. destruct (request_stop_law net n w) as (r & E1 & Hask); [apply Hw..|]. rewrite (bind_eq _ _ _ _ _ E1).
  erewrite bind_eq by (apply net_at_eq; apply Hw).
  destruct (worker_join_law net n c ifp i driver u (mkLife (lf_heap w) r) Hw Hask) as (r2 & c' & i' & E2).
  rewrite (bind_eq _ _ _ _ _ E2). cbn [lf_heap].
  destruct (net_free_eq net n c' ifp i' driver u (mkLife (<[o_config n:=BConfig c']> (<[ifp:=BIf i' driver u]> (lf_heap w))) r2)) as (w' & E3 & Hfree).
  { destruct Hw as [Hn Hm Hc Hi Hq Ht Hd H0']. split; cbn [lf_heap]; try (look; done).
    destruct u; [by look|]. destruct Hd as [d Hd]. exists d. by look. }
  rewrite (bind_eq _ _ _ _ _ E3). exists w'. split; [done|]. intros a. rewrite Hfree. cbn [lf_heap].
  destruct (decide (a ∈ addresses_of net n ifp driver)) as [Hin|Hin]; [by rewrite bool_decide_true|rewrite bool_decide_false by done].
  unfold addresses_of in Hin. rewrite !not_elem_of_cons in Hin. destruct_and!. by look.
Qed.

Section eth.
Context `{MongooseUrl} (ETH_NET_IP_STRING ETH_NET_MASK_STRING ETH_NET_GW_STRING uid : list Z) (MG_DRIVER_MDC_CR MG_TCPIP_PHY_ADDR : Z).
Context (rhs_hal_eth_init rhs_hal_eth_deinit : M R unit).
Context (Hinit : forall r, exists r', rhs_hal_eth_init r = Ret (tt, r')) (Hdeinit : forall r, exists r', rhs_hal_eth_deinit r = Ret (tt, r')).
Abbreviation start := (eth_net_start malloc junk_config junk_if junk_phy junk ETH_NET_IP_STRING ETH_NET_MASK_STRING ETH_NET_GW_STRING uid
  MG_DRIVER_MDC_CR MG_TCPIP_PHY_ADDR rhs_hal_eth_init).
Abbreviation alloc_app := (eth_net_alloc_app malloc junk_config junk_if junk_phy junk ETH_NET_IP_STRING ETH_NET_MASK_STRING ETH_NET_GW_STRING uid
  MG_DRIVER_MDC_CR MG_TCPIP_PHY_ADDR rhs_hal_eth_init).

(** Its blocks are new, and nothing else has changed. *)
Definition new_blocks (h h' : gmap Z block) (l : list Z) : Prop := Forall (fun a => h !! a = None) l /\ grown h h' l.

Lemma eth_alloc_runs config phy c i d w :
  eth_net_alloc ETH_NET_IP_STRING ETH_NET_MASK_STRING ETH_NET_GW_STRING uid MG_DRIVER_MDC_CR MG_TCPIP_PHY_ADDR config phy junk_config = Ret (c, i, d) ->
  lf_heap w !! 0 = None ->
  runs_or no_memory (alloc_app config phy) w (fun app w' => exists n ifp driver, attached (lf_heap w') app n c ifp i driver None /\
    lf_heap w' !! driver = Some (BPhy d) /\ new_blocks (lf_heap w) (lf_heap w') [app; o_mgr n; o_config n; o_queue n; ifp; driver]).
Proof.
  intros Hc H0'. unfold eth_net_alloc in Hc. destruct (eth_net_alloc_config _ _ _ uid config junk_config) as [c1| | |] eqn:E1; try done.
  cbn [mbind outcome_bind] in Hc. unfold eth_net_alloc_app. rewrite E1.
  apply runs_or_bind. eapply runs_or_mono; [by apply alloc_net_runs|]. intros app w1 (n & [Bn Bm Bc Bq B0] & _ & _ & G1 & F1).
  destruct (Hinit (lf_rest w1)) as [r1 Er]. apply runs_or_bind. eapply runs_or_eq; [by apply on_rest_eq|].
  apply runs_or_bind. eapply net_at_runs; [done|]. apply runs_or_bind.
  destruct (mg_mgr_init_law (o_mgr n) (mkLife (lf_heap w1) r1) junk Bm) as (r2 & E2 & _). eapply runs_or_eq; [exact E2|]. cbn [lf_heap].
  apply runs_or_bind. unfold eth_net_init_interface. eapply runs_or_rewrite; [apply bind_pair|]. apply runs_or_bind.
  eapply runs_or_mono; [eapply (alloc_pair_runs app n 0 c1); cbn [lf_heap]; [split; by look|congruence]|].
  intros [ifp driver] w2 (Eh & _ & Nid & Ff). cbn [lf_heap] in *. apply Forall_cons in Ff as [[Fi Ni] [[Fd Nd] _]%Forall_cons].
  rewrite !lookup_insert_None in Fi, Fd. destruct Fi as [Fi Mi], Fd as [Fd Md].
  apply runs_or_bind. eapply net_at_runs; [rewrite Eh; by look|]. apply runs_or_bind.
  eapply at_runs; [rewrite Eh; by look|]. apply runs_or_ret. apply runs_or_bind. eapply runs_or_eq; [unfold lift; by rewrite Hc|].
  apply runs_or_bind. eapply write_runs; [rewrite Eh; by look|]. apply runs_or_bind. eapply write_runs; [cbn; rewrite Eh; by look|].
  apply runs_or_bind. eapply write_runs; [cbn; rewrite Eh; by look|]. cbn [lf_heap]. set (w3 := mkLife _ _).
  destruct (mg_tcpip_init_law (o_mgr n) ifp w3 0 i driver None) as (r3 & E3 & _); [subst w3; cbn; rewrite Eh; by look..|].
  eapply runs_or_eq; [exact E3|]. apply runs_or_ret. exists n, ifp, driver. subst w3. cbn [lf_heap]. rewrite Eh. split_and!.
  - split; [split; by look|by look|exists d; by look].
  - by look.
  - split.
    + apply Forall_app_2 with (l1 := [app; o_mgr n; o_config n; o_queue n]); [done|]. repeat constructor; rewrite <- G1; try done;
        rewrite !not_elem_of_cons; split_and!; try apply not_elem_of_nil; congruence.
    + intros a Ha. rewrite !not_elem_of_cons in Ha. destruct_and!. look. apply G1. rewrite !not_elem_of_cons. by split_and!; try apply not_elem_of_nil.
Qed.

End eth.
End theorems.

Section cdc_theorems.
Context {S : Type} `{Scheduler S} {U : Type} `{UsbNetHw U} `{MongooseUrl} (get_interface : U -> Z).
Abbreviation usb := (usb_net S U).

(** The calls leave the back end and the USB interface to the code. *)
Definition cdc_kept (u u' : usb) : Prop := s_ops u' = s_ops u /\ tud_network_mac_address u' = tud_network_mac_address u /\
  get_interface (un_hw u') = get_interface (un_hw u).
Context {asked : Z -> usb -> Prop} {no_memory : Prop} `{NetObjectsLaws usb cdc_kept asked no_memory}.
Context (malloc : gmap Z block -> Z) (Hmalloc : forall h, malloc h = 0 /\ no_memory \/ malloc h <> 0 /\ h !! malloc h = None).
Context (junk_config : NetConfig) (junk_if : mg_tcpip_if) (junk : Z) (CDC_NET_IP_STRING CDC_NET_MASK_STRING CDC_NET_GW_STRING uid : list Z).
Context (set_interface : Z -> M usb unit) (rhs_hal_usb_reinit tusb_init tusb_deinit : M usb unit) (usb_cdc_net_desc : Z).
Context (Hset : forall i u, exists u', set_interface i u = Ret (tt, u') /\ s_ops u' = s_ops u /\ tud_network_mac_address u' = tud_network_mac_address u /\
  get_interface (un_hw u') = i).
Definition keeps_usb (m : M usb unit) : Prop := forall u, exists u', m u = Ret (tt, u') /\ cdc_kept u u'.
Context (Hreinit : keeps_usb rhs_hal_usb_reinit) (Htusb : keeps_usb tusb_init) (Hdeinit : keeps_usb tusb_deinit).
Abbreviation world := (net_life usb).
Implicit Types w : world.

Abbreviation alloc_app := (usb_cdc_net_alloc malloc junk_config junk_if junk CDC_NET_IP_STRING CDC_NET_MASK_STRING CDC_NET_GW_STRING uid
  get_interface set_interface rhs_hal_usb_reinit tusb_init usb_cdc_net_desc).
Abbreviation start := (usb_cdc_net_start malloc junk_config junk_if junk CDC_NET_IP_STRING CDC_NET_MASK_STRING CDC_NET_GW_STRING uid
  get_interface set_interface rhs_hal_usb_reinit tusb_init usb_cdc_net_desc).

(** The interface with its driver's functions, its DHCP server and its queue. *)
Lemma cdc_init_runs app n c1 c i x w : cdc_net_init_tcpip CDC_NET_IP_STRING CDC_NET_MASK_STRING CDC_NET_GW_STRING uid c1 = Ret (c, i, x) ->
  begun (lf_heap w) app n 0 c1 ->
  runs_or no_memory (cdc_net_init_interface malloc junk_if CDC_NET_IP_STRING CDC_NET_MASK_STRING CDC_NET_GW_STRING uid app) w (fun _ w' =>
    exists ifp driver, attached (lf_heap w') app n c ifp i driver (Some x) /\ cdc_kept (lf_rest w) (lf_rest w') /\
      Forall (fun a => lf_heap w !! a = None) [ifp; driver] /\ grown (lf_heap w) (lf_heap w') [o_mgr n; o_config n; ifp; driver]).
Proof.
  intros Hc Hb. pose proof Hb as [Bn Bm Bc Bq B0]. unfold cdc_net_init_interface. eapply runs_or_rewrite; [apply bind_pair|]. apply runs_or_bind.
  eapply runs_or_mono; [eapply (alloc_pair_runs malloc Hmalloc app n 0 c1); [done|congruence]|].
  intros [ifp driver] w2 (Eh & Er & Nid & Ff). apply Forall_cons in Ff as [[Fi Ni] [[Fd Nd] _]%Forall_cons].
  apply runs_or_bind. eapply net_at_runs; [rewrite Eh; by look|]. apply runs_or_bind.
  eapply at_runs; [rewrite Eh; by look|]. apply runs_or_ret. apply runs_or_bind. eapply runs_or_eq; [unfold lift; by rewrite Hc|].
  apply runs_or_bind. eapply write_runs; [rewrite Eh; by look|]. apply runs_or_bind. eapply write_runs; [cbn; rewrite Eh; by look|].
  cbn [lf_heap]. set (w3 := mkLife _ _).
  destruct (mg_tcpip_init_law (o_mgr n) ifp w3 0 i driver (Some x)) as (r3 & E3 & K3); [subst w3; cbn; rewrite Eh; by look..|].
  eapply runs_or_eq; [exact E3|]. exists ifp, driver. subst w3. cbn [lf_heap lf_rest] in *. rewrite Eh. rewrite Er in K3. split_and!.
  - split; [split; by look|by look..].
  - done.
  - by repeat constructor.
  - intros a Ha. rewrite !not_elem_of_cons in Ha. destruct_and!. by look.
Qed.

(** Up to the registration of the back end. *)
Lemma cdc_alloc_runs config c i x w (P : Z -> world -> Prop) (oom : Prop) : (no_memory -> oom) ->
  usb_cdc_net_setup CDC_NET_IP_STRING CDC_NET_MASK_STRING CDC_NET_GW_STRING uid config junk_config = Ret (c, i, x) ->
  lf_heap w !! 0 = None -> length (tud_network_mac_address (lf_rest w)) = 6%nat ->
  (forall app n ifp driver w', attached (lf_heap w') app n c ifp i driver (Some x) -> prev_intf n = get_interface (un_hw (lf_rest w)) ->
    new_blocks (lf_heap w) (lf_heap w') [app; o_mgr n; o_config n; o_queue n; ifp; driver] ->
    s_ops (lf_rest w') = s_ops (lf_rest w) -> tud_network_mac_address (lf_rest w') = <[5%nat := 0]> (tud_network_mac_address (lf_rest w)) ->
    get_interface (un_hw (lf_rest w')) = usb_cdc_net_desc ->
    runs_or oom (on_rest (tud_net_dispatch_set (Some (cdc_net_ops app)));; mret app) w' P) ->
  runs_or oom (alloc_app config) w P.
Proof.
  intros Hoom Hc H0' Hmac Hend. unfold usb_cdc_net_setup in Hc. destruct (usb_cdc_net_config _ _ _ uid config junk_config) as [c1| | |] eqn:E1; try done.
  cbn [mbind outcome_bind] in Hc. unfold usb_cdc_net_alloc. rewrite E1.
  assert (Hor : forall X (m : M world X) v (K : X -> world -> Prop), runs_or no_memory m v K -> runs_or oom m v K).
  { intros X m v K. unfold runs_or. destruct (m v) as [[]| | |]; auto. }
  apply runs_or_bind. eapply runs_or_mono; [by apply Hor, alloc_net_runs|].
  intros app w1 (n & [Bn Bm Bc Bq B0] & Hprev & (O1 & M1 & I1) & G1 & F1).
  apply runs_or_bind. eapply net_at_runs; [done|]. apply runs_or_bind.
  destruct (mg_mgr_init_law (o_mgr n) w1 junk Bm) as (r2 & E2 & (O2 & M2 & I2)). eapply runs_or_eq; [exact E2|].
  apply runs_or_bind. set (r3 := mkUsbNet (un_os r2) (un_hw r2) (s_ops r2) (<[5%nat := 0]> (tud_network_mac_address r2)) (un_bridges r2)).
  eapply runs_or_eq; [apply (on_rest_eq _ _ tt r3); cbn [lf_rest]; unfold clear_last_mac_byte; by rewrite aset_in by (rewrite M2, M1, Hmac; lia)|].
  cbn [lf_heap]. apply runs_or_bind. eapply runs_or_eq; [by apply (on_rest_eq _ _ (get_interface (un_hw r3)) r3)|]. cbn [lf_heap].
  apply runs_or_bind. eapply update_net_runs; [cbn [lf_heap]; by look|]. cbn [lf_heap lf_rest].
  apply runs_or_bind. destruct (Hset usb_cdc_net_desc r3) as (r4 & E4 & O4 & M4 & I4). eapply runs_or_eq; [by apply on_rest_eq|]. cbn [lf_heap].
  set (n' := set_prev _ n). apply runs_or_bind. eapply runs_or_mono.
  { apply Hor. eapply (cdc_init_runs app n' c1 c i x); [done|]. subst n'. split; cbn [lf_heap set_prev o_mgr o_config o_queue]; by look. }
  intros [] w5 (ifp & driver & Ha & (O5 & M5 & I5) & Ff & G5). cbn [lf_heap lf_rest] in *.
  destruct (Hreinit (lf_rest w5)) as (r6 & E6 & O6 & M6 & I6). apply runs_or_bind. eapply runs_or_eq; [by apply on_rest_eq|].
  destruct (Htusb r6) as (r7 & E7 & O7 & M7 & I7). apply runs_or_bind. eapply runs_or_eq; [by apply on_rest_eq|]. cbn [lf_heap].
  apply (Hend app n' ifp driver); cbn [lf_heap lf_rest]; [done| | | | |congruence].
  - subst n' r3. cbn [set_prev prev_intf un_hw]. congruence.
  - rewrite !Forall_cons in Ff. destruct Ff as (Fi & Fd & _). rewrite !lookup_insert_None in Fi, Fd. destruct_and!.
    subst n'. cbn [set_prev o_mgr o_config o_queue o_thread] in *. split.
    + apply Forall_app_2 with (l1 := [app; o_mgr n; o_config n; o_queue n]); [done|]. repeat constructor; rewrite <- G1; try done;
        rewrite !not_elem_of_cons; split_and!; try apply not_elem_of_nil; congruence.
    + intros a Hin. rewrite !not_elem_of_cons in Hin. destruct_and!. rewrite G5 by (rewrite !not_elem_of_cons; by split_and!; try apply not_elem_of_nil).
      look. apply G1. rewrite !not_elem_of_cons. by split_and!; try apply not_elem_of_nil.
  - subst r3. cbn [s_ops] in *. congruence.
  - subst r3. cbn [tud_network_mac_address] in *. congruence.
Qed.

Lemma cdc_start_eq config w : start config w =
  (app ← alloc_app config; t ← worker_alloc (str "cdc_net") app; update_net app (set_thread t);; worker_start t;; mret app) w.
Proof. done. Qed.

(** C9: the life of the network interface over USB. Its start comes back or memory has run out; then
    it is the back end of TinyUSB's network class, USB shows its descriptors, the interface to go
    back to is remembered, the last byte of the hardware address is 0, its seven blocks are
    new and linked, and nothing else has changed. With another back end running the start stops
    the system. Its stop never succeeds: it reads the interface to go back to from the object
    it has freed. *)
Theorem usb_cdc_net_life config c i x w :
  usb_cdc_net_setup CDC_NET_IP_STRING CDC_NET_MASK_STRING CDC_NET_GW_STRING uid config junk_config = Ret (c, i, x) ->
  lf_heap w !! 0 = None -> length (tud_network_mac_address (lf_rest w)) = 6%nat ->
  (s_ops (lf_rest w) = None -> runs_or no_memory (start config) w (fun net w' => exists n ifp driver,
     working (lf_heap w') net n c ifp i driver (Some x) /\ new_blocks (lf_heap w) (lf_heap w') (addresses_of net n ifp driver) /\
     prev_intf n = get_interface (un_hw (lf_rest w)) /\ s_ops (lf_rest w') = Some (cdc_net_ops net) /\
     tud_network_mac_address (lf_rest w') = <[5%nat := 0]> (tud_network_mac_address (lf_rest w)) /\
     get_interface (un_hw (lf_rest w')) = usb_cdc_net_desc)) /\
  (s_ops (lf_rest w) <> None -> runs_or True (start config) w (fun _ _ => False)) /\
  (forall net n c2 ifp i2 driver u w2, working (lf_heap w2) net n c2 ifp i2 driver u ->
     usb_cdc_net_stop set_interface tusb_deinit net w2 = Fault) /\
  usb_cdc_net_stop set_interface tusb_deinit 0 w = Crash "Assert".
Proof.
  intros Hc H0' Hmac. split_and!; [| | |done].
  - intros Hn. unfold runs_or. rewrite cdc_start_eq. fold (runs_or no_memory (app ← alloc_app config; t ← worker_alloc (str "cdc_net") app; update_net app (set_thread t);; worker_start t;; mret app) w).
    apply runs_or_bind. eapply cdc_alloc_runs; [auto|done..|].
    intros app n ifp driver w1 Ha Hp Hnew Ho Hm Hi. apply runs_or_bind.
    set (r2 := mkUsbNet (un_os (lf_rest w1)) (un_hw (lf_rest w1)) (Some (cdc_net_ops app)) (tud_network_mac_address (lf_rest w1)) (un_bridges (lf_rest w1))).
    eapply runs_or_eq; [apply (on_rest_eq _ _ tt r2)|].
    { unfold tud_net_dispatch_set. munfold. by rewrite Ho, Hn. }
    apply runs_or_ret. eapply runs_or_mono; [by eapply start_thread_runs|]. cbn [lf_heap lf_rest].
    intros net w3 (-> & t & Ft & Hw & (O3 & M3 & I3) & Gt). exists (set_thread t n), ifp, driver.
    destruct Ha as [[Bn Bm Bc Bq B0] Bi Bd]. destruct Hnew as [Hf Hg]. rewrite !Forall_cons in Hf. destruct_and!.
    split_and!; [done| |done|by rewrite O3|by rewrite M3|by rewrite I3].
    unfold addresses_of. cbn [set_thread o_mgr o_config o_queue o_thread]. split.
    + repeat constructor; try done. rewrite <- Hg; [done|]. rewrite !not_elem_of_cons. split_and!; try apply not_elem_of_nil; congruence.
    + intros a Hin. rewrite !not_elem_of_cons in Hin. destruct_and!. rewrite Gt by set_solver. apply Hg. set_solver.
  - intros Hn. unfold runs_or. rewrite cdc_start_eq. fold (runs_or True (app ← alloc_app config; t ← worker_alloc (str "cdc_net") app; update_net app (set_thread t);; worker_start t;; mret app) w (fun _ _ => False)).
    apply runs_or_bind. eapply cdc_alloc_runs; [done..|].
    intros app n ifp driver w1 _ _ _ Ho _ _. unfold runs_or, on_rest, tud_net_dispatch_set. munfold. rewrite Ho. by destruct (s_ops (lf_rest w)).
  - intros net n c2 ifp i2 driver u w2 Hw. unfold usb_cdc_net_stop. change usb_cdc_net_free with (eth_net_free (R := usb)).
    pose proof Hw as [Bn _ _ _ _ _ _ B0]. assert (Nz : net <> 0) by congruence. destruct (Z.eqb_spec net 0); [done|].
    cbn [negb rhs_assert]. rewrite M_bind_ret. erewrite bind_eq by by apply on_rest_eq.
    destruct (stop_runs net n c2 ifp i2 driver u (fun _ => on_rest tusb_deinit;; n ← net_at net; on_rest (set_interface (prev_intf n)))
      (mkLife (lf_heap w2) (mkUsbNet (un_os (lf_rest w2)) (un_hw (lf_rest w2)) None (tud_network_mac_address (lf_rest w2)) (un_bridges (lf_rest w2)))) Hw)
      as (w4 & E & Hfree).
    rewrite E. destruct (Hdeinit (lf_rest w4)) as (r & Er & _). erewrite bind_eq by by apply on_rest_eq.
    unfold net_at, block_at. munfold. cbn [lf_heap]. rewrite Hfree, bool_decide_true; [done|]. unfold addresses_of. apply list_elem_of_here.
Qed.
End cdc_theorems.

(** ** The theorems at work *)

Definition next_block (h : gmap Z block) : Z := fresh ({[0]} ∪ dom h : gset Z).
Lemma next_block_fresh h : next_block h <> 0 /\ h !! next_block h = None.
Proof.
  pose proof (is_fresh ({[0]} ∪ dom h : gset Z)) as Hf. fold (next_block h) in Hf.
  split; [set_solver|]. apply not_elem_of_dom. set_solver.
Qed.
Lemma next_block_ok h : next_block h = 0 /\ False \/ next_block h <> 0 /\ h !! next_block h = None.
Proof. right. apply next_block_fresh. Qed.

Section plain.
Context {R : Type}.
Definition drop_block (p : Z) : M (net_life R) unit := modify (fun w => mkLife (delete p (lf_heap w)) (lf_rest w)).
#[global] Instance plain_objects : NetObjects R := {
  mg_mgr_init mgr := write mgr (BMgr 0);
  mg_tcpip_init mgr ifp := write mgr (BMgr ifp);
  mg_mgr_free _ := mret tt;
  queue_alloc := alloc next_block BQueue;
  queue_free := drop_block;
  worker_alloc _ net := alloc next_block (BThread net false);
  worker_start t := b ← block_at t; match b with BThread net _ => write t (BThread net true) | _ => fault end;
  worker_join _ := mret tt;
  worker_free := drop_block;
  request_stop _ := mret tt
}.
Lemma plain_alloc b (kept : R -> R -> Prop) `{!PreOrder kept} w : runs_or False (alloc next_block b) w (fun p w' =>
  gains (lf_heap w) p b (lf_heap w') /\ kept (lf_rest w) (lf_rest w')).
Proof.
  unfold alloc, runs_or, get, set_heap, modify. munfold. destruct (next_block_fresh (lf_heap w)) as [Hp Hf].
  destruct (Z.eqb_spec (next_block (lf_heap w)) 0); [done|]. cbn. by split.
Qed.
Lemma plain_write p b b' (w : net_life R) : lf_heap w !! p = Some b -> write p b' w = Ret (tt, mkLife (<[p := b']> (lf_heap w)) (lf_rest w)).
Proof. unfold write, block_at, set_heap. munfold. by intros ->. Qed.
Lemma plain_objects_laws (kept : R -> R -> Prop) `{!PreOrder kept} : NetObjectsLaws R kept (fun _ _ => True) False.
Proof.
  split; [done|..]; cbn.
  - intros mgr w x Hx. eexists. by rewrite (plain_write _ _ _ _ Hx).
  - intros mgr ifp w x i d u Hx _. eexists. by rewrite (plain_write _ _ _ _ Hx).
  - intros mgr ifp [h r] i d u _ _. by exists r.
  - intros w. by apply plain_alloc.
  - intros q [h r] _. by exists r.
  - intros _ net w. by apply plain_alloc.
  - intros t net w Ht. exists (lf_rest w). rewrite (at_bind _ _ _ _ Ht). by rewrite (plain_write _ _ _ _ Ht).
  - intros net n [h r] _ _. by exists r.
  - intros net n c ifp i d u [h r] [Hn Hm Hc Hi Hq Ht Hd H0'] _. exists r, c, i. unfold mret, M_ret. cbn [lf_heap] in *.
    by rewrite (insert_id h ifp), insert_id.
  - intros t net [h r] _. by exists r.
Qed.
End plain.

#[global] Instance plain_objects_unit : NetObjectsLaws unit (fun _ _ => True) (fun _ _ => True) False.
Proof. apply plain_objects_laws. by split. Defined.


(** The hardware of [UsbNet] with the number of the interface it shows. *)
#[global] Instance shown_usb : UsbNetHw (usb_hw * Z) := {
  tud_ready u := tud_ready (fst u);
  tud_inited u := tud_inited (fst u);
  tud_connected u := tud_connected (fst u);
  tud_network_can_xmit len u := tud_network_can_xmit len (fst u);
  tud_send f u := (tud_send f (fst u), snd u);
  tud_network_recv_renew u := u;
  driver_tx f u := (driver_tx f (fst u), snd u);
  driver_poll s1 u := let '(up, h) := driver_poll s1 (fst u) in (up, (h, snd u));
  mg_millis u := mg_millis (fst u);
  mg_queue_next u := mg_queue_next (fst u);
  mg_queue_del u := (mg_queue_del (fst u), snd u);
  mg_tcpip_qwrite f u := (mg_tcpip_qwrite f (fst u), snd u)
}.
Abbreviation shown_world := (usb_net os_state (usb_hw * Z)).
Definition show (i : Z) : M shown_world unit := on_hw_ (fun u => (fst u, i)).
#[global] Instance cdc_kept_order : PreOrder (cdc_kept (S := os_state) (snd : usb_hw * Z -> Z)).
Proof. split; [done|]. intros a b c (A1 & A2 & A3) (B1 & B2 & B3). unfold cdc_kept. split_and!; congruence. Qed.
#[global] Instance plain_objects_usb : NetObjectsLaws shown_world (cdc_kept (S := os_state) (snd : usb_hw * Z -> Z)) (fun _ _ => True) False.
Proof. apply plain_objects_laws, _. Defined.

Definition cdc_world (o : option TudNetOps) : net_life shown_world :=
  mkLife ∅ (mkUsbNet a_task (mkUsbHw [] [] [] [] 0 [] [] true, 11) o [2; 2; 132; 106; 150; 0] ∅).

(** Interface 77 takes the place of interface 11. *)
Lemma usb_cdc_net_life_witness : exists net w',
  usb_cdc_net_start next_block zero_config (mkIf false 0 0 0 []) 0 (str "192.168.7.1") (str "255.255.255.0") (str "192.168.7.1") (repeat 7 12)
    snd show (mret tt) (mret tt) 77 None (cdc_world None) = Ret (net, w') /\
  snd (un_hw (lf_rest w')) = 77 /\ s_ops (lf_rest w') = Some (cdc_net_ops net) /\
  usb_cdc_net_stop show (mret tt) net w' = Fault.
Proof.
  destruct (usb_cdc_net_setup (str "192.168.7.1") (str "255.255.255.0") (str "192.168.7.1") (repeat 7 12) None zero_config)
    as [[[c i] x]| | |] eqn:E; [|discriminate E..].
  assert (Hk : keeps_usb (S := os_state) (snd : usb_hw * Z -> Z) (mret tt)) by (intros r; exists r; repeat split).
  assert (Hs : forall i (u : shown_world), exists u', show i u = Ret (tt, u') /\ s_ops u' = s_ops u /\
    tud_network_mac_address u' = tud_network_mac_address u /\ snd (un_hw u') = i).
  { intros j u. eexists. split; [reflexivity|]. by repeat split. }
  destruct (usb_cdc_net_life snd next_block next_block_ok zero_config (mkIf false 0 0 0 []) 0
    (str "192.168.7.1") (str "255.255.255.0") (str "192.168.7.1") (repeat 7 12) show (mret tt) (mret tt) (mret tt) 77 Hs Hk Hk Hk
    None c i x (cdc_world None) E (lookup_empty 0) eq_refl) as (T & _ & Tstop & _). specialize (T eq_refl). unfold runs_or in T.
  destruct (usb_cdc_net_start _ _ _ _ _ _ _ _ _ _ _ _ _ _ _) as [[net w']| | |]; [|destruct T..].
  destruct T as (n & ifp & driver & Hw & _ & _ & Ho & _ & Hi). exists net, w'. split; [reflexivity|]. split; [exact Hi|]. split; [exact Ho|].
  exact (Tstop _ _ _ _ _ _ _ _ Hw).
Defined.
