(* ===== verification/CortexInit.v ===== *)
(** * The counter and its set-up (hal/rhs_hal_cortex/rhs_hal_cortex.c)

    [rhs_hal_cortex_init_early] on every part, the timers of the STM32G0B1 on its timer TIM2
    beside those of [Cortex] on the cycle counter, and how long the busy waits of both take. *)

From S2P Require Import Prelude Interrupt Cortex.

(** ** rhs_hal_cortex_init_early *)

Inductive creg := DEMCR | DWT_CTRL | DWT_CYCCNT | RCC_APBENR1 | TIM2_PSC | TIM2_ARR | TIM2_EGR | TIM2_CR1.
#[global] Instance creg_eq_dec : EqDecision creg.
Proof. solve_decision. Defined.

(** What the MPU is asked for: a region of [mpu_size] bytes, normal memory ([mpu_tex] 1) that may
    or may not be shared, cached or buffered. *)
Record MPU_Region := mkRegion {
  mpu_number : Z; mpu_base : Z; mpu_size : Z; mpu_tex : Z; mpu_full_access : bool; mpu_exec : bool;
  mpu_shareable : bool; mpu_cacheable : bool; mpu_bufferable : bool }.
Inductive vendor_call :=
  | HAL_MPU_Disable | HAL_MPU_ConfigRegion (m : MPU_Region) | HAL_MPU_Enable | SCB_EnableICache | SCB_EnableDCache.

Record cortex_state := mkCortex { cregs : creg -> Z; vendor_calls : list vendor_call }.
Definition write_reg (r : creg) (v : Z) : M cortex_state unit :=
  modify (fun w => mkCortex (fun x => if decide (x = r) then v else cregs w x) (vendor_calls w)).
Definition or_reg (r : creg) (mask : Z) : M cortex_state unit := w ← get; write_reg r (Z.lor (cregs w r) mask).
Definition vendor (c : vendor_call) : M cortex_state unit := modify (fun w => mkCortex (cregs w) (vendor_calls w ++ [c])).

Definition CoreDebug_DEMCR_TRCENA_Msk : Z := Z.shiftl 1 24.
Definition CoreDebug_DEMCR_MON_EN_Msk : Z := Z.shiftl 1 16.
Definition DWT_CTRL_CYCCNTENA_Msk : Z := 1.
Definition RCC_APBENR1_TIM2EN : Z := 1.
Definition TIM_EGR_UG : Z := 1.
Definition TIM_CR1_CEN : Z := 1.

(** [sram2_start] is the linker's symbol. *)
Definition sram2_region (sram2_start : Z) : MPU_Region := mkRegion 7 sram2_start (16 * 1024) 1 true true false false false.
Definition rhs_hal_cortex_configure_mpu (sram2_start : Z) : M cortex_state unit :=
  vendor HAL_MPU_Disable;;
  vendor (HAL_MPU_ConfigRegion (sram2_region sram2_start));;
  vendor HAL_MPU_Enable.

Definition has_mpu_setup (b : board) : bool := match b with BMPLC_XL | BMPLC_L | STM32F765xx => true | _ => false end.
Definition rhs_hal_cortex_init_early (b : board) (sram2_start SystemCoreClock : Z) : M cortex_state unit :=
  (if has_mpu_setup b then
     rhs_hal_cortex_configure_mpu sram2_start;; vendor SCB_EnableICache;; vendor SCB_EnableDCache
   else mret tt);;
  match b with
  | STM32G0B1xx =>
      or_reg RCC_APBENR1 RCC_APBENR1_TIM2EN;;
      write_reg TIM2_PSC (u32 (SystemCoreClock / 1000000 - 1));;
      write_reg TIM2_ARR (2 ^ 32 - 1);;
      write_reg TIM2_EGR TIM_EGR_UG;;
      write_reg TIM2_CR1 TIM_CR1_CEN
  | _ =>
      or_reg DEMCR (Z.lor CoreDebug_DEMCR_TRCENA_Msk CoreDebug_DEMCR_MON_EN_Msk);;
      or_reg DWT_CTRL DWT_CTRL_CYCCNTENA_Msk;;
      write_reg DWT_CYCCNT 0
  end.

(** ** The timers of the STM32G0B1 *)

Class Tim2 (D : Type) := { TIM2_CNT : D -> Z * D; g0_clock : D -> Z }.

Section g0.
Context {D : Type} `{Tim2 D}.

Definition g0_timeout_fits (timeout_us : Z) : M D unit :=
  per ← gets (fun d => g0_clock d / 1000000);
  if per =? 0 then fault else rhs_assert (timeout_us <? (2 ^ 32 - 1) / per).
Definition g0_timer_get (timeout_us : Z) : M D RHSHalCortexTimer :=
  _ ← g0_timeout_fits timeout_us;
  start ← call TIM2_CNT;
  mret (mkTimer start timeout_us).
Definition g0_timer_is_expired (t : RHSHalCortexTimer) : M D bool :=
  c ← call TIM2_CNT;
  mret (timer_value t <=? u32 (c - timer_start t)).
Fixpoint g0_timer_wait (fuel : nat) (t : RHSHalCortexTimer) : M D unit :=
  match fuel with
  | O => hang
  | S fuel => expired ← g0_timer_is_expired t; if expired : bool then mret tt else g0_timer_wait fuel t
  end.
Fixpoint g0_delay_loop (fuel : nat) (start microseconds : Z) : M D unit :=
  match fuel with
  | O => hang
  | S fuel => c ← call TIM2_CNT; if u32 (c - start) <? microseconds then g0_delay_loop fuel start microseconds else mret tt
  end.
Definition g0_delay_us (fuel : nat) (microseconds : Z) : M D unit :=
  _ ← g0_timeout_fits microseconds;
  start ← call TIM2_CNT;
  g0_delay_loop fuel start microseconds.
End g0.

(** ** How long the waits take *)

Section waits.
Context {D : Type} `{DwtLaws D}.

(** The wait ends: not before the timer does, and at most two gaps after it. *)
Lemma timer_wait_exact us start fuel : forall d, 0 < per_us -> 0 <= timer_cycles us -> timer_cycles us + 2 * gap < 2 ^ 32 ->
  start <= time d <= start + timer_cycles us + gap -> start + timer_cycles us + gap < time d + Z.of_nat fuel ->
  runs (rhs_hal_cortex_timer_wait fuel (timer_at start us)) d (fun _ d' => start + timer_cycles us <= time d' <= start + timer_cycles us + 2 * gap).
Proof.
  pose proof gap_pos as Hgap. induction fuel as [|fuel IH]; intros d Hper Hc Hfit Ht Hfuel.
  - lia.
  - cbn [rhs_hal_cortex_timer_wait]. apply runs_bind, runs_bind, runs_call. pose proof (cyccnt_spec d) as Hd.
    destruct (CYCCNT d) as [c d']. destruct Hd as (-> & Hd). apply runs_ret. cbn [timer_at timer_start timer_value].
    assert (u32 (u32 (time d) - u32 start) = time d - start) as ->.
    { unfold u32. rewrite <- Zminus_mod. apply Z.mod_small. lia. }
    destruct (Z.ltb_spec (time d - start) (timer_cycles us)); cbn [negb]; [apply IH; lia|apply runs_ret; lia].
Qed.

(** The busy wait for [us] microseconds, with fuel for its cycles. *)
Definition delay_ok (us : Z) (fuel : nat) : Prop :=
  good_timeout us (2 * gap) /\ timer_cycles us + gap < Z.of_nat fuel.
Lemma delay_us_exact us fuel d : delay_ok us fuel ->
  runs (rhs_hal_cortex_delay_us fuel us) d (fun _ d' => time d + timer_cycles us <= time d' <= time d + timer_cycles us + 2 * gap).
Proof.
  intros [(Hper & Hus & Hfit) Hfuel]. pose proof gap_pos as Hgap.
  assert (Hc : 0 <= timer_cycles us) by (apply Z.mul_nonneg_nonneg; lia).
  unfold rhs_hal_cortex_delay_us, timeout_fits. apply runs_bind, runs_bind. eexists _, d. split; [done|].
  unfold RHS_HAL_CORTEX_INSTRUCTIONS_PER_MICROSECOND. rewrite clock_spec. fold per_us.
  destruct (Z.eqb_spec per_us 0); [lia|]. unfold rhs_assert. destruct (Z.ltb_spec us ((2 ^ 32 - 1) / per_us)); [|lia]. apply runs_ret.
  apply runs_bind, runs_call. pose proof (cyccnt_spec d) as Hd. destruct (CYCCNT d) as [c d']. destruct Hd as (-> & Hd).
  apply runs_bind. eexists _, d'. split; [done|]. rewrite clock_spec. fold per_us. fold (timer_cycles us).
  rewrite (u32_small (timer_cycles us)) by lia. apply (timer_wait_exact us (time d)); lia.
Qed.
End waits.

(** On the STM32G0B1 the counter is a [Dwt] counter with a clock of 1 MHz. *)
Class Tim2Laws (D : Type) `{Tim2 D} := {
  ticks : D -> Z;
  tick_gap : Z;
  cpu_clock : Z;
  tick_gap_pos : 0 < tick_gap;
  cpu_clock_spec d : g0_clock d = cpu_clock;
  tim2_cnt_spec d : let '(c, d') := TIM2_CNT d in c = u32 (ticks d) /\ ticks d < ticks d' <= ticks d + tick_gap
}.

Section g0_waits.
Context {D : Type} `{Tim2Laws D}.
#[local] Instance tim2_dwt : Dwt D := {| CYCCNT := TIM2_CNT; SystemCoreClock _ := 1000000 |}.
#[local] Program Instance tim2_dwt_laws : DwtLaws D := {| time := ticks; gap := tick_gap; clock_hz := 1000000 |}.
Next Obligation. apply tick_gap_pos. Qed.
Next Obligation. done. Qed.
Next Obligation. apply tim2_cnt_spec. Qed.

Lemma g0_delay_is_wait fuel : forall start us d, g0_delay_loop fuel start us d = rhs_hal_cortex_timer_wait fuel (mkTimer start us) d.
Proof.
  induction fuel as [|fuel IH]; intros start us d; [done|]. cbn [g0_delay_loop rhs_hal_cortex_timer_wait].
  unfold rhs_hal_cortex_timer_is_expired, call. cbn [CYCCNT tim2_dwt timer_start timer_value]. munfold. destruct (TIM2_CNT d) as [c d'].
  destruct (u32 (c - start) <? us); cbn [negb]; [apply IH|done].
Qed.

(** The timers too: a timer is the same record, and looks the same. *)
Lemma g0_expired_same t d : g0_timer_is_expired t d = rhs_hal_cortex_timer_is_expired t d.
Proof.
  unfold g0_timer_is_expired, rhs_hal_cortex_timer_is_expired. munfold. cbn [CYCCNT tim2_dwt]. destruct (TIM2_CNT d) as [c d'].
  rewrite Z.leb_antisym. done.
Qed.
Lemma g0_wait_same fuel : forall t d, g0_timer_wait fuel t d = rhs_hal_cortex_timer_wait fuel t d.
Proof.
  induction fuel as [|fuel IH]; intros t d; [done|]. cbn [g0_timer_wait rhs_hal_cortex_timer_wait].
  cbv [mbind M_bind]. rewrite g0_expired_same. destruct (rhs_hal_cortex_timer_is_expired t d) as [[[] d']| | |]; by rewrite ?IH.
Qed.

(** The check is made in the CPU's clock: with it the timer fits in the counter. *)
Definition g0_good (us : Z) : Prop := 0 < cpu_clock / 1000000 /\ 0 <= us < (2 ^ 32 - 1) / (cpu_clock / 1000000).
Lemma g0_fits us d : g0_good us -> g0_timeout_fits us d = Ret (tt, d).
Proof.
  intros [Hp Hus]. unfold g0_timeout_fits. munfold. rewrite cpu_clock_spec. destruct (Z.eqb_spec (cpu_clock / 1000000) 0); [lia|].
  destruct (Z.ltb_spec us ((2 ^ 32 - 1) / (cpu_clock / 1000000))); [done|lia].
Qed.
Lemma g0_cycles us : timer_cycles us = us.
Proof. unfold timer_cycles, per_us. cbn [clock_hz tim2_dwt_laws]. change (1000000 / 1000000) with 1. lia. Qed.
Lemma g0_delay_us_exact us fuel d : g0_good us -> us + 2 * tick_gap < 2 ^ 32 -> us + tick_gap < Z.of_nat fuel ->
  runs (g0_delay_us fuel us) d (fun _ d' => ticks d + us <= ticks d' <= ticks d + us + 2 * tick_gap).
Proof.
  intros Hgood Hfit Hfuel. pose proof tick_gap_pos as Hgap. unfold g0_delay_us. destruct Hgood as [Hp Hus].
  apply runs_bind. eexists _, d. split; [by apply g0_fits|]. apply runs_bind, runs_call.
  pose proof (tim2_cnt_spec d) as Hd. destruct (TIM2_CNT d) as [c d']. destruct Hd as (-> & Hd).
  pose proof (timer_wait_exact us (ticks d) fuel d') as T. unfold timer_at in T. rewrite g0_cycles in T.
  cbn [time gap tim2_dwt_laws] in T. destruct T as (a & d2 & E & Ht); [done|lia..|].
  exists a, d2. by rewrite g0_delay_is_wait.
Qed.
Lemma g0_timer_exact us fuel d : g0_good us -> us + 2 * tick_gap < 2 ^ 32 -> us + tick_gap < Z.of_nat fuel ->
  runs (t ← g0_timer_get us; g0_timer_wait fuel t) d (fun _ d' => ticks d + us <= ticks d' <= ticks d + us + 2 * tick_gap).
Proof.
  intros Hgood Hfit Hfuel. destruct (g0_delay_us_exact us fuel d Hgood Hfit Hfuel) as (a & d' & E & Hd). exists a, d'. split; [|done].
  rewrite <- E. unfold g0_delay_us, g0_timer_get. cbv [mbind M_bind mret M_ret]. rewrite (g0_fits _ _ Hgood). unfold call.
  destruct (TIM2_CNT d) as [c d2]. by rewrite g0_wait_same, g0_delay_is_wait.
Qed.
End g0_waits.


(** A register after the writes. *)
Ltac creg := repeat first [rewrite decide_True by done | rewrite decide_False by done].

(** The set-up starts the counter that the timers read: on the STM32G0B1 TIM2 runs through all
    32 bits at 1 MHz whenever the clock is a number of MHz, on the other parts the cycle counter runs
    from 0; the bits of other users stay set. On the STM32F765 the SRAM2 is made a region without
    cache before the caches are switched on, on the others nothing is asked of MPU and caches. *)
Theorem cortex_init_correct b sram2_start SystemCoreClock w : 0 < SystemCoreClock < 2 ^ 32 -> SystemCoreClock mod 1000000 = 0 ->
  exists w', rhs_hal_cortex_init_early b sram2_start SystemCoreClock w = Ret (tt, w') /\
    vendor_calls w' = vendor_calls w ++
      (if has_mpu_setup b then
         [HAL_MPU_Disable; HAL_MPU_ConfigRegion (sram2_region sram2_start); HAL_MPU_Enable; SCB_EnableICache; SCB_EnableDCache]
       else []) /\
    mpu_cacheable (sram2_region sram2_start) = false /\
    (b = STM32G0B1xx -> SystemCoreClock / (cregs w' TIM2_PSC + 1) = 1000000 /\ cregs w' TIM2_ARR = 2 ^ 32 - 1 /\
       cregs w' TIM2_EGR = TIM_EGR_UG /\ cregs w' TIM2_CR1 = TIM_CR1_CEN /\ Z.testbit (cregs w' RCC_APBENR1) 0 = true) /\
    (b <> STM32G0B1xx -> cregs w' DWT_CYCCNT = 0 /\ Z.testbit (cregs w' DEMCR) 24 = true /\ Z.testbit (cregs w' DWT_CTRL) 0 = true) /\
    forall r i, 0 <= i -> Z.testbit (cregs w r) i = true -> r ∈ [DEMCR; DWT_CTRL; RCC_APBENR1] -> Z.testbit (cregs w' r) i = true.
Proof.
  intros Hclock Hmhz.
  assert (Hpsc : SystemCoreClock / (u32 (SystemCoreClock / 1000000 - 1) + 1) = 1000000).
  { assert (1 <= SystemCoreClock / 1000000 < 2 ^ 32) by (Z.to_euclidean_division_equations; lia).
    rewrite u32_small by lia. replace (SystemCoreClock / 1000000 - 1 + 1) with (SystemCoreClock / 1000000) by lia.
    rewrite (Z.div_mod SystemCoreClock 1000000) at 1 by lia. rewrite Hmhz, Z.add_0_r, Z.div_mul by lia. done. }
  destruct b; (eexists; split; [reflexivity|]; cbn [vendor_calls cregs has_mpu_setup]; split_and!;
    [by rewrite ?app_nil_r, <- ?app_assoc|done| | |]).
  all: try (intros [=]; fail).
  all: try (intros _; creg; rewrite ?Z.lor_spec; split_and!; try done; first [exact Hpsc|apply orb_true_r]).
  all: try (intros []; done).
  all: intros r i Hi Hr Hin; rewrite !elem_of_cons in Hin; destruct Hin as [->|[->|[->|[]%elem_of_nil]]]; creg; by rewrite ?Z.lor_spec, ?Hr.
Qed.

(** ** The theorems at work *)

(** A counter that a read takes a cycle of, at 8 MHz. *)
Record cycle_sim := mkCycles { cycles_so_far : Z }.
Definition next_cycle (d : cycle_sim) : Z * cycle_sim := (u32 (cycles_so_far d), mkCycles (cycles_so_far d + 1)).
#[global] Instance cycle_dwt : Dwt cycle_sim := {| CYCCNT := next_cycle; SystemCoreClock _ := 8000000 |}.
#[global] Program Instance cycle_dwt_laws : DwtLaws cycle_sim := {| time := cycles_so_far; gap := 1; clock_hz := 8000000 |}.
Next Obligation. done. Qed.
Next Obligation. done. Qed.
Next Obligation. intros d. cbn. split; [done|lia]. Qed.
#[global] Instance cycle_tim2 : Tim2 cycle_sim := {| TIM2_CNT := next_cycle; g0_clock _ := 64000000 |}.
#[global] Program Instance cycle_tim2_laws : Tim2Laws cycle_sim := {| ticks := cycles_so_far; tick_gap := 1; cpu_clock := 64000000 |}.
Next Obligation. done. Qed.
Next Obligation. done. Qed.
Next Obligation. intros d. cbn. split; [done|lia]. Qed.


Lemma cortex_init_correct_witness : exists w',
  rhs_hal_cortex_init_early STM32G0B1xx 0 64000000 (mkCortex (fun _ => 0) []) = Ret (tt, w') /\ 64000000 / (cregs w' TIM2_PSC + 1) = 1000000.
Proof.
  destruct (cortex_init_correct STM32G0B1xx 0 64000000 (mkCortex (fun _ => 0) []) ltac:(lia) eq_refl) as (w' & E & _ & _ & T & _).
  exists w'. split; [exact E|]. apply T. reflexivity.
Defined.
