(* ===== verification/CanOpenStart.v ===== *)
(** * The start of the CANopen service (services/can_open/can_open_srv.c, can_open_srv_i.c)

    The allocation of the service's object, its command and its record, its thread's function, and
    the functions that give the CANopen stack its timer. *)

From S2P Require Import Prelude Kernel MessageQueue EventFlag Mutex Records Log Cli Interrupt Can CanOpen.

(** The timer of the repository's rtimer module, whose source is not part of it: each call says
    whether it worked. *)
Class Rtimer (T : Type) := {
  rtimer_create : T -> bool * T;
  rtimer_delete : T -> bool * T;
  rtimer_setup : Z -> T -> bool * T;
  rtimer_get_elapsed_time : T -> Z
}.

(** The service's object, the pointer [can_open_app], the timer, the command line and the records. *)
Record co_system (S E Q X D K CB T : Type) := mkSys {
  sy_app : CanOpenApp S E Q X D K CB;
  can_open_app : Z;
  timer : T;
  sy_cli : Cli X;
  sy_records : @RHSRecord X E
}.
Arguments mkSys {S E Q X D K CB T}.
Arguments sy_app {S E Q X D K CB T}.
Arguments can_open_app {S E Q X D K CB T}.
Arguments timer {S E Q X D K CB T}.
Arguments sy_cli {S E Q X D K CB T}.
Arguments sy_records {S E Q X D K CB T}.

Section start.
Context {S : Type} `{Scheduler S} {E : Type} `{EventGroup E} {Q : Type} `{FreeRTOSQueue Q} {X : Type} `{FreeRTOSMutex X}.
Context {D : Type} `{CanDriver D can_open_callback} {K CB T : Type} `{Rtimer T}.
Abbreviation app_t := (CanOpenApp S E Q X D K CB).
Abbreviation world := (co_system S E Q X D K CB T).

Definition on_app {A} (m : M app_t A) : M world A := fun w =>
  '(a, x) ← m (sy_app w); Ret (a, mkSys x (can_open_app w) (timer w) (sy_cli w) (sy_records w)).
Definition on_timer {A} (f : T -> A * T) : M world A := fun w =>
  let '(a, t) := f (timer w) in Ret (a, mkSys (sy_app w) (can_open_app w) t (sy_cli w) (sy_records w)).
Definition with_co_cli (c : Cli X) (w : world) : world := mkSys (sy_app w) (can_open_app w) (timer w) c (sy_records w).
Definition on_co_records {A} (f : S -> @RHSRecord X E -> outcome (A * @RHSRecord X E)) : M world A := fun w =>
  '(a, r) ← f (co_os (sy_app w)) (sy_records w); Ret (a, mkSys (sy_app w) (can_open_app w) (timer w) (sy_cli w) r).

(** ** The timer of the stack *)

Context (SetAlarm : Z -> Z -> Z -> Z -> M world unit) (MS_TO_TIMEVAL : Z -> Z) (TimeDispatch : M world unit).
(** A callback the stack gives, called with no data and the number 0. *)
Context (run_callback : Z -> M world unit).

Definition timer_notify : M world unit := TimeDispatch.
Definition TimerInit : M world unit := ok ← on_timer rtimer_create; rhs_assert ok.
Definition TimerCleanup : M world unit := ok ← on_timer rtimer_delete; rhs_assert ok.
Definition StartTimerLoop (init_callback : Z) : M world unit :=
  _ ← on_timer (rtimer_setup 500);
  SetAlarm 0 init_callback (MS_TO_TIMEVAL 1500) 0.
Definition StopTimerLoop (exitfunction : Z) : M world unit :=
  _ ← on_timer rtimer_delete;
  run_callback exitfunction.
Definition setTimer (value : Z) : M world unit := ok ← on_timer (rtimer_setup value); rhs_assert ok.
Definition getElapsedTime : M world Z := gets (fun w => rtimer_get_elapsed_time (timer w)).

(** ** The service *)

(** The new object, after [memset]: what is not the service's stays. *)
Definition fresh_app (srv sdo : E) (mtx : X) (rx tx : Q) (a : app_t) : app_t :=
  mkApp (co_os a) srv 0 (repeat (0, 0) (Z.to_nat MAX_OD)) rx tx mtx sdo None (co_can a) (co_stack a) (canHandle a) (filter_list a) (co_log a).
Definition with_app (a : app_t) (w : world) : world := mkSys a (can_open_app w) (timer w) (sy_cli w) (sy_records w).
Definition with_global (p : Z) (w : world) : world := mkSys (sy_app w) p (timer w) (sy_cli w) (sy_records w).

(** [app] is what [malloc] gives; [header] and [size] are the sizes of a queue's structure and of a
    message, [cli] the address of [can_open_cli], [me] the service's task; [meanwhile] is what other
    tasks do while it waits for the command line's record. *)
Context (me app header size cli : Z) (meanwhile : M world unit).

Definition RECORD_CAN_OPEN : string := "can_open".
Definition add_co_command : M world unit :=
  w ← get;
  c ← lift (cli_add_command (co_os (sy_app w)) me (sy_cli w) (str "can_open") cli app);
  modify (with_co_cli c).
Definition can_open_app_alloc : M world Z :=
  (if app =? 0 then fault else mret tt);;
  w ← get;
  let s := co_os (sy_app w) in
  srv ← lift (rhs_event_flag_alloc s);
  sdo ← lift (rhs_event_flag_alloc s);
  mtx ← lift (rhs_mutex_alloc s (mutex_type_value RHSMutexTypeNormal));
  '(_, rx) ← lift (rhs_message_queue_alloc s header 32 size);
  '(_, tx) ← lift (rhs_message_queue_alloc s header 32 size);
  modify (with_app (fresh_app srv sdo mtx rx tx (sy_app w)));;
  TimerInit;;
  _ ← on_co_records (fun s r => rhs_record_open_locked s me (Some r) "cli");
  meanwhile;;
  _ ← on_co_records (fun s r => rhs_record_open_wait s r "cli");
  add_co_command;;
  _ ← on_co_records (fun s r => rhs_record_close s me (Some r) "cli");
  modify (with_global app);;
  mret app.

(** Freeing its parts; nothing of the structure is left. *)
Definition can_open_app_free : M world unit :=
  w ← get;
  let s := co_os (sy_app w) in let a := sy_app w in
  _ ← lift (rhs_event_flag_free s (Some (srv_event a)));
  _ ← lift (rhs_message_queue_free s (Some (rx_queue a)));
  _ ← lift (rhs_message_queue_free s (Some (tx_queue a)));
  _ ← lift (rhs_event_flag_free s (Some (sdo_event a)));
  _ ← lift (rhs_mutex_free s (Some (sdo_mutex a)));
  mret tt.

Context (round : CanOpenAppMessage * RHSHalCANFrameType -> M app_t (CanOpenAppMessage * RHSHalCANFrameType)).
(** [while (1)]: [rounds] is how many of them are looked at. *)
Fixpoint can_open_loop (rounds : nat) (locals : CanOpenAppMessage * RHSHalCANFrameType) : M world unit :=
  match rounds with
  | O => hang
  | Datatypes.S rounds => locals ← on_app (round locals); can_open_loop rounds locals
  end.
Definition can_open_service (rounds : nat) (locals : CanOpenAppMessage * RHSHalCANFrameType) : M world unit :=
  app ← can_open_app_alloc;
  _ ← on_co_records (fun s r => rhs_record_create s me (Some r) RECORD_CAN_OPEN app);
  can_open_loop rounds locals;;
  can_open_app_free.
End start.

(** ** What the start gives the service *)

Section theorems.
Context {S : Type} `{SchedulerLaws S} {E : Type} `{EventGroupLaws E} {Q : Type} `{FreeRTOSQueueLaws Q} {X : Type} `{FreeRTOSMutexLaws X}.
Context {D : Type} `{CanDriver D can_open_callback} {K CB T : Type} `{Rtimer T}.
Abbreviation world := (co_system S E Q X D K CB T).
Implicit Types w : world.

(** The state a round of the service starts from. *)
Record fresh_service (a : CanOpenApp S E Q X D K CB) : Prop := {
  no_flags : bits (srv_event a) = 0;
  no_sdo_flags : bits (sdo_event a) = 0;
  no_nodes : nodes_ok a /\ counter_od a = 0;
  empty_rx : contents (rx_queue a) = [] /\ uxLength (rx_queue a) = 32;
  empty_tx : contents (tx_queue a) = [] /\ uxLength (tx_queue a) = 32;
  free_sdo : free_mutex (sdo_mutex a);
  no_callback : sdo_callback a = None
}.

Lemma on_co_records_eq {A} (f : S -> @RHSRecord X E -> outcome (A * @RHSRecord X E)) w a r :
  f (co_os (sy_app w)) (sy_records w) = Ret (a, r) ->
  on_co_records f w = Ret (a, mkSys (sy_app w) (can_open_app w) (timer w) (sy_cli w) r).
Proof. intros Ef. unfold on_co_records. cbn [mbind outcome_bind]. by rewrite Ef. Qed.

Lemma loop_never_returns rounds (round : CanOpenAppMessage * RHSHalCANFrameType -> M (CanOpenApp S E Q X D K CB) (CanOpenAppMessage * RHSHalCANFrameType)) :
  forall l w w', can_open_loop round rounds l w <> Ret (tt, w').
Proof.
  induction rounds as [|n IH]; intros l w w'; [done|]. cbn [can_open_loop]. cbv [mbind M_bind].
  destruct (on_app (round l) w) as [[l' w1]| | |]; try done; apply IH.
Qed.

End theorems.

(** ** The theorem at work *)

(** A timer that can be created once. *)
#[global] Instance one_timer : Rtimer bool := {
  rtimer_create t := (negb t, true);
  rtimer_delete t := (t, false);
  rtimer_setup _ t := (t, t);
  rtimer_get_elapsed_time _ := 0
}.
Definition ready_registry : @RHSRecord plain_mutex group :=
  mkRecord xSemaphoreCreateMutexStatic {[ "cli"%string := mkRecordData (mkGroup 1) 64 0 ]}.
Definition a_boot : co_system os_state group fifo plain_mutex (can_world can_open_callback simple_nvic loop_bus) (list stack_call) unit bool :=
  mkSys (xl_app 7) 0 false (mkCli xSemaphoreCreateMutexStatic 0 [] ∅) ready_registry.

Definition registry_after {A} (o : outcome (A * @RHSRecord plain_mutex group)) : @RHSRecord plain_mutex group :=
  match o with Ret (_, r) => r | _ => ready_registry end.
Definition opened_1 := registry_after (rhs_record_open_locked a_task 7 (Some ready_registry) "cli").
Definition opened_2 := registry_after (rhs_record_open_wait a_task opened_1 "cli").
Definition closed_3 := registry_after (rhs_record_close a_task 7 (Some opened_2) "cli").

Definition a_boot_waited := mkSys (xl_app 7) 0 true (sy_cli a_boot) opened_1.
