(* ===== verification/ModbusStart.v ===== *)
(** * Starting the Modbus server (services/net/modbus_tcp/modbus_tcp.c, [modbus_tcp_start])

    The server's listener is moved to a port by requests to the network service ([Net]): the
    listener of the port before is stopped, one for the new port started. The two addresses
    are static arrays, which the service reads. *)

From S2P Require Import Commands Prelude Kernel EventFlag MessageQueue Mutex NetListeners Net.

Section start.
Context {S : Type} `{Scheduler S} {E : Type} `{EventGroup E} {Q : Type} `{FreeRTOSQueue Q} {X : Type} `{FreeRTOSMutex X}.
Context {K : Type} `{MongooseUrl}.
Abbreviation world := (Net S E Q X K).
Context (to_bytes : NetApiEventMessage -> message) (lock_address : gmap Z E -> Z) (meanwhile : M world unit).

(** The addresses of the arrays [current_addr] and [new_addr] and of [modbus_ev_handler]. *)
Context (current_addr new_addr modbus_ev_handler : Z).

(** [snprintf(addr, 32, "tcp://0.0.0.0:%u", port)]. *)
Definition server_uri (port : Z) : list Z := take 31 (str "tcp://0.0.0.0:" ++ printf_u port).
Definition print_uri (addr port : Z) : M world unit :=
  modify (fun w => with_listeners (<[addr := OString (server_uri port)]> (net_heap w)) (listeners w) w).

(** [current_port] is the static variable, the result its new value; [me] is the calling task and
    [api] the server's data. *)
Definition modbus_tcp_start (current_port me api port : Z) : M world Z :=
  rhs_assert (negb (api =? 0));;
  rhs_assert (0 <? port);;
  (if negb (current_port =? 0) then
     print_uri current_addr current_port;;
     net_stop_listener to_bytes lock_address meanwhile me current_addr
   else mret tt);;
  print_uri new_addr port;;
  net_start_listener to_bytes lock_address meanwhile me new_addr modbus_ev_handler api;;
  mret port.
End start.

(** ** The listener moves *)

Lemma digits_length n : forall base z, (length (digits n base z) <= n)%nat.
Proof.
  induction n as [|n IH]; intros base z; [done|]. cbn [digits]. rewrite length_app. cbn [length].
  destruct (z <? base); [cbn; lia|]. specialize (IH base (z / base)). lia.
Qed.
(** Nothing of the address is cut off. *)
Lemma server_uri_whole port : server_uri port = str "tcp://0.0.0.0:" ++ printf_u port.
Proof.
  unfold server_uri. apply take_ge. rewrite length_app. pose proof (digits_length 10 10 port) as Hl.
  unfold printf_u. cbn [length str]. change (length (str "tcp://0.0.0.0:")) with 14%nat. lia.
Qed.

Section theorems.
Context {S : Type} `{SchedulerLaws S} {E : Type} `{EventGroupLaws E} {Q : Type} `{FreeRTOSQueueLaws Q} {X : Type} `{FreeRTOSMutex X}.
Context {K : Type} `{MongooseUrlLaws} (opened : K -> list opened_uri).
Abbreviation world := (Net S E Q X K).
Context (mg_mgr_poll : M world unit) (mg_listen mg_http_listen : list Z -> Z -> Z -> M world unit).
Context (poll_returns : forall w, task_runs (net_os w) -> runs mg_mgr_poll w (fun _ => mg_step opened [] w)).
Context (listen_opens : forall s fn ctx w, task_runs (net_os w) ->
  runs (mg_listen s fn ctx) w (fun _ => mg_step opened [OpenedTcp s fn ctx] w)).
Context (http_listen_opens : forall s fn ctx w, task_runs (net_os w) ->
  runs (mg_http_listen s fn ctx) w (fun _ => mg_step opened [OpenedHttp s fn ctx] w)).
Context (malloc : heap -> Z) (Hmalloc : malloc_ok malloc).
Context (to_bytes : NetApiEventMessage -> message) (of_bytes : message -> NetApiEventMessage).
Context (lock_address : gmap Z E -> Z) (Haddress : forall l, lock_address l <> 0 /\ l !! lock_address l = None).
Context (Hcodec : forall m, of_bytes (to_bytes m) = m).
Context (current_addr new_addr modbus_ev_handler : Z).

Implicit Types w : world.

(** While the caller waits, the service has a turn. *)
Definition a_turn (locals : NetApiEventMessage) : M world unit :=
  _ ← turns mg_mgr_poll mg_listen mg_http_listen malloc to_bytes of_bytes 1 locals; mret tt.
Abbreviation start locals := (modbus_tcp_start to_bytes lock_address (a_turn locals) current_addr new_addr modbus_ev_handler).

(** The arrays are there and are not the list's own memory. *)
Definition statics (w : world) (ls : list entry) : Prop :=
  current_addr <> new_addr /\ string_ready (net_heap w) ls current_addr /\ string_ready (net_heap w) ls new_addr.
(** The queue is empty and has room. *)
Definition idle (w : world) : Prop := contents (net_queue w) = [] /\ 0 < uxLength (net_queue w).

Lemma print_uri_spec addr port w ls v : represents opened w ls v -> string_ready (net_heap w) ls addr ->
  exists w', print_uri addr port w = Ret (tt, w') /\ represents opened w' ls v /\
    net_heap w' = <[addr := OString (server_uri port)]> (net_heap w) /\ net_queue w' = net_queue w /\ net_thread w' = net_thread w.
Proof.
  intros [T [Hc Hn] R A O] [_ Hown]. eexists. split; [reflexivity|]. split_and!; try done.
  split; try done. cbn. split; [by apply chain_insert|done].
Qed.

(** One request to the idle service: it is served in its turn. *)
Lemma request_idle locals me ev w ls v : represents opened w ls v -> me <> net_thread w -> idle w -> valid_event (net_heap w) ls ev ->
  runs (api_call to_bytes lock_address (a_turn locals) me ev) w (fun _ w' => exists ls', represents opened w' ls' (served (net_heap w) ev v) /\
    others_kept (net_heap w) (net_heap w') ls ls' /\ net_thread w' = net_thread w).
Proof.
  intros Hr Hme [Hq Hroom] Hv.
  pose proof (request_served opened mg_mgr_poll mg_listen mg_http_listen poll_returns listen_opens http_listen_opens malloc Hmalloc
    to_bytes of_bytes lock_address Haddress Hcodec me ev locals w ls v Hr Hme) as T. rewrite Hq in T. cbv zeta in T.
  change (length [] + 1)%nat with 1%nat in T. fold (a_turn locals) in T.
  eapply runs_mono; [exact (T ltac:(cbn; lia) (Forall_nil_2 _) Hv)|]. intros [] w' (ls' & R & O & Ht & _). by exists ls'.
Qed.

Lemma statics_kept w w' ls ls' : others_kept (net_heap w) (net_heap w') ls ls' -> statics w ls -> statics w' ls'.
Proof.
  intros Ho (Hne & H1' & H2'). split; [done|]. split; [by apply (others_string _ _ _ _ _ Ho)|by apply (others_string _ _ _ _ _ Ho)].
Qed.

(** Event handlers of mongoose put no requests of their own in the queue. *)
Definition quiet {A} (m : M world A) : Prop := forall q, preserves (fun w => net_queue w = q) m.
Context (poll_quiet : quiet mg_mgr_poll).

Lemma print_quiet l : quiet (net_print l).
Proof. intros q. by apply preserves_modify. Qed.
Lemma print_lines_quiet l : quiet (print_lines l).
Proof.
  intros q. induction l as [|x l IH]; cbn [print_lines]; [apply preserves_ret|]. apply preserves_bind; [apply print_quiet|done].
Qed.
Lemma uri_at_quiet uri : quiet (uri_at uri).
Proof. intros q w s w' Hq. unfold uri_at. destruct (read_string (net_heap w) uri); try done. by intros [= <- <-]. Qed.
Lemma remove_quiet uri : quiet (remove_listener uri).
Proof.
  intros q w b w' Hq. unfold remove_listener. destruct (net_listeners_remove (net_heap w) (listeners w) uri) as [[[b' h] p]| | |]; try done.
  by intros [= <- <-].
Qed.
Lemma rst_tcp_quiet uri : quiet (rst_tcp mg_mgr_poll uri).
Proof.
  intros q. unfold rst_tcp. apply preserves_bind; [apply uri_at_quiet|intros s]. cbn zeta. apply preserves_if; [|apply print_quiet].
  apply preserves_bind; [apply preserves_get|intros w]. destruct (close_listening _ _) as [l out].
  apply preserves_bind; [by apply preserves_modify|intros _]. apply preserves_bind; [apply print_lines_quiet|intros _].
  apply preserves_bind; [apply poll_quiet|intros _]. apply preserves_bind; [apply remove_quiet|intros [|]]; [apply preserves_ret|].
  apply preserves_bind; [apply uri_at_quiet|intros s']. apply print_quiet.
Qed.
Lemma open_lock_quiet k : quiet (open_lock k).
Proof.
  intros q w a w' Hq. unfold open_lock, lock_at. destruct (net_locks w !! k); [|done]. cbn [mbind outcome_bind].
  destruct (api_lock_unlock (net_os w) (Some _)) as [[[r e'] s]| | |]; try done. cbn. by intros [= <- <-].
Qed.

(** The turn that serves a stop of a listener leaves the queue empty. *)
Lemma turn_idle locals k uri w r w' : contents (net_queue w) = [to_bytes (mkNetMessage k (NetApiEventTypeRstTcp uri))] -> 0 < uxLength (net_queue w) ->
  a_turn locals w = Ret (r, w') -> idle w'.
Proof.
  intros Hq Hroom E1. unfold a_turn in E1. cbn [turns] in E1. apply bind_returns in E1 as ([go m] & w1 & E1 & E2).
  injection E2 as <- <-. apply bind_returns in E1 as ([go' m'] & w2 & E1 & E2).
  assert (w1 = w2) as -> by (destruct go'; cbv in E2; congruence). clear E2. unfold net_round in E1.
  apply bind_returns in E1 as ([] & w3 & E3 & E1). pose proof (poll_quiet (net_queue w) w tt w3 eq_refl E3) as Hq3.
  apply bind_returns in E1 as (o & w4 & E4 & E1). unfold next_message in E4. rewrite Hq3 in E4.
  destruct (MessageQueue.get_spec (net_os w3) (net_queue w) (to_bytes locals) 0 _ [] ltac:(by left) Hq) as (q & Eg & Hc & Hs & _).
  rewrite Eg in E4. cbn [mbind outcome_bind] in E4. injection E4 as <- <-. rewrite Hcodec in E1. cbn [msg_event msg_lock serve] in E1.
  apply bind_returns in E1 as ([] & w5 & E5 & E1). apply (rst_tcp_quiet uri q) in E5; [|done].
  apply bind_returns in E1 as ([] & w6 & E6 & E1). injection E1 as <- <- <-.
  assert (Hq6 : net_queue w6 = q). { destruct (negb (k =? 0)); [by apply (open_lock_quiet k q) in E6|by injection E6 as <-]. }
  unfold idle. rewrite Hq6, Hs. done.
Qed.
Lemma locked_same k (w : world) b w' : lock_is_locked k w = Ret (b, w') -> w' = w.
Proof.
  unfold lock_is_locked, lock_at. destruct (net_locks w !! k); [|done]. cbn [mbind outcome_bind].
  destruct (api_lock_is_locked (net_os w) (Some _)) as [c| | |]; try done. cbn. congruence.
Qed.
Lemma fresh_locked k (w : world) : task_runs (net_os w) -> net_locks w !! k = Some xEventGroupCreateStatic ->
  lock_is_locked k w = Ret (true, w).
Proof.
  intros [Ht _] Hk. destruct (task_not_isr _ Ht) as [Hi _]. unfold lock_is_locked, lock_at. rewrite Hk. cbn [mbind outcome_bind].
  rewrite lock_state by done. by rewrite (proj1 created).
Qed.
(** A caller who waits for an opened lock leaves the queue as the wait found it. *)
Lemma wait_idle meanwhile k (w : world) r w' : task_runs (net_os w) -> net_locks w !! k = Some xEventGroupCreateStatic ->
  (forall r1 w1, meanwhile w = Ret (r1, w1) -> idle w1) ->
  api_lock_wait_unlock_and_free meanwhile k w = Ret (r, w') -> idle w'.
Proof.
  intros Ht Hk Hidle E1. unfold api_lock_wait_unlock_and_free in E1. rewrite (bind_eq _ _ _ _ _ (fresh_locked k w Ht Hk)) in E1.
  apply bind_returns in E1 as ([] & w1 & Em & E1). apply Hidle in Em.
  apply bind_returns in E1 as (b & w2 & E2 & E1). apply locked_same in E2 as ->. destruct b; [done|].
  unfold lock_at in E1. destruct (net_locks w1 !! k) as [e|]; [|done]. cbn [mbind outcome_bind] in E1.
  destruct (api_lock_wait_unlock (net_os w1) (Some e)) as [[r' e']| | |]; try done. cbn [mbind outcome_bind] in E1.
  destruct (rhs_event_flag_free (net_os w1) (Some e')) as [[]| | |]; try done. injection E1 as <- <-. exact Em.
Qed.
Lemma stop_idle locals me uri w r w' : task_runs (net_os w) -> me <> net_thread w -> idle w ->
  net_stop_listener to_bytes lock_address (a_turn locals) me uri w = Ret (r, w') -> idle w'.
Proof.
  intros Ht Hme [Hq Hroom] E1.
  pose proof (api_call_waits to_bytes lock_address (a_turn locals) me (NetApiEventTypeRstTcp uri) w Hme ltac:(done)) as T.
  cbn [api_call] in T. rewrite T in E1. clear T. rewrite (bind_eq _ _ _ _ _ (new_lock_spec lock_address w Ht)) in E1.
  set (k := lock_address (net_locks w)) in *. set (w1 := with_net_locks _ w) in E1.
  destruct (put_message_room to_bytes (a_turn locals) (mkNetMessage k (NetApiEventTypeRstTcp uri)) w1 Ht
    ltac:(subst w1; cbn; rewrite Hq; done)) as (q & Ep & Hc & Hl).
  rewrite (bind_eq _ _ _ _ _ Ep) in E1. cbn [w1 with_net_locks net_queue] in Hc, Hl. rewrite Hq in Hc. cbn [app] in Hc.
  revert E1. apply wait_idle; [exact Ht|subst w1; apply lookup_insert_eq|]. intros r1 w2. apply (turn_idle _ k uri); [exact Hc|].
  cbn [with_net_queue net_queue]. rewrite Hl. exact Hroom.
Qed.

(** C17: [modbus_tcp_start] comes back when the service is idle at its two requests. The first start
    registers one listener for the port with the handler and the server's data; a later start first
    removes the listener of the port before: in the service's list the server's listener
    has moved, other listeners and the addresses stay as they are. With no data or port 0 it
    stops the system. *)
Theorem modbus_start_moves locals current_port me api port w ls v :
  represents opened w ls v -> me <> net_thread w -> idle w -> statics w ls ->
  mg_aton_host (server_uri current_port) = true ->
  (api = 0 \/ port <= 0 -> start locals current_port me api port w = Crash "Assert") /\
  (api <> 0 -> 0 < port < 65536 -> runs (start locals current_port me api port) w (fun p w' => p = port /\ exists ls',
     represents opened w' ls' (mkView
       ((if current_port =? 0 then v_registered v else remove_first (str "tcp://0.0.0.0:" ++ printf_u current_port) (v_registered v)) ++
          [mkReg NetListenerTypeTcp (str "tcp://0.0.0.0:" ++ printf_u port) modbus_ev_handler api])
       (v_addresses v) (v_opened v ++ [OpenedTcp (str "tcp://0.0.0.0:" ++ printf_u port) modbus_ev_handler api])) /\
     statics w' ls')).
Proof.
  intros Hr Hme Hidle Hst Haton. split.
  { intros [->|Hp]; [done|]. unfold modbus_tcp_start. destruct (Z.eqb_spec api 0), (Z.ltb_spec 0 port); (lia || done). }
  intros Hapi Hport. unfold modbus_tcp_start. destruct (Z.eqb_spec api 0); [done|]. destruct (Z.ltb_spec 0 port); [|lia].
  cbn [negb rhs_assert]. apply runs_bind, runs_ret, runs_bind, runs_ret, runs_bind.
  assert (Hfirst : runs (if negb (current_port =? 0) then print_uri current_addr current_port;;
      net_stop_listener to_bytes lock_address (a_turn locals) me current_addr else mret tt) w (fun _ w1 => exists ls1,
    represents opened w1 ls1 (mkView (if current_port =? 0 then v_registered v else remove_first (server_uri current_port) (v_registered v))
      (v_addresses v) (v_opened v)) /\ statics w1 ls1 /\ idle w1 /\ net_thread w1 = net_thread w)).
  { destruct (current_port =? 0); cbn [negb]; [apply runs_ret; exists ls; by destruct v|]. apply runs_bind.
    destruct (print_uri_spec current_addr current_port w ls v Hr (proj1 (proj2 Hst))) as (w1 & E1 & R1 & Eh & Eq & Et).
    exists tt, w1. split; [done|].
    assert (Hst1 : statics w1 ls).
    { destruct Hst as (Hne & [[s Hs] Ho] & [[s' Hs'] Ho']). unfold statics, string_ready. rewrite Eh, lookup_insert_eq, lookup_insert_ne by done. split_and!; eauto. }
    assert (Hv1 : valid_event (net_heap w1) ls (NetApiEventTypeRstTcp current_addr)) by exact (proj1 (proj2 Hst1)).
    destruct (request_idle locals me _ w1 ls v R1 ltac:(congruence) ltac:(unfold idle; by rewrite Eq) Hv1) as ([] & w2 & E2 & ls2 & R2 & O2 & T2).
    exists tt, w2. split; [exact E2|]. exists ls2. split_and!; [|by eapply statics_kept| |congruence].
    - cbn [served] in R2. unfold string_in in R2. rewrite Eh, lookup_insert_eq, Haton in R2. exact R2.
    - eapply stop_idle; [exact (r_task _ _ _ _ R1)| |unfold idle; by rewrite Eq|exact E2]. congruence. }
  eapply runs_mono; [exact Hfirst|]. intros [] w1 (ls1 & R1 & Hst1 & Hidle1 & T1).
  apply runs_bind. destruct (print_uri_spec new_addr port w1 ls1 _ R1 (proj2 (proj2 Hst1))) as (w2 & E2 & R2 & Eh & Eq & Et).
  exists tt, w2. split; [done|]. apply runs_bind.
  assert (Hst2 : statics w2 ls1).
  { destruct Hst1 as (Hne & [[s Hs] Ho] & [[s' Hs'] Ho']). unfold statics, string_ready. rewrite Eh, lookup_insert_eq, lookup_insert_ne by done. split_and!; eauto. }
  destruct (request_idle locals me (NetApiEventTypeSetTcp new_addr modbus_ev_handler api) w2 ls1 _ R2 ltac:(congruence)
    ltac:(unfold idle; by rewrite Eq) (proj2 (proj2 Hst2))) as ([] & w3 & E3 & ls3 & R3 & O3 & _).
  exists tt, w3. split; [exact E3|]. apply runs_ret. split; [done|]. exists ls3. split; [|by eapply statics_kept].
  cbn [served v_registered v_addresses v_opened] in R3. unfold string_in in R3. rewrite Eh, lookup_insert_eq in R3.
  rewrite !server_uri_whole in R3. exact R3.
Qed.
End theorems.

(** ** The theorem at work *)

(** The service with a listener and the server's at port 502, moved to port 1502. *)
Definition moving_heap : heap :=
  {[ 1 := OListener (mkListener NetListenerTypeTcp 2 4096 7 3); 2 := OString (a_uri 50);
     3 := OListener (mkListener NetListenerTypeTcp 4 5000 64 0); 4 := OString (server_uri 502);
     9 := OString []; 10 := OString [] ]}.
Definition moving_list : list entry :=
  [(1, 2, a_registration 50); (3, 4, mkReg NetListenerTypeTcp (server_uri 502) 5000 64)].
Definition moving_state : plain_net := let w := net_state [] ∅ in with_listeners moving_heap 1 w.

Lemma moving_represents : represents all_opened moving_state moving_list (mkView (map snd moving_list) (1, 2, 3) []).
Proof.
  destruct (net_state_represents [] ∅) as [T _ _ A O]. split; [exact T| |reflexivity|exact A|exact O]. split.
  - cbn. split; [done|]. split; [done|]. split; [done|]. eexists. split; [done|]. split; [done|]. split; [done|]. split; [done|].
    eexists. by split.
  - cbn. repeat constructor; set_solver.
Qed.
Lemma moving_statics : statics 9 10 moving_state moving_list.
Proof.
  assert (Hnot : forall a, 4 < a -> a ∉ owned moving_list).
  { intros a Ha Hin. cbn in Hin. rewrite !elem_of_cons in Hin. destruct Hin as [->|[->|[->|[->|[]%elem_of_nil]]]]; lia. }
  unfold statics, string_ready. split_and!; [done|by exists []|apply Hnot; lia|by exists []|apply Hnot; lia].
Qed.

Abbreviation plain_turn := (a_turn plain_poll plain_listen plain_http_listen next_address net_bytes net_unbytes (mkNetMessage 0 NetApiEventTypeStop)).
Lemma modbus_start_moves_witness :
  runs (modbus_tcp_start net_bytes next_lock plain_turn 9 10 5000 502 6 64 1502) moving_state (fun p w' => p = 1502 /\ exists ls',
    represents all_opened w' ls' (mkView [a_registration 50; mkReg NetListenerTypeTcp (str "tcp://0.0.0.0:1502") 5000 64] (1, 2, 3)
      [OpenedTcp (str "tcp://0.0.0.0:1502") 5000 64])).
Proof.
  destruct (modbus_start_moves all_opened plain_poll plain_listen plain_http_listen plain_poll_returns
    (fun s f c w _ => open_uri_step _ w) (fun s f c w _ => open_uri_step _ w) next_address next_address_ok
    net_bytes net_unbytes next_lock next_lock_ok net_unbytes_bytes 9 10 5000 (fun q => preserves_ret _ _) (mkNetMessage 0 NetApiEventTypeStop) 502 6 64 1502
    moving_state moving_list _ moving_represents) as [_ T].
  - discriminate.
  - split; reflexivity.
  - exact moving_statics.
  - reflexivity.
  - eapply runs_mono; [apply T; lia|]. intros p w' (-> & ls' & R & _). split; [reflexivity|]. exists ls'. exact R.
Defined.
