(* ===== verification/StartUp.v ===== *)
(** * Start-up (rhs.c, hal/rhs_hal.c, services/loader/loader.c)

    [rhs_init] composes the first operations of the registry, the threads and the log; the loader
    runs the tests and the start hooks the build registered; [rhs_hal_init] is the order in
    which the drivers start. *)

From S2P Require Import Prelude Kernel EventFlag MessageQueue Mutex Records Thread Log.

(** ** rhs_init *)

Section init.
Context {S : Type} `{Scheduler S} {X : Type} `{FreeRTOSMutex X} {E : Type} `{EventGroup E}.
Context {T : Type} `{Tasks T} {Q : Type} `{FreeRTOSQueue Q}.

(** The static variables of record.c, thread.c and log.c. *)
Record boot := mkBoot { b_record : option (@RHSRecord X E); b_threads : @Thread.world T Q; b_log : log X }.

(** Before [rhs_init]: no registry, no queue, no mutex of the log. *)
Definition cold (t : T) : boot := mkBoot None (mkWorld ∅ t None) initial_log.

(** [header] and [word] are the sizes of a queue's structure and of a pointer. *)
Definition rhs_init (s : S) (header word : Z) (b : boot) : outcome boot :=
  r ← rhs_record_init s;
  t ← rhs_thread_init s (b_threads b) header word;
  l ← rhs_log_init s (b_log b);
  Ret (mkBoot (Some r) t l).
End init.
Arguments boot : clear implicits.

(** ** rhs_hal_init *)

Inductive hal_feature :=
  | RHS_HAL_SPEAKER | RHS_HAL_FLASH_EX | RHS_HAL_RTC | RHS_HAL_IO | RHS_HAL_I2C | RHS_HAL_RANDOM | RHS_HAL_USB | RHS_HAL_ETH.
Section hal.
(** The drivers' [rhs_hal_..._init] on the state of the whole device, and the features built in;
    what each does is modelled in its own component. *)
Context {W : Type} (cortex_init_early interrupt_init : M W unit) (feature_init : hal_feature -> M W unit).
Context (built : hal_feature -> bool).

Definition if_built (f : hal_feature) : M W unit := if built f then feature_init f else mret tt.
Definition rhs_hal_init : M W unit :=
  cortex_init_early;;
  interrupt_init;;
  if_built RHS_HAL_SPEAKER;;
  if_built RHS_HAL_FLASH_EX;;
  if_built RHS_HAL_RTC;;
  if_built RHS_HAL_IO;;
  if_built RHS_HAL_I2C;;
  if_built RHS_HAL_RANDOM;;
  if_built RHS_HAL_USB;;
  if_built RHS_HAL_ETH.
End hal.

(** ** The loader *)

Section loader.
Context {S : Type} `{Scheduler S} {Q : Type} `{FreeRTOSQueue Q} {W : Type} (os : W -> S).
(** The functions of [RHS_TESTS] and [RHS_START_UP], which the build writes. *)
Context (RHS_TESTS RHS_START_UP : list (M W unit)).

Definition loader_alloc (header : Z) : M W Q := fun w =>
  '(_, q) ← rhs_message_queue_alloc (os w) header 1 1; Ret (q, w).
Definition run_all (l : list (M W unit)) : M W unit := foldr (fun f rest => f;; rest) (mret tt) l.
(** [for (;;)]: [rounds] is how many of them are looked at. *)
Fixpoint loader_loop (rounds : nat) (queue : Q) (message : message) : M W unit :=
  match rounds with
  | O => hang
  | Datatypes.S rounds => fun w =>
      '(_, m, queue) ← rhs_message_queue_get (os w) (Some queue) (Some message) RHSWaitForever;
      loader_loop rounds queue (default [] m) w
  end.
(** [loader] is what [malloc] gives. *)
Definition loader_service (rounds : nat) (loader header : Z) (message : message) : M W unit :=
  queue ← loader_alloc header;
  (if loader =? 0 then fault else mret tt);;
  run_all RHS_TESTS;;
  run_all RHS_START_UP;;
  loader_loop rounds queue message.
End loader.

(** ** What start-up establishes *)

Section theorems.
Context {S : Type} `{SchedulerLaws S} {X : Type} `{FreeRTOSMutexLaws X} {E : Type} `{EventGroupLaws E}.
Context {T : Type} `{TasksLaws T} {Q : Type} `{FreeRTOSQueueLaws Q}.

Lemma no_tags_good : good_tags (replicate MAX_TAG_COUNT None).
Proof. intros t Ht. unfold present in Ht. by apply elem_of_replicate in Ht as [? _]. Qed.

(** A free registry answers every name. *)
Lemma empty_registry_answers s me (q : X) n : in_task_ctx s me -> free_mutex q ->
  exists r, rhs_record_exists s me (Some (mkRecord (E := E) q ∅)) n = Ret (false, r).
Proof.
  intros [Hi Hme] Hq. assert (Hm : RHS_IS_IRQ_MODE s = false) by (unfold RHS_IS_IRQ_MODE; by rewrite Hi).
  unfold rhs_record_exists, locked, rhs_record_lock, rhs_record_unlock.
  destruct (acquire_free s me q RHSWaitForever Hm Hme Hq) as (q1 & E1 & Hq1). cbn [Records.mutex records]. rewrite E1.
  cbn [mbind outcome_bind]. destruct (decide _); [|done]. cbn [mbind outcome_bind].
  destruct (release_held s me q1 Hm Hme Hq1) as (q2 & E2 & _). rewrite E2. cbn. by eexists.
Qed.
(** Without its mutex the log can print nothing. *)
Lemma cold_log_crashes s me level tag msg : level <= level_code RHSLogLevelDebug -> chars tag ->
  rhs_log_print_format s me (initial_log (Q := X)) level (cstring tag) msg = Crash "Assert".
Proof.
  intros Hl Ht. unfold rhs_log_print_format. cbn [log_level initial_log exclude_tag Log.mutex]. unfold RHS_LOG_LEVEL_DEFAULT.
  destruct (Z.ltb_spec (level_code RHSLogLevelDebug) level); [lia|].
  destruct (find_tag_spec (replicate MAX_TAG_COUNT None) tag no_tags_good Ht) as (r & E1 & Hr).
  change (table_of (replicate MAX_TAG_COUNT None)) with (@replicate (option (list Z)) MAX_TAG_COUNT None) in E1. rewrite E1.
  cbn [mbind outcome_bind]. destruct r as [i|]; [|destruct (level_style level), (RHS_IS_ISR s); done].
  exfalso. apply lookup_replicate in Hr. by destruct Hr.
Qed.

(** C4: [rhs_init], called outside interrupts, gives the state every component's own invariant
    starts from: an empty registry in a reachable state, no thread and an empty scrubber queue of
    eight places in a reachable state, the log with no tag excluded and its mutex free; from then
    on a task's message at an enabled level is printed and a record can be looked for. Before it
    the registry and the log stop the system, and so does a call of it from an interrupt. *)
Theorem rhs_init_ready (s : S) (t : T) header word : 0 < header -> in_u32 word -> 0 < word -> alive t = ∅ ->
  let c := cold (X := X) (E := E) (Q := Q) t in
  (forall s' me name, rhs_record_exists s' me (b_record c) name = Crash "Assert") /\
  (forall s' me level tag msg, level <= level_code RHSLogLevelDebug -> chars tag ->
     rhs_log_print_format s' me (b_log c) level (cstring tag) msg = Crash "Assert") /\
  (RHS_IS_IRQ_MODE s = true -> rhs_init s header word c = Crash "Assert") /\
  (rhs_kernel_is_irq_or_masked s = false -> exists b,
    rhs_init s header word c = Ret b /\
    (exists r, b_record b = Some r /\ Records.reachable (S := S) (mkConfig r [] []) /\ records r = ∅) /\
    treachable (S := S) (b_threads b, ∅) /\ threads (b_threads b) = ∅ /\
    (exists q, scrub_queue (b_threads b) = Some q /\ contents q = [] /\ uxLength q = 8) /\
    log_ok (b_log b) (replicate MAX_TAG_COUNT None) /\
    forall s' me, RHS_IS_ISR s' = false -> me <> 0 ->
      (forall name, exists r, rhs_record_exists s' me (b_record b) name = Ret (false, r)) /\
      (forall level tag msg, level <= level_code RHSLogLevelDebug -> chars tag -> exists l st,
         rhs_log_print_format s' me (b_log b) level (cstring tag) msg = Ret (Some l, st) /\ text l = msg /\
         log_ok st (replicate MAX_TAG_COUNT None))).
Proof.
  intros Hh Hw Hw0 Ha c. split; [done|]. split; [intros; by apply cold_log_crashes|]. split.
  { intros Hi. unfold rhs_init, rhs_record_init, rhs_mutex_alloc. by rewrite Hi. }
  intros Hm. assert (Hi : RHS_IS_IRQ_MODE s = false) by (unfold rhs_kernel_is_irq_or_masked in Hm; by destruct (RHS_IS_IRQ_MODE s)).
  destruct (create_spec (Q := Q) 8 word ltac:(lia)) as (Hc & Hl & _).
  assert (Er : rhs_record_init (Q := X) (E := E) s = Ret (mkRecord xSemaphoreCreateMutexStatic ∅)).
  { unfold rhs_record_init, rhs_mutex_alloc. by rewrite Hi. }
  assert (Et : rhs_thread_init (Q := Q) s (mkWorld ∅ t None) header word = Ret (mkWorld ∅ t (Some (xQueueCreateStatic 8 word)))).
  { unfold rhs_thread_init, rhs_message_queue_alloc. rewrite Hm. by destruct (Z.ltb_spec 0 word); [|lia]. }
  assert (Eg : rhs_log_init (Q := X) s initial_log = Ret (mkLog RHS_LOG_LEVEL_DEFAULT (replicate MAX_TAG_COUNT None) (Some xSemaphoreCreateRecursiveMutexStatic))).
  { unfold rhs_log_init, rhs_mutex_alloc. by rewrite Hi. }
  destruct created_normal as (N1 & N2 & N3). destruct created_recursive as (R1 & R2 & R3).
  eexists. split. { unfold rhs_init. cbn [b_threads b_log c cold]. rewrite Er, Et. cbn [mbind outcome_bind]. by rewrite Eg. }
  cbn [b_record b_threads b_log]. set (lg := mkLog _ _ _).
  assert (Hlog : log_ok lg (replicate MAX_TAG_COUNT None)) by (split; [done|split; [exact no_tags_good|by eexists]]).
  split; [eexists; split; [done|]; split; [by eapply (reach_init s)|done]|].
  split; [by eapply (t_init s t _ header word)|]. split; [done|]. split; [by eexists|]. split; [exact Hlog|].
  intros s' me Hs' Hme. split.
  - intros name. apply empty_registry_answers; [|done]. split; [|done]. unfold RHS_IS_ISR, RHS_IS_IRQ_MODE in Hs'.
    apply orb_false_iff in Hs' as [Hs' _]. by apply negb_false_iff, Z.eqb_eq in Hs'.
  - intros level tag msg Hle Ht. destruct (print_spec s' me lg _ level tag msg Hs' Hme Hlog Ht) as (o & st & E1 & Hst & _ & Ho).
    destruct o as [l|]; [exists l, st; split; [done|]; by destruct Ho as (_ & _ & ? & _)|].
    exfalso. destruct Ho as [Ho|Ho]; [cbn [log_level lg] in Ho; unfold RHS_LOG_LEVEL_DEFAULT in Ho; lia|].
    unfold present in Ho. by apply elem_of_replicate in Ho as [? _].
Qed.

Section the_loader.
Context {W : Type} (os : W -> S) (RHS_TESTS RHS_START_UP : list (M W unit)).

(** The loop takes what comes and never ends. *)
Lemma loader_loop_hangs rounds : forall (queue : Q) m w, loader_loop os rounds queue m w = Hang.
Proof.
  induction rounds as [|n IH]; intros queue m w; [done|]. cbn [loader_loop].
  assert (exists r m' q', rhs_message_queue_get (os w) (Some queue) (Some m) RHSWaitForever = Ret (r, m', q')) as (r & m' & q' & ->).
  { unfold rhs_message_queue_get. destruct (rhs_kernel_is_irq_or_masked (os w)); [by eexists _, _, _|].
    destruct (xQueueReceive queue RHSWaitForever) as [[r x] q']. destruct (negb (r =? pdPASS)); by eexists _, _, _. }
  exact (IH _ _ _).
Qed.
Lemma run_all_app (l1 l2 : list (M W unit)) w : run_all (l1 ++ l2) w = (run_all l1;; run_all l2) w.
Proof.
  revert w. induction l1 as [|f l IH]; intros w; [done|]. cbn [run_all foldr app]. cbv [mbind M_bind].
  destruct (f w) as [[[] w1]| | |]; [|done|done|done]. exact (IH w1).
Qed.

(** The loader runs every test and then every start hook, each once and in the order of the two
    tables, and then waits for ever: one that stops the system or does not come back keeps those after
    it from running, and the loader never returns. Without memory it writes through NULL. *)
Theorem loader_runs_all rounds header message w : rhs_kernel_is_irq_or_masked (os w) = false ->
  loader_service (Q := Q) os RHS_TESTS RHS_START_UP rounds 0 header message w = Fault /\
  forall loader, loader <> 0 ->
    loader_service (Q := Q) os RHS_TESTS RHS_START_UP rounds loader header message w =
      match run_all (RHS_TESTS ++ RHS_START_UP) w with Ret _ => Hang | Crash e => Crash e | Fault => Fault | Hang => Hang end.
Proof.
  intros Hm. assert (Ea : loader_alloc (Q := Q) os header w = Ret (xQueueCreateStatic 1 1, w)).
  { unfold loader_alloc, rhs_message_queue_alloc. by rewrite Hm. }
  unfold loader_service. split; [by rewrite (bind_eq _ _ _ _ _ Ea)|]. intros loader Hl. rewrite (bind_eq _ _ _ _ _ Ea).
  destruct (Z.eqb_spec loader 0); [done|]. rewrite run_all_app, (bind_eq _ _ w tt w) by done. cbv [mbind M_bind].
  destruct (run_all RHS_TESTS w) as [[[] w1]| | |]; try done. destruct (run_all RHS_START_UP w1) as [[[] w2]| | |]; try done.
  apply loader_loop_hangs.
Qed.
End the_loader.
End theorems.

(** ** The theorems at work *)

Definition no_tasks : task_set := mkTasks ∅ ∅.
Lemma rhs_init_ready_witness : exists b,
  rhs_init (X := plain_mutex) (E := group) (Q := fifo) a_task 16 4 (cold no_tasks) = Ret b /\
  treachable (S := os_state) (b_threads b, ∅) /\
  (exists r, rhs_record_exists (Q := plain_mutex) (E := group) a_task 7 (b_record b) "cli" = Ret (false, r)) /\
  exists l st, rhs_log_print_format a_task 7 (b_log b) 4 (cstring (str "net")) [] = Ret (Some l, st).
Proof.
  destruct (rhs_init_ready (X := plain_mutex) (E := group) (Q := fifo) a_task no_tasks 16 4) as (_ & _ & _ & T);
    [reflexivity|split; [discriminate|reflexivity]|reflexivity|reflexivity|].
  destruct (T eq_refl) as (b & E1 & _ & Ht & _ & _ & _ & Hs). exists b. split; [exact E1|]. split; [exact Ht|].
  destruct (Hs a_task 7 eq_refl ltac:(discriminate)) as [Hr Hl]. split; [exact (Hr "cli"%string)|].
  destruct (Hl 4 (str "net") [] ltac:(discriminate) (proj1 net_tag_short)) as (l & st & E2 & _). exists l, st. exact E2.
Defined.

(** Two tests and three hooks that note that they ran; the second hook stops the system. *)
Definition note (n : Z) : M (list Z) unit := modify (fun l => l ++ [n]).
Lemma awake : rhs_kernel_is_irq_or_masked a_task = false.
Proof. reflexivity. Qed.
Lemma loader_runs_all_witness :
  loader_service (Q := fifo) (fun _ => a_task) [note 1; note 2] [note 3; note 4] 5 64 16 [] [] = Hang /\
  run_all ([note 1; note 2] ++ [note 3; note 4]) [] = Ret (tt, [1; 2; 3; 4]) /\
  loader_service (Q := fifo) (fun _ => a_task) [note 1; note 2] [note 3; crash "Assert"; note 4] 5 64 16 [] [] = Crash "Assert".
Proof.
  destruct (loader_runs_all (Q := fifo) (fun _ => a_task) [note 1; note 2] [note 3; note 4] 5 16 [] [] awake) as [_ T1].
  destruct (loader_runs_all (Q := fifo) (fun _ => a_task) [note 1; note 2] [note 3; crash "Assert"; note 4] 5 16 [] [] awake) as [_ T2].
  split; [exact (T1 64 ltac:(discriminate))|]. split; [reflexivity|exact (T2 64 ltac:(discriminate))].
Defined.
