(* ===== verification/OnTarget.v ===== *)
(** * The tests that run on the device (applications/tests/rhs_tests)

    Three commands test the flash, the heap and the registry on the device itself. They are
    modelled as the programs they are, on the components they test: [FlashEx], [Memmgr] and
    [Records]. The library that counts the assertions is a parameter. *)

From S2P Require Import Prelude Kernel EventFlag Mutex Records Memmgr Log Cli Mt25ql FlashEx Random.

(** runit: its macros and the two counters the tests set to 0. *)
Class Runit (T : Type) := {
  runit_reset : T -> T;
  runit_assert : bool -> T -> T;
  runit_eq : Z -> Z -> T -> T;
  runit_report : T -> T
}.

(** ** flash_ex_unit_test.c *)

Definition FLASH_COUNT_BLOCKS : Z := 256.
Definition FLASH_DATA_SIZE : Z := 256.
Definition FLASH_START_ADDRESS : Z := 0x400000.

Section flash_test.
Context {S : Type} `{Scheduler S} {Q : Type} `{FreeRTOSMutex Q} {W : Type} `{Qspi W} {R T : Type} `{Runit T}.
Context (fuel : nat) (s : S) (me : Z).
(** [rhs_hal_random_fill_buf] of either generator of [Random]. *)
Context (random_fill_buf : list Z -> Z -> M R (list Z)).

(** [results] is what the driver returned so far: an observation, the code does not keep it. *)
Record bench := mkBench { bn_flash : flash Q W; bn_rng : R; bn_runit : T; results : list Z }.
Definition on_flash {A} (status : A -> Z) (m : M (flash Q W) A) : M bench A := fun w =>
  '(a, f) ← m (bn_flash w); Ret (a, mkBench f (bn_rng w) (bn_runit w) (results w ++ [status a])).
Definition on_rng {A} (m : M R A) : M bench A := fun w =>
  '(a, r) ← m (bn_rng w); Ret (a, mkBench (bn_flash w) r (bn_runit w) (results w)).
Definition on_runit (f : T -> T) : M bench unit := modify (fun w => mkBench (bn_flash w) (bn_rng w) (f (bn_runit w)) (results w)).

Definition test_erase (addr size : Z) : M bench Z := on_flash id (rhs_hal_flash_ex_block_erase fuel s me addr size).
Definition test_read (addr size : Z) : M bench (Z * list Z) := on_flash fst (rhs_hal_flash_ex_read fuel s me addr size).
Definition test_write (addr : Z) (data : list Z) (size : Z) : M bench Z := on_flash id (rhs_hal_flash_ex_write fuel s me addr data size).

Definition erase_all : M bench Z := test_erase FLASH_START_ADDRESS (FLASH_DATA_SIZE * FLASH_COUNT_BLOCKS).

(** [n] rounds from round [i] on. *)
Fixpoint check_loop (n : nat) (i : Z) : M bench Z :=
  match n with
  | O => mret 0
  | Datatypes.S n =>
      x ← test_read (FLASH_START_ADDRESS + i * FLASH_COUNT_BLOCKS) FLASH_DATA_SIZE;
      let '(r, data_pulled) := x in
      if negb (r =? 0) then mret (-1)
      else if forallb (fun b => b =? 0xFF) data_pulled then check_loop n (i + 1) else mret (-1)
  end.
Definition check_erased_data : M bench Z := check_loop (Z.to_nat FLASH_COUNT_BLOCKS) 0.

Fixpoint random_loop (n : nat) (i : Z) (data : list Z) : M bench Z :=
  match n with
  | O => mret 0
  | Datatypes.S n =>
      data ← on_rng (random_fill_buf data FLASH_DATA_SIZE);
      r ← test_write (FLASH_START_ADDRESS + i * FLASH_COUNT_BLOCKS) data FLASH_DATA_SIZE;
      if negb (r =? 0) then mret (-1)
      else
        x ← test_read (FLASH_START_ADDRESS + i * FLASH_COUNT_BLOCKS) FLASH_DATA_SIZE;
        let '(r, data_pulled) := x in
        if negb (r =? 0) then mret (-1)
        else if decide (data_pulled = data) then random_loop n (i + 1) data else mret (-1)
  end.
Definition random_test : M bench Z := random_loop (Z.to_nat FLASH_COUNT_BLOCKS) 0 (replicate (Z.to_nat FLASH_DATA_SIZE) 0).

(** [args] is NULL as [None]; the printed help and the log line are left out. *)
Definition run_flash_ex_test (args : option (list Z)) : M bench unit :=
  on_runit runit_reset;;
  match args with
  | None =>
      e ← erase_all; on_runit (runit_assert (e =? 0));;
      c ← check_erased_data; on_runit (runit_assert (c =? 0));;
      t ← random_test; on_runit (runit_assert (t =? 0));;
      on_runit runit_report
  | Some a =>
      if decide (a = str "?") then mret tt
      else if decide (a = str "help") then mret tt
      else if decide (take 5 a = str "-full") then
        _ ← on_flash id (rhs_hal_flash_ex_erase_chip fuel s me); on_runit runit_report
      else on_runit runit_report
  end.
End flash_test.
Arguments bench : clear implicits.

(** ** memmng_unit_test.c *)

Section memory_test.
Context (pvPortMalloc : blocks -> Z -> Z * blocks) {T : Type} `{Runit T}.

Record mem_bench := mkMem { mem_heap : blocks; mem_runit : T }.
Definition on_heap {A} (f : blocks -> outcome (A * blocks)) : M mem_bench A := fun w =>
  '(a, h) ← f (mem_heap w); Ret (a, mkMem h (mem_runit w)).
Definition mem_assert (b : bool) : M mem_bench unit := modify (fun w => mkMem (mem_heap w) (runit_assert b (mem_runit w))).

(** [((uint8_t* ) ptr)[i]], and [memset(ptr, value, n)]. *)
Definition byte_at (ptr i : Z) : M mem_bench Z := fun w =>
  match mem_heap w !! ptr with
  | Some b => match b !! Z.to_nat i with Some x => Ret (x, w) | None => Fault end
  | None => Fault
  end.
Definition memset_block (ptr value n : Z) : M mem_bench unit := fun w =>
  match mem_heap w !! ptr with
  | Some b => if Z.of_nat (length b) <? n then Fault
              else Ret (tt, mkMem (<[ptr := replicate (Z.to_nat n) value ++ drop (Z.to_nat n) b]> (mem_heap w)) (mem_runit w))
  | None => Fault
  end.
Fixpoint assert_bytes (n : nat) (ptr i value : Z) : M mem_bench unit :=
  match n with
  | O => mret tt
  | Datatypes.S n => b ← byte_at ptr i; mem_assert (b =? value);; assert_bytes n ptr (i + 1) value
  end.
Definition mem_free (ptr : Z) : M mem_bench unit := on_heap (fun h => h ← free h ptr; Ret (tt, h)).

(** The test up to the reallocation, and the rest. *)
Definition alloc_test_before : M mem_bench Z :=
  ptr ← on_heap (fun h => calloc pvPortMalloc h 100 1);
  mem_assert (negb (ptr =? 0));;
  assert_bytes 100 ptr 0 0;;
  mem_free ptr;;
  ptr ← on_heap (fun h => Ret (malloc pvPortMalloc h 100));
  memset_block ptr 66 100;;
  mret ptr.
Definition alloc_test : M mem_bench unit :=
  ptr ← alloc_test_before;
  ptr ← on_heap (fun h => realloc pvPortMalloc h ptr 200);
  mem_assert (negb (ptr =? 0));;
  assert_bytes 100 ptr 0 66;;
  mem_free ptr;;
  ptr ← on_heap (fun h => calloc pvPortMalloc h 100 2);
  mem_assert (negb (ptr =? 0));;
  assert_bytes 200 ptr 0 0;;
  mem_free ptr.
Definition on_mem_runit (f : T -> T) : M mem_bench unit := modify (fun w => mkMem (mem_heap w) (f (mem_runit w))).
Definition memmgr_test : M mem_bench unit := on_mem_runit runit_reset;; alloc_test;; on_mem_runit runit_report.
End memory_test.

(** ** records_test.c *)

Definition TEST_RECORD_NAME : string := "test_record".

Section record_test.
Context {S : Type} `{Scheduler S} {Q : Type} `{FreeRTOSMutex Q} {E : Type} `{EventGroup E} {T : Type} `{Runit T}.
Context (s : S) (me : Z).

Record rec_bench := mkRec { rb_records : @RHSRecord Q E; rb_runit : T }.
Definition on_records {A} (f : @RHSRecord Q E -> outcome (A * @RHSRecord Q E)) : M rec_bench A := fun w =>
  '(a, r) ← f (rb_records w); Ret (a, mkRec r (rb_runit w)).
Definition on_rec_runit (f : T -> T) : M rec_bench unit := modify (fun w => mkRec (rb_records w) (f (rb_runit w))).

(** [test_data] is the address of the local variable. *)
Definition records_test (test_data : Z) : M rec_bench unit :=
  on_rec_runit runit_reset;;
  e ← on_records (fun r => rhs_record_exists s me (Some r) TEST_RECORD_NAME); on_rec_runit (runit_assert (negb e));;
  on_records (fun r => rhs_record_create s me (Some r) TEST_RECORD_NAME test_data);;
  e ← on_records (fun r => rhs_record_exists s me (Some r) TEST_RECORD_NAME); on_rec_runit (runit_assert e);;
  on_records (fun r => rhs_record_open_locked s me (Some r) TEST_RECORD_NAME);;
  record ← on_records (fun r => rhs_record_open_wait s r TEST_RECORD_NAME); on_rec_runit (runit_eq record test_data);;
  on_records (fun r => rhs_record_close s me (Some r) TEST_RECORD_NAME);;
  _ ← on_records (fun r => rhs_record_destroy s me (Some r) TEST_RECORD_NAME);
  e ← on_records (fun r => rhs_record_exists s me (Some r) TEST_RECORD_NAME); on_rec_runit (runit_assert (negb e));;
  on_rec_runit runit_report.
End record_test.

(** ** The commands *)

Section commands.
Context {S : Type} `{Scheduler S} {X : Type} `{FreeRTOSMutex X} {E : Type} `{EventGroup E}.

(** The command line and the registry, on an OS state; [meanwhile] is what others do while the
    record of the command line is not there, [fn] the address of the command's function. *)
Record desk := mkDesk { dk_os : S; dk_cli : Cli X; dk_records : @RHSRecord X E }.
Definition on_dk_records {A} (f : S -> @RHSRecord X E -> outcome (A * @RHSRecord X E)) : M desk A := fun w =>
  '(a, r) ← f (dk_os w) (dk_records w); Ret (a, mkDesk (dk_os w) (dk_cli w) r).
Definition register (meanwhile : M desk unit) (me : Z) (name : list Z) (fn : Z) : M desk unit :=
  on_dk_records (fun s r => rhs_record_open_locked s me (Some r) "cli");;
  meanwhile;;
  _ ← on_dk_records (fun s r => rhs_record_open_wait s r "cli");
  w ← get;
  c ← lift (cli_add_command (dk_os w) me (dk_cli w) name fn 0);
  modify (fun w => mkDesk (dk_os w) c (dk_records w));;
  on_dk_records (fun s r => rhs_record_close s me (Some r) "cli").
Definition flash_ex_test meanwhile me := register meanwhile me (str "flash_ex_test").
Definition rhs_memmgr_test meanwhile me := register meanwhile me (str "mem_test").
Definition rhs_records_test meanwhile me := register meanwhile me (str "records_test").
End commands.

(** ** The flash test finds no mismatch *)

Section flash_theorem.
Context {S : Type} `{Scheduler S} {Q : Type} `{FreeRTOSMutexLaws Q} {W : Type} `{QspiLaws W} {R T : Type} `{Runit T}.
Context (fuel : nat) (Hfuel : 102 * tick_cycles < Z.of_nat fuel) (s : S) (me : Z).
Context (Htask : RHS_IS_IRQ_MODE s = false) (Hme : me <> 0).
Context (fill : list Z -> Z -> M R (list Z)).
(** The generator fills the buffer with bytes. *)
Context (fill_ok : forall buf r, length buf = 256%nat -> runs (fill buf 256) r (fun b _ => length b = 256%nat /\ Forall in_u8 b)).
Abbreviation world := (bench Q W R T).
Implicit Types w : world.

Definition memory w : Z -> Z := array (hw (bn_flash w)).
Definition ready w : Prop := mutex_free (bn_flash w).
Definition block_start (i : Z) : Z := FLASH_START_ADDRESS + i * 256.
Definition area_end : Z := FLASH_START_ADDRESS + 65536.
(** The blocks from [i] on are erased. *)
Definition erased_from (i : Z) w : Prop := forall a, block_start i <= a < area_end -> memory w a = 255.
(** [l] are the results of the driver since [w], and what the tests leave alone has not changed. *)
Definition went (w : world) (l : list Z) (w' : world) : Prop :=
  ready w' /\ results w' = results w ++ l /\ bn_runit w' = bn_runit w /\
  forall a, a < FLASH_START_ADDRESS \/ area_end <= a -> memory w' a = memory w a.
Abbreviation all_ok l := (Forall (fun r => r = 0) l).

Lemma went_trans w1 l1 w2 l2 w3 : went w1 l1 w2 -> went w2 l2 w3 -> went w1 (l1 ++ l2) w3.
Proof.
  intros (_ & E1 & T1 & A1) (R2 & E2 & T2 & A2). split; [done|]. split; [by rewrite E2, E1, app_assoc|]. split; [congruence|].
  intros a Ha. by rewrite A2, A1.
Qed.

Lemma on_flash_runs {A} (status : A -> Z) (m : M (flash Q W) A) w P : runs m (bn_flash w) P ->
  runs (on_flash (R := R) (T := T) status m) w (fun a w' => P a (bn_flash w') /\ results w' = results w ++ [status a] /\
    bn_runit w' = bn_runit w /\ bn_rng w' = bn_rng w).
Proof. intros (a & f & E1 & HP). unfold on_flash. eexists a, _. rewrite E1. by split. Qed.

Lemma test_read_runs i w : 0 <= i < 256 -> ready w ->
  runs (test_read fuel s me (FLASH_START_ADDRESS + i * FLASH_COUNT_BLOCKS) FLASH_DATA_SIZE) w (fun x w' =>
    memory w' = memory w /\ went w [fst x] w' /\
    (fst x = 0 -> snd x = map (fun j => memory w (block_start i + Z.of_nat j)) (seq 0 256))).
Proof.
  intros Hi Hr. change FLASH_COUNT_BLOCKS with 256. change FLASH_DATA_SIZE with 256. fold (block_start i).
  eapply runs_mono; [apply on_flash_runs, flash_read_spec; try done; unfold block_start, FLASH_START_ADDRESS; lia|].
  intros x w' (((A & D) & F) & Er & Et & _). split; [done|]. split; [|done]. split; [done|]. split; [done|]. split; [done|].
  intros a _. unfold memory. by rewrite A.
Qed.
Lemma test_write_runs i data w : 0 <= i < 256 -> ready w -> length data = 256%nat ->
  runs (test_write fuel s me (FLASH_START_ADDRESS + i * FLASH_COUNT_BLOCKS) data FLASH_DATA_SIZE) w (fun r w' =>
    written (block_start i) data (hw (bn_flash w)) r (hw (bn_flash w')) /\ went w [r] w').
Proof.
  intros Hi Hr Hd. change FLASH_COUNT_BLOCKS with 256. replace FLASH_DATA_SIZE with (Z.of_nat (length data)) by (by rewrite Hd).
  fold (block_start i). eapply runs_mono; [apply on_flash_runs, flash_write_spec; try done|].
  - unfold block_start, FLASH_START_ADDRESS. lia.
  - by intros ->.
  - rewrite Hd. unfold block_start, FLASH_START_ADDRESS. lia.
  - intros r w' ((Hw & F) & Er & Et & _). split; [done|]. split; [done|]. split; [done|]. split; [done|].
    intros a Ha. destruct Hw as (_ & O & _). apply O. rewrite Hd. unfold block_start, area_end, FLASH_START_ADDRESS in *. lia.
Qed.

(** What a loop answers: it fails exactly when the driver reported a failure. *)
Definition agrees (erased_ : Prop) (r : Z) (l : list Z) : Prop := (r = 0 -> all_ok l) /\ (all_ok l -> erased_ -> r = 0).

Lemma check_loop_spec n : forall i w, 0 <= i -> i + Z.of_nat n = 256 -> ready w ->
  runs (check_loop fuel s me n i) w (fun r w' => memory w' = memory w /\ exists l, went w l w' /\ agrees (erased_from i w) r l).
Proof.
  induction n as [|n IH]; intros i w Hi Hn Hr.
  { apply runs_ret. split; [done|]. exists []. split; [by split; [|rewrite app_nil_r]|]. by split. }
  cbn [check_loop]. apply runs_bind. eapply runs_mono; [apply test_read_runs; [lia|done]|]. intros [r pulled] w1 (A1 & G1 & D1).
  cbn [fst snd] in *. destruct (Z.eqb_spec r 0) as [->|Hne]; cbn [negb].
  2: { apply runs_ret. split; [done|]. exists [r]. split; [done|]. split; [done|]. intros Hl. by apply Forall_cons in Hl as [? _]. }
  rewrite D1 by done. destruct (forallb _ _) eqn:Ef.
  - eapply runs_mono; [apply IH; [lia|lia|apply G1]|]. intros r2 w2 (A2 & l & G2 & Y1 & Y2). split; [congruence|].
    exists ([0] ++ l). split; [by eapply went_trans|]. split.
    + intros Hz. apply Forall_app. split; [by apply Forall_singleton|auto].
    + intros [_ Hl]%Forall_app He. apply Y2; [done|]. intros a Ha. rewrite A1. apply He. unfold block_start in *. lia.
  - apply runs_ret. split; [done|]. exists [0]. split; [done|]. split; [done|]. intros _ He. exfalso.
    apply not_true_iff_false in Ef. apply Ef, forallb_forall. intros x Hx. apply in_map_iff in Hx as (j & <- & Hj%in_seq).
    apply Z.eqb_eq, He. unfold block_start, area_end in *. lia.
Qed.

Lemma random_loop_spec n : forall i data w, 0 <= i -> i + Z.of_nat n = 256 -> ready w -> length data = 256%nat ->
  runs (random_loop fuel s me fill n i data) w (fun r w' => exists l, went w l w' /\ agrees (erased_from i w) r l).
Proof.
  induction n as [|n IH]; intros i data w Hi Hn Hr Hd.
  { apply runs_ret. exists []. split; [by split; [|rewrite app_nil_r]|]. by split. }
  cbn [random_loop]. apply runs_bind. destruct (fill_ok data (bn_rng w) Hd) as (data' & r0 & E0 & Hd' & Hb).
  set (w0 := mkBench (bn_flash w) r0 (bn_runit w) (results w)).
  exists data', w0. split; [unfold on_rng, FLASH_DATA_SIZE; by rewrite E0|]. apply runs_bind.
  eapply runs_mono; [apply (test_write_runs i data' w0); [lia|done|done]|]. intros r1 w1 [(_ & O1 & P1) G1].
  assert (G1' : went w [r1] w1) by exact G1. clear G1. destruct (Z.eqb_spec r1 0) as [->|Hne]; cbn [negb].
  2: { apply runs_ret. exists [r1]. split; [done|]. split; [done|]. intros Hl. by apply Forall_cons in Hl as [? _]. }
  apply runs_bind. eapply runs_mono; [apply (test_read_runs i w1); [lia|apply G1']|]. intros [r2 pulled] w2 (A2 & G2 & D2). cbn [fst snd] in *.
  pose proof (went_trans _ _ _ _ _ G1' G2) as G12. destruct (Z.eqb_spec r2 0) as [->|Hne]; cbn [negb].
  2: { apply runs_ret. exists ([0] ++ [r2]). split; [done|]. split; [done|]. intros Hl. apply Forall_app in Hl as [_ Hl].
       by apply Forall_cons in Hl as [? _]. }
  destruct (decide (pulled = data')) as [Heq|Hneq].
  - eapply runs_mono; [apply (IH (i + 1) data' w2); [lia|lia|apply G2|done]|]. intros r3 w3 (l & G3 & Y1 & Y2).
    exists (([0] ++ [0]) ++ l). split; [by eapply went_trans|]. split.
    + intros Hz. apply Forall_app. split; [by repeat constructor|auto].
    + intros [_ Hl]%Forall_app He. apply Y2; [done|]. intros a Ha. rewrite A2. unfold memory. rewrite O1.
      * apply He. unfold block_start in *. lia.
      * rewrite Hd'. unfold block_start in *. lia.
  - apply runs_ret. exists ([0] ++ [0]). split; [done|]. split; [done|]. intros _ He. exfalso. apply Hneq. rewrite D2 by done.
    rewrite <- Hd'. apply (read_back fuel (block_start i) data' (hw (bn_flash w))); [done|by apply P1|].
    intros a Ha. rewrite Hd' in Ha. apply He. unfold block_start, area_end in *. lia.
Qed.

(** C18: the flash test ends, whatever the memory held and whatever the driver reports, with the mutex
    free, nothing outside its 64 KB changed and three assertions. All three hold exactly when no
    call of the driver reported a failure: erased bytes are never found programmed, and random data
    written are never read back different. Any other argument than "-full" touches no byte, and that
    one, when the chip's erase succeeds, erases all. *)
Theorem flash_test_exact w args : ready w ->
  runs (run_flash_ex_test fuel s me fill args) w (fun _ w' => ready w' /\
    match args with
    | None => (forall a, a < FLASH_START_ADDRESS \/ area_end <= a -> memory w' a = memory w a) /\
        exists e c t l, results w' = results w ++ l /\
          bn_runit w' = runit_report (runit_assert t (runit_assert c (runit_assert e (runit_reset (bn_runit w))))) /\
          ((e && c && t = true) <-> all_ok l)
    | Some a =>
        if decide (take 5 a = str "-full") then exists r, results w' = results w ++ [r] /\
          bn_runit w' = runit_report (runit_reset (bn_runit w)) /\
          (r = RHS_FLASH_EX_OK -> forall a, 0 <= a < MT25QL128ABA_FLASH_SIZE -> memory w' a = 255)
        else memory w' = memory w /\ results w' = results w /\
          bn_runit w' = if decide (a = str "?" \/ a = str "help") then runit_reset (bn_runit w) else runit_report (runit_reset (bn_runit w))
    end).
Proof.
  intros Hr. unfold run_flash_ex_test. apply runs_bind, runs_modify. set (w0 := mkBench _ _ _ _). assert (Hr0 : ready w0) by exact Hr.
  destruct args as [a|].
  - destruct (decide (a = str "?")) as [->|Hq].
    { apply runs_ret. split; [done|]. rewrite (decide_False (P := take 5 (str "?") = _)) by done. by rewrite decide_True by (by left). }
    destruct (decide (a = str "help")) as [->|Hh].
    { apply runs_ret. split; [done|]. rewrite (decide_False (P := take 5 (str "help") = _)) by done. by rewrite decide_True by (by right). }
    destruct (decide (take 5 a = str "-full")) as [Hf|Hf].
    + apply runs_bind. destruct (flash_block_erase_correct fuel Hfuel s me (bn_flash w0) 0 1 Htask Hme Hr0 ltac:(lia) ltac:(lia) ltac:(done))
        as (_ & _ & _ & _ & _ & _ & _ & _ & r & st & E1 & F1 & D1).
      eapply runs_mono; [apply (on_flash_runs id _ w0 (fun r' f => r' = r /\ f = st)); by exists r, st|].
      intros r' w1 ((-> & Ef) & Er & Et & _). apply runs_modify. split; [unfold ready; cbn; by rewrite Ef|].
      exists r. split; [done|]. split; [cbn; by rewrite Et|]. unfold memory. cbn. by rewrite Ef.
    + apply runs_modify. split; [done|]. split; [done|]. split; [done|]. rewrite decide_False by tauto. done.
  - apply runs_bind.
    pose proof (flash_block_erase_correct fuel Hfuel s me (bn_flash w0) FLASH_START_ADDRESS 65536 Htask Hme Hr0 ltac:(done) ltac:(lia) ltac:(done)) as B.
    cbv zeta in B. change (FLASH_START_ADDRESS - FLASH_START_ADDRESS mod 4096) with FLASH_START_ADDRESS in B.
    change (4096 * ((65536 + 4095) / 4096)) with 65536 in B. fold area_end in B. destruct B as (r1 & st1 & E1 & F1 & _ & O1 & D1 & _).
    eapply runs_mono; [apply (on_flash_runs id _ w0 (fun r' f => r' = r1 /\ f = st1)); by exists r1, st1|].
    intros r' w1 ((-> & Ef) & Er1 & Et1 & _). apply runs_bind, runs_modify. set (w1' := mkBench _ _ _ _).
    assert (Hr1 : ready w1') by (unfold ready; cbn; by rewrite Ef). cbn [id] in Er1.
    assert (Hout1 : forall a, a < FLASH_START_ADDRESS \/ area_end <= a -> memory w1' a = memory w a).
    { intros a Ha. unfold memory. cbn. rewrite Ef. destruct (O1 a) as [->|[Hin _]]; [done|]. lia. }
    assert (Her : r1 = 0 -> erased_from 0 w1').
    { intros -> a Ha. unfold memory. cbn. rewrite Ef. apply D1; [done|]. unfold block_start in Ha. lia. }
    apply runs_bind. eapply runs_mono; [apply (check_loop_spec _ 0 w1'); [lia|done|done]|].
    intros c w2 (A2 & l2 & G2 & Y1 & Y2). apply runs_bind, runs_modify. set (w2' := mkBench _ _ _ _).
    apply runs_bind. eapply runs_mono; [apply (random_loop_spec _ 0 _ w2'); [lia|done|apply G2|apply length_replicate]|].
    intros t w3 (l3 & G3 & Z1 & Z2). apply runs_bind, runs_modify, runs_modify. split; [apply G3|]. split.
    { intros a Ha. destruct G2 as (_ & _ & _ & O2), G3 as (_ & _ & _ & O3). etransitivity; [exact (O3 a Ha)|].
      etransitivity; [exact (O2 a Ha)|]. by apply Hout1. }
    exists (r1 =? 0), (c =? 0), (t =? 0), (r1 :: l2 ++ l3). split; [|split].
    + destruct G2 as (_ & R2 & _), G3 as (_ & R3 & _). cbn. rewrite R3. cbn. rewrite R2. cbn. rewrite Er1. cbn. by rewrite <- !app_assoc.
    + destruct G2 as (_ & _ & T2 & _), G3 as (_ & _ & T3 & _). cbn. rewrite T3. cbn. rewrite T2. cbn. by rewrite Et1.
    + rewrite !andb_true_iff, !Z.eqb_eq, Forall_cons, Forall_app. split.
      * intros [[He Hc] Ht]. auto.
      * intros (He & Hl2 & Hl3). pose proof (Her He) as Hera. split_and!; [done|auto|]. apply Z2; [done|].
        intros a Ha. change (memory w2' a) with (memory w2 a). rewrite A2. by apply Hera.
Qed.
End flash_theorem.

(** ** The heap's test *)

Section memory_theorem.
Context (pvPortMalloc : blocks -> Z -> Z * blocks) (Halloc : allocates pvPortMalloc) {T : Type} `{Runit T}.

Lemma calloc_small h a b : 0 <= a * b < 2 ^ 32 -> calloc pvPortMalloc h a b = Ret (0, h) \/
  exists p, p <> 0 /\ h !! p = None /\ calloc pvPortMalloc h a b = Ret (p, <[p := replicate (Z.to_nat (a * b)) 0]> h).
Proof.
  intros Hn. unfold calloc. rewrite u32_small by lia. pose proof (Halloc h (a * b) ltac:(lia)) as A.
  destruct (pvPortMalloc h (a * b)) as [p h']. destruct A as [(-> & ->)|(Hp & Hf & nb & Hl & ->)]; [by left|].
  right. exists p. split; [done|]. split; [done|]. destruct (Z.eqb_spec p 0); [done|]. cbn [negb]. unfold memset0. rewrite lookup_insert_eq.
  destruct (Z.ltb_spec (Z.of_nat (length nb)) (a * b)); [lia|]. cbn [mbind outcome_bind].
  by rewrite insert_insert_eq, drop_ge, app_nil_r by lia.
Qed.
(** All bytes of a block have the value. *)
Lemma assert_bytes_spec n : forall ptr i v h (t : T) b, 0 <= i -> h !! ptr = Some b ->
  (forall j, i <= j < i + Z.of_nat n -> b !! Z.to_nat j = Some v) ->
  assert_bytes n ptr i v (mkMem h t) = Ret (tt, mkMem h (Nat.iter n (runit_assert true) t)).
Proof.
  induction n as [|n IH]; intros ptr i v h t b Hi Hb Hv; [done|]. cbn [assert_bytes].
  rewrite (bind_eq _ _ _ v (mkMem h t)) by (unfold byte_at; cbn; by rewrite Hb, (Hv i) by lia).
  rewrite Z.eqb_refl, (bind_eq _ _ _ tt (mkMem h (runit_assert true t))) by done.
  rewrite (IH _ _ _ _ _ b) by (done || lia || (intros; apply Hv; lia)). by rewrite <- Nat.iter_succ_r.
Qed.

(** C19: the heap's test never ends well, for any behaviour of the heap: without memory it uses NULL;
    with memory everything before the [realloc] is as the test expects, and the [realloc] of 100 bytes
    to 200 reads 100 bytes past the old block - which the test cannot notice, since it looks at the
    first 100 bytes only. *)
Theorem memory_test_faults h (t : T) : h !! 0 = None ->
  (alloc_test_before pvPortMalloc (mkMem h t) = Fault \/
   exists ptr, alloc_test_before pvPortMalloc (mkMem h t) =
     Ret (ptr, mkMem (<[ptr := replicate 100 66]> h) (Nat.iter 101 (runit_assert true) t))) /\
  memmgr_test pvPortMalloc (mkMem h t) = Fault.
Proof.
  intros H0'. assert (Hb : forall t : T, alloc_test_before pvPortMalloc (mkMem h t) = Fault \/
    exists ptr, ptr <> 0 /\ h !! ptr = None /\ alloc_test_before pvPortMalloc (mkMem h t) =
      Ret (ptr, mkMem (<[ptr := replicate 100 66]> h) (Nat.iter 101 (runit_assert true) t))).
  { intros t'. unfold alloc_test_before. destruct (calloc_small h 100 1 ltac:(lia)) as [Ec|(p & Hp & Hf & Ec)].
    { left. rewrite (bind_eq _ _ _ 0 (mkMem h t')) by (unfold on_heap; cbn [mem_heap]; by rewrite Ec).
      rewrite (bind_eq _ _ _ tt (mkMem h (runit_assert false t'))) by done. cbv [mbind M_bind assert_bytes byte_at]. cbn [mem_heap]. by rewrite H0'. }
    set (h1 := <[p := _]> h) in Ec. rewrite (bind_eq _ _ _ p (mkMem h1 t')) by (unfold on_heap; cbn [mem_heap]; by rewrite Ec).
    destruct (Z.eqb_spec p 0); [done|]. rewrite (bind_eq _ _ _ tt (mkMem h1 (runit_assert true t'))) by done.
    erewrite bind_eq.
    2: { apply (assert_bytes_spec 100 p 0 0 h1 _ (replicate 100 0)); [lia|apply lookup_insert_eq|]. intros j Hj. apply lookup_replicate. lia. }
    rewrite <- Nat.iter_succ_r. rewrite (bind_eq _ _ _ tt (mkMem h (Nat.iter 101 (runit_assert true) t'))).
    2: { unfold mem_free, on_heap, free, vPortFree. cbn [mem_heap mem_runit]. destruct (Z.eqb_spec p 0); [done|]. subst h1.
         rewrite lookup_insert_eq. cbn [mbind outcome_bind]. by rewrite delete_insert_id. }
    pose proof (Halloc h 100 ltac:(lia)) as A. destruct (pvPortMalloc h 100) as [p2 h2] eqn:Em.
    rewrite (bind_eq _ _ _ p2 (mkMem h2 (Nat.iter 101 (runit_assert true) t'))) by (unfold on_heap, malloc; cbn [mem_heap]; by rewrite Em).
    destruct A as [(-> & ->)|(Hp2 & Hf2 & nb & Hl & ->)].
    - left. cbv [mbind M_bind memset_block]. cbn [mem_heap]. by rewrite H0'.
    - right. exists p2. split; [done|]. split; [done|]. erewrite bind_eq.
      2: { unfold memset_block. cbn [mem_heap]. rewrite lookup_insert_eq. destruct (Z.ltb_spec (Z.of_nat (length nb)) 100); [lia|reflexivity]. }
      cbn [mem_heap mem_runit]. rewrite insert_insert_eq, drop_ge, app_nil_r by lia. done. }
  split; [destruct (Hb t) as [?|(p & _ & _ & ?)]; [by left|right; by exists p]|].
  unfold memmgr_test. rewrite (bind_eq _ _ _ tt (mkMem h (runit_reset t))) by done. unfold alloc_test. cbv [mbind M_bind].
  destruct (Hb (runit_reset t)) as [->|(p & Hp & Hf & ->)]; [done|]. set (h1 := <[p := _]> h). unfold on_heap. cbn [mem_heap].
  pose proof (realloc_correct pvPortMalloc Halloc h1 p (replicate 100 66) 200) as Tr.
  assert (Hz : h1 !! 0 = None) by (unfold h1; by rewrite lookup_insert_ne by done).
  specialize (Tr Hz (lookup_insert_eq _ _ _) ltac:(lia)). destruct (pvPortMalloc h1 200) as [p2 h2].
  rewrite length_replicate, orb_true_r in Tr. by rewrite Tr.
Qed.
End memory_theorem.

(** ** The registry's test *)

Section record_theorem.
Context {S : Type} `{SchedulerLaws S} {Q : Type} `{FreeRTOSMutexLaws Q} {E : Type} `{EventGroupLaws E} {T : Type} `{Runit T}.
Context (s : S) (me : Z) (Hc : in_task_ctx s me).
Abbreviation dict := (gmap string (@RHSRecordData E)).

Lemma not_irq : RHS_IS_IRQ_MODE s = false.
Proof. destruct Hc as [Hi _]. unfold RHS_IS_IRQ_MODE. by rewrite Hi. Qed.
(** A body under the free mutex of the registry. *)
Lemma locked_runs {A} (q : Q) (d d' : dict) (body : dict -> outcome (A * dict * S)) a s' : free_mutex q ->
  body d = Ret (a, d', s') -> get_IPSR s' = get_IPSR s ->
  exists q', locked s me (Some (mkRecord q d)) body = Ret (a, mkRecord q' d') /\ free_mutex q'.
Proof.
  intros Hq Eb Hs. destruct Hc as [Hi Hme]. pose proof not_irq as Hm. unfold locked, rhs_record_lock, rhs_record_unlock.
  destruct (acquire_free s me q RHSWaitForever Hm Hme Hq) as (q1 & E1 & Hq1). cbn [Records.mutex records]. rewrite E1.
  cbn [mbind outcome_bind]. destruct (decide _); [|done]. cbn [mbind outcome_bind]. rewrite Eb. cbn [mbind outcome_bind].
  assert (Hm' : RHS_IS_IRQ_MODE s' = false) by (unfold RHS_IS_IRQ_MODE; by rewrite Hs, Hi).
  destruct (release_held s' me q1 Hm' Hme Hq1) as (q2 & E2 & Hq2). rewrite E2. cbn. by exists q2.
Qed.
Lemma exists_runs (q : Q) (d : dict) n : free_mutex q -> exists q',
  rhs_record_exists s me (Some (mkRecord q d)) n = Ret (bool_decide (is_Some (d !! n)), mkRecord q' d) /\ free_mutex q'.
Proof.
  intros Hq. eapply locked_runs; [done| |done]. cbn beta. unfold rhs_record_get. by destruct (d !! n).
Qed.
(** Creating a record that is not there, opening, closing and destroying it again. *)
Lemma create_runs (q : Q) (d : dict) n p : free_mutex q -> d !! n = None -> p <> 0 -> exists q' e,
  rhs_record_create s me (Some (mkRecord q d)) n p = Ret (tt, mkRecord q' (<[n := mkRecordData e p 0]> d)) /\ free_mutex q' /\ bits e = 1.
Proof.
  intros Hq Hn Hp. pose proof not_irq as Hm. destruct created as [C1 C2].
  pose proof (set_spec (xEventGroupCreateStatic : E) RHS_RECORD_FLAG_READY ltac:(by vm_compute)) as St.
  destruct (xEventGroupSetBits (xEventGroupCreateStatic : E) RHS_RECORD_FLAG_READY) as [r1 e1] eqn:Es. destruct St as [Hb _].
  rewrite C1, C2 in Hb. change (bits e1 = 1) in Hb.
  destruct (suspend_spec s) as (U1 & _ & U3 & _). pose proof (suspended_nonneg s).
  destruct (resume_spec (vTaskSuspendAll s)) as (x & s1 & Er & _ & _ & R3 & _); [lia|].
  unfold rhs_record_create. destruct (Z.eqb_spec p 0); [done|].
  destruct (locked_runs q d (<[n := mkRecordData e1 p 0]> d) (fun d =>
    '(r, d) ← rhs_record_data_get_or_create s d n;
    if negb (data r =? 0) then Crash "Assert" else
    '(_, e, s) ← rhs_event_flag_set s (Some (flags r)) RHS_RECORD_FLAG_READY;
    Ret (tt, <[n := mkRecordData e p (holders_count r)]> d, s)) tt s1 Hq) as (q' & E1 & Hq').
  - unfold rhs_record_data_get_or_create, rhs_record_get, rhs_event_flag_alloc. rewrite Hn, Hm. cbn [mbind outcome_bind data Z.eqb negb flags].
    unfold rhs_event_flag_set, with_valid_flags. change (Z.land RHS_RECORD_FLAG_READY RHS_EVENT_FLAG_INVALID_BITS =? 0) with true. cbv iota.
    rewrite Hm, Es. unfold resume_all. rewrite Er. cbn. unfold rhs_record_put. by rewrite insert_insert_eq.
  - congruence.
  - exists q', e1. by split.
Qed.
Lemma open_runs (q : Q) (d : dict) n e p h : free_mutex q -> d !! n = Some (mkRecordData e p h) -> bits e = 1 -> exists q' e',
  rhs_record_open_locked s me (Some (mkRecord q d)) n = Ret (tt, mkRecord q' (<[n := mkRecordData e p (u32 (h + 1))]> d)) /\
  rhs_record_open_wait s (mkRecord q' (<[n := mkRecordData e p (u32 (h + 1))]> d)) n =
    Ret (p, mkRecord q' (<[n := mkRecordData e' p (u32 (h + 1))]> d)) /\ free_mutex q'.
Proof.
  intros Hq Hn Hb. pose proof not_irq as Hm. unfold rhs_record_open_locked.
  destruct (locked_runs q d (<[n := mkRecordData e p (u32 (h + 1))]> d) (fun d =>
    '(r, d) ← rhs_record_data_get_or_create s d n;
    Ret (tt, <[n := mkRecordData (flags r) (data r) (u32 (holders_count r + 1))]> d, s)) tt s Hq) as (q' & E1 & Hq').
  { unfold rhs_record_data_get_or_create, rhs_record_get. by rewrite Hn. }
  { done. }
  pose proof (wait_spec e RHS_RECORD_FLAG_READY false false RHSWaitForever ltac:(by vm_compute)) as Wt.
  destruct (xEventGroupWaitBits e RHS_RECORD_FLAG_READY false false RHSWaitForever) as [x e1] eqn:Ew.
  assert (Hsat : satisfied (bits e) RHS_RECORD_FLAG_READY false = true) by (rewrite Hb; reflexivity).
  rewrite Hsat in Wt. destruct Wt as (e2 & -> & -> & _).
  exists q', e1. split; [exact E1|]. split; [|done]. unfold rhs_record_open_wait. cbn [records Records.mutex]. rewrite lookup_insert_eq.
  cbn [flags data holders_count]. unfold rhs_event_flag_wait, with_valid_flags. rewrite Hm.
  change (Z.land RHS_RECORD_FLAG_READY RHS_EVENT_FLAG_INVALID_BITS =? 0) with true.
  change (negb (Z.land (Z.lor RHSFlagWaitAny RHSFlagNoClear) RHSFlagWaitAll =? 0)) with false.
  change (Z.land (Z.lor RHSFlagWaitAny RHSFlagNoClear) RHSFlagNoClear =? 0) with false. cbv iota. rewrite Ew, Hb. cbn.
  by rewrite insert_insert_eq.
Qed.
Lemma close_runs (q : Q) (d : dict) n e p h : free_mutex q -> d !! n = Some (mkRecordData e p h) -> exists q',
  rhs_record_close s me (Some (mkRecord q d)) n = Ret (tt, mkRecord q' (<[n := mkRecordData e p (u32 (h - 1))]> d)) /\ free_mutex q'.
Proof. intros Hq Hn. eapply locked_runs; [done| |done]. cbn beta. unfold rhs_record_get. by rewrite Hn. Qed.
Lemma destroy_runs (q : Q) (d : dict) n e p : free_mutex q -> d !! n = Some (mkRecordData e p 0) -> exists q',
  rhs_record_destroy s me (Some (mkRecord q d)) n = Ret (true, mkRecord q' (delete n d)) /\ free_mutex q'.
Proof.
  intros Hq Hn. eapply locked_runs; [done| |done]. cbn beta. unfold rhs_record_get. rewrite Hn. cbn [holders_count Z.eqb].
  unfold rhs_record_erase, rhs_event_flag_free. by rewrite not_irq.
Qed.

(** The registry's test passes where nobody uses its record's name: it comes back with its four checks
    true, and leaves the registry as it was, with the mutex free. Where the record exists
    already, the test stops the system. *)
Theorem records_test_passes (test_data : Z) (q : Q) (d : dict) (t : T) : free_mutex q -> test_data <> 0 ->
  match d !! TEST_RECORD_NAME with
  | None => exists q', records_test s me test_data (mkRec (mkRecord q d) t) = Ret (tt, mkRec (mkRecord q' d)
      (runit_report (runit_assert true (runit_eq test_data test_data (runit_assert true (runit_assert true (runit_reset t))))))) /\ free_mutex q'
  | Some r => data r <> 0 -> records_test s me test_data (mkRec (mkRecord q d) t) = Crash "Assert"
  end.
Proof.
  intros Hq Hd. set (n := TEST_RECORD_NAME). assert (Hon : forall A (f : @RHSRecord Q E -> outcome (A * @RHSRecord Q E)) r (t : T) a r',
    f r = Ret (a, r') -> on_records f (mkRec r t) = Ret (a, mkRec r' t)) by (intros A f r t' a r' Ef; unfold on_records; cbn [rb_records]; by rewrite Ef).
  assert (Hrun : forall f r (t : T), on_rec_runit (E := E) (Q := Q) f (mkRec r t) = Ret (tt, mkRec r (f t))) by done.
  destruct (exists_runs q d n Hq) as (q1 & E1 & Hq1). unfold records_test. fold n. rewrite (bind_eq _ _ _ _ _ (Hrun _ _ _)).
  rewrite (bind_eq _ _ _ _ _ (Hon _ _ _ _ _ _ E1)), (bind_eq _ _ _ _ _ (Hrun _ _ _)). destruct (d !! n) as [r|] eqn:En.
  - intros Hdata. cbv [mbind M_bind on_records]. cbn [rb_records]. unfold rhs_record_create. destruct (Z.eqb_spec test_data 0); [done|].
    unfold locked, rhs_record_lock. destruct (acquire_free s me q1 RHSWaitForever not_irq (proj2 Hc) Hq1) as (q2 & E2 & _).
    cbn [Records.mutex records]. rewrite E2. cbn [mbind outcome_bind]. destruct (decide _); [|done]. cbn [mbind outcome_bind].
    unfold rhs_record_data_get_or_create, rhs_record_get. rewrite En. cbn [mbind outcome_bind]. by destruct (Z.eqb_spec (data r) 0).
  - destruct (create_runs q1 d n test_data Hq1 En Hd) as (q2 & e & E2 & Hq2 & Hb). rewrite (bind_eq _ _ _ _ _ (Hon _ _ _ _ _ _ E2)).
    destruct (exists_runs q2 (<[n := mkRecordData e test_data 0]> d) n Hq2) as (q3 & E3 & Hq3). rewrite lookup_insert_eq in E3.
    rewrite (bind_eq _ _ _ _ _ (Hon _ _ _ _ _ _ E3)), (bind_eq _ _ _ _ _ (Hrun _ _ _)).
    destruct (open_runs q3 (<[n := mkRecordData e test_data 0]> d) n e test_data 0 Hq3 ltac:(apply lookup_insert_eq) Hb) as (q4 & e' & E4 & E5 & Hq4).
    rewrite (bind_eq _ _ _ _ _ (Hon _ _ _ _ _ _ E4)), (bind_eq _ _ _ _ _ (Hon _ (fun r => rhs_record_open_wait s r n) _ _ _ _ E5)),
      (bind_eq _ _ _ _ _ (Hrun _ _ _)). rewrite !insert_insert_eq in *.
    destruct (close_runs q4 (<[n := mkRecordData e' test_data (u32 (0 + 1))]> d) n e' test_data _ Hq4 ltac:(apply lookup_insert_eq)) as (q5 & E6 & Hq5).
    rewrite insert_insert_eq in E6. rewrite (bind_eq _ _ _ _ _ (Hon _ _ _ _ _ _ E6)).
    destruct (destroy_runs q5 (<[n := mkRecordData e' test_data (u32 (u32 (0 + 1) - 1))]> d) n e' test_data Hq5 ltac:(apply lookup_insert_eq)) as (q6 & E7 & Hq6).
    rewrite (bind_eq _ _ _ _ _ (Hon _ _ _ _ _ _ E7)). rewrite delete_insert_id in * by done.
    destruct (exists_runs q6 d n Hq6) as (q7 & E8 & Hq7). rewrite En in E8.
    rewrite (bind_eq _ _ _ _ _ (Hon _ _ _ _ _ _ E8)), (bind_eq _ _ _ _ _ (Hrun _ _ _)), Hrun. by exists q7.
Qed.
End record_theorem.

(** ** The theorems at work *)

(** The two counters; the report changes neither. *)
Record tally := mkTally { passes : Z; failures : Z }.
Definition count_assert (b : bool) (t : tally) : tally :=
  if b then mkTally (passes t + 1) (failures t) else mkTally (passes t) (failures t + 1).
#[global] Instance tally_runit : Runit tally := {
  runit_reset _ := mkTally 0 0; runit_assert := count_assert; runit_eq a b := count_assert (a =? b); runit_report t := t }.

Lemma le32_bytes v : Forall in_u8 (le32 v).
Proof. repeat constructor; apply u8_range. Qed.
Lemma lcg_fill_ok buf r : length buf = 256%nat -> runs (lcg_fill_buf 70 buf 256) r (fun b _ => length b = 256%nat /\ Forall in_u8 b).
Proof.
  intros Hb. unfold lcg_fill_buf. apply runs_bind, runs_ret. unfold runs.
  rewrite (fill_loop_eq lcg_read_rng 70 0 256 buf r) by (try lia; (rewrite Hb; done) || (vm_compute; lia)).
  change (words (256 - 0)) with 64%nat. change lcg_read_rng with lcg_get. cbv [mbind M_bind]. rewrite lcg_read_many.
  eexists _, _. split; [reflexivity|]. unfold filled. change (Z.to_nat (Z.min 0 256)) with O. change (Z.to_nat (256 - 0)) with 256%nat.
  rewrite (drop_ge buf) by (rewrite Hb; done). rewrite take_0, app_nil_l, app_nil_r.
  assert (Hl : forall l : list Z, length (l ≫= le32) = (4 * length l)%nat).
  { induction l as [|x l IH]; [done|]. change ((x :: l) ≫= le32) with (le32 x ++ (l ≫= le32)). cbn [length]. rewrite length_app, IH, length_le32. lia. }
  split; [rewrite length_take, Hl, length_map, length_seq; done|].
  apply Forall_take, Forall_bind, Forall_true. intros v. apply le32_bytes.
Qed.

Definition a_bench : bench plain_mutex chip Z tally := mkBench a_flash 7 (mkTally 3 4) [].
Lemma a_task_mode : RHS_IS_IRQ_MODE a_task = false.
Proof. reflexivity. Qed.
Lemma a_task_in_task : in_task_ctx a_task 7.
Proof. split; [reflexivity|discriminate]. Qed.
Lemma fuel_enough : 102 * @tick_cycles chip _ _ < Z.of_nat 103.
Proof. reflexivity. Qed.
Lemma flash_test_exact_witness : exists w' e c t l,
  run_flash_ex_test 103 a_task 7 (lcg_fill_buf 70) None a_bench = Ret (tt, w') /\ results w' = l /\
  bn_runit w' = count_assert t (count_assert c (count_assert e (mkTally 0 0))) /\
  ((e && c && t = true) <-> Forall (fun r => r = 0) l) /\ array (hw (bn_flash w')) 0 = 255.
Proof.
  destruct (flash_test_exact 103 fuel_enough a_task 7 a_task_mode ltac:(discriminate) (lcg_fill_buf 70) lcg_fill_ok a_bench None)
    as ([] & w' & E1 & _ & Hout & e & c & t & l & Hres & Ht & Hl).
  - exists xSemaphoreCreateMutexStatic. split; [reflexivity|split; reflexivity].
  - exists w', e, c, t, l. split; [exact E1|]. split; [exact Hres|]. split; [exact Ht|]. split; [exact Hl|].
    etransitivity; [apply (Hout 0); left; reflexivity|reflexivity].
Defined.

Lemma memory_test_faults_witness : one_block !! 0 = None /\ memmgr_test bump_malloc (mkMem one_block (mkTally 0 0)) = Fault.
Proof.
  split; [reflexivity|].
  exact (proj2 (memory_test_faults bump_malloc bump_malloc_ok one_block (mkTally 0 0) eq_refl)).
Defined.

Lemma records_test_passes_witness : exists q,
  records_test (E := group) a_task 7 64 (mkRec (mkRecord xSemaphoreCreateMutexStatic ∅) (mkTally 0 0)) = Ret (tt, mkRec (mkRecord q ∅) (mkTally 4 0)) /\
  free_mutex (q : plain_mutex).
Proof.
  exact (records_test_passes (E := group) a_task 7 a_task_in_task 64 (xSemaphoreCreateMutexStatic : plain_mutex) ∅
    (mkTally 0 0) (conj eq_refl eq_refl) ltac:(discriminate)).
Defined.
