(* ===== verification/PinMap.v ===== *)
(** * Clocks and pins of the peripherals (the MSP callbacks and set-ups of hal)

    [HAL_CAN_MspInit] and [HAL_CAN_MspDeInit] (rhs_hal_can.c), the same for the QSPI flash
    (rhs_hal_flash_ex.c), the speaker's timer (rhs_hal_speaker.c), and the bus and handle events
    of the I2C buses (rhs_hal_i2c_config.c), as the calls of the vendor's libraries they make,
    per board. What the calls do to clocks and pins is the interface [VendorLaws]. *)

From S2P Require Import Prelude Interrupt Gpio.

(** ** The vendor's libraries *)

Inductive clock := CLK_GPIO (p : gpio_port) | CLK_CAN1 | CLK_CAN2 | CLK_QSPI | CLK_I2C (n : Z) | CLK_TIM (n : Z).
#[global] Instance clock_eq_dec : EqDecision clock.
Proof. solve_decision. Defined.

Inductive pin_mode := PinInput | PinOutput | PinAlternate | PinAnalog.
#[global] Instance pin_mode_eq_dec : EqDecision pin_mode.
Proof. solve_decision. Defined.

(** The alternate functions the set-ups choose by number. *)
Inductive af := AF (n : Z).

(** [LL_GPIO_InitTypeDef]: everything but the pins, the port and the alternate function is the
    same in all uses. *)
Record LL_GPIO_InitTypeDef := mkLL { ll_Pin : Z; ll_Mode : pin_mode; ll_open_drain : bool; ll_Alternate : af }.

(** [HAL_GPIO_Init] by the fields the set-ups give it. *)
Record pin_init := mkPinInit { pi_Pin : Z; pi_Mode : gpio_mode; pi_Speed : gpio_speed; pi_Alternate : option af }.

(** [LL_I2C_InitTypeDef]: the timing, or the clock speed on the first peripheral. *)
Inductive i2c_timing := ClockSpeed (hz : Z) | Timing (t : Z) | Timing_100.

Inductive hw_call :=
  | CLK_ENABLE (c : clock) | CLK_DISABLE (c : clock)
  | HAL_GPIO_Init (p : gpio_port) (g : pin_init) | HAL_GPIO_DeInit (p : gpio_port) (mask : Z)
  | AFIO_REMAP_CAN1_2 | AFIO_REMAP_TIM3_PARTIAL
  | LL_GPIO_SetPinMode (p : gpio_port) (mask : Z) (m : pin_mode)
  | LL_GPIO_SetAFPin_8_15 (p : gpio_port) (mask : Z) (a : af)
  | LL_GPIO_SetPinOutputType_OPENDRAIN (p : gpio_port) (mask : Z)
  | LL_GPIO_SetPinSpeed_LOW (p : gpio_port) (mask : Z) | LL_GPIO_SetPinPull_NO (p : gpio_port) (mask : Z)
  | LL_GPIO_Init (p : gpio_port) (g : LL_GPIO_InitTypeDef)
  | LL_RCC_SetI2CClockSource_PCLK1 (n : Z)
  | LL_I2C_Init (n : Z) (t : i2c_timing) | LL_I2C_Enable (n : Z) | LL_I2C_Disable (n : Z)
  | LL_I2C_EnableAutoEndMode (n : Z) | LL_I2C_SetOwnAddress2_0 (n : Z) | LL_I2C_DisableOwnAddress2 (n : Z)
  | LL_I2C_DisableGeneralCall (n : Z) | LL_I2C_EnableClockStretching (n : Z) | LL_I2C_GenerateStopCondition (n : Z).

(** ** CAN (rhs_hal_can.c) *)

Inductive can_instance := CAN1_ | CAN2_.
#[global] Instance can_instance_eq_dec : EqDecision can_instance.
Proof. solve_decision. Defined.

Definition af_pp (mask : Z) (a : option af) : pin_init := mkPinInit mask GPIO_MODE_AF_PP GPIO_SPEED_FREQ_VERY_HIGH a.
Definition two_pins (i j : Z) : Z := Z.lor (GPIO_PIN i) (GPIO_PIN j).

(** [HAL_RCC_CAN1_CLK_ENABLED++] and the first that enables the clock. *)
Definition can1_clock_up (n : Z) : list hw_call * Z :=
  let n := u32 (n + 1) in (if n =? 1 then [CLK_ENABLE CLK_CAN1] else [], n).
Definition can1_clock_down (n : Z) : list hw_call * Z :=
  let n := u32 (n - 1) in (if n =? 0 then [CLK_DISABLE CLK_CAN1] else [], n).

(** Both take and return [HAL_RCC_CAN1_CLK_ENABLED]. *)
Definition HAL_CAN_MspInit (b : board) (i : can_instance) (n : Z) : list hw_call * Z :=
  match b with
  | BMPLC_XL | BMPLC_L =>
      (match i with
       | CAN1_ => [CLK_ENABLE CLK_CAN1; CLK_ENABLE (CLK_GPIO GPIOA); HAL_GPIO_Init GPIOA (af_pp (two_pins 11 12) (Some (AF 9)))]
       | CAN2_ => []
       end, n)
  | BMPLC_M =>
      (match i with
       | CAN1_ =>
           [CLK_ENABLE CLK_CAN1; CLK_ENABLE (CLK_GPIO GPIOB);
            HAL_GPIO_Init GPIOB (mkPinInit (GPIO_PIN 8) GPIO_MODE_INPUT GPIO_SPEED_FREQ_LOW None);
            HAL_GPIO_Init GPIOB (mkPinInit (GPIO_PIN 9) GPIO_MODE_AF_PP GPIO_SPEED_FREQ_HIGH None);
            AFIO_REMAP_CAN1_2]
       | CAN2_ => []
       end, n)
  | STM32F407xx =>
      match i with
      | CAN1_ =>
          let '(l, n) := can1_clock_up n in
          (l ++ [CLK_ENABLE (CLK_GPIO GPIOD); HAL_GPIO_Init GPIOD (af_pp (two_pins 0 1) (Some (AF 9)))], n)
      | CAN2_ =>
          let '(l, n) := can1_clock_up n in
          ([CLK_ENABLE CLK_CAN2] ++ l ++ [CLK_ENABLE (CLK_GPIO GPIOB); HAL_GPIO_Init GPIOB (af_pp (two_pins 5 6) (Some (AF 9)))], n)
      end
  | _ => ([], n)
  end.

Definition HAL_CAN_MspDeInit (b : board) (i : can_instance) (n : Z) : list hw_call * Z :=
  match b with
  | BMPLC_XL | BMPLC_L =>
      (match i with CAN1_ => [CLK_DISABLE CLK_CAN1; HAL_GPIO_DeInit GPIOA (two_pins 11 12)] | CAN2_ => [] end, n)
  | BMPLC_M =>
      (match i with CAN1_ => [CLK_DISABLE CLK_CAN1; HAL_GPIO_DeInit GPIOB (two_pins 8 9)] | CAN2_ => [] end, n)
  | STM32F407xx =>
      match i with
      | CAN1_ => let '(l, n) := can1_clock_down n in (l ++ [HAL_GPIO_DeInit GPIOD (two_pins 0 1)], n)
      | CAN2_ => let '(l, n) := can1_clock_down n in ([CLK_DISABLE CLK_CAN2] ++ l ++ [HAL_GPIO_DeInit GPIOB (two_pins 5 6)], n)
      end
  | _ => ([], n)
  end.

(** ** The QSPI flash (rhs_hal_flash_ex.c) *)

Definition HAL_QSPI_MspInit (b : board) : list hw_call :=
  match b with
  | BMPLC_L =>
      [CLK_ENABLE CLK_QSPI; CLK_ENABLE (CLK_GPIO GPIOE); CLK_ENABLE (CLK_GPIO GPIOA); CLK_ENABLE (CLK_GPIO GPIOB);
       CLK_ENABLE (CLK_GPIO GPIOD);
       HAL_GPIO_Init GPIOE (af_pp (GPIO_PIN 2) (Some (AF 9))); HAL_GPIO_Init GPIOA (af_pp (GPIO_PIN 1) (Some (AF 9)));
       HAL_GPIO_Init GPIOB (af_pp (GPIO_PIN 2) (Some (AF 9))); HAL_GPIO_Init GPIOD (af_pp (two_pins 11 12) (Some (AF 9)));
       HAL_GPIO_Init GPIOB (af_pp (GPIO_PIN 6) (Some (AF 10)))]
  | BMPLC_XL =>
      [CLK_ENABLE CLK_QSPI; CLK_ENABLE (CLK_GPIO GPIOF); CLK_ENABLE (CLK_GPIO GPIOB);
       HAL_GPIO_Init GPIOF (af_pp (Z.lor (two_pins 6 7) (GPIO_PIN 10)) (Some (AF 9)));
       HAL_GPIO_Init GPIOF (af_pp (two_pins 8 9) (Some (AF 10)));
       HAL_GPIO_Init GPIOB (af_pp (GPIO_PIN 6) (Some (AF 10)))]
  | _ => []
  end.
Definition HAL_QSPI_MspDeInit (b : board) : list hw_call :=
  match b with
  | BMPLC_L =>
      [CLK_DISABLE CLK_QSPI; HAL_GPIO_DeInit GPIOE (GPIO_PIN 2); HAL_GPIO_DeInit GPIOA (GPIO_PIN 1); HAL_GPIO_DeInit GPIOB (two_pins 2 6);
       HAL_GPIO_DeInit GPIOD (two_pins 11 12)]
  | BMPLC_XL =>
      [CLK_DISABLE CLK_QSPI;
       HAL_GPIO_DeInit GPIOF (Z.lor (Z.lor (Z.lor (Z.lor (GPIO_PIN 6) (GPIO_PIN 7)) (GPIO_PIN 8)) (GPIO_PIN 9)) (GPIO_PIN 10));
       HAL_GPIO_DeInit GPIOB (GPIO_PIN 6)]
  | _ => []
  end.

(** ** The speaker's timer (rhs_hal_speaker.c) *)

(** TIM9 on the STM32F765, TIM3 on the STM32F103, TIM15 on the STM32G0B1. *)
Definition tim9_MspInit : list hw_call := [CLK_ENABLE (CLK_TIM 9)].
Definition tim9_MspPostInit : list hw_call :=
  [CLK_ENABLE (CLK_GPIO GPIOE); HAL_GPIO_Init GPIOE (mkPinInit (GPIO_PIN 5) GPIO_MODE_AF_PP GPIO_SPEED_FREQ_LOW (Some (AF 3)))].
Definition tim9_MspDeInit : list hw_call := [CLK_DISABLE (CLK_TIM 9)].
Definition tim3_MspInit : list hw_call := [CLK_ENABLE (CLK_TIM 3)].
Definition tim3_MspPostInit : list hw_call :=
  [CLK_ENABLE (CLK_GPIO GPIOB); HAL_GPIO_Init GPIOB (mkPinInit (GPIO_PIN 5) GPIO_MODE_AF_PP GPIO_SPEED_FREQ_LOW None);
   AFIO_REMAP_TIM3_PARTIAL].
Definition tim3_MspDeInit : list hw_call := [CLK_DISABLE (CLK_TIM 3)].
Definition tim15_MspInit : list hw_call := [CLK_ENABLE (CLK_TIM 15)].
Definition tim15_MspPostInit : list hw_call :=
  [CLK_ENABLE (CLK_GPIO GPIOA); HAL_GPIO_Init GPIOA (mkPinInit (GPIO_PIN 3) GPIO_MODE_AF_PP GPIO_SPEED_FREQ_LOW (Some (AF 5)))].
Definition tim15_MspDeInit : list hw_call := [CLK_DISABLE (CLK_TIM 15)].

Definition HAL_TIM_MspInit (b : board) : list hw_call :=
  match b with
  | BMPLC_XL | BMPLC_L | STM32F765xx => tim9_MspInit
  | BMPLC_M => tim3_MspInit
  | STM32G0B1xx => tim15_MspInit
  | STM32F407xx => []
  end.
Definition HAL_TIM_MspPostInit (b : board) : list hw_call :=
  match b with
  | BMPLC_XL | BMPLC_L | STM32F765xx => tim9_MspPostInit
  | BMPLC_M => tim3_MspPostInit
  | STM32G0B1xx => tim15_MspPostInit
  | STM32F407xx => []
  end.
Definition HAL_TIM_MspDeInit (b : board) : list hw_call :=
  match b with
  | BMPLC_XL | BMPLC_L | STM32F765xx => tim9_MspDeInit
  | BMPLC_M => tim3_MspDeInit
  | STM32G0B1xx => tim15_MspDeInit
  | STM32F407xx => []
  end.

(** ** The I2C buses (rhs_hal_i2c_config.c) *)

(** The buses [rhs_hal_i2c1_bus] to [rhs_hal_i2c3_bus]; only the STM32G0B1 has the last two. *)
Definition has_i2c_bus (b : board) (n : Z) : bool :=
  match b with STM32G0B1xx => (1 <=? n) && (n <=? 3) | _ => n =? 1 end.

(** [RHSHalI2cBusEventActivate] and [RHSHalI2cBusEventDeactivate]. *)
Definition bus_activate (b : board) (n : Z) : list hw_call :=
  match b with
  | BMPLC_M | STM32F407xx => [CLK_ENABLE (CLK_I2C 1)]
  | BMPLC_XL | BMPLC_L | STM32F765xx => [CLK_ENABLE (CLK_I2C 1); LL_RCC_SetI2CClockSource_PCLK1 1]
  | STM32G0B1xx => [LL_RCC_SetI2CClockSource_PCLK1 1; LL_RCC_SetI2CClockSource_PCLK1 2; CLK_ENABLE (CLK_I2C n)]
  end.
Definition bus_deactivate (b : board) (n : Z) : list hw_call :=
  match b with STM32G0B1xx => [CLK_DISABLE (CLK_I2C n)] | _ => [CLK_DISABLE (CLK_I2C 1)] end.

(** A pin set up with the single setters, and one with LL_GPIO_Init. *)
Definition i2c_pin_f1 (i : Z) : list hw_call :=
  [LL_GPIO_SetPinMode GPIOB (GPIO_PIN i) PinAlternate; LL_GPIO_SetPinOutputType_OPENDRAIN GPIOB (GPIO_PIN i);
   LL_GPIO_SetPinSpeed_LOW GPIOB (GPIO_PIN i)].
Definition i2c_pin_f4 (i : Z) : list hw_call :=
  [LL_GPIO_SetPinMode GPIOB (GPIO_PIN i) PinAlternate; LL_GPIO_SetAFPin_8_15 GPIOB (GPIO_PIN i) (AF 4);
   LL_GPIO_SetPinOutputType_OPENDRAIN GPIOB (GPIO_PIN i); LL_GPIO_SetPinSpeed_LOW GPIOB (GPIO_PIN i)].
Definition i2c_pin_f7 (i : Z) : list hw_call :=
  [LL_GPIO_SetPinMode GPIOB (GPIO_PIN i) PinAlternate; LL_GPIO_SetAFPin_8_15 GPIOB (GPIO_PIN i) (AF 4);
   LL_GPIO_SetPinOutputType_OPENDRAIN GPIOB (GPIO_PIN i); LL_GPIO_SetPinPull_NO GPIOB (GPIO_PIN i);
   LL_GPIO_SetPinSpeed_LOW GPIOB (GPIO_PIN i)].
Definition i2c_pin_g0 (p : gpio_port) (i a : Z) : hw_call := LL_GPIO_Init p (mkLL (GPIO_PIN i) PinAlternate true (AF a)).

Definition i2c_pins_on (b : board) (n : Z) : list hw_call :=
  match b with
  | BMPLC_M => CLK_ENABLE (CLK_GPIO GPIOB) :: i2c_pin_f1 6 ++ i2c_pin_f1 7
  | STM32F407xx => CLK_ENABLE (CLK_GPIO GPIOB) :: i2c_pin_f4 8 ++ i2c_pin_f4 9
  | BMPLC_XL | BMPLC_L | STM32F765xx => CLK_ENABLE (CLK_GPIO GPIOB) :: i2c_pin_f7 8 ++ i2c_pin_f7 9
  | STM32G0B1xx =>
      if n =? 1 then [CLK_ENABLE (CLK_GPIO GPIOA); i2c_pin_g0 GPIOA 9 6; i2c_pin_g0 GPIOA 10 6]
      else if n =? 2 then [CLK_ENABLE (CLK_GPIO GPIOA); i2c_pin_g0 GPIOA 6 8; i2c_pin_g0 GPIOA 7 8]
      else if n =? 3 then [CLK_ENABLE (CLK_GPIO GPIOB); i2c_pin_g0 GPIOB 3 6; i2c_pin_g0 GPIOB 4 6]
      else []
  end.
Definition i2c_setup (b : board) (n : Z) : list hw_call :=
  let v2 := [LL_I2C_EnableAutoEndMode n; LL_I2C_SetOwnAddress2_0 n; LL_I2C_DisableOwnAddress2 n; LL_I2C_DisableGeneralCall n;
    LL_I2C_EnableClockStretching n] in
  match b with
  | BMPLC_M | STM32F407xx => [LL_I2C_Init n (ClockSpeed 100000); LL_I2C_Enable n]
  | BMPLC_XL | BMPLC_L | STM32F765xx => LL_I2C_Init n Timing_100 :: v2
  | STM32G0B1xx => LL_I2C_Init n (Timing 0x10B17DB5) :: v2
  end.
Definition i2c_pins_off (b : board) (n : Z) : list hw_call :=
  let off p i := LL_GPIO_SetPinMode p (GPIO_PIN i) PinAnalog in
  match b with
  | BMPLC_M => [off GPIOB 6; off GPIOB 7]
  | STM32F407xx | BMPLC_XL | BMPLC_L | STM32F765xx => [off GPIOB 8; off GPIOB 9]
  | STM32G0B1xx =>
      if n =? 1 then [off GPIOA 9; off GPIOA 10]
      else if n =? 2 then [off GPIOA 6; off GPIOA 7]
      else if n =? 3 then [off GPIOB 3; off GPIOB 4]
      else []
  end.
(** [RHSHalI2cBusHandleEventActivate] or [...Deactivate] of the handle of bus [n]. *)
Definition rhs_hal_i2c_bus_handle_event (b : board) (n : Z) (activate : bool) : list hw_call :=
  if activate then i2c_pins_on b n ++ i2c_setup b n
  else [LL_I2C_GenerateStopCondition n; LL_I2C_Disable n] ++ i2c_pins_off b n.

(** ** What the calls do to clocks and pins

    As the libraries' manuals say: a port must be clocked for its registers to be written;
    a pin that is reset is in the mode [reset_mode] of the part. *)

Record pin_setting := mkSetting { s_mode : pin_mode; s_open_drain : bool; s_af : option af }.

Definition clock_effect (x : hw_call) (k : clock) (on : bool) : bool :=
  match x with
  | CLK_ENABLE c => bool_decide (k = c) || on
  | CLK_DISABLE c => negb (bool_decide (k = c)) && on
  | _ => on
  end.

Definition hit (p : gpio_port) (mask : Z) (q : gpio_port) (i : Z) : bool := bool_decide (q = p) && Z.testbit mask i.
Definition mode_of (m : gpio_mode) : pin_mode :=
  match m with GPIO_MODE_AF_PP => PinAlternate | GPIO_MODE_OUTPUT_PP => PinOutput | _ => PinInput end.
Definition pin_effect (reset : pin_mode) (x : hw_call) (q : gpio_port) (i : Z) (s : pin_setting) : pin_setting :=
  match x with
  | HAL_GPIO_Init p g => if hit p (pi_Pin g) q i then mkSetting (mode_of (pi_Mode g)) false (pi_Alternate g) else s
  | HAL_GPIO_DeInit p m => if hit p m q i then mkSetting reset false None else s
  | LL_GPIO_SetPinMode p m k => if hit p m q i then mkSetting k (s_open_drain s) (s_af s) else s
  | LL_GPIO_SetAFPin_8_15 p m a => if hit p m q i then mkSetting (s_mode s) (s_open_drain s) (Some a) else s
  | LL_GPIO_SetPinOutputType_OPENDRAIN p m => if hit p m q i then mkSetting (s_mode s) true (s_af s) else s
  | LL_GPIO_Init p g => if hit p (ll_Pin g) q i then mkSetting (ll_Mode g) (ll_open_drain g) (Some (ll_Alternate g)) else s
  | _ => s
  end.
(** The port a call writes to. *)
Definition port_of (x : hw_call) : option gpio_port :=
  match x with
  | HAL_GPIO_Init p _ | HAL_GPIO_DeInit p _ | LL_GPIO_SetPinMode p _ _ | LL_GPIO_SetAFPin_8_15 p _ _
  | LL_GPIO_SetPinOutputType_OPENDRAIN p _ | LL_GPIO_SetPinSpeed_LOW p _ | LL_GPIO_SetPinPull_NO p _ | LL_GPIO_Init p _ => Some p
  | _ => None
  end.

Class Vendor (P : Type) := { vendor : hw_call -> P -> P }.
Class VendorLaws (P : Type) `{Vendor P} := {
  clock_on : clock -> P -> bool;
  setting : gpio_port -> Z -> P -> pin_setting;
  reset_mode : pin_mode;
  vendor_clock x k p : clock_on k (vendor x p) = clock_effect x k (clock_on k p);
  vendor_pin x q i p : (forall r, port_of x = Some r -> clock_on (CLK_GPIO r) p = true) -> 0 <= i < 16 ->
    setting q i (vendor x p) = pin_effect reset_mode x q i (setting q i p)
}.

(** A sequence of calls. *)
Definition vendor_all {P} `{Vendor P} (l : list hw_call) (p : P) : P := foldl (fun p x => vendor x p) p l.

(** Whether every port a sequence writes to is clocked by then, from the clocks [on]. *)
Fixpoint ports_clocked (on : clock -> bool) (l : list hw_call) : Prop :=
  match l with
  | [] => True
  | x :: l => match port_of x with Some r => on (CLK_GPIO r) = true | None => True end /\ ports_clocked (fun k => clock_effect x k (on k)) l
  end.

Section calls.
Context {P : Type} `{VendorLaws P}.
Implicit Types p : P.

Lemma vendor_all_app l l' p : vendor_all (l ++ l') p = vendor_all l' (vendor_all l p).
Proof. apply foldl_app. Qed.

Lemma vendor_all_clock l k p : clock_on k (vendor_all l p) = foldl (fun on x => clock_effect x k on) (clock_on k p) l.
Proof. revert p. induction l as [|x l IH]; intros p; [done|]. cbn [vendor_all foldl]. fold (vendor_all l (vendor x p)). by rewrite IH, vendor_clock. Qed.

Lemma ports_clocked_ext on on' l : (forall k, on k = on' k) -> ports_clocked on l -> ports_clocked on' l.
Proof.
  revert on on'. induction l as [|x l IH]; intros on on' E; [done|]. cbn. intros [Hx Hl]. split.
  - destruct (port_of x); [by rewrite <- E|done].
  - eapply IH; [|exact Hl]. intros k. cbn. by rewrite E.
Qed.

Lemma vendor_all_pin l q i p : ports_clocked (fun k => clock_on k p) l -> 0 <= i < 16 ->
  setting q i (vendor_all l p) = foldl (fun s x => pin_effect reset_mode x q i s) (setting q i p) l.
Proof.
  revert p. induction l as [|x l IH]; intros p Hl Hi; [done|]. destruct Hl as [Hx Hl].
  cbn [vendor_all foldl]. fold (vendor_all l (vendor x p)). rewrite IH; [|by eapply ports_clocked_ext; [|exact Hl]; intros k; rewrite vendor_clock|done].
  f_equal. apply vendor_pin; [|done]. intros r Hr. by rewrite Hr in Hx.
Qed.
End calls.

(** Which pin a mask of one or two pins hits. *)
Lemma pin_testbit n i : 0 <= n -> 0 <= i -> Z.testbit (GPIO_PIN n) i = (n =? i).
Proof.
  intros Hn Hi. unfold GPIO_PIN. rewrite Z.shiftl_1_l. apply Z.pow2_bits_eqb. lia.
Qed.
Lemma hit_pin p n q i : 0 <= n -> 0 <= i -> hit p (GPIO_PIN n) q i = bool_decide (q = p) && (n =? i).
Proof. intros Hn Hi. unfold hit. by rewrite pin_testbit. Qed.
Lemma hit_two p n m q i : 0 <= n -> 0 <= m -> 0 <= i -> hit p (two_pins n m) q i = bool_decide (q = p) && ((n =? i) || (m =? i)).
Proof. intros Hn Hm Hi. unfold hit, two_pins. by rewrite Z.lor_spec, !pin_testbit. Qed.

(** ** The I2C buses *)

(** The lines of a bus: port, SCL or SDA, the other, and their alternate function, by number
    where the part has numbers. *)
Definition i2c_lines (b : board) (n : Z) : gpio_port * Z * Z * option af :=
  match b with
  | BMPLC_M => (GPIOB, 6, 7, None)
  | STM32G0B1xx => if n =? 1 then (GPIOA, 9, 10, Some (AF 6)) else if n =? 2 then (GPIOA, 6, 7, Some (AF 8)) else (GPIOB, 3, 4, Some (AF 6))
  | _ => (GPIOB, 8, 9, Some (AF 4))
  end.
Definition i2c_line (b : board) (n : Z) (q : gpio_port) (i : Z) : bool :=
  let '(port, x, y, _) := i2c_lines b n in bool_decide (q = port) && ((x =? i) || (y =? i)).

Section i2c_theorems.
Context {P : Type} `{VendorLaws P}.
Implicit Types p : P.

(** The buses there are, one after the other. *)
Lemma i2c_bus_cases b n : has_i2c_bus b n = true -> (n = 1 \/ b = STM32G0B1xx /\ (n = 2 \/ n = 3)).
Proof.
  destruct b; cbn; try (intros ->%Z.eqb_eq; by left). intros [H1%Z.leb_le H2%Z.leb_le]%andb_prop.
  assert (n = 1 \/ n = 2 \/ n = 3) as [-> |[-> | ->]] by lia; auto.
Qed.

(** The settings after a sequence of calls, by cases on the pin. *)
Ltac closed_tests :=
  repeat match goal with
         | |- context [Z.pos ?a =? Z.pos ?b] => let v := eval cbv in (Z.pos a =? Z.pos b) in change (Z.pos a =? Z.pos b) with v
         end.
Ltac the_calls :=
  cbv beta iota zeta delta [i2c_lines i2c_line bus_activate bus_deactivate rhs_hal_i2c_bus_handle_event i2c_pins_on i2c_setup i2c_pins_off
    i2c_pin_f1 i2c_pin_f4 i2c_pin_f7 i2c_pin_g0]; closed_tests; cbv beta iota; cbn [app].
Ltac on_pins q :=
  rewrite vendor_all_pin; [|cbn in *; rewrite ?orb_true_r; tauto|lia];
  cbn [foldl pin_effect ll_Pin ll_Mode ll_open_drain ll_Alternate]; rewrite ?hit_pin by lia;
  destruct (bool_decide (q = _)); cbn [andb];
  [repeat match goal with |- context [?a =? ?i] => destruct (Z.eqb_spec a i) end; try lia|];
  try done; try (by destruct (setting _ _ _)).

(** Acquiring an I2C bus clocks its peripheral and turns its two lines, and no other pin, into
    open-drain outputs of it; releasing it makes them analog again, with all other pins as they
    were, and stops the clock; on every board and for every bus it has. *)
Theorem i2c_bus_pins b n p : has_i2c_bus b n = true ->
  let '(port, x, y, a) := i2c_lines b n in
  let up := vendor_all (bus_activate b n ++ rhs_hal_i2c_bus_handle_event b n true) p in
  clock_on (CLK_I2C n) up = true /\ clock_on (CLK_GPIO port) up = true /\
  (forall q i, 0 <= i < 16 -> setting q i up =
     if i2c_line b n q i then mkSetting PinAlternate true (match a with Some a => Some a | None => s_af (setting q i p) end)
     else setting q i p) /\
  forall p2, clock_on (CLK_GPIO port) p2 = true ->
    let down := vendor_all (rhs_hal_i2c_bus_handle_event b n false ++ bus_deactivate b n) p2 in
    clock_on (CLK_I2C n) down = false /\
    forall q i, 0 <= i < 16 -> setting q i down =
      if i2c_line b n q i then mkSetting PinAnalog (s_open_drain (setting q i p2)) (s_af (setting q i p2)) else setting q i p2.
Proof.
  intros Hb. apply i2c_bus_cases in Hb as [-> |[-> [-> | ->]]]; [destruct b| |]; the_calls.
  all: split; [rewrite vendor_all_clock; cbn; rewrite ?orb_true_r; done|].
  all: split; [rewrite vendor_all_clock; cbn; rewrite ?orb_true_r; done|].
  all: split; [|intros p2 Hp2; split; [rewrite vendor_all_clock; cbn; rewrite ?andb_false_r; done|]].
  all: intros q i Hi; on_pins q.
Qed.
End i2c_theorems.

(** ** The flash and the speaker *)

(** The lines of the flash and of the speaker, with their alternate function. *)
Definition flash_lines (b : board) : list (gpio_port * Z * Z) :=
  match b with
  | BMPLC_L => [(GPIOE, 2, 9); (GPIOA, 1, 9); (GPIOB, 2, 9); (GPIOD, 11, 9); (GPIOD, 12, 9); (GPIOB, 6, 10)]
  | BMPLC_XL => [(GPIOF, 6, 9); (GPIOF, 7, 9); (GPIOF, 10, 9); (GPIOF, 8, 10); (GPIOF, 9, 10); (GPIOB, 6, 10)]
  | _ => []
  end.
Definition has_flash (b : board) : bool := match b with BMPLC_L | BMPLC_XL => true | _ => false end.

Section flash_theorems.
Context {P : Type} `{VendorLaws P}.
Implicit Types p : P.

Definition flash_line (b : board) (q : gpio_port) (i : Z) : option Z :=
  head (omap (fun l => if bool_decide (l.1 = (q, i)) then Some l.2 else None) (flash_lines b)).

(** A statement about a pin, one pin at a time. *)
Lemma each_pin (Q : Z -> Prop) : (forall n, (n < 16)%nat -> Q (Z.of_nat n)) -> forall i, 0 <= i < 16 -> Q i.
Proof. intros HQ i Hi. rewrite <- (Z2Nat.id i) by lia. apply HQ. lia. Qed.
Ltac pin_by_pin := apply each_pin; intros n Hn; do 16 (destruct n as [|n]; [reflexivity|]); lia.

(** The set-up of the flash gives each of its six lines the alternate function the chip's
    line needs and touches no other pin; what undoes it resets exactly these lines and stops the
    peripheral's clock. *)
Theorem flash_pins_correct b p : has_flash b = true ->
  let up := vendor_all (HAL_QSPI_MspInit b) p in
  clock_on CLK_QSPI up = true /\
  (forall q i, 0 <= i < 16 -> setting q i up =
     match flash_line b q i with Some a => mkSetting PinAlternate false (Some (AF a)) | None => setting q i p end) /\
  forall p2, (forall r, r ∈ (flash_lines b).*1.*1 -> clock_on (CLK_GPIO r) p2 = true) ->
    let down := vendor_all (HAL_QSPI_MspDeInit b) p2 in
    clock_on CLK_QSPI down = false /\
    forall q i, 0 <= i < 16 -> setting q i down =
      if flash_line b q i is Some _ then mkSetting reset_mode false None else setting q i p2.
Proof.
  intros Hb. destruct b; try discriminate; cbv zeta;
    (split; [rewrite vendor_all_clock; cbn; rewrite ?orb_true_r; reflexivity|]); split.
  1, 3: intros q i Hi; rewrite vendor_all_pin by (done || (cbn; rewrite ?orb_true_r; tauto)); revert i Hi; destruct q; pin_by_pin.
  all: intros p2 Hp2; (split; [rewrite vendor_all_clock; reflexivity|]).
  all: intros q i Hi; rewrite vendor_all_pin; [revert i Hi; destruct q; pin_by_pin| |done].
  all: cbn in *; repeat split; apply Hp2; set_solver.
Qed.
End flash_theorems.

(** ** CAN *)

Definition has_can (b : board) (i : can_instance) : bool :=
  match b, i with (BMPLC_XL | BMPLC_L | BMPLC_M), CAN1_ => true | STM32F407xx, _ => true | _, _ => false end.
(** The port of an instance, and its lines with their modes. *)
Definition can_port (b : board) (i : can_instance) : gpio_port :=
  match b, i with
  | (BMPLC_XL | BMPLC_L), _ => GPIOA
  | STM32F407xx, CAN1_ => GPIOD
  | _, _ => GPIOB
  end.
Definition can_lines (b : board) (i : can_instance) : list (Z * pin_mode) :=
  match b, i with
  | (BMPLC_XL | BMPLC_L), CAN1_ => [(11, PinAlternate); (12, PinAlternate)]
  | BMPLC_M, CAN1_ => [(8, PinInput); (9, PinAlternate)]
  | STM32F407xx, CAN1_ => [(0, PinAlternate); (1, PinAlternate)]
  | STM32F407xx, CAN2_ => [(5, PinAlternate); (6, PinAlternate)]
  | _, _ => []
  end.

(** Which instances are up. *)
Definition is_up (i : can_instance) (u : bool * bool) : bool := match i with CAN1_ => u.1 | CAN2_ => u.2 end.
Definition set_up (i : can_instance) (v : bool) (u : bool * bool) : bool * bool :=
  match i with CAN1_ => (v, u.2) | CAN2_ => (u.1, v) end.

Section can_theorems.
Context {P : Type} `{VendorLaws P} (b : board).
Implicit Types p : P.

(** What the rest of the program may do: other clocks and pins, and no port off. *)
Definition can_undisturbed p p' : Prop :=
  (forall k, k = CLK_CAN1 \/ k = CLK_CAN2 -> clock_on k p' = clock_on k p) /\
  (forall r, clock_on (CLK_GPIO r) p = true -> clock_on (CLK_GPIO r) p' = true) /\
  forall i l, l ∈ can_lines b i -> setting (can_port b i) l.1 p' = setting (can_port b i) l.1 p.

(** The calls of the HAL: an instance that is down is initialised and one that is up is
    de-initialised, as the driver's [enabled] and the HAL's own state see to; anything else
    in between. The counter is [HAL_RCC_CAN1_CLK_ENABLED]. *)
Inductive can_steps : P -> Z -> bool * bool -> Prop :=
  | can_start p : clock_on CLK_CAN1 p = false -> clock_on CLK_CAN2 p = false -> can_steps p 0 (false, false)
  | can_other p p' n u : can_steps p n u -> can_undisturbed p p' -> can_steps p' n u
  | can_init i p n u : can_steps p n u -> has_can b i = true -> is_up i u = false ->
      can_steps (vendor_all (HAL_CAN_MspInit b i n).1 p) (HAL_CAN_MspInit b i n).2 (set_up i true u)
  | can_deinit i p n u : can_steps p n u -> has_can b i = true -> is_up i u = true ->
      can_steps (vendor_all (HAL_CAN_MspDeInit b i n).1 p) (HAL_CAN_MspDeInit b i n).2 (set_up i false u).

Definition can_works (i : can_instance) p : Prop :=
  clock_on (CLK_GPIO (can_port b i)) p = true /\
  forall l, l ∈ can_lines b i -> s_mode (setting (can_port b i) l.1 p) = l.2.
Definition can_inv p (n : Z) (u : bool * bool) : Prop :=
  clock_on CLK_CAN1 p = u.1 || u.2 /\ clock_on CLK_CAN2 p = u.2 /\
  (b = STM32F407xx -> n = Z.b2z u.1 + Z.b2z u.2) /\ forall i, is_up i u = true -> has_can b i = true /\ can_works i p.

(** An instance that is not touched, and the one that is. *)
Lemma can_works_after l j p : ports_clocked (fun k => clock_on k p) l ->
  foldl (fun on x => clock_effect x (CLK_GPIO (can_port b j)) on) (clock_on (CLK_GPIO (can_port b j)) p) l = true ->
  (forall i m, (i, m) ∈ can_lines b j -> 0 <= i < 16 /\
     s_mode (foldl (fun s x => pin_effect reset_mode x (can_port b j) i s) (setting (can_port b j) i p) l) = m) ->
  can_works j (vendor_all l p).
Proof.
  intros Hl Hc Hpins. split; [by rewrite vendor_all_clock|]. intros [i m] Hin. cbn.
  destruct (Hpins i m Hin) as [Hi Hm]. by rewrite vendor_all_pin.
Qed.

Lemma no_can2 p n u : can_inv p n u -> has_can b CAN2_ = false -> u.2 = false.
Proof. intros (_ & _ & _ & Hup) Hno. destruct u.2 eqn:E; [|done]. destruct (Hup CAN2_) as [Hyes _]; [done|congruence]. Qed.
End can_theorems.

Ltac can_lines_cases Hin :=
  repeat (apply elem_of_cons in Hin as [[= -> ->]|Hin]); try (by apply elem_of_nil in Hin).
(** An instance after a step: by its own calls, or as it was. *)
Ltac can_unchanged Hup j :=
  apply can_works_after;
  [cbn; rewrite ?orb_true_r; repeat split; try done; try match goal with Hport : clock_on (CLK_GPIO _) _ = true |- _ => exact Hport end
  |first [reflexivity|apply (Hup j eq_refl)]
  |let Hin := fresh in intros ? ? Hin; cbn in Hin; pose proof Hin as Hold; can_lines_cases Hin;
   (split; [lia|first [reflexivity|exact (proj2 (proj2 (Hup j eq_refl)) _ Hold)]])].
Ltac can_step H1 H2 Hup :=
  split_and!;
  [rewrite vendor_all_clock; cbn; rewrite ?H1, ?H2; reflexivity
  |rewrite vendor_all_clock; cbn; rewrite ?H1, ?H2; reflexivity
  |done
  |let j := fresh in intros j ?; destruct j; try discriminate; (split; [done|]);
   match goal with |- can_works _ ?i _ => can_unchanged Hup i end].

Section can_invariant.
Context {P : Type} `{VendorLaws P} (b : board).
Implicit Types p : P.

Lemma can_init_inv i p n u : can_inv b p n u -> has_can b i = true -> is_up i u = false ->
  can_inv b (vendor_all (HAL_CAN_MspInit b i n).1 p) (HAL_CAN_MspInit b i n).2 (set_up i true u).
Proof.
  intros Hinv Hi Hd. pose proof (no_can2 b p n u Hinv) as Hno. destruct Hinv as (H1 & H2 & Hn & Hup).
  destruct u as [u1 u2]. cbn in H1, H2, Hno.
  destruct b; try (by destruct i); destruct i, u1, u2; try discriminate; try (by specialize (Hno eq_refl)).
  all: try (rewrite Hn by done); cbn -[vendor_all].
  all: can_step H1 H2 Hup.
Qed.

Lemma can_deinit_inv i p n u : can_inv b p n u -> has_can b i = true -> is_up i u = true ->
  can_inv b (vendor_all (HAL_CAN_MspDeInit b i n).1 p) (HAL_CAN_MspDeInit b i n).2 (set_up i false u).
Proof.
  intros Hinv Hi Hd. pose proof (no_can2 b p n u Hinv) as Hno. destruct Hinv as (H1 & H2 & Hn & Hup).
  destruct (Hup i Hd) as (_ & Hport & _).
  destruct u as [u1 u2]. cbn in H1, H2, Hno.
  destruct b; try (by destruct i); destruct i, u1, u2; try discriminate; try (by specialize (Hno eq_refl)).
  all: try (rewrite Hn by done); cbn -[vendor_all].
  all: can_step H1 H2 Hup.
Qed.

(** C10: however the CAN instances of a board are initialised and de-initialised, the clock of CAN1
    runs exactly while one of them is in use, CAN2 needing it too, and that of CAN2 while CAN2
    is; the count of users is right, and the lines of every instance in use are in their modes. *)
Theorem can_clock_counted p n u : can_steps b p n u ->
  clock_on CLK_CAN1 p = u.1 || u.2 /\ clock_on CLK_CAN2 p = u.2 /\
  (b = STM32F407xx -> n = Z.b2z u.1 + Z.b2z u.2) /\
  forall i, is_up i u = true -> clock_on (CLK_GPIO (can_port b i)) p = true /\
    forall l, l ∈ can_lines b i -> s_mode (setting (can_port b i) l.1 p) = l.2.
Proof.
  intros Hsteps. assert (Hinv : can_inv b p n u).
  { induction Hsteps as [p H1 H2|p p' n u _ IH Hsame|i p n u _ IH Hi Hd|i p n u _ IH Hi Hd].
    - split_and!; [done|done|done|by intros []].
    - destruct IH as (H1 & H2 & Hn & Hup), Hsame as (Hc & Hg & Hs). split_and!; [by rewrite Hc by auto..|done|].
      intros i Hi. destruct (Hup i Hi) as (? & Hport & Hl). split; [done|]. split; [by apply Hg|]. intros l Hin. by rewrite Hs, Hl.
    - by apply can_init_inv.
    - by apply can_deinit_inv. }
  destruct Hinv as (H1 & H2 & Hn & Hup). split_and!; try done. intros i Hi. by destruct (Hup i Hi).
Qed.
End can_invariant.

(** ** A part to instantiate the theorems with *)

Record plain_part := mkPart { pp_clock : clock -> bool; pp_pin : gpio_port -> Z -> pin_setting }.
#[global] Instance plain_vendor : Vendor plain_part := {
  vendor x p := mkPart (fun k => clock_effect x k (pp_clock p k)) (fun q i => pin_effect PinInput x q i (pp_pin p q i)) }.
#[global] Instance plain_vendor_laws : VendorLaws plain_part.
Proof.
  refine (Build_VendorLaws _ _ (fun k p => pp_clock p k) (fun q i p => pp_pin p q i) PinInput _ _); done.
Defined.
Definition part_at_reset : plain_part := mkPart (fun _ => false) (fun _ _ => mkSetting PinInput false None).

(** ** The theorems at work *)

Lemma i2c_bus_pins_witness :
  let up := vendor_all (bus_activate STM32G0B1xx 2 ++ rhs_hal_i2c_bus_handle_event STM32G0B1xx 2 true) part_at_reset in
  clock_on (CLK_I2C 2) up = true /\ setting GPIOA 6 up = mkSetting PinAlternate true (Some (AF 8)) /\
  setting GPIOA 8 up = mkSetting PinInput false None.
Proof.
  intros up. destruct (i2c_bus_pins STM32G0B1xx 2 part_at_reset eq_refl) as (Hc & _ & Hpins & _).
  split; [exact Hc|]. split; [etransitivity; [exact (Hpins GPIOA 6 ltac:(lia))|reflexivity]|etransitivity; [exact (Hpins GPIOA 8 ltac:(lia))|reflexivity]].
Defined.

(** CAN2 and then CAN1 up, and CAN2 down again: the clock of CAN1 still runs. *)
Lemma can_clock_counted_witness : exists p, can_steps STM32F407xx p 1 (true, false) /\
  clock_on CLK_CAN1 p = true /\ clock_on CLK_CAN2 p = false.
Proof.
  pose proof (can_start STM32F407xx part_at_reset eq_refl eq_refl) as S0.
  pose proof (can_init STM32F407xx CAN2_ _ _ _ S0 eq_refl eq_refl) as S1.
  pose proof (can_init STM32F407xx CAN1_ _ _ _ S1 eq_refl eq_refl) as S2.
  pose proof (can_deinit STM32F407xx CAN2_ _ _ _ S2 eq_refl eq_refl) as S3.
  destruct (can_clock_counted STM32F407xx _ _ _ S3) as (H1 & H2 & _).
  eexists. split; [exact S3|]. split; [exact H1|exact H2].
Defined.

Lemma flash_pins_correct_witness :
  let up := vendor_all (HAL_QSPI_MspInit BMPLC_L) part_at_reset in
  clock_on CLK_QSPI up = true /\ setting GPIOB 6 up = mkSetting PinAlternate false (Some (AF 10)) /\
  setting GPIOB 7 up = mkSetting PinInput false None.
Proof.
  intros up. destruct (flash_pins_correct BMPLC_L part_at_reset eq_refl) as (Hc & Hpins & _).
  split; [exact Hc|]. split; [exact (Hpins GPIOB 6 ltac:(lia))|exact (Hpins GPIOB 7 ltac:(lia))].
Defined.
