(* ===== verification/EthHal.v ===== *)
(** * The Ethernet peripheral (hal/rhs_hal_eth)

    [rhs_hal_eth_init] and [rhs_hal_eth_deinit] of the STM32F407 and STM32F765, on the registers
    and pins of [Gpio]: pins, interface selection, clocks and the reset of the MAC. *)

From S2P Require Import Prelude Gpio.

Definition ETH_IRQn : raw_irq := irq_number 61.
Definition SYSCFG_PMC_MII_RMII_SEL : Z := 2 ^ 23.
Definition RCC_AHB1ENR_ETHMACEN : Z := 2 ^ 25.
Definition RCC_AHB1ENR_ETHMACTXEN : Z := 2 ^ 26.
Definition RCC_AHB1ENR_ETHMACRXEN : Z := 2 ^ 27.
Definition RCC_AHB1RSTR_ETHMACRST : Z := 2 ^ 25.

(** ETH_RMII_REF_CLK, MDIO, CRS_DV, TX_EN, TXD0, TXD1, MDC, RXD0, RXD1. *)
Definition pins : list (Z * Z) := [(0, 1); (0, 2); (0, 7); (1, 11); (1, 12); (1, 13); (2, 1); (2, 4); (2, 5)].

Section eth.
Context {R : Type} `{Registers R} (d : device).

Fixpoint init_pins (l : list (Z * Z)) (mode speed af : Z) : M R unit :=
  match l with
  | [] => mret tt
  | (bank, num) :: l =>
      gpio_init d (PIN bank num) mode MG_GPIO_OTYPE_PUSH_PULL speed MG_GPIO_PULL_NONE af;; init_pins l mode speed af
  end.

(** [while (!done);]: what the peripheral does meanwhile is the hardware's. *)
Context (eth_step : R -> R).
Fixpoint wait_until (fuel : nat) (done : M R bool) : M R unit :=
  match fuel with
  | O => hang
  | S fuel => ok ← done; if ok : bool then mret tt else modify eth_step;; wait_until fuel done
  end.

Definition reset_applied : M R bool :=
  v ← rd RCC_AHB1RSTR; mret (negb (Z.land v RCC_AHB1RSTR_ETHMACRST =? 0)).
Definition reset_released : M R bool :=
  v ← rd RCC_AHB1RSTR;
  if negb (Z.land v RCC_AHB1RSTR_ETHMACRST =? 0) then mret false
  else m ← rd ETH_MACCR; mret (negb (Z.land m 0x00008000 =? 0)).

Definition eth_clocks : Z := Z.lor (Z.lor RCC_AHB1ENR_ETHMACEN RCC_AHB1ENR_ETHMACTXEN) RCC_AHB1ENR_ETHMACRXEN.

Definition rhs_hal_eth_init (fuel : nat) : M R unit :=
  init_pins pins MG_GPIO_MODE_AF MG_GPIO_SPEED_INSANE 11;;
  modify (raw_EnableIRQ ETH_IRQn);;
  or_reg SYSCFG_PMC SYSCFG_PMC_MII_RMII_SEL;;
  or_reg RCC_AHB1ENR eth_clocks;;
  or_reg RCC_AHB1RSTR RCC_AHB1RSTR_ETHMACRST;;
  wait_until fuel reset_applied;;
  clear_reg RCC_AHB1RSTR RCC_AHB1RSTR_ETHMACRST;;
  wait_until fuel reset_released.

Definition rhs_hal_eth_deinit : M R unit :=
  modify (raw_DisableIRQ ETH_IRQn);;
  clear_reg RCC_AHB1ENR eth_clocks;;
  clear_reg SYSCFG_PMC SYSCFG_PMC_MII_RMII_SEL;;
  init_pins pins MG_GPIO_MODE_INPUT MG_GPIO_SPEED_LOW 0.
End eth.

(** ** What they do *)

Section theorems.
Context {R : Type} `{RegisterLaws R} (d : device) (eth_step : R -> R).
Implicit Types r : R.

(** Between two polls only the peripheral's own registers change, and [MACCR] shows its reset
    value within [k] polls once the reset is released. *)
Class EthLaws (k : nat) := {
  eth_step_quiet x r : quiet x = true -> read_reg x (eth_step r) = read_reg x r;
  eth_reset_ends r : Z.testbit (read_reg RCC_AHB1RSTR r) 25 = false ->
    exists j, (j <= k)%nat /\ Z.testbit (read_reg ETH_MACCR (Nat.iter j eth_step r)) 15 = true
}.

Definition on_eth_pin (b i : Z) : bool := bool_decide ((b, i) ∈ pins).

Lemma init_pins_eq l mode speed af r : d <> F103 -> 0 <= mode < 4 -> 0 <= speed < 4 -> 0 <= af < 16 ->
  Forall (fun p => 0 <= p.1 < banks /\ 0 <= p.2 < 16) l -> exists r',
  init_pins d l mode speed af r = Ret (tt, r') /\
  (forall f b i, 0 <= b < banks -> 0 <= i < 16 -> pin_get f b i r' =
     if bool_decide ((b, i) ∈ l) then settings mode MG_GPIO_OTYPE_PUSH_PULL speed MG_GPIO_PULL_NONE af f (pin_get f b i r) else pin_get f b i r).
Proof.
  intros Hd Hm Hs Ha. revert r. induction l as [|[bank num] l IH]; intros r Hl.
  - exists r. split; [done|]. intros f b i _ _. by rewrite bool_decide_eq_false_2 by apply not_elem_of_nil.
  - apply Forall_cons in Hl as [[Hb Hn] Hl]. cbn in Hb, Hn.
    destruct (gpio_init_in d bank num mode MG_GPIO_OTYPE_PUSH_PULL speed MG_GPIO_PULL_NONE af r) as (r1 & E1 & G1 & _ & _);
      try (done || (unfold MG_GPIO_OTYPE_PUSH_PULL, MG_GPIO_PULL_NONE; lia)).
    destruct (IH r1 Hl) as (r2 & E2 & G2). exists r2. cbn [init_pins]. rewrite (bind_eq _ _ _ _ _ E1). split; [exact E2|].
    intros f b i Hb' Hi. rewrite G2, G1 by done.
    destruct (decide (b = bank /\ i = num)) as [[-> ->]|Hne].
    + rewrite (bool_decide_eq_true_2 (_ ∈ _ :: _)) by by left. by destruct (bool_decide _), f.
    + assert ((b, i) ∈ (bank, num) :: l <-> (b, i) ∈ l) as Hiff by (rewrite elem_of_cons; naive_solver).
      by rewrite (bool_decide_ext _ _ Hiff).
Qed.

(** A register written under a mask, bit by bit where it keeps them. *)
Lemma or_reg_bits x v r : in_u32 v -> exists r', or_reg x v r = Ret (tt, r') /\
  (forall j, kept banks x j = true -> Z.testbit (read_reg x r') j = Z.testbit (read_reg x r) j || Z.testbit v j) /\
  (forall y, x <> y -> quiet y = true -> read_reg y r' = read_reg y r).
Proof.
  intros Hv. eexists. split; [apply or_reg_eq|]. split.
  - intros j Hj. rewrite read_write_same, Z.lor_spec; [done|done|apply lor_u32; [apply read_reg_range|done]].
  - intros y Hne Hq. by apply read_write_other.
Qed.
Lemma clear_reg_bits x v r : exists r', clear_reg x v r = Ret (tt, r') /\
  (forall j, kept banks x j = true -> 0 <= j < 32 -> Z.testbit (read_reg x r') j = Z.testbit (read_reg x r) j && negb (Z.testbit v j)) /\
  (forall y, x <> y -> quiet y = true -> read_reg y r' = read_reg y r).
Proof.
  exists (write_reg x (Z.land (read_reg x r) (u32 (Z.lnot v))) r). split; [done|]. split.
  - intros j Hj Hj32. rewrite read_write_same, Z.land_spec, u32_lnot_testbit; [by destruct (Z.ltb_spec j 32); [|lia]|lia|done|].
    pose proof (read_reg_range x r) as Hr. unfold in_u32 in *. pose proof (u32_range (Z.lnot v)) as Hu. split.
    + apply Z.land_nonneg. lia.
    + apply (bits_range _ 32); [done|apply Z.land_nonneg; lia|]. intros i Hi. by rewrite Z.land_spec, (value_testbit 32 (u32 _)), andb_false_r by lia.
  - intros y Hne Hq. by apply read_write_other.
Qed.

Lemma pin_get_same f b i r r' : (forall x, quiet (gpio_at b x) = true -> read_reg (gpio_at b x) r' = read_reg (gpio_at b x) r) ->
  pin_get f b i r' = pin_get f b i r.
Proof. intros Hsame. unfold pin_get. rewrite Hsame; [done|]. apply (field_quiet b f i). Qed.

(** The wait for the end of the reset. *)
Lemma wait_released_eq k fuel r : EthLaws k -> (k < fuel)%nat -> Z.testbit (read_reg RCC_AHB1RSTR r) 25 = false ->
  exists j, wait_until eth_step fuel reset_released r = Ret (tt, Nat.iter j eth_step r).
Proof.
  intros Hlaws Hfuel Hr. destruct (eth_reset_ends r Hr) as (j & Hj & Hend).
  assert (Hgen : forall j r fuel, Z.testbit (read_reg RCC_AHB1RSTR r) 25 = false -> (j < fuel)%nat ->
    Z.testbit (read_reg ETH_MACCR (Nat.iter j eth_step r)) 15 = true -> exists i, wait_until eth_step fuel reset_released r = Ret (tt, Nat.iter i eth_step r)).
  { clear -Hlaws. intros j. induction j as [|j IH]; intros r fuel Hr Hf Hm; (destruct fuel as [|fuel]; [lia|]); cbn [wait_until];
      unfold reset_released, rd, gets; cbv [mbind M_bind]; unfold RCC_AHB1RSTR_ETHMACRST; rewrite (land_pow2 _ 25), Hr by lia; cbn [negb];
      change 0x00008000 with (2 ^ 15); rewrite (land_pow2 _ 15) by lia; rewrite negb_involutive.
    - change (Nat.iter 0 eth_step r) with r in Hm. rewrite Hm. by exists 0%nat.
    - destruct (Z.testbit (read_reg ETH_MACCR r) 15); [by exists 0%nat|].
      destruct (IH (eth_step r) fuel) as (i & Ei); [by rewrite eth_step_quiet|lia|by rewrite <- Nat.iter_succ_r|].
      exists (S i). rewrite Nat.iter_succ_r. exact Ei. }
  apply (Hgen j r fuel); [done|lia|done].
Qed.

Lemma iter_quiet k j x r : EthLaws k -> quiet x = true -> read_reg x (Nat.iter j eth_step r) = read_reg x r.
Proof. intros Hlaws Hq. induction j as [|j IH]; [done|]. rewrite Nat.iter_succ, eth_step_quiet, IH; done. Qed.

Lemma land_bit v j : 0 <= j -> negb (Z.land v (2 ^ j) =? 0) = Z.testbit v j.
Proof. intros Hj. by rewrite land_pow2, negb_involutive. Qed.

(** The sequence after the pins. *)
Definition eth_ready r : Prop :=
  (forall j, 25 <= j <= 27 -> Z.testbit (read_reg RCC_AHB1ENR r) j = true) /\ Z.testbit (read_reg SYSCFG_PMC r) 23 = true /\
  Z.testbit (read_reg RCC_AHB1RSTR r) 25 = false.
Definition same_ports r r' : Prop := forall b x, quiet (gpio_at b x) = true -> read_reg (gpio_at b x) r' = read_reg (gpio_at b x) r.

Lemma eth_clocks_bits j : 25 <= j <= 27 -> Z.testbit eth_clocks j = true.
Proof. intros Hj. assert (j = 25 \/ j = 26 \/ j = 27) as [-> |[-> | ->]] by lia; done. Qed.
Lemma eth_clock_kept j : 25 <= j <= 27 -> kept banks RCC_AHB1ENR j = true.
Proof. intros Hj. cbn. rewrite orb_true_iff, !andb_true_iff, !Z.leb_le. lia. Qed.

Lemma eth_start_eq k fuel r : EthLaws k -> (k < fuel)%nat -> exists r',
  (modify (raw_EnableIRQ ETH_IRQn);; or_reg SYSCFG_PMC SYSCFG_PMC_MII_RMII_SEL;; or_reg RCC_AHB1ENR eth_clocks;;
   or_reg RCC_AHB1RSTR RCC_AHB1RSTR_ETHMACRST;; wait_until eth_step fuel reset_applied;;
   clear_reg RCC_AHB1RSTR RCC_AHB1RSTR_ETHMACRST;; wait_until eth_step fuel reset_released) r = Ret (tt, r') /\
  eth_ready r' /\ same_ports r r'.
Proof.
  intros Hlaws Hfuel. set (r1 := raw_EnableIRQ ETH_IRQn r). rewrite (bind_eq _ _ r tt r1) by done.
  destruct (or_reg_bits SYSCFG_PMC SYSCFG_PMC_MII_RMII_SEL r1) as (r2 & E2 & B2 & O2); [done|]. rewrite (bind_eq _ _ _ _ _ E2).
  destruct (or_reg_bits RCC_AHB1ENR eth_clocks r2) as (r3 & E3 & B3 & O3); [done|]. rewrite (bind_eq _ _ _ _ _ E3).
  destruct (or_reg_bits RCC_AHB1RSTR RCC_AHB1RSTR_ETHMACRST r3) as (r4 & E4 & B4 & O4); [done|]. rewrite (bind_eq _ _ _ _ _ E4).
  rewrite (bind_eq _ _ r4 tt r4).
  2: { destruct fuel as [|fuel]; [lia|]. cbn [wait_until]. unfold reset_applied, rd, gets. cbv [mbind M_bind]. unfold RCC_AHB1RSTR_ETHMACRST.
       cbv [mret M_ret]. rewrite land_bit, B4 by (lia || done). by rewrite orb_true_r. }
  destruct (clear_reg_bits RCC_AHB1RSTR RCC_AHB1RSTR_ETHMACRST r4) as (r5 & E5 & B5 & O5). rewrite (bind_eq _ _ _ _ _ E5).
  assert (Hrst : Z.testbit (read_reg RCC_AHB1RSTR r5) 25 = false) by (rewrite B5 by (done || lia); apply andb_false_r).
  destruct (wait_released_eq k fuel r5 Hlaws Hfuel Hrst) as [j Ej]. exists (Nat.iter j eth_step r5). split; [exact Ej|]. split; [split_and!|].
  - intros i Hi. rewrite (iter_quiet k), O5, O4, B3, eth_clocks_bits by (done || by apply eth_clock_kept). apply orb_true_r.
  - rewrite (iter_quiet k), O5, O4, O3, B2 by done. apply orb_true_r.
  - by rewrite (iter_quiet k).
  - intros b x Hq. rewrite (iter_quiet k), O5, O4, O3, O2 by done. apply read_EnableIRQ.
Qed.

Lemma eth_stop_eq r : exists r', (forall m : M R unit, (modify (raw_DisableIRQ ETH_IRQn);; clear_reg RCC_AHB1ENR eth_clocks;;
   clear_reg SYSCFG_PMC SYSCFG_PMC_MII_RMII_SEL;; m) r = m r') /\
  (forall j, 25 <= j <= 27 -> Z.testbit (read_reg RCC_AHB1ENR r') j = false) /\ Z.testbit (read_reg SYSCFG_PMC r') 23 = false /\ same_ports r r'.
Proof.
  set (r1 := raw_DisableIRQ ETH_IRQn r).
  destruct (clear_reg_bits RCC_AHB1ENR eth_clocks r1) as (r2 & E2 & B2 & O2).
  destruct (clear_reg_bits SYSCFG_PMC SYSCFG_PMC_MII_RMII_SEL r2) as (r3 & E3 & B3 & O3). exists r3.
  split; [intros m; rewrite (bind_eq _ _ r tt r1) by done; by rewrite (bind_eq _ _ _ _ _ E2), (bind_eq _ _ _ _ _ E3)|]. split_and!.
  - intros j Hj. rewrite O3, B2, eth_clocks_bits by (done || lia || by apply eth_clock_kept). apply andb_false_r.
  - rewrite B3 by (done || lia). apply andb_false_r.
  - intros b x Hq. rewrite O3, O2 by done. apply read_DisableIRQ.
Qed.

Lemma same_ports_pin r r' f b i : same_ports r r' -> pin_get f b i r' = pin_get f b i r.
Proof. intros Hs. apply pin_get_same. intros x. apply Hs. Qed.

Lemma pins_in_range : 3 <= banks -> Forall (fun p => 0 <= p.1 < banks /\ 0 <= p.2 < 16) pins.
Proof. intros Hb. unfold pins. repeat (apply Forall_cons; split; [cbn; lia|]). apply Forall_nil_2. Qed.

(** The pins' set-up leaves the MAC's clocks as they are. *)
Definition eth_clock_off (j : Z) r : Prop := Z.testbit (read_reg RCC_AHB1ENR r) j = false.
Lemma set_bits_keeps j b f mask v n : preserves (eth_clock_off j) (set_bits (gpio_at b f) mask v n).
Proof.
  unfold set_bits, rd. preserve. apply preserves_modify. intros x. unfold eth_clock_off. by rewrite read_write_other.
Qed.
Lemma gpio_init_keeps j bank num mode type speed pull af : 25 <= j <= 27 -> 0 <= bank < banks -> 0 <= num < 16 ->
  preserves (eth_clock_off j) (gpio_init d (PIN bank num) mode type speed pull af).
Proof.
  intros Hj Hb Hn x a x' Hx. unfold gpio_init, gpio_init_ahb. pose proof banks_le as Hle.
  destruct (PIN_parts bank num) as [En Eb]; [lia|lia|]. rewrite Eb, BIT_eq by lia. rewrite (bind_eq _ _ x (2 ^ bank) x) by done.
  revert Hx. generalize x a x'. change (preserves (eth_clock_off j) (or_reg (gpio_clock d) (2 ^ bank);;
    set_bits (gpio_bank (PIN bank num) OTYPER) 1 type (u8 (PINNO (PIN bank num)));;
    set_bits (gpio_bank (PIN bank num) OSPEEDR) 3 speed (u8 (PINNO (PIN bank num)) * 2);;
    set_bits (gpio_bank (PIN bank num) PUPDR) 3 pull (u8 (PINNO (PIN bank num)) * 2);;
    set_afr (PIN bank num) (Z.shiftr (u8 (PINNO (PIN bank num))) 3) af (Z.land (u8 (PINNO (PIN bank num))) 7 * 4);;
    set_bits (gpio_bank (PIN bank num) MODER) 3 mode (u8 (PINNO (PIN bank num)) * 2))).
  apply preserves_bind.
  - intros y [] y' Hy E. destruct (or_reg_bits (gpio_clock d) (2 ^ bank) y) as (y2 & E2 & B & O); [by apply pow2_u32; lia|].
    rewrite E2 in E. injection E as <-. unfold eth_clock_off in *. destruct (decide (gpio_clock d = RCC_AHB1ENR)) as [Ec|Ec].
    + rewrite Ec in B. rewrite B, Hy by by apply eth_clock_kept. cbn. rewrite Z.pow2_bits_eqb by lia. apply Z.eqb_neq. lia.
    + by rewrite O.
  - intros []. unfold gpio_bank, set_afr. pose proof set_bits_keeps. preserve; apply set_bits_keeps.
Qed.
Lemma init_pins_keeps j l mode speed af : 25 <= j <= 27 -> Forall (fun p => 0 <= p.1 < banks /\ 0 <= p.2 < 16) l ->
  preserves (eth_clock_off j) (init_pins d l mode speed af).
Proof.
  intros Hj. induction l as [|[bank num] l IH]; intros Hl; [apply preserves_ret|].
  apply Forall_cons in Hl as [[Hb Hn] Hl]. apply preserves_bind; [by apply gpio_init_keeps|auto].
Qed.

(** [rhs_hal_eth_init] comes back once the MAC's reset has ended: the nine lines, and no other
    pin, are at their Ethernet function and full speed, the interface is RMII, the three clocks
    run and the reset is released. [rhs_hal_eth_deinit] makes the lines inputs, again with all
    other pins as they were, and stops the clocks. *)
Theorem eth_init_correct k fuel r : EthLaws k -> (k < fuel)%nat -> d <> F103 -> 3 <= banks -> exists r',
  rhs_hal_eth_init d eth_step fuel r = Ret (tt, r') /\ eth_ready r' /\
  (forall f b i, 0 <= b < banks -> 0 <= i < 16 -> pin_get f b i r' =
     if on_eth_pin b i then settings MG_GPIO_MODE_AF MG_GPIO_OTYPE_PUSH_PULL MG_GPIO_SPEED_INSANE MG_GPIO_PULL_NONE 11 f (pin_get f b i r)
     else pin_get f b i r) /\
  forall r0, exists r2, rhs_hal_eth_deinit d r0 = Ret (tt, r2) /\
    (forall j, 25 <= j <= 27 -> Z.testbit (read_reg RCC_AHB1ENR r2) j = false) /\
    (forall f b i, 0 <= b < banks -> 0 <= i < 16 -> pin_get f b i r2 =
       if on_eth_pin b i then settings MG_GPIO_MODE_INPUT MG_GPIO_OTYPE_PUSH_PULL MG_GPIO_SPEED_LOW MG_GPIO_PULL_NONE 0 f (pin_get f b i r0)
       else pin_get f b i r0).
Proof.
  intros Hlaws Hfuel Hd Hbanks. unfold rhs_hal_eth_init, rhs_hal_eth_deinit, on_eth_pin.
  destruct (init_pins_eq pins MG_GPIO_MODE_AF MG_GPIO_SPEED_INSANE 11 r) as (r1 & E1 & G1); [done|done|done|lia|by apply pins_in_range|].
  rewrite (bind_eq _ _ _ _ _ E1). destruct (eth_start_eq k fuel r1 Hlaws Hfuel) as (r' & E & Hready & Hsame).
  exists r'. split; [exact E|]. split; [done|]. split.
  - intros f b i Hb Hi. by rewrite (same_ports_pin _ _ _ _ _ Hsame), G1.
  - intros r0. destruct (eth_stop_eq r0) as (r1' & E' & Hoff & _ & Hsame').
    destruct (init_pins_eq pins MG_GPIO_MODE_INPUT MG_GPIO_SPEED_LOW 0 r1') as (r2 & E2 & G2);
      [exact Hd|unfold MG_GPIO_MODE_INPUT; lia|unfold MG_GPIO_SPEED_LOW; lia|lia|by apply pins_in_range|].
    exists r2. rewrite E'. clear E E1 E'. split; [exact E2|]. split.
    + intros j Hj. by apply (init_pins_keeps j _ _ _ _ Hj (pins_in_range Hbanks) _ _ _ (Hoff j Hj) E2).
    + intros f b i Hb Hi. by rewrite G2, (same_ports_pin _ _ _ _ _ Hsame').
Qed.
End theorems.

(** ** The theorem at work *)

(** A part whose MAC shows its reset value a poll after the reset. *)
Definition plain_eth_step (h : plain_mcu) : plain_mcu := fun x => if decide (x = ETH_MACCR) then 2 ^ 15 else h x.
#[global] Instance plain_eth_laws : EthLaws plain_eth_step 1.
Proof.
  split.
  - intros x r Hq. cbn. unfold plain_eth_step. by rewrite decide_False by by intros ->.
  - intros r _. exists 1%nat. split; [done|]. reflexivity.
Defined.

Lemma eth_init_correct_witness : exists r', rhs_hal_eth_init F407 plain_eth_step 2 (fun _ => 0 : Z) = Ret (tt, r') /\
  pin_get F_AF 1 13 r' = 11 /\ pin_get F_MODE 1 14 r' = 0 /\ Z.testbit (read_reg RCC_AHB1RSTR r') 25 = false.
Proof.
  destruct (eth_init_correct F407 plain_eth_step 1 2 (fun _ => 0 : Z) _ ltac:(lia) ltac:(discriminate) ltac:(cbn; lia))
    as (r' & E & (_ & _ & Hrst) & Hpins & _).
  exists r'. split; [exact E|]. split; [|split; [|exact Hrst]].
  - rewrite (Hpins F_AF 1 13) by (cbn; lia). reflexivity.
  - rewrite (Hpins F_MODE 1 14) by (cbn; lia). reflexivity.
Defined.
