(* ===== verification/BoardPins.v ===== *)
(** * Which pins the peripherals of a board share

    The pins the set-ups of [PinMap], [Serial], [EthHal], [Gpio] (rhs_hal_io.c) and [Usb] claim,
    taken from the calls they make, and the pairs of peripherals that claim the same pin. *)

From S2P Require Import Prelude Interrupt Gpio Serial PinMap EthHal Usb.

Abbreviation pin := (gpio_port * Z)%type.

(** ** Pins in the calls *)

Definition mask_pins (p : gpio_port) (mask : Z) : list pin := map (pair p) (filter (fun i => Z.testbit mask i = true) (seqZ 0 16)).

Definition call_pins (x : hw_call) : list pin :=
  match x with
  | PinMap.HAL_GPIO_Init p g => mask_pins p (pi_Pin g)
  | LL_GPIO_SetPinMode p m _ => mask_pins p m
  | LL_GPIO_Init p g => mask_pins p (ll_Pin g)
  | _ => []
  end.
Definition step_pins (x : Serial.pin_step) : list pin :=
  match x with Serial.HAL_GPIO_Init p g => mask_pins p (Pin g) | _ => [] end.

(** The calls of [rhs_hal_io_init], recorded. *)
#[local] Instance recorder : HalGpio (list pin) := {
  HAL_RCC_CLK_ENABLE _ l := l; HAL_GPIO_WritePin _ _ _ l := l;
  HAL_GPIO_Init_port p g l := l ++ mask_pins p (Pin g);
  port_IDR _ _ := 0; write_port_BSRR _ _ l := l
}.

(** The bank of a register-level pin number. *)
Definition bank_port (bank : Z) : option gpio_port := [GPIOA; GPIOB; GPIOC; GPIOD; GPIOE; GPIOF; GPIOG; GPIOH] !! Z.to_nat bank.
Definition numbered_pins (l : list (Z * Z)) : list pin := omap (fun '(b, i) => p ← bank_port b; Some (p, i)) l.
Definition pin_number (x : Z) : Z * Z := (PINBANK x, PINNO x).

(** ** The peripherals of a board *)

Inductive peripheral := IO | QSPI | CAN1p | CAN2p | I2C1p | I2C2p | I2C3p | SPEAKER | RS232 | RS485 | ETH | USB.
Definition peripherals : list peripheral := [IO; QSPI; CAN1p; CAN2p; I2C1p; I2C2p; I2C3p; SPEAKER; RS232; RS485; ETH; USB].

Definition i2c_claims (b : board) (n : Z) : list pin :=
  if has_i2c_bus b n then rhs_hal_i2c_bus_handle_event b n true ≫= call_pins else [].
(** What a board's set-up of a peripheral claims; nothing where the code has none for it. *)
Definition claims (b : board) (x : peripheral) : list pin :=
  match x with
  | IO => if has_io b then rhs_hal_io_init b [] else []
  | QSPI => HAL_QSPI_MspInit b ≫= call_pins
  | CAN1p => (HAL_CAN_MspInit b CAN1_ 0).1 ≫= call_pins
  | CAN2p => (HAL_CAN_MspInit b CAN2_ 0).1 ≫= call_pins
  | I2C1p => i2c_claims b 1
  | I2C2p => i2c_claims b 2
  | I2C3p => i2c_claims b 3
  | SPEAKER => HAL_TIM_MspPostInit b ≫= call_pins
  | RS232 => match b with BMPLC_XL | BMPLC_L | BMPLC_M => rs232_pins b ≫= step_pins | _ => [] end
  | RS485 => match b with BMPLC_XL | BMPLC_L | BMPLC_M => rs485_pins b ≫= step_pins | _ => [] end
  | ETH => match b with BMPLC_XL | BMPLC_L | STM32F765xx | STM32F407xx => numbered_pins EthHal.pins | _ => [] end
  | USB => match b with BMPLC_M | STM32F407xx | STM32G0B1xx => numbered_pins [pin_number pin_dm; pin_number pin_dp] | _ => [] end
  end.

#[global] Instance peripheral_eq_dec : EqDecision peripheral.
Proof. solve_decision. Defined.

(** ** Shared pins *)

(** On the PLC L the Ethernet lines RXD0 and RXD1 are the inputs IN0 and IN1, and its clock is a
    line of the flash. *)
Definition shared_pins (b : board) (x y : peripheral) : list pin :=
  match b, x, y with
  | BMPLC_L, IO, ETH | BMPLC_L, ETH, IO => [(GPIOC, 4); (GPIOC, 5)]
  | BMPLC_L, QSPI, ETH | BMPLC_L, ETH, QSPI => [(GPIOA, 1)]
  | _, _, _ => []
  end.

Definition all_boards : list board := [BMPLC_XL; BMPLC_L; BMPLC_M; STM32F765xx; STM32F407xx; STM32G0B1xx].
Lemma elem_of_boards b : b ∈ all_boards.
Proof. destruct b; unfold all_boards; set_solver. Qed.
Lemma elem_of_peripherals x : x ∈ peripherals.
Proof. destruct x; unfold peripherals; set_solver. Qed.

(** The comparison of every two peripherals of every board, computed. *)
Definition sharing_checked : bool :=
  forallb (fun b => forallb (fun x => forallb (fun y => bool_decide (x = y) ||
    bool_decide (filter (fun p => p ∈ claims b y) (claims b x) ≡ₚ shared_pins b x y)) peripherals) peripherals) all_boards.
Lemma sharing_checked_true : sharing_checked = true.
Proof. reflexivity. Qed.

Lemma filter_shared b x y : x <> y -> filter (fun p => p ∈ claims b y) (claims b x) ≡ₚ shared_pins b x y.
Proof.
  intros Hne. pose proof sharing_checked_true as Hall. unfold sharing_checked in Hall.
  rewrite forallb_forall in Hall. specialize (Hall b). rewrite <- list_elem_of_In in Hall. specialize (Hall (elem_of_boards b)).
  rewrite forallb_forall in Hall. specialize (Hall x). rewrite <- list_elem_of_In in Hall. specialize (Hall (elem_of_peripherals x)).
  rewrite forallb_forall in Hall. specialize (Hall y). rewrite <- list_elem_of_In in Hall. specialize (Hall (elem_of_peripherals y)).
  rewrite bool_decide_eq_false_2 in Hall by done. cbn [orb] in Hall. by apply bool_decide_eq_true_1 in Hall.
Qed.

(** On every board the set-ups of two peripherals claim the same pin only on the PLC L: Ethernet
    takes two of the inputs and a line of the flash. Everywhere else all peripherals the code
    supports on a board, the I/O, flash, CAN, I2C, speaker, serial ports, Ethernet and USB, can
    be used together. *)
Theorem board_pins_exact b x y p : x <> y ->
  p ∈ claims b x /\ p ∈ claims b y <-> p ∈ shared_pins b x y.
Proof.
  intros Hne. rewrite <- (filter_shared b x y Hne), list_elem_of_filter. tauto.
Qed.

Lemma board_pins_exact_witness : IO <> ETH /\ (GPIOC, 4) ∈ claims BMPLC_L IO /\ (GPIOC, 4) ∈ claims BMPLC_L ETH.
Proof.
  assert (Hne : IO <> ETH) by discriminate. split; [exact Hne|].
  apply (board_pins_exact BMPLC_L IO ETH (GPIOC, 4) Hne). left.
Defined.
